(* ===== verification/_CoqProject ===== *)
-Q . S2P
Prelude.v
Config.v
Machine.v
Links.v
Types.v
IntrusiveList.v
Time.v
KernelLists.v
ReadyQueue.v
DelayQueue.v
HostPort.v
Ring.v
Diagnostics.v
TaskPool.v
Snapshot.v
Policy.v
PolicySpec.v
PolicyOrder.v
WaitObject.v
Scheduler.v
SwitchSpec.v
KernelSpec.v
StoreCheck.v
TaskApi.v
TaskApiSpec.v
Blocking.v
Semaphore.v
SemaphoreSpec.v
Inheritance.v
Mutex.v
MutexSpec.v
SystemSpec.v
SystemCheck.v
MutexCalls.v
MutexRelease.v
Dispatch.v
CallbackQueue.v
TimerQueue.v
Timer.v
TimerManager.v
TimerValidate.v
KernelTime.v
TickSpec.v
ServiceWake.v
TimerSteps.v
ServiceRest.v
TimerExpiry.v
TimeSlice.v
TickAdvance.v
TimerCalls.v
TimerService.v
Power.v
Init.v
InvariantCheck.v
Cortex.v
CortexPort.v
CortexSpec.v
CortexFrame.v
S32K148.v
CriticalPort.v
TargetSpec.v
CortexStart.v
CortexStartSpec.v
Scenario.v
RunCheck.v
TimerCheck.v
BoardCheck.v
