(* ===== verification/Prelude.v ===== *)
(** * A verification of the real-time scheduler kernel

    The program is a statically allocated, single-core real-time kernel in C
    (src/kernel), with a deterministic host port (src/ports/host) on which its
    tests run, a port to the ARM Cortex-M4F (src/ports/arm/cortex_m4f) and a target
    for the NXP S32K148 (src/targets/nxp/s32k148).  This development is a shallow
    embedding: every C function is a Rocq function of the same name, over one
    record [Types.kernel] that holds all static objects of the kernel, and for the
    board over [Cortex.cortex], which adds the processor and the device.

    ** How C is represented

    - A computation is [M S A] (Machine): it ends in a value and a store
      ([Done]), in the fatal handler with its reason ([Fatal]; RTS_ASSERT,
      RTS_FATAL_UNLESS and RTS_KERNEL_FATAL do not return), in undefined
      behaviour such as a NULL dereference ([Undefined]), or runs out of fuel
      ([NoFuel]).  [wp m Q s] says that [m] started in [s] ends in [Done] with
      [Q]: total correctness, no failed check, no undefined behaviour, enough fuel.
    - Structs are records with one setter per member; an assignment to a member
      is a [modify].  Pointers to tasks, list nodes, lists, timers, semaphores
      and mutexes are identifiers ([task_ptr], [node_ptr], ...) and NULL is
      [None]; all aliasing goes through the store.  uint32_t arithmetic is [Z]
      with [u32] (reduction modulo 2^32) where the code can wrap; size_t and
      uintptr_t have the width of the [Config].  Task stacks are bytes of [k_memory].
    - The options of rts_config.h are the class [Config], the #error and
      _Static_assert conditions its laws [ConfigOk]; every theorem holds for all
      valid configurations, all three policies included, unless it names one.
    - Loops over linked structures take fuel computed from the counts the code
      keeps (list length plus one, pool size, capacity bounds); the [wp] theorems show
      that the fuel suffices.  The drain of the callback ring, which callbacks can
      refill, takes its fuel as an argument.

    ** Files and what they show

    - Prelude: record update, 32-bit arithmetic, list lemmas ([insert_by], the
      stable insertion that all ordered queues implement), tactics.
    - Config, Machine, Types: configuration, the monad and its rules, the data.
    - Links: theory of doubly linked chains, shared by the intrusive lists, the
      waiter chains and the owned-mutex chains.
    - IntrusiveList (intrusive_list.c), KernelLists: the list operations refine
      operations on sequences; well-formedness of all lists of the kernel.
    - Time (time_internal.h): wrapping comparisons are the true order.
    - ReadyQueue (ready_queue.c): bitmap and queues refine one FIFO queue per
      priority; the bitmap search is correct.
    - DelayQueue (delay_queue.c), TimerQueue (timer_queue.c): sorted by wrapping
      tick; the head decides expiry; the earliest deadline.
    - HostPort (ports/host): critical sections nest and restore; the initial
      stack frame reads back.
    - Ring, Diagnostics (runtime_stats.c, trace.c, fatal.c): saturating
      counters, the trace ring, the first fatal error wins.  Snapshot: the
      diagnostics snapshot accounts for every tick; the tests' controls.
    - TaskPool (task_pool.c, task_object.c, task_handle.c, task_validation.c,
      stack_check.c): slots and transactions.
    - Policy (policy_*.c, scheduler_policy.c), PolicySpec: the contract
      [ReadyPolicy] between the scheduler and a policy, its fixed-priority and EDF
      instances, preemption, changes of priority.  PolicyOrder: the order in which
      released tasks are served, read off for the code of both policies.
    - WaitObject (wait_object.c): priority-ordered, FIFO within a priority.
    - Scheduler (scheduler_select.c, switch_plan.c, cpu_local.c), SwitchSpec: the
      switch protocol prepare / acquire / complete, and what completing does with
      any snapshot.
    - KernelSpec: the invariant [kernel_ok] of the running kernel under the
      bitmap policies: where each task is (ready queues, delay queue, waiters)
      agrees with its state, every queue is in order, the plan is coherent; and
      the rules for steps that move one task ([kstep]).  StoreCheck decides it
      on a concrete store.
    - TaskApi (task_create.c, task_yield.c, task_delay.c), TaskApiSpec: a delay
      blocks exactly its caller and preserves the invariant.
    - Semaphore (semaphore.c), Blocking, SemaphoreSpec: waiting with and without
      a timeout; take and give meet the specification of a counting semaphore
      and preserve the invariant.
    - Inheritance (priority_inheritance.c), Mutex (mutex.c).
    - MutexSpec: ownership chains, the deadlock check, and the inheritance
      invariant with its restoration along a wait-for chain.
    - SystemSpec: the invariant [system_ok], [kernel_ok] with the mutexes: owners
      exist, every task runs at exactly the priority its waiters require, no
      chain of waiting tasks has a cycle; SystemCheck decides it on a concrete
      store.  MutexCalls, MutexRelease: lock, unlock and handing over preserve
      it and do what they promise; a lock that would deadlock is detected.  Dispatch: so do the switch of tasks and the
      saving of a stack pointer.
    - CallbackQueue (timer_callback_queue.c): the ring refines a bounded FIFO.
    - Timer (timer.c, timer_service.c): pool, arming, expiry, service task.
      TimerManager: the invariant [manager_ok] of the timer pool, the active queue
      and the ring.  TimerValidate: rts_timer_manager_validate decides, on any store
      typed as in C, whether queue, ring and slots are consistent.
    - KernelTime (time.c), TickSpec: the wake-up loop of a tick wakes exactly the
      tasks that are due, timeouts of semaphores and mutexes included.
    - ServiceWake, ServiceRest: waking the service task and sending it back to wait
      preserve the invariant.  TimerSteps: the steps that work on one timer.
      TimerExpiry: the expiry loop terminates and processes exactly the timers
      that are due.  TimeSlice: what a tick does to the time slice.
    - TickAdvance: a whole tick.  [timed_ok] is the invariant between kernel
      calls, [system_ok] with the timers; the tick preserves it, keeps the switch
      plan right and does no more than it must.  Two hypotheses bound it, and
      Scenario shows that neither can be dropped: no armed timer has a period above
      2^31 minus the elapsed ticks, and the service is not in the short time
      between blocking itself and the switch ([settled]).
    - TimerCalls: starting, restarting and stopping a timer, on every branch
      ([timer_control_spec]) and, as a property, in the cases on which the documents
      agree.  TimerService: one turn of the service task, for callbacks that keep a
      stated contract, whatever they do to the ring; callbacks that control timers
      keep it.  Both preserve [timed_ok].
    - Power (power.c): tickless sleep.
    - Init (scheduler_init.c, scheduler_start.c, ports/host/port_start.c).
    - InvariantCheck (invariant_check.c): the kernel's validation of itself; its
      check of mutexes and inheritance is exact.
    - Cortex: the processor (registers, two stacks, PRIMASK, exception entry and
      return) and the device's registers.  CortexPort (port_stack.c, port_switch.c,
      PendSV of port_asm.S), CortexSpec: a context switch saves one context,
      resumes another and is invisible to both tasks; CortexFrame: the first frame
      of a task is the context of its entry point.
    - S32K148 (targets/nxp/s32k148/*.c): critical sections, SysTick, the low-power
      timer, cycle counter, LED, faults, C runtime.  CriticalPort: the contract of
      critical sections that the host port and the target both implement, and
      nested sections on both.  TargetSpec: the exact tick period, the life
      cycle of the tick, what a sleep reports.
    - CortexStart (port_start.c, SVC of port_asm.S), CortexStartSpec: the first
      task starts in the context its stack holds.
    - Scenario: whole-kernel runs from reset, and runs that contradict what the
      code or its documentation promises.  RunCheck: the invariants hold along
      such runs, so the specifications of the calls apply to them; TimerCheck does
      the same for timers and ticks.  BoardCheck:
      the board's configuration, and runs on it that meet the hypotheses of the
      port's and the target's theorems.

    ** Parameters

    Application code is a parameter: timer callbacks ([Timer.service]), the
    optional power hooks ([Power.PowerHooks]), the tick hook, and main.  So are
    the addresses the linker chooses ([Config.Layout], [CortexPort.CortexLayout]),
    what a device register holds after a write and shows to a read, and the
    masks of the vendor's headers ([Cortex.Device]); the values a C call
    leaves in the registers it need not preserve ([scratch]); and what happens
    while the processor sleeps ([__WFI]).

    ** Not modelled

    Interrupts are not interleaved inside a critical section, as the port masks
    them there; the points where a task can be preempted are the ends of the
    operations, where PendSV is taken.  The kernel functions that the board calls are those of the model
    on the host port: inside them, critical sections and the test for interrupt
    context are the host's, and CriticalPort relates the two.  Tasks have no
    floating-point context, as the port's build forbids.  Not modelled: the reset
    and fault entry of the target in assembly (startup) and its linker script,
    examples (demonstration firmware), tools and tests. *)

From Stdlib Require Export ZArith Lia Sorted.
From stdpp Require Export base tactics numbers fin_maps gmap list.

#[global] Open Scope Z_scope.

(** ** Record update

    The C code assigns one member of a struct at a time.  [r <| f := v |>] is
    the record [r] with the member read by the projection [f] replaced by [v];
    the instances are produced from the eta-expansion of the record. *)

Declare Scope rts_scope.
#[global] Open Scope rts_scope.

Class Eta (R : Type) := eta_expand : R → R.
Class Setter {R T : Type} (proj : R → T) := set_field : T → R → R.

Ltac solve_setter :=
  lazymatch goal with
  | |- @Setter ?R ?T ?p =>
      unfold Setter; intros v r;
      let e := eval hnf in (eta_expand r) in
      lazymatch eval pattern (p r) in e with
      | ?g _ => let y := eval cbv beta in (g v) in exact y
      end
  end.

Notation "r <| f := v |>" := (set_field (proj := f) v r)
  (at level 1, left associativity, f at next level, v at level 99,
   format "r  <| f  :=  v |>") : rts_scope.
Notation "r <| f ::= g |>" := (set_field (proj := f) (g (f%function r)) r)
  (at level 1, left associativity, f constr at next level, g at level 99,
   format "r  <| f  ::=  g |>") : rts_scope.

(** ** Machine integers

    [uint32_t] arithmetic wraps; [u32] writes the wrap-around out. *)

Definition UINT32_MAX : Z := 4294967295.
Definition u32 (x : Z) : Z := x mod 4294967296.
Definition u8 (x : Z) : Z := x mod 256.

Definition is_u32 (x : Z) : Prop := 0 ≤ x ≤ UINT32_MAX.

Lemma u32_range x : is_u32 (u32 x).
Proof. unfold is_u32, u32, UINT32_MAX. pose proof (Z.mod_pos_bound x 4294967296). lia. Qed.

Lemma u32_small x : is_u32 x → u32 x = x.
Proof. unfold is_u32, u32, UINT32_MAX. intros. apply Z.mod_small. lia. Qed.

Lemma u32_u32_add a b : u32 (u32 a + b) = u32 (a + b).
Proof. apply Zplus_mod_idemp_l. Qed.

Lemma u32_u32_sub_l a b : u32 (u32 a - b) = u32 (a - b).
Proof. apply Zminus_mod_idemp_l. Qed.

Lemma u32_u32_sub_r a b : u32 (a - u32 b) = u32 (a - b).
Proof. apply Zminus_mod_idemp_r. Qed.

(** Case split of a wrapped value: [u32 x] is [x] shifted by one multiple of
    the modulus when [x] is known to lie in a window around zero. *)
Lemma u32_cases x :
  -4294967296 ≤ x < 8589934592 →
  (0 ≤ x < 4294967296 ∧ u32 x = x) ∨
  (x < 0 ∧ u32 x = x + 4294967296) ∨
  (4294967296 ≤ x ∧ u32 x = x - 4294967296).
Proof.
  intros Hx. unfold u32.
  destruct (Z_lt_le_dec x 0); [right; left|destruct (Z_lt_le_dec x 4294967296);
    [left|right; right]]; split; try lia.
  - rewrite <- (Z.mod_small (x + 4294967296) 4294967296) by lia.
    rewrite <- Zplus_mod_idemp_r, Z.mod_same by lia. f_equal; lia.
  - apply Z.mod_small; lia.
  - rewrite <- (Z.mod_small (x - 4294967296) 4294967296) by lia.
    rewrite <- Zminus_mod_idemp_r, Z.mod_same by lia. f_equal; lia.
Qed.

(** ** Single bits *)

Lemma land_pow2 x n : 0 ≤ n → Z.land x (2 ^ n) = if Z.testbit x n then 2 ^ n else 0.
Proof.
  intros Hn. apply Z.bits_inj'. intros k Hk. rewrite Z.land_spec, Z.pow2_bits_eqb by lia.
  destruct (Z.eqb_spec n k) as [->|Hne].
  - destruct (Z.testbit x k) eqn:E; [by rewrite Z.pow2_bits_true by lia|by rewrite Z.bits_0].
  - rewrite andb_false_r. destruct (Z.testbit x n); [by rewrite Z.pow2_bits_false by lia|].
    by rewrite Z.bits_0.
Qed.

Lemma land_shiftl_1 x n : 0 ≤ n → (Z.land x (Z.shiftl 1 n) =? 0) = negb (Z.testbit x n).
Proof.
  intros Hn. rewrite Z.shiftl_1_l, land_pow2 by done.
  pose proof (Z.pow_pos_nonneg 2 n ltac:(lia) Hn).
  destruct (Z.testbit x n); [|done]. apply Z.eqb_neq; lia.
Qed.

Lemma testbit_31 x : is_u32 x → Z.testbit x 31 = (2147483648 <=? x).
Proof.
  unfold is_u32, UINT32_MAX. intros Hx. rewrite Z.testbit_odd, Z.shiftr_div_pow2 by lia.
  change (2 ^ 31) with 2147483648.
  destruct (Z.leb_spec 2147483648 x).
  - replace (x `div` 2147483648) with 1; [done|]. apply (Z.div_unique x _ 1 (x - 2147483648)); lia.
  - rewrite Z.div_small by lia. done.
Qed.

Lemma is_u32_bits x : is_u32 x ↔ 0 ≤ x ∧ ∀ b, 32 ≤ b → Z.testbit x b = false.
Proof.
  unfold is_u32, UINT32_MAX. split.
  - intros Hx. split; [lia|]. apply Z.bounded_iff_bits_nonneg; lia.
  - intros [H0 Hb]. apply (Z.bounded_iff_bits_nonneg 32) in Hb; lia.
Qed.

Lemma testbit_u32 x b : Z.testbit (u32 x) b = (b <? 32) && Z.testbit x b.
Proof. unfold u32. change 4294967296 with (2 ^ 32). by rewrite Z.testbit_mod_pow2. Qed.

Lemma u32_bit b : 0 ≤ b < 32 → u32 (Z.shiftl 1 b) = 2 ^ b.
Proof.
  intros Hb. rewrite Z.shiftl_1_l. apply u32_small. unfold is_u32, UINT32_MAX.
  pose proof (Z.pow_lt_mono_r 2 b 32 ltac:(lia) ltac:(lia) ltac:(lia)).
  pose proof (Z.pow_nonneg 2 b ltac:(lia)). lia.
Qed.

(** Testing, setting and clearing bit [b] of a 32-bit word. *)
Lemma word_test x b : 0 ≤ b < 32 → (Z.land x (u32 (Z.shiftl 1 b)) =? 0) = negb (Z.testbit x b).
Proof.
  intros Hb. rewrite u32_bit, <- Z.shiftl_1_l by done. apply land_shiftl_1. lia.
Qed.

Lemma word_set x b c :
  0 ≤ b < 32 → 0 ≤ c →
  Z.testbit (Z.lor x (u32 (Z.shiftl 1 b))) c = if c =? b then true else Z.testbit x c.
Proof.
  intros Hb Hc. rewrite Z.lor_spec, u32_bit, Z.pow2_bits_eqb, Z.eqb_sym by lia.
  destruct (c =? b); [apply orb_true_r|apply orb_false_r].
Qed.

Lemma word_clear x b c :
  0 ≤ b < 32 → 0 ≤ c < 32 →
  Z.testbit (Z.land x (u32 (Z.lnot (u32 (Z.shiftl 1 b))))) c = if c =? b then false else Z.testbit x c.
Proof.
  intros Hb Hc. rewrite Z.land_spec, testbit_u32, Z.lnot_spec, u32_bit, Z.pow2_bits_eqb by lia.
  rewrite (proj2 (Z.ltb_lt c 32)) by lia. rewrite (Z.eqb_sym b c).
  destruct (c =? b); [apply andb_false_r|apply andb_true_r].
Qed.

Lemma is_u32_lor x y : is_u32 x → is_u32 y → is_u32 (Z.lor x y).
Proof.
  rewrite !is_u32_bits. intros [? Hx] [? Hy]. split; [by apply Z.lor_nonneg|].
  intros b Hb. by rewrite Z.lor_spec, Hx, Hy.
Qed.

Lemma is_u32_land x y : is_u32 x → is_u32 (Z.land x y).
Proof.
  rewrite !is_u32_bits. intros [? Hx]. split; [apply Z.land_nonneg; by left|].
  intros b Hb. by rewrite Z.land_spec, Hx.
Qed.

(** ** Lists with a first and a last element *)

Section list_lemmas.
Context {A : Type}.
Implicit Types l : list A.

(** [first_or l d] is the head of [l], or [d] when [l] is empty;
    [last_or] likewise with the last element. *)
Definition first_or l (d : option A) : option A :=
  match l with [] => d | x :: _ => Some x end.
Definition last_or l (d : option A) : option A :=
  match last l with None => d | Some x => Some x end.

Lemma last_or_nil d : last_or [] d = d.
Proof. done. Qed.

Lemma last_or_cons x l d : last_or (x :: l) d = last_or l (Some x).
Proof. unfold last_or. destruct l; [done|]. by rewrite last_cons_cons, last_cons; destruct (last l). Qed.

Lemma last_or_snoc l x d : last_or (l ++ [x]) d = Some x.
Proof. unfold last_or. by rewrite last_snoc. Qed.

Lemma last_or_app l k d : last_or (l ++ k) d = last_or k (last_or l d).
Proof.
  revert d; induction l as [|x l IH]; intros d; [done|].
  rewrite <- app_comm_cons, !last_or_cons. apply IH.
Qed.

Lemma first_or_app l k d : first_or (l ++ k) d = first_or l (first_or k d).
Proof. by destruct l. Qed.

Lemma last_or_last l : last_or l None = last l.
Proof. unfold last_or. by destruct (last l). Qed.

Lemma first_or_head l : first_or l None = head l.
Proof. by destruct l. Qed.

Lemma last_or_None l x : last_or l (Some x) ≠ None.
Proof. unfold last_or. by destruct (last l). Qed.

Lemma last_or_elem l d x : last_or l d = Some x → x ∈ l ∨ (l = [] ∧ d = Some x).
Proof.
  destruct l as [|y l _] using rev_ind; [by right|].
  rewrite last_or_snoc. intros [= ->]. left. set_solver.
Qed.

(** The prefix of [l] of elements that satisfy [p], and the rest. *)
Fixpoint span (p : A → bool) l : list A * list A :=
  match l with
  | [] => ([], [])
  | x :: l' => if p x then let '(a, b) := span p l' in (x :: a, b) else ([], l)
  end.

Lemma span_app p l : (span p l).1 ++ (span p l).2 = l.
Proof.
  induction l as [|x l IH]; simpl; [done|]. destruct (p x); [|done].
  destruct (span p l); simpl in *. by rewrite IH.
Qed.

Lemma span_pass p l x : x ∈ (span p l).1 → p x = true.
Proof.
  induction l as [|y l IH]; simpl; [by rewrite elem_of_nil|].
  destruct (p y) eqn:E; [|by rewrite elem_of_nil].
  destruct (span p l); simpl in *. rewrite elem_of_cons. intros [->|]; auto.
Qed.

Lemma span_stop p l x r : (span p l).2 = x :: r → p x = false.
Proof.
  induction l as [|y l IH]; simpl; [done|].
  destruct (p y) eqn:E; [|by intros [= <- _]].
  destruct (span p l); simpl in *. auto.
Qed.
End list_lemmas.

(** ** Automation *)

Create HintDb rts.
#[export] Hint Resolve u32_range : rts.

(** ** Ordered insertion *)

(** Insertion after every element whose key is at most the new one's. *)
Definition insert_by {A} (key : A → Z) (x : A) (l : list A) : list A :=
  let '(a, b) := span (λ y, key y <=? key x) l in a ++ x :: b.

Section insert_by.
Context {A : Type} (key : A → Z).
Let le_key (x y : A) : Prop := key x ≤ key y.

Lemma insert_by_app x l1 l2 :
  (∀ y, y ∈ l1 → key y ≤ key x) → (∀ y, head l2 = Some y → key x < key y) →
  insert_by key x (l1 ++ l2) = l1 ++ x :: l2.
Proof.
  intros H1 H2. unfold insert_by. induction l1 as [|y l1 IH]; simpl.
  - destruct l2 as [|y l2]; [done|]. simpl. specialize (H2 y eq_refl).
    rewrite (proj2 (Z.leb_gt _ _)) by lia. done.
  - rewrite (proj2 (Z.leb_le _ _)) by (apply H1; set_solver).
    destruct (span _ _); simpl in *. rewrite IH by set_solver. done.
Qed.

Lemma insert_by_elem x l y : y ∈ insert_by key x l ↔ y = x ∨ y ∈ l.
Proof.
  unfold insert_by. pose proof (span_app (λ y, key y <=? key x) l) as E.
  destruct (span _ l); simpl in E. subst. set_solver.
Qed.

(** In a sorted list the two parts are exactly the keys up to, and above, the new one. *)
Lemma insert_by_split x l :
  StronglySorted le_key l →
  ∃ l1 l2, l = l1 ++ l2 ∧ insert_by key x l = l1 ++ x :: l2 ∧
    (∀ y, y ∈ l1 → key y ≤ key x) ∧ (∀ y, y ∈ l2 → key x < key y).
Proof.
  induction l as [|y l IH]; intros Hs; [by exists [], []; split_and!; [..|set_solver|set_solver]|].
  apply StronglySorted_inv in Hs as [Hs Hall]. destruct (Z.leb_spec (key y) (key x)) as [Hle|Hlt].
  - destruct (IH Hs) as (l1&l2&->&E&H1&H2). exists (y :: l1), l2. split_and!; [done| |set_solver|done].
    apply (insert_by_app x (y :: l1)); [set_solver|]. intros z Hz. apply H2. by apply head_Some_elem_of.
  - exists [], (y :: l). rewrite Forall_forall in Hall. unfold le_key in Hall.
    assert (∀ z, z ∈ y :: l → key x < key z) as H2.
    { intros z [->|Hz]%elem_of_cons; [done|]. specialize (Hall z Hz). lia. }
    split_and!; [done| |set_solver|done]. apply (insert_by_app x []); [set_solver|].
    intros z [= <-]. done.
Qed.

Lemma filter_all {B} (P : B → Prop) `{!∀ x, Decision (P x)} (l : list B) : (∀ x, x ∈ l → P x) → filter P l = l.
Proof.
  induction l as [|x l IH]; intros Hl; [done|]. rewrite filter_cons_True by (apply Hl; left). f_equal. apply IH.
  intros y Hy. apply Hl. by right.
Qed.

Lemma filter_none {B} (P : B → Prop) `{!∀ x, Decision (P x)} (l : list B) : (∀ x, x ∈ l → ¬ P x) → filter P l = [].
Proof.
  induction l as [|x l IH]; intros Hl; [done|]. rewrite filter_cons_False by (apply Hl; left). apply IH.
  intros y Hy. apply Hl. by right.
Qed.

Lemma sorted_remove_mid {B} (R : B → B → Prop) l1 x l2 :
  StronglySorted R (l1 ++ x :: l2) → StronglySorted R (l1 ++ l2).
Proof.
  induction l1 as [|y l1 IH]; cbn; intros Hs; apply StronglySorted_inv in Hs as [Hs Hall]; [done|].
  constructor; [auto|]. rewrite Forall_app, Forall_cons in Hall. rewrite Forall_app. naive_solver.
Qed.

Lemma insert_by_sorted x l : StronglySorted le_key l → StronglySorted le_key (insert_by key x l).
Proof.
  unfold insert_by. induction l as [|y l IH]; intros Hs; simpl; [by repeat constructor|].
  apply StronglySorted_inv in Hs as [Hs Hall]. destruct (Z.leb_spec (key y) (key x)).
  - destruct (span _ l) as [a b] eqn:E; simpl in *. constructor; [auto|].
    pose proof (span_app (λ y, key y <=? key x) l) as E'. rewrite E in E'. simpl in E'. subst l.
    rewrite Forall_app in Hall |- *. destruct Hall. split; [done|]. by constructor.
  - constructor; [by constructor|]. constructor; [unfold le_key; lia|].
    eapply Forall_impl; [exact Hall|]. unfold le_key. intros; simpl in *; lia.
Qed.
End insert_by.
