(* ===== verification/Config.v ===== *)
(** * Build configuration

    The options an application selects in its rts_config.h, with the checks
    include/rts/rts_types.h and kernel/config_internal.h make on them at compile time, and
    the configurations the repository ships under tests/. *)

From S2P Require Import Prelude.

Inductive rts_policy_kind_t :=
  | RTS_POLICY_KIND_FIXED_PRIORITY
  | RTS_POLICY_KIND_RMS
  | RTS_POLICY_KIND_EDF.

#[export] Instance rts_policy_kind_eq_dec : EqDecision rts_policy_kind_t.
Proof. solve_decision. Defined.

(** The preprocessor selects exactly one of the three policies, so the three
    selectors RTS_POLICY_FIXED_PRIORITY, RTS_POLICY_RMS and RTS_POLICY_EDF are
    one member here.  [SIZE_MAX] and [UINTPTR_MAX] belong to the compiler. *)
Class Config := {
  RTS_MAX_TASKS : Z;
  RTS_MAX_TIMERS : Z;
  RTS_TIMER_SERVICE_PRIORITY : Z;
  RTS_TIMER_SERVICE_STACK_SIZE_BYTES : Z;
  RTS_TIMER_CALLBACK_QUEUE_CAPACITY : Z;
  RTS_PRIORITY_COUNT : Z;
  RTS_TICK_RATE_HZ : Z;
  RTS_ENABLE_TICKLESS_IDLE : bool;
  RTS_TICKLESS_MAX_SLEEP_TICKS : Z;
  RTS_POLICY : rts_policy_kind_t;
  RTS_ENABLE_TIME_SLICING : bool;
  RTS_TIME_SLICE_TICKS : Z;
  RTS_ENABLE_ASSERTIONS : bool;
  RTS_ENABLE_DIAGNOSTICS : bool;
  RTS_ENABLE_TRACE : bool;
  RTS_ENABLE_STACK_GUARDS : bool;
  RTS_ENABLE_STACK_WATERMARK : bool;
  RTS_ENABLE_RUNTIME_STATS : bool;
  RTS_ENABLE_INVARIANT_CHECKS : bool;
  RTS_TRACE_CAPACITY : Z;
  RTS_STACK_GUARD_SIZE_BYTES : Z;
  RTS_IDLE_STACK_SIZE_BYTES : Z;
  RTS_MAX_MUTEXES_PER_TASK : Z;
  SIZE_MAX : Z;
  UINTPTR_MAX : Z
}.

(** Public constants of include/rts/rts_types.h. *)
Definition RTS_TASK_STACK_ALIGNMENT : Z := 16.
Definition RTS_DELAY_MAX : Z := 2147483647.
Definition RTS_WAIT_FOREVER : Z := UINT32_MAX.
Definition RTS_IDLE_PRIORITY : Z := 0.

Section derived.
Context `{Config}.

(** Conversions to size_t and uintptr_t wrap. *)
Definition size_t (x : Z) : Z := x mod (SIZE_MAX + 1).
Definition uintptr_t (x : Z) : Z := x mod (UINTPTR_MAX + 1).

Definition RTS_SCHEDULABLE_TASK_CAPACITY : Z := RTS_MAX_TASKS + 2.
Definition RTS_READY_BITMAP_WORD_BITS : Z := 32.
Definition RTS_READY_BITMAP_WORDS : Z :=
  (RTS_PRIORITY_COUNT + RTS_READY_BITMAP_WORD_BITS - 1) / RTS_READY_BITMAP_WORD_BITS.
End derived.

(** The #error and _Static_assert conditions.  The last two say that the
    sizes fit the machine the kernel is compiled for. *)
Class ConfigOk (C : Config) : Prop := {
  cfg_tasks : 1 ≤ RTS_MAX_TASKS;
  cfg_timers : 1 ≤ RTS_MAX_TIMERS;
  cfg_service_priority : 1 ≤ RTS_TIMER_SERVICE_PRIORITY < RTS_PRIORITY_COUNT;
  cfg_service_stack : 1 ≤ RTS_TIMER_SERVICE_STACK_SIZE_BYTES;
  cfg_service_stack_aligned :
    RTS_TIMER_SERVICE_STACK_SIZE_BYTES mod RTS_TASK_STACK_ALIGNMENT = 0;
  cfg_callback_queue : RTS_MAX_TIMERS ≤ RTS_TIMER_CALLBACK_QUEUE_CAPACITY;
  cfg_priorities : 2 ≤ RTS_PRIORITY_COUNT ≤ 256;
  cfg_tick_rate : 1 ≤ RTS_TICK_RATE_HZ;
  cfg_max_sleep : 1 ≤ RTS_TICKLESS_MAX_SLEEP_TICKS ≤ 2147483647;
  cfg_slice : RTS_ENABLE_TIME_SLICING = true → 1 ≤ RTS_TIME_SLICE_TICKS;
  cfg_slice_fits : is_u32 RTS_TIME_SLICE_TICKS;
  cfg_trace : RTS_ENABLE_TRACE = true → 1 ≤ RTS_TRACE_CAPACITY;
  cfg_guard : RTS_ENABLE_STACK_GUARDS = true → 4 ≤ RTS_STACK_GUARD_SIZE_BYTES;
  cfg_idle_stack : 1 ≤ RTS_IDLE_STACK_SIZE_BYTES;
  cfg_mutexes : 1 ≤ RTS_MAX_MUTEXES_PER_TASK;
  cfg_rms_ranks : RTS_POLICY = RTS_POLICY_KIND_RMS →
    RTS_MAX_TASKS + 1 < RTS_PRIORITY_COUNT ∧ RTS_MAX_TASKS < RTS_TIMER_SERVICE_PRIORITY;
  cfg_size_max : RTS_MAX_TASKS + 2 < SIZE_MAX ∧ RTS_MAX_TIMERS < SIZE_MAX;
  cfg_uintptr_max : 65536 ≤ UINTPTR_MAX
}.

(** tests/config/rts_config.h and its RMS and EDF variants, on a 64-bit host. *)
Definition tests_config (policy : rts_policy_kind_t) : Config := {|
  RTS_MAX_TASKS := 8;
  RTS_MAX_TIMERS := 8;
  RTS_TIMER_SERVICE_PRIORITY := 63;
  RTS_TIMER_SERVICE_STACK_SIZE_BYTES := 512;
  RTS_TIMER_CALLBACK_QUEUE_CAPACITY := 8;
  RTS_PRIORITY_COUNT := 65;
  RTS_TICK_RATE_HZ := 1000;
  RTS_ENABLE_TICKLESS_IDLE := true;
  RTS_TICKLESS_MAX_SLEEP_TICKS := 60000;
  RTS_POLICY := policy;
  RTS_ENABLE_TIME_SLICING := true;
  RTS_TIME_SLICE_TICKS := 10;
  RTS_ENABLE_ASSERTIONS := true;
  RTS_ENABLE_DIAGNOSTICS := true;
  RTS_ENABLE_TRACE := true;
  RTS_ENABLE_STACK_GUARDS := true;
  RTS_ENABLE_STACK_WATERMARK := true;
  RTS_ENABLE_RUNTIME_STATS := true;
  RTS_ENABLE_INVARIANT_CHECKS := true;
  RTS_TRACE_CAPACITY := 64;
  RTS_STACK_GUARD_SIZE_BYTES := 16;
  RTS_IDLE_STACK_SIZE_BYTES := 256;
  RTS_MAX_MUTEXES_PER_TASK := 8;
  SIZE_MAX := 18446744073709551615;
  UINTPTR_MAX := 18446744073709551615
|}.

#[export] Instance tests_config_ok policy : ConfigOk (tests_config policy).
Proof. split; cbn; unfold is_u32, UINT32_MAX; try lia; done. Qed.

(** The three builds of the tests, for the examples that evaluate the model. *)
Definition fp_config : Config := tests_config RTS_POLICY_KIND_FIXED_PRIORITY.
Definition rms_config : Config := tests_config RTS_POLICY_KIND_RMS.
Definition edf_config : Config := tests_config RTS_POLICY_KIND_EDF.
#[export] Instance fp_config_ok : ConfigOk fp_config := tests_config_ok _.
#[export] Instance rms_config_ok : ConfigOk rms_config := tests_config_ok _.
#[export] Instance edf_config_ok : ConfigOk edf_config := tests_config_ok _.

(** Addresses the linker chooses: the stacks of the two private tasks, their
    entry functions and the function a task returns into. *)
Class Layout := {
  addr_idle_stack : Z;
  addr_timer_service_stack : Z;
  addr_idle_entry : Z;
  addr_timer_service_entry : Z;
  addr_return_trap : Z
}.
