(* ===== verification/Machine.v ===== *)
(** * The execution model of the C code

    A C function is a computation [M S A]: it reads and writes a store of type
    [S] and either returns, or stops the system through the fatal handler of
    kernel/fatal.c, or reaches behaviour the C standard leaves undefined (a
    null dereference), or exhausts the fuel of a loop.  [wp m Q s] says that
    [m] started in [s] {e returns}, with a result and store that satisfy [Q];
    a theorem stated with [wp] therefore excludes the three other outcomes. *)

From S2P Require Import Prelude Config.

(** ** Outcomes (reasons of kernel/fatal_internal.h) *)

Inductive rts_fatal_reason :=
  | RTS_FATAL_NONE
  | RTS_FATAL_ASSERTION
  | RTS_FATAL_INVALID_STATE
  | RTS_FATAL_LIST_CORRUPTION
  | RTS_FATAL_STACK_CORRUPTION
  | RTS_FATAL_SWITCH_CORRUPTION
  | RTS_FATAL_WAIT_CORRUPTION
  | RTS_FATAL_CONTEXT_CORRUPTION
  | RTS_FATAL_TASK_RETURNED
  | RTS_FATAL_HARDFAULT
  | RTS_FATAL_TARGET_CONFIGURATION
  | RTS_FATAL_TIMER_CORRUPTION
  | RTS_FATAL_TIMER_CALLBACK_QUEUE_OVERFLOW.

#[export] Instance rts_fatal_reason_eq_dec : EqDecision rts_fatal_reason.
Proof. solve_decision. Defined.

Inductive outcome (S A : Type) :=
  | Done (a : A) (s : S)
  | Fatal (r : rts_fatal_reason) (s : S)
  | Undefined
  | NoFuel.
Arguments Done {S A}.
Arguments Fatal {S A}.
Arguments Undefined {S A}.
Arguments NoFuel {S A}.

Definition M (S A : Type) : Type := S → outcome S A.

Section monad.
Context {S : Type}.

Definition ret {A} (a : A) : M S A := λ s, Done a s.

Definition bind {A B} (m : M S A) (k : A → M S B) : M S B := λ s,
  match m s with
  | Done a s' => k a s'
  | Fatal r s' => Fatal r s'
  | Undefined => Undefined
  | NoFuel => NoFuel
  end.

Definition gets {A} (f : S → A) : M S A := λ s, Done (f s) s.
Definition modify (f : S → S) : M S unit := λ s, Done tt (f s).
Definition fatal {A} (r : rts_fatal_reason) : M S A := λ s, Fatal r s.
Definition undefined {A} : M S A := λ _, Undefined.
Definition no_fuel {A} : M S A := λ _, NoFuel.

(** Dereference of a pointer that the code does not test. *)
Definition deref {A} (p : option A) : M S A :=
  match p with Some a => ret a | None => undefined end.

Definition when (b : bool) (m : M S unit) : M S unit := if b then m else ret tt.

(** Short-circuit conjunction, disjunction and negation of C. *)
Definition andM (m1 m2 : M S bool) : M S bool :=
  bind m1 (λ b, if b then m2 else ret false).
Definition orM (m1 m2 : M S bool) : M S bool :=
  bind m1 (λ b, if b then ret true else m2).
Definition notM (m : M S bool) : M S bool := bind m (λ b, ret (negb b)).

(** [for (x in l) body]. *)
Fixpoint for_each {A} (l : list A) (body : A → M S unit) : M S unit :=
  match l with
  | [] => ret tt
  | x :: l' => bind (body x) (λ _, for_each l' body)
  end.

(** [for (x in l) if (!body(x)) return false; return true]. *)
Fixpoint all_of {A} (l : list A) (body : A → M S bool) : M S bool :=
  match l with
  | [] => ret true
  | x :: l' => bind (body x) (λ b, if b then all_of l' body else ret false)
  end.

(** RTS_ASSERT with assertions compiled in or out, and RTS_FATAL_UNLESS,
    of kernel/assert_internal.h. *)
Definition rts_assert (enabled : bool) (m : M S bool) : M S unit :=
  if enabled then bind m (λ b, if b then ret tt else fatal RTS_FATAL_ASSERTION)
  else ret tt.
Definition RTS_FATAL_UNLESS (m : M S bool) : M S unit :=
  bind m (λ b, if b then ret tt else fatal RTS_FATAL_ASSERTION).
End monad.

Arguments ret : simpl never.
Arguments bind : simpl never.

Notation "'let*' x := m 'in' k" := (bind m (λ x, k))
  (at level 10, x binder, m at level 200, k at level 200,
   format "'[v' 'let*'  x  :=  m  'in' '/' k ']'") : rts_scope.
Notation "m ;;; k" := (bind m (λ _, k))
  (at level 199, right associativity, format "'[v' m  ;;; '/' k ']'") : rts_scope.
Notation "m1 &&& m2" := (andM m1 m2) (at level 40, left associativity) : rts_scope.
Notation "m1 ||| m2" := (orM m1 m2) (at level 50, left associativity) : rts_scope.

(** Run a computation on one member of the store. *)
Definition zoom {S T A} (get : S → T) (put : T → S → S) (m : M T A) : M S A := λ s,
  match m (get s) with
  | Done a t => Done a (put t s)
  | Fatal r t => Fatal r (put t s)
  | Undefined => Undefined
  | NoFuel => NoFuel
  end.

(** ** Total-correctness postconditions *)

Section wp.
Context {S : Type}.

Definition wp {A} (m : M S A) (Q : A → S → Prop) (s : S) : Prop :=
  match m s with Done a s' => Q a s' | _ => False end.

Lemma wp_ret {A} (a : A) Q s : Q a s → wp (ret a) Q s.
Proof. done. Qed.

Lemma wp_bind {A B} (m : M S A) (k : A → M S B) Q s :
  wp m (λ a s', wp (k a) Q s') s → wp (bind m k) Q s.
Proof. unfold wp, bind. by destruct (m s). Qed.

Lemma wp_bind_inv {A B} (m : M S A) (k : A → M S B) Q s :
  wp (bind m k) Q s → wp m (λ a s', wp (k a) Q s') s.
Proof. unfold wp, bind. by destruct (m s). Qed.

Lemma wp_gets {A} (f : S → A) Q s : Q (f s) s → wp (gets f) Q s.
Proof. done. Qed.

Lemma wp_modify f Q s : Q tt (f s) → wp (modify f) Q s.
Proof. done. Qed.

Lemma wp_deref {A} (p : option A) a Q s : p = Some a → Q a s → wp (deref p) Q s.
Proof. by intros ->. Qed.

Lemma wp_mono {A} (m : M S A) (P Q : A → S → Prop) s :
  wp m P s → (∀ a s', P a s' → Q a s') → wp m Q s.
Proof. unfold wp. destruct (m s); auto. Qed.

Lemma wp_done {A} (m : M S A) Q s :
  wp m Q s ↔ ∃ a s', m s = Done a s' ∧ Q a s'.
Proof.
  unfold wp. split; [destruct (m s); [eauto|done..]|by intros (? & ? & -> & ?)].
Qed.

Lemma wp_run {A} (m : M S A) Q s a s' : m s = Done a s' → Q a s' → wp m Q s.
Proof. unfold wp. by intros ->. Qed.

Lemma wp_andM (m1 m2 : M S bool) Q s :
  wp m1 (λ b s', if b then wp m2 Q s' else Q false s') s → wp (andM m1 m2) Q s.
Proof. intros H. apply wp_bind. eapply wp_mono; [exact H|]. by intros [] ?. Qed.

Lemma wp_orM (m1 m2 : M S bool) Q s :
  wp m1 (λ b s', if b then Q true s' else wp m2 Q s') s → wp (orM m1 m2) Q s.
Proof. intros H. apply wp_bind. eapply wp_mono; [exact H|]. by intros [] ?. Qed.

Lemma wp_notM (m : M S bool) Q s :
  wp m (λ b s', Q (negb b) s') s → wp (notM m) Q s.
Proof. intros H. apply wp_bind. eapply wp_mono; [exact H|]. by intros b ?. Qed.

Lemma wp_assert enabled (m : M S bool) Q s :
  wp m (λ b s', b = true ∧ s' = s) s → Q tt s → wp (rts_assert enabled m) Q s.
Proof.
  intros H HQ. destruct enabled; [|done]. apply wp_bind.
  eapply wp_mono; [exact H|]. by intros b s' [-> ->].
Qed.

Lemma wp_fatal_unless (m : M S bool) Q s :
  wp m (λ b s', b = true ∧ s' = s) s → Q tt s → wp (RTS_FATAL_UNLESS m) Q s.
Proof.
  intros H HQ. apply wp_bind.
  eapply wp_mono; [exact H|]. by intros b s' [-> ->].
Qed.

(** A loop invariant indexed by the part of the range already visited. *)
Lemma wp_for_each {A} (l : list A) body (I : list A → S → Prop) s :
  I [] s →
  (∀ done x rest s', l = done ++ x :: rest → I done s' →
     wp (body x) (λ _ s'', I (done ++ [x]) s'') s') →
  wp (for_each l body) (λ _ s', I l s') s.
Proof.
  intros H0 Hstep.
  assert (∀ done rest s', l = done ++ rest → I done s' →
    wp (for_each rest body) (λ _ s'', I l s'') s') as H; [|by eapply (H [] l)].
  intros done rest. revert done. induction rest as [|x rest IH]; intros done s' -> HI; simpl.
  - apply wp_ret. by rewrite app_nil_r.
  - apply wp_bind. eapply wp_mono; [by eapply Hstep|].
    intros ? s'' HI'. eapply IH; [|exact HI']. by rewrite <- app_assoc.
Qed.

(** A conjunction of read-only tests. *)
Lemma all_of_run {A} (l : list A) (body : A → M S bool) (p : A → bool) s :
  (∀ x, x ∈ l → body x s = Done (p x) s) → all_of l body s = Done (forallb p l) s.
Proof.
  induction l as [|x l IH]; intros Hb; [done|]. simpl. unfold bind.
  rewrite Hb by set_solver. destruct (p x); [|done]. apply IH. set_solver.
Qed.

#[export] Instance wp_proper {A} (m : M S A) :
  Proper (pointwise_relation A (pointwise_relation S iff) ==> pointwise_relation S iff)
    (wp m).
Proof. intros P Q H s. unfold wp. destruct (m s); [apply H|done..]. Qed.
End wp.

(** Rules with more specific forms for a computation whose run is known. *)
Lemma bind_run {S A B} (m : M S A) (k : A → M S B) s a s' :
  m s = Done a s' → bind m k s = k a s'.
Proof. unfold bind. by intros ->. Qed.

Lemma bind_gets {S A B} (f : S → A) (k : A → M S B) s : bind (gets f) k s = k (f s) s.
Proof. done. Qed.
Lemma bind_ret {S A B} (a : A) (k : A → M S B) s : bind (ret a) k s = k a s.
Proof. done. Qed.
Lemma bind_modify {S B} (f : S → S) (k : unit → M S B) s : bind (modify f) k s = k tt (f s).
Proof. done. Qed.

Lemma bind_bind {S A B C} (m : M S A) (k : A → M S B) (k' : B → M S C) s :
  bind (bind m k) k' s = bind m (λ a, bind (k a) k') s.
Proof. unfold bind. by destruct (m s). Qed.

Lemma orM_false {S} (m1 m2 : M S bool) s : m1 s = Done false s → orM m1 m2 s = m2 s.
Proof. unfold orM, bind. by intros ->. Qed.
Lemma orM_true {S} (m1 m2 : M S bool) s : m1 s = Done true s → orM m1 m2 s = Done true s.
Proof. unfold orM, bind. by intros ->. Qed.
Lemma andM_true {S} (m1 m2 : M S bool) s : m1 s = Done true s → andM m1 m2 s = m2 s.
Proof. unfold andM, bind. by intros ->. Qed.
Lemma andM_false {S} (m1 m2 : M S bool) s : m1 s = Done false s → andM m1 m2 s = Done false s.
Proof. unfold andM, bind. by intros ->. Qed.
Lemma notM_run {S} (m : M S bool) b s : m s = Done b s → notM m s = Done (negb b) s.
Proof. unfold notM, bind. by intros ->. Qed.

(** ** Assertions and guards (kernel/assert_internal.h)

    Each module of the kernel has its copy of the macros RTS_..._REQUIRE_VOID,
    _FALSE and _NULL: when the condition fails, fail the assertion if
    assertions are compiled in and return the given value otherwise. *)

Section guards.
Context `{Config} {S : Type}.

Definition RTS_ASSERT (m : M S bool) : M S unit := rts_assert RTS_ENABLE_ASSERTIONS m.

Definition RTS_REQUIRE {A} (m : M S bool) (d : A) (k : M S A) : M S A :=
  let* b := m in
  if b then k else RTS_ASSERT (ret false) ;;; ret d.

(** The test of a pointer against null, binding the pointer. *)
Definition RTS_REQUIRE_PTR {A B} (p : option A) (d : B) (k : A → M S B) : M S B :=
  match p with
  | Some a => k a
  | None => RTS_ASSERT (ret false) ;;; ret d
  end.

Lemma wp_require {A} (m : M S bool) (d : A) k Q s :
  m s = Done true s → wp k Q s → wp (RTS_REQUIRE m d k) Q s.
Proof. intros Hm Hk. unfold RTS_REQUIRE, wp. by rewrite (bind_run _ _ _ _ _ Hm). Qed.

Lemma require_run {A} (m : M S bool) (d : A) k s :
  m s = Done true s → RTS_REQUIRE m d k s = k s.
Proof. intros Hm. unfold RTS_REQUIRE, bind. by rewrite Hm. Qed.

Lemma assert_run {A} (m : M S bool) (k : unit → M S A) s :
  m s = Done true s → bind (RTS_ASSERT m) k s = k tt s.
Proof.
  intros Hm. unfold RTS_ASSERT, rts_assert, bind. destruct RTS_ENABLE_ASSERTIONS; [|done].
  by rewrite Hm.
Qed.

Lemma fatal_unless_run {A} (m : M S bool) (k : unit → M S A) s :
  m s = Done true s → bind (RTS_FATAL_UNLESS m) k s = k tt s.
Proof. intros Hm. unfold RTS_FATAL_UNLESS, bind. by rewrite Hm. Qed.

Lemma wp_RTS_ASSERT (m : M S bool) Q s :
  m s = Done true s → Q tt s → wp (RTS_ASSERT m) Q s.
Proof. intros Hm HQ. apply wp_assert; [|done]. by eapply wp_run. Qed.

Lemma wp_RTS_FATAL_UNLESS (m : M S bool) Q s :
  m s = Done true s → Q tt s → wp (RTS_FATAL_UNLESS m) Q s.
Proof. intros Hm HQ. apply wp_fatal_unless; [|done]. by eapply wp_run. Qed.
End guards.

Lemma wp_zoom {S T A} (get : S → T) (put : T → S → S) (m : M T A) Q s :
  wp m (λ a t, Q a (put t s)) (get s) → wp (zoom get put m) Q s.
Proof. unfold wp, zoom. by destruct (m (get s)). Qed.

(** ** Stepping tactics *)

Ltac wp_step :=
  first
  [ apply wp_bind
  | apply wp_ret
  | apply wp_gets
  | apply wp_modify
  | apply wp_andM
  | apply wp_orM
  | apply wp_notM
  | eapply wp_deref; [first [reflexivity | eassumption]|] ].

Ltac wp_steps := repeat (wp_step; cbv beta); cbn [negb].

(** Discharge a guard whose condition reads the store. *)
Ltac check := apply wp_require; [unfold gets, ret; f_equal; try (by apply bool_decide_true)|].

(** The same in an equation between a run and its outcome. *)
Ltac check_run :=
  rewrite ?bind_gets, ?bind_ret;
  rewrite require_run; [|unfold gets, ret; f_equal; try (by apply bool_decide_true)].

(** The store a run ends in, for examples. *)
Definition final_store {S A} (m : M S A) (s : S) : S :=
  match m s with Done _ s' => s' | _ => s end.

Lemma wp_final {S A} (m : M S A) (Q : A → S → Prop) s :
  wp m Q s → ∃ a, Q a (final_store m s).
Proof. unfold wp, final_store. destruct (m s); [eauto|done..]. Qed.
