(* ===== verification/Links.v ===== *)
(** * Doubly linked structures

    The kernel links objects in three places: the intrusive lists of
    kernel/intrusive_list.c, the waiter chains of kernel/wait_object.c and the
    owned-mutex chains of kernel/mutex.c.  This file has the theory they share:
    [dll f o xs] says that under the link fields [f] the nodes [xs], in this
    order, are the chain of owner [o]; [splice_in] and [splice_out] are the link
    fields after one node is linked or unlinked, and each keeps every chain. *)

From S2P Require Import Prelude.

Record links (N O : Type) := mk_links {
  l_prev : option N;
  l_next : option N;
  l_owner : option O
}.
Arguments mk_links {N O}.
Arguments l_prev {N O}.
Arguments l_next {N O}.
Arguments l_owner {N O}.

Section links.
Context {N O : Type} `{EqDecision N} `{EqDecision O}.
Implicit Types (f : N → links N O) (n m : N) (o : O) (xs : list N).

Definition unlinked : links N O := mk_links None None None.

(** The segment [xs], preceded by [p] and followed by [nx]. *)
Fixpoint lseg f (p : option N) xs (nx : option N) : Prop :=
  match xs with
  | [] => True
  | x :: xs' =>
      l_prev (f x) = p ∧ l_next (f x) = first_or xs' nx ∧ lseg f (Some x) xs' nx
  end.

Definition dll f o xs : Prop :=
  lseg f None xs None ∧ NoDup xs ∧ ∀ n, n ∈ xs ↔ l_owner (f n) = Some o.

(** Follow the next fields from [start]. *)
Fixpoint walk f (start : option N) (fuel : nat) : list N :=
  match fuel, start with
  | S fuel', Some n => n :: walk f (l_next (f n)) fuel'
  | _, _ => []
  end.

(** Link fields after [n] is linked between [p] and [x], and after [n],
    whose neighbours are [p] and [x], is unlinked. *)
Definition splice_in f o n (p x : option N) : N → links N O := λ m,
  if decide (m = n) then mk_links p x (Some o)
  else mk_links (if decide (x = Some m) then Some n else l_prev (f m))
                (if decide (p = Some m) then Some n else l_next (f m))
                (l_owner (f m)).

Definition splice_out f n (p x : option N) : N → links N O := λ m,
  if decide (m = n) then unlinked
  else mk_links (if decide (x = Some m) then p else l_prev (f m))
                (if decide (p = Some m) then x else l_next (f m))
                (l_owner (f m)).

Lemma lseg_app f p xs ys nx :
  lseg f p (xs ++ ys) nx ↔
  lseg f p xs (first_or ys nx) ∧ lseg f (last_or xs p) ys nx.
Proof.
  revert p. induction xs as [|x xs IH]; intros p; [simpl; tauto|].
  rewrite <- app_comm_cons, last_or_cons. simpl. rewrite IH, first_or_app. tauto.
Qed.

Lemma lseg_frame f f' p xs nx :
  (∀ m, m ∈ xs → f' m = f m) → lseg f p xs nx → lseg f' p xs nx.
Proof.
  revert p. induction xs as [|x xs IH]; intros p Hf; simpl; [done|].
  rewrite Hf by set_solver. intros (?&?&?). split_and!; auto. apply IH; set_solver.
Qed.

(** Redirecting the link that leaves a segment at either end. *)
Lemma lseg_relink_next f f' p xs nx nx' :
  NoDup xs →
  (∀ m, m ∈ xs → l_prev (f' m) = l_prev (f m)) →
  (∀ m, m ∈ xs → l_next (f' m) = if decide (last xs = Some m) then nx' else l_next (f m)) →
  lseg f p xs nx → lseg f' p xs nx'.
Proof.
  revert p. induction xs as [|x xs IH]; intros p Hnd Hp Hn; simpl; [done|].
  apply NoDup_cons in Hnd as [Hx Hnd]. intros (H1&H2&H3).
  rewrite Hp, Hn by set_solver. split_and!; [done| |].
  - destruct xs as [|y xs]; [by rewrite decide_True|].
    rewrite decide_False; [done|]. rewrite last_cons_cons. intros Hl.
    apply last_Some_elem_of in Hl. done.
  - apply IH; [done|set_solver| |done]. intros m Hm. rewrite Hn by set_solver.
    destruct xs as [|y xs]; [set_solver|]. by rewrite last_cons_cons.
Qed.

Lemma lseg_relink_prev f f' p p' xs nx :
  NoDup xs →
  (∀ m, m ∈ xs → l_next (f' m) = l_next (f m)) →
  (∀ m, m ∈ xs → l_prev (f' m) = if decide (head xs = Some m) then p' else l_prev (f m)) →
  lseg f p xs nx → lseg f' p' xs nx.
Proof.
  destruct xs as [|x xs]; simpl; [done|]. intros Hnd Hn Hp (H1&H2&H3).
  apply NoDup_cons in Hnd as [Hx Hnd].
  rewrite Hp, Hn, decide_True by set_solver. split_and!; [done..|].
  clear H1 H2. revert x Hx Hn Hp H3.
  assert (∀ q, (∀ m, m ∈ xs → l_next (f' m) = l_next (f m)) →
    (∀ m, m ∈ xs → l_prev (f' m) = l_prev (f m)) → lseg f q xs nx → lseg f' q xs nx) as Hgen.
  { clear. induction xs as [|y xs IH]; intros q H1 H2; simpl; [done|].
    intros (?&?&?). rewrite H1, H2 by set_solver. split_and!; [done..|].
    apply IH; [set_solver..|done]. }
  intros x Hx Hn Hp. apply Hgen; [set_solver|]. intros m Hm. rewrite Hp by set_solver.
  rewrite decide_False; [done|]. congruence.
Qed.

Lemma lseg_walk f p xs : lseg f p xs None → walk f (first_or xs None) (length xs) = xs.
Proof.
  revert p. induction xs as [|x xs IH]; intros p; simpl; [done|].
  intros (_&H2&H3). rewrite H2. f_equal. by eapply IH.
Qed.

Lemma dll_owner f o xs n : dll f o xs → n ∈ xs ↔ l_owner (f n) = Some o.
Proof. intros (_&_&H). apply H. Qed.

Lemma dll_nodup f o xs : dll f o xs → NoDup xs.
Proof. by intros (_&H&_). Qed.

(** A node of a chain with its neighbours. *)
Lemma dll_node f o l1 n l2 :
  dll f o (l1 ++ n :: l2) →
  f n = mk_links (last_or l1 None) (first_or l2 None) (Some o).
Proof.
  intros (Hs&_&Ho). apply lseg_app in Hs as [_ Hs]. simpl in Hs.
  destruct Hs as (Hp&Hn&_). assert (l_owner (f n) = Some o) by (apply Ho; set_solver).
  destruct (f n); simpl in *; congruence.
Qed.

Lemma dll_empty f o : (∀ n, l_owner (f n) ≠ Some o) → dll f o [].
Proof.
  intros H. split_and!; [done|constructor|]. intros n. specialize (H n). set_solver.
Qed.

Lemma nodup_mid (l1 l2 : list N) n m :
  NoDup (l1 ++ n :: l2) → (m ∈ l1 → m ∈ l2 → False) ∧ n ∉ l1 ∧ n ∉ l2.
Proof. rewrite NoDup_app, NoDup_cons. set_solver. Qed.

Lemma last_or_elem_of (l : list N) n : last_or l None = Some n → n ∈ l.
Proof. intros H. apply last_or_elem in H. naive_solver. Qed.

Lemma first_or_elem_of (l : list N) n : first_or l None = Some n → n ∈ l.
Proof. destruct l; [done|]. intros [= ->]. set_solver. Qed.

Lemma dll_splice_in f f' o n l1 l2 :
  dll f o (l1 ++ l2) → l_owner (f n) = None →
  (∀ m, f' m = splice_in f o n (last_or l1 None) (first_or l2 None) m) →
  dll f' o (l1 ++ n :: l2).
Proof.
  intros (Hs&Hnd&Ho) Hn Hf'. apply NoDup_app in Hnd as (Hnd1&Hdis&Hnd2).
  apply lseg_app in Hs as [Hs1 Hs2].
  assert (n ∉ l1 ++ l2) as Hnin by (rewrite Ho; congruence).
  assert (∀ m, m ≠ n → f' m = mk_links
    (if decide (first_or l2 None = Some m) then Some n else l_prev (f m))
    (if decide (last_or l1 None = Some m) then Some n else l_next (f m)) (l_owner (f m))) as Hm.
  { intros m ?. rewrite Hf'. unfold splice_in. by rewrite decide_False. }
  split_and!.
  - apply lseg_app. split; [|simpl; split_and!].
    + eapply lseg_relink_next; [done| | |exact Hs1]; intros m ?; rewrite Hm by set_solver; simpl.
      * rewrite decide_False; [done|]. intros ?%first_or_elem_of. set_solver.
      * by rewrite last_or_last.
    + rewrite Hf'. unfold splice_in. by rewrite decide_True.
    + rewrite Hf'. unfold splice_in. by rewrite decide_True.
    + eapply lseg_relink_prev; [done| | |exact Hs2]; intros m ?; rewrite Hm by set_solver; simpl.
      * rewrite decide_False; [done|]. intros ?%last_or_elem_of. set_solver.
      * by rewrite first_or_head.
  - apply NoDup_app. rewrite NoDup_cons. set_solver.
  - intros m. destruct (decide (m = n)) as [->|Hne].
    + rewrite Hf'. unfold splice_in. rewrite decide_True by done. set_solver.
    + rewrite Hm by done. simpl. rewrite <- Ho. set_solver.
Qed.

Lemma dll_splice_out f f' o n l1 l2 :
  dll f o (l1 ++ n :: l2) →
  (∀ m, f' m = splice_out f n (last_or l1 None) (first_or l2 None) m) →
  dll f' o (l1 ++ l2).
Proof.
  intros (Hs&Hnd&Ho) Hf'.
  pose proof (λ m, nodup_mid l1 l2 n m Hnd) as Hmid.
  apply NoDup_app in Hnd as (Hnd1&Hdis&[Hnl2 Hnd2]%NoDup_cons).
  apply lseg_app in Hs as [Hs1 (Hp&Hx&Hs2)].
  assert (∀ m, m ≠ n → f' m = mk_links
    (if decide (first_or l2 None = Some m) then last_or l1 None else l_prev (f m))
    (if decide (last_or l1 None = Some m) then first_or l2 None else l_next (f m))
    (l_owner (f m))) as Hm.
  { intros m ?. rewrite Hf'. unfold splice_out. by rewrite decide_False. }
  split_and!.
  - apply lseg_app. split.
    + eapply lseg_relink_next; [done| | |exact Hs1]; intros m ?; rewrite Hm by set_solver; simpl.
      * rewrite decide_False; [done|]. intros ?%first_or_elem_of. set_solver.
      * by rewrite last_or_last.
    + eapply lseg_relink_prev; [done| | |exact Hs2]; intros m ?; rewrite Hm by set_solver; simpl.
      * rewrite decide_False; [done|]. intros ?%last_or_elem_of. set_solver.
      * by rewrite first_or_head.
  - apply NoDup_app. set_solver.
  - intros m. destruct (decide (m = n)) as [->|Hne].
    + rewrite Hf'. unfold splice_out. rewrite decide_True by done. simpl.
      destruct (Hmid n) as (_&?&?). set_solver.
    + rewrite Hm by done. simpl. rewrite <- Ho. set_solver.
Qed.

(** Chains of other owners are not affected. *)
Lemma dll_splice_in_other f f' o o' n l1 l2 ys :
  o' ≠ o → dll f o (l1 ++ l2) → l_owner (f n) = None → dll f o' ys →
  (∀ m, f' m = splice_in f o n (last_or l1 None) (first_or l2 None) m) →
  dll f' o' ys.
Proof.
  intros Hne (_&_&Ho) Hn (Hs&Hnd&Ho') Hf'.
  assert (∀ m, l_owner (f m) = Some o' → f' m = f m) as Hsame.
  { intros m Hm. rewrite Hf'. unfold splice_in. rewrite decide_False by congruence.
    rewrite !decide_False; [by destruct (f m)|intros ?%last_or_elem_of|intros ?%first_or_elem_of];
      assert (l_owner (f m) = Some o) by (apply Ho; set_solver); congruence. }
  split_and!; [|done|].
  - eapply lseg_frame; [|exact Hs]. intros m Hm. apply Hsame. by apply Ho'.
  - intros m. rewrite Ho', Hf'. unfold splice_in.
    case_decide; [subst; simpl; split; congruence|done].
Qed.

Lemma dll_splice_out_other f f' o o' n l1 l2 ys :
  o' ≠ o → dll f o (l1 ++ n :: l2) → dll f o' ys →
  (∀ m, f' m = splice_out f n (last_or l1 None) (first_or l2 None) m) →
  dll f' o' ys.
Proof.
  intros Hne (_&_&Ho) (Hs&Hnd&Ho') Hf'.
  assert (l_owner (f n) = Some o) as Hn by (apply Ho; set_solver).
  assert (∀ m, l_owner (f m) = Some o' → f' m = f m) as Hsame.
  { intros m Hm. rewrite Hf'. unfold splice_out. rewrite decide_False by congruence.
    rewrite !decide_False; [by destruct (f m)|intros ?%last_or_elem_of|intros ?%first_or_elem_of];
      assert (l_owner (f m) = Some o) by (apply Ho; set_solver); congruence. }
  split_and!; [|done|].
  - eapply lseg_frame; [|exact Hs]. intros m Hm. apply Hsame. by apply Ho'.
  - intros m. rewrite Ho', Hf'. unfold splice_out.
    case_decide; [subst; simpl; split; congruence|done].
Qed.

(** Unlinked nodes stay unlinked. *)
Definition nodes_clean f : Prop := ∀ n, l_owner (f n) = None → f n = unlinked.

Lemma clean_splice_in f f' o n l1 l2 :
  dll f o (l1 ++ l2) → nodes_clean f →
  (∀ m, f' m = splice_in f o n (last_or l1 None) (first_or l2 None) m) → nodes_clean f'.
Proof.
  intros (_&_&Ho) Hc Hf' m. rewrite Hf'. unfold splice_in. case_decide; [done|]. simpl.
  intros Hm. rewrite !decide_False;
    [rewrite Hc by done; done|intros ?%last_or_elem_of|intros ?%first_or_elem_of];
    assert (l_owner (f m) = Some o) by (apply Ho; set_solver); congruence.
Qed.

Lemma clean_splice_out f f' o n l1 l2 :
  dll f o (l1 ++ n :: l2) → nodes_clean f →
  (∀ m, f' m = splice_out f n (last_or l1 None) (first_or l2 None) m) → nodes_clean f'.
Proof.
  intros (_&_&Ho) Hc Hf' m. rewrite Hf'. unfold splice_out. case_decide; [done|]. simpl.
  intros Hm. rewrite !decide_False;
    [rewrite Hc by done; done|intros ?%last_or_elem_of|intros ?%first_or_elem_of];
    assert (l_owner (f m) = Some o) by (apply Ho; set_solver); congruence.
Qed.
End links.
