(* ===== verification/Types.v ===== *)
(** * Data of the kernel

    The structs of include/rts/*.h and kernel/*_internal.h, and the store: every
    object with static lifetime.  A pointer to a kernel object is the name of
    that object ([task_ptr], [node_ptr], ...), a pointer that may be null is an
    [option]; an object that has never been written holds zeroes, as C promises
    for static storage, which is what [!!!] returns for a missing key.

    The link members of a struct ([ready_node], [delay_node] and [wait_node] of
    a task, [queue_node] of a timer) and the waiter chain of a semaphore or
    mutex are addressed separately from the rest of their struct, by
    [NReady t], [NDelay t], [NTimer i], the task itself and [sync_ptr]. *)

From S2P Require Import Prelude Machine Config.

(** ** Pointers *)

Inductive task_ptr :=
  | TApp (slot : Z)    (* &kernel->application_task_pool.slots[slot] *)
  | TIdle              (* &kernel->idle_task_storage *)
  | TTimerService.     (* &kernel->timer_service_task_storage *)

Inductive node_ptr :=
  | NReady (t : task_ptr)   (* &t->ready_node *)
  | NDelay (t : task_ptr)   (* &t->delay_node *)
  | NTimer (i : Z).         (* &timer_manager.slots[i].queue_node *)

Inductive list_ptr :=
  | LReady (p : Z)   (* &kernel->ready_set.priority_queue[p] *)
  | LEdf             (* &kernel->edf_ready *)
  | LDelay           (* &kernel->delay_queue.ordered_tasks *)
  | LTimer.          (* &timer_manager.active_queue.ordered_timers *)

(** The void pointer a list node carries. *)
Inductive object_ptr := OTask (t : task_ptr) | OTimer (i : Z).

(** The void pointer in rts_wait_t, and the address of its waiter chain. *)
Inductive sync_ptr := SSemaphore (p : Z) | SMutex (p : Z).

#[export] Instance task_ptr_eq_dec : EqDecision task_ptr.
Proof. solve_decision. Defined.
#[export] Instance node_ptr_eq_dec : EqDecision node_ptr.
Proof. solve_decision. Defined.
#[export] Instance list_ptr_eq_dec : EqDecision list_ptr.
Proof. solve_decision. Defined.
#[export] Instance object_ptr_eq_dec : EqDecision object_ptr.
Proof. solve_decision. Defined.
#[export] Instance sync_ptr_eq_dec : EqDecision sync_ptr.
Proof. solve_decision. Defined.

#[export] Instance task_ptr_countable : Countable task_ptr.
Proof.
  refine (inj_countable'
    (λ t, match t with TApp i => inl i | TIdle => inr true | TTimerService => inr false end)
    (λ x, match x with inl i => TApp i | inr true => TIdle | inr false => TTimerService end) _).
  by intros [].
Defined.
#[export] Instance node_ptr_countable : Countable node_ptr.
Proof.
  refine (inj_countable'
    (λ n, match n with NReady t => inl t | NDelay t => inr (inl t) | NTimer i => inr (inr i) end)
    (λ x, match x with inl t => NReady t | inr (inl t) => NDelay t | inr (inr i) => NTimer i end) _).
  by intros [].
Defined.
#[export] Instance list_ptr_countable : Countable list_ptr.
Proof.
  refine (inj_countable'
    (λ l, match l with LReady p => inl p | LEdf => inr None
                     | LDelay => inr (Some true) | LTimer => inr (Some false) end)
    (λ x, match x with inl p => LReady p | inr None => LEdf
                     | inr (Some true) => LDelay | inr (Some false) => LTimer end) _).
  by intros [].
Defined.
#[export] Instance sync_ptr_countable : Countable sync_ptr.
Proof.
  refine (inj_countable'
    (λ x, match x with SSemaphore p => inl p | SMutex p => inr p end)
    (λ x, match x with inl p => SSemaphore p | inr p => SMutex p end) _).
  by intros [].
Defined.

(** ** Enumerations *)

Inductive rts_status_t :=
  | RTS_STATUS_OK
  | RTS_STATUS_INVALID_ARGUMENT
  | RTS_STATUS_INVALID_CONTEXT
  | RTS_STATUS_INVALID_STATE
  | RTS_STATUS_INVALID_TASK_CONFIG
  | RTS_STATUS_INVALID_PRIORITY
  | RTS_STATUS_INVALID_STACK
  | RTS_STATUS_CAPACITY_EXHAUSTED
  | RTS_STATUS_ALREADY_INITIALIZED
  | RTS_STATUS_ALREADY_STARTED
  | RTS_STATUS_TIMEOUT
  | RTS_STATUS_FULL
  | RTS_STATUS_PORT_ERROR.

Inductive rts_kernel_lifecycle_t :=
  | RTS_KERNEL_RESET | RTS_KERNEL_INITIALIZED | RTS_KERNEL_RUNNING.

Inductive rts_task_slot_state_t :=
  | RTS_TASK_SLOT_FREE | RTS_TASK_SLOT_RESERVED | RTS_TASK_SLOT_ALLOCATED.

Inductive rts_task_state_t :=
  | RTS_TASK_STATE_DORMANT
  | RTS_TASK_STATE_READY
  | RTS_TASK_STATE_RUNNING
  | RTS_TASK_STATE_BLOCKED.

Inductive rts_wait_reason_t :=
  | RTS_WAIT_NONE
  | RTS_WAIT_DELAY
  | RTS_WAIT_SEMAPHORE
  | RTS_WAIT_MUTEX
  | RTS_WAIT_TIMER_SERVICE.

Inductive rts_wait_result_t :=
  | RTS_WAIT_RESULT_NONE
  | RTS_WAIT_RESULT_ACQUIRED
  | RTS_WAIT_RESULT_TIMEOUT
  | RTS_WAIT_RESULT_CANCELLED.

(** The values of these enumerations, as the trace records them. *)
Definition wait_reason_value (r : rts_wait_reason_t) : Z :=
  match r with
  | RTS_WAIT_NONE => 0 | RTS_WAIT_DELAY => 1 | RTS_WAIT_SEMAPHORE => 2 | RTS_WAIT_MUTEX => 3
  | RTS_WAIT_TIMER_SERVICE => 4
  end.
Definition wait_result_value (r : rts_wait_result_t) : Z :=
  match r with
  | RTS_WAIT_RESULT_NONE => 0 | RTS_WAIT_RESULT_ACQUIRED => 1 | RTS_WAIT_RESULT_TIMEOUT => 2
  | RTS_WAIT_RESULT_CANCELLED => 3
  end.

(** rts_timer_mode_t and rts_wake_source_t are bytes the code range-checks. *)
Definition RTS_TIMER_ONE_SHOT : Z := 0.
Definition RTS_TIMER_PERIODIC : Z := 1.
Definition RTS_PORT_WAKE_TIMER : Z := 0.
Definition RTS_PORT_WAKE_EXTERNAL : Z := 1.
Definition RTS_PORT_WAKE_GPIO : Z := 2.
Definition RTS_PORT_WAKE_OTHER : Z := 3.

Inductive rts_timer_slot_state_t :=
  | RTS_TIMER_SLOT_FREE | RTS_TIMER_SLOT_RESERVED | RTS_TIMER_SLOT_ALLOCATED.

Inductive rts_timer_lifecycle_state_t :=
  | RTS_TIMER_UNINITIALIZED | RTS_TIMER_STOPPED | RTS_TIMER_ACTIVE.

Inductive rts_timer_callback_state_t :=
  | RTS_TIMER_CALLBACK_IDLE | RTS_TIMER_CALLBACK_PENDING | RTS_TIMER_CALLBACK_RUNNING.

#[export] Instance rts_status_t_eq_dec : EqDecision rts_status_t.
Proof. solve_decision. Defined.
#[export] Instance rts_kernel_lifecycle_t_eq_dec : EqDecision rts_kernel_lifecycle_t.
Proof. solve_decision. Defined.
#[export] Instance rts_task_slot_state_t_eq_dec : EqDecision rts_task_slot_state_t.
Proof. solve_decision. Defined.
#[export] Instance rts_task_state_t_eq_dec : EqDecision rts_task_state_t.
Proof. solve_decision. Defined.
#[export] Instance rts_wait_reason_t_eq_dec : EqDecision rts_wait_reason_t.
Proof. solve_decision. Defined.
#[export] Instance rts_wait_result_t_eq_dec : EqDecision rts_wait_result_t.
Proof. solve_decision. Defined.
#[export] Instance rts_timer_slot_state_t_eq_dec : EqDecision rts_timer_slot_state_t.
Proof. solve_decision. Defined.
#[export] Instance rts_timer_lifecycle_state_t_eq_dec : EqDecision rts_timer_lifecycle_state_t.
Proof. solve_decision. Defined.
#[export] Instance rts_timer_callback_state_t_eq_dec : EqDecision rts_timer_callback_state_t.
Proof. solve_decision. Defined.

(** The members of rts_runtime_counters_t (kernel/diagnostics_internal.h). *)
Inductive rts_counter :=
  | scheduler_ticks
  | context_switches
  | switch_requests
  | scheduler_starts
  | task_creations
  | yields
  | delay_blocks
  | delay_wakeups
  | semaphore_blocks
  | semaphore_acquisitions
  | semaphore_timeouts
  | mutex_blocks
  | mutex_handoffs
  | mutex_timeouts
  | priority_raises
  | priority_restorations
  | timer_initializations
  | timer_starts
  | timer_stops
  | timer_restarts
  | timer_expirations
  | timer_callbacks_executed
  | timer_stale_callbacks
  | timer_missed_periods
  | timer_overruns
  | timer_callback_queue_maximum_depth
  | timer_callback_queue_overflows
  | tickless_sleep_attempts
  | tickless_sleep_entries
  | tickless_sleep_aborts
  | tickless_timer_wakes
  | tickless_external_wakes
  | tickless_suppressed_ticks
  | tickless_longest_sleep.
#[export] Instance rts_counter_eq_dec : EqDecision rts_counter.
Proof. solve_decision. Defined.
Definition rts_counter_index (c : rts_counter) : Z :=
  match c with
  | scheduler_ticks => 0
  | context_switches => 1
  | switch_requests => 2
  | scheduler_starts => 3
  | task_creations => 4
  | yields => 5
  | delay_blocks => 6
  | delay_wakeups => 7
  | semaphore_blocks => 8
  | semaphore_acquisitions => 9
  | semaphore_timeouts => 10
  | mutex_blocks => 11
  | mutex_handoffs => 12
  | mutex_timeouts => 13
  | priority_raises => 14
  | priority_restorations => 15
  | timer_initializations => 16
  | timer_starts => 17
  | timer_stops => 18
  | timer_restarts => 19
  | timer_expirations => 20
  | timer_callbacks_executed => 21
  | timer_stale_callbacks => 22
  | timer_missed_periods => 23
  | timer_overruns => 24
  | timer_callback_queue_maximum_depth => 25
  | timer_callback_queue_overflows => 26
  | tickless_sleep_attempts => 27
  | tickless_sleep_entries => 28
  | tickless_sleep_aborts => 29
  | tickless_timer_wakes => 30
  | tickless_external_wakes => 31
  | tickless_suppressed_ticks => 32
  | tickless_longest_sleep => 33
  end.
Definition rts_counter_at (i : Z) : option rts_counter :=
  match i with
  | 0 => Some scheduler_ticks
  | 1 => Some context_switches
  | 2 => Some switch_requests
  | 3 => Some scheduler_starts
  | 4 => Some task_creations
  | 5 => Some yields
  | 6 => Some delay_blocks
  | 7 => Some delay_wakeups
  | 8 => Some semaphore_blocks
  | 9 => Some semaphore_acquisitions
  | 10 => Some semaphore_timeouts
  | 11 => Some mutex_blocks
  | 12 => Some mutex_handoffs
  | 13 => Some mutex_timeouts
  | 14 => Some priority_raises
  | 15 => Some priority_restorations
  | 16 => Some timer_initializations
  | 17 => Some timer_starts
  | 18 => Some timer_stops
  | 19 => Some timer_restarts
  | 20 => Some timer_expirations
  | 21 => Some timer_callbacks_executed
  | 22 => Some timer_stale_callbacks
  | 23 => Some timer_missed_periods
  | 24 => Some timer_overruns
  | 25 => Some timer_callback_queue_maximum_depth
  | 26 => Some timer_callback_queue_overflows
  | 27 => Some tickless_sleep_attempts
  | 28 => Some tickless_sleep_entries
  | 29 => Some tickless_sleep_aborts
  | 30 => Some tickless_timer_wakes
  | 31 => Some tickless_external_wakes
  | 32 => Some tickless_suppressed_ticks
  | 33 => Some tickless_longest_sleep
  | _ => None
  end.
#[export] Instance rts_counter_countable : Countable rts_counter.
Proof. refine (inj_countable rts_counter_index rts_counter_at _). by intros []. Defined.

(** ** Structs *)

(** rts_list_node_t of kernel/intrusive_list.h. *)
Record rts_list_node := mk_list_node {
  n_previous : option node_ptr;
  n_next : option node_ptr;
  n_owner : option list_ptr;
  n_object : option object_ptr
}.
#[export] Instance rts_list_node_eta : Eta rts_list_node := λ x,
  mk_list_node (x.(n_previous)) (x.(n_next)) (x.(n_owner)) (x.(n_object)).
#[export] Instance set_n_previous : Setter n_previous. Proof. solve_setter. Defined.
#[export] Instance set_n_next : Setter n_next. Proof. solve_setter. Defined.
#[export] Instance set_n_owner : Setter n_owner. Proof. solve_setter. Defined.
#[export] Instance set_n_object : Setter n_object. Proof. solve_setter. Defined.

(** rts_list_t of kernel/intrusive_list.h. *)
Record rts_list := mk_list {
  l_head : option node_ptr;
  l_tail : option node_ptr;
  l_count : Z
}.
#[export] Instance rts_list_eta : Eta rts_list := λ x,
  mk_list (x.(l_head)) (x.(l_tail)) (x.(l_count)).
#[export] Instance set_l_head : Setter l_head. Proof. solve_setter. Defined.
#[export] Instance set_l_tail : Setter l_tail. Proof. solve_setter. Defined.
#[export] Instance set_l_count : Setter l_count. Proof. solve_setter. Defined.

(** All intrusive nodes and lists of the kernel. *)
Record list_heap := mk_list_heap {
  h_nodes : gmap node_ptr rts_list_node;
  h_lists : gmap list_ptr rts_list
}.
#[export] Instance list_heap_eta : Eta list_heap := λ x,
  mk_list_heap (x.(h_nodes)) (x.(h_lists)).
#[export] Instance set_h_nodes : Setter h_nodes. Proof. solve_setter. Defined.
#[export] Instance set_h_lists : Setter h_lists. Proof. solve_setter. Defined.

(** rts_wait_node_t of kernel/task_internal.h. *)
Record rts_wait_node := mk_wait_node {
  w_previous : option task_ptr;
  w_next : option task_ptr;
  w_owner : option sync_ptr
}.
#[export] Instance rts_wait_node_eta : Eta rts_wait_node := λ x,
  mk_wait_node (x.(w_previous)) (x.(w_next)) (x.(w_owner)).
#[export] Instance set_w_previous : Setter w_previous. Proof. solve_setter. Defined.
#[export] Instance set_w_next : Setter w_next. Proof. solve_setter. Defined.
#[export] Instance set_w_owner : Setter w_owner. Proof. solve_setter. Defined.

(** rts_wait_object_storage_t of include/rts/rts_semaphore.h. *)
Record rts_wait_object_storage := mk_wait_object_storage {
  wo_head : option task_ptr;
  wo_tail : option task_ptr;
  wo_count : Z
}.
#[export] Instance rts_wait_object_storage_eta : Eta rts_wait_object_storage := λ x,
  mk_wait_object_storage (x.(wo_head)) (x.(wo_tail)) (x.(wo_count)).
#[export] Instance set_wo_head : Setter wo_head. Proof. solve_setter. Defined.
#[export] Instance set_wo_tail : Setter wo_tail. Proof. solve_setter. Defined.
#[export] Instance set_wo_count : Setter wo_count. Proof. solve_setter. Defined.

(** rts_wait_t of kernel/task_internal.h. *)
Record rts_wait := mk_wait {
  wait_reason : rts_wait_reason_t;
  wait_result : rts_wait_result_t;
  wait_wake_tick : Z;
  wait_object : option sync_ptr;
  wait_timeout_active : bool
}.
#[export] Instance rts_wait_eta : Eta rts_wait := λ x,
  mk_wait (x.(wait_reason)) (x.(wait_result)) (x.(wait_wake_tick)) (x.(wait_object)) (x.(wait_timeout_active)).
#[export] Instance set_wait_reason : Setter wait_reason. Proof. solve_setter. Defined.
#[export] Instance set_wait_result : Setter wait_result. Proof. solve_setter. Defined.
#[export] Instance set_wait_wake_tick : Setter wait_wake_tick. Proof. solve_setter. Defined.
#[export] Instance set_wait_object : Setter wait_object. Proof. solve_setter. Defined.
#[export] Instance set_wait_timeout_active : Setter wait_timeout_active. Proof. solve_setter. Defined.

(** struct rts_task of kernel/task_internal.h, less its three link members; an address of
    memory or of a function is a [Z], 0 is the null pointer. *)
Record rts_tcb := mk_tcb {
  saved_stack_pointer : Z;
  stack_low : Z;
  stack_high : Z;
  entry : Z;
  argument : Z;
  wait : rts_wait;
  slice_remaining : Z;
  owned_mutex_head : option Z;
  owned_mutex_tail : option Z;
  owned_mutex_count : Z;
  base_priority : Z;
  priority : Z;
  period : Z;
  relative_deadline : Z;
  absolute_deadline : Z;
  release_tick : Z;
  execution_budget : Z;
  release_sequence : Z;
  state : rts_task_state_t;
  slot_state : rts_task_slot_state_t;
  diagnostic_dispatch_count : Z;
  diagnostic_block_count : Z;
  diagnostic_wake_count : Z;
  diagnostic_running_ticks : Z;
  diagnostic_last_start_tick : Z;
  diagnostic_max_stack_used : Z;
  validation_magic : Z
}.
#[export] Instance rts_tcb_eta : Eta rts_tcb := λ x,
  mk_tcb (x.(saved_stack_pointer)) (x.(stack_low)) (x.(stack_high)) (x.(entry)) (x.(argument)) (x.(wait)) (x.(slice_remaining)) (x.(owned_mutex_head)) (x.(owned_mutex_tail)) (x.(owned_mutex_count)) (x.(base_priority)) (x.(priority)) (x.(period)) (x.(relative_deadline)) (x.(absolute_deadline)) (x.(release_tick)) (x.(execution_budget)) (x.(release_sequence)) (x.(state)) (x.(slot_state)) (x.(diagnostic_dispatch_count)) (x.(diagnostic_block_count)) (x.(diagnostic_wake_count)) (x.(diagnostic_running_ticks)) (x.(diagnostic_last_start_tick)) (x.(diagnostic_max_stack_used)) (x.(validation_magic)).
#[export] Instance set_saved_stack_pointer : Setter saved_stack_pointer. Proof. solve_setter. Defined.
#[export] Instance set_stack_low : Setter stack_low. Proof. solve_setter. Defined.
#[export] Instance set_stack_high : Setter stack_high. Proof. solve_setter. Defined.
#[export] Instance set_entry : Setter entry. Proof. solve_setter. Defined.
#[export] Instance set_argument : Setter argument. Proof. solve_setter. Defined.
#[export] Instance set_wait : Setter wait. Proof. solve_setter. Defined.
#[export] Instance set_slice_remaining : Setter slice_remaining. Proof. solve_setter. Defined.
#[export] Instance set_owned_mutex_head : Setter owned_mutex_head. Proof. solve_setter. Defined.
#[export] Instance set_owned_mutex_tail : Setter owned_mutex_tail. Proof. solve_setter. Defined.
#[export] Instance set_owned_mutex_count : Setter owned_mutex_count. Proof. solve_setter. Defined.
#[export] Instance set_base_priority : Setter base_priority. Proof. solve_setter. Defined.
#[export] Instance set_priority : Setter priority. Proof. solve_setter. Defined.
#[export] Instance set_period : Setter period. Proof. solve_setter. Defined.
#[export] Instance set_relative_deadline : Setter relative_deadline. Proof. solve_setter. Defined.
#[export] Instance set_absolute_deadline : Setter absolute_deadline. Proof. solve_setter. Defined.
#[export] Instance set_release_tick : Setter release_tick. Proof. solve_setter. Defined.
#[export] Instance set_execution_budget : Setter execution_budget. Proof. solve_setter. Defined.
#[export] Instance set_release_sequence : Setter release_sequence. Proof. solve_setter. Defined.
#[export] Instance set_state : Setter state. Proof. solve_setter. Defined.
#[export] Instance set_slot_state : Setter slot_state. Proof. solve_setter. Defined.
#[export] Instance set_diagnostic_dispatch_count : Setter diagnostic_dispatch_count. Proof. solve_setter. Defined.
#[export] Instance set_diagnostic_block_count : Setter diagnostic_block_count. Proof. solve_setter. Defined.
#[export] Instance set_diagnostic_wake_count : Setter diagnostic_wake_count. Proof. solve_setter. Defined.
#[export] Instance set_diagnostic_running_ticks : Setter diagnostic_running_ticks. Proof. solve_setter. Defined.
#[export] Instance set_diagnostic_last_start_tick : Setter diagnostic_last_start_tick. Proof. solve_setter. Defined.
#[export] Instance set_diagnostic_max_stack_used : Setter diagnostic_max_stack_used. Proof. solve_setter. Defined.
#[export] Instance set_validation_magic : Setter validation_magic. Proof. solve_setter. Defined.

(** rts_switch_plan_t of kernel/scheduler_internal.h. *)
Record rts_switch_plan := mk_switch_plan {
  plan_from : option task_ptr;
  plan_to : option task_ptr;
  plan_pending : bool;
  plan_active : bool;
  plan_reselection_required : bool;
  plan_generation : Z
}.
#[export] Instance rts_switch_plan_eta : Eta rts_switch_plan := λ x,
  mk_switch_plan (x.(plan_from)) (x.(plan_to)) (x.(plan_pending)) (x.(plan_active)) (x.(plan_reselection_required)) (x.(plan_generation)).
#[export] Instance set_plan_from : Setter plan_from. Proof. solve_setter. Defined.
#[export] Instance set_plan_to : Setter plan_to. Proof. solve_setter. Defined.
#[export] Instance set_plan_pending : Setter plan_pending. Proof. solve_setter. Defined.
#[export] Instance set_plan_active : Setter plan_active. Proof. solve_setter. Defined.
#[export] Instance set_plan_reselection_required : Setter plan_reselection_required. Proof. solve_setter. Defined.
#[export] Instance set_plan_generation : Setter plan_generation. Proof. solve_setter. Defined.

(** rts_switch_snapshot_t of kernel/scheduler_internal.h. *)
Record rts_switch_snapshot := mk_switch_snapshot {
  snap_from : option task_ptr;
  snap_to : option task_ptr;
  snap_generation : Z
}.
#[export] Instance rts_switch_snapshot_eta : Eta rts_switch_snapshot := λ x,
  mk_switch_snapshot (x.(snap_from)) (x.(snap_to)) (x.(snap_generation)).
#[export] Instance set_snap_from : Setter snap_from. Proof. solve_setter. Defined.
#[export] Instance set_snap_to : Setter snap_to. Proof. solve_setter. Defined.
#[export] Instance set_snap_generation : Setter snap_generation. Proof. solve_setter. Defined.

(** rts_semaphore_t of include/rts/rts_semaphore.h, less its waiter chain. *)
Record rts_semaphore := mk_semaphore {
  sem_count : Z;
  sem_maximum_count : Z;
  sem_identity : option Z;
  sem_signature : Z
}.
#[export] Instance rts_semaphore_eta : Eta rts_semaphore := λ x,
  mk_semaphore (x.(sem_count)) (x.(sem_maximum_count)) (x.(sem_identity)) (x.(sem_signature)).
#[export] Instance set_sem_count : Setter sem_count. Proof. solve_setter. Defined.
#[export] Instance set_sem_maximum_count : Setter sem_maximum_count. Proof. solve_setter. Defined.
#[export] Instance set_sem_identity : Setter sem_identity. Proof. solve_setter. Defined.
#[export] Instance set_sem_signature : Setter sem_signature. Proof. solve_setter. Defined.

(** rts_mutex_t of include/rts/rts_mutex.h, less its waiter chain. *)
Record rts_mutex := mk_mutex {
  mtx_owner : option task_ptr;
  mtx_owned_previous : option Z;
  mtx_owned_next : option Z;
  mtx_identity : option Z;
  mtx_signature : Z
}.
#[export] Instance rts_mutex_eta : Eta rts_mutex := λ x,
  mk_mutex (x.(mtx_owner)) (x.(mtx_owned_previous)) (x.(mtx_owned_next)) (x.(mtx_identity)) (x.(mtx_signature)).
#[export] Instance set_mtx_owner : Setter mtx_owner. Proof. solve_setter. Defined.
#[export] Instance set_mtx_owned_previous : Setter mtx_owned_previous. Proof. solve_setter. Defined.
#[export] Instance set_mtx_owned_next : Setter mtx_owned_next. Proof. solve_setter. Defined.
#[export] Instance set_mtx_identity : Setter mtx_identity. Proof. solve_setter. Defined.
#[export] Instance set_mtx_signature : Setter mtx_signature. Proof. solve_setter. Defined.

(** struct rts_timer of kernel/timer_internal.h, less its queue node. *)
Record rts_timer := mk_timer {
  tm_expiration_tick : Z;
  tm_last_expiration_tick : Z;
  tm_period : Z;
  tm_callback : Z;
  tm_argument : Z;
  tm_slot_index : Z;
  tm_generation : Z;
  tm_expiration_sequence : Z;
  tm_mode : Z;
  tm_state : rts_timer_lifecycle_state_t;
  tm_callback_state : rts_timer_callback_state_t;
  tm_slot_state : rts_timer_slot_state_t;
  tm_start_count : Z;
  tm_stop_count : Z;
  tm_restart_count : Z;
  tm_expiration_count : Z;
  tm_callback_count : Z;
  tm_stale_count : Z;
  tm_missed_period_count : Z;
  tm_overrun_count : Z;
  tm_validation_magic : Z
}.
#[export] Instance rts_timer_eta : Eta rts_timer := λ x,
  mk_timer (x.(tm_expiration_tick)) (x.(tm_last_expiration_tick)) (x.(tm_period)) (x.(tm_callback)) (x.(tm_argument)) (x.(tm_slot_index)) (x.(tm_generation)) (x.(tm_expiration_sequence)) (x.(tm_mode)) (x.(tm_state)) (x.(tm_callback_state)) (x.(tm_slot_state)) (x.(tm_start_count)) (x.(tm_stop_count)) (x.(tm_restart_count)) (x.(tm_expiration_count)) (x.(tm_callback_count)) (x.(tm_stale_count)) (x.(tm_missed_period_count)) (x.(tm_overrun_count)) (x.(tm_validation_magic)).
#[export] Instance set_tm_expiration_tick : Setter tm_expiration_tick. Proof. solve_setter. Defined.
#[export] Instance set_tm_last_expiration_tick : Setter tm_last_expiration_tick. Proof. solve_setter. Defined.
#[export] Instance set_tm_period : Setter tm_period. Proof. solve_setter. Defined.
#[export] Instance set_tm_callback : Setter tm_callback. Proof. solve_setter. Defined.
#[export] Instance set_tm_argument : Setter tm_argument. Proof. solve_setter. Defined.
#[export] Instance set_tm_slot_index : Setter tm_slot_index. Proof. solve_setter. Defined.
#[export] Instance set_tm_generation : Setter tm_generation. Proof. solve_setter. Defined.
#[export] Instance set_tm_expiration_sequence : Setter tm_expiration_sequence. Proof. solve_setter. Defined.
#[export] Instance set_tm_mode : Setter tm_mode. Proof. solve_setter. Defined.
#[export] Instance set_tm_state : Setter tm_state. Proof. solve_setter. Defined.
#[export] Instance set_tm_callback_state : Setter tm_callback_state. Proof. solve_setter. Defined.
#[export] Instance set_tm_slot_state : Setter tm_slot_state. Proof. solve_setter. Defined.
#[export] Instance set_tm_start_count : Setter tm_start_count. Proof. solve_setter. Defined.
#[export] Instance set_tm_stop_count : Setter tm_stop_count. Proof. solve_setter. Defined.
#[export] Instance set_tm_restart_count : Setter tm_restart_count. Proof. solve_setter. Defined.
#[export] Instance set_tm_expiration_count : Setter tm_expiration_count. Proof. solve_setter. Defined.
#[export] Instance set_tm_callback_count : Setter tm_callback_count. Proof. solve_setter. Defined.
#[export] Instance set_tm_stale_count : Setter tm_stale_count. Proof. solve_setter. Defined.
#[export] Instance set_tm_missed_period_count : Setter tm_missed_period_count. Proof. solve_setter. Defined.
#[export] Instance set_tm_overrun_count : Setter tm_overrun_count. Proof. solve_setter. Defined.
#[export] Instance set_tm_validation_magic : Setter tm_validation_magic. Proof. solve_setter. Defined.

(** rts_timer_callback_work_t of kernel/timer_callback_queue.h. *)
Record rts_timer_callback_work := mk_callback_work {
  work_timer : option Z;
  work_expiration_tick : Z;
  work_generation : Z;
  work_sequence : Z
}.
#[export] Instance rts_timer_callback_work_eta : Eta rts_timer_callback_work := λ x,
  mk_callback_work (x.(work_timer)) (x.(work_expiration_tick)) (x.(work_generation)) (x.(work_sequence)).
#[export] Instance set_work_timer : Setter work_timer. Proof. solve_setter. Defined.
#[export] Instance set_work_expiration_tick : Setter work_expiration_tick. Proof. solve_setter. Defined.
#[export] Instance set_work_generation : Setter work_generation. Proof. solve_setter. Defined.
#[export] Instance set_work_sequence : Setter work_sequence. Proof. solve_setter. Defined.

(** rts_timer_callback_queue_t of kernel/timer_callback_queue.h. *)
Record rts_timer_callback_queue := mk_callback_queue {
  cq_items : gmap Z rts_timer_callback_work;
  cq_head : Z;
  cq_tail : Z;
  cq_count : Z;
  cq_maximum_depth : Z
}.
#[export] Instance rts_timer_callback_queue_eta : Eta rts_timer_callback_queue := λ x,
  mk_callback_queue (x.(cq_items)) (x.(cq_head)) (x.(cq_tail)) (x.(cq_count)) (x.(cq_maximum_depth)).
#[export] Instance set_cq_items : Setter cq_items. Proof. solve_setter. Defined.
#[export] Instance set_cq_head : Setter cq_head. Proof. solve_setter. Defined.
#[export] Instance set_cq_tail : Setter cq_tail. Proof. solve_setter. Defined.
#[export] Instance set_cq_count : Setter cq_count. Proof. solve_setter. Defined.
#[export] Instance set_cq_maximum_depth : Setter cq_maximum_depth. Proof. solve_setter. Defined.

(** rts_trace_entry_t of kernel/trace_internal.h. *)
Record rts_trace_entry := mk_trace_entry {
  te_sequence : Z;
  te_tick : Z;
  te_argument0 : Z;
  te_argument1 : Z;
  te_event : Z
}.
#[export] Instance rts_trace_entry_eta : Eta rts_trace_entry := λ x,
  mk_trace_entry (x.(te_sequence)) (x.(te_tick)) (x.(te_argument0)) (x.(te_argument1)) (x.(te_event)).
#[export] Instance set_te_sequence : Setter te_sequence. Proof. solve_setter. Defined.
#[export] Instance set_te_tick : Setter te_tick. Proof. solve_setter. Defined.
#[export] Instance set_te_argument0 : Setter te_argument0. Proof. solve_setter. Defined.
#[export] Instance set_te_argument1 : Setter te_argument1. Proof. solve_setter. Defined.
#[export] Instance set_te_event : Setter te_event. Proof. solve_setter. Defined.

(** The static variables of kernel/trace.c. *)
Record rts_trace := mk_trace {
  trace_buffer : gmap Z rts_trace_entry;
  trace_head : Z;
  trace_used : Z;
  trace_sequence : Z;
  trace_overwrites : Z
}.
#[export] Instance rts_trace_eta : Eta rts_trace := λ x,
  mk_trace (x.(trace_buffer)) (x.(trace_head)) (x.(trace_used)) (x.(trace_sequence)) (x.(trace_overwrites)).
#[export] Instance set_trace_buffer : Setter trace_buffer. Proof. solve_setter. Defined.
#[export] Instance set_trace_head : Setter trace_head. Proof. solve_setter. Defined.
#[export] Instance set_trace_used : Setter trace_used. Proof. solve_setter. Defined.
#[export] Instance set_trace_sequence : Setter trace_sequence. Proof. solve_setter. Defined.
#[export] Instance set_trace_overwrites : Setter trace_overwrites. Proof. solve_setter. Defined.

(** The static variables of ports/host/port.c and ports/host/port_start.c. *)
Record rts_host_port := mk_host_port {
  host_in_isr : bool;
  host_interrupts_masked : bool;
  host_fail_next_stack_initialize : bool;
  host_fail_next_initialize : bool;
  host_initialized : bool;
  host_tick_ready : bool;
  host_tick_running : bool;
  host_fail_next_tick_start : bool;
  host_critical_depth : Z;
  host_switch_request_count : Z;
  host_last_switch_request_critical_depth : Z;
  host_switch_request_pending : bool;
  host_sleep_wake_configured : bool;
  host_fail_next_sleep : bool;
  host_next_sleep_elapsed : Z;
  host_last_sleep_limit : Z;
  host_next_wake_source : Z;
  host_sleep_count : Z;
  host_critical_tokens : gmap Z Z;
  host_start_request_count : Z;
  host_start_task : option task_ptr;
  host_start_saved_stack_pointer : Z;
  host_start_consumed : bool;
  host_fail_next_start : bool
}.
#[export] Instance rts_host_port_eta : Eta rts_host_port := λ x,
  mk_host_port (x.(host_in_isr)) (x.(host_interrupts_masked)) (x.(host_fail_next_stack_initialize)) (x.(host_fail_next_initialize)) (x.(host_initialized)) (x.(host_tick_ready)) (x.(host_tick_running)) (x.(host_fail_next_tick_start)) (x.(host_critical_depth)) (x.(host_switch_request_count)) (x.(host_last_switch_request_critical_depth)) (x.(host_switch_request_pending)) (x.(host_sleep_wake_configured)) (x.(host_fail_next_sleep)) (x.(host_next_sleep_elapsed)) (x.(host_last_sleep_limit)) (x.(host_next_wake_source)) (x.(host_sleep_count)) (x.(host_critical_tokens)) (x.(host_start_request_count)) (x.(host_start_task)) (x.(host_start_saved_stack_pointer)) (x.(host_start_consumed)) (x.(host_fail_next_start)).
#[export] Instance set_host_in_isr : Setter host_in_isr. Proof. solve_setter. Defined.
#[export] Instance set_host_interrupts_masked : Setter host_interrupts_masked. Proof. solve_setter. Defined.
#[export] Instance set_host_fail_next_stack_initialize : Setter host_fail_next_stack_initialize. Proof. solve_setter. Defined.
#[export] Instance set_host_fail_next_initialize : Setter host_fail_next_initialize. Proof. solve_setter. Defined.
#[export] Instance set_host_initialized : Setter host_initialized. Proof. solve_setter. Defined.
#[export] Instance set_host_tick_ready : Setter host_tick_ready. Proof. solve_setter. Defined.
#[export] Instance set_host_tick_running : Setter host_tick_running. Proof. solve_setter. Defined.
#[export] Instance set_host_fail_next_tick_start : Setter host_fail_next_tick_start. Proof. solve_setter. Defined.
#[export] Instance set_host_critical_depth : Setter host_critical_depth. Proof. solve_setter. Defined.
#[export] Instance set_host_switch_request_count : Setter host_switch_request_count. Proof. solve_setter. Defined.
#[export] Instance set_host_last_switch_request_critical_depth : Setter host_last_switch_request_critical_depth. Proof. solve_setter. Defined.
#[export] Instance set_host_switch_request_pending : Setter host_switch_request_pending. Proof. solve_setter. Defined.
#[export] Instance set_host_sleep_wake_configured : Setter host_sleep_wake_configured. Proof. solve_setter. Defined.
#[export] Instance set_host_fail_next_sleep : Setter host_fail_next_sleep. Proof. solve_setter. Defined.
#[export] Instance set_host_next_sleep_elapsed : Setter host_next_sleep_elapsed. Proof. solve_setter. Defined.
#[export] Instance set_host_last_sleep_limit : Setter host_last_sleep_limit. Proof. solve_setter. Defined.
#[export] Instance set_host_next_wake_source : Setter host_next_wake_source. Proof. solve_setter. Defined.
#[export] Instance set_host_sleep_count : Setter host_sleep_count. Proof. solve_setter. Defined.
#[export] Instance set_host_critical_tokens : Setter host_critical_tokens. Proof. solve_setter. Defined.
#[export] Instance set_host_start_request_count : Setter host_start_request_count. Proof. solve_setter. Defined.
#[export] Instance set_host_start_task : Setter host_start_task. Proof. solve_setter. Defined.
#[export] Instance set_host_start_saved_stack_pointer : Setter host_start_saved_stack_pointer. Proof. solve_setter. Defined.
#[export] Instance set_host_start_consumed : Setter host_start_consumed. Proof. solve_setter. Defined.
#[export] Instance set_host_fail_next_start : Setter host_fail_next_start. Proof. solve_setter. Defined.

(** rts_fatal_record_t of kernel/fatal_internal.h. *)
Record rts_fatal_record := mk_fatal_record {
  fr_valid : Z;
  fr_reason : rts_fatal_reason;
  fr_lifecycle : rts_kernel_lifecycle_t;
  fr_tick : Z;
  fr_exception_number : Z;
  fr_current_task : option task_ptr;
  fr_context : Z;
  fr_source_file : Z;
  fr_source_line : Z;
  fr_switch_generation : Z;
  fr_switch_flags : Z;
  fr_fatal_count : Z
}.
#[export] Instance rts_fatal_record_eta : Eta rts_fatal_record := λ x,
  mk_fatal_record (x.(fr_valid)) (x.(fr_reason)) (x.(fr_lifecycle)) (x.(fr_tick)) (x.(fr_exception_number)) (x.(fr_current_task)) (x.(fr_context)) (x.(fr_source_file)) (x.(fr_source_line)) (x.(fr_switch_generation)) (x.(fr_switch_flags)) (x.(fr_fatal_count)).
#[export] Instance set_fr_valid : Setter fr_valid. Proof. solve_setter. Defined.
#[export] Instance set_fr_reason : Setter fr_reason. Proof. solve_setter. Defined.
#[export] Instance set_fr_lifecycle : Setter fr_lifecycle. Proof. solve_setter. Defined.
#[export] Instance set_fr_tick : Setter fr_tick. Proof. solve_setter. Defined.
#[export] Instance set_fr_exception_number : Setter fr_exception_number. Proof. solve_setter. Defined.
#[export] Instance set_fr_current_task : Setter fr_current_task. Proof. solve_setter. Defined.
#[export] Instance set_fr_context : Setter fr_context. Proof. solve_setter. Defined.
#[export] Instance set_fr_source_file : Setter fr_source_file. Proof. solve_setter. Defined.
#[export] Instance set_fr_source_line : Setter fr_source_line. Proof. solve_setter. Defined.
#[export] Instance set_fr_switch_generation : Setter fr_switch_generation. Proof. solve_setter. Defined.
#[export] Instance set_fr_switch_flags : Setter fr_switch_flags. Proof. solve_setter. Defined.
#[export] Instance set_fr_fatal_count : Setter fr_fatal_count. Proof. solve_setter. Defined.

(** The store: rts_kernel_state_t (kernel/scheduler_internal.h), the timer manager, the trace
    ring, the port, the semaphores and mutexes of the application, the bytes of memory
    that hold stacks, and the fatal record. *)
Record kernel := mk_kernel {
  k_tasks : gmap task_ptr rts_tcb;
  k_wait_nodes : gmap task_ptr rts_wait_node;
  k_pool_allocated_count : Z;
  k_pool_next_free_hint : Z;
  k_lifecycle : rts_kernel_lifecycle_t;
  k_current_task : option task_ptr;
  k_idle_task : option task_ptr;
  k_switch_plan : rts_switch_plan;
  k_timer_service_task : option task_ptr;
  k_ready_bitmap : gmap Z Z;
  k_heap : list_heap;
  k_policy_release_sequence : Z;
  k_current_tick : Z;
  k_runtime_counters : gmap rts_counter Z;
  k_semaphores : gmap Z rts_semaphore;
  k_mutexes : gmap Z rts_mutex;
  k_waiters : gmap sync_ptr rts_wait_object_storage;
  k_timers : gmap Z rts_timer;
  k_callback_queue : rts_timer_callback_queue;
  k_timer_allocated_count : Z;
  k_timer_next_free_hint : Z;
  k_trace : rts_trace;
  k_port : rts_host_port;
  k_memory : gmap Z Z;
  k_fatal_record : rts_fatal_record
}.
#[export] Instance kernel_eta : Eta kernel := λ x,
  mk_kernel (x.(k_tasks)) (x.(k_wait_nodes)) (x.(k_pool_allocated_count)) (x.(k_pool_next_free_hint)) (x.(k_lifecycle)) (x.(k_current_task)) (x.(k_idle_task)) (x.(k_switch_plan)) (x.(k_timer_service_task)) (x.(k_ready_bitmap)) (x.(k_heap)) (x.(k_policy_release_sequence)) (x.(k_current_tick)) (x.(k_runtime_counters)) (x.(k_semaphores)) (x.(k_mutexes)) (x.(k_waiters)) (x.(k_timers)) (x.(k_callback_queue)) (x.(k_timer_allocated_count)) (x.(k_timer_next_free_hint)) (x.(k_trace)) (x.(k_port)) (x.(k_memory)) (x.(k_fatal_record)).
#[export] Instance set_k_tasks : Setter k_tasks. Proof. solve_setter. Defined.
#[export] Instance set_k_wait_nodes : Setter k_wait_nodes. Proof. solve_setter. Defined.
#[export] Instance set_k_pool_allocated_count : Setter k_pool_allocated_count. Proof. solve_setter. Defined.
#[export] Instance set_k_pool_next_free_hint : Setter k_pool_next_free_hint. Proof. solve_setter. Defined.
#[export] Instance set_k_lifecycle : Setter k_lifecycle. Proof. solve_setter. Defined.
#[export] Instance set_k_current_task : Setter k_current_task. Proof. solve_setter. Defined.
#[export] Instance set_k_idle_task : Setter k_idle_task. Proof. solve_setter. Defined.
#[export] Instance set_k_switch_plan : Setter k_switch_plan. Proof. solve_setter. Defined.
#[export] Instance set_k_timer_service_task : Setter k_timer_service_task. Proof. solve_setter. Defined.
#[export] Instance set_k_ready_bitmap : Setter k_ready_bitmap. Proof. solve_setter. Defined.
#[export] Instance set_k_heap : Setter k_heap. Proof. solve_setter. Defined.
#[export] Instance set_k_policy_release_sequence : Setter k_policy_release_sequence. Proof. solve_setter. Defined.
#[export] Instance set_k_current_tick : Setter k_current_tick. Proof. solve_setter. Defined.
#[export] Instance set_k_runtime_counters : Setter k_runtime_counters. Proof. solve_setter. Defined.
#[export] Instance set_k_semaphores : Setter k_semaphores. Proof. solve_setter. Defined.
#[export] Instance set_k_mutexes : Setter k_mutexes. Proof. solve_setter. Defined.
#[export] Instance set_k_waiters : Setter k_waiters. Proof. solve_setter. Defined.
#[export] Instance set_k_timers : Setter k_timers. Proof. solve_setter. Defined.
#[export] Instance set_k_callback_queue : Setter k_callback_queue. Proof. solve_setter. Defined.
#[export] Instance set_k_timer_allocated_count : Setter k_timer_allocated_count. Proof. solve_setter. Defined.
#[export] Instance set_k_timer_next_free_hint : Setter k_timer_next_free_hint. Proof. solve_setter. Defined.
#[export] Instance set_k_trace : Setter k_trace. Proof. solve_setter. Defined.
#[export] Instance set_k_port : Setter k_port. Proof. solve_setter. Defined.
#[export] Instance set_k_memory : Setter k_memory. Proof. solve_setter. Defined.
#[export] Instance set_k_fatal_record : Setter k_fatal_record. Proof. solve_setter. Defined.


(** ** Zero-initialised objects *)

#[export] Instance rts_list_node_inhabited : Inhabited rts_list_node :=
  populate (mk_list_node None None None None).
#[export] Instance rts_list_inhabited : Inhabited rts_list := populate (mk_list None None 0).
#[export] Instance rts_wait_node_inhabited : Inhabited rts_wait_node :=
  populate (mk_wait_node None None None).
#[export] Instance rts_wait_object_storage_inhabited : Inhabited rts_wait_object_storage :=
  populate (mk_wait_object_storage None None 0).
Definition zero_wait : rts_wait :=
  mk_wait RTS_WAIT_NONE RTS_WAIT_RESULT_NONE 0 None false.
#[export] Instance rts_tcb_inhabited : Inhabited rts_tcb := populate
  (mk_tcb 0 0 0 0 0 zero_wait 0 None None 0 0 0 0 0 0 0 0 0
     RTS_TASK_STATE_DORMANT RTS_TASK_SLOT_FREE 0 0 0 0 0 0 0).
#[export] Instance rts_semaphore_inhabited : Inhabited rts_semaphore :=
  populate (mk_semaphore 0 0 None 0).
#[export] Instance rts_mutex_inhabited : Inhabited rts_mutex :=
  populate (mk_mutex None None None None 0).
#[export] Instance rts_timer_inhabited : Inhabited rts_timer := populate
  (mk_timer 0 0 0 0 0 0 0 0 RTS_TIMER_ONE_SHOT RTS_TIMER_UNINITIALIZED
     RTS_TIMER_CALLBACK_IDLE RTS_TIMER_SLOT_FREE 0 0 0 0 0 0 0 0 0).
#[export] Instance rts_timer_callback_work_inhabited : Inhabited rts_timer_callback_work :=
  populate (mk_callback_work None 0 0 0).
#[export] Instance rts_trace_entry_inhabited : Inhabited rts_trace_entry :=
  populate (mk_trace_entry 0 0 0 0 0).
#[export] Instance Z_inhabited : Inhabited Z := populate 0.

Definition zero_heap : list_heap := mk_list_heap ∅ ∅.
Definition zero_switch_plan : rts_switch_plan := mk_switch_plan None None false false false 0.
Definition zero_callback_queue : rts_timer_callback_queue := mk_callback_queue ∅ 0 0 0 0.
Definition zero_trace : rts_trace := mk_trace ∅ 0 0 0 0.
Definition zero_host_port : rts_host_port :=
  mk_host_port false false false false false false false false 0 0 0 false false false 0 0
    RTS_PORT_WAKE_TIMER 0 ∅ 0 None 0 false false.

Definition zero_fatal_record : rts_fatal_record :=
  mk_fatal_record 0 RTS_FATAL_NONE RTS_KERNEL_RESET 0 0 None 0 0 0 0 0 0.

(** The store at reset. *)
Definition zero_kernel : kernel :=
  mk_kernel ∅ ∅ 0 0 RTS_KERNEL_RESET None None zero_switch_plan None ∅ zero_heap 0 0 ∅
    ∅ ∅ ∅ ∅ zero_callback_queue 0 0 zero_trace zero_host_port ∅ zero_fatal_record.

(** ** Reading and writing objects *)

Definition task (s : kernel) (t : task_ptr) : rts_tcb := k_tasks s !!! t.
Definition wait_node (s : kernel) (t : task_ptr) : rts_wait_node := k_wait_nodes s !!! t.
Definition hnode (h : list_heap) (n : node_ptr) : rts_list_node := h_nodes h !!! n.
Definition hlist (h : list_heap) (l : list_ptr) : rts_list := h_lists h !!! l.
Definition node (s : kernel) (n : node_ptr) : rts_list_node := hnode (k_heap s) n.
Definition klist (s : kernel) (l : list_ptr) : rts_list := hlist (k_heap s) l.
Definition semaphore (s : kernel) (p : Z) : rts_semaphore := k_semaphores s !!! p.
Definition mutex (s : kernel) (p : Z) : rts_mutex := k_mutexes s !!! p.
Definition waiters (s : kernel) (p : sync_ptr) : rts_wait_object_storage := k_waiters s !!! p.
Definition timer (s : kernel) (i : Z) : rts_timer := k_timers s !!! i.
Definition counter (s : kernel) (c : rts_counter) : Z := k_runtime_counters s !!! c.

Definition set_task (t : task_ptr) (v : rts_tcb) (s : kernel) : kernel :=
  s <| k_tasks := <[t := v]> (k_tasks s) |>.
Definition upd_task (t : task_ptr) (f : rts_tcb → rts_tcb) (s : kernel) : kernel :=
  set_task t (f (task s t)) s.
Definition upd_hnode (n : node_ptr) (f : rts_list_node → rts_list_node) (h : list_heap) :
    list_heap :=
  h <| h_nodes := <[n := f (hnode h n)]> (h_nodes h) |>.
Definition upd_hlist (l : list_ptr) (f : rts_list → rts_list) (h : list_heap) : list_heap :=
  h <| h_lists := <[l := f (hlist h l)]> (h_lists h) |>.
Definition upd_wait_node (t : task_ptr) (f : rts_wait_node → rts_wait_node) (s : kernel) : kernel :=
  s <| k_wait_nodes := <[t := f (wait_node s t)]> (k_wait_nodes s) |>.
Definition upd_waiters (p : sync_ptr)
    (f : rts_wait_object_storage → rts_wait_object_storage) (s : kernel) : kernel :=
  s <| k_waiters := <[p := f (waiters s p)]> (k_waiters s) |>.
Definition upd_semaphore (p : Z) (f : rts_semaphore → rts_semaphore) (s : kernel) : kernel :=
  s <| k_semaphores := <[p := f (semaphore s p)]> (k_semaphores s) |>.
Definition upd_mutex (p : Z) (f : rts_mutex → rts_mutex) (s : kernel) : kernel :=
  s <| k_mutexes := <[p := f (mutex s p)]> (k_mutexes s) |>.
Definition upd_timer (i : Z) (f : rts_timer → rts_timer) (s : kernel) : kernel :=
  s <| k_timers := <[i := f (timer s i)]> (k_timers s) |>.
Definition upd_node (n : node_ptr) (f : rts_list_node → rts_list_node) (s : kernel) : kernel :=
  s <| k_heap := upd_hnode n f (k_heap s) |>.

(** The kernel's computations. *)
Abbreviation K := (M kernel).

(** ** Reading after writing *)

Lemma lookup_total_insert_dec `{Countable Key} {A} `{Inhabited A} (m : gmap Key A) i j x :
  <[i := x]> m !!! j = if decide (i = j) then x else m !!! j.
Proof.
  case_decide; [subst; apply lookup_total_insert_eq|by apply lookup_total_insert_ne].
Qed.

Lemma task_upd_task s t f t' :
  task (upd_task t f s) t' = if decide (t = t') then f (task s t) else task s t'.
Proof. apply lookup_total_insert_dec. Qed.
Lemma hnode_upd_hnode h n f n' :
  hnode (upd_hnode n f h) n' = if decide (n = n') then f (hnode h n) else hnode h n'.
Proof. apply lookup_total_insert_dec. Qed.
Lemma hnode_upd_hlist h l f n : hnode (upd_hlist l f h) n = hnode h n.
Proof. done. Qed.
Lemma hlist_upd_hnode h n f l : hlist (upd_hnode n f h) l = hlist h l.
Proof. done. Qed.
Lemma hlist_upd_hlist h l f l' :
  hlist (upd_hlist l f h) l' = if decide (l = l') then f (hlist h l) else hlist h l'.
Proof. apply lookup_total_insert_dec. Qed.
Lemma wait_node_upd s t f t' :
  wait_node (upd_wait_node t f s) t' = if decide (t = t') then f (wait_node s t) else wait_node s t'.
Proof. apply lookup_total_insert_dec. Qed.
Lemma waiters_upd s p f p' :
  waiters (upd_waiters p f s) p' = if decide (p = p') then f (waiters s p) else waiters s p'.
Proof. apply lookup_total_insert_dec. Qed.
Lemma semaphore_upd s p f p' :
  semaphore (upd_semaphore p f s) p' = if decide (p = p') then f (semaphore s p) else semaphore s p'.
Proof. apply lookup_total_insert_dec. Qed.
Lemma mutex_upd s p f p' :
  mutex (upd_mutex p f s) p' = if decide (p = p') then f (mutex s p) else mutex s p'.
Proof. apply lookup_total_insert_dec. Qed.
Lemma timer_upd s p f p' :
  timer (upd_timer p f s) p' = if decide (p = p') then f (timer s p) else timer s p'.
Proof. apply lookup_total_insert_dec. Qed.

(** ** Checking a concrete store

    A condition on every task, on its wait node included, is decided by the tasks the
    store mentions when the zero task satisfies it; likewise for mutexes. *)

Definition stored_tasks (s : kernel) : list task_ptr :=
  elements (dom (k_tasks s) ∪ dom (k_wait_nodes s) : gset task_ptr).

Lemma tasks_forall (s : kernel) (P : task_ptr → rts_tcb → rts_wait_node → bool) :
  (∀ t, P t inhabitant inhabitant = true) →
  forallb (λ t, P t (task s t) (wait_node s t)) (stored_tasks s) = true →
  ∀ t, P t (task s t) (wait_node s t) = true.
Proof.
  intros Hz Hall t. rewrite forallb_forall in Hall.
  destruct (decide (t ∈ stored_tasks s)) as [Hin|Hout]; [by apply Hall, list_elem_of_In|].
  unfold stored_tasks in Hout. rewrite elem_of_elements, not_elem_of_union, !not_elem_of_dom in Hout.
  destruct Hout as [H1 H2]. unfold task, wait_node. rewrite !lookup_total_alt, H1, H2. apply Hz.
Qed.

Lemma mutexes_forall (s : kernel) (P : Z → rts_mutex → bool) :
  (∀ p, P p inhabitant = true) →
  forallb (λ p, P p (mutex s p)) (elements (dom (k_mutexes s) : gset Z)) = true →
  ∀ p, P p (mutex s p) = true.
Proof.
  intros Hz Hall p. rewrite forallb_forall in Hall.
  destruct (decide (p ∈ (dom (k_mutexes s) : gset Z))) as [Hin|Hout].
  - apply Hall, list_elem_of_In. by apply elem_of_elements.
  - apply not_elem_of_dom in Hout. unfold mutex. rewrite lookup_total_alt, Hout. apply Hz.
Qed.
