(* ===== verification/IntrusiveList.v ===== *)
(** * Intrusive lists (kernel/intrusive_list.c)

    The five operations on the pointer heap, then the abstraction [contents]
    (the nodes of a list in order) and, for each operation that changes the
    heap, the theorem that on a well-formed heap it returns and acts on
    [contents] as the corresponding sequence operation, leaving every other
    list and the [object] members alone. *)

From S2P Require Import Prelude Machine Config Types Links.

Abbreviation H := (M list_heap).

Section list_code.
Context `{Config}.
Implicit Types (list : list_ptr) (node position : node_ptr).

Definition rts_list_endpoints_are_valid list : H bool :=
  gets (λ h,
    let r := hlist h list in
    if l_count r =? 0 then bool_decide (l_head r = None ∧ l_tail r = None)
    else match l_head r, l_tail r with
         | Some hd, Some tl =>
             bool_decide (n_previous (hnode h hd) = None) &&
             bool_decide (n_next (hnode h tl) = None) &&
             bool_decide (n_owner (hnode h hd) = Some list) &&
             bool_decide (n_owner (hnode h tl) = Some list)
         | _, _ => false
         end).

Definition rts_list_initialize (list_arg : option list_ptr) : H unit :=
  RTS_REQUIRE_PTR list_arg tt (λ list,
  modify (upd_hlist list (λ r, r <| l_head := None |> <| l_tail := None |> <| l_count := 0 |>))).

Definition rts_list_node_initialize (node_arg : option node_ptr) : H unit :=
  RTS_REQUIRE_PTR node_arg tt (λ node,
  modify (upd_hnode node (λ n, n <| n_previous := None |> <| n_next := None |>
                                 <| n_owner := None |> <| n_object := None |>))).

Definition rts_list_is_empty (list_arg : option list_ptr) : H bool :=
  RTS_REQUIRE_PTR list_arg false (λ list,
  RTS_REQUIRE (rts_list_endpoints_are_valid list) false (
  gets (λ h, l_count (hlist h list) =? 0))).

Definition rts_list_node_is_linked (node_arg : option node_ptr) : H bool :=
  RTS_REQUIRE_PTR node_arg false (λ node,
  let* owner := gets (λ h, n_owner (hnode h node)) in
  match owner with
  | None =>
      RTS_REQUIRE (gets (λ h, bool_decide (n_previous (hnode h node) = None))) false (
      RTS_REQUIRE (gets (λ h, bool_decide (n_next (hnode h node) = None))) false (
      ret false))
  | Some _ => ret true
  end).

Definition rts_list_push_back (list_arg : option list_ptr) (node_arg : option node_ptr) : H unit :=
  RTS_REQUIRE_PTR list_arg tt (λ list,
  RTS_REQUIRE_PTR node_arg tt (λ node,
  RTS_REQUIRE (rts_list_endpoints_are_valid list) tt (
  RTS_REQUIRE (gets (λ h, bool_decide (n_owner (hnode h node) = None))) tt (
  RTS_REQUIRE (gets (λ h, bool_decide (n_previous (hnode h node) = None))) tt (
  RTS_REQUIRE (gets (λ h, bool_decide (n_next (hnode h node) = None))) tt (
  RTS_REQUIRE (gets (λ h, l_count (hlist h list) <? SIZE_MAX)) tt (
  let* tail := gets (λ h, l_tail (hlist h list)) in
  modify (upd_hnode node (λ n, n <| n_previous := tail |>)) ;;;
  modify (upd_hnode node (λ n, n <| n_next := None |>)) ;;;
  modify (upd_hnode node (λ n, n <| n_owner := Some list |>)) ;;;
  match tail with
  | None => modify (upd_hlist list (λ r, r <| l_head := Some node |>))
  | Some tl => modify (upd_hnode tl (λ n, n <| n_next := Some node |>))
  end ;;;
  modify (upd_hlist list (λ r, r <| l_tail := Some node |>)) ;;;
  modify (upd_hlist list (λ r, r <| l_count ::= Z.succ |>)) ;;;
  RTS_ASSERT (rts_list_endpoints_are_valid list)))))))).

Definition rts_list_insert_before (list_arg : option list_ptr)
    (position_arg node_arg : option node_ptr) : H unit :=
  RTS_REQUIRE_PTR list_arg tt (λ list,
  RTS_REQUIRE_PTR position_arg tt (λ position,
  RTS_REQUIRE_PTR node_arg tt (λ node,
  RTS_REQUIRE (rts_list_endpoints_are_valid list) tt (
  RTS_REQUIRE (gets (λ h, bool_decide (n_owner (hnode h position) = Some list))) tt (
  RTS_REQUIRE (gets (λ h, bool_decide (n_owner (hnode h node) = None))) tt (
  RTS_REQUIRE (gets (λ h, bool_decide (n_previous (hnode h node) = None))) tt (
  RTS_REQUIRE (gets (λ h, bool_decide (n_next (hnode h node) = None))) tt (
  RTS_REQUIRE (gets (λ h, l_count (hlist h list) <? SIZE_MAX)) tt (
  let* previous := gets (λ h, n_previous (hnode h position)) in
  RTS_REQUIRE (match previous with
    | None => gets (λ h, bool_decide (l_head (hlist h list) = Some position))
    | Some p => gets (λ h, bool_decide (n_owner (hnode h p) = Some list) &&
                           bool_decide (n_next (hnode h p) = Some position))
    end) tt (
  modify (upd_hnode node (λ n, n <| n_previous := previous |>)) ;;;
  modify (upd_hnode node (λ n, n <| n_next := Some position |>)) ;;;
  modify (upd_hnode node (λ n, n <| n_owner := Some list |>)) ;;;
  modify (upd_hnode position (λ n, n <| n_previous := Some node |>)) ;;;
  match previous with
  | None => modify (upd_hlist list (λ r, r <| l_head := Some node |>))
  | Some p => modify (upd_hnode p (λ n, n <| n_next := Some node |>))
  end ;;;
  modify (upd_hlist list (λ r, r <| l_count ::= Z.succ |>)) ;;;
  RTS_ASSERT (rts_list_endpoints_are_valid list))))))))))).

Definition rts_list_remove (list_arg : option list_ptr) (node_arg : option node_ptr) : H unit :=
  RTS_REQUIRE_PTR list_arg tt (λ list,
  RTS_REQUIRE_PTR node_arg tt (λ node,
  RTS_REQUIRE (rts_list_endpoints_are_valid list) tt (
  RTS_REQUIRE (gets (λ h, bool_decide (n_owner (hnode h node) = Some list))) tt (
  RTS_REQUIRE (gets (λ h, 0 <? l_count (hlist h list))) tt (
  let* previous := gets (λ h, n_previous (hnode h node)) in
  let* next := gets (λ h, n_next (hnode h node)) in
  RTS_REQUIRE (match previous with
    | None => gets (λ h, bool_decide (l_head (hlist h list) = Some node))
    | Some p => gets (λ h, bool_decide (n_owner (hnode h p) = Some list) &&
                           bool_decide (n_next (hnode h p) = Some node))
    end) tt (
  RTS_REQUIRE (match next with
    | None => gets (λ h, bool_decide (l_tail (hlist h list) = Some node))
    | Some x => gets (λ h, bool_decide (n_owner (hnode h x) = Some list) &&
                           bool_decide (n_previous (hnode h x) = Some node))
    end) tt (
  match previous with
  | None => modify (upd_hlist list (λ r, r <| l_head := next |>))
  | Some p => modify (upd_hnode p (λ n, n <| n_next := next |>))
  end ;;;
  match next with
  | None => modify (upd_hlist list (λ r, r <| l_tail := previous |>))
  | Some x => modify (upd_hnode x (λ n, n <| n_previous := previous |>))
  end ;;;
  modify (upd_hnode node (λ n, n <| n_previous := None |>)) ;;;
  modify (upd_hnode node (λ n, n <| n_next := None |>)) ;;;
  modify (upd_hnode node (λ n, n <| n_owner := None |>)) ;;;
  modify (upd_hlist list (λ r, r <| l_count ::= Z.pred |>)) ;;;
  RTS_ASSERT (rts_list_endpoints_are_valid list)))))))).
End list_code.

(** ** Abstraction *)

Definition hlinks (h : list_heap) (n : node_ptr) : links node_ptr list_ptr :=
  mk_links (n_previous (hnode h n)) (n_next (hnode h n)) (n_owner (hnode h n)).

(** The nodes of list [l], from head to tail. *)
Definition contents (h : list_heap) (l : list_ptr) : list node_ptr :=
  walk (hlinks h) (l_head (hlist h l)) (Z.to_nat (l_count (hlist h l))).

Definition list_rep (h : list_heap) (l : list_ptr) (xs : list node_ptr) : Prop :=
  dll (hlinks h) l xs ∧
  hlist h l = mk_list (first_or xs None) (last_or xs None) (Z.of_nat (length xs)).

(** Every list is a chain that its head, tail and count describe, and a node
    in no list has null links. *)
Definition heap_wf (h : list_heap) : Prop :=
  nodes_clean (hlinks h) ∧ ∀ l, list_rep h l (contents h l).

(** [h'] is well-formed and differs from [h] in the sequence of [l] only. *)
Definition heap_step (h h' : list_heap) (l : list_ptr) (xs : list node_ptr) : Prop :=
  heap_wf h' ∧
  (∀ l', contents h' l' = if decide (l' = l) then xs else contents h l') ∧
  (∀ m, n_object (hnode h' m) = n_object (hnode h m)).

Lemma list_rep_contents h l xs : list_rep h l xs → contents h l = xs.
Proof.
  intros [(Hs&_) Hl]. unfold contents. rewrite Hl. simpl.
  rewrite Nat2Z.id. by eapply lseg_walk.
Qed.

Lemma heap_wf_intro h :
  nodes_clean (hlinks h) → (∀ l, ∃ xs, list_rep h l xs) → heap_wf h.
Proof.
  intros Hc Hl. split; [done|]. intros l. destruct (Hl l) as [xs Hx].
  by rewrite (list_rep_contents h l xs).
Qed.

Lemma zero_heap_wf : heap_wf zero_heap.
Proof. apply heap_wf_intro; [done|]. intros l. exists []. split; [by apply dll_empty|done]. Qed.

Section wf_facts.
Context (h : list_heap) (Hwf : heap_wf h).

Lemma wf_owner l n : n ∈ contents h l ↔ n_owner (hnode h n) = Some l.
Proof using Hwf. destruct Hwf as [_ Hl]. by apply (dll_owner (hlinks h) l), Hl. Qed.

Lemma wf_nodup l : NoDup (contents h l).
Proof using Hwf. destruct Hwf as [_ Hl]. by eapply dll_nodup, Hl. Qed.

Lemma wf_list l : hlist h l = mk_list (first_or (contents h l) None)
  (last_or (contents h l) None) (Z.of_nat (length (contents h l))).
Proof using Hwf. apply Hwf. Qed.

Lemma wf_head l : l_head (hlist h l) = head (contents h l).
Proof using Hwf. rewrite wf_list. apply first_or_head. Qed.

Lemma wf_count l : l_count (hlist h l) = Z.of_nat (length (contents h l)).
Proof using Hwf. by rewrite wf_list. Qed.

Lemma wf_count_zero l : l_count (hlist h l) = 0 ↔ contents h l = [].
Proof using Hwf. rewrite wf_count. destruct (contents h l); simpl; split; try done; lia. Qed.

Lemma wf_node l l1 n l2 :
  contents h l = l1 ++ n :: l2 →
  n_previous (hnode h n) = last_or l1 None ∧
  n_next (hnode h n) = first_or l2 None ∧ n_owner (hnode h n) = Some l.
Proof using Hwf.
  intros E. destruct Hwf as [_ Hl]. destruct (Hl l) as [Hd _]. rewrite E in Hd.
  apply dll_node in Hd. unfold hlinks in Hd. by injection Hd.
Qed.

Lemma wf_unlinked n :
  n_owner (hnode h n) = None → n_previous (hnode h n) = None ∧ n_next (hnode h n) = None.
Proof using Hwf.
  intros Hn. destruct Hwf as [Hc _]. specialize (Hc n Hn). unfold hlinks, unlinked in Hc.
  by injection Hc.
Qed.

Lemma wf_unlinked_notin l n : n_owner (hnode h n) = None → n ∉ contents h l.
Proof using Hwf. rewrite wf_owner. congruence. Qed.

Lemma wf_endpoints `{Config} l : rts_list_endpoints_are_valid l h = Done true h.
Proof using Hwf.
  unfold rts_list_endpoints_are_valid, gets. f_equal. rewrite wf_list. cbn [l_count l_head l_tail].
  destruct (contents h l) as [|x xs] eqn:E; [done|].
  rewrite (proj2 (Z.eqb_neq _ _)) by (simpl; lia). simpl first_or.
  destruct (wf_node l [] x xs E) as (Hp&_&Ho). rewrite Hp, Ho.
  destruct (exists_last (l := x :: xs)) as (ys&y&Hy); [done|].
  destruct (wf_node l ys y []) as (_&Hn&Ho'); [congruence|].
  rewrite Hy, last_or_snoc, Hn, Ho'. by rewrite !bool_decide_true.
Qed.
End wf_facts.

(** ** Splicing a well-formed heap *)

Lemma heap_splice_in h h' l n l1 l2 :
  heap_wf h → contents h l = l1 ++ l2 → n_owner (hnode h n) = None →
  (∀ m, hlinks h' m = splice_in (hlinks h) l n (last_or l1 None) (first_or l2 None) m) →
  (∀ m, n_object (hnode h' m) = n_object (hnode h m)) →
  hlist h' l = mk_list (first_or (l1 ++ n :: l2) None) (last_or (l1 ++ n :: l2) None)
                 (Z.of_nat (length (l1 ++ n :: l2))) →
  (∀ l', l' ≠ l → hlist h' l' = hlist h l') →
  heap_step h h' l (l1 ++ n :: l2).
Proof.
  intros Hwf E Hn Hlinks Hobj Hl Hl'.
  assert (dll (hlinks h) l (l1 ++ l2)) as Hd by (rewrite <- E; apply Hwf).
  assert (list_rep h' l (l1 ++ n :: l2)) as Hrep.
  { split; [|done]. by eapply dll_splice_in. }
  assert (∀ l', l' ≠ l → list_rep h' l' (contents h l')) as Hrep'.
  { intros l' Hne. split; [|rewrite Hl' by done; apply (wf_list h Hwf)].
    eapply dll_splice_in_other; [done|exact Hd|exact Hn|apply Hwf|exact Hlinks]. }
  split_and!; [| |done].
  - apply heap_wf_intro; [eapply clean_splice_in; [exact Hd|apply Hwf|done]|].
    intros l'. destruct (decide (l' = l)) as [->|]; eauto.
  - intros l'. case_decide; subst; apply list_rep_contents; auto.
Qed.

Lemma heap_splice_out h h' l n l1 l2 :
  heap_wf h → contents h l = l1 ++ n :: l2 →
  (∀ m, hlinks h' m = splice_out (hlinks h) n (last_or l1 None) (first_or l2 None) m) →
  (∀ m, n_object (hnode h' m) = n_object (hnode h m)) →
  hlist h' l = mk_list (first_or (l1 ++ l2) None) (last_or (l1 ++ l2) None)
                 (Z.of_nat (length (l1 ++ l2))) →
  (∀ l', l' ≠ l → hlist h' l' = hlist h l') →
  heap_step h h' l (l1 ++ l2).
Proof.
  intros Hwf E Hlinks Hobj Hl Hl'.
  assert (dll (hlinks h) l (l1 ++ n :: l2)) as Hd by (rewrite <- E; apply Hwf).
  assert (list_rep h' l (l1 ++ l2)) as Hrep.
  { split; [|done]. by eapply dll_splice_out. }
  assert (∀ l', l' ≠ l → list_rep h' l' (contents h l')) as Hrep'.
  { intros l' Hne. split; [|rewrite Hl' by done; apply (wf_list h Hwf)].
    eapply dll_splice_out_other; [done|exact Hd|apply Hwf|exact Hlinks]. }
  split_and!; [| |done].
  - apply heap_wf_intro; [eapply clean_splice_out; [exact Hd|apply Hwf|done]|].
    intros l'. destruct (decide (l' = l)) as [->|]; eauto.
  - intros l'. case_decide; subst; apply list_rep_contents; auto.
Qed.

(** ** Running the guards *)

Section require.
Context `{Config}.

Lemma wp_list_endpoints_assert (Q : unit → list_heap → Prop) l h :
  heap_wf h → Q tt h →
  wp (RTS_ASSERT (rts_list_endpoints_are_valid l)) Q h.
Proof. intros Hwf HQ. apply wp_RTS_ASSERT; [by apply wf_endpoints|done]. Qed.
End require.

Ltac list_guard := apply wp_require; [unfold gets; f_equal|].

(** Compare two heaps node by node. *)
Ltac heap_cases :=
  repeat (rewrite ?hnode_upd_hnode, ?hnode_upd_hlist, ?hlist_upd_hnode, ?hlist_upd_hlist;
          repeat case_decide; simplify_eq; cbn).

Ltac heap_links :=
  intros m; unfold hlinks, splice_in, splice_out, unlinked; cbn [first_or];
  rewrite ?last_or_snoc, ?last_or_nil; heap_cases; congruence.

(** ** The operations on sequences *)

Section list_specs.
Context `{Config}.
Implicit Types (h : list_heap) (n : node_ptr).

(** The end of an operation that linked, or unlinked, one node. *)
Lemma wp_linked h h' l n l1 l2 :
  heap_wf h → contents h l = l1 ++ l2 → n_owner (hnode h n) = None →
  (∀ m, hlinks h' m = splice_in (hlinks h) l n (last_or l1 None) (first_or l2 None) m) →
  (∀ m, n_object (hnode h' m) = n_object (hnode h m)) →
  (∀ l', hlist h' l' = if decide (l' = l)
     then mk_list (first_or l1 (Some n)) (last_or l2 (Some n))
            (Z.succ (Z.of_nat (length (l1 ++ l2))))
     else hlist h l') →
  wp (RTS_ASSERT (rts_list_endpoints_are_valid l))
     (λ _ h'', heap_step h h'' l (l1 ++ n :: l2)) h'.
Proof.
  intros Hwf E Hn H1 H2 H3. assert (heap_step h h' l (l1 ++ n :: l2)) as Hst.
  { apply heap_splice_in; [done..| |].
    - rewrite H3, decide_True by done.
      rewrite last_or_app, last_or_cons, first_or_app, !length_app. simpl. f_equal; lia.
    - intros l' ?. by rewrite H3, decide_False. }
  apply wp_list_endpoints_assert; [by destruct Hst|done].
Qed.

Lemma wp_unlinked h h' l n l1 l2 :
  heap_wf h → contents h l = l1 ++ n :: l2 →
  (∀ m, hlinks h' m = splice_out (hlinks h) n (last_or l1 None) (first_or l2 None) m) →
  (∀ m, n_object (hnode h' m) = n_object (hnode h m)) →
  (∀ l', hlist h' l' = if decide (l' = l)
     then mk_list (first_or (l1 ++ l2) None) (last_or (l1 ++ l2) None)
            (Z.pred (Z.of_nat (length (l1 ++ n :: l2))))
     else hlist h l') →
  wp (RTS_ASSERT (rts_list_endpoints_are_valid l))
     (λ _ h'', heap_step h h'' l (l1 ++ l2)) h'.
Proof.
  intros Hwf E H1 H2 H3. assert (heap_step h h' l (l1 ++ l2)) as Hst.
  { eapply heap_splice_out; [done..| |].
    - rewrite H3, decide_True by done. rewrite !length_app. simpl. f_equal; lia.
    - intros l' ?. by rewrite H3, decide_False. }
  apply wp_list_endpoints_assert; [by destruct Hst|done].
Qed.

Lemma rts_list_push_back_spec h l n :
  heap_wf h → n_owner (hnode h n) = None →
  Z.of_nat (length (contents h l)) < SIZE_MAX →
  wp (rts_list_push_back (Some l) (Some n))
     (λ _ h', heap_step h h' l (contents h l ++ [n])) h.
Proof.
  intros Hwf Hn Hsz. destruct (wf_unlinked h Hwf n Hn) as [Hp Hx].
  pose proof (wf_unlinked_notin h Hwf l n Hn) as Hnin.
  unfold rts_list_push_back, RTS_REQUIRE_PTR.
  apply wp_require; [by apply wf_endpoints|].
  do 3 (list_guard; [by apply bool_decide_true|]).
  list_guard; [rewrite (wf_count h Hwf); by apply Z.ltb_lt|].
  apply wp_bind, wp_gets. rewrite (wf_list h Hwf). cbn [l_tail].
  do 3 (apply wp_bind, wp_modify).
  destruct (last_or (contents h l) None) as [tl|] eqn:Etl.
  - assert (tl ∈ contents h l) by by apply last_or_elem_of.
    assert (tl ≠ n) by (intros ->; done).
    do 3 (apply wp_bind, wp_modify). apply wp_linked; [done|by rewrite app_nil_r|done|..].
    + rewrite Etl. heap_links.
    + intros m. by heap_cases.
    + intros l'. heap_cases; [|done]. rewrite (wf_list h Hwf), app_nil_r; cbn.
      by destruct (contents h l).
  - do 3 (apply wp_bind, wp_modify). apply wp_linked; [done|by rewrite app_nil_r|done|..].
    + rewrite Etl. heap_links.
    + intros m. by heap_cases.
    + intros l'. heap_cases; [|done]. rewrite (wf_list h Hwf), app_nil_r; cbn.
      by destruct (contents h l) as [|? ? _] using rev_ind; [|rewrite last_or_snoc in Etl].
Qed.

Lemma rts_list_insert_before_spec h l pos n l1 l2 :
  heap_wf h → contents h l = l1 ++ pos :: l2 → n_owner (hnode h n) = None →
  Z.of_nat (length (contents h l)) < SIZE_MAX →
  wp (rts_list_insert_before (Some l) (Some pos) (Some n))
     (λ _ h', heap_step h h' l (l1 ++ n :: pos :: l2)) h.
Proof.
  intros Hwf E Hn Hsz. destruct (wf_unlinked h Hwf n Hn) as [Hp Hx].
  pose proof (wf_unlinked_notin h Hwf l n Hn) as Hnin. rewrite E in Hnin.
  destruct (wf_node h Hwf l l1 pos l2 E) as (Hpp&Hpn&Hpo).
  unfold rts_list_insert_before, RTS_REQUIRE_PTR.
  apply wp_require; [by apply wf_endpoints|].
  do 4 (list_guard; [by apply bool_decide_true|]).
  list_guard; [rewrite (wf_count h Hwf); by apply Z.ltb_lt|].
  apply wp_bind, wp_gets. rewrite Hpp.
  assert (pos ≠ n) by set_solver.
  destruct l1 as [|p l1' _] using rev_ind.
  - rewrite last_or_nil. list_guard; [by apply bool_decide_true; rewrite (wf_list h Hwf), E|].
    do 6 (apply wp_bind, wp_modify). apply wp_linked; [done..| | |].
    + heap_links.
    + intros m. by heap_cases.
    + intros l'. heap_cases; [|done]. rewrite (wf_list h Hwf), E. cbn. by rewrite !last_or_cons.
  - rewrite last_or_snoc. rewrite <- app_assoc in E. simpl in E.
    destruct (wf_node h Hwf l l1' p (pos :: l2) E) as (_&Hpn'&Hpo').
    assert (p ≠ n) by set_solver.
    pose proof (wf_nodup h Hwf l) as Hnd. rewrite E in Hnd.
    assert (p ≠ pos). { destruct (nodup_mid _ _ _ p Hnd) as (_&_&?). set_solver. }
    list_guard; [by rewrite Hpn', Hpo', !bool_decide_true|].
    do 6 (apply wp_bind, wp_modify). apply wp_linked; [done|by rewrite <- app_assoc|done|..].
    + heap_links.
    + intros m. by heap_cases.
    + intros l'. heap_cases; [|done]. rewrite (wf_list h Hwf), E, <- app_assoc. cbn.
      rewrite last_or_app, !last_or_cons. by destruct l1'.
Qed.

Lemma rts_list_remove_spec h l n l1 l2 :
  heap_wf h → contents h l = l1 ++ n :: l2 →
  wp (rts_list_remove (Some l) (Some n)) (λ _ h', heap_step h h' l (l1 ++ l2)) h.
Proof.
  intros Hwf E. destruct (wf_node h Hwf l l1 n l2 E) as (Hp&Hx&Ho).
  pose proof (wf_nodup h Hwf l) as Hnd. rewrite E in Hnd.
  pose proof (λ m, nodup_mid _ _ _ m Hnd) as Hmid.
  unfold rts_list_remove, RTS_REQUIRE_PTR.
  apply wp_require; [by apply wf_endpoints|].
  list_guard; [by apply bool_decide_true|].
  list_guard; [rewrite (wf_count h Hwf), E, length_app; apply Z.ltb_lt; simpl; lia|].
  do 2 (apply wp_bind, wp_gets). rewrite Hp, Hx.
  apply wp_require.
  { destruct l1 as [|p l1' _] using rev_ind; unfold gets.
    - rewrite last_or_nil. f_equal. apply bool_decide_true. by rewrite (wf_list h Hwf), E.
    - rewrite last_or_snoc. rewrite <- app_assoc in E.
      destruct (wf_node h Hwf l l1' p (n :: l2) E) as (_&->&->). by rewrite !bool_decide_true. }
  apply wp_require.
  { destruct l2 as [|x l2']; unfold gets; cbn [first_or].
    - f_equal. apply bool_decide_true. by rewrite (wf_list h Hwf), E, last_or_app.
    - rewrite cons_middle, app_assoc in E.
      destruct (wf_node h Hwf l (l1 ++ [n]) x l2' E) as (->&_&->).
      by rewrite last_or_snoc, !bool_decide_true. }
  assert (∀ p, last_or l1 None = Some p → p ≠ n).
  { intros p Hl%last_or_elem_of. specialize (Hmid p). set_solver. }
  assert (∀ x, first_or l2 None = Some x → x ≠ n).
  { intros x Hl%first_or_elem_of. specialize (Hmid x). set_solver. }
  assert (∀ p x, last_or l1 None = Some p → first_or l2 None = Some x → p ≠ x).
  { intros p x Hl%last_or_elem_of Hf%first_or_elem_of. specialize (Hmid p). set_solver. }
  apply wp_bind. destruct (last_or l1 None) as [p|] eqn:Ep;
    apply wp_modify; apply wp_bind; destruct (first_or l2 None) as [x|] eqn:Ex;
    apply wp_modify; do 4 (apply wp_bind, wp_modify); (eapply wp_unlinked; [done|exact E|..]).
  all: try (intros m; by heap_cases).
  all: try (rewrite ?Ep, ?Ex;
    repeat match goal with H : ∀ _, _ |- _ => first [specialize (H _ eq_refl) | specialize (H _ _ eq_refl eq_refl)] end;
    heap_links).
  all: intros l'; heap_cases; [|done]; rewrite (wf_list h Hwf), E; cbn;
    rewrite !first_or_app, !last_or_app, !last_or_cons, ?Ep.
  all: destruct l1, l2; simplify_eq/=; rewrite ?last_or_cons in *; try done.
  all: exfalso; by eapply last_or_None.
Qed.
End list_specs.

(** ** Refinement of sequences

    The abstract state gives each list its sequence of nodes; a step relation
    says when an operation may be called and what it does to the sequences. *)

Inductive list_op :=
  | ListPushBack (l : list_ptr) (n : node_ptr)
  | ListInsertBefore (l : list_ptr) (pos n : node_ptr)
  | ListRemove (l : list_ptr) (n : node_ptr)
  | ListIsEmpty (l : list_ptr)
  | ListNodeIsLinked (n : node_ptr).

Definition sequences := list_ptr → list node_ptr.

Definition set_sequence (q : sequences) (l : list_ptr) (xs : list node_ptr) : sequences :=
  λ l', if decide (l' = l) then xs else q l'.

Section list_refinement.
Context `{Config}.

Inductive list_spec (q : sequences) : list_op → bool → sequences → Prop :=
  | spec_push_back l n :
      (∀ l', n ∉ q l') → Z.of_nat (length (q l)) < SIZE_MAX →
      list_spec q (ListPushBack l n) false (set_sequence q l (q l ++ [n]))
  | spec_insert_before l pos n l1 l2 :
      (∀ l', n ∉ q l') → Z.of_nat (length (q l)) < SIZE_MAX → q l = l1 ++ pos :: l2 →
      list_spec q (ListInsertBefore l pos n) false (set_sequence q l (l1 ++ n :: pos :: l2))
  | spec_remove l n l1 l2 :
      q l = l1 ++ n :: l2 →
      list_spec q (ListRemove l n) false (set_sequence q l (l1 ++ l2))
  | spec_is_empty l :
      list_spec q (ListIsEmpty l) (bool_decide (q l = [])) q
  | spec_linked n l : n ∈ q l → list_spec q (ListNodeIsLinked n) true q
  | spec_not_linked n : (∀ l, n ∉ q l) → list_spec q (ListNodeIsLinked n) false q.

Inductive list_specs : sequences → list list_op → list bool → sequences → Prop :=
  | specs_nil q : list_specs q [] [] q
  | specs_cons q op b q1 ops bs q2 :
      list_spec q op b q1 → list_specs q1 ops bs q2 → list_specs q (op :: ops) (b :: bs) q2.

Definition run_list_op (op : list_op) : H bool :=
  match op with
  | ListPushBack l n => rts_list_push_back (Some l) (Some n) ;;; ret false
  | ListInsertBefore l pos n => rts_list_insert_before (Some l) (Some pos) (Some n) ;;; ret false
  | ListRemove l n => rts_list_remove (Some l) (Some n) ;;; ret false
  | ListIsEmpty l => rts_list_is_empty (Some l)
  | ListNodeIsLinked n => rts_list_node_is_linked (Some n)
  end.

Fixpoint run_list_ops (ops : list list_op) : H (list bool) :=
  match ops with
  | [] => ret []
  | op :: ops' => let* b := run_list_op op in let* bs := run_list_ops ops' in ret (b :: bs)
  end.

Definition heap_abs (h : list_heap) (q : sequences) : Prop :=
  heap_wf h ∧ ∀ l, contents h l = q l.

Lemma heap_abs_unlinked h q n :
  heap_abs h q → (∀ l, n ∉ q l) → n_owner (hnode h n) = None.
Proof.
  intros [Hwf Hq] Hn. destruct (n_owner (hnode h n)) as [l|] eqn:E; [|done].
  apply (wf_owner h Hwf) in E. rewrite Hq in E. by apply Hn in E.
Qed.

Lemma heap_step_abs h h' q l xs :
  heap_abs h q → heap_step h h' l xs → heap_abs h' (set_sequence q l xs).
Proof.
  intros [_ Hq] (Hwf&Hc&_). split; [done|]. intros l'. rewrite Hc. unfold set_sequence.
  case_decide; auto.
Qed.

Lemma run_list_op_refines h q op b q' :
  heap_abs h q → list_spec q op b q' →
  wp (run_list_op op) (λ b' h', b' = b ∧ heap_abs h' q') h.
Proof.
  intros Habs Hs. pose proof Habs as [Hwf Hq]. destruct Hs as [| | | |n l Hn|]; cbn [run_list_op].
  - apply wp_bind. eapply wp_mono; [apply rts_list_push_back_spec; [done| |by rewrite Hq]|].
    { by eapply heap_abs_unlinked. }
    intros [] h' Hst. apply wp_ret. rewrite Hq in Hst. eauto using heap_step_abs.
  - apply wp_bind.
    eapply wp_mono; [eapply rts_list_insert_before_spec; [done|by rewrite Hq| |by rewrite Hq]|].
    { by eapply heap_abs_unlinked. }
    intros [] h' Hst. apply wp_ret. eauto using heap_step_abs.
  - apply wp_bind. eapply wp_mono; [eapply rts_list_remove_spec; [done|by rewrite Hq]|].
    intros [] h' Hst. apply wp_ret. eauto using heap_step_abs.
  - cbn. apply wp_require; [by apply wf_endpoints|]. apply wp_gets. split; [|done].
    rewrite <- Hq. case_bool_decide as E; [by apply Z.eqb_eq, wf_count_zero|].
    apply Z.eqb_neq. by rewrite wf_count_zero.
  - cbn. apply wp_bind, wp_gets.
    rewrite <- Hq, (wf_owner h Hwf) in Hn. rewrite Hn. by apply wp_ret.
  - cbn. apply wp_bind, wp_gets. assert (n_owner (hnode h n) = None) as E
      by by eapply heap_abs_unlinked.
    destruct (wf_unlinked h Hwf n E) as [Hp Hx]. rewrite E.
    do 2 (list_guard; [by apply bool_decide_true|]). by apply wp_ret.
Qed.

(** C18: Every sequence of intrusive-list operations that respects the callers'
    obligations (link only an unlinked node, insert before or remove only a
    member, stay below SIZE_MAX) returns, without tripping an assertion, and
    acts on all lists of the kernel at once as the corresponding sequence
    operations, with the same answers to queries. *)
Theorem intrusive_lists_refine_sequences ops h q bs q' :
  heap_abs h q → list_specs q ops bs q' →
  wp (run_list_ops ops) (λ bs' h', bs' = bs ∧ heap_abs h' q') h.
Proof.
  intros Habs Hs. revert h Habs. induction Hs as [q|q op b q1 ops bs q2 Hop _ IH]; intros h Habs.
  - by apply wp_ret.
  - cbn. apply wp_bind. eapply wp_mono; [by eapply run_list_op_refines|].
    intros b' h1 [-> Habs1]. apply wp_bind. eapply wp_mono; [by apply IH|].
    intros bs' h2 [-> ?]. by apply wp_ret.
Qed.
End list_refinement.

Section witness.
#[local] Existing Instance fp_config.

(** A queue of three nodes, one inserted in the middle and the head removed. *)
Lemma intrusive_lists_refine_sequences_witness :
wp (run_list_ops
      [ListPushBack LDelay (NDelay TIdle); ListPushBack LDelay (NDelay (TApp 1));
       ListInsertBefore LDelay (NDelay (TApp 1)) (NDelay (TApp 0));
       ListRemove LDelay (NDelay TIdle); ListIsEmpty LDelay; ListNodeIsLinked (NDelay TIdle)])
   (λ bs h', bs = [false; false; false; false; false; false] ∧
             contents h' LDelay = [NDelay (TApp 0); NDelay (TApp 1)]) zero_heap.
Proof.
eapply wp_mono.
- eapply (intrusive_lists_refine_sequences _ zero_heap (λ _, [])).
  + split; [apply zero_heap_wf|done].
  + eapply specs_cons; [apply spec_push_back; [set_solver|by vm_compute]|].
    eapply specs_cons; [apply spec_push_back; [|by vm_compute]|].
    { intros l'. unfold set_sequence. case_decide; set_solver. }
    eapply specs_cons; [apply (spec_insert_before _ _ _ _ [NDelay TIdle] []); [|by vm_compute|done]|].
    { intros l'. unfold set_sequence. repeat case_decide; set_solver. }
    eapply specs_cons; [apply (spec_remove _ _ _ [] [NDelay (TApp 0); NDelay (TApp 1)]); done|].
    eapply specs_cons; [apply spec_is_empty|].
    eapply specs_cons; [apply spec_not_linked|apply specs_nil].
    intros l'. unfold set_sequence. repeat case_decide; set_solver.
- intros bs h' [-> [_ Hq]]. split; [reflexivity|]. rewrite Hq. reflexivity.
Defined.
End witness.
