(* ===== verification/Time.v ===== *)
(** * Wrap-safe tick arithmetic (kernel/time_internal.h)

    Ticks are 32-bit and wrap.  [rts_tick_before a b] holds when [b] lies
    strictly less than half the range ahead of [a]; on a window of ticks shorter than half
    the range this is the order of the ticks' distances from any origin at or
    before the window. *)

From S2P Require Import Prelude.

Definition RTS_TICK_HALF_RANGE : Z := 2147483648.
Definition RTS_TICK_MAX_ADVANCE : Z := 2147483647.

Definition rts_tick_before (a b : Z) : bool :=
  let distance := u32 (a - b) in
  negb (distance =? RTS_TICK_HALF_RANGE) &&
  negb (Z.land distance RTS_TICK_HALF_RANGE =? 0).

Definition rts_tick_reached (now deadline : Z) : bool :=
  (now =? deadline) || rts_tick_before deadline now.

Definition rts_tick_elapsed (start end_ : Z) : Z := u32 (end_ - start).

Definition rts_tick_relative_is_valid (relative_ticks : Z) : bool :=
  relative_ticks <=? RTS_TICK_MAX_ADVANCE.

(** ** The order *)

Lemma u32_neg x : is_u32 (u32 x) → u32 (- x) = if u32 x =? 0 then 0 else 4294967296 - u32 x.
Proof.
  intros Hx. unfold u32 in *.
  destruct (Z.eqb_spec (x mod 4294967296) 0) as [E|E].
  - apply Z.mod_opp_l_z; [lia|done].
  - apply Z.mod_opp_l_nz; [lia|done].
Qed.

(** [a] is before [b]: [b] is ahead of [a] by less than half the range. *)
Lemma rts_tick_before_iff a b :
  rts_tick_before a b = true ↔ 0 < u32 (b - a) < RTS_TICK_HALF_RANGE.
Proof.
  unfold rts_tick_before, RTS_TICK_HALF_RANGE.
  assert (∀ d, is_u32 d → (Z.land d 2147483648 =? 0) = negb (2147483648 <=? d)) as Hland.
  { intros d Hd. rewrite <- testbit_31 by done. apply (land_shiftl_1 d 31). lia. }
  rewrite Hland by apply u32_range.
  replace (b - a) with (- (a - b)) by lia. rewrite u32_neg by apply u32_range.
  pose proof (u32_range (a - b)) as Hr. unfold is_u32, UINT32_MAX in Hr.
  set (d := u32 (a - b)) in *. clearbody d.
  destruct (Z.eqb_spec d 2147483648), (Z.leb_spec 2147483648 d), (Z.eqb_spec d 0);
    simpl; split; intros; try done; lia.
Qed.

Lemma rts_tick_before_false a b :
  rts_tick_before a b = false ↔ ¬ (0 < u32 (b - a) < RTS_TICK_HALF_RANGE).
Proof. rewrite <- rts_tick_before_iff. by destruct (rts_tick_before a b). Qed.

Lemma rts_tick_before_irrefl a : rts_tick_before a a = false.
Proof. apply rts_tick_before_false. rewrite Z.sub_diag. change (u32 0) with 0. unfold RTS_TICK_HALF_RANGE. lia. Qed.

Lemma rts_tick_reached_iff now deadline :
  is_u32 now → is_u32 deadline →
  rts_tick_reached now deadline = true ↔ u32 (now - deadline) < RTS_TICK_HALF_RANGE.
Proof.
  intros Hn Hd. unfold rts_tick_reached. rewrite orb_true_iff, rts_tick_before_iff, Z.eqb_eq.
  pose proof (u32_range (now - deadline)) as Hr. unfold is_u32, UINT32_MAX in *.
  split.
  - intros [->|]; [|lia]. rewrite Z.sub_diag. change (u32 0) with 0. unfold RTS_TICK_HALF_RANGE. lia.
  - intros. destruct (Z.eq_dec (u32 (now - deadline)) 0) as [E|E]; [left|right; lia].
    unfold u32 in E. destruct (u32_cases (now - deadline) ltac:(lia)) as [[? E']|[[? E']|[? E']]]; unfold u32 in E';
      lia.
Qed.

(** ** A window of ticks

    [ahead base t] is how far [t] lies ahead of [base]. *)
Definition ahead (base t : Z) : Z := u32 (t - base).

Lemma ahead_range base t : 0 ≤ ahead base t ≤ UINT32_MAX.
Proof. apply u32_range. Qed.

Lemma ahead_diff base a b : u32 (b - a) = u32 (ahead base b - ahead base a).
Proof.
  unfold ahead. rewrite u32_u32_sub_l, u32_u32_sub_r. f_equal. lia.
Qed.

Lemma ahead_add base d : 0 ≤ d ≤ UINT32_MAX → ahead base (u32 (base + d)) = d.
Proof.
  intros Hd. unfold ahead. rewrite u32_u32_sub_l.
  replace (base + d - base) with d by lia. by apply u32_small.
Qed.

(** In a window of half the range from [base], [rts_tick_before] is [<] on
    distances from [base]. *)
Lemma rts_tick_before_window base a b :
  ahead base a < RTS_TICK_HALF_RANGE → ahead base b < RTS_TICK_HALF_RANGE →
  rts_tick_before a b = true ↔ ahead base a < ahead base b.
Proof.
  intros Ha Hb. rewrite rts_tick_before_iff, (ahead_diff base).
  pose proof (ahead_range base a). pose proof (ahead_range base b).
  unfold RTS_TICK_HALF_RANGE, UINT32_MAX in *.
  destruct (u32_cases (ahead base b - ahead base a) ltac:(lia)) as [[? ->]|[[? ->]|[? ->]]]; lia.
Qed.

Lemma ahead_inj base a b : is_u32 a → is_u32 b → ahead base a = ahead base b → a = b.
Proof.
  unfold ahead, u32, is_u32, UINT32_MAX. intros Ha Hb E.
  assert ((a - b) mod 4294967296 = 0) as E0.
  { replace (a - b) with ((a - base) - (b - base)) by lia. rewrite Zminus_mod, E, Z.sub_diag. done. }
  apply Z.mod_divide in E0 as [k Hk]; lia.
Qed.

Lemma rts_tick_reached_window base now deadline :
  is_u32 now → is_u32 deadline →
  ahead base now < RTS_TICK_HALF_RANGE → ahead base deadline < RTS_TICK_HALF_RANGE →
  rts_tick_reached now deadline = true ↔ ahead base deadline ≤ ahead base now.
Proof.
  intros Hn Hd Hna Hda. unfold rts_tick_reached.
  rewrite orb_true_iff, Z.eqb_eq, (rts_tick_before_window base) by done. split.
  - intros [->|]; lia.
  - intros Hle. destruct (Z.eq_dec (ahead base deadline) (ahead base now)) as [E|]; [left|right; lia].
    symmetry. by eapply ahead_inj.
Qed.

(** Two ticks of a window are never half the range apart. *)
Lemma window_not_half base a b :
  ahead base a < RTS_TICK_HALF_RANGE → ahead base b < RTS_TICK_HALF_RANGE →
  u32 (a - b) ≠ RTS_TICK_HALF_RANGE.
Proof.
  intros Ha Hb. rewrite (ahead_diff base).
  pose proof (ahead_range base a). pose proof (ahead_range base b).
  unfold RTS_TICK_HALF_RANGE, UINT32_MAX in *.
  destruct (u32_cases (ahead base a - ahead base b) ltac:(lia)) as [[? ->]|[[? ->]|[? ->]]]; lia.
Qed.

(** Moving the origin of the window forward. *)
Lemma ahead_shift base base' t :
  ahead base base' ≤ ahead base t → ahead base' t = ahead base t - ahead base base'.
Proof.
  intros Hle. unfold ahead at 1. replace (t - base') with ((t - base) - (base' - base)) by lia.
  rewrite <- u32_u32_sub_l, <- u32_u32_sub_r. fold (ahead base t) (ahead base base').
  pose proof (ahead_range base t). pose proof (ahead_range base base').
  apply u32_small. unfold is_u32. lia.
Qed.

(** C32: On ticks that lie less than half the range ahead of a common origin the
    wrapping comparisons of the kernel are the true order of the instants:
    [rts_tick_before] is strict precedence (so irreflexive, transitive and
    total there), [rts_tick_reached] is its reflexive closure, and the elapsed
    time between two of them is the difference of their distances. *)
Theorem tick_comparison_is_true_order base a b :
  is_u32 a → is_u32 b → ahead base a < RTS_TICK_HALF_RANGE → ahead base b < RTS_TICK_HALF_RANGE →
  rts_tick_before a b = (ahead base a <? ahead base b) ∧
  rts_tick_reached b a = (ahead base a <=? ahead base b) ∧
  (rts_tick_reached b a = true → rts_tick_elapsed a b = ahead base b - ahead base a).
Proof.
  intros Ha Hb Hwa Hwb.
  assert (rts_tick_reached b a = (ahead base a <=? ahead base b)) as Hr.
  { apply eq_true_iff_eq. rewrite (rts_tick_reached_window base) by done. symmetry. apply Z.leb_le. }
  split_and!; [|done|].
  - apply eq_true_iff_eq. rewrite (rts_tick_before_window base) by done. symmetry. apply Z.ltb_lt.
  - rewrite Hr. intros Hle%Z.leb_le. by apply ahead_shift.
Qed.

Lemma tick_comparison_is_true_order_witness :
  rts_tick_before 4294967290 3 = true ∧ rts_tick_reached 3 4294967290 = true.
Proof.
  destruct (tick_comparison_is_true_order 4294967200 4294967290 3) as (->&->&_); by vm_compute.
Defined.
