(* ===== verification/KernelLists.v ===== *)
(** * The lists of the kernel

    Every queue of the kernel is an intrusive list whose nodes are members of
    tasks or timers.  [lists_ok] adds to the well-formedness of the heap that
    each node hangs in a list of its kind, that its [object] member points back
    to the struct that contains it while it is linked (and, in a task, only
    then; timer_queue.c does not clear it), and that only nodes of existing tasks and timers are linked.  The rules at the end are
    those of the idioms "set object, link" and "unlink, clear object" that
    ready_queue.c, delay_queue.c, policy_edf.c and timer_queue.c share. *)

From S2P Require Import Prelude Machine Config Types Links IntrusiveList.

(** Call a list operation from kernel code. *)
Definition kheap {A} (m : H A) : K A := zoom k_heap (λ h s, s <| k_heap := h |>) m.

Definition kcontents (s : kernel) (l : list_ptr) : list node_ptr := contents (k_heap s) l.

(** The struct that contains a node. *)
Definition node_object (n : node_ptr) : object_ptr :=
  match n with NReady t | NDelay t => OTask t | NTimer i => OTimer i end.

#[export] Instance NReady_inj : Inj (=) (=) NReady.
Proof. by intros ?? [=]. Qed.
#[export] Instance NDelay_inj : Inj (=) (=) NDelay.
Proof. by intros ?? [=]. Qed.
#[export] Instance NTimer_inj : Inj (=) (=) NTimer.
Proof. by intros ?? [=]. Qed.

(** The task of a list of ready or delay nodes. *)
Definition node_task (n : node_ptr) : option task_ptr :=
  match n with NReady t | NDelay t => Some t | NTimer _ => None end.

Definition tasks_of (xs : list node_ptr) : list task_ptr := omap node_task xs.

Definition timers_of (xs : list node_ptr) : list Z :=
  omap (λ n, match n with NTimer i => Some i | _ => None end) xs.

Section lists_ok.
Context `{ConfigOk}.

(** The tasks and timers the store has room for. *)
Definition all_tasks : list task_ptr :=
  TIdle :: TTimerService :: (TApp <$> seqZ 0 RTS_MAX_TASKS).
Definition all_timers : list Z := seqZ 0 RTS_MAX_TIMERS.

Definition node_fits (n : node_ptr) (l : list_ptr) : Prop :=
  match n, l with
  | NReady t, LReady p => t ∈ all_tasks ∧ 0 ≤ p < RTS_PRIORITY_COUNT
  | NReady t, LEdf => t ∈ all_tasks
  | NDelay t, LDelay => t ∈ all_tasks
  | NTimer i, LTimer => i ∈ all_timers
  | _, _ => False
  end.

Record lists_ok (h : list_heap) : Prop := {
  lo_wf : heap_wf h;
  lo_free n t : node_task n = Some t → n_owner (hnode h n) = None → n_object (hnode h n) = None;
  lo_linked n l : n ∈ contents h l →
    node_fits n l ∧ n_object (hnode h n) = Some (node_object n)
}.

(** [h'] is as good and differs from [h] in the sequence of [l] only. *)
Definition lists_step (h h' : list_heap) (l : list_ptr) (xs : list node_ptr) : Prop :=
  lists_ok h' ∧ ∀ l', contents h' l' = if decide (l' = l) then xs else contents h l'.

Lemma zero_lists_ok : lists_ok zero_heap.
Proof. split; [apply zero_heap_wf|done|by intros n l ?%elem_of_nil]. Qed.

(** ** Capacity *)

Lemma all_tasks_length : Z.of_nat (length all_tasks) = RTS_SCHEDULABLE_TASK_CAPACITY.
Proof.
  pose proof cfg_tasks. unfold all_tasks, RTS_SCHEDULABLE_TASK_CAPACITY.
  cbn [length]. rewrite length_fmap, length_seqZ. lia.
Qed.

Lemma all_tasks_app i : TApp i ∈ all_tasks ↔ 0 ≤ i < RTS_MAX_TASKS.
Proof.
  unfold all_tasks. rewrite !elem_of_cons, list_elem_of_fmap. setoid_rewrite elem_of_seqZ.
  split; [intros [?|[?|(j&?&?)]]; simplify_eq; lia|]. intros. right; right. exists i. split; [done|lia].
Qed.

Lemma fits_length (xs : list node_ptr) l :
  NoDup xs → (∀ n, n ∈ xs → node_fits n l) →
  Z.of_nat (length xs) ≤ RTS_SCHEDULABLE_TASK_CAPACITY ∨
  Z.of_nat (length xs) ≤ RTS_MAX_TIMERS.
Proof.
  intros Hnd Hf.
  assert (∀ ys : list node_ptr, (∀ n, n ∈ xs → n ∈ ys) → (length xs ≤ length ys)%nat) as Hlen.
  { intros ys Hs. apply submseteq_length, NoDup_submseteq; done. }
  destruct l as [p| | |].
  - left. rewrite <- all_tasks_length, <- (length_fmap NReady). apply inj_le, Hlen.
    intros n Hn. specialize (Hf n Hn). destruct n as [t| |]; simpl in Hf; try done.
    apply list_elem_of_fmap. exists t. naive_solver.
  - left. rewrite <- all_tasks_length, <- (length_fmap NReady). apply inj_le, Hlen.
    intros n Hn. specialize (Hf n Hn). destruct n as [t| |]; simpl in Hf; try done.
    apply list_elem_of_fmap. eauto.
  - left. rewrite <- all_tasks_length, <- (length_fmap NDelay). apply inj_le, Hlen.
    intros n Hn. specialize (Hf n Hn). destruct n as [|t|]; simpl in Hf; try done.
    apply list_elem_of_fmap. eauto.
  - right. pose proof cfg_timers.
    assert (RTS_MAX_TIMERS = Z.of_nat (length (NTimer <$> all_timers))) as ->.
    { rewrite length_fmap. unfold all_timers. rewrite length_seqZ. lia. }
    apply inj_le, Hlen.
    intros n Hn. specialize (Hf n Hn). destruct n as [| |i]; simpl in Hf; try done.
    apply list_elem_of_fmap. eauto.
Qed.

Section facts.
Context (h : list_heap) (Hok : lists_ok h).

Lemma lo_capacity l : Z.of_nat (length (contents h l)) < SIZE_MAX.
Proof.
  destruct (fits_length (contents h l) l) as [Hl|Hl];
    [apply wf_nodup, Hok|intros n Hn; by apply (lo_linked h Hok)|..];
    destruct cfg_size_max; unfold RTS_SCHEDULABLE_TASK_CAPACITY in *; lia.
Qed.

Lemma lo_task_capacity l :
  l ≠ LTimer → Z.of_nat (length (contents h l)) ≤ RTS_SCHEDULABLE_TASK_CAPACITY.
Proof.
  intros Hl. assert (∀ n, n ∈ contents h l → node_fits n l) as Hf.
  { intros n Hn. by apply (lo_linked h Hok). }
  rewrite <- all_tasks_length. pose proof (wf_nodup h (lo_wf h Hok) l) as Hnd.
  destruct (decide (l = LDelay)) as [->|Hne].
  - rewrite <- (length_fmap NDelay). apply inj_le, submseteq_length, NoDup_submseteq; [done|].
    intros n Hn. specialize (Hf n Hn). destruct n; try done. apply list_elem_of_fmap. eauto.
  - rewrite <- (length_fmap NReady). apply inj_le, submseteq_length, NoDup_submseteq; [done|].
    intros n Hn. specialize (Hf n Hn). destruct n, l; try done; apply list_elem_of_fmap;
      naive_solver.
Qed.

Lemma lo_owner l n : n ∈ contents h l ↔ n_owner (hnode h n) = Some l.
Proof. apply wf_owner, Hok. Qed.
End facts.

(** ** Linking and unlinking *)

Lemma contents_ext h h' l :
  (∀ m, hlinks h' m = hlinks h m) → hlist h' l = hlist h l → contents h' l = contents h l.
Proof.
  intros Hl Hr. unfold contents. rewrite Hr. generalize (l_head (hlist h l)).
  induction (Z.to_nat (l_count (hlist h l))) as [|k IH]; intros st; [done|].
  destruct st as [m|]; [|done]. cbn [walk]. rewrite Hl. f_equal. apply IH.
Qed.

Lemma hlinks_set_object h n o m :
  hlinks (upd_hnode n (λ x, x <| n_object := o |>) h) m = hlinks h m.
Proof. unfold hlinks. rewrite hnode_upd_hnode. case_decide; [by subst|done]. Qed.

Lemma contents_set_object h n o l :
  contents (upd_hnode n (λ x, x <| n_object := o |>) h) l = contents h l.
Proof. apply contents_ext; [apply hlinks_set_object|done]. Qed.

Lemma lseg_ext {N O} `{EqDecision N} (f f' : N → links N O) p xs nx :
  (∀ m, f' m = f m) → lseg f p xs nx → lseg f' p xs nx.
Proof. intros Hf. apply lseg_frame. by intros. Qed.

Lemma heap_wf_set_object h n o :
  heap_wf h → heap_wf (upd_hnode n (λ x, x <| n_object := o |>) h).
Proof.
  intros [Hc Hl]. split.
  - intros m. rewrite hlinks_set_object. apply Hc.
  - intros l. rewrite contents_set_object. destruct (Hl l) as [(Hs&Hnd&Ho) Hr].
    split; [|done]. split_and!; [|done|].
    + eapply lseg_ext; [|exact Hs]. intros m. apply hlinks_set_object.
    + intros m. rewrite hlinks_set_object. apply Ho.
Qed.

(** The heap after "set object, link". *)
Lemma lists_link h h' l n l1 l2 :
  lists_ok h → contents h l = l1 ++ l2 → n_owner (hnode h n) = None → node_fits n l →
  heap_step (upd_hnode n (λ x, x <| n_object := Some (node_object n) |>) h) h' l (l1 ++ n :: l2) →
  lists_step h h' l (l1 ++ n :: l2).
Proof.
  intros Hok E Hn Hfit (Hwf'&Hc'&Ho').
  assert (∀ l', contents h' l' = if decide (l' = l) then l1 ++ n :: l2 else contents h l') as Hc.
  { intros l'. rewrite Hc'. by rewrite contents_set_object. }
  split; [|done]. split; [done| |].
  - intros m tk Hk Hm. rewrite Ho', hnode_upd_hnode. case_decide as Hd; [subst m|].
    + exfalso. assert (n ∈ contents h' l) as Hin by (rewrite Hc, decide_True by done; set_solver).
      rewrite (wf_owner h' Hwf') in Hin. congruence.
    + apply (lo_free h Hok m tk Hk). destruct (n_owner (hnode h m)) as [l'|] eqn:E'; [|done].
      assert (m ∈ contents h' l') as Hin.
      { apply (lo_owner h Hok) in E'. rewrite Hc. case_decide; [subst; rewrite E in E'; set_solver|done]. }
      rewrite (wf_owner h' Hwf') in Hin. congruence.
  - intros m l' Hm. rewrite Ho', hnode_upd_hnode. rewrite Hc in Hm.
    case_decide as Hd; [subst l'|].
    + case_decide as Hd'; [by subst m|]. apply (lo_linked h Hok). rewrite E. set_solver.
    + case_decide as Hd'; [|by apply (lo_linked h Hok)]. subst m.
      rewrite (lo_owner h Hok) in Hm. congruence.
Qed.

(** The heap after "unlink, clear object". *)
Lemma lists_unlink h h' l n l1 l2 :
  lists_ok h → contents h l = l1 ++ n :: l2 →
  heap_step h h' l (l1 ++ l2) →
  lists_step h (upd_hnode n (λ x, x <| n_object := None |>) h') l (l1 ++ l2).
Proof.
  intros Hok E (Hwf'&Hc&Ho').
  pose proof (wf_nodup h (lo_wf h Hok) l) as Hnd. rewrite E in Hnd.
  destruct (nodup_mid _ _ _ n Hnd) as (_&Hn1&Hn2).
  assert (∀ m l', m ∈ contents h' l' → m ∈ contents h l' ∧ m ≠ n) as Hin.
  { intros m l'. rewrite Hc. case_decide as Hd; [subst; rewrite E; set_solver|].
    intros Hm. split; [done|]. intros ->.
    assert (n ∈ contents h l) as Hn by (rewrite E; set_solver).
    rewrite (lo_owner h Hok) in Hm, Hn. congruence. }
  split; [|intros l'; by rewrite contents_set_object]. split.
  - by apply heap_wf_set_object.
  - intros m tk Hk. rewrite !hnode_upd_hnode. case_decide as Hd; [by subst|]. rewrite Ho'.
    intros Hm. apply (lo_free h Hok m tk Hk). destruct (n_owner (hnode h m)) as [l'|] eqn:E'; [|done].
    assert (m ∈ contents h' l') as Hmem.
    { apply (lo_owner h Hok) in E'. rewrite Hc. case_decide; [|done]. subst.
      rewrite E in E'. set_solver. }
    rewrite (wf_owner h' Hwf') in Hmem. congruence.
  - intros m l'. rewrite contents_set_object. intros Hm. apply Hin in Hm as [Hm Hne].
    rewrite hnode_upd_hnode, decide_False, Ho' by done. by apply (lo_linked h Hok).
Qed.

(** A timer's object member is left set. *)
Lemma lists_unlink_timer h h' i l1 l2 :
  lists_ok h → contents h LTimer = l1 ++ NTimer i :: l2 → heap_step h h' LTimer (l1 ++ l2) →
  lists_step h h' LTimer (l1 ++ l2).
Proof.
  intros Hok E (Hwf'&Hc&Ho'). split; [|done].
  assert (∀ m l', m ∈ contents h' l' → m ∈ contents h l') as Hin.
  { intros m l'. rewrite Hc. case_decide as Hd; [subst; rewrite E; set_solver|done]. }
  split; [done| |].
  - intros m t Hk Hm. rewrite Ho'. apply (lo_free h Hok m t Hk).
    destruct (n_owner (hnode h m)) as [l'|] eqn:E'; [|done].
    assert (m ∈ contents h' l') as Hmem.
    { apply (lo_owner h Hok) in E'. rewrite Hc. case_decide; [|done]. subst.
      assert (m ≠ NTimer i) by by intros ->. rewrite E in E'. set_solver. }
    rewrite (wf_owner h' Hwf') in Hmem. congruence.
  - intros m l' Hm. rewrite Ho'. by apply (lo_linked h Hok), Hin.
Qed.

Lemma lists_step_owner h h' l xs n :
  lists_step h h' l xs → n ∈ xs → n_owner (hnode h' n) = Some l.
Proof. intros [Hok Hc] Hn. apply (lo_owner h' Hok). by rewrite Hc, decide_True. Qed.

Lemma lists_step_unlinked h h' l n l1 l2 :
  lists_ok h → contents h l = l1 ++ n :: l2 → lists_step h h' l (l1 ++ l2) →
  n_owner (hnode h' n) = None.
Proof.
  intros Hok E [Hok' Hc].
  destruct (n_owner (hnode h' n)) as [l'|] eqn:E'; [exfalso|done].
  apply (lo_owner h' Hok') in E'. rewrite Hc in E'.
  pose proof (wf_nodup h (lo_wf h Hok) l) as Hnd. rewrite E in Hnd.
  destruct (nodup_mid _ _ _ n Hnd) as (_&Hn1&Hn2).
  case_decide; [set_solver|].
  assert (n ∈ contents h l) as Hn by (rewrite E; set_solver).
  rewrite (lo_owner h Hok) in Hn, E'. congruence.
Qed.

(** ** The idioms in kernel code *)

Lemma wp_kheap {A} (m : H A) (Q : A → kernel → Prop) s :
  wp m (λ a h, Q a (s <| k_heap := h |>)) (k_heap s) → wp (kheap m) Q s.
Proof. apply wp_zoom. Qed.

Lemma wp_link_back s l n (Q : unit → kernel → Prop) :
  lists_ok (k_heap s) → n_owner (node s n) = None → node_fits n l →
  (∀ h', lists_step (k_heap s) h' l (kcontents s l ++ [n]) → Q tt (s <| k_heap := h' |>)) →
  wp (kheap (rts_list_push_back (Some l) (Some n))) Q
     (upd_node n (λ x, x <| n_object := Some (node_object n) |>) s).
Proof.
  intros Hok Hn Hfit HQ. apply wp_kheap. eapply wp_mono.
  - apply rts_list_push_back_spec.
    + by apply heap_wf_set_object, Hok.
    + cbn. rewrite hnode_upd_hnode, decide_True by done. done.
    + cbn. rewrite contents_set_object. by apply lo_capacity.
  - cbn. intros [] h' Hst. rewrite contents_set_object in Hst. apply HQ.
    apply lists_link; [done|by rewrite app_nil_r|done..].
Qed.

Lemma wp_link_before s l pos n l1 l2 (Q : unit → kernel → Prop) :
  lists_ok (k_heap s) → n_owner (node s n) = None → node_fits n l →
  kcontents s l = l1 ++ pos :: l2 →
  (∀ h', lists_step (k_heap s) h' l (l1 ++ n :: pos :: l2) → Q tt (s <| k_heap := h' |>)) →
  wp (kheap (rts_list_insert_before (Some l) (Some pos) (Some n))) Q
     (upd_node n (λ x, x <| n_object := Some (node_object n) |>) s).
Proof.
  intros Hok Hn Hfit E HQ. apply wp_kheap. eapply wp_mono.
  - apply (rts_list_insert_before_spec _ l pos n l1 l2).
    + by apply heap_wf_set_object, Hok.
    + cbn. by rewrite contents_set_object.
    + cbn. rewrite hnode_upd_hnode, decide_True by done. done.
    + cbn. rewrite contents_set_object. by apply lo_capacity.
  - cbn. intros [] h' Hst. apply HQ. by apply lists_link.
Qed.

Lemma wp_unlink s l n l1 l2 (Q : unit → kernel → Prop) :
  lists_ok (k_heap s) → kcontents s l = l1 ++ n :: l2 →
  (∀ h', n_owner (hnode h' n) = None →
     lists_step (k_heap s) (upd_hnode n (λ x, x <| n_object := None |>) h') l (l1 ++ l2) →
     Q tt (s <| k_heap := h' |>)) →
  wp (kheap (rts_list_remove (Some l) (Some n))) Q s.
Proof.
  intros Hok E HQ. apply wp_kheap. eapply wp_mono.
  - eapply rts_list_remove_spec; [apply Hok|exact E].
  - cbn. intros [] h' Hst.
    pose proof (lists_unlink _ _ _ _ _ _ Hok E Hst) as Hst'.
    apply HQ; [|done]. pose proof (lists_step_unlinked _ _ _ _ _ _ Hok E Hst') as Hn.
    by rewrite hnode_upd_hnode, decide_True in Hn.
Qed.

Lemma wp_unlink_timer s i l1 l2 (Q : unit → kernel → Prop) :
  lists_ok (k_heap s) → kcontents s LTimer = l1 ++ NTimer i :: l2 →
  (∀ h', lists_step (k_heap s) h' LTimer (l1 ++ l2) → Q tt (s <| k_heap := h' |>)) →
  wp (kheap (rts_list_remove (Some LTimer) (Some (NTimer i)))) Q s.
Proof.
  intros Hok E HQ. apply wp_kheap. eapply wp_mono.
  - eapply rts_list_remove_spec; [apply Hok|exact E].
  - cbn. intros [] h' Hst. by eapply HQ, lists_unlink_timer.
Qed.
End lists_ok.

(** Reordering a list keeps [lists_ok]. *)
Lemma lists_permute `{Config} h h' l xs :
  lists_ok h → heap_step h h' l xs → xs ≡ₚ contents h l → lists_step h h' l xs.
Proof.
  intros Hok (Hwf&Hc&Ho) Hp. split; [|done].
  assert (∀ n l', n ∈ contents h' l' ↔ n ∈ contents h l') as Hin.
  { intros n l'. rewrite Hc. case_decide; [subst; by rewrite Hp|done]. }
  split; [done| |].
  - intros n tk Hk Hn. rewrite Ho. apply (lo_free h Hok n tk Hk).
    destruct (n_owner (hnode h n)) as [l'|] eqn:E; [|done].
    apply (lo_owner h Hok), Hin, (wf_owner h' Hwf) in E. congruence.
  - intros n l' Hn. rewrite Ho. by apply (lo_linked h Hok), Hin.
Qed.

(** ** Lists of ready nodes and of delay nodes *)

Section node_kinds.
Context `{Config}.
Implicit Types h : list_heap.

Lemma tasks_of_ready ts : tasks_of (NReady <$> ts) = ts.
Proof. unfold tasks_of. induction ts; simpl; by f_equal. Qed.
Lemma tasks_of_delay ts : tasks_of (NDelay <$> ts) = ts.
Proof. unfold tasks_of. induction ts; simpl; by f_equal. Qed.

(** A list of one kind of node is the image of its tasks. *)
Lemma contents_of_kind h l (f : task_ptr → node_ptr) :
  lists_ok h → (∀ t, node_task (f t) = Some t) →
  (∀ n, node_fits n l → ∃ t, n = f t) →
  contents h l = f <$> tasks_of (contents h l).
Proof.
  intros Hok Hf Hfits.
  assert (∀ n, n ∈ contents h l → ∃ t, n = f t) as Hn
    by (intros n Hn; apply Hfits; by apply (lo_linked h Hok)).
  induction (contents h l) as [|n xs IH]; [done|].
  destruct (Hn n) as [t ->]; [set_solver|]. unfold tasks_of in *. simpl. rewrite Hf. simpl.
  f_equal. apply IH. set_solver.
Qed.

Lemma contents_ready h p :
  lists_ok h → contents h (LReady p) = NReady <$> tasks_of (contents h (LReady p)).
Proof. intros Hok. apply contents_of_kind; [done..|]. intros []; simpl; naive_solver. Qed.
Lemma contents_edf h :
  lists_ok h → contents h LEdf = NReady <$> tasks_of (contents h LEdf).
Proof. intros Hok. apply contents_of_kind; [done..|]. intros []; simpl; naive_solver. Qed.
Lemma contents_delay h :
  lists_ok h → contents h LDelay = NDelay <$> tasks_of (contents h LDelay).
Proof. intros Hok. apply contents_of_kind; [done..|]. intros []; simpl; naive_solver. Qed.
End node_kinds.
