(* ===== verification/ReadyQueue.v ===== *)
(** * The ready set (kernel/ready_queue.c)

    A FIFO queue of ready tasks for each priority and a bitmap that marks the
    queues that are not empty.  The abstract state is the family of queues
    [ready_queue s p]; the theorems say that every operation acts on it as the
    sequence operation of its name does, keeps the bitmap in step, and that
    [rts_ready_peek_highest] finds the head of the highest nonempty queue.

    The argument [ready_set] is always the address of a member of the kernel
    state and therefore not an argument here. *)

From S2P Require Import Prelude Machine Config Types Links IntrusiveList KernelLists.

(** The task a list node's object member points to: the code converts the void
    pointer to a task without a test. *)
Definition object_task (o : object_ptr) : K task_ptr :=
  match o with OTask t => ret t | OTimer _ => undefined end.

Section ready_code.
Context `{Config}.
Implicit Types (priority : Z) (task_arg : option task_ptr).

Definition rts_ready_word_index priority : Z := priority / RTS_READY_BITMAP_WORD_BITS.

Definition rts_ready_bit_mask priority : Z :=
  let bit := priority mod RTS_READY_BITMAP_WORD_BITS in
  u32 (Z.shiftl 1 bit).

Definition rts_ready_priority_is_valid priority : bool := priority <? RTS_PRIORITY_COUNT.

Definition ready_word (s : kernel) (w : Z) : Z := k_ready_bitmap s !!! w.
Definition upd_ready_word (w : Z) (f : Z → Z) (s : kernel) : kernel :=
  s <| k_ready_bitmap := <[w := f (ready_word s w)]> (k_ready_bitmap s) |>.

Definition rts_ready_initialize : K unit :=
  for_each (seqZ 0 RTS_PRIORITY_COUNT) (λ index,
    kheap (rts_list_initialize (Some (LReady index)))) ;;;
  for_each (seqZ 0 RTS_READY_BITMAP_WORDS) (λ index,
    modify (upd_ready_word index (λ _, 0))).

Definition rts_ready_insert task_arg : K unit :=
  RTS_REQUIRE_PTR task_arg tt (λ t,
  let* priority := gets (λ s, priority (task s t)) in
  let word := rts_ready_word_index priority in
  RTS_REQUIRE (ret (rts_ready_priority_is_valid priority)) tt (
  RTS_REQUIRE (gets (λ s, bool_decide (n_owner (node s (NReady t)) = None))) tt (
  RTS_REQUIRE (gets (λ s, bool_decide (n_previous (node s (NReady t)) = None))) tt (
  RTS_REQUIRE (gets (λ s, bool_decide (n_next (node s (NReady t)) = None))) tt (
  RTS_REQUIRE (gets (λ s, bool_decide (n_object (node s (NReady t)) = None))) tt (
  let queue := LReady priority in
  modify (upd_node (NReady t) (λ n, n <| n_object := Some (OTask t) |>)) ;;;
  kheap (rts_list_push_back (Some queue) (Some (NReady t))) ;;;
  let* linked := gets (λ s, bool_decide (n_owner (node s (NReady t)) = Some queue)) in
  if negb linked then
    modify (upd_node (NReady t) (λ n, n <| n_object := None |>)) ;;;
    RTS_ASSERT (gets (λ s, bool_decide (n_owner (node s (NReady t)) = Some queue)))
  else
    modify (upd_ready_word word (λ b, Z.lor b (rts_ready_bit_mask priority)))
  )))))).

Definition rts_ready_remove task_arg : K unit :=
  RTS_REQUIRE_PTR task_arg tt (λ t,
  let* priority := gets (λ s, priority (task s t)) in
  RTS_REQUIRE (ret (rts_ready_priority_is_valid priority)) tt (
  let queue := LReady priority in
  RTS_REQUIRE (gets (λ s, bool_decide (n_owner (node s (NReady t)) = Some queue))) tt (
  let word := rts_ready_word_index priority in
  kheap (rts_list_remove (Some queue) (Some (NReady t))) ;;;
  RTS_REQUIRE (gets (λ s, bool_decide (n_owner (node s (NReady t)) = None))) tt (
  modify (upd_node (NReady t) (λ n, n <| n_object := None |>)) ;;;
  let* count := gets (λ s, l_count (klist s queue)) in
  when (count =? 0)
    (modify (upd_ready_word word (λ b, Z.land b (u32 (Z.lnot (rts_ready_bit_mask priority))))))
  )))).

(** The inner loop of rts_ready_peek_highest over the bits below [bits]:
    [None] when it runs to its end, [Some r] when it returns [r]. *)
Fixpoint rts_ready_peek_bits (word_index word : Z) (bits : nat) :
    K (option (option task_ptr)) :=
  match bits with
  | O => ret None
  | S bits' =>
      let bit_index := Z.of_nat bits' in
      if Z.land word (u32 (Z.shiftl 1 bit_index)) =? 0 then
        rts_ready_peek_bits word_index word bits'
      else
        let prio := word_index * RTS_READY_BITMAP_WORD_BITS + bit_index in
        let queue := LReady prio in
        RTS_REQUIRE (ret (prio <? RTS_PRIORITY_COUNT)) (Some None) (
        RTS_REQUIRE (gets (λ s, 0 <? l_count (klist s queue))) (Some None) (
        let* head := gets (λ s, l_head (klist s queue)) in
        RTS_REQUIRE_PTR head (Some None) (λ head,
        RTS_REQUIRE (gets (λ s, bool_decide (n_owner (node s head) = Some queue))) (Some None) (
        let* object := gets (λ s, n_object (node s head)) in
        RTS_REQUIRE_PTR object (Some None) (λ object,
        let* t := object_task object in
        RTS_REQUIRE (ret (bool_decide (NReady t = head))) (Some None) (
        RTS_REQUIRE (gets (λ s, priority (task s t) =? prio)) (Some None) (
        ret (Some (Some t)))))))))
  end.

Fixpoint rts_ready_peek_words (words : nat) : K (option task_ptr) :=
  match words with
  | O => ret None
  | S words' =>
      let word_index := Z.of_nat words' in
      let* word := gets (λ s, ready_word s word_index) in
      if word =? 0 then rts_ready_peek_words words'
      else
        let* found := rts_ready_peek_bits word_index word
                        (Z.to_nat RTS_READY_BITMAP_WORD_BITS) in
        match found with
        | Some r => ret r
        | None => rts_ready_peek_words words'
        end
  end.

Definition rts_ready_peek_highest : K (option task_ptr) :=
  rts_ready_peek_words (Z.to_nat RTS_READY_BITMAP_WORDS).

Definition rts_ready_has_peer task_arg : K bool :=
  RTS_REQUIRE_PTR task_arg false (λ t,
  let* priority := gets (λ s, priority (task s t)) in
  RTS_REQUIRE (ret (rts_ready_priority_is_valid priority)) false (
  let queue := LReady priority in
  RTS_REQUIRE (gets (λ s, bool_decide (n_owner (node s (NReady t)) = Some queue))) false (
  gets (λ s, 1 <? l_count (klist s queue))))).

Definition rts_ready_contains task_arg : K bool :=
  RTS_REQUIRE_PTR task_arg false (λ t,
  let* priority := gets (λ s, priority (task s t)) in
  RTS_REQUIRE (ret (rts_ready_priority_is_valid priority)) false (
  gets (λ s, bool_decide (n_owner (node s (NReady t)) = Some (LReady priority))))).

Definition rts_ready_is_front task_arg : K bool :=
  RTS_REQUIRE_PTR task_arg false (λ t,
  let* priority := gets (λ s, priority (task s t)) in
  RTS_REQUIRE (ret (rts_ready_priority_is_valid priority)) false (
  let queue := LReady priority in
  RTS_REQUIRE (gets (λ s, bool_decide (n_owner (node s (NReady t)) = Some queue))) false (
  RTS_REQUIRE (gets (λ s, 0 <? l_count (klist s queue))) false (
  let* head := gets (λ s, l_head (klist s queue)) in
  RTS_REQUIRE_PTR head false (λ head,
  ret (bool_decide (head = NReady t))))))).

Definition rts_ready_only_contains task_arg : K bool :=
  match task_arg with
  | None => ret false
  | Some t =>
      let* contained := rts_ready_contains (Some t) in
      if negb contained then ret false else
      let* counts := all_of (seqZ 0 RTS_PRIORITY_COUNT) (λ prio,
        gets (λ s, l_count (klist s (LReady prio)) =?
                   (if prio =? priority (task s t) then 1 else 0))) in
      if negb counts then ret false else
      let* highest := rts_ready_peek_highest in
      ret (bool_decide (highest = Some t))
  end.

Definition rts_ready_rotate priority : K unit :=
  RTS_REQUIRE (ret (rts_ready_priority_is_valid priority)) tt (
  let queue := LReady priority in
  RTS_REQUIRE (gets (λ s, 1 <? l_count (klist s queue))) tt (
  let* head := gets (λ s, l_head (klist s queue)) in
  RTS_REQUIRE_PTR head tt (λ front,
  kheap (rts_list_remove (Some queue) (Some front)) ;;;
  RTS_REQUIRE (gets (λ s, bool_decide (n_owner (node s front) = None))) tt (
  kheap (rts_list_push_back (Some queue) (Some front)) ;;;
  RTS_REQUIRE (gets (λ s, bool_decide (n_owner (node s front) = Some queue))) tt (
  ret tt))))).

(** The walk of rts_ready_validate along one queue: [None] when a node is
    refused, else the final values of [node], [previous] and [count]. *)
Fixpoint rts_ready_validate_walk (prio : Z) (nd previous : option node_ptr) (count : Z)
    (fuel : nat) : K (option (option node_ptr * option node_ptr * Z)) :=
  match fuel with
  | O => no_fuel
  | S fuel' =>
      match nd with
      | Some n =>
          if count <=? RTS_SCHEDULABLE_TASK_CAPACITY then
            let* r := gets (λ s, node s n) in
            let* good :=
              gets (λ s, bool_decide (n_owner r = Some (LReady prio)) &&
                         bool_decide (n_previous r = previous)) &&&
              match n_object r with
              | None => ret false
              | Some o =>
                  let* t := object_task o in
                  gets (λ s, bool_decide (NReady t = n) && (priority (task s t) =? prio))
              end in
            if good then
              rts_ready_validate_walk prio (n_next r) (Some n) (Z.succ count) fuel'
            else ret None
          else ret (Some (nd, previous, count))
      | None => ret (Some (nd, previous, count))
      end
  end.

Definition rts_ready_validate : K bool :=
  all_of (seqZ 0 RTS_PRIORITY_COUNT) (λ prio,
    let* queue := gets (λ s, klist s (LReady prio)) in
    let* word := gets (λ s, ready_word s (prio / RTS_READY_BITMAP_WORD_BITS)) in
    let bit := negb (Z.land word (u32 (Z.shiftl 1 (prio mod RTS_READY_BITMAP_WORD_BITS))) =? 0) in
    let* walked := rts_ready_validate_walk prio (l_head queue) None 0
                     (Z.to_nat (RTS_SCHEDULABLE_TASK_CAPACITY + 3)) in
    match walked with
    | None => ret false
    | Some (nd, previous, count) =>
        ret (bool_decide (nd = None) && (count =? l_count queue) &&
             bool_decide (previous = l_tail queue) && eqb bit (negb (count =? 0)))
    end).
End ready_code.

(** ** Abstract state *)

Definition ready_queue (s : kernel) (p : Z) : list task_ptr := tasks_of (kcontents s (LReady p)).

(** The head of the highest nonempty queue among [lo], ..., [lo + n - 1]. *)
Fixpoint highest_range (q : Z → list task_ptr) (lo : Z) (n : nat) : option task_ptr :=
  match n with
  | O => None
  | S n' =>
      match q (lo + Z.of_nat n') with
      | t :: _ => Some t
      | [] => highest_range q lo n'
      end
  end.

Lemma highest_range_some q lo n t :
  highest_range q lo n = Some t ↔
  ∃ p, lo ≤ p < lo + Z.of_nat n ∧ head (q p) = Some t ∧
       ∀ p', p < p' < lo + Z.of_nat n → q p' = [].
Proof.
  induction n as [|n IH]; cbn [highest_range]; [split; [done|intros (p&?&_); lia]|].
  destruct (q (lo + Z.of_nat n)) as [|t' ts] eqn:E.
  - rewrite IH. split; intros (p&Hp&Hh&Hall); exists p.
    + split_and!; [lia..|done|]. intros p' ?. destruct (decide (p' = lo + Z.of_nat n)) as [->|];
        [done|]. apply Hall. lia.
    + assert (p ≠ lo + Z.of_nat n) by (intros ->; rewrite E in Hh; done).
      split_and!; [lia..|done|]. intros p' ?. apply Hall. lia.
  - split.
    + intros [= <-]. exists (lo + Z.of_nat n). rewrite E. split_and!; [lia..|done|]. lia.
    + intros (p&Hp&Hh&Hall). destruct (decide (p = lo + Z.of_nat n)) as [->|Hne].
      * rewrite E in Hh. simpl in Hh. congruence.
      * rewrite Hall in E by lia. done.
Qed.

Lemma highest_range_none q lo n :
  highest_range q lo n = None ↔ ∀ p, lo ≤ p < lo + Z.of_nat n → q p = [].
Proof.
  induction n as [|n IH]; cbn [highest_range]; [split; [intros; lia|done]|].
  destruct (q (lo + Z.of_nat n)) as [|t' ts] eqn:E.
  - rewrite IH. split; intros Hq p Hp; [|apply Hq; lia].
    destruct (decide (p = lo + Z.of_nat n)) as [->|]; [done|]. apply Hq; lia.
  - split; [done|]. intros Hq. rewrite Hq in E by lia. done.
Qed.

Lemma highest_range_split q lo a b :
  highest_range q lo (a + b) =
  match highest_range q (lo + Z.of_nat a) b with Some t => Some t | None => highest_range q lo a end.
Proof.
  induction b as [|b IH]; simpl; [by rewrite Nat.add_0_r|].
  rewrite Nat.add_succ_r. cbn [highest_range]. rewrite IH.
  replace (lo + Z.of_nat a + Z.of_nat b) with (lo + Z.of_nat (a + b)) by lia.
  by destruct (q (lo + Z.of_nat (a + b))).
Qed.

(** ** The invariant *)

Section ready_ok.
Context `{ConfigOk}.

Record ready_ok (s : kernel) : Prop := {
  ro_lists : lists_ok (k_heap s);
  ro_priority p t : t ∈ ready_queue s p → priority (task s t) = p;
  ro_words w : is_u32 (ready_word s w);
  ro_bits w b : 0 ≤ w < RTS_READY_BITMAP_WORDS → 0 ≤ b < 32 →
    Z.testbit (ready_word s w) b = bool_decide (kcontents s (LReady (w * 32 + b)) ≠ [])
}.

Lemma zero_ready_ok s :
  (∀ l, kcontents s l = []) → lists_ok (k_heap s) → (∀ w, ready_word s w = 0) → ready_ok s.
Proof.
  intros Hc Hl Hw. split; [done|..].
  - intros p t. unfold ready_queue. rewrite Hc. by rewrite elem_of_nil.
  - intros w. rewrite Hw. done.
  - intros w b _ _. rewrite Hw, Hc, Z.bits_0. done.
Qed.

Lemma priority_word p :
  0 ≤ p < RTS_PRIORITY_COUNT →
  0 ≤ p / 32 < RTS_READY_BITMAP_WORDS ∧ 0 ≤ p mod 32 < 32 ∧ p = p / 32 * 32 + p mod 32.
Proof.
  intros Hp. unfold RTS_READY_BITMAP_WORDS, RTS_READY_BITMAP_WORD_BITS.
  pose proof (Z.div_mod p 32 ltac:(lia)). pose proof (Z.mod_pos_bound p 32 ltac:(lia)).
  split_and!; [apply Z.div_pos; lia| |lia..].
  apply Z.div_lt_upper_bound; [lia|].
  pose proof (Z.div_mod (RTS_PRIORITY_COUNT + 32 - 1) 32 ltac:(lia)).
  pose proof (Z.mod_pos_bound (RTS_PRIORITY_COUNT + 32 - 1) 32 ltac:(lia)). lia.
Qed.

Section facts.
Context (s : kernel) (Hok : ready_ok s).

Lemma ready_contents p : kcontents s (LReady p) = NReady <$> ready_queue s p.
Proof. apply contents_ready, Hok. Qed.

Lemma ready_queue_nil p : ready_queue s p = [] ↔ kcontents s (LReady p) = [].
Proof. rewrite ready_contents. split; [by intros ->|apply fmap_nil_inv]. Qed.

Lemma ready_queue_owner p t : t ∈ ready_queue s p ↔ n_owner (node s (NReady t)) = Some (LReady p).
Proof.
  unfold node. rewrite <- (lo_owner _ (ro_lists s Hok)).
  change (contents (k_heap s)) with (kcontents s). rewrite ready_contents.
  symmetry. apply (list_elem_of_fmap_inj NReady).
Qed.

Lemma ready_queue_range p : ready_queue s p ≠ [] → 0 ≤ p < RTS_PRIORITY_COUNT.
Proof.
  intros Hne. destruct (ready_queue s p) as [|t ts] eqn:E; [done|].
  assert (NReady t ∈ kcontents s (LReady p)) as Hin by (rewrite ready_contents, E; set_solver).
  by apply (lo_linked _ (ro_lists s Hok)) in Hin as [[_ ?] _].
Qed.

Lemma ready_task_range p t : t ∈ ready_queue s p → t ∈ all_tasks.
Proof.
  intros Ht. assert (NReady t ∈ kcontents s (LReady p)) as Hin
    by (rewrite ready_contents; set_solver).
  by apply (lo_linked _ (ro_lists s Hok)) in Hin as [[? _] _].
Qed.

(** The head of a queue as the code reads it. *)
Lemma ready_head p t ts :
  ready_queue s p = t :: ts →
  l_head (klist s (LReady p)) = Some (NReady t) ∧
  0 < l_count (klist s (LReady p)) ∧
  n_owner (node s (NReady t)) = Some (LReady p) ∧
  n_object (node s (NReady t)) = Some (OTask t) ∧ priority (task s t) = p.
Proof.
  intros E. assert (t ∈ ready_queue s p) as Ht by (rewrite E; set_solver).
  assert (NReady t ∈ kcontents s (LReady p)) as Hin by (rewrite ready_contents; set_solver).
  pose proof (lo_wf _ (ro_lists s Hok)) as Hwf. unfold klist.
  rewrite (wf_head _ Hwf), (wf_count _ Hwf).
  change (contents (k_heap s) (LReady p)) with (kcontents s (LReady p)).
  split_and!; [by rewrite ready_contents, E|rewrite ready_contents, E; simpl; lia| | |].
  - by apply ready_queue_owner.
  - by apply (lo_linked _ (ro_lists s Hok)) in Hin as [_ ?].
  - by apply (ro_priority s Hok).
Qed.
End facts.

(** Replacing the queue of one priority, with the bitmap updated to match. *)
Lemma ready_ok_step s h' bm' p ts w' :
  ready_ok s → 0 ≤ p < RTS_PRIORITY_COUNT →
  lists_step (k_heap s) h' (LReady p) (NReady <$> ts) →
  (∀ t, t ∈ ts → priority (task s t) = p) →
  (∀ w, bm' !!! w = if w =? p / 32 then w' else k_ready_bitmap s !!! w) →
  is_u32 w' →
  (∀ b, 0 ≤ b < 32 → Z.testbit w' b =
     if b =? p mod 32 then bool_decide (ts ≠ []) else Z.testbit (ready_word s (p / 32)) b) →
  ready_ok (s <| k_heap := h' |> <| k_ready_bitmap := bm' |>).
Proof.
  intros Hok Hp [Hl Hc] Hts Hbm Hw' Hbits.
  set (s' := s <| k_heap := h' |> <| k_ready_bitmap := bm' |>).
  assert (∀ l, kcontents s' l = if decide (l = LReady p) then NReady <$> ts else kcontents s l) as Hk
    by exact Hc.
  split; [exact Hl|..].
  - intros p' t. unfold ready_queue. rewrite Hk. change (task s' t) with (task s t).
    case_decide as E; [injection E as ->; rewrite tasks_of_ready; apply Hts|].
    apply (ro_priority s Hok).
  - intros w. unfold ready_word, s'. cbn. rewrite Hbm. case_match; [done|apply (ro_words s Hok)].
  - intros w b Hw Hb. unfold ready_word, s'. cbn. rewrite Hbm. fold s'. rewrite Hk.
    destruct (priority_word p Hp) as (Hpw&Hpb&Hpe).
    destruct (Z.eqb_spec w (p / 32)) as [->|Hne].
    + rewrite Hbits by done. destruct (Z.eqb_spec b (p mod 32)) as [->|Hnb].
      * rewrite decide_True by (f_equal; lia).
        apply bool_decide_ext. destruct ts; simpl; naive_solver.
      * rewrite decide_False by (intros [= ?]; lia). by apply (ro_bits s Hok).
    + rewrite decide_False; [by apply (ro_bits s Hok)|]. intros [= E].
      apply Hne. apply (Z.div_unique p 32 w b); [left|]; lia.
Qed.
End ready_ok.

(** ** The operations *)

Section ready_specs.
Context `{ConfigOk}.

Lemma mask_word p : 0 ≤ p → rts_ready_bit_mask p = u32 (Z.shiftl 1 (p mod 32)).
Proof. done. Qed.

Lemma word_insert (m : gmap Z Z) p v w :
  <[rts_ready_word_index p := v]> m !!! w = if w =? p / 32 then v else m !!! w.
Proof.
  change (rts_ready_word_index p) with (p / 32). rewrite lookup_total_insert_dec.
  destruct (Z.eqb_spec w (p / 32)); case_decide; congruence.
Qed.

(** [s'] is [s] with the ready queue of priority [p] replaced by [ts]. *)
Definition ready_step (s s' : kernel) (p : Z) (ts : list task_ptr) : Prop :=
  ready_ok s' ∧
  ∃ h' bm', s' = s <| k_heap := h' |> <| k_ready_bitmap := bm' |> ∧
    lists_step (k_heap s) h' (LReady p) (NReady <$> ts).

Lemma ready_step_queue s s' p ts p' :
  ready_step s s' p ts → ready_queue s' p' = if decide (p' = p) then ts else ready_queue s p'.
Proof.
  intros (_&h'&bm'&->&[_ Hc]). unfold ready_queue, kcontents. cbn. rewrite Hc.
  repeat case_decide; simplify_eq; [by rewrite tasks_of_ready|done].
Qed.

Lemma rts_ready_insert_spec s t :
  let p := priority (task s t) in
  ready_ok s → t ∈ all_tasks → 0 ≤ p < RTS_PRIORITY_COUNT →
  n_owner (node s (NReady t)) = None →
  wp (rts_ready_insert (Some t)) (λ _ s', ready_step s s' p (ready_queue s p ++ [t])) s.
Proof.
  intros p Hok Ht Hp Hn. pose proof (ro_lists s Hok) as Hl.
  destruct (wf_unlinked _ (lo_wf _ Hl) _ Hn) as [Hpv Hnx].
  unfold rts_ready_insert, RTS_REQUIRE_PTR. apply wp_bind, wp_gets. fold p.
  check; [apply Z.ltb_lt; lia|]. do 3 (check; []).
  check; [by apply bool_decide_true, (lo_free _ Hl _ t)|].
  apply wp_bind, wp_modify. apply wp_bind. apply wp_link_back; [done..|].
  intros h' Hst. apply wp_bind, wp_gets.
  rewrite bool_decide_true by (eapply lists_step_owner; [exact Hst|set_solver]). cbn [negb].
  apply wp_modify.
  assert (kcontents s (LReady p) ++ [NReady t] = NReady <$> (ready_queue s p ++ [t])) as E.
  { by rewrite fmap_app, <- ready_contents. }
  rewrite E in Hst. destruct (priority_word p Hp) as (Hw&Hb&_).
  split; [|by do 2 eexists]. unfold upd_ready_word, ready_word.
  eapply (ready_ok_step s h' _ p); [done..| | | |].
  - intros t'. rewrite elem_of_app, list_elem_of_singleton.
    intros [?| ->]; [by apply (ro_priority s Hok)|done].
  - intros w. apply word_insert.
  - apply is_u32_lor; [apply (ro_words s Hok)|apply u32_range].
  - intros b Hb'. rewrite mask_word, word_set by lia.
    destruct (b =? p mod 32); [|done]. symmetry. apply bool_decide_true. by destruct (ready_queue s p).
Qed.

Lemma rts_ready_remove_spec s t l1 l2 :
  let p := priority (task s t) in
  ready_ok s → ready_queue s p = l1 ++ t :: l2 →
  wp (rts_ready_remove (Some t)) (λ _ s', ready_step s s' p (l1 ++ l2)) s.
Proof.
  intros p Hok E. pose proof (ro_lists s Hok) as Hl.
  assert (kcontents s (LReady p) = (NReady <$> l1) ++ NReady t :: (NReady <$> l2)) as Ec.
  { by rewrite ready_contents, E, fmap_app. }
  assert (t ∈ ready_queue s p) as Ht by (rewrite E; set_solver).
  assert (0 ≤ p < RTS_PRIORITY_COUNT) as Hp.
  { apply (ready_queue_range s Hok). rewrite E. by destruct l1. }
  unfold rts_ready_remove, RTS_REQUIRE_PTR. apply wp_bind, wp_gets. fold p.
  check; [apply Z.ltb_lt; lia|].
  check; [by apply bool_decide_true, (ready_queue_owner s Hok)|].
  apply wp_bind. eapply wp_unlink; [done|exact Ec|]. intros h' Hn Hst.
  check; []. apply wp_bind, wp_modify, wp_bind, wp_gets.
  rewrite <- fmap_app in Hst. set (h2 := upd_hnode _ _ h') in Hst.
  assert (klist (upd_node (NReady t) (λ n, n <| n_object := None |>) (s <| k_heap := h' |>)) (LReady p)
    = hlist h2 (LReady p)) as -> by done.
  rewrite (wf_count h2) by apply Hst. destruct Hst as [Hok2 Hc2].
  rewrite Hc2, decide_True, length_fmap by done.
  destruct (priority_word p Hp) as (Hw&Hb&_).
  assert (∀ t', t' ∈ l1 ++ l2 → priority (task s t') = p) as Hpr.
  { intros t' ?. apply (ro_priority s Hok). rewrite E. set_solver. }
  unfold when. destruct (Z.eqb_spec (Z.of_nat (length (l1 ++ l2))) 0) as [E0|E0].
  - apply wp_modify. assert (l1 ++ l2 = []) as Enil by (apply length_zero_iff_nil; lia).
    split; [|by do 2 eexists]. unfold upd_ready_word, ready_word.
    eapply (ready_ok_step s h2 _ p); [done..| | |].
    + intros w. apply word_insert.
    + apply is_u32_land, (ro_words s Hok).
    + intros b Hb'. rewrite mask_word, word_clear by lia. rewrite Enil. done.
  - apply wp_ret. split; [|exists h2, (k_ready_bitmap s); by destruct s].
    change (upd_node (NReady t) (λ n, n <| n_object := None |>) (s <| k_heap := h' |>))
      with (s <| k_heap := h2 |> <| k_ready_bitmap := k_ready_bitmap s |>).
    eapply (ready_ok_step s h2 _ p _ (ready_word s (p / 32))); [done..| | |].
    + intros w. by destruct (Z.eqb_spec w (p / 32)) as [->|].
    + apply (ro_words s Hok).
    + intros b Hb'. destruct (Z.eqb_spec b (p mod 32)) as [->|]; [|done].
      rewrite (ro_bits s Hok) by done. apply bool_decide_ext.
      replace (p / 32 * 32 + p mod 32) with p by (rewrite Z.mul_comm; apply Z.div_mod; lia).
      rewrite Ec. split; intros _; [|by destruct l1].
      intros Enil. by rewrite Enil in E0.
Qed.

Lemma rts_ready_rotate_spec s p t t' ts :
  ready_ok s → ready_queue s p = t :: t' :: ts →
  wp (rts_ready_rotate p) (λ _ s', ready_step s s' p (t' :: ts ++ [t])) s.
Proof.
  intros Hok E. pose proof (ro_lists s Hok) as Hl.
  assert (contents (k_heap s) (LReady p) = [] ++ NReady t :: (NReady <$> (t' :: ts))) as Ec.
  { change (contents (k_heap s)) with (kcontents s). by rewrite ready_contents, E. }
  assert (0 ≤ p < RTS_PRIORITY_COUNT) as Hp by (apply (ready_queue_range s Hok); by rewrite E).
  unfold rts_ready_rotate. check; [apply Z.ltb_lt; lia|].
  check; [unfold klist; rewrite (wf_count _ (lo_wf _ Hl)), Ec; apply Z.ltb_lt; simpl; lia|].
  apply wp_bind, wp_gets. destruct (ready_head s Hok p t (t' :: ts) E) as (->&_).
  cbn [RTS_REQUIRE_PTR]. apply wp_bind, wp_kheap.
  eapply wp_mono; [eapply rts_list_remove_spec; [apply Hl|exact Ec]|].
  intros [] h1 (Hwf1&Hc1&Ho1). cbn [app] in Hc1.
  pose proof (wf_nodup _ (lo_wf _ Hl) (LReady p)) as Hnd. rewrite Ec in Hnd.
  assert (n_owner (hnode h1 (NReady t)) = None) as Hn.
  { destruct (n_owner (hnode h1 (NReady t))) as [l'|] eqn:E'; [exfalso|done].
    apply (wf_owner h1 Hwf1) in E'. rewrite Hc1 in E'. case_decide.
    - apply NoDup_cons in Hnd as [? _]. done.
    - apply (lo_owner _ Hl) in E'. assert (NReady t ∈ contents (k_heap s) (LReady p)) as Hin
        by (rewrite Ec; set_solver). apply (lo_owner _ Hl) in Hin. congruence. }
  check; []. apply wp_bind, wp_kheap.
  eapply wp_mono; [apply rts_list_push_back_spec; [done|done|]|].
  { cbn. rewrite Hc1, decide_True by done. pose proof (lo_capacity _ Hl (LReady p)) as Hcap.
    rewrite Ec in Hcap. simpl in *. lia. }
  intros [] h2 (Hwf2&Hc2&Ho2). cbn in Hc2, Ho2. rewrite Hc1, decide_True in Hc2 by done.
  assert (lists_step (k_heap s) h2 (LReady p) (NReady <$> (t' :: ts ++ [t]))) as Hst.
  { apply lists_permute; [done| |].
    - split_and!; [done| |intros m; rewrite Ho2; apply Ho1]. intros l'. rewrite Hc2.
      case_decide; [by rewrite app_comm_cons, fmap_app|]. by rewrite Hc1, decide_False.
    - rewrite Ec. cbn [app]. rewrite app_comm_cons, fmap_app.
      symmetry. apply (Permutation_cons_append _ (NReady t)). }
  check; [apply bool_decide_true; eapply lists_step_owner; [exact Hst|set_solver]|].
  apply wp_ret. split; [|exists h2, (k_ready_bitmap s); by destruct s].
  change (s <| k_heap := h1 |> <| k_heap := h2 |>)
    with (s <| k_heap := h2 |> <| k_ready_bitmap := k_ready_bitmap s |>).
  eapply (ready_ok_step s h2 _ p _ (ready_word s (p / 32))); [done..| | | |].
  - intros t0 ?. apply (ro_priority s Hok). rewrite E. set_solver.
  - intros w. by destruct (Z.eqb_spec w (p / 32)) as [->|].
  - apply (ro_words s Hok).
  - intros b Hb'. destruct (Z.eqb_spec b (p mod 32)) as [->|]; [|done].
    destruct (priority_word p Hp) as (Hw&Hb&Hpe). rewrite (ro_bits s Hok) by done.
    apply bool_decide_ext. unfold kcontents. rewrite <- Hpe, Ec. by split.
Qed.
End ready_specs.

(** ** Read-only operations, as equations: the result and an unchanged store *)

Section ready_reads.
Context `{ConfigOk} (s : kernel) (Hok : ready_ok s).

Lemma rts_ready_peek_bits_run w n :
  0 ≤ w < RTS_READY_BITMAP_WORDS → (n ≤ 32)%nat →
  rts_ready_peek_bits w (ready_word s w) n s =
  Done (Some <$> highest_range (ready_queue s) (w * 32) n) s.
Proof.
  intros Hw. induction n as [|n IH]; intros Hn; [done|].
  cbn [rts_ready_peek_bits highest_range]. unfold RTS_READY_BITMAP_WORD_BITS.
  rewrite word_test, (ro_bits s Hok) by lia.
  destruct (ready_queue s (w * 32 + Z.of_nat n)) as [|t ts] eqn:E.
  - rewrite bool_decide_false; [apply IH; lia|].
    intros Hne. apply Hne. by apply (ready_queue_nil s Hok).
  - destruct (ready_head s Hok _ _ _ E) as (Hhd&Hc&Ho&Hobj&Hp).
    rewrite bool_decide_true by (intros ?%(ready_queue_nil s Hok); congruence). cbn [negb].
    assert (0 ≤ w * 32 + Z.of_nat n < RTS_PRIORITY_COUNT)
      by (apply (ready_queue_range s Hok); by rewrite E).
    check_run; [|apply Z.ltb_lt; lia]. check_run; [|by apply Z.ltb_lt].
    unfold bind, gets. rewrite Hhd. cbn [RTS_REQUIRE_PTR].
    check_run. unfold node in *. rewrite Hobj. cbn. unfold ret at 1.
    check_run. check_run; [|by apply Z.eqb_eq]. done.
Qed.

Lemma rts_ready_peek_words_run n :
  (n ≤ Z.to_nat RTS_READY_BITMAP_WORDS)%nat →
  rts_ready_peek_words n s = Done (highest_range (ready_queue s) 0 (32 * n)) s.
Proof.
  induction n as [|n IH]; intros Hn; [done|].
  cbn [rts_ready_peek_words]. unfold bind, gets.
  replace (32 * S n)%nat with (32 * n + 32)%nat by lia. rewrite highest_range_split.
  replace (0 + Z.of_nat (32 * n)) with (Z.of_nat n * 32) by lia.
  change (Z.to_nat RTS_READY_BITMAP_WORD_BITS) with 32%nat.
  destruct (Z.eqb_spec (ready_word s (Z.of_nat n)) 0) as [E|E].
  - rewrite (proj2 (highest_range_none _ _ 32)); [apply IH; lia|]. intros p Hp.
    apply (ready_queue_nil s Hok).
    pose proof (ro_bits s Hok (Z.of_nat n) (p - Z.of_nat n * 32) ltac:(lia) ltac:(lia)) as Hb.
    rewrite E, Z.bits_0 in Hb. symmetry in Hb. apply bool_decide_eq_false in Hb.
    replace (Z.of_nat n * 32 + (p - Z.of_nat n * 32)) with p in Hb by lia.
    by apply dec_stable in Hb.
  - rewrite rts_ready_peek_bits_run by lia.
    destruct (highest_range (ready_queue s) (Z.of_nat n * 32) 32); [done|apply IH; lia].
Qed.

(** The head of the highest nonempty queue. *)
Lemma rts_ready_peek_highest_run :
  rts_ready_peek_highest s =
  Done (highest_range (ready_queue s) 0 (Z.to_nat RTS_PRIORITY_COUNT)) s.
Proof.
  unfold rts_ready_peek_highest. rewrite rts_ready_peek_words_run by done. f_equal.
  pose proof cfg_priorities as Hpc.
  assert (Z.to_nat RTS_PRIORITY_COUNT ≤ 32 * Z.to_nat RTS_READY_BITMAP_WORDS)%nat as Hle.
  { destruct (priority_word (RTS_PRIORITY_COUNT - 1)) as (?&?&?); lia. }
  rewrite <- (Nat.sub_add _ _ Hle), Nat.add_comm, highest_range_split.
  rewrite (proj2 (highest_range_none _ _ (_ - _))); [done|]. intros p Hp.
  destruct (ready_queue s p) as [|] eqn:E; [done|].
  assert (0 ≤ p < RTS_PRIORITY_COUNT); [|lia]. apply (ready_queue_range s Hok). by rewrite E.
Qed.

Lemma rts_ready_contains_run t :
  priority (task s t) < RTS_PRIORITY_COUNT →
  rts_ready_contains (Some t) s = Done (bool_decide (t ∈ ready_queue s (priority (task s t)))) s.
Proof.
  intros Hp. cbn. check_run; [|by apply Z.ltb_lt]. unfold gets. f_equal.
  apply bool_decide_ext. by rewrite (ready_queue_owner s Hok).
Qed.

Lemma ready_count p : l_count (klist s (LReady p)) = Z.of_nat (length (ready_queue s p)).
Proof.
  unfold klist. rewrite (wf_count _ (lo_wf _ (ro_lists s Hok))).
  change (contents (k_heap s)) with (kcontents s).
  by rewrite (ready_contents s Hok), length_fmap.
Qed.

Lemma rts_ready_has_peer_run t :
  let q := ready_queue s (priority (task s t)) in
  t ∈ q → rts_ready_has_peer (Some t) s = Done (1 <? Z.of_nat (length q)) s.
Proof.
  intros q Ht. cbn.
  assert (0 ≤ priority (task s t) < RTS_PRIORITY_COUNT)
    by (apply (ready_queue_range s Hok); fold q; intros E; rewrite E in Ht; set_solver).
  check_run; [|apply Z.ltb_lt; lia].
  check_run; [|by apply bool_decide_true, (ready_queue_owner s Hok)].
  unfold gets. by rewrite ready_count.
Qed.

Lemma rts_ready_is_front_run t :
  let q := ready_queue s (priority (task s t)) in
  t ∈ q → rts_ready_is_front (Some t) s = Done (bool_decide (head q = Some t)) s.
Proof.
  intros q Ht. cbn. destruct q as [|t' ts] eqn:E; [set_solver|]. subst q.
  assert (0 ≤ priority (task s t) < RTS_PRIORITY_COUNT)
    by (apply (ready_queue_range s Hok); by rewrite E).
  destruct (ready_head s Hok _ _ _ E) as (Hhd&Hc&Ho&Hobj&Hp).
  check_run; [|apply Z.ltb_lt; lia].
  check_run; [|apply bool_decide_true, (ready_queue_owner s Hok); by rewrite E].
  check_run; [|by apply Z.ltb_lt].
  unfold bind, gets. rewrite Hhd. cbn. unfold ret. f_equal. apply bool_decide_ext.
  split; congruence.
Qed.

(** [rts_ready_only_contains]: the task is the only ready task. *)
Lemma rts_ready_only_contains_run t :
  0 ≤ priority (task s t) < RTS_PRIORITY_COUNT →
  ∃ b, rts_ready_only_contains (Some t) s = Done b s ∧
    (b = true ↔ ∀ p, ready_queue s p = if decide (p = priority (task s t)) then [t] else []).
Proof.
  intros Hp. cbn [rts_ready_only_contains]. unfold bind at 1.
  rewrite rts_ready_contains_run by lia.
  case_bool_decide as Hin; cbn [negb]; [|exists false; split; [done|]; split; [done|]].
  2: { intros Hq. specialize (Hq (priority (task s t))). rewrite decide_True in Hq by done.
       rewrite Hq in Hin. set_solver. }
  unfold bind at 1. rewrite (all_of_run _ _ (λ p, l_count (klist s (LReady p)) =?
    (if p =? priority (task s t) then 1 else 0))) by done.
  destruct (forallb _ _) eqn:Eall; cbn [negb].
  - unfold bind. rewrite rts_ready_peek_highest_run.
    assert (∀ p, ready_queue s p = if decide (p = priority (task s t)) then [t] else []) as Hq.
    { rewrite forallb_forall in Eall. intros p.
      destruct (decide (0 ≤ p < RTS_PRIORITY_COUNT)) as [Hr|Hr].
      - specialize (Eall p). rewrite <- list_elem_of_In, elem_of_seqZ in Eall.
        specialize (Eall ltac:(lia)). apply Z.eqb_eq in Eall. rewrite ready_count in Eall.
        destruct (Z.eqb_spec p (priority (task s t))) as [Ep|Ep]; [rewrite decide_True by done|
          rewrite decide_False by done; apply length_zero_iff_nil; lia].
        rewrite <- Ep in Hin.
        destruct (ready_queue s p) as [|x [|]]; simpl in Eall; try lia. set_solver.
      - rewrite decide_False by (intros ->; lia).
        destruct (ready_queue s p) eqn:E; [done|].
        exfalso. apply Hr, (ready_queue_range s Hok). by rewrite E. }
    exists true. split; [|done]. unfold ret. f_equal. apply bool_decide_true.
    apply highest_range_some. exists (priority (task s t)). split_and!; [lia..| |].
    + by rewrite Hq, decide_True.
    + intros p' ?. rewrite Hq, decide_False by lia. done.
  - exists false. split; [done|]. split; [done|]. intros Hq.
    assert (forallb (λ p, l_count (klist s (LReady p)) =?
      (if p =? priority (task s t) then 1 else 0)) (seqZ 0 RTS_PRIORITY_COUNT) = true); [|congruence].
    apply forallb_forall. intros p _. rewrite ready_count, Hq. apply Z.eqb_eq.
    destruct (Z.eqb_spec p (priority (task s t))); case_decide; done.
Qed.

(** ** The validator accepts every good ready set *)

Lemma rts_ready_validate_walk_run p l1 l2 fuel :
  ready_queue s p = l1 ++ l2 → (length l2 < fuel)%nat →
  rts_ready_validate_walk p (NReady <$> head l2) (NReady <$> last_or l1 None)
    (Z.of_nat (length l1)) fuel s =
  Done (Some (None, NReady <$> last_or (l1 ++ l2) None, Z.of_nat (length (l1 ++ l2)))) s.
Proof.
  revert l1 fuel. induction l2 as [|t l2 IH]; intros l1 fuel E Hf; (destruct fuel as [|fuel]; [simpl in *; lia|]).
  - cbn. by rewrite app_nil_r.
  - cbn [rts_ready_validate_walk head fmap option_fmap option_map].
    assert (t ∈ ready_queue s p) as Ht by (rewrite E; set_solver).
    pose proof (ro_lists s Hok) as Hl.
    pose proof (lo_task_capacity _ Hl (LReady p) ltac:(done)) as Hcap.
    change (contents (k_heap s)) with (kcontents s) in Hcap.
    rewrite (ready_contents s Hok), length_fmap, E, length_app in Hcap. simpl in Hcap.
    rewrite (proj2 (Z.leb_le _ _)) by lia.
    assert (NReady t ∈ kcontents s (LReady p)) as Hin
      by (rewrite (ready_contents s Hok); set_solver).
    destruct (lo_linked _ Hl _ _ Hin) as [_ Hobj].
    destruct (wf_node _ (lo_wf _ Hl) (LReady p) (NReady <$> l1) (NReady t) (NReady <$> l2)) as (Hpv&Hnx&Ho).
    { change (contents (k_heap s)) with (kcontents s). by rewrite (ready_contents s Hok), E, fmap_app. }
    assert (∀ l : list task_ptr, last_or (NReady <$> l) None = NReady <$> last_or l None) as Hlast.
    { intros l. by rewrite !last_or_last, fmap_last. }
    unfold bind, gets, andM, bind, node. rewrite Hobj, Hpv, Ho, Hnx, Hlast.
    rewrite !bool_decide_true by done. cbn. unfold ret at 1.
    rewrite bool_decide_true, (ro_priority s Hok p t Ht), Z.eqb_refl by done. cbn.
    specialize (IH (l1 ++ [t]) fuel). rewrite <- !app_assoc in IH. cbn in IH.
    rewrite last_or_snoc, length_app in IH. cbn in IH.
    replace (Z.of_nat (length l1 + 1)) with (Z.succ (Z.of_nat (length l1))) in IH by lia.
    rewrite <- IH by (try done; simpl in Hf; lia). by destruct l2.
Qed.

Lemma rts_ready_validate_run : rts_ready_validate s = Done true s.
Proof.
  unfold rts_ready_validate. rewrite (all_of_run _ _ (λ _, true)).
  - f_equal. by apply forallb_forall.
  - intros p Hp%elem_of_seqZ. unfold bind, gets.
    pose proof (rts_ready_validate_walk_run p [] (ready_queue s p)
      (Z.to_nat (RTS_SCHEDULABLE_TASK_CAPACITY + 3)) eq_refl) as Hw.
    pose proof (lo_task_capacity _ (ro_lists s Hok) (LReady p) ltac:(done)) as Hcap.
    change (contents (k_heap s)) with (kcontents s) in Hcap.
    rewrite (ready_contents s Hok), length_fmap in Hcap. cbn [app length] in Hw.
    assert (klist s (LReady p) = mk_list (NReady <$> head (ready_queue s p))
      (NReady <$> last_or (ready_queue s p) None) (Z.of_nat (length (ready_queue s p)))) as Hk.
    { unfold klist. rewrite (wf_list _ (lo_wf _ (ro_lists s Hok))).
      change (contents (k_heap s)) with (kcontents s). rewrite (ready_contents s Hok).
      rewrite !last_or_last, first_or_head, fmap_last, length_fmap. by destruct (ready_queue s p). }
    rewrite Hk. cbn [l_head l_tail l_count].
    change (NReady <$> last_or [] None) with (@None node_ptr) in Hw.
    change (Z.of_nat 0) with 0 in Hw. rewrite Hw by lia. unfold ret. f_equal. rewrite !bool_decide_true, Z.eqb_refl by done. cbn [andb].
    destruct (priority_word p) as (?&?&Hpe); [lia|]. unfold RTS_READY_BITMAP_WORD_BITS.
    rewrite word_test, (ro_bits s Hok), <- Hpe, (ready_contents s Hok), negb_involutive by done.
    by destruct (ready_queue s p).
Qed.
End ready_reads.

(** ** Refinement of a family of FIFO queues *)

Inductive ready_op :=
  | ReadyInsert (t : task_ptr)
  | ReadyRemove (t : task_ptr)
  | ReadyRotate (p : Z)
  | ReadyPeek.

Section refinement.
Context `{ConfigOk}.

Definition run_ready_op (op : ready_op) : K (option task_ptr) :=
  match op with
  | ReadyInsert t => rts_ready_insert (Some t) ;;; ret None
  | ReadyRemove t => rts_ready_remove (Some t) ;;; ret None
  | ReadyRotate p => rts_ready_rotate p ;;; ret None
  | ReadyPeek => rts_ready_peek_highest
  end.

Fixpoint run_ready_ops (ops : list ready_op) : K (list (option task_ptr)) :=
  match ops with
  | [] => ret []
  | op :: ops' => let* r := run_ready_op op in let* rs := run_ready_ops ops' in ret (r :: rs)
  end.

Definition set_queue (q : Z → list task_ptr) (p : Z) (ts : list task_ptr) (p' : Z) :
    list task_ptr := if decide (p' = p) then ts else q p'.

(** What an operation promises of the queues [q], for tasks of priorities
    [prio]: the new queues and the result, or [None] where the kernel must
    not call it. *)
Definition spec_ready_op (prio : task_ptr → Z) (op : ready_op) (q : Z → list task_ptr) :
    option ((Z → list task_ptr) * option task_ptr) :=
  match op with
  | ReadyInsert t =>
      if bool_decide (t ∈ all_tasks ∧ t ∉ q (prio t) ∧ 0 ≤ prio t < RTS_PRIORITY_COUNT)
      then Some (set_queue q (prio t) (q (prio t) ++ [t]), None) else None
  | ReadyRemove t =>
      if bool_decide (t ∈ q (prio t))
      then Some (set_queue q (prio t) (filter (λ x, x ≠ t) (q (prio t))), None) else None
  | ReadyRotate p =>
      match q p with
      | t :: t' :: ts => Some (set_queue q p (t' :: ts ++ [t]), None)
      | _ => None
      end
  | ReadyPeek => Some (q, highest_range q 0 (Z.to_nat RTS_PRIORITY_COUNT))
  end.

Fixpoint spec_ready_ops (prio : task_ptr → Z) (ops : list ready_op) (q : Z → list task_ptr) :
    option ((Z → list task_ptr) * list (option task_ptr)) :=
  match ops with
  | [] => Some (q, [])
  | op :: ops' =>
      '(q1, r) ← spec_ready_op prio op q;
      '(q2, rs) ← spec_ready_ops prio ops' q1;
      Some (q2, r :: rs)
  end.

(** The store represents the queues [q]; the EDF list is not in use. *)
Definition ready_abs (s : kernel) (q : Z → list task_ptr) : Prop :=
  ready_ok s ∧ kcontents s LEdf = [] ∧ ∀ p, ready_queue s p = q p.

Lemma highest_range_ext q q' lo n :
  (∀ p, q p = q' p) → highest_range q lo n = highest_range q' lo n.
Proof. intros Hq. induction n as [|n IH]; simpl; [done|]. by rewrite Hq, IH. Qed.

Lemma filter_ne_mid {A} `{EqDecision A} (l1 l2 : list A) t :
  NoDup (l1 ++ t :: l2) → filter (λ x, x ≠ t) (l1 ++ t :: l2) = l1 ++ l2.
Proof.
  intros Hnd. destruct (nodup_mid l1 l2 t t Hnd) as (_&H1&H2).
  rewrite filter_app, filter_cons_False by naive_solver. by rewrite !filter_all by (by intros x Hx ->).
Qed.

Lemma ready_queue_nodup s p : ready_ok s → NoDup (ready_queue s p).
Proof.
  intros Hok. pose proof (wf_nodup _ (lo_wf _ (ro_lists s Hok)) (LReady p)) as Hnd.
  change (contents (k_heap s)) with (kcontents s) in Hnd.
  rewrite (ready_contents s Hok) in Hnd. by apply NoDup_fmap_1 in Hnd.
Qed.

Lemma ready_step_abs s s' q p ts :
  ready_abs s q → ready_step s s' p ts →
  ready_abs s' (set_queue q p ts) ∧ k_tasks s' = k_tasks s.
Proof.
  intros (Hok&He&Hq) Hst. pose proof (λ p', ready_step_queue s s' p ts p' Hst) as Hq'.
  destruct Hst as (Hok'&h'&bm'&->&[_ Hc]). split; [|done]. split_and!; [done| |].
  - unfold kcontents in *. cbn. by rewrite Hc, decide_False.
  - intros p'. rewrite Hq'. unfold set_queue. case_decide; [done|apply Hq].
Qed.

Lemma ready_unlinked s t :
  ready_ok s → kcontents s LEdf = [] → t ∉ ready_queue s (priority (task s t)) →
  n_owner (node s (NReady t)) = None.
Proof.
  intros Hok He Ht. destruct (n_owner (node s (NReady t))) as [l|] eqn:E; [exfalso|done].
  pose proof E as Hin. apply (lo_owner _ (ro_lists s Hok)) in Hin.
  destruct (lo_linked _ (ro_lists s Hok) _ _ Hin) as [Hf _]. destruct l as [p| | |]; try done.
  - apply (ready_queue_owner s Hok) in E. pose proof (ro_priority s Hok p t E). congruence.
  - unfold kcontents in He. rewrite He in Hin. set_solver.
Qed.

Lemma run_ready_op_refines s q op q' r :
  ready_abs s q → spec_ready_op (λ t, priority (task s t)) op q = Some (q', r) →
  wp (run_ready_op op) (λ r' s', r' = r ∧ ready_abs s' q' ∧ k_tasks s' = k_tasks s) s.
Proof.
  intros Habs. pose proof Habs as (Hok&He&Hq). destruct op as [t|t|p|]; cbn.
  - case_bool_decide as Hc; [|done]. destruct Hc as (Ht&Hn&Hp). intros [= <- <-].
    apply wp_bind. eapply wp_mono; [apply rts_ready_insert_spec; [done..|]|].
    { apply ready_unlinked; [done..|]. by rewrite Hq. }
    intros [] s' Hst. apply wp_ret. split; [done|]. rewrite <- Hq. by apply ready_step_abs.
  - case_bool_decide as Hc; [|done]. intros [= <- <-]. rewrite <- Hq in Hc.
    destruct (list_elem_of_split _ _ Hc) as (l1&l2&E).
    apply wp_bind. eapply wp_mono; [by apply (rts_ready_remove_spec s t l1 l2)|].
    intros [] s' Hst. apply wp_ret. split; [done|]. rewrite <- Hq, E, filter_ne_mid.
    + by apply ready_step_abs.
    + rewrite <- E. by apply ready_queue_nodup.
  - rewrite <- Hq. destruct (ready_queue s p) as [|t [|t' ts]] eqn:E; [done..|].
    intros [= <- <-]. apply wp_bind. eapply wp_mono; [by apply rts_ready_rotate_spec|].
    intros [] s' Hst. apply wp_ret. split; [done|]. by apply ready_step_abs.
  - intros [= <- <-]. eapply wp_run; [by apply rts_ready_peek_highest_run|].
    split; [by apply highest_range_ext|done].
Qed.

(** C17: Any sequence of insertions, removals, rotations and queries of the
    ready set behaves as the same sequence on one FIFO queue per priority. *)
Theorem ready_set_refines_queues ops s q q' rs :
  ready_abs s q →
  spec_ready_ops (λ t, priority (task s t)) ops q = Some (q', rs) →
  wp (run_ready_ops ops) (λ rs' s', rs' = rs ∧ ready_abs s' q') s.
Proof.
  revert s q rs. induction ops as [|op ops IH]; intros s q rs Habs; cbn.
  - intros [= <- <-]. by apply wp_ret.
  - destruct (spec_ready_op _ op q) as [[q1 r]|] eqn:E1; [cbn|done].
    destruct (spec_ready_ops _ ops q1) as [[q2 rs2]|] eqn:E2; [cbn|done].
    intros [= <- <-]. apply wp_bind. eapply wp_mono; [by eapply run_ready_op_refines|].
    intros r' s1 (->&Habs1&Htasks). apply wp_bind. eapply wp_mono; [eapply IH; [done|]|].
    + rewrite <- E2. f_equal. unfold task. by rewrite Htasks.
    + intros rs' s2 [-> ?]. by apply wp_ret.
Qed.

End refinement.

(** ** Witnesses: three tasks at priorities 3, 3 and 40 *)

Section witnesses.
#[local] Existing Instance fp_config.

Definition three_tasks : kernel :=
  zero_kernel <| k_tasks :=
    <[TApp 0 := (inhabitant : rts_tcb) <| priority := 3 |>]>
    (<[TApp 1 := (inhabitant : rts_tcb) <| priority := 3 |>]>
    (<[TApp 2 := (inhabitant : rts_tcb) <| priority := 40 |>]> ∅)) |>.

Lemma three_tasks_ok : ready_ok three_tasks.
Proof. apply zero_ready_ok; [done|apply zero_lists_ok|done]. Qed.

Lemma three_tasks_abs : ready_abs three_tasks (λ _, []).
Proof. split_and!; [apply three_tasks_ok|done|done]. Qed.

Definition three_tasks_run : list ready_op :=
  [ReadyInsert (TApp 0); ReadyInsert (TApp 1); ReadyPeek; ReadyRotate 3; ReadyPeek;
   ReadyInsert (TApp 2); ReadyPeek; ReadyRemove (TApp 2); ReadyPeek].

Lemma ready_set_refines_queues_witness :
  wp (run_ready_ops three_tasks_run) (λ rs _,
    rs = [None; None; Some (TApp 0); None; Some (TApp 1);
          None; Some (TApp 2); None; Some (TApp 1)]) three_tasks.
Proof.
  eapply wp_mono; [eapply (ready_set_refines_queues three_tasks_run three_tasks (λ _, []));
    [apply three_tasks_abs|vm_compute; reflexivity]|].
  intros rs s' [-> _]. reflexivity.
Defined.

End witnesses.
