(* ===== verification/DelayQueue.v ===== *)
(** * The delay queue (kernel/delay_queue.c)

    Tasks blocked with a timeout, linked through [delay_node] in the order of
    their wake ticks, equal ticks in the order of insertion.  Ticks wrap, so
    the order is that of their distances from a base tick that no queued wake
    tick lies half the range or more ahead of. *)

From S2P Require Import Prelude Machine Config Types Links IntrusiveList KernelLists Time ReadyQueue.

Section delay_code.
Context `{Config}.
Implicit Types (task_arg : option task_ptr).

(** [None] when the function returns false, else what it stores in is_before. *)
Definition rts_tick_is_before (first second : Z) : K (option bool) :=
  let difference := u32 (first - second) in
  if difference =? RTS_TICK_HALF_RANGE then
    RTS_ASSERT (ret (negb (difference =? RTS_TICK_HALF_RANGE))) ;;; ret None
  else ret (Some (rts_tick_before first second)).

Definition rts_delay_initialize : K unit := kheap (rts_list_initialize (Some LDelay)).

(** The end shared by the two ways of linking the node. *)
Definition rts_delay_link (t : task_ptr) (link : K unit) : K unit :=
  modify (upd_node (NDelay t) (λ n, n <| n_object := Some (OTask t) |>)) ;;;
  link ;;;
  let* linked := gets (λ s, bool_decide (n_owner (node s (NDelay t)) = Some LDelay)) in
  if negb linked then
    modify (upd_node (NDelay t) (λ n, n <| n_object := None |>)) ;;;
    RTS_ASSERT (gets (λ s, bool_decide (n_owner (node s (NDelay t)) = Some LDelay)))
  else ret tt.

Fixpoint rts_delay_insert_loop (t : task_ptr) (position : option node_ptr) (fuel : nat) : K unit :=
  match fuel with
  | O => no_fuel
  | S fuel' =>
      match position with
      | None =>
          rts_delay_link t (kheap (rts_list_push_back (Some LDelay) (Some (NDelay t))))
      | Some pos =>
          RTS_REQUIRE (gets (λ s, bool_decide (n_owner (node s pos) = Some LDelay))) tt (
          let* object := gets (λ s, n_object (node s pos)) in
          RTS_REQUIRE_PTR object tt (λ object,
          let* queued_task := object_task object in
          RTS_REQUIRE (ret (bool_decide (NDelay queued_task = pos))) tt (
          let* tick := gets (λ s, wait_wake_tick (wait (task s t))) in
          let* queued_tick := gets (λ s, wait_wake_tick (wait (task s queued_task))) in
          let* task_is_before := rts_tick_is_before tick queued_tick in
          match task_is_before with
          | None => ret tt
          | Some true =>
              rts_delay_link t (kheap (rts_list_insert_before (Some LDelay) (Some pos) (Some (NDelay t))))
          | Some false =>
              let* next := gets (λ s, n_next (node s pos)) in
              rts_delay_insert_loop t next fuel'
          end)))
      end
  end.

Definition rts_delay_insert task_arg : K unit :=
  RTS_REQUIRE_PTR task_arg tt (λ t,
  RTS_REQUIRE (gets (λ s, bool_decide (n_owner (node s (NDelay t)) = None))) tt (
  RTS_REQUIRE (gets (λ s, bool_decide (n_previous (node s (NDelay t)) = None))) tt (
  RTS_REQUIRE (gets (λ s, bool_decide (n_next (node s (NDelay t)) = None))) tt (
  RTS_REQUIRE (gets (λ s, bool_decide (n_object (node s (NDelay t)) = None))) tt (
  let* position := gets (λ s, l_head (klist s LDelay)) in
  let* count := gets (λ s, l_count (klist s LDelay)) in
  rts_delay_insert_loop t position (Z.to_nat (Z.succ count))))))).

Definition rts_delay_remove task_arg : K unit :=
  RTS_REQUIRE_PTR task_arg tt (λ t,
  RTS_REQUIRE (gets (λ s, bool_decide (n_owner (node s (NDelay t)) = Some LDelay))) tt (
  kheap (rts_list_remove (Some LDelay) (Some (NDelay t))) ;;;
  RTS_REQUIRE (gets (λ s, bool_decide (n_owner (node s (NDelay t)) = None))) tt (
  modify (upd_node (NDelay t) (λ n, n <| n_object := None |>))))).

Definition rts_tick_deadline_reached (now deadline : Z) : bool := rts_tick_reached now deadline.

Definition rts_delay_peek_expired (now : Z) : K (option task_ptr) :=
  let* list := gets (λ s, klist s LDelay) in
  if l_count list =? 0 then
    RTS_REQUIRE (ret (bool_decide (l_head list = None))) None (
    RTS_REQUIRE (ret (bool_decide (l_tail list = None))) None (
    ret None))
  else
    RTS_REQUIRE_PTR (l_head list) None (λ head,
    RTS_REQUIRE (gets (λ s, bool_decide (n_owner (node s head) = Some LDelay))) None (
    let* object := gets (λ s, n_object (node s head)) in
    RTS_REQUIRE_PTR object None (λ object,
    let* t := object_task object in
    RTS_REQUIRE (ret (bool_decide (NDelay t = head))) None (
    let* wake := gets (λ s, wait_wake_tick (wait (task s t))) in
    if negb (rts_tick_deadline_reached now wake) then ret None else ret (Some t))))).

(** [None] when the function returns false, else the deadline it stores. *)
Definition rts_delay_next_deadline : K (option Z) :=
  let* head := gets (λ s, l_head (klist s LDelay)) in
  match head with
  | None =>
      RTS_REQUIRE (gets (λ s, l_count (klist s LDelay) =? 0)) None (ret None)
  | Some head =>
      RTS_REQUIRE (gets (λ s, bool_decide (n_owner (node s head) = Some LDelay))) None (
      let* object := gets (λ s, n_object (node s head)) in
      RTS_REQUIRE_PTR object None (λ object,
      let* t := object_task object in
      RTS_REQUIRE (ret (bool_decide (NDelay t = head))) None (
      gets (λ s, Some (wait_wake_tick (wait (task s t)))))))
  end.

Definition rts_delay_contains task_arg : K bool :=
  RTS_REQUIRE_PTR task_arg false (λ t,
  gets (λ s, bool_decide (n_owner (node s (NDelay t)) = Some LDelay))).
End delay_code.

(** ** Abstract state: the delayed tasks in order *)

Definition delay_list (s : kernel) : list task_ptr := tasks_of (kcontents s LDelay).
Definition wake_tick (s : kernel) (t : task_ptr) : Z := wait_wake_tick (wait (task s t)).

(** How far a task's wake tick is ahead of [base]. *)
Definition wake_in (base : Z) (s : kernel) (t : task_ptr) : Z := ahead base (wake_tick s t).

Section delay_ok.
Context `{ConfigOk}.

(** [base] is a tick from which every delayed task's wake tick is less than
    half the range ahead, and the queue is sorted by that distance. *)
Record delay_ok (base : Z) (s : kernel) : Prop := {
  do_lists : lists_ok (k_heap s);
  do_range t : t ∈ delay_list s → is_u32 (wake_tick s t);
  do_window t : t ∈ delay_list s → wake_in base s t < RTS_TICK_HALF_RANGE;
  do_sorted : StronglySorted (λ a b, wake_in base s a ≤ wake_in base s b) (delay_list s)
}.

Lemma delay_contents s : lists_ok (k_heap s) → kcontents s LDelay = NDelay <$> delay_list s.
Proof. apply contents_delay. Qed.

Lemma delay_owner s t :
  lists_ok (k_heap s) → t ∈ delay_list s ↔ n_owner (node s (NDelay t)) = Some LDelay.
Proof.
  intros Hl. unfold node. rewrite <- (lo_owner _ Hl).
  change (contents (k_heap s)) with (kcontents s). rewrite delay_contents by done.
  symmetry. apply (list_elem_of_fmap_inj NDelay).
Qed.

(** A node of the queue as the code reads it. *)
Lemma delay_node s l1 t l2 :
  lists_ok (k_heap s) → delay_list s = l1 ++ t :: l2 →
  n_owner (node s (NDelay t)) = Some LDelay ∧
  n_object (node s (NDelay t)) = Some (OTask t) ∧
  n_next (node s (NDelay t)) = NDelay <$> head l2.
Proof.
  intros Hl E.
  assert (contents (k_heap s) LDelay = (NDelay <$> l1) ++ NDelay t :: (NDelay <$> l2)) as Ec.
  { change (contents (k_heap s)) with (kcontents s). by rewrite delay_contents, E, fmap_app. }
  destruct (wf_node _ (lo_wf _ Hl) LDelay _ _ _ Ec) as (_&Hnx&Ho).
  split_and!; [done| |unfold node; rewrite Hnx; by destruct l2].
  apply (lo_linked _ Hl (NDelay t) LDelay). rewrite Ec. set_solver.
Qed.

Lemma delay_klist s :
  lists_ok (k_heap s) →
  klist s LDelay = mk_list (NDelay <$> head (delay_list s)) (NDelay <$> last (delay_list s))
                     (Z.of_nat (length (delay_list s))).
Proof.
  intros Hl. unfold klist. rewrite (wf_list _ (lo_wf _ Hl)).
  change (contents (k_heap s)) with (kcontents s). rewrite (delay_contents s Hl).
  rewrite last_or_last, first_or_head, fmap_last, length_fmap. by destruct (delay_list s).
Qed.
End delay_ok.

(** ** The operations *)

Section delay_specs.
Context `{ConfigOk}.

(** [s'] is [s] with the delay queue replaced by [ts]. *)
Definition delay_step (s s' : kernel) (ts : list task_ptr) : Prop :=
  ∃ h', s' = s <| k_heap := h' |> ∧ lists_step (k_heap s) h' LDelay (NDelay <$> ts).

Lemma delay_step_list s s' ts : delay_step s s' ts → delay_list s' = ts.
Proof.
  intros (h'&->&[_ Hc]). unfold delay_list, kcontents. cbn.
  by rewrite Hc, decide_True, tasks_of_delay.
Qed.

Lemma rts_delay_link_spec s t link l1 l2 :
  lists_ok (k_heap s) → delay_list s = l1 ++ l2 →
  (∀ Q, (∀ h', lists_step (k_heap s) h' LDelay (NDelay <$> l1 ++ t :: l2) → Q tt (s <| k_heap := h' |>)) →
     wp link Q (upd_node (NDelay t) (λ x, x <| n_object := Some (OTask t) |>) s)) →
  wp (rts_delay_link t link) (λ _ s', delay_step s s' (l1 ++ t :: l2)) s.
Proof.
  intros Hl E Hlink. unfold rts_delay_link. apply wp_bind, wp_modify, wp_bind, Hlink.
  intros h' Hst. apply wp_bind, wp_gets.
  rewrite bool_decide_true by (eapply lists_step_owner; [exact Hst|set_solver]).
  apply wp_ret. by exists h'.
Qed.

Lemma rts_delay_insert_loop_spec base s t l1 l2 fuel :
  delay_ok base s → t ∈ all_tasks → n_owner (node s (NDelay t)) = None →
  wake_in base s t < RTS_TICK_HALF_RANGE →
  delay_list s = l1 ++ l2 → (length l2 < fuel)%nat →
  (∀ y, y ∈ l1 → wake_in base s y ≤ wake_in base s t) →
  wp (rts_delay_insert_loop t (NDelay <$> head l2) fuel)
     (λ _ s', delay_step s s' (insert_by (wake_in base s) t (delay_list s))) s.
Proof.
  intros Hok Ht Hn Hw. pose proof (do_lists _ _ Hok) as Hl.
  revert l1 fuel. induction l2 as [|u l2 IH]; intros l1 fuel E Hf Hle;
    (destruct fuel as [|fuel]; [simpl in *; lia|]); cbn [rts_delay_insert_loop head fmap option_fmap option_map].
  - rewrite E, (insert_by_app (wake_in base s) t l1 []) by done.
    apply rts_delay_link_spec; [done..|]. intros Q HQ. apply wp_link_back; [done..|].
    intros h' Hst. apply HQ. rewrite delay_contents, E, app_nil_r in Hst by done.
    by rewrite fmap_app.
  - destruct (delay_node s l1 u l2 Hl E) as (Ho&Hobj&Hnx).
    check; []. apply wp_bind, wp_gets. rewrite Hobj.
    cbn [RTS_REQUIRE_PTR object_task]. apply wp_bind, wp_ret. check; [].
    do 2 apply wp_bind, wp_gets. unfold rts_tick_is_before.
    fold (wake_tick s t) (wake_tick s u).
    assert (u ∈ delay_list s) as Hu by (rewrite E; set_solver).
    pose proof (do_window _ _ Hok u Hu) as Hwu.
    rewrite (proj2 (Z.eqb_neq _ _)) by by eapply window_not_half.
    apply wp_bind, wp_ret. destruct (rts_tick_before (wake_tick s t) (wake_tick s u)) eqn:Eb.
    + apply (rts_tick_before_window base) in Eb; [|done..].
      rewrite E, insert_by_app; [|done|intros y [= <-]; done].
      apply rts_delay_link_spec; [done..|]. intros Q HQ.
      apply (wp_link_before s LDelay (NDelay u) (NDelay t) (NDelay <$> l1) (NDelay <$> l2)); [done..| |].
      * by rewrite delay_contents, E, fmap_app by done.
      * intros h' Hst. apply HQ. by rewrite fmap_app.
    + apply wp_bind, wp_gets. rewrite Hnx. apply (IH (l1 ++ [u])).
      * by rewrite <- app_assoc.
      * simpl in Hf. lia.
      * intros y [?| ->%list_elem_of_singleton]%elem_of_app; [auto|].
        destruct (Z.lt_ge_cases (wake_in base s t) (wake_in base s u)) as [Hlt|]; [|done].
        apply (rts_tick_before_window base) in Hlt; [congruence|done..].
Qed.

Lemma rts_delay_insert_spec base s t :
  delay_ok base s → t ∈ all_tasks → n_owner (node s (NDelay t)) = None →
  wake_in base s t < RTS_TICK_HALF_RANGE →
  wp (rts_delay_insert (Some t))
     (λ _ s', delay_step s s' (insert_by (wake_in base s) t (delay_list s))) s.
Proof.
  intros Hok Ht Hn Hw. pose proof (do_lists _ _ Hok) as Hl.
  destruct (wf_unlinked _ (lo_wf _ Hl) _ Hn) as [Hpv Hnx].
  unfold rts_delay_insert, RTS_REQUIRE_PTR. do 3 (check; []).
  check; [by apply bool_decide_true, (lo_free _ Hl _ t)|].
  do 2 apply wp_bind, wp_gets. rewrite delay_klist by done. cbn [l_head l_count].
  apply (rts_delay_insert_loop_spec base s t []); [done..|lia|set_solver].
Qed.

Lemma rts_delay_remove_spec s t l1 l2 :
  lists_ok (k_heap s) → delay_list s = l1 ++ t :: l2 →
  wp (rts_delay_remove (Some t)) (λ _ s', delay_step s s' (l1 ++ l2)) s.
Proof.
  intros Hl E. unfold rts_delay_remove, RTS_REQUIRE_PTR.
  check; [apply bool_decide_true, delay_owner; [done|rewrite E; set_solver]|].
  apply wp_bind. eapply (wp_unlink _ _ _ (NDelay <$> l1) (NDelay <$> l2)); [done| |].
  - by rewrite delay_contents, E, fmap_app by done.
  - intros h' Hn Hst. check; []. apply wp_modify. eexists. split; [done|].
    by rewrite fmap_app.
Qed.

Lemma delay_ok_step base s s' ts :
  delay_ok base s → delay_step s s' ts →
  (∀ t, t ∈ ts → is_u32 (wake_tick s t) ∧ wake_in base s t < RTS_TICK_HALF_RANGE) →
  StronglySorted (λ a b, wake_in base s a ≤ wake_in base s b) ts →
  delay_ok base s'.
Proof.
  intros Hok Hst Hw Hs. pose proof (delay_step_list _ _ _ Hst) as Ed.
  destruct Hst as (h'&->&[Hl _]). split; rewrite ?Ed; [done| | |done]; intros t Ht; by apply Hw.
Qed.

Lemma rts_delay_contains_run s t :
  lists_ok (k_heap s) → rts_delay_contains (Some t) s = Done (bool_decide (t ∈ delay_list s)) s.
Proof.
  intros Hl. cbn. unfold gets. f_equal. apply bool_decide_ext. by rewrite delay_owner.
Qed.

Lemma rts_delay_peek_expired_run s now :
  lists_ok (k_heap s) →
  rts_delay_peek_expired now s =
  Done (match delay_list s with
        | t :: _ => if rts_tick_reached now (wake_tick s t) then Some t else None
        | [] => None
        end) s.
Proof.
  intros Hl. unfold rts_delay_peek_expired. rewrite bind_gets, delay_klist by done.
  destruct (delay_list s) as [|t ts] eqn:E; [done|].
  destruct (delay_node s [] t ts Hl E) as (Ho&Hobj&_).
  cbn [l_count l_head head length fmap option_fmap option_map].
  rewrite (proj2 (Z.eqb_neq _ _)) by lia. cbn [RTS_REQUIRE_PTR].
  check_run. rewrite bind_gets, Hobj. cbn [RTS_REQUIRE_PTR object_task]. check_run.
  rewrite bind_gets. unfold rts_tick_deadline_reached, wake_tick.
  by destruct (rts_tick_reached _ _).
Qed.

Lemma rts_delay_next_deadline_run s :
  lists_ok (k_heap s) →
  rts_delay_next_deadline s = Done (wake_tick s <$> head (delay_list s)) s.
Proof.
  intros Hl. unfold rts_delay_next_deadline. rewrite bind_gets, delay_klist by done.
  destruct (delay_list s) as [|t ts] eqn:E; cbn [l_head head fmap option_fmap option_map].
  - check_run; [done|]. rewrite delay_klist, E by done. done.
  - destruct (delay_node s [] t ts Hl E) as (Ho&Hobj&_).
    check_run. rewrite bind_gets, Hobj. cbn [RTS_REQUIRE_PTR object_task]. check_run. done.
Qed.
End delay_specs.

(** ** Correctness *)

Section delay_claims.
Context `{ConfigOk}.

Lemma delay_insert_keeps base s t :
  delay_ok base s → t ∈ all_tasks → n_owner (node s (NDelay t)) = None →
  is_u32 (wake_tick s t) → wake_in base s t < RTS_TICK_HALF_RANGE →
  wp (rts_delay_insert (Some t)) (λ _ s',
    delay_ok base s' ∧
    delay_list s' = insert_by (wake_in base s) t (delay_list s)) s.
Proof.
  intros Hok Ht Hn Hu Hw. eapply wp_mono; [by apply (rts_delay_insert_spec base)|].
  intros [] s' Hst. split; [|by eapply delay_step_list].
  eapply delay_ok_step; [done..| |].
  - intros y [->|Hy]%insert_by_elem; [done|].
    split; [by apply (do_range base s)|by apply (do_window base s)].
  - apply insert_by_sorted, (do_sorted base s Hok).
Qed.

(** C39: Inserting a task keeps the delay queue sorted by wake tick in wrapping
    tick order, behind every task that wakes no later (equal ticks are served
    first come first served), in front of every task that wakes later. *)
Theorem delay_insert_sorted base s t :
  delay_ok base s → t ∈ all_tasks → n_owner (node s (NDelay t)) = None →
  is_u32 (wake_tick s t) → wake_in base s t < RTS_TICK_HALF_RANGE →
  wp (rts_delay_insert (Some t)) (λ _ s',
    delay_ok base s' ∧
    delay_list s' = insert_by (wake_in base s) t (delay_list s)) s.
Proof. apply delay_insert_keeps. Qed.

(** The expiry test looks only at the head, and that is enough: it returns
    a delayed task that is due and that no other delayed task precedes, and
    returns NULL exactly when no delayed task is due. *)
Theorem delay_peek_expired_correct base s now :
  delay_ok base s → is_u32 now → ahead base now < RTS_TICK_HALF_RANGE →
  ∃ r, rts_delay_peek_expired now s = Done r s ∧
    match r with
    | Some t => t ∈ delay_list s ∧ rts_tick_reached now (wake_tick s t) = true ∧
                ∀ u, u ∈ delay_list s → wake_in base s t ≤ wake_in base s u
    | None => ∀ u, u ∈ delay_list s → rts_tick_reached now (wake_tick s u) = false
    end.
Proof.
  intros Hok Hnow Hw. eexists. split; [apply rts_delay_peek_expired_run, Hok|].
  pose proof (do_sorted base s Hok) as Hs.
  destruct (delay_list s) as [|t ts] eqn:E; [intros u Hu; set_solver|].
  apply StronglySorted_inv in Hs as [_ Hall]. rewrite Forall_forall in Hall.
  destruct (rts_tick_reached now (wake_tick s t)) eqn:Er.
  - split_and!; [set_solver|done|]. intros u [->|Hu]%elem_of_cons; [lia|auto].
  - intros u Hu. destruct (rts_tick_reached now (wake_tick s u)) eqn:Eu; [|done].
    assert (∀ v, v ∈ t :: ts → is_u32 (wake_tick s v) ∧ wake_in base s v < RTS_TICK_HALF_RANGE) as Hv.
    { intros v. rewrite <- E. split; [by apply (do_range base s)|by apply (do_window base s)]. }
    destruct (Hv t ltac:(set_solver)), (Hv u Hu).
    apply (rts_tick_reached_window base) in Eu; [|done..].
    assert (wake_in base s t ≤ wake_in base s u) as Hle.
    { apply elem_of_cons in Hu as [->|Hu]; [lia|auto]. }
    rewrite <- Er. symmetry. apply (rts_tick_reached_window base); [done..|].
    unfold wake_in in *. lia.
Qed.
End delay_claims.

(** ** Witnesses: wake ticks on both sides of the wrap-around *)

Section witnesses.
#[local] Existing Instance fp_config.

Definition delayed_tcb (tick : Z) : rts_tcb :=
  (inhabitant : rts_tcb) <| wait := zero_wait <| wait_wake_tick := tick |> |>.

Definition two_sleepers : kernel :=
  zero_kernel <| k_tasks := <[TApp 0 := delayed_tcb 3]>
                            (<[TApp 1 := delayed_tcb 4294967290]> ∅) |>.

Lemma two_sleepers_ok : delay_ok 4294967200 two_sleepers.
Proof. split; [apply zero_lists_ok|by intros ? ?%elem_of_nil..|constructor]. Qed.

Lemma delay_insert_sorted_witness :
  wp (rts_delay_insert (Some (TApp 0))) (λ _ s',
    delay_ok 4294967200 s' ∧ delay_list s' = [TApp 0]) two_sleepers.
Proof.
  eapply wp_mono; [apply (delay_insert_sorted 4294967200 two_sleepers (TApp 0))|].
  - apply two_sleepers_ok.
  - by apply all_tasks_app.
  - reflexivity.
  - by vm_compute.
  - by vm_compute.
  - intros [] s' [Hok ->]. split; [exact Hok|reflexivity].
Defined.

Definition one_asleep : kernel := final_store (rts_delay_insert (Some (TApp 0))) two_sleepers.

Lemma one_asleep_ok : delay_ok 4294967200 one_asleep.
Proof.
  destruct (wp_final (rts_delay_insert (Some (TApp 0))) (λ _ s', delay_ok 4294967200 s' ∧
    delay_list s' = insert_by (wake_in 4294967200 two_sleepers) (TApp 0) (delay_list two_sleepers))
    two_sleepers) as [_ [Hok _]]; [|exact Hok].
  apply delay_insert_keeps; [apply two_sleepers_ok|by apply all_tasks_app|done|by vm_compute..].
Qed.

Lemma delay_peek_expired_correct_witness :
  ∃ r, rts_delay_peek_expired 3 one_asleep = Done r one_asleep ∧ r = Some (TApp 0).
Proof.
  destruct (delay_peek_expired_correct 4294967200 one_asleep 3 one_asleep_ok) as (r&Hr&_).
  - by vm_compute.
  - by vm_compute.
  - exists r. split; [exact Hr|]. vm_compute in Hr. congruence.
Defined.
End witnesses.
