(* ===== verification/HostPort.v ===== *)
(** * The host port (ports/host/port.c, ports/host/port_start.c)

    The port the unit tests run on: nested critical sections with tokens, the
    record of switch requests, the tick source, tickless sleep, and the initial
    stack frame of a task.  [rts_port_start_first_task] needs the scheduler's
    validity tests and is in Init.v; the tests' controls are in Snapshot.v. *)

From S2P Require Import Prelude Machine Config Types.

Definition RTS_HOST_CRITICAL_NESTING_MAX : Z := 16.
Definition RTS_HOST_INITIAL_FRAME_MAGIC : Z := 0x48535446.
Definition RTS_HOST_INITIAL_FRAME_VERSION : Z := 1.

Definition upd_port (f : rts_host_port → rts_host_port) (s : kernel) : kernel :=
  s <| k_port := f (k_port s) |>.

(** ** Processor identity (kernel/cpu.h) *)

Definition RTS_BOOT_CPU_ID : Z := 0.
Definition rts_cpu_current_id : Z := RTS_BOOT_CPU_ID.
Definition rts_cpu_id_is_valid (cpu : Z) : bool := cpu =? RTS_BOOT_CPU_ID.

Section host_port.
Context `{Config}.

(** ** Critical sections *)

Definition rts_port_critical_enter : K Z :=
  RTS_ASSERT (gets (λ s, host_critical_depth (k_port s) <? RTS_HOST_CRITICAL_NESTING_MAX)) ;;;
  let* full := gets (λ s, RTS_HOST_CRITICAL_NESTING_MAX <=? host_critical_depth (k_port s)) in
  if full then ret 0 else
  let* token := gets (λ s,
    Z.lor (Z.shiftl (host_critical_depth (k_port s) + 1) 1)
          (if host_interrupts_masked (k_port s) then 1 else 0)) in
  modify (upd_port (λ p, p <| host_critical_tokens :=
    <[host_critical_depth p := token]> (host_critical_tokens p) |>)) ;;;
  modify (upd_port (λ p, p <| host_critical_depth ::= Z.succ |>)) ;;;
  modify (upd_port (λ p, p <| host_interrupts_masked := true |>)) ;;;
  ret token.

Definition host_top_token (s : kernel) : Z :=
  host_critical_tokens (k_port s) !!! (host_critical_depth (k_port s) - 1).

Definition rts_port_critical_exit (token : Z) : K unit :=
  RTS_ASSERT (gets (λ s, 0 <? host_critical_depth (k_port s))) ;;;
  let* outside := gets (λ s, host_critical_depth (k_port s) =? 0) in
  if outside then ret tt else
  RTS_ASSERT (gets (λ s, host_top_token s =? token)) ;;;
  let* mismatch := gets (λ s, negb (host_top_token s =? token)) in
  if mismatch then ret tt else
  modify (upd_port (λ p, p <| host_critical_depth ::= Z.pred |>)) ;;;
  modify (upd_port (λ p, p <| host_interrupts_masked := negb (Z.land token 1 =? 0) |>)).

(** kernel/kernel_lock.h: the kernel lock is the port's critical section. *)
Definition rts_kernel_lock_enter : K Z := rts_port_critical_enter.
Definition rts_kernel_lock_exit (token : Z) : K unit := rts_port_critical_exit token.

(** ** Context, switch requests and the tick source *)

Definition rts_port_is_in_isr : K bool := gets (λ s, host_in_isr (k_port s)).

Definition rts_port_exception_number : K Z :=
  gets (λ s, if host_in_isr (k_port s) then 1 else 0).

Definition rts_port_fatal_disable : K unit :=
  modify (upd_port (λ p, p <| host_interrupts_masked := true |>)).

Definition rts_port_request_reschedule (cpu : Z) : K unit :=
  RTS_ASSERT (ret (rts_cpu_id_is_valid cpu)) ;;;
  if negb (rts_cpu_id_is_valid cpu) then ret tt else
  RTS_ASSERT (gets (λ s, host_switch_request_count (k_port s) <? SIZE_MAX)) ;;;
  let* saturated := gets (λ s, host_switch_request_count (k_port s) =? SIZE_MAX) in
  if saturated then ret tt else
  modify (upd_port (λ p, p <| host_switch_request_count ::= Z.succ |>)) ;;;
  modify (upd_port (λ p, p <| host_last_switch_request_critical_depth := host_critical_depth p |>)) ;;;
  modify (upd_port (λ p, p <| host_switch_request_pending := true |>)).

Definition rts_port_initialize : K rts_status_t :=
  let* fail := gets (λ s, host_fail_next_initialize (k_port s)) in
  if fail then
    modify (upd_port (λ p, p <| host_fail_next_initialize := false |>)) ;;;
    ret RTS_STATUS_PORT_ERROR
  else
    modify (upd_port (λ p, p <| host_initialized := true |>)) ;;;
    modify (upd_port (λ p, p <| host_tick_ready := true |>)) ;;;
    ret RTS_STATUS_OK.

Definition rts_port_tick_start : K rts_status_t :=
  let* fail := gets (λ s, host_fail_next_tick_start (k_port s)) in
  if fail then
    modify (upd_port (λ p, p <| host_fail_next_tick_start := false |>)) ;;;
    ret RTS_STATUS_PORT_ERROR
  else
    let* bad := gets (λ s, negb (host_tick_ready (k_port s)) || host_tick_running (k_port s)) in
    if bad then ret RTS_STATUS_INVALID_STATE else
    modify (upd_port (λ p, p <| host_tick_running := true |>)) ;;;
    ret RTS_STATUS_OK.

Definition rts_port_tick_stop : K unit :=
  modify (upd_port (λ p, p <| host_tick_running := false |>)).

Definition rts_port_tick_commit_start : K bool := gets (λ s, host_tick_running (k_port s)).

(** rts_port_sleep_result_t: status, elapsed ticks, wake source. *)
Definition rts_port_power_sleep (maximum_ticks : Z) : K (rts_status_t * Z * Z) :=
  RTS_ASSERT (ret (negb (maximum_ticks =? 0))) ;;;
  RTS_ASSERT (gets (λ s, host_tick_running (k_port s))) ;;;
  RTS_ASSERT (gets (λ s, 0 <? host_critical_depth (k_port s))) ;;;
  let failed := (RTS_STATUS_PORT_ERROR, 0, RTS_PORT_WAKE_OTHER) in
  let* bad := gets (λ s, (maximum_ticks =? 0) || negb (host_tick_running (k_port s)) ||
                         (host_critical_depth (k_port s) =? 0)) in
  if bad then ret failed else
  modify (upd_port (λ p, p <| host_last_sleep_limit := maximum_ticks |>)) ;;;
  let* fail := gets (λ s, host_fail_next_sleep (k_port s)) in
  if fail then
    modify (upd_port (λ p, p <| host_fail_next_sleep := false |>)) ;;; ret failed
  else
  let* configured := gets (λ s, host_sleep_wake_configured (k_port s)) in
  let* elapsed := gets (λ s, if configured then host_next_sleep_elapsed (k_port s)
                             else maximum_ticks) in
  let* source := gets (λ s, if configured then host_next_wake_source (k_port s)
                            else RTS_PORT_WAKE_TIMER) in
  modify (upd_port (λ p, p <| host_sleep_wake_configured := false |>)) ;;;
  if maximum_ticks <? elapsed then ret (RTS_STATUS_PORT_ERROR, elapsed, source) else
  modify (upd_port (λ p, p <| host_sleep_count ::= Z.succ |>)) ;;;
  ret (RTS_STATUS_OK, elapsed, source).

(** ** Memory: stacks as bytes

    The host is little-endian; a pointer has the size of uintptr_t. *)

Definition pointer_bytes : Z := if UINTPTR_MAX =? UINT32_MAX then 4 else 8.

Fixpoint value_bytes (n : nat) (v : Z) : list Z :=
  match n with O => [] | S n' => v mod 256 :: value_bytes n' (v / 256) end.

Fixpoint bytes_value (bs : list Z) : Z :=
  match bs with [] => 0 | b :: bs' => b + 256 * bytes_value bs' end.

Definition store_byte (a b : Z) (s : kernel) : kernel :=
  s <| k_memory := <[a := b]> (k_memory s) |>.
Definition load_byte (s : kernel) (a : Z) : Z := k_memory s !!! a.
Definition load_bytes (s : kernel) (a : Z) (n : nat) : list Z :=
  load_byte s <$> seqZ a (Z.of_nat n).

(** rts_host_bytes_copy with the source object given by its bytes. *)
Fixpoint rts_host_bytes_copy (destination : Z) (source : list Z) : K unit :=
  match source with
  | [] => ret tt
  | b :: source' =>
      modify (store_byte destination b) ;;; rts_host_bytes_copy (destination + 1) source'
  end.

(** rts_host_initial_frame_t. *)
Record rts_host_initial_frame := mk_frame {
  frame_magic : Z; frame_version : Z; frame_entry : Z; frame_argument : Z;
  frame_return_trap : Z; frame_reserved : Z
}.

Definition RTS_HOST_FRAME_SIZE : Z := 8 + 4 * pointer_bytes.
Definition RTS_HOST_FRAME_STORAGE_BYTES : Z :=
  (RTS_HOST_FRAME_SIZE + RTS_TASK_STACK_ALIGNMENT - 1) / RTS_TASK_STACK_ALIGNMENT *
  RTS_TASK_STACK_ALIGNMENT.

Definition rts_host_stack_region_is_valid (stack_buffer stack_size_bytes entry : Z) : bool :=
  if (stack_buffer =? 0) || (entry =? 0) || (stack_size_bytes =? 0) ||
     (stack_size_bytes <? RTS_HOST_FRAME_STORAGE_BYTES) ||
     negb (stack_size_bytes mod RTS_TASK_STACK_ALIGNMENT =? 0) ||
     negb (stack_buffer mod RTS_TASK_STACK_ALIGNMENT =? 0) ||
     (UINTPTR_MAX <? stack_size_bytes)
  then false
  else if UINTPTR_MAX - stack_size_bytes <? stack_buffer then false
  else (stack_buffer + stack_size_bytes) mod RTS_TASK_STACK_ALIGNMENT =? 0.

Definition rts_port_task_stack_minimum_size_bytes : Z := RTS_HOST_FRAME_STORAGE_BYTES.
Definition rts_port_task_stack_size_granularity_bytes : Z := RTS_TASK_STACK_ALIGNMENT.

(** rts_port_stack_result_t: status and saved stack pointer (0 is null). *)
Definition rts_port_stack_initialize `{Layout}
    (stack_buffer stack_size_bytes entry argument : Z) : K (rts_status_t * Z) :=
  if entry =? 0 then ret (RTS_STATUS_INVALID_TASK_CONFIG, 0) else
  let* fail := gets (λ s, host_fail_next_stack_initialize (k_port s)) in
  if fail then
    modify (upd_port (λ p, p <| host_fail_next_stack_initialize := false |>)) ;;;
    ret (RTS_STATUS_PORT_ERROR, 0)
  else if negb (rts_host_stack_region_is_valid stack_buffer stack_size_bytes entry) then
    ret (RTS_STATUS_INVALID_STACK, 0)
  else
    let frame_start := stack_buffer + stack_size_bytes - RTS_HOST_FRAME_STORAGE_BYTES in
    let pointer := Z.to_nat pointer_bytes in
    for_each (seqZ 0 RTS_HOST_FRAME_STORAGE_BYTES) (λ index,
      modify (store_byte (frame_start + index) 0)) ;;;
    rts_host_bytes_copy frame_start (value_bytes 4 RTS_HOST_INITIAL_FRAME_MAGIC) ;;;
    rts_host_bytes_copy (frame_start + 4) (value_bytes 4 RTS_HOST_INITIAL_FRAME_VERSION) ;;;
    rts_host_bytes_copy (frame_start + 8) (value_bytes pointer entry) ;;;
    rts_host_bytes_copy (frame_start + 8 + pointer_bytes) (value_bytes pointer argument) ;;;
    rts_host_bytes_copy (frame_start + 8 + 2 * pointer_bytes)
      (value_bytes pointer addr_return_trap) ;;;
    rts_host_bytes_copy (frame_start + 8 + 3 * pointer_bytes) (value_bytes pointer 0) ;;;
    ret (RTS_STATUS_OK, frame_start).

(** [None] when the function returns false because a pointer is null; else
    the frame it copies out and its answer. *)
Definition rts_host_port_initial_frame_read (saved_stack_pointer : Z) :
    K (option (rts_host_initial_frame * bool)) :=
  if saved_stack_pointer =? 0 then ret None else
  let pointer := Z.to_nat pointer_bytes in
  let field s offset n := bytes_value (load_bytes s (saved_stack_pointer + offset) n) in
  gets (λ s,
    let frame := mk_frame (field s 0 4%nat) (field s 4 4%nat) (field s 8 pointer)
      (field s (8 + pointer_bytes) pointer) (field s (8 + 2 * pointer_bytes) pointer)
      (field s (8 + 3 * pointer_bytes) pointer) in
    Some (frame, (frame_magic frame =? RTS_HOST_INITIAL_FRAME_MAGIC) &&
                 (frame_version frame =? RTS_HOST_INITIAL_FRAME_VERSION))).
End host_port.

(** ** Critical sections nest *)

Section critical.
Context `{Config}.

(** The port's critical-section state, with the tokens of open sections. *)
Definition same_nesting (s s' : kernel) : Prop :=
  host_critical_depth (k_port s') = host_critical_depth (k_port s) ∧
  host_interrupts_masked (k_port s') = host_interrupts_masked (k_port s) ∧
  ∀ i, 0 ≤ i < host_critical_depth (k_port s) →
    host_critical_tokens (k_port s') !!! i = host_critical_tokens (k_port s) !!! i.

Lemma same_nesting_trans s1 s2 s3 : same_nesting s1 s2 → same_nesting s2 s3 → same_nesting s1 s3.
Proof.
  intros (A1&A2&A3) (B1&B2&B3). split_and!; [congruence..|].
  intros i Hi. rewrite B3 by (by rewrite A1). by apply A3.
Qed.

Definition critical_token (p : rts_host_port) : Z :=
  Z.lor (Z.shiftl (host_critical_depth p + 1) 1) (if host_interrupts_masked p then 1 else 0).

(** The port inside one more critical section, and after leaving it. *)
Definition port_entered (p : rts_host_port) : rts_host_port :=
  p <| host_critical_tokens := <[host_critical_depth p := critical_token p]> (host_critical_tokens p) |>
    <| host_critical_depth := Z.succ (host_critical_depth p) |>
    <| host_interrupts_masked := true |>.
Definition port_exited (masked : bool) (p : rts_host_port) : rts_host_port :=
  p <| host_critical_depth := Z.pred (host_critical_depth p) |>
    <| host_interrupts_masked := masked |>.

Lemma critical_token_mask p : negb (Z.land (critical_token p) 1 =? 0) = host_interrupts_masked p.
Proof.
  pose proof (land_shiftl_1 (critical_token p) 0 ltac:(lia)) as E. change (Z.shiftl 1 0) with 1 in E.
  rewrite E, negb_involutive. unfold critical_token.
  rewrite Z.lor_spec, Z.shiftl_spec_low by lia. by destruct (host_interrupts_masked p).
Qed.

Lemma rts_port_critical_enter_run s :
  host_critical_depth (k_port s) < RTS_HOST_CRITICAL_NESTING_MAX →
  rts_port_critical_enter s = Done (critical_token (k_port s)) (upd_port port_entered s).
Proof.
  intros Hd. unfold rts_port_critical_enter.
  rewrite assert_run by (unfold gets; f_equal; by apply Z.ltb_lt).
  rewrite bind_gets, (proj2 (Z.leb_gt _ _)) by done. done.
Qed.

Lemma rts_port_critical_exit_run s token :
  0 < host_critical_depth (k_port s) → host_top_token s = token →
  rts_port_critical_exit token s =
  Done tt (upd_port (port_exited (negb (Z.land token 1 =? 0))) s).
Proof.
  intros Hd Ht. unfold rts_port_critical_exit.
  rewrite assert_run by (unfold gets; f_equal; by apply Z.ltb_lt).
  rewrite bind_gets, (proj2 (Z.eqb_neq _ 0)) by lia.
  rewrite assert_run by (unfold gets; f_equal; by apply Z.eqb_eq).
  by rewrite bind_gets, Ht, Z.eqb_refl.
Qed.

(** Leaving the section that was entered in [s], after balanced work. *)
Lemma critical_exit_balanced s s' :
  0 ≤ host_critical_depth (k_port s) →
  same_nesting (upd_port port_entered s) s' →
  rts_port_critical_exit (critical_token (k_port s)) s' =
    Done tt (upd_port (port_exited (host_interrupts_masked (k_port s))) s') ∧
  same_nesting s (upd_port (port_exited (host_interrupts_masked (k_port s))) s').
Proof.
  intros Hd (Ed&Em&Et). cbn in Ed, Em, Et. split.
  - rewrite rts_port_critical_exit_run; [by rewrite critical_token_mask|rewrite Ed; lia|].
    unfold host_top_token. rewrite Ed. replace (Z.succ _ - 1) with (host_critical_depth (k_port s)) by lia.
    rewrite Et by lia. by rewrite lookup_total_insert_dec, decide_True.
  - split_and!; cbn; [rewrite Ed; lia|done|]. intros i Hi. rewrite Et by lia.
    rewrite lookup_total_insert_dec, decide_False by lia. done.
Qed.

Definition with_critical {A} (m : K A) : K A :=
  let* token := rts_port_critical_enter in
  let* a := m in
  rts_port_critical_exit token ;;;
  ret a.

(** A critical section around any balanced computation returns with the
    nesting depth, the tokens of the enclosing sections and the interrupt
    mask it was entered with, whatever the mask was and however deep. *)
Theorem critical_section_restores {A} (m : K A) Q s :
  0 ≤ host_critical_depth (k_port s) < RTS_HOST_CRITICAL_NESTING_MAX →
  wp m (λ a s', same_nesting (upd_port port_entered s) s' ∧
                Q a (upd_port (port_exited (host_interrupts_masked (k_port s))) s'))
     (upd_port port_entered s) →
  wp (with_critical m) (λ a s', same_nesting s s' ∧ Q a s') s.
Proof.
  intros Hd Hm. unfold with_critical. apply wp_bind.
  eapply wp_run; [apply rts_port_critical_enter_run; lia|].
  apply wp_bind. eapply wp_mono; [exact Hm|]. intros a s' [Hn HQ].
  destruct (critical_exit_balanced s s' ltac:(lia) Hn) as [Hrun Hsame].
  apply wp_bind. eapply wp_run; [exact Hrun|]. by apply wp_ret.
Qed.
End critical.

(** ** Bytes in memory *)

Section memory.
Context `{Config}.

Fixpoint store_bytes (a : Z) (bs : list Z) (s : kernel) : kernel :=
  match bs with [] => s | b :: bs' => store_bytes (a + 1) bs' (store_byte a b s) end.

Lemma rts_host_bytes_copy_run a bs s : rts_host_bytes_copy a bs s = Done tt (store_bytes a bs s).
Proof. revert a s. induction bs as [|b bs IH]; intros a s; [done|]. apply IH. Qed.

Lemma load_store_byte a b s x :
  load_byte (store_byte a b s) x = if decide (a = x) then b else load_byte s x.
Proof. apply lookup_total_insert_dec. Qed.

Lemma load_store_bytes a bs s x :
  load_byte (store_bytes a bs s) x =
  if decide (a ≤ x < a + Z.of_nat (length bs)) then bs !!! Z.to_nat (x - a) else load_byte s x.
Proof.
  revert a s. induction bs as [|b bs IH]; intros a s; cbn [store_bytes length].
  - rewrite decide_False by (simpl; lia). done.
  - rewrite IH, load_store_byte. destruct (decide (a = x)) as [->|Hne].
    + rewrite decide_False, decide_True, Z.sub_diag by lia. done.
    + repeat case_decide; try lia; try done.
      replace (Z.to_nat (x - a)) with (S (Z.to_nat (x - (a + 1)))) by lia. done.
Qed.

Lemma load_bytes_here a bs s : load_bytes (store_bytes a bs s) a (length bs) = bs.
Proof.
  apply list_eq. intros i. unfold load_bytes. rewrite list_lookup_fmap.
  destruct (decide (i < length bs)%nat) as [Hi|Hi].
  - rewrite (proj2 (lookup_seqZ _ _ _ (a + Z.of_nat i))) by lia. cbn.
    rewrite load_store_bytes, decide_True by lia.
    rewrite (list_lookup_lookup_total_lt bs i Hi). do 2 f_equal. lia.
  - rewrite !lookup_ge_None_2; [done|lia|rewrite length_seqZ; lia].
Qed.

Lemma load_bytes_other a bs s x n :
  x + Z.of_nat n ≤ a ∨ a + Z.of_nat (length bs) ≤ x →
  load_bytes (store_bytes a bs s) x n = load_bytes s x n.
Proof.
  intros Hd. unfold load_bytes. apply list_fmap_ext. intros i y Hy%lookup_seqZ.
  rewrite load_store_bytes, decide_False by lia. done.
Qed.

Lemma length_value_bytes n v : length (value_bytes n v) = n.
Proof. revert v. induction n; intros v; simpl; by f_equal. Qed.

Lemma bytes_value_bytes n v : 0 ≤ v < 256 ^ Z.of_nat n → bytes_value (value_bytes n v) = v.
Proof.
  revert v. induction n as [|n IH]; intros v Hv; simpl; [lia|].
  rewrite IH; [pose proof (Z.div_mod v 256); lia|].
  rewrite Nat2Z.inj_succ, Z.pow_succ_r in Hv by lia.
  split; [apply Z.div_pos; lia|apply Z.div_lt_upper_bound; lia].
Qed.

(** Reading back a field that was just written, past later writes. *)
Lemma load_field a n v s :
  0 ≤ v < 256 ^ Z.of_nat n →
  bytes_value (load_bytes (store_bytes a (value_bytes n v) s) a n) = v.
Proof.
  intros Hv. rewrite <- (length_value_bytes n v) at 2. rewrite load_bytes_here.
  by apply bytes_value_bytes.
Qed.
End memory.

Section stack_frame.
Context `{ConfigOk} `{Layout}.

Lemma for_each_modify {A} (l : list A) (f : A → kernel → kernel) s :
  for_each l (λ x, modify (f x)) s = Done tt (foldl (λ s x, f x s) s l).
Proof. revert s. induction l as [|x l IH]; intros s; [done|]. apply IH. Qed.

Lemma pointer_bytes_cases : pointer_bytes = 4 ∨ pointer_bytes = 8.
Proof. unfold pointer_bytes. case_match; auto. Qed.

Lemma frame_storage : RTS_HOST_FRAME_SIZE ≤ RTS_HOST_FRAME_STORAGE_BYTES ∧
  RTS_HOST_FRAME_STORAGE_BYTES mod RTS_TASK_STACK_ALIGNMENT = 0.
Proof.
  unfold RTS_HOST_FRAME_STORAGE_BYTES, RTS_HOST_FRAME_SIZE, RTS_TASK_STACK_ALIGNMENT.
  by destruct pointer_bytes_cases as [-> | ->].
Qed.

(** Reading a frame whose six fields were written one after the other. *)
Lemma frame_read_back sp s ent arg trap :
  let P := pointer_bytes in
  let n := Z.to_nat P in
  sp ≠ 0 → 0 < P → 0 ≤ ent < 256 ^ Z.of_nat n → 0 ≤ arg < 256 ^ Z.of_nat n →
  0 ≤ trap < 256 ^ Z.of_nat n →
  let s' :=
    store_bytes (sp + 8 + 3 * P) (value_bytes n 0)
      (store_bytes (sp + 8 + 2 * P) (value_bytes n trap)
        (store_bytes (sp + 8 + P) (value_bytes n arg)
          (store_bytes (sp + 8) (value_bytes n ent)
            (store_bytes (sp + 4) (value_bytes 4 RTS_HOST_INITIAL_FRAME_VERSION)
              (store_bytes sp (value_bytes 4 RTS_HOST_INITIAL_FRAME_MAGIC) s))))) in
  rts_host_port_initial_frame_read sp s' =
  Done (Some (mk_frame RTS_HOST_INITIAL_FRAME_MAGIC RTS_HOST_INITIAL_FRAME_VERSION
                ent arg trap 0, true)) s'.
Proof.
  intros P n Hsp HP He Ha Ht s'.
  assert (∀ a v k s1 x m, x + Z.of_nat m ≤ a ∨ a + Z.of_nat k ≤ x →
    load_bytes (store_bytes a (value_bytes k v) s1) x m = load_bytes s1 x m) as Hoth.
  { intros. apply load_bytes_other. by rewrite length_value_bytes. }
  assert (Z.of_nat n = P) as Hn by lia.
  assert (bytes_value (load_bytes s' (sp + 0) 4) = RTS_HOST_INITIAL_FRAME_MAGIC) as E1.
  { rewrite Z.add_0_r. unfold s'. rewrite !Hoth by lia. by apply load_field. }
  assert (bytes_value (load_bytes s' (sp + 4) 4) = RTS_HOST_INITIAL_FRAME_VERSION) as E2.
  { unfold s'. do 4 rewrite Hoth by lia. by apply load_field. }
  assert (bytes_value (load_bytes s' (sp + 8) n) = ent) as E3.
  { unfold s'. do 3 rewrite Hoth by lia. by apply load_field. }
  assert (bytes_value (load_bytes s' (sp + (8 + P)) n) = arg) as E4.
  { unfold s'. rewrite Z.add_assoc. do 2 rewrite Hoth by lia. by apply load_field. }
  assert (bytes_value (load_bytes s' (sp + (8 + 2 * P)) n) = trap) as E5.
  { unfold s'. rewrite Z.add_assoc. rewrite Hoth by lia. by apply load_field. }
  assert (bytes_value (load_bytes s' (sp + (8 + 3 * P)) n) = 0) as E6.
  { unfold s'. rewrite Z.add_assoc. apply load_field. lia. }
  unfold rts_host_port_initial_frame_read. rewrite (proj2 (Z.eqb_neq sp 0)) by done.
  unfold gets. fold P n. by rewrite E1, E2, E3, E4, E5, E6.
Qed.

(** Initialising a task's stack writes a frame, inside the caller's stack
    region and aligned to the port's stack alignment, from which the entry,
    the argument and the return trap are read back unchanged. *)
Theorem stack_frame_round_trip s stack size ent arg :
  rts_host_stack_region_is_valid stack size ent = true →
  host_fail_next_stack_initialize (k_port s) = false →
  UINTPTR_MAX = UINT32_MAX ∨ UINTPTR_MAX = 18446744073709551615 →
  0 < stack → 0 < ent ≤ UINTPTR_MAX → 0 ≤ arg ≤ UINTPTR_MAX →
  0 ≤ addr_return_trap ≤ UINTPTR_MAX →
  wp (rts_port_stack_initialize stack size ent arg) (λ r s',
    ∃ sp, r = (RTS_STATUS_OK, sp) ∧ stack ≤ sp ∧
      sp + RTS_HOST_FRAME_SIZE ≤ stack + size ∧ sp mod RTS_TASK_STACK_ALIGNMENT = 0 ∧
      rts_host_port_initial_frame_read sp s' =
        Done (Some (mk_frame RTS_HOST_INITIAL_FRAME_MAGIC RTS_HOST_INITIAL_FRAME_VERSION
                      ent arg addr_return_trap 0, true)) s') s.
Proof.
  intros Hreg Hfail Hptr Hst He Ha Ht. unfold rts_port_stack_initialize.
  rewrite (proj2 (Z.eqb_neq ent 0)) by lia. apply wp_bind, wp_gets. rewrite Hfail, Hreg. cbn [negb].
  destruct frame_storage as [Hsz Hal].
  set (sp := stack + size - RTS_HOST_FRAME_STORAGE_BYTES).
  assert (RTS_HOST_FRAME_STORAGE_BYTES ≤ size ∧ (stack + size) mod RTS_TASK_STACK_ALIGNMENT = 0) as [Hs1 Hs2].
  { unfold rts_host_stack_region_is_valid in Hreg. repeat case_match; try done.
    repeat match goal with Hb : (_ || _) = false |- _ => apply orb_false_iff in Hb as [? ?] end.
    split; [by apply Z.ltb_ge|by apply Z.eqb_eq]. }
  assert (sp mod RTS_TASK_STACK_ALIGNMENT = 0) as Hspa.
  { unfold sp. by rewrite Zminus_mod, Hs2, Hal. }
  apply wp_bind. eapply wp_run; [apply for_each_modify|]. set (s0 := foldl _ _ _). clearbody s0.
  do 6 (apply wp_bind; eapply wp_run; [apply rts_host_bytes_copy_run|]). apply wp_ret.
  exists sp. split_and!; [done|unfold sp; lia|unfold sp; lia|done|].
  unfold RTS_HOST_FRAME_SIZE in Hsz.
  assert (256 ^ Z.of_nat (Z.to_nat pointer_bytes) = UINTPTR_MAX + 1 ∧ 0 < pointer_bytes) as [Hpow Hpos].
  { unfold pointer_bytes. by destruct Hptr as [-> | ->]. }
  apply frame_read_back; [unfold sp; lia|done|rewrite Hpow; lia..].
Qed.
End stack_frame.

Section witnesses.
#[local] Existing Instance fp_config.
#[local] Instance example_layout : Layout := {|
  addr_idle_stack := 4096; addr_timer_service_stack := 8192; addr_idle_entry := 1000;
  addr_timer_service_entry := 1004; addr_return_trap := 1008 |}.

(** Two nested sections around a switch request. *)
Lemma critical_section_restores_witness :
  wp (with_critical (rts_port_request_reschedule rts_cpu_current_id)) (λ _ s',
    same_nesting zero_kernel s' ∧ host_last_switch_request_critical_depth (k_port s') = 1) zero_kernel.
Proof.
  apply (critical_section_restores _ (λ _ s', host_last_switch_request_critical_depth (k_port s') = 1)
    zero_kernel); [by vm_compute|].
  vm_compute. split; [|reflexivity]. split; [reflexivity|]. split; reflexivity.
Defined.

Lemma stack_frame_round_trip_witness :
  wp (rts_port_stack_initialize 65536 512 2000 77) (λ r s',
    ∃ sp, r = (RTS_STATUS_OK, sp) ∧ 65536 ≤ sp ∧
      ∃ f, rts_host_port_initial_frame_read sp s' = Done (Some (f, true)) s' ∧
           frame_entry f = 2000 ∧ frame_argument f = 77) zero_kernel.
Proof.
  eapply wp_mono; [apply (stack_frame_round_trip zero_kernel 65536 512 2000 77)|].
  - reflexivity.
  - reflexivity.
  - right. reflexivity.
  - by vm_compute.
  - by vm_compute.
  - by vm_compute.
  - by vm_compute.
  - intros r s' (sp&->&Hlo&_&_&Hread). exists sp. split; [reflexivity|]. split; [exact Hlo|].
    eexists. split; [exact Hread|]. split; reflexivity.
Defined.
End witnesses.
