(* ===== verification/Ring.v ===== *)
(** * Ring buffers

    kernel/trace.c and kernel/timer_callback_queue.c keep a bounded sequence in
    an array with a head index and a count.  [ring cap head count items] is the
    sequence, oldest element first. *)

From S2P Require Import Prelude Types.

Section ring.
Context {A : Type} `{Inhabited A} (cap : Z) (Hcap : 0 < cap).
Implicit Types (items : gmap Z A) (head count : Z).

Definition ring head count items : list A :=
  (λ i, items !!! ((head + i) mod cap)) <$> seqZ 0 count.

Lemma ring_length head count items : 0 ≤ count → Z.of_nat (length (ring head count items)) = count.
Proof. intros. unfold ring. rewrite length_fmap, length_seqZ. lia. Qed.

Lemma ring_empty head items : ring head 0 items = [].
Proof. done. Qed.

Lemma ring_index_inj head i j :
  0 ≤ i < cap → 0 ≤ j < cap → (head + i) mod cap = (head + j) mod cap → i = j.
Proof using Hcap.
  intros Hi Hj E. assert ((i - j) mod cap = 0) as E0.
  { replace (i - j) with ((head + i) - (head + j)) by lia. by rewrite Zminus_mod, E, Z.sub_diag. }
  apply Z.mod_divide in E0 as [k Hk]; [|lia].
  assert (k = 0) by nia. lia.
Qed.

Lemma ring_lookup head count items i :
  0 ≤ i < count → ring head count items !! Z.to_nat i = Some (items !!! ((head + i) mod cap)).
Proof.
  intros Hi. unfold ring. rewrite list_lookup_fmap.
  rewrite (proj2 (lookup_seqZ _ _ _ i)) by lia. done.
Qed.

Lemma ring_push head count items x :
  0 ≤ count < cap →
  ring head (count + 1) (<[(head + count) mod cap := x]> items) = ring head count items ++ [x].
Proof using Hcap.
  intros Hc. unfold ring. rewrite seqZ_app by lia. rewrite fmap_app. f_equal.
  - apply list_fmap_ext. intros k i Hk%lookup_seqZ.
    rewrite lookup_total_insert_ne; [done|]. intros E.
    apply ring_index_inj in E; lia.
  - rewrite seqZ_cons by lia. rewrite seqZ_nil by lia. cbn [fmap list_fmap].
    rewrite Z.add_0_l. by rewrite lookup_total_insert_eq.
Qed.

Lemma ring_pop head count items :
  0 < count →
  ring head count items =
  items !!! (head mod cap) :: ring ((head + 1) mod cap) (count - 1) items.
Proof.
  intros Hc. unfold ring. rewrite seqZ_cons by lia. cbn [fmap list_fmap]. rewrite Z.add_0_r. f_equal.
  rewrite <- (fmap_add_seqZ 1 0), <- list_fmap_compose by lia. replace (Z.pred count) with (count - 1) by lia.
  apply list_fmap_ext. intros k i _. cbn. f_equal. rewrite Zplus_mod_idemp_l. f_equal. lia.
Qed.

(** Overwriting the oldest element of a full ring. *)
Lemma ring_overwrite head items x :
  0 ≤ head < cap →
  ring ((head + 1) mod cap) cap (<[head := x]> items) = tail (ring head cap items) ++ [x].
Proof using Hcap.
  intros Hh. rewrite (ring_pop head cap items) by lia. cbn [tail].
  rewrite <- ring_push by lia. replace (cap - 1 + 1) with cap by lia. f_equal. f_equal.
  rewrite Zplus_mod_idemp_l. replace (head + 1 + (cap - 1)) with (head + 1 * cap) by lia.
  rewrite Z.mod_add, Z.mod_small by lia. done.
Qed.
End ring.
