(* ===== verification/Diagnostics.v ===== *)
(** * Diagnostics (kernel/runtime_stats.c, kernel/trace.c, kernel/fatal.c, kernel/cpu_local.c)

    Saturating counters, the trace ring, the fatal record and the per-CPU
    view of the scheduler state. *)

From S2P Require Import Prelude Machine Config Types HostPort Ring.

(** ** Per-CPU state (kernel/cpu_local.c) *)

Section cpu_local.
Context `{Config}.

Definition rts_scheduler_current_on_cpu (cpu : Z) : K (option task_ptr) :=
  RTS_ASSERT (ret (rts_cpu_id_is_valid cpu)) ;;;
  if rts_cpu_id_is_valid cpu then gets k_current_task else ret None.

Definition rts_scheduler_current_get : K (option task_ptr) :=
  rts_scheduler_current_on_cpu rts_cpu_current_id.

Definition rts_scheduler_set_current_on_cpu (cpu : Z) (t : option task_ptr) : K unit :=
  RTS_ASSERT (ret (rts_cpu_id_is_valid cpu)) ;;;
  when (rts_cpu_id_is_valid cpu) (modify (λ s, s <| k_current_task := t |>)).

Lemma rts_scheduler_current_get_run s : rts_scheduler_current_get s = Done (k_current_task s) s.
Proof. unfold rts_scheduler_current_get, rts_scheduler_current_on_cpu. by rewrite assert_run. Qed.

Lemma rts_scheduler_set_current_run s t :
  rts_scheduler_set_current_on_cpu rts_cpu_current_id t s = Done tt (s <| k_current_task := t |>).
Proof. unfold rts_scheduler_set_current_on_cpu. by rewrite assert_run. Qed.
End cpu_local.

(** ** Counters (kernel/runtime_stats.c) *)

Definition rts_diagnostic_counter_increment (value : Z) : Z :=
  if value =? UINT32_MAX then UINT32_MAX else u32 (value + 1).

Definition rts_diagnostic_counter_add (value increment : Z) : Z :=
  if UINT32_MAX - value <? increment then UINT32_MAX else u32 (value + increment).

Lemma counter_increment_min value :
  is_u32 value → rts_diagnostic_counter_increment value = Z.min UINT32_MAX (value + 1).
Proof.
  unfold is_u32. intros Hv. unfold rts_diagnostic_counter_increment.
  destruct (Z.eqb_spec value UINT32_MAX); [lia|]. rewrite u32_small by (unfold is_u32; lia). lia.
Qed.

Lemma counter_add_min value increment :
  is_u32 value → is_u32 increment →
  rts_diagnostic_counter_add value increment = Z.min UINT32_MAX (value + increment).
Proof.
  unfold is_u32. intros Hv Hi. unfold rts_diagnostic_counter_add.
  destruct (Z.ltb_spec (UINT32_MAX - value) increment); [lia|].
  rewrite u32_small by (unfold is_u32; lia). lia.
Qed.

(** The diagnostic counters saturate: any number of increments and additions
    leaves a counter at the true total or at UINT32_MAX, whichever is smaller,
    and never wraps. *)
Theorem counters_saturate (steps : list (option Z)) value :
  is_u32 value → Forall (λ o, match o with Some d => is_u32 d | None => True end) steps →
  foldl (λ v o, match o with
                | None => rts_diagnostic_counter_increment v
                | Some d => rts_diagnostic_counter_add v d
                end) value steps =
  Z.min UINT32_MAX (foldl (λ v o, v + default 1 o) value steps).
Proof.
  assert (∀ (l : list (option Z)) v, foldl (λ v o, v + default 1 o) v l =
    v + foldl (λ v o, v + default 1 o) 0 l) as Hshift.
  { induction l as [|o l IH]; intros v; cbn; [lia|]. rewrite IH, (IH (0 + _)). lia. }
  assert (∀ l : list (option Z), Forall (λ o, match o with Some d => is_u32 d | None => True end) l →
    0 ≤ foldl (λ v o, v + default 1 o) 0 l) as Hpos.
  { induction l as [|o l IH]; intros Hl; cbn; [lia|]. rewrite Hshift.
    apply Forall_cons in Hl as [Ho Hl]. specialize (IH Hl). destruct o as [d|]; cbn in *; [unfold is_u32 in Ho|]; lia. }
  intros Hv Hs. revert value Hv. induction Hs as [|o steps Ho Hs IH]; intros value Hv; cbn.
  - unfold is_u32 in Hv. lia.
  - specialize (Hpos steps Hs).
    assert (match o with None => rts_diagnostic_counter_increment value
                       | Some d => rts_diagnostic_counter_add value d end
            = Z.min UINT32_MAX (value + default 1 o)) as ->.
    { destruct o as [d|]; [by apply counter_add_min|by apply counter_increment_min]. }
    assert (0 ≤ default 1 o) by (destruct o; cbn in *; [unfold is_u32 in *|]; lia).
    rewrite IH by (unfold is_u32 in *; unfold UINT32_MAX in *; lia).
    rewrite (Hshift steps (Z.min _ _)), (Hshift steps (value + _)). lia.
Qed.

Section stats.
Context `{Config}.

Definition upd_counter (c : rts_counter) (f : Z → Z) (s : kernel) : kernel :=
  s <| k_runtime_counters := <[c := f (counter s c)]> (k_runtime_counters s) |>.

(** RTS_DIAG_COUNTER_INC on a kernel counter and on a counter of a task. *)
Definition RTS_DIAG_COUNTER_INC (c : rts_counter) : K unit :=
  when RTS_ENABLE_RUNTIME_STATS (modify (upd_counter c rts_diagnostic_counter_increment)).
Definition RTS_DIAG_TASK_INC (t : task_ptr) (field : rts_tcb → Z) `{Setter _ _ field} : K unit :=
  when RTS_ENABLE_RUNTIME_STATS
    (modify (upd_task t (λ x, x <| field := rts_diagnostic_counter_increment (field x) |>))).

Definition rts_runtime_task_started (task_arg : option task_ptr) (now : Z) : K unit :=
  when RTS_ENABLE_RUNTIME_STATS
    match task_arg with
    | None => ret tt
    | Some t =>
        modify (upd_task t (λ x, x <| diagnostic_last_start_tick := now |>)) ;;;
        modify (upd_task t (λ x, x <| diagnostic_dispatch_count ::=
                                        rts_diagnostic_counter_increment |>))
    end.

Definition rts_runtime_task_stopped (task_arg : option task_ptr) (now : Z) : K unit :=
  when RTS_ENABLE_RUNTIME_STATS
    match task_arg with
    | None => ret tt
    | Some t =>
        modify (upd_task t (λ x, x <| diagnostic_running_ticks :=
          u32 (diagnostic_running_ticks x + u32 (now - diagnostic_last_start_tick x)) |>))
    end.
End stats.

(** ** Trace (kernel/trace.c) *)

Definition RTS_TRACE_TASK_CREATED : Z := 1.
Definition RTS_TRACE_SCHEDULER_STARTED : Z := 2.
Definition RTS_TRACE_TASK_SWITCHED : Z := 3.
Definition RTS_TRACE_TASK_BLOCKED : Z := 4.
Definition RTS_TRACE_TASK_WOKE : Z := 5.
Definition RTS_TRACE_YIELD : Z := 6.
Definition RTS_TRACE_SEMAPHORE : Z := 7.
Definition RTS_TRACE_MUTEX : Z := 8.
Definition RTS_TRACE_PRIORITY : Z := 9.
Definition RTS_TRACE_TICK : Z := 10.
Definition RTS_TRACE_FATAL : Z := 11.
Definition RTS_TRACE_TIMER_INITIALIZED : Z := 12.
Definition RTS_TRACE_TIMER_STARTED : Z := 13.
Definition RTS_TRACE_TIMER_STOPPED : Z := 14.
Definition RTS_TRACE_TIMER_RESTARTED : Z := 15.
Definition RTS_TRACE_TIMER_EXPIRED : Z := 16.
Definition RTS_TRACE_TIMER_CALLBACK_BEGIN : Z := 17.
Definition RTS_TRACE_TIMER_CALLBACK_END : Z := 18.
Definition RTS_TRACE_TIMER_STALE_CALLBACK : Z := 19.
Definition RTS_TRACE_TIMER_OVERRUN : Z := 20.
Definition RTS_TRACE_SLEEP_ENTER : Z := 21.
Definition RTS_TRACE_SLEEP_EXIT : Z := 22.
Definition RTS_TRACE_SLEEP_ABORT : Z := 23.

Section trace.
Context `{Config}.

Definition upd_trace (f : rts_trace → rts_trace) (s : kernel) : kernel :=
  s <| k_trace := f (k_trace s) |>.
Definition upd_trace_entry (index : Z) (f : rts_trace_entry → rts_trace_entry) : K unit :=
  modify (upd_trace (λ r, r <| trace_buffer :=
    <[index := f (trace_buffer r !!! index)]> (trace_buffer r) |>)).

Definition rts_trace_emit (event arg0 arg1 : Z) : K unit :=
  if negb RTS_ENABLE_TRACE then ret tt else
  let* token := rts_kernel_lock_enter in
  let* room := gets (λ s, trace_used (k_trace s) <? RTS_TRACE_CAPACITY) in
  let* index :=
    (if room then
      let* index := gets (λ s, (trace_head (k_trace s) + trace_used (k_trace s)) mod RTS_TRACE_CAPACITY) in
      modify (upd_trace (λ r, r <| trace_used ::= Z.succ |>)) ;;;
      ret index
    else
      let* index := gets (λ s, trace_head (k_trace s)) in
      modify (upd_trace (λ r, r <| trace_head := (trace_head r + 1) mod RTS_TRACE_CAPACITY |>)) ;;;
      modify (upd_trace (λ r, r <| trace_overwrites ::= rts_diagnostic_counter_increment |>)) ;;;
      ret index) in
  modify (upd_trace (λ r, r <| trace_sequence ::= rts_diagnostic_counter_increment |>)) ;;;
  let* sequence := gets (λ s, trace_sequence (k_trace s)) in
  let* tick := gets k_current_tick in
  upd_trace_entry index (λ e, e <| te_sequence := sequence |>) ;;;
  upd_trace_entry index (λ e, e <| te_tick := tick |>) ;;;
  upd_trace_entry index (λ e, e <| te_argument0 := arg0 |>) ;;;
  upd_trace_entry index (λ e, e <| te_argument1 := arg1 |>) ;;;
  upd_trace_entry index (λ e, e <| te_event := event |>) ;;;
  rts_kernel_lock_exit token.

Definition RTS_TRACE (event arg0 arg1 : Z) : K unit :=
  when RTS_ENABLE_TRACE (rts_trace_emit event arg0 arg1).

Definition rts_trace_count : K Z :=
  if negb RTS_ENABLE_TRACE then ret 0 else
  let* token := rts_kernel_lock_enter in
  let* count := gets (λ s, trace_used (k_trace s)) in
  rts_kernel_lock_exit token ;;;
  ret count.

Definition rts_trace_overwrite_count : K Z :=
  if negb RTS_ENABLE_TRACE then ret 0 else
  let* token := rts_kernel_lock_enter in
  let* count := gets (λ s, trace_overwrites (k_trace s)) in
  rts_kernel_lock_exit token ;;;
  ret count.

(** [None] when the function returns false. *)
Definition rts_trace_read (oldest_index : Z) : K (option rts_trace_entry) :=
  if negb RTS_ENABLE_TRACE then ret None else
  let* token := rts_kernel_lock_enter in
  let* used := gets (λ s, trace_used (k_trace s)) in
  if used <=? oldest_index then rts_kernel_lock_exit token ;;; ret None else
  let* index := gets (λ s, (trace_head (k_trace s) + oldest_index) mod RTS_TRACE_CAPACITY) in
  let* entry := gets (λ s, trace_buffer (k_trace s) !!! index) in
  rts_kernel_lock_exit token ;;;
  ret (Some entry).

(** The recorded entries, oldest first. *)
Definition trace_list (r : rts_trace) : list rts_trace_entry :=
  ring RTS_TRACE_CAPACITY (trace_head r) (trace_used r) (trace_buffer r).

Record trace_ok (r : rts_trace) : Prop := {
  tr_head : 0 ≤ trace_head r < RTS_TRACE_CAPACITY;
  tr_used : 0 ≤ trace_used r ≤ RTS_TRACE_CAPACITY;
  tr_sequence : is_u32 (trace_sequence r);
  tr_overwrites : is_u32 (trace_overwrites r)
}.

(** The ring after one more entry. *)
Definition trace_pushed (e : rts_trace_entry) (r : rts_trace) : rts_trace :=
  if trace_used r <? RTS_TRACE_CAPACITY then
    mk_trace (<[(trace_head r + trace_used r) mod RTS_TRACE_CAPACITY := e]> (trace_buffer r))
      (trace_head r) (Z.succ (trace_used r))
      (rts_diagnostic_counter_increment (trace_sequence r)) (trace_overwrites r)
  else
    mk_trace (<[trace_head r := e]> (trace_buffer r))
      ((trace_head r + 1) mod RTS_TRACE_CAPACITY) (trace_used r)
      (rts_diagnostic_counter_increment (trace_sequence r))
      (rts_diagnostic_counter_increment (trace_overwrites r)).

Definition trace_entry (s : kernel) (event arg0 arg1 : Z) : rts_trace_entry :=
  mk_trace_entry (rts_diagnostic_counter_increment (trace_sequence (k_trace s)))
    (k_current_tick s) arg0 arg1 event.

(** The store after an entry was traced. *)
Definition traced (event arg0 arg1 : Z) (s : kernel) : kernel :=
  s <| k_port := port_exited (host_interrupts_masked (k_port s)) (port_entered (k_port s)) |>
    <| k_trace := trace_pushed (trace_entry s event arg0 arg1) (k_trace s) |>.

(** Room for one more critical section. *)
Definition port_room (s : kernel) : Prop :=
  0 ≤ host_critical_depth (k_port s) < RTS_HOST_CRITICAL_NESTING_MAX.

(** The five assignments to an entry replace it. *)
Lemma write_entry_run index sequence tick arg0 arg1 event (m : K unit) s :
  (upd_trace_entry index (λ e, e <| te_sequence := sequence |>) ;;;
   upd_trace_entry index (λ e, e <| te_tick := tick |>) ;;;
   upd_trace_entry index (λ e, e <| te_argument0 := arg0 |>) ;;;
   upd_trace_entry index (λ e, e <| te_argument1 := arg1 |>) ;;;
   upd_trace_entry index (λ e, e <| te_event := event |>) ;;; m) s =
  m (upd_trace (λ r, r <| trace_buffer :=
       <[index := mk_trace_entry sequence tick arg0 arg1 event]> (trace_buffer r) |>) s).
Proof.
  set (upd (f : rts_trace_entry → rts_trace_entry) (b : gmap Z rts_trace_entry) :=
    <[index := f (b !!! index)]> b).
  set (b := trace_buffer (k_trace s)).
  assert (upd (λ e, e <| te_event := event |>) (upd (λ e, e <| te_argument1 := arg1 |>)
    (upd (λ e, e <| te_argument0 := arg0 |>) (upd (λ e, e <| te_tick := tick |>)
      (upd (λ e, e <| te_sequence := sequence |>) b)))) =
    <[index := mk_trace_entry sequence tick arg0 arg1 event]> b) as E.
  { unfold upd. rewrite !lookup_total_insert_eq, !insert_insert_eq. done. }
  unfold upd_trace_entry, upd_trace.
  exact (f_equal (λ b', m (s <| k_trace := (k_trace s) <| trace_buffer := b' |> |>)) E).
Qed.

Lemma rts_trace_emit_run s event arg0 arg1 :
  RTS_ENABLE_TRACE = true → port_room s →
  rts_trace_emit event arg0 arg1 s = Done tt (traced event arg0 arg1 s).
Proof.
  intros Hon Hroom. unfold rts_trace_emit. rewrite Hon. cbn [negb].
  unfold rts_kernel_lock_enter, rts_kernel_lock_exit.
  rewrite (bind_run _ _ _ _ _ (rts_port_critical_enter_run s (proj2 Hroom))).
  rewrite bind_gets. change (k_trace (upd_port port_entered s)) with (k_trace s).
  assert (∀ f, rts_port_critical_exit (critical_token (k_port s)) (upd_trace f (upd_port port_entered s))
    = Done tt (s <| k_port := port_exited (host_interrupts_masked (k_port s)) (port_entered (k_port s)) |>
                 <| k_trace := f (k_trace s) |>)) as Hexit.
  { intros f. by apply (critical_exit_balanced s (upd_trace f (upd_port port_entered s)) (proj1 Hroom)). }
  unfold traced, trace_pushed. rewrite <- (Hexit (λ r, if trace_used r <? RTS_TRACE_CAPACITY then _ else _)).
  destruct (trace_used (k_trace s) <? RTS_TRACE_CAPACITY) eqn:E;
    unfold bind at 1; cbn beta iota; rewrite ?bind_gets, ?bind_modify; unfold ret at 1; cbn beta iota;
    rewrite !bind_modify, !bind_gets, write_entry_run; unfold upd_trace;
    change (k_trace (upd_port port_entered s)) with (k_trace s); rewrite E; done.
Qed.

(** What a trace call may change, whether or not tracing is compiled in: the
    ring, and the token above the open critical sections. *)
Definition trace_frame (s s' : kernel) : Prop :=
  ∃ tok tr, s' = s <| k_port := (k_port s) <| host_critical_tokens := tok |> |> <| k_trace := tr |> ∧
    ∀ i, 0 ≤ i < host_critical_depth (k_port s) → tok !!! i = host_critical_tokens (k_port s) !!! i.

Lemma trace_frame_nesting s s' : trace_frame s s' → same_nesting s s'.
Proof. intros (tok&tr&->&Ht). by split_and!. Qed.

Lemma RTS_TRACE_spec event arg0 arg1 s :
  port_room s → wp (RTS_TRACE event arg0 arg1) (λ _ s', trace_frame s s') s.
Proof.
  intros Hroom. unfold RTS_TRACE. destruct RTS_ENABLE_TRACE eqn:Hon.
  - eapply wp_run; [by apply rts_trace_emit_run|]. unfold traced, port_exited, port_entered.
    exists (<[host_critical_depth (k_port s) := critical_token (k_port s)]> (host_critical_tokens (k_port s))).
    eexists. split.
    + cbn. rewrite Z.pred_succ. by destruct s as [? ? ? ? ? ? ? ? ? ? ? ? ? ? ? ? ? ? ? ? ? ? [] ? ?].
    + intros i Hi. rewrite lookup_total_insert_dec, decide_False by lia. done.
  - apply wp_ret. exists (host_critical_tokens (k_port s)), (k_trace s). split; [|done].
    by destruct s as [? ? ? ? ? ? ? ? ? ? ? ? ? ? ? ? ? ? ? ? ? ? [] ? ?].
Qed.

(** C35: The trace ring keeps the newest entries in the order they were
    emitted: an emission appends its entry, dropping the oldest one exactly
    when the ring is full, and leaves the nesting of critical sections as it
    was. *)
Theorem trace_keeps_newest s event arg0 arg1 :
  RTS_ENABLE_TRACE = true → 1 ≤ RTS_TRACE_CAPACITY → port_room s → trace_ok (k_trace s) →
  wp (rts_trace_emit event arg0 arg1) (λ _ s',
    trace_ok (k_trace s') ∧ same_nesting s s' ∧
    trace_list (k_trace s') =
      (if trace_used (k_trace s) <? RTS_TRACE_CAPACITY then trace_list (k_trace s)
       else tail (trace_list (k_trace s))) ++ [trace_entry s event arg0 arg1]) s.
Proof.
  intros Hon Hcap Hroom Hok. eapply wp_run; [by apply rts_trace_emit_run|].
  destruct Hok as [Hh Hu Hs Ho].
  assert (is_u32 (rts_diagnostic_counter_increment (trace_sequence (k_trace s)))) as Hs'
    by (rewrite counter_increment_min by done; unfold is_u32, UINT32_MAX in *; lia).
  split_and!.
  - unfold traced, trace_pushed. cbn. destruct (Z.ltb_spec (trace_used (k_trace s)) RTS_TRACE_CAPACITY);
      split; cbn; try done; try lia.
    + apply Z.mod_pos_bound. lia.
    + rewrite counter_increment_min by done; unfold is_u32, UINT32_MAX in *; lia.
  - unfold traced. apply (critical_exit_balanced s (upd_port port_entered s)); [apply Hroom|done].
  - unfold traced, trace_pushed, trace_list. cbn.
    destruct (Z.ltb_spec (trace_used (k_trace s)) RTS_TRACE_CAPACITY); cbn.
    + apply ring_push; lia.
    + replace (trace_used (k_trace s)) with RTS_TRACE_CAPACITY by lia. apply ring_overwrite; lia.
Qed.
End trace.

(** ** The fatal record (kernel/fatal.c) *)

Section fatal.
Context `{Config}.

Definition upd_fatal (f : rts_fatal_record → rts_fatal_record) (s : kernel) : kernel :=
  s <| k_fatal_record := f (k_fatal_record s) |>.

Definition rts_fatal_record_capture (reason : rts_fatal_reason) (context file line : Z) : K bool :=
  let* valid := gets (λ s, fr_valid (k_fatal_record s)) in
  if negb (valid =? 0) then ret false else
  modify (upd_fatal (λ r, r <| fr_reason := reason |>)) ;;;
  let* lifecycle := gets k_lifecycle in
  modify (upd_fatal (λ r, r <| fr_lifecycle := lifecycle |>)) ;;;
  let* tick := gets k_current_tick in
  modify (upd_fatal (λ r, r <| fr_tick := tick |>)) ;;;
  let* exception_number := rts_port_exception_number in
  modify (upd_fatal (λ r, r <| fr_exception_number := exception_number |>)) ;;;
  let* current := rts_scheduler_current_get in
  modify (upd_fatal (λ r, r <| fr_current_task := current |>)) ;;;
  modify (upd_fatal (λ r, r <| fr_context := context |>)) ;;;
  modify (upd_fatal (λ r, r <| fr_source_file := file |>)) ;;;
  modify (upd_fatal (λ r, r <| fr_source_line := line |>)) ;;;
  let* plan := gets k_switch_plan in
  modify (upd_fatal (λ r, r <| fr_switch_generation := plan_generation plan |>)) ;;;
  modify (upd_fatal (λ r, r <| fr_switch_flags :=
    Z.lor (Z.lor (if plan_pending plan then 1 else 0) (if plan_active plan then 2 else 0))
          (if plan_reselection_required plan then 4 else 0) |>)) ;;;
  modify (upd_fatal (λ r, r <| fr_fatal_count := 1 |>)) ;;;
  modify (upd_fatal (λ r, r <| fr_valid := 1 |>)) ;;;
  ret true.

(** The handler ends in an endless loop: the computation stops as [Fatal]. *)
Definition rts_kernel_fatal_at {A} (hook : K unit) (reason : rts_fatal_reason)
    (context file line : Z) : K A :=
  rts_port_fatal_disable ;;;
  let* first := rts_fatal_record_capture reason context file line in
  when first hook ;;;
  fatal reason.

(** The fatal record describes the first failure: capturing into an empty
    record stores the reason, location and scheduler state of that failure,
    and every later capture returns false and changes nothing at all. *)
Theorem fatal_record_first_wins s reason context file line reason' context' file' line' :
  fr_valid (k_fatal_record s) = 0 →
  ∃ s', rts_fatal_record_capture reason context file line s = Done true s' ∧
    fr_reason (k_fatal_record s') = reason ∧ fr_context (k_fatal_record s') = context ∧
    fr_source_file (k_fatal_record s') = file ∧ fr_source_line (k_fatal_record s') = line ∧
    fr_current_task (k_fatal_record s') = k_current_task s ∧
    fr_tick (k_fatal_record s') = k_current_tick s ∧
    fr_switch_generation (k_fatal_record s') = plan_generation (k_switch_plan s) ∧
    (Z.testbit (fr_switch_flags (k_fatal_record s')) 0 = plan_pending (k_switch_plan s)) ∧
    (Z.testbit (fr_switch_flags (k_fatal_record s')) 1 = plan_active (k_switch_plan s)) ∧
    (Z.testbit (fr_switch_flags (k_fatal_record s')) 2 = plan_reselection_required (k_switch_plan s)) ∧
    s' = s <| k_fatal_record := k_fatal_record s' |> ∧
    rts_fatal_record_capture reason' context' file' line' s' = Done false s'.
Proof.
  intros Hv. eexists. split.
  { unfold rts_fatal_record_capture. rewrite bind_gets, Hv. cbn [Z.eqb negb].
    repeat (rewrite ?bind_modify, ?bind_gets; unfold rts_port_exception_number;
            try rewrite (bind_run _ _ _ _ _ (rts_scheduler_current_get_run _))).
    reflexivity. }
  split_and!; cbn; try done.
  1-3: by destruct (plan_pending (k_switch_plan s)), (plan_active (k_switch_plan s)),
    (plan_reselection_required (k_switch_plan s)).
Qed.
End fatal.

Section witnesses.
#[local] Existing Instance fp_config.

Lemma counters_saturate_witness :
  foldl (λ v o, match o with
                | None => rts_diagnostic_counter_increment v
                | Some d => rts_diagnostic_counter_add v d
                end) 4294967290 [None; Some 3; Some 7; None] = UINT32_MAX.
Proof.
  rewrite (counters_saturate [None; Some 3; Some 7; None] 4294967290);
    [reflexivity|by vm_compute|].
  repeat constructor; by vm_compute.
Defined.

Lemma trace_keeps_newest_witness :
  wp (rts_trace_emit RTS_TRACE_YIELD 3 0) (λ _ s',
    trace_list (k_trace s') = [mk_trace_entry 1 0 3 0 RTS_TRACE_YIELD]) zero_kernel.
Proof.
  eapply wp_mono; [apply (trace_keeps_newest zero_kernel RTS_TRACE_YIELD 3 0)|].
  - reflexivity.
  - by vm_compute.
  - by vm_compute.
  - by constructor.
  - intros [] s' (_&_&->). reflexivity.
Defined.

Lemma fatal_record_first_wins_witness :
  ∃ s', rts_fatal_record_capture RTS_FATAL_STACK_CORRUPTION 7 8 9 zero_kernel = Done true s' ∧
    fr_reason (k_fatal_record s') = RTS_FATAL_STACK_CORRUPTION.
Proof.
  destruct (fatal_record_first_wins zero_kernel RTS_FATAL_STACK_CORRUPTION 7 8 9
    RTS_FATAL_ASSERTION 1 2 3 eq_refl) as (s'&Hs&Hr&_).
  exists s'. split; [exact Hs|exact Hr].
Defined.
End witnesses.
