(* ===== verification/TaskPool.v ===== *)
(** * Tasks: pool, object, descriptor validation and stack checks

    kernel/task_pool.c, kernel/task_object.c, kernel/task_validation.c,
    kernel/stack_check.c and the handle test of kernel/task_handle.c.  The
    [pool] argument is always the kernel's application task pool: the slots
    are [TApp 0], ..., [TApp (RTS_MAX_TASKS - 1)]. *)

From S2P Require Import Prelude Machine Config Types Links IntrusiveList KernelLists HostPort Diagnostics.

Definition RTS_TASK_VALIDATION_MAGIC : Z := 0x52545354.
Definition RTS_STACK_GUARD_PATTERN : Z := 0xa5.
Definition RTS_STACK_FILL_PATTERN : Z := 0xcd.

(** rts_task_config_t of include/rts/rts_types.h. *)
Record rts_task_config := mk_task_config {
  cfg_entry : Z;
  cfg_argument : Z;
  cfg_stack_buffer : Z;
  cfg_stack_size_bytes : Z;
  cfg_priority : Z;
  cfg_period : Z;
  cfg_relative_deadline : Z;
  cfg_execution_budget : Z
}.

Section pool_code.
Context `{Config}.

Definition slot (s : kernel) (i : Z) : rts_task_slot_state_t := slot_state (task s (TApp i)).
Definition set_slot (i : Z) (v : rts_task_slot_state_t) : K unit :=
  modify (upd_task (TApp i) (λ t, t <| slot_state := v |>)).
Definition set_hint (i : Z) : K unit := modify (λ s, s <| k_pool_next_free_hint := i |>).

Definition rts_task_pool_index_is_valid (slot_index : Z) : bool := slot_index <? RTS_MAX_TASKS.

Definition rts_task_pool_initialize : K unit :=
  for_each (seqZ 0 RTS_MAX_TASKS) (λ i, set_slot i RTS_TASK_SLOT_FREE) ;;;
  modify (λ s, s <| k_pool_allocated_count := 0 |>) ;;;
  set_hint 0.

(** The search loop of rts_task_pool_reserve. *)
Fixpoint rts_task_pool_search (examined : list Z) : K (option Z) :=
  match examined with
  | [] => ret None
  | e :: rest =>
      let* hint := gets k_pool_next_free_hint in
      let slot_index := if RTS_MAX_TASKS <=? hint + e then hint + e - RTS_MAX_TASKS else hint + e in
      let* free := gets (λ s, bool_decide (slot s slot_index = RTS_TASK_SLOT_FREE)) in
      if free then
        let next_hint := if slot_index + 1 =? RTS_MAX_TASKS then 0 else slot_index + 1 in
        set_slot slot_index RTS_TASK_SLOT_RESERVED ;;;
        set_hint next_hint ;;;
        ret (Some slot_index)
      else rts_task_pool_search rest
  end.

(** [None] when the function returns false. *)
Definition rts_task_pool_reserve : K (option Z) :=
  RTS_ASSERT (gets (λ s, k_pool_next_free_hint s <? RTS_MAX_TASKS)) ;;;
  let* bad := gets (λ s, RTS_MAX_TASKS <=? k_pool_next_free_hint s) in
  if bad then ret None else rts_task_pool_search (seqZ 0 RTS_MAX_TASKS).

Definition rts_task_pool_commit (slot_index : Z) : K unit :=
  RTS_ASSERT (ret (rts_task_pool_index_is_valid slot_index)) ;;;
  if negb (rts_task_pool_index_is_valid slot_index) then ret tt else
  RTS_ASSERT (gets (λ s, bool_decide (slot s slot_index = RTS_TASK_SLOT_RESERVED))) ;;;
  RTS_ASSERT (gets (λ s, k_pool_allocated_count s <? RTS_MAX_TASKS)) ;;;
  let* bad := gets (λ s, negb (bool_decide (slot s slot_index = RTS_TASK_SLOT_RESERVED)) ||
                         (RTS_MAX_TASKS <=? k_pool_allocated_count s)) in
  if bad then ret tt else
  set_slot slot_index RTS_TASK_SLOT_ALLOCATED ;;;
  modify (λ s, s <| k_pool_allocated_count ::= Z.succ |>).

Definition rts_task_pool_rollback (slot_index : Z) : K unit :=
  RTS_ASSERT (ret (rts_task_pool_index_is_valid slot_index)) ;;;
  if negb (rts_task_pool_index_is_valid slot_index) then ret tt else
  RTS_ASSERT (gets (λ s, bool_decide (slot s slot_index = RTS_TASK_SLOT_RESERVED))) ;;;
  let* bad := gets (λ s, negb (bool_decide (slot s slot_index = RTS_TASK_SLOT_RESERVED))) in
  if bad then ret tt else
  set_slot slot_index RTS_TASK_SLOT_FREE ;;;
  set_hint slot_index.

Definition rts_task_pool_get (slot_index : Z) : K (option task_ptr) :=
  RTS_ASSERT (ret (rts_task_pool_index_is_valid slot_index)) ;;;
  if negb (rts_task_pool_index_is_valid slot_index) then ret None else ret (Some (TApp slot_index)).

Definition rts_task_pool_allocated_count : K Z :=
  RTS_ASSERT (gets (λ s, k_pool_allocated_count s <=? RTS_MAX_TASKS)) ;;;
  let* bad := gets (λ s, RTS_MAX_TASKS <? k_pool_allocated_count s) in
  if bad then ret 0 else gets k_pool_allocated_count.

Definition rts_task_pool_next_free_hint : K Z :=
  RTS_ASSERT (gets (λ s, k_pool_next_free_hint s <? RTS_MAX_TASKS)) ;;;
  let* bad := gets (λ s, RTS_MAX_TASKS <=? k_pool_next_free_hint s) in
  if bad then ret SIZE_MAX else gets k_pool_next_free_hint.

(** rts_task_handle_is_application_task, and rts_task_pool_contains of
    kernel/task_object.c: compare the pointer with each slot's address. *)
Definition rts_task_handle_is_application_task (handle : option task_ptr) : bool :=
  match handle with
  | None => false
  | Some t => existsb (λ i, bool_decide (t = TApp i)) (seqZ 0 RTS_MAX_TASKS)
  end.

(** ** Stack checks (kernel/stack_check.c) *)

Definition fill_memory (first last value : Z) : K unit :=
  for_each (seqZ first (last - first)) (λ cursor, modify (store_byte cursor value)).

Definition rts_stack_diagnostics_prepare (low high : Z) : K unit :=
  if negb (RTS_ENABLE_STACK_GUARDS || RTS_ENABLE_STACK_WATERMARK) then ret tt else
  if (low =? 0) || (high =? 0) || (high <=? low) then ret tt else
  when RTS_ENABLE_STACK_WATERMARK (fill_memory low high RTS_STACK_FILL_PATTERN) ;;;
  when RTS_ENABLE_STACK_GUARDS
    (fill_memory low (low + RTS_STACK_GUARD_SIZE_BYTES) RTS_STACK_GUARD_PATTERN).

Definition rts_stack_guard_is_valid (task_arg : option task_ptr) : K bool :=
  if negb RTS_ENABLE_STACK_GUARDS then ret true else
  match task_arg with
  | None => ret false
  | Some t =>
      let* low := gets (λ s, stack_low (task s t)) in
      let* high := gets (λ s, stack_high (task s t)) in
      if (low =? 0) || (high =? 0) || (size_t (high - low) <? RTS_STACK_GUARD_SIZE_BYTES) then ret false
      else all_of (seqZ 0 RTS_STACK_GUARD_SIZE_BYTES) (λ index,
        gets (λ s, load_byte s (low + index) =? RTS_STACK_GUARD_PATTERN))
  end.

Definition rts_stack_saved_sp_is_valid (task_arg : option task_ptr) : K bool :=
  match task_arg with
  | None => ret false
  | Some t =>
      gets (λ s,
        let tcb := task s t in
        if (stack_low tcb =? 0) || (stack_high tcb =? 0) || (saved_stack_pointer tcb =? 0) then false
        else
          let low := if RTS_ENABLE_STACK_GUARDS
                     then uintptr_t (stack_low tcb + RTS_STACK_GUARD_SIZE_BYTES)
                     else stack_low tcb in
          (low <=? saved_stack_pointer tcb) && (saved_stack_pointer tcb <? stack_high tcb) &&
          (saved_stack_pointer tcb mod 8 =? 0))
  end.

(** The number of bytes from [usable_low] that still hold the fill pattern. *)
Fixpoint untouched_bytes (s : kernel) (cursors : list Z) : Z :=
  match cursors with
  | [] => 0
  | c :: rest =>
      if negb (load_byte s c =? RTS_STACK_FILL_PATTERN) then 0
      else Z.succ (untouched_bytes s rest)
  end.

Definition rts_stack_high_water_used_bytes (task_arg : option task_ptr) : K Z :=
  if negb RTS_ENABLE_STACK_WATERMARK then ret 0 else
  match task_arg with
  | None => ret 0
  | Some t =>
      let* low := gets (λ s, stack_low (task s t)) in
      let* high := gets (λ s, stack_high (task s t)) in
      if (low =? 0) || (high =? 0) || (high <=? low) then ret 0 else
      let usable_low := if RTS_ENABLE_STACK_GUARDS then low + RTS_STACK_GUARD_SIZE_BYTES else low in
      let usable := size_t (high - usable_low) in
      gets (λ s, size_t (usable - untouched_bytes s (seqZ usable_low (high - usable_low))))
  end.

Definition rts_stack_watermark_update (task_arg : option task_ptr) : K Z :=
  let* used := rts_stack_high_water_used_bytes task_arg in
  match task_arg with
  | Some t =>
      let* greater := gets (λ s, diagnostic_max_stack_used (task s t) <? used) in
      when (RTS_ENABLE_STACK_WATERMARK && greater)
        (modify (upd_task t (λ x, x <| diagnostic_max_stack_used :=
           if UINT32_MAX <? used then UINT32_MAX else used |>)))
  | None => ret tt
  end ;;;
  ret used.

(** ** Descriptor validation (kernel/task_validation.c) *)

Definition rts_task_stack_is_valid (config : rts_task_config) : K bool :=
  let minimum_size := rts_port_task_stack_minimum_size_bytes in
  let size_granularity := rts_port_task_stack_size_granularity_bytes in
  let stack_start := cfg_stack_buffer config in
  let size := cfg_stack_size_bytes config in
  RTS_ASSERT (ret (0 <? minimum_size)) ;;;
  RTS_ASSERT (ret (0 <? size_granularity)) ;;;
  if (minimum_size =? 0) || (size_granularity =? 0) then ret false else
  if RTS_ENABLE_STACK_GUARDS && (SIZE_MAX - RTS_STACK_GUARD_SIZE_BYTES <? minimum_size) then ret false else
  let minimum_size :=
    if RTS_ENABLE_STACK_GUARDS then minimum_size + RTS_STACK_GUARD_SIZE_BYTES else minimum_size in
  if (stack_start =? 0) || (size =? 0) ||
     negb (stack_start mod RTS_TASK_STACK_ALIGNMENT =? 0) || (size <? minimum_size) ||
     negb (size mod size_granularity =? 0) || (UINTPTR_MAX <? size) then ret false else
  if UINTPTR_MAX - size <? stack_start then ret false else
  ret ((stack_start + size) mod RTS_TASK_STACK_ALIGNMENT =? 0).

Definition rts_task_config_validate (config_arg : option rts_task_config)
    (lifecycle : rts_kernel_lifecycle_t) : K rts_status_t :=
  match config_arg with
  | None => ret RTS_STATUS_INVALID_ARGUMENT
  | Some config =>
      if negb (bool_decide (lifecycle = RTS_KERNEL_INITIALIZED)) then ret RTS_STATUS_INVALID_STATE else
      if cfg_entry config =? 0 then ret RTS_STATUS_INVALID_TASK_CONFIG else
      if (cfg_priority config <? 1) || (RTS_PRIORITY_COUNT <=? cfg_priority config)
      then ret RTS_STATUS_INVALID_PRIORITY else
      let bad :=
        match RTS_POLICY with
        | RTS_POLICY_KIND_RMS =>
            (cfg_period config =? 0) || (RTS_DELAY_MAX <? cfg_period config) ||
            (cfg_relative_deadline config =? 0) ||
            (cfg_period config <? cfg_relative_deadline config) ||
            (cfg_relative_deadline config <? cfg_execution_budget config)
        | RTS_POLICY_KIND_EDF =>
            (cfg_relative_deadline config =? 0) ||
            (RTS_DELAY_MAX <? cfg_relative_deadline config) ||
            (RTS_DELAY_MAX <? cfg_period config) ||
            (cfg_relative_deadline config <? cfg_execution_budget config)
        | RTS_POLICY_KIND_FIXED_PRIORITY =>
            (RTS_DELAY_MAX <? cfg_period config) ||
            (RTS_DELAY_MAX <? cfg_relative_deadline config)
        end in
      if bad then ret RTS_STATUS_INVALID_TASK_CONFIG else
      let* stack_valid := rts_task_stack_is_valid config in
      if negb stack_valid then ret RTS_STATUS_INVALID_STACK else
      ret RTS_STATUS_OK
  end.

(** ** Task objects (kernel/task_object.c) *)

Definition rts_task_node_is_canonical_unlinked (n : rts_list_node) : bool :=
  bool_decide (n_previous n = None) && bool_decide (n_next n = None) &&
  bool_decide (n_owner n = None) && bool_decide (n_object n = None).

Definition wait_node_is_clear (w : rts_wait_node) : bool :=
  bool_decide (w_owner w = None) && bool_decide (w_previous w = None) && bool_decide (w_next w = None).

Definition rts_task_descriptor_preconditions_hold (config : rts_task_config) : bool :=
  let stack_start := cfg_stack_buffer config in
  negb (cfg_entry config =? 0) && negb (cfg_stack_buffer config =? 0) &&
  negb (cfg_stack_size_bytes config =? 0) &&
  (stack_start mod RTS_TASK_STACK_ALIGNMENT =? 0) &&
  (cfg_stack_size_bytes config <=? UINTPTR_MAX) &&
  (stack_start <=? UINTPTR_MAX - cfg_stack_size_bytes config) &&
  (RTS_IDLE_PRIORITY <? cfg_priority config) && (cfg_priority config <? RTS_PRIORITY_COUNT).

(** The diagnostic and validation members, present when compiled in. *)
Definition clear_diagnostics (x : rts_tcb) : rts_tcb :=
  let x := if RTS_ENABLE_RUNTIME_STATS then
             x <| diagnostic_dispatch_count := 0 |> <| diagnostic_block_count := 0 |>
               <| diagnostic_wake_count := 0 |> <| diagnostic_running_ticks := 0 |>
               <| diagnostic_last_start_tick := 0 |>
           else x in
  if RTS_ENABLE_STACK_WATERMARK then x <| diagnostic_max_stack_used := 0 |> else x.
Definition set_validation_magic_member (v : Z) (x : rts_tcb) : rts_tcb :=
  if RTS_ENABLE_ASSERTIONS then x <| validation_magic := v |> else x.

Definition clear_wait_node (t : task_ptr) : K unit :=
  modify (upd_wait_node t (λ w, w <| w_previous := None |>)) ;;;
  modify (upd_wait_node t (λ w, w <| w_next := None |>)) ;;;
  modify (upd_wait_node t (λ w, w <| w_owner := None |>)).

Definition rts_task_object_reset (task_arg : option task_ptr) : K unit :=
  RTS_ASSERT (ret (bool_decide (task_arg ≠ None))) ;;;
  match task_arg with
  | None => ret tt
  | Some t =>
      RTS_ASSERT (gets (λ s, bool_decide (slot_state (task s t) = RTS_TASK_SLOT_RESERVED))) ;;;
      RTS_ASSERT (gets (λ s, bool_decide (n_owner (node s (NReady t)) = None))) ;;;
      RTS_ASSERT (gets (λ s, bool_decide (n_owner (node s (NDelay t)) = None))) ;;;
      RTS_ASSERT (gets (λ s, wait_node_is_clear (wait_node s t))) ;;;
      let* bad := gets (λ s,
        negb (bool_decide (slot_state (task s t) = RTS_TASK_SLOT_RESERVED)) ||
        negb (bool_decide (n_owner (node s (NReady t)) = None)) ||
        negb (bool_decide (n_owner (node s (NDelay t)) = None)) ||
        negb (wait_node_is_clear (wait_node s t))) in
      if bad then ret tt else
      modify (upd_task t (λ x, x <| saved_stack_pointer := 0 |> <| stack_low := 0 |>
        <| stack_high := 0 |> <| entry := 0 |> <| argument := 0 |>)) ;;;
      kheap (rts_list_node_initialize (Some (NReady t))) ;;;
      kheap (rts_list_node_initialize (Some (NDelay t))) ;;;
      clear_wait_node t ;;;
      modify (upd_task t (λ x, set_validation_magic_member 0 (clear_diagnostics
        (x <| wait := zero_wait |> <| slice_remaining := 0 |>
           <| owned_mutex_head := None |> <| owned_mutex_tail := None |> <| owned_mutex_count := 0 |>
           <| base_priority := RTS_IDLE_PRIORITY |> <| priority := RTS_IDLE_PRIORITY |>
           <| period := 0 |> <| relative_deadline := 0 |> <| absolute_deadline := 0 |>
           <| release_tick := 0 |> <| execution_budget := 0 |> <| release_sequence := 0 |>
           <| state := RTS_TASK_STATE_DORMANT |>))))
  end.

Definition rts_task_object_initialize (task_arg : option task_ptr)
    (config_arg : option rts_task_config) (lifecycle : rts_kernel_lifecycle_t) : K rts_status_t :=
  RTS_ASSERT (ret (bool_decide (task_arg ≠ None))) ;;;
  RTS_ASSERT (ret (match config_arg with Some _ => true | None => false end)) ;;;
  match task_arg, config_arg with
  | Some t, Some config =>
      let in_pool := rts_task_handle_is_application_task (Some t) in
      RTS_ASSERT (ret in_pool) ;;;
      if negb in_pool then ret RTS_STATUS_INVALID_TASK_CONFIG else
      RTS_ASSERT (ret (bool_decide (lifecycle = RTS_KERNEL_INITIALIZED))) ;;;
      RTS_ASSERT (gets (λ s, bool_decide (slot_state (task s t) = RTS_TASK_SLOT_RESERVED))) ;;;
      RTS_ASSERT (gets (λ s, rts_task_node_is_canonical_unlinked (node s (NReady t)))) ;;;
      RTS_ASSERT (gets (λ s, rts_task_node_is_canonical_unlinked (node s (NDelay t)))) ;;;
      RTS_ASSERT (gets (λ s, wait_node_is_clear (wait_node s t))) ;;;
      let* contract_is_valid := gets (λ s,
        bool_decide (lifecycle = RTS_KERNEL_INITIALIZED) &&
        bool_decide (slot_state (task s t) = RTS_TASK_SLOT_RESERVED) &&
        rts_task_node_is_canonical_unlinked (node s (NReady t)) &&
        rts_task_node_is_canonical_unlinked (node s (NDelay t)) &&
        wait_node_is_clear (wait_node s t)) in
      if negb contract_is_valid then ret RTS_STATUS_INVALID_STATE else
      let contract_is_valid := rts_task_descriptor_preconditions_hold config in
      RTS_ASSERT (ret contract_is_valid) ;;;
      if negb contract_is_valid then ret RTS_STATUS_INVALID_TASK_CONFIG else
      modify (upd_task t (λ x, x <| saved_stack_pointer := 0 |>
        <| stack_low := cfg_stack_buffer config |>
        <| stack_high := cfg_stack_buffer config + cfg_stack_size_bytes config |>
        <| entry := cfg_entry config |> <| argument := cfg_argument config |>)) ;;;
      kheap (rts_list_node_initialize (Some (NReady t))) ;;;
      kheap (rts_list_node_initialize (Some (NDelay t))) ;;;
      clear_wait_node t ;;;
      modify (upd_task t (λ x, set_validation_magic_member 0 (clear_diagnostics
        (x <| wait := zero_wait |> <| slice_remaining := RTS_TIME_SLICE_TICKS |>
           <| owned_mutex_head := None |> <| owned_mutex_tail := None |> <| owned_mutex_count := 0 |>
           <| base_priority := cfg_priority config |> <| priority := cfg_priority config |>
           <| period := cfg_period config |>
           <| relative_deadline := cfg_relative_deadline config |>
           <| absolute_deadline := 0 |> <| release_tick := 0 |>
           <| execution_budget := cfg_execution_budget config |> <| release_sequence := 0 |>
           <| state := RTS_TASK_STATE_DORMANT |>)))) ;;;
      ret RTS_STATUS_OK
  | _, _ => ret RTS_STATUS_INVALID_ARGUMENT
  end.
End pool_code.

(** ** The pool as a set of slots *)

Section pool.
Context `{ConfigOk}.

Definition allocated_slots (s : kernel) : list Z :=
  filter (λ i, slot s i = RTS_TASK_SLOT_ALLOCATED) (seqZ 0 RTS_MAX_TASKS).

Record pool_ok (s : kernel) : Prop := {
  po_hint : 0 ≤ k_pool_next_free_hint s < RTS_MAX_TASKS;
  po_count : k_pool_allocated_count s = Z.of_nat (length (allocated_slots s))
}.

Definition with_slot (i : Z) (v : rts_task_slot_state_t) (s : kernel) : kernel :=
  upd_task (TApp i) (λ t, t <| slot_state := v |>) s.

Lemma slot_with_slot i v s j :
  slot (with_slot i v s) j = if decide (i = j) then v else slot s j.
Proof.
  unfold slot, with_slot. rewrite task_upd_task.
  destruct (decide (i = j)) as [->|]; [by rewrite decide_True|].
  by rewrite decide_False by congruence.
Qed.

Lemma filter_ext_in (P Q : Z → Prop) `{∀ x, Decision (P x), ∀ x, Decision (Q x)} (l : list Z) :
  (∀ x, x ∈ l → P x ↔ Q x) → filter P l = filter Q l.
Proof.
  induction l as [|x l IH]; intros HPQ; [done|]. rewrite !filter_cons, IH by set_solver.
  specialize (HPQ x ltac:(set_solver)). destruct (decide (P x)), (decide (Q x)); naive_solver.
Qed.

(** Adding one element to the selection of a filter. *)
Lemma filter_insert (P Q : Z → Prop) `{∀ x, Decision (P x), ∀ x, Decision (Q x)} (l : list Z) i :
  NoDup l → i ∈ l → ¬ P i → (∀ x, Q x ↔ x = i ∨ P x) →
  length (filter Q l) = S (length (filter P l)).
Proof.
  intros Hnd Hi HP HQ. induction l as [|x l IH]; [set_solver|].
  apply NoDup_cons in Hnd as [Hx Hnd]. destruct (decide (x = i)) as [->|Hne].
  - rewrite filter_cons_True by naive_solver. rewrite filter_cons_False by done. cbn. f_equal.
    f_equal. apply filter_ext_in. intros y Hy. rewrite HQ. set_solver.
  - rewrite !filter_cons. specialize (IH Hnd ltac:(set_solver)).
    destruct (decide (P x)), (decide (Q x)); cbn; naive_solver.
Qed.

Lemma allocated_le s : Z.of_nat (length (allocated_slots s)) ≤ RTS_MAX_TASKS.
Proof.
  pose proof cfg_tasks. unfold allocated_slots.
  pose proof (length_filter (λ i, slot s i = RTS_TASK_SLOT_ALLOCATED) (seqZ 0 RTS_MAX_TASKS)) as Hl.
  rewrite length_seqZ in Hl. lia.
Qed.

Lemma allocated_lt s i :
  0 ≤ i < RTS_MAX_TASKS → slot s i ≠ RTS_TASK_SLOT_ALLOCATED →
  Z.of_nat (length (allocated_slots s)) < RTS_MAX_TASKS.
Proof.
  intros Hi Hs. unfold allocated_slots.
  pose proof (length_filter_lt (λ i, slot s i = RTS_TASK_SLOT_ALLOCATED) (seqZ 0 RTS_MAX_TASKS) i) as Hl.
  rewrite length_seqZ, elem_of_seqZ in Hl. specialize (Hl ltac:(lia) Hs). lia.
Qed.

Definition wrap_slot (hint e : Z) : Z :=
  if RTS_MAX_TASKS <=? hint + e then hint + e - RTS_MAX_TASKS else hint + e.

(** The store after slot [i] is reserved. *)
Definition reserved (i : Z) (s : kernel) : kernel :=
  (with_slot i RTS_TASK_SLOT_RESERVED s)
    <| k_pool_next_free_hint := if i + 1 =? RTS_MAX_TASKS then 0 else i + 1 |>.

Lemma rts_task_pool_search_spec s l :
  wp (rts_task_pool_search l) (λ r s',
    match r with
    | Some i => (∃ e, e ∈ l ∧ i = wrap_slot (k_pool_next_free_hint s) e) ∧
                slot s i = RTS_TASK_SLOT_FREE ∧ s' = reserved i s
    | None => s' = s ∧ ∀ e, e ∈ l → slot s (wrap_slot (k_pool_next_free_hint s) e) ≠ RTS_TASK_SLOT_FREE
    end) s.
Proof.
  induction l as [|e l IH]; [apply wp_ret; split; [done|set_solver]|].
  cbn [rts_task_pool_search]. do 2 apply wp_bind, wp_gets. fold (wrap_slot (k_pool_next_free_hint s) e).
  case_bool_decide as Hf.
  - do 2 (apply wp_bind, wp_modify). apply wp_ret. split; [set_solver|done].
  - eapply wp_mono; [exact IH|]. intros [i|] s'; [set_solver|].
    intros [-> Hn]. split; [done|]. set_solver.
Qed.

Lemma rts_task_pool_reserve_spec s :
  pool_ok s →
  wp rts_task_pool_reserve (λ r s',
    match r with
    | Some i => 0 ≤ i < RTS_MAX_TASKS ∧ slot s i = RTS_TASK_SLOT_FREE ∧ s' = reserved i s
    | None => s' = s ∧ ∀ i, 0 ≤ i < RTS_MAX_TASKS → slot s i ≠ RTS_TASK_SLOT_FREE
    end) s.
Proof.
  intros [Hh _]. unfold rts_task_pool_reserve. apply wp_bind, wp_RTS_ASSERT.
  { unfold gets. f_equal. apply Z.ltb_lt. lia. }
  apply wp_bind, wp_gets. rewrite (proj2 (Z.leb_gt _ _)) by lia.
  eapply wp_mono; [apply rts_task_pool_search_spec|]. intros [i|] s'.
  - intros ((e&He&->)&Hs&->). apply elem_of_seqZ in He. split_and!; try done;
      unfold wrap_slot; case_match eqn:E; rewrite ?Z.leb_le, ?Z.leb_gt in E; lia.
  - intros [-> Hn]. split; [done|]. intros i Hi.
    specialize (Hn (if k_pool_next_free_hint s <=? i then i - k_pool_next_free_hint s
                    else i - k_pool_next_free_hint s + RTS_MAX_TASKS)).
    rewrite elem_of_seqZ in Hn. unfold wrap_slot in Hn.
    destruct (Z.leb_spec (k_pool_next_free_hint s) i).
    + rewrite (proj2 (Z.leb_gt _ _)) in Hn by lia. replace (_ + (i - _)) with i in Hn by lia. apply Hn. lia.
    + rewrite (proj2 (Z.leb_le _ _)) in Hn by lia.
      replace (_ + (i - _ + _) - _) with i in Hn by lia. apply Hn. lia.
Qed.

Lemma pool_ok_slot s i v hint :
  pool_ok s → slot s i ≠ RTS_TASK_SLOT_ALLOCATED → v ≠ RTS_TASK_SLOT_ALLOCATED →
  0 ≤ hint < RTS_MAX_TASKS →
  pool_ok ((with_slot i v s) <| k_pool_next_free_hint := hint |>).
Proof.
  intros [_ Hc] Hs Hv Hh. split; [done|]. cbn. rewrite Hc. do 2 f_equal. unfold allocated_slots.
  apply list_filter_iff. intros j. change (slot ((with_slot i v s) <| k_pool_next_free_hint := hint |>) j)
    with (slot (with_slot i v s) j). rewrite slot_with_slot. case_decide; [subst; naive_solver|done].
Qed.

Lemma pool_ok_reserved s i :
  pool_ok s → 0 ≤ i < RTS_MAX_TASKS → slot s i = RTS_TASK_SLOT_FREE → pool_ok (reserved i s).
Proof.
  intros Hok Hi Hs. apply pool_ok_slot; [done|by rewrite Hs|done|].
  destruct (Z.eqb_spec (i + 1) RTS_MAX_TASKS); lia.
Qed.

Lemma rts_task_pool_commit_spec s i :
  pool_ok s → 0 ≤ i < RTS_MAX_TASKS → slot s i = RTS_TASK_SLOT_RESERVED →
  wp (rts_task_pool_commit i) (λ _ s',
    pool_ok s' ∧ k_pool_allocated_count s' = k_pool_allocated_count s + 1 ∧
    ∀ j, slot s' j = if decide (i = j) then RTS_TASK_SLOT_ALLOCATED else slot s j) s.
Proof.
  intros Hok Hi Hs. pose proof Hok as [Hh Hc]. unfold rts_task_pool_commit, rts_task_pool_index_is_valid.
  assert (k_pool_allocated_count s < RTS_MAX_TASKS).
  { rewrite Hc. eapply allocated_lt; [exact Hi|]. by rewrite Hs. }
  rewrite (proj2 (Z.ltb_lt i _)) by lia. apply wp_bind, wp_RTS_ASSERT; [done|]. cbn [negb].
  apply wp_bind, wp_RTS_ASSERT; [unfold gets; f_equal; by apply bool_decide_true|].
  apply wp_bind, wp_RTS_ASSERT; [unfold gets; f_equal; by apply Z.ltb_lt|].
  apply wp_bind, wp_gets. rewrite bool_decide_true by done. rewrite (proj2 (Z.leb_gt _ _)) by lia. cbn [negb orb].
  apply wp_bind, wp_modify, wp_modify. fold (with_slot i RTS_TASK_SLOT_ALLOCATED s).
  split_and!; [|cbn; lia|intros j; apply slot_with_slot]. split; [exact Hh|]. cbn. rewrite Hc.
  unfold allocated_slots.
  rewrite (filter_insert (λ j, slot s j = RTS_TASK_SLOT_ALLOCATED)
    (λ j, slot (with_slot i RTS_TASK_SLOT_ALLOCATED s) j = RTS_TASK_SLOT_ALLOCATED) _ i);
    [lia|apply NoDup_seqZ|apply elem_of_seqZ; lia|by rewrite Hs|].
  intros j. rewrite slot_with_slot. case_decide; subst; naive_solver.
Qed.

Lemma rts_task_pool_rollback_spec s i :
  pool_ok s → 0 ≤ i < RTS_MAX_TASKS → slot s i = RTS_TASK_SLOT_RESERVED →
  wp (rts_task_pool_rollback i) (λ _ s',
    pool_ok s' ∧ s' = (with_slot i RTS_TASK_SLOT_FREE s) <| k_pool_next_free_hint := i |>) s.
Proof.
  intros Hok Hi Hs. unfold rts_task_pool_rollback, rts_task_pool_index_is_valid.
  rewrite (proj2 (Z.ltb_lt i _)) by lia. apply wp_bind, wp_RTS_ASSERT; [done|]. cbn [negb].
  apply wp_bind, wp_RTS_ASSERT; [unfold gets; f_equal; by apply bool_decide_true|].
  apply wp_bind, wp_gets. rewrite bool_decide_true by done. cbn [negb].
  apply wp_bind, wp_modify, wp_modify. split; [|done].
  apply pool_ok_slot; [done|by rewrite Hs|done|done].
Qed.

(** Reservation finds a free slot whenever there is one, marks exactly
    that slot reserved and keeps the pool consistent; when it fails every
    slot is in use and the store is unchanged. *)
Theorem task_pool_reserve_correct s :
  pool_ok s →
  wp rts_task_pool_reserve (λ r s',
    pool_ok s' ∧
    match r with
    | Some i => 0 ≤ i < RTS_MAX_TASKS ∧ slot s i = RTS_TASK_SLOT_FREE ∧
                (∀ j, slot s' j = if decide (i = j) then RTS_TASK_SLOT_RESERVED else slot s j) ∧
                k_pool_allocated_count s' = k_pool_allocated_count s
    | None => s' = s ∧ ∀ i, 0 ≤ i < RTS_MAX_TASKS → slot s i ≠ RTS_TASK_SLOT_FREE
    end) s.
Proof.
  intros Hok. eapply wp_mono; [by apply rts_task_pool_reserve_spec|]. intros [i|] s'.
  - intros (Hi&Hs&->). split; [by apply pool_ok_reserved|]. split_and!; [lia..|done| |done].
    intros j. apply slot_with_slot.
  - by intros [-> ?].
Qed.

(** Reserve a slot and commit it, or give it back. *)
Definition pool_transaction (keep : bool) : K (option Z) :=
  let* r := rts_task_pool_reserve in
  match r with
  | None => ret None
  | Some i => (if keep then rts_task_pool_commit i else rts_task_pool_rollback i) ;;; ret (Some i)
  end.

(** C34: A reservation that is committed allocates one more slot; one that is
    rolled back leaves every slot as it was; both fail only when no slot is
    free. *)
Theorem task_pool_transaction s keep :
  pool_ok s →
  wp (pool_transaction keep) (λ r s',
    pool_ok s' ∧
    match r with
    | Some i => slot s i = RTS_TASK_SLOT_FREE ∧
        (∀ j, slot s' j = if decide (i = j)
           then (if keep then RTS_TASK_SLOT_ALLOCATED else RTS_TASK_SLOT_FREE) else slot s j) ∧
        k_pool_allocated_count s' = k_pool_allocated_count s + (if keep then 1 else 0)
    | None => s' = s ∧ ∀ i, 0 ≤ i < RTS_MAX_TASKS → slot s i ≠ RTS_TASK_SLOT_FREE
    end) s.
Proof.
  intros Hok. unfold pool_transaction. apply wp_bind.
  eapply wp_mono; [by apply rts_task_pool_reserve_spec|]. intros [i|] s1; [|by intros [-> ?]].
  intros (Hi&Hs&->). pose proof (pool_ok_reserved s i Hok Hi Hs) as Hok1.
  assert (∀ j, slot (reserved i s) j = if decide (i = j) then RTS_TASK_SLOT_RESERVED else slot s j) as Hsl
    by (intros j; apply slot_with_slot).
  assert (slot (reserved i s) i = RTS_TASK_SLOT_RESERVED) as Hr by by rewrite Hsl, decide_True.
  apply wp_bind. destruct keep.
  - eapply wp_mono; [by apply rts_task_pool_commit_spec|]. intros [] s' (Hok'&Hc&Hj). apply wp_ret.
    split_and!; [done..| |by rewrite Hc]. intros j. rewrite Hj, Hsl. by case_decide.
  - eapply wp_mono; [by apply rts_task_pool_rollback_spec|]. intros [] s' (Hok'&->). apply wp_ret.
    split_and!; [done..| |cbn; lia]. intros j. transitivity (slot (with_slot i RTS_TASK_SLOT_FREE (reserved i s)) j);
      [done|]. rewrite slot_with_slot, Hsl. by case_decide.
Qed.
End pool.

Section witnesses.
#[local] Existing Instance fp_config.

Lemma zero_pool_ok : pool_ok zero_kernel.
Proof. split; [by vm_compute|reflexivity]. Qed.

Lemma task_pool_reserve_correct_witness :
  wp rts_task_pool_reserve (λ r s', pool_ok s' ∧ r ≠ None) zero_kernel.
Proof.
  eapply wp_mono; [apply (task_pool_reserve_correct zero_kernel zero_pool_ok)|].
  intros [i|] s' [Hok Hr]; (split; [exact Hok|]); [discriminate|].
  destruct Hr as [_ Hr]. exfalso. apply (Hr 0); [by vm_compute|reflexivity].
Defined.

Lemma task_pool_transaction_witness :
  wp (pool_transaction true) (λ r s', pool_ok s' ∧ r ≠ None) zero_kernel.
Proof.
  eapply wp_mono; [apply (task_pool_transaction zero_kernel true zero_pool_ok)|].
  intros [i|] s' [Hok Hr]; (split; [exact Hok|]); [discriminate|].
  destruct Hr as [_ Hr]. exfalso. apply (Hr 0); [by vm_compute|reflexivity].
Defined.
End witnesses.
