(* ===== verification/Snapshot.v ===== *)
(** * The diagnostics snapshot and the tests' controls

    rts_diagnostics_snapshot_read (kernel/runtime_stats.c), and the functions by
    which the unit tests reset the records and steer the host port
    (ports/host/port.c, ports/host/port_start.c). *)

From S2P Require Import Prelude Machine Config Types HostPort Diagnostics TaskPool.

(** rts_diagnostics_snapshot_t of kernel/diagnostics_internal.h. *)
Record rts_diagnostics_snapshot := mk_diagnostics_snapshot {
  ds_tick : Z;
  ds_context_switches : Z;
  ds_task_count : Z;
  ds_idle_ticks : Z;
  ds_non_idle_ticks : Z;
  ds_tickless_sleep_entries : Z;
  ds_tickless_suppressed_ticks : Z;
  ds_tickless_longest_sleep : Z;
  ds_fatal_reason : rts_fatal_reason
}.

Section snapshot.
Context `{Config}.

(** The ticks the idle task ran, the current run included. *)
Definition snapshot_idle_ticks (s : kernel) : Z :=
  match k_idle_task s with
  | None => 0
  | Some idle =>
      let ran := diagnostic_running_ticks (task s idle) in
      if bool_decide (k_current_task s = Some idle) && bool_decide (k_lifecycle s = RTS_KERNEL_RUNNING)
      then u32 (ran + u32 (k_current_tick s - diagnostic_last_start_tick (task s idle))) else ran
  end.

(** [None] when the function returns false; the argument is not NULL. *)
Definition rts_diagnostics_snapshot_read : K (option rts_diagnostics_snapshot) :=
  if negb RTS_ENABLE_DIAGNOSTICS then ret None else
  let* token := rts_kernel_lock_enter in
  let* snapshot :=
    (let* idle_ticks := if RTS_ENABLE_RUNTIME_STATS then gets snapshot_idle_ticks else ret 0 in
     let* total_ticks := gets (λ s, if RTS_ENABLE_RUNTIME_STATS then k_runtime_counters s !!! scheduler_ticks else k_current_tick s) in
     let* counters := gets k_runtime_counters in
     let counter (c : rts_counter) := if RTS_ENABLE_RUNTIME_STATS then counters !!! c else 0 in
     let idle_ticks := if total_ticks <? idle_ticks then total_ticks else idle_ticks in
     let* tick := gets k_current_tick in
     let* task_count := rts_task_pool_allocated_count in
     let* fatal_reason := gets (λ s, fr_reason (k_fatal_record s)) in
     ret (mk_diagnostics_snapshot tick (counter context_switches) (u32 task_count) idle_ticks (u32 (total_ticks - idle_ticks))
            (counter tickless_sleep_entries) (counter tickless_suppressed_ticks) (counter tickless_longest_sleep) fatal_reason)) in
  rts_kernel_lock_exit token ;;;
  ret (Some snapshot).

(** The snapshot is taken in one critical section, changes nothing the kernel
    uses, and accounts for every tick as idle or not idle. *)
Theorem snapshot_accounts s :
  RTS_ENABLE_DIAGNOSTICS = true → RTS_ENABLE_RUNTIME_STATS = true → port_room s →
  k_pool_allocated_count s ≤ RTS_MAX_TASKS → is_u32 (k_runtime_counters s !!! scheduler_ticks) →
  0 ≤ snapshot_idle_ticks s →
  wp rts_diagnostics_snapshot_read (λ r s', same_nesting s s' ∧ s' = s <| k_port := k_port s' |> ∧
    ∃ d, r = Some d ∧ ds_idle_ticks d + ds_non_idle_ticks d = k_runtime_counters s !!! scheduler_ticks ∧
      0 ≤ ds_idle_ticks d ≤ snapshot_idle_ticks s ∧ ds_tick d = k_current_tick s) s.
Proof.
  intros Hd Hr Hroom Hc Ht Hi. unfold rts_diagnostics_snapshot_read. rewrite Hd, Hr. cbn [negb].
  apply wp_bind. unfold rts_kernel_lock_enter. eapply wp_run; [apply rts_port_critical_enter_run; apply Hroom|].
  set (s1 := upd_port port_entered s). apply wp_bind.
  apply (wp_mono _ (λ d s2, s2 = s1 ∧ ds_idle_ticks d + ds_non_idle_ticks d = k_runtime_counters s !!! scheduler_ticks ∧
    0 ≤ ds_idle_ticks d ≤ snapshot_idle_ticks s ∧ ds_tick d = k_current_tick s)).
  - apply wp_bind, wp_gets, wp_bind, wp_gets, wp_bind, wp_gets, wp_bind, wp_gets, wp_bind. unfold rts_task_pool_allocated_count.
    apply wp_bind, wp_RTS_ASSERT; [unfold gets; f_equal; by apply Z.leb_le|]. apply wp_bind, wp_gets.
    rewrite (proj2 (Z.ltb_ge _ _) Hc : (RTS_MAX_TASKS <? k_pool_allocated_count s1) = false). apply wp_gets, wp_bind, wp_gets, wp_ret.
    cbn [ds_idle_ticks ds_non_idle_ticks ds_tick].
    change (snapshot_idle_ticks s1) with (snapshot_idle_ticks s). change (k_runtime_counters s1) with (k_runtime_counters s).
    unfold is_u32 in Ht. set (total := k_runtime_counters s !!! scheduler_ticks) in *.
    destruct (total <? snapshot_idle_ticks s) eqn:E; [apply Z.ltb_lt in E|apply Z.ltb_ge in E];
      unfold u32; rewrite Z.mod_small by (unfold UINT32_MAX in *; lia); split_and!; done || lia.
  - intros d s2 (->&A1&A2&A3). apply wp_bind. destruct (critical_exit_balanced s s1 (proj1 Hroom) ltac:(by split_and!)) as [Hrun Hn].
    eapply wp_run; [exact Hrun|]. apply wp_ret. split_and!; [done|by destruct s|]. by exists d.
Qed.

(** ** Resets for the tests *)

Definition rts_fatal_record_reset_for_test : K unit := modify (λ s, s <| k_fatal_record := zero_fatal_record |>).

(** The entries themselves are not cleared. *)
Definition rts_trace_reset_for_test : K unit :=
  when RTS_ENABLE_TRACE (modify (λ s, s <| k_trace := (k_trace s) <| trace_head := 0 |> <| trace_used := 0 |>
    <| trace_sequence := 0 |> <| trace_overwrites := 0 |> |>)).

(** ** Control of the host port *)

Definition rts_host_port_test_reset : K unit := modify (upd_port (λ p,
  p <| host_in_isr := false |> <| host_interrupts_masked := false |> <| host_fail_next_stack_initialize := false |>
    <| host_fail_next_initialize := false |> <| host_initialized := false |> <| host_tick_ready := false |>
    <| host_tick_running := false |> <| host_fail_next_tick_start := false |> <| host_critical_depth := 0 |>
    <| host_switch_request_count := 0 |> <| host_last_switch_request_critical_depth := 0 |>
    <| host_switch_request_pending := false |> <| host_sleep_wake_configured := false |> <| host_fail_next_sleep := false |>
    <| host_next_sleep_elapsed := 0 |> <| host_last_sleep_limit := 0 |> <| host_next_wake_source := RTS_PORT_WAKE_TIMER |>
    <| host_sleep_count := 0 |>)) ;;;
  for_each (seqZ 0 RTS_HOST_CRITICAL_NESTING_MAX) (λ index,
    modify (upd_port (λ p, p <| host_critical_tokens := <[index := 0]> (host_critical_tokens p) |>))).

Definition rts_host_port_test_set_isr (in_isr : bool) : K unit := modify (upd_port (λ p, p <| host_in_isr := in_isr |>)).
Definition rts_host_port_test_fail_next_stack_initialize (fail : bool) : K unit :=
  modify (upd_port (λ p, p <| host_fail_next_stack_initialize := fail |>)).
Definition rts_host_port_test_fail_next_initialize (fail : bool) : K unit :=
  modify (upd_port (λ p, p <| host_fail_next_initialize := fail |>)).
Definition rts_host_port_test_fail_next_tick_start (fail : bool) : K unit :=
  modify (upd_port (λ p, p <| host_fail_next_tick_start := fail |>)).
Definition rts_host_port_test_tick_running : K bool := gets (λ s, host_tick_running (k_port s)).
Definition rts_host_port_test_is_initialized : K bool := gets (λ s, host_initialized (k_port s)).
Definition rts_host_port_test_critical_depth : K Z := gets (λ s, host_critical_depth (k_port s)).
Definition rts_host_port_test_switch_request_count : K Z := gets (λ s, host_switch_request_count (k_port s)).
Definition rts_host_port_test_last_switch_request_critical_depth : K Z :=
  gets (λ s, host_last_switch_request_critical_depth (k_port s)).
Definition rts_host_port_test_switch_request_pending : K bool := gets (λ s, host_switch_request_pending (k_port s)).
Definition rts_host_port_test_consume_switch_request : K unit :=
  modify (upd_port (λ p, p <| host_switch_request_pending := false |>)).
Definition rts_host_port_test_set_next_wake (elapsed_ticks source : Z) : K unit := modify (upd_port (λ p,
  p <| host_sleep_wake_configured := true |> <| host_next_sleep_elapsed := elapsed_ticks |> <| host_next_wake_source := source |>)).
Definition rts_host_port_test_fail_next_sleep (fail : bool) : K unit := modify (upd_port (λ p, p <| host_fail_next_sleep := fail |>)).
Definition rts_host_port_test_sleep_count : K Z := gets (λ s, host_sleep_count (k_port s)).
Definition rts_host_port_test_last_sleep_limit : K Z := gets (λ s, host_last_sleep_limit (k_port s)).
Definition rts_host_port_task_return_trap {A} : K A := fatal RTS_FATAL_TASK_RETURNED.

(** port_start.c *)
Definition rts_host_port_test_start_reset : K unit := modify (upd_port (λ p,
  p <| host_start_request_count := 0 |> <| host_start_task := None |> <| host_start_saved_stack_pointer := 0 |>
    <| host_start_consumed := false |> <| host_fail_next_start := false |>)).
Definition rts_host_port_test_start_request_count : K Z := gets (λ s, host_start_request_count (k_port s)).
Definition rts_host_port_test_start_task : K (option task_ptr) := gets (λ s, host_start_task (k_port s)).
Definition rts_host_port_test_start_consumed : K bool := gets (λ s, host_start_consumed (k_port s)).
Definition rts_host_port_test_start_saved_stack_pointer : K Z := gets (λ s, host_start_saved_stack_pointer (k_port s)).
Definition rts_host_port_test_fail_next_start (fail : bool) : K unit := modify (upd_port (λ p, p <| host_fail_next_start := fail |>)).
End snapshot.
