(* ===== verification/Policy.v ===== *)
(** * Scheduling policies

    kernel/policy_fixed_priority.c, kernel/policy_rms.c, kernel/policy_edf.c
    and their dispatch in kernel/scheduler_policy.c.  The preprocessor selects
    one policy; here the selection is a match on [RTS_POLICY]. *)

From S2P Require Import Prelude Machine Config Types Links IntrusiveList KernelLists Time ReadyQueue.
From S2P Require Import HostPort Diagnostics TaskPool.

Section fixed_priority.
Context `{Config}.
Implicit Types (task_arg : option task_ptr).

Definition rts_policy_fp_initialize : K unit := rts_ready_initialize.

Definition rts_policy_fp_insert task_arg : K bool :=
  match task_arg with
  | None => ret false
  | Some t =>
      let* linked := rts_ready_contains (Some t) in
      if linked then ret false else
      rts_ready_insert (Some t) ;;;
      rts_ready_contains (Some t)
  end.

Definition rts_policy_fp_remove task_arg : K bool :=
  match task_arg with
  | None => ret false
  | Some t =>
      let* linked := rts_ready_contains (Some t) in
      if negb linked then ret false else
      rts_ready_remove (Some t) ;;;
      notM (rts_ready_contains (Some t))
  end.

Definition rts_policy_fp_pick_next : K (option task_ptr) := rts_ready_peek_highest.

Definition rts_policy_fp_yield task_arg : K bool :=
  match task_arg with
  | None => ret false
  | Some t =>
      let* refused := notM (rts_ready_contains (Some t)) ||| notM (rts_ready_has_peer (Some t)) in
      if refused then ret false else
      let* prio := gets (λ s, priority (task s t)) in
      rts_ready_rotate prio ;;;
      ret true
  end.

Definition rts_policy_fp_priority_changed task_arg (effective_priority : Z) : K bool :=
  match task_arg with
  | None => ret false
  | Some t =>
      if (effective_priority =? RTS_IDLE_PRIORITY) || (RTS_PRIORITY_COUNT <=? effective_priority)
      then ret false else
      let* same := gets (λ s, priority (task s t) =? effective_priority) in
      if same then ret true else
      let* linked := rts_ready_contains (Some t) in
      when linked (rts_ready_remove (Some t)) ;;;
      modify (upd_task t (λ x, x <| priority := effective_priority |>)) ;;;
      when linked (rts_ready_insert (Some t)) ;;;
      ret (negb linked) ||| rts_ready_contains (Some t)
  end.

(** The slice accounting that the FP and EDF tick handlers share; [linked]
    is the policy's test that the current task is where it belongs. *)
Definition rts_policy_slice_tick (linked : task_ptr → K bool) (yield : task_ptr → K bool)
    (elapsed_ticks : Z) : K bool :=
  if negb RTS_ENABLE_TIME_SLICING then ret false else
  let* current := rts_scheduler_current_get in
  match current with
  | None => ret false
  | Some t =>
      let* refused :=
        gets (λ s, negb (bool_decide (state (task s t) = RTS_TASK_STATE_RUNNING)) ||
                   bool_decide (Some t = k_idle_task s) || plan_active (k_switch_plan s)) |||
        notM (linked t) |||
        gets (λ s, slice_remaining (task s t) =? 0) in
      if refused then ret false else
      let* within := gets (λ s, elapsed_ticks <? slice_remaining (task s t)) in
      if within then
        modify (upd_task t (λ x, x <| slice_remaining := u32 (slice_remaining x - elapsed_ticks) |>)) ;;;
        ret false
      else
        modify (upd_task t (λ x, x <| slice_remaining := RTS_TIME_SLICE_TICKS |>)) ;;;
        yield t
  end.

Definition rts_policy_fp_tick (elapsed_ticks : Z) : K bool :=
  rts_policy_slice_tick (λ t, rts_ready_is_front (Some t)) (λ t, rts_policy_fp_yield (Some t))
    elapsed_ticks.

Definition rts_policy_fp_validate task_arg (expected_ready : bool) : K bool :=
  match task_arg with
  | None => rts_ready_validate
  | Some t => let* linked := rts_ready_contains (Some t) in ret (eqb linked expected_ready)
  end.
End fixed_priority.

Section rms.
Context `{Config}.
Implicit Types (task_arg : option task_ptr).

Definition rms_included (s : kernel) (new_task : task_ptr) (i : Z) : bool :=
  bool_decide (TApp i = new_task) || bool_decide (slot s i = RTS_TASK_SLOT_ALLOCATED).

(** The rank of slot [i]: one more than the number of included tasks with a
    longer period. *)
Definition rms_rank (s : kernel) (new_task : task_ptr) (i : Z) : Z :=
  foldl (λ rank j,
    if rms_included s new_task j && (period (task s (TApp i)) <? period (task s (TApp j)))
    then u8 (rank + 1) else rank) 1 (seqZ 0 RTS_MAX_TASKS).

Definition rts_policy_rms_assign_priorities (new_task : task_ptr) : K unit :=
  for_each (seqZ 0 RTS_MAX_TASKS) (λ i,
    let* included := gets (λ s, rms_included s new_task i) in
    if negb included then ret tt else
    let* rank := gets (λ s, rms_rank s new_task i) in
    modify (upd_task (TApp i) (λ x, x <| base_priority := rank |>)) ;;;
    rts_policy_fp_priority_changed (Some (TApp i)) rank ;;;
    ret tt).

Definition rts_policy_rms_initialize : K unit := rts_policy_fp_initialize.

Definition rts_policy_rms_insert task_arg : K bool :=
  match task_arg with
  | None => ret tt
  | Some t =>
      let* fresh := gets (λ s, bool_decide (state (task s t) = RTS_TASK_STATE_DORMANT) &&
                               negb (period (task s t) =? 0)) in
      when fresh (rts_policy_rms_assign_priorities t)
  end ;;;
  rts_policy_fp_insert task_arg.

Definition rts_policy_rms_remove task_arg : K bool := rts_policy_fp_remove task_arg.
Definition rts_policy_rms_pick_next : K (option task_ptr) := rts_policy_fp_pick_next.
Definition rts_policy_rms_yield task_arg : K bool := rts_policy_fp_yield task_arg.
Definition rts_policy_rms_priority_changed task_arg (effective_priority : Z) : K bool :=
  rts_policy_fp_priority_changed task_arg effective_priority.
Definition rts_policy_rms_tick (elapsed_ticks : Z) : K bool := rts_policy_fp_tick elapsed_ticks.

Definition rts_policy_rms_validate task_arg (expected_ready : bool) : K bool :=
  let* fp := rts_policy_fp_validate task_arg expected_ready in
  if negb fp then ret false else
  match task_arg with
  | Some t =>
      gets (λ s, bool_decide (Some t = k_idle_task s) || bool_decide (Some t = k_timer_service_task s) ||
                 negb (period (task s t) =? 0))
  | None =>
      all_of (seqZ 0 RTS_MAX_TASKS) (λ i,
        gets (λ s, negb (bool_decide (slot s i = RTS_TASK_SLOT_ALLOCATED) &&
                         (period (task s (TApp i)) =? 0))))
  end.
End rms.

Section edf.
Context `{Config}.
Implicit Types (task_arg : option task_ptr).

Definition rts_policy_edf_is_before (s : kernel) (first second : task_ptr) : bool :=
  if bool_decide (Some first = k_idle_task s) then false
  else if bool_decide (Some second = k_idle_task s) then true
  else if negb (absolute_deadline (task s first) =? absolute_deadline (task s second)) then
    rts_tick_before (absolute_deadline (task s first)) (absolute_deadline (task s second))
  else if negb (release_sequence (task s first) =? release_sequence (task s second)) then
    rts_tick_before (release_sequence (task s first)) (release_sequence (task s second))
  else false.

Definition rts_policy_edf_initialize : K unit := kheap (rts_list_initialize (Some LEdf)).

Definition edf_linked (s : kernel) (t : task_ptr) : bool :=
  bool_decide (n_owner (node s (NReady t)) = Some LEdf).

Fixpoint rts_policy_edf_insert_loop (t : task_ptr) (position : option node_ptr) (fuel : nat) : K bool :=
  match fuel with
  | O => no_fuel
  | S fuel' =>
      match position with
      | None =>
          kheap (rts_list_push_back (Some LEdf) (Some (NReady t))) ;;;
          gets (λ s, edf_linked s t)
      | Some pos =>
          let* object := gets (λ s, n_object (node s pos)) in
          match object with
          | None =>
              modify (upd_node (NReady t) (λ n, n <| n_object := None |>)) ;;;
              ret false
          | Some o =>
              let* queued := object_task o in
              let* before := gets (λ s, rts_policy_edf_is_before s t queued) in
              if before then
                kheap (rts_list_insert_before (Some LEdf) (Some pos) (Some (NReady t))) ;;;
                gets (λ s, edf_linked s t)
              else
                let* next := gets (λ s, n_next (node s pos)) in
                rts_policy_edf_insert_loop t next fuel'
          end
      end
  end.

Definition rts_policy_edf_insert task_arg : K bool :=
  match task_arg with
  | None => ret false
  | Some t =>
      let* linked := gets (λ s, negb (bool_decide (n_owner (node s (NReady t)) = None))) in
      if linked then ret false else
      modify (upd_node (NReady t) (λ n, n <| n_object := Some (OTask t) |>)) ;;;
      let* position := gets (λ s, l_head (klist s LEdf)) in
      let* count := gets (λ s, l_count (klist s LEdf)) in
      rts_policy_edf_insert_loop t position (Z.to_nat (Z.succ count))
  end.

Definition rts_policy_edf_remove task_arg : K bool :=
  match task_arg with
  | None => ret false
  | Some t =>
      let* linked := gets (λ s, edf_linked s t) in
      if negb linked then ret false else
      kheap (rts_list_remove (Some LEdf) (Some (NReady t))) ;;;
      modify (upd_node (NReady t) (λ n, n <| n_object := None |>)) ;;;
      gets (λ s, bool_decide (n_owner (node s (NReady t)) = None))
  end.

Definition rts_policy_edf_pick_next : K (option task_ptr) :=
  let* head := gets (λ s, l_head (klist s LEdf)) in
  match head with
  | None => ret None
  | Some hd =>
      let* object := gets (λ s, n_object (node s hd)) in
      match object with
      | None => ret None
      | Some o => let* t := object_task o in ret (Some t)
      end
  end.

(** Advance the release sequence, skipping zero. *)
Definition next_release_sequence : K unit :=
  modify (λ s, s <| k_policy_release_sequence := u32 (k_policy_release_sequence s + 1) |>) ;;;
  let* zero := gets (λ s, k_policy_release_sequence s =? 0) in
  when zero (modify (λ s, s <| k_policy_release_sequence := u32 (k_policy_release_sequence s + 1) |>)).

Definition rts_policy_edf_yield task_arg : K bool :=
  match task_arg with
  | None => ret false
  | Some t =>
      let* linked := gets (λ s, edf_linked s t) in
      if negb linked then ret false else
      let* next := gets (λ s, n_next (node s (NReady t))) in
      match next with
      | None => ret false
      | Some nx =>
          let* object := gets (λ s, n_object (node s nx)) in
          match object with
          | None => ret false
          | Some o =>
              let* peer := object_task o in
              let* refused := gets (λ s,
                negb (absolute_deadline (task s peer) =? absolute_deadline (task s t)) ||
                bool_decide (Some peer = k_idle_task s)) in
              if refused then ret false else
              let* removed := rts_policy_edf_remove (Some t) in
              if negb removed then ret false else
              next_release_sequence ;;;
              let* sequence := gets k_policy_release_sequence in
              modify (upd_task t (λ x, x <| release_sequence := sequence |>)) ;;;
              rts_policy_edf_insert (Some t)
          end
      end
  end.

Definition rts_policy_edf_priority_changed task_arg (effective_priority : Z) : K bool :=
  match task_arg with
  | None => ret false
  | Some t =>
      if (effective_priority =? RTS_IDLE_PRIORITY) || (RTS_PRIORITY_COUNT <=? effective_priority)
      then ret false else
      modify (upd_task t (λ x, x <| priority := effective_priority |>)) ;;;
      ret true
  end.

Definition rts_policy_edf_tick (elapsed_ticks : Z) : K bool :=
  rts_policy_slice_tick (λ t, gets (λ s, edf_linked s t)) (λ t, rts_policy_edf_yield (Some t))
    elapsed_ticks.

Fixpoint rts_policy_edf_validate_walk (nd previous : option node_ptr)
    (previous_task : option task_ptr) (count : Z) (fuel : nat) :
    K (option (option node_ptr * option node_ptr * Z)) :=
  match fuel with
  | O => no_fuel
  | S fuel' =>
      match nd with
      | Some n =>
          if count <=? RTS_SCHEDULABLE_TASK_CAPACITY then
            let* r := gets (λ s, node s n) in
            if negb (bool_decide (n_owner r = Some LEdf) && bool_decide (n_previous r = previous))
            then ret None else
            match n_object r with
            | None => ret None
            | Some o =>
                let* queued := object_task o in
                let* good := gets (λ s, bool_decide (NReady queued = n) &&
                  negb (match previous_task with
                        | Some p => rts_policy_edf_is_before s queued p
                        | None => false
                        end)) in
                if good then
                  rts_policy_edf_validate_walk (n_next r) (Some n) (Some queued) (Z.succ count) fuel'
                else ret None
            end
          else ret (Some (nd, previous, count))
      | None => ret (Some (nd, previous, count))
      end
  end.

Definition rts_policy_edf_validate task_arg (expected_ready : bool) : K bool :=
  match task_arg with
  | Some t => gets (λ s, eqb (edf_linked s t) expected_ready)
  | None =>
      let* ready := gets (λ s, klist s LEdf) in
      let* walked := rts_policy_edf_validate_walk (l_head ready) None None 0
                       (Z.to_nat (RTS_SCHEDULABLE_TASK_CAPACITY + 3)) in
      match walked with
      | None => ret false
      | Some (nd, previous, count) =>
          ret (bool_decide (nd = None) && bool_decide (previous = l_tail ready) &&
               (count =? l_count ready) && (count <=? RTS_SCHEDULABLE_TASK_CAPACITY))
      end
  end.
End edf.

(** ** Dispatch (kernel/scheduler_policy.c) *)

Section dispatch.
Context `{Config}.
Implicit Types (task_arg : option task_ptr).

Definition rts_policy_record_release (t : task_ptr) : K unit :=
  next_release_sequence ;;;
  let* now := gets k_current_tick in
  modify (upd_task t (λ x, x <| release_tick := now |>)) ;;;
  modify (upd_task t (λ x, x <| absolute_deadline :=
    if relative_deadline x =? 0 then now else u32 (now + relative_deadline x) |>)) ;;;
  let* sequence := gets k_policy_release_sequence in
  modify (upd_task t (λ x, x <| release_sequence := sequence |>)).

Definition rts_policy_initialize : K unit :=
  modify (λ s, s <| k_policy_release_sequence := 0 |>) ;;;
  match RTS_POLICY with
  | RTS_POLICY_KIND_FIXED_PRIORITY => rts_policy_fp_initialize
  | RTS_POLICY_KIND_RMS => rts_policy_rms_initialize
  | RTS_POLICY_KIND_EDF => rts_policy_edf_initialize
  end.

(** The insertion that rts_policy_insert and rts_policy_task_unblock select. *)
Definition rts_policy_select_insert task_arg : K bool :=
  match RTS_POLICY with
  | RTS_POLICY_KIND_FIXED_PRIORITY => rts_policy_fp_insert task_arg
  | RTS_POLICY_KIND_RMS => rts_policy_rms_insert task_arg
  | RTS_POLICY_KIND_EDF => rts_policy_edf_insert task_arg
  end.

Definition rts_policy_insert task_arg : K bool :=
  match task_arg with
  | None => ret false
  | Some t => rts_policy_record_release t ;;; rts_policy_select_insert (Some t)
  end.

Definition rts_policy_remove task_arg : K bool :=
  match RTS_POLICY with
  | RTS_POLICY_KIND_FIXED_PRIORITY => rts_policy_fp_remove task_arg
  | RTS_POLICY_KIND_RMS => rts_policy_rms_remove task_arg
  | RTS_POLICY_KIND_EDF => rts_policy_edf_remove task_arg
  end.

Definition rts_policy_pick_next : K (option task_ptr) :=
  match RTS_POLICY with
  | RTS_POLICY_KIND_FIXED_PRIORITY => rts_policy_fp_pick_next
  | RTS_POLICY_KIND_RMS => rts_policy_rms_pick_next
  | RTS_POLICY_KIND_EDF => rts_policy_edf_pick_next
  end.

Definition rts_policy_yield task_arg : K bool :=
  match RTS_POLICY with
  | RTS_POLICY_KIND_FIXED_PRIORITY => rts_policy_fp_yield task_arg
  | RTS_POLICY_KIND_RMS => rts_policy_rms_yield task_arg
  | RTS_POLICY_KIND_EDF => rts_policy_edf_yield task_arg
  end.

Definition rts_policy_task_block task_arg : K bool := rts_policy_remove task_arg.

Definition rts_policy_task_unblock task_arg : K bool :=
  match task_arg with
  | None => ret false
  | Some t => rts_policy_record_release t ;;; rts_policy_select_insert (Some t)
  end.

Definition rts_policy_priority_changed task_arg (effective_priority : Z) : K bool :=
  match RTS_POLICY with
  | RTS_POLICY_KIND_FIXED_PRIORITY => rts_policy_fp_priority_changed task_arg effective_priority
  | RTS_POLICY_KIND_RMS => rts_policy_rms_priority_changed task_arg effective_priority
  | RTS_POLICY_KIND_EDF => rts_policy_edf_priority_changed task_arg effective_priority
  end.

Definition rts_policy_tick (elapsed_ticks : Z) : K bool :=
  match RTS_POLICY with
  | RTS_POLICY_KIND_FIXED_PRIORITY => rts_policy_fp_tick elapsed_ticks
  | RTS_POLICY_KIND_RMS => rts_policy_rms_tick elapsed_ticks
  | RTS_POLICY_KIND_EDF => rts_policy_edf_tick elapsed_ticks
  end.

Definition rts_policy_validate task_arg (expected_ready : bool) : K bool :=
  match RTS_POLICY with
  | RTS_POLICY_KIND_FIXED_PRIORITY => rts_policy_fp_validate task_arg expected_ready
  | RTS_POLICY_KIND_RMS => rts_policy_rms_validate task_arg expected_ready
  | RTS_POLICY_KIND_EDF => rts_policy_edf_validate task_arg expected_ready
  end.

Definition rts_policy_kind : rts_policy_kind_t := RTS_POLICY.
End dispatch.
