(* ===== verification/PolicySpec.v ===== *)
(** * What a scheduling policy promises

    Each policy keeps the ready tasks as a list sorted by a rank, smallest
    first, equal ranks in order of insertion; it inserts stably, removes, and
    picks the head.  [ReadyPolicy] states this contract, the instances show
    that the fixed-priority and the EDF code meet it, and the theorems about
    preemption are proved from the contract alone. *)

From S2P Require Import Prelude Machine Config Types Links IntrusiveList KernelLists Time ReadyQueue.
From S2P Require Import DelayQueue HostPort Diagnostics TaskPool Policy.

(** A policy operation touches the ready lists and the bitmap only. *)
Definition ready_frame (s s' : kernel) : Prop :=
  ∃ h' bm', s' = s <| k_heap := h' |> <| k_ready_bitmap := bm' |> ∧
    contents h' LDelay = contents (k_heap s) LDelay ∧
    contents h' LTimer = contents (k_heap s) LTimer.

Class ReadyPolicy `{Config} (insert remove : option task_ptr → K bool)
    (pick : K (option task_ptr)) := {
  rp_ok : kernel → Prop;
  rp_ready : kernel → list task_ptr;
  rp_rank : kernel → task_ptr → Z;
  rp_admits : kernel → task_ptr → Prop;
  rp_sorted s : rp_ok s → StronglySorted (λ a b, rp_rank s a ≤ rp_rank s b) (rp_ready s);
  rp_nodup s : rp_ok s → NoDup (rp_ready s);
  rp_insert s t : rp_ok s → rp_admits s t →
    wp (insert (Some t)) (λ b s', b = true ∧ rp_ok s' ∧ ready_frame s s' ∧
      rp_ready s' = insert_by (rp_rank s) t (rp_ready s) ∧
      (∀ u, rp_rank s' u = rp_rank s u) ∧ ∀ u, u ≠ t → rp_admits s u → rp_admits s' u) s;
  rp_remove s t l1 l2 : rp_ok s → rp_ready s = l1 ++ t :: l2 →
    wp (remove (Some t)) (λ b s', b = true ∧ rp_ok s' ∧ ready_frame s s' ∧
      rp_ready s' = l1 ++ l2 ∧ ∀ u, rp_rank s' u = rp_rank s u) s;
  rp_pick s : rp_ok s → pick s = Done (head (rp_ready s)) s
}.

(** A node that was in no list is in none after a step that does not link it. *)
Lemma lists_step_free `{ConfigOk} h h' l xs n :
  lists_ok h → lists_step h h' l xs → n_owner (hnode h n) = None → n ∉ xs → n_owner (hnode h' n) = None.
Proof.
  intros Hok [Hok' Hc] Hn Hx. destruct (n_owner (hnode h' n)) as [l'|] eqn:E; [|done].
  apply (lo_owner h' Hok') in E. rewrite Hc in E. case_decide; [done|]. apply (lo_owner h Hok) in E. congruence.
Qed.

(** ** Fixed priority *)

(** The queues below [n], highest first. *)
Fixpoint fp_order (q : Z → list task_ptr) (n : nat) : list task_ptr :=
  match n with O => [] | S n' => q (Z.of_nat n') ++ fp_order q n' end.

Lemma fp_order_elem q n t : t ∈ fp_order q n ↔ ∃ p, 0 ≤ p < Z.of_nat n ∧ t ∈ q p.
Proof.
  induction n as [|n IH]; cbn [fp_order]; [split; [set_solver|intros (?&?&?); lia]|].
  rewrite elem_of_app, IH. split.
  - intros [?|(p&?&?)]; [exists (Z.of_nat n)|exists p]; (split; [lia|done]).
  - intros (p&?&?). destruct (decide (p = Z.of_nat n)) as [->|]; [by left|right].
    exists p. split; [lia|done].
Qed.

Lemma fp_order_head q n : head (fp_order q n) = highest_range q 0 n.
Proof.
  induction n as [|n IH]; [done|]. cbn [fp_order highest_range]. rewrite Z.add_0_l.
  by destruct (q (Z.of_nat n)).
Qed.

Lemma fp_order_ext q q' n : (∀ p, 0 ≤ p < Z.of_nat n → q p = q' p) → fp_order q n = fp_order q' n.
Proof.
  induction n as [|n IH]; intros Hq; [done|]. cbn [fp_order]. rewrite Hq, IH; [done| |lia].
  intros. apply Hq. lia.
Qed.

(** The part above and the part below one priority. *)
Lemma fp_order_split q n p :
  0 ≤ p < Z.of_nat n → ∃ A,
    (∀ t, t ∈ A → ∃ p', p < p' < Z.of_nat n ∧ t ∈ q p') ∧
    ∀ ts, fp_order (set_queue q p ts) n = A ++ ts ++ fp_order q (Z.to_nat p).
Proof.
  induction n as [|n IH]; intros Hp; [lia|]. cbn [fp_order].
  destruct (decide (p = Z.of_nat n)) as [->|Hne].
  - exists []. split; [set_solver|]. intros ts. unfold set_queue at 1. rewrite decide_True by done.
    rewrite Nat2Z.id. cbn. f_equal. apply fp_order_ext. intros p' ?. unfold set_queue.
    by rewrite decide_False by lia.
  - destruct IH as (A&HA&Hts); [lia|]. exists (q (Z.of_nat n) ++ A). split.
    + intros t [Ht|Ht]%elem_of_app; [exists (Z.of_nat n); split; [lia|done]|].
      destruct (HA t Ht) as (p'&?&?). exists p'. split; [lia|done].
    + intros ts. rewrite Hts. unfold set_queue. rewrite decide_False by lia. by rewrite app_assoc.
Qed.

Section fp_policy.
Context `{ConfigOk}.

Definition fp_ready (s : kernel) : list task_ptr :=
  fp_order (ready_queue s) (Z.to_nat RTS_PRIORITY_COUNT).
Definition fp_rank (s : kernel) (t : task_ptr) : Z := - priority (task s t).
Definition fp_admits (s : kernel) (t : task_ptr) : Prop :=
  t ∈ all_tasks ∧ 0 ≤ priority (task s t) < RTS_PRIORITY_COUNT ∧
  n_owner (node s (NReady t)) = None.

Lemma fp_ready_step s s' p ts :
  ready_step s s' p ts → fp_ready s' = fp_order (set_queue (ready_queue s) p ts) (Z.to_nat RTS_PRIORITY_COUNT).
Proof.
  intros Hst. apply fp_order_ext. intros p' _. rewrite (ready_step_queue s s' p ts p' Hst). done.
Qed.

Lemma ready_step_frame s s' p ts : ready_step s s' p ts → ready_frame s s'.
Proof.
  intros (_&h'&bm'&->&[_ Hc]). exists h', bm'. split_and!; [done|rewrite Hc; by rewrite decide_False..].
Qed.

Lemma fp_ready_elem s t :
  ready_ok s → t ∈ fp_ready s ↔ t ∈ ready_queue s (priority (task s t)).
Proof.
  intros Hok. unfold fp_ready. pose proof cfg_priorities. rewrite fp_order_elem. split.
  - intros (p&_&Ht). by rewrite (ro_priority s Hok p t Ht).
  - intros Ht. exists (priority (task s t)). split; [|done].
    assert (0 ≤ priority (task s t) < RTS_PRIORITY_COUNT); [|lia].
    apply (ready_queue_range s Hok). intros E; rewrite E in Ht; set_solver.
Qed.

Lemma ready_step_rank s s' p ts u : ready_step s s' p ts → fp_rank s' u = fp_rank s u.
Proof. by intros (_&h'&bm'&->&_). Qed.

Lemma fp_ready_sorted_at s (Hok : ready_ok s) n :
  StronglySorted (λ a b, fp_rank s a ≤ fp_rank s b) (fp_order (ready_queue s) n).
Proof.
  induction n as [|n IH]; cbn [fp_order]; [constructor|].
  assert (∀ t, t ∈ fp_order (ready_queue s) n → - Z.of_nat n ≤ fp_rank s t) as Hlow.
  { intros t (p&Hp&Ht)%fp_order_elem. unfold fp_rank. rewrite (ro_priority s Hok p t Ht). lia. }
  assert (∀ t, t ∈ ready_queue s (Z.of_nat n) → fp_rank s t = - Z.of_nat n) as Hat.
  { intros t Ht. unfold fp_rank. by rewrite (ro_priority s Hok _ t Ht). }
  induction (ready_queue s (Z.of_nat n)) as [|t ts IHt]; [done|]. cbn. constructor.
  - apply IHt. set_solver.
  - apply Forall_forall. intros u [Hu|Hu]%elem_of_app.
    + rewrite !Hat by set_solver. lia.
    + rewrite (Hat t) by set_solver. specialize (Hlow u Hu). lia.
Qed.

Lemma fp_ready_nodup_at s (Hok : ready_ok s) n : NoDup (fp_order (ready_queue s) n).
Proof.
  induction n as [|n IH]; cbn [fp_order]; [constructor|]. apply NoDup_app.
  split_and!; [by apply ready_queue_nodup| |done].
  intros t Ht (p&Hp&Ht')%fp_order_elem.
  pose proof (ro_priority s Hok _ t Ht). pose proof (ro_priority s Hok _ t Ht'). lia.
Qed.

Lemma rts_policy_fp_insert_spec s t :
  ready_ok s → fp_admits s t →
  wp (rts_policy_fp_insert (Some t)) (λ b s',
    b = true ∧ ready_step s s' (priority (task s t)) (ready_queue s (priority (task s t)) ++ [t])) s.
Proof.
  intros Hok (Ht&Hp&Hn). cbn [rts_policy_fp_insert]. apply wp_bind.
  eapply wp_run; [apply rts_ready_contains_run; [done|lia]|].
  rewrite bool_decide_false by (rewrite (ready_queue_owner s Hok), Hn; done).
  apply wp_bind. eapply wp_mono; [by apply rts_ready_insert_spec|].
  intros [] s' Hst. pose proof (ready_step_rank s s' _ _ t Hst) as Hpr.
  assert (priority (task s' t) = priority (task s t)) as Ep by (unfold fp_rank in Hpr; lia).
  eapply wp_run; [apply rts_ready_contains_run; [apply Hst|lia]|]. split; [|done].
  apply bool_decide_true. rewrite Ep, (ready_step_queue s s' _ _ _ Hst), decide_True by done. set_solver.
Qed.

Lemma rts_policy_fp_remove_spec s t l1 l2 :
  ready_ok s → ready_queue s (priority (task s t)) = l1 ++ t :: l2 →
  wp (rts_policy_fp_remove (Some t)) (λ b s',
    b = true ∧ ready_step s s' (priority (task s t)) (l1 ++ l2)) s.
Proof.
  intros Hok E. assert (0 ≤ priority (task s t) < RTS_PRIORITY_COUNT)
    by (apply (ready_queue_range s Hok); rewrite E; by destruct l1).
  cbn [rts_policy_fp_remove]. apply wp_bind. eapply wp_run; [apply rts_ready_contains_run; [done|lia]|].
  rewrite bool_decide_true by (rewrite E; set_solver). cbn [negb]. apply wp_bind.
  eapply wp_mono; [by eapply rts_ready_remove_spec|]. intros [] s' Hst.
  pose proof (ready_step_rank s s' _ _ t Hst) as Hpr. unfold fp_rank in Hpr.
  assert (priority (task s' t) = priority (task s t)) as Ep by lia.
  apply wp_notM. eapply wp_run; [apply rts_ready_contains_run; [apply Hst|lia]|]. split; [|done].
  rewrite bool_decide_false; [done|].
  rewrite Ep, (ready_step_queue s s' _ _ _ Hst), decide_True by done.
  pose proof (ready_queue_nodup s (priority (task s t)) Hok) as Hnd. rewrite E in Hnd.
  destruct (nodup_mid l1 l2 t t Hnd) as (_&?&?). set_solver.
Qed.
End fp_policy.

Lemma fp_ready_split `{ConfigOk} s p :
  ready_ok s → 0 ≤ p < RTS_PRIORITY_COUNT → ∃ A B,
    fp_ready s = A ++ ready_queue s p ++ B ∧
    (∀ t, t ∈ A → fp_rank s t < - p) ∧ (∀ t, t ∈ B → - p < fp_rank s t) ∧
    ∀ s' ts, ready_step s s' p ts → fp_ready s' = A ++ ts ++ B.
Proof.
  intros Hok Hp. pose proof cfg_priorities.
  destruct (fp_order_split (ready_queue s) (Z.to_nat RTS_PRIORITY_COUNT) p) as (A&HA&Hts); [lia|].
  exists A, (fp_order (ready_queue s) (Z.to_nat p)). split_and!.
  - rewrite <- Hts. apply fp_order_ext. intros p' _. unfold set_queue. by case_decide; subst.
  - intros t Ht. destruct (HA t Ht) as (p'&?&Hq). unfold fp_rank.
    rewrite (ro_priority s Hok p' t Hq). lia.
  - intros t (p'&?&Hq)%fp_order_elem. unfold fp_rank. rewrite (ro_priority s Hok p' t Hq). lia.
  - intros s' ts Hst. by rewrite (fp_ready_step s s' p ts Hst), Hts.
Qed.

#[export] Program Instance fp_policy `{ConfigOk} :
    ReadyPolicy rts_policy_fp_insert rts_policy_fp_remove rts_policy_fp_pick_next := {|
  rp_ok := ready_ok; rp_ready := fp_ready; rp_rank := fp_rank; rp_admits := fp_admits
|}.
Next Obligation. intros. by apply fp_ready_sorted_at. Qed.
Next Obligation. intros. by apply fp_ready_nodup_at. Qed.
Next Obligation.
  intros C ? s t Hok Hadm. pose proof Hadm as (_&Hp&_).
  eapply wp_mono; [by apply rts_policy_fp_insert_spec|]. intros b s' [-> Hst].
  split_and!; [done|apply Hst|by eapply ready_step_frame| |intros; by eapply ready_step_rank|].
  - destruct (fp_ready_split s _ Hok Hp) as (A&B&E&HA&HB&Hs'). rewrite (Hs' _ _ Hst), E.
    rewrite (app_assoc A (ready_queue s _) B), insert_by_app.
    + by rewrite <- !app_assoc.
    + intros y [Hy|Hy]%elem_of_app; [specialize (HA y Hy); unfold fp_rank in *; lia|].
      unfold fp_rank. by rewrite (ro_priority s Hok _ y Hy).
    + intros y Hy. apply HB. destruct B; [done|]. injection Hy as ->. set_solver.
  - intros u Hu (Hin&Hup&Hfree). destruct Hst as (_&h'&bm'&->&Hl). split; [done|]. split; [exact Hup|].
    eapply lists_step_free; [apply Hok|exact Hl|done|]. rewrite (list_elem_of_fmap_inj NReady), elem_of_app, list_elem_of_singleton.
    intros [Hx|Hx]; [|done].
    pose proof (ro_priority s Hok _ u Hx) as Ep. rewrite <- Ep in Hx. apply (ready_queue_owner s Hok) in Hx. congruence.
Qed.
Next Obligation.
  intros C ? s t l1 l2 Hok E.
  assert (t ∈ ready_queue s (priority (task s t))) as Ht.
  { apply fp_ready_elem; [done|]. rewrite E. set_solver. }
  destruct (list_elem_of_split _ _ Ht) as (k1&k2&Ek).
  assert (0 ≤ priority (task s t) < RTS_PRIORITY_COUNT) as Hp
    by (apply (ready_queue_range s Hok); rewrite Ek; by destruct k1).
  eapply wp_mono; [by eapply rts_policy_fp_remove_spec|]. intros b s' [-> Hst].
  split_and!; [done|apply Hst|by eapply ready_step_frame| |intros; by eapply ready_step_rank].
  destruct (fp_ready_split s _ Hok Hp) as (A&B&E'&_&_&Hs'). rewrite (Hs' _ _ Hst).
  pose proof (fp_ready_nodup_at s Hok (Z.to_nat RTS_PRIORITY_COUNT)) as Hnd.
  fold (fp_ready s) in Hnd. rewrite Ek, <- app_assoc in E'. cbn in E'. rewrite app_assoc in E'.
  assert (filter (λ x, x ≠ t) (fp_ready s) = l1 ++ l2) as F1.
  { rewrite E. apply filter_ne_mid. by rewrite <- E. }
  assert (filter (λ x, x ≠ t) (fp_ready s) = (A ++ k1) ++ k2 ++ B) as F2.
  { rewrite E'. apply filter_ne_mid. by rewrite <- E'. }
  rewrite <- F1, F2. by rewrite <- !app_assoc.
Qed.
Next Obligation.
  intros. unfold rts_policy_fp_pick_next, fp_ready. rewrite fp_order_head.
  by apply rts_ready_peek_highest_run.
Qed.

(** ** Earliest deadline first *)

Section edf_policy.
Context `{ConfigOk}.
(** Origins of the window of deadlines and of release sequence numbers. *)
Context (base sbase : Z).

Definition edf_ready (s : kernel) : list task_ptr := tasks_of (kcontents s LEdf).

(** Idle last, then the distance of the deadline, then that of the release. *)
Definition edf_rank (s : kernel) (t : task_ptr) : Z :=
  if bool_decide (Some t = k_idle_task s) then 2 ^ 64
  else ahead base (absolute_deadline (task s t)) * 2 ^ 32 + ahead sbase (release_sequence (task s t)).

Definition edf_in_window (s : kernel) (t : task_ptr) : Prop :=
  Some t = k_idle_task s ∨
  (is_u32 (absolute_deadline (task s t)) ∧ is_u32 (release_sequence (task s t)) ∧
   ahead base (absolute_deadline (task s t)) < RTS_TICK_HALF_RANGE ∧
   ahead sbase (release_sequence (task s t)) < RTS_TICK_HALF_RANGE).

Record edf_ok (s : kernel) : Prop := {
  eo_lists : lists_ok (k_heap s);
  eo_window t : t ∈ edf_ready s → edf_in_window s t;
  eo_sorted : StronglySorted (λ a b, edf_rank s a ≤ edf_rank s b) (edf_ready s)
}.

Definition edf_admits (s : kernel) (t : task_ptr) : Prop :=
  t ∈ all_tasks ∧ n_owner (node s (NReady t)) = None ∧ edf_in_window s t.

(** The comparison of the code is that of the ranks. *)
Lemma edf_is_before_rank s a b :
  edf_in_window s a → edf_in_window s b →
  rts_policy_edf_is_before s a b = (edf_rank s a <? edf_rank s b).
Proof.
  intros Ha Hb. unfold rts_policy_edf_is_before, edf_rank.
  assert (∀ t, edf_in_window s t → Some t ≠ k_idle_task s →
    ahead base (absolute_deadline (task s t)) * 2 ^ 32 + ahead sbase (release_sequence (task s t)) < 2 ^ 64) as Hlt.
  { intros t [?|(_&_&?&?)] Ht; [done|]. pose proof (ahead_range base (absolute_deadline (task s t))).
    unfold RTS_TICK_HALF_RANGE in *. lia. }
  case_bool_decide as Ia.
  { symmetry. apply Z.ltb_ge. case_bool_decide as Ib; [done|]. specialize (Hlt b Hb Ib). lia. }
  case_bool_decide as Ib; [symmetry; apply Z.ltb_lt; by apply Hlt|].
  destruct Ha as [?|(Ua&Va&Wa&Xa)]; [done|]. destruct Hb as [?|(Ub&Vb&Wb&Xb)]; [done|].
  pose proof (ahead_range sbase (release_sequence (task s a))).
  pose proof (ahead_range sbase (release_sequence (task s b))).
  apply eq_bool_prop_intro. rewrite !Is_true_true.
  destruct (Z.eqb_spec (absolute_deadline (task s a)) (absolute_deadline (task s b))) as [Ed|Ed]; cbn [negb].
  - rewrite Ed. destruct (Z.eqb_spec (release_sequence (task s a)) (release_sequence (task s b))) as [Es|Es]; cbn [negb].
    + rewrite Es, Z.ltb_lt. split; [done|lia].
    + rewrite (rts_tick_before_window sbase), Z.ltb_lt by done. lia.
  - rewrite (rts_tick_before_window base), Z.ltb_lt by done.
    assert (ahead base (absolute_deadline (task s a)) ≠ ahead base (absolute_deadline (task s b))) as Hne.
    { intros E. apply Ed. by eapply ahead_inj. }
    unfold UINT32_MAX in *. lia.
Qed.

Lemma edf_contents s : lists_ok (k_heap s) → kcontents s LEdf = NReady <$> edf_ready s.
Proof. apply contents_edf. Qed.

Lemma edf_owner s t :
  lists_ok (k_heap s) → t ∈ edf_ready s ↔ n_owner (node s (NReady t)) = Some LEdf.
Proof.
  intros Hl. unfold node. rewrite <- (lo_owner _ Hl).
  change (contents (k_heap s)) with (kcontents s). rewrite edf_contents by done.
  symmetry. apply (list_elem_of_fmap_inj NReady).
Qed.

Lemma edf_node s l1 t l2 :
  lists_ok (k_heap s) → edf_ready s = l1 ++ t :: l2 →
  n_object (node s (NReady t)) = Some (OTask t) ∧ n_next (node s (NReady t)) = NReady <$> head l2.
Proof.
  intros Hl E.
  assert (contents (k_heap s) LEdf = (NReady <$> l1) ++ NReady t :: (NReady <$> l2)) as Ec.
  { change (contents (k_heap s)) with (kcontents s). by rewrite edf_contents, E, fmap_app. }
  destruct (wf_node _ (lo_wf _ Hl) LEdf _ _ _ Ec) as (_&Hnx&Ho). unfold node. split.
  - apply (lo_linked _ Hl (NReady t) LEdf). rewrite Ec. set_solver.
  - rewrite Hnx. by destruct l2.
Qed.

Lemma edf_klist s :
  lists_ok (k_heap s) →
  l_head (klist s LEdf) = NReady <$> head (edf_ready s) ∧
  l_count (klist s LEdf) = Z.of_nat (length (edf_ready s)).
Proof.
  intros Hl. unfold klist. rewrite (wf_list _ (lo_wf _ Hl)).
  change (contents (k_heap s)) with (kcontents s). rewrite (edf_contents s Hl).
  cbn [l_head l_count]. rewrite first_or_head, length_fmap. by destruct (edf_ready s).
Qed.

(** [s'] is [s] with the EDF list replaced by [ts]. *)
Definition edf_step (s s' : kernel) (ts : list task_ptr) : Prop :=
  ∃ h', s' = s <| k_heap := h' |> ∧ lists_step (k_heap s) h' LEdf (NReady <$> ts).

Lemma edf_step_facts s s' ts :
  edf_step s s' ts →
  edf_ready s' = ts ∧ ready_frame s s' ∧ ∀ u, edf_rank s' u = edf_rank s u.
Proof.
  intros (h'&->&[_ Hc]). split_and!; [|exists h', (k_ready_bitmap s)|done].
  - unfold edf_ready, kcontents. cbn. by rewrite Hc, decide_True, tasks_of_ready.
  - split_and!; [by destruct s|rewrite Hc; by rewrite decide_False..].
Qed.

Lemma edf_ok_step s s' ts :
  edf_step s s' ts → (∀ t, t ∈ ts → edf_in_window s t) →
  StronglySorted (λ a b, edf_rank s a ≤ edf_rank s b) ts → edf_ok s'.
Proof.
  intros Hst Hw Hs. destruct (edf_step_facts _ _ _ Hst) as (E&_&_).
  destruct Hst as (h'&->&[Hl _]). split; [done|rewrite E; exact Hw|rewrite E; exact Hs].
Qed.

Lemma rts_policy_edf_insert_loop_spec s t l1 l2 fuel :
  edf_ok s → edf_admits s t → edf_ready s = l1 ++ l2 → (length l2 < fuel)%nat →
  (∀ y, y ∈ l1 → edf_rank s y ≤ edf_rank s t) →
  wp (rts_policy_edf_insert_loop t (NReady <$> head l2) fuel)
     (λ b s', b = true ∧ edf_step s s' (insert_by (edf_rank s) t (edf_ready s)))
     (upd_node (NReady t) (λ n, n <| n_object := Some (OTask t) |>) s).
Proof.
  intros Hok (Ht&Hn&Hwt). pose proof (eo_lists _ Hok) as Hl.
  revert l1 fuel. induction l2 as [|u l2 IH]; intros l1 fuel E Hf Hle;
    (destruct fuel as [|fuel]; [simpl in *; lia|]);
    cbn [rts_policy_edf_insert_loop head fmap option_fmap option_map].
  - rewrite E, (insert_by_app (edf_rank s) t l1 []) by done. apply wp_bind.
    apply (wp_link_back s LEdf (NReady t)); [done..|].
    intros h' Hst. apply wp_gets. split.
    + apply bool_decide_true. eapply lists_step_owner; [exact Hst|set_solver].
    + exists h'. split; [done|]. rewrite edf_contents, E, app_nil_r in Hst by done. by rewrite fmap_app.
  - destruct (edf_node s l1 u l2 Hl E) as (Hobj&Hnx).
    assert (u ∈ edf_ready s) as Hu by (rewrite E; set_solver).
    assert (NReady u ≠ NReady t).
    { intros [= ->]. apply (edf_owner s t Hl) in Hu. congruence. }
    apply wp_bind, wp_gets. unfold node, upd_node. cbn [k_heap set_field set_k_heap].
    rewrite hnode_upd_hnode, decide_False by done. unfold node in Hobj, Hnx. rewrite Hobj.
    cbn [object_task]. apply wp_bind, wp_ret. apply wp_bind, wp_gets.
    change (rts_policy_edf_is_before _ t u) with (rts_policy_edf_is_before s t u).
    rewrite edf_is_before_rank by (try done; by apply (eo_window s Hok)).
    destruct (Z.ltb_spec (edf_rank s t) (edf_rank s u)) as [Hlt|Hge].
    + rewrite E, insert_by_app; [|done|intros y [= <-]; done]. apply wp_bind.
      apply (wp_link_before s LEdf (NReady u) (NReady t) (NReady <$> l1) (NReady <$> l2)); [done..| |].
      * by rewrite edf_contents, E, fmap_app by done.
      * intros h' Hst. apply wp_gets. split.
        -- apply bool_decide_true. eapply lists_step_owner; [exact Hst|set_solver].
        -- exists h'. split; [done|]. by rewrite fmap_app.
    + apply wp_bind, wp_gets. cbn [k_heap set_field set_k_heap].
      rewrite hnode_upd_hnode, decide_False by done. rewrite Hnx. apply (IH (l1 ++ [u])).
      * by rewrite <- app_assoc.
      * simpl in Hf. lia.
      * intros y [?| ->%list_elem_of_singleton]%elem_of_app; [auto|done].
Qed.

Lemma rts_policy_edf_insert_spec s t :
  edf_ok s → edf_admits s t →
  wp (rts_policy_edf_insert (Some t))
     (λ b s', b = true ∧ edf_step s s' (insert_by (edf_rank s) t (edf_ready s))) s.
Proof.
  intros Hok Hadm. pose proof (eo_lists _ Hok) as Hl. pose proof Hadm as (_&Hn&_).
  cbn [rts_policy_edf_insert]. apply wp_bind, wp_gets. rewrite bool_decide_true by done. cbn [negb].
  apply wp_bind, wp_modify. do 2 apply wp_bind, wp_gets.
  change (klist (upd_node _ _ s) LEdf) with (klist s LEdf).
  destruct (edf_klist s Hl) as [-> ->].
  apply (rts_policy_edf_insert_loop_spec s t []); [done..|lia|set_solver].
Qed.

Lemma rts_policy_edf_remove_spec s t l1 l2 :
  edf_ok s → edf_ready s = l1 ++ t :: l2 →
  wp (rts_policy_edf_remove (Some t)) (λ b s', b = true ∧ edf_step s s' (l1 ++ l2)) s.
Proof.
  intros Hok E. pose proof (eo_lists _ Hok) as Hl. cbn [rts_policy_edf_remove].
  apply wp_bind, wp_gets. unfold edf_linked.
  rewrite bool_decide_true by (apply edf_owner; [done|rewrite E; set_solver]). cbn [negb].
  apply wp_bind. eapply (wp_unlink s LEdf (NReady t) (NReady <$> l1) (NReady <$> l2)); [done| |].
  - by rewrite edf_contents, E, fmap_app by done.
  - intros h' Hn Hst. apply wp_bind, wp_modify, wp_gets. split.
    + unfold node, upd_node. cbn [k_heap set_field set_k_heap].
      rewrite hnode_upd_hnode, decide_True by done. by apply bool_decide_true.
    + eexists. split; [done|]. by rewrite fmap_app.
Qed.
End edf_policy.

#[export] Program Instance edf_policy `{ConfigOk} (base sbase : Z) :
    ReadyPolicy rts_policy_edf_insert rts_policy_edf_remove rts_policy_edf_pick_next := {|
  rp_ok := edf_ok base sbase; rp_ready := edf_ready; rp_rank := edf_rank base sbase;
  rp_admits := edf_admits base sbase
|}.
Next Obligation. intros. by apply eo_sorted. Qed.
Next Obligation.
  intros C ? base sbase s Hok. pose proof (wf_nodup _ (lo_wf _ (eo_lists _ _ s Hok)) LEdf) as Hnd.
  change (contents (k_heap s)) with (kcontents s) in Hnd.
  rewrite (edf_contents s (eo_lists _ _ s Hok)) in Hnd. by apply NoDup_fmap_1 in Hnd.
Qed.
Next Obligation.
  intros C ? base sbase s t Hok Hadm.
  eapply wp_mono; [by eapply rts_policy_edf_insert_spec|]. intros b s' [-> Hst].
  pose proof (edf_step_facts base sbase _ _ _ Hst) as (?&?&?).
  split_and!; [done| |done..|].
  - eapply edf_ok_step; [exact Hst| |].
    + intros y [->|Hy]%insert_by_elem; [apply Hadm|by apply (eo_window _ _ s Hok)].
    + apply insert_by_sorted, (eo_sorted _ _ s Hok).
  - intros u Hu (Hin&Hfree&Hwin). destruct Hst as (h'&->&Hl). split_and!; [done| |done].
    eapply lists_step_free; [apply (eo_lists _ _ s Hok)|exact Hl|done|]. rewrite (list_elem_of_fmap_inj NReady), insert_by_elem.
    intros [Hx|Hx]; [done|]. apply (edf_owner s u (eo_lists _ _ s Hok)) in Hx. congruence.
Qed.
Next Obligation.
  intros C ? base sbase s t l1 l2 Hok E.
  eapply wp_mono; [by eapply rts_policy_edf_remove_spec|]. intros b s' [-> Hst].
  pose proof (edf_step_facts base sbase _ _ _ Hst) as (?&?&?).
  split_and!; [done| |done..]. eapply edf_ok_step; [exact Hst| |].
  - intros y Hy. apply (eo_window _ _ s Hok). rewrite E. set_solver.
  - pose proof (eo_sorted _ _ s Hok) as Hs. rewrite E in Hs. by eapply sorted_remove_mid.
Qed.
Next Obligation.
  intros C ? base sbase s Hok. pose proof (eo_lists _ _ s Hok) as Hl.
  unfold rts_policy_edf_pick_next. rewrite bind_gets. destruct (edf_klist s Hl) as [-> _].
  destruct (edf_ready s) as [|t ts] eqn:E; [done|]. cbn [head fmap option_fmap option_map].
  destruct (edf_node s [] t ts Hl E) as [Hobj _]. by rewrite bind_gets, Hobj.
Qed.

(** ** Consequences of the contract *)

Section client.
Context `{Config} {insert remove : option task_ptr → K bool} {pick : K (option task_ptr)}.
Context {P : ReadyPolicy insert remove pick}.

Lemma insert_by_head {A} (key : A → Z) (x c : A) l :
  head (insert_by key x (c :: l)) = Some (if key x <? key c then x else c).
Proof.
  unfold insert_by. cbn. destruct (Z.leb_spec (key c) (key x)), (Z.ltb_spec (key x) (key c)); try lia.
  - by destruct (span _ l).
  - done.
Qed.

(** Release a task and select. *)
Definition release_and_pick (t : task_ptr) : K (option task_ptr) := insert (Some t) ;;; pick.

Lemma release_and_pick_spec s t c rest :
  rp_ok s → rp_admits s t → rp_ready s = c :: rest →
  wp (release_and_pick t) (λ r s',
    rp_ok s' ∧ r = Some (if rp_rank s t <? rp_rank s c then t else c)) s.
Proof.
  intros Hok Hadm E. unfold release_and_pick. apply wp_bind.
  eapply wp_mono; [by apply rp_insert|]. intros b s' (->&Hok'&_&Hr&_).
  eapply wp_run; [by apply rp_pick|]. split; [done|].
  by rewrite Hr, E, insert_by_head.
Qed.
End client.

Section claims.
Context `{ConfigOk}.

(** Under fixed priorities, releasing a task makes it the next to run
    exactly when its priority is strictly higher than that of the task that
    was to run: equal priorities never preempt. *)
Theorem fp_preemption_rule s t c rest :
  ready_ok s → fp_admits s t → fp_ready s = c :: rest →
  wp (release_and_pick (insert := rts_policy_fp_insert) (pick := rts_policy_fp_pick_next) t)
     (λ r s', ready_ok s' ∧
        r = Some (if priority (task s c) <? priority (task s t) then t else c)) s.
Proof.
  intros Hok Hadm E. eapply wp_mono; [by eapply (release_and_pick_spec (P := fp_policy))|].
  intros r s' [Hok' ->]. split; [done|]. f_equal. cbn. unfold fp_rank.
  destruct (Z.ltb_spec (- priority (task s t)) (- priority (task s c))),
    (Z.ltb_spec (priority (task s c)) (priority (task s t))); try done; lia.
Qed.
End claims.

(** ** Priority changes under fixed priorities *)

Section fp_changes.
Context `{ConfigOk}.

(** Rewriting a task's struct keeps the ready set when its priority stays or
    it is in no queue. *)
Lemma ready_ok_upd_task s t f :
  ready_ok s →
  priority (f (task s t)) = priority (task s t) ∨ (∀ p, t ∉ ready_queue s p) →
  ready_ok (upd_task t f s).
Proof.
  intros Hok Hc. split; [apply Hok| |apply Hok|apply Hok].
  intros p u Hu. change (ready_queue (upd_task t f s) p) with (ready_queue s p) in Hu.
  rewrite task_upd_task. case_decide as Hd; [subst u|by apply (ro_priority s Hok)].
  destruct Hc as [->|Hn]; [by apply (ro_priority s Hok)|]. by apply Hn in Hu.
Qed.

(** [s'] is [s] with task [t] at priority [p] and, when it was ready, moved
    behind the tasks of that priority. *)
Definition requeued (s s' : kernel) (t : task_ptr) (p : Z) : Prop :=
  let old := priority (task s t) in
  ready_ok s' ∧ ready_frame (upd_task t (λ x, x <| priority := p |>) s) s' ∧
  (∀ p', ready_queue s' p' =
    if decide (t ∈ ready_queue s old) then
      if decide (p' = p) then ready_queue s p ++ [t]
      else if decide (p' = old) then filter (λ x, x ≠ t) (ready_queue s old)
      else ready_queue s p'
    else ready_queue s p') ∧
  kcontents s' LEdf = kcontents s LEdf.

Lemma ready_frame_task s s' : ready_frame s s' → ∀ t, task s' t = task s t.
Proof. by intros (h'&bm'&->&_). Qed.

Lemma fp_changed_linked s t p l1 l2 :
  let old := priority (task s t) in
  ready_ok s → ready_queue s old = l1 ++ t :: l2 → 0 ≤ p < RTS_PRIORITY_COUNT → p ≠ old →
  wp (rts_ready_remove (Some t) ;;;
      modify (upd_task t (λ x, x <| priority := p |>)) ;;;
      rts_ready_insert (Some t)) (λ _ s', requeued s s' t p) s.
Proof.
  intros old Hok E Hp Hne. assert (t ∈ ready_queue s old) as Hin by (rewrite E; set_solver).
  pose proof (ready_task_range s Hok old t Hin) as Hall.
  assert (filter (λ x, x ≠ t) (ready_queue s old) = l1 ++ l2) as Hf.
  { rewrite E. apply filter_ne_mid. rewrite <- E. by apply ready_queue_nodup. }
  apply wp_bind. eapply wp_mono; [by apply (rts_ready_remove_spec s t l1 l2)|].
  intros [] s1 Hst1. fold old in Hst1. pose proof (λ q, ready_step_queue s s1 old _ q Hst1) as Hq1.
  assert (∀ q, t ∉ ready_queue s1 q) as Hout.
  { intros q. rewrite Hq1. case_decide; [rewrite <- Hf, list_elem_of_filter; naive_solver|].
    intros Ht. pose proof (ro_priority s Hok q t Ht). unfold old in *. congruence. }
  apply wp_bind, wp_modify. set (s2 := upd_task t _ s1).
  assert (priority (task s2 t) = p) as Ep by (unfold s2; by rewrite task_upd_task, decide_True).
  assert (ready_ok s2) as Hok2 by (apply ready_ok_upd_task; [apply Hst1|by right]).
  assert (n_owner (node s2 (NReady t)) = None) as Hn.
  { destruct Hst1 as (_&h1&bm1&->&Hl).
    assert (n_owner (hnode h1 (NReady t)) = None); [|done].
    eapply lists_step_unlinked; [apply Hok| |rewrite fmap_app in Hl; exact Hl].
    change (contents (k_heap s)) with (kcontents s). by rewrite (ready_contents s Hok), E, fmap_app. }
  eapply wp_mono; [apply rts_ready_insert_spec; [done|done|by rewrite Ep|done]|].
  intros [] s' Hst. rewrite Ep in Hst. split_and!; [apply Hst| | |].
  - destruct Hst as (_&h2&bm2&->&[_ Hc2]), Hst1 as (_&h1&bm1&Es1&[_ Hc1]).
    exists h2, bm2. unfold s2. rewrite Es1. split_and!; [done|..].
    all: rewrite Hc2, decide_False by done; unfold s2; rewrite Es1; cbn;
      rewrite Hc1, decide_False by done; done.
  - intros p'. fold old. rewrite decide_True by done. rewrite (ready_step_queue s2 s' p _ p' Hst).
    change (ready_queue s2) with (ready_queue s1). rewrite !Hq1.
    case_decide; [by rewrite decide_False|]. case_decide; by rewrite ?Hf.
  - destruct Hst as (_&h2&bm2&->&[_ Hc2]), Hst1 as (_&h1&bm1&Es1&[_ Hc1]).
    unfold kcontents. cbn. rewrite Hc2, decide_False by done. unfold s2. rewrite Es1. cbn.
    by rewrite Hc1, decide_False.
Qed.

Lemma rts_policy_fp_priority_changed_spec s t p :
  ready_ok s → 0 ≤ priority (task s t) < RTS_PRIORITY_COUNT →
  0 < p < RTS_PRIORITY_COUNT → p ≠ priority (task s t) →
  wp (rts_policy_fp_priority_changed (Some t) p) (λ b s', b = true ∧ requeued s s' t p) s.
Proof.
  intros Hok Hold Hp Hne. cbn [rts_policy_fp_priority_changed]. unfold RTS_IDLE_PRIORITY.
  rewrite (proj2 (Z.eqb_neq p 0)), (proj2 (Z.leb_gt _ _)) by lia. cbn [orb].
  apply wp_bind, wp_gets. rewrite (proj2 (Z.eqb_neq _ _)) by done.
  apply wp_bind. eapply wp_run; [apply rts_ready_contains_run; [done|lia]|].
  case_bool_decide as Hin; cbn [when negb].
  - destruct (list_elem_of_split _ _ Hin) as (l1&l2&E).
    pose proof (fp_changed_linked s t p l1 l2 Hok E ltac:(lia) Hne) as Hw.
    apply wp_bind_inv in Hw. apply wp_bind. eapply wp_mono; [exact Hw|]. intros [] s1 Hw1.
    apply wp_bind_inv in Hw1. apply wp_bind. eapply wp_mono; [exact Hw1|]. intros [] s2 Hw2.
    apply wp_bind. eapply wp_mono; [exact Hw2|]. intros [] s' (Hok'&Hfr&Hq&He).
    apply wp_orM, wp_ret. cbn. assert (priority (task s' t) = p) as Ep.
    { rewrite (ready_frame_task _ _ Hfr), task_upd_task, decide_True by done. done. }
    eapply wp_run; [apply rts_ready_contains_run; [done|lia]|]. split; [|done].
    apply bool_decide_true. rewrite Ep, Hq, decide_True, decide_True by done. set_solver.
  - apply wp_bind, wp_ret, wp_bind, wp_modify, wp_bind, wp_ret, wp_orM, wp_ret. split; [done|].
    split_and!.
    + apply ready_ok_upd_task; [done|]. right. intros q Hq.
      by rewrite (ro_priority s Hok q t Hq) in Hin.
    + eexists _, _. split_and!; [|done..]. by destruct s.
    + intros p'. by rewrite decide_False.
    + done.
Qed.

(** C38: Changing the effective priority of a ready task moves it, and only
    it, to the back of the queue of its new priority; a task that is not
    ready only gets the new priority.  The ready set stays well formed. *)
Theorem fp_priority_change_requeues s t p :
  ready_ok s → 0 ≤ priority (task s t) < RTS_PRIORITY_COUNT →
  0 < p < RTS_PRIORITY_COUNT → p ≠ priority (task s t) →
  wp (rts_policy_fp_priority_changed (Some t) p) (λ b s', b = true ∧ requeued s s' t p) s.
Proof. apply rts_policy_fp_priority_changed_spec. Qed.
End fp_changes.

(** ** Witnesses *)

Section fp_witnesses.
#[local] Existing Instance fp_config.

(** TApp 0 (priority 3) ready, TApp 2 (priority 40) about to be released. *)
Definition one_ready : kernel := final_store (rts_ready_insert (Some (TApp 0))) three_tasks.

Lemma one_ready_step : ready_step three_tasks one_ready 3 [TApp 0].
Proof.
  destruct (wp_final (rts_ready_insert (Some (TApp 0)))
    (λ _ s', ready_step three_tasks s' 3 [TApp 0]) three_tasks) as [_ Hst]; [|exact Hst].
  apply (rts_ready_insert_spec three_tasks (TApp 0));
    [apply three_tasks_ok|by apply all_tasks_app|by vm_compute|done].
Qed.

Lemma fp_preemption_rule_witness :
  wp (release_and_pick (insert := rts_policy_fp_insert) (pick := rts_policy_fp_pick_next) (TApp 2))
     (λ r _, r = Some (TApp 2)) one_ready.
Proof.
  eapply wp_mono; [apply (fp_preemption_rule one_ready (TApp 2) (TApp 0) [])|].
  - apply one_ready_step.
  - split; [by apply all_tasks_app|]. split; [by vm_compute|reflexivity].
  - reflexivity.
  - intros r s' [_ ->]. reflexivity.
Defined.

Lemma fp_priority_change_requeues_witness :
  wp (rts_policy_fp_priority_changed (Some (TApp 0)) 50) (λ b s',
    b = true ∧ ready_queue s' 50 = [TApp 0] ∧ ready_queue s' 3 = []) one_ready.
Proof.
  eapply wp_mono; [apply (fp_priority_change_requeues one_ready (TApp 0) 50)|].
  - apply one_ready_step.
  - by vm_compute.
  - by vm_compute.
  - by vm_compute.
  - intros b s' (->&_&_&Hq&_). split; [reflexivity|]. rewrite !Hq. split; reflexivity.
Defined.
End fp_witnesses.
