(* ===== verification/PolicyOrder.v ===== *)
(** * The order in which a policy runs the ready tasks

    A set of tasks is released into a ready queue and the queue is then served
    the way the scheduler does it: pick, remove, pick again.  The order is
    computed from the contract [ReadyPolicy] and read off for the code of the
    two policies: kernel/policy_fixed_priority.c serves by priority and, within
    a priority, first come first served; kernel/policy_edf.c serves by
    deadline, then by release, the idle task last. *)

From S2P Require Import Prelude Machine Config Types Links IntrusiveList KernelLists Time ReadyQueue.
From S2P Require Import DelayQueue HostPort Diagnostics TaskPool Policy PolicySpec.

(** ** Stable insertion of several elements *)

Section stable.
Context {A : Type} (key : A → Z).
Let le_key (x y : A) : Prop := key x ≤ key y.

Definition insert_all (l ts : list A) : list A := foldl (λ acc t, insert_by key t acc) l ts.

Lemma insert_by_perm x l : insert_by key x l ≡ₚ l ++ [x].
Proof.
  unfold insert_by. pose proof (span_app (λ y, key y <=? key x) l) as E.
  destruct (span _ l) as [a b]; simpl in E. subst l. rewrite <- app_assoc. apply Permutation_app_head.
  by rewrite (Permutation_app_comm b [x]).
Qed.

Lemma insert_all_perm ts : ∀ l, insert_all l ts ≡ₚ l ++ ts.
Proof.
  induction ts as [|t ts IH]; intros l; cbn; [by rewrite app_nil_r|].
  fold (insert_all (insert_by key t l) ts). rewrite IH, insert_by_perm. by rewrite <- app_assoc.
Qed.

Lemma insert_all_sorted ts : ∀ l, StronglySorted le_key l → StronglySorted le_key (insert_all l ts).
Proof. induction ts as [|t ts IH]; intros l Hl; cbn; [done|]. by apply IH, insert_by_sorted. Qed.

(** Elements of equal key keep the order of insertion. *)
Lemma insert_by_stable (P : A → Prop) `{!∀ x, Decision (P x)} x l :
  (∀ y z, P y → P z → key y = key z) → StronglySorted le_key l →
  filter P (insert_by key x l) = filter P l ++ filter P [x].
Proof.
  intros HP Hl. destruct (insert_by_split key x l Hl) as (l1&l2&->&->&_&Hlt).
  rewrite !filter_app, filter_cons, <- app_assoc. f_equal. rewrite filter_cons.
  case_decide as Hx; [|by rewrite app_nil_r]. assert (filter P l2 = []) as ->; [|done].
  apply filter_none. intros y Hin Hy. specialize (Hlt y Hin). specialize (HP x y Hx Hy). lia.
Qed.

Lemma insert_all_stable (P : A → Prop) `{!∀ x, Decision (P x)} ts : ∀ l,
  (∀ y z, P y → P z → key y = key z) → StronglySorted le_key l →
  filter P (insert_all l ts) = filter P l ++ filter P ts.
Proof.
  induction ts as [|t ts IH]; intros l HP Hl; cbn; [by rewrite app_nil_r|].
  fold (insert_all (insert_by key t l) ts). rewrite IH by (try done; by apply insert_by_sorted).
  rewrite insert_by_stable, <- app_assoc by done. f_equal. by rewrite <- filter_app.
Qed.
End stable.

Lemma insert_all_ext {A} (key key' : A → Z) ts : ∀ l,
  (∀ x, key x = key' x) → insert_all key l ts = insert_all key' l ts.
Proof.
  induction ts as [|t ts IH]; intros l E; [done|]. cbn. fold (insert_all key (insert_by key t l) ts).
  fold (insert_all key' (insert_by key' t l) ts).
  rewrite (IH _ E). f_equal. unfold insert_by. assert (span (λ y, key y <=? key t) l = span (λ y, key' y <=? key' t) l) as ->; [|done].
  induction l as [|y l IHl]; [done|]. cbn. by rewrite IHl, !E.
Qed.

Lemma sorted_weaken {A} (R R' : A → A → Prop) l :
  (∀ x y, x ∈ l → y ∈ l → R x y → R' x y) → StronglySorted R l → StronglySorted R' l.
Proof.
  induction l as [|x l IH]; intros HR Hs; [constructor|]. apply StronglySorted_inv in Hs as [Hs Hall].
  constructor; [apply IH; [|done]; set_solver|]. rewrite Forall_forall in Hall |- *. intros y Hy.
  apply HR; [left|by right|auto].
Qed.

(** ** Serving the ready set *)

Section client.
Context `{Config} (insert remove : option task_ptr → K bool) (pick : K (option task_ptr)).

(** Select and remove until no task is ready. *)
Fixpoint drain (fuel : nat) : K (list task_ptr) :=
  match fuel with
  | O => no_fuel
  | S fuel' =>
      let* next := pick in
      match next with
      | None => ret []
      | Some t => remove (Some t) ;;; let* rest := drain fuel' in ret (t :: rest)
      end
  end.

(** Release the tasks [ts] in this order, then serve what is ready; the answer
    says whether every release was accepted, and the order of service. *)
Definition release_and_drain (ts : list task_ptr) (fuel : nat) : K (bool * list task_ptr) :=
  let* accepted := all_of ts (λ t, insert (Some t)) in
  let* order := drain fuel in
  ret (accepted, order).

Context {P : ReadyPolicy insert remove pick}.

Lemma drain_spec n : ∀ s, rp_ok s → length (rp_ready s) = n →
  wp (drain (S n)) (λ order s', order = rp_ready s ∧ rp_ok s' ∧ rp_ready s' = []) s.
Proof.
  induction n as [|n IH]; intros s Hok Hn; cbn [drain]; apply wp_bind; (eapply wp_run; [by apply rp_pick|]).
  - apply length_zero_iff_nil in Hn. rewrite Hn. by apply wp_ret.
  - destruct (rp_ready s) as [|t rest] eqn:E; [done|]. cbn [head].
    apply wp_bind. eapply wp_mono; [by apply (rp_remove s t [] rest)|].
    intros b s1 (->&Hok1&_&E1&_). apply wp_bind. cbn [app] in E1.
    eapply wp_mono; [apply (IH s1 Hok1); rewrite E1; by injection Hn|].
    intros order s2 (->&Hok2&E2). apply wp_ret. by rewrite E1.
Qed.

Lemma release_spec ts : ∀ s, rp_ok s → NoDup ts → Forall (rp_admits s) ts →
  wp (all_of ts (λ t, insert (Some t)))
     (λ b s', b = true ∧ rp_ok s' ∧ rp_ready s' = insert_all (rp_rank s) (rp_ready s) ts) s.
Proof.
  induction ts as [|t ts IH]; intros s Hok Hnd Hadm; cbn [all_of]; [by apply wp_ret|].
  apply NoDup_cons in Hnd as [Ht Hnd]. apply Forall_cons in Hadm as [Ha Hadm].
  apply wp_bind. eapply wp_mono; [by apply rp_insert|]. intros b s1 (->&Hok1&_&E1&Hr&Hmore).
  eapply wp_mono; [apply (IH s1 Hok1 Hnd)|].
  - rewrite Forall_forall in Hadm |- *. intros u Hu. apply Hmore; [by intros ->|auto].
  - intros b' s2 (->&Hok2&E2). split_and!; [done..|]. rewrite E2, E1. exact (insert_all_ext _ _ ts _ Hr).
Qed.

Lemma release_and_drain_spec s ts :
  rp_ok s → NoDup ts → Forall (rp_admits s) ts →
  wp (release_and_drain ts (S (length (rp_ready s ++ ts)))) (λ '(accepted, order) s',
    accepted = true ∧ order = insert_all (rp_rank s) (rp_ready s) ts ∧ rp_ok s' ∧ rp_ready s' = []) s.
Proof.
  intros Hok Hnd Hadm. apply wp_bind. eapply wp_mono; [by apply release_spec|].
  intros b s1 (->&Hok1&E1). apply wp_bind. eapply wp_mono; [apply drain_spec; [done|]|].
  - rewrite E1. by rewrite insert_all_perm.
  - intros order s2 (->&?&?). by apply wp_ret.
Qed.
End client.

Section claims.
Context `{ConfigOk}.

Lemma fp_order_filter s (Hok : ready_ok s) n p :
  filter (λ t, priority (task s t) = p) (fp_order (ready_queue s) n) =
  if decide (0 ≤ p < Z.of_nat n) then ready_queue s p else [].
Proof.
  induction n as [|n IH]; cbn [fp_order]; [by rewrite decide_False by lia|].
  rewrite filter_app, IH. destruct (decide (p = Z.of_nat n)) as [->|Hne].
  - rewrite (decide_False (P := 0 ≤ _ < Z.of_nat n)), decide_True, app_nil_r by lia. apply filter_all.
    intros t. by apply ro_priority.
  - assert (filter (λ t, priority (task s t) = p) (ready_queue s (Z.of_nat n)) = []) as ->.
    { apply filter_none. intros t Ht Hp. pose proof (ro_priority s Hok _ t Ht). congruence. }
    repeat case_decide; done || lia.
Qed.

Lemma fp_ready_filter s p :
  ready_ok s → filter (λ t, priority (task s t) = p) (fp_ready s) = ready_queue s p.
Proof.
  intros Hok. pose proof cfg_priorities. unfold fp_ready. rewrite fp_order_filter by done. case_decide as Hp; [done|].
  destruct (ready_queue s p) eqn:E; [done|]. destruct Hp. rewrite Z2Nat.id by lia.
  apply (ready_queue_range s Hok). by rewrite E.
Qed.

(** C15: Under fixed priorities, from any ready set and for any tasks released in
    any order, serving the ready set runs every ready and every released task
    exactly once, in order of decreasing priority; the tasks of one priority run
    in the order in which they became ready.  Every release is accepted, the
    service ends, and nothing is ready afterwards. *)
Theorem fp_dispatches_by_priority s ts :
  ready_ok s → NoDup ts → Forall (fp_admits s) ts →
  wp (release_and_drain rts_policy_fp_insert rts_policy_fp_remove rts_policy_fp_pick_next
        ts (S (length (fp_ready s ++ ts)))) (λ '(accepted, order) s',
    accepted = true ∧ order ≡ₚ fp_ready s ++ ts ∧
    StronglySorted (λ a b, priority (task s b) ≤ priority (task s a)) order ∧
    (∀ p, filter (λ t, priority (task s t) = p) order =
          ready_queue s p ++ filter (λ t, priority (task s t) = p) ts) ∧
    ready_ok s' ∧ ∀ p, ready_queue s' p = []) s.
Proof.
  intros Hok Hnd Hadm. eapply wp_mono; [by apply (release_and_drain_spec _ _ _ (P := fp_policy))|].
  intros [accepted order] s' (->&->&Hok'&Hr). cbn [rp_rank rp_ready rp_ok fp_policy] in *.
  pose proof (fp_ready_sorted_at s Hok (Z.to_nat RTS_PRIORITY_COUNT)) as Hs. fold (fp_ready s) in Hs.
  split_and!; [done|apply insert_all_perm| | |done|].
  - eapply sorted_weaken; [|by apply (insert_all_sorted (fp_rank s))]. unfold fp_rank. intros; simpl in *; lia.
  - intros p. rewrite insert_all_stable; [|unfold fp_rank; congruence|done]. f_equal. by apply fp_ready_filter.
  - intros p. destruct (ready_queue s' p) as [|t l] eqn:E; [done|].
    assert (t ∈ ready_queue s' p) as Ht by (rewrite E; left).
    rewrite <- (ro_priority s' Hok' p t Ht) in Ht. apply (fp_ready_elem s' t Hok') in Ht. rewrite Hr in Ht. set_solver.
Qed.

(** [a] is served before [b]: the idle task last, then the deadline, then the
    release, both read as distances from the origins of their windows. *)
Definition edf_precedes (base sbase : Z) (s : kernel) (a b : task_ptr) : Prop :=
  Some b = k_idle_task s ∨
  Some a ≠ k_idle_task s ∧
  (ahead base (absolute_deadline (task s a)) < ahead base (absolute_deadline (task s b)) ∨
   absolute_deadline (task s a) = absolute_deadline (task s b) ∧
   ahead sbase (release_sequence (task s a)) ≤ ahead sbase (release_sequence (task s b))).

Lemma edf_rank_precedes base sbase s a b :
  edf_in_window base sbase s a → edf_in_window base sbase s b →
  edf_rank base sbase s a ≤ edf_rank base sbase s b → edf_precedes base sbase s a b.
Proof.
  intros Ha Hb Hle. unfold edf_precedes, edf_rank in *.
  destruct (decide (Some b = k_idle_task s)) as [Hi|Hi]; [by left|right].
  rewrite (bool_decide_false (Some b = _)) in Hle by done.
  destruct Hb as [?|(Ub&Vb&Wb&Xb)]; [done|].
  pose proof (ahead_range base (absolute_deadline (task s b))).
  pose proof (ahead_range sbase (release_sequence (task s b))).
  unfold RTS_TICK_HALF_RANGE, UINT32_MAX in *. case_bool_decide as Hi'; [lia|]. split; [done|].
  destruct Ha as [?|(Ua&Va&Wa&Xa)]; [done|].
  pose proof (ahead_range sbase (release_sequence (task s a))). unfold UINT32_MAX in *.
  destruct (decide (ahead base (absolute_deadline (task s a)) = ahead base (absolute_deadline (task s b)))) as [E|E].
  - right. rewrite E in Hle. split; [|lia]. by eapply ahead_inj.
  - left. lia.
Qed.

Lemma edf_admits_window base sbase s ts t :
  edf_ok base sbase s → Forall (edf_admits base sbase s) ts → t ∈ edf_ready s ++ ts → edf_in_window base sbase s t.
Proof.
  intros Hok Hadm [Ht|Ht]%elem_of_app; [by apply (eo_window _ _ s Hok)|].
  rewrite Forall_forall in Hadm. by apply Hadm in Ht as (_&_&?).
Qed.

(** C33: Under EDF, from any ready list and for any tasks released in any order,
    serving the list runs every ready and every released task exactly once, by
    absolute deadline in wrapping tick order, tasks of one deadline by release
    sequence, tasks equal in both in the order in which they were queued, and the
    idle task after all others.  Every release is accepted, the service ends, and
    the list is empty afterwards. *)
Theorem edf_dispatches_by_deadline base sbase s ts :
  edf_ok base sbase s → NoDup ts → Forall (edf_admits base sbase s) ts →
  wp (release_and_drain rts_policy_edf_insert rts_policy_edf_remove rts_policy_edf_pick_next
        ts (S (length (edf_ready s ++ ts)))) (λ '(accepted, order) s',
    accepted = true ∧ order ≡ₚ edf_ready s ++ ts ∧
    StronglySorted (edf_precedes base sbase s) order ∧
    (∀ d q, let same t := Some t ≠ k_idle_task s ∧ absolute_deadline (task s t) = d ∧ release_sequence (task s t) = q in
      filter same order = filter same (edf_ready s ++ ts)) ∧
    edf_ok base sbase s' ∧ edf_ready s' = []) s.
Proof.
  intros Hok Hnd Hadm. eapply wp_mono; [by apply (release_and_drain_spec _ _ _ (P := edf_policy base sbase))|].
  intros [accepted order] s' (->&->&Hok'&Hr). cbn [rp_rank rp_ready rp_ok edf_policy] in *.
  pose proof (eo_sorted _ _ s Hok) as Hs. pose proof (insert_all_perm (edf_rank base sbase s) ts (edf_ready s)) as Hperm.
  split_and!; [done|done| | |done|done].
  - eapply sorted_weaken; [|by apply (insert_all_sorted (edf_rank base sbase s))].
    intros x y Hx Hy Hxy. rewrite Hperm in Hx, Hy.
    apply edf_rank_precedes; [by eapply edf_admits_window..|done].
  - intros d q. rewrite filter_app. apply (insert_all_stable (edf_rank base sbase s)); [|done].
    intros y z (Hy&<-&<-) (Hz&E1&E2). unfold edf_rank. rewrite !bool_decide_false by done. by rewrite E1, E2.
Qed.
End claims.

(** ** Witnesses *)

Section fp_witnesses.
#[local] Existing Instance fp_config.

Lemma one_ready_ok : ready_ok one_ready.
Proof. apply one_ready_step. Qed.

Lemma released_nodup : NoDup [TApp 1; TApp 2].
Proof. apply (bool_decide_unpack _). by vm_compute. Qed.

Lemma released_admitted : Forall (fp_admits one_ready) [TApp 1; TApp 2].
Proof. repeat constructor; try (by apply all_tasks_app); by vm_compute. Qed.

(** Priorities 3, 3 and 40; TApp 0 is ready, TApp 1 and TApp 2 are released. *)
Lemma fp_dispatches_by_priority_witness :
  (∃ s', release_and_drain rts_policy_fp_insert rts_policy_fp_remove rts_policy_fp_pick_next
     [TApp 1; TApp 2] 4 one_ready = Done (true, [TApp 2; TApp 0; TApp 1]) s') ∧
  wp (release_and_drain rts_policy_fp_insert rts_policy_fp_remove rts_policy_fp_pick_next
        [TApp 1; TApp 2] (S (length (fp_ready one_ready ++ [TApp 1; TApp 2])))) (λ '(accepted, order) s',
    accepted = true ∧ order ≡ₚ [TApp 0; TApp 1; TApp 2] ∧
    filter (λ t, priority (task one_ready t) = 3) order = [TApp 0; TApp 1] ∧ ready_queue s' 40 = []) one_ready.
Proof.
  split; [eexists; vm_compute; reflexivity|].
  eapply wp_mono; [exact (fp_dispatches_by_priority one_ready [TApp 1; TApp 2] one_ready_ok released_nodup released_admitted)|].
  intros [accepted order] s' (->&Hperm&_&Hfifo&_&Hempty).
  split; [reflexivity|]. split; [|split; [|apply Hempty]].
  - rewrite Hperm. by vm_compute.
  - rewrite Hfifo. by vm_compute.
Defined.
End fp_witnesses.

Section edf_witnesses.
#[local] Existing Instance edf_config.

Definition deadline_tcb (deadline sequence : Z) : rts_tcb :=
  (inhabitant : rts_tcb) <| absolute_deadline := deadline |> <| release_sequence := sequence |>.

(** TApp 1 and TApp 2 share a deadline that has wrapped past that of TApp 0. *)
Definition deadline_tasks : kernel :=
  zero_kernel <| k_tasks := <[TApp 0 := deadline_tcb 4294967000 7]>
    (<[TApp 1 := deadline_tcb 400 9]> (<[TApp 2 := deadline_tcb 400 8]> ∅)) |>.

Lemma deadline_tasks_ok : edf_ok 4294966000 0 deadline_tasks.
Proof. split; [apply zero_lists_ok|by intros ? ?%elem_of_nil|constructor]. Qed.

Lemma deadlines_nodup : NoDup [TApp 1; TApp 0; TApp 2].
Proof. apply (bool_decide_unpack _). by vm_compute. Qed.

Lemma deadlines_admitted : Forall (edf_admits 4294966000 0 deadline_tasks) [TApp 1; TApp 0; TApp 2].
Proof.
  repeat (apply Forall_cons_2; [split; [by apply all_tasks_app|split; [by vm_compute|right; by vm_compute]]|]).
  apply Forall_nil_2.
Qed.

Lemma edf_dispatches_by_deadline_witness :
  (∃ s', release_and_drain rts_policy_edf_insert rts_policy_edf_remove rts_policy_edf_pick_next
     [TApp 1; TApp 0; TApp 2] 4 deadline_tasks = Done (true, [TApp 0; TApp 2; TApp 1]) s') ∧
  wp (release_and_drain rts_policy_edf_insert rts_policy_edf_remove rts_policy_edf_pick_next
        [TApp 1; TApp 0; TApp 2] (S (length (edf_ready deadline_tasks ++ [TApp 1; TApp 0; TApp 2])))) (λ '(accepted, order) _,
    accepted = true ∧ order ≡ₚ [TApp 1; TApp 0; TApp 2] ∧
    StronglySorted (edf_precedes 4294966000 0 deadline_tasks) order) deadline_tasks.
Proof.
  split; [eexists; vm_compute; reflexivity|].
  eapply wp_mono; [exact (edf_dispatches_by_deadline 4294966000 0 deadline_tasks [TApp 1; TApp 0; TApp 2]
    deadline_tasks_ok deadlines_nodup deadlines_admitted)|].
  intros [accepted order] s' (->&Hperm&Hsorted&_). split_and!; [reflexivity|exact Hperm|exact Hsorted].
Defined.
End edf_witnesses.
