(* ===== verification/WaitObject.v ===== *)
(** * Wait objects (kernel/wait_object.c)

    The tasks that wait for a semaphore or a mutex, in a chain ordered by
    priority, highest first, equal priorities first come first served.  The
    chain of a wait object is addressed by the [sync_ptr] that contains it. *)

From S2P Require Import Prelude Machine Config Types Links KernelLists.

Section wait_code.
Context `{Config}.
Implicit Types (object : sync_ptr) (task_arg : option task_ptr).

Definition rts_wait_node_is_unlinked (s : kernel) (t : task_ptr) : bool :=
  bool_decide (w_previous (wait_node s t) = None) && bool_decide (w_next (wait_node s t) = None) &&
  bool_decide (w_owner (wait_node s t) = None).

Definition rts_wait_object_initialize object : K unit :=
  modify (upd_waiters object (λ w, w <| wo_head := None |> <| wo_tail := None |> <| wo_count := 0 |>)).

(** The loop of rts_wait_object_validate: [None] when a waiter is refused,
    else the final values of [task], [previous] and [count]. *)
Fixpoint rts_wait_object_validate_walk object (t previous : option task_ptr) (count : Z) (fuel : nat) :
    K (option (option task_ptr * option task_ptr * Z)) :=
  match fuel with
  | O => no_fuel
  | S fuel' =>
      match t with
      | Some x =>
          if count <=? RTS_MAX_TASKS then
            let* bad := gets (λ s,
              negb (bool_decide (w_owner (wait_node s x) = Some object)) ||
              negb (bool_decide (w_previous (wait_node s x) = previous)) ||
              match previous with
              | Some p => priority (task s p) <? priority (task s x)
              | None => false
              end) in
            if bad then ret None else
            let* next := gets (λ s, w_next (wait_node s x)) in
            rts_wait_object_validate_walk object next (Some x) (Z.succ count) fuel'
          else ret (Some (t, previous, count))
      | None => ret (Some (t, previous, count))
      end
  end.

Definition rts_wait_object_validate object : K bool :=
  let* w := gets (λ s, waiters s object) in
  if xorb (bool_decide (wo_head w = None)) (bool_decide (wo_tail w = None)) then ret false else
  let* walked := rts_wait_object_validate_walk object (wo_head w) None 0 (Z.to_nat (RTS_MAX_TASKS + 3)) in
  match walked with
  | None => ret false
  | Some (t, previous, count) =>
      ret (bool_decide (t = None) && bool_decide (previous = wo_tail w) &&
           (count =? wo_count w) && (count <=? RTS_MAX_TASKS))
  end.

Definition rts_wait_object_is_empty object : K bool :=
  let* valid := rts_wait_object_validate object in
  RTS_ASSERT (ret valid) ;;;
  gets (λ s, valid && (wo_count (waiters s object) =? 0)).

Definition rts_wait_object_contains object task_arg : K bool :=
  match task_arg with
  | None => ret false
  | Some t => gets (λ s, bool_decide (w_owner (wait_node s t) = Some object))
  end.

(** The search of rts_wait_object_insert. *)
Fixpoint rts_wait_object_search (t : task_ptr) (position : option task_ptr) (fuel : nat) :
    K (option task_ptr) :=
  match fuel with
  | O => no_fuel
  | S fuel' =>
      match position with
      | None => ret None
      | Some p =>
          let* stop := gets (λ s, priority (task s p) <? priority (task s t)) in
          if stop then ret (Some p) else
          let* next := gets (λ s, w_next (wait_node s p)) in
          rts_wait_object_search t next fuel'
      end
  end.

Definition rts_wait_object_insert object task_arg : K unit :=
  RTS_ASSERT (ret (bool_decide (task_arg ≠ None))) ;;;
  RTS_ASSERT (rts_wait_object_validate object) ;;;
  RTS_ASSERT (match task_arg with
              | Some t => gets (λ s, rts_wait_node_is_unlinked s t)
              | None => ret false
              end) ;;;
  RTS_ASSERT (gets (λ s, wo_count (waiters s object) <? RTS_MAX_TASKS)) ;;;
  match task_arg with
  | None => ret tt
  | Some t =>
      let* refused :=
        notM (rts_wait_object_validate object) |||
        gets (λ s, negb (rts_wait_node_is_unlinked s t)) |||
        gets (λ s, RTS_MAX_TASKS <=? wo_count (waiters s object)) in
      if refused then ret tt else
      let* head := gets (λ s, wo_head (waiters s object)) in
      let* count := gets (λ s, wo_count (waiters s object)) in
      let* position := rts_wait_object_search t head (Z.to_nat (Z.succ count)) in
      let* previous := gets (λ s, match position with
                                  | None => wo_tail (waiters s object)
                                  | Some p => w_previous (wait_node s p)
                                  end) in
      modify (upd_wait_node t (λ w, w <| w_previous := previous |>)) ;;;
      modify (upd_wait_node t (λ w, w <| w_next := position |>)) ;;;
      modify (upd_wait_node t (λ w, w <| w_owner := Some object |>)) ;;;
      match previous with
      | None => modify (upd_waiters object (λ w, w <| wo_head := Some t |>))
      | Some p => modify (upd_wait_node p (λ w, w <| w_next := Some t |>))
      end ;;;
      match position with
      | None => modify (upd_waiters object (λ w, w <| wo_tail := Some t |>))
      | Some p => modify (upd_wait_node p (λ w, w <| w_previous := Some t |>))
      end ;;;
      modify (upd_waiters object (λ w, w <| wo_count ::= Z.succ |>)) ;;;
      RTS_FATAL_UNLESS (rts_wait_object_validate object)
  end.

Definition rts_wait_object_remove object task_arg : K unit :=
  RTS_ASSERT (ret (bool_decide (task_arg ≠ None))) ;;;
  RTS_ASSERT (rts_wait_object_contains object task_arg) ;;;
  match task_arg with
  | None => ret tt
  | Some t =>
      let* linked := rts_wait_object_contains object (Some t) in
      if negb linked then ret tt else
      let* previous := gets (λ s, w_previous (wait_node s t)) in
      let* next := gets (λ s, w_next (wait_node s t)) in
      match previous with
      | None => modify (upd_waiters object (λ w, w <| wo_head := next |>))
      | Some p => modify (upd_wait_node p (λ w, w <| w_next := next |>))
      end ;;;
      match next with
      | None => modify (upd_waiters object (λ w, w <| wo_tail := previous |>))
      | Some x => modify (upd_wait_node x (λ w, w <| w_previous := previous |>))
      end ;;;
      modify (upd_wait_node t (λ w, w <| w_previous := None |>)) ;;;
      modify (upd_wait_node t (λ w, w <| w_next := None |>)) ;;;
      modify (upd_wait_node t (λ w, w <| w_owner := None |>)) ;;;
      RTS_FATAL_UNLESS (gets (λ s, 0 <? wo_count (waiters s object))) ;;;
      modify (upd_waiters object (λ w, w <| wo_count ::= Z.pred |>)) ;;;
      RTS_FATAL_UNLESS (rts_wait_object_validate object)
  end.

Definition rts_wait_object_pop_highest object : K (option task_ptr) :=
  RTS_ASSERT (rts_wait_object_validate object) ;;;
  let* valid := rts_wait_object_validate object in
  if negb valid then ret None else
  let* t := gets (λ s, wo_head (waiters s object)) in
  match t with
  | None => ret tt
  | Some x => rts_wait_object_remove object (Some x)
  end ;;;
  ret t.

Definition rts_wait_object_reprioritize object task_arg : K unit :=
  RTS_ASSERT (rts_wait_object_contains object task_arg) ;;;
  let* linked := rts_wait_object_contains object task_arg in
  if negb linked then ret tt else
  rts_wait_object_remove object task_arg ;;;
  rts_wait_object_insert object task_arg.
End wait_code.

(** ** Abstraction *)

Definition wlinks (s : kernel) (t : task_ptr) : links task_ptr sync_ptr :=
  mk_links (w_previous (wait_node s t)) (w_next (wait_node s t)) (w_owner (wait_node s t)).

(** The tasks waiting at [o], first to be served first. *)
Definition waiting (s : kernel) (o : sync_ptr) : list task_ptr :=
  walk (wlinks s) (wo_head (waiters s o)) (Z.to_nat (wo_count (waiters s o))).

Definition wait_rep (s : kernel) (o : sync_ptr) (ts : list task_ptr) : Prop :=
  dll (wlinks s) o ts ∧
  waiters s o = mk_wait_object_storage (first_or ts None) (last_or ts None) (Z.of_nat (length ts)).

Definition by_priority (s : kernel) (ts : list task_ptr) : Prop :=
  StronglySorted (λ a b, - priority (task s a) ≤ - priority (task s b)) ts.

Section waits.
Context `{ConfigOk}.

Definition application (t : task_ptr) : Prop := ∃ i, t = TApp i ∧ 0 ≤ i < RTS_MAX_TASKS.

Record waits_wf (s : kernel) : Prop := {
  ww_clean : nodes_clean (wlinks s);
  ww_rep o : wait_rep s o (waiting s o);
  ww_apps o t : t ∈ waiting s o → application t
}.

Record waits_ok (s : kernel) : Prop := {
  wok_wf : waits_wf s;
  wok_sorted o : by_priority s (waiting s o)
}.

(** [s'] differs from [s] in the waiters of [o] only. *)
Definition waits_step (s s' : kernel) (o : sync_ptr) (ts : list task_ptr) : Prop :=
  waits_wf s' ∧
  (∃ wn wt, s' = s <| k_wait_nodes := wn |> <| k_waiters := wt |>) ∧
  ∀ o', waiting s' o' = if decide (o' = o) then ts else waiting s o'.

Lemma wait_rep_waiting s o ts : wait_rep s o ts → waiting s o = ts.
Proof.
  intros [(Hs&_) Hl]. unfold waiting. rewrite Hl. simpl. rewrite Nat2Z.id. by eapply lseg_walk.
Qed.

Section facts.
Context (s : kernel) (Hwf : waits_wf s).

Lemma ww_storage o : waiters s o = mk_wait_object_storage (first_or (waiting s o) None)
  (last_or (waiting s o) None) (Z.of_nat (length (waiting s o))).
Proof. apply (ww_rep s Hwf o). Qed.

Lemma ww_owner o t : t ∈ waiting s o ↔ w_owner (wait_node s t) = Some o.
Proof. apply (dll_owner (wlinks s) o), (ww_rep s Hwf o). Qed.

Lemma ww_nodup o : NoDup (waiting s o).
Proof. eapply dll_nodup, (ww_rep s Hwf o). Qed.

Lemma ww_node o l1 t l2 :
  waiting s o = l1 ++ t :: l2 →
  w_previous (wait_node s t) = last_or l1 None ∧
  w_next (wait_node s t) = first_or l2 None ∧ w_owner (wait_node s t) = Some o.
Proof.
  intros E. destruct (ww_rep s Hwf o) as [Hd _]. rewrite E in Hd.
  apply dll_node in Hd. unfold wlinks in Hd. by injection Hd.
Qed.

Lemma ww_unlinked t :
  w_owner (wait_node s t) = None → rts_wait_node_is_unlinked s t = true.
Proof.
  intros Hn. pose proof (ww_clean s Hwf t Hn) as Hc. unfold wlinks, unlinked in Hc.
  injection Hc as Hp Hx Ho. unfold rts_wait_node_is_unlinked. by rewrite Hp, Hx, Ho.
Qed.

(** At most one node per application task is linked. *)
Lemma apps_length (ts : list task_ptr) :
  NoDup ts → (∀ t, t ∈ ts → application t) → Z.of_nat (length ts) ≤ RTS_MAX_TASKS.
Proof.
  intros Hnd Ha. pose proof cfg_tasks.
  assert (length ts ≤ length (TApp <$> seqZ 0 RTS_MAX_TASKS))%nat as Hl.
  { apply submseteq_length, NoDup_submseteq; [done|]. intros t Ht.
    destruct (Ha t Ht) as (i&->&?). apply list_elem_of_fmap. exists i.
    split; [done|]. apply elem_of_seqZ. lia. }
  rewrite length_fmap, length_seqZ in Hl. lia.
Qed.

Lemma ww_count o : Z.of_nat (length (waiting s o)) ≤ RTS_MAX_TASKS.
Proof. apply apps_length; [apply ww_nodup|apply (ww_apps s Hwf)]. Qed.

Lemma ww_count_lt o t :
  application t → t ∉ waiting s o → Z.of_nat (length (waiting s o)) < RTS_MAX_TASKS.
Proof.
  intros Ha Ht. assert (Z.of_nat (length (t :: waiting s o)) ≤ RTS_MAX_TASKS); [|simpl in *; lia].
  apply apps_length; [constructor; [done|apply ww_nodup]|].
  intros u [->|Hu]%elem_of_cons; [done|by apply (ww_apps s Hwf o)].
Qed.

Lemma validate_walk_run o l1 l2 fuel :
  by_priority s (waiting s o) → waiting s o = l1 ++ l2 → (length l2 < fuel)%nat →
  rts_wait_object_validate_walk o (head l2) (last_or l1 None) (Z.of_nat (length l1)) fuel s =
  Done (Some (None, last_or (l1 ++ l2) None, Z.of_nat (length (l1 ++ l2)))) s.
Proof.
  intros Hsort. revert l1 fuel.
  induction l2 as [|t l2 IH]; intros l1 fuel E Hf; (destruct fuel as [|fuel]; [simpl in *; lia|]).
  - cbn. by rewrite app_nil_r.
  - cbn [rts_wait_object_validate_walk head]. pose proof (ww_count o) as Hcap.
    rewrite E, length_app in Hcap. simpl in Hcap. rewrite (proj2 (Z.leb_le _ _)) by lia.
    destruct (ww_node o l1 t l2 E) as (Hp&Hx&Ho). rewrite bind_gets, Hp, Ho, !bool_decide_true by done.
    assert (match last_or l1 None with
            | Some p => priority (task s p) <? priority (task s t) | None => false end = false) as ->.
    { destruct (last_or l1 None) as [p|] eqn:Ep; [|done]. apply Z.ltb_ge.
      destruct l1 as [|y l1' _] using rev_ind; [done|]. rewrite last_or_snoc in Ep. injection Ep as ->.
      unfold by_priority in Hsort. rewrite E, <- app_assoc in Hsort. cbn in Hsort.
      clear -Hsort. induction l1' as [|y l IHl]; cbn in Hsort; apply StronglySorted_inv in Hsort as [Hs Ha]; auto.
      rewrite Forall_cons in Ha. lia. }
    cbn. rewrite bind_gets, Hx.
    specialize (IH (l1 ++ [t]) fuel). rewrite <- !app_assoc in IH. cbn in IH.
    rewrite last_or_snoc, length_app in IH. cbn in IH.
    replace (Z.of_nat (length l1 + 1)) with (Z.succ (Z.of_nat (length l1))) in IH by lia.
    rewrite <- IH by (try done; simpl in Hf; lia). by rewrite first_or_head.
Qed.

Lemma rts_wait_object_validate_run o :
  by_priority s (waiting s o) → rts_wait_object_validate o s = Done true s.
Proof.
  intros Hsort. unfold rts_wait_object_validate. rewrite bind_gets, ww_storage.
  cbn [wo_head wo_tail wo_count]. pose proof (ww_count o) as Hcap.
  assert (xorb (bool_decide (first_or (waiting s o) None = None))
    (bool_decide (last_or (waiting s o) None = None)) = false) as ->.
  { destruct (waiting s o) as [|t ts]; [done|]. rewrite last_or_cons. cbn [first_or].
    rewrite !bool_decide_false; [done|apply last_or_None|done]. }
  rewrite first_or_head.
  pose proof (validate_walk_run o [] (waiting s o) (Z.to_nat (RTS_MAX_TASKS + 3)) Hsort eq_refl ltac:(lia)) as Hw.
  cbn [app length] in Hw. rewrite last_or_nil in Hw.
  rewrite (bind_run _ _ _ _ _ Hw). unfold ret. f_equal.
  rewrite !bool_decide_true, Z.eqb_refl by done. cbn. by apply Z.leb_le.
Qed.
End facts.

Lemma waits_wf_intro s :
  nodes_clean (wlinks s) → (∀ o, ∃ ts, wait_rep s o ts ∧ ∀ t, t ∈ ts → application t) → waits_wf s.
Proof.
  intros Hc Hr. split; [done|..]; intros o; destruct (Hr o) as (ts&Hx&Ha);
    rewrite (wait_rep_waiting s o ts Hx); done.
Qed.

Lemma waits_splice_in s s' o t l1 l2 :
  waits_wf s → waiting s o = l1 ++ l2 → w_owner (wait_node s t) = None → application t →
  (∃ wn wt, s' = s <| k_wait_nodes := wn |> <| k_waiters := wt |>) →
  (∀ m, wlinks s' m = splice_in (wlinks s) o t (last_or l1 None) (first_or l2 None) m) →
  (∀ o', waiters s' o' = if decide (o' = o)
     then mk_wait_object_storage (first_or l1 (Some t)) (last_or l2 (Some t))
            (Z.succ (Z.of_nat (length (l1 ++ l2))))
     else waiters s o') →
  waits_step s s' o (l1 ++ t :: l2).
Proof.
  intros Hwf E Hn Ha Hfr Hlinks Hst.
  assert (dll (wlinks s) o (l1 ++ l2)) as Hd by (rewrite <- E; apply (ww_rep s Hwf)).
  assert (∀ o', wait_rep s' o' (if decide (o' = o) then l1 ++ t :: l2 else waiting s o')) as Hrep.
  { intros o'. case_decide as Hd'; [subst o'|]; split.
    - by eapply dll_splice_in.
    - rewrite Hst, decide_True by done.
      rewrite last_or_app, last_or_cons, first_or_app, !length_app. simpl. f_equal; lia.
    - eapply dll_splice_in_other; [done|exact Hd|exact Hn|apply (ww_rep s Hwf)|exact Hlinks].
    - rewrite Hst, decide_False by done. apply (ww_rep s Hwf). }
  split_and!; [|done|intros o'; by apply wait_rep_waiting].
  apply waits_wf_intro; [eapply clean_splice_in; [exact Hd|apply Hwf|done]|].
  intros o'. eexists. split; [apply Hrep|]. intros u. case_decide; [subst o'|apply (ww_apps s Hwf)].
  intros Hu. assert (u = t ∨ u ∈ waiting s o) as [->|?] by (rewrite E; set_solver); [done|].
  by apply (ww_apps s Hwf o).
Qed.

Lemma waits_splice_out s s' o t l1 l2 :
  waits_wf s → waiting s o = l1 ++ t :: l2 →
  (∃ wn wt, s' = s <| k_wait_nodes := wn |> <| k_waiters := wt |>) →
  (∀ m, wlinks s' m = splice_out (wlinks s) t (last_or l1 None) (first_or l2 None) m) →
  (∀ o', waiters s' o' = if decide (o' = o)
     then mk_wait_object_storage (first_or (l1 ++ l2) None) (last_or (l1 ++ l2) None)
            (Z.of_nat (length (l1 ++ l2)))
     else waiters s o') →
  waits_step s s' o (l1 ++ l2).
Proof.
  intros Hwf E Hfr Hlinks Hst.
  assert (dll (wlinks s) o (l1 ++ t :: l2)) as Hd by (rewrite <- E; apply (ww_rep s Hwf)).
  assert (∀ o', wait_rep s' o' (if decide (o' = o) then l1 ++ l2 else waiting s o')) as Hrep.
  { intros o'. case_decide as Hd'; [subst o'|]; split.
    - by eapply dll_splice_out.
    - by rewrite Hst, decide_True.
    - eapply dll_splice_out_other; [done|exact Hd|apply (ww_rep s Hwf)|exact Hlinks].
    - rewrite Hst, decide_False by done. apply (ww_rep s Hwf). }
  split_and!; [|done|intros o'; by apply wait_rep_waiting].
  apply waits_wf_intro; [eapply clean_splice_out; [exact Hd|apply Hwf|done]|].
  intros o'. eexists. split; [apply Hrep|]. intros u. case_decide; [subst o'|apply (ww_apps s Hwf)].
  intros Hu. apply (ww_apps s Hwf o). rewrite E. set_solver.
Qed.

(** Compare two stores node by node. *)
Ltac wait_cases :=
  repeat (rewrite ?wait_node_upd, ?waiters_upd;
          repeat match goal with
          | |- context [wait_node (upd_waiters ?o ?f ?s) ?t] =>
              change (wait_node (upd_waiters o f s) t) with (wait_node s t)
          | |- context [waiters (upd_wait_node ?t ?f ?s) ?o] =>
              change (waiters (upd_wait_node t f s) o) with (waiters s o)
          end;
          repeat case_decide; simplify_eq; cbn).
Ltac wait_links :=
  intros m; unfold wlinks, splice_in, splice_out, unlinked; cbn [first_or];
  rewrite ?last_or_snoc, ?last_or_nil; wait_cases; congruence.
Ltac wait_frame :=
  match goal with |- ∃ _ _, ?l = _ => by exists (k_wait_nodes l), (k_waiters l) end.

Lemma waits_step_priority s s' o ts t : waits_step s s' o ts → task s' t = task s t.
Proof. by intros (_&(wn&wt&->)&_). Qed.

Lemma waits_step_by_priority s s' o ts l :
  waits_step s s' o ts → by_priority s l → by_priority s' l.
Proof. by intros (_&(wn&wt&->)&_). Qed.

Lemma waits_step_here s s' o ts : waits_step s s' o ts → waiting s' o = ts.
Proof. intros (_&_&Hw). by rewrite Hw, decide_True. Qed.

(** A spliced store passes the final check of insert and remove. *)
Lemma wp_wait_checked s s' o ts :
  waits_step s s' o ts → by_priority s ts →
  wp (RTS_FATAL_UNLESS (rts_wait_object_validate o)) (λ _ s'', waits_step s s'' o ts) s'.
Proof.
  intros Hst Hsort. apply wp_RTS_FATAL_UNLESS; [|done].
  apply rts_wait_object_validate_run; [apply Hst|].
  rewrite (waits_step_here _ _ _ _ Hst). by eapply waits_step_by_priority.
Qed.

Lemma search_run s o t l1 l2 fuel :
  waits_wf s → waiting s o = l1 ++ l2 → (length l2 < fuel)%nat →
  (∀ y, y ∈ l1 → priority (task s t) ≤ priority (task s y)) →
  ∃ a b, waiting s o = a ++ b ∧
    rts_wait_object_search t (head l2) fuel s = Done (head b) s ∧
    (∀ y, y ∈ a → priority (task s t) ≤ priority (task s y)) ∧
    (∀ y, head b = Some y → priority (task s y) < priority (task s t)).
Proof.
  intros Hwf. revert l1 fuel. induction l2 as [|u l2 IH]; intros l1 fuel E Hf Hle;
    (destruct fuel as [|fuel]; [simpl in *; lia|]); cbn [rts_wait_object_search head].
  - by exists l1, [].
  - destruct (ww_node s Hwf o l1 u l2 E) as (_&Hx&_). rewrite bind_gets.
    destruct (Z.ltb_spec (priority (task s u)) (priority (task s t))) as [Hlt|Hge].
    + exists l1, (u :: l2). split_and!; [done..|]. by intros y [= <-].
    + rewrite bind_gets, Hx, first_or_head. apply (IH (l1 ++ [u])).
      * by rewrite <- app_assoc.
      * simpl in Hf. lia.
      * intros y [?| ->%list_elem_of_singleton]%elem_of_app; auto.
Qed.

Definition by_wait_rank (s : kernel) (t : task_ptr) : Z := - priority (task s t).

Lemma rts_wait_object_insert_spec s o t :
  waits_wf s → by_priority s (waiting s o) → w_owner (wait_node s t) = None → application t →
  wp (rts_wait_object_insert o (Some t))
     (λ _ s', waits_step s s' o (insert_by (by_wait_rank s) t (waiting s o))) s.
Proof.
  intros Hwf Hsort Hn Ha. pose proof (rts_wait_object_validate_run s Hwf o Hsort) as Hv.
  pose proof (ww_unlinked s Hwf t Hn) as Hu.
  assert (t ∉ waiting s o) as Hnin by (rewrite (ww_owner s Hwf); congruence).
  pose proof (ww_count_lt s Hwf o t Ha Hnin) as Hcap.
  unfold rts_wait_object_insert.
  apply wp_bind, wp_RTS_ASSERT; [done|]. apply wp_bind, wp_RTS_ASSERT; [done|].
  apply wp_bind, wp_RTS_ASSERT; [unfold gets; by rewrite Hu|].
  apply wp_bind, wp_RTS_ASSERT; [unfold gets; rewrite (ww_storage s Hwf); f_equal; by apply Z.ltb_lt|].
  apply wp_bind. eapply wp_run.
  { assert (notM (rts_wait_object_validate o) s = Done false s) as Hnv by by rewrite (notM_run _ true).
    rewrite orM_false; [|rewrite orM_false by done; by unfold gets; rewrite Hu].
    unfold gets. rewrite (ww_storage s Hwf). cbn [wo_count]. by rewrite (proj2 (Z.leb_gt _ _)). }
  do 2 apply wp_bind, wp_gets. rewrite (ww_storage s Hwf). cbn [wo_head wo_count]. rewrite first_or_head.
  destruct (search_run s o t [] (waiting s o) (Z.to_nat (Z.succ (Z.of_nat (length (waiting s o))))))
    as (a&b&E&Hr&Hle&Hlt); [done..|lia|set_solver|].
  apply wp_bind. eapply wp_run; [exact Hr|].
  assert (insert_by (by_wait_rank s) t (waiting s o) = a ++ t :: b) as Ei.
  { rewrite E. apply insert_by_app; unfold by_wait_rank; [intros y Hy; specialize (Hle y Hy); lia|].
    intros y Hy. specialize (Hlt y Hy). lia. }
  assert (by_priority s (insert_by (by_wait_rank s) t (waiting s o))) as Hsort'
    by by apply (insert_by_sorted (by_wait_rank s)).
  rewrite Ei in *. rewrite E in Hnin.
  assert (∀ s', (∃ wn wt, s' = s <| k_wait_nodes := wn |> <| k_waiters := wt |>) →
    (∀ m, wlinks s' m = splice_in (wlinks s) o t (last_or a None) (first_or b None) m) →
    (∀ o', waiters s' o' = if decide (o' = o)
       then mk_wait_object_storage (first_or a (Some t)) (last_or b (Some t))
              (Z.succ (Z.of_nat (length (a ++ b)))) else waiters s o') →
    wp (RTS_FATAL_UNLESS (rts_wait_object_validate o)) (λ _ s'', waits_step s s'' o (a ++ t :: b)) s')
    as Hend.
  { intros s' ???. by eapply wp_wait_checked; [eapply waits_splice_in|]. }
  pose proof (ww_storage s Hwf o) as Hso. rewrite E in Hso.
  apply wp_bind, wp_gets.
  destruct b as [|x b]; cbn [head];
    [|destruct (ww_node s Hwf o a x b E) as (->&_); assert (x ≠ t) by set_solver].
  - rewrite Hso, app_nil_r. cbn [wo_tail]. do 3 apply wp_bind, wp_modify.
    destruct a as [|p a _] using rev_ind; rewrite ?last_or_nil, ?last_or_snoc;
      [|assert (p ≠ t) by set_solver];
      do 3 (apply wp_bind, wp_modify); apply Hend; [wait_frame|wait_links| |wait_frame|wait_links|];
      intros o'; wait_cases; try done; rewrite Hso; cbn; rewrite ?app_nil_r; try done.
    by destruct a.
  - do 3 apply wp_bind, wp_modify.
    destruct a as [|p a _] using rev_ind; rewrite ?last_or_nil, ?last_or_snoc;
      [|assert (p ≠ t) by set_solver; assert (p ≠ x)];
      [|pose proof (ww_nodup s Hwf o) as Hnd; rewrite E, <- app_assoc in Hnd;
        destruct (nodup_mid _ _ _ p Hnd) as (_&_&?); set_solver|];
      do 3 (apply wp_bind, wp_modify); apply Hend; [wait_frame|wait_links| |wait_frame|wait_links|];
      intros o'; wait_cases; try done; rewrite Hso; cbn; rewrite ?last_or_app, ?last_or_cons; try done.
    by destruct a.
Qed.

Lemma rts_wait_object_remove_spec s o t l1 l2 :
  waits_wf s → waiting s o = l1 ++ t :: l2 → by_priority s (l1 ++ l2) →
  wp (rts_wait_object_remove o (Some t)) (λ _ s', waits_step s s' o (l1 ++ l2)) s.
Proof.
  intros Hwf E Hsort. destruct (ww_node s Hwf o l1 t l2 E) as (Hp&Hx&Ho).
  pose proof (ww_nodup s Hwf o) as Hnd. rewrite E in Hnd.
  pose proof (λ m, nodup_mid _ _ _ m Hnd) as Hmid.
  assert (rts_wait_object_contains o (Some t) s = Done true s) as Hc
    by (cbn; unfold gets; f_equal; by apply bool_decide_true).
  pose proof (ww_storage s Hwf o) as Hso. rewrite E in Hso.
  unfold rts_wait_object_remove.
  apply wp_bind, wp_RTS_ASSERT; [done|]. apply wp_bind, wp_RTS_ASSERT; [done|].
  apply wp_bind. eapply wp_run; [exact Hc|]. cbn [negb].
  do 2 apply wp_bind, wp_gets. rewrite Hp, Hx.
  assert (∀ s', (∃ wn wt, s' = s <| k_wait_nodes := wn |> <| k_waiters := wt |>) →
    (∀ m, wlinks s' m = splice_out (wlinks s) t (last_or l1 None) (first_or l2 None) m) →
    (∀ o', waiters s' o' = if decide (o' = o)
       then mk_wait_object_storage (first_or (l1 ++ l2) None) (last_or (l1 ++ l2) None)
              (Z.of_nat (length (l1 ++ t :: l2))) else waiters s o') →
    wp (RTS_FATAL_UNLESS (gets (λ s, 0 <? wo_count (waiters s o))) ;;;
        modify (upd_waiters o (λ w, w <| wo_count ::= Z.pred |>)) ;;;
        RTS_FATAL_UNLESS (rts_wait_object_validate o)) (λ _ s'', waits_step s s'' o (l1 ++ l2)) s')
    as Hend.
  { intros s' (wn&wt&->) Hl Hs'. apply wp_bind, wp_RTS_FATAL_UNLESS.
    { unfold gets. rewrite Hs', decide_True, length_app by done. f_equal. apply Z.ltb_lt. simpl. lia. }
    apply wp_bind, wp_modify. eapply wp_wait_checked; [|done].
    eapply waits_splice_out; [done..|wait_frame|exact Hl|].
    intros o'. rewrite waiters_upd, !Hs'. case_decide as E1; [subst o'|by rewrite !decide_False by congruence].
    rewrite !decide_True by done. replace (Z.of_nat (length (l1 ++ l2))) with (Z.pred (Z.of_nat (length (l1 ++ t :: l2)))); [done|]. rewrite !length_app. cbn [length]. lia. }
  destruct l2 as [|x l2]; cbn [first_or];
    [|assert (x ≠ t) by (destruct (Hmid x) as (?&?&?); set_solver)];
    (destruct l1 as [|p l1 _] using rev_ind; rewrite ?last_or_nil, ?last_or_snoc;
     [|assert (p ≠ t) by (destruct (Hmid p) as (?&?&?); set_solver);
       try (assert (p ≠ x) by (destruct (Hmid p) as (?&?&?); set_solver))]);
    do 5 (apply wp_bind, wp_modify); apply Hend.
  all: try wait_links. all: try wait_frame.
  all: intros o'; wait_cases; try done; rewrite Hso; cbn.
  all: rewrite ?app_nil_r, ?last_or_nil, ?last_or_app, ?last_or_cons, ?last_or_snoc; try done.
  all: by destruct l1.
Qed.

Lemma by_priority_mid s l1 t l2 : by_priority s (l1 ++ t :: l2) → by_priority s (l1 ++ l2).
Proof. apply sorted_remove_mid. Qed.

Lemma rts_wait_object_pop_highest_spec s o :
  waits_wf s → by_priority s (waiting s o) →
  wp (rts_wait_object_pop_highest o)
     (λ r s', r = head (waiting s o) ∧
              if waiting s o is _ :: ts then waits_step s s' o ts else s' = s) s.
Proof.
  intros Hwf Hsort. pose proof (rts_wait_object_validate_run s Hwf o Hsort) as Hv.
  unfold rts_wait_object_pop_highest. apply wp_bind, wp_RTS_ASSERT; [done|].
  apply wp_bind. eapply wp_run; [exact Hv|]. cbn [negb]. apply wp_bind, wp_gets.
  rewrite (ww_storage s Hwf). cbn [wo_head]. destruct (waiting s o) as [|t ts] eqn:E; cbn [first_or].
  - by apply wp_bind, wp_ret, wp_ret.
  - apply wp_bind. eapply wp_mono.
    + apply (rts_wait_object_remove_spec s o t [] ts Hwf E). by apply (by_priority_mid s [] t).
    + intros ? s' Hst. by apply wp_ret.
Qed.

(** Only the priority of [t] may have changed since the chain was sorted. *)
Lemma rts_wait_object_reprioritize_spec s o t l1 l2 :
  waits_wf s → waiting s o = l1 ++ t :: l2 → by_priority s (l1 ++ l2) →
  wp (rts_wait_object_reprioritize o (Some t))
     (λ _ s', waits_step s s' o (insert_by (by_wait_rank s) t (l1 ++ l2))) s.
Proof.
  intros Hwf E Hsort. destruct (ww_node s Hwf o l1 t l2 E) as (_&_&Ho).
  assert (rts_wait_object_contains o (Some t) s = Done true s) as Hc
    by (cbn; unfold gets; f_equal; by apply bool_decide_true).
  assert (application t) as Ha by (apply (ww_apps s Hwf o); rewrite E; set_solver).
  pose proof (ww_nodup s Hwf o) as Hnd. rewrite E in Hnd. destruct (nodup_mid _ _ _ t Hnd) as (_&H1&H2).
  unfold rts_wait_object_reprioritize. apply wp_bind, wp_RTS_ASSERT; [done|].
  apply wp_bind. eapply wp_run; [exact Hc|]. cbn [negb]. apply wp_bind.
  eapply wp_mono; [by apply rts_wait_object_remove_spec|]. intros [] s1 Hst.
  pose proof (waits_step_here _ _ _ _ Hst) as E1. destruct Hst as (Hwf1&Hfr&Hw1).
  assert (w_owner (wait_node s1 t) = None) as Hn.
  { destruct (w_owner (wait_node s1 t)) as [o'|] eqn:Eo; [|done]. apply (ww_owner _ Hwf1) in Eo.
    rewrite Hw1 in Eo. case_decide as Ed; [set_solver|]. apply (ww_owner s Hwf) in Eo. congruence. }
  destruct Hfr as (wn&wt&->).
  eapply wp_mono; [apply rts_wait_object_insert_spec; [done|by rewrite E1|done..]|].
  intros [] s2 (Hwf2&(wn2&wt2&->)&Hw2). split_and!; [done|wait_frame|].
  intros o'. rewrite Hw2, E1, Hw1. by repeat case_decide.
Qed.

(** The other chains keep their order. *)
Lemma waits_ok_step s s' o ts : waits_ok s → waits_step s s' o ts → by_priority s ts → waits_ok s'.
Proof.
  intros [Hwf Hs] Hst Hts. split; [apply Hst|]. intros o'. eapply waits_step_by_priority; [done|].
  destruct Hst as (_&_&->). by case_decide.
Qed.

Lemma by_priority_insert s t l : by_priority s l → by_priority s (insert_by (by_wait_rank s) t l).
Proof. apply (insert_by_sorted (by_wait_rank s)). Qed.
End waits.

(** ** Priority order and first come, first served *)

Section wait_claims.
Context `{ConfigOk}.

Lemma wait_insert_keeps s o t :
  waits_ok s → w_owner (wait_node s t) = None → application t →
  wp (rts_wait_object_insert o (Some t))
     (λ _ s', waits_ok s' ∧ waits_step s s' o (insert_by (by_wait_rank s) t (waiting s o))) s.
Proof.
  intros Hok Hn Ha. pose proof (wok_sorted s Hok o) as Hs.
  eapply wp_mono; [by apply rts_wait_object_insert_spec; [apply Hok|..]|].
  intros [] s' Hst. split; [|done]. by eapply waits_ok_step, by_priority_insert.
Qed.

(** C29: inserting a task into a wait object returns (no assertion and no fatal
    check fails), links the task behind every waiter of the same or a higher
    priority and before every waiter of a lower one, keeps all wait objects
    well-formed and sorted, and changes no other wait object. *)
Theorem wait_insert_priority_fifo s o t :
  waits_ok s → w_owner (wait_node s t) = None → application t →
  wp (rts_wait_object_insert o (Some t)) (λ _ s', waits_ok s' ∧
    (∀ o', o' ≠ o → waiting s' o' = waiting s o') ∧
    ∃ l1 l2, waiting s o = l1 ++ l2 ∧ waiting s' o = l1 ++ t :: l2 ∧
      (∀ u, u ∈ l1 → priority (task s t) ≤ priority (task s u)) ∧
      (∀ u, u ∈ l2 → priority (task s u) < priority (task s t))) s.
Proof.
  intros Hok Hn Ha. eapply wp_mono; [by apply wait_insert_keeps|].
  intros [] s' [Hok' Hst]. split; [done|]. pose proof (waits_step_here _ _ _ _ Hst) as E.
  split; [intros o' ?; destruct Hst as (_&_&->); by rewrite decide_False|].
  destruct (insert_by_split (by_wait_rank s) t (waiting s o)) as (l1&l2&E1&E2&H1&H2);
    [apply (wok_sorted s Hok)|].
  exists l1, l2. rewrite E, E2. unfold by_wait_rank in *. split_and!; [done..| |]; intros u Hu.
  - specialize (H1 u Hu). lia.
  - specialize (H2 u Hu). lia.
Qed.

Lemma by_priority_head s t ts u : by_priority s (t :: ts) → u ∈ t :: ts → priority (task s u) ≤ priority (task s t).
Proof.
  intros [_ Ha]%StronglySorted_inv [->|Hu]%elem_of_cons; [lia|].
  rewrite Forall_forall in Ha. specialize (Ha u Hu). simpl in Ha. lia.
Qed.

(** popping a wait object returns null exactly when nobody waits, else the
    first waiter, whose priority is the highest; the rest keep their order, the
    task is left unlinked, and no other wait object changes. *)
Theorem wait_pop_serves_highest s o :
  waits_ok s →
  wp (rts_wait_object_pop_highest o) (λ r s', waits_ok s' ∧
    (∀ o', o' ≠ o → waiting s' o' = waiting s o') ∧
    match r with
    | None => waiting s o = [] ∧ waiting s' o = []
    | Some t => waiting s o = t :: waiting s' o ∧ w_owner (wait_node s' t) = None ∧
                ∀ u, u ∈ waiting s o → priority (task s u) ≤ priority (task s t)
    end) s.
Proof.
  intros Hok. pose proof (wok_sorted s Hok o) as Hs.
  eapply wp_mono; [apply rts_wait_object_pop_highest_spec; [apply Hok|done]|].
  intros r s' [-> Hst]. destruct (waiting s o) as [|t ts] eqn:E; [by subst|].
  pose proof (waits_step_here _ _ _ _ Hst) as E'.
  assert (waits_ok s') as Hok' by by eapply waits_ok_step, (by_priority_mid s []).
  cbn [head]. split_and!; [done|intros o' ?; destruct Hst as (_&_&->); by rewrite decide_False|by rewrite E'| |].
  - pose proof (ww_nodup s (wok_wf s Hok) o) as Hnd. rewrite E in Hnd. apply NoDup_cons in Hnd as [Hnt _].
    destruct (w_owner (wait_node s' t)) as [o'|] eqn:Eo; [|done].
    apply (ww_owner s' (wok_wf s' Hok')) in Eo. destruct Hst as (_&_&Hw). rewrite Hw in Eo.
    case_decide as Ed; [done|]. apply (ww_owner s (wok_wf s Hok)) in Eo.
    assert (w_owner (wait_node s t) = Some o) by (apply (ww_owner s (wok_wf s Hok)); rewrite E; set_solver).
    congruence.
  - intros u. by apply by_priority_head.
Qed.

(** A change of one waiter's priority disturbs the order of that waiter only. *)
Lemma waiting_upd_task s t f o : waiting (upd_task t f s) o = waiting s o.
Proof. done. Qed.

Lemma by_priority_others s t f l : t ∉ l → by_priority s l → by_priority (upd_task t f s) l.
Proof.
  unfold by_priority. induction l as [|y l IH]; [constructor|].
  intros [Hy Hl]%not_elem_of_cons [Hs Ha]%StronglySorted_inv. constructor; [auto|].
  rewrite Forall_forall in Ha |- *. intros u Hu. rewrite !task_upd_task.
  rewrite !decide_False by set_solver. auto.
Qed.

(** When the priority of a waiting task changes, repositioning it in the
    wait object it waits for makes every wait object sorted again. *)
Theorem wait_reprioritize_resorts s o t p :
  waits_ok s → w_owner (wait_node s t) = Some o →
  wp (rts_wait_object_reprioritize o (Some t)) (λ _ s', waits_ok s' ∧
    (∀ u, u ∈ waiting s' o ↔ u ∈ waiting s o) ∧
    (∀ o', o' ≠ o → waiting s' o' = waiting s o'))
    (upd_task t (λ x, x <| priority := p |>) s).
Proof.
  intros Hok Hin. apply (ww_owner s (wok_wf s Hok)) in Hin.
  destruct (list_elem_of_split _ _ Hin) as (l1&l2&E).
  pose proof (wok_sorted s Hok o) as Hs. rewrite E in Hs.
  pose proof (ww_nodup s (wok_wf s Hok) o) as Hnd. rewrite E in Hnd.
  destruct (nodup_mid _ _ _ t Hnd) as (_&Hn1&Hn2).
  assert (waits_wf (upd_task t (λ x, x <| priority := p |>) s)) as Hwf by by destruct (wok_wf s Hok).
  assert (by_priority (upd_task t (λ x, x <| priority := p |>) s) (l1 ++ l2)) as Hs'.
  { apply by_priority_others; [set_solver|]. by eapply by_priority_mid. }
  eapply wp_mono; [by apply rts_wait_object_reprioritize_spec|].
  intros [] s' Hst. pose proof (waits_step_here _ _ _ _ Hst) as E'. split_and!.
  - split; [apply Hst|]. intros o'. eapply waits_step_by_priority; [done|].
    destruct Hst as (_&_&->). case_decide as Ed; [by apply by_priority_insert|].
    rewrite waiting_upd_task. apply by_priority_others; [|apply (wok_sorted s Hok)].
    intros Ht. apply (ww_owner s (wok_wf s Hok)) in Ht, Hin. congruence.
  - intros u. rewrite E', insert_by_elem, E. set_solver.
  - intros o' Hne. destruct Hst as (_&_&->). by rewrite decide_False.
Qed.
End wait_claims.

(** ** Witnesses: three tasks, two of the same priority *)

Section witnesses.
#[local] Existing Instance fp_config.

Lemma waits_ok_empty s : k_wait_nodes s = ∅ → k_waiters s = ∅ → waits_ok s.
Proof.
  intros Hn Hw.
  assert (∀ t, wlinks s t = unlinked) as Hl by (intros t; unfold wlinks, wait_node; by rewrite Hn).
  assert (∀ o, waiting s o = []) as E by (intros o; unfold waiting, waiters; by rewrite Hw).
  split; [split|]; try (intros o; rewrite E).
  - intros t _. apply Hl.
  - split; [apply dll_empty; intros t; by rewrite Hl|]. unfold waiters. by rewrite Hw.
  - by intros t ?%elem_of_nil.
  - constructor.
Qed.

Definition waiter_tcb (p : Z) : rts_tcb := (inhabitant : rts_tcb) <| priority := p |>.
Definition three_waiters : kernel :=
  zero_kernel <| k_tasks := <[TApp 0 := waiter_tcb 3]> (<[TApp 1 := waiter_tcb 5]>
                            (<[TApp 2 := waiter_tcb 3]> ∅)) |>.

Lemma application_at i : 0 ≤ i < RTS_MAX_TASKS → application (TApp i).
Proof. by exists i. Qed.

Definition two_waiting : kernel :=
  final_store (rts_wait_object_insert (SMutex 1) (Some (TApp 1)))
    (final_store (rts_wait_object_insert (SMutex 1) (Some (TApp 0))) three_waiters).

Lemma insert_final s o t :
  waits_ok s → w_owner (wait_node s t) = None → application t →
  waits_ok (final_store (rts_wait_object_insert o (Some t)) s).
Proof.
  intros. destruct (wp_final _ _ _ (wait_insert_keeps s o t ltac:(done) ltac:(done) ltac:(done)))
    as [_ [Hok _]]. exact Hok.
Qed.

Lemma two_waiting_ok : waits_ok two_waiting.
Proof.
  apply insert_final; [apply insert_final; [by apply waits_ok_empty|done|]|by vm_compute|];
    by apply application_at.
Qed.

Lemma wait_insert_priority_fifo_witness :
  wp (rts_wait_object_insert (SMutex 1) (Some (TApp 2)))
     (λ _ s', waits_ok s' ∧ waiting s' (SMutex 1) = [TApp 1; TApp 0; TApp 2]) two_waiting.
Proof.
  eapply wp_mono; [apply (wait_insert_priority_fifo two_waiting (SMutex 1) (TApp 2) two_waiting_ok)|].
  - by vm_compute.
  - by apply application_at.
  - intros [] s' (Hok&_&l1&l2&E&E'&H1&H2). split; [exact Hok|]. rewrite E'.
    assert (waiting two_waiting (SMutex 1) = [TApp 1; TApp 0]) as Ew by by vm_compute.
    assert (l2 = []) as ->; [|rewrite app_nil_r in E; by rewrite <- E, Ew].
    destruct l2 as [|u l2]; [done|]. assert (u ∈ [TApp 1; TApp 0]) as Hu by (rewrite <- Ew, E; apply elem_of_app; right; left).
    specialize (H2 u ltac:(left)). clear -Hu H2.
    repeat (apply elem_of_cons in Hu as [->|Hu]; [vm_compute in H2; discriminate|]). by apply elem_of_nil in Hu.
Defined.

Lemma wait_pop_serves_highest_witness :
  wp (rts_wait_object_pop_highest (SMutex 1)) (λ r s', waits_ok s' ∧ r = Some (TApp 1)) two_waiting.
Proof.
  eapply wp_mono; [exact (wait_pop_serves_highest two_waiting (SMutex 1) two_waiting_ok)|].
  assert (waiting two_waiting (SMutex 1) = [TApp 1; TApp 0]) as -> by by vm_compute.
  intros r s' (Hok&_&Hr). split; [exact Hok|].
  destruct r; [destruct Hr as (Hr&_)|destruct Hr as (Hr&_)]; congruence.
Defined.

Lemma wait_reprioritize_resorts_witness :
  wp (rts_wait_object_reprioritize (SMutex 1) (Some (TApp 0)))
     (λ _ s', waits_ok s' ∧ ∀ u, u ∈ waiting s' (SMutex 1) ↔ u ∈ waiting two_waiting (SMutex 1))
     (upd_task (TApp 0) (λ x, x <| priority := 7 |>) two_waiting).
Proof.
  assert (w_owner (wait_node two_waiting (TApp 0)) = Some (SMutex 1)) as Hw by by vm_compute.
  pose proof (wait_reprioritize_resorts two_waiting (SMutex 1) (TApp 0) 7 two_waiting_ok Hw) as Hthm.
  eapply wp_mono; [exact Hthm|]. intros [] s' (Hok&Hel&_). split; [exact Hok|exact Hel].
Defined.
End witnesses.
