(* ===== verification/Scheduler.v ===== *)
(** * Selection and the context-switch protocol

    kernel/scheduler_select.c (which tasks may run, the current task, the
    timer-service task) and kernel/switch_plan.c (the pending switch: prepare,
    acquire by the port, complete, reselect). *)

From S2P Require Import Prelude Machine Config Types Links IntrusiveList KernelLists Time ReadyQueue.
From S2P Require Import DelayQueue HostPort Diagnostics TaskPool Policy PolicySpec.

Section select_code.
Context `{Config}.
Implicit Types (task_arg : option task_ptr).

Definition rts_scheduler_task_is_idle (s : kernel) task_arg : bool :=
  bool_decide (task_arg ≠ None) && bool_decide (task_arg = k_idle_task s) &&
  bool_decide (task_arg = Some TIdle).

Definition rts_scheduler_task_is_timer_service (s : kernel) task_arg : bool :=
  bool_decide (task_arg ≠ None) && bool_decide (task_arg = k_timer_service_task s) &&
  bool_decide (task_arg = Some TTimerService).

(** A saved context inside a stack, and a function to run. *)
Definition task_has_context (x : rts_tcb) : bool :=
  negb (saved_stack_pointer x =? 0) && negb (stack_low x =? 0) && negb (stack_high x =? 0) &&
  (stack_low x <? stack_high x) && negb (entry x =? 0).

Definition magic_is_valid (x : rts_tcb) : bool :=
  negb RTS_ENABLE_ASSERTIONS || (validation_magic x =? RTS_TASK_VALIDATION_MAGIC).

(** The members that a task without a wait must have. *)
Definition task_waits_for_nothing (s : kernel) (t : task_ptr) : bool :=
  bool_decide (wait_reason (wait (task s t)) = RTS_WAIT_NONE) &&
  bool_decide (wait_object (wait (task s t)) = None) &&
  negb (wait_timeout_active (wait (task s t))) &&
  bool_decide (w_owner (wait_node s t) = None) &&
  bool_decide (n_owner (node s (NDelay t)) = None).

(** The rest of rts_scheduler_task_is_runnable_in, after the policy's test. *)
Definition runnable_identity_state (s : kernel) (t : task_ptr) : bool :=
  let x := task s t in
  if (priority x <? base_priority x) || (RTS_PRIORITY_COUNT <=? base_priority x) then false else
  let identity_is_valid :=
    if priority x =? RTS_IDLE_PRIORITY then rts_scheduler_task_is_idle s (Some t)
    else (priority x <? RTS_PRIORITY_COUNT) &&
         (rts_task_handle_is_application_task (Some t) || rts_scheduler_task_is_timer_service s (Some t)) in
  let state_is_valid :=
    bool_decide (state x = RTS_TASK_STATE_READY) ||
    (bool_decide (Some t = k_current_task s) && bool_decide (state x = RTS_TASK_STATE_RUNNING)) in
  identity_is_valid && state_is_valid && bool_decide (slot_state x = RTS_TASK_SLOT_ALLOCATED) &&
  magic_is_valid x.

Definition rts_scheduler_task_is_runnable task_arg : K bool :=
  match task_arg with
  | None => ret false
  | Some t =>
      gets (λ s, task_has_context (task s t) && task_waits_for_nothing s t) &&&
      rts_policy_validate (Some t) true &&&
      gets (λ s, runnable_identity_state s t)
  end.

Definition rts_scheduler_task_is_blocked_delay task_arg : K bool :=
  match task_arg with
  | None => ret false
  | Some t =>
      let* excluded := gets (λ s, bool_decide (Some t = k_idle_task s) ||
                                  negb (rts_task_handle_is_application_task (Some t))) in
      if excluded then ret false else
      gets (λ s,
        let x := task s t in
        bool_decide (slot_state x = RTS_TASK_SLOT_ALLOCATED) &&
        bool_decide (state x = RTS_TASK_STATE_BLOCKED) &&
        bool_decide (wait_reason (wait x) = RTS_WAIT_DELAY) &&
        bool_decide (wait_object (wait x) = None) && negb (wait_timeout_active (wait x)) &&
        bool_decide (w_owner (wait_node s t) = None) &&
        task_has_context x &&
        (RTS_IDLE_PRIORITY <? priority x) && (priority x <? RTS_PRIORITY_COUNT)) &&&
      rts_policy_validate (Some t) false &&&
      gets (λ s, bool_decide (n_previous (node s (NReady t)) = None) &&
                 bool_decide (n_next (node s (NReady t)) = None) &&
                 bool_decide (n_object (node s (NReady t)) = None)) &&&
      rts_delay_contains (Some t) &&&
      gets (λ s, magic_is_valid (task s t))
  end.

(** &((rts_semaphore_t * )object)->waiters and &((rts_mutex_t * )object)->waiters:
    the chain of an object of that type. *)
Definition semaphore_waiters (o : option sync_ptr) : option sync_ptr :=
  match o with Some (SSemaphore p) => Some (SSemaphore p) | _ => None end.
Definition mutex_waiters (o : option sync_ptr) : option sync_ptr :=
  match o with Some (SMutex p) => Some (SMutex p) | _ => None end.

Definition rts_scheduler_task_is_blocked_wait task_arg : K bool :=
  match task_arg with
  | None => ret false
  | Some t =>
      let* excluded := gets (λ s, bool_decide (Some t = k_idle_task s) ||
        (negb (rts_task_handle_is_application_task (Some t)) &&
         negb (rts_scheduler_task_is_timer_service s (Some t)))) in
      if excluded then ret false else
      let* service := gets (λ s, rts_scheduler_task_is_timer_service s (Some t)) in
      if service then
        gets (λ s,
          let x := task s t in
          bool_decide (slot_state x = RTS_TASK_SLOT_ALLOCATED) &&
          bool_decide (state x = RTS_TASK_STATE_BLOCKED) &&
          bool_decide (wait_reason (wait x) = RTS_WAIT_TIMER_SERVICE) &&
          bool_decide (wait_result (wait x) = RTS_WAIT_RESULT_NONE) &&
          bool_decide (wait_object (wait x) = None) && negb (wait_timeout_active (wait x)) &&
          bool_decide (w_owner (wait_node s t) = None) &&
          bool_decide (n_owner (node s (NDelay t)) = None)) &&&
        rts_policy_validate (Some t) false &&&
        gets (λ s, magic_is_valid (task s t))
      else
        gets (λ s,
          let x := task s t in
          bool_decide (slot_state x = RTS_TASK_SLOT_ALLOCATED) &&
          bool_decide (state x = RTS_TASK_STATE_BLOCKED) &&
          (bool_decide (wait_reason (wait x) = RTS_WAIT_SEMAPHORE) ||
           bool_decide (wait_reason (wait x) = RTS_WAIT_MUTEX)) &&
          bool_decide (wait_result (wait x) = RTS_WAIT_RESULT_NONE) &&
          bool_decide (wait_object (wait x) ≠ None) && bool_decide (w_owner (wait_node s t) ≠ None) &&
          task_has_context x &&
          (RTS_IDLE_PRIORITY <? priority x) && (priority x <? RTS_PRIORITY_COUNT)) &&&
        rts_policy_validate (Some t) false &&&
        (let* linked := rts_delay_contains (Some t) in
         gets (λ s, eqb (wait_timeout_active (wait (task s t))) linked)) &&&
        gets (λ s,
          let x := task s t in
          bool_decide (w_owner (wait_node s t) =
            if bool_decide (wait_reason (wait x) = RTS_WAIT_SEMAPHORE)
            then semaphore_waiters (wait_object (wait x))
            else mutex_waiters (wait_object (wait x)))) &&&
        gets (λ s, magic_is_valid (task s t))
  end.

Definition lifecycle_schedules (s : kernel) : bool :=
  bool_decide (k_lifecycle s = RTS_KERNEL_INITIALIZED) || bool_decide (k_lifecycle s = RTS_KERNEL_RUNNING).

Definition rts_scheduler_select_highest_ready : K (option task_ptr) :=
  RTS_ASSERT (gets lifecycle_schedules) ;;;
  let* live := gets lifecycle_schedules in
  if negb live then ret None else
  let* selected := rts_policy_pick_next in
  RTS_FATAL_UNLESS (ret (bool_decide (selected ≠ None))) ;;;
  match selected with
  | None => ret None
  | Some t =>
      RTS_FATAL_UNLESS (rts_scheduler_task_is_runnable (Some t)) ;;;
      let* runnable := rts_scheduler_task_is_runnable (Some t) in
      if negb runnable then ret None else ret (Some t)
  end.

Definition rts_scheduler_current_is_valid : K bool :=
  let* current := rts_scheduler_current_get in
  match current with
  | None => gets (λ s, bool_decide (k_lifecycle s = RTS_KERNEL_RESET) ||
                       bool_decide (k_lifecycle s = RTS_KERNEL_INITIALIZED))
  | Some t =>
      gets (λ s, lifecycle_schedules s && bool_decide (state (task s t) = RTS_TASK_STATE_RUNNING)) &&&
      rts_scheduler_task_is_runnable (Some t)
  end.

Definition rts_scheduler_current_establish task_arg : K bool :=
  RTS_ASSERT (gets (λ s, bool_decide (k_lifecycle s = RTS_KERNEL_INITIALIZED))) ;;;
  RTS_ASSERT (let* current := rts_scheduler_current_get in ret (bool_decide (current = None))) ;;;
  RTS_ASSERT (ret (bool_decide (task_arg ≠ None))) ;;;
  let* lifecycle := gets k_lifecycle in
  let* current := rts_scheduler_current_get in
  match task_arg with
  | None => ret false
  | Some t =>
      if negb (bool_decide (lifecycle = RTS_KERNEL_INITIALIZED)) || negb (bool_decide (current = None))
      then ret false else
      let* selected := rts_scheduler_select_highest_ready in
      RTS_ASSERT (ret (bool_decide (selected = Some t))) ;;;
      RTS_ASSERT (gets (λ s, bool_decide (state (task s t) = RTS_TASK_STATE_READY))) ;;;
      let* refused := gets (λ s, negb (bool_decide (selected = Some t)) ||
                                 negb (bool_decide (state (task s t) = RTS_TASK_STATE_READY))) in
      if refused then ret false else
      modify (upd_task t (λ x, x <| state := RTS_TASK_STATE_RUNNING |>)) ;;;
      modify (upd_task t (λ x, x <| slice_remaining := RTS_TIME_SLICE_TICKS |>)) ;;;
      rts_scheduler_set_current_on_cpu rts_cpu_current_id (Some t) ;;;
      RTS_FATAL_UNLESS rts_scheduler_current_is_valid ;;;
      rts_scheduler_current_is_valid
  end.

Definition rts_scheduler_current_release_initial : K bool :=
  let* current := rts_scheduler_current_get in
  RTS_ASSERT (gets (λ s, bool_decide (k_lifecycle s = RTS_KERNEL_INITIALIZED))) ;;;
  RTS_ASSERT (ret (bool_decide (current ≠ None))) ;;;
  RTS_ASSERT (match current with
              | None => ret true
              | Some t => gets (λ s, bool_decide (state (task s t) = RTS_TASK_STATE_RUNNING))
              end) ;;;
  match current with
  | None => ret false
  | Some t =>
      let* refused := gets (λ s, negb (bool_decide (k_lifecycle s = RTS_KERNEL_INITIALIZED)) ||
                                 negb (bool_decide (state (task s t) = RTS_TASK_STATE_RUNNING))) in
      if refused then ret false else
      modify (upd_task t (λ x, x <| state := RTS_TASK_STATE_READY |>)) ;;;
      rts_scheduler_set_current_on_cpu rts_cpu_current_id None ;;;
      RTS_FATAL_UNLESS (rts_policy_validate (Some t) true) ;;;
      rts_policy_validate (Some t) true &&& rts_scheduler_current_is_valid
  end.
End select_code.

(** ** The switch plan (kernel/switch_plan.c) *)

Section switch_code.
Context `{Config}.
Implicit Types (task_arg : option task_ptr).

Definition upd_plan (f : rts_switch_plan → rts_switch_plan) (s : kernel) : kernel :=
  s <| k_switch_plan := f (k_switch_plan s) |>.

Definition rts_switch_next_generation (generation : Z) : Z := u32 (generation + 1).

Definition rts_switch_plan_clear : K unit :=
  modify (upd_plan (λ p, p <| plan_from := None |> <| plan_to := None |>
                           <| plan_pending := false |> <| plan_active := false |>)).

Definition rts_switch_outgoing_is_valid task_arg : K bool :=
  match task_arg with
  | None => ret false
  | Some t =>
      let* current := rts_scheduler_current_get in
      if negb (bool_decide (Some t = current)) then ret false else
      (gets (λ s, bool_decide (state (task s t) = RTS_TASK_STATE_RUNNING)) &&&
       rts_scheduler_task_is_runnable (Some t)) |||
      (gets (λ s, bool_decide (state (task s t) = RTS_TASK_STATE_BLOCKED)) &&&
       (rts_scheduler_task_is_blocked_delay (Some t) ||| rts_scheduler_task_is_blocked_wait (Some t)))
  end.

Definition rts_scheduler_prepare_switch task_arg : K bool :=
  RTS_ASSERT (gets (λ s, bool_decide (k_lifecycle s = RTS_KERNEL_RUNNING))) ;;;
  RTS_ASSERT (let* current := rts_scheduler_current_get in ret (bool_decide (current ≠ None))) ;;;
  RTS_ASSERT (let* current := rts_scheduler_current_get in rts_switch_outgoing_is_valid current) ;;;
  RTS_ASSERT (ret (bool_decide (task_arg ≠ None))) ;;;
  RTS_ASSERT (ret (bool_decide (task_arg = None)) ||| rts_scheduler_task_is_runnable task_arg) ;;;
  let* accepted :=
    gets (λ s, bool_decide (k_lifecycle s = RTS_KERNEL_RUNNING)) &&&
    (let* current := rts_scheduler_current_get in rts_switch_outgoing_is_valid current) &&&
    rts_scheduler_task_is_runnable task_arg in
  match task_arg with
  | None => ret false
  | Some next_task =>
      if negb accepted then ret false else
      let* plan := gets k_switch_plan in
      if plan_active plan then
        modify (upd_plan (λ p, p <| plan_reselection_required := true |>)) ;;;
        ret false
      else
        modify (upd_plan (λ p, p <| plan_reselection_required := false |>)) ;;;
        let* current := rts_scheduler_current_get in
        if bool_decide (Some next_task = current) then
          when (plan_pending plan) (
            RTS_ASSERT (ret (bool_decide (plan_from plan = current))) ;;;
            modify (upd_plan (λ p, p <| plan_generation ::= rts_switch_next_generation |>)) ;;;
            rts_switch_plan_clear) ;;;
          ret false
        else
          RTS_ASSERT (gets (λ s, bool_decide (state (task s next_task) = RTS_TASK_STATE_READY))) ;;;
          let* ready := gets (λ s, bool_decide (state (task s next_task) = RTS_TASK_STATE_READY)) in
          if negb ready then ret false else
          if negb (plan_pending plan) then
            modify (upd_plan (λ p, p <| plan_from := current |>)) ;;;
            modify (upd_plan (λ p, p <| plan_to := Some next_task |>)) ;;;
            modify (upd_plan (λ p, p <| plan_pending := true |>)) ;;;
            modify (upd_plan (λ p, p <| plan_generation ::= rts_switch_next_generation |>)) ;;;
            RTS_DIAG_COUNTER_INC switch_requests ;;;
            ret true
          else
            RTS_ASSERT (ret (bool_decide (plan_from plan = current))) ;;;
            RTS_ASSERT (ret (bool_decide (plan_to plan ≠ None))) ;;;
            if negb (bool_decide (plan_from plan = current)) || bool_decide (plan_to plan = None)
            then ret false else
            when (negb (bool_decide (plan_to plan = Some next_task))) (
              modify (upd_plan (λ p, p <| plan_to := Some next_task |>)) ;;;
              modify (upd_plan (λ p, p <| plan_generation ::= rts_switch_next_generation |>))) ;;;
            ret false
  end.

Definition rts_scheduler_request_switch_if_needed task_arg : K unit :=
  let* notify := rts_scheduler_prepare_switch task_arg in
  when notify (rts_port_request_reschedule rts_cpu_current_id).

(** [None] when the function returns false, else the snapshot it fills. *)
Definition rts_scheduler_switch_acquire : K (option rts_switch_snapshot) :=
  RTS_ASSERT (gets (λ s, bool_decide (k_lifecycle s = RTS_KERNEL_RUNNING))) ;;;
  RTS_ASSERT (gets (λ s, negb (plan_active (k_switch_plan s)))) ;;;
  let* refused := gets (λ s, negb (bool_decide (k_lifecycle s = RTS_KERNEL_RUNNING)) ||
                             plan_active (k_switch_plan s)) in
  if refused then ret None else
  let* plan := gets k_switch_plan in
  if negb (plan_pending plan) then ret None else
  let* current := rts_scheduler_current_get in
  RTS_ASSERT (ret (bool_decide (plan_from plan = current))) ;;;
  RTS_ASSERT (ret (bool_decide (plan_from plan ≠ None) && bool_decide (plan_to plan ≠ None))) ;;;
  RTS_ASSERT (ret (negb (bool_decide (plan_from plan = plan_to plan)))) ;;;
  RTS_ASSERT (ret (bool_decide (plan_from plan = None)) ||| rts_switch_outgoing_is_valid (plan_from plan)) ;;;
  RTS_ASSERT (match plan_to plan with
              | None => ret true
              | Some t => gets (λ s, bool_decide (state (task s t) = RTS_TASK_STATE_READY))
              end) ;;;
  RTS_ASSERT (ret (bool_decide (plan_to plan = None)) ||| rts_scheduler_task_is_runnable (plan_to plan)) ;;;
  if negb (bool_decide (plan_from plan = current)) || bool_decide (plan_from plan = None) ||
     bool_decide (plan_to plan = None) || bool_decide (plan_from plan = plan_to plan) then ret None else
  let* to := deref (plan_to plan) in
  let* accepted :=
    rts_switch_outgoing_is_valid (plan_from plan) &&&
    gets (λ s, bool_decide (state (task s to) = RTS_TASK_STATE_READY)) &&&
    rts_scheduler_task_is_runnable (plan_to plan) in
  if negb accepted then ret None else
  let snapshot := mk_switch_snapshot (plan_from plan) (plan_to plan) (plan_generation plan) in
  modify (upd_plan (λ p, p <| plan_pending := false |>)) ;;;
  modify (upd_plan (λ p, p <| plan_active := true |>)) ;;;
  ret (Some snapshot).

(** The argument is the snapshot, which the port passes by a pointer that is not null. *)
Definition rts_scheduler_switch_complete (snapshot : rts_switch_snapshot) : K unit :=
  let* corrupt :=
    notM (rts_stack_guard_is_valid (snap_from snapshot)) ||| notM (rts_stack_guard_is_valid (snap_to snapshot)) |||
    notM (rts_stack_saved_sp_is_valid (snap_from snapshot)) |||
    notM (rts_stack_saved_sp_is_valid (snap_to snapshot)) in
  when corrupt (fatal RTS_FATAL_STACK_CORRUPTION) ;;;
  let* valid :=
    gets (λ s, bool_decide (k_lifecycle s = RTS_KERNEL_RUNNING) &&
      plan_active (k_switch_plan s) && negb (plan_pending (k_switch_plan s)) &&
      (snap_generation snapshot =? plan_generation (k_switch_plan s)) &&
      bool_decide (snap_from snapshot = plan_from (k_switch_plan s)) &&
      bool_decide (snap_to snapshot = plan_to (k_switch_plan s)) &&
      negb (bool_decide (snap_from snapshot = snap_to snapshot))) &&&
    (let* current := rts_scheduler_current_get in ret (bool_decide (current = snap_from snapshot))) &&&
    rts_switch_outgoing_is_valid (snap_from snapshot) &&&
    (let* to := deref (snap_to snapshot) in
     gets (λ s, bool_decide (state (task s to) = RTS_TASK_STATE_READY))) &&&
    rts_scheduler_task_is_runnable (snap_to snapshot) in
  RTS_ASSERT (ret valid) ;;;
  if negb valid then ret tt else
  let* from := deref (snap_from snapshot) in
  let* to := deref (snap_to snapshot) in
  let* now := gets k_current_tick in
  rts_runtime_task_stopped (Some from) now ;;;
  let* running := gets (λ s, bool_decide (state (task s from) = RTS_TASK_STATE_RUNNING)) in
  (if running then modify (upd_task from (λ x, x <| state := RTS_TASK_STATE_READY |>))
   else RTS_FATAL_UNLESS (gets (λ s, bool_decide (state (task s from) = RTS_TASK_STATE_BLOCKED)))) ;;;
  modify (upd_task to (λ x, x <| slice_remaining := RTS_TIME_SLICE_TICKS |>)) ;;;
  modify (upd_task to (λ x, x <| state := RTS_TASK_STATE_RUNNING |>)) ;;;
  rts_scheduler_set_current_on_cpu rts_cpu_current_id (Some to) ;;;
  rts_runtime_task_started (Some to) now ;;;
  RTS_DIAG_COUNTER_INC context_switches ;;;
  let* from_priority := gets (λ s, priority (task s from)) in
  let* to_priority := gets (λ s, priority (task s to)) in
  RTS_TRACE RTS_TRACE_TASK_SWITCHED from_priority to_priority ;;;
  rts_switch_plan_clear ;;;
  RTS_FATAL_UNLESS rts_scheduler_current_is_valid.

Definition rts_scheduler_switch_reselection_required : K bool :=
  gets (λ s, plan_reselection_required (k_switch_plan s)).

Definition rts_scheduler_reselect_after_switch : K bool :=
  let* required := gets (λ s, plan_reselection_required (k_switch_plan s)) in
  if negb required then ret false else
  let* current := rts_scheduler_current_get in
  RTS_FATAL_UNLESS (ret (bool_decide (current ≠ None))) ;;;
  RTS_FATAL_UNLESS (match current with
                    | None => ret true
                    | Some t => gets (λ s, bool_decide (state (task s t) = RTS_TASK_STATE_RUNNING))
                    end) ;;;
  let* selected := rts_scheduler_select_highest_ready in
  RTS_FATAL_UNLESS (ret (bool_decide (selected ≠ None))) ;;;
  if bool_decide (current = None) || bool_decide (selected = None) then ret false else
  if negb (bool_decide (selected = current)) then rts_scheduler_prepare_switch selected else
  rts_scheduler_prepare_switch current ;;;
  ret false.
End switch_code.

(** ** The timer-service task (kernel/scheduler_select.c) *)

Section service_code.
Context `{Config}.

Definition set_wait_none (t : task_ptr) (reason : rts_wait_reason_t) : K unit :=
  modify (upd_task t (λ x, x <| wait := (wait x) <| wait_reason := reason |>
    <| wait_result := RTS_WAIT_RESULT_NONE |> <| wait_wake_tick := 0 |>
    <| wait_object := None |> <| wait_timeout_active := false |> |>)).

Definition rts_scheduler_timer_service_wake : K bool :=
  let* service := gets k_timer_service_task in
  match service with
  | None => ret false
  | Some t =>
      let* refused :=
        gets (λ s,
          negb (bool_decide (state (task s t) = RTS_TASK_STATE_BLOCKED)) ||
          negb (bool_decide (wait_reason (wait (task s t)) = RTS_WAIT_TIMER_SERVICE)) ||
          negb (bool_decide (wait_object (wait (task s t)) = None)) ||
          wait_timeout_active (wait (task s t))) |||
        rts_policy_validate (Some t) true in
      if refused then ret false else
      modify (upd_task t (λ x, x <| wait := (wait x) <| wait_reason := RTS_WAIT_NONE |>
        <| wait_result := RTS_WAIT_RESULT_NONE |> |>)) ;;;
      modify (upd_task t (λ x, x <| state := RTS_TASK_STATE_READY |>)) ;;;
      modify (upd_task t (λ x, x <| slice_remaining := RTS_TIME_SLICE_TICKS |>)) ;;;
      RTS_FATAL_UNLESS (rts_policy_task_unblock (Some t)) ;;;
      RTS_DIAG_TASK_INC t diagnostic_wake_count ;;;
      RTS_FATAL_UNLESS (rts_scheduler_task_is_runnable (Some t)) ;;;
      ret true
  end.

Definition rts_scheduler_timer_service_block : K bool :=
  let* service := gets k_timer_service_task in
  match service with
  | None => ret false
  | Some t =>
      let* refused :=
        (let* current := rts_scheduler_current_get in ret (negb (bool_decide (current = Some t)))) |||
        gets (λ s, negb (bool_decide (state (task s t) = RTS_TASK_STATE_RUNNING))) |||
        notM (rts_policy_validate (Some t) true) |||
        gets (λ s, negb (bool_decide (wait_reason (wait (task s t)) = RTS_WAIT_NONE))) in
      if refused then ret false else
      RTS_FATAL_UNLESS (rts_policy_task_block (Some t)) ;;;
      set_wait_none t RTS_WAIT_TIMER_SERVICE ;;;
      modify (upd_task t (λ x, x <| state := RTS_TASK_STATE_BLOCKED |>)) ;;;
      RTS_DIAG_TASK_INC t diagnostic_block_count ;;;
      let* selected := rts_scheduler_select_highest_ready in
      RTS_FATAL_UNLESS (ret (bool_decide (selected ≠ None) && negb (bool_decide (selected = Some t)))) ;;;
      ret (bool_decide (selected ≠ None) && negb (bool_decide (selected = Some t))) &&&
      rts_scheduler_prepare_switch selected
  end.

Definition rts_scheduler_timer_service_cancel_wake : K unit :=
  let* service := gets k_timer_service_task in
  match service with
  | None => ret tt
  | Some t =>
      let* ready := gets (λ s, bool_decide (state (task s t) = RTS_TASK_STATE_READY)) in
      if negb ready then ret tt else
      let* planned := gets (λ s, plan_pending (k_switch_plan s) &&
                                 bool_decide (plan_to (k_switch_plan s) = Some t)) in
      when planned (let* current := rts_scheduler_current_get in
                    rts_scheduler_prepare_switch current ;;; ret tt) ;;;
      RTS_FATAL_UNLESS (rts_policy_task_block (Some t)) ;;;
      set_wait_none t RTS_WAIT_TIMER_SERVICE ;;;
      modify (upd_task t (λ x, x <| state := RTS_TASK_STATE_BLOCKED |>))
  end.
End service_code.
