(* ===== verification/SwitchSpec.v ===== *)
(** * The context-switch protocol

    What selection and the switch plan guarantee: the tests of
    kernel/scheduler_select.c as predicates of the store, the plan as a small
    state machine, and the commit of a switch. *)

From S2P Require Import Prelude Machine Config Types Links IntrusiveList KernelLists Time ReadyQueue.
From S2P Require Import DelayQueue HostPort Diagnostics TaskPool Policy PolicySpec Scheduler.

(** ** The tests as predicates of the store *)

Section predicates.
Context `{Config}.

Definition policy_linked (s : kernel) (t : task_ptr) : bool :=
  match RTS_POLICY with
  | RTS_POLICY_KIND_EDF => edf_linked s t
  | _ => bool_decide (n_owner (node s (NReady t)) = Some (LReady (priority (task s t))))
  end.

Definition policy_valid (s : kernel) (t : task_ptr) (expected_ready : bool) : bool :=
  eqb (policy_linked s t) expected_ready &&
  match RTS_POLICY with
  | RTS_POLICY_KIND_RMS =>
      bool_decide (Some t = k_idle_task s) || bool_decide (Some t = k_timer_service_task s) ||
      negb (period (task s t) =? 0)
  | _ => true
  end.

Definition runnable (s : kernel) (t : task_ptr) : bool :=
  task_has_context (task s t) && task_waits_for_nothing s t && policy_valid s t true &&
  runnable_identity_state s t.

Lemma rts_policy_validate_run s t e :
  priority (task s t) < RTS_PRIORITY_COUNT →
  rts_policy_validate (Some t) e s = Done (policy_valid s t e) s.
Proof.
  intros Hp. assert (rts_ready_contains (Some t) s =
    Done (bool_decide (n_owner (node s (NReady t)) = Some (LReady (priority (task s t))))) s) as Hc.
  { unfold rts_ready_contains, RTS_REQUIRE_PTR. rewrite bind_gets, require_run; [done|].
    unfold ret. f_equal. by apply Z.ltb_lt. }
  assert (rts_policy_fp_validate (Some t) e s =
    Done (eqb (bool_decide (n_owner (node s (NReady t)) = Some (LReady (priority (task s t))))) e) s) as Hf.
  { unfold rts_policy_fp_validate. by rewrite (bind_run _ _ _ _ _ Hc). }
  unfold rts_policy_validate, policy_valid, policy_linked. destruct RTS_POLICY.
  - by rewrite Hf, andb_true_r.
  - unfold rts_policy_rms_validate. rewrite (bind_run _ _ _ _ _ Hf). by destruct (eqb _ e).
  - cbn. unfold gets. by rewrite andb_true_r.
Qed.

Lemma rts_scheduler_task_is_runnable_run s t :
  priority (task s t) < RTS_PRIORITY_COUNT →
  rts_scheduler_task_is_runnable (Some t) s = Done (runnable s t) s.
Proof.
  intros Hp. unfold rts_scheduler_task_is_runnable, runnable, andM. rewrite !bind_bind, bind_gets.
  destruct (task_has_context (task s t) && task_waits_for_nothing s t); [|done]. cbn [andb].
  rewrite (bind_run _ _ _ _ _ (rts_policy_validate_run s t true Hp)).
  by destruct (policy_valid s t true).
Qed.

Definition delayed (s : kernel) (t : task_ptr) : bool :=
  bool_decide (n_owner (node s (NDelay t)) = Some LDelay).

Definition blocked_delay (s : kernel) (t : task_ptr) : bool :=
  let x := task s t in
  negb (bool_decide (Some t = k_idle_task s)) && rts_task_handle_is_application_task (Some t) &&
  bool_decide (slot_state x = RTS_TASK_SLOT_ALLOCATED) &&
  bool_decide (state x = RTS_TASK_STATE_BLOCKED) &&
  bool_decide (wait_reason (wait x) = RTS_WAIT_DELAY) &&
  bool_decide (wait_object (wait x) = None) && negb (wait_timeout_active (wait x)) &&
  bool_decide (w_owner (wait_node s t) = None) && task_has_context x &&
  (RTS_IDLE_PRIORITY <? priority x) && (priority x <? RTS_PRIORITY_COUNT) &&
  policy_valid s t false &&
  (bool_decide (n_previous (node s (NReady t)) = None) && bool_decide (n_next (node s (NReady t)) = None) &&
   bool_decide (n_object (node s (NReady t)) = None)) &&
  delayed s t && magic_is_valid x.

Definition blocked_service (s : kernel) (t : task_ptr) : bool :=
  let x := task s t in
  bool_decide (slot_state x = RTS_TASK_SLOT_ALLOCATED) &&
  bool_decide (state x = RTS_TASK_STATE_BLOCKED) &&
  bool_decide (wait_reason (wait x) = RTS_WAIT_TIMER_SERVICE) &&
  bool_decide (wait_result (wait x) = RTS_WAIT_RESULT_NONE) &&
  bool_decide (wait_object (wait x) = None) && negb (wait_timeout_active (wait x)) &&
  bool_decide (w_owner (wait_node s t) = None) && bool_decide (n_owner (node s (NDelay t)) = None) &&
  policy_valid s t false && magic_is_valid x.

Definition blocked_sync (s : kernel) (t : task_ptr) : bool :=
  let x := task s t in
  bool_decide (slot_state x = RTS_TASK_SLOT_ALLOCATED) &&
  bool_decide (state x = RTS_TASK_STATE_BLOCKED) &&
  (bool_decide (wait_reason (wait x) = RTS_WAIT_SEMAPHORE) ||
   bool_decide (wait_reason (wait x) = RTS_WAIT_MUTEX)) &&
  bool_decide (wait_result (wait x) = RTS_WAIT_RESULT_NONE) &&
  bool_decide (wait_object (wait x) ≠ None) && bool_decide (w_owner (wait_node s t) ≠ None) &&
  task_has_context x && (RTS_IDLE_PRIORITY <? priority x) && (priority x <? RTS_PRIORITY_COUNT) &&
  policy_valid s t false && eqb (wait_timeout_active (wait x)) (delayed s t) &&
  bool_decide (w_owner (wait_node s t) =
    if bool_decide (wait_reason (wait x) = RTS_WAIT_SEMAPHORE)
    then semaphore_waiters (wait_object (wait x)) else mutex_waiters (wait_object (wait x))) &&
  magic_is_valid x.

Definition blocked_wait (s : kernel) (t : task_ptr) : bool :=
  negb (bool_decide (Some t = k_idle_task s)) &&
  if rts_scheduler_task_is_timer_service s (Some t) then blocked_service s t
  else rts_task_handle_is_application_task (Some t) && blocked_sync s t.

Definition outgoing (s : kernel) (t : task_ptr) : bool :=
  bool_decide (Some t = k_current_task s) &&
  ((bool_decide (state (task s t) = RTS_TASK_STATE_RUNNING) && runnable s t) ||
   (bool_decide (state (task s t) = RTS_TASK_STATE_BLOCKED) && (blocked_delay s t || blocked_wait s t))).

(** Conjunctions of a read-only test. *)
Lemma andM_gets_run (f : kernel → bool) (m : K bool) b s :
  (f s = true → m s = Done b s) → (gets f &&& m) s = Done (f s && b) s.
Proof. intros Hm. unfold andM. rewrite bind_gets. destruct (f s); auto. Qed.
Lemma andM_run {S} (m1 m2 : M S bool) b1 b2 s :
  m1 s = Done b1 s → (b1 = true → m2 s = Done b2 s) → (m1 &&& m2) s = Done (b1 && b2) s.
Proof. intros H1 H2. unfold andM. rewrite (bind_run _ _ _ _ _ H1). destruct b1; auto. Qed.
Lemma orM_run {S} (m1 m2 : M S bool) b1 b2 s :
  m1 s = Done b1 s → (b1 = false → m2 s = Done b2 s) → (m1 ||| m2) s = Done (b1 || b2) s.
Proof. intros H1 H2. unfold orM. rewrite (bind_run _ _ _ _ _ H1). destruct b1; auto. Qed.

Lemma rts_delay_contains_linked s t : rts_delay_contains (Some t) s = Done (delayed s t) s.
Proof. done. Qed.

Lemma rts_scheduler_task_is_blocked_delay_run s t :
  priority (task s t) < RTS_PRIORITY_COUNT →
  rts_scheduler_task_is_blocked_delay (Some t) s = Done (blocked_delay s t) s.
Proof.
  intros Hp. unfold rts_scheduler_task_is_blocked_delay, blocked_delay. rewrite bind_gets.
  destruct (bool_decide (Some t = k_idle_task s)); [done|].
  destruct (rts_task_handle_is_application_task (Some t)); [|done]. cbn [negb orb andb].
  repeat (apply andM_run; [|done]). apply andM_run; [done|]. intros _. by apply rts_policy_validate_run.
Qed.

Lemma rts_scheduler_task_is_blocked_wait_run s t :
  priority (task s t) < RTS_PRIORITY_COUNT →
  rts_scheduler_task_is_blocked_wait (Some t) s = Done (blocked_wait s t) s.
Proof.
  intros Hp. unfold rts_scheduler_task_is_blocked_wait, blocked_wait. rewrite bind_gets.
  destruct (bool_decide (Some t = k_idle_task s)); [done|]. cbn [negb orb andb].
  destruct (rts_scheduler_task_is_timer_service s (Some t)) eqn:Es; cbn [negb].
  - rewrite andb_false_r, bind_gets, Es. repeat (apply andM_run; [|done]).
    apply andM_run; [done|]. intros _. by apply rts_policy_validate_run.
  - rewrite andb_true_r. destruct (rts_task_handle_is_application_task (Some t)); [|done]. cbn [negb andb].
    rewrite bind_gets, Es.
    repeat (apply andM_run; [|done]). apply andM_run; [done|]. intros _. by apply rts_policy_validate_run.
Qed.

Lemma rts_switch_outgoing_is_valid_run s t :
  priority (task s t) < RTS_PRIORITY_COUNT →
  rts_switch_outgoing_is_valid (Some t) s = Done (outgoing s t) s.
Proof.
  intros Hp. unfold rts_switch_outgoing_is_valid, outgoing.
  rewrite (bind_run _ _ _ _ _ (rts_scheduler_current_get_run s)).
  destruct (bool_decide (Some t = k_current_task s)); [|done]. cbn [negb andb].
  apply orM_run; [|intros _]; (apply andM_run; [done|intros _]).
  - by apply rts_scheduler_task_is_runnable_run.
  - apply orM_run; [by apply rts_scheduler_task_is_blocked_delay_run|intros _].
    by apply rts_scheduler_task_is_blocked_wait_run.
Qed.
End predicates.

(** ** The plan as a state machine *)

Section plan.
Context `{Config}.

Definition priorities_ok (s : kernel) : Prop := ∀ t, priority (task s t) < RTS_PRIORITY_COUNT.

(** A pending or active plan leaves the current task for another one. *)
Record plan_ok (s : kernel) : Prop := {
  plan_not_both : plan_pending (k_switch_plan s) = true → plan_active (k_switch_plan s) = false;
  plan_leaves_current :
    plan_pending (k_switch_plan s) = true ∨ plan_active (k_switch_plan s) = true →
    plan_from (k_switch_plan s) = k_current_task s;
  plan_enters_other :
    plan_pending (k_switch_plan s) = true ∨ plan_active (k_switch_plan s) = true →
    ∃ n, plan_to (k_switch_plan s) = Some n ∧ k_current_task s ≠ Some n
}.

Definition plan_cleared (p : rts_switch_plan) : rts_switch_plan :=
  mk_switch_plan None None false false (plan_reselection_required p) (plan_generation p).

(** The plan after [next] was chosen while [current] runs, and whether the
    port has to be notified. *)
Definition plan_prepared (current next : task_ptr) (p : rts_switch_plan) : rts_switch_plan * bool :=
  let generation := rts_switch_next_generation (plan_generation p) in
  if plan_active p then (p <| plan_reselection_required := true |>, false)
  else if decide (next = current) then
    if plan_pending p then (mk_switch_plan None None false false false generation, false)
    else (p <| plan_reselection_required := false |>, false)
  else if plan_pending p then
    if decide (plan_to p = Some next) then (p <| plan_reselection_required := false |>, false)
    else (mk_switch_plan (plan_from p) (Some next) true false false generation, false)
  else (mk_switch_plan (Some current) (Some next) true false false generation, true).

Definition prepared (current next : task_ptr) (s : kernel) : kernel :=
  let '(p, notify) := plan_prepared current next (k_switch_plan s) in
  let s' := upd_plan (λ _, p) s in
  if notify && RTS_ENABLE_RUNTIME_STATS
  then upd_counter switch_requests rts_diagnostic_counter_increment s' else s'.

Lemma runnable_state s t :
  runnable s t = true →
  state (task s t) = RTS_TASK_STATE_READY ∨
  (k_current_task s = Some t ∧ state (task s t) = RTS_TASK_STATE_RUNNING).
Proof.
  unfold runnable, runnable_identity_state. rewrite !andb_true_iff. intros [_ Hr]. revert Hr.
  destruct (_ || _); [done|]. rewrite !andb_true_iff, orb_true_iff, andb_true_iff, !bool_decide_eq_true.
  intros (((_&Hs)&_)&_). destruct Hs as [?|[]]; auto.
Qed.

Lemma rts_scheduler_prepare_switch_run s c n :
  priorities_ok s → plan_ok s → k_lifecycle s = RTS_KERNEL_RUNNING → k_current_task s = Some c →
  outgoing s c = true → runnable s n = true →
  rts_scheduler_prepare_switch (Some n) s =
    Done (plan_prepared c n (k_switch_plan s)).2 (prepared c n s).
Proof.
  intros Hp [Hone Hfrom Hto] Hrun Hcur Hout Hn.
  pose proof (rts_scheduler_current_get_run s) as Hc. rewrite Hcur in Hc.
  pose proof (rts_switch_outgoing_is_valid_run s c (Hp c)) as Ho. rewrite Hout in Ho.
  pose proof (rts_scheduler_task_is_runnable_run s n (Hp n)) as Hr. rewrite Hn in Hr.
  assert (gets (λ s, bool_decide (k_lifecycle s = RTS_KERNEL_RUNNING)) s = Done true s) as Hl
    by (unfold gets; f_equal; by apply bool_decide_true).
  unfold rts_scheduler_prepare_switch.
  rewrite assert_run by done. rewrite assert_run by by rewrite (bind_run _ _ _ _ _ Hc).
  rewrite assert_run by by rewrite (bind_run _ _ _ _ _ Hc). rewrite assert_run by done.
  rewrite assert_run by by rewrite orM_false.
  rewrite (bind_run _ _ s true s)
    by (rewrite andM_true; [done|rewrite andM_true by done; by rewrite (bind_run _ _ _ _ _ Hc)]).
  cbn [negb]. rewrite bind_gets. unfold prepared, plan_prepared.
  destruct s as [a1 a2 a3 a4 a5 a6 a7 [from to pend act res gen] a9 a10 a11 a12 a13 a14 a15 a16 a17 a18 a19 a20 a21 a22 a23 a24 a25].
  cbn [k_switch_plan plan_active plan_pending plan_from plan_to plan_generation k_current_task] in *.
  destruct act; [done|]. rewrite bind_modify.
  rewrite (bind_run _ _ _ _ _ (rts_scheduler_current_get_run _)). cbn [upd_plan k_current_task].
  destruct (decide (n = c)) as [->|Hne].
  - rewrite bool_decide_true by by rewrite Hcur.
    destruct pend; [|done]. cbn [when]. rewrite bind_bind, assert_run; [done|].
    unfold ret. f_equal. apply bool_decide_true. apply Hfrom. auto.
  - rewrite (bool_decide_false (Some n = _)) by (cbn; rewrite Hcur; by intros [= ->]).
    assert (state (task (mk_kernel a1 a2 a3 a4 a5 a6 a7 (mk_switch_plan from to pend false res gen) a9 a10 a11 a12 a13 a14 a15 a16 a17 a18 a19 a20 a21 a22 a23 a24 a25) n) = RTS_TASK_STATE_READY) as Hready.
    { apply runnable_state in Hn as [?|[E _]]; [done|]. cbn in E. congruence. }
    rewrite assert_run by (unfold gets; f_equal; by apply bool_decide_true).
    rewrite bind_gets, bool_decide_true by done. cbn [negb].
    destruct pend; cbn [negb].
    + destruct (Hto ltac:(auto)) as (m&Em&Hm). rewrite (Hfrom ltac:(auto)) in *. subst to.
      rewrite assert_run by (unfold ret; f_equal; by apply bool_decide_true).
      rewrite assert_run by done. rewrite bool_decide_true, bool_decide_false by done. cbn [negb orb].
      destruct (decide (Some m = Some n)) as [E|E]; [rewrite bool_decide_true by done|rewrite bool_decide_false by done]; done.
    + rewrite !bind_modify. unfold RTS_DIAG_COUNTER_INC. rewrite Hcur. by destruct RTS_ENABLE_RUNTIME_STATS.
Qed.

Definition plan_snapshot (p : rts_switch_plan) : rts_switch_snapshot :=
  mk_switch_snapshot (plan_from p) (plan_to p) (plan_generation p).
Definition plan_acquired (p : rts_switch_plan) : rts_switch_plan :=
  p <| plan_pending := false |> <| plan_active := true |>.

Lemma rts_scheduler_switch_acquire_run s c n :
  priorities_ok s → k_lifecycle s = RTS_KERNEL_RUNNING → plan_ok s →
  plan_pending (k_switch_plan s) = true → k_current_task s = Some c →
  plan_to (k_switch_plan s) = Some n → outgoing s c = true → runnable s n = true →
  rts_scheduler_switch_acquire s =
    Done (Some (plan_snapshot (k_switch_plan s))) (upd_plan plan_acquired s).
Proof.
  intros Hp Hrun [Hone Hfrom Hto] Hpend Hcur Hpto Hout Hn.
  pose proof (rts_scheduler_current_get_run s) as Hc. rewrite Hcur in Hc.
  specialize (Hone Hpend). specialize (Hfrom (or_introl Hpend)). rewrite Hcur in Hfrom.
  destruct (Hto (or_introl Hpend)) as (m&Em&Hm). rewrite Hpto in Em. injection Em as <-.
  rewrite Hcur in Hm. assert (Some c ≠ Some n) as Hne by done.
  pose proof (rts_switch_outgoing_is_valid_run s c (Hp c)) as Ho. rewrite Hout in Ho.
  pose proof (rts_scheduler_task_is_runnable_run s n (Hp n)) as Hr. rewrite Hn in Hr.
  assert (gets (λ s, bool_decide (state (task s n) = RTS_TASK_STATE_READY)) s = Done true s) as Hready.
  { unfold gets. f_equal. apply bool_decide_true. apply runnable_state in Hn as [?|[E _]]; [done|]. congruence. }
  unfold rts_scheduler_switch_acquire.
  rewrite assert_run by (unfold gets; f_equal; by apply bool_decide_true).
  rewrite assert_run by (unfold gets; by rewrite Hone).
  rewrite bind_gets, Hone, bool_decide_true by done. cbn [negb orb]. rewrite bind_gets, Hpend. cbn [negb].
  rewrite (bind_run _ _ _ _ _ Hc), Hfrom, Hpto.
  rewrite assert_run by (unfold ret; f_equal; by apply bool_decide_true).
  rewrite assert_run by done. rewrite assert_run by (unfold ret; by rewrite bool_decide_false).
  rewrite assert_run by by rewrite orM_false. rewrite assert_run by done.
  rewrite assert_run by by rewrite orM_false.
  rewrite !bool_decide_true, !bool_decide_false by done. cbn [negb orb deref]. rewrite bind_ret.
  rewrite (bind_run _ _ s true s) by (rewrite andM_true; [done|by rewrite andM_true]). cbn [negb].
  rewrite !bind_modify. unfold ret, plan_snapshot. by rewrite Hfrom, Hpto.
Qed.

(** The members of a task that scheduling decisions do not write. *)
Definition task_core (x : rts_tcb) : rts_tcb :=
  x <| state := RTS_TASK_STATE_DORMANT |> <| slice_remaining := 0 |>
    <| diagnostic_dispatch_count := 0 |> <| diagnostic_block_count := 0 |>
    <| diagnostic_wake_count := 0 |> <| diagnostic_running_ticks := 0 |>
    <| diagnostic_last_start_tick := 0 |> <| diagnostic_max_stack_used := 0 |>.

(** The parts of the store that the tests of task [t] read, besides its state. *)
Record same_task_view (s s' : kernel) (t : task_ptr) : Prop := {
  view_core : task_core (task s' t) = task_core (task s t);
  view_ready : node s' (NReady t) = node s (NReady t);
  view_delay : node s' (NDelay t) = node s (NDelay t);
  view_wait : wait_node s' t = wait_node s t;
  view_idle : k_idle_task s' = k_idle_task s;
  view_service : k_timer_service_task s' = k_timer_service_task s
}.

Lemma runnable_view s s' t :
  same_task_view s s' t → runnable s t = true →
  state (task s' t) = RTS_TASK_STATE_READY ∨
  (k_current_task s' = Some t ∧ state (task s' t) = RTS_TASK_STATE_RUNNING) →
  runnable s' t = true.
Proof.
  intros [Ec Er Ed Ew Ei Es] Hr Hst. revert Hr.
  assert (bool_decide (state (task s' t) = RTS_TASK_STATE_READY) ||
    (bool_decide (Some t = k_current_task s') && bool_decide (state (task s' t) = RTS_TASK_STATE_RUNNING)) = true) as Hst'.
  { rewrite orb_true_iff, andb_true_iff, !bool_decide_eq_true. naive_solver. }
  unfold runnable, task_has_context, task_waits_for_nothing, policy_valid, policy_linked, edf_linked,
    runnable_identity_state, rts_scheduler_task_is_idle, rts_scheduler_task_is_timer_service, magic_is_valid.
  rewrite Er, Ed, Ew, Ei, Es, Hst'.
  destruct (task s' t) as [], (task s t) as []. injection Ec as -> -> -> -> -> -> -> -> -> -> -> -> -> -> -> -> -> -> ->.
  cbn. destruct ((_ <? _) || (_ <=? _)); [by rewrite !andb_false_r|].
  rewrite !andb_true_iff. tauto.
Qed.

(** [s'] is [s] after the processor moved from [c] to [n]. *)
Record switched (s s' : kernel) (c n : task_ptr) : Prop := {
  sw_current : k_current_task s' = Some n;
  sw_entered : state (task s' n) = RTS_TASK_STATE_RUNNING;
  sw_slice : slice_remaining (task s' n) = RTS_TIME_SLICE_TICKS;
  sw_left : state (task s' c) =
    if decide (state (task s c) = RTS_TASK_STATE_RUNNING) then RTS_TASK_STATE_READY
    else state (task s c);
  sw_core t : task_core (task s' t) = task_core (task s t);
  sw_others t : t ≠ c → t ≠ n → task s' t = task s t;
  sw_plan : k_switch_plan s' = plan_cleared (k_switch_plan s);
  sw_heap : k_heap s' = k_heap s;
  sw_wait_nodes : k_wait_nodes s' = k_wait_nodes s;
  sw_waiters : k_waiters s' = k_waiters s;
  sw_bitmap : k_ready_bitmap s' = k_ready_bitmap s;
  sw_lifecycle : k_lifecycle s' = k_lifecycle s;
  sw_idle : k_idle_task s' = k_idle_task s;
  sw_service : k_timer_service_task s' = k_timer_service_task s;
  sw_tick : k_current_tick s' = k_current_tick s;
  sw_mutexes : k_mutexes s' = k_mutexes s;
  sw_memory : k_memory s' = k_memory s;
  sw_nesting : same_nesting s s'
}.

Lemma switched_view s s' c n t : switched s s' c n → same_task_view s s' t.
Proof.
  intros Hs. split; [apply Hs|..]; unfold node, wait_node;
    rewrite ?(sw_heap _ _ _ _ Hs), ?(sw_wait_nodes _ _ _ _ Hs); try done; apply Hs.
Qed.

Lemma rts_scheduler_current_is_valid_run s t :
  priority (task s t) < RTS_PRIORITY_COUNT → k_current_task s = Some t →
  rts_scheduler_current_is_valid s = Done (lifecycle_schedules s &&
    bool_decide (state (task s t) = RTS_TASK_STATE_RUNNING) && runnable s t) s.
Proof.
  intros Hp Hc. unfold rts_scheduler_current_is_valid.
  rewrite (bind_run _ _ _ _ _ (rts_scheduler_current_get_run s)), Hc.
  apply andM_run; [done|]. intros _. by apply rts_scheduler_task_is_runnable_run.
Qed.

(** The stacks of a task are intact. *)
Definition stack_sound (s : kernel) (t : task_ptr) : Prop :=
  rts_stack_guard_is_valid (Some t) s = Done true s ∧ rts_stack_saved_sp_is_valid (Some t) s = Done true s.

Lemma switched_checked s s' c n :
  switched s s' c n → priorities_ok s → k_lifecycle s = RTS_KERNEL_RUNNING → runnable s n = true →
  wp (RTS_FATAL_UNLESS rts_scheduler_current_is_valid) (λ _ s'', switched s s'' c n ∧ runnable s'' n = true) s'.
Proof.
  intros Hs Hp Hrun Hn.
  assert (runnable s' n = true) as Hn'.
  { eapply runnable_view; [by eapply switched_view|done|]. right. split; apply Hs. }
  assert (priority (task s' n) = priority (task s n)) as Ep by apply (f_equal priority (sw_core _ _ _ _ Hs n)).
  apply wp_RTS_FATAL_UNLESS; [|done].
  rewrite (rts_scheduler_current_is_valid_run s' n); [|rewrite Ep; apply Hp|apply Hs].
  unfold lifecycle_schedules. rewrite Hn', (sw_lifecycle _ _ _ _ Hs), Hrun, (sw_entered _ _ _ _ Hs). done.
Qed.

(** Statistics of one task, and of the kernel. *)
Definition diag_frame (s s' : kernel) (t : task_ptr) : Prop :=
  (∃ ts, s' = s <| k_tasks := ts |>) ∧ (∀ u, u ≠ t → task s' u = task s u) ∧
  task_core (task s' t) = task_core (task s t) ∧ state (task s' t) = state (task s t) ∧
  slice_remaining (task s' t) = slice_remaining (task s t).
Definition counter_frame (s s' : kernel) : Prop := ∃ cs, s' = s <| k_runtime_counters := cs |>.

Lemma diag_frame_refl s t : diag_frame s s t.
Proof. split_and!; [exists (k_tasks s); by destruct s|done..]. Qed.

Lemma diag_frame_upd s t f :
  (∀ x, task_core (f x) = task_core x) → (∀ x, state (f x) = state x) →
  (∀ x, slice_remaining (f x) = slice_remaining x) → diag_frame s (upd_task t f s) t.
Proof.
  intros Hc Hs Hr. split_and!; [by eexists| |rewrite task_upd_task, decide_True by done; auto..].
  intros u Hu. by rewrite task_upd_task, decide_False.
Qed.

Lemma rts_runtime_task_stopped_spec t now s :
  wp (rts_runtime_task_stopped (Some t) now) (λ _ s', diag_frame s s' t) s.
Proof.
  unfold rts_runtime_task_stopped. destruct RTS_ENABLE_RUNTIME_STATS; [|apply diag_frame_refl].
  apply wp_modify. by apply diag_frame_upd.
Qed.

Lemma rts_runtime_task_started_spec t now s :
  wp (rts_runtime_task_started (Some t) now) (λ _ s', diag_frame s s' t) s.
Proof.
  unfold rts_runtime_task_started. destruct RTS_ENABLE_RUNTIME_STATS; [|apply diag_frame_refl].
  apply wp_bind, wp_modify, wp_modify.
  split_and!; [by eexists| |rewrite !task_upd_task, !decide_True by done; done..].
  intros u Hu. by rewrite !task_upd_task, !decide_False.
Qed.

Lemma RTS_DIAG_COUNTER_INC_spec c s : wp (RTS_DIAG_COUNTER_INC c) (λ _ s', counter_frame s s') s.
Proof.
  unfold RTS_DIAG_COUNTER_INC. destruct RTS_ENABLE_RUNTIME_STATS; [by eexists|].
  exists (k_runtime_counters s). by destruct s.
Qed.

Lemma task_set_current s c u : task (s <| k_current_task := c |>) u = task s u.
Proof. done. Qed.

Lemma rts_scheduler_switch_complete_spec s c n :
  priorities_ok s → port_room s → k_lifecycle s = RTS_KERNEL_RUNNING → k_current_task s = Some c → c ≠ n →
  plan_active (k_switch_plan s) = true → plan_pending (k_switch_plan s) = false →
  plan_from (k_switch_plan s) = Some c → plan_to (k_switch_plan s) = Some n →
  outgoing s c = true → runnable s n = true → stack_sound s c → stack_sound s n →
  wp (rts_scheduler_switch_complete (plan_snapshot (k_switch_plan s)))
     (λ _ s', switched s s' c n ∧ runnable s' n = true) s.
Proof.
  intros Hp Hroom Hrun Hcur Hne Hact Hpend Hfrom Hto Hout Hn [Hgc Hsc] [Hgn Hsn].
  pose proof (rts_scheduler_current_get_run s) as Hc. rewrite Hcur in Hc.
  pose proof (rts_switch_outgoing_is_valid_run s c (Hp c)) as Ho. rewrite Hout in Ho.
  pose proof (rts_scheduler_task_is_runnable_run s n (Hp n)) as Hr. rewrite Hn in Hr.
  assert (state (task s n) = RTS_TASK_STATE_READY) as Hready
    by (apply runnable_state in Hn as [?|[E _]]; [done|congruence]).
  assert (state (task s c) = RTS_TASK_STATE_RUNNING ∨ state (task s c) = RTS_TASK_STATE_BLOCKED) as Hst.
  { unfold outgoing in Hout. apply andb_true_iff in Hout as [_ Hout].
    apply orb_true_iff in Hout as [[Hx _]%andb_true_iff|[Hx _]%andb_true_iff];
      apply bool_decide_eq_true in Hx; auto. }
  unfold rts_scheduler_switch_complete, plan_snapshot. rewrite Hfrom, Hto. cbn [snap_from snap_to snap_generation].
  apply wp_bind. eapply (wp_run _ _ _ false).
  { repeat apply (orM_run _ _ false false); try intros _; by rewrite (notM_run _ true). }
  cbn [when]. apply wp_bind, wp_ret, wp_bind. eapply (wp_run _ _ _ true).
  { repeat apply (andM_run _ _ true true); try intros _; [..|done].
    - unfold gets. f_equal. rewrite Hact, Hpend, Z.eqb_refl, Hfrom, Hto, !bool_decide_true by done.
      by rewrite bool_decide_false by congruence.
    - rewrite (bind_run _ _ _ _ _ Hc). unfold ret. f_equal. by apply bool_decide_true.
    - done.
    - cbn [deref]. rewrite bind_ret. unfold gets. f_equal. by apply bool_decide_true. }
  apply wp_bind, wp_RTS_ASSERT; [done|]. cbn [negb deref]. do 2 apply wp_bind, wp_ret.
  apply wp_bind, wp_gets.
  apply wp_bind. eapply wp_mono; [apply rts_runtime_task_stopped_spec|].
  intros [] s1 ((ts1&E1)&Ho1&Hc1&Hs1&_).
  apply wp_bind, wp_gets. rewrite Hs1.
  apply wp_bind. eapply (wp_mono _ (λ _ s2, ∃ ts2, s2 = s <| k_tasks := ts2 |> ∧
    (∀ u, u ≠ c → task s2 u = task s u) ∧ task_core (task s2 c) = task_core (task s c) ∧
    state (task s2 c) = if decide (state (task s c) = RTS_TASK_STATE_RUNNING)
                        then RTS_TASK_STATE_READY else state (task s c))).
  { case_bool_decide as Hrn.
    - apply wp_modify. rewrite decide_True by done. subst s1. eexists. split_and!; [reflexivity| | |].
      + intros u Hu. rewrite task_upd_task, decide_False by done. auto.
      + rewrite task_upd_task, decide_True by done. exact Hc1.
      + by rewrite task_upd_task, decide_True.
    - apply wp_RTS_FATAL_UNLESS.
      + unfold gets. f_equal. apply bool_decide_true. rewrite Hs1. by destruct Hst.
      + rewrite decide_False by done. exists ts1. auto. }
  intros [] s2 (ts2&->&Ho2&Hc2&Hs2).
  do 2 apply wp_bind, wp_modify. apply wp_bind. eapply wp_run; [apply rts_scheduler_set_current_run|].
  apply wp_bind. eapply wp_mono; [apply rts_runtime_task_started_spec|].
  intros [] s3 ((ts3&->)&Ho3&Hc3&Hs3&Hl3).
  apply wp_bind. eapply wp_mono; [apply RTS_DIAG_COUNTER_INC_spec|]. intros [] s4 (cs&->).
  do 2 apply wp_bind, wp_gets.
  apply wp_bind. eapply wp_mono; [by apply RTS_TRACE_spec|]. intros [] s5 (tok&tr&->&Htok).
  apply wp_bind, wp_modify.
  eapply switched_checked; [|done..].
  rewrite !task_set_current, !task_upd_task, !decide_True in Hc3, Hs3, Hl3 by done.
  assert (∀ u, u ≠ n → ts3 !!! u = ts2 !!! u) as Ho4.
  { intros u Hu. etransitivity; [exact (Ho3 u Hu)|].
    by rewrite task_set_current, !task_upd_task, !decide_False. }
  split; try done.
  - change (state (ts3 !!! c) = if decide (state (task s c) = RTS_TASK_STATE_RUNNING)
      then RTS_TASK_STATE_READY else state (task s c)). by rewrite Ho4.
  - intros u. change (task_core (ts3 !!! u) = task_core (task s u)). destruct (decide (u = n)) as [->|Hu].
    + etransitivity; [exact Hc3|]. exact (f_equal task_core (Ho2 n (not_eq_sym Hne))).
    + rewrite Ho4 by done. destruct (decide (u = c)) as [->|Huc]; [exact Hc2|].
      exact (f_equal task_core (Ho2 u Huc)).
  - intros u Hc' Hn'. change (ts3 !!! u = task s u). rewrite Ho4 by done. by apply Ho2.
Qed.
End plan.

(** ** What the protocol guarantees *)

Section switch_claims.
Context `{Config}.

Lemma plan_ok_idle s :
  plan_pending (k_switch_plan s) = false → plan_active (k_switch_plan s) = false → plan_ok s.
Proof. intros Hp Ha. split; rewrite Hp, ?Ha; [done|by intros []..]. Qed.

Lemma prepared_plan c n s : k_switch_plan (prepared c n s) = (plan_prepared c n (k_switch_plan s)).1.
Proof. unfold prepared. destruct (plan_prepared _ _ _) as [p b]. by destruct (b && _). Qed.

Lemma prepared_frame c n s :
  ∃ p cs, prepared c n s = s <| k_switch_plan := p |> <| k_runtime_counters := cs |>.
Proof.
  unfold prepared. destruct (plan_prepared _ _ _) as [p b].
  destruct (b && _); eexists p, _; [reflexivity|]. unfold upd_plan. by destruct s.
Qed.

Lemma plan_prepared_ok s s' c n :
  plan_ok s → k_current_task s = Some c → k_current_task s' = k_current_task s →
  k_switch_plan s' = (plan_prepared c n (k_switch_plan s)).1 → plan_ok s'.
Proof.
  intros [Hone Hfrom Hto] Hcur Hcur' Ep. unfold plan_prepared in Ep.
  destruct (k_switch_plan s) as [from to pend act res gen]; cbn in *. rewrite Hcur in *.
  split; rewrite Ep, ?Hcur'; destruct act, pend, (decide (n = c)); cbn; try done; try case_decide; cbn; auto;
    try (by intros []); intros _; exists n; split; congruence.
Qed.

(** C26: choosing the task to run next updates the switch plan as a state
    machine.  While a switch is being committed the request is only recorded
    for reselection.  Otherwise the plan ends pending exactly when another task
    than the current one was chosen, from the current task to that task; the
    port is told exactly when no switch was pending before; and the generation
    moves on whenever the planned transition changes. *)
Theorem switch_plan_prepare_correct s c n :
  priorities_ok s → plan_ok s → k_lifecycle s = RTS_KERNEL_RUNNING → k_current_task s = Some c →
  outgoing s c = true → runnable s n = true →
  wp (rts_scheduler_prepare_switch (Some n)) (λ notify s',
    let p := k_switch_plan s in let p' := k_switch_plan s' in
    plan_ok s' ∧ (∀ t, task s' t = task s t) ∧ k_heap s' = k_heap s ∧
    if plan_active p then p' = p <| plan_reselection_required := true |> ∧ notify = false
    else
      plan_active p' = false ∧ plan_reselection_required p' = false ∧
      plan_pending p' = bool_decide (n ≠ c) ∧
      (n ≠ c → plan_from p' = Some c ∧ plan_to p' = Some n) ∧
      notify = bool_decide (n ≠ c) && negb (plan_pending p) ∧
      plan_generation p' =
        if bool_decide (plan_pending p' = plan_pending p ∧ (n ≠ c → plan_to p' = plan_to p))
        then plan_generation p else u32 (plan_generation p + 1)) s.
Proof.
  intros Hp Hok Hrun Hcur Hout Hn. eapply wp_run; [by eapply rts_scheduler_prepare_switch_run|].
  cbv zeta. rewrite prepared_plan. destruct (prepared_frame c n s) as (p'&cs&E).
  assert (∀ P, (k_switch_plan (prepared c n s) = (plan_prepared c n (k_switch_plan s)).1 →
    k_current_task (prepared c n s) = Some c → P (prepared c n s)) → P (prepared c n s)) as Hgen.
  { intros P HP. apply HP; [apply prepared_plan|]. by rewrite E. }
  split_and!; [|by rewrite E|by rewrite E|].
  - apply Hgen. intros Ep Ec. apply (plan_prepared_ok s _ c n); congruence.
  - destruct Hok as [Hone Hfrom Hto]. unfold plan_prepared.
    destruct (k_switch_plan s) as [from to pend act res gen]; cbn in *. rewrite Hcur in *.
    destruct act; [done|]. destruct (decide (n = c)) as [->|Hne].
    + rewrite (bool_decide_false (c ≠ c)) by auto.
      destruct pend; cbn; split_and!; try done; try (by intros []).
      rewrite bool_decide_true; [done|]. split; [done|]. by intros [].
    + rewrite (bool_decide_true (n ≠ c)) by done. destruct pend; cbn.
      * destruct (Hto ltac:(auto)) as (m&->&Hm). rewrite (Hfrom ltac:(auto)).
        destruct (decide (Some m = Some n)) as [Em|Em]; cbn; split_and!; try done.
        -- by rewrite bool_decide_true.
        -- rewrite bool_decide_false; [done|]. intros [_ E']. by specialize (E' Hne).
      * by split_and!.
Qed.

(** What the port does with a chosen task: plan, acquire and commit the switch. *)
Definition switch_to (n : task_ptr) : K bool :=
  let* notify := rts_scheduler_prepare_switch (Some n) in
  let* snapshot := rts_scheduler_switch_acquire in
  match snapshot with
  | None => ret false
  | Some snapshot => rts_scheduler_switch_complete snapshot ;;; ret notify
  end.

(** The parts the tests read survive a change of the plan and the counters. *)
Lemma tests_plan_frame s p cs t :
  let s' := s <| k_switch_plan := p |> <| k_runtime_counters := cs |> in
  runnable s' t = runnable s t ∧ outgoing s' t = outgoing s t.
Proof. done. Qed.

(** The stack tests read the task and the memory. *)
Lemma stack_sound_frame s s' t :
  stack_sound s t → task s' t = task s t → k_memory s' = k_memory s → stack_sound s' t.
Proof.
  intros [Hg Hs] Et Em. split.
  - revert Hg. unfold rts_stack_guard_is_valid. destruct RTS_ENABLE_STACK_GUARDS; [|done]. cbn [negb].
    rewrite !bind_gets, Et. destruct (_ || _); [done|].
    rewrite (all_of_run _ _ (λ i, load_byte s (stack_low (task s t) + i) =? RTS_STACK_GUARD_PATTERN) s) by done.
    rewrite (all_of_run _ _ (λ i, load_byte s (stack_low (task s t) + i) =? RTS_STACK_GUARD_PATTERN) s');
      [by intros [= ->]|]. intros x _. unfold gets, load_byte. by rewrite Em.
  - revert Hs. unfold rts_stack_saved_sp_is_valid, gets. rewrite Et. by intros [= ->].
Qed.

(** C1: planning, acquiring and completing a switch to a runnable task moves the
    processor to it: it is the current task, running, with a full time slice;
    the task that was left is ready, or still blocked if it blocked; no other
    task, queue or wait chain changes; the plan is idle again; and if the
    current task was the only one running, the new one is. *)
Theorem switch_protocol_commits s c n :
  priorities_ok s → port_room s → k_lifecycle s = RTS_KERNEL_RUNNING →
  plan_pending (k_switch_plan s) = false → plan_active (k_switch_plan s) = false →
  k_current_task s = Some c → c ≠ n → outgoing s c = true → runnable s n = true →
  stack_sound s c → stack_sound s n →
  wp (switch_to n) (λ notify s', notify = true ∧
    k_current_task s' = Some n ∧ state (task s' n) = RTS_TASK_STATE_RUNNING ∧
    slice_remaining (task s' n) = RTS_TIME_SLICE_TICKS ∧ runnable s' n = true ∧
    state (task s' c) = (if decide (state (task s c) = RTS_TASK_STATE_RUNNING)
                         then RTS_TASK_STATE_READY else state (task s c)) ∧
    (∀ t, t ≠ c → t ≠ n → task s' t = task s t) ∧
    k_heap s' = k_heap s ∧ k_wait_nodes s' = k_wait_nodes s ∧
    plan_ok s' ∧ plan_pending (k_switch_plan s') = false ∧ plan_active (k_switch_plan s') = false ∧
    same_nesting s s' ∧
    ((∀ t, state (task s t) = RTS_TASK_STATE_RUNNING → t = c) →
     ∀ t, state (task s' t) = RTS_TASK_STATE_RUNNING → t = n)) s.
Proof.
  intros Hp Hroom Hrun Hpend Hact Hcur Hne Hout Hn Hsc Hsn.
  pose proof (plan_ok_idle s Hpend Hact) as Hok.
  unfold switch_to. apply wp_bind. eapply wp_run; [by eapply rts_scheduler_prepare_switch_run|].
  assert ((plan_prepared c n (k_switch_plan s)) =
    (mk_switch_plan (Some c) (Some n) true false false
       (rts_switch_next_generation (plan_generation (k_switch_plan s))), true)) as Epl.
  { unfold plan_prepared. by rewrite Hact, decide_False, Hpend. }
  pose proof (prepared_plan c n s) as Ep. rewrite Epl in Ep. cbn in Ep.
  assert (plan_ok (prepared c n s)) as Hok1.
  { destruct (prepared_frame c n s) as (p'&cs&E). eapply (plan_prepared_ok s _ c n); [done..|by rewrite E|].
    by rewrite Ep, Epl. }
  destruct (prepared_frame c n s) as (p'&cs&E). rewrite E in *. cbn in Ep. subst p'.
  rewrite Epl. cbn [snd]. set (s1 := s <| k_switch_plan := _ |> <| k_runtime_counters := cs |>) in *.
  apply wp_bind. eapply wp_run.
  { apply (rts_scheduler_switch_acquire_run s1 c n);
      [exact Hp|exact Hrun|exact Hok1|done|exact Hcur|done|exact Hout|exact Hn]. }
  set (s2 := upd_plan plan_acquired s1).
  assert (stack_sound s2 c) as Hsc' by by apply (stack_sound_frame s).
  assert (stack_sound s2 n) as Hsn' by by apply (stack_sound_frame s).
  apply wp_bind. eapply wp_mono.
  { apply (rts_scheduler_switch_complete_spec s2 c n);
      [exact Hp|exact Hroom|exact Hrun|exact Hcur|done..|exact Hout|exact Hn|exact Hsc'|exact Hsn']. }
  intros [] s3 [Hsw Hn3]. apply wp_ret. split_and!; try apply Hsw; try done.
  - apply plan_ok_idle; by rewrite (sw_plan _ _ _ _ Hsw).
  - by rewrite (sw_plan _ _ _ _ Hsw).
  - by rewrite (sw_plan _ _ _ _ Hsw).
  - intros Honly t Ht. destruct (decide (t = n)) as [|Htn]; [done|].
    destruct (decide (t = c)) as [->|Htc].
    + rewrite (sw_left _ _ _ _ Hsw) in Ht. case_decide as Hd; [done|]. by apply Hd in Ht.
    + rewrite (sw_others _ _ _ _ Hsw t Htc Htn) in Ht. by apply Honly in Ht.
Qed.

(** The stack tests answer and change nothing. *)
Lemma stack_tests_run s t : ∃ g sp,
  rts_stack_guard_is_valid t s = Done g s ∧ rts_stack_saved_sp_is_valid t s = Done sp s.
Proof.
  unfold rts_stack_guard_is_valid, rts_stack_saved_sp_is_valid.
  destruct t as [t|]; [|destruct RTS_ENABLE_STACK_GUARDS; eexists _, _; split; reflexivity].
  assert (∃ g, (if negb RTS_ENABLE_STACK_GUARDS then ret true else
    let* low := gets (λ s, stack_low (task s t)) in
    let* high := gets (λ s, stack_high (task s t)) in
    if (low =? 0) || (high =? 0) || (size_t (high - low) <? RTS_STACK_GUARD_SIZE_BYTES) then ret false
    else all_of (seqZ 0 RTS_STACK_GUARD_SIZE_BYTES) (λ index,
      gets (λ s, load_byte s (low + index) =? RTS_STACK_GUARD_PATTERN))) s = Done g s) as [g Hg].
  { destruct RTS_ENABLE_STACK_GUARDS; [|by eexists]. cbn [negb]. rewrite !bind_gets.
    destruct (_ || _); [by eexists|]. eexists. by apply all_of_run. }
  eexists g, _. split; [exact Hg|reflexivity].
Qed.

(** The snapshot names two tasks whose stacks are intact. *)
Definition stacks_intact (s : kernel) (snapshot : rts_switch_snapshot) : Prop :=
  ∃ c n, snap_from snapshot = Some c ∧ snap_to snapshot = Some n ∧ stack_sound s c ∧ stack_sound s n.

(** The snapshot is that of the plan in progress, and the switch it describes
    can still be made. *)
Definition matches_plan (s : kernel) (snapshot : rts_switch_snapshot) : Prop :=
  k_lifecycle s = RTS_KERNEL_RUNNING ∧
  plan_active (k_switch_plan s) = true ∧ plan_pending (k_switch_plan s) = false ∧
  snapshot = plan_snapshot (k_switch_plan s) ∧
  ∃ c n, snap_from snapshot = Some c ∧ snap_to snapshot = Some n ∧ c ≠ n ∧ k_current_task s = Some c ∧
    outgoing s c = true ∧ state (task s n) = RTS_TASK_STATE_READY ∧ runnable s n = true.

Lemma stack_corruption_detected s snapshot :
  ¬ stacks_intact s snapshot →
  rts_scheduler_switch_complete snapshot s = Fatal RTS_FATAL_STACK_CORRUPTION s.
Proof.
  intros Hns. destruct (stack_tests_run s (snap_from snapshot)) as (g1&p1&Hg1&Hp1).
  destruct (stack_tests_run s (snap_to snapshot)) as (g2&p2&Hg2&Hp2).
  unfold rts_scheduler_switch_complete. rewrite (bind_run _ _ s (negb g1 || negb g2 || negb p1 || negb p2) s).
  - destruct g1, g2, p1, p2; try reflexivity. destruct Hns.
    destruct (snap_from snapshot) as [c|] eqn:Ef; [|done]. destruct (snap_to snapshot) as [n|] eqn:Et; [|done].
    by exists c, n.
  - repeat (apply orM_run; [|intros _]); by apply notM_run.
Qed.

Lemma switch_complete_tested s snapshot c n :
  priorities_ok s → snap_from snapshot = Some c → snap_to snapshot = Some n →
  let p := k_switch_plan s in
  (gets (λ s, bool_decide (k_lifecycle s = RTS_KERNEL_RUNNING) &&
      plan_active (k_switch_plan s) && negb (plan_pending (k_switch_plan s)) &&
      (snap_generation snapshot =? plan_generation (k_switch_plan s)) &&
      bool_decide (snap_from snapshot = plan_from (k_switch_plan s)) &&
      bool_decide (snap_to snapshot = plan_to (k_switch_plan s)) &&
      negb (bool_decide (snap_from snapshot = snap_to snapshot))) &&&
    (let* current := rts_scheduler_current_get in ret (bool_decide (current = snap_from snapshot))) &&&
    rts_switch_outgoing_is_valid (snap_from snapshot) &&&
    (let* to := deref (snap_to snapshot) in
     gets (λ s, bool_decide (state (task s to) = RTS_TASK_STATE_READY))) &&&
    rts_scheduler_task_is_runnable (snap_to snapshot)) s =
  Done (bool_decide (k_lifecycle s = RTS_KERNEL_RUNNING) && plan_active p && negb (plan_pending p) &&
    (snap_generation snapshot =? plan_generation p) && bool_decide (Some c = plan_from p) &&
    bool_decide (Some n = plan_to p) && negb (bool_decide (Some c = Some n)) &&
    bool_decide (k_current_task s = Some c) && outgoing s c &&
    bool_decide (state (task s n) = RTS_TASK_STATE_READY) && runnable s n) s.
Proof.
  intros Hp -> ->. cbn zeta. pose proof (rts_scheduler_current_get_run s) as Hc.
  apply andM_run; [|intros _; by apply rts_scheduler_task_is_runnable_run].
  apply andM_run; [|done]. apply andM_run; [|intros _; by apply rts_switch_outgoing_is_valid_run].
  apply andM_run; [done|intros _]. by rewrite (bind_run _ _ _ _ _ Hc).
Qed.

(** C27: Completing a switch commits exactly the plan in progress (when every
    priority is in range and one more critical section fits).  A snapshot
    that names no task or a task whose stack is damaged is a fatal stack
    corruption; any other snapshot that is not the active, acquired plan, field
    by field, or whose tasks can no longer be switched, is a fatal assertion, or,
    with assertions compiled out, a return with the store unchanged; the
    plan's own snapshot makes the switch. *)
Theorem switch_complete_exact s snapshot :
  priorities_ok s → port_room s →
  (¬ stacks_intact s snapshot → rts_scheduler_switch_complete snapshot s = Fatal RTS_FATAL_STACK_CORRUPTION s) ∧
  (stacks_intact s snapshot → ¬ matches_plan s snapshot →
    rts_scheduler_switch_complete snapshot s =
      if RTS_ENABLE_ASSERTIONS then Fatal RTS_FATAL_ASSERTION s else Done tt s) ∧
  (stacks_intact s snapshot → matches_plan s snapshot → ∃ c n,
    snap_from snapshot = Some c ∧ snap_to snapshot = Some n ∧
    wp (rts_scheduler_switch_complete snapshot) (λ _ s', switched s s' c n) s).
Proof.
  intros Hp Hroom. split_and!; [apply stack_corruption_detected| |].
  - intros (c&n&Ef&Et&[Hgc Hsc]&[Hgn Hsn]) Hno. unfold rts_scheduler_switch_complete.
    rewrite (bind_run _ _ s false s)
      by (rewrite Ef, Et; repeat apply (orM_run _ _ false false); try intros _; by rewrite (notM_run _ true)).
    cbn [when]. rewrite bind_ret, (bind_run _ _ _ _ _ (switch_complete_tested s snapshot c n Hp Ef Et)).
    destruct (_ && runnable s n) eqn:E.
    + destruct Hno. rewrite !andb_true_iff, !negb_true_iff, !bool_decide_eq_true, bool_decide_eq_false, Z.eqb_eq in E.
      destruct E as ((((((((((?&?)&?)&Eg)&Efr)&Eto)&?)&?)&?)&?)&?). split_and!; [done..| |].
      * destruct snapshot as [f t g]. unfold plan_snapshot. cbn in *. congruence.
      * exists c, n. split_and!; [done..|congruence|done|done|done|done].
    + unfold RTS_ASSERT, rts_assert, bind. by destruct RTS_ENABLE_ASSERTIONS.
  - intros (c&n&Ef&Et&Hc&Hn) (Hrun&Hact&Hpend&->&c'&n'&Ef'&Et'&Hne&Hcur&Hout&_&Hr).
    rewrite Ef in Ef'. injection Ef' as <-. rewrite Et in Et'. injection Et' as <-.
    exists c, n. split_and!; [done..|]. eapply wp_mono; [by apply rts_scheduler_switch_complete_spec|].
    by intros [] s' [? _].
Qed.
End switch_claims.

(** ** Witnesses: a low-priority task runs while a higher one is ready *)

Section witnesses.
#[local] Existing Instance fp_config.

Definition example_tcb (p low : Z) (st : rts_task_state_t) : rts_tcb :=
  (inhabitant : rts_tcb) <| saved_stack_pointer := low + 256 |> <| stack_low := low |>
    <| stack_high := low + 512 |> <| entry := 7 |> <| base_priority := p |> <| priority := p |>
    <| state := st |> <| slot_state := RTS_TASK_SLOT_ALLOCATED |> <| slice_remaining := 4 |>
    <| validation_magic := RTS_TASK_VALIDATION_MAGIC |>.

Definition pair_unlinked : kernel :=
  zero_kernel <| k_lifecycle := RTS_KERNEL_RUNNING |> <| k_current_task := Some (TApp 0) |>
    <| k_tasks := <[TApp 0 := example_tcb 3 4096 RTS_TASK_STATE_RUNNING]>
                  (<[TApp 1 := example_tcb 5 8192 RTS_TASK_STATE_READY]> ∅) |>.

Definition running_pair : kernel :=
  final_store (fill_memory 4096 (4096 + 16) RTS_STACK_GUARD_PATTERN ;;;
               fill_memory 8192 (8192 + 16) RTS_STACK_GUARD_PATTERN ;;;
               rts_policy_fp_insert (Some (TApp 0)) ;;;
               rts_policy_fp_insert (Some (TApp 1))) pair_unlinked.

Lemma running_pair_priorities : priorities_ok running_pair.
Proof.
  intros t. assert (k_tasks running_pair = k_tasks pair_unlinked) as E by by vm_compute.
  unfold task. rewrite E. cbn [pair_unlinked]. unfold pair_unlinked. cbn.
  rewrite !lookup_total_insert_dec. repeat case_decide; done.
Qed.

Lemma running_pair_stacks : stack_sound running_pair (TApp 0) ∧ stack_sound running_pair (TApp 1).
Proof. by vm_compute. Qed.

Lemma switch_plan_prepare_correct_witness :
  wp (rts_scheduler_prepare_switch (Some (TApp 1))) (λ notify s',
    plan_ok s' ∧ k_heap s' = k_heap running_pair) running_pair.
Proof.
  eapply wp_mono; [apply (switch_plan_prepare_correct running_pair (TApp 0) (TApp 1))|].
  - exact running_pair_priorities.
  - by apply plan_ok_idle; vm_compute.
  - by vm_compute.
  - by vm_compute.
  - by vm_compute.
  - by vm_compute.
  - intros notify s' (Hok&_&Hh&_). split; [exact Hok|exact Hh].
Defined.

Lemma switch_protocol_commits_witness :
  wp (switch_to (TApp 1)) (λ notify s', notify = true ∧ k_current_task s' = Some (TApp 1)) running_pair.
Proof.
  eapply wp_mono; [apply (switch_protocol_commits running_pair (TApp 0) (TApp 1))|].
  - exact running_pair_priorities.
  - by vm_compute.
  - by vm_compute.
  - by vm_compute.
  - by vm_compute.
  - by vm_compute.
  - done.
  - by vm_compute.
  - by vm_compute.
  - apply running_pair_stacks.
  - apply running_pair_stacks.
  - intros notify s' (Hn&Hc&_). split; [exact Hn|exact Hc].
Defined.

(** The plan to TApp 1 has been prepared and acquired: generation 1. *)
Definition acquired_pair : kernel :=
  final_store (rts_scheduler_prepare_switch (Some (TApp 1)) ;;; rts_scheduler_switch_acquire ;;; ret tt) running_pair.

Lemma acquired_pair_tasks : k_tasks acquired_pair = k_tasks running_pair.
Proof. vm_compute. reflexivity. Qed.
Lemma acquired_pair_memory : k_memory acquired_pair = k_memory running_pair.
Proof. vm_compute. reflexivity. Qed.

Lemma priorities_ok_frame s s' : k_tasks s' = k_tasks s → priorities_ok s → priorities_ok s'.
Proof. intros E Hp t. unfold task. rewrite E. apply Hp. Qed.

Lemma acquired_pair_priorities : priorities_ok acquired_pair.
Proof. exact (priorities_ok_frame _ _ acquired_pair_tasks running_pair_priorities). Qed.

Lemma stacks_intact_frame s s' c n g :
  k_tasks s' = k_tasks s → k_memory s' = k_memory s → stack_sound s c → stack_sound s n →
  stacks_intact s' (mk_switch_snapshot (Some c) (Some n) g).
Proof.
  intros E Em Hc Hn. exists c, n. split; [done|]. split; [done|].
  split; (eapply stack_sound_frame; [eassumption|unfold task; by rewrite E|exact Em]).
Qed.

Lemma acquired_pair_stacks g : stacks_intact acquired_pair (mk_switch_snapshot (Some (TApp 0)) (Some (TApp 1)) g).
Proof.
  exact (stacks_intact_frame _ _ _ _ g acquired_pair_tasks acquired_pair_memory
    (proj1 running_pair_stacks) (proj2 running_pair_stacks)).
Qed.

(** The plan's own snapshot makes the switch, that of another generation does not. *)
Lemma switch_complete_exact_witness :
  wp (rts_scheduler_switch_complete (mk_switch_snapshot (Some (TApp 0)) (Some (TApp 1)) 1))
     (λ _ s', k_current_task s' = Some (TApp 1)) acquired_pair ∧
  rts_scheduler_switch_complete (mk_switch_snapshot (Some (TApp 0)) (Some (TApp 1)) 9) acquired_pair =
    Fatal RTS_FATAL_ASSERTION acquired_pair.
Proof.
  split.
  - destruct (switch_complete_exact acquired_pair (mk_switch_snapshot (Some (TApp 0)) (Some (TApp 1)) 1)
      acquired_pair_priorities ltac:(by vm_compute)) as (_&_&Hmade).
    destruct Hmade as (c&n&Ef&Et&Hw).
    + apply acquired_pair_stacks.
    + do 4 (split; [by vm_compute|]). exists (TApp 0), (TApp 1). by vm_compute.
    + injection Ef as <-. injection Et as <-. eapply wp_mono; [exact Hw|]. intros [] s' Hsw. apply Hsw.
  - destruct (switch_complete_exact acquired_pair (mk_switch_snapshot (Some (TApp 0)) (Some (TApp 1)) 9)
      acquired_pair_priorities ltac:(by vm_compute)) as (_&Hrefused&_).
    apply Hrefused; [apply acquired_pair_stacks|]. intros (_&_&_&E&_). by vm_compute in E.
Defined.
End witnesses.
