(* ===== verification/KernelSpec.v ===== *)
(** * The invariant of a running kernel

    What holds between two kernel calls once rts_start has succeeded, for the
    policies whose ready set is the bitmap and its queues (fixed priority and
    rate monotonic): every task is in exactly the lists its state says, passes
    the test the code applies to tasks in that state, and the switch plan leaves
    the current task.  A kernel call that changes one task is described by
    [kstep]; the lemmas here compose such steps and show that they keep the
    invariant. *)

From S2P Require Import Prelude Machine Config Types Links IntrusiveList KernelLists Time ReadyQueue.
From S2P Require Import DelayQueue HostPort Diagnostics TaskPool Policy PolicySpec WaitObject Scheduler.
From S2P Require Import SwitchSpec.

(** The policies whose ready set is the bitmap and its queues. *)
Class BitmapPolicy `{Config} : Prop := bitmap_policy : RTS_POLICY ≠ RTS_POLICY_KIND_EDF.
#[export] Instance fp_bitmap_policy : @BitmapPolicy fp_config.
Proof. done. Qed.
#[export] Instance rms_bitmap_policy : @BitmapPolicy rms_config.
Proof. done. Qed.

(** Split a conjunction of tests, and prove one. *)
Ltac tests_in H :=
  repeat match type of H with
  | _ && _ = true => apply andb_true_iff in H; let H' := fresh "T" in destruct H as [H H']
  end.
Ltac tests := repeat match goal with |- _ && _ = true => apply andb_true_iff; split end.

(** Rewrite what the tests read of a task along [E : face x = face y]. *)
Ltac rewrite_face E :=
  injection E as;
  repeat match goal with F : _ (task _ _) = _ (task _ _) |- _ => rewrite ?F; clear F end.

Section invariant.
Context `{ConfigOk}.

(** ** What the code's tests read *)

(** The members of a task that scheduling never writes. *)
Definition identity (x : rts_tcb) :=
  (saved_stack_pointer x, stack_low x, stack_high x, entry x, period x, base_priority x, priority x,
   slot_state x, validation_magic x).

(** What the tests and the lists read of a task. *)
Definition face (x : rts_tcb) := (identity x, wait x, state x).

Lemma face_eq x y : face x = face y → identity x = identity y ∧ wait x = wait y ∧ state x = state y.
Proof. intros E. injection E as. unfold identity. by split_and!; [congruence|..]. Qed.

(** What every test asks of an application task, whatever its state. *)
Definition sound (x : rts_tcb) : bool :=
  task_has_context x && bool_decide (slot_state x = RTS_TASK_SLOT_ALLOCATED) && magic_is_valid x &&
  (RTS_IDLE_PRIORITY <? priority x) &&
  match RTS_POLICY with RTS_POLICY_KIND_RMS => negb (period x =? 0) | _ => true end.

(** The lists that hold task [u] are the same in [s] and [s']. *)
Record same_places (s s' : kernel) (u : task_ptr) : Prop := {
  sp_ready : n_owner (node s' (NReady u)) = n_owner (node s (NReady u));
  sp_delay : n_owner (node s' (NDelay u)) = n_owner (node s (NDelay u));
  sp_wait : w_owner (wait_node s' u) = w_owner (wait_node s u)
}.

(** The tasks with a role are the same. *)
Definition same_roles (s s' : kernel) : Prop :=
  k_idle_task s' = k_idle_task s ∧ k_timer_service_task s' = k_timer_service_task s ∧
  k_current_task s' = k_current_task s.

Definition unready (s : kernel) (t : task_ptr) : Prop := n_owner (node s (NReady t)) = None.

(** A task passes the test of the code for its state. *)
Definition task_ok (s : kernel) (t : task_ptr) : Prop :=
  match state (task s t) with
  | RTS_TASK_STATE_READY | RTS_TASK_STATE_RUNNING => runnable s t = true
  | RTS_TASK_STATE_BLOCKED => unready s t ∧ blocked_delay s t || blocked_wait s t = true
  | RTS_TASK_STATE_DORMANT =>
      unready s t ∧ n_owner (node s (NDelay t)) = None ∧ w_owner (wait_node s t) = None ∧
      wait_reason (wait (task s t)) = RTS_WAIT_NONE
  end.

(** The invariant, with the deadlines of delayed tasks ahead of the instant
    [since]; between kernel calls that is the current tick. *)
Record kernel_ok_at (since : Z) (s : kernel) : Prop := {
  ko_ready : ready_ok s;
  ko_delay : delay_ok since s;
  ko_waits : waits_ok s;
  ko_prio t : 0 ≤ priority (task s t) < RTS_PRIORITY_COUNT;
  ko_base t : base_priority (task s t) ≤ priority (task s t);
  ko_task t : task_ok s t;
  ko_now : is_u32 since;
  ko_idle : k_idle_task s = Some TIdle;
  ko_idle_state : state (task s TIdle) = RTS_TASK_STATE_READY ∨ state (task s TIdle) = RTS_TASK_STATE_RUNNING;
  ko_service : k_timer_service_task s = Some TTimerService;
  ko_live : k_lifecycle s = RTS_KERNEL_RUNNING;
  ko_current : ∃ c, k_current_task s = Some c ∧ outgoing s c = true;
  ko_plan : plan_ok s
}.

#[global] Arguments ko_ready {since} _ _.
#[global] Arguments ko_delay {since} _ _.
#[global] Arguments ko_waits {since} _ _.
#[global] Arguments ko_prio {since} _ _ _.
#[global] Arguments ko_base {since} _ _ _.
#[global] Arguments ko_task {since} _ _ _.
#[global] Arguments ko_now {since} _ _.
#[global] Arguments ko_idle {since} _ _.
#[global] Arguments ko_idle_state {since} _ _.
#[global] Arguments ko_service {since} _ _.
#[global] Arguments ko_live {since} _ _.
#[global] Arguments ko_current {since} _ _.
#[global] Arguments ko_plan {since} _ _.

Context `{!BitmapPolicy}.

Lemma policy_linked_fp s t :
  policy_linked s t = bool_decide (n_owner (node s (NReady t)) = Some (LReady (priority (task s t)))).
Proof. pose proof bitmap_policy. unfold policy_linked. by destruct RTS_POLICY. Qed.

(** ** The tests depend on these places only *)

Lemma runnable_ext s s' t :
  face (task s' t) = face (task s t) → same_places s s' t → same_roles s s' → runnable s' t = runnable s t.
Proof.
  intros Et [Er Ed Ew] (Ei&Es&Ec).
  unfold runnable, task_waits_for_nothing, policy_valid, runnable_identity_state, rts_scheduler_task_is_idle,
    rts_scheduler_task_is_timer_service, task_has_context, magic_is_valid.
  rewrite !policy_linked_fp, Er, Ed, Ew, Ei, Es, Ec. by rewrite_face Et.
Qed.

(** An unlinked node is clear. *)
Lemma unready_clear s t :
  lists_ok (k_heap s) → unready s t →
  n_previous (node s (NReady t)) = None ∧ n_next (node s (NReady t)) = None ∧ n_object (node s (NReady t)) = None.
Proof.
  intros Hl Hu. destruct (wf_unlinked _ (lo_wf _ Hl) _ Hu) as [Hp Hn]. split_and!; [done..|].
  by apply (lo_free _ Hl _ t).
Qed.

Lemma unready_valid s t :
  unready s t → policy_valid s t false = match RTS_POLICY with
    | RTS_POLICY_KIND_RMS => bool_decide (Some t = k_idle_task s) || bool_decide (Some t = k_timer_service_task s) ||
        negb (period (task s t) =? 0)
    | _ => true end.
Proof.
  intros Hu. unfold policy_valid. rewrite policy_linked_fp, Hu, bool_decide_false by done. done.
Qed.

Lemma blocked_delay_ext s s' t :
  lists_ok (k_heap s) → lists_ok (k_heap s') → unready s t →
  face (task s' t) = face (task s t) → same_places s s' t → same_roles s s' → blocked_delay s' t = blocked_delay s t.
Proof.
  intros Hl Hl' Hu Et [Er Ed Ew] (Ei&Es&Ec). assert (unready s' t) as Hu' by (unfold unready; congruence).
  destruct (unready_clear s t Hl Hu) as (E1&E2&E3), (unready_clear s' t Hl' Hu') as (E1'&E2'&E3').
  unfold blocked_delay, task_has_context, magic_is_valid, delayed.
  rewrite !unready_valid, Ed, Ew, Ei, Es, E1, E2, E3, E1', E2', E3' by done. by rewrite_face Et.
Qed.

Lemma blocked_wait_ext s s' t :
  face (task s' t) = face (task s t) → same_places s s' t → same_roles s s' → blocked_wait s' t = blocked_wait s t.
Proof.
  intros Et [Er Ed Ew] (Ei&Es&Ec).
  unfold blocked_wait, blocked_service, blocked_sync, task_has_context, magic_is_valid, delayed,
    rts_scheduler_task_is_timer_service, policy_valid.
  rewrite !policy_linked_fp, Er, Ed, Ew, Ei, Es. by rewrite_face Et.
Qed.

Lemma task_ok_ext s s' t :
  lists_ok (k_heap s) → lists_ok (k_heap s') →
  face (task s' t) = face (task s t) → same_places s s' t → same_roles s s' → task_ok s t → task_ok s' t.
Proof.
  intros Hl Hl' Et Hp Hr. unfold task_ok. pose proof (face_eq _ _ Et) as (_&->&->). pose proof Hp as [Er Ed Ew].
  destruct (state (task s t)).
  - unfold unready. by rewrite Er, Ed, Ew.
  - by rewrite (runnable_ext s s' t).
  - by rewrite (runnable_ext s s' t).
  - intros [Hu Hb]. split; [unfold unready; congruence|].
    by rewrite (blocked_delay_ext s s' t), (blocked_wait_ext s s' t).
Qed.

Lemma outgoing_ext s s' t :
  lists_ok (k_heap s) → lists_ok (k_heap s') →
  face (task s' t) = face (task s t) → same_places s s' t → same_roles s s' → task_ok s t → outgoing s' t = outgoing s t.
Proof.
  intros Hl Hl' Et Hp Hr Hok. unfold outgoing. pose proof Hr as (_&_&Ec).
  rewrite Ec, (runnable_ext s s' t), (blocked_wait_ext s s' t) by done. pose proof (face_eq _ _ Et) as (_&_&->).
  unfold task_ok in Hok. destruct (state (task s t)); try done.
  destruct Hok as [Hu _]. by rewrite (blocked_delay_ext s s' t).
Qed.

(** ** The places of tasks in the lists of a well-formed store *)

Lemma owner_of_contents h h' n :
  lists_ok h → lists_ok h' → (∀ l, n ∈ contents h' l ↔ n ∈ contents h l) →
  n_owner (hnode h' n) = n_owner (hnode h n).
Proof.
  intros Hl Hl' Hc. apply option_eq. intros l. by rewrite <- (lo_owner h' Hl'), <- (lo_owner h Hl).
Qed.

(** ** Steps that change one task *)

(** A task without its chain of mutexes. *)
Definition unchained (x : rts_tcb) : rts_tcb :=
  x <| owned_mutex_head := None |> <| owned_mutex_tail := None |> <| owned_mutex_count := 0 |>.

Definition chain (x : rts_tcb) := (owned_mutex_head x, owned_mutex_tail x, owned_mutex_count x).

(** What a step that changes the owners of mutexes, [m], keeps of a task. *)
Definition kept (m : bool) (x : rts_tcb) : rts_tcb := if m then unchained x else x.

Lemma face_kept m x : face (kept m x) = face x.
Proof. by destruct m. Qed.

(** The store without what such a step may touch. *)
Definition outside (m : bool) (s : kernel) : kernel :=
  s <| k_tasks := ∅ |> <| k_heap := zero_heap |> <| k_ready_bitmap := ∅ |> <| k_wait_nodes := ∅ |>
    <| k_waiters := ∅ |> <| k_runtime_counters := ∅ |> <| k_trace := zero_trace |>
    <| k_mutexes := if m then ∅ else k_mutexes s |>
    <| k_policy_release_sequence := 0 |> <| k_port := (k_port s) <| host_critical_tokens := ∅ |> |>.

(** [s'] is [s] with another content of task [c], with the ready queues [R],
    the delay queue [D] and the waiters [W] and, if [m], other owners of mutexes. *)
Record kstepm (m : bool) (s s' : kernel) (c : task_ptr) (R : Z → list task_ptr) (D : list task_ptr)
    (W : sync_ptr → list task_ptr) : Prop := {
  ks_ready_ok : ready_ok s';
  ks_ready p : ready_queue s' p = R p;
  ks_delay : delay_list s' = D;
  ks_lists l : l = LEdf ∨ l = LTimer → kcontents s' l = kcontents s l;
  ks_waits : waits_wf s';
  ks_wait o : waiting s' o = W o;
  ks_kept u : u ≠ c → kept m (task s' u) = kept m (task s u);
  ks_chain : m = false → chain (task s' c) = chain (task s c);
  ks_nesting : same_nesting s s';
  ks_outside : outside m s' = outside m s
}.
#[global] Arguments ks_ready_ok {m} _ _ _ _ _ _ _.
#[global] Arguments ks_ready {m} _ _ _ _ _ _ _ _.
#[global] Arguments ks_delay {m} _ _ _ _ _ _ _.
#[global] Arguments ks_lists {m} _ _ _ _ _ _ _ _ _.
#[global] Arguments ks_waits {m} _ _ _ _ _ _ _.
#[global] Arguments ks_wait {m} _ _ _ _ _ _ _ _.
#[global] Arguments ks_kept {m} _ _ _ _ _ _ _ _ _.
#[global] Arguments ks_chain {m} _ _ _ _ _ _ _ _.
#[global] Arguments ks_nesting {m} _ _ _ _ _ _ _.
#[global] Arguments ks_outside {m} _ _ _ _ _ _ _.

Section steps.
Context {m : bool} {since : Z}.
#[local] Abbreviation kstep := (kstepm m).
#[local] Abbreviation kernel_ok := (kernel_ok_at since).

Lemma same_nesting_refl s : same_nesting s s.
Proof. by split_and!. Qed.

Lemma kstep_refl s c : ready_ok s → waits_wf s → kstep s s c (ready_queue s) (delay_list s) (waiting s).
Proof. intros Hr Hw. split; try done; apply same_nesting_refl. Qed.

Lemma waits_wf_frame s s' :
  k_wait_nodes s' = k_wait_nodes s → k_waiters s' = k_waiters s → waits_wf s → waits_wf s'.
Proof.
  intros En Ew [Hc Hr Ha].
  assert (wlinks s' = wlinks s) as El by (unfold wlinks, wait_node; by rewrite En).
  assert (∀ o, waiters s' o = waiters s o) as Eo by (intros o; unfold waiters; by rewrite Ew).
  assert (∀ o, waiting s' o = waiting s o) as Eg by (intros o; unfold waiting; by rewrite El, Eo).
  split.
  - by rewrite El.
  - intros o. unfold wait_rep. rewrite El, Eo, Eg. apply Hr.
  - intros o t. rewrite Eg. apply Ha.
Qed.

(** What the steps below do not write. *)
Definition pinned (x : rts_tcb) := (priority x, chain x).

Lemma kstep_task s s1 c R D W f :
  kstep s s1 c R D W → pinned (f (task s1 c)) = pinned (task s1 c) → kstep s (upd_task c f s1) c R D W.
Proof.
  intros Hk Hp. injection Hp as Hp E1 E2 E3. pose proof (ks_chain _ _ _ _ _ _ Hk) as Hch. destruct Hk. split; try done.
  - apply ready_ok_upd_task; auto.
  - by apply (waits_wf_frame s1).
  - intros u Hu. rewrite task_upd_task, decide_False by done. auto.
  - intros Hm. rewrite task_upd_task, decide_True, <- Hch by done. unfold chain. congruence.
Qed.

Lemma ks_face s s' c R D W u : kstep s s' c R D W → u ≠ c → face (task s' u) = face (task s u).
Proof. intros Hk Hu. by rewrite <- (face_kept m), (ks_kept _ _ _ _ _ _ Hk u Hu), face_kept. Qed.

(** Bookkeeping: counters, the trace, the sequence of releases. *)
Lemma ready_ok_frame s s' :
  k_heap s' = k_heap s → k_tasks s' = k_tasks s → k_ready_bitmap s' = k_ready_bitmap s → ready_ok s → ready_ok s'.
Proof.
  intros Hh Ht Hb [Hl Hp Hw Hbits]. split.
  - by rewrite Hh.
  - intros p u. unfold ready_queue, kcontents, task. rewrite Hh, Ht. apply Hp.
  - intros w. unfold ready_word. rewrite Hb. apply Hw.
  - intros w b. unfold ready_word, kcontents. rewrite Hb, Hh. apply Hbits.
Qed.

Lemma kstep_counter s s1 s2 c R D W : kstep s s1 c R D W → counter_frame s1 s2 → kstep s s2 c R D W.
Proof. intros [] (cs&->). split; try done; [by apply (ready_ok_frame s1)|by apply (waits_wf_frame s1)]. Qed.

Lemma kstep_trace s s1 s2 c R D W : kstep s s1 c R D W → trace_frame s1 s2 → kstep s s2 c R D W.
Proof.
  intros [? ? ? ? ? ? ? ? (N1&N2&N3) ?] (tok&tr&->&Htok).
  split; try done; [by apply (ready_ok_frame s1)|by apply (waits_wf_frame s1)|].
  split_and!; [done..|]. cbn. intros i Hi. rewrite Htok by (by rewrite N1). auto.
Qed.

Lemma kstep_sequence s s1 c R D W n :
  kstep s s1 c R D W → kstep s (s1 <| k_policy_release_sequence := n |>) c R D W.
Proof. intros []. split; try done; [by apply (ready_ok_frame s1)|by apply (waits_wf_frame s1)]. Qed.

Lemma kstep_ready s s1 s2 c R D W p ts :
  kstep s s1 c R D W → ready_step s1 s2 p ts → kstep s s2 c (set_queue R p ts) D W.
Proof.
  intros Hk Hst. pose proof (λ p', ready_step_queue s1 s2 p ts p' Hst) as Hq.
  destruct Hk as [K1 K2 K3 K4 K5 K6 K7 K8 K9 K10].
  destruct Hst as (Hok&h'&bm'&->&[_ Hc]). split; try done.
  - intros p'. rewrite Hq. unfold set_queue. by case_decide.
  - unfold delay_list, kcontents. cbn. rewrite Hc, decide_False by done. done.
  - intros l Hl. unfold kcontents. cbn. rewrite Hc, decide_False by (by destruct Hl; subst). by apply K4.
  - by apply (waits_wf_frame s1).
Qed.

Lemma kstep_delay s s1 s2 c R D W ts :
  kstep s s1 c R D W → delay_step s1 s2 ts → kstep s s2 c R ts W.
Proof.
  intros Hk Hst. pose proof (delay_step_list _ _ _ Hst) as Hd. destruct Hk as [[Hl Hp Hw Hb]].
  destruct Hst as (h'&->&[Hl' Hc]).
  assert (∀ l, l ≠ LDelay → kcontents (s1 <| k_heap := h' |>) l = kcontents s1 l) as Hk.
  { intros l Hne. unfold kcontents. cbn. by rewrite Hc, decide_False. }
  assert (∀ p, ready_queue (s1 <| k_heap := h' |>) p = ready_queue s1 p) as Hq.
  { intros p. unfold ready_queue. by rewrite Hk. }
  split; try done.
  - split; [done| |done|].
    + intros p u. rewrite Hq. apply Hp.
    + intros w b ??. rewrite Hk by done. by apply Hb.
  - intros p. by rewrite Hq.
  - intros l Hle. rewrite Hk by (by destruct Hle; subst). auto.
  - by apply (waits_wf_frame s1).
Qed.

Lemma kstep_wait s s1 s2 c R D W o ts :
  kstep s s1 c R D W → waits_step s1 s2 o ts →
  kstep s s2 c R D (λ o', if decide (o' = o) then ts else W o').
Proof.
  intros [] (Hwf&(wn&wt&->)&Hw). split; try done; [by apply (ready_ok_frame s1)|].
  intros o'. rewrite Hw. case_decide; auto.
Qed.

(** Fields of the store that a step keeps. *)
Lemma kstep_field {A} (f : kernel → A) s s' c R D W :
  kstep s s' c R D W → (∀ s, f (outside m s) = f s) → f s' = f s.
Proof. intros Hk Hf. by rewrite <- (Hf s'), <- (Hf s), (ks_outside _ _ _ _ _ _ Hk). Qed.

Lemma kstep_requests s s' c R D W :
  kstep s s' c R D W → host_switch_request_count (k_port s') = host_switch_request_count (k_port s).
Proof. intros Hk. by apply (kstep_field (λ s, host_switch_request_count (k_port s)) s s' c R D W). Qed.

Lemma kstep_roles s s' c R D W : kstep s s' c R D W → same_roles s s'.
Proof. intros Hk. split_and!; by eapply kstep_field. Qed.

(** ** Steps keep the invariant *)

(** The lists [R], [D] and [W] hold the same tasks as those of [s], but for [c]. *)
Definition same_but (s : kernel) (c : task_ptr) (R : Z → list task_ptr) (D : list task_ptr)
    (W : sync_ptr → list task_ptr) : Prop :=
  ∀ u, u ≠ c → (∀ p, u ∈ R p ↔ u ∈ ready_queue s p) ∧ (u ∈ D ↔ u ∈ delay_list s) ∧
               (∀ o, u ∈ W o ↔ u ∈ waiting s o).

Lemma ready_node_fits s t l :
  lists_ok (k_heap s) → NReady t ∈ kcontents s l → (∃ p, l = LReady p) ∨ l = LEdf.
Proof. intros Hl [Hf _]%(lo_linked _ Hl). destruct l; eauto; done. Qed.
Lemma delay_node_fits s t l : lists_ok (k_heap s) → NDelay t ∈ kcontents s l → l = LDelay.
Proof. intros Hl [Hf _]%(lo_linked _ Hl). by destruct l. Qed.

Lemma kstep_places s s' c R D W u :
  ready_ok s → waits_wf s → kstep s s' c R D W → same_but s c R D W → u ≠ c → same_places s s' u.
Proof.
  intros Hr Hw Hk Hb Hu. destruct (Hb u Hu) as (Hbr&Hbd&Hbw).
  pose proof (ro_lists s Hr) as Hl. pose proof (ks_ready_ok _ _ _ _ _ _ Hk) as Hr'. pose proof (ro_lists s' Hr') as Hl'.
  split.
  - apply owner_of_contents; [done..|]. intros l. change (contents (k_heap s')) with (kcontents s').
    change (contents (k_heap s)) with (kcontents s).
    assert (∀ p, NReady u ∈ kcontents s' (LReady p) ↔ NReady u ∈ kcontents s (LReady p)) as Hp.
    { intros p. rewrite (ready_contents s' Hr'), (ready_contents s Hr), !(list_elem_of_fmap_inj NReady).
      by rewrite (ks_ready _ _ _ _ _ _ Hk). }
    split; intros Hin.
    + destruct (ready_node_fits s' u l Hl' Hin) as [[p ->]| ->]; [by apply Hp|].
      by rewrite <- (ks_lists _ _ _ _ _ _ Hk) by auto.
    + destruct (ready_node_fits s u l Hl Hin) as [[p ->]| ->]; [by apply Hp|].
      by rewrite (ks_lists _ _ _ _ _ _ Hk) by auto.
  - apply owner_of_contents; [done..|]. intros l. change (contents (k_heap s')) with (kcontents s').
    change (contents (k_heap s)) with (kcontents s).
    assert (NDelay u ∈ kcontents s' LDelay ↔ NDelay u ∈ kcontents s LDelay) as Hd.
    { rewrite (delay_contents s' Hl'), (delay_contents s Hl), !(list_elem_of_fmap_inj NDelay).
      by rewrite (ks_delay _ _ _ _ _ _ Hk). }
    split; intros Hin; [pose proof (delay_node_fits s' u l Hl' Hin)|pose proof (delay_node_fits s u l Hl Hin)];
      subst; by apply Hd.
  - apply option_eq. intros o. rewrite <- (ww_owner s' (ks_waits _ _ _ _ _ _ Hk)), <- (ww_owner s Hw).
    rewrite (ks_wait _ _ _ _ _ _ Hk). apply Hbw.
Qed.

Lemma plan_ok_frame s s' :
  k_switch_plan s' = k_switch_plan s → k_current_task s' = k_current_task s → plan_ok s → plan_ok s'.
Proof. intros Ep Ec [Hn Hl He]. split; rewrite ?Ep, ?Ec; auto. Qed.

Lemma by_priority_ext s s' l :
  (∀ u, priority (task s' u) = priority (task s u)) → by_priority s l → by_priority s' l.
Proof.
  intros Hp Hs. induction Hs as [|a l Hs IH Ha]; constructor; [done|].
  eapply Forall_impl; [exact Ha|]. intros b. cbn. by rewrite !Hp.
Qed.

Lemma kernel_ok_kstep_at s s' c R D W :
  kernel_ok s → kstep s s' c R D W → same_but s c R D W → c ≠ TIdle →
  identity (task s' c) = identity (task s c) → (∀ o, by_priority s (W o)) →
  (c ∈ D → is_u32 (wake_tick s' c) ∧ wake_in since s' c < RTS_TICK_HALF_RANGE) →
  StronglySorted (λ a b, wake_in since s' a ≤ wake_in since s' b) D →
  task_ok s' c → (k_current_task s = Some c → outgoing s' c = true) →
  kernel_ok s'.
Proof.
  intros Hok Hk Hb Hidle Hid Hby Hwc Hsorted Hc Hout. injection Hid as _ _ _ _ _ Hbase Hprio _ _.
  pose proof (kstep_roles _ _ _ _ _ _ Hk) as (Ei&Es&Ec). pose proof (λ u, ks_face s s' c R D W u Hk) as Ht.
  assert (∀ u, u ≠ c → wake_tick s' u = wake_tick s u) as Hwt.
  { intros u Hu. unfold wake_tick. by destruct (face_eq _ _ (Ht u Hu)) as (_&->&_). }
  assert (∀ u, u ≠ c → same_places s s' u) as Hpl.
  { intros u Hu. eapply kstep_places; [apply Hok|apply (ko_waits s Hok)|done..]. }
  assert (∀ u, priority (task s' u) = priority (task s u)) as Hpr.
  { intros u. destruct (decide (u = c)) as [->|Hu]; [done|]. by injection (Ht u Hu). }
  pose proof (ro_lists _ (ko_ready s Hok)) as Hl. pose proof (ro_lists _ (ks_ready_ok _ _ _ _ _ _ Hk)) as Hl'.
  split.
  - apply Hk.
  - split; rewrite ?(ks_delay _ _ _ _ _ _ Hk); [done| | |done].
    + intros u Hu. destruct (decide (u = c)) as [->|Huc]; [by apply Hwc|]. rewrite Hwt by done.
      apply (do_range _ s (ko_delay s Hok)). by apply (Hb u Huc).
    + intros u Hu. destruct (decide (u = c)) as [->|Huc]; [by apply Hwc|]. unfold wake_in.
      rewrite Hwt by done. apply (do_window _ s (ko_delay s Hok)). by apply (Hb u Huc).
  - split; [apply Hk|]. intros o. rewrite (ks_wait _ _ _ _ _ _ Hk). by apply (by_priority_ext s).
  - intros u. rewrite Hpr. apply (ko_prio s Hok).
  - intros u. rewrite Hpr. assert (base_priority (task s' u) = base_priority (task s u)) as ->; [|apply (ko_base s Hok)].
    destruct (decide (u = c)) as [->|Hu]; [done|]. by injection (Ht u Hu).
  - intros u. destruct (decide (u = c)) as [->|Hu]; [done|].
    apply (task_ok_ext s s' u); [done..|by apply Ht|auto|done|apply (ko_task s Hok)].
  - apply (ko_now s Hok).
  - rewrite Ei. apply (ko_idle s Hok).
  - destruct (face_eq _ _ (Ht TIdle ltac:(done))) as (_&_&->). apply (ko_idle_state s Hok).
  - rewrite Es. apply (ko_service s Hok).
  - rewrite (kstep_field k_lifecycle s s' c R D W) by done. apply (ko_live s Hok).
  - destruct (ko_current s Hok) as (d&Hd&Ho). exists d. rewrite Ec. split; [done|].
    destruct (decide (d = c)) as [->|Hdc]; [auto|].
    rewrite (outgoing_ext s s' d); [done..|by apply Ht|auto|done|apply (ko_task s Hok)].
  - eapply plan_ok_frame; [by eapply kstep_field|done|apply (ko_plan s Hok)].
Qed.

Lemma wake_order_ext base s s' l :
  (∀ u, u ∈ l → wake_tick s' u = wake_tick s u) →
  StronglySorted (λ a b, wake_in base s a ≤ wake_in base s b) l →
  StronglySorted (λ a b, wake_in base s' a ≤ wake_in base s' b) l.
Proof.
  intros Ht Hs. induction Hs as [|a l Hs IH Ha]; constructor.
  - apply IH. intros u Hu. apply Ht. by right.
  - rewrite Forall_forall in *. intros b Hb. specialize (Ha b Hb). unfold wake_in in *.
    by rewrite !Ht by (by left || by right).
Qed.

Lemma wake_sorted_ext base s s' l :
  (∀ u, u ∈ l → face (task s' u) = face (task s u)) →
  StronglySorted (λ a b, wake_in base s a ≤ wake_in base s b) l →
  StronglySorted (λ a b, wake_in base s' a ≤ wake_in base s' b) l.
Proof.
  intros Ht. apply wake_order_ext. intros u Hu. unfold wake_tick. by destruct (face_eq _ _ (Ht u Hu)) as (_&->&_).
Qed.


(** Everything the invariant speaks of, plan and port apart. *)
Record same_scheduling (s s' : kernel) : Prop := {
  ss_tasks : k_tasks s' = k_tasks s;
  ss_heap : k_heap s' = k_heap s;
  ss_bitmap : k_ready_bitmap s' = k_ready_bitmap s;
  ss_wait_nodes : k_wait_nodes s' = k_wait_nodes s;
  ss_waiters : k_waiters s' = k_waiters s;
  ss_roles : same_roles s s';
  ss_lifecycle : k_lifecycle s' = k_lifecycle s;
  ss_tick : k_current_tick s' = k_current_tick s
}.

Lemma same_scheduling_views s s' :
  same_scheduling s s' →
  (∀ u, task s' u = task s u) ∧ (∀ p, ready_queue s' p = ready_queue s p) ∧ delay_list s' = delay_list s ∧
  (∀ o, waiting s' o = waiting s o) ∧ (∀ u, same_places s s' u).
Proof.
  intros [Et Eh Eb En Ew Er El Ek].
  assert (wlinks s' = wlinks s) as Elk by (unfold wlinks, wait_node; by rewrite En).
  split_and!; intros; unfold task, ready_queue, delay_list, kcontents, waiting, waiters;
    rewrite ?Et, ?Eh, ?Ew, ?Elk; try done.
  split; unfold node, wait_node; by rewrite ?Eh, ?En.
Qed.

Lemma runnable_same s s' t : same_scheduling s s' → runnable s' t = runnable s t.
Proof.
  intros Hs. destruct (same_scheduling_views s s' Hs) as (Et&_&_&_&Hp).
  apply runnable_ext; [by rewrite Et|done|apply Hs].
Qed.

(** The lists of tasks are the same; the timers' may differ. *)
Definition same_task_lists (s s' : kernel) : Prop :=
  lists_ok (k_heap s') ∧ ∀ l, l ≠ LTimer → kcontents s' l = kcontents s l.

Lemma same_task_lists_heap s s' : ready_ok s → k_heap s' = k_heap s → same_task_lists s s'.
Proof. intros Hr Eh. split; unfold kcontents; rewrite Eh; [apply Hr|done]. Qed.

Lemma same_task_lists_places s s' u :
  ready_ok s → same_task_lists s s' → k_wait_nodes s' = k_wait_nodes s → same_places s s' u.
Proof.
  intros Hr [Hl' Hc] En. pose proof (ro_lists _ Hr) as Hl.
  assert (∀ n, ¬ node_fits n LTimer → n_owner (node s' n) = n_owner (node s n)) as Hn.
  { intros n Hf. apply owner_of_contents; [done..|]. intros l. change (contents (k_heap ?s)) with (kcontents s).
    destruct (decide (l = LTimer)) as [->|Hne]; [|by rewrite Hc].
    split; intros Hx; exfalso.
    - by apply (lo_linked _ Hl') in Hx as [Hx%Hf _].
    - by apply (lo_linked _ Hl) in Hx as [Hx%Hf _]. }
  split; [by apply Hn; intros []|by apply Hn; intros []|]. unfold wait_node. by rewrite En.
Qed.

(** The invariant once every task passes its test again. *)
Lemma kernel_ok_tests_at s s' :
  kernel_ok s → (∀ u, wait (task s' u) = wait (task s u)) → (∀ u, priority (task s' u) = priority (task s u)) →
  (∀ u, base_priority (task s' u) = base_priority (task s u)) → same_task_lists s s' →
  k_ready_bitmap s' = k_ready_bitmap s → k_wait_nodes s' = k_wait_nodes s → k_waiters s' = k_waiters s →
  k_idle_task s' = k_idle_task s → k_timer_service_task s' = k_timer_service_task s → k_lifecycle s' = k_lifecycle s →
  (∀ u, task_ok s' u) → state (task s' TIdle) = RTS_TASK_STATE_READY ∨ state (task s' TIdle) = RTS_TASK_STATE_RUNNING →
  (∃ c, k_current_task s' = Some c ∧ outgoing s' c = true) → plan_ok s' → kernel_ok s'.
Proof.
  intros Hok Ewt Epr Ebp [Hl' Hc] Eb En Ews Ei Esv El Hts Hidle Hcur Hplan.
  assert (∀ o, waiting s' o = waiting s o) as Ew.
  { intros o. unfold waiting, waiters, wlinks, wait_node. by rewrite Ews, En. }
  split; try done.
  - destruct (ko_ready s Hok) as [R1 R2 R3 R4].
    split; [done| |unfold ready_word in *; by rewrite Eb|].
    + intros p u. unfold ready_queue in *. rewrite Hc, Epr by done. apply R2.
    + intros w b. unfold ready_word in *. rewrite Eb, Hc by done. apply R4.
  - destruct (ko_delay s Hok) as [D1 D2 D3 D4]. assert (delay_list s' = delay_list s) as Ed.
    { unfold delay_list. by rewrite Hc. }
    assert (∀ u, wake_tick s' u = wake_tick s u) as Ewk by (intros u; unfold wake_tick; by rewrite Ewt).
    split; rewrite ?Ed; unfold wake_in in *; [done|intros u; rewrite Ewk; auto..|].
    eapply wake_order_ext; [|exact D4]. done.
  - destruct (ko_waits s Hok) as [W1 W2]. split; [by apply (waits_wf_frame s)|].
    intros o. rewrite Ew. apply (by_priority_ext s); [done|done].
  - intros u. rewrite Epr. apply (ko_prio s Hok).
  - intros u. rewrite Epr, Ebp. apply (ko_base s Hok).
  - apply (ko_now s Hok).
  - rewrite Ei. apply (ko_idle s Hok).
  - rewrite Esv. apply (ko_service s Hok).
  - rewrite El. apply (ko_live s Hok).
Qed.

(** The invariant reads nothing but faces and the lists of tasks. *)
Lemma kernel_ok_lists_at s s' :
  kernel_ok s → (∀ u, face (task s' u) = face (task s u)) → same_task_lists s s' →
  k_ready_bitmap s' = k_ready_bitmap s → k_wait_nodes s' = k_wait_nodes s → k_waiters s' = k_waiters s →
  same_roles s s' → k_lifecycle s' = k_lifecycle s → plan_ok s' → kernel_ok s'.
Proof.
  intros Hok Et Hli Eb En Ews Er El Hplan. pose proof Er as (Ei&Esv&Ec).
  assert (∀ u, state (task s' u) = state (task s u)) as Est by (intros u; apply (face_eq _ _ (Et u))).
  assert (∀ u, same_places s s' u) as Hp by (intros u; by apply same_task_lists_places; [apply Hok|..]).
  pose proof (ro_lists _ (ko_ready s Hok)) as Hl. pose proof (proj1 Hli) as Hl'.
  apply (kernel_ok_tests_at s); try done; [intros u; by injection (Et u)..| | |].
  - intros u. apply (task_ok_ext s s' u); [done..|apply (ko_task s Hok)].
  - rewrite Est. apply (ko_idle_state s Hok).
  - destruct (ko_current s Hok) as (c&Hc&Ho). exists c. rewrite Ec. split; [done|].
    rewrite (outgoing_ext s s' c); [done..|apply (ko_task s Hok)].
Qed.

Lemma kernel_ok_faces_at s s' :
  kernel_ok s → (∀ u, face (task s' u) = face (task s u)) → k_heap s' = k_heap s →
  k_ready_bitmap s' = k_ready_bitmap s → k_wait_nodes s' = k_wait_nodes s → k_waiters s' = k_waiters s →
  same_roles s s' → k_lifecycle s' = k_lifecycle s → plan_ok s' → kernel_ok s'.
Proof. intros Hok Et Eh. apply kernel_ok_lists_at; [done..|]. by apply same_task_lists_heap; [apply Hok|]. Qed.

Lemma kernel_ok_frame_at s s' : kernel_ok s → same_scheduling s s' → plan_ok s' → kernel_ok s'.
Proof.
  intros Hok Hs Hplan. pose proof (same_scheduling_views s s' Hs) as (Et&_). destruct Hs.
  apply (kernel_ok_faces_at s); try done. intros u. by rewrite Et.
Qed.

Lemma upd_port_same f s : same_scheduling s (upd_port f s).
Proof. by split. Qed.

Lemma kernel_ok_port_at f s : kernel_ok s → kernel_ok (upd_port f s).
Proof. intros Hok. apply (kernel_ok_frame_at s); [done|by split|]. by apply (plan_ok_frame s), Hok. Qed.

Lemma prepared_same c n s : same_scheduling s (prepared c n s).
Proof. destruct (prepared_frame c n s) as (p&cs&->). by split. Qed.

Lemma kernel_ok_prepared_at c n s :
  kernel_ok s → k_current_task s = Some c → kernel_ok (prepared c n s).
Proof.
  intros Hok Hc. apply (kernel_ok_frame_at s); [done|apply prepared_same|].
  eapply plan_prepared_ok; [apply Hok|done|apply prepared_same|apply prepared_plan].
Qed.

(** ** Selection *)

Lemma ready_runnable s p t : kernel_ok s → t ∈ ready_queue s p → runnable s t = true.
Proof.
  intros Hok Ht. pose proof (ko_task s Hok t) as Htask. unfold task_ok in Htask.
  apply (ready_queue_owner s (ko_ready s Hok)) in Ht.
  destruct (state (task s t)); [|done|done|]; destruct Htask as [Hu _]; unfold unready in Hu; congruence.
Qed.

Lemma runnable_ready s t : ready_ok s → runnable s t = true → t ∈ ready_queue s (priority (task s t)).
Proof.
  intros Hok Hr. unfold runnable, policy_valid in Hr. rewrite policy_linked_fp in Hr.
  rewrite !andb_true_iff in Hr. destruct Hr as [[_ [Hr _]] _]. apply eqb_prop, bool_decide_eq_true in Hr.
  by apply (ready_queue_owner s Hok).
Qed.

Lemma fp_ready_mem s t : ready_ok s → (t ∈ fp_ready s ↔ ∃ p, t ∈ ready_queue s p).
Proof.
  intros Hok. rewrite fp_ready_elem by done. split; [eauto|]. intros [p Hp].
  by rewrite (ro_priority s Hok p t Hp).
Qed.

Lemma idle_ready s : kernel_ok s → TIdle ∈ fp_ready s.
Proof.
  intros Hok. apply fp_ready_mem; [apply Hok|]. exists (priority (task s TIdle)). apply runnable_ready; [apply Hok|].
  pose proof (ko_task s Hok TIdle) as Ht. unfold task_ok in Ht. by destruct (ko_idle_state s Hok) as [E|E]; rewrite E in Ht.
Qed.

Lemma rts_policy_pick_next_run s : ready_ok s → rts_policy_pick_next s = Done (head (fp_ready s)) s.
Proof.
  intros Hok. pose proof bitmap_policy. pose proof (rp_pick s Hok) as Hp. unfold rts_policy_pick_next, rts_policy_rms_pick_next.
  by destruct RTS_POLICY.
Qed.

Lemma select_run s :
  kernel_ok s → ∃ n, head (fp_ready s) = Some n ∧ runnable s n = true ∧
    rts_scheduler_select_highest_ready s = Done (Some n) s.
Proof.
  intros Hok. pose proof (idle_ready s Hok) as Hi. destruct (fp_ready s) as [|n ts] eqn:E; [by apply elem_of_nil in Hi|].
  exists n. split; [done|]. assert (runnable s n = true) as Hn.
  { assert (n ∈ fp_ready s) as [p Hp]%fp_ready_mem by (rewrite E; left || apply Hok); [|apply Hok]. by eapply ready_runnable. }
  split; [done|]. unfold rts_scheduler_select_highest_ready.
  assert (gets lifecycle_schedules s = Done true s) as Hl.
  { unfold gets, lifecycle_schedules. by rewrite (ko_live s Hok). }
  rewrite assert_run by done. rewrite (bind_run _ _ _ _ _ Hl). cbn [negb].
  rewrite (bind_run _ _ _ _ _ (rts_policy_pick_next_run s (ko_ready s Hok))), E. cbn [head].
  rewrite fatal_unless_run by done.
  pose proof (rts_scheduler_task_is_runnable_run s n) as Hr. rewrite Hn in Hr.
  specialize (Hr (proj2 (ko_prio s Hok n))). rewrite fatal_unless_run by done.
  by rewrite (bind_run _ _ _ _ _ Hr).
Qed.

(** ** Passing the tests *)

Lemma sound_identity x y : identity x = identity y → sound x = sound y.
Proof.
  intros E. unfold sound, task_has_context, magic_is_valid.
  injection E as -> -> -> -> -> _ -> -> ->. done.
Qed.

Definition roles_ok (s : kernel) : Prop :=
  k_idle_task s = Some TIdle ∧ k_timer_service_task s = Some TTimerService.

Lemma ko_roles s : kernel_ok s → roles_ok s.
Proof. intros Hok. split; apply Hok. Qed.

Lemma roles_ok_same s s' : same_roles s s' → roles_ok s → roles_ok s'.
Proof. intros (Ei&Es&_) [? ?]. split; congruence. Qed.

Lemma app_roles s t :
  roles_ok s → application t →
  Some t ≠ k_idle_task s ∧ Some t ≠ k_timer_service_task s ∧ rts_task_handle_is_application_task (Some t) = true.
Proof.
  intros [Ei Es] (i&->&Hi). rewrite Ei, Es. split_and!; [done..|].
  apply existsb_exists. exists i. rewrite bool_decide_true by done.
  split; [apply list_elem_of_In, elem_of_seqZ; lia|done].
Qed.

Lemma app_policy_valid s t e :
  roles_ok s → application t →
  policy_valid s t e = eqb (policy_linked s t) e &&
    match RTS_POLICY with RTS_POLICY_KIND_RMS => negb (period (task s t) =? 0) | _ => true end.
Proof.
  intros Hok Ha. destruct (app_roles s t Hok Ha) as (Hi&Hs&_). unfold policy_valid.
  by rewrite (bool_decide_false _ Hi), (bool_decide_false _ Hs).
Qed.

Lemma app_not_service s t : roles_ok s → application t → rts_scheduler_task_is_timer_service s (Some t) = false.
Proof.
  intros Hok Ha. destruct (app_roles s t Hok Ha) as (_&Hs&_). unfold rts_scheduler_task_is_timer_service.
  by rewrite (bool_decide_false _ Hs).
Qed.
Lemma app_not_idle s t : roles_ok s → application t → rts_scheduler_task_is_idle s (Some t) = false.
Proof.
  intros Hok Ha. destruct (app_roles s t Hok Ha) as (Hi&_). unfold rts_scheduler_task_is_idle.
  by rewrite (bool_decide_false _ Hi).
Qed.

Lemma runnable_sound s t :
  roles_ok s → application t → 0 ≤ priority (task s t) → runnable s t = true →
  sound (task s t) = true ∧ task_waits_for_nothing s t = true ∧ policy_linked s t = true.
Proof.
  intros Hok Ha Hp. unfold runnable, runnable_identity_state, sound, RTS_IDLE_PRIORITY.
  rewrite app_policy_valid, app_not_idle, app_not_service by done.
  destruct ((_ <? _) || (_ <=? _)); [by rewrite !andb_false_r|].
  destruct (Z.eqb_spec (priority (task s t)) 0); [by rewrite !andb_false_r|].
  rewrite !andb_true_iff. intros [[[Hc Hw] [Hl Hpol]] [[_ Hsl] Hm]].
  split_and!; try done; [apply Z.ltb_lt; lia|by apply eqb_prop in Hl].
Qed.

Lemma runnable_intro s t :
  roles_ok s → application t → sound (task s t) = true → task_waits_for_nothing s t = true →
  base_priority (task s t) ≤ priority (task s t) < RTS_PRIORITY_COUNT → policy_linked s t = true →
  state (task s t) = RTS_TASK_STATE_READY ∨
    (k_current_task s = Some t ∧ state (task s t) = RTS_TASK_STATE_RUNNING) →
  runnable s t = true.
Proof.
  intros Hok Ha Hs Hw Hp Hl Hst. destruct (app_roles s t Hok Ha) as (_&_&Hh).
  unfold sound, RTS_IDLE_PRIORITY in Hs. tests_in Hs. apply Z.ltb_lt in T0.
  unfold runnable, runnable_identity_state, RTS_IDLE_PRIORITY. rewrite app_policy_valid, Hl, Hh by done.
  rewrite (proj2 (Z.ltb_ge _ (base_priority _))), (proj2 (Z.leb_gt _ _)),
    (proj2 (Z.eqb_neq (priority _) 0)) by lia.
  cbn [orb eqb]. tests; try done; [apply Z.ltb_lt; lia|]. apply orb_true_iff.
  rewrite andb_true_iff, !bool_decide_eq_true. destruct Hst as [|[]]; auto.
Qed.

Lemma unready_policy_valid s t :
  roles_ok s → application t → sound (task s t) = true → unready s t → policy_valid s t false = true.
Proof.
  intros Hok Ha Hs Hu. rewrite app_policy_valid, policy_linked_fp, Hu by done.
  unfold sound in Hs. apply andb_true_iff in Hs as [_ Hs]. by rewrite bool_decide_false.
Qed.

Lemma blocked_delay_intro s t :
  roles_ok s → lists_ok (k_heap s) → application t → sound (task s t) = true → priority (task s t) < RTS_PRIORITY_COUNT →
  unready s t → delayed s t = true → w_owner (wait_node s t) = None →
  state (task s t) = RTS_TASK_STATE_BLOCKED → wait_reason (wait (task s t)) = RTS_WAIT_DELAY →
  wait_object (wait (task s t)) = None → wait_timeout_active (wait (task s t)) = false →
  blocked_delay s t = true.
Proof.
  intros Hok Hl Ha Hs Hp Hu Hd Hw Hst Hr Ho Hto. destruct (app_roles s t Hok Ha) as (Hi&_&Hh).
  destruct (unready_clear s t Hl Hu) as (E1&E2&E3).
  unfold sound in Hs. tests_in Hs.
  unfold blocked_delay. rewrite app_policy_valid, policy_linked_fp, Hu, Hh, Hd, Hto, E1, E2, E3 by done.
  rewrite (bool_decide_false _ Hi), (bool_decide_false (None = _)) by done.
  tests; try done; try (by apply bool_decide_true); by apply Z.ltb_lt.
Qed.

Lemma blocked_delay_facts s t :
  roles_ok s → application t → blocked_delay s t = true →
  sound (task s t) = true ∧ delayed s t = true ∧ w_owner (wait_node s t) = None ∧
  wait_reason (wait (task s t)) = RTS_WAIT_DELAY ∧ wait_object (wait (task s t)) = None ∧
  wait_timeout_active (wait (task s t)) = false.
Proof.
  intros Hok Ha. unfold blocked_delay, sound. rewrite app_policy_valid, !andb_true_iff, !bool_decide_eq_true by done.
  rewrite !negb_true_iff. tauto.
Qed.

(** ** Running the operations that steps are made of *)

Lemma kstep_ext s s' c R D W R' :
  kstep s s' c R D W → (∀ p, R' p = R p) → kstep s s' c R' D W.
Proof. intros [] HR. split; try done. intros p. rewrite HR. auto. Qed.

Lemma kstep_ext_wait s s' c R D W W' :
  kstep s s' c R D W → (∀ o, W' o = W o) → kstep s s' c R D W'.
Proof. intros [] HW. split; try done. intros o. rewrite HW. auto. Qed.

Lemma kstep_room s s' c R D W : kstep s s' c R D W → port_room s → port_room s'.
Proof. intros Hk Hr. destruct (ks_nesting _ _ _ _ _ _ Hk) as (E&_). unfold port_room in *. by rewrite E. Qed.

Lemma filter_ne_absent (c : task_ptr) (l : list task_ptr) : c ∉ l → filter (λ t, t ≠ c) l = l.
Proof. intros Hn. apply filter_all. by intros x Hx ->. Qed.

Section running.
Context (s s1 : kernel) (c : task_ptr) (R : Z → list task_ptr) (D : list task_ptr) (W : sync_ptr → list task_ptr).
Context (Hk : kstep s s1 c R D W).

Lemma wp_kstep_task f (Q : unit → kernel → Prop) :
  pinned (f (task s1 c)) = pinned (task s1 c) →
  (∀ s2, kstep s s2 c R D W → task s2 c = f (task s1 c) → Q tt s2) →
  wp (modify (upd_task c f)) Q s1.
Proof.
  intros Hp HQ. apply wp_modify, HQ; [by apply kstep_task|]. by rewrite task_upd_task, decide_True.
Qed.

Lemma wp_kstep_counter n (Q : unit → kernel → Prop) :
  (∀ s2, kstep s s2 c R D W → task s2 c = task s1 c → Q tt s2) → wp (RTS_DIAG_COUNTER_INC n) Q s1.
Proof.
  intros HQ. eapply wp_mono; [apply RTS_DIAG_COUNTER_INC_spec|]. intros [] s2 Hf.
  apply HQ; [by eapply kstep_counter|]. by destruct Hf as (cs&->).
Qed.

Lemma wp_kstep_trace e a b (Q : unit → kernel → Prop) :
  port_room s → (∀ s2, kstep s s2 c R D W → task s2 c = task s1 c → Q tt s2) → wp (RTS_TRACE e a b) Q s1.
Proof.
  intros Hr HQ. eapply wp_mono; [apply RTS_TRACE_spec; by eapply kstep_room|]. intros [] s2 Hf.
  apply HQ; [by eapply kstep_trace|]. by destruct Hf as (tok&tr&->&_).
Qed.

Lemma wp_kstep_diag field `{Setter _ _ field} (Q : unit → kernel → Prop) :
  (∀ x v, (face (x <| field := v |>), chain (x <| field := v |>)) = (face x, chain x)) →
  (∀ s2, kstep s s2 c R D W → face (task s2 c) = face (task s1 c) → Q tt s2) →
  wp (RTS_DIAG_TASK_INC c field) Q s1.
Proof.
  intros Hf HQ. unfold RTS_DIAG_TASK_INC. destruct RTS_ENABLE_RUNTIME_STATS; cbn [when].
  - pose proof (Hf (task s1 c) (rts_diagnostic_counter_increment (field (task s1 c)))) as E.
    injection E as. eapply wp_kstep_task; [unfold pinned, chain; congruence|]. intros s2 Hk2 E2.
    apply HQ; [done|]. rewrite E2. unfold face, identity. congruence.
  - by apply HQ.
Qed.

(** The ready queues without [c]. *)
Definition without (p : Z) : list task_ptr := filter (λ t, t ≠ c) (R p).

Lemma wp_kstep_block (Q : bool → kernel → Prop) :
  c ∈ R (priority (task s1 c)) →
  (∀ s2, kstep s s2 c without D W → task s2 c = task s1 c → Q true s2) →
  wp (rts_policy_task_block (Some c)) Q s1.
Proof.
  intros Hc HQ. pose proof (ks_ready_ok _ _ _ _ _ _ Hk) as Hok. set (p := priority (task s1 c)) in *.
  rewrite <- (ks_ready _ _ _ _ _ _ Hk p) in Hc. apply list_elem_of_split in Hc as (l1&l2&E).
  assert (rts_policy_task_block (Some c) = rts_policy_fp_remove (Some c)) as ->.
  { pose proof bitmap_policy. unfold rts_policy_task_block, rts_policy_remove, rts_policy_rms_remove. by destruct RTS_POLICY. }
  eapply wp_mono; [apply (rts_policy_fp_remove_spec s1 c l1 l2 Hok E)|]. intros b s2 [-> Hst]. apply HQ.
  - eapply kstep_ext; [by eapply kstep_ready|]. intros p'. unfold without, set_queue.
    rewrite <- (ks_ready _ _ _ _ _ _ Hk). case_decide as Hp; [subst p'|].
    + fold p. rewrite E. apply filter_ne_mid. rewrite <- E. by apply ready_queue_nodup.
    + apply filter_ne_absent. intros Hin. apply (ro_priority s1 Hok) in Hin. done.
  - by destruct Hst as (_&h'&bm'&->&_).
Qed.
End running.

Lemma wp_kstep_sequence s s1 c R D W (Q : unit → kernel → Prop) :
  kstep s s1 c R D W → (∀ s2, kstep s s2 c R D W → task s2 c = task s1 c → Q tt s2) →
  wp next_release_sequence Q s1.
Proof.
  intros Hk HQ. unfold next_release_sequence. apply wp_bind, wp_modify, wp_bind, wp_gets.
  destruct (_ =? 0); cbn [when]; [apply wp_modify|apply wp_ret]; apply HQ; try done; repeat apply kstep_sequence; done.
Qed.

Lemma wp_kstep_release s s1 c R D W (Q : unit → kernel → Prop) :
  kstep s s1 c R D W →
  (∀ s2, kstep s s2 c R D W → face (task s2 c) = face (task s1 c) → Q tt s2) →
  wp (rts_policy_record_release c) Q s1.
Proof.
  intros Hk HQ. unfold rts_policy_record_release. apply wp_bind. eapply wp_kstep_sequence; [exact Hk|].
  intros s2 Hk2 E2. apply wp_bind, wp_gets, wp_bind. eapply wp_kstep_task; [exact Hk2|done|]. intros s3 Hk3 E3.
  apply wp_bind. eapply wp_kstep_task; [exact Hk3|done|]. intros s4 Hk4 E4. apply wp_bind, wp_gets.
  eapply wp_kstep_task; [exact Hk4|done|]. intros s5 Hk5 E5. apply HQ; [done|].
  by rewrite E5, E4, E3, E2.
Qed.

(** No task is in the queue of the EDF policy. *)
Lemma ko_not_edf s t : kernel_ok s → NReady t ∉ kcontents s LEdf.
Proof.
  intros Hok Hin. pose proof (ro_lists _ (ko_ready s Hok)) as Hl.
  apply (lo_owner _ Hl) in Hin. change (n_owner (node s (NReady t)) = Some LEdf) in Hin.
  pose proof (ko_task s Hok t) as Ht. unfold task_ok, unready in Ht. rewrite Hin in Ht.
  destruct (state (task s t)); [by destruct Ht| | |by destruct Ht].
  all: apply runnable_ready in Ht; [|apply Hok]; apply (ready_queue_owner s (ko_ready s Hok)) in Ht; congruence.
Qed.

Lemma unready_iff s t :
  ready_ok s → unready s t ↔ (∀ p, t ∉ ready_queue s p) ∧ NReady t ∉ kcontents s LEdf.
Proof.
  intros Hok. pose proof (ro_lists _ Hok) as Hl. unfold unready. split.
  - intros Hu. split; [intros p Hp%(ready_queue_owner s Hok)|intros He%(lo_owner _ Hl)]; [congruence|].
    unfold node in Hu. congruence.
  - intros [Hn He]. destruct (n_owner (node s (NReady t))) as [l|] eqn:E; [|done]. exfalso.
    apply (lo_owner _ Hl) in E as Hin. destruct (ready_node_fits s t l Hl Hin) as [[p ->]| ->]; [|done].
    apply (Hn p). by apply (ready_queue_owner s Hok).
Qed.

Lemma kstep_unready s s' c R D W :
  kstep s s' c R D W → NReady c ∉ kcontents s LEdf → (∀ p, c ∉ R p) → unready s' c.
Proof.
  intros Hk He Hn. apply unready_iff; [by eapply ks_ready_ok|]. split.
  - intros p. by rewrite (ks_ready _ _ _ _ _ _ Hk).
  - by rewrite (ks_lists _ _ _ _ _ _ Hk) by auto.
Qed.

Lemma wp_kstep_unblock s s1 c R D W (Q : bool → kernel → Prop) :
  kstep s s1 c R D W → NReady c ∉ kcontents s LEdf → (∀ p, c ∉ R p) → c ∈ all_tasks →
  0 ≤ priority (task s1 c) < RTS_PRIORITY_COUNT → state (task s1 c) ≠ RTS_TASK_STATE_DORMANT →
  (∀ s2, kstep s s2 c (set_queue R (priority (task s1 c)) (R (priority (task s1 c)) ++ [c])) D W →
     face (task s2 c) = face (task s1 c) → Q true s2) →
  wp (rts_policy_task_unblock (Some c)) Q s1.
Proof.
  intros Hk He Hn Hall Hp Hd HQ. cbn [rts_policy_task_unblock].
  apply wp_bind. eapply wp_kstep_release; [exact Hk|]. intros s2 Hk2 E2.
  pose proof (face_eq _ _ E2) as (Ei&_&Es). assert (priority (task s2 c) = priority (task s1 c)) as Ep by by injection Ei.
  assert (rts_policy_select_insert (Some c) s2 = rts_policy_fp_insert (Some c) s2) as Esel.
  { pose proof bitmap_policy. unfold rts_policy_select_insert, rts_policy_rms_insert. destruct RTS_POLICY; [done| |done].
    rewrite bind_bind, bind_gets, bool_decide_false by congruence. done. }
  unfold wp at 1. rewrite Esel. fold (wp (rts_policy_fp_insert (Some c)) Q s2).
  eapply wp_mono; [apply rts_policy_fp_insert_spec; [apply Hk2|]|].
  { split_and!; [done|rewrite Ep; apply Hp|rewrite Ep; apply Hp|by eapply kstep_unready]. }
  intros b s3 [-> Hst]. rewrite Ep in Hst. apply HQ.
  - rewrite <- (ks_ready _ _ _ _ _ _ Hk2 (priority (task s1 c))). by eapply kstep_ready.
  - by destruct Hst as (_&h'&bm'&->&_).
Qed.

(** The delay queue. *)
Lemma kstep_undelayed s s' c R D W : kstep s s' c R D W → c ∉ D → n_owner (node s' (NDelay c)) = None.
Proof.
  intros Hk Hn. pose proof (ro_lists _ (ks_ready_ok _ _ _ _ _ _ Hk)) as Hl.
  destruct (n_owner (node s' (NDelay c))) as [l|] eqn:E; [|done]. exfalso. apply Hn.
  apply (lo_owner _ Hl) in E as Hin. rewrite (delay_node_fits s' c l Hl Hin) in E.
  rewrite <- (ks_delay _ _ _ _ _ _ Hk). by apply (delay_owner s' c Hl).
Qed.

Lemma kstep_delay_ok base s s1 c R W :
  delay_ok base s → kstep s s1 c R (delay_list s) W → c ∉ delay_list s → delay_ok base s1.
Proof.
  intros [D1 D2 D3 D4] Hk Hn. assert (∀ u, u ∈ delay_list s → face (task s1 u) = face (task s u)) as Ht.
  { intros u Hu. apply (ks_face s s1 c R (delay_list s) W u Hk). by intros ->. }
  split; rewrite ?(ks_delay _ _ _ _ _ _ Hk).
  - apply (ro_lists _ (ks_ready_ok _ _ _ _ _ _ Hk)).
  - intros u Hu. unfold wake_tick. destruct (face_eq _ _ (Ht u Hu)) as (_&->&_). by apply D2.
  - intros u Hu. unfold wake_in, wake_tick. destruct (face_eq _ _ (Ht u Hu)) as (_&->&_). by apply D3.
  - by apply (wake_sorted_ext base s).
Qed.

Lemma wp_kstep_delay_insert base s s1 c R W (Q : unit → kernel → Prop) :
  delay_ok base s → kstep s s1 c R (delay_list s) W → c ∉ delay_list s → c ∈ all_tasks →
  wake_in base s1 c < RTS_TICK_HALF_RANGE →
  (∀ s2, kstep s s2 c R (insert_by (wake_in base s2) c (delay_list s)) W → task s2 c = task s1 c → Q tt s2) →
  wp (rts_delay_insert (Some c)) Q s1.
Proof.
  intros Hd Hk Hn Hall Hw HQ.
  eapply wp_mono; [apply (rts_delay_insert_spec base); [by eapply kstep_delay_ok|done|by eapply kstep_undelayed|done]|].
  intros [] s2 Hst. rewrite (ks_delay _ _ _ _ _ _ Hk) in Hst.
  assert (wake_in base s1 = wake_in base s2) as E by by destruct Hst as (h'&->&_).
  rewrite E in Hst. apply HQ; [by eapply kstep_delay|]. by destruct Hst as (h'&->&_).
Qed.

Lemma wp_kstep_delay_remove s s1 c R D W (Q : unit → kernel → Prop) :
  kstep s s1 c R D W → NoDup D → c ∈ D →
  (∀ s2, kstep s s2 c R (filter (λ t, t ≠ c) D) W → task s2 c = task s1 c → Q tt s2) →
  wp (rts_delay_remove (Some c)) Q s1.
Proof.
  intros Hk Hnd Hin HQ. apply list_elem_of_split in Hin as (l1&l2&E).
  eapply wp_mono; [apply (rts_delay_remove_spec s1 c l1 l2)|].
  - apply (ro_lists _ (ks_ready_ok _ _ _ _ _ _ Hk)).
  - by rewrite (ks_delay _ _ _ _ _ _ Hk).
  - intros [] s2 Hst. apply HQ; [|by destruct Hst as (h'&->&_)].
    subst D. rewrite filter_ne_mid by done. by eapply kstep_delay.
Qed.

(** The waiters of an object. *)
Lemma wp_kstep_wait_insert s s1 c R D W o (Q : unit → kernel → Prop) :
  kstep s s1 c R D W → by_priority s1 (W o) → (∀ o, c ∉ W o) → application c →
  (∀ s2, kstep s s2 c R D (λ o', if decide (o' = o) then insert_by (by_wait_rank s1) c (W o) else W o') →
     task s2 c = task s1 c → Q tt s2) →
  wp (rts_wait_object_insert o (Some c)) Q s1.
Proof.
  intros Hk Hs Hn Ha HQ. pose proof (ks_waits _ _ _ _ _ _ Hk) as Hwf.
  eapply wp_mono; [apply rts_wait_object_insert_spec; [done| | |done]|].
  - by rewrite (ks_wait _ _ _ _ _ _ Hk).
  - destruct (w_owner (wait_node s1 c)) as [o'|] eqn:E; [|done]. exfalso. apply (Hn o').
    rewrite <- (ks_wait _ _ _ _ _ _ Hk). by apply (ww_owner s1 Hwf).
  - intros [] s2 Hst. rewrite (ks_wait _ _ _ _ _ _ Hk) in Hst. apply HQ; [by eapply kstep_wait|].
    by eapply waits_step_priority.
Qed.

Lemma wp_kstep_wait_remove s s1 c R D W o (Q : unit → kernel → Prop) :
  kstep s s1 c R D W → by_priority s1 (W o) → c ∈ W o →
  (∀ s2, kstep s s2 c R D (λ o', if decide (o' = o) then filter (λ t, t ≠ c) (W o) else W o') →
     task s2 c = task s1 c → Q tt s2) →
  wp (rts_wait_object_remove o (Some c)) Q s1.
Proof.
  intros Hk Hs Hin HQ. pose proof (ks_waits _ _ _ _ _ _ Hk) as Hwf.
  pose proof (ww_nodup s1 Hwf o) as Hnd. pose proof (ks_wait _ _ _ _ _ _ Hk o) as Ew.
  apply list_elem_of_split in Hin as (l1&l2&E). rewrite E in *. rewrite Ew in Hnd.
  eapply wp_mono; [apply (rts_wait_object_remove_spec s1 o c l1 l2); [done..|by eapply by_priority_mid]|].
  intros [] s2 Hst. rewrite filter_ne_mid in HQ by done.
  apply HQ; [by eapply kstep_wait|]. by eapply waits_step_priority.
Qed.
End steps.
End invariant.

(** Steps that leave the owners of mutexes alone. *)
Abbreviation kstep := (kstepm false).

Lemma ks_tasks `{ConfigOk} s s' c R D W : kstep s s' c R D W → ∀ u, u ≠ c → task s' u = task s u.
Proof. intros Hk u. exact (ks_kept _ _ _ _ _ _ Hk u). Qed.

(** A step of either kind followed by one that leaves ownership alone. *)
Lemma kstep_trans `{ConfigOk} {m} s s1 s2 c R D W R' D' W' :
  kstepm m s s1 c R D W → kstep s1 s2 c R' D' W' → kstepm m s s2 c R' D' W'.
Proof.
  intros [] [A1 A2 A3 A4 A5 A6 A7 A8 A9 A10]. split; try done.
  - intros l Hl. rewrite A4; auto.
  - intros u Hu. specialize (A7 u Hu). cbn in A7. rewrite A7. auto.
  - intros Hm. rewrite A8; auto.
  - by eapply same_nesting_trans.
  - rewrite <- ks_outside0. pose proof (f_equal (outside m) A10) as E. destruct m; exact E.
Qed.

Lemma kstep_weaken `{ConfigOk} s s' c R D W : kstep s s' c R D W → kstepm true s s' c R D W.
Proof.
  intros []. split; try done.
  - intros u Hu. specialize (ks_kept0 u Hu). cbn in ks_kept0. by rewrite ks_kept0.
  - by pose proof (f_equal (outside true) ks_outside0) as E.
Qed.

(** ** The invariant between kernel calls *)

Abbreviation kernel_ok s := (kernel_ok_at (k_current_tick s) s).

Section between_calls.
Context `{ConfigOk} `{!BitmapPolicy}.

Lemma kernel_ok_kstep {m} s s' c R D W :
  kernel_ok s → kstepm m s s' c R D W → same_but s c R D W → c ≠ TIdle →
  identity (task s' c) = identity (task s c) → (∀ o, by_priority s (W o)) →
  (c ∈ D → is_u32 (wake_tick s' c) ∧ wake_in (k_current_tick s) s' c < RTS_TICK_HALF_RANGE) →
  StronglySorted (λ a b, wake_in (k_current_tick s) s' a ≤ wake_in (k_current_tick s) s' b) D →
  task_ok s' c → (k_current_task s = Some c → outgoing s' c = true) →
  kernel_ok s'.
Proof.
  intros Hok Hk. rewrite (kstep_field k_current_tick _ _ _ _ _ _ Hk) by done. by apply (kernel_ok_kstep_at (m:=m)).
Qed.

Lemma kernel_ok_frame s s' : kernel_ok s → same_scheduling s s' → plan_ok s' → kernel_ok s'.
Proof. intros Hok Hs. rewrite (ss_tick _ _ Hs). by apply (kernel_ok_frame_at s). Qed.

Lemma kernel_ok_port f s : kernel_ok s → kernel_ok (upd_port f s).
Proof. apply kernel_ok_port_at. Qed.

Lemma kernel_ok_prepared c n s :
  kernel_ok s → k_current_task s = Some c → kernel_ok (prepared c n s).
Proof. rewrite (ss_tick _ _ (prepared_same c n s)). apply kernel_ok_prepared_at. Qed.
End between_calls.
