(* ===== verification/StoreCheck.v ===== *)
(** * Deciding the invariants on a concrete store

    The invariants quantify over all tasks, nodes, lists and objects; a store
    mentions finitely many of them and every other one is zero.  The lemmas here
    reduce the invariants to tests over what the store mentions, so that the
    store a run ends in can be shown to satisfy them by evaluation. *)

From S2P Require Import Prelude Machine Config Types Links IntrusiveList KernelLists Time ReadyQueue.
From S2P Require Import DelayQueue HostPort Diagnostics TaskPool Policy PolicySpec WaitObject Scheduler.
From S2P Require Import SwitchSpec KernelSpec.

(** ** Linked lists *)

#[export] Instance links_eq_dec {N O} `{EqDecision N} `{EqDecision O} : EqDecision (links N O).
Proof. solve_decision. Defined.

#[export] Instance lseg_dec {N O} `{EqDecision N} (f : N → links N O) p xs nx : Decision (lseg f p xs nx).
Proof. revert p. induction xs as [|x xs IH]; intros p; cbn; apply _. Defined.

#[export] Instance strongly_sorted_dec {A} (R : A → A → Prop) `{!RelDecision R} l : Decision (StronglySorted R l).
Proof.
  induction l as [|x l IH]; [left; constructor|].
  refine (cast_if_and (decide (Forall (R x) l)) IH); abstract (by constructor || by inversion 1).
Defined.

Section finite_links.
Context {N O : Type} `{EqDecision N} `{EqDecision O} (f : N → links N O) (ns : list N).
Hypothesis outside_unlinked : ∀ n, n ∉ ns → f n = unlinked.

(** The chain [xs] of [o], and every node with that owner. *)
Definition dll_check (o : O) (xs : list N) : Prop :=
  lseg f None xs None ∧ NoDup xs ∧ Forall (λ n, l_owner (f n) = Some o) xs ∧
  Forall (λ n, l_owner (f n) = Some o → n ∈ xs) ns.

Lemma dll_check_ok o xs : dll_check o xs → dll f o xs.
Proof.
  intros (Hs&Hn&Ho&Ha). rewrite !Forall_forall in *. split_and!; [done..|]. intros n. split; [auto|].
  intros Hf. destruct (decide (n ∈ ns)) as [Hin|Hout]; [auto|].
  rewrite (outside_unlinked n Hout) in Hf. done.
Qed.

Definition clean_check : Prop := Forall (λ n, l_owner (f n) = None → f n = unlinked) ns.

Lemma clean_check_ok : clean_check → nodes_clean f.
Proof.
  intros Hc n Hn. unfold clean_check in Hc. rewrite Forall_forall in Hc. destruct (decide (n ∈ ns)); auto.
Qed.

(** An object outside [os] owns nothing. *)
Definition owners_check (os : list O) : Prop :=
  Forall (λ n, match l_owner (f n) with Some o => o ∈ os | None => True end) ns.

Lemma owners_check_ok os o : owners_check os → o ∉ os → dll f o [].
Proof.
  intros Hc Ho. apply dll_empty. intros n Hn. unfold owners_check in Hc. rewrite Forall_forall in Hc.
  destruct (decide (n ∈ ns)) as [Hin|Hout].
  - specialize (Hc n Hin). by rewrite Hn in Hc.
  - rewrite (outside_unlinked n Hout) in Hn. done.
Qed.
End finite_links.

(** ** Intrusive lists and the ready set *)

#[export] Instance rts_list_eq_dec : EqDecision rts_list.
Proof. solve_decision. Defined.
#[export] Instance rts_wait_object_storage_eq_dec : EqDecision rts_wait_object_storage.
Proof. solve_decision. Defined.
#[export] Instance node_fits_dec `{Config} n l : Decision (node_fits n l).
Proof. destruct n, l; cbn; apply _. Defined.

Section heap.
Context `{ConfigOk}.

Definition heap_nodes (h : list_heap) : list node_ptr := elements (dom (h_nodes h) : gset node_ptr).
Definition heap_lists (h : list_heap) : list list_ptr := elements (dom (h_lists h) : gset list_ptr).

Lemma not_in_map `{Countable Key} {A} `{Inhabited A} (m : gmap Key A) k :
  k ∉ elements (dom m : gset Key) → m !!! k = inhabitant.
Proof. rewrite elem_of_elements, not_elem_of_dom, lookup_total_alt. by intros ->. Qed.

Definition node_check (h : list_heap) (n : node_ptr) : Prop :=
  match n_owner (hnode h n) with
  | Some l => node_fits n l ∧ n_object (hnode h n) = Some (node_object n)
  | None => node_task n = None ∨ n_object (hnode h n) = None
  end.
#[export] Instance node_check_dec h n : Decision (node_check h n).
Proof. unfold node_check. destruct (n_owner _); apply _. Defined.

Definition lists_check (h : list_heap) : Prop :=
  clean_check (hlinks h) (heap_nodes h) ∧ owners_check (hlinks h) (heap_nodes h) (heap_lists h) ∧
  Forall (λ l, dll_check (hlinks h) (heap_nodes h) l (contents h l) ∧
    hlist h l = mk_list (first_or (contents h l) None) (last_or (contents h l) None)
                  (Z.of_nat (length (contents h l)))) (heap_lists h) ∧
  Forall (node_check h) (heap_nodes h).

Lemma lists_check_ok h : lists_check h → lists_ok h.
Proof.
  intros (Hc&Ho&Hl&Hn). rewrite Forall_forall in Hl. rewrite Forall_forall in Hn.
  assert (∀ n, n ∉ heap_nodes h → hnode h n = inhabitant) as Hout by (intros n; apply not_in_map).
  assert (∀ n, n ∉ heap_nodes h → hlinks h n = unlinked) as Hunl.
  { intros n Hn'. unfold hlinks. by rewrite Hout. }
  assert (∀ l, l ∉ heap_lists h → hlist h l = inhabitant) as Hlout by (intros l; apply not_in_map).
  assert (heap_wf h) as Hwf.
  { apply heap_wf_intro; [by eapply clean_check_ok|]. intros l. destruct (decide (l ∈ heap_lists h)) as [Hin|Hni].
    - destruct (Hl l Hin). exists (contents h l). split; [by eapply dll_check_ok|done].
    - exists []. split; [by eapply owners_check_ok|by rewrite Hlout]. }
  split; [done| |].
  - intros n t Ht Hno. destruct (decide (n ∈ heap_nodes h)) as [Hin|Hni]; [|by rewrite Hout].
    specialize (Hn n Hin). unfold node_check in Hn. rewrite Hno in Hn. destruct Hn; congruence.
  - intros n l Hin. apply (wf_owner h Hwf) in Hin. destruct (decide (n ∈ heap_nodes h)) as [Hn'|Hni].
    + specialize (Hn n Hn'). unfold node_check in Hn. by rewrite Hin in Hn.
    + rewrite Hout in Hin by done. done.
Qed.

Definition ready_check (s : kernel) : Prop :=
  lists_check (k_heap s) ∧
  Forall (λ l, match l with LReady p => Forall (λ t, priority (task s t) = p) (ready_queue s p) | _ => True end)
    (heap_lists (k_heap s)) ∧
  Forall (λ w, is_u32 (ready_word s w)) (elements (dom (k_ready_bitmap s) : gset Z)) ∧
  Forall (λ w, Forall (λ b, Z.testbit (ready_word s w) b =
    bool_decide (kcontents s (LReady (w * 32 + b)) ≠ [])) (seqZ 0 32)) (seqZ 0 RTS_READY_BITMAP_WORDS).

Lemma ready_check_ok s : ready_check s → ready_ok s.
Proof.
  intros (Hl&Hp&Hw&Hb). rewrite Forall_forall in Hp. rewrite Forall_forall in Hw. rewrite Forall_forall in Hb. split.
  - by apply lists_check_ok.
  - intros p t Ht. destruct (decide (LReady p ∈ heap_lists (k_heap s))) as [Hin|Hni].
    + specialize (Hp _ Hin). cbn in Hp. rewrite Forall_forall in Hp. auto.
    + unfold ready_queue, kcontents, contents in Ht.
      rewrite (not_in_map (h_lists (k_heap s)) (LReady p) Hni : hlist (k_heap s) (LReady p) = _) in Ht.
      by apply elem_of_nil in Ht.
  - intros w. destruct (decide (w ∈ elements (dom (k_ready_bitmap s) : gset Z))) as [Hin|Hni]; [auto|].
    unfold ready_word. by rewrite not_in_map.
  - intros w b Hw' Hb'. specialize (Hb w). rewrite Forall_forall in Hb.
    apply Hb; apply elem_of_seqZ; lia.
Qed.
End heap.

(** ** Waiters, tasks and the whole invariant *)

#[export] Instance application_dec `{Config} t : Decision (application t).
Proof.
  refine (match t with
          | TApp i => cast_if (decide (0 ≤ i < RTS_MAX_TASKS))
          | _ => right _
          end); abstract (unfold application; naive_solver).
Defined.

(** Decide a nest of conjunctions, bounded quantifiers and cases. *)
Ltac decide_nest :=
  repeat first
  [ progress intros; cbn beta
  | apply and_dec | apply or_dec | apply impl_dec | apply Forall_dec | apply strongly_sorted_dec
  | apply _
  | match goal with
    | |- Decision (match ?x with _ => _ end) => destruct x
    | |- RelDecision _ => intros ? ?; cbn
    end ].

Section store.
Context `{ConfigOk}.

Definition wait_tasks (s : kernel) : list task_ptr := elements (dom (k_wait_nodes s) : gset task_ptr).
Definition wait_objects (s : kernel) : list sync_ptr := elements (dom (k_waiters s) : gset sync_ptr).

Definition waits_check (s : kernel) : Prop :=
  clean_check (wlinks s) (wait_tasks s) ∧ owners_check (wlinks s) (wait_tasks s) (wait_objects s) ∧
  Forall (λ o, dll_check (wlinks s) (wait_tasks s) o (waiting s o) ∧
    waiters s o = mk_wait_object_storage (first_or (waiting s o) None) (last_or (waiting s o) None)
                    (Z.of_nat (length (waiting s o))) ∧
    Forall application (waiting s o) ∧ by_priority s (waiting s o)) (wait_objects s).

Lemma waits_check_ok s : waits_check s → waits_ok s.
Proof.
  intros (Hc&Ho&Hw). rewrite Forall_forall in Hw.
  assert (∀ t, t ∉ wait_tasks s → wlinks s t = unlinked) as Hunl.
  { intros t Ht. unfold wlinks, wait_node. by rewrite not_in_map. }
  assert (∀ o, o ∉ wait_objects s → waiters s o = inhabitant) as Hout by (intros o; apply not_in_map).
  assert (∀ o, o ∉ wait_objects s → waiting s o = []) as Hnil.
  { intros o Hni. unfold waiting. by rewrite Hout. }
  split; [split|].
  - by eapply clean_check_ok.
  - intros o. destruct (decide (o ∈ wait_objects s)) as [Hin|Hni].
    + destruct (Hw o Hin) as (Hd&Hs&_). split; [by eapply dll_check_ok|done].
    + rewrite Hnil by done. split; [by eapply owners_check_ok|by rewrite Hout].
  - intros o t Ht. destruct (decide (o ∈ wait_objects s)) as [Hin|Hni].
    + destruct (Hw o Hin) as (_&_&Ha&_). rewrite Forall_forall in Ha. auto.
    + rewrite Hnil in Ht by done. by apply elem_of_nil in Ht.
  - intros o. destruct (decide (o ∈ wait_objects s)) as [Hin|Hni].
    + by destruct (Hw o Hin) as (_&_&_&?).
    + rewrite Hnil by done. constructor.
Qed.

#[export] Instance task_ok_dec s t : Decision (task_ok s t).
Proof. unfold task_ok, unready. destruct (state (task s t)); apply _. Defined.

(** Every task the store mentions. *)
Definition mentioned (s : kernel) : list task_ptr :=
  stored_tasks s ++ omap node_task (heap_nodes (k_heap s)).

Definition kernel_check (s : kernel) : Prop :=
  ready_check s ∧
  (Forall (λ t, is_u32 (wake_tick s t) ∧ wake_in (k_current_tick s) s t < RTS_TICK_HALF_RANGE) (delay_list s) ∧
   StronglySorted (λ a b, wake_in (k_current_tick s) s a ≤ wake_in (k_current_tick s) s b) (delay_list s)) ∧
  waits_check s ∧
  Forall (λ t, 0 ≤ priority (task s t) < RTS_PRIORITY_COUNT ∧ base_priority (task s t) ≤ priority (task s t) ∧
               task_ok s t) (mentioned s) ∧
  is_u32 (k_current_tick s) ∧ k_idle_task s = Some TIdle ∧
  (state (task s TIdle) = RTS_TASK_STATE_READY ∨ state (task s TIdle) = RTS_TASK_STATE_RUNNING) ∧
  k_timer_service_task s = Some TTimerService ∧ k_lifecycle s = RTS_KERNEL_RUNNING ∧
  match k_current_task s with Some c => outgoing s c = true | None => False end ∧
  match plan_pending (k_switch_plan s) || plan_active (k_switch_plan s), plan_to (k_switch_plan s) with
  | false, _ => True
  | true, Some n => plan_pending (k_switch_plan s) && plan_active (k_switch_plan s) = false ∧
      plan_from (k_switch_plan s) = k_current_task s ∧ k_current_task s ≠ Some n
  | true, None => False
  end.

Lemma unmentioned s t :
  t ∉ mentioned s →
  task s t = inhabitant ∧ wait_node s t = inhabitant ∧ node s (NReady t) = inhabitant ∧ node s (NDelay t) = inhabitant.
Proof.
  unfold mentioned, stored_tasks. rewrite not_elem_of_app, elem_of_elements, not_elem_of_union, !not_elem_of_dom.
  intros [[Ht Hw] Hn].
  assert (∀ n, node_task n = Some t → node s n = inhabitant) as Hnode.
  { intros n Hnt. apply not_in_map. intros Hin. apply Hn, list_elem_of_omap. eauto. }
  unfold task, wait_node. rewrite !lookup_total_alt, Ht, Hw. split_and!; [done..| |]; by apply Hnode.
Qed.

Lemma kernel_check_ok s : kernel_check s → kernel_ok s.
Proof.
  intros (Hr&[Hd1 Hd2]&Hw&Ht&Hn&Hi&His&Hsv&Hl&Hc&Hp). pose proof cfg_priorities.
  rewrite Forall_forall in Ht. rewrite Forall_forall in Hd1. pose proof (ready_check_ok s Hr) as Hro.
  split; try done.
  - split; [apply Hro|intros t Hin; by apply Hd1..|done].
  - by apply waits_check_ok.
  - intros t. destruct (decide (t ∈ mentioned s)) as [Hin|Hni]; [by apply Ht|].
    destruct (unmentioned s t Hni) as (->&_). cbn. lia.
  - intros t. destruct (decide (t ∈ mentioned s)) as [Hin|Hni]; [by apply Ht|].
    by destruct (unmentioned s t Hni) as (->&_).
  - intros t. destruct (decide (t ∈ mentioned s)) as [Hin|Hni]; [by apply Ht|].
    destruct (unmentioned s t Hni) as (E1&E2&E3&E4). unfold task_ok, unready. rewrite E1, E2, E3, E4. done.
  - destruct (k_current_task s) as [c|]; [eauto|done].
  - destruct (plan_pending (k_switch_plan s)) eqn:E1, (plan_active (k_switch_plan s)) eqn:E2, (plan_to (k_switch_plan s)) as [n|] eqn:E3;
      cbn in Hp; try done; try (by destruct Hp).
    all: split; rewrite ?E1, ?E2, ?E3; try done; try (by destruct Hp as (_&?&?)); try (by intros [? | ?]).
    all: intros _; exists n; split; [done|]; by destruct Hp as (_&_&?).
Qed.

#[export] Instance kernel_check_dec s : Decision (kernel_check s).
Proof.
  unfold kernel_check, ready_check, lists_check, waits_check, clean_check, owners_check, dll_check, by_priority, is_u32.
  decide_nest.
Defined.
End store.

(** Establish the invariant of a closed store by evaluation. *)
Ltac check_kernel := apply kernel_check_ok; refine (bool_decide_eq_true_1 _ _); vm_compute; reflexivity.
