(* ===== verification/TaskApi.v ===== *)
(** * Task operations

    kernel/task_yield.c, kernel/task_delay.c, kernel/task_create.c and the
    validity test of kernel/task_handle.c. *)

From S2P Require Import Prelude Machine Config Types Links IntrusiveList KernelLists Time ReadyQueue.
From S2P Require Import DelayQueue HostPort Diagnostics TaskPool Policy PolicySpec Scheduler SwitchSpec.

Section task_code.
Context `{Config}.
Implicit Types (task_arg : option task_ptr).

Definition rts_task_object_is_valid task_arg : K bool :=
  match task_arg with
  | None => ret false
  | Some t =>
      if negb (rts_task_handle_is_application_task (Some t)) then ret false else
      gets (λ s,
        let x := task s t in
        bool_decide (slot_state x = RTS_TASK_SLOT_ALLOCATED) &&
        bool_decide (state x = RTS_TASK_STATE_READY) && task_has_context x &&
        (RTS_IDLE_PRIORITY <? priority x) && (RTS_IDLE_PRIORITY <? base_priority x) &&
        (base_priority x <=? priority x) && (priority x <? RTS_PRIORITY_COUNT) &&
        task_waits_for_nothing s t && magic_is_valid x) &&&
      rts_policy_validate (Some t) true
  end.

(** kernel/task_yield.c *)
Definition rts_yield_current_is_coherent : K bool :=
  let* current := rts_scheduler_current_get in
  match current with
  | None => ret false
  | Some t =>
      gets (λ s, bool_decide (state (task s t) = RTS_TASK_STATE_RUNNING)) &&&
      rts_scheduler_current_is_valid &&&
      rts_policy_validate (Some t) true &&&
      (let* picked := rts_policy_pick_next in ret (bool_decide (picked = Some t))) &&&
      gets (λ s, negb (plan_active (k_switch_plan s)))
  end.

Definition notify_port_if (notify : bool) : K unit :=
  when notify (rts_port_request_reschedule rts_cpu_current_id).

Definition rts_task_yield : K rts_status_t :=
  let* in_isr := rts_port_is_in_isr in
  if in_isr then ret RTS_STATUS_INVALID_CONTEXT else
  let* running := gets (λ s, bool_decide (k_lifecycle s = RTS_KERNEL_RUNNING)) in
  if negb running then ret RTS_STATUS_INVALID_STATE else
  let* critical_token := rts_kernel_lock_enter in
  let* running := gets (λ s, bool_decide (k_lifecycle s = RTS_KERNEL_RUNNING)) in
  if negb running then
    rts_kernel_lock_exit critical_token ;;; ret RTS_STATUS_INVALID_STATE
  else
  let* coherent := rts_yield_current_is_coherent in
  RTS_ASSERT (ret coherent) ;;;
  if negb coherent then
    rts_kernel_lock_exit critical_token ;;; ret RTS_STATUS_INVALID_STATE
  else
  let* current := rts_scheduler_current_get in
  let* c := deref current in
  modify (upd_task c (λ x, x <| slice_remaining := RTS_TIME_SLICE_TICKS |>)) ;;;
  RTS_DIAG_COUNTER_INC yields ;;;
  let* prio := gets (λ s, priority (task s c)) in
  RTS_TRACE RTS_TRACE_YIELD prio 0 ;;;
  let* rotated := rts_policy_yield (Some c) in
  if negb rotated then
    rts_kernel_lock_exit critical_token ;;; ret RTS_STATUS_OK
  else
  let* selected := rts_scheduler_select_highest_ready in
  RTS_ASSERT (ret (bool_decide (selected ≠ None))) ;;;
  RTS_ASSERT (ret (negb (bool_decide (selected = Some c)))) ;;;
  RTS_ASSERT (match selected with
              | None => ret true
              | Some n => gets (λ s, bool_decide (state (task s n) = RTS_TASK_STATE_READY))
              end) ;;;
  let* good := match selected with
               | None => ret false
               | Some n => gets (λ s, negb (bool_decide (Some n = Some c)) &&
                                      bool_decide (state (task s n) = RTS_TASK_STATE_READY))
               end in
  if negb good then
    rts_kernel_lock_exit critical_token ;;; ret RTS_STATUS_INVALID_STATE
  else
  let* notify_port := rts_scheduler_prepare_switch selected in
  rts_kernel_lock_exit critical_token ;;;
  notify_port_if notify_port ;;;
  ret RTS_STATUS_OK.

(** kernel/task_delay.c *)
Definition rts_delay_current_is_coherent : K bool :=
  let* current := rts_scheduler_current_get in
  match current with
  | None => ret false
  | Some t =>
      gets (λ s, bool_decide (state (task s t) = RTS_TASK_STATE_RUNNING) &&
                 negb (rts_scheduler_task_is_idle s (Some t))) &&&
      rts_scheduler_current_is_valid &&&
      rts_policy_validate (Some t) true &&&
      gets (λ s,
        let w := wait (task s t) in
        bool_decide (wait_reason w = RTS_WAIT_NONE) &&
        bool_decide (wait_result w = RTS_WAIT_RESULT_NONE) &&
        bool_decide (wait_object w = None) && negb (wait_timeout_active w) &&
        bool_decide (w_owner (wait_node s t) = None) &&
        bool_decide (n_owner (node s (NDelay t)) = None) &&
        negb (plan_active (k_switch_plan s)))
  end.

(** The current task [c] leaves the ready set and enters the delay queue. *)
Definition delay_current (c : task_ptr) (delay : Z) : K unit :=
  let* now := gets k_current_tick in
  modify (upd_task c (λ x, x <| wait := (wait x) <| wait_wake_tick := u32 (now + delay) |> |>)) ;;;
  RTS_FATAL_UNLESS (rts_policy_task_block (Some c)) ;;;
  RTS_FATAL_UNLESS (rts_policy_validate (Some c) false) ;;;
  modify (upd_task c (λ x, x <| wait := (wait x) <| wait_reason := RTS_WAIT_DELAY |>
    <| wait_result := RTS_WAIT_RESULT_NONE |> <| wait_object := None |>
    <| wait_timeout_active := false |> |>)) ;;;
  modify (upd_task c (λ x, x <| slice_remaining := RTS_TIME_SLICE_TICKS |>)) ;;;
  modify (upd_task c (λ x, x <| state := RTS_TASK_STATE_BLOCKED |>)) ;;;
  RTS_DIAG_COUNTER_INC delay_blocks ;;;
  RTS_DIAG_TASK_INC c diagnostic_block_count ;;;
  RTS_TRACE RTS_TRACE_TASK_BLOCKED (wait_reason_value RTS_WAIT_DELAY) delay ;;;
  rts_delay_insert (Some c) ;;;
  RTS_FATAL_UNLESS (rts_scheduler_task_is_blocked_delay (Some c)).

Definition rts_task_delay (delay : Z) : K rts_status_t :=
  if delay =? 0 then rts_task_yield else
  if negb (rts_tick_relative_is_valid delay) then ret RTS_STATUS_INVALID_ARGUMENT else
  let* in_isr := rts_port_is_in_isr in
  if in_isr then ret RTS_STATUS_INVALID_CONTEXT else
  let* running := gets (λ s, bool_decide (k_lifecycle s = RTS_KERNEL_RUNNING)) in
  if negb running then ret RTS_STATUS_INVALID_STATE else
  let* current := rts_scheduler_current_get in
  let* service := gets (λ s, rts_scheduler_task_is_timer_service s current) in
  if service then ret RTS_STATUS_INVALID_CONTEXT else
  let* critical_token := rts_kernel_lock_enter in
  let* running := gets (λ s, bool_decide (k_lifecycle s = RTS_KERNEL_RUNNING)) in
  if negb running then
    rts_kernel_lock_exit critical_token ;;; ret RTS_STATUS_INVALID_STATE
  else
  let* coherent := rts_delay_current_is_coherent in
  RTS_ASSERT (ret coherent) ;;;
  if negb coherent then
    rts_kernel_lock_exit critical_token ;;; ret RTS_STATUS_INVALID_STATE
  else
  let* current := rts_scheduler_current_get in
  let* c := deref current in
  delay_current c delay ;;;
  let* selected := rts_scheduler_select_highest_ready in
  RTS_FATAL_UNLESS (ret (bool_decide (selected ≠ None))) ;;;
  RTS_FATAL_UNLESS (ret (bool_decide (selected = None) || negb (bool_decide (selected = Some c)))) ;;;
  if bool_decide (selected = None) || bool_decide (selected = Some c) then
    rts_kernel_lock_exit critical_token ;;; ret RTS_STATUS_INVALID_STATE
  else
  let* notify_port := rts_scheduler_prepare_switch selected in
  RTS_FATAL_UNLESS (gets (λ s, plan_pending (k_switch_plan s) || plan_active (k_switch_plan s))) ;;;
  rts_kernel_lock_exit critical_token ;;;
  notify_port_if notify_port ;;;
  ret RTS_STATUS_OK.

(** kernel/task_create.c *)
Definition rts_task_create_rollback task_arg (slot_index : Z) : K unit :=
  let* linked := rts_policy_validate task_arg true in
  when linked (rts_policy_remove task_arg ;;; ret tt) ;;;
  rts_task_object_reset task_arg ;;;
  rts_task_pool_rollback slot_index.

(** The status and the handle stored through out_handle, which is not null. *)
Definition rts_task_create `{Layout} (config : option rts_task_config) :
    K (rts_status_t * option task_ptr) :=
  let* in_isr := rts_port_is_in_isr in
  if in_isr then
    RTS_ASSERT (ret (negb in_isr)) ;;; ret (RTS_STATUS_INVALID_CONTEXT, None)
  else
  let* lifecycle := gets k_lifecycle in
  let* status := rts_task_config_validate config lifecycle in
  if negb (bool_decide (status = RTS_STATUS_OK)) then ret (status, None) else
  let* critical_token := rts_kernel_lock_enter in
  let fail status := rts_kernel_lock_exit critical_token ;;; ret (status, None) in
  let* lifecycle := gets k_lifecycle in
  if negb (bool_decide (lifecycle = RTS_KERNEL_INITIALIZED)) then fail RTS_STATUS_INVALID_STATE else
  let* reserved := rts_task_pool_reserve in
  match reserved with
  | None => fail RTS_STATUS_CAPACITY_EXHAUSTED
  | Some slot_index =>
      let* task_arg := rts_task_pool_get slot_index in
      let* lifecycle := gets k_lifecycle in
      let* status := rts_task_object_initialize task_arg config lifecycle in
      if negb (bool_decide (status = RTS_STATUS_OK)) then
        rts_task_create_rollback task_arg slot_index ;;; fail status
      else
      let* t := deref task_arg in
      let* config := deref config in
      let* low := gets (λ s, stack_low (task s t)) in
      let* high := gets (λ s, stack_high (task s t)) in
      rts_stack_diagnostics_prepare low high ;;;
      let* stack_result := rts_port_stack_initialize (cfg_stack_buffer config)
        (cfg_stack_size_bytes config) (cfg_entry config) (cfg_argument config) in
      if negb (bool_decide (stack_result.1 = RTS_STATUS_OK)) || (stack_result.2 =? 0) then
        rts_task_create_rollback task_arg slot_index ;;;
        fail (if negb (bool_decide (stack_result.1 = RTS_STATUS_OK)) then stack_result.1
              else RTS_STATUS_PORT_ERROR)
      else
      modify (upd_task t (λ x, x <| saved_stack_pointer := stack_result.2 |>)) ;;;
      let* inserted := rts_policy_insert task_arg in
      if negb inserted then
        RTS_ASSERT (rts_policy_validate task_arg true) ;;;
        rts_task_create_rollback task_arg slot_index ;;;
        fail RTS_STATUS_PORT_ERROR
      else
      modify (upd_task t (λ x, x <| state := RTS_TASK_STATE_READY |>)) ;;;
      rts_task_pool_commit slot_index ;;;
      RTS_ASSERT (gets (λ s, bool_decide (slot_state (task s t) = RTS_TASK_SLOT_ALLOCATED))) ;;;
      let* allocated := gets (λ s, bool_decide (slot_state (task s t) = RTS_TASK_SLOT_ALLOCATED)) in
      if negb allocated then
        rts_policy_remove task_arg ;;;
        rts_task_create_rollback task_arg slot_index ;;;
        fail RTS_STATUS_PORT_ERROR
      else
      modify (upd_task t (set_validation_magic_member RTS_TASK_VALIDATION_MAGIC)) ;;;
      RTS_DIAG_COUNTER_INC task_creations ;;;
      let* prio := gets (λ s, priority (task s t)) in
      RTS_TRACE RTS_TRACE_TASK_CREATED prio (u32 slot_index) ;;;
      rts_kernel_lock_exit critical_token ;;;
      ret (RTS_STATUS_OK, Some t)
  end.
End task_code.
