(* ===== verification/TaskApiSpec.v ===== *)
(** * Delaying a task, end to end

    rts_task_delay (kernel/task_delay.c) run on a kernel that satisfies the
    invariant of KernelSpec: every guard on its way passes, and the store it
    leaves is described completely. *)

From S2P Require Import Prelude Machine Config Types Links IntrusiveList KernelLists Time ReadyQueue.
From S2P Require Import DelayQueue HostPort Diagnostics TaskPool Policy PolicySpec WaitObject Scheduler.
From S2P Require Import SwitchSpec KernelSpec TaskApi.

(** A check of an operation that changes the store. *)
Lemma wp_fatal_do {S} (m : M S bool) Q s :
  wp m (λ b s', b = true ∧ Q tt s') s → wp (RTS_FATAL_UNLESS m) Q s.
Proof. intros Hm. apply wp_bind. eapply wp_mono; [exact Hm|]. by intros b s' [-> ?]. Qed.

Section calls.
Context `{ConfigOk}.
Context `{!BitmapPolicy}.

(** The port when a task calls the kernel: outside interrupts, with room for
    the critical sections of the call and of a trace entry inside it. *)
Record caller_ok (s : kernel) : Prop := {
  co_task : host_in_isr (k_port s) = false;
  co_room : 0 ≤ host_critical_depth (k_port s) < RTS_HOST_CRITICAL_NESTING_MAX - 1;
  co_requests : host_switch_request_count (k_port s) < SIZE_MAX
}.

Lemma notify_port_if_spec b s :
  host_switch_request_count (k_port s) < SIZE_MAX →
  wp (notify_port_if b) (λ _ s', ∃ f, s' = upd_port f s ∧ same_nesting s s' ∧
    (b = true → host_switch_request_pending (k_port s') = true)) s.
Proof.
  intros Hn. unfold notify_port_if. destruct b; cbn [when].
  - unfold rts_port_request_reschedule. apply wp_bind, wp_RTS_ASSERT; [done|]. cbn [negb].
    apply wp_bind, wp_RTS_ASSERT; [unfold gets; f_equal; by apply Z.ltb_lt|].
    apply wp_bind, wp_gets. rewrite (proj2 (Z.eqb_neq _ _)) by lia.
    do 2 apply wp_bind, wp_modify. apply wp_modify. eexists (λ p, _). split; [reflexivity|]. by split_and!.
  - apply wp_ret. exists (λ p, p). split_and!; [by destruct s|apply same_nesting_refl|done].
Qed.

(** The end of a call that planned a switch: leave the lock, tell the port. *)
Lemma leave_and_notify_spec s s1 b (st : rts_status_t) :
  0 ≤ host_critical_depth (k_port s) → same_nesting (upd_port port_entered s) s1 →
  host_switch_request_count (k_port s1) < SIZE_MAX →
  wp (rts_kernel_lock_exit (critical_token (k_port s)) ;;; notify_port_if b ;;; ret st)
     (λ st' s', st' = st ∧ same_nesting s s' ∧ ∃ f, s' = upd_port f s1) s1.
Proof.
  intros Hd Hn Hc. destruct (critical_exit_balanced s s1 Hd Hn) as [Hrun Hsame].
  apply wp_bind. eapply wp_run; [exact Hrun|]. apply wp_bind.
  eapply wp_mono; [by apply notify_port_if_spec|]. intros [] s' (f&->&Hs'&_). apply wp_ret.
  split_and!; [done| |].
  - by eapply same_nesting_trans.
  - by eexists (λ p, _).
Qed.

(** The task that calls the kernel passes the coherence test. *)
Lemma current_running_facts s c :
  kernel_ok s → k_current_task s = Some c → state (task s c) = RTS_TASK_STATE_RUNNING → runnable s c = true.
Proof.
  intros Hok Hc Hst. pose proof (ko_task s Hok c) as Ht. unfold task_ok in Ht. by rewrite Hst in Ht.
Qed.

(** The tests every blocking call makes of its caller. *)
Lemma caller_tests s c :
  kernel_ok s → k_current_task s = Some c → state (task s c) = RTS_TASK_STATE_RUNNING → application c →
  rts_scheduler_current_is_valid s = Done true s ∧ rts_policy_validate (Some c) true s = Done true s ∧
  task_waits_for_nothing s c = true ∧ rts_scheduler_task_is_idle s (Some c) = false.
Proof.
  intros Hok Hc Hst Ha. pose proof (current_running_facts s c Hok Hc Hst) as Hr. pose proof (ko_prio s Hok c) as Hp.
  destruct (runnable_sound s c (ko_roles s Hok) Ha (proj1 Hp) Hr) as (_&Hw&_). split_and!; [| |done|].
  - rewrite (rts_scheduler_current_is_valid_run s c (proj2 Hp) Hc). unfold lifecycle_schedules.
    by rewrite (ko_live s Hok), Hst, Hr.
  - rewrite (rts_policy_validate_run s c true (proj2 Hp)). f_equal.
    unfold runnable in Hr. by rewrite !andb_true_iff in Hr; destruct Hr as [[_ ?] _].
  - apply app_not_idle; [by eapply ko_roles|done].
Qed.

Lemma delay_coherent_run s c :
  kernel_ok s → k_current_task s = Some c → state (task s c) = RTS_TASK_STATE_RUNNING → application c →
  wait_result (wait (task s c)) = RTS_WAIT_RESULT_NONE → plan_active (k_switch_plan s) = false →
  rts_delay_current_is_coherent s = Done true s.
Proof.
  intros Hok Hc Hst Ha Hres Hact. destruct (caller_tests s c Hok Hc Hst Ha) as (Hv&Hpol&Hw&Hi).
  unfold rts_delay_current_is_coherent. rewrite (bind_run _ _ _ _ _ (rts_scheduler_current_get_run s)), Hc.
  repeat apply (andM_run _ _ true true); try intros _; try done; unfold gets; [by rewrite Hst, Hi|].
  f_equal. unfold task_waits_for_nothing in Hw. rewrite Hact, Hres. cbn [negb].
  rewrite !andb_true_iff in *. naive_solver.
Qed.

(** ** The store in which the current task sleeps *)

Lemma app_all_tasks t : application t → t ∈ all_tasks.
Proof. intros (i&->&Hi). by apply all_tasks_app. Qed.

Lemma app_not_TIdle t : application t → t ≠ TIdle.
Proof. by intros (i&->&_). Qed.

Lemma runnable_places {since} s t :
  kernel_ok_at since s → runnable s t = true → t ∉ delay_list s ∧ ∀ o, t ∉ waiting s o.
Proof.
  intros Hok Hr. unfold runnable in Hr. rewrite !andb_true_iff in Hr. destruct Hr as [[[_ Hw] _] _].
  unfold task_waits_for_nothing in Hw. rewrite !andb_true_iff, !bool_decide_eq_true in Hw.
  destruct Hw as [[_ Ho] Hd]. split.
  - rewrite (delay_owner s) by apply (ko_ready s Hok). congruence.
  - intros o. rewrite (ww_owner s (wok_wf s (ko_waits s Hok))). congruence.
Qed.

Lemma sleeping_ok s s' c d :
  kernel_ok s → application c → k_current_task s = Some c → runnable s c = true → 0 < d ≤ RTS_DELAY_MAX →
  kstep s s' c (without c (ready_queue s)) (insert_by (wake_in (k_current_tick s) s') c (delay_list s)) (waiting s) →
  identity (task s' c) = identity (task s c) →
  wait (task s' c) = mk_wait RTS_WAIT_DELAY RTS_WAIT_RESULT_NONE (u32 (k_current_tick s + d)) None false →
  state (task s' c) = RTS_TASK_STATE_BLOCKED →
  kernel_ok s' ∧ blocked_delay s' c = true.
Proof.
  intros Hok Ha Hc Hr Hd Hk Hid Hw Hs.
  destruct (runnable_places s c Hok Hr) as [Hnd Hnw].
  destruct (runnable_sound s c (ko_roles s Hok) Ha (proj1 (ko_prio s Hok c)) Hr) as (Hsound&_&_).
  pose proof (kstep_roles _ _ _ _ _ _ Hk) as Hroles.
  pose proof (roles_ok_same _ _ Hroles (ko_roles s Hok)) as Hro.
  assert (unready s' c) as Hu.
  { eapply kstep_unready; [done|by eapply ko_not_edf|]. intros p [Hx _]%list_elem_of_filter. done. }
  assert (wake_in (k_current_tick s) s' c = d) as Hwake.
  { unfold wake_in, wake_tick. rewrite Hw. apply ahead_add. unfold RTS_DELAY_MAX, UINT32_MAX in *. lia. }
  assert (w_owner (wait_node s' c) = None) as Hwo.
  { destruct (w_owner (wait_node s' c)) as [o|] eqn:E; [|done]. apply (ww_owner s' (ks_waits _ _ _ _ _ _ Hk)) in E.
    rewrite (ks_wait _ _ _ _ _ _ Hk) in E. by apply Hnw in E. }
  assert (blocked_delay s' c = true) as Hb.
  { apply blocked_delay_intro; try done.
    - apply (ks_ready_ok _ _ _ _ _ _ Hk).
    - by rewrite (sound_identity _ _ Hid).
    - injection Hid as _ _ _ _ _ _ -> _ _. apply (ko_prio s Hok).
    - unfold delayed. apply bool_decide_true, delay_owner; [apply (ks_ready_ok _ _ _ _ _ _ Hk)|].
      rewrite (ks_delay _ _ _ _ _ _ Hk). apply insert_by_elem. by left.
    - by rewrite Hw.
    - by rewrite Hw.
    - by rewrite Hw. }
  split; [|done]. eapply (kernel_ok_kstep s s' c); [done|exact Hk| |by apply app_not_TIdle|done|apply (ko_waits s Hok)| | | |].
  - intros u Hu'. split_and!; [|rewrite insert_by_elem; naive_solver|done].
    intros p. unfold without. rewrite list_elem_of_filter. naive_solver.
  - intros _. rewrite Hwake. unfold wake_tick. rewrite Hw. cbn. split; [apply u32_range|].
    unfold RTS_DELAY_MAX, RTS_TICK_HALF_RANGE in *. lia.
  - apply insert_by_sorted. apply (wake_sorted_ext _ s).
    + intros u Hin. apply (ks_face _ _ _ _ _ _ _ Hk). by intros ->.
    + apply (do_sorted _ _ (ko_delay s Hok)).
  - unfold task_ok. rewrite Hs, Hb. done.
  - intros _. unfold outgoing. rewrite (bool_decide_true (Some c = _)).
    + rewrite Hs, Hb. done.
    + destruct Hroles as (_&_&->). done.
Qed.

(** ** Replanning after the ready set changed *)

Lemma prepare_run s c n :
  kernel_ok s → k_current_task s = Some c → runnable s n = true →
  rts_scheduler_prepare_switch (Some n) s = Done (plan_prepared c n (k_switch_plan s)).2 (prepared c n s).
Proof.
  intros Hok Hc Hn. destruct (ko_current s Hok) as (c'&Hc'&Ho). assert (c' = c) as -> by congruence.
  apply rts_scheduler_prepare_switch_run; try done; [intros t; apply (ko_prio s Hok)|apply (ko_plan s Hok)|apply (ko_live s Hok)].
Qed.

Lemma plan_prepared_pending c n p :
  plan_active p = false → n ≠ c →
  let p' := (plan_prepared c n p).1 in plan_pending p' = true ∧ plan_to p' = Some n ∧ plan_active p' = false.
Proof.
  intros Ha Hne. unfold plan_prepared. rewrite Ha, decide_False by done.
  destruct (plan_pending p) eqn:Ep; [|done]. by case_decide.
Qed.

(** The store a delay leaves, the port apart. *)
Record delayed_call (s s' : kernel) (c : task_ptr) (delay : Z) : Prop := {
  dc_ok : kernel_ok s';
  dc_state : state (task s' c) = RTS_TASK_STATE_BLOCKED;
  dc_reason : wait_reason (wait (task s' c)) = RTS_WAIT_DELAY;
  dc_wake : wake_tick s' c = u32 (k_current_tick s + delay);
  dc_others u : u ≠ c → task s' u = task s u;
  dc_ready p : ready_queue s' p = filter (λ t, t ≠ c) (ready_queue s p);
  dc_delay : delay_list s' = insert_by (wake_in (k_current_tick s) s') c (delay_list s);
  dc_waiting o : waiting s' o = waiting s o;
  dc_plan : ∃ n, head (fp_ready s') = Some n ∧ plan_pending (k_switch_plan s') = true ∧
    plan_from (k_switch_plan s') = Some c ∧ plan_to (k_switch_plan s') = Some n
}.

Lemma delayed_call_port s s' c d f : delayed_call s s' c d → delayed_call s (upd_port f s') c d.
Proof. intros []. split; try done. by apply kernel_ok_port. Qed.

(** From the blocked caller to the planned switch. *)
Lemma block_replan s c :
  kernel_ok s → k_current_task s = Some c → state (task s c) = RTS_TASK_STATE_BLOCKED →
  plan_active (k_switch_plan s) = false →
  ∃ n, rts_scheduler_select_highest_ready s = Done (Some n) s ∧ n ≠ c ∧
    rts_scheduler_prepare_switch (Some n) s = Done (plan_prepared c n (k_switch_plan s)).2 (prepared c n s) ∧
    kernel_ok (prepared c n s) ∧ head (fp_ready (prepared c n s)) = Some n ∧
    plan_pending (k_switch_plan (prepared c n s)) = true ∧
    plan_from (k_switch_plan (prepared c n s)) = Some c ∧ plan_to (k_switch_plan (prepared c n s)) = Some n.
Proof.
  intros Hok Hc Hs Hact. destruct (select_run s Hok) as (n&Hhead&Hn&Hsel).
  assert (n ≠ c) as Hne.
  { intros ->. pose proof (runnable_state s c Hn) as [E|[_ E]]; congruence. }
  destruct (plan_prepared_pending c n (k_switch_plan s) Hact Hne) as (Hpe&Hto&_).
  pose proof (prepared_same c n s) as Hsame. destruct (same_scheduling_views _ _ Hsame) as (_&Eq&_).
  pose proof (kernel_ok_prepared c n s Hok Hc) as Hok2.
  exists n. split_and!; [done..|by apply prepare_run|done| |by rewrite prepared_plan| |by rewrite prepared_plan].
  - rewrite <- Hhead. f_equal. apply fp_order_ext. intros p _. by rewrite Eq.
  - pose proof (plan_leaves_current _ (ko_plan _ Hok2)) as Hf. rewrite prepared_plan in Hf |- *.
    rewrite Hf, <- Hc by auto. apply Hsame.
Qed.

Lemma delayed_call_intro s s1 s' c d n :
  kstep s s1 c (without c (ready_queue s)) (insert_by (wake_in (k_current_tick s) s1) c (delay_list s)) (waiting s) →
  wake_tick s1 c = u32 (k_current_tick s + d) → state (task s1 c) = RTS_TASK_STATE_BLOCKED →
  wait_reason (wait (task s1 c)) = RTS_WAIT_DELAY → same_scheduling s1 s' → kernel_ok s' →
  head (fp_ready s') = Some n → plan_pending (k_switch_plan s') = true → plan_from (k_switch_plan s') = Some c →
  plan_to (k_switch_plan s') = Some n → delayed_call s s' c d.
Proof.
  intros Hk Hw Hs Hre Hsame Hok Hh Hp Hf Ht. destruct (same_scheduling_views _ _ Hsame) as (Et&Eq&Ed&Ew&_).
  split; rewrite ?Et; try done.
  - unfold wake_tick. by rewrite Et.
  - intros u Hu. rewrite Et. by apply (ks_tasks _ _ _ _ _ _ Hk).
  - intros p. rewrite Eq. apply (ks_ready _ _ _ _ _ _ Hk).
  - rewrite Ed, (ks_delay _ _ _ _ _ _ Hk). unfold wake_in, wake_tick, task. by rewrite (ss_tasks _ _ Hsame).
  - intros o. rewrite Ew. apply (ks_wait _ _ _ _ _ _ Hk).
  - by exists n.
Qed.

Lemma delay_current_spec s c delay :
  kernel_ok s → port_room s → application c → k_current_task s = Some c → runnable s c = true →
  0 < delay ≤ RTS_DELAY_MAX →
  wp (delay_current c delay) (λ _ s',
    kstep s s' c (without c (ready_queue s)) (insert_by (wake_in (k_current_tick s) s') c (delay_list s)) (waiting s) ∧
    kernel_ok s' ∧ wake_tick s' c = u32 (k_current_tick s + delay) ∧
    state (task s' c) = RTS_TASK_STATE_BLOCKED ∧ wait_reason (wait (task s' c)) = RTS_WAIT_DELAY) s.
Proof.
  intros Hok Hroom Ha Hc Hr Hd. unfold delay_current.
  pose proof (kstep_refl (m:=false) s c (ko_ready s Hok) (wok_wf s (ko_waits s Hok))) as Hk0.
  apply wp_bind, wp_gets, wp_bind. eapply wp_kstep_task; [exact Hk0|done|]. intros s1 Hk1 E1.
  apply wp_bind, wp_fatal_do. eapply wp_kstep_block; [exact Hk1| |].
  { rewrite E1. by apply (runnable_ready s c (ko_ready s Hok)). }
  intros s2 Hk2 E2. split; [done|].
  assert (unready s2 c) as Hu2.
  { eapply kstep_unready; [exact Hk2|by eapply ko_not_edf|]. by intros p [Hx _]%list_elem_of_filter. }
  apply wp_bind, wp_RTS_FATAL_UNLESS.
  { rewrite rts_policy_validate_run by (rewrite E2, E1; apply (ko_prio s Hok)). f_equal.
    apply unready_policy_valid; [|done| |done].
    - eapply roles_ok_same; [by eapply kstep_roles|by eapply ko_roles].
    - rewrite E2, E1. apply (runnable_sound s c); [by eapply ko_roles|done|apply (ko_prio s Hok)|done]. }
  apply wp_bind. eapply wp_kstep_task; [exact Hk2|done|]. intros s3 Hk3 E3.
  apply wp_bind. eapply wp_kstep_task; [exact Hk3|done|]. intros s4 Hk4 E4.
  apply wp_bind. eapply wp_kstep_task; [exact Hk4|done|]. intros s5 Hk5 E5.
  apply wp_bind. eapply wp_kstep_counter; [exact Hk5|]. intros s6 Hk6 E6.
  apply wp_bind. eapply wp_kstep_diag; [exact Hk6|done|]. intros s7 Hk7 E7.
  apply wp_bind. eapply wp_kstep_trace; [exact Hk7|exact Hroom|]. intros s8 Hk8 E8.
  rewrite E6, E5, E4, E3, E2, E1 in E7. rewrite <- E8 in E7. apply face_eq in E7 as (Hid&Hw&Hs).
  clear s1 s2 s3 s4 s5 s6 s7 E1 E2 E3 E4 E5 E6 E8 Hk1 Hk2 Hk3 Hk4 Hk5 Hk6 Hk7 Hu2.
  assert (wake_in (k_current_tick s) s8 c = delay) as Hwake.
  { unfold wake_in, wake_tick. rewrite Hw. apply ahead_add. unfold RTS_DELAY_MAX, UINT32_MAX in *. lia. }
  apply wp_bind. eapply (wp_kstep_delay_insert (k_current_tick s));
    [apply (ko_delay s Hok)|exact Hk8|by eapply (runnable_places s c)|by apply app_all_tasks| |].
  { rewrite Hwake. unfold RTS_DELAY_MAX, RTS_TICK_HALF_RANGE in *. lia. }
  intros s9 Hk9 E9. rewrite <- E9 in Hid, Hw, Hs.
  destruct (sleeping_ok s s9 c delay Hok Ha Hc Hr Hd Hk9 Hid Hw Hs) as [Hok9 Hb].
  apply wp_RTS_FATAL_UNLESS.
  { rewrite rts_scheduler_task_is_blocked_delay_run by apply (ko_prio s9 Hok9). by rewrite Hb. }
  split_and!; [done..|unfold wake_tick; by rewrite Hw|done|by rewrite Hw].
Qed.

(** C13: A delay blocks exactly the caller, for exactly the time it asked for.
    Called by the running application task, rts_task_delay passes all its
    checks and returns OK; the caller is then BLOCKED, out of the ready queues
    and in the delay queue, sorted, with wake tick now + delay; every other
    task, queue and wait object is unchanged; a switch is planned from the
    caller to the highest ready task; and the whole invariant of the running
    kernel holds again. *)
Theorem task_delay_blocks_caller s c delay :
  kernel_ok s → caller_ok s → k_current_task s = Some c → state (task s c) = RTS_TASK_STATE_RUNNING →
  application c → wait_result (wait (task s c)) = RTS_WAIT_RESULT_NONE →
  plan_active (k_switch_plan s) = false → 0 < delay ≤ RTS_DELAY_MAX →
  wp (rts_task_delay delay) (λ st s',
    st = RTS_STATUS_OK ∧ same_nesting s s' ∧ delayed_call s s' c delay) s.
Proof.
  intros Hok [Hisr Hroom Hreq] Hc Hst Ha Hres Hact Hd. pose proof (current_running_facts s c Hok Hc Hst) as Hr.
  unfold rts_task_delay, rts_tick_relative_is_valid.
  rewrite (proj2 (Z.eqb_neq _ _)), (proj2 (Z.leb_le _ _)) by (unfold RTS_DELAY_MAX, RTS_TICK_MAX_ADVANCE in *; lia).
  cbn [negb]. apply wp_bind, wp_gets. rewrite Hisr. apply wp_bind, wp_gets.
  rewrite bool_decide_true by apply (ko_live s Hok). cbn [negb].
  apply wp_bind. eapply wp_run; [apply rts_scheduler_current_get_run|].
  apply wp_bind, wp_gets. rewrite Hc, app_not_service by (done || by eapply ko_roles).
  apply wp_bind. eapply wp_run; [apply rts_port_critical_enter_run; lia|].
  set (s0 := upd_port port_entered s). assert (kernel_ok s0) as Hok0 by by apply kernel_ok_port.
  apply wp_bind, wp_gets. rewrite bool_decide_true by apply (ko_live s0 Hok0). cbn [negb].
  apply wp_bind. eapply wp_run; [by apply (delay_coherent_run s0 c)|].
  apply wp_bind, wp_RTS_ASSERT; [done|]. cbn [negb].
  apply wp_bind. eapply wp_run; [apply rts_scheduler_current_get_run|].
  change (k_current_task s0) with (k_current_task s). rewrite Hc. cbn [deref]. apply wp_bind, wp_ret.
  assert (port_room s0) as Hroom0 by (unfold port_room; cbn; lia).
  apply wp_bind. eapply wp_mono; [by apply (delay_current_spec s0 c delay)|].
  intros [] s9 (Hk9&Hok9&Hw&Hs&Hre).
  destruct (block_replan s9 c Hok9) as (n&Hsel&Hne&Hprep&Hok2&Hhead&Hpend&Hfrom&Hto);
    [by rewrite (kstep_field k_current_task _ _ _ _ _ _ Hk9)|done|
     by rewrite (kstep_field k_switch_plan _ _ _ _ _ _ Hk9)|].
  apply wp_bind. eapply wp_run; [exact Hsel|]. apply wp_bind, wp_RTS_FATAL_UNLESS; [done|].
  apply wp_bind, wp_RTS_FATAL_UNLESS; [unfold ret; by rewrite (bool_decide_false (Some n = Some c)) by congruence|].
  rewrite (bool_decide_false (Some n = Some c)) by congruence. cbn [orb bool_decide decide_rel].
  apply wp_bind. eapply wp_run; [exact Hprep|]. apply wp_bind, wp_RTS_FATAL_UNLESS; [unfold gets; by rewrite Hpend|].
  destruct (prepared_frame c n s9) as (pl&cs&Epr).
  eapply wp_mono; [apply (leave_and_notify_spec s); [lia| |]|].
  - rewrite Epr. apply (ks_nesting _ _ _ _ _ _ Hk9).
  - rewrite Epr. cbn. rewrite (kstep_requests _ _ _ _ _ _ Hk9). done.
  - intros st s' (->&Hnest&f&->). split_and!; [done..|]. apply delayed_call_port.
    assert (delayed_call s0 (prepared c n s9) c delay) as Hcall.
    { apply (delayed_call_intro s0 s9 _ c delay n); try done. apply prepared_same. }
    destruct Hcall. by split.
Qed.
End calls.
