(* ===== verification/Blocking.v ===== *)
(** * Blocking and waking a task

    The stores in which the current task waits for an object, and in which a
    blocked task was made ready again, satisfy the invariant of KernelSpec.  The
    public calls of kernel/semaphore.c and the tick of kernel/time.c produce
    these stores. *)

From S2P Require Import Prelude Machine Config Types Links IntrusiveList KernelLists Time ReadyQueue.
From S2P Require Import DelayQueue HostPort Diagnostics TaskPool Policy PolicySpec WaitObject Scheduler.
From S2P Require Import SwitchSpec KernelSpec TaskApi TaskApiSpec.

Lemma sorted_filter {A} (R : A → A → Prop) (P : A → Prop) `{!∀ x, Decision (P x)} l :
  StronglySorted R l → StronglySorted R (filter P l).
Proof.
  induction 1 as [|a l Hs IH Ha]; [constructor|]. rewrite filter_cons. case_decide; [|done].
  constructor; [done|]. rewrite Forall_forall in *. intros x [_ Hx]%list_elem_of_filter. auto.
Qed.

Lemma sorted_impl {A} (R R' : A → A → Prop) l :
  (∀ a b, R a b → R' a b) → StronglySorted R l → StronglySorted R' l.
Proof. intros Hi. induction 1; constructor; [done|]. eapply Forall_impl; eauto. Qed.

Lemma insert_by_ext {A} (key key' : A → Z) x l :
  (∀ y, key y = key' y) → insert_by key x l = insert_by key' x l.
Proof.
  intros Hk. unfold insert_by. assert (∀ l, span (λ y, key y <=? key x) l = span (λ y, key' y <=? key' x) l) as ->; [|done].
  clear l. intros l. induction l as [|y l IH]; [done|]. cbn. by rewrite IH, !Hk.
Qed.

Section blocking.
Context `{ConfigOk} `{!BitmapPolicy}.

(** ** The test of a task that waits for an object *)

Definition object_reason (o : sync_ptr) : rts_wait_reason_t :=
  match o with SSemaphore _ => RTS_WAIT_SEMAPHORE | SMutex _ => RTS_WAIT_MUTEX end.

(** [t] waits for [o], with a timeout or without. *)
Record waits_for (s : kernel) (t : task_ptr) (o : sync_ptr) : Prop := {
  wf_state : state (task s t) = RTS_TASK_STATE_BLOCKED;
  wf_reason : wait_reason (wait (task s t)) = object_reason o;
  wf_object : wait_object (wait (task s t)) = Some o;
  wf_result : wait_result (wait (task s t)) = RTS_WAIT_RESULT_NONE;
  wf_linked : w_owner (wait_node s t) = Some o;
  wf_timed : delayed s t = wait_timeout_active (wait (task s t))
}.

Lemma blocked_sync_intro s t o :
  roles_ok s → application t → sound (task s t) = true → priority (task s t) < RTS_PRIORITY_COUNT →
  unready s t → waits_for s t o → blocked_wait s t = true.
Proof.
  intros Hok Ha Hs Hp Hu [Hst Hr Ho Hres Hl Ht]. destruct (app_roles s t Hok Ha) as (Hi&_&Hh).
  pose proof (unready_policy_valid s t Hok Ha Hs Hu) as Hpol.
  unfold sound in Hs. tests_in Hs.
  unfold blocked_wait, blocked_sync. rewrite app_not_service, Hh, (bool_decide_false _ Hi) by done. cbn [negb andb].
  rewrite Hpol, Ht, Ho, Hr, Hl, Hst, Hres. destruct o; tests; try done;
    try (by apply bool_decide_true); try (by apply eqb_true_iff); by apply Z.ltb_lt.
Qed.

Lemma blocked_wait_facts s t :
  roles_ok s → application t → blocked_wait s t = true →
  sound (task s t) = true ∧ ∃ o, waits_for s t o.
Proof.
  intros Hok Ha. destruct (app_roles s t Hok Ha) as (Hi&_&Hh).
  unfold blocked_wait, blocked_sync, sound. rewrite app_not_service, Hh, (bool_decide_false _ Hi), app_policy_valid by done.
  cbn [negb andb]. rewrite !andb_true_iff, orb_true_iff, !bool_decide_eq_true.
  intros Hx. split; [tauto|].
  assert (state (task s t) = RTS_TASK_STATE_BLOCKED ∧ wait_result (wait (task s t)) = RTS_WAIT_RESULT_NONE ∧
    w_owner (wait_node s t) ≠ None) as (Hst&Hres&Hn) by tauto.
  assert (eqb (wait_timeout_active (wait (task s t))) (delayed s t) = true) as Ht%eqb_prop by tauto.
  assert (wait_reason (wait (task s t)) = RTS_WAIT_SEMAPHORE ∨ wait_reason (wait (task s t)) = RTS_WAIT_MUTEX) as Hrs by tauto.
  destruct Hx as [[_ Hl] _]. destruct (wait_object (wait (task s t))) as [o|] eqn:Eo.
  2: { rewrite Hl in Hn. by case_bool_decide. }
  exists o. destruct Hrs as [Er|Er]; rewrite Er in Hl; cbn in Hl; destruct o as [p|p];
    cbn in Hl; try congruence; by split.
Qed.

(** ** A task that waits for an object *)

Lemma kstep_linked {m} s s' c R D W o :
  kstepm m s s' c R D W → c ∈ W o → w_owner (wait_node s' c) = Some o.
Proof.
  intros Hk Hin. apply (ww_owner s' (ks_waits _ _ _ _ _ _ Hk)). by rewrite (ks_wait _ _ _ _ _ _ Hk).
Qed.

Lemma kstep_unlinked {m} s s' c R D W :
  kstepm m s s' c R D W → (∀ o, c ∉ W o) → w_owner (wait_node s' c) = None.
Proof.
  intros Hk Hn. destruct (w_owner (wait_node s' c)) as [o|] eqn:E; [|done]. exfalso. apply (Hn o).
  rewrite <- (ks_wait _ _ _ _ _ _ Hk). by apply (ww_owner s' (ks_waits _ _ _ _ _ _ Hk)).
Qed.

Lemma kstep_delayed {m} s s' c R D W : kstepm m s s' c R D W → delayed s' c = bool_decide (c ∈ D).
Proof.
  intros Hk. unfold delayed. apply bool_decide_ext. rewrite <- (ks_delay _ _ _ _ _ _ Hk).
  symmetry. apply delay_owner, (ks_ready_ok _ _ _ _ _ _ Hk).
Qed.

(** ** A task made ready *)

(** The task [t], blocked before, behind the tasks of its priority. *)
Lemma woken_ok_at {m since} s s' t W result :
  kernel_ok_at since s → application t → state (task s t) = RTS_TASK_STATE_BLOCKED → sound (task s t) = true →
  kstepm m s s' t (set_queue (ready_queue s) (priority (task s t)) (ready_queue s (priority (task s t)) ++ [t]))
    (filter (λ u, u ≠ t) (delay_list s)) W →
  (∀ o, t ∉ W o) → (∀ u o, u ≠ t → u ∈ W o ↔ u ∈ waiting s o) → (∀ o, by_priority s (W o)) →
  identity (task s' t) = identity (task s t) →
  wait (task s' t) = mk_wait RTS_WAIT_NONE result 0 None false →
  state (task s' t) = (if bool_decide (Some t = k_current_task s) then RTS_TASK_STATE_RUNNING else RTS_TASK_STATE_READY) →
  kernel_ok_at since s' ∧ runnable s' t = true.
Proof.
  intros Hok Ha Hst Hsound Hk Hnw Hbw Hby Hid Hw Hs'.
  pose proof (kstep_roles _ _ _ _ _ _ Hk) as Hroles. pose proof Hroles as (_&_&Ec).
  pose proof (roles_ok_same _ _ Hroles (ko_roles s Hok)) as Hro.
  assert (priority (task s' t) = priority (task s t)) as Ep by (injection Hid; done).
  assert (base_priority (task s' t) = base_priority (task s t)) as Eb by (injection Hid; done).
  assert (t ∉ filter (λ u, u ≠ t) (delay_list s)) as Hnd by (rewrite list_elem_of_filter; naive_solver).
  assert (runnable s' t = true) as Hr.
  { apply runnable_intro; [done..| | | | |].
    - by rewrite (sound_identity _ _ Hid).
    - unfold task_waits_for_nothing. rewrite Hw, (kstep_unlinked _ _ _ _ _ _ Hk Hnw), (kstep_undelayed _ _ _ _ _ _ Hk Hnd). done.
    - rewrite Ep, Eb. split; [apply (ko_base s Hok)|apply (ko_prio s Hok)].
    - rewrite policy_linked_fp, Ep. apply bool_decide_true, (ready_queue_owner s' (ks_ready_ok _ _ _ _ _ _ Hk)).
      rewrite (ks_ready _ _ _ _ _ _ Hk). unfold set_queue. rewrite decide_True by done. set_solver.
    - rewrite Hs', Ec. case_bool_decide; auto. }
  split; [|done]. eapply (kernel_ok_kstep_at s s' t); [done|exact Hk| |by apply app_not_TIdle|done|done|done| | |].
  - intros u Hu. split_and!; [|rewrite list_elem_of_filter; naive_solver|auto].
    intros p. unfold set_queue. destruct (decide (p = priority (task s t))) as [E|E]; [|done].
    rewrite E, elem_of_app, list_elem_of_singleton. naive_solver.
  - apply (wake_sorted_ext _ s).
    + intros u [Hu _]%list_elem_of_filter. by apply (ks_face _ _ _ _ _ _ _ Hk).
    + apply sorted_filter, (do_sorted _ _ (ko_delay s Hok)).
  - unfold task_ok. rewrite Hs'. by case_bool_decide.
  - intros Hc. unfold outgoing. rewrite Ec, Hc, Hs', Hr, !(bool_decide_true (Some t = _)) by done. done.
Qed.

Lemma woken_ok {m} s s' t W result :
  kernel_ok s → application t → state (task s t) = RTS_TASK_STATE_BLOCKED → sound (task s t) = true →
  kstepm m s s' t (set_queue (ready_queue s) (priority (task s t)) (ready_queue s (priority (task s t)) ++ [t]))
    (filter (λ u, u ≠ t) (delay_list s)) W →
  (∀ o, t ∉ W o) → (∀ u o, u ≠ t → u ∈ W o ↔ u ∈ waiting s o) → (∀ o, by_priority s (W o)) →
  identity (task s' t) = identity (task s t) →
  wait (task s' t) = mk_wait RTS_WAIT_NONE result 0 None false →
  state (task s' t) = (if bool_decide (Some t = k_current_task s) then RTS_TASK_STATE_RUNNING else RTS_TASK_STATE_READY) →
  kernel_ok s' ∧ runnable s' t = true.
Proof.
  intros Hok Ha Hst Hs Hk. rewrite (kstep_field k_current_tick _ _ _ _ _ _ Hk) by done. by apply (woken_ok_at (m:=m) s s' t W result).
Qed.

(** ** The current task blocked on an object *)

(** The waiters with [c] behind those of its priority at [o]. *)
Definition waited (s : kernel) (c : task_ptr) (o o' : sync_ptr) : list task_ptr :=
  if decide (o' = o) then insert_by (by_wait_rank s) c (waiting s o) else waiting s o'.

Lemma waited_facts s c o :
  kernel_ok s →
  c ∈ waited s c o o ∧ (∀ u o', u ≠ c → u ∈ waited s c o o' ↔ u ∈ waiting s o') ∧
  (∀ o', by_priority s (waited s c o o')).
Proof.
  intros Hok. unfold waited. split_and!.
  - rewrite decide_True by done. apply insert_by_elem. by left.
  - intros u o' Hu. case_decide; [subst; rewrite insert_by_elem; naive_solver|done].
  - intros o'. case_decide; [apply by_priority_insert|]; apply (wok_sorted s (ko_waits s Hok)).
Qed.

(** The delay queue with [c], when it waits with a timeout. *)
Definition timed_queue (s s' : kernel) (c : task_ptr) (timed : bool) : list task_ptr :=
  if timed then insert_by (wake_in (k_current_tick s) s') c (delay_list s) else delay_list s.

Lemma wp_timed_insert s s1 c R W (timed : bool) d (Q : unit → kernel → Prop) :
  kernel_ok s → kstep s s1 c R (delay_list s) W → c ∉ delay_list s → application c →
  (timed = true → 0 ≤ d ≤ RTS_DELAY_MAX) →
  wait_wake_tick (wait (task s1 c)) = (if timed then u32 (k_current_tick s + d) else 0) →
  (∀ s2, kstep s s2 c R (timed_queue s s2 c timed) W → task s2 c = task s1 c → Q tt s2) →
  wp (when timed (rts_delay_insert (Some c))) Q s1.
Proof.
  intros Hok Hk Hn Ha Hd Hw HQ. destruct timed; cbn [when]; [|by apply wp_ret, HQ].
  eapply (wp_kstep_delay_insert (m:=false) (k_current_tick s) s s1 c R W);
    [apply (ko_delay s Hok)|done|done|by apply app_all_tasks| |done].
  unfold wake_in, wake_tick. rewrite Hw, ahead_add; unfold RTS_DELAY_MAX, UINT32_MAX, RTS_TICK_HALF_RANGE in *; lia.
Qed.

Lemma waiting_ok s s' c o timed d :
  kernel_ok s → application c → k_current_task s = Some c → runnable s c = true →
  (timed = true → 0 ≤ d ≤ RTS_DELAY_MAX) →
  kstep s s' c (without c (ready_queue s)) (timed_queue s s' c timed) (waited s c o) →
  identity (task s' c) = identity (task s c) →
  wait (task s' c) = mk_wait (object_reason o) RTS_WAIT_RESULT_NONE
    (if timed then u32 (k_current_tick s + d) else 0) (Some o) timed →
  state (task s' c) = RTS_TASK_STATE_BLOCKED →
  kernel_ok s' ∧ waits_for s' c o ∧ blocked_wait s' c = true.
Proof.
  intros Hok Ha Hc Hr Hd Hk Hid Hw Hs. destruct (runnable_places s c Hok Hr) as [Hnd Hnw].
  destruct (runnable_sound s c (ko_roles s Hok) Ha (proj1 (ko_prio s Hok c)) Hr) as (Hsound&_&_).
  pose proof (kstep_roles _ _ _ _ _ _ Hk) as Hroles.
  pose proof (roles_ok_same _ _ Hroles (ko_roles s Hok)) as Hro.
  destruct (waited_facts s c o Hok) as (Hin&Hbw&Hby).
  assert (unready s' c) as Hu.
  { eapply kstep_unready; [done|by eapply ko_not_edf|]. intros p [Hx _]%list_elem_of_filter. done. }
  assert (timed = true → wake_in (k_current_tick s) s' c = d) as Hwake.
  { intros ->. unfold wake_in, wake_tick. rewrite Hw. apply ahead_add. unfold RTS_DELAY_MAX, UINT32_MAX in *. lia. }
  assert (∀ u, u ∈ timed_queue s s' c timed ↔ timed = true ∧ u = c ∨ u ∈ delay_list s) as Hq.
  { intros u. unfold timed_queue. destruct timed; [rewrite insert_by_elem|]; naive_solver. }
  assert (waits_for s' c o) as Hwf.
  { split; rewrite ?Hw; try done; [by eapply kstep_linked|].
    rewrite (kstep_delayed _ _ _ _ _ _ Hk). cbn.
    destruct timed; [apply bool_decide_true|apply bool_decide_false]; rewrite Hq; naive_solver. }
  assert (blocked_wait s' c = true) as Hb.
  { eapply blocked_sync_intro; [done..| | |done|done]; [by rewrite (sound_identity _ _ Hid)|].
    injection Hid as _ _ _ _ _ _ -> _ _. apply (ko_prio s Hok). }
  split_and!; [|done..].
  eapply (kernel_ok_kstep s s' c); [done|exact Hk| |by apply app_not_TIdle|done|done| | | |].
  - intros u Hu'. split_and!; [|rewrite Hq; naive_solver|auto].
    intros p. unfold without. rewrite list_elem_of_filter. naive_solver.
  - intros [[-> _]|Hx]%Hq; [|done]. rewrite Hwake by done. unfold wake_tick. rewrite Hw. cbn.
    split; [apply u32_range|]. unfold RTS_DELAY_MAX, RTS_TICK_HALF_RANGE in *. lia.
  - assert (StronglySorted (λ a b, wake_in (k_current_tick s) s' a ≤ wake_in (k_current_tick s) s' b) (delay_list s)) as Hsort.
    { apply (wake_sorted_ext _ s); [|apply (do_sorted _ _ (ko_delay s Hok))].
      intros u Hu'. apply (ks_face _ _ _ _ _ _ _ Hk). by intros ->. }
    unfold timed_queue. destruct timed; [by apply insert_by_sorted|done].
  - unfold task_ok. rewrite Hs, Hb, orb_true_r. done.
  - intros _. unfold outgoing. rewrite (bool_decide_true (Some c = _)).
    + by rewrite Hs, Hb, orb_true_r.
    + destruct Hroles as (_&_&->). done.
Qed.
(** ** The end of a wait *)

(** What is known of a task in a queue of waiters. *)
Lemma waiting_facts {since} s t o :
  kernel_ok_at since s → t ∈ waiting s o → application t ∧ sound (task s t) = true ∧ waits_for s t o ∧ unready s t.
Proof.
  intros Hok Hin. pose proof (wok_wf s (ko_waits s Hok)) as Hwf. pose proof (ww_apps s Hwf o t Hin) as Ha.
  apply (ww_owner s Hwf) in Hin as Hl. pose proof (ko_task s Hok t) as Ht. unfold task_ok in Ht.
  assert (∀ b, runnable s t = b → b = false) as Hnr.
  { intros [] Hr; [|done]. apply (runnable_places s t Hok) in Hr as [_ Hr]. by apply Hr in Hin. }
  destruct (state (task s t)) eqn:Es; [naive_solver|by specialize (Hnr _ Ht)..|].
  destruct Ht as [Hu [Hb|Hb]%orb_true_iff].
  - apply (blocked_delay_facts s t (ko_roles s Hok) Ha) in Hb. naive_solver.
  - apply (blocked_wait_facts s t (ko_roles s Hok) Ha) in Hb as (Hs&o'&Hw).
    assert (o' = o) as -> by (pose proof (wf_linked _ _ _ Hw); congruence). done.
Qed.

Lemma delay_list_nodup {since} s : kernel_ok_at since s → NoDup (delay_list s).
Proof.
  intros Hok. pose proof (ro_lists _ (ko_ready s Hok)) as Hl. eapply NoDup_fmap_1.
  rewrite <- (delay_contents s Hl). apply (wf_nodup _ (lo_wf _ Hl)).
Qed.

(** Cancelling the timeout of a waiter. *)
Lemma wp_cancel_delay {since} s s1 t R W b (Q : unit → kernel → Prop) :
  kernel_ok_at since s → kstep s s1 t R (delay_list s) W → b = delayed s t →
  (∀ s2, kstep s s2 t R (filter (λ u, u ≠ t) (delay_list s)) W → task s2 t = task s1 t → Q tt s2) →
  wp (when b (rts_delay_remove (Some t))) Q s1.
Proof.
  intros Hok Hk -> HQ.
  rewrite (kstep_delayed _ _ _ _ _ _ (kstep_refl (m:=false) s t (ko_ready s Hok) (wok_wf s (ko_waits s Hok)))).
  case_bool_decide as Hin; cbn [when].
  - eapply wp_kstep_delay_remove; [exact Hk|by eapply delay_list_nodup|done|done].
  - apply wp_ret, HQ; [|done]. by rewrite filter_ne_absent.
Qed.

Lemma wp_cancel_timeout {since} s s1 t R W b (Q : unit → kernel → Prop) :
  kernel_ok_at since s → kstep s s1 t R (delay_list s) W → b = delayed s t →
  (∀ s2, kstep s s2 t R (filter (λ u, u ≠ t) (delay_list s)) W → task s2 t = task s1 t → Q tt s2) →
  wp (when b (RTS_FATAL_UNLESS (rts_delay_contains (Some t)) ;;; rts_delay_remove (Some t))) Q s1.
Proof.
  intros Hok Hk Hb HQ. pose proof (wp_cancel_delay s s1 t R W b Q Hok Hk Hb HQ) as Hc.
  destruct b; cbn [when] in *; [|done]. apply wp_bind, wp_RTS_FATAL_UNLESS; [|done].
  rewrite rts_delay_contains_linked. rewrite (kstep_delayed _ _ _ _ _ _ Hk). do 2 f_equal.
  rewrite Hb. symmetry. apply (kstep_delayed _ _ _ _ _ _ (kstep_refl (m:=false) s t (ko_ready s Hok) (wok_wf s (ko_waits s Hok)))).
Qed.

(** The waiters without [t], which waited for [o]. *)
Definition unwaited (s : kernel) (t : task_ptr) (o o' : sync_ptr) : list task_ptr :=
  if decide (o' = o) then filter (λ u, u ≠ t) (waiting s o) else waiting s o'.

Lemma unwaited_facts {since} s t o :
  kernel_ok_at since s → t ∈ waiting s o →
  (∀ o', t ∉ unwaited s t o o') ∧ (∀ u o', u ≠ t → u ∈ unwaited s t o o' ↔ u ∈ waiting s o') ∧
  (∀ o', by_priority s (unwaited s t o o')).
Proof.
  intros Hok Hin. pose proof (wok_wf s (ko_waits s Hok)) as Hwf. unfold unwaited. split_and!.
  - intros o'. case_decide as E; [rewrite list_elem_of_filter; naive_solver|].
    rewrite (ww_owner s Hwf). apply (ww_owner s Hwf) in Hin. congruence.
  - intros u o' Hu. case_decide as E; [subst; rewrite list_elem_of_filter; naive_solver|done].
  - intros o'. case_decide; [apply sorted_filter|]; apply (wok_sorted s (ko_waits s Hok)).
Qed.

(** The store after [t], which waited for [o], was made ready with [result]. *)
Record granted (since : Z) (s s' : kernel) (t : task_ptr) (o : sync_ptr) (result : rts_wait_result_t) : Prop := {
  gr_ok : kernel_ok_at since s';
  gr_step : kstep s s' t
    (set_queue (ready_queue s) (priority (task s t)) (ready_queue s (priority (task s t)) ++ [t]))
    (filter (λ u, u ≠ t) (delay_list s)) (unwaited s t o);
  gr_runnable : runnable s' t = true;
  gr_wait : wait (task s' t) = mk_wait RTS_WAIT_NONE result 0 None false;
  gr_identity : identity (task s' t) = identity (task s t)
}.

Lemma granted_now s s' t o result : granted (k_current_tick s) s s' t o result → kernel_ok s'.
Proof. intros [Hok Hk _ _ _]. by rewrite (kstep_field k_current_tick _ _ _ _ _ _ Hk). Qed.

(** ** A call that blocks its caller on an object *)

Definition timeout_active (timeout : Z) : bool := negb (timeout =? RTS_WAIT_FOREVER).

(** The store after [c], the caller, began to wait for [o]: it alone moved,
    from the ready queues to the waiters of [o] (by priority, behind its
    equals) and, with a finite timeout, to the delay queue; the switch to the
    highest ready task is planned. *)
Record waiting_call (s s' : kernel) (c : task_ptr) (o : sync_ptr) (timeout : Z) : Prop := {
  wc_ok : kernel_ok s';
  wc_waits : waits_for s' c o;
  wc_timed : wait_timeout_active (wait (task s' c)) = timeout_active timeout;
  wc_wake : timeout_active timeout = true → wake_tick s' c = u32 (k_current_tick s + timeout);
  wc_others u : u ≠ c → task s' u = task s u;
  wc_ready p : ready_queue s' p = filter (λ t, t ≠ c) (ready_queue s p);
  wc_delay : delay_list s' = timed_queue s s' c (timeout_active timeout);
  wc_waiting o' : waiting s' o' = waited s c o o';
  wc_plan : ∃ n, head (fp_ready s') = Some n ∧ plan_pending (k_switch_plan s') = true ∧
    plan_from (k_switch_plan s') = Some c ∧ plan_to (k_switch_plan s') = Some n
}.

Lemma waits_for_frame s s' t o : same_scheduling s s' → waits_for s t o → waits_for s' t o.
Proof.
  intros Hs []. destruct (same_scheduling_views _ _ Hs) as (Et&_&_&_&Hp).
  destruct (Hp t) as [_ Hd Hw]. split; rewrite ?Et; try done; [congruence|]. unfold delayed in *. by rewrite Hd.
Qed.

(** What a call has done to its caller before it plans the switch. *)
Definition began_waiting (s s' : kernel) (c : task_ptr) (o : sync_ptr) (timeout : Z) : Prop :=
  kstep s s' c (without c (ready_queue s)) (timed_queue s s' c (timeout_active timeout)) (waited s c o) ∧
  kernel_ok s' ∧ waits_for s' c o ∧ wait_timeout_active (wait (task s' c)) = timeout_active timeout ∧
  (timeout_active timeout = true → wake_tick s' c = u32 (k_current_tick s + timeout)) ∧
  identity (task s' c) = identity (task s c).

Lemma waiting_call_intro s s1 s' c o timeout n :
  began_waiting s s1 c o timeout → same_scheduling s1 s' → kernel_ok s' →
  head (fp_ready s') = Some n → plan_pending (k_switch_plan s') = true → plan_from (k_switch_plan s') = Some c →
  plan_to (k_switch_plan s') = Some n → waiting_call s s' c o timeout.
Proof.
  intros (Hk&_&Hw&Ht&Hwake&_) Hsame Hok Hh Hp Hf Hto. destruct (same_scheduling_views _ _ Hsame) as (Et&Eq&Ed&Ew&_).
  split; rewrite ?Et; try done.
  - by apply (waits_for_frame s1).
  - unfold wake_tick in *. by rewrite Et.
  - intros u Hu. rewrite Et. by apply (ks_tasks _ _ _ _ _ _ Hk).
  - intros p. rewrite Eq. apply (ks_ready _ _ _ _ _ _ Hk).
  - rewrite Ed, (ks_delay _ _ _ _ _ _ Hk). unfold timed_queue, wake_in, wake_tick, task.
    by rewrite (ss_tasks _ _ Hsame).
  - intros o'. rewrite Ew. apply (ks_wait _ _ _ _ _ _ Hk).
  - by exists n.
Qed.

Lemma waiting_call_port s s' c o timeout f :
  waiting_call s s' c o timeout → waiting_call s (upd_port f s') c o timeout.
Proof. intros [? [] ?]. split; try done. by apply kernel_ok_port. Qed.

Lemma waiting_call_entered s s' c o timeout f :
  waiting_call (upd_port f s) s' c o timeout → waiting_call s s' c o timeout.
Proof. intros []. by split. Qed.
(** The end of a blocking call: the caller is off the ready queues, the switch
    is planned, the critical section left and the port told. *)
Lemma wp_switch_away s s1 c (consume : option task_ptr → K rts_status_t) (Q : rts_status_t → kernel → Prop) :
  kernel_ok s1 → 0 ≤ host_critical_depth (k_port s) → same_nesting (upd_port port_entered s) s1 →
  host_switch_request_count (k_port s1) < SIZE_MAX → k_current_task s1 = Some c →
  state (task s1 c) = RTS_TASK_STATE_BLOCKED → plan_active (k_switch_plan s1) = false →
  wait_result (wait (task s1 c)) = RTS_WAIT_RESULT_NONE →
  (∀ n s2 f, same_scheduling s1 s2 → k_semaphores s2 = k_semaphores s1 → k_mutexes s2 = k_mutexes s1 → kernel_ok s2 →
    head (fp_ready s2) = Some n → plan_pending (k_switch_plan s2) = true → plan_from (k_switch_plan s2) = Some c →
    plan_to (k_switch_plan s2) = Some n → same_nesting s (upd_port f s2) → Q RTS_STATUS_OK (upd_port f s2)) →
  wp (let* selected := rts_scheduler_select_highest_ready in
      RTS_FATAL_UNLESS (ret (bool_decide (selected ≠ None) && negb (bool_decide (selected = Some c)))) ;;;
      let* notify_port :=
        ret (bool_decide (selected ≠ None) && negb (bool_decide (selected = Some c))) &&&
        rts_scheduler_prepare_switch selected in
      rts_kernel_lock_exit (critical_token (k_port s)) ;;;
      notify_port_if notify_port ;;;
      let* result := gets (λ s, wait_result (wait (task s c))) in
      if negb (bool_decide (result = RTS_WAIT_RESULT_NONE)) then consume (Some c) else ret RTS_STATUS_OK) Q s1.
Proof.
  intros Hok Hd Hn Hreq Hc Hst Hact Hres HQ.
  destruct (block_replan s1 c Hok Hc Hst Hact) as (n&Hsel&Hne&Hprep&Hok2&Hhead&Hpend&Hfrom&Hto).
  destruct (prepared_frame c n s1) as (pl&cs&Epr). destruct (same_scheduling_views _ _ (prepared_same c n s1)) as (Et&_).
  apply wp_bind. eapply wp_run; [exact Hsel|].
  apply wp_bind, wp_RTS_FATAL_UNLESS; [unfold ret; by rewrite (bool_decide_false (Some n = Some c)) by congruence|].
  rewrite (bool_decide_false (Some n = Some c)) by congruence. cbn [orb bool_decide decide_rel negb andb].
  apply wp_bind. eapply wp_run; [exact Hprep|].
  destruct (critical_exit_balanced s (prepared c n s1) Hd) as [Hrun Hsame]; [by rewrite Epr|].
  apply wp_bind. eapply wp_run; [exact Hrun|]. apply wp_bind.
  eapply wp_mono; [apply notify_port_if_spec; by rewrite Epr|]. intros [] s' (f&->&Hs'&_). apply wp_bind, wp_gets.
  change (task (upd_port _ (upd_port _ ?x)) c) with (task x c). rewrite Et, Hres. cbn [negb bool_decide decide_rel].
  apply wp_ret, (HQ n (prepared c n s1) (λ p, f (port_exited (host_interrupts_masked (k_port s)) p)));
    try done; [apply prepared_same|by rewrite Epr..|]. by eapply same_nesting_trans.
Qed.
End blocking.
