(* ===== verification/Semaphore.v ===== *)
(** * Counting semaphores (kernel/semaphore.c) *)

From S2P Require Import Prelude Machine Config Types Links IntrusiveList KernelLists Time ReadyQueue.
From S2P Require Import DelayQueue HostPort Diagnostics TaskPool Policy PolicySpec WaitObject Scheduler.
From S2P Require Import SwitchSpec TaskApi.

Definition RTS_SEMAPHORE_SIGNATURE : Z := 0x52545353.

Section semaphore_code.
Context `{Config}.
Implicit Types (semaphore_arg : option Z) (task_arg : option task_ptr).

Definition rts_semaphore_is_valid semaphore_arg : K bool :=
  match semaphore_arg with
  | None => ret false
  | Some p =>
      gets (λ s,
        let x := semaphore s p in
        bool_decide (sem_identity x = Some p) && (sem_signature x =? RTS_SEMAPHORE_SIGNATURE) &&
        (0 <? sem_maximum_count x) && (sem_count x <=? sem_maximum_count x)) &&&
      rts_wait_object_validate (SSemaphore p)
  end.

Definition rts_semaphore_init semaphore_arg (initial_count maximum_count : Z) : K rts_status_t :=
  match semaphore_arg with
  | None => ret RTS_STATUS_INVALID_ARGUMENT
  | Some p =>
      if (maximum_count =? 0) || (maximum_count <? initial_count) then ret RTS_STATUS_INVALID_ARGUMENT else
      let* in_isr := rts_port_is_in_isr in
      if in_isr then ret RTS_STATUS_INVALID_CONTEXT else
      let* valid := rts_semaphore_is_valid (Some p) in
      if valid then ret RTS_STATUS_ALREADY_INITIALIZED else
      modify (upd_semaphore p (λ x, x <| sem_count := initial_count |>)) ;;;
      modify (upd_semaphore p (λ x, x <| sem_maximum_count := maximum_count |>)) ;;;
      rts_wait_object_initialize (SSemaphore p) ;;;
      modify (upd_semaphore p (λ x, x <| sem_identity := Some p |>)) ;;;
      modify (upd_semaphore p (λ x, x <| sem_signature := RTS_SEMAPHORE_SIGNATURE |>)) ;;;
      RTS_FATAL_UNLESS (rts_semaphore_is_valid (Some p)) ;;;
      ret RTS_STATUS_OK
  end.

(** rts_semaphore_current_can_block and rts_mutex_current_can_block, which
    have the same body. *)
Definition rts_semaphore_current_can_block : K bool :=
  let* current := rts_scheduler_current_get in
  match current with
  | None => ret false
  | Some t =>
      gets (λ s, bool_decide (state (task s t) = RTS_TASK_STATE_RUNNING) &&
                 negb (rts_scheduler_task_is_idle s (Some t))) &&&
      rts_scheduler_current_is_valid &&&
      rts_policy_validate (Some t) true &&&
      gets (λ s,
        let w := wait (task s t) in
        bool_decide (wait_reason w = RTS_WAIT_NONE) &&
        bool_decide (wait_result w = RTS_WAIT_RESULT_NONE) &&
        bool_decide (wait_object w = None) && negb (wait_timeout_active w) &&
        bool_decide (n_owner (node s (NDelay t)) = None) &&
        bool_decide (w_owner (wait_node s t) = None) &&
        negb (plan_active (k_switch_plan s)))
  end.

Definition rts_semaphore_make_ready (t : task_ptr) (result : rts_wait_result_t) : K unit :=
  let* current := rts_scheduler_current_get in
  let still_executing := bool_decide (Some t = current) in
  RTS_FATAL_UNLESS (gets (λ s, bool_decide (state (task s t) = RTS_TASK_STATE_BLOCKED))) ;;;
  RTS_FATAL_UNLESS (gets (λ s, bool_decide (wait_reason (wait (task s t)) = RTS_WAIT_SEMAPHORE))) ;;;
  let* waiters_arg := gets (λ s, semaphore_waiters (wait_object (wait (task s t)))) in
  RTS_FATAL_UNLESS (gets (λ s, bool_decide (w_owner (wait_node s t) = waiters_arg))) ;;;
  let* object := deref waiters_arg in
  rts_wait_object_remove object (Some t) ;;;
  let* timed := gets (λ s, wait_timeout_active (wait (task s t))) in
  when timed (
    RTS_FATAL_UNLESS (rts_delay_contains (Some t)) ;;;
    rts_delay_remove (Some t)) ;;;
  modify (upd_task t (λ x, x <| wait := mk_wait RTS_WAIT_NONE result 0 None false |>)) ;;;
  modify (upd_task t (λ x, x <| slice_remaining := RTS_TIME_SLICE_TICKS |>)) ;;;
  modify (upd_task t (λ x, x <| state :=
    if still_executing then RTS_TASK_STATE_RUNNING else RTS_TASK_STATE_READY |>)) ;;;
  RTS_FATAL_UNLESS (rts_policy_task_unblock (Some t)) ;;;
  RTS_DIAG_TASK_INC t diagnostic_wake_count ;;;
  RTS_DIAG_COUNTER_INC (if bool_decide (result = RTS_WAIT_RESULT_ACQUIRED)
                        then semaphore_acquisitions else semaphore_timeouts) ;;;
  let* prio := gets (λ s, priority (task s t)) in
  RTS_TRACE RTS_TRACE_SEMAPHORE (wait_result_value result) prio ;;;
  RTS_FATAL_UNLESS (rts_scheduler_task_is_runnable (Some t)).

Definition rts_semaphore_wake_one (p : Z) : K bool :=
  let* head := gets (λ s, wo_head (waiters s (SSemaphore p))) in
  match head with
  | None => ret false
  | Some t => rts_semaphore_make_ready t RTS_WAIT_RESULT_ACQUIRED ;;; ret true
  end.

(** rts_semaphore_plan_after_wake; rts_mutex_plan_final has the same body. *)
Definition rts_semaphore_plan_after_wake : K bool :=
  let* selected := rts_scheduler_select_highest_ready in
  let* current := rts_scheduler_current_get in
  RTS_FATAL_UNLESS (ret (bool_decide (selected ≠ None))) ;;;
  RTS_FATAL_UNLESS (ret (bool_decide (current ≠ None))) ;;;
  match selected, current with
  | Some n, Some c =>
      if bool_decide (n = c) then rts_scheduler_prepare_switch current ;;; ret false
      else rts_scheduler_prepare_switch selected
  | _, _ => ret false
  end.

Definition rts_semaphore_wait_result_consume task_arg : K rts_status_t :=
  match task_arg with
  | None => ret RTS_STATUS_INVALID_ARGUMENT
  | Some t =>
      let* result := gets (λ s, wait_result (wait (task s t))) in
      match result with
      | RTS_WAIT_RESULT_ACQUIRED =>
          modify (upd_task t (λ x, x <| wait := (wait x) <| wait_result := RTS_WAIT_RESULT_NONE |> |>)) ;;;
          ret RTS_STATUS_OK
      | RTS_WAIT_RESULT_TIMEOUT =>
          modify (upd_task t (λ x, x <| wait := (wait x) <| wait_result := RTS_WAIT_RESULT_NONE |> |>)) ;;;
          ret RTS_STATUS_TIMEOUT
      | _ => ret RTS_STATUS_INVALID_STATE
      end
  end.

(** The members of the current task before it blocks on [object]. *)
Definition begin_wait (c : task_ptr) (reason : rts_wait_reason_t) (object : sync_ptr) (timeout : Z) : K unit :=
  let* now := gets k_current_tick in
  let timeout_active := negb (timeout =? RTS_WAIT_FOREVER) in
  modify (upd_task c (λ x, x <| wait := mk_wait reason RTS_WAIT_RESULT_NONE
    (if timeout_active then u32 (now + timeout) else 0) (Some object) timeout_active |>)) ;;;
  modify (upd_task c (λ x, x <| slice_remaining := RTS_TIME_SLICE_TICKS |>)) ;;;
  modify (upd_task c (λ x, x <| state := RTS_TASK_STATE_BLOCKED |>)).

(** The current task [c] leaves the ready set and joins the waiters. *)
Definition semaphore_wait_current (p : Z) (c : task_ptr) (timeout : Z) : K unit :=
  RTS_FATAL_UNLESS (rts_policy_task_block (Some c)) ;;;
  begin_wait c RTS_WAIT_SEMAPHORE (SSemaphore p) timeout ;;;
  RTS_DIAG_COUNTER_INC semaphore_blocks ;;;
  RTS_DIAG_TASK_INC c diagnostic_block_count ;;;
  rts_wait_object_insert (SSemaphore p) (Some c) ;;;
  let* timed := gets (λ s, wait_timeout_active (wait (task s c))) in
  when timed (rts_delay_insert (Some c)) ;;;
  RTS_FATAL_UNLESS (rts_scheduler_task_is_blocked_wait (Some c)).

Definition rts_semaphore_take semaphore_arg (timeout : Z) : K rts_status_t :=
  match semaphore_arg with
  | None => ret RTS_STATUS_INVALID_ARGUMENT
  | Some p =>
      if (RTS_DELAY_MAX <? timeout) && negb (timeout =? RTS_WAIT_FOREVER)
      then ret RTS_STATUS_INVALID_ARGUMENT else
      let* in_isr := rts_port_is_in_isr in
      if in_isr then ret RTS_STATUS_INVALID_CONTEXT else
      let* running := gets (λ s, bool_decide (k_lifecycle s = RTS_KERNEL_RUNNING)) in
      if negb running then ret RTS_STATUS_INVALID_STATE else
      let* token := rts_kernel_lock_enter in
      let* valid := rts_semaphore_is_valid (Some p) in
      if negb valid then rts_kernel_lock_exit token ;;; ret RTS_STATUS_INVALID_ARGUMENT else
      let* available := gets (λ s, 0 <? sem_count (semaphore s p)) in
      if available then
        modify (upd_semaphore p (λ x, x <| sem_count ::= Z.pred |>)) ;;;
        RTS_DIAG_COUNTER_INC semaphore_acquisitions ;;;
        let* count := gets (λ s, sem_count (semaphore s p)) in
        RTS_TRACE RTS_TRACE_SEMAPHORE (wait_result_value RTS_WAIT_RESULT_ACQUIRED) count ;;;
        rts_kernel_lock_exit token ;;;
        ret RTS_STATUS_OK
      else
      if timeout =? 0 then rts_kernel_lock_exit token ;;; ret RTS_STATUS_TIMEOUT else
      let* current := rts_scheduler_current_get in
      let* service := gets (λ s, rts_scheduler_task_is_timer_service s current) in
      if service then rts_kernel_lock_exit token ;;; ret RTS_STATUS_INVALID_CONTEXT else
      let* blockable := gets (λ s, bool_decide (k_lifecycle s = RTS_KERNEL_RUNNING)) &&&
                        rts_semaphore_current_can_block in
      if negb blockable then rts_kernel_lock_exit token ;;; ret RTS_STATUS_INVALID_STATE else
      let* current := rts_scheduler_current_get in
      let* c := deref current in
      semaphore_wait_current p c timeout ;;;
      let* selected := rts_scheduler_select_highest_ready in
      RTS_FATAL_UNLESS (ret (bool_decide (selected ≠ None) && negb (bool_decide (selected = Some c)))) ;;;
      let* notify_port :=
        ret (bool_decide (selected ≠ None) && negb (bool_decide (selected = Some c))) &&&
        rts_scheduler_prepare_switch selected in
      rts_kernel_lock_exit token ;;;
      notify_port_if notify_port ;;;
      let* result := gets (λ s, wait_result (wait (task s c))) in
      if negb (bool_decide (result = RTS_WAIT_RESULT_NONE)) then rts_semaphore_wait_result_consume (Some c) else
      ret RTS_STATUS_OK
  end.

(** The status and the value stored through notify_port. *)
Definition rts_semaphore_give_common (p : Z) : K (rts_status_t * bool) :=
  let* running := gets (λ s, bool_decide (k_lifecycle s = RTS_KERNEL_RUNNING)) in
  if negb running then ret (RTS_STATUS_INVALID_STATE, false) else
  let* token := rts_kernel_lock_enter in
  let* valid := rts_semaphore_is_valid (Some p) in
  if negb valid then rts_kernel_lock_exit token ;;; ret (RTS_STATUS_INVALID_ARGUMENT, false) else
  let* woke := rts_semaphore_wake_one p in
  if negb woke then
    let* full := gets (λ s, sem_count (semaphore s p) =? sem_maximum_count (semaphore s p)) in
    if full then rts_kernel_lock_exit token ;;; ret (RTS_STATUS_FULL, false) else
    modify (upd_semaphore p (λ x, x <| sem_count := u32 (sem_count x + 1) |>)) ;;;
    rts_kernel_lock_exit token ;;;
    ret (RTS_STATUS_OK, false)
  else
    let* notify_port := rts_semaphore_plan_after_wake in
    rts_kernel_lock_exit token ;;;
    ret (RTS_STATUS_OK, notify_port).

Definition rts_semaphore_give semaphore_arg : K rts_status_t :=
  match semaphore_arg with
  | None => ret RTS_STATUS_INVALID_ARGUMENT
  | Some p =>
      let* in_isr := rts_port_is_in_isr in
      if in_isr then ret RTS_STATUS_INVALID_CONTEXT else
      let* given := rts_semaphore_give_common p in
      when (bool_decide (given.1 = RTS_STATUS_OK) && given.2)
        (rts_port_request_reschedule rts_cpu_current_id) ;;;
      ret given.1
  end.

(** The status and the value stored through higher_priority_task_woken, which
    is not null. *)
Definition rts_semaphore_give_from_isr semaphore_arg : K (rts_status_t * bool) :=
  match semaphore_arg with
  | None => ret (RTS_STATUS_INVALID_ARGUMENT, false)
  | Some p =>
      let* in_isr := rts_port_is_in_isr in
      if negb in_isr then ret (RTS_STATUS_INVALID_CONTEXT, false) else
      let* given := rts_semaphore_give_common p in
      ret (given.1, bool_decide (given.1 = RTS_STATUS_OK) && given.2)
  end.

Definition rts_semaphore_timeout_task task_arg : K bool :=
  match task_arg with
  | None => ret false
  | Some t =>
      let* accepted := rts_scheduler_task_is_blocked_wait (Some t) &&&
                       gets (λ s, wait_timeout_active (wait (task s t))) in
      if negb accepted then ret false else
      rts_semaphore_make_ready t RTS_WAIT_RESULT_TIMEOUT ;;;
      ret true
  end.
End semaphore_code.
