(* ===== verification/SemaphoreSpec.v ===== *)
(** * Semaphores, end to end

    rts_semaphore_take and rts_semaphore_give (kernel/semaphore.c) against the
    specification of a counting semaphore: a count and a queue of waiters,
    highest priority first, never both nonzero. *)

From S2P Require Import Prelude Machine Config Types Links IntrusiveList KernelLists Time ReadyQueue.
From S2P Require Import DelayQueue HostPort Diagnostics TaskPool Policy PolicySpec WaitObject Scheduler.
From S2P Require Import SwitchSpec KernelSpec TaskApi TaskApiSpec Blocking Semaphore.

Section semaphore_spec.
Context `{ConfigOk} `{!BitmapPolicy}.

(** An initialised semaphore; whoever waits found no unit. *)
Record semaphore_ok (s : kernel) (p : Z) : Prop := {
  so_identity : sem_identity (semaphore s p) = Some p;
  so_signature : sem_signature (semaphore s p) = RTS_SEMAPHORE_SIGNATURE;
  so_maximum : 0 < sem_maximum_count (semaphore s p) ≤ UINT32_MAX;
  so_count : 0 ≤ sem_count (semaphore s p) ≤ sem_maximum_count (semaphore s p);
  so_waiters : waiting s (SSemaphore p) ≠ [] → sem_count (semaphore s p) = 0
}.

Lemma rts_semaphore_is_valid_run s p :
  waits_ok s → semaphore_ok s p → rts_semaphore_is_valid (Some p) s = Done true s.
Proof.
  intros Hw [Hi Hs Hm Hc _]. unfold rts_semaphore_is_valid. apply (andM_run _ _ true true).
  - unfold gets. rewrite Hi, Hs, bool_decide_true, (proj2 (Z.ltb_lt _ _)), (proj2 (Z.leb_le _ _)) by (done || lia). done.
  - intros _. apply rts_wait_object_validate_run; apply Hw.
Qed.

Lemma rts_semaphore_make_ready_spec {since} s t p result :
  kernel_ok_at since s → port_room s → t ∈ waiting s (SSemaphore p) →
  wp (rts_semaphore_make_ready t result) (λ _ s', granted since s s' t (SSemaphore p) result) s.
Proof.
  intros Hok Hroom Hin. destruct (waiting_facts s t _ Hok Hin) as (Ha&Hsound&Hw&Hu).
  destruct Hw as [Wst Wre Wob Wres Wl Wt]. unfold rts_semaphore_make_ready.
  apply wp_bind. eapply wp_run; [apply rts_scheduler_current_get_run|].
  apply wp_bind, wp_RTS_FATAL_UNLESS; [unfold gets; by rewrite Wst|].
  apply wp_bind, wp_RTS_FATAL_UNLESS; [unfold gets; by rewrite Wre|].
  apply wp_bind, wp_gets. rewrite Wob. cbn [semaphore_waiters].
  apply wp_bind, wp_RTS_FATAL_UNLESS; [unfold gets; by rewrite Wl, bool_decide_true|]. cbn [deref]. apply wp_bind, wp_ret.
  pose proof (kstep_refl (m:=false) s t (ko_ready s Hok) (wok_wf s (ko_waits s Hok))) as Hk0.
  apply wp_bind. eapply wp_kstep_wait_remove; [exact Hk0|apply (ko_waits s Hok)|done|]. intros s1 Hk1 E1.
  apply wp_bind, wp_gets. rewrite E1, <- Wt.
  apply wp_bind. eapply wp_cancel_timeout; [exact Hok|exact Hk1|done|]. intros s2 Hk2 E2.
  apply wp_bind. eapply wp_kstep_task; [exact Hk2|done|]. intros s3 Hk3 E3.
  apply wp_bind. eapply wp_kstep_task; [exact Hk3|done|]. intros s4 Hk4 E4.
  apply wp_bind. eapply wp_kstep_task; [exact Hk4|done|]. intros s5 Hk5 E5.
  rewrite E4, E3, E2, E1 in E5.
  apply wp_bind, wp_fatal_do. eapply (wp_kstep_unblock s s5); [exact Hk5|by eapply ko_not_edf| |by apply app_all_tasks|..].
  { intros q Hq%(ready_queue_owner s (ko_ready s Hok)). unfold unready in Hu. congruence. }
  { rewrite E5. apply (ko_prio s Hok). }
  { rewrite E5. cbn. by case_bool_decide. }
  intros s6 Hk6 E6. split; [done|]. rewrite E5 in Hk6, E6.
  apply wp_bind. eapply wp_kstep_diag; [exact Hk6|done|]. intros s7 Hk7 E7.
  apply wp_bind. eapply wp_kstep_counter; [exact Hk7|]. intros s8 Hk8 E8.
  apply wp_bind, wp_gets, wp_bind. eapply wp_kstep_trace; [exact Hk8|exact Hroom|]. intros s9 Hk9 E9.
  assert (face (task s9 t) = face (task s5 t)) as Hf by congruence.
  rewrite E5 in Hf. apply face_eq in Hf as (Hid&Hwait&Hstate).
  destruct (woken_ok_at s s9 t _ result Hok Ha Wst Hsound Hk9) as [Hok9 Hr9]; [apply (unwaited_facts s t _ Hok Hin)..|done|done|done|].
  apply wp_RTS_FATAL_UNLESS; [|by split].
  rewrite rts_scheduler_task_is_runnable_run by apply (ko_prio s9 Hok9). by rewrite Hr9.
Qed.

(** Replanning after a wake-up. *)
Lemma plan_after_wake_run s c :
  kernel_ok s → k_current_task s = Some c →
  ∃ n, head (fp_ready s) = Some n ∧
    rts_semaphore_plan_after_wake s = Done (plan_prepared c n (k_switch_plan s)).2 (prepared c n s).
Proof.
  intros Hok Hc. destruct (select_run s Hok) as (n&Hh&Hn&Hsel). exists n. split; [done|].
  unfold rts_semaphore_plan_after_wake. rewrite (bind_run _ _ _ _ _ Hsel).
  rewrite (bind_run _ _ _ _ _ (rts_scheduler_current_get_run s)), Hc.
  do 2 rewrite fatal_unless_run by done. case_bool_decide as E; [subst n|by apply prepare_run].
  rewrite (bind_run _ _ _ _ _ (prepare_run s c c Hok Hc Hn)). unfold ret. f_equal.
  unfold plan_prepared. rewrite decide_True by done.
  by destruct (plan_active (k_switch_plan s)), (plan_pending (k_switch_plan s)).
Qed.

(** What giving a unit does, as a specification of counting semaphores: hand
    it to the first waiter, else add it to the count, else refuse it. *)
Record given (s s' : kernel) (p : Z) (st : rts_status_t) : Prop := {
  gv_ok : kernel_ok s';
  gv_semaphore : semaphore_ok s' p;
  gv_maximum : sem_maximum_count (semaphore s' p) = sem_maximum_count (semaphore s p);
  gv_cases :
    match waiting s (SSemaphore p) with
    | t :: ts =>
        st = RTS_STATUS_OK ∧ sem_count (semaphore s' p) = 0 ∧ waiting s' (SSemaphore p) = ts ∧
        wait (task s' t) = mk_wait RTS_WAIT_NONE RTS_WAIT_RESULT_ACQUIRED 0 None false ∧
        runnable s' t = true ∧ t ∉ delay_list s' ∧ (∀ u, u ≠ t → task s' u = task s u) ∧
        ∃ c n, k_current_task s = Some c ∧ head (fp_ready s') = Some n ∧
          k_switch_plan s' = (plan_prepared c n (k_switch_plan s)).1
    | [] =>
        k_tasks s' = k_tasks s ∧ k_heap s' = k_heap s ∧ k_switch_plan s' = k_switch_plan s ∧
        waiting s' (SSemaphore p) = [] ∧
        if decide (sem_count (semaphore s p) = sem_maximum_count (semaphore s p))
        then st = RTS_STATUS_FULL ∧ sem_count (semaphore s' p) = sem_count (semaphore s p)
        else st = RTS_STATUS_OK ∧ sem_count (semaphore s' p) = sem_count (semaphore s p) + 1
    end
}.

Lemma kstep_semaphore s s' c R D W p : kstep s s' c R D W → semaphore s' p = semaphore s p.
Proof. intros Hk. by eapply (kstep_field (λ s, semaphore s p)); [exact Hk|]. Qed.

Lemma give_handoff s s1 s' t ts c n p :
  kernel_ok s → semaphore_ok s p → waiting s (SSemaphore p) = t :: ts →
  granted (k_current_tick s) s s1 t (SSemaphore p) RTS_WAIT_RESULT_ACQUIRED → k_current_task s = Some c → head (fp_ready s1) = Some n →
  same_scheduling (prepared c n s1) s' → k_switch_plan s' = k_switch_plan (prepared c n s1) →
  k_semaphores s' = k_semaphores s1 → given s s' p RTS_STATUS_OK.
Proof.
  intros Hok Hsem E Hgr Hc Hn Hss Epl Esem.
  pose proof (granted_now _ _ _ _ _ Hgr) as Hok1. destruct Hgr as [_ Hk Hr Hw _].
  assert (t ∈ waiting s (SSemaphore p)) as Hin by (rewrite E; left).
  assert (k_current_task s1 = Some c) as Hc1 by (rewrite <- Hc; by eapply kstep_field).
  pose proof (kernel_ok_prepared c n s1 Hok1 Hc1) as Hok2.
  assert (kernel_ok s') as Hok'.
  { eapply kernel_ok_frame; [exact Hok2|done|]. eapply plan_ok_frame; [exact Epl|apply Hss|apply Hok2]. }
  destruct (same_scheduling_views _ _ Hss) as (Et&Eq&Ed&Ew&Hp).
  pose proof (prepared_same c n s1) as Hpr. destruct (same_scheduling_views _ _ Hpr) as (Et'&Eq'&Ed'&Ew'&Hp').
  assert (∀ o, waiting s' o = unwaited s t (SSemaphore p) o) as Ewait.
  { intros o. rewrite Ew, Ew'. apply (ks_wait _ _ _ _ _ _ Hk). }
  assert (waiting s' (SSemaphore p) = ts) as Ets.
  { rewrite Ewait. unfold unwaited. rewrite decide_True, E by done. apply (filter_ne_mid [] ts t).
    rewrite <- E. apply (ww_nodup s (wok_wf s (ko_waits s Hok))). }
  assert (semaphore s' p = semaphore s p) as Es.
  { rewrite <- (kstep_semaphore _ _ _ _ _ _ p Hk). unfold semaphore. by rewrite Esem. }
  destruct Hsem as [S1 S2 S3 S4 S5]. rewrite E in S5. specialize (S5 ltac:(done)).
  split; [done|by split; rewrite ?Es|by rewrite Es|]. rewrite E. rewrite Es. split_and!; try done.
  - by rewrite Et, Et'.
  - by rewrite (runnable_same _ _ t Hss), (runnable_same _ _ t Hpr).
  - rewrite Ed, Ed', (ks_delay _ _ _ _ _ _ Hk), list_elem_of_filter. naive_solver.
  - intros u Hu. rewrite Et, Et'. by apply (ks_tasks _ _ _ _ _ _ Hk).
  - exists c, n. split_and!; [done| |].
    + rewrite <- Hn. f_equal. apply fp_order_ext. intros q _. by rewrite Eq, Eq'.
    + rewrite Epl, prepared_plan. do 2 f_equal. by eapply kstep_field.
Qed.

Lemma given_port s s' p st f : given s s' p st → given s (upd_port f s') p st.
Proof.
  intros [Hok [] Hm Hc]. split; [by apply kernel_ok_port|by split|done|].
  destruct (waiting s (SSemaphore p)); exact Hc.
Qed.

Lemma give_count s s' p st v :
  kernel_ok s' → semaphore_ok s p → waiting s (SSemaphore p) = [] → same_scheduling s s' →
  k_switch_plan s' = k_switch_plan s → semaphore s' p = (semaphore s p) <| sem_count := v |> →
  (if decide (sem_count (semaphore s p) = sem_maximum_count (semaphore s p))
   then st = RTS_STATUS_FULL ∧ v = sem_count (semaphore s p)
   else st = RTS_STATUS_OK ∧ v = sem_count (semaphore s p) + 1) →
  given s s' p st.
Proof.
  intros Hok' [S1 S2 S3 S4 S5] E Hss Epl Es Hcase.
  destruct (same_scheduling_views _ _ Hss) as (_&_&_&Ew&_).
  assert (0 ≤ v ≤ sem_maximum_count (semaphore s p)) by (case_decide; lia).
  split; [done|split; rewrite ?Es; try done; by rewrite Ew, E|by rewrite Es|].
  rewrite E, Es. split_and!; [apply Hss..|done|by rewrite Ew|done].
Qed.

Lemma rts_semaphore_give_common_spec s p :
  kernel_ok s → 0 ≤ host_critical_depth (k_port s) < RTS_HOST_CRITICAL_NESTING_MAX - 1 → semaphore_ok s p →
  wp (rts_semaphore_give_common p) (λ r s', same_nesting s s' ∧ given s s' p r.1 ∧
    host_switch_request_count (k_port s') = host_switch_request_count (k_port s)) s.
Proof.
  intros Hok Hroom Hsem. unfold rts_semaphore_give_common. apply wp_bind, wp_gets.
  rewrite bool_decide_true by apply (ko_live s Hok). cbn [negb].
  apply wp_bind. eapply wp_run; [apply rts_port_critical_enter_run; lia|].
  set (s0 := upd_port port_entered s). assert (kernel_ok s0) as Hok0 by by apply kernel_ok_port.
  assert (semaphore_ok s0 p) as Hsem0 by by destruct Hsem; split.
  apply wp_bind. eapply wp_run; [by apply rts_semaphore_is_valid_run; [apply Hok0|]|]. cbn [negb].
  assert (∀ s1 (r : rts_status_t * bool), same_nesting s0 s1 →
    (∀ f, given s (upd_port f s1) p r.1) → host_switch_request_count (k_port s1) = host_switch_request_count (k_port s) →
    wp (rts_kernel_lock_exit (critical_token (k_port s)) ;;; ret r) (λ r s', same_nesting s s' ∧ given s s' p r.1 ∧
      host_switch_request_count (k_port s') = host_switch_request_count (k_port s)) s1) as Hexit.
  { intros s1 r Hn Hg Hc. destruct (critical_exit_balanced s s1 ltac:(lia) Hn) as [Hrun Hsame].
    apply wp_bind. eapply wp_run; [exact Hrun|]. by apply wp_ret. }
  unfold rts_semaphore_wake_one. apply wp_bind, wp_bind, wp_gets.
  rewrite (ww_storage s0 (wok_wf s0 (ko_waits s0 Hok0))). cbn [wo_head]. rewrite first_or_head.
  change (waiting s0 (SSemaphore p)) with (waiting s (SSemaphore p)).
  destruct (waiting s (SSemaphore p)) as [|t ts] eqn:E; cbn [head].
  - apply wp_ret. cbn [negb]. apply wp_bind, wp_gets. change (semaphore s0 p) with (semaphore s p).
    destruct (Z.eqb_spec (sem_count (semaphore s p)) (sem_maximum_count (semaphore s p))) as [Ef|Ef].
    + apply Hexit; [apply same_nesting_refl|intros f|done].
      apply (give_count _ _ _ _ (sem_count (semaphore s p)));
        [by apply kernel_ok_port|done|done|by split|done|by change (semaphore (upd_port f s0) p) with (semaphore s p); destruct (semaphore s p)|].
      by rewrite decide_True.
    + apply wp_bind, wp_modify, Hexit; [by split_and!|intros f|done].
      destruct Hsem as [S1 S2 S3 S4 S5].
      assert (semaphore (upd_port f (upd_semaphore p (λ x, x <| sem_count := u32 (sem_count x + 1) |>) s0)) p =
        (semaphore s p) <| sem_count := sem_count (semaphore s p) + 1 |>) as Es.
      { change (semaphore (upd_port f ?s) p) with (semaphore s p). rewrite semaphore_upd, decide_True by done.
        rewrite u32_small; [done|]. unfold is_u32, UINT32_MAX in *. change (semaphore s0 p) with (semaphore s p). lia. }
      apply (give_count _ _ _ _ (sem_count (semaphore s p) + 1)); [|by split|done|by split|done|done|by rewrite decide_False].
      apply kernel_ok_port, (kernel_ok_frame s0); [done|by split|]. by apply (plan_ok_frame s0), Hok0.
  - apply wp_bind. eapply wp_mono; [eapply (rts_semaphore_make_ready_spec s0 t p)|];
      [done|unfold port_room; cbn; lia|change (waiting s0 ?o) with (waiting s o); rewrite E; left|].
    intros [] s1 Hgr. apply wp_ret. cbn [negb].
    destruct (ko_current s0 Hok0) as (c&Hc&_).
    assert (k_current_task s1 = Some c) as Hc1 by (rewrite <- Hc; eapply kstep_field; [apply Hgr|done]).
    destruct (plan_after_wake_run s1 c (granted_now _ _ _ _ _ Hgr) Hc1) as (n&Hn&Hrun).
    apply wp_bind. eapply wp_run; [exact Hrun|]. destruct (prepared_frame c n s1) as (pl&cs&Epr).
    apply Hexit.
    + rewrite Epr. apply (ks_nesting _ _ _ _ _ _ (gr_step _ _ _ _ _ _ Hgr)).
    + intros f. pose proof (give_handoff s0 s1 (upd_port f (prepared c n s1)) t ts c n p Hok0 Hsem0 E Hgr Hc Hn) as Hg.
      destruct Hg as [G1 G2 G3 G4]; [by split|done|by rewrite Epr|]. by split.
    + rewrite Epr. cbn. apply (kstep_requests _ _ _ _ _ _ (gr_step _ _ _ _ _ _ Hgr)).
Qed.

(** C3: Giving a semaphore meets its specification.  With waiters, the first
    one (highest priority, longest waiting) gets the unit directly: it leaves
    the waiters and the delay queue, becomes runnable with result ACQUIRED, the
    count stays 0 and the switch plan is made for the highest ready task;
    without waiters the count grows by one, and at the maximum the call returns
    FULL and changes nothing.  In each case the kernel's invariant and that of
    the semaphore (waiters only at count 0, count within the maximum) hold
    again. *)
Theorem semaphore_give_correct s p :
  kernel_ok s → caller_ok s → semaphore_ok s p →
  wp (rts_semaphore_give (Some p)) (λ st s', same_nesting s s' ∧ given s s' p st) s.
Proof.
  intros Hok [Hisr Hroom Hreq] Hsem. unfold rts_semaphore_give, rts_port_is_in_isr. apply wp_bind, wp_gets.
  rewrite Hisr. apply wp_bind. eapply wp_mono; [by apply rts_semaphore_give_common_spec|].
  intros [st notify] s1 (Hn&Hg&Hc). cbn [fst snd] in *. apply wp_bind.
  eapply wp_mono; [apply (notify_port_if_spec (bool_decide (st = RTS_STATUS_OK) && notify) s1); lia|].
  intros [] s' (f&->&Hn'&_). apply wp_ret. split; [by eapply same_nesting_trans|by apply given_port].
Qed.

(** ** Taking a unit *)

Lemma can_block_run s c :
  kernel_ok s → k_current_task s = Some c → state (task s c) = RTS_TASK_STATE_RUNNING → application c →
  wait_result (wait (task s c)) = RTS_WAIT_RESULT_NONE → plan_active (k_switch_plan s) = false →
  rts_semaphore_current_can_block s = Done true s.
Proof.
  intros Hok Hc Hst Ha Hres Hact. destruct (caller_tests s c Hok Hc Hst Ha) as (Hv&Hpol&Hw&Hi).
  unfold rts_semaphore_current_can_block. rewrite (bind_run _ _ _ _ _ (rts_scheduler_current_get_run s)), Hc.
  repeat apply (andM_run _ _ true true); try intros _; try done; unfold gets; [by rewrite Hst, Hi|].
  f_equal. unfold task_waits_for_nothing in Hw. rewrite Hact, Hres. cbn [negb].
  rewrite !andb_true_iff in *. naive_solver.
Qed.

(** The caller has left the ready queues to wait for [o]; [W] are the waiters. *)
Definition leaving (s s1 : kernel) (c : task_ptr) (o : sync_ptr) (timeout : Z) (W : sync_ptr → list task_ptr) : Prop :=
  kstep s s1 c (without c (ready_queue s)) (delay_list s) W ∧
  identity (task s1 c) = identity (task s c) ∧
  wait (task s1 c) = mk_wait (object_reason o) RTS_WAIT_RESULT_NONE
    (if timeout_active timeout then u32 (k_current_tick s + timeout) else 0) (Some o) (timeout_active timeout) ∧
  state (task s1 c) = RTS_TASK_STATE_BLOCKED.

Section waiting_calls.
Context (s : kernel) (c : task_ptr) (o : sync_ptr) (timeout : Z).
Context (Hok : kernel_ok s) (Ha : application c) (Hc : k_current_task s = Some c) (Hr : runnable s c = true).
Context (Hto : 0 ≤ timeout ≤ RTS_DELAY_MAX ∨ timeout = RTS_WAIT_FOREVER).

Lemma wp_leave_ready {A} n (k : K A) (Q : A → kernel → Prop) :
  (∀ s1, leaving s s1 c o timeout (waiting s) → wp k Q s1) →
  wp (RTS_FATAL_UNLESS (rts_policy_task_block (Some c)) ;;;
      begin_wait c (object_reason o) o timeout ;;;
      RTS_DIAG_COUNTER_INC n ;;;
      RTS_DIAG_TASK_INC c diagnostic_block_count ;;;
      k) Q s.
Proof.
  intros HQ. pose proof (kstep_refl (m:=false) s c (ko_ready s Hok) (wok_wf s (ko_waits s Hok))) as Hk0.
  apply wp_bind, wp_fatal_do. eapply wp_kstep_block; [exact Hk0|by apply runnable_ready; [apply Hok|]|].
  intros s1 Hk1 E1. split; [done|]. unfold begin_wait. apply wp_bind, wp_bind, wp_gets.
  rewrite (kstep_field k_current_tick _ _ _ _ _ _ Hk1) by done. fold (timeout_active timeout).
  apply wp_bind. eapply wp_kstep_task; [exact Hk1|done|]. intros s2 Hk2 E2.
  apply wp_bind. eapply wp_kstep_task; [exact Hk2|done|]. intros s3 Hk3 E3.
  eapply wp_kstep_task; [exact Hk3|done|]. intros s4 Hk4 E4.
  apply wp_bind. eapply wp_kstep_counter; [exact Hk4|]. intros s5 Hk5 E5.
  apply wp_bind. eapply wp_kstep_diag; [exact Hk5|done|]. intros s6 Hk6 E6.
  rewrite E5, E4, E3, E2, E1 in E6. apply face_eq in E6 as (Hid&Hw&Hs). by apply HQ.
Qed.

Lemma wp_join_waiters {A} s1 (k : K A) (Q : A → kernel → Prop) :
  leaving s s1 c o timeout (waiting s) →
  (∀ s2, leaving s s2 c o timeout (waited s c o) → wp k Q s2) →
  wp (rts_wait_object_insert o (Some c) ;;; k) Q s1.
Proof.
  intros (Hk&Hid&Hw&Hs) HQ. destruct (runnable_places s c Hok Hr) as [_ Hnw].
  assert (∀ u, priority (task s1 u) = priority (task s u)) as Hpr.
  { intros u. destruct (decide (u = c)) as [->|Hu]; [by injection Hid|by rewrite (ks_tasks _ _ _ _ _ _ Hk)]. }
  apply wp_bind. eapply wp_kstep_wait_insert; [exact Hk| |done|done|].
  { apply (by_priority_ext s); [done|apply (wok_sorted s (ko_waits s Hok))]. }
  intros s2 Hk2 E2. apply HQ. unfold leaving. rewrite E2. split_and!; try done.
  eapply kstep_ext_wait; [exact Hk2|]. intros o'. unfold waited. case_decide; [|done].
  apply insert_by_ext. intros u. unfold by_wait_rank. by rewrite Hpr.
Qed.

Lemma wp_set_timeout s1 (Q : unit → kernel → Prop) :
  leaving s s1 c o timeout (waited s c o) →
  (∀ s2, began_waiting s s2 c o timeout → blocked_wait s2 c = true → Q tt s2) →
  wp (let* timed := gets (λ s, wait_timeout_active (wait (task s c))) in
      when timed (rts_delay_insert (Some c))) Q s1.
Proof.
  intros (Hk&Hid&Hw&Hs) HQ. destruct (runnable_places s c Hok Hr) as [Hnd Hnw].
  assert (timeout_active timeout = true → 0 ≤ timeout ≤ RTS_DELAY_MAX) as Hto'.
  { unfold timeout_active. intros ?%negb_true_iff%Z.eqb_neq. naive_solver. }
  apply wp_bind, wp_gets. rewrite Hw. cbn [wait_timeout_active].
  eapply (wp_timed_insert s s1 c _ _ (timeout_active timeout) timeout);
    [exact Hok|exact Hk|exact Hnd|exact Ha|exact Hto'|by rewrite Hw|].
  intros s2 Hk2 E2. rewrite <- E2 in Hid, Hw, Hs.
  destruct (waiting_ok s s2 c o (timeout_active timeout) timeout Hok Ha Hc Hr) as (Hok2&Hwf&Hb); [done..|].
  apply HQ; [|done]. split_and!; [done..|by rewrite Hw| |done]. intros Et. unfold wake_tick. by rewrite Hw, Et.
Qed.
End waiting_calls.

Lemma semaphore_wait_current_spec s c p timeout :
  kernel_ok s → application c → k_current_task s = Some c → runnable s c = true →
  0 ≤ timeout ≤ RTS_DELAY_MAX ∨ timeout = RTS_WAIT_FOREVER →
  wp (semaphore_wait_current p c timeout) (λ _ s', began_waiting s s' c (SSemaphore p) timeout) s.
Proof.
  intros Hok Ha Hc Hr Hto. apply (wp_leave_ready s c (SSemaphore p) timeout); [done..|]. intros s1 Hl1.
  apply (wp_join_waiters s c (SSemaphore p) timeout); [done..|]. intros s2 Hl2.
  pose proof (wp_set_timeout s c (SSemaphore p) timeout Hok Ha Hc Hr Hto s2
    (λ _ s', began_waiting s s' c (SSemaphore p) timeout ∧ blocked_wait s' c = true) Hl2) as Hset.
  apply wp_bind_inv in Hset; [|done]. apply wp_bind. eapply wp_mono; [exact Hset|]. intros timed s3 Hwhen. cbn beta in Hwhen.
  apply wp_bind. eapply wp_mono; [exact Hwhen|]. intros [] s4 [Hb Hbw].
  apply wp_RTS_FATAL_UNLESS; [|done].
  rewrite rts_scheduler_task_is_blocked_wait_run by (eapply (ko_prio s4), Hb). by rewrite Hbw.
Qed.

(** What taking a unit does: take it if there is one; else give up at once if
    the timeout is 0; else the caller waits. *)
Record taken (s s' : kernel) (c : task_ptr) (p timeout : Z) (st : rts_status_t) : Prop := {
  tk_ok : kernel_ok s';
  tk_semaphore : semaphore_ok s' p;
  tk_maximum : sem_maximum_count (semaphore s' p) = sem_maximum_count (semaphore s p);
  tk_cases :
    if decide (0 < sem_count (semaphore s p)) then
      st = RTS_STATUS_OK ∧ sem_count (semaphore s' p) = sem_count (semaphore s p) - 1 ∧
      same_scheduling s s' ∧ k_switch_plan s' = k_switch_plan s
    else sem_count (semaphore s' p) = 0 ∧
      if decide (timeout = 0) then st = RTS_STATUS_TIMEOUT ∧ same_scheduling s s' ∧ k_switch_plan s' = k_switch_plan s
      else st = RTS_STATUS_OK ∧ waiting_call s s' c (SSemaphore p) timeout
}.

Lemma take_unit s s' c p timeout :
  kernel_ok s → semaphore_ok s p → 0 < sem_count (semaphore s p) → same_scheduling s s' →
  k_switch_plan s' = k_switch_plan s → semaphore s' p = (semaphore s p) <| sem_count ::= Z.pred |> →
  taken s s' c p timeout RTS_STATUS_OK.
Proof.
  intros Hok [S1 S2 S3 S4 S5] Hc Hss Epl Es. destruct (same_scheduling_views _ _ Hss) as (_&_&_&Ew&_).
  split; [|split; rewrite ?Es; try done|by rewrite Es|].
  - eapply kernel_ok_frame; [exact Hok|done|]. eapply plan_ok_frame; [exact Epl|apply Hss|apply Hok].
  - cbn. lia.
  - rewrite Ew. intros Hx%S5. lia.
  - rewrite decide_True, Es by done. cbn. split_and!; [done|lia|done..].
Qed.

Lemma take_refused s c p f :
  kernel_ok s → semaphore_ok s p → ¬ 0 < sem_count (semaphore s p) → taken s (upd_port f s) c p 0 RTS_STATUS_TIMEOUT.
Proof.
  intros Hok [S1 S2 S3 S4 S5] Hc. split; [by apply kernel_ok_port|by split|done|].
  rewrite decide_False by done. split; [change (semaphore (upd_port f s) p) with (semaphore s p); lia|].
  rewrite decide_True by done. split_and!; [done|by split|done].
Qed.

Lemma take_waits s s' c p timeout :
  semaphore_ok s p → ¬ 0 < sem_count (semaphore s p) → timeout ≠ 0 → semaphore s' p = semaphore s p →
  waiting_call s s' c (SSemaphore p) timeout → taken s s' c p timeout RTS_STATUS_OK.
Proof.
  intros [S1 S2 S3 S4 S5] Hc Ht Es Hw. split; [apply Hw|split; rewrite ?Es; try done; lia|by rewrite Es|].
  rewrite decide_False, Es, decide_False by done. split_and!; [lia|done..].
Qed.

(** C2: Taking a semaphore meets its specification.  A unit that is there is
    taken, and nothing of the scheduling changes; with none, a zero timeout
    returns TIMEOUT and changes nothing; any other timeout blocks the caller:
    it alone leaves the ready queues, joins the waiters behind those of its
    priority and above, and the delay queue with wake tick now + timeout unless
    it waits forever, and the switch to the highest ready task is planned.  In
    each case the kernel's invariant and that of the semaphore hold again. *)
Theorem semaphore_take_correct s c p timeout :
  kernel_ok s → caller_ok s → semaphore_ok s p → k_current_task s = Some c →
  state (task s c) = RTS_TASK_STATE_RUNNING → application c →
  wait_result (wait (task s c)) = RTS_WAIT_RESULT_NONE → plan_active (k_switch_plan s) = false →
  0 ≤ timeout ≤ RTS_DELAY_MAX ∨ timeout = RTS_WAIT_FOREVER →
  wp (rts_semaphore_take (Some p) timeout) (λ st s', same_nesting s s' ∧ taken s s' c p timeout st) s.
Proof.
  intros Hok [Hisr Hroom Hreq] Hsem Hc Hst Ha Hres Hact Hto.
  pose proof (current_running_facts s c Hok Hc Hst) as Hr. unfold rts_semaphore_take.
  replace (_ && _) with false by (symmetry; destruct Hto as [?| ->]; [apply andb_false_intro1; lia|by rewrite Z.eqb_refl, andb_false_r]).
  unfold rts_port_is_in_isr. apply wp_bind, wp_gets. rewrite Hisr. apply wp_bind, wp_gets.
  rewrite bool_decide_true by apply (ko_live s Hok). cbn [negb].
  apply wp_bind. eapply wp_run; [apply rts_port_critical_enter_run; lia|].
  set (s0 := upd_port port_entered s). assert (kernel_ok s0) as Hok0 by by apply kernel_ok_port.
  assert (semaphore_ok s0 p) as Hsem0 by by destruct Hsem; split.
  assert (port_room s0) as Hroom0 by (unfold port_room; cbn; lia).
  apply wp_bind. eapply wp_run; [by apply rts_semaphore_is_valid_run; [apply Hok0|]|]. cbn [negb].
  apply wp_bind, wp_gets. change (semaphore s0 p) with (semaphore s p).
  destruct (Z.ltb_spec 0 (sem_count (semaphore s p))) as [Hcount|Hcount].
  - apply wp_bind, wp_modify. set (s1 := upd_semaphore p _ s0).
    apply wp_bind. eapply wp_mono; [apply RTS_DIAG_COUNTER_INC_spec|]. intros [] s2 [cs ->].
    apply wp_bind, wp_gets, wp_bind. eapply wp_mono; [apply RTS_TRACE_spec; done|]. intros [] s3 Hf.
    pose proof (trace_frame_nesting _ _ Hf) as Hn. destruct Hf as (tok&tr&->&_).
    destruct (critical_exit_balanced s _ ltac:(lia) Hn) as [Hrun Hsame].
    apply wp_bind. eapply wp_run; [exact Hrun|]. apply wp_ret. split; [done|].
    apply take_unit; [done|done|lia|by split|done|].
    change (semaphore s1 p = (semaphore s0 p) <| sem_count ::= Z.pred |>).
    unfold s1. by rewrite semaphore_upd, decide_True by done.
  - destruct (Z.eqb_spec timeout 0) as [->|Ht].
    + destruct (critical_exit_balanced s s0 ltac:(lia) (same_nesting_refl _)) as [Hrun Hsame].
      apply wp_bind. eapply wp_run; [exact Hrun|]. apply wp_ret. split; [done|].
      by apply (take_refused s c p (λ x, port_exited _ (port_entered x))), Z.le_ngt.
    + apply wp_bind. eapply wp_run; [apply rts_scheduler_current_get_run|]. apply wp_bind, wp_gets.
      change (k_current_task s0) with (k_current_task s). rewrite Hc, app_not_service by (done || by eapply ko_roles).
      apply wp_bind. eapply wp_run.
      { apply (andM_run _ _ true true); [unfold gets; by rewrite bool_decide_true by apply (ko_live s0 Hok0)|].
        intros _. by apply (can_block_run s0 c). }
      cbn [negb]. apply wp_bind. eapply wp_run; [apply rts_scheduler_current_get_run|].
      change (k_current_task s0) with (k_current_task s). rewrite Hc. cbn [deref]. apply wp_bind, wp_ret, wp_bind.
      eapply wp_mono; [by apply (semaphore_wait_current_spec s0 c p timeout)|].
      intros [] s1 Hbegan. pose proof Hbegan as (Hk&Hok1&Hw&_).
      apply (wp_switch_away s s1 c rts_semaphore_wait_result_consume);
        [done|lia|apply (ks_nesting _ _ _ _ _ _ Hk)|by rewrite (kstep_requests _ _ _ _ _ _ Hk)
        |by rewrite (kstep_field k_current_task _ _ _ _ _ _ Hk)|apply Hw
        |by rewrite (kstep_field k_switch_plan _ _ _ _ _ _ Hk)|apply Hw|].
      intros n s2 f Hss Es _ Hok2 Hhead Hpend Hfrom Hplan Hn. split; [done|].
      apply take_waits; [done|lia|done| |].
      * rewrite <- (kstep_semaphore _ _ _ _ _ _ p Hk : _ = semaphore s p). unfold semaphore. cbn. by rewrite Es.
      * apply waiting_call_port, (waiting_call_entered s _ c _ _ port_entered). by apply (waiting_call_intro s0 s1 s2 c _ _ n).
Qed.
End semaphore_spec.
