(* ===== verification/Inheritance.v ===== *)
(** * Priority inheritance (kernel/priority_inheritance.c) *)

From S2P Require Import Prelude Machine Config Types Links IntrusiveList KernelLists Time ReadyQueue.
From S2P Require Import DelayQueue HostPort Diagnostics TaskPool Policy PolicySpec WaitObject Scheduler.
From S2P Require Import SwitchSpec.

Section inheritance_code.
Context `{Config}.

Definition rts_priority_waiters_for (s : kernel) (t : task_ptr) : option sync_ptr :=
  match wait_reason (wait (task s t)) with
  | RTS_WAIT_MUTEX => mutex_waiters (wait_object (wait (task s t)))
  | RTS_WAIT_SEMAPHORE => semaphore_waiters (wait_object (wait (task s t)))
  | _ => None
  end.

Definition rts_priority_set_effective (task_arg : option task_ptr) (effective_priority : Z) : K bool :=
  match task_arg with
  | None => ret false
  | Some t =>
      let* refused := gets (λ s, (effective_priority <? base_priority (task s t)) ||
        (effective_priority =? RTS_IDLE_PRIORITY) || (RTS_PRIORITY_COUNT <=? effective_priority)) in
      if refused then ret false else
      let* previous := gets (λ s, priority (task s t)) in
      if previous =? effective_priority then ret true else
      let* changed := rts_policy_priority_changed (Some t) effective_priority in
      if negb changed then ret false else
      RTS_DIAG_COUNTER_INC (if previous <? effective_priority then priority_raises
                            else priority_restorations) ;;;
      RTS_TRACE RTS_TRACE_PRIORITY previous effective_priority ;;;
      let* waiters_arg := gets (λ s, rts_priority_waiters_for s t) in
      match waiters_arg with
      | None => ret tt
      | Some object =>
          RTS_FATAL_UNLESS (rts_wait_object_contains object (Some t)) ;;;
          rts_wait_object_reprioritize object (Some t)
      end ;;;
      ret true
  end.

(** The loop of rts_priority_required_by_owned, from the mutex [m]. *)
Fixpoint rts_priority_required_walk (t : task_ptr) (m : option Z) (required : Z) (count : Z)
    (fuel : nat) : K Z :=
  match fuel with
  | O => no_fuel
  | S fuel' =>
      match m with
      | Some p =>
          if count <? RTS_MAX_MUTEXES_PER_TASK then
            let* foreign := gets (λ s, negb (bool_decide (mtx_owner (mutex s p) = Some t))) in
            if foreign then
              RTS_FATAL_UNLESS (gets (λ s, bool_decide (mtx_owner (mutex s p) = Some t))) ;;;
              ret required
            else
            let* required := gets (λ s,
              match wo_head (waiters s (SMutex p)) with
              | Some w => if required <? priority (task s w) then priority (task s w) else required
              | None => required
              end) in
            let* next := gets (λ s, mtx_owned_next (mutex s p)) in
            rts_priority_required_walk t next required (Z.succ count) fuel'
          else
            RTS_FATAL_UNLESS (ret (bool_decide (m = None))) ;;; ret required
      | None => RTS_FATAL_UNLESS (ret (bool_decide (m = None))) ;;; ret required
      end
  end.

Definition rts_priority_required_by_owned (t : task_ptr) : K Z :=
  let* m := gets (λ s, owned_mutex_head (task s t)) in
  let* required := gets (λ s, base_priority (task s t)) in
  rts_priority_required_walk t m required 0 (Z.to_nat (RTS_MAX_MUTEXES_PER_TASK + 1)).

(** The mutex that a task blocked on a mutex waits for. *)
Definition object_mutex (o : option sync_ptr) : K Z :=
  match o with Some (SMutex p) => ret p | _ => undefined end.

(** The loop of rts_priority_recompute_chain; [visited] is the array, last
    element first. *)
Fixpoint rts_priority_recompute_walk (task_arg : option task_ptr) (visited : list task_ptr)
    (fuel : nat) : K bool :=
  match fuel with
  | O => no_fuel
  | S fuel' =>
      match task_arg with
      | Some t =>
          if Z.of_nat (length visited) <? RTS_SCHEDULABLE_TASK_CAPACITY then
            if bool_decide (t ∈ visited) then RTS_FATAL_UNLESS (ret false) ;;; ret false else
            let* required := rts_priority_required_by_owned t in
            let* set := rts_priority_set_effective (Some t) required in
            if negb set then ret false else
            let* stop := gets (λ s,
              negb (bool_decide (state (task s t) = RTS_TASK_STATE_BLOCKED)) ||
              negb (bool_decide (wait_reason (wait (task s t)) = RTS_WAIT_MUTEX))) in
            if stop then ret true else
            let* object := gets (λ s, wait_object (wait (task s t))) in
            let* p := object_mutex object in
            let* owner := gets (λ s, mtx_owner (mutex s p)) in
            rts_priority_recompute_walk owner (t :: visited) fuel'
          else
            RTS_FATAL_UNLESS (ret (bool_decide (task_arg = None))) ;;;
            ret (bool_decide (task_arg = None))
      | None =>
          RTS_FATAL_UNLESS (ret (bool_decide (task_arg = None))) ;;;
          ret (bool_decide (task_arg = None))
      end
  end.

Definition rts_priority_recompute_chain (task_arg : option task_ptr) : K bool :=
  rts_priority_recompute_walk task_arg [] (Z.to_nat (RTS_SCHEDULABLE_TASK_CAPACITY + 1)).
End inheritance_code.
