(* ===== verification/Mutex.v ===== *)
(** * Mutexes (kernel/mutex.c) *)

From S2P Require Import Prelude Machine Config Types Links IntrusiveList KernelLists Time ReadyQueue.
From S2P Require Import DelayQueue HostPort Diagnostics TaskPool Policy PolicySpec WaitObject Scheduler.
From S2P Require Import SwitchSpec TaskApi Semaphore Inheritance.

Definition RTS_MUTEX_SIGNATURE : Z := 0x5254534d.

Section mutex_code.
Context `{Config}.
Implicit Types (mutex_arg : option Z) (task_arg : option task_ptr).

Definition rts_mutex_is_valid mutex_arg : K bool :=
  match mutex_arg with
  | None => ret false
  | Some p =>
      gets (λ s, bool_decide (mtx_identity (mutex s p) = Some p) &&
                 (mtx_signature (mutex s p) =? RTS_MUTEX_SIGNATURE)) &&&
      rts_wait_object_validate (SMutex p) &&&
      gets (λ s,
        let x := mutex s p in
        match mtx_owner x with
        | None => bool_decide (mtx_owned_previous x = None) && bool_decide (mtx_owned_next x = None) &&
                  (wo_count (waiters s (SMutex p)) =? 0)
        | Some owner => bool_decide (owned_mutex_head (task s owner) = Some p) ||
                        bool_decide (mtx_owned_previous x ≠ None)
        end)
  end.

Definition rts_mutex_init mutex_arg : K rts_status_t :=
  match mutex_arg with
  | None => ret RTS_STATUS_INVALID_ARGUMENT
  | Some p =>
      let* in_isr := rts_port_is_in_isr in
      if in_isr then ret RTS_STATUS_INVALID_CONTEXT else
      let* valid := rts_mutex_is_valid (Some p) in
      if valid then ret RTS_STATUS_ALREADY_INITIALIZED else
      modify (upd_mutex p (λ x, x <| mtx_owner := None |>)) ;;;
      rts_wait_object_initialize (SMutex p) ;;;
      modify (upd_mutex p (λ x, x <| mtx_owned_previous := None |>)) ;;;
      modify (upd_mutex p (λ x, x <| mtx_owned_next := None |>)) ;;;
      modify (upd_mutex p (λ x, x <| mtx_identity := Some p |>)) ;;;
      modify (upd_mutex p (λ x, x <| mtx_signature := RTS_MUTEX_SIGNATURE |>)) ;;;
      RTS_FATAL_UNLESS (rts_mutex_is_valid (Some p)) ;;;
      ret RTS_STATUS_OK
  end.

Definition rts_mutex_owner_link (p : Z) (owner : task_ptr) : K unit :=
  RTS_FATAL_UNLESS (gets (λ s, bool_decide (mtx_owner (mutex s p) = None))) ;;;
  RTS_FATAL_UNLESS (gets (λ s, bool_decide (mtx_owned_previous (mutex s p) = None) &&
                               bool_decide (mtx_owned_next (mutex s p) = None))) ;;;
  RTS_FATAL_UNLESS (gets (λ s, owned_mutex_count (task s owner) <? RTS_MAX_MUTEXES_PER_TASK)) ;;;
  modify (upd_mutex p (λ x, x <| mtx_owner := Some owner |>)) ;;;
  let* tail := gets (λ s, owned_mutex_tail (task s owner)) in
  modify (upd_mutex p (λ x, x <| mtx_owned_previous := tail |>)) ;;;
  modify (upd_mutex p (λ x, x <| mtx_owned_next := None |>)) ;;;
  match tail with
  | None => modify (upd_task owner (λ x, x <| owned_mutex_head := Some p |>))
  | Some q => modify (upd_mutex q (λ x, x <| mtx_owned_next := Some p |>))
  end ;;;
  modify (upd_task owner (λ x, x <| owned_mutex_tail := Some p |>)) ;;;
  modify (upd_task owner (λ x, x <| owned_mutex_count ::= Z.succ |>)).

Definition rts_mutex_owner_unlink (p : Z) : K unit :=
  let* owner_arg := gets (λ s, mtx_owner (mutex s p)) in
  RTS_FATAL_UNLESS (ret (bool_decide (owner_arg ≠ None))) ;;;
  match owner_arg with
  | None => ret tt
  | Some owner =>
      let* previous := gets (λ s, mtx_owned_previous (mutex s p)) in
      let* next := gets (λ s, mtx_owned_next (mutex s p)) in
      match previous with
      | None =>
          RTS_FATAL_UNLESS (gets (λ s, bool_decide (owned_mutex_head (task s owner) = Some p))) ;;;
          modify (upd_task owner (λ x, x <| owned_mutex_head := next |>))
      | Some q => modify (upd_mutex q (λ x, x <| mtx_owned_next := next |>))
      end ;;;
      match next with
      | None =>
          RTS_FATAL_UNLESS (gets (λ s, bool_decide (owned_mutex_tail (task s owner) = Some p))) ;;;
          modify (upd_task owner (λ x, x <| owned_mutex_tail := previous |>))
      | Some q => modify (upd_mutex q (λ x, x <| mtx_owned_previous := previous |>))
      end ;;;
      modify (upd_mutex p (λ x, x <| mtx_owner := None |>)) ;;;
      modify (upd_mutex p (λ x, x <| mtx_owned_previous := None |>)) ;;;
      modify (upd_mutex p (λ x, x <| mtx_owned_next := None |>)) ;;;
      RTS_FATAL_UNLESS (gets (λ s, 0 <? owned_mutex_count (task s owner))) ;;;
      modify (upd_task owner (λ x, x <| owned_mutex_count ::= Z.pred |>))
  end.

Definition rts_mutex_current_can_block : K bool := rts_semaphore_current_can_block.

(** The loop of rts_mutex_would_cycle, [fuel] iterations of it left. *)
Fixpoint rts_mutex_cycle_walk (current task_arg : option task_ptr) (fuel : nat) : K bool :=
  match task_arg with
  | None => RTS_FATAL_UNLESS (ret (bool_decide (task_arg = None))) ;;; ret (bool_decide (task_arg ≠ None))
  | Some t =>
      match fuel with
      | O => RTS_FATAL_UNLESS (ret (bool_decide (task_arg = None))) ;;; ret (bool_decide (task_arg ≠ None))
      | S fuel' =>
          if bool_decide (task_arg = current) then ret true else
          let* stop := gets (λ s,
            negb (bool_decide (state (task s t) = RTS_TASK_STATE_BLOCKED)) ||
            negb (bool_decide (wait_reason (wait (task s t)) = RTS_WAIT_MUTEX))) in
          if stop then ret false else
          let* object := gets (λ s, wait_object (wait (task s t))) in
          let* p := object_mutex object in
          let* owner := gets (λ s, mtx_owner (mutex s p)) in
          rts_mutex_cycle_walk current owner fuel'
      end
  end.

Definition rts_mutex_would_cycle (current : option task_ptr) (p : Z) : K bool :=
  let* owner := gets (λ s, mtx_owner (mutex s p)) in
  rts_mutex_cycle_walk current owner (Z.to_nat RTS_SCHEDULABLE_TASK_CAPACITY).

Definition rts_mutex_plan_final : K bool := rts_semaphore_plan_after_wake.

Definition rts_mutex_wait_result_consume task_arg : K rts_status_t :=
  rts_semaphore_wait_result_consume task_arg.

(** The current task [c] leaves the ready set and joins the waiters. *)
Definition mutex_wait_current (p : Z) (c : task_ptr) (timeout : Z) : K unit :=
  RTS_FATAL_UNLESS (rts_policy_task_block (Some c)) ;;;
  begin_wait c RTS_WAIT_MUTEX (SMutex p) timeout ;;;
  RTS_DIAG_COUNTER_INC mutex_blocks ;;;
  RTS_DIAG_TASK_INC c diagnostic_block_count ;;;
  let* prio := gets (λ s, priority (task s c)) in
  RTS_TRACE RTS_TRACE_MUTEX (wait_reason_value RTS_WAIT_MUTEX) prio ;;;
  rts_wait_object_insert (SMutex p) (Some c) ;;;
  let* timed := gets (λ s, wait_timeout_active (wait (task s c))) in
  when timed (rts_delay_insert (Some c)).

Definition rts_mutex_lock mutex_arg (timeout : Z) : K rts_status_t :=
  match mutex_arg with
  | None => ret RTS_STATUS_INVALID_ARGUMENT
  | Some p =>
      if (RTS_DELAY_MAX <? timeout) && negb (timeout =? RTS_WAIT_FOREVER)
      then ret RTS_STATUS_INVALID_ARGUMENT else
      let* in_isr := rts_port_is_in_isr in
      if in_isr then ret RTS_STATUS_INVALID_CONTEXT else
      let* running := gets (λ s, bool_decide (k_lifecycle s = RTS_KERNEL_RUNNING)) in
      if negb running then ret RTS_STATUS_INVALID_STATE else
      let* token := rts_kernel_lock_enter in
      let leave (status : rts_status_t) := rts_kernel_lock_exit token ;;; ret status in
      let* valid := rts_mutex_is_valid (Some p) in
      if negb valid then leave RTS_STATUS_INVALID_ARGUMENT else
      let* current := rts_scheduler_current_get in
      let* owner := gets (λ s, mtx_owner (mutex s p)) in
      if bool_decide (owner = None) then
        RTS_FATAL_UNLESS (gets (λ s, wo_count (waiters s (SMutex p)) =? 0)) ;;;
        let* c := deref current in
        let* full := gets (λ s, RTS_MAX_MUTEXES_PER_TASK <=? owned_mutex_count (task s c)) in
        if full then leave RTS_STATUS_CAPACITY_EXHAUSTED else
        rts_mutex_owner_link p c ;;;
        leave RTS_STATUS_OK
      else
      if bool_decide (owner = current) then leave RTS_STATUS_INVALID_STATE else
      if timeout =? 0 then leave RTS_STATUS_TIMEOUT else
      let* service := gets (λ s, rts_scheduler_task_is_timer_service s current) in
      if service then leave RTS_STATUS_INVALID_CONTEXT else
      let* c := deref current in
      let* full := gets (λ s, RTS_MAX_MUTEXES_PER_TASK <=? owned_mutex_count (task s c)) in
      if full then leave RTS_STATUS_CAPACITY_EXHAUSTED else
      let* cycle := rts_mutex_would_cycle current p in
      if cycle then
        RTS_ASSERT (notM (rts_mutex_would_cycle current p)) ;;; leave RTS_STATUS_INVALID_STATE
      else
      let* blockable := rts_mutex_current_can_block in
      if negb blockable then leave RTS_STATUS_INVALID_STATE else
      mutex_wait_current p c timeout ;;;
      RTS_FATAL_UNLESS (let* owner := gets (λ s, mtx_owner (mutex s p)) in
                        rts_priority_recompute_chain owner) ;;;
      RTS_FATAL_UNLESS (rts_scheduler_task_is_blocked_wait (Some c)) ;;;
      let* selected := rts_scheduler_select_highest_ready in
      RTS_FATAL_UNLESS (ret (bool_decide (selected ≠ None) && negb (bool_decide (selected = Some c)))) ;;;
      let* notify_port :=
        ret (bool_decide (selected ≠ None) && negb (bool_decide (selected = Some c))) &&&
        rts_scheduler_prepare_switch selected in
      rts_kernel_lock_exit token ;;;
      notify_port_if notify_port ;;;
      let* result := gets (λ s, wait_result (wait (task s c))) in
      if negb (bool_decide (result = RTS_WAIT_RESULT_NONE)) then rts_mutex_wait_result_consume (Some c) else
      ret RTS_STATUS_OK
  end.

(** The members a task gets when its wait for a mutex ends. *)
Definition end_mutex_wait (t : task_ptr) (result : rts_wait_result_t) : K unit :=
  let* current := rts_scheduler_current_get in
  modify (upd_task t (λ x, x <| wait := mk_wait RTS_WAIT_NONE result 0 None false |>)) ;;;
  modify (upd_task t (λ x, x <| slice_remaining := RTS_TIME_SLICE_TICKS |>)) ;;;
  modify (upd_task t (λ x, x <| state :=
    if bool_decide (Some t = current) then RTS_TASK_STATE_RUNNING else RTS_TASK_STATE_READY |>)).

Definition rts_mutex_handoff (p : Z) : K (option task_ptr) :=
  let* waiter_arg := gets (λ s, wo_head (waiters s (SMutex p))) in
  RTS_FATAL_UNLESS (ret (bool_decide (waiter_arg ≠ None))) ;;;
  let* waiter := deref waiter_arg in
  rts_wait_object_remove (SMutex p) (Some waiter) ;;;
  let* timed := gets (λ s, wait_timeout_active (wait (task s waiter))) in
  when timed (rts_delay_remove (Some waiter)) ;;;
  rts_mutex_owner_unlink p ;;;
  rts_mutex_owner_link p waiter ;;;
  end_mutex_wait waiter RTS_WAIT_RESULT_ACQUIRED ;;;
  RTS_FATAL_UNLESS (rts_policy_task_unblock (Some waiter)) ;;;
  RTS_DIAG_COUNTER_INC mutex_handoffs ;;;
  RTS_DIAG_TASK_INC waiter diagnostic_wake_count ;;;
  ret (Some waiter).

Definition rts_mutex_unlock mutex_arg : K rts_status_t :=
  match mutex_arg with
  | None => ret RTS_STATUS_INVALID_ARGUMENT
  | Some p =>
      let* in_isr := rts_port_is_in_isr in
      if in_isr then ret RTS_STATUS_INVALID_CONTEXT else
      let* running := gets (λ s, bool_decide (k_lifecycle s = RTS_KERNEL_RUNNING)) in
      if negb running then ret RTS_STATUS_INVALID_STATE else
      let* token := rts_kernel_lock_enter in
      let leave (status : rts_status_t) := rts_kernel_lock_exit token ;;; ret status in
      let* valid := rts_mutex_is_valid (Some p) in
      if negb valid then leave RTS_STATUS_INVALID_ARGUMENT else
      let* former_owner := gets (λ s, mtx_owner (mutex s p)) in
      let* current := rts_scheduler_current_get in
      if negb (bool_decide (former_owner = current)) then leave RTS_STATUS_INVALID_STATE else
      let* contended := gets (λ s, bool_decide (wo_head (waiters s (SMutex p)) ≠ None)) in
      (if contended then rts_mutex_handoff p ;;; ret tt else rts_mutex_owner_unlink p) ;;;
      RTS_FATAL_UNLESS (rts_priority_recompute_chain former_owner) ;;;
      let* owner := gets (λ s, mtx_owner (mutex s p)) in
      when (bool_decide (owner ≠ None)) (RTS_FATAL_UNLESS (rts_priority_recompute_chain owner)) ;;;
      let* notify_port := rts_mutex_plan_final in
      rts_kernel_lock_exit token ;;;
      notify_port_if notify_port ;;;
      ret RTS_STATUS_OK
  end.

Definition rts_mutex_timeout_task task_arg : K bool :=
  match task_arg with
  | None => ret false
  | Some t =>
      let* accepted :=
        gets (λ s, bool_decide (wait_reason (wait (task s t)) = RTS_WAIT_MUTEX) &&
                   wait_timeout_active (wait (task s t))) &&&
        rts_scheduler_task_is_blocked_wait (Some t) in
      if negb accepted then ret false else
      let* object := gets (λ s, wait_object (wait (task s t))) in
      let* p := object_mutex object in
      let* owner := gets (λ s, mtx_owner (mutex s p)) in
      rts_wait_object_remove (SMutex p) (Some t) ;;;
      rts_delay_remove (Some t) ;;;
      end_mutex_wait t RTS_WAIT_RESULT_TIMEOUT ;;;
      RTS_FATAL_UNLESS (rts_policy_task_unblock (Some t)) ;;;
      RTS_DIAG_COUNTER_INC mutex_timeouts ;;;
      RTS_DIAG_TASK_INC t diagnostic_wake_count ;;;
      RTS_FATAL_UNLESS (rts_priority_recompute_chain owner) ;;;
      ret true
  end.
End mutex_code.
