(* ===== verification/MutexSpec.v ===== *)
(** * Mutex ownership and priority inheritance

    The mutexes a task holds form a chain through the mutexes themselves
    (kernel/mutex.c), and kernel/priority_inheritance.c derives the effective
    priority of the task from that chain and from the waiters of its mutexes.
    This file shows that the chain is the list of held mutexes in the order of
    acquisition, that the walk over it computes the maximum it should, and that
    one recomputation along a wait-for chain re-establishes the inheritance
    invariant for every task. *)

From S2P Require Import Prelude Machine Config Types Links IntrusiveList KernelLists Time ReadyQueue.
From S2P Require Import DelayQueue HostPort Diagnostics TaskPool Policy PolicySpec WaitObject Scheduler.
From S2P Require Import SwitchSpec KernelSpec Semaphore Inheritance Mutex.

(** ** The mutexes a task owns *)

Definition olinks (s : kernel) (p : Z) : links Z task_ptr :=
  mk_links (mtx_owned_previous (mutex s p)) (mtx_owned_next (mutex s p)) (mtx_owner (mutex s p)).

(** The mutexes [t] owns, first acquired first. *)
Definition owned (s : kernel) (t : task_ptr) : list Z :=
  walk (olinks s) (owned_mutex_head (task s t)) (Z.to_nat (owned_mutex_count (task s t))).

(** The mutex without its links. *)
Definition unowned (m : rts_mutex) : rts_mutex :=
  m <| mtx_owner := None |> <| mtx_owned_previous := None |> <| mtx_owned_next := None |>.

Section ownership.
Context `{ConfigOk}.

Record own_rep (s : kernel) (t : task_ptr) (ps : list Z) : Prop := {
  or_chain : dll (olinks s) t ps;
  or_head : owned_mutex_head (task s t) = first_or ps None;
  or_tail : owned_mutex_tail (task s t) = last_or ps None;
  or_count : owned_mutex_count (task s t) = Z.of_nat (length ps);
  or_bound : Z.of_nat (length ps) ≤ RTS_MAX_MUTEXES_PER_TASK
}.

Record owns_ok (s : kernel) : Prop := {
  oo_clean : nodes_clean (olinks s);
  oo_rep t : own_rep s t (owned s t)
}.

(** [s'] differs from [s] in the mutexes of [t], and in their links, only. *)
Record owns_step (s s' : kernel) (t : task_ptr) (ps : list Z) : Prop := {
  os_ok : owns_ok s';
  os_frame : ∃ ms ts, s' = s <| k_mutexes := ms |> <| k_tasks := ts |>;
  os_task u : unchained (task s' u) = unchained (task s u);
  os_mutex q : unowned (mutex s' q) = unowned (mutex s q);
  os_owned u : owned s' u = if decide (u = t) then ps else owned s u
}.

Lemma own_rep_owned s t ps : own_rep s t ps → owned s t = ps.
Proof.
  intros [(Hs&_) Hh _ Hc _]. unfold owned. rewrite Hh, Hc, Nat2Z.id. by eapply lseg_walk.
Qed.

Lemma owns_ok_intro s :
  nodes_clean (olinks s) → (∀ t, ∃ ps, own_rep s t ps) → owns_ok s.
Proof.
  intros Hc Hr. split; [done|]. intros t. destruct (Hr t) as [ps Hp].
  by rewrite (own_rep_owned s t ps Hp).
Qed.

Lemma owns_ok_ext s s' :
  (∀ p, mutex s' p = mutex s p) →
  (∀ t, owned_mutex_head (task s' t) = owned_mutex_head (task s t) ∧
        owned_mutex_tail (task s' t) = owned_mutex_tail (task s t) ∧
        owned_mutex_count (task s' t) = owned_mutex_count (task s t)) →
  owns_ok s → owns_ok s' ∧ ∀ t, owned s' t = owned s t.
Proof.
  intros Hm Ht Hok. assert (∀ p, olinks s' p = olinks s p) as Hl by (intros p; unfold olinks; by rewrite !Hm).
  assert (∀ t, own_rep s' t (owned s t)) as Hrep.
  { intros t. destruct (oo_rep s Hok t) as [(Hs&Hnd&Ho) Hh Htl Hc Hb], (Ht t) as (E1&E2&E3).
    split; try congruence. split_and!; [by eapply lseg_ext|done|]. intros p. by rewrite Hl. }
  split; [|intros t; by apply own_rep_owned].
  apply owns_ok_intro; [|eauto]. intros p. rewrite Hl. apply (oo_clean s Hok).
Qed.

Lemma owned_owner s t p : owns_ok s → p ∈ owned s t ↔ mtx_owner (mutex s p) = Some t.
Proof. intros Hok. apply (dll_owner (olinks s) t), (oo_rep s Hok t). Qed.

Lemma owned_split s t p : owns_ok s → mtx_owner (mutex s p) = Some t → ∃ l1 l2, owned s t = l1 ++ p :: l2.
Proof. intros Hok Ho. by apply list_elem_of_split, owned_owner. Qed.

Lemma owned_nodup s t : owns_ok s → NoDup (owned s t).
Proof. intros Hok. eapply dll_nodup, (oo_rep s Hok t). Qed.

Lemma owned_node s t l1 p l2 :
  owns_ok s → owned s t = l1 ++ p :: l2 →
  mtx_owned_previous (mutex s p) = last_or l1 None ∧ mtx_owned_next (mutex s p) = first_or l2 None ∧
  mtx_owner (mutex s p) = Some t.
Proof.
  intros Hok E. pose proof (or_chain _ _ _ (oo_rep s Hok t)) as Hd. rewrite E in Hd.
  apply dll_node in Hd. unfold olinks in Hd. by injection Hd.
Qed.

(** The chains after one splice, from the fields that were written. *)
Lemma owns_spliced s s' t ps :
  owns_ok s → nodes_clean (olinks s') →
  (∃ ms ts, s' = s <| k_mutexes := ms |> <| k_tasks := ts |>) →
  (∀ u, unchained (task s' u) = unchained (task s u)) →
  (∀ q, unowned (mutex s' q) = unowned (mutex s q)) →
  (∀ u, u ≠ t → task s' u = task s u) →
  (∀ u, dll (olinks s') u (if decide (u = t) then ps else owned s u)) →
  owned_mutex_head (task s' t) = first_or ps None →
  owned_mutex_tail (task s' t) = last_or ps None →
  owned_mutex_count (task s' t) = Z.of_nat (length ps) →
  Z.of_nat (length ps) ≤ RTS_MAX_MUTEXES_PER_TASK →
  owns_step s s' t ps.
Proof.
  intros Hok Hc Hfr Hu Hm Ho Hd Hh Ht Hn Hb.
  assert (∀ u, own_rep s' u (if decide (u = t) then ps else owned s u)) as Hrep.
  { intros u. specialize (Hd u). case_decide; [subst u; by split|].
    destruct (oo_rep s Hok u) as [? ? ? ? ?]. split; rewrite ?Ho by done; done. }
  split; [apply owns_ok_intro; [done|eauto]|done..|]. intros u. apply own_rep_owned, Hrep.
Qed.

(** Compare two stores mutex by mutex, task by task. *)
Ltac own_cases :=
  repeat (rewrite ?mutex_upd, ?task_upd_task;
          repeat match goal with
          | |- context [mutex (upd_task ?t ?f ?s) ?p] => change (mutex (upd_task t f s) p) with (mutex s p)
          | |- context [task (upd_mutex ?p ?f ?s) ?t] => change (task (upd_mutex p f s) t) with (task s t)
          end;
          repeat case_decide; simplify_eq; cbn).
Ltac own_links :=
  intros m; unfold olinks, splice_in, splice_out, unlinked; cbn [first_or];
  rewrite ?last_or_snoc, ?last_or_nil; own_cases; congruence.
Ltac own_frame :=
  match goal with |- ∃ _ _, ?l = _ => by exists (k_mutexes l), (k_tasks l) end.

Lemma rts_mutex_owner_link_spec s p t :
  owns_ok s → mtx_owner (mutex s p) = None →
  Z.of_nat (length (owned s t)) < RTS_MAX_MUTEXES_PER_TASK →
  wp (rts_mutex_owner_link p t) (λ _ s', owns_step s s' t (owned s t ++ [p])) s.
Proof.
  intros Hok Hn Hlen. pose proof (oo_clean s Hok p Hn) as Hc. injection Hc as Hpv Hnx _.
  destruct (oo_rep s Hok t) as [Hd Hh Ht Hcount Hb].
  assert (p ∉ owned s t) as Hnin by (rewrite owned_owner by done; congruence).
  unfold rts_mutex_owner_link.
  apply wp_bind, wp_RTS_FATAL_UNLESS; [unfold gets; by rewrite bool_decide_true|].
  apply wp_bind, wp_RTS_FATAL_UNLESS; [unfold gets; by rewrite !bool_decide_true|].
  apply wp_bind, wp_RTS_FATAL_UNLESS; [unfold gets; f_equal; apply Z.ltb_lt; lia|].
  apply wp_bind, wp_modify, wp_bind, wp_gets.
  change (owned_mutex_tail (task (upd_mutex _ _ s) t)) with (owned_mutex_tail (task s t)). rewrite Ht.
  do 2 apply wp_bind, wp_modify.
  assert (∀ s', (∀ m, olinks s' m = splice_in (olinks s) t p (last_or (owned s t) None) None m) →
    (∃ ms ts, s' = s <| k_mutexes := ms |> <| k_tasks := ts |>) →
    (∀ u, task s' u = if decide (u = t) then (task s t)
       <| owned_mutex_head := first_or (owned s t) (Some p) |> <| owned_mutex_tail := Some p |>
       <| owned_mutex_count := Z.succ (Z.of_nat (length (owned s t))) |> else task s u) →
    (∀ q, unowned (mutex s' q) = unowned (mutex s q)) →
    owns_step s s' t (owned s t ++ [p])) as Hend.
  { intros s' Hl Hfr Htask Hm. rewrite <- (app_nil_r (owned s t)) in Hd.
    apply owns_spliced; [done|by eapply clean_splice_in; [exact Hd|apply Hok|]|done| |done| | |..].
    - intros u. rewrite Htask. case_decide; [by subst|done].
    - intros u Hu. by rewrite Htask, decide_False.
    - intros u. case_decide as Eu; [subst u; by eapply (dll_splice_in _ _ _ _ _ [])|].
      eapply dll_splice_in_other; [done|exact Hd|exact Hn|apply (oo_rep s Hok)|done].
    - rewrite Htask, decide_True, first_or_app by done. done.
    - rewrite Htask, decide_True, last_or_snoc by done. done.
    - rewrite Htask, decide_True, length_app by done. cbn. lia.
    - rewrite length_app. cbn. lia. }
  destruct (owned s t) as [|q l _] eqn:E using rev_ind; rewrite ?last_or_nil, ?last_or_snoc;
    [|assert (q ≠ p) by set_solver];
    apply wp_bind, wp_modify, wp_bind, wp_modify, wp_modify; apply Hend;
    [own_links|own_frame| |intros m; own_cases; done|own_links|own_frame| |intros m; own_cases; done].
  - intros u. own_cases; try done. rewrite Hcount. done.
  - intros u. own_cases; try done. rewrite Hcount, first_or_app.
    destruct (task s t); cbn in *; subst. by destruct l.
Qed.

Lemma rts_mutex_owner_unlink_spec s p t l1 l2 :
  owns_ok s → owned s t = l1 ++ p :: l2 →
  wp (rts_mutex_owner_unlink p) (λ _ s', owns_step s s' t (l1 ++ l2)) s.
Proof.
  intros Hok E. destruct (owned_node s t l1 p l2 Hok E) as (Hp&Hx&Ho).
  destruct (oo_rep s Hok t) as [Hd Hh Ht Hcount Hb]. rewrite E in *.
  pose proof (dll_nodup _ _ _ Hd) as Hnd. pose proof (λ m, nodup_mid _ _ _ m Hnd) as Hmid.
  unfold rts_mutex_owner_unlink. apply wp_bind, wp_gets. rewrite Ho.
  apply wp_bind, wp_RTS_FATAL_UNLESS; [done|]. do 2 apply wp_bind, wp_gets. rewrite Hp, Hx.
  assert (∀ s', (∀ m, olinks s' m = splice_out (olinks s) p (last_or l1 None) (first_or l2 None) m) →
    (∃ ms ts, s' = s <| k_mutexes := ms |> <| k_tasks := ts |>) →
    (∀ u, task s' u = if decide (u = t) then (task s t)
       <| owned_mutex_head := first_or (l1 ++ l2) None |> <| owned_mutex_tail := last_or (l1 ++ l2) None |>
       else task s u) →
    (∀ q, unowned (mutex s' q) = unowned (mutex s q)) →
    wp (RTS_FATAL_UNLESS (gets (λ s, 0 <? owned_mutex_count (task s t))) ;;;
        modify (upd_task t (λ x, x <| owned_mutex_count ::= Z.pred |>)))
       (λ _ s'', owns_step s s'' t (l1 ++ l2)) s') as Hend.
  { intros s' Hl Hfr Htask Hm. apply wp_bind, wp_RTS_FATAL_UNLESS.
    { unfold gets. rewrite Htask, decide_True by done. cbn. rewrite Hcount, length_app. f_equal.
      apply Z.ltb_lt. cbn. lia. }
    apply wp_modify. set (s'' := upd_task t _ s').
    assert (∀ u, task s'' u = if decide (u = t) then (task s t)
      <| owned_mutex_head := first_or (l1 ++ l2) None |> <| owned_mutex_tail := last_or (l1 ++ l2) None |>
      <| owned_mutex_count := Z.of_nat (length (l1 ++ l2)) |> else task s u) as Htask'.
    { intros u. unfold s''. rewrite task_upd_task, !Htask. repeat case_decide; subst; try done.
      cbn. unfold set_field. cbn. rewrite Hcount. do 2 f_equal. rewrite !length_app. cbn [length]. lia. }
    apply owns_spliced; [done|by eapply clean_splice_out; [exact Hd|apply Hok|]| | |done| | |..].
    - destruct Hfr as (ms&ts&->). own_frame.
    - intros u. rewrite Htask'. case_decide; [by subst|done].
    - intros u Hu. by rewrite Htask', decide_False.
    - intros u. case_decide as Eu; [subst u; by eapply dll_splice_out|].
      eapply dll_splice_out_other; [done|exact Hd|apply (oo_rep s Hok)|done].
    - by rewrite Htask', decide_True.
    - by rewrite Htask', decide_True.
    - by rewrite Htask', decide_True.
    - rewrite !length_app in *. cbn in *. lia. }
  assert (∀ q, last_or l1 None = Some q → q ≠ p ∧ ∀ x, first_or l2 None = Some x → q ≠ x) as Hq.
  { intros q Hq%last_or_elem_of. destruct (Hmid q) as (?&?&?). split; [naive_solver|].
    intros x Hx'%first_or_elem_of. naive_solver. }
  assert (∀ x, first_or l2 None = Some x → x ≠ p) as Hx'.
  { intros x Hx'%first_or_elem_of. destruct (Hmid x) as (?&?&?). naive_solver. }
  assert (first_or (l1 ++ l2) None = if last_or l1 None is Some _ then owned_mutex_head (task s t) else first_or l2 None)
    as Eh.
  { rewrite Hh, !first_or_app. destruct l1 as [|a l1]; [done|]. rewrite last_or_cons.
    by destruct (last_or l1 (Some a)) eqn:El; [|by apply last_or_None in El]. }
  assert (last_or (l1 ++ l2) None = if first_or l2 None is Some _ then owned_mutex_tail (task s t) else last_or l1 None)
    as Et.
  { rewrite Ht, !last_or_app, last_or_cons. destruct l2 as [|a l2]; [by rewrite last_or_nil|].
    by rewrite !last_or_cons. }
  assert (last_or l1 None = None → owned_mutex_head (task s t) = Some p) as Hhp.
  { rewrite Hh. destruct l1 as [|a l1]; [done|]. rewrite last_or_cons. by intros ?%last_or_None. }
  assert (first_or l2 None = None → owned_mutex_tail (task s t) = Some p) as Htp.
  { rewrite Ht, last_or_app, last_or_cons. by destruct l2. }
  destruct (last_or l1 None) as [q|] eqn:El, (first_or l2 None) as [x|] eqn:Ef.
  all: try (destruct (Hq q eq_refl) as [Hqp Hqx]); try specialize (Hqx _ eq_refl);
    try specialize (Hx' _ eq_refl); try specialize (Hhp eq_refl); try specialize (Htp eq_refl).
  all: repeat first
    [ apply wp_bind, wp_modify
    | apply wp_bind, wp_bind, wp_RTS_FATAL_UNLESS; [unfold gets; rewrite bool_decide_true; [done|own_cases; done]|]
    | apply wp_modify ].
  all: apply Hend; [own_links|own_frame| |intros m; own_cases; done].
  all: intros u; own_cases; try done; rewrite ?Eh, ?Et; by destruct (task s t).
Qed.
End ownership.

(** ** The priority a task has to run at *)

(** The priorities of all tasks that wait for a mutex [t] holds. *)
Definition demands (s : kernel) (t : task_ptr) : list Z :=
  owned s t ≫= λ p, (λ u, priority (task s u)) <$> waiting s (SMutex p).

Definition required (s : kernel) (t : task_ptr) : Z := foldr Z.max (base_priority (task s t)) (demands s t).

Lemma foldr_max_base b c l : foldr Z.max (Z.max b c) l = Z.max b (foldr Z.max c l).
Proof. induction l as [|x l IH]; cbn; lia. Qed.

Lemma foldr_max_ge b l : b ≤ foldr Z.max b l.
Proof. induction l as [|x l IH]; cbn; lia. Qed.

Lemma foldr_max_elem b l x : x ∈ l → x ≤ foldr Z.max b l.
Proof. induction 1; cbn; lia. Qed.

Lemma foldr_max_attained b l : foldr Z.max b l = b ∨ foldr Z.max b l ∈ l.
Proof.
  induction l as [|x l IH]; cbn; [by left|].
  destruct (Z.max_spec x (foldr Z.max b l)) as [[_ ->]|[_ ->]]; [|right; left].
  destruct IH; [by left|right; by right].
Qed.

Lemma foldr_max_bounded b l n : b < n → (∀ x, x ∈ l → x < n) → foldr Z.max b l < n.
Proof. intros Hb Hl. destruct (foldr_max_attained b l) as [->|]; auto. Qed.

Lemma foldr_max_equiv b l l' : (∀ x, x ∈ l ↔ x ∈ l') → foldr Z.max b l = foldr Z.max b l'.
Proof.
  intros Hl. apply Z.le_antisymm.
  - destruct (foldr_max_attained b l) as [->|]; [apply foldr_max_ge|]. by apply foldr_max_elem, Hl.
  - destruct (foldr_max_attained b l') as [->|]; [apply foldr_max_ge|]. by apply foldr_max_elem, Hl.
Qed.

Lemma demands_elem s t x :
  x ∈ demands s t ↔ ∃ p u, p ∈ owned s t ∧ u ∈ waiting s (SMutex p) ∧ x = priority (task s u).
Proof.
  unfold demands. rewrite list_elem_of_bind. setoid_rewrite list_elem_of_fmap. naive_solver.
Qed.

Section required.
Context `{ConfigOk}.

Lemma by_priority_max s b ts :
  by_priority s ts →
  foldr Z.max b ((λ u, priority (task s u)) <$> ts) =
  match head ts with Some w => Z.max b (priority (task s w)) | None => b end.
Proof.
  destruct ts as [|w ts]; [done|]. intros [_ Ha]%StronglySorted_inv. cbn.
  assert (foldr Z.max b ((λ u, priority (task s u)) <$> ts) ≤ Z.max b (priority (task s w))); [|pose proof
    (foldr_max_ge b ((λ u, priority (task s u)) <$> ts)); lia].
  destruct (foldr_max_attained b ((λ u, priority (task s u)) <$> ts)) as [->|Hin]; [lia|].
  apply list_elem_of_fmap in Hin as (u&->&Hu). rewrite Forall_forall in Ha. specialize (Ha u Hu). cbn in Ha. lia.
Qed.

(** One mutex more: its first waiter stands for all of them. *)
Lemma demand_step s r p l :
  by_priority s (waiting s (SMutex p)) →
  foldr Z.max (match head (waiting s (SMutex p)) with
               | Some w => if r <? priority (task s w) then priority (task s w) else r
               | None => r
               end) (l ≫= λ q, (λ u, priority (task s u)) <$> waiting s (SMutex q)) =
  foldr Z.max r ((p :: l) ≫= λ q, (λ u, priority (task s u)) <$> waiting s (SMutex q)).
Proof.
  intros Hs. cbn [mbind list_bind]. rewrite foldr_app. pose proof (by_priority_max s r _ Hs) as Hm.
  set (ps := l ≫= _). set (d := (λ u, priority (task s u)) <$> waiting s (SMutex p)) in *.
  assert (foldr Z.max (foldr Z.max r ps) d = Z.max (foldr Z.max r d) (foldr Z.max r ps)) as ->.
  { clear. induction d as [|x d IHd]; cbn; [pose proof (foldr_max_ge r ps); lia|lia]. }
  rewrite Hm. destruct (head (waiting s (SMutex p))) as [w|]; [|pose proof (foldr_max_ge r ps); lia].
  destruct (Z.ltb_spec r (priority (task s w))).
  - pose proof (foldr_max_base (priority (task s w)) r ps) as E1. rewrite Z.max_l in E1 by lia. lia.
  - pose proof (foldr_max_ge r ps). lia.
Qed.

Lemma required_walk_run s t l1 l2 r fuel :
  owns_ok s → waits_ok s → owned s t = l1 ++ l2 → (length l2 < fuel)%nat →
  rts_priority_required_walk t (head l2) r (Z.of_nat (length l1)) fuel s =
  Done (foldr Z.max r (l2 ≫= λ p, (λ u, priority (task s u)) <$> waiting s (SMutex p))) s.
Proof.
  intros Hok Hw. revert l1 r fuel.
  induction l2 as [|p l2 IH]; intros l1 r fuel E Hf; (destruct fuel as [|fuel]; [cbn in *; lia|]); [done|].
  cbn [rts_priority_required_walk head]. destruct (owned_node s t l1 p l2 Hok E) as (_&Hx&Ho).
  pose proof (or_bound _ _ _ (oo_rep s Hok t)) as Hb. rewrite E, length_app in Hb. cbn in Hb.
  rewrite (proj2 (Z.ltb_lt _ _)) by lia.
  rewrite bind_gets, bool_decide_true by done. cbn [negb]. rewrite !bind_gets, Hx, first_or_head.
  specialize (IH (l1 ++ [p])).
  rewrite length_app in IH. cbn [length] in IH.
  replace (Z.of_nat (length l1 + 1)) with (Z.succ (Z.of_nat (length l1))) in IH by lia.
  rewrite IH by (try (by rewrite <- app_assoc); cbn in Hf; lia). f_equal.
  rewrite (ww_storage s (wok_wf s Hw)). cbn [wo_head]. rewrite first_or_head.
  apply (demand_step s r p l2), (wok_sorted s Hw).
Qed.

Lemma rts_priority_required_by_owned_run s t :
  owns_ok s → waits_ok s → rts_priority_required_by_owned t s = Done (required s t) s.
Proof.
  intros Hok Hw. unfold rts_priority_required_by_owned. rewrite !bind_gets.
  destruct (oo_rep s Hok t) as [_ -> _ _ Hb]. rewrite first_or_head.
  apply (required_walk_run s t []); [done..|lia].
Qed.
End required.

(** ** Changing one effective priority *)

Section inheritance.
Context `{ConfigOk}.

(** The ready set of the policies whose queues depend on the priority. *)
Definition sched_ok (s : kernel) : Prop :=
  match RTS_POLICY with RTS_POLICY_KIND_EDF => True | _ => ready_ok s end.

(** An application task that exists. *)
Definition created (s : kernel) (t : task_ptr) : Prop :=
  application t ∧ slot_state (task s t) = RTS_TASK_SLOT_ALLOCATED.

(** What the recomputation relies on and keeps. *)
Record inherit_ok (s : kernel) : Prop := {
  io_waits : waits_ok s;
  io_owns : owns_ok s;
  io_sched : sched_ok s;
  io_room : port_room s;
  io_waiter t : w_owner (wait_node s t) = rts_priority_waiters_for s t;
  io_blocked t : w_owner (wait_node s t) ≠ None → state (task s t) = RTS_TASK_STATE_BLOCKED;
  io_object t : wait_reason (wait (task s t)) = RTS_WAIT_MUTEX →
    ∃ p, wait_object (wait (task s t)) = Some (SMutex p);
  io_base t : created s t → 0 < base_priority (task s t) < RTS_PRIORITY_COUNT;
  io_prio t : 0 ≤ priority (task s t) < RTS_PRIORITY_COUNT;
  io_owner p t : mtx_owner (mutex s p) = Some t → created s t
}.

(** The store without what a change of priorities may touch. *)
Definition unprioritized (s : kernel) : kernel :=
  s <| k_tasks := ∅ |> <| k_heap := zero_heap |> <| k_ready_bitmap := ∅ |> <| k_wait_nodes := ∅ |>
    <| k_waiters := ∅ |> <| k_runtime_counters := ∅ |> <| k_trace := zero_trace |>
    <| k_port := (k_port s) <| host_critical_tokens := ∅ |> |>.

(** [s'] is [s] with other priorities: tasks, waiters and mutexes are
    otherwise the same, and only the ready lists, the order of waiters, the
    counters and the trace differ. *)
Record reprioritized (s s' : kernel) : Prop := {
  rp_task u : (task s' u) <| priority := 0 |> = (task s u) <| priority := 0 |>;
  rp_waiting o u : u ∈ waiting s' o ↔ u ∈ waiting s o;
  rp_delay : kcontents s' LDelay = kcontents s LDelay;
  rp_timer : kcontents s' LTimer = kcontents s LTimer;
  rp_edf : kcontents s' LEdf = kcontents s LEdf;
  rp_unready u : unready s' u ↔ unready s u;
  rp_nesting : same_nesting s s';
  rp_rest : unprioritized s' = unprioritized s
}.

Lemma reprioritized_refl s : reprioritized s s.
Proof. by split. Qed.

Lemma reprioritized_trans s1 s2 s3 : reprioritized s1 s2 → reprioritized s2 s3 → reprioritized s1 s3.
Proof.
  intros [T1 W1 D1 M1 E1 U1 N1 R1] [T2 W2 D2 M2 E2 U2 N2 R2].
  split; [intros u; by rewrite T2|intros o u; by rewrite W2|congruence..|intros u; by rewrite U2| |congruence].
  by eapply same_nesting_trans.
Qed.

Lemma reprioritized_mutex s s' p : reprioritized s s' → mutex s' p = mutex s p.
Proof.
  intros Hr. pose proof (f_equal k_mutexes (rp_rest _ _ Hr)) as E. cbn in E. unfold mutex. by rewrite E.
Qed.

Lemma created_frame s s' u : reprioritized s s' → created s' u ↔ created s u.
Proof.
  intros Hr. unfold created. pose proof (f_equal slot_state (rp_task _ _ Hr u)) as E. cbn in E. by rewrite E.
Qed.

Lemma reprioritized_owns s s' : reprioritized s s' → owns_ok s → owns_ok s' ∧ ∀ t, owned s' t = owned s t.
Proof.
  intros Hr. apply owns_ok_ext; [intros p; by apply reprioritized_mutex|].
  intros t. pose proof (rp_task _ _ Hr t) as Ht. pose proof (f_equal owned_mutex_head Ht) as E1.
  pose proof (f_equal owned_mutex_tail Ht) as E2. by pose proof (f_equal owned_mutex_count Ht) as E3.
Qed.

Lemma sched_ok_frame s s' :
  k_heap s' = k_heap s → k_tasks s' = k_tasks s → k_ready_bitmap s' = k_ready_bitmap s →
  sched_ok s → sched_ok s'.
Proof.
  intros Hh Ht Hb. unfold sched_ok.
  assert (ready_ok s → ready_ok s') as Hr; [|by destruct RTS_POLICY].
  intros [Hl Hp Hw Hbits]. split.
  - by rewrite Hh.
  - intros p u. unfold ready_queue, kcontents, task. rewrite Hh, Ht. apply Hp.
  - intros w. unfold ready_word. rewrite Hb. apply Hw.
  - intros w b. unfold ready_word, kcontents. rewrite Hb, Hh. apply Hbits.
Qed.

Lemma requeued_unready s s' t p :
  ready_ok s → requeued s s' t p → ∀ u, unready s' u ↔ unready s u.
Proof.
  intros Hok (Hok'&_&Hq&He) u. rewrite !unready_iff, He by done. apply and_iff_compat_r.
  assert ((∃ p, u ∈ ready_queue s' p) ↔ ∃ p, u ∈ ready_queue s p) as Hex; [|naive_solver].
  destruct (decide (t ∈ ready_queue s (priority (task s t)))) as [Ht|Ht].
  - destruct (decide (u = t)) as [->|Hne].
    + split; [by eauto|]. intros _. exists p. rewrite Hq, decide_True by done. set_solver.
    + split; intros [q Hu].
      * rewrite Hq in Hu. repeat case_decide; subst; [exists p; set_solver| |by exists q].
        apply list_elem_of_filter in Hu as [_ Hu]. eauto.
      * exists q. rewrite Hq. repeat case_decide; subst; [set_solver|by apply list_elem_of_filter|done].
  - split; intros [q Hu]; exists q; by rewrite ?Hq in *.
Qed.

Lemma rts_policy_priority_changed_spec s t p :
  sched_ok s → 0 ≤ priority (task s t) < RTS_PRIORITY_COUNT → 0 < p < RTS_PRIORITY_COUNT →
  p ≠ priority (task s t) →
  wp (rts_policy_priority_changed (Some t) p) (λ b s', b = true ∧ sched_ok s' ∧
    ready_frame (upd_task t (λ x, x <| priority := p |>) s) s' ∧
    kcontents s' LEdf = kcontents s LEdf ∧ ∀ u, unready s' u ↔ unready s u) s.
Proof.
  intros Hok Hold Hp Hne. unfold rts_policy_priority_changed, sched_ok in *.
  destruct RTS_POLICY.
  1,2: eapply wp_mono; [by apply rts_policy_fp_priority_changed_spec|];
    intros b s' [-> Hq]; pose proof (requeued_unready s s' t p Hok Hq); by destruct Hq as (?&?&?&?).
  cbn [rts_policy_edf_priority_changed]. unfold RTS_IDLE_PRIORITY.
  rewrite (proj2 (Z.eqb_neq p 0)), (proj2 (Z.leb_gt _ _)) by lia. cbn [orb].
  apply wp_bind, wp_modify, wp_ret. split_and!; [done..| |done|done].
  eexists _, _. split_and!; [|done..]. by destruct s.
Qed.

(** The store between the change in the ready set and the repositioning of
    the task among the waiters. *)
Record changing (s s' : kernel) (t : task_ptr) (p : Z) : Prop := {
  ch_task u : task s' u = if decide (u = t) then (task s t) <| priority := p |> else task s u;
  ch_nodes : k_wait_nodes s' = k_wait_nodes s;
  ch_waiters : k_waiters s' = k_waiters s;
  ch_delay : kcontents s' LDelay = kcontents s LDelay;
  ch_timer : kcontents s' LTimer = kcontents s LTimer;
  ch_edf : kcontents s' LEdf = kcontents s LEdf;
  ch_unready u : unready s' u ↔ unready s u;
  ch_nesting : same_nesting s s';
  ch_rest : unprioritized s' = unprioritized s;
  ch_sched : sched_ok s'
}.

Lemma changing_ready s s' t p :
  sched_ok s' → ready_frame (upd_task t (λ x, x <| priority := p |>) s) s' →
  kcontents s' LEdf = kcontents s LEdf → (∀ u, unready s' u ↔ unready s u) → changing s s' t p.
Proof.
  intros Hs (h&bm&->&Hd&Ht) He Hu. split; try done.
  intros u. transitivity (task (upd_task t (λ x, x <| priority := p |>) s) u); [done|].
  rewrite task_upd_task. case_decide; case_decide; by subst.
Qed.

Lemma changing_counter s s1 s' t p : changing s s1 t p → counter_frame s1 s' → changing s s' t p.
Proof. intros [] (cs&->). split; try done. by eapply sched_ok_frame; [..|eassumption]. Qed.

Lemma changing_trace s s1 s' t p : changing s s1 t p → trace_frame s1 s' → changing s s' t p.
Proof.
  intros [Ht Hn Hw Hd Hm He Hu (N1&N2&N3) Hr Hs] (tok&tr&->&Htok). split; try done.
  - split_and!; [done..|]. cbn in *. intros i Hi. rewrite Htok by (rewrite N1; done). auto.
  - by eapply sched_ok_frame; [..|eassumption].
Qed.

Lemma waiters_for_frame s s' u :
  wait (task s' u) = wait (task s u) → rts_priority_waiters_for s' u = rts_priority_waiters_for s u.
Proof. intros E. unfold rts_priority_waiters_for. by rewrite E. Qed.

(** The order among the waiters restored. *)
Lemma changing_finish s s1 s' t p :
  inherit_ok s → changing s s1 t p → created s t → 0 < p < RTS_PRIORITY_COUNT →
  (∃ wn wt, s' = s1 <| k_wait_nodes := wn |> <| k_waiters := wt |>) → waits_ok s' →
  (∀ o u, u ∈ waiting s' o ↔ u ∈ waiting s o) →
  inherit_ok s' ∧ reprioritized s s' ∧
  ∀ u, priority (task s' u) = if decide (u = t) then p else priority (task s u).
Proof.
  intros Hio [Ht Hn Hw Hd Hm He Hun Hnest Hrest Hs] Ha Hp (wn&wt&->) Hwait Hin.
  set (s' := s1 <| k_wait_nodes := wn |> <| k_waiters := wt |>) in *.
  assert (∀ u, task s' u = if decide (u = t) then (task s t) <| priority := p |> else task s u) as Ht' by done.
  assert (reprioritized s s') as Hr.
  { split; try done. intros u. rewrite Ht'. case_decide; [by subst|done]. }
  assert (∀ u, w_owner (wait_node s' u) = w_owner (wait_node s u)) as Hown.
  { intros u. apply option_eq. intros o.
    rewrite <- (ww_owner s (wok_wf s (io_waits s Hio))), <- (ww_owner s' (wok_wf s' Hwait)). apply Hin. }
  split; [|split; [done|]].
  - split; try done.
    + by apply (reprioritized_owns s s' Hr), Hio.
    + by eapply sched_ok_frame; [..|exact Hs].
    + destruct Hnest as (E1&_). pose proof (io_room s Hio) as Hroom. unfold port_room in *. cbn. by rewrite E1.
    + intros u. rewrite Hown, (io_waiter s Hio). symmetry. apply waiters_for_frame.
      rewrite Ht'. case_decide; by subst.
    + intros u. rewrite Hown, Ht'. case_decide; [subst|]; apply (io_blocked s Hio).
    + intros u. rewrite Ht'. case_decide; [subst|]; apply (io_object s Hio).
    + intros u Hu%(created_frame s s' u Hr). rewrite Ht'. case_decide; [subst|]; by apply (io_base s Hio).
    + intros u. rewrite Ht'. case_decide; [cbn; lia|]; apply (io_prio s Hio).
    + intros q u. rewrite (reprioritized_mutex s s' q Hr), (created_frame s s' u Hr). apply (io_owner s Hio).
  - intros u. rewrite Ht'. by case_decide.
Qed.

Lemma rts_priority_set_effective_spec s t p :
  inherit_ok s → created s t → base_priority (task s t) ≤ p < RTS_PRIORITY_COUNT →
  wp (rts_priority_set_effective (Some t) p) (λ b s', b = true ∧ inherit_ok s' ∧ reprioritized s s' ∧
    ∀ u, priority (task s' u) = if decide (u = t) then p else priority (task s u)) s.
Proof.
  intros Hio Ha Hp. pose proof (io_base s Hio t Ha) as Hb. pose proof (io_waits s Hio) as Hw.
  unfold rts_priority_set_effective, RTS_IDLE_PRIORITY. apply wp_bind, wp_gets.
  rewrite (proj2 (Z.ltb_ge _ _)), (proj2 (Z.eqb_neq _ _)), (proj2 (Z.leb_gt _ _)) by lia. cbn [orb].
  apply wp_bind, wp_gets. destruct (Z.eqb_spec (priority (task s t)) p) as [E|Hne].
  { apply wp_ret. split_and!; [done..|apply reprioritized_refl|]. intros u. case_decide; by subst. }
  apply wp_bind. eapply wp_mono.
  { apply rts_policy_priority_changed_spec; [apply Hio..|lia|done]. }
  intros b s1 (->&Hs1&Hf1&He1&Hu1). cbn [negb]. pose proof (changing_ready _ _ _ _ Hs1 Hf1 He1 Hu1) as Hc1.
  apply wp_bind. eapply wp_mono; [apply RTS_DIAG_COUNTER_INC_spec|]. intros [] s2 Hf2.
  pose proof (changing_counter _ _ _ _ _ Hc1 Hf2) as Hc2.
  apply wp_bind. eapply wp_mono; [apply RTS_TRACE_spec|].
  { destruct (ch_nesting _ _ _ _ Hc2) as (E1&_). pose proof (io_room s Hio). unfold port_room in *. by rewrite E1. }
  intros [] s3 Hf3. pose proof (changing_trace _ _ _ _ _ Hc2 Hf3) as Hc. clear dependent s1 s2.
  assert (∀ o, waiting s3 o = waiting s o) as Ewait.
  { intros o. unfold waiting, wlinks, waiters, wait_node. by rewrite (ch_nodes _ _ _ _ Hc), (ch_waiters _ _ _ _ Hc). }
  assert (waits_wf s3) as Hwf3.
  { destruct (wok_wf s Hw) as [Hcl Hrep Happ].
    split; unfold wait_rep, wlinks, waiters, wait_node in *; intros *; rewrite ?Ewait;
      rewrite ?(ch_nodes _ _ _ _ Hc), ?(ch_waiters _ _ _ _ Hc); [apply Hcl|apply Hrep|apply Happ]. }
  assert (∀ l, t ∉ l → by_priority s l → by_priority s3 l) as Hsort.
  { intros l Hl. unfold by_priority. intros Hs. induction Hs as [|y l Hs IH Hall]; constructor.
    - apply IH. set_solver.
    - rewrite Forall_forall in Hall |- *. intros u Hu. rewrite !(ch_task _ _ _ _ Hc), !decide_False by set_solver.
      auto. }
  apply wp_bind, wp_gets. rewrite (waiters_for_frame s s3) by (rewrite (ch_task _ _ _ _ Hc); case_decide; by subst).
  pose proof (io_waiter s Hio t) as Ew. destruct (rts_priority_waiters_for s t) as [o|] eqn:Eo.
  - assert (t ∈ waiting s o) as Hin by by apply (ww_owner s (wok_wf s Hw)).
    destruct (list_elem_of_split _ _ Hin) as (l1&l2&E).
    pose proof (ww_nodup s (wok_wf s Hw) o) as Hnd. rewrite E in Hnd.
    destruct (nodup_mid _ _ _ t Hnd) as (_&Hn1&Hn2).
    assert (w_owner (wait_node s3 t) = Some o) as Ew3.
    { apply (ww_owner s3 Hwf3). by rewrite Ewait. }
    assert (rts_wait_object_contains o (Some t) s3 = Done true s3) as Hcont
      by (cbn; unfold gets; f_equal; by apply bool_decide_true).
    assert (by_priority s3 (l1 ++ l2)) as Hs12.
    { apply Hsort; [set_solver|]. eapply by_priority_mid. rewrite <- E. apply (wok_sorted s Hw). }
    apply wp_bind, wp_bind, wp_RTS_FATAL_UNLESS; [done|].
    eapply wp_mono; [apply (rts_wait_object_reprioritize_spec s3 o t l1 l2); [done|by rewrite Ewait|done]|].
    intros [] s4 Hst. apply wp_ret. split; [done|].
    assert (waits_ok s4) as Hw4.
    { split; [apply Hst|]. intros o'. eapply waits_step_by_priority; [done|].
      destruct Hst as (_&_&->). case_decide as Ed; [by apply by_priority_insert|]. rewrite Ewait.
      apply Hsort; [|apply (wok_sorted s Hw)]. intros Ht%(ww_owner s (wok_wf s Hw)). congruence. }
    eapply changing_finish; [done..|lia|apply Hst|done|].
    intros o' u. destruct Hst as (_&_&->). case_decide as Ed; [subst o'|by rewrite Ewait].
    rewrite insert_by_elem, E. set_solver.
  - apply wp_bind, wp_ret, wp_ret. split; [done|].
    eapply changing_finish; [done..|lia|exists (k_wait_nodes s3), (k_waiters s3); by destruct s3| |by intros o u; rewrite Ewait].
    split; [done|]. intros o. rewrite Ewait. apply Hsort; [|apply (wok_sorted s Hw)].
    intros Ht%(ww_owner s (wok_wf s Hw)). congruence.
Qed.

(** ** Wait-for chains *)

(** The task that [t] waits for: the owner of the mutex it is blocked on. *)
Definition blocker (s : kernel) (t : task_ptr) : option task_ptr :=
  if bool_decide (state (task s t) = RTS_TASK_STATE_BLOCKED) &&
     bool_decide (wait_reason (wait (task s t)) = RTS_WAIT_MUTEX) then
    match wait_object (wait (task s t)) with Some (SMutex p) => mtx_owner (mutex s p) | _ => None end
  else None.

(** The tasks reached from [t], each waiting for the next, without repetition. *)
Inductive wait_chain (s : kernel) : task_ptr → list task_ptr → Prop :=
  | chain_end t : blocker s t = None → wait_chain s t [t]
  | chain_step t u l : blocker s t = Some u → wait_chain s u l → t ∉ l → wait_chain s t (t :: l).

Lemma blocker_frame s s' t : reprioritized s s' → blocker s' t = blocker s t.
Proof.
  intros Hr. pose proof (rp_task _ _ Hr t) as Ht.
  pose proof (f_equal state Ht) as E1. pose proof (f_equal wait Ht) as E2. cbn in E1, E2.
  unfold blocker. rewrite E1, E2. destruct (wait_object _) as [[]|]; [done| |done].
  by rewrite (reprioritized_mutex s s' _ Hr).
Qed.

Lemma wait_chain_frame s s' t l : reprioritized s s' → wait_chain s t l → wait_chain s' t l.
Proof.
  intros Hr Hc. induction Hc as [t Hb|t u l Hb Hc IH Hn].
  - apply chain_end. by rewrite (blocker_frame s s').
  - apply (chain_step _ _ u); [by rewrite (blocker_frame s s')|done..].
Qed.

Lemma wait_chain_head s t l : wait_chain s t l → t ∈ l.
Proof. intros []; left. Qed.

Lemma wait_chain_nodup s t l : wait_chain s t l → NoDup l.
Proof. induction 1; [apply NoDup_singleton|by constructor]. Qed.

Lemma blocker_created s t u : inherit_ok s → blocker s t = Some u → created s u.
Proof.
  intros Hio. unfold blocker. destruct (_ && _); [|done]. destruct (wait_object _) as [[]|]; [done| |done].
  apply (io_owner s Hio).
Qed.

Lemma wait_chain_apps s t l : inherit_ok s → created s t → wait_chain s t l → ∀ u, u ∈ l → created s u.
Proof.
  intros Hio Ha Hc. induction Hc as [t Hb|t v l Hb Hc IH Hn]; intros u.
  - by intros ->%list_elem_of_singleton.
  - intros [->|Hu]%elem_of_cons; [done|]. apply IH; [by eapply blocker_created|done].
Qed.

(** A task that waits for a mutex of [u] is blocked by [u]. *)
Lemma waiting_blocker s t u p :
  inherit_ok s → t ∈ waiting s (SMutex p) → p ∈ owned s u → blocker s t = Some u.
Proof.
  intros Hio Hin Hp. apply (ww_owner s (wok_wf s (io_waits s Hio))) in Hin.
  apply owned_owner in Hp; [|apply Hio].
  pose proof (io_waiter s Hio t) as Hw. rewrite Hin in Hw. unfold rts_priority_waiters_for in Hw.
  assert (state (task s t) = RTS_TASK_STATE_BLOCKED) as Hb by (apply (io_blocked s Hio); by rewrite Hin).
  unfold blocker. rewrite Hb. destruct (wait_reason (wait (task s t))); try done.
  - by destruct (wait_object (wait (task s t))) as [[]|].
  - destruct (wait_object (wait (task s t))) as [[]|]; [done| |done]. cbn in *. by injection Hw as <-.
Qed.

(** Only the requirement of the task it waits for depends on the priority of [t]. *)
Lemma required_unchanged s s' t u :
  inherit_ok s → reprioritized s s' → (∀ v, v ≠ t → priority (task s' v) = priority (task s v)) →
  blocker s t ≠ Some u → required s' u = required s u.
Proof.
  intros Hio Hr Hp Hb. unfold required. pose proof (f_equal base_priority (rp_task _ _ Hr u)) as Eb. cbn in Eb.
  destruct (reprioritized_owns s s' Hr (io_owns s Hio)) as [_ Ho].
  rewrite Eb. apply foldr_max_equiv. intros x. rewrite !demands_elem.
  assert (∀ p v, p ∈ owned s u → v ∈ waiting s (SMutex p) → v ≠ t) as Hne.
  { intros p v Hpo Hv ->. by eapply Hb, waiting_blocker. }
  split; intros (p&v&Hpo&Hv&->); rewrite ?Ho in *; exists p, v; rewrite (rp_waiting _ _ Hr) in *;
    (split_and!; [congruence..|]); [|symmetry]; apply Hp; eapply Hne; try done; by rewrite <- ?Ho.
Qed.

Lemma wait_chain_length s t l :
  inherit_ok s → created s t → wait_chain s t l → Z.of_nat (length l) < RTS_SCHEDULABLE_TASK_CAPACITY.
Proof.
  intros Hio Ha Hc. assert (Z.of_nat (length l) ≤ RTS_MAX_TASKS); [|unfold RTS_SCHEDULABLE_TASK_CAPACITY; lia].
  apply apps_length; [by eapply wait_chain_nodup|by eapply wait_chain_apps].
Qed.

Lemma required_range s t :
  inherit_ok s → created s t → base_priority (task s t) ≤ required s t < RTS_PRIORITY_COUNT.
Proof.
  intros Hio Ha. split; [apply foldr_max_ge|]. apply foldr_max_bounded; [by apply (io_base s Hio)|].
  intros x (p&u&_&_&->)%demands_elem. apply (io_prio s Hio).
Qed.

(** One step along the chain, as both walks take it. *)
Lemma blocker_step s t :
  inherit_ok s →
  (negb (bool_decide (state (task s t) = RTS_TASK_STATE_BLOCKED)) ||
   negb (bool_decide (wait_reason (wait (task s t)) = RTS_WAIT_MUTEX)) = true ∧ blocker s t = None) ∨
  ∃ p, negb (bool_decide (state (task s t) = RTS_TASK_STATE_BLOCKED)) ||
   negb (bool_decide (wait_reason (wait (task s t)) = RTS_WAIT_MUTEX)) = false ∧
   wait_object (wait (task s t)) = Some (SMutex p) ∧ blocker s t = mtx_owner (mutex s p).
Proof.
  intros Hio. unfold blocker. case_bool_decide as E1; cbn; [|by left].
  case_bool_decide as E2; cbn; [right|by left]. destruct (io_object s Hio t E2) as [p Hp].
  exists p. by rewrite Hp.
Qed.

Lemma recompute_walk_spec s t l visited fuel :
  inherit_ok s → created s t → wait_chain s t l → (∀ u, u ∈ l → u ∉ visited) →
  Z.of_nat (length visited) + Z.of_nat (length l) ≤ RTS_SCHEDULABLE_TASK_CAPACITY →
  (length l < fuel)%nat → (∀ u, u ≠ t → priority (task s u) = required s u) →
  wp (rts_priority_recompute_walk (Some t) visited fuel) (λ b s', b = true ∧ inherit_ok s' ∧
    reprioritized s s' ∧ ∀ u, priority (task s' u) = required s' u) s.
Proof.
  revert s t visited fuel.
  induction l as [|y l IH]; intros s t visited fuel Hio Ha Hc Hv Hlen Hf Hinv; [inversion Hc|].
  assert (y = t) as -> by by inversion Hc.
  destruct fuel as [|fuel]; [cbn in Hf; lia|]. cbn [rts_priority_recompute_walk length] in *.
  rewrite (proj2 (Z.ltb_lt _ _)) by lia. rewrite bool_decide_false by (apply Hv; left).
  apply wp_bind. eapply wp_run; [apply rts_priority_required_by_owned_run; apply Hio|].
  apply wp_bind. eapply wp_mono; [apply rts_priority_set_effective_spec; [done..|by apply required_range]|].
  intros b s1 (->&Hio1&Hr1&Hp1). cbn [negb].
  assert (blocker s t ≠ Some t) as Hself.
  { intros Hb. inversion Hc as [? Hb'|? u ? Hb' Hc' Hn]; subst; [congruence|].
    rewrite Hb in Hb'. injection Hb' as <-. by apply wait_chain_head in Hc'. }
  assert (∀ u, blocker s t ≠ Some u → priority (task s1 u) = required s1 u) as Hinv1.
  { intros u Hb. rewrite (required_unchanged s s1 t u), Hp1 by (try done; intros; by rewrite Hp1, decide_False).
    case_decide; [by subst|auto]. }
  apply wp_bind, wp_gets. rewrite <- (blocker_frame s s1 t Hr1) in Hinv1.
  destruct (blocker_step s1 t Hio1) as [(->&Hb)|(p&->&Hobj&Hb)].
  { apply wp_ret. split_and!; [done..|]. intros u. apply Hinv1. by rewrite Hb. }
  apply wp_bind, wp_gets. rewrite Hobj. cbn [object_mutex]. apply wp_bind, wp_ret, wp_bind, wp_gets.
  rewrite <- Hb. apply (wait_chain_frame s s1 t (t :: l) Hr1) in Hc.
  inversion Hc as [? Hnone|? u ? Hsome Hc' Hn]; subst.
  - rewrite Hnone in *. destruct fuel as [|fuel]; [cbn in Hf; lia|]. cbn [rts_priority_recompute_walk].
    apply wp_bind, wp_RTS_FATAL_UNLESS; [done|]. apply wp_ret. split_and!; [done..|]. intros v. by apply Hinv1.
  - rewrite Hsome. eapply wp_mono; [apply (IH s1 u (t :: visited)); try done|].
    + by eapply blocker_created.
    + intros v Hvl. rewrite elem_of_cons. intros [->|Hvv]; [done|]. apply (Hv v); [by right|done].
    + cbn [length]. lia.
    + lia.
    + intros v Hvu. apply Hinv1. rewrite Hsome. congruence.
    + intros b s2 (->&Hio2&Hr2&Hall). split_and!; [done..| |done]. by eapply reprioritized_trans.
Qed.

(** The loop of rts_mutex_would_cycle follows the same chain. *)
Lemma cycle_walk_run s c t l fuel :
  inherit_ok s → wait_chain s t l → (length l < fuel)%nat →
  rts_mutex_cycle_walk (Some c) (Some t) fuel s = Done (bool_decide (c ∈ l)) s.
Proof.
  intros Hio Hc. revert fuel. induction Hc as [t Hb|t u l Hb Hc IH Hn]; intros fuel Hf;
    (destruct fuel as [|fuel]; [cbn in Hf; lia|]); cbn [rts_mutex_cycle_walk].
  all: destruct (decide (t = c)) as [->|Hne];
    [rewrite bool_decide_true by done; unfold ret; by rewrite bool_decide_true by left
    |rewrite bool_decide_false by congruence].
  all: rewrite bind_gets; destruct (blocker_step s t Hio) as [(->&Hb')|(p&->&Hobj&Hb')].
  - unfold ret. rewrite bool_decide_false by set_solver. done.
  - rewrite bind_gets, Hobj. cbn [object_mutex]. rewrite bind_ret, bind_gets, <- Hb', Hb.
    assert (c ∉ [t]) as Hnin by set_solver.
    destruct fuel; cbn; rewrite fatal_unless_run by done; unfold ret; rewrite !bool_decide_false by auto; done.
  - congruence.
  - rewrite bind_gets, Hobj. cbn [object_mutex]. rewrite bind_ret, bind_gets, <- Hb', Hb.
    rewrite IH by (cbn in Hf; lia). f_equal. apply bool_decide_ext. rewrite elem_of_cons. naive_solver.
Qed.
End inheritance.

(** ** Correctness *)

Section mutex_claims.
Context `{ConfigOk}.

(** C30: The chain of owned mutexes is the list of mutexes a task holds in the
    order of acquisition: linking a free mutex appends it, unlinking one takes
    it out wherever it is in the list (locks need not be released in reverse
    order), neither touches the chain of another task or any other member of a
    task or mutex, and neither fails a check. *)
Theorem mutex_ownership_is_acquisition_order s t p :
  owns_ok s →
  (mtx_owner (mutex s p) = None → Z.of_nat (length (owned s t)) < RTS_MAX_MUTEXES_PER_TASK →
   wp (rts_mutex_owner_link p t) (λ _ s', owns_step s s' t (owned s t ++ [p])) s) ∧
  (∀ l1 l2, owned s t = l1 ++ p :: l2 →
   wp (rts_mutex_owner_unlink p) (λ _ s', owns_step s s' t (l1 ++ l2) ∧ mtx_owner (mutex s' p) = None) s).
Proof.
  intros Hok. split; [intros; by apply rts_mutex_owner_link_spec|]. intros l1 l2 E.
  eapply wp_mono; [by apply rts_mutex_owner_unlink_spec, E|]. intros [] s' Hst. split; [done|].
  pose proof (os_ok _ _ _ _ Hst) as Hok'. pose proof (os_owned _ _ _ _ Hst) as Ho.
  pose proof (owned_nodup s t Hok) as Hnd. rewrite E in Hnd. destruct (nodup_mid _ _ _ p Hnd) as (_&?&?).
  destruct (mtx_owner (mutex s' p)) as [u|] eqn:Eo; [|done].
  apply (owned_owner s' u p Hok') in Eo. rewrite Ho in Eo. case_decide as Ed; [set_solver|].
  assert (p ∈ owned s t) as Hp by (rewrite E; set_solver).
  apply (owned_owner s u p Hok) in Eo. apply (owned_owner s t p Hok) in Hp. congruence.
Qed.

(** C31: The walk over a task's mutexes looks at the first waiter of each only,
    and still finds the highest priority among the task's own base priority and
    all tasks waiting for any mutex it holds. *)
Theorem inheritance_required_is_maximum s t :
  owns_ok s → waits_ok s →
  ∃ r, rts_priority_required_by_owned t s = Done r s ∧
    base_priority (task s t) ≤ r ∧
    (∀ p u, p ∈ owned s t → u ∈ waiting s (SMutex p) → priority (task s u) ≤ r) ∧
    (r = base_priority (task s t) ∨
     ∃ p u, p ∈ owned s t ∧ u ∈ waiting s (SMutex p) ∧ r = priority (task s u)).
Proof.
  intros Ho Hw. exists (required s t). split; [by apply rts_priority_required_by_owned_run|].
  unfold required. split_and!; [apply foldr_max_ge| |].
  - intros p u Hp Hu. apply foldr_max_elem, demands_elem. eauto.
  - destruct (foldr_max_attained (base_priority (task s t)) (demands s t)) as [|Hin]; [by left|right].
    by apply demands_elem in Hin.
Qed.

(** C14: Priority inheritance is transitive and restores itself.  When every
    task but [t] runs at the priority it should (the maximum of its base
    priority and of the tasks waiting for its mutexes), as after a waiter of
    [t] arrived, left or changed its priority, recomputing along the chain of
    tasks that wait for one another makes the invariant hold for every task;
    it returns true, resorts the ready queues and wait chains it passes,
    terminates on every chain without a cycle, and changes nothing else. *)
Theorem inheritance_chain_restores_invariant s t l :
  inherit_ok s → created s t → wait_chain s t l →
  (∀ u, u ≠ t → priority (task s u) = required s u) →
  wp (rts_priority_recompute_chain (Some t)) (λ b s', b = true ∧ inherit_ok s' ∧ reprioritized s s' ∧
    ∀ u, priority (task s' u) = required s' u) s.
Proof.
  intros Hio Ha Hc Hinv. pose proof (wait_chain_length s t l Hio Ha Hc) as Hl.
  apply (recompute_walk_spec s t l []); [done..|set_solver|cbn; lia|lia|done].
Qed.

(** C20: The deadlock check is exact: a lock attempt by [c] on a mutex held by
    [t] is refused exactly when [c] itself is on the chain of tasks that [t]
    waits for; otherwise letting [c] wait keeps every chain free of cycles. *)
Theorem mutex_cycle_check_exact s c p t l :
  inherit_ok s → mtx_owner (mutex s p) = Some t → wait_chain s t l →
  rts_mutex_would_cycle (Some c) p s = Done (bool_decide (c ∈ l)) s ∧
  ∀ s', (∀ u, u ≠ c → blocker s' u = blocker s u) → blocker s' c = Some t →
    c ∉ l → wait_chain s' c (c :: l).
Proof.
  intros Hio Ho Hc. split.
  - unfold rts_mutex_would_cycle. rewrite bind_gets, Ho. apply cycle_walk_run; [done..|].
    pose proof (wait_chain_length s t l Hio (io_owner s Hio p t Ho) Hc). lia.
  - intros s' Hb Hbc Hn. apply (chain_step s' c t l); [done| |done].
    revert Hn. clear Ho Hbc. induction Hc as [t Ht|t u l Ht Hc IH Hnt]; intros Hn.
    + apply chain_end. rewrite Hb by set_solver. done.
    + apply (chain_step _ _ u); [rewrite Hb by set_solver; done|apply IH; set_solver|done].
Qed.
End mutex_claims.

(** ** Witnesses: a chain of three tasks *)

Section witnesses.
#[local] Existing Instance fp_config.

Definition chained_tcb (p : Z) (st : rts_task_state_t) (r : rts_wait_reason_t) (o : option sync_ptr) : rts_tcb :=
  (inhabitant : rts_tcb) <| base_priority := p |> <| priority := p |> <| state := st |>
    <| slot_state := RTS_TASK_SLOT_ALLOCATED |> <| wait := mk_wait r RTS_WAIT_RESULT_NONE 0 o false |>.

(** Task 0 holds mutex 0, task 1 waits for it and holds mutex 1, task 2 waits for mutex 1. *)
Definition chain_unlinked : kernel :=
  zero_kernel <| k_tasks :=
    <[TApp 0 := (chained_tcb 3 RTS_TASK_STATE_RUNNING RTS_WAIT_NONE None) <| priority := 5 |>]>
    (<[TApp 1 := chained_tcb 5 RTS_TASK_STATE_BLOCKED RTS_WAIT_MUTEX (Some (SMutex 0))]>
    (<[TApp 2 := chained_tcb 9 RTS_TASK_STATE_BLOCKED RTS_WAIT_MUTEX (Some (SMutex 1))]> ∅)) |>
  <| k_mutexes := <[0 := mk_mutex None None None (Some 0) RTS_MUTEX_SIGNATURE]>
    (<[1 := mk_mutex None None None (Some 1) RTS_MUTEX_SIGNATURE]> ∅) |>
  <| k_lifecycle := RTS_KERNEL_RUNNING |> <| k_timer_service_task := Some TTimerService |>.
Definition chain_owned0 : kernel := final_store (rts_mutex_owner_link 0 (TApp 0)) chain_unlinked.
Definition chain_owned : kernel := final_store (rts_mutex_owner_link 1 (TApp 1)) chain_owned0.
Definition chain_waits0 : kernel := final_store (rts_wait_object_insert (SMutex 0) (Some (TApp 1))) chain_owned.
Definition chain_waits : kernel := final_store (rts_wait_object_insert (SMutex 1) (Some (TApp 2))) chain_waits0.

Lemma chain_unlinked_owns : owns_ok chain_unlinked.
Proof.
  assert (∀ p, olinks chain_unlinked p = unlinked) as Hl.
  { intros p. unfold olinks, mutex, chain_unlinked. cbn. rewrite !lookup_total_insert_dec. by repeat case_decide. }
  apply owns_ok_intro; [intros p _; apply Hl|]. intros t. exists [].
  assert (owned_mutex_head (task chain_unlinked t) = None ∧ owned_mutex_tail (task chain_unlinked t) = None ∧
    owned_mutex_count (task chain_unlinked t) = 0) as (E1&E2&E3).
  { unfold task, chain_unlinked. cbn. rewrite !lookup_total_insert_dec. repeat case_decide; done. }
  split; [apply dll_empty; intros p; by rewrite Hl|done..].
Qed.

Lemma link_keeps s p t :
  owns_ok s → mtx_owner (mutex s p) = None → Z.of_nat (length (owned s t)) < 8 →
  owns_ok (final_store (rts_mutex_owner_link p t) s).
Proof.
  intros Hok Hn Hl. destruct (wp_final _ _ _ (rts_mutex_owner_link_spec s p t Hok Hn Hl)) as [_ Hst].
  exact (os_ok _ _ _ _ Hst).
Qed.

Lemma chain_owned0_ok : owns_ok chain_owned0.
Proof. apply link_keeps; [apply chain_unlinked_owns|by vm_compute..]. Qed.
Lemma chain_owned_ok : owns_ok chain_owned.
Proof. apply link_keeps; [apply chain_owned0_ok|by vm_compute..]. Qed.

Lemma insert_keeps s o t :
  waits_ok s → w_owner (wait_node s t) = None → application t →
  waits_ok (final_store (rts_wait_object_insert o (Some t)) s).
Proof.
  intros Hok Hn Ha. destruct (wp_final _ _ _ (wait_insert_keeps s o t Hok Hn Ha)) as [_ [Hok' _]]. exact Hok'.
Qed.

Lemma app_in_range i : 0 ≤ i < 8 → application (TApp i).
Proof. intros. by exists i. Qed.

Lemma chain_waits_ok : waits_ok chain_waits.
Proof.
  apply insert_keeps; [apply insert_keeps; [|by vm_compute|by apply app_in_range]|by vm_compute|by apply app_in_range].
  apply waits_ok_empty; by vm_compute.
Qed.

Lemma chain_waits_owns : owns_ok chain_waits.
Proof.
  assert (k_mutexes chain_waits = k_mutexes chain_owned ∧ k_tasks chain_waits = k_tasks chain_owned) as [E1 E2]
    by (split; by vm_compute).
  apply (owns_ok_ext chain_owned); [|..|apply chain_owned_ok].
  - intros p. unfold mutex. rewrite E1. reflexivity.
  - intros t. unfold task. rewrite E2. split; [reflexivity|split; reflexivity].
Qed.

Lemma chain_waits_inherit : inherit_ok chain_waits.
Proof.
  split.
  - apply chain_waits_ok.
  - apply chain_waits_owns.
  - apply zero_ready_ok; [by vm_compute| |by vm_compute].
    assert (k_heap chain_waits = zero_heap) as -> by by vm_compute. apply zero_lists_ok.
  - by vm_compute.
  - intros t. refine (bool_decide_eq_true_1 _ (tasks_forall chain_waits (λ _ x n, bool_decide (w_owner n =
      match wait_reason (wait x) with
      | RTS_WAIT_MUTEX => mutex_waiters (wait_object (wait x))
      | RTS_WAIT_SEMAPHORE => semaphore_waiters (wait_object (wait x))
      | _ => None
      end)) _ _ t)); [done|by vm_compute].
  - intros t Hw. pose proof (tasks_forall chain_waits (λ _ x n, bool_decide (w_owner n = None) ||
      bool_decide (state x = RTS_TASK_STATE_BLOCKED)) ltac:(done) ltac:(by vm_compute) t) as Hb.
    apply orb_true_iff in Hb as [Hb|Hb]; apply bool_decide_eq_true in Hb; [contradiction|exact Hb].
  - intros t Hr. pose proof (tasks_forall chain_waits (λ _ x n, negb (bool_decide (wait_reason (wait x) = RTS_WAIT_MUTEX)) ||
      bool_decide (mutex_waiters (wait_object (wait x)) ≠ None)) ltac:(done) ltac:(by vm_compute) t) as Hb.
    cbn beta in Hb. rewrite Hr in Hb. apply bool_decide_eq_true in Hb.
    destruct (wait_object (wait (task chain_waits t))) as [[]|]; [contradiction|eauto|contradiction].
  - intros t [_ Hs]. pose proof (tasks_forall chain_waits (λ _ x _,
      negb (bool_decide (slot_state x = RTS_TASK_SLOT_ALLOCATED)) || (0 <? base_priority x) && (base_priority x <? 65))
      ltac:(done) ltac:(by vm_compute) t) as Hb.
    cbn beta in Hb. rewrite Hs in Hb. apply andb_true_iff in Hb as [?%Z.ltb_lt ?%Z.ltb_lt]. split; assumption.
  - intros t. pose proof (tasks_forall chain_waits (λ _ x _, (0 <=? priority x) && (priority x <? 65))
      ltac:(done) ltac:(by vm_compute) t) as Hb.
    apply andb_true_iff in Hb as [?%Z.leb_le ?%Z.ltb_lt]. split; assumption.
  - intros p t Ho. pose proof (mutexes_forall chain_waits (λ _ m, match mtx_owner m with
      | Some (TApp i) => (0 <=? i) && (i <? 8) &&
          bool_decide (slot_state (task chain_waits (TApp i)) = RTS_TASK_SLOT_ALLOCATED)
      | Some _ => false | None => true end)
      ltac:(done) ltac:(by vm_compute) p) as Hb. cbn beta in Hb. rewrite Ho in Hb.
    destruct t as [i| |]; [|discriminate..]. apply andb_true_iff in Hb as [Hb Hs%bool_decide_eq_true].
    apply andb_true_iff in Hb as [?%Z.leb_le ?%Z.ltb_lt].
    split; [apply app_in_range; split; assumption|exact Hs].
Qed.

Lemma mutex_ownership_is_acquisition_order_witness :
  wp (rts_mutex_owner_link 1 (TApp 0)) (λ _ s', owned s' (TApp 0) = [0; 1]) chain_owned0 ∧
  wp (rts_mutex_owner_unlink 0) (λ _ s', owned s' (TApp 0) = []) chain_owned0.
Proof.
  split.
  - destruct (mutex_ownership_is_acquisition_order chain_owned0 (TApp 0) 1 chain_owned0_ok) as [Hlink _].
    eapply wp_mono; [apply Hlink; by vm_compute|]. intros [] s' Hst.
    rewrite (os_owned _ _ _ _ Hst). reflexivity.
  - destruct (mutex_ownership_is_acquisition_order chain_owned0 (TApp 0) 0 chain_owned0_ok) as [_ Hunlink].
    eapply wp_mono; [apply (Hunlink [] []); by vm_compute|]. intros [] s' [Hst _].
    rewrite (os_owned _ _ _ _ Hst). reflexivity.
Defined.

Lemma inheritance_required_is_maximum_witness :
  ∃ r, rts_priority_required_by_owned (TApp 1) chain_waits = Done r chain_waits ∧ r = 9.
Proof.
  destruct (inheritance_required_is_maximum chain_waits (TApp 1) chain_waits_owns chain_waits_ok) as (r&Hr&_).
  exists r. split; [exact Hr|]. vm_compute in Hr. congruence.
Defined.

Lemma chain_waits_chain : wait_chain chain_waits (TApp 1) [TApp 1; TApp 0].
Proof.
  apply (chain_step _ _ (TApp 0)); [by vm_compute| |].
  - apply chain_end. by vm_compute.
  - intros [E|E%elem_of_nil]%elem_of_cons; [discriminate E|exact E].
Qed.

(** Before the recomputation only task 1 runs below what its waiter requires. *)
Lemma chain_waits_invariant t : t ≠ TApp 1 → priority (task chain_waits t) = required chain_waits t.
Proof.
  intros Hne. destruct (decide (t ∈ stored_tasks chain_waits)) as [Hin|Hout].
  - assert (forallb (λ t, bool_decide (t = TApp 1) || (priority (task chain_waits t) =? required chain_waits t))
      (stored_tasks chain_waits) = true) as Hall by by vm_compute.
    rewrite forallb_forall in Hall. apply list_elem_of_In, Hall, orb_true_iff in Hin as [Hb|Hb].
    + apply bool_decide_eq_true in Hb. contradiction.
    + by apply Z.eqb_eq in Hb.
  - unfold stored_tasks in Hout. rewrite elem_of_elements, not_elem_of_union, !not_elem_of_dom in Hout.
    assert (task chain_waits t = inhabitant) as E.
    { unfold task. rewrite lookup_total_alt. by destruct Hout as [-> _]. }
    unfold required, demands, owned. rewrite E. reflexivity.
Qed.

Lemma inheritance_chain_restores_invariant_witness :
  wp (rts_priority_recompute_chain (Some (TApp 1))) (λ b s', b = true ∧
    priority (task s' (TApp 0)) = required s' (TApp 0)) chain_waits.
Proof.
  eapply wp_mono; [apply (inheritance_chain_restores_invariant chain_waits (TApp 1) [TApp 1; TApp 0])|].
  - exact chain_waits_inherit.
  - split; [by apply app_in_range|by vm_compute].
  - exact chain_waits_chain.
  - exact chain_waits_invariant.
  - intros b s' (Hb&_&_&Hall). split; [exact Hb|exact (Hall (TApp 0))].
Defined.

Lemma mutex_cycle_check_exact_witness :
  rts_mutex_would_cycle (Some (TApp 0)) 1 chain_waits = Done true chain_waits ∧
  rts_mutex_would_cycle (Some (TApp 2)) 1 chain_waits = Done false chain_waits.
Proof.
  split.
  - destruct (mutex_cycle_check_exact chain_waits (TApp 0) 1 (TApp 1) [TApp 1; TApp 0]) as [Hr _];
      [exact chain_waits_inherit|by vm_compute|exact chain_waits_chain|exact Hr].
  - destruct (mutex_cycle_check_exact chain_waits (TApp 2) 1 (TApp 1) [TApp 1; TApp 0]) as [Hr _];
      [exact chain_waits_inherit|by vm_compute|exact chain_waits_chain|exact Hr].
Defined.
End witnesses.
