(* ===== verification/SystemSpec.v ===== *)
(** * The invariant with mutexes

    [system_ok] is the invariant of the running kernel together with that of
    its mutexes: owners exist, every task runs at the priority its waiters
    require, and no chain of waiting tasks has a cycle.  This file shows that a
    change of effective priorities keeps the invariant of the kernel, and how
    chains of waiting tasks change when a task begins or ends a wait. *)

From S2P Require Import Prelude Machine Config Types Links IntrusiveList KernelLists Time ReadyQueue.
From S2P Require Import DelayQueue HostPort Diagnostics TaskPool Policy PolicySpec WaitObject Scheduler.
From S2P Require Import SwitchSpec KernelSpec StoreCheck TaskApi TaskApiSpec Blocking Semaphore Inheritance Mutex.
From S2P Require Import MutexSpec.

Section system.
Context `{ConfigOk} `{!BitmapPolicy}.

(** The mutexes: chains of ownership are well formed, owners are tasks that
    exist, and what is waited for is owned. *)
Record held_ok (s : kernel) : Prop := {
  ho_owns : owns_ok s;
  ho_owner p t : mtx_owner (mutex s p) = Some t → created s t;
  ho_base t : created s t → 0 < base_priority (task s t) < RTS_PRIORITY_COUNT;
  ho_waited p : waiting s (SMutex p) ≠ [] → mtx_owner (mutex s p) ≠ None;
  ho_room p t : t ∈ waiting s (SMutex p) → Z.of_nat (length (owned s t)) < RTS_MAX_MUTEXES_PER_TASK
}.

Record system_ok_at (since : Z) (s : kernel) : Prop := {
  sy_kernel : kernel_ok_at since s;
  sy_held : held_ok s;
  sy_inherits t : priority (task s t) = required s t;
  sy_chain t : ∃ l, wait_chain s t l
}.

#[global] Arguments sy_kernel {since} _ _.
#[global] Arguments sy_held {since} _ _.
#[global] Arguments sy_inherits {since} _ _ _.
#[global] Arguments sy_chain {since} _ _ _.

Section at_instant.
Context {since : Z}.
#[local] Abbreviation kernel_ok := (kernel_ok_at since).
#[local] Abbreviation system_ok := (system_ok_at since).

(** ** A change of priorities keeps the invariant of the kernel *)

Lemma reprioritized_field {A} (f : kernel → A) s s' :
  reprioritized s s' → (∀ s, f (unprioritized s) = f s) → f s' = f s.
Proof. intros Hr Hf. by rewrite <- (Hf s'), <- (Hf s), (rp_rest _ _ Hr). Qed.

Lemma reprioritized_roles s s' : reprioritized s s' → same_roles s s'.
Proof. intros Hr. split_and!; by eapply reprioritized_field. Qed.

Lemma reprioritized_task {A} (f : rts_tcb → A) s s' u :
  reprioritized s s' → (∀ x, f (x <| priority := 0 |>) = f x) → f (task s' u) = f (task s u).
Proof. intros Hr Hf. by rewrite <- (Hf (task s' u)), (rp_task _ _ Hr), Hf. Qed.

Lemma outgoing_intro s c :
  k_current_task s = Some c → task_ok s c →
  state (task s c) = RTS_TASK_STATE_RUNNING ∨ state (task s c) = RTS_TASK_STATE_BLOCKED → outgoing s c = true.
Proof.
  intros Hc Ht Hs. unfold outgoing, task_ok in *. rewrite Hc, bool_decide_true by done.
  destruct Hs as [E|E]; rewrite E in *; cbn; [by rewrite Ht|]. by destruct Ht as [_ ->].
Qed.

Lemma outgoing_state s c :
  outgoing s c = true → state (task s c) = RTS_TASK_STATE_RUNNING ∨ state (task s c) = RTS_TASK_STATE_BLOCKED.
Proof.
  unfold outgoing. rewrite andb_true_iff, orb_true_iff, !andb_true_iff, !bool_decide_eq_true. tauto.
Qed.

(** A ready task is linked at its effective priority. *)
Lemma ready_owner s t :
  kernel_ok s → ¬ unready s t → n_owner (node s (NReady t)) = Some (LReady (priority (task s t))).
Proof.
  intros Hok Hn. rewrite unready_iff in Hn by apply Hok.
  destruct (decide (t ∈ ready_queue s (priority (task s t)))) as [Hin|Hout].
  - by apply (ready_queue_owner s (ko_ready s Hok)).
  - destruct Hn. split; [|by eapply ko_not_edf]. intros p Hp.
    by rewrite (ro_priority s (ko_ready s Hok) p t Hp) in Hout.
Qed.

Lemma sound_priority x p :
  sound x = true → 0 < p → sound (x <| priority := p |>) = true.
Proof.
  unfold sound, RTS_IDLE_PRIORITY. intros Hs Hp. tests_in Hs. cbn. tests; try done. by apply Z.ltb_lt.
Qed.

Section reprioritize.
Context (s s' : kernel).
Context (Hok : kernel_ok s) (Hr : reprioritized s s') (Hready : ready_ok s') (Hwaits : waits_ok s').
Context (Hprio : ∀ t, 0 ≤ priority (task s' t) < RTS_PRIORITY_COUNT).
Context (Hbase : ∀ t, base_priority (task s' t) ≤ priority (task s' t)).
Context (Happ : ∀ t, priority (task s' t) ≠ priority (task s t) → application t ∧ 0 < priority (task s' t)).

Lemma rp_wait_owner t : w_owner (wait_node s' t) = w_owner (wait_node s t).
Proof.
  apply option_eq. intros o. rewrite <- (ww_owner s' (wok_wf s' Hwaits)), <- (ww_owner s (wok_wf s (ko_waits s Hok))).
  apply (rp_waiting _ _ Hr).
Qed.

Lemma rp_delay_list : delay_list s' = delay_list s.
Proof.
  pose proof (rp_delay _ _ Hr) as E. rewrite !delay_contents in E by (apply ro_lists; apply Hok || done).
  by apply (inj (fmap NDelay)) in E.
Qed.

Lemma rp_delay_owner t : n_owner (node s' (NDelay t)) = n_owner (node s (NDelay t)).
Proof.
  pose proof (ro_lists _ Hready) as Hl'. pose proof (ro_lists _ (ko_ready s Hok)) as Hl.
  apply owner_of_contents; [done..|]. change (contents (k_heap ?s)) with (kcontents s). intros l.
  split; intros Hin; [pose proof (delay_node_fits s' t l Hl' Hin)|pose proof (delay_node_fits s t l Hl Hin)];
    subst; by rewrite (rp_delay _ _ Hr) in *.
Qed.

Lemma rp_ready_owner t :
  ¬ unready s t → n_owner (node s' (NReady t)) = Some (LReady (priority (task s' t))).
Proof.
  intros Hn. assert (¬ unready s' t) as Hn' by by rewrite (rp_unready _ _ Hr).
  rewrite unready_iff in Hn' by done.
  destruct (decide (t ∈ ready_queue s' (priority (task s' t)))) as [Hin|Hout].
  - by apply (ready_queue_owner s' Hready).
  - destruct Hn'. split; [|rewrite (rp_edf _ _ Hr); by eapply ko_not_edf]. intros p Hp.
    by rewrite (ro_priority s' Hready p t Hp) in Hout.
Qed.

Lemma rp_same_places t : priority (task s' t) = priority (task s t) → same_places s s' t.
Proof.
  intros Hp. split; [|apply rp_delay_owner|apply rp_wait_owner].
  destruct (n_owner (node s (NReady t))) as [l|] eqn:E.
  - assert (¬ unready s t) as Hn by (unfold unready; congruence).
    rewrite (rp_ready_owner t Hn), Hp, <- (ready_owner s t Hok Hn). done.
  - by apply (rp_unready _ _ Hr).
Qed.

Lemma rp_same_face t : priority (task s' t) = priority (task s t) → face (task s' t) = face (task s t).
Proof.
  intros Hp. pose proof (reprioritized_task (λ x, face (x <| priority := 0 |>)) s s' t Hr (λ _, eq_refl)) as E.
  unfold face, identity in *. cbn in E. injection E as. congruence.
Qed.
Lemma rp_roles : roles_ok s'.
Proof. eapply roles_ok_same; [by apply reprioritized_roles|by eapply ko_roles]. Qed.

Lemma rp_sound t : application t → 0 < priority (task s' t) → sound (task s t) = true → sound (task s' t) = true.
Proof.
  intros Ha Hp Hs. assert (task s' t = ((task s t) <| priority := priority (task s' t) |>)) as ->.
  { transitivity (((task s' t) <| priority := 0 |>) <| priority := priority (task s' t) |>); [by destruct (task s' t)|].
    by rewrite (rp_task _ _ Hr t). }
  by apply sound_priority.
Qed.

(** A task that changed its priority passes the test of its state again. *)
Lemma rp_task_changed t : application t → 0 < priority (task s' t) → task_ok s' t.
Proof.
  intros Ha Hp. pose proof (ko_task s Hok t) as Ht. pose proof rp_roles as Hro.
  pose proof (reprioritized_task state s s' t Hr (λ _, eq_refl)) as Es.
  pose proof (reprioritized_task wait s s' t Hr (λ _, eq_refl)) as Ew.
  pose proof (rp_wait_owner t) as Eo. pose proof (rp_delay_owner t) as Ed.
  assert (runnable s t = true → runnable s' t = true) as Hrun.
  { intros Hrun. destruct (runnable_sound s t (ko_roles s Hok) Ha (proj1 (ko_prio s Hok t)) Hrun) as (Hsound&Hw&Hl).
    rewrite policy_linked_fp in Hl. apply bool_decide_eq_true in Hl.
    apply runnable_intro; [done..|by apply rp_sound| | |rewrite policy_linked_fp; apply bool_decide_true|].
    - unfold task_waits_for_nothing in *. by rewrite Ew, Eo, Ed.
    - split; [apply Hbase|apply Hprio].
    - apply rp_ready_owner. unfold unready. congruence.
    - rewrite Es, (reprioritized_field k_current_task s s' Hr) by done. by apply runnable_state. }
  unfold task_ok in *. rewrite Es. destruct (state (task s t)) eqn:Est; [|auto..|].
  - by rewrite (rp_unready _ _ Hr), Ed, Eo, Ew.
  - destruct Ht as [Hu Hb]. split; [by apply (rp_unready _ _ Hr)|]. apply orb_true_iff.
    assert (unready s' t) as Hu' by by apply (rp_unready _ _ Hr).
    assert (delayed s' t = delayed s t) as Ede by (unfold delayed; by rewrite Ed).
    apply orb_true_iff in Hb as [Hb|Hb]; [left|right].
    + destruct (blocked_delay_facts s t (ko_roles s Hok) Ha Hb) as (Hs&Hd&Ho&Hre&Hob&Hto).
      apply blocked_delay_intro; [done|by apply ro_lists|done|by apply rp_sound|apply Hprio|done|..]; by rewrite ?Ew, ?Ede, ?Eo, ?Es.
    + destruct (blocked_wait_facts s t (ko_roles s Hok) Ha Hb) as (Hs&o&[W1 W2 W3 W4 W5 W6]).
      apply (blocked_sync_intro s' t o); [done|done|by apply rp_sound|apply Hprio|done|].
      split; by rewrite ?Ew, ?Ede, ?Eo, ?Es.
Qed.

Lemma rp_task_ok t : task_ok s' t.
Proof.
  destruct (decide (priority (task s' t) = priority (task s t))) as [E|Hne].
  - apply (task_ok_ext s s' t); [apply ro_lists, Hok|by apply ro_lists|by apply rp_same_face|by apply rp_same_places
      |by apply reprioritized_roles|apply (ko_task s Hok)].
  - destruct (Happ t Hne). by apply rp_task_changed.
Qed.

Lemma kernel_ok_reprioritized : kernel_ok s'.
Proof.
  destruct (reprioritized_roles s s' Hr) as (Ei&Es&Ec).
  assert (∀ u, wake_tick s' u = wake_tick s u) as Hw.
  { intros u. unfold wake_tick. by rewrite (reprioritized_task wait s s' u Hr). }
  assert (∀ u, state (task s' u) = state (task s u)) as Hst by (intros u; by apply reprioritized_task).
  split; try done.
  - destruct (ko_delay s Hok) as [D1 D2 D3 D4].
    split; rewrite ?rp_delay_list; [by apply ro_lists|intros u; rewrite Hw; apply D2|..];
      unfold wake_in in *; [intros u; rewrite Hw; apply D3|].
    eapply sorted_impl; [|exact D4]. intros a b. by rewrite !Hw.
  - apply rp_task_ok.
  - apply (ko_now s Hok).
  - rewrite Ei. apply (ko_idle s Hok).
  - rewrite Hst. apply (ko_idle_state s Hok).
  - rewrite Es. apply (ko_service s Hok).
  - rewrite (reprioritized_field k_lifecycle s s' Hr) by done. apply (ko_live s Hok).
  - destruct (ko_current s Hok) as (c&Hc&Ho). exists c. rewrite Ec. split; [done|].
    apply outgoing_intro; [congruence|apply rp_task_ok|]. rewrite Hst. by apply outgoing_state.
  - eapply plan_ok_frame; [by apply (reprioritized_field k_switch_plan)|done|apply (ko_plan s Hok)].
Qed.
End reprioritize.
(** ** Recomputing priorities *)

Lemma runnable_no_wait s t : runnable s t = true → task_waits_for_nothing s t = true.
Proof. unfold runnable. rewrite !andb_true_iff. tauto. Qed.

(** What a task waits for is what its members say. *)
Lemma waiter_members s t :
  kernel_ok s → w_owner (wait_node s t) = rts_priority_waiters_for s t ∧
  (wait_reason (wait (task s t)) = RTS_WAIT_MUTEX → ∃ p, wait_object (wait (task s t)) = Some (SMutex p)).
Proof.
  intros Hok. destruct (w_owner (wait_node s t)) as [o|] eqn:E.
  - apply (ww_owner s (wok_wf s (ko_waits s Hok))) in E as Hin.
    destruct (waiting_facts s t o Hok Hin) as (_&_&[_ Hr Ho _ _ _]&_). unfold rts_priority_waiters_for.
    rewrite Hr, Ho. destruct o; cbn; split; try done. by eauto.
  - pose proof (ko_task s Hok t) as Ht. unfold task_ok in Ht. unfold rts_priority_waiters_for.
    assert (wait_reason (wait (task s t)) ≠ RTS_WAIT_MUTEX ∧ wait_reason (wait (task s t)) ≠ RTS_WAIT_SEMAPHORE) as [N1 N2];
      [|by destruct (wait_reason _)].
    destruct (state (task s t)).
    + by destruct Ht as (_&_&_&->).
    + apply runnable_no_wait in Ht. unfold task_waits_for_nothing in Ht. tests_in Ht. by apply bool_decide_eq_true in Ht as ->.
    + apply runnable_no_wait in Ht. unfold task_waits_for_nothing in Ht. tests_in Ht. by apply bool_decide_eq_true in Ht as ->.
    + destruct Ht as [_ [Hb|Hb]%orb_true_iff].
      * unfold blocked_delay in Hb. rewrite !andb_true_iff, !bool_decide_eq_true in Hb. naive_solver congruence.
      * unfold blocked_wait, blocked_service, blocked_sync in Hb. rewrite E in Hb.
        destruct (rts_scheduler_task_is_timer_service _ _);
          rewrite !andb_true_iff, !bool_decide_eq_true in Hb; naive_solver congruence.
Qed.

Lemma inherit_ok_intro s : kernel_ok s → held_ok s → port_room s → inherit_ok s.
Proof.
  intros Hok [Ho Hc Hb _ _] Hroom. split; try done; try apply Hok.
  - unfold sched_ok. destruct RTS_POLICY; [apply Hok..|done].
  - intros t. by apply waiter_members.
  - intros t Hw. destruct (w_owner (wait_node s t)) as [o|] eqn:E; [|done].
    apply (ww_owner s (wok_wf s (ko_waits s Hok))) in E. by destruct (waiting_facts s t o Hok E) as (_&_&[]&_).
  - intros t. by apply waiter_members.
Qed.

Lemma sched_ready s : sched_ok s → ready_ok s.
Proof. pose proof bitmap_policy. unfold sched_ok. by destruct RTS_POLICY. Qed.

(** A task that owns nothing requires its own priority. *)
Lemma required_unowned s t : held_ok s → ¬ created s t → required s t = base_priority (task s t).
Proof.
  intros Hh Hn. assert (owned s t = []) as E; [|unfold required, demands; by rewrite E].
  destruct (owned s t) as [|p ps] eqn:E; [done|]. destruct Hn. apply (ho_owner s Hh p).
  apply (owned_owner s t p (ho_owns s Hh)). rewrite E. left.
Qed.

Lemma held_ok_reprioritized s s' : held_ok s → reprioritized s s' → inherit_ok s' → held_ok s'.
Proof.
  intros Hh Hr Hio. destruct (reprioritized_owns s s' Hr (ho_owns s Hh)) as [_ Ho].
  split; [apply Hio|apply Hio|apply Hio|..].
  - intros p Hw. rewrite (reprioritized_mutex s s' p Hr).
    apply (ho_waited s Hh). intros E. apply Hw. destruct (waiting s' (SMutex p)) as [|u l] eqn:E'; [done|].
    assert (u ∈ waiting s (SMutex p)) as Hu by (apply (rp_waiting _ _ Hr); rewrite E'; left).
    rewrite E in Hu. by apply elem_of_nil in Hu.
  - intros p t Ht. rewrite Ho. apply (ho_room s Hh p). by apply (rp_waiting _ _ Hr).
Qed.

Lemma recompute_spec s t :
  kernel_ok s → held_ok s → port_room s → created s t → (∃ l, wait_chain s t l) →
  (∀ u, u ≠ t → priority (task s u) = required s u) →
  wp (rts_priority_recompute_chain (Some t)) (λ b s', b = true ∧ kernel_ok s' ∧ held_ok s' ∧ reprioritized s s' ∧
    ∀ u, priority (task s' u) = required s' u) s.
Proof.
  intros Hok Hh Hroom Ht [l Hl] Hinv. pose proof (inherit_ok_intro s Hok Hh Hroom) as Hio.
  pose proof (wait_chain_length s t l Hio Ht Hl) as Hlen.
  eapply wp_mono; [apply (recompute_walk_spec s t l []); [done..|set_solver|cbn; lia|lia|done]|].
  intros b s' (->&Hio'&Hr&Hinv'). pose proof (held_ok_reprioritized s s' Hh Hr Hio') as Hh'.
  split_and!; try done. apply (kernel_ok_reprioritized s); [done|done|by apply sched_ready, Hio'|apply Hio'|apply Hio'|..].
  - intros u. rewrite Hinv'. apply foldr_max_ge.
  - intros u Hne. assert (created s u) as Hu; [|split; [apply Hu|]].
    + destruct (decide (application u ∧ slot_state (task s u) = RTS_TASK_SLOT_ALLOCATED)) as [|Hn]; [done|]. destruct Hne. rewrite Hinv', Hinv by (by intros ->).
      rewrite !required_unowned; [|done|done|done|by rewrite (created_frame s s')]. by apply reprioritized_task.
    + rewrite Hinv'. pose proof (foldr_max_ge (base_priority (task s' u)) (demands s' u)).
      pose proof (ho_base s' Hh' u). rewrite (created_frame s s' u Hr) in *. unfold required. naive_solver lia.
Qed.
Lemma wp_recompute {A} s t (k : K A) (Q : A → kernel → Prop) :
  kernel_ok s → held_ok s → port_room s → created s t → (∀ u, ∃ l, wait_chain s u l) →
  (∀ u, u ≠ t → priority (task s u) = required s u) →
  (∀ s', system_ok s' → reprioritized s s' → wp k Q s') →
  wp (RTS_FATAL_UNLESS (rts_priority_recompute_chain (Some t)) ;;; k) Q s.
Proof.
  intros Hok Hh Hroom Ht Hch Hinv HQ. apply wp_bind, wp_fatal_do. eapply wp_mono; [by apply recompute_spec|].
  intros b s' (->&Hok'&Hh'&Hr&Hin'). split; [done|]. apply HQ; [|done].
  split; [done..|]. intros u. destruct (Hch u) as [l Hl]. exists l. by apply (wait_chain_frame s s').
Qed.

(** ** Chains of waiting tasks *)

(** A chain that ends is free of repetition: the blocker is unique. *)
Inductive wait_path (s : kernel) : task_ptr → list task_ptr → Prop :=
  | path_end t : blocker s t = None → wait_path s t [t]
  | path_step t u l : blocker s t = Some u → wait_path s u l → wait_path s t (t :: l).

Lemma wait_path_unique s t l l' : wait_path s t l → wait_path s t l' → l = l'.
Proof.
  intros Hp. revert l'. induction Hp as [t E|t u l E Hp IH]; intros l' Hp'; destruct Hp' as [t E'|t u' l' E' Hp'];
    [done|congruence..|]. f_equal. apply IH. congruence.
Qed.

Lemma wait_path_suffix s t l u : wait_path s t l → u ∈ l → ∃ l1 l2, l = l1 ++ l2 ∧ wait_path s u l2.
Proof.
  intros Hp. induction Hp as [t E|t v l E Hp IH]; intros Hu.
  - apply list_elem_of_singleton in Hu as ->. exists [], [t]. split; [done|by constructor].
  - apply elem_of_cons in Hu as [->|Hu]; [exists [], (t :: l); split; [done|by econstructor]|].
    destruct (IH Hu) as (l1&l2&->&Hp'). by exists (t :: l1), l2.
Qed.

Lemma wait_path_chain s t l : wait_path s t l → wait_chain s t l.
Proof.
  intros Hp. induction Hp as [t E|t u l E Hp IH]; [by constructor|]. apply (chain_step _ _ u); [done..|].
  intros Ht. destruct (wait_path_suffix s u l t Hp Ht) as (l1&l2&El&Hp2).
  pose proof (wait_path_unique s t (t :: l) l2 ltac:(by econstructor) Hp2) as Heq.
  apply (f_equal length) in El, Heq. rewrite length_app in El. cbn in Heq. lia.
Qed.

Lemma wait_chain_path s t l : wait_chain s t l → wait_path s t l.
Proof. induction 1; by econstructor. Qed.

Lemma wait_chain_ext s s' t l : (∀ v, blocker s' v = blocker s v) → wait_chain s t l → wait_chain s' t l.
Proof. intros Hb. induction 1; [apply chain_end|eapply chain_step; [rewrite Hb|..]]; rewrite ?Hb; done. Qed.

(** Ending a wait, or handing a mutex over, shortens the chains. *)
Lemma chains_cut s s' w :
  (∀ t, ∃ l, wait_chain s t l) → blocker s' w = None →
  (∀ t, blocker s' t = blocker s t ∨ blocker s' t = None ∨ blocker s' t = Some w) →
  ∀ t, ∃ l, wait_chain s' t l.
Proof.
  intros Hall Hw Hb t. destruct (Hall t) as [l Hc]. apply wait_chain_path in Hc.
  assert (∃ l', wait_path s' t l') as [l' Hp]; [|exists l'; by apply wait_path_chain].
  induction Hc as [t E|t u l E Hp IH]; destruct (Hb t) as [Hs|[Hs|Hs]];
    try (by exists [t]; constructor; congruence);
    try (by exists [t; w]; econstructor; [exact Hs|by constructor]).
  destruct IH as [l' Hl']. exists (t :: l'). econstructor; [|exact Hl']. congruence.
Qed.

(** Beginning a wait for a task whose chain does not come back. *)
Lemma chains_extend s s' c o lo :
  (∀ t, ∃ l, wait_chain s t l) → blocker s c = None → blocker s' c = Some o → (∀ t, t ≠ c → blocker s' t = blocker s t) →
  wait_chain s o lo → c ∉ lo → ∀ t, ∃ l, wait_chain s' t l.
Proof.
  intros Hall Hc Hc' Hb Ho Hn t.
  assert (∀ t l, wait_path s t l → c ∉ l → wait_path s' t l) as Hkeep.
  { intros u l Hp. induction Hp as [u E|u v l E Hp IH]; intros Hu.
    - constructor. rewrite Hb; [done|]. set_solver.
    - econstructor; [rewrite Hb; [exact E|set_solver]|apply IH; set_solver]. }
  destruct (Hall t) as [l Hp]. apply wait_chain_path in Hp.
  assert (∃ l', wait_path s' t l') as [l' Hp']; [|exists l'; by apply wait_path_chain].
  assert (wait_path s' c (c :: lo)) as Hpc by (econstructor; [exact Hc'|by apply Hkeep, Hn; apply wait_chain_path]).
  induction Hp as [t E|t u l E Hp IH].
  - destruct (decide (t = c)) as [->|Hne]; [by eauto|]. exists [t]. constructor. by rewrite Hb.
  - destruct IH as [l' Hl']. exists (t :: l'). econstructor; [|exact Hl']. rewrite Hb; [done|]. intros ->. congruence.
Qed.
End at_instant.
End system.

Abbreviation system_ok s := (system_ok_at (k_current_tick s) s).
