(* ===== verification/SystemCheck.v ===== *)
(** * Deciding the invariant of the mutexes on a concrete store

    [system_ok] of a closed store, by evaluation: ownership chains, what owners
    require and the chains of waiting tasks, over what the store mentions. *)

From S2P Require Import Prelude Machine Config Types Links IntrusiveList KernelLists Time ReadyQueue.
From S2P Require Import DelayQueue HostPort Diagnostics TaskPool Policy PolicySpec WaitObject Scheduler.
From S2P Require Import SwitchSpec KernelSpec StoreCheck TaskApi Blocking Semaphore Inheritance Mutex.
From S2P Require Import MutexSpec SystemSpec.

Section system_check.
Context `{ConfigOk} `{!BitmapPolicy}.

Definition stored_mutexes (s : kernel) : list Z := elements (dom (k_mutexes s) : gset Z).

Lemma unstored_mutex s p : p ∉ stored_mutexes s → mutex s p = inhabitant.
Proof. apply not_in_map. Qed.

Definition owns_check (s : kernel) : Prop :=
  clean_check (olinks s) (stored_mutexes s) ∧ owners_check (olinks s) (stored_mutexes s) (mentioned s) ∧
  Forall (λ t, dll_check (olinks s) (stored_mutexes s) t (owned s t) ∧
    owned_mutex_head (task s t) = first_or (owned s t) None ∧ owned_mutex_tail (task s t) = last_or (owned s t) None ∧
    owned_mutex_count (task s t) = Z.of_nat (length (owned s t)) ∧
    Z.of_nat (length (owned s t)) ≤ RTS_MAX_MUTEXES_PER_TASK) (mentioned s).

Lemma owns_check_ok s : owns_check s → owns_ok s.
Proof.
  intros (Hc&Ho&Ht). rewrite Forall_forall in Ht. pose proof cfg_mutexes.
  assert (∀ p, p ∉ stored_mutexes s → olinks s p = unlinked) as Hunl.
  { intros p Hp. unfold olinks. by rewrite unstored_mutex. }
  split; [by eapply clean_check_ok|]. intros t. destruct (decide (t ∈ mentioned s)) as [Hin|Hni].
  - destruct (Ht t Hin) as (Hd&H3&H4&H5&H6). split; try done. by eapply dll_check_ok.
  - destruct (unmentioned s t Hni) as (E&_). assert (owned s t = []) as -> by (unfold owned; by rewrite E).
    split; rewrite ?E; cbn; try done; [|lia]. by eapply owners_check_ok.
Qed.

(** The chain of tasks from [t] ends within [fuel] steps. *)
Fixpoint chain_ends (s : kernel) (fuel : nat) (t : task_ptr) : bool :=
  match blocker s t, fuel with
  | None, _ => true
  | Some u, S fuel' => chain_ends s fuel' u
  | Some _, O => false
  end.

Lemma chain_ends_ok s fuel t : chain_ends s fuel t = true → ∃ l, wait_chain s t l.
Proof.
  intros He. assert (∃ l, wait_path s t l) as [l Hp]; [|exists l; by apply wait_path_chain].
  revert t He. induction fuel as [|fuel IH]; intros t He; cbn in He; destruct (blocker s t) as [u|] eqn:E; try done;
    try (exists [t]; by constructor).
  destruct (IH u He) as [l Hl]. exists (t :: l). by econstructor.
Qed.

Definition system_check (s : kernel) : Prop :=
  kernel_check s ∧ owns_check s ∧
  Forall (λ p, match mtx_owner (mutex s p) with
               | Some t => application t ∧ slot_state (task s t) = RTS_TASK_SLOT_ALLOCATED
               | None => True
               end) (stored_mutexes s) ∧
  Forall (λ t, (slot_state (task s t) = RTS_TASK_SLOT_ALLOCATED → application t →
                0 < base_priority (task s t) < RTS_PRIORITY_COUNT) ∧
               priority (task s t) = required s t ∧ chain_ends s (length (mentioned s)) t = true) (mentioned s) ∧
  Forall (λ o, match o with
               | SMutex p => (waiting s o = [] ∨ mtx_owner (mutex s p) ≠ None) ∧
                   Forall (λ t, Z.of_nat (length (owned s t)) < RTS_MAX_MUTEXES_PER_TASK) (waiting s o)
               | SSemaphore _ => True
               end) (wait_objects s).

Lemma system_check_ok s : system_check s → system_ok s.
Proof.
  intros (Hk&Ho&Hm&Ht&Hw). rewrite Forall_forall in Hm. rewrite Forall_forall in Ht. rewrite Forall_forall in Hw.
  pose proof (owns_check_ok s Ho) as Hown.
  assert (∀ o, o ∉ wait_objects s → waiting s o = []) as Hnil.
  { intros o Hni. unfold waiting, waiters. by rewrite not_in_map. }
  split; [by apply kernel_check_ok|split| |].
  - done.
  - intros p t Hp. destruct (decide (p ∈ stored_mutexes s)) as [Hin|Hni].
    + specialize (Hm p Hin). by rewrite Hp in Hm.
    + by rewrite unstored_mutex in Hp.
  - intros t [Ha Hs]. destruct (decide (t ∈ mentioned s)) as [Hin|Hni].
    + by apply (Ht t Hin).
    + by destruct (unmentioned s t Hni) as (E&_); rewrite E in Hs.
  - intros p Hne. destruct (decide (SMutex p ∈ wait_objects s)) as [Hin|Hni]; [|by rewrite Hnil in Hne].
    by destruct (Hw _ Hin) as [[?|?] _].
  - intros p t Hin. destruct (decide (SMutex p ∈ wait_objects s)) as [Hin'|Hni].
    + destruct (Hw _ Hin') as [_ Hr]. rewrite Forall_forall in Hr. auto.
    + rewrite Hnil in Hin by done. by apply elem_of_nil in Hin.
  - intros t. destruct (decide (t ∈ mentioned s)) as [Hin|Hni]; [by apply (Ht t Hin)|].
    destruct (unmentioned s t Hni) as (E&_). unfold required, demands, owned. by rewrite E.
  - intros t. destruct (decide (t ∈ mentioned s)) as [Hin|Hni]; [by eapply chain_ends_ok, (Ht t Hin)|].
    destruct (unmentioned s t Hni) as (E&_). exists [t]. constructor. unfold blocker. by rewrite E.
Qed.

#[export] Instance system_check_dec s : Decision (system_check s).
Proof.
  unfold system_check, owns_check, clean_check, owners_check, dll_check. decide_nest.
Defined.
End system_check.

(** Establish the invariant of a closed store by evaluation. *)
Ltac check_system := apply system_check_ok; refine (bool_decide_eq_true_1 _ _); vm_compute; reflexivity.
