(* ===== verification/MutexCalls.v ===== *)
(** * Mutexes, end to end

    rts_mutex_lock, rts_mutex_unlock and the timeout of a waiter
    (kernel/mutex.c) keep the invariant of the kernel and of its mutexes
    ([system_ok]): ownership passes in priority order, every task runs at the
    priority its waiters require, and no cycle of waiting tasks arises. *)

From S2P Require Import Prelude Machine Config Types Links IntrusiveList KernelLists Time ReadyQueue.
From S2P Require Import DelayQueue HostPort Diagnostics TaskPool Policy PolicySpec WaitObject Scheduler.
From S2P Require Import SwitchSpec KernelSpec StoreCheck TaskApi TaskApiSpec Blocking Semaphore SemaphoreSpec.
From S2P Require Import Inheritance Mutex MutexSpec SystemSpec.

Section mutex_calls.
Context `{ConfigOk} `{!BitmapPolicy}.

(** ** What chains and demands depend on *)

Lemma blocker_waits {since} s t :
  kernel_ok_at since s → blocker s t = match w_owner (wait_node s t) with Some (SMutex p) => mtx_owner (mutex s p) | _ => None end.
Proof.
  intros Hok. destruct (waiter_members s t Hok) as [Ew Hm]. unfold blocker.
  destruct (w_owner (wait_node s t)) as [o|] eqn:E.
  - apply (ww_owner s (wok_wf s (ko_waits s Hok))) in E as Hin.
    destruct (waiting_facts s t o Hok Hin) as (_&_&[-> -> -> _ _ _]&_). by destruct o.
  - unfold rts_priority_waiters_for in Ew. destruct (bool_decide (state _ = _)); [|done].
    case_bool_decide as Er; [|done]. destruct (Hm Er) as [p Ep]. by rewrite Er, Ep in Ew.
Qed.

(** The waiters of [o] are the tasks linked to it. *)
Lemma wait_owner_iff {since} s t o : kernel_ok_at since s → w_owner (wait_node s t) = Some o ↔ t ∈ waiting s o.
Proof. intros Hok. symmetry. apply (ww_owner s (wok_wf s (ko_waits s Hok))). Qed.

(** Owners and waiters determine what a task requires. *)
Lemma required_ext s s' t :
  base_priority (task s' t) = base_priority (task s t) → owned s' t = owned s t →
  (∀ p u, p ∈ owned s t → u ∈ waiting s' (SMutex p) ↔ u ∈ waiting s (SMutex p)) →
  (∀ u, priority (task s' u) = priority (task s u)) → required s' t = required s t.
Proof.
  intros Eb Eo Hw Hp. unfold required. rewrite Eb. apply foldr_max_equiv. intros x. rewrite !demands_elem, Eo.
  split; intros (p&u&Hpo&Hu&->); exists p, u; (split_and!; [done|by apply Hw|by rewrite Hp]).
Qed.

(** A mutex nobody waits for demands nothing. *)
Lemma required_add s s' t p :
  base_priority (task s' t) = base_priority (task s t) → (∀ q, q ∈ owned s' t ↔ q ∈ owned s t ∨ q = p) →
  (∀ q u, q ∈ owned s t → u ∈ waiting s' (SMutex q) ↔ u ∈ waiting s (SMutex q)) →
  (∀ u, u ∈ waiting s' (SMutex p) → priority (task s u) ≤ required s t) →
  (∀ u, priority (task s' u) = priority (task s u)) → required s' t = required s t.
Proof.
  intros Eb Eo Hw Hle Hp. unfold required in *. rewrite Eb. set (b := base_priority (task s t)) in *. apply Z.le_antisymm.
  - destruct (foldr_max_attained b (demands s' t)) as [->|Hin]; [apply foldr_max_ge|].
    apply demands_elem in Hin as (q&u&Hq&Hu&Ex). rewrite Ex, Hp. apply Eo in Hq as [Hq| ->]; [|by apply Hle].
    apply foldr_max_elem, demands_elem. exists q, u. split_and!; [done|by apply Hw|done].
  - destruct (foldr_max_attained b (demands s t)) as [->|Hin]; [apply foldr_max_ge|].
    apply demands_elem in Hin as (q&u&Hq&Hu&Ex). rewrite Ex, <- Hp.
    apply foldr_max_elem, demands_elem. exists q, u. split_and!; [apply Eo; by left|by apply Hw|done].
Qed.

(** ** Valid mutexes *)

Definition mutex_ok (s : kernel) (p : Z) : Prop :=
  mtx_identity (mutex s p) = Some p ∧ mtx_signature (mutex s p) = RTS_MUTEX_SIGNATURE.

Lemma unowned_unwaited s p : held_ok s → mtx_owner (mutex s p) = None → waiting s (SMutex p) = [].
Proof. intros Hh Hn. destruct (waiting s (SMutex p)) eqn:E; [done|]. destruct (ho_waited s Hh p); [by rewrite E|done]. Qed.

Lemma rts_mutex_is_valid_run {since} s p :
  kernel_ok_at since s → held_ok s → mutex_ok s p → rts_mutex_is_valid (Some p) s = Done true s.
Proof.
  intros Hok Hh [Hi Hs]. pose proof (ko_waits s Hok) as Hw. unfold rts_mutex_is_valid.
  apply (andM_run _ _ true true); [apply (andM_run _ _ true true)|intros _].
  { unfold gets. by rewrite bool_decide_true, Hs. }
  { intros _. by apply rts_wait_object_validate_run; apply Hw. }
  unfold gets. f_equal. destruct (mtx_owner (mutex s p)) as [o|] eqn:E.
  - destruct (owned_split s o p (ho_owns s Hh) E) as (l1&l2&El).
    destruct (owned_node s o l1 p l2 (ho_owns s Hh) El) as (Hp&_).
    destruct (oo_rep s (ho_owns s Hh) o) as [_ Hhead _ _ _]. rewrite El in Hhead. rewrite Hp, Hhead.
    destruct l1 as [|q l1 _] using rev_ind; [by rewrite bool_decide_true|].
    rewrite last_or_snoc, (bool_decide_true (Some q ≠ None)) by done. apply orb_true_r.
  - pose proof (oo_clean s (ho_owns s Hh) p E) as Hc. injection Hc as -> -> _.
    rewrite (ww_storage s (wok_wf s Hw)), (unowned_unwaited s p Hh E). done.
Qed.

(** ** Steps that leave ownership alone *)

Lemma kstep_owns s s' c R D W :
  kstep s s' c R D W → owns_ok s →
  owns_ok s' ∧ (∀ t, owned s' t = owned s t) ∧ ∀ p, mutex s' p = mutex s p.
Proof.
  intros Hk Hok. assert (∀ p, mutex s' p = mutex s p) as Hm.
  { intros p. unfold mutex. by rewrite (kstep_field k_mutexes _ _ _ _ _ _ Hk). }
  destruct (owns_ok_ext s s') as [Ho Hl]; [done| |done|done].
  intros t. destruct (decide (t = c)) as [->|Hne]; [|by rewrite (ks_tasks _ _ _ _ _ _ Hk)].
  pose proof (ks_chain _ _ _ _ _ _ Hk eq_refl) as E. by injection E.
Qed.

Lemma identity_created s s' t : identity (task s' t) = identity (task s t) → created s' t ↔ created s t.
Proof. intros E. injection E as. unfold created. naive_solver congruence. Qed.
(** ** Steps of ownership *)

Section owns_steps.
Context (s s' : kernel) (t : task_ptr) (ps : list Z) (Hst : owns_step s s' t ps).

Lemma os_face u : face (task s' u) = face (task s u).
Proof. pose proof (os_task _ _ _ _ Hst u) as E. apply (f_equal face) in E. exact E. Qed.

Lemma os_identity u : identity (task s' u) = identity (task s u).
Proof. apply (face_eq _ _ (os_face u)). Qed.

Lemma os_owner q u : mtx_owner (mutex s' q) = Some u ↔ q ∈ if decide (u = t) then ps else owned s u.
Proof. rewrite <- (owned_owner s' u q (os_ok _ _ _ _ Hst)). by rewrite (os_owned _ _ _ _ Hst). Qed.

Lemma os_waiting o : waiting s' o = waiting s o.
Proof. by destruct (os_frame _ _ _ _ Hst) as (ms&ts&->). Qed.

Lemma os_kernel {since} : kernel_ok_at since s → kernel_ok_at since s'.
Proof.
  intros Hok. pose proof os_face as Hf. destruct (os_frame _ _ _ _ Hst) as (ms&ts&->).
  apply (kernel_ok_faces_at s); [done..|]. by apply (plan_ok_frame s), Hok.
Qed.

Lemma os_wait_owner u : w_owner (wait_node s' u) = w_owner (wait_node s u).
Proof. by destruct (os_frame _ _ _ _ Hst) as (ms&ts&->). Qed.

Lemma os_priority u : priority (task s' u) = priority (task s u).
Proof. by injection (os_identity u). Qed.
Lemma os_base u : base_priority (task s' u) = base_priority (task s u).
Proof. by injection (os_identity u). Qed.
End owns_steps.

(** A task that runs waits for nothing. *)
Lemma runnable_not_waiting {since} s c : kernel_ok_at since s → runnable s c = true → w_owner (wait_node s c) = None.
Proof.
  intros Hok Hr. destruct (runnable_places s c Hok Hr) as [_ Hw].
  destruct (w_owner (wait_node s c)) as [o|] eqn:E; [|done]. by apply (wait_owner_iff s c o Hok), Hw in E.
Qed.

(** Acquiring a free mutex. *)
Lemma system_ok_link {since} s s' c p :
  system_ok_at since s → owns_step s s' c (owned s c ++ [p]) → mtx_owner (mutex s p) = None → created s c →
  runnable s c = true → system_ok_at since s'.
Proof.
  intros [Hok Hh Hin Hch] Hst Hp Hcr Hr. pose proof (unowned_unwaited s p Hh Hp) as Hw.
  pose proof (os_kernel _ _ _ _ Hst Hok) as Hok'.
  assert (∀ u, created s' u ↔ created s u) as Hcreated by (intros u; apply identity_created, (os_identity _ _ _ _ Hst)).
  assert (∀ q u, q ≠ p → mtx_owner (mutex s' q) = Some u ↔ mtx_owner (mutex s q) = Some u) as Hown.
  { intros q u Hq. rewrite (os_owner _ _ _ _ Hst), <- (owned_owner s u q (ho_owns s Hh)). case_decide; set_solver. }
  split; [done|split| |].
  - apply Hst.
  - intros q u Hu. apply Hcreated. destruct (decide (q = p)) as [->|Hq]; [|by apply (ho_owner s Hh q), Hown].
    rewrite (os_owner _ _ _ _ Hst) in Hu. case_decide; [by subst|].
    apply (ho_owner s Hh p). by apply (owned_owner s u p (ho_owns s Hh)).
  - intros u Hu%Hcreated. rewrite (os_base _ _ _ _ Hst). by apply (ho_base s Hh).
  - intros q. rewrite (os_waiting _ _ _ _ Hst). intros Hq. destruct (decide (q = p)) as [->|Hne]; [done|].
    apply (ho_waited s Hh) in Hq. destruct (mtx_owner (mutex s q)) as [u|] eqn:E; [|done].
    by rewrite (proj2 (Hown q u Hne) E).
  - intros q u. rewrite (os_waiting _ _ _ _ Hst). intros Hu. rewrite (os_owned _ _ _ _ Hst).
    case_decide; [subst u|by apply (ho_room s Hh q)]. destruct (runnable_places s c Hok Hr) as [_ Hn]. by apply Hn in Hu.
  - intros u. rewrite (os_priority _ _ _ _ Hst), Hin. symmetry. destruct (decide (u = c)) as [->|Hne].
    + apply (required_add s s' c p); [apply (os_base _ _ _ _ Hst)| | | |apply (os_priority _ _ _ _ Hst)].
      * intros q. rewrite (os_owned _ _ _ _ Hst), decide_True by done. set_solver.
      * intros q v _. by rewrite (os_waiting _ _ _ _ Hst).
      * intros v. rewrite (os_waiting _ _ _ _ Hst), Hw. by intros ?%elem_of_nil.
    + apply required_ext; [apply (os_base _ _ _ _ Hst)| | |apply (os_priority _ _ _ _ Hst)].
      * by rewrite (os_owned _ _ _ _ Hst), decide_False.
      * intros q v _. by rewrite (os_waiting _ _ _ _ Hst).
  - intros u. destruct (Hch u) as [l Hl]. exists l. apply (wait_chain_ext s); [|done].
    intros v. rewrite !blocker_waits, (os_wait_owner _ _ _ _ Hst) by done.
    destruct (w_owner (wait_node s v)) as [[q|q]|] eqn:E; [done| |done].
    eapply wait_owner_iff in E; [|done]. assert (q ≠ p) by (intros ->; rewrite Hw in E; by apply elem_of_nil in E).
    apply option_eq. intros x. by apply Hown.
Qed.
(** ** Waiting for a mutex *)

(** The caller joined the waiters of [p]: only its owner may now run at too
    low a priority. *)
Lemma joined_ok s s1 c p o timeout lo :
  system_ok s → began_waiting s s1 c (SMutex p) timeout → runnable s c = true →
  mtx_owner (mutex s p) = Some o → wait_chain s o lo → c ∉ lo →
  Z.of_nat (length (owned s c)) < RTS_MAX_MUTEXES_PER_TASK →
  held_ok s1 ∧ (∀ u, u ≠ o → priority (task s1 u) = required s1 u) ∧ (∀ t, ∃ l, wait_chain s1 t l) ∧
  mtx_owner (mutex s1 p) = Some o ∧ created s1 o.
Proof.
  intros [Hok Hh Hin Hch] (Hk&Hok1&Hw&_&_&Hid) Hr Ho Hlo Hn Hroom.
  destruct (kstep_owns _ _ _ _ _ _ Hk (ho_owns s Hh)) as (Hown&Howned&Hm).
  assert (∀ u, identity (task s1 u) = identity (task s u)) as Hids.
  { intros u. destruct (decide (u = c)) as [->|Hu]; [done|]. by rewrite (ks_tasks _ _ _ _ _ _ Hk). }
  assert (∀ u, created s1 u ↔ created s u) as Hcr by (intros u; by apply identity_created).
  assert (∀ u, priority (task s1 u) = priority (task s u)) as Hpr by (intros u; by injection (Hids u)).
  assert (∀ u, base_priority (task s1 u) = base_priority (task s u)) as Hba by (intros u; by injection (Hids u)).
  assert (∀ q u, u ≠ c ∨ q ≠ p → u ∈ waiting s1 (SMutex q) ↔ u ∈ waiting s (SMutex q)) as Hwait.
  { intros q u Hq. rewrite (ks_wait _ _ _ _ _ _ Hk). unfold waited. case_decide as E; [|done].
    rewrite insert_by_elem. naive_solver. }
  assert (∀ v, v ≠ c → blocker s1 v = blocker s v) as Hbl.
  { intros v Hv. rewrite !blocker_waits by done. assert (w_owner (wait_node s1 v) = w_owner (wait_node s v)) as ->.
    { apply option_eq. intros [q|q]; rewrite !wait_owner_iff by done; [|by auto].
      by rewrite (ks_wait _ _ _ _ _ _ Hk). }
    destruct (w_owner (wait_node s v)) as [[q|q]|]; [done|by rewrite Hm|done]. }
  split_and!; [split| | |by rewrite Hm|].
  - done.
  - intros q u. rewrite Hm, Hcr. apply (ho_owner s Hh).
  - intros u. rewrite Hcr, Hba. apply (ho_base s Hh).
  - intros q. rewrite Hm. destruct (decide (q = p)) as [->|Hq]; [congruence|].
    rewrite (ks_wait _ _ _ _ _ _ Hk). unfold waited. rewrite decide_False by congruence. apply (ho_waited s Hh).
  - intros q u. rewrite Howned. destruct (decide (u = c)) as [->|Hu]; [done|]. rewrite Hwait by auto. apply (ho_room s Hh).
  - intros u Hu. rewrite Hpr, Hin. symmetry. apply required_ext; [done..| |done].
    intros q v Hq. apply Hwait. right. intros ->. apply (owned_owner s u p (ho_owns s Hh)) in Hq. congruence.
  - apply (chains_extend s s1 c o lo); [done| | |done..].
    + by rewrite (blocker_waits s c Hok), (runnable_not_waiting s c Hok).
    + by rewrite (blocker_waits s1 c Hok1), (wf_linked _ _ _ Hw), Hm.
  - apply Hcr. by apply (ho_owner s Hh p).
Qed.

Lemma mutex_wait_current_spec s c p timeout :
  kernel_ok s → port_room s → application c → k_current_task s = Some c → runnable s c = true →
  0 ≤ timeout ≤ RTS_DELAY_MAX ∨ timeout = RTS_WAIT_FOREVER →
  wp (mutex_wait_current p c timeout) (λ _ s', began_waiting s s' c (SMutex p) timeout) s.
Proof.
  intros Hok Hroom Ha Hc Hr Hto. apply (wp_leave_ready s c (SMutex p) timeout); [done..|]. intros s1 (Hk&Hid&Hw&Hs).
  apply wp_bind, wp_gets, wp_bind. eapply wp_kstep_trace; [exact Hk|done|]. intros s2 Hk2 E2. rewrite <- E2 in Hid, Hw, Hs.
  apply (wp_join_waiters s c (SMutex p) timeout); [done..|]. intros s3 Hl3.
  by apply (wp_set_timeout s c (SMutex p) timeout).
Qed.
(** ** Locking *)

(** Nothing of the kernel but the port, the counters and the trace differs. *)
Definition untouched (s s' : kernel) : Prop :=
  same_scheduling s s' ∧ k_switch_plan s' = k_switch_plan s ∧ k_mutexes s' = k_mutexes s.

(** The members the invariant of the mutexes reads. *)
Definition mutex_members (x : rts_tcb) :=
  (owned_mutex_head x, owned_mutex_tail x, owned_mutex_count x, base_priority x, priority x, slot_state x).

Lemma system_ok_members {since} s s' :
  system_ok_at since s → kernel_ok_at since s' → (∀ u, mutex_members (task s' u) = mutex_members (task s u)) →
  (∀ o, waiting s' o = waiting s o) → k_mutexes s' = k_mutexes s → system_ok_at since s'.
Proof.
  intros [Hok Hh Hin Hch] Hok' Et Ew Em.
  assert (∀ q, mutex s' q = mutex s q) as Hm by (intros q; unfold mutex; by rewrite Em).
  assert (∀ u, base_priority (task s' u) = base_priority (task s u)) as Eb by (intros u; by injection (Et u)).
  assert (∀ u, priority (task s' u) = priority (task s u)) as Ep by (intros u; by injection (Et u)).
  assert (∀ u, created s' u ↔ created s u) as Ec.
  { intros u. unfold created. assert (slot_state (task s' u) = slot_state (task s u)) as -> by by injection (Et u). done. }
  destruct (owns_ok_ext s s') as [Hown Ho]; [done|intros t; by injection (Et t)|apply Hh|].
  destruct Hh as [_ A2 A3 A4 A5]. split; [done|split| |].
  - done.
  - intros q t. rewrite Hm, Ec. apply A2.
  - intros t. rewrite Ec, Eb. apply A3.
  - intros q. rewrite Ew, Hm. apply A4.
  - intros q t. rewrite Ew, Ho. apply A5.
  - intros t. rewrite Ep, Hin. symmetry. apply required_ext; [done|done|intros q u _; by rewrite Ew|done].
  - intros t. destruct (Hch t) as [l Hl]. exists l. apply (wait_chain_ext s); [|done]. intros v.
    rewrite (blocker_waits s' v Hok'), (blocker_waits s v Hok).
    assert (w_owner (wait_node s' v) = w_owner (wait_node s v)) as ->; [|destruct (w_owner _) as [[]|]; by rewrite ?Hm].
    apply option_eq. intros o. by rewrite (wait_owner_iff s' v o Hok'), (wait_owner_iff s v o Hok), Ew.
Qed.

Lemma system_ok_views {since} s s' :
  system_ok_at since s → kernel_ok_at since s' → (∀ u, task s' u = task s u) → (∀ o, waiting s' o = waiting s o) →
  k_mutexes s' = k_mutexes s → system_ok_at since s'.
Proof. intros Hsy Hok' Et. apply (system_ok_members s); [done..|]. intros u. by rewrite Et. Qed.

Lemma system_ok_frame {since} s s' :
  system_ok_at since s → same_scheduling s s' → k_mutexes s' = k_mutexes s → plan_ok s' → system_ok_at since s'.
Proof.
  intros Hsy Hs Em Hp. destruct (same_scheduling_views s s' Hs) as (Et&_&_&Ew&_).
  apply (system_ok_views s); try done. apply (kernel_ok_frame_at s); [apply Hsy|done..].
Qed.

Lemma system_ok_same s s' :
  system_ok s → same_scheduling s s' → k_mutexes s' = k_mutexes s → plan_ok s' → system_ok s'.
Proof. intros Hsy Hs. rewrite (ss_tick _ _ Hs). by apply system_ok_frame. Qed.

Lemma system_ok_untouched s s' : system_ok s → untouched s s' → system_ok s'.
Proof.
  intros Hsy (Hs&Ep&Em). apply (system_ok_same s); [done..|].
  eapply plan_ok_frame; [exact Ep|apply Hs|apply Hsy].
Qed.

Lemma system_ok_port f s : system_ok s → system_ok (upd_port f s).
Proof. intros Hsy. apply (system_ok_untouched s); [done|]. by split_and!. Qed.

(** The store after the caller began to wait for [p]: it joined the waiters
    and left the ready queues; other tasks may differ in their effective
    priority only. *)
Record mutex_waiting (s s' : kernel) (c : task_ptr) (p timeout : Z) : Prop := {
  mw_waits : waits_for s' c (SMutex p);
  mw_timed : wait_timeout_active (wait (task s' c)) = timeout_active timeout;
  mw_wake : timeout_active timeout = true → wake_tick s' c = u32 (k_current_tick s + timeout);
  mw_others u : u ≠ c → (task s' u) <| priority := 0 |> = (task s u) <| priority := 0 |>;
  mw_ready u : unready s' u ↔ u = c ∨ unready s u;
  mw_delay : delay_list s' = timed_queue s s' c (timeout_active timeout);
  mw_waiting o u : u ∈ waiting s' o ↔ u ∈ waited s c (SMutex p) o;
  mw_mutexes q : mutex s' q = mutex s q;
  mw_plan : ∃ n, head (fp_ready s') = Some n ∧ plan_pending (k_switch_plan s') = true ∧
    plan_from (k_switch_plan s') = Some c ∧ plan_to (k_switch_plan s') = Some n
}.

(** The status with which a lock attempt is refused at once. *)
Definition lock_refusal (s : kernel) (c : task_ptr) (p timeout : Z) : option rts_status_t :=
  let full := bool_decide (RTS_MAX_MUTEXES_PER_TASK ≤ Z.of_nat (length (owned s c))) in
  match mtx_owner (mutex s p) with
  | None => if full then Some RTS_STATUS_CAPACITY_EXHAUSTED else None
  | Some o =>
      if bool_decide (o = c) then Some RTS_STATUS_INVALID_STATE
      else if timeout =? 0 then Some RTS_STATUS_TIMEOUT
      else if full then Some RTS_STATUS_CAPACITY_EXHAUSTED else None
  end.

(** The mutex [p] became the last that [c] owns; no task is scheduled differently. *)
Definition acquired (s s' : kernel) (c : task_ptr) (p : Z) : Prop :=
  owned s' c = owned s c ++ [p] ∧ mtx_owner (mutex s' p) = Some c ∧
  (∀ u, u ≠ c → owned s' u = owned s u) ∧ ∀ u, face (task s' u) = face (task s u).

(** What locking does, as a specification. *)
Definition locked (s s' : kernel) (c : task_ptr) (p timeout : Z) (st : rts_status_t) : Prop :=
  system_ok s' ∧
  match lock_refusal s c p timeout with
  | Some refusal => st = refusal ∧ untouched s s'
  | None => st = RTS_STATUS_OK ∧
      match mtx_owner (mutex s p) with
      | None => acquired s s' c p
      | Some _ => mutex_waiting s s' c p timeout
      end
  end.

Lemma waits_for_reprioritized {since} s s' t o :
  kernel_ok_at since s → ready_ok s' → waits_ok s' → reprioritized s s' → waits_for s t o → waits_for s' t o.
Proof.
  intros Hok Hr' Hw' Hr [W1 W2 W3 W4 W5 W6].
  pose proof (reprioritized_task state s s' t Hr (λ _, eq_refl)) as Es.
  pose proof (reprioritized_task wait s s' t Hr (λ _, eq_refl)) as Ew.
  split; rewrite ?Es, ?Ew; try done; [by rewrite (rp_wait_owner s s' Hok)|].
  unfold delayed in *. by rewrite (rp_delay_owner s s' Hok).
Qed.
(** From the caller among the waiters to the planned switch. *)
Lemma mutex_waiting_intro s s1 s2 s3 c p timeout n :
  kernel_ok s → runnable s c = true → began_waiting s s1 c (SMutex p) timeout → reprioritized s1 s2 → kernel_ok s2 →
  same_scheduling s2 s3 → k_mutexes s3 = k_mutexes s2 → head (fp_ready s3) = Some n →
  plan_pending (k_switch_plan s3) = true → plan_from (k_switch_plan s3) = Some c → plan_to (k_switch_plan s3) = Some n →
  (∀ q, mutex s1 q = mutex s q) → mutex_waiting s s3 c p timeout.
Proof.
  intros Hok Hrun (Hk&Hok1&Hw&Htimed&Hwake&_) Hr Hok2 Hs Em Hn Hp1 Hp2 Hp3 Hm.
  destruct (same_scheduling_views s2 s3 Hs) as (Et&_&Ed&Ew&Hpl).
  pose proof (waits_for_reprioritized s1 s2 c _ Hok1 (ko_ready s2 Hok2) (ko_waits s2 Hok2) Hr Hw) as Hw2.
  assert (∀ u, wait (task s3 u) = wait (task s1 u)) as Ewt by (intros u; rewrite Et; by apply reprioritized_task).
  split.
  - by apply (waits_for_frame s2).
  - by rewrite Ewt.
  - unfold wake_tick in *. by rewrite Ewt.
  - intros u Hu. rewrite Et, (rp_task _ _ Hr). by rewrite (ks_tasks _ _ _ _ _ _ Hk).
  - intros u. assert (unready s3 u ↔ unready s1 u) as ->.
    { unfold unready. rewrite (sp_ready _ _ _ (Hpl u)). apply (rp_unready _ _ Hr). }
    rewrite !unready_iff by (apply Hok || apply Hok1). rewrite (ks_lists _ _ _ _ _ _ Hk) by auto.
    pose proof (ko_not_edf s u Hok) as He. setoid_rewrite (ks_ready _ _ _ _ _ _ Hk). unfold without.
    setoid_rewrite list_elem_of_filter. destruct (decide (u = c)); naive_solver.
  - rewrite Ed, (rp_delay_list s1 s2 Hok1 Hr (ko_ready s2 Hok2)), (ks_delay _ _ _ _ _ _ Hk).
    unfold timed_queue. destruct (timeout_active timeout); [|done]. apply insert_by_ext.
    intros u. unfold wake_in, wake_tick. by rewrite Ewt.
  - intros o u. rewrite Ew, (rp_waiting _ _ Hr), (ks_wait _ _ _ _ _ _ Hk). done.
  - intros q. rewrite <- Hm, <- (reprioritized_mutex s1 s2 q Hr). unfold mutex. by rewrite Em.
  - by exists n.
Qed.

Lemma mutex_waiting_port s s' c p timeout f : mutex_waiting s s' c p timeout → mutex_waiting s (upd_port f s') c p timeout.
Proof. intros [[] ? ?]. by split. Qed.

Lemma mutex_waiting_entered s s' c p timeout f :
  mutex_waiting (upd_port f s) s' c p timeout → mutex_waiting s s' c p timeout.
Proof. intros []. by split. Qed.

(** The part of rts_mutex_lock that blocks the caller. *)
Lemma lock_blocks s c p timeout o :
  system_ok s → caller_ok s → k_current_task s = Some c → state (task s c) = RTS_TASK_STATE_RUNNING → application c →
  plan_active (k_switch_plan s) = false → 0 ≤ timeout ≤ RTS_DELAY_MAX ∨ timeout = RTS_WAIT_FOREVER →
  mtx_owner (mutex s p) = Some o → (∀ l, wait_chain s o l → c ∉ l) →
  Z.of_nat (length (owned s c)) < RTS_MAX_MUTEXES_PER_TASK →
  wp (mutex_wait_current p c timeout ;;;
      RTS_FATAL_UNLESS (let* owner := gets (λ s, mtx_owner (mutex s p)) in rts_priority_recompute_chain owner) ;;;
      RTS_FATAL_UNLESS (rts_scheduler_task_is_blocked_wait (Some c)) ;;;
      let* selected := rts_scheduler_select_highest_ready in
      RTS_FATAL_UNLESS (ret (bool_decide (selected ≠ None) && negb (bool_decide (selected = Some c)))) ;;;
      let* notify_port :=
        ret (bool_decide (selected ≠ None) && negb (bool_decide (selected = Some c))) &&&
        rts_scheduler_prepare_switch selected in
      rts_kernel_lock_exit (critical_token (k_port s)) ;;;
      notify_port_if notify_port ;;;
      let* result := gets (λ s, wait_result (wait (task s c))) in
      if negb (bool_decide (result = RTS_WAIT_RESULT_NONE)) then rts_mutex_wait_result_consume (Some c)
      else ret RTS_STATUS_OK)
    (λ st s', st = RTS_STATUS_OK ∧ same_nesting s s' ∧ system_ok s' ∧ mutex_waiting s s' c p timeout)
    (upd_port port_entered s).
Proof.
  intros Hsy [Hisr Hroom Hreq] Hc Hst Ha Hact Hto Ho Hcyc Hfree.
  set (s0 := upd_port port_entered s). pose proof (system_ok_port port_entered s Hsy : system_ok s0) as Hsy0.
  pose proof (sy_kernel s0 Hsy0) as Hok0. assert (port_room s0) as Hroom0 by (unfold port_room; cbn; lia).
  pose proof (current_running_facts s0 c Hok0 Hc Hst) as Hr.
  apply wp_bind. eapply wp_mono; [by apply (mutex_wait_current_spec s0 c p timeout)|]. intros [] s1 Hbegan.
  destruct (sy_chain s Hsy o) as [lo Hlo].
  destruct (joined_ok s0 s1 c p o timeout lo Hsy0 Hbegan Hr Ho) as (Hh1&Hin1&Hch1&Ho1&Hcr1);
    [by apply (wait_chain_ext s)|by apply Hcyc|done|].
  pose proof Hbegan as (Hk&Hok1&Hw&_).
  apply wp_bind, wp_fatal_do, wp_bind, wp_gets. rewrite Ho1.
  eapply wp_mono; [eapply recompute_spec; [exact Hok1|done|by eapply kstep_room|done|apply Hch1|done]|].
  intros b s2 (->&Hok2&Hh2&Hr2&Hin2). split; [done|].
  rewrite <- (reprioritized_field k_current_tick s1 s2 Hr2) in Hok2 by done.
  pose proof (waits_for_reprioritized s1 s2 c _ Hok1 (ko_ready s2 Hok2) (ko_waits s2 Hok2) Hr2 Hw) as Hw2.
  assert (system_ok s2) as Hsy2.
  { split; [done..|]. intros t. destruct (Hch1 t) as [l Hl]. exists l. by apply (wait_chain_frame s1 s2). }
  assert (blocked_wait s2 c = true) as Hb2.
  { pose proof (ko_task s2 Hok2 c) as Ht. unfold task_ok in Ht. rewrite (wf_state _ _ _ Hw2) in Ht.
    destruct Ht as [_ [Hb|Hb]%orb_true_iff]; [|done]. pose proof (wf_reason _ _ _ Hw2).
    apply (blocked_delay_facts s2 c (ko_roles s2 Hok2) Ha) in Hb. naive_solver congruence. }
  apply wp_bind, wp_RTS_FATAL_UNLESS.
  { rewrite rts_scheduler_task_is_blocked_wait_run by apply (ko_prio s2 Hok2). by rewrite Hb2. }
  apply (wp_switch_away s s2 c rts_mutex_wait_result_consume).
  - done.
  - lia.
  - eapply same_nesting_trans; [apply (ks_nesting _ _ _ _ _ _ Hk)|apply (rp_nesting _ _ Hr2)].
  - rewrite (reprioritized_field (λ s, host_switch_request_count (k_port s)) s1 s2 Hr2) by done.
    by rewrite (kstep_requests _ _ _ _ _ _ Hk).
  - rewrite (reprioritized_field k_current_task s1 s2 Hr2) by done. by rewrite (kstep_field k_current_task _ _ _ _ _ _ Hk).
  - apply Hw2.
  - rewrite (reprioritized_field k_switch_plan s1 s2 Hr2) by done. by rewrite (kstep_field k_switch_plan _ _ _ _ _ _ Hk).
  - apply Hw2.
  - intros n s3 f Hs3 _ Em Hok3 Hhead Hpend Hfrom Hplan Hnest. split_and!; [done..| |].
    + apply system_ok_port, (system_ok_same s2); [done..|apply Hok3].
    + apply mutex_waiting_port, (mutex_waiting_entered s _ c p timeout port_entered).
      apply (mutex_waiting_intro s0 s1 s2 s3 c p timeout n); try done.
      destruct (kstep_owns _ _ _ _ _ _ Hk (ho_owns s0 (sy_held s0 Hsy0))) as (_&_&Hm). exact Hm.
Qed.
Lemma would_cycle_run {since} s c p o lo :
  kernel_ok_at since s → held_ok s → port_room s → mtx_owner (mutex s p) = Some o → wait_chain s o lo →
  rts_mutex_would_cycle (Some c) p s = Done (bool_decide (c ∈ lo)) s.
Proof.
  intros Hok Hh Hroom Ho Hl. pose proof (inherit_ok_intro s Hok Hh Hroom) as Hio. unfold rts_mutex_would_cycle.
  rewrite bind_gets, Ho. apply cycle_walk_run; [done..|].
  pose proof (wait_chain_length s o lo Hio (ho_owner s Hh p o Ho) Hl). lia.
Qed.

Lemma untouched_port f g s : untouched s (upd_port f (upd_port g s)).
Proof. by split_and!. Qed.

(** Leaving with a status and nothing changed. *)
Lemma wp_leave s st (Q : rts_status_t → kernel → Prop) :
  0 ≤ host_critical_depth (k_port s) →
  (∀ f, same_nesting s (upd_port f (upd_port port_entered s)) → Q st (upd_port f (upd_port port_entered s))) →
  wp (rts_kernel_lock_exit (critical_token (k_port s)) ;;; ret st) Q (upd_port port_entered s).
Proof.
  intros Hd HQ. destruct (critical_exit_balanced s (upd_port port_entered s) Hd (same_nesting_refl _)) as [Hrun Hsame].
  apply wp_bind. eapply wp_run; [exact Hrun|]. by apply wp_ret, HQ.
Qed.

Lemma running_created {since} s c :
  kernel_ok_at since s → application c → runnable s c = true → created s c.
Proof.
  intros Hok Ha Hr. destruct (runnable_sound s c (ko_roles s Hok) Ha (proj1 (ko_prio s Hok c)) Hr) as (Hs&_).
  split; [done|]. unfold sound in Hs. tests_in Hs. by apply bool_decide_eq_true in T2.
Qed.

Lemma owned_count s t : held_ok s → owned_mutex_count (task s t) = Z.of_nat (length (owned s t)).
Proof. intros Hh. apply (oo_rep s (ho_owns s Hh) t). Qed.

(** The part of rts_mutex_lock that takes a free mutex. *)
Lemma lock_takes s c p :
  system_ok s → 0 ≤ host_critical_depth (k_port s) → runnable s c = true → application c →
  mtx_owner (mutex s p) = None → Z.of_nat (length (owned s c)) < RTS_MAX_MUTEXES_PER_TASK →
  wp (rts_mutex_owner_link p c ;;; rts_kernel_lock_exit (critical_token (k_port s)) ;;; ret RTS_STATUS_OK)
    (λ st s', st = RTS_STATUS_OK ∧ same_nesting s s' ∧ system_ok s' ∧ acquired s s' c p) (upd_port port_entered s).
Proof.
  intros Hsy Hd Hr Ha Ho Hfree. set (s0 := upd_port port_entered s).
  pose proof (system_ok_port port_entered s Hsy : system_ok s0) as Hsy0.
  apply wp_bind. eapply wp_mono; [apply rts_mutex_owner_link_spec; [apply Hsy0|done|exact Hfree]|].
  intros [] s1 Hst. change (owned s0 c) with (owned s c) in Hst.
  assert (k_current_tick s1 = k_current_tick s0) as Et by by destruct (os_frame _ _ _ _ Hst) as (ms&ts&->).
  assert (same_nesting s0 s1) as Hn by by destruct (os_frame _ _ _ _ Hst) as (ms&ts&->).
  destruct (critical_exit_balanced s s1 Hd Hn) as [Hrun Hsame].
  apply wp_bind. eapply wp_run; [exact Hrun|]. apply wp_ret. split_and!; [done..| |split_and!].
  - apply system_ok_port. rewrite Et. apply (system_ok_link s0 s1 c p); [done..| |done]. by eapply running_created; [apply Hsy0|..].
  - exact (eq_trans (os_owned _ _ _ _ Hst c) (decide_True _ _ eq_refl)).
  - apply (os_owner _ _ _ _ Hst). rewrite decide_True by done. set_solver.
  - intros u Hu. exact (eq_trans (os_owned _ _ _ _ Hst u) (decide_False _ _ Hu)).
  - apply (os_face _ _ _ _ Hst).
Qed.

(** The owner of the mutex waits, perhaps through others, for the caller. *)
Definition deadlocks (s : kernel) (c : task_ptr) (p timeout : Z) : Prop :=
  lock_refusal s c p timeout = None ∧
  ∃ o l, mtx_owner (mutex s p) = Some o ∧ wait_chain s o l ∧ c ∈ l.

Section lock.
Context (s : kernel) (c : task_ptr) (p timeout : Z).
Context (Hsy : system_ok s) (Hcall : caller_ok s) (Hm : mutex_ok s p) (Hc : k_current_task s = Some c).
Context (Hst : state (task s c) = RTS_TASK_STATE_RUNNING) (Ha : application c).
Context (Hto : 0 ≤ timeout ≤ RTS_DELAY_MAX ∨ timeout = RTS_WAIT_FOREVER).

Lemma lock_without_cycle :
  wait_result (wait (task s c)) = RTS_WAIT_RESULT_NONE → plan_active (k_switch_plan s) = false →
  ¬ deadlocks s c p timeout →
  wp (rts_mutex_lock (Some p) timeout) (λ st s', same_nesting s s' ∧ locked s s' c p timeout st) s.
Proof.
  intros Hres Hact Hcyc. pose proof Hcall as [Hisr Hroom Hreq].
  pose proof (sy_kernel s Hsy) as Hok. pose proof (current_running_facts s c Hok Hc Hst) as Hr. unfold rts_mutex_lock.
  replace (_ && _) with false by (symmetry; destruct Hto as [?| ->]; [apply andb_false_intro1; lia|by rewrite Z.eqb_refl, andb_false_r]).
  unfold rts_port_is_in_isr. apply wp_bind, wp_gets. rewrite Hisr. apply wp_bind, wp_gets.
  rewrite bool_decide_true by apply (ko_live s Hok). cbn [negb].
  apply wp_bind. eapply wp_run; [apply rts_port_critical_enter_run; lia|].
  set (s0 := upd_port port_entered s). pose proof (system_ok_port port_entered s Hsy : system_ok s0) as Hsy0.
  destruct Hsy0 as [Hok0 Hh0 Hin0 Hch0]. assert (port_room s0) as Hroom0 by (unfold port_room; cbn; lia).
  assert (∀ st, lock_refusal s c p timeout = Some st → wp (rts_kernel_lock_exit (critical_token (k_port s)) ;;; ret st)
    (λ st s', same_nesting s s' ∧ locked s s' c p timeout st) s0) as Hleave.
  { intros st E. apply wp_leave; [lia|]. intros f Hn. split; [done|]. split; [by do 2 apply system_ok_port|].
    rewrite E. split; [done|apply untouched_port]. }
  unfold lock_refusal in Hleave. cbv zeta. apply wp_bind. eapply wp_run; [by eapply rts_mutex_is_valid_run|]. cbn [negb].
  apply wp_bind. eapply wp_run; [apply rts_scheduler_current_get_run|]. apply wp_bind, wp_gets.
  change (k_current_task s0) with (k_current_task s). change (mutex s0 p) with (mutex s p). rewrite Hc.
  assert (owned_mutex_count (task s c) = Z.of_nat (length (owned s c))) as Ecount by apply owned_count, Hsy.
  destruct (mtx_owner (mutex s p)) as [o|] eqn:Ho; cbn [bool_decide decide_rel] in *.
  - change (bool_decide (Some o = None)) with false. cbn [deref].
    assert (bool_decide (Some o = Some c) = bool_decide (o = c)) as -> by (apply bool_decide_ext; naive_solver).
    case_bool_decide as Eo; [by apply Hleave|]. destruct (Z.eqb_spec timeout 0) as [Et|Et]; [by apply Hleave|].
    apply wp_bind, wp_gets. rewrite app_not_service by (done || by eapply ko_roles). apply wp_bind, wp_ret, wp_bind, wp_gets.
    change (task s0 c) with (task s c). rewrite Ecount.
    case_bool_decide as Efull; [rewrite (proj2 (Z.leb_le _ _)) by done; by apply Hleave|].
    rewrite (proj2 (Z.leb_gt _ _)) by lia. destruct (sy_chain s Hsy o) as [lo Hlo].
    assert (lock_refusal s c p timeout = None) as Enone.
    { unfold lock_refusal. by rewrite Ho, (bool_decide_false (o = c)), (proj2 (Z.eqb_neq _ _)), bool_decide_false. }
    assert (∀ l, wait_chain s o l → c ∉ l) as Hnc by (intros l Hl Hin; apply Hcyc; split; [done|by exists o, l]).
    apply wp_bind. eapply wp_run; [eapply (would_cycle_run s0 c p o lo); [done..|by apply (wait_chain_ext s)]|].
    rewrite (bool_decide_false (c ∈ lo)) by auto.
    apply wp_bind. eapply wp_run; [by apply (can_block_run s0 c)|]. cbn [negb].
    eapply wp_mono; [apply (lock_blocks s c p timeout o); try done; lia|].
    intros st s' (->&Hn&Hsy'&Hw). split; [done|]. split; [done|]. by rewrite Enone, Ho.
  - change (bool_decide (None = None)) with true. cbn iota. apply wp_bind, wp_RTS_FATAL_UNLESS.
    { unfold gets. rewrite (ww_storage s0 (wok_wf s0 (ko_waits s0 Hok0))), (unowned_unwaited s0 p Hh0 Ho). done. }
    cbn [deref]. apply wp_bind, wp_ret, wp_bind, wp_gets. change (task s0 c) with (task s c). rewrite Ecount.
    case_bool_decide as Efull; [rewrite (proj2 (Z.leb_le _ _)) by done; by apply Hleave|].
    rewrite (proj2 (Z.leb_gt _ _)) by lia.
    eapply wp_mono; [apply (lock_takes s c p); try done; lia|].
    intros st s' (->&Hn&Hsy'&Hacq). split; [done|]. split; [done|]. unfold lock_refusal. by rewrite Ho, bool_decide_false.
Qed.

(** Up to the failing assertion. *)
Lemma lock_deadlock_run :
  deadlocks s c p timeout →
  rts_mutex_lock (Some p) timeout s =
    (RTS_ASSERT (ret false) ;;; rts_kernel_lock_exit (critical_token (k_port s)) ;;; ret RTS_STATUS_INVALID_STATE)
      (upd_port port_entered s).
Proof.
  intros (Enone&o&lo&Ho&Hlo&Hin). pose proof Hcall as [Hisr Hroom Hreq].
  pose proof (sy_kernel s Hsy) as Hok. unfold rts_mutex_lock.
  replace (_ && _) with false by (symmetry; destruct Hto as [?| ->]; [apply andb_false_intro1; lia|by rewrite Z.eqb_refl, andb_false_r]).
  unfold rts_port_is_in_isr. rewrite bind_gets, Hisr, bind_gets.
  rewrite bool_decide_true by apply (ko_live s Hok). cbn [negb].
  erewrite bind_run by (apply rts_port_critical_enter_run; lia).
  set (s0 := upd_port port_entered s). pose proof (system_ok_port port_entered s Hsy : system_ok s0) as Hsy0.
  destruct Hsy0 as [Hok0 Hh0 Hin0 Hch0]. assert (port_room s0) as Hroom0 by (unfold port_room; cbn; lia).
  cbv zeta. erewrite bind_run by (by eapply rts_mutex_is_valid_run). cbn [negb].
  erewrite bind_run by apply rts_scheduler_current_get_run. rewrite bind_gets.
  change (k_current_task s0) with (k_current_task s). change (mutex s0 p) with (mutex s p). rewrite Hc, Ho.
  assert (owned_mutex_count (task s c) = Z.of_nat (length (owned s c))) as Ecount by apply owned_count, Hsy.
  unfold lock_refusal in Enone. rewrite Ho in Enone. rewrite (bool_decide_false (Some o = None)) by done.
  assert (bool_decide (Some o = Some c) = bool_decide (o = c)) as -> by (apply bool_decide_ext; naive_solver).
  case_bool_decide as Eo; [done|]. destruct (Z.eqb_spec timeout 0) as [Et|Et]; [done|].
  rewrite bind_gets, app_not_service by (done || by eapply ko_roles). cbn [deref]. rewrite bind_ret, bind_gets.
  change (task s0 c) with (task s c). rewrite Ecount.
  case_bool_decide as Efull; [done|]. rewrite (proj2 (Z.leb_gt _ _)) by lia.
  assert (rts_mutex_would_cycle (Some c) p s0 = Done true s0) as Hcyc.
  { rewrite (would_cycle_run s0 c p o lo) by (done || by apply (wait_chain_ext s)). by rewrite bool_decide_true. }
  rewrite (bind_run _ _ _ _ _ Hcyc). unfold RTS_ASSERT, rts_assert.
  destruct RTS_ENABLE_ASSERTIONS; [|done]. unfold bind at 1 2. by rewrite (notM_run _ _ _ Hcyc).
Qed.

Lemma lock_deadlock :
  deadlocks s c p timeout →
  if RTS_ENABLE_ASSERTIONS
  then ∃ s', rts_mutex_lock (Some p) timeout s = Fatal RTS_FATAL_ASSERTION s' ∧ untouched s s'
  else wp (rts_mutex_lock (Some p) timeout) (λ st s',
         st = RTS_STATUS_INVALID_STATE ∧ same_nesting s s' ∧ system_ok s' ∧ untouched s s') s.
Proof.
  intros Hdead. pose proof (lock_deadlock_run Hdead) as Hrun. pose proof Hcall as [_ Hroom _].
  unfold RTS_ASSERT, rts_assert in Hrun. destruct RTS_ENABLE_ASSERTIONS.
  - exists (upd_port port_entered s). by rewrite Hrun.
  - unfold wp. rewrite Hrun. apply wp_bind, wp_ret, wp_leave; [lia|]. intros f Hn.
    split_and!; [done|done|by do 2 apply system_ok_port|apply untouched_port].
Qed.
End lock.

End mutex_calls.
