(* ===== verification/MutexRelease.v ===== *)
(** * Unlocking, handing over and timing out

    rts_mutex_unlock with rts_mutex_handoff, and rts_mutex_timeout_task
    (kernel/mutex.c), keep the invariant [system_ok]: the mutex goes to its
    first waiter, and priorities that were inherited for it are given back. *)

From S2P Require Import Prelude Machine Config Types Links IntrusiveList KernelLists Time ReadyQueue.
From S2P Require Import DelayQueue HostPort Diagnostics TaskPool Policy PolicySpec WaitObject Scheduler.
From S2P Require Import SwitchSpec KernelSpec StoreCheck TaskApi TaskApiSpec Blocking Semaphore SemaphoreSpec.
From S2P Require Import Inheritance Mutex MutexSpec SystemSpec MutexCalls.

Section release.
Context `{ConfigOk} `{!BitmapPolicy}.

(** ** The end of a wait for a mutex *)

(** The ready queues with [t] behind the tasks of its priority. *)
Definition requeued_back (s : kernel) (t : task_ptr) : Z → list task_ptr :=
  set_queue (ready_queue s) (priority (task s t)) (ready_queue s (priority (task s t)) ++ [t]).

Lemma wp_end_wait {A} s t result n (k : K A) (Q : A → kernel → Prop) :
  ready_ok s → waits_wf s → NReady t ∉ kcontents s LEdf → (∀ p, t ∉ ready_queue s p) → t ∈ all_tasks →
  0 ≤ priority (task s t) < RTS_PRIORITY_COUNT →
  (∀ s', kstep s s' t (requeued_back s t) (delay_list s) (waiting s) → identity (task s' t) = identity (task s t) →
     wait (task s' t) = mk_wait RTS_WAIT_NONE result 0 None false →
     state (task s' t) = (if bool_decide (Some t = k_current_task s) then RTS_TASK_STATE_RUNNING else RTS_TASK_STATE_READY) →
     wp k Q s') →
  wp (end_mutex_wait t result ;;;
      RTS_FATAL_UNLESS (rts_policy_task_unblock (Some t)) ;;;
      RTS_DIAG_COUNTER_INC n ;;;
      RTS_DIAG_TASK_INC t diagnostic_wake_count ;;;
      k) Q s.
Proof.
  intros Hr Hw He Hn Hall Hp HQ. pose proof (kstep_refl (m:=false) s t Hr Hw) as Hk0. unfold end_mutex_wait.
  apply wp_bind, wp_bind. eapply wp_run; [apply rts_scheduler_current_get_run|].
  apply wp_bind. eapply wp_kstep_task; [exact Hk0|done|]. intros s1 Hk1 E1.
  apply wp_bind. eapply wp_kstep_task; [exact Hk1|done|]. intros s2 Hk2 E2.
  eapply wp_kstep_task; [exact Hk2|done|]. intros s3 Hk3 E3. rewrite E2, E1 in E3.
  apply wp_bind, wp_fatal_do. eapply (wp_kstep_unblock s s3); [exact Hk3|done|done|done|by rewrite E3| |].
  { rewrite E3. cbn. by case_bool_decide. }
  intros s4 Hk4 E4. split; [done|]. rewrite E3 in Hk4, E4.
  apply wp_bind. eapply wp_kstep_counter; [exact Hk4|]. intros s5 Hk5 E5.
  apply wp_bind. eapply wp_kstep_diag; [exact Hk5|done|]. intros s6 Hk6 E6.
  rewrite E5, E4 in E6. apply face_eq in E6 as (Hid&Hwt&Hst). by apply HQ.
Qed.

(** A wait that ends after [w] left its queues. *)
Lemma end_wait_step {m} s s1 s2 w D W :
  kstepm m s s1 w (ready_queue s) D W → priority (task s1 w) = priority (task s w) →
  kstep s1 s2 w (requeued_back s1 w) (delay_list s1) (waiting s1) → kstepm m s s2 w (requeued_back s w) D W.
Proof.
  intros Hk1 Hp Hk2. pose proof (kstep_trans _ _ _ _ _ _ _ _ _ _ Hk1 Hk2) as Hk. rewrite (ks_delay _ _ _ _ _ _ Hk1) in Hk.
  eapply kstep_ext_wait; [eapply kstep_ext; [exact Hk|]|].
  - intros q. unfold requeued_back, set_queue. by rewrite Hp, !(ks_ready _ _ _ _ _ _ Hk1).
  - intros o. by rewrite (ks_wait _ _ _ _ _ _ Hk1).
Qed.

(** ** Handing a mutex over *)

Lemma kstep_own s s1 s2 c R D W t ps :
  kstepm true s s1 c R D W → owns_step s1 s2 t ps → kstepm true s s2 c R D W.
Proof.
  intros [K1 K2 K3 K4 K5 K6 K7 K8 K9 K10] Hst. pose proof (os_face _ _ _ _ Hst) as Hf.
  pose proof (os_task _ _ _ _ Hst) as Ht. destruct (os_frame _ _ _ _ Hst) as (ms&ts&->). split; try done.
  - destruct K1 as [R1 R2 R3 R4]. split; try done. intros p u Hu. rewrite <- (R2 p u Hu). by injection (Hf u).
  - by apply (waits_wf_frame s1).
  - intros u Hu. specialize (Ht u). specialize (K7 u Hu). cbn in *. congruence.
Qed.

(** The waiter [w] got the mutex [p] that [c] owned. *)
Record handed (s s' : kernel) (c w : task_ptr) (p : Z) : Prop := {
  hd_kernel : kernel_ok s';
  hd_step : kstepm true s s' w (requeued_back s w) (filter (λ u, u ≠ w) (delay_list s)) (unwaited s w (SMutex p));
  hd_identity u : identity (task s' u) = identity (task s u);
  hd_wait : wait (task s' w) = mk_wait RTS_WAIT_NONE RTS_WAIT_RESULT_ACQUIRED 0 None false;
  hd_runnable : runnable s' w = true;
  hd_owns : owns_ok s';
  hd_owned u : owned s' u =
    if decide (u = w) then owned s w ++ [p] else if decide (u = c) then filter (λ q, q ≠ p) (owned s c) else owned s u
}.
Lemma handed_intro s s4 s5 c w p :
  kernel_ok s → w ∈ waiting s (SMutex p) →
  kstepm true s s4 w (ready_queue s) (filter (λ u, u ≠ w) (delay_list s)) (unwaited s w (SMutex p)) →
  (∀ u, face (task s4 u) = face (task s u)) → owns_ok s4 →
  (∀ u, owned s4 u =
    if decide (u = w) then owned s w ++ [p] else if decide (u = c) then filter (λ q, q ≠ p) (owned s c) else owned s u) →
  kstep s4 s5 w (requeued_back s4 w) (delay_list s4) (waiting s4) → identity (task s5 w) = identity (task s4 w) →
  wait (task s5 w) = mk_wait RTS_WAIT_NONE RTS_WAIT_RESULT_ACQUIRED 0 None false →
  state (task s5 w) = (if bool_decide (Some w = k_current_task s4) then RTS_TASK_STATE_RUNNING else RTS_TASK_STATE_READY) →
  handed s s5 c w p.
Proof.
  intros Hok Hin Hk4 Hf4 Hown4 Howned4 Hk5 Hid5 Hw5 Hs5.
  destruct (waiting_facts s w _ Hok Hin) as (Ha&Hsound&[Wst _ _ _ _ _]&_).
  assert (∀ u, identity (task s4 u) = identity (task s u)) as Hid4 by (intros u; apply (face_eq _ _ (Hf4 u))).
  assert (∀ u, identity (task s5 u) = identity (task s u)) as Hid.
  { intros u. destruct (decide (u = w)) as [->|Hu]; [by rewrite Hid5|by rewrite (ks_tasks _ _ _ _ _ _ Hk5)]. }
  pose proof (end_wait_step s s4 s5 w _ _ Hk4 ltac:(by injection (Hid4 w)) Hk5) as Hk.
  rewrite (kstep_field k_current_task _ _ _ _ _ _ Hk4) in Hs5 by done.
  destruct (woken_ok s s5 w _ RTS_WAIT_RESULT_ACQUIRED Hok Ha Wst Hsound Hk) as [Hok5 Hr5];
    [apply (unwaited_facts s w _ Hok Hin)..|done|done|done|].
  destruct (kstep_owns _ _ _ _ _ _ Hk5 Hown4) as (Hown5&Howned5&_).
  split; try done. intros u. by rewrite Howned5.
Qed.

Lemma rts_mutex_handoff_spec s c p w ts :
  kernel_ok s → held_ok s → mtx_owner (mutex s p) = Some c → runnable s c = true →
  waiting s (SMutex p) = w :: ts →
  wp (rts_mutex_handoff p) (λ _ s', handed s s' c w p) s.
Proof.
  intros Hok Hh Ho Hc E. assert (w ∈ waiting s (SMutex p)) as Hin by (rewrite E; left).
  destruct (waiting_facts s w _ Hok Hin) as (Ha&Hsound&Hwf&Hu). pose proof Hwf as [Wst Wre Wob Wres Wl Wt].
  assert (w ≠ c) as Hwc. { intros ->. rewrite runnable_not_waiting in Wl by done. done. }
  unfold rts_mutex_handoff. apply wp_bind, wp_gets. rewrite (ww_storage s (wok_wf s (ko_waits s Hok))), E. cbn [wo_head first_or].
  apply wp_bind, wp_RTS_FATAL_UNLESS; [done|]. cbn [deref]. apply wp_bind, wp_ret.
  pose proof (kstep_refl (m:=false) s w (ko_ready s Hok) (wok_wf s (ko_waits s Hok))) as Hk0.
  apply wp_bind. eapply wp_kstep_wait_remove; [exact Hk0|apply (ko_waits s Hok)|done|]. intros s1 Hk1 E1.
  apply wp_bind, wp_gets. rewrite E1, <- Wt.
  apply wp_bind. eapply wp_cancel_delay; [exact Hok|exact Hk1|done|]. intros s2 Hk2 E2. rewrite E1 in E2.
  destruct (kstep_owns _ _ _ _ _ _ Hk2 (ho_owns s Hh)) as (Hown2&Howned2&Hm2).
  destruct (owned_split s c p (ho_owns s Hh) Ho) as (l1&l2&El). pose proof (owned_nodup s c (ho_owns s Hh)) as Hnd.
  apply wp_bind. eapply wp_mono; [apply (rts_mutex_owner_unlink_spec s2 p c l1 l2 Hown2); by rewrite Howned2|].
  intros [] s3 Hst3. pose proof (os_ok _ _ _ _ Hst3) as Hown3.
  assert (owned s3 w = owned s w) as Ew3 by (rewrite (os_owned _ _ _ _ Hst3), decide_False; done).
  apply wp_bind. eapply wp_mono; [apply (rts_mutex_owner_link_spec s3 p w Hown3)|].
  { destruct (mtx_owner (mutex s3 p)) as [u|] eqn:Eu; [exfalso|done].
    apply (os_owner _ _ _ _ Hst3) in Eu. rewrite El in Hnd. destruct (nodup_mid l1 l2 p p Hnd) as (_&N1&N2).
    case_decide; [set_solver|]. rewrite Howned2, (owned_owner s u p (ho_owns s Hh)) in Eu. congruence. }
  { rewrite Ew3. by apply (ho_room s Hh p). }
  intros [] s4 Hst4. rewrite Ew3 in Hst4.
  pose proof (kstep_own _ _ _ _ _ _ _ _ _ (kstep_own _ _ _ _ _ _ _ _ _ (kstep_weaken _ _ _ _ _ _ Hk2) Hst3) Hst4) as Hk4.
  assert (∀ u, face (task s4 u) = face (task s u)) as Hf4.
  { intros u. rewrite (os_face _ _ _ _ Hst4), (os_face _ _ _ _ Hst3).
    destruct (decide (u = w)) as [->|Hne]; [by rewrite E2|by rewrite (ks_tasks _ _ _ _ _ _ Hk2)]. }
  assert (∀ u, priority (task s4 u) = priority (task s u)) as Hp4 by (intros u; by injection (Hf4 u)).
  apply wp_end_wait; [apply Hk4|apply Hk4|rewrite (ks_lists _ _ _ _ _ _ Hk4) by auto; by eapply ko_not_edf| |by apply app_all_tasks| |].
  { intros q. rewrite (ks_ready _ _ _ _ _ _ Hk4). by apply unready_iff; [apply Hok|]. }
  { rewrite Hp4. apply (ko_prio s Hok). }
  intros s5 Hk5 Hid5 Hw5 Hs5. apply wp_ret.
  apply (handed_intro s s4 s5 c w p); try done; [apply Hst4|].
  intros u. rewrite (os_owned _ _ _ _ Hst4), (os_owned _ _ _ _ Hst3), Howned2.
  rewrite El, filter_ne_mid by (by rewrite <- El). done.
Qed.
Section handed_over.
Context (s s' : kernel) (c w : task_ptr) (p : Z) (ts : list task_ptr).
Context (Hsy : system_ok s) (Ho : mtx_owner (mutex s p) = Some c) (Hc : runnable s c = true).
Context (Ew : waiting s (SMutex p) = w :: ts) (Hd : handed s s' c w p).

Lemma hd_in : w ∈ waiting s (SMutex p).
Proof. rewrite Ew. left. Qed.

Lemma hd_other : w ≠ c.
Proof.
  intros E. pose proof (runnable_not_waiting s c (sy_kernel s Hsy) Hc) as Hn. pose proof hd_in as Hin.
  eapply wait_owner_iff in Hin; [|apply Hsy]. congruence.
Qed.

Lemma hd_owner_other q u : q ≠ p → mtx_owner (mutex s' q) = Some u ↔ mtx_owner (mutex s q) = Some u.
Proof.
  intros Hq. rewrite <- (owned_owner s' u q (hd_owns _ _ _ _ _ Hd)), <- (owned_owner s u q (ho_owns s (sy_held s Hsy))).
  rewrite (hd_owned _ _ _ _ _ Hd). repeat case_decide; subst; [set_solver|rewrite list_elem_of_filter; naive_solver|done].
Qed.

Lemma hd_owner : mtx_owner (mutex s' p) = Some w.
Proof.
  apply (owned_owner s' w p (hd_owns _ _ _ _ _ Hd)). rewrite (hd_owned _ _ _ _ _ Hd), decide_True by done.
  apply elem_of_app. right. by apply list_elem_of_singleton.
Qed.

Lemma hd_waiting_other q : q ≠ p → waiting s' (SMutex q) = waiting s (SMutex q).
Proof. intros Hq. rewrite (ks_wait _ _ _ _ _ _ (hd_step _ _ _ _ _ Hd)). unfold unwaited. by rewrite decide_False by congruence. Qed.

Lemma hd_waiting u o : u ∈ waiting s' o → u ≠ w ∧ u ∈ waiting s o.
Proof.
  rewrite (ks_wait _ _ _ _ _ _ (hd_step _ _ _ _ _ Hd)). intros Hu.
  destruct (unwaited_facts s w (SMutex p) (sy_kernel s Hsy) hd_in) as (Hn&Hiff&_).
  assert (u ≠ w) as Hne by (intros ->; by apply Hn in Hu). split; [done|]. by apply Hiff.
Qed.

Lemma hd_priority u : priority (task s' u) = priority (task s u).
Proof. by injection (hd_identity _ _ _ _ _ Hd u). Qed.
Lemma hd_base u : base_priority (task s' u) = base_priority (task s u).
Proof. by injection (hd_identity _ _ _ _ _ Hd u). Qed.

Lemma handed_held : held_ok s'.
Proof.
  pose proof (sy_held s Hsy) as Hh. pose proof (sy_kernel s Hsy) as Hok.
  assert (∀ u, created s' u ↔ created s u) as Hcr by (intros u; apply identity_created, (hd_identity _ _ _ _ _ Hd)).
  split.
  - apply Hd.
  - intros q u Hu. apply Hcr. destruct (decide (q = p)) as [->|Hq]; [|by apply (ho_owner s Hh q), hd_owner_other].
    rewrite hd_owner in Hu. injection Hu as <-. destruct (waiting_facts s w _ Hok hd_in) as (Ha&Hs&_).
    split; [done|]. unfold sound in Hs. tests_in Hs. by apply bool_decide_eq_true in T2.
  - intros u. rewrite Hcr, hd_base. apply (ho_base s Hh).
  - intros q. destruct (decide (q = p)) as [->|Hq]; [by rewrite hd_owner|]. rewrite hd_waiting_other by done.
    intros Hne%(ho_waited s Hh). destruct (mtx_owner (mutex s q)) as [u|] eqn:E; [|done].
    by rewrite (proj2 (hd_owner_other q u Hq) E).
  - intros q u [Hne Hu]%hd_waiting. rewrite (hd_owned _ _ _ _ _ Hd), decide_False by done.
    case_decide; [subst u|by apply (ho_room s Hh q)]. eapply wait_owner_iff in Hu; [|done].
    by rewrite (runnable_not_waiting s c Hok Hc) in Hu.
Qed.

Lemma handed_inherits u : u ≠ c → priority (task s' u) = required s' u.
Proof.
  intros Hu. pose proof (sy_held s Hsy) as Hh. pose proof (sy_kernel s Hsy) as Hok.
  assert (∀ q, q ∈ owned s u → q ≠ p) as Hq.
  { intros q Hq ->. apply (owned_owner s u p (ho_owns s Hh)) in Hq. congruence. }
  rewrite hd_priority, (sy_inherits s Hsy). symmetry. destruct (decide (u = w)) as [->|Hw].
  - apply (required_add s s' w p); [apply hd_base| | | |apply hd_priority].
    + intros q. rewrite (hd_owned _ _ _ _ _ Hd), decide_True by done. set_solver.
    + intros q v Hqo. by rewrite hd_waiting_other by auto.
    + intros v [Hne Hv]%hd_waiting. rewrite Ew in Hv. apply elem_of_cons in Hv as [->|Hv]; [done|].
      rewrite <- (sy_inherits s Hsy w). pose proof (wok_sorted s (ko_waits s Hok) (SMutex p)) as Hs. unfold by_priority in Hs.
      rewrite Ew in Hs. apply StronglySorted_inv in Hs as [_ Hs]. rewrite Forall_forall in Hs. apply Hs in Hv. lia.
  - apply required_ext; [apply hd_base| | |apply hd_priority].
    + by rewrite (hd_owned _ _ _ _ _ Hd), !decide_False.
    + intros q v Hqo. by rewrite hd_waiting_other by auto.
Qed.

Lemma handed_chains t : ∃ l, wait_chain s' t l.
Proof.
  pose proof (hd_kernel _ _ _ _ _ Hd) as Hok'. pose proof (sy_kernel s Hsy) as Hok.
  apply (chains_cut s s' w); [apply Hsy|by rewrite (blocker_waits s' w Hok'), (runnable_not_waiting s' w Hok' (hd_runnable _ _ _ _ _ Hd))|].
  intros v. rewrite !blocker_waits by done. destruct (w_owner (wait_node s' v)) as [o|] eqn:E; [|by auto].
  eapply wait_owner_iff in E; [|done]. apply hd_waiting in E as [_ E].
  eapply wait_owner_iff in E as ->; [|done]. destruct o as [q|q]; [by auto|].
  destruct (decide (q = p)) as [->|Hq]; [rewrite hd_owner; by auto|]. left. apply option_eq. intros u. by apply hd_owner_other.
Qed.
End handed_over.

(** Releasing a mutex nobody waits for. *)
Lemma released_ok {since} s s' c p :
  system_ok_at since s → mtx_owner (mutex s p) = Some c → waiting s (SMutex p) = [] →
  owns_step s s' c (filter (λ q, q ≠ p) (owned s c)) →
  system_ok_at since s' ∧ mtx_owner (mutex s' p) = None.
Proof.
  intros [Hok Hh Hin Hch] Ho Ew Hst. pose proof (os_kernel _ _ _ _ Hst Hok) as Hok'.
  assert (∀ u, created s' u ↔ created s u) as Hcr by (intros u; apply identity_created, (os_identity _ _ _ _ Hst)).
  assert (∀ q u, mtx_owner (mutex s' q) = Some u ↔ q ≠ p ∧ mtx_owner (mutex s q) = Some u) as Hown.
  { intros q u. rewrite (os_owner _ _ _ _ Hst). case_decide as E; rewrite ?list_elem_of_filter.
    - subst u. by rewrite (owned_owner s c q (ho_owns s Hh)).
    - rewrite (owned_owner s u q (ho_owns s Hh)). naive_solver congruence. }
  split.
  2: { destruct (mtx_owner (mutex s' p)) as [u|] eqn:E; [|done]. by apply Hown in E as []. }
  split; [done|split| |].
  - apply Hst.
  - intros q u [_ Hu]%Hown. apply Hcr. by apply (ho_owner s Hh q).
  - intros u. rewrite Hcr, (os_base _ _ _ _ Hst). apply (ho_base s Hh).
  - intros q. rewrite (os_waiting _ _ _ _ Hst). destruct (decide (q = p)) as [->|Hq]; [by rewrite Ew|].
    intros Hne%(ho_waited s Hh). destruct (mtx_owner (mutex s q)) as [u|] eqn:E; [|done]. by rewrite (proj2 (Hown q u)).
  - intros q u. rewrite (os_waiting _ _ _ _ Hst), (os_owned _ _ _ _ Hst). intros Hu%(ho_room s Hh q).
    case_decide; [subst u|done]. pose proof (length_filter (λ q, q ≠ p) (owned s c)). lia.
  - intros u. rewrite (os_priority _ _ _ _ Hst), Hin. destruct (decide (u = c)) as [->|Hne].
    + apply (required_add s' s c p); [symmetry; apply (os_base _ _ _ _ Hst)| | | |intros v; symmetry; apply (os_priority _ _ _ _ Hst)].
      * intros q. rewrite (os_owned _ _ _ _ Hst), decide_True, list_elem_of_filter by done.
        pose proof (proj2 (owned_owner s c p (ho_owns s Hh)) Ho). destruct (decide (q = p)); naive_solver.
      * intros q v _. by rewrite (os_waiting _ _ _ _ Hst).
      * intros v. rewrite Ew. by intros ?%elem_of_nil.
    + symmetry. apply required_ext; [apply (os_base _ _ _ _ Hst)| | |apply (os_priority _ _ _ _ Hst)].
      * by rewrite (os_owned _ _ _ _ Hst), decide_False.
      * intros q v _. by rewrite (os_waiting _ _ _ _ Hst).
  - intros u. destruct (Hch u) as [l Hl]. exists l. apply (wait_chain_ext s); [|done].
    intros v. rewrite !blocker_waits, (os_wait_owner _ _ _ _ Hst) by done.
    destruct (w_owner (wait_node s v)) as [[q|q]|] eqn:E; [done| |done].
    eapply wait_owner_iff in E; [|done]. assert (q ≠ p) by (intros ->; rewrite Ew in E; by apply elem_of_nil in E).
    apply option_eq. intros x. rewrite Hown. naive_solver.
Qed.
(** ** Unlocking *)

(** [s'] and [s] differ, if at all, in priorities and in what is no business of
    mutexes. *)
Record same_view (s s' : kernel) : Prop := {
  sv_task u : (task s' u) <| priority := 0 |> = (task s u) <| priority := 0 |>;
  sv_runnable u : runnable s u = true → runnable s' u = true;
  sv_owned u : owned s' u = owned s u;
  sv_owner q : mtx_owner (mutex s' q) = mtx_owner (mutex s q);
  sv_delay : delay_list s' = delay_list s;
  sv_waiting o u : u ∈ waiting s' o ↔ u ∈ waiting s o
}.

Lemma same_view_trans s1 s2 s3 : same_view s1 s2 → same_view s2 s3 → same_view s1 s3.
Proof.
  intros [A1 A2 A3 A4 A5 A6] [B1 B2 B3 B4 B5 B6]. split; [intros; by rewrite B1|auto|intros; by rewrite B3|intros; by rewrite B4|congruence|].
  intros o u. by rewrite B6.
Qed.

Lemma same_view_reprioritized {since} s s' : kernel_ok_at since s → held_ok s → kernel_ok_at since s' → reprioritized s s' → same_view s s'.
Proof.
  intros Hok Hh Hok' Hr. destruct (reprioritized_owns s s' Hr (ho_owns s Hh)) as [_ Ho]. split; [apply Hr| |done| | |apply Hr].
  - intros u Hu. pose proof (ko_task s' Hok' u) as Ht. unfold task_ok in Ht.
    rewrite (reprioritized_task state s s' u Hr) in Ht by done.
    by destruct (runnable_state s u Hu) as [E|[_ E]]; rewrite E in Ht.
  - intros q. by rewrite (reprioritized_mutex s s' q Hr).
  - apply (rp_delay_list s s' Hok Hr). apply Hok'.
Qed.

Lemma same_view_scheduling s s' : held_ok s → same_scheduling s s' → k_mutexes s' = k_mutexes s → same_view s s'.
Proof.
  intros Hh Hs Em. destruct (same_scheduling_views s s' Hs) as (Et&_&Ed&Ew&_).
  assert (∀ q, mutex s' q = mutex s q) as Hm by (intros q; unfold mutex; by rewrite Em).
  destruct (owns_ok_ext s s') as [_ Ho]; [done|intros t; by rewrite Et|apply Hh|].
  split; [intros u; by rewrite Et|intros u; by rewrite (runnable_same s s' u Hs)|done|intros q; by rewrite Hm|done|].
  intros o u. by rewrite Ew.
Qed.

(** The mutex went to the first of its waiters, or to nobody. *)
Definition passed_on (s s' : kernel) (c : task_ptr) (p : Z) : Prop :=
  owned s' c = filter (λ q, q ≠ p) (owned s c) ∧
  match waiting s (SMutex p) with
  | [] => mtx_owner (mutex s' p) = None ∧ ∀ u, unchained ((task s' u) <| priority := 0 |>) = unchained ((task s u) <| priority := 0 |>)
  | w :: ts =>
      mtx_owner (mutex s' p) = Some w ∧ owned s' w = owned s w ++ [p] ∧
      wait (task s' w) = mk_wait RTS_WAIT_NONE RTS_WAIT_RESULT_ACQUIRED 0 None false ∧ runnable s' w = true ∧
      delay_list s' = filter (λ u, u ≠ w) (delay_list s) ∧ (∀ u, u ∈ waiting s' (SMutex p) ↔ u ∈ ts) ∧
      ∀ u, u ≠ w → unchained ((task s' u) <| priority := 0 |>) = unchained ((task s u) <| priority := 0 |>)
  end.

Lemma passed_on_view s s1 s2 c p : passed_on s s1 c p → same_view s1 s2 → passed_on s s2 c p.
Proof.
  intros [Hc Hw] Hv. split; [by rewrite (sv_owned _ _ Hv)|]. pose proof (sv_task _ _ Hv) as Ht.
  destruct (waiting s (SMutex p)) as [|w ts].
  - destruct Hw as [Ho Hu]. rewrite (sv_owner _ _ Hv). split; [done|]. intros u. by rewrite Ht.
  - destruct Hw as (W1&W2&W3&W4&W5&W6&W7). split_and!.
    + by rewrite (sv_owner _ _ Hv).
    + by rewrite (sv_owned _ _ Hv).
    + rewrite <- W3. exact (f_equal wait (Ht w)).
    + by apply (sv_runnable _ _ Hv).
    + by rewrite (sv_delay _ _ Hv).
    + intros u. by rewrite (sv_waiting _ _ Hv).
    + intros u Hu. rewrite Ht. auto.
Qed.

Lemma handed_passed_on s s' c w p ts :
  system_ok s → mtx_owner (mutex s p) = Some c → runnable s c = true → waiting s (SMutex p) = w :: ts →
  handed s s' c w p → passed_on s s' c p.
Proof.
  intros Hsy Ho Hc Ew Hd. pose proof (hd_other s c w p ts Hsy Hc Ew) as Hne. pose proof (hd_step _ _ _ _ _ Hd) as Hk.
  split; [by rewrite (hd_owned _ _ _ _ _ Hd), decide_False, decide_True by done|]. rewrite Ew. split_and!.
  - by apply (hd_owner s s' c).
  - by rewrite (hd_owned _ _ _ _ _ Hd), decide_True.
  - apply Hd.
  - apply Hd.
  - apply (ks_delay _ _ _ _ _ _ Hk).
  - intros u. rewrite (ks_wait _ _ _ _ _ _ Hk). unfold unwaited. rewrite decide_True, Ew by done.
    pose proof (ww_nodup s (wok_wf s (ko_waits s (sy_kernel s Hsy))) (SMutex p)) as Hnd. rewrite Ew in Hnd.
    by rewrite (filter_ne_mid [] ts w Hnd).
  - intros u Hu. pose proof (ks_kept _ _ _ _ _ _ Hk u Hu) as E. apply (f_equal (λ x, x <| priority := 0 |>)) in E. exact E.
Qed.

Lemma released_passed_on s s' c p :
  waiting s (SMutex p) = [] → owns_step s s' c (filter (λ q, q ≠ p) (owned s c)) → mtx_owner (mutex s' p) = None →
  passed_on s s' c p.
Proof.
  intros Ew Hst Ho. split; [by rewrite (os_owned _ _ _ _ Hst), decide_True|]. rewrite Ew. split; [done|].
  intros u. pose proof (os_task _ _ _ _ Hst u) as E. apply (f_equal (λ x, x <| priority := 0 |>)) in E. exact E.
Qed.
(** Before the recomputation: only [c] may run at too high a priority. *)
Record unlocking (s s' : kernel) (c : task_ptr) (p : Z) : Prop := {
  ul_kernel : kernel_ok s';
  ul_held : held_ok s';
  ul_inherits u : u ≠ c → priority (task s' u) = required s' u;
  ul_chains u : ∃ l, wait_chain s' u l;
  ul_passed : passed_on s s' c p;
  ul_nesting : same_nesting s s';
  ul_fields : outside true s' = outside true s;
  ul_created : created s' c
}.

Lemma release_or_handoff_spec s c p :
  system_ok s → mtx_owner (mutex s p) = Some c → runnable s c = true →
  wp (if bool_decide (wo_head (waiters s (SMutex p)) ≠ None) then rts_mutex_handoff p ;;; ret tt else rts_mutex_owner_unlink p)
     (λ _ s', unlocking s s' c p) s.
Proof.
  intros Hsy Ho Hr. pose proof Hsy as [Hok Hh Hin Hch]. pose proof (ho_owner s Hh p c Ho) as Hcr.
  rewrite (ww_storage s (wok_wf s (ko_waits s Hok))). cbn [wo_head]. destruct (waiting s (SMutex p)) as [|w ts] eqn:E; cbn [first_or].
  - rewrite bool_decide_false by (by intros []). destruct (owned_split s c p (ho_owns s Hh) Ho) as (l1&l2&El).
    assert (filter (λ q, q ≠ p) (owned s c) = l1 ++ l2) as Ef.
    { rewrite El. apply filter_ne_mid. rewrite <- El. by apply owned_nodup, Hh. }
    eapply wp_mono; [by apply (rts_mutex_owner_unlink_spec s p c l1 l2), El; apply Hh|]. intros [] s' Hst. rewrite <- Ef in Hst.
    destruct (released_ok s s' c p Hsy Ho E Hst) as [[Hok' Hh' Hin' Hch'] Ho'].
    assert (k_current_tick s' = k_current_tick s) as Et by by destruct (os_frame _ _ _ _ Hst) as (ms&ts&->).
    rewrite <- Et in Hok'.
    split; try done; [by apply released_passed_on|by destruct (os_frame _ _ _ _ Hst) as (ms&ts&->)..|].
    by rewrite (identity_created s s' c) by apply (os_identity _ _ _ _ Hst).
  - rewrite bool_decide_true by done. apply wp_bind. eapply wp_mono; [by eapply rts_mutex_handoff_spec|].
    intros r s' Hd. apply wp_ret. pose proof (hd_step _ _ _ _ _ Hd) as Hk. split; [apply Hd|..].
    + by eapply handed_held.
    + intros u Hu. by eapply handed_inherits.
    + by eapply handed_chains.
    + by eapply handed_passed_on.
    + apply (ks_nesting _ _ _ _ _ _ Hk).
    + apply (ks_outside _ _ _ _ _ _ Hk).
    + by rewrite (identity_created s s' c) by apply (hd_identity _ _ _ _ _ Hd).
Qed.

(** What unlocking does, as a specification. *)
Definition unlocked (s s' : kernel) (c : task_ptr) (p : Z) (st : rts_status_t) : Prop :=
  system_ok s' ∧
  if decide (mtx_owner (mutex s p) = Some c) then
    st = RTS_STATUS_OK ∧ passed_on s s' c p ∧
    ∃ n, head (fp_ready s') = Some n ∧ k_switch_plan s' = (plan_prepared c n (k_switch_plan s)).1
  else st = RTS_STATUS_INVALID_STATE ∧ untouched s s'.

(** The recomputations and the plan at the end of rts_mutex_unlock. *)
Lemma unlock_finish s s1 c p (Q : rts_status_t → kernel → Prop) :
  0 ≤ host_critical_depth (k_port s) < RTS_HOST_CRITICAL_NESTING_MAX - 1 →
  host_switch_request_count (k_port s) < SIZE_MAX → k_current_task s = Some c →
  unlocking (upd_port port_entered s) s1 c p →
  (∀ s', same_nesting s s' → system_ok s' → passed_on s s' c p →
     (∃ n, head (fp_ready s') = Some n ∧ k_switch_plan s' = (plan_prepared c n (k_switch_plan s)).1) → Q RTS_STATUS_OK s') →
  wp (RTS_FATAL_UNLESS (rts_priority_recompute_chain (Some c)) ;;;
      let* owner := gets (λ s, mtx_owner (mutex s p)) in
      when (bool_decide (owner ≠ None)) (RTS_FATAL_UNLESS (rts_priority_recompute_chain owner)) ;;;
      let* notify_port := rts_mutex_plan_final in
      rts_kernel_lock_exit (critical_token (k_port s)) ;;;
      notify_port_if notify_port ;;;
      ret RTS_STATUS_OK) Q s1.
Proof.
  intros Hroom Hreq Hc [Hok1 Hh1 Hin1 Hch1 Hp1 Hn1 Hf1 Hcr1] HQ.
  assert (∀ s2, same_nesting s1 s2 → port_room s2) as Hrooms.
  { intros s2 (E2&_). destruct Hn1 as (E1&_). unfold port_room. rewrite E2, E1. cbn. lia. }
  assert (∀ s2, system_ok_at (k_current_tick s1) s2 → reprioritized s1 s2 →
    wp (let* notify_port := rts_mutex_plan_final in
        rts_kernel_lock_exit (critical_token (k_port s)) ;;; notify_port_if notify_port ;;; ret RTS_STATUS_OK) Q s2) as Hend.
  { intros s2 Hsy2' Hr2. assert (system_ok s2) as Hsy2 by by rewrite (reprioritized_field k_current_tick s1 s2 Hr2).
    pose proof (sy_kernel s2 Hsy2) as Hok2.
    assert (∀ A (f : kernel → A), (∀ s, f (outside true s) = f s) → (∀ s, f (unprioritized s) = f s) → f s2 = f (upd_port port_entered s)) as Hfield.
    { intros A f F1 F2. rewrite (reprioritized_field f s1 s2 Hr2 F2), <- (F1 s1), Hf1, F1. done. }
    assert (k_current_task s2 = Some c) as Hc2 by (rewrite (Hfield _ k_current_task); done).
    destruct (plan_after_wake_run s2 c Hok2 Hc2) as (n&Hn&Hrun). apply wp_bind. eapply wp_run; [exact Hrun|].
    destruct (prepared_frame c n s2) as (pl&cs&Epr). destruct (same_scheduling_views _ _ (prepared_same c n s2)) as (_&Eq&_).
    assert (system_ok (prepared c n s2)) as Hsy3.
    { apply (system_ok_same s2); [done|apply prepared_same|by rewrite Epr|]. by apply kernel_ok_prepared. }
    eapply wp_mono; [apply (leave_and_notify_spec s); [lia| |]|].
    - rewrite Epr. eapply same_nesting_trans; [exact Hn1|apply (rp_nesting _ _ Hr2)].
    - rewrite Epr. cbn. by rewrite (Hfield _ (λ s, host_switch_request_count (k_port s))).
    - intros st s' (->&Hns&f&->). apply HQ; [done|by apply system_ok_port| |exists n; split].
      + assert (same_view s1 (upd_port f (prepared c n s2))) as Hv.
        { eapply same_view_trans; [eapply (same_view_reprioritized s1 s2); [exact Hok1|done|apply Hsy2'|done]|].
          apply same_view_scheduling; [apply Hsy2| |by rewrite Epr]. destruct (prepared_same c n s2). by split. }
        exact (passed_on_view _ _ _ _ _ Hp1 Hv).
      + change (fp_ready (upd_port f ?x)) with (fp_ready x). rewrite <- Hn. f_equal. apply fp_order_ext. intros q _. by rewrite Eq.
      + change (k_switch_plan (upd_port f ?x)) with (k_switch_plan x). rewrite prepared_plan. by rewrite (Hfield _ k_switch_plan). }
  eapply wp_recompute; [exact Hok1|done|by apply Hrooms, same_nesting_refl|done|done|done|]. intros s2 Hsy2 Hr2. apply wp_bind, wp_gets.
  destruct (mtx_owner (mutex s2 p)) as [w|] eqn:Ew; [|by apply wp_bind, wp_ret, Hend].
  rewrite bool_decide_true by done. cbn [when]. pose proof Hsy2 as [Hok2 Hh2 Hin2 Hch2].
  eapply wp_recompute; [exact Hok2|done|by apply Hrooms, Hr2|by apply (ho_owner s2 Hh2 p)|done|auto|].
  intros s3 Hsy3 Hr3. apply Hend; [done|]. by eapply reprioritized_trans.
Qed.
(** C5: Unlocking a mutex meets its specification.  Only the owner can unlock;
    the mutex leaves the mutexes it owns and goes, without ever being free, to
    the first waiter (highest priority, longest waiting), which becomes runnable
    with result ACQUIRED and its timeout cancelled, or becomes free if nobody
    waits; nothing else of any task changes but effective priorities, and these
    are again exactly the required ones for every task; the switch plan is made
    for the highest ready task.  Other callers get INVALID_STATE and change
    nothing. *)
Theorem mutex_unlock_correct s c p :
  system_ok s → caller_ok s → mutex_ok s p → k_current_task s = Some c →
  state (task s c) = RTS_TASK_STATE_RUNNING →
  wp (rts_mutex_unlock (Some p)) (λ st s', same_nesting s s' ∧ unlocked s s' c p st) s.
Proof.
  intros Hsy [Hisr Hroom Hreq] Hm Hc Hst. pose proof (sy_kernel s Hsy) as Hok.
  pose proof (current_running_facts s c Hok Hc Hst) as Hr. unfold rts_mutex_unlock, rts_port_is_in_isr.
  apply wp_bind, wp_gets. rewrite Hisr. apply wp_bind, wp_gets.
  rewrite bool_decide_true by apply (ko_live s Hok). cbn [negb].
  apply wp_bind. eapply wp_run; [apply rts_port_critical_enter_run; lia|].
  set (s0 := upd_port port_entered s). pose proof (system_ok_port port_entered s Hsy : system_ok s0) as Hsy0.
  cbv zeta. apply wp_bind. eapply wp_run; [by eapply rts_mutex_is_valid_run; [apply Hsy0..|]|]. cbn [negb].
  apply wp_bind, wp_gets, wp_bind. eapply wp_run; [apply rts_scheduler_current_get_run|].
  change (k_current_task s0) with (k_current_task s). change (mutex s0 p) with (mutex s p). rewrite Hc.
  unfold unlocked. destruct (decide (mtx_owner (mutex s p) = Some c)) as [Ho|Ho].
  - rewrite (bool_decide_true _ Ho), Ho. cbn [negb]. apply wp_bind, wp_gets, wp_bind.
    eapply wp_mono; [by apply (release_or_handoff_spec s0 c p)|]. intros [] s1 Hu.
    apply (unlock_finish s s1 c p); [done..|]. intros s' Hn Hsy' Hp Hplan. by split_and!.
  - rewrite (bool_decide_false _ Ho). cbn [negb]. apply wp_leave; [lia|]. intros f Hn.
    split_and!; [done|by do 2 apply system_ok_port|done|apply untouched_port..].
Qed.
End release.
