(* ===== verification/Dispatch.v ===== *)
(** * The invariant across a context switch

    Moving the processor from the current task to the planned one, and saving
    the stack pointer of the task that is left, keep the invariant of the kernel
    and of its mutexes. *)

From S2P Require Import Prelude Machine Config Types Links IntrusiveList KernelLists Time ReadyQueue.
From S2P Require Import DelayQueue HostPort Diagnostics TaskPool Policy PolicySpec WaitObject Scheduler.
From S2P Require Import SwitchSpec KernelSpec StoreCheck TaskApi TaskApiSpec Blocking Semaphore SemaphoreSpec.
From S2P Require Import Inheritance Mutex MutexSpec SystemSpec MutexCalls.

Section dispatch.
Context `{ConfigOk} `{!BitmapPolicy} {since : Z}.

(** ** Moving the processor *)

Lemma blocked_view s s' t :
  same_task_view s s' t → state (task s' t) = state (task s t) →
  blocked_delay s' t = blocked_delay s t ∧ blocked_wait s' t = blocked_wait s t.
Proof.
  intros [Ec Er Ed Ew Ei Es] Est.
  unfold blocked_delay, blocked_wait, blocked_service, blocked_sync, task_has_context, policy_valid, policy_linked, edf_linked,
    rts_scheduler_task_is_timer_service, magic_is_valid, delayed.
  rewrite Er, Ed, Ew, Ei, Es, Est.
  destruct (task s' t) as [], (task s t) as []. injection Ec as -> -> -> -> -> -> -> -> -> -> -> -> -> -> -> -> -> -> ->. done.
Qed.

Section switched.
Context (s s' : kernel) (c n : task_ptr).
Context (Hok : kernel_ok_at since s) (Hsw : switched s s' c n) (Hne : c ≠ n).
Context (Hc : k_current_task s = Some c) (Hn : state (task s n) = RTS_TASK_STATE_READY).

Lemma switched_core {A} (f : rts_tcb → A) u : (∀ x, f (task_core x) = f x) → f (task s' u) = f (task s u).
Proof. intros Hf. by rewrite <- (Hf (task s' u)), (sw_core _ _ _ _ Hsw u), Hf. Qed.

Lemma switched_state u : u ≠ c → u ≠ n → state (task s' u) = state (task s u).
Proof. intros Hu1 Hu2. by rewrite (sw_others _ _ _ _ Hsw). Qed.

Lemma switched_task_ok u : task_ok s' u.
Proof.
  pose proof (switched_view _ _ _ _ u Hsw) as Hv. pose proof (ko_task s Hok u) as Ht.
  assert (state (task s u) = RTS_TASK_STATE_READY ∨ state (task s u) = RTS_TASK_STATE_RUNNING → runnable s u = true) as Hrun.
  { unfold task_ok in Ht. by intros [E|E]; rewrite E in Ht. }
  destruct (decide (u = n)) as [->|Hun].
  { unfold task_ok. rewrite (sw_entered _ _ _ _ Hsw).
    eapply runnable_view; [exact Hv|auto|]. right. split; [apply Hsw|apply (sw_entered _ _ _ _ Hsw)]. }
  assert (runnable s u = true → state (task s' u) = RTS_TASK_STATE_READY → runnable s' u = true) as Hready.
  { intros Hr E. eapply runnable_view; eauto. }
  assert (state (task s' u) = state (task s u) ∨ state (task s u) = RTS_TASK_STATE_RUNNING ∧ state (task s' u) = RTS_TASK_STATE_READY) as Hst.
  { destruct (decide (u = c)) as [->|Huc]; [|left; by apply switched_state].
    rewrite (sw_left _ _ _ _ Hsw). case_decide; auto. }
  destruct Hst as [E|[E1 E2]]; [|unfold task_ok; rewrite E2; auto].
  destruct (blocked_view s s' u Hv E) as [E1 E2]. destruct Hv as [_ Er Ed Ew _ _]. unfold task_ok, unready in *. rewrite E.
  destruct (state (task s u)) eqn:Es; [|auto| |].
  - by rewrite Er, Ed, Ew, (switched_core wait u (λ _, eq_refl)).
  - exfalso. destruct (decide (u = c)) as [->|Huc].
    + rewrite (sw_left _ _ _ _ Hsw), decide_True in E by done. congruence.
    + pose proof (runnable_state s u (Hrun ltac:(by right))) as [?|[? _]]; congruence.
  - by rewrite Er, E1, E2.
Qed.

Lemma kernel_ok_switched : kernel_ok_at since s'.
Proof.
  apply (kernel_ok_tests_at s); try done; try apply Hsw.
  - intros u. by apply switched_core.
  - intros u. by apply switched_core.
  - intros u. by apply switched_core.
  - apply same_task_lists_heap; [apply (ko_ready s Hok)|apply Hsw].
  - apply switched_task_ok.
  - destruct (decide (n = TIdle)) as [E|Hni]; [rewrite <- E; right; apply Hsw|].
    destruct (decide (c = TIdle)) as [E|Hci]; [|by rewrite (sw_others _ _ _ _ Hsw) by done; apply (ko_idle_state s Hok)].
    rewrite <- E, (sw_left _ _ _ _ Hsw). case_decide; [by left|]. rewrite E. apply (ko_idle_state s Hok).
  - exists n. split; [apply Hsw|]. apply outgoing_intro; [apply Hsw|apply switched_task_ok|left; apply Hsw].
  - apply plan_ok_idle; by rewrite (sw_plan _ _ _ _ Hsw).
Qed.

Lemma system_ok_switched : system_ok_at since s → system_ok_at since s'.
Proof.
  intros Hsy. apply (system_ok_members s); [done|apply kernel_ok_switched| | |apply Hsw].
  - intros u. by apply switched_core.
  - intros o. unfold waiting, waiters, wlinks, wait_node. by rewrite (sw_waiters _ _ _ _ Hsw), (sw_wait_nodes _ _ _ _ Hsw).
Qed.
End switched.

(** ** Saving a stack pointer *)

Definition resaved (c : task_ptr) (v : Z) (s : kernel) : kernel := upd_task c (λ x, x <| saved_stack_pointer := v |>) s.

Section resaved.
Context (s : kernel) (c : task_ptr) (v : Z) (Hv : v ≠ 0) (Hold : saved_stack_pointer (task s c) ≠ 0).

Lemma resaved_task {A} (f : rts_tcb → A) u :
  (∀ x, f (x <| saved_stack_pointer := v |>) = f x) → f (task (resaved c v s) u) = f (task s u).
Proof. clear Hv Hold. intros Hf. unfold resaved. rewrite task_upd_task. case_decide; subst; [apply Hf|done]. Qed.

Lemma resaved_context u : task_has_context (task (resaved c v s) u) = task_has_context (task s u).
Proof.
  unfold resaved. rewrite task_upd_task. case_decide as E; [subst u|done]. unfold task_has_context. cbn.
  by rewrite (proj2 (Z.eqb_neq _ 0) Hv), (proj2 (Z.eqb_neq _ 0) Hold).
Qed.

Lemma resaved_tests u :
  runnable (resaved c v s) u = runnable s u ∧ blocked_delay (resaved c v s) u = blocked_delay s u ∧
  blocked_wait (resaved c v s) u = blocked_wait s u ∧ outgoing (resaved c v s) u = outgoing s u.
Proof.
  assert (runnable (resaved c v s) u = runnable s u ∧ blocked_delay (resaved c v s) u = blocked_delay s u ∧
    blocked_wait (resaved c v s) u = blocked_wait s u) as (E1&E2&E3).
  { unfold runnable, blocked_delay, blocked_wait, blocked_service, blocked_sync, policy_valid, policy_linked, edf_linked,
      runnable_identity_state, task_waits_for_nothing, rts_scheduler_task_is_idle, rts_scheduler_task_is_timer_service,
      magic_is_valid, delayed.
    cbv zeta. rewrite !resaved_context. unfold resaved. rewrite !task_upd_task.
    case_decide as E; [subst u|done]. done. }
  split_and!; try done. unfold outgoing. rewrite E1, E2, E3, (resaved_task state u (λ _, eq_refl)). done.
Qed.

Lemma kernel_ok_resaved : kernel_ok_at since s → kernel_ok_at since (resaved c v s).
Proof.
  intros Hok. apply (kernel_ok_tests_at s); try done.
  - intros u. by apply resaved_task.
  - intros u. by apply resaved_task.
  - intros u. by apply resaved_task.
  - by apply same_task_lists_heap; [apply (ko_ready s Hok)|].
  - intros u. destruct (resaved_tests u) as (E1&E2&E3&_). pose proof (ko_task s Hok u) as Ht. unfold task_ok, unready in *.
    by rewrite (resaved_task state u (λ _, eq_refl)), (resaved_task wait u (λ _, eq_refl)), E1, E2, E3.
  - rewrite (resaved_task state TIdle (λ _, eq_refl)). apply (ko_idle_state s Hok).
  - destruct (ko_current s Hok) as (d&Hd&Ho). exists d. destruct (resaved_tests d) as (_&_&_&E). by rewrite E.
  - by apply (plan_ok_frame s), (ko_plan s Hok).
Qed.

Lemma system_ok_resaved : system_ok_at since s → system_ok_at since (resaved c v s).
Proof.
  intros Hsy. apply (system_ok_members s); try done; [apply kernel_ok_resaved, Hsy|].
  intros u. by apply resaved_task.
Qed.
End resaved.
End dispatch.
