(* ===== verification/CallbackQueue.v ===== *)
(** * The callback-work ring (kernel/timer_callback_queue.c) *)

From S2P Require Import Prelude Machine Config Types Ring.

Section callback_queue_code.
Context `{Config}.
Implicit Types (work : rts_timer_callback_work) (timer_arg : option Z).

Definition upd_cq (f : rts_timer_callback_queue → rts_timer_callback_queue) (s : kernel) : kernel :=
  s <| k_callback_queue := f (k_callback_queue s) |>.
Definition cq_item (s : kernel) (index : Z) : rts_timer_callback_work :=
  cq_items (k_callback_queue s) !!! index.
Definition set_cq_item (index : Z) work : K unit :=
  modify (upd_cq (λ q, q <| cq_items := <[index := work]> (cq_items q) |>)).
Definition zero_work : rts_timer_callback_work := mk_callback_work None 0 0 0.

Definition rts_timer_callback_queue_next (index : Z) : Z :=
  if index + 1 =? RTS_TIMER_CALLBACK_QUEUE_CAPACITY then 0 else index + 1.

Definition rts_timer_callback_queue_initialize : K unit :=
  for_each (seqZ 0 RTS_TIMER_CALLBACK_QUEUE_CAPACITY) (λ index, set_cq_item index zero_work) ;;;
  modify (upd_cq (λ q, q <| cq_head := 0 |>)) ;;;
  modify (upd_cq (λ q, q <| cq_tail := 0 |>)) ;;;
  modify (upd_cq (λ q, q <| cq_count := 0 |>)) ;;;
  modify (upd_cq (λ q, q <| cq_maximum_depth := 0 |>)).

Definition rts_timer_callback_queue_enqueue work : K bool :=
  let* refused := gets (λ s, bool_decide (work_timer work = None) ||
    (RTS_TIMER_CALLBACK_QUEUE_CAPACITY <=? cq_count (k_callback_queue s))) in
  if refused then ret false else
  let* tail := gets (λ s, cq_tail (k_callback_queue s)) in
  set_cq_item tail work ;;;
  modify (upd_cq (λ q, q <| cq_tail ::= rts_timer_callback_queue_next |>)) ;;;
  modify (upd_cq (λ q, q <| cq_count ::= Z.succ |>)) ;;;
  modify (upd_cq (λ q, if cq_maximum_depth q <? cq_count q
                       then q <| cq_maximum_depth := cq_count q |> else q)) ;;;
  ret true.

(** [None] when the function returns false, else the work it stores. *)
Definition rts_timer_callback_queue_dequeue : K (option rts_timer_callback_work) :=
  let* empty := gets (λ s, cq_count (k_callback_queue s) =? 0) in
  if empty then ret None else
  let* head := gets (λ s, cq_head (k_callback_queue s)) in
  let* work := gets (λ s, cq_item s head) in
  set_cq_item head zero_work ;;;
  modify (upd_cq (λ q, q <| cq_head ::= rts_timer_callback_queue_next |>)) ;;;
  modify (upd_cq (λ q, q <| cq_count ::= Z.pred |>)) ;;;
  ret (Some work).

(** The compaction loop: [n] items are left to read; the result is the final
    write index, the number kept and the number removed. *)
Fixpoint rts_timer_callback_queue_compact (t : Z) (read_index write_index kept removed : Z) (n : nat) :
    K (Z * Z * Z) :=
  match n with
  | O => ret (write_index, kept, removed)
  | S n' =>
      let* work := gets (λ s, cq_item s read_index) in
      let read_index := rts_timer_callback_queue_next read_index in
      if bool_decide (work_timer work = Some t) then
        rts_timer_callback_queue_compact t read_index write_index kept (Z.succ removed) n'
      else
        set_cq_item write_index work ;;;
        rts_timer_callback_queue_compact t read_index (rts_timer_callback_queue_next write_index)
          (Z.succ kept) removed n'
  end.

(** The loop that clears the vacated items. *)
Fixpoint rts_timer_callback_queue_clear (write_index : Z) (n : nat) : K unit :=
  match n with
  | O => ret tt
  | S n' =>
      set_cq_item write_index zero_work ;;;
      rts_timer_callback_queue_clear (rts_timer_callback_queue_next write_index) n'
  end.

Definition rts_timer_callback_queue_remove_timer timer_arg : K Z :=
  match timer_arg with
  | None => ret 0
  | Some t =>
      let* original_count := gets (λ s, cq_count (k_callback_queue s)) in
      let* head := gets (λ s, cq_head (k_callback_queue s)) in
      let* '(new_tail, kept, removed) :=
        rts_timer_callback_queue_compact t head head 0 0 (Z.to_nat original_count) in
      rts_timer_callback_queue_clear new_tail (Z.to_nat (original_count - kept)) ;;;
      modify (upd_cq (λ q, q <| cq_count := kept |>)) ;;;
      modify (upd_cq (λ q, q <| cq_tail := new_tail |>)) ;;;
      ret removed
  end.

(** The items from [index], [n] of them. *)
Fixpoint cq_read (s : kernel) (index : Z) (n : nat) : list rts_timer_callback_work :=
  match n with
  | O => []
  | S n' => cq_item s index :: cq_read s (rts_timer_callback_queue_next index) n'
  end.
Fixpoint cq_index_after (index : Z) (n : nat) : Z :=
  match n with O => index | S n' => cq_index_after (rts_timer_callback_queue_next index) n' end.

Definition rts_timer_callback_queue_count_for (s : kernel) timer_arg : Z :=
  match timer_arg with
  | None => 0
  | Some t =>
      Z.of_nat (length (filter (λ w, work_timer w = Some t)
        (cq_read s (cq_head (k_callback_queue s)) (Z.to_nat (cq_count (k_callback_queue s))))))
  end.

Definition rts_timer_callback_queue_validate (s : kernel) : bool :=
  let q := k_callback_queue s in
  if (RTS_TIMER_CALLBACK_QUEUE_CAPACITY <=? cq_head q) || (RTS_TIMER_CALLBACK_QUEUE_CAPACITY <=? cq_tail q) ||
     (RTS_TIMER_CALLBACK_QUEUE_CAPACITY <? cq_count q) || (cq_maximum_depth q <? cq_count q) ||
     (RTS_TIMER_CALLBACK_QUEUE_CAPACITY <? cq_maximum_depth q) then false else
  forallb (λ w, bool_decide (work_timer w ≠ None)) (cq_read s (cq_head q) (Z.to_nat (cq_count q))) &&
  (cq_index_after (cq_head q) (Z.to_nat (cq_count q)) =? cq_tail q).
End callback_queue_code.

(** ** The ring as a bounded queue *)

Section callback_queue.
Context `{ConfigOk}.
Abbreviation cap := RTS_TIMER_CALLBACK_QUEUE_CAPACITY.

Definition cq_list (s : kernel) : list rts_timer_callback_work :=
  ring cap (cq_head (k_callback_queue s)) (cq_count (k_callback_queue s)) (cq_items (k_callback_queue s)).

Record cq_ok (s : kernel) : Prop := {
  cq_head_range : 0 ≤ cq_head (k_callback_queue s) < cap;
  cq_count_range : 0 ≤ cq_count (k_callback_queue s) ≤ cap;
  cq_tail_at : cq_tail (k_callback_queue s) =
    (cq_head (k_callback_queue s) + cq_count (k_callback_queue s)) mod cap;
  cq_depth : cq_count (k_callback_queue s) ≤ cq_maximum_depth (k_callback_queue s) ≤ cap;
  cq_timers w : w ∈ cq_list s → work_timer w ≠ None
}.

(** [s'] differs from [s] in the ring only, which is well-formed and holds [l]. *)
Definition cq_step (s s' : kernel) (l : list rts_timer_callback_work) : Prop :=
  cq_ok s' ∧ cq_list s' = l ∧ ∃ q, s' = s <| k_callback_queue := q |>.

Lemma cap_pos : 0 < cap.
Proof. pose proof cfg_timers. pose proof cfg_callback_queue. lia. Qed.

Lemma next_mod index : 0 ≤ index < cap → rts_timer_callback_queue_next index = (index + 1) mod cap.
Proof.
  intros Hi. unfold rts_timer_callback_queue_next. destruct (Z.eqb_spec (index + 1) cap) as [->|].
  - by rewrite Z.mod_same by lia.
  - by rewrite Z.mod_small by lia.
Qed.

Lemma next_mod_add head i :
  rts_timer_callback_queue_next ((head + i) mod cap) = (head + Z.succ i) mod cap.
Proof.
  pose proof cap_pos. rewrite next_mod by (apply Z.mod_pos_bound; lia).
  rewrite Zplus_mod_idemp_l. f_equal. lia.
Qed.

Lemma cq_length s : cq_ok s → Z.of_nat (length (cq_list s)) = cq_count (k_callback_queue s).
Proof. intros Hok. apply ring_length, Hok. Qed.

Lemma rts_timer_callback_queue_enqueue_spec s w :
  cq_ok s → work_timer w ≠ None →
  wp (rts_timer_callback_queue_enqueue w) (λ b s',
    if decide (Z.of_nat (length (cq_list s)) < cap) then b = true ∧ cq_step s s' (cq_list s ++ [w])
    else b = false ∧ s' = s) s.
Proof.
  intros Hok Hw. rewrite cq_length by done. unfold rts_timer_callback_queue_enqueue.
  apply wp_bind, wp_gets. rewrite bool_decide_false by done. cbn [orb].
  destruct Hok as [Hh Hc Ht Hd Hn]. case_decide as Hlt.
  - rewrite (proj2 (Z.leb_gt _ _)) by lia. apply wp_bind, wp_gets. rewrite Ht. unfold set_cq_item.
    do 4 apply wp_bind, wp_modify. apply wp_ret. split; [done|].
    assert (∀ s', k_callback_queue s' = mk_callback_queue
      (<[(cq_head (k_callback_queue s) + cq_count (k_callback_queue s)) mod cap := w]> (cq_items (k_callback_queue s)))
      (cq_head (k_callback_queue s)) ((cq_head (k_callback_queue s) + Z.succ (cq_count (k_callback_queue s))) mod cap)
      (Z.succ (cq_count (k_callback_queue s)))
      (Z.max (cq_maximum_depth (k_callback_queue s)) (Z.succ (cq_count (k_callback_queue s)))) →
      cq_ok s' ∧ cq_list s' = cq_list s ++ [w]) as Hgen.
    { intros s' E. assert (cq_list s' = cq_list s ++ [w]) as El.
      { unfold cq_list. rewrite E. cbn [cq_head cq_count cq_items].
        rewrite <- Z.add_1_r. apply ring_push; [apply cap_pos|lia]. }
      split; [|done]. split; rewrite ?El, ?E; cbn; [done|lia|done|lia|].
      intros u [Hu| ->%list_elem_of_singleton]%elem_of_app; auto. }
    match goal with |- cq_step _ ?s' _ =>
      destruct (Hgen s') as [Hok' Hl']; [|split_and!; [exact Hok'|exact Hl'|by eexists]] end. cbn.
    rewrite Ht, next_mod_add.
    destruct (Z.ltb_spec (cq_maximum_depth (k_callback_queue s)) (Z.succ (cq_count (k_callback_queue s)))).
    + by rewrite Z.max_r by lia.
    + by rewrite Z.max_l by lia.
  - rewrite (proj2 (Z.leb_le _ _)) by lia. by apply wp_ret.
Qed.

Lemma rts_timer_callback_queue_dequeue_spec s :
  cq_ok s →
  wp rts_timer_callback_queue_dequeue (λ r s', r = head (cq_list s) ∧
    if cq_list s is _ :: l then cq_step s s' l else s' = s) s.
Proof.
  intros Hok. pose proof (cq_length s Hok) as Hlen. pose proof cap_pos as Hcap.
  unfold rts_timer_callback_queue_dequeue. apply wp_bind, wp_gets.
  destruct Hok as [Hh Hc Ht Hd Hn]. destruct (Z.eqb_spec (cq_count (k_callback_queue s)) 0) as [E0|E0].
  - destruct (cq_list s) as [|w l] eqn:E; [|simpl in Hlen; lia]. by apply wp_ret.
  - assert (cq_list s = cq_item s (cq_head (k_callback_queue s)) ::
      ring cap ((cq_head (k_callback_queue s) + 1) mod cap) (cq_count (k_callback_queue s) - 1)
        (cq_items (k_callback_queue s))) as El.
    { unfold cq_list. rewrite ring_pop by lia. unfold cq_item. by rewrite Z.mod_small. }
    rewrite El in Hn |- *. do 2 apply wp_bind, wp_gets. unfold set_cq_item. do 3 apply wp_bind, wp_modify.
    apply wp_ret. split; [done|].
    assert (∀ s', k_callback_queue s' = mk_callback_queue
      (<[cq_head (k_callback_queue s) := zero_work]> (cq_items (k_callback_queue s)))
      ((cq_head (k_callback_queue s) + 1) mod cap) (cq_tail (k_callback_queue s))
      (Z.pred (cq_count (k_callback_queue s))) (cq_maximum_depth (k_callback_queue s)) →
      cq_ok s' ∧ cq_list s' = ring cap ((cq_head (k_callback_queue s) + 1) mod cap)
        (cq_count (k_callback_queue s) - 1) (cq_items (k_callback_queue s))) as Hgen.
    { intros s' E. assert (cq_list s' = ring cap ((cq_head (k_callback_queue s) + 1) mod cap)
        (cq_count (k_callback_queue s) - 1) (cq_items (k_callback_queue s))) as El'.
      { unfold cq_list. rewrite E. cbn [cq_head cq_count cq_items]. rewrite <- Z.sub_1_r.
        unfold ring. apply list_fmap_ext. intros k i Hi%lookup_seqZ.
        rewrite lookup_total_insert_ne; [done|]. rewrite Zplus_mod_idemp_l. intros E'.
        assert (0 = 1 + i); [|lia]. apply (ring_index_inj cap Hcap (cq_head (k_callback_queue s))); [lia..|].
        rewrite Z.add_0_r, Z.mod_small by lia. rewrite E'. f_equal. lia. }
      split; [|done]. split; rewrite ?El', ?E; cbn; [apply Z.mod_pos_bound; lia|lia| |lia|].
      - rewrite Ht, Zplus_mod_idemp_l. f_equal. lia.
      - intros u Hu. apply Hn. by right. }
    match goal with |- cq_step _ ?s' _ =>
      destruct (Hgen s') as [Hok' Hl']; [|split_and!; [exact Hok'|exact Hl'|by eexists]] end.
    cbn. by rewrite next_mod.
Qed.

Definition set_items (m : gmap Z rts_timer_callback_work) (s : kernel) : kernel :=
  s <| k_callback_queue := (k_callback_queue s) <| cq_items := m |> |>.

Lemma set_cq_item_run s index w :
  set_cq_item index w s = Done tt (set_items (<[index := w]> (cq_items (k_callback_queue s))) s).
Proof. done. Qed.

Definition keeps (t : Z) (w : rts_timer_callback_work) : Prop := work_timer w ≠ Some t.

(** Compaction: after [i] items were read and [k] of them kept, the first [k]
    places hold the kept ones and the places from [i] on are untouched. *)
Lemma compact_run hd t (L : list rts_timer_callback_work) n : ∀ i k removed s,
  (Z.of_nat i + Z.of_nat n ≤ cap) → (k ≤ i)%nat → (i + n)%nat = length L →
  (∀ j w, (i ≤ j)%nat → L !! j = Some w → cq_item s ((hd + Z.of_nat j) mod cap) = w) →
  ring cap hd (Z.of_nat k) (cq_items (k_callback_queue s)) = filter (keeps t) (take i L) →
  ∃ m k', (k' = length (filter (keeps t) L)) ∧
    rts_timer_callback_queue_compact t ((hd + Z.of_nat i) mod cap) ((hd + Z.of_nat k) mod cap)
      (Z.of_nat k) removed n s =
    Done ((hd + Z.of_nat k') mod cap, Z.of_nat k', removed + (Z.of_nat n - (Z.of_nat k' - Z.of_nat k)))
         (set_items m s) ∧
    ring cap hd (Z.of_nat k') m = filter (keeps t) L.
Proof.
  pose proof cap_pos as Hcap.
  induction n as [|n IH]; intros i k removed s Hb Hki Hi Hrest Hring.
  - rewrite take_ge in Hring by lia.
    exists (cq_items (k_callback_queue s)), k. cbn.
    assert (k = length (filter (keeps t) L)) as Hk.
    { rewrite <- Hring. apply Nat2Z.inj. by rewrite ring_length by lia. }
    split_and!; [done| |done]. unfold ret, set_items. f_equal; [f_equal; lia|by destruct s as [? ? ? ? ? ? ? ? ? ? ? ? ? ? ? ? ? ? [] ? ? ? ? ? ?]].
  - destruct (lookup_lt_is_Some_2 L i) as [w Hw]; [lia|].
    cbn [rts_timer_callback_queue_compact]. rewrite bind_gets, (Hrest i w) by done.
    rewrite !next_mod_add, <- !Nat2Z.inj_succ. case_bool_decide as Hd.
    + destruct (IH (S i) k (Z.succ removed) s) as (m&k'&Hk'&Hrun&Hm); [lia..| | |].
      * intros j v Hj. apply Hrest. lia.
      * rewrite (take_S_r L i w Hw), filter_app, Hring, filter_cons_False, filter_nil, app_nil_r; [done|].
        intros Hk. by apply Hk.
      * exists m, k'. split_and!; [done| |done]. rewrite Hrun. f_equal. f_equal. lia.
    + rewrite (bind_run _ _ _ _ _ (set_cq_item_run _ _ _)).
      set (s1 := set_items _ s).
      assert (filter (keeps t) (take (S i) L) = filter (keeps t) (take i L) ++ [w]) as Ef.
      { rewrite (take_S_r L i w Hw), filter_app, filter_cons_True, filter_nil; [done|exact Hd]. }
      destruct (IH (S i) (S k) removed s1) as (m&k'&Hk'&Hrun&Hm); [lia..| | |].
      * intros j v Hj Hv. unfold s1, cq_item. cbn.
        rewrite lookup_total_insert_ne; [apply (Hrest j v); [lia|done]|].
        intros E. apply (ring_index_inj cap Hcap) in E; [lia|lia|].
        pose proof (lookup_lt_Some L j v Hv). lia.
      * unfold s1. cbn. rewrite Nat2Z.inj_succ, <- Z.add_1_r, ring_push by lia. by rewrite Hring, Ef.
      * exists m, k'. split_and!; [done| |done]. rewrite Nat2Z.inj_succ in Hrun.
        rewrite Nat2Z.inj_succ. rewrite Hrun. unfold s1, set_items. cbn. f_equal. f_equal. lia.
Qed.

Lemma clear_run hd k n : ∀ i s,
  (Z.of_nat k ≤ Z.of_nat i) → Z.of_nat i + Z.of_nat n ≤ cap →
  ∃ m, rts_timer_callback_queue_clear ((hd + Z.of_nat i) mod cap) n s = Done tt (set_items m s) ∧
    ring cap hd (Z.of_nat k) m = ring cap hd (Z.of_nat k) (cq_items (k_callback_queue s)).
Proof.
  pose proof cap_pos as Hcap. induction n as [|n IH]; intros i s Hki Hb.
  - exists (cq_items (k_callback_queue s)). split; [|done]. cbn. unfold ret, set_items. f_equal.
    by destruct s as [? ? ? ? ? ? ? ? ? ? ? ? ? ? ? ? ? ? [] ? ? ? ? ? ?].
  - cbn [rts_timer_callback_queue_clear]. rewrite (bind_run _ _ _ _ _ (set_cq_item_run _ _ _)).
    rewrite next_mod_add, <- Nat2Z.inj_succ.
    destruct (IH (S i) (set_items (<[(hd + Z.of_nat i) mod cap := zero_work]> (cq_items (k_callback_queue s))) s))
      as (m&Hrun&Hm); [lia..|].
    exists m. split; [by rewrite Hrun|]. rewrite Hm. cbn. unfold ring. apply list_fmap_ext.
    intros x y Hy%lookup_seqZ. rewrite lookup_total_insert_ne; [done|].
    intros E. apply (ring_index_inj cap Hcap) in E; lia.
Qed.

Lemma rts_timer_callback_queue_remove_timer_spec s t :
  cq_ok s →
  wp (rts_timer_callback_queue_remove_timer (Some t)) (λ removed s',
    cq_step s s' (filter (keeps t) (cq_list s)) ∧
    removed = Z.of_nat (length (cq_list s)) - Z.of_nat (length (filter (keeps t) (cq_list s)))) s.
Proof.
  intros Hok. pose proof (cq_length s Hok) as Hlen. pose proof (cq_count_range s Hok) as Hc.
  pose proof (cq_head_range s Hok) as Hh.
  destruct (compact_run (cq_head (k_callback_queue s)) t (cq_list s) (length (cq_list s)) 0 0 0 s)
    as (m&k'&Hk'&Hrun&Hm); [lia..| | |].
  { intros j w _ Hj. pose proof (lookup_lt_Some _ _ _ Hj) as Hjl. unfold cq_list in Hj.
    rewrite <- (Nat2Z.id j), ring_lookup in Hj by lia. unfold cq_item. congruence. }
  { done. }
  rewrite Z.add_0_r, (Z.mod_small (cq_head _)) in Hrun by done.
  assert (k' ≤ length (cq_list s))%nat as Hle by (rewrite Hk'; apply length_filter).
  destruct (clear_run (cq_head (k_callback_queue s)) k' (length (cq_list s) - k') k' (set_items m s))
    as (m'&Hrun'&Hm'); [lia..|].
  unfold rts_timer_callback_queue_remove_timer. do 2 apply wp_bind, wp_gets.
  rewrite <- Hlen, Nat2Z.id. apply wp_bind. eapply wp_run; [exact Hrun|]. cbv beta iota.
  replace (Z.to_nat (Z.of_nat (length (cq_list s)) - Z.of_nat k')) with (length (cq_list s) - k')%nat by lia.
  apply wp_bind. eapply wp_run; [exact Hrun'|]. do 2 apply wp_bind, wp_modify. apply wp_ret.
  cbn in Hm'. rewrite Hm in Hm'. split; [|lia].
  assert (∀ s', k_callback_queue s' = mk_callback_queue m' (cq_head (k_callback_queue s))
    ((cq_head (k_callback_queue s) + Z.of_nat k') mod cap) (Z.of_nat k') (cq_maximum_depth (k_callback_queue s)) →
    cq_ok s' ∧ cq_list s' = filter (keeps t) (cq_list s)) as Hgen.
  { intros s' E. assert (cq_list s' = filter (keeps t) (cq_list s)) as El by (unfold cq_list at 1; by rewrite E).
    pose proof (cq_depth s Hok). split; [|done]. split; rewrite ?El, ?E; cbn; [done|lia|done|lia|].
    intros u [_ Hu]%list_elem_of_filter. by apply (cq_timers s Hok). }
  match goal with |- cq_step _ ?s' _ =>
    destruct (Hgen s') as [Hok' Hl']; [done|split_and!; [exact Hok'|exact Hl'|by eexists]] end.
Qed.

(** The read-only operations. *)
Lemma cq_read_ring s hd n : cq_read s (hd mod cap) n = ring cap hd (Z.of_nat n) (cq_items (k_callback_queue s)).
Proof.
  pose proof cap_pos. revert hd. induction n as [|n IH]; intros hd; [done|]. cbn [cq_read].
  rewrite ring_pop by lia. f_equal. rewrite next_mod by (apply Z.mod_pos_bound; lia).
  rewrite Zplus_mod_idemp_l. rewrite IH. replace (Z.of_nat (S n) - 1) with (Z.of_nat n) by lia.
  unfold ring. apply list_fmap_ext. intros k i _. by rewrite Zplus_mod_idemp_l.
Qed.

Lemma cq_read_list s : cq_ok s →
  cq_read s (cq_head (k_callback_queue s)) (Z.to_nat (cq_count (k_callback_queue s))) = cq_list s.
Proof.
  intros [Hh Hc _ _ _]. rewrite <- (Z.mod_small (cq_head _) cap) at 1 by done.
  rewrite cq_read_ring, Z2Nat.id by lia. done.
Qed.

Lemma cq_index_after_mod hd n : cq_index_after (hd mod cap) n = (hd + Z.of_nat n) mod cap.
Proof.
  pose proof cap_pos. revert hd. induction n as [|n IH]; intros hd; cbn [cq_index_after]; [by rewrite Z.add_0_r|].
  rewrite next_mod by (apply Z.mod_pos_bound; lia). rewrite Zplus_mod_idemp_l, IH. f_equal. lia.
Qed.

Lemma rts_timer_callback_queue_validate_ok s : cq_ok s → rts_timer_callback_queue_validate s = true.
Proof.
  intros Hok. pose proof (cq_read_list s Hok) as Er. destruct Hok as [Hh Hc Ht Hd Hn].
  unfold rts_timer_callback_queue_validate.
  assert (0 ≤ cq_tail (k_callback_queue s) < cap) by (rewrite Ht; apply Z.mod_pos_bound; lia).
  rewrite (proj2 (Z.leb_gt _ _)), (proj2 (Z.leb_gt _ _)), !(proj2 (Z.ltb_ge _ _)) by lia. cbn [orb].
  rewrite Er. apply andb_true_iff. split.
  - apply forallb_forall. intros w Hw%list_elem_of_In. apply bool_decide_true. auto.
  - apply Z.eqb_eq. rewrite Ht, <- (Z.mod_small (cq_head (k_callback_queue s)) cap) at 1 by done.
    rewrite cq_index_after_mod, Z2Nat.id by lia. done.
Qed.
End callback_queue.

(** ** Refinement of a bounded FIFO queue *)

Section refinement.
Context `{ConfigOk}.

Inductive cq_op :=
  | CqEnqueue (work : rts_timer_callback_work)
  | CqDequeue
  | CqRemove (t : Z)
  | CqCount (t : Z).

(** What an operation returns: a truth value, a work item or a number. *)
Inductive cq_result := CqBool (b : bool) | CqWork (w : option rts_timer_callback_work) | CqNumber (n : Z).

Definition run_cq_op (op : cq_op) : K cq_result :=
  match op with
  | CqEnqueue w => let* b := rts_timer_callback_queue_enqueue w in ret (CqBool b)
  | CqDequeue => let* r := rts_timer_callback_queue_dequeue in ret (CqWork r)
  | CqRemove t => let* n := rts_timer_callback_queue_remove_timer (Some t) in ret (CqNumber n)
  | CqCount t => gets (λ s, CqNumber (rts_timer_callback_queue_count_for s (Some t)))
  end.
Fixpoint run_cq_ops (ops : list cq_op) : K (list cq_result) :=
  match ops with
  | [] => ret []
  | op :: ops' => let* r := run_cq_op op in let* rs := run_cq_ops ops' in ret (r :: rs)
  end.

(** The queue promised: first in, first out, at most the capacity, and every
    item of one timer can be withdrawn. *)
Definition spec_cq_op (op : cq_op) (l : list rts_timer_callback_work) :
    cq_result * list rts_timer_callback_work :=
  match op with
  | CqEnqueue w =>
      if decide (work_timer w ≠ None ∧ Z.of_nat (length l) < RTS_TIMER_CALLBACK_QUEUE_CAPACITY)
      then (CqBool true, l ++ [w]) else (CqBool false, l)
  | CqDequeue => (CqWork (head l), tail l)
  | CqRemove t =>
      (CqNumber (Z.of_nat (length (filter (λ w, work_timer w = Some t) l))), filter (keeps t) l)
  | CqCount t => (CqNumber (Z.of_nat (length (filter (λ w, work_timer w = Some t) l))), l)
  end.
Fixpoint spec_cq_ops (ops : list cq_op) (l : list rts_timer_callback_work) :
    list cq_result * list rts_timer_callback_work :=
  match ops with
  | [] => ([], l)
  | op :: ops' =>
      let '(r, l1) := spec_cq_op op l in
      let '(rs, l2) := spec_cq_ops ops' l1 in (r :: rs, l2)
  end.

Lemma filter_complement (t : Z) (l : list rts_timer_callback_work) :
  Z.of_nat (length l) - Z.of_nat (length (filter (keeps t) l)) =
  Z.of_nat (length (filter (λ w, work_timer w = Some t) l)).
Proof.
  induction l as [|w l IH]; [done|]. rewrite !filter_cons. unfold keeps at 1.
  destruct (decide (work_timer w = Some t)) as [E|E].
  - rewrite decide_False by (intros Hk; by apply Hk). cbn [length]. lia.
  - rewrite decide_True by done. cbn [length]. lia.
Qed.

Lemma run_cq_op_spec op s :
  cq_ok s →
  wp (run_cq_op op) (λ r s', cq_ok s' ∧ (r, cq_list s') = spec_cq_op op (cq_list s) ∧
    ∃ q, s' = s <| k_callback_queue := q |>) s.
Proof.
  intros Hok. assert (∃ q, s = s <| k_callback_queue := q |>) as Hsame
    by (exists (k_callback_queue s); by destruct s).
  destruct op as [w| |t|t]; cbn [run_cq_op spec_cq_op].
  - destruct (decide (work_timer w = None)) as [E|E].
    + apply wp_bind. eapply wp_run; [unfold rts_timer_callback_queue_enqueue; by rewrite bind_gets, bool_decide_true|].
      apply wp_ret. rewrite decide_False by naive_solver. done.
    + apply wp_bind. eapply wp_mono; [by apply rts_timer_callback_queue_enqueue_spec|]. cbv beta.
      intros b s' Hp. apply wp_ret. case_decide as Hd.
      * destruct Hp as (->&Hok'&->&Hq). rewrite decide_True by done. done.
      * destruct Hp as (->&->). rewrite decide_False by naive_solver. done.
  - apply wp_bind. eapply wp_mono; [by apply rts_timer_callback_queue_dequeue_spec|]. cbv beta.
    intros r s' [-> Hp]. apply wp_ret. destruct (cq_list s) as [|w l] eqn:E.
    + subst s'. split_and!; [done|by rewrite E|done].
    + destruct Hp as (Hok'&El&Hq). cbv beta. rewrite El. done.
  - apply wp_bind. eapply wp_mono; [by apply rts_timer_callback_queue_remove_timer_spec|]. cbv beta.
    intros n s' [(Hok'&El&Hq) ->]. apply wp_ret. by rewrite El, filter_complement.
  - apply wp_gets. unfold rts_timer_callback_queue_count_for. by rewrite cq_read_list.
Qed.

(** C25: the callback ring is a bounded first-in-first-out queue: any sequence of
    enqueues, dequeues, removals of a timer's work and counts returns what the
    sequence of items returns, refuses work exactly when full or without a
    timer, never loses or reorders an item, touches nothing outside the ring,
    and ends in a ring that the kernel's own validation accepts. *)
Theorem callback_queue_refines_fifo ops s :
  cq_ok s →
  wp (run_cq_ops ops) (λ rs s', (rs, cq_list s') = spec_cq_ops ops (cq_list s) ∧ cq_ok s' ∧
    rts_timer_callback_queue_validate s' = true ∧ ∃ q, s' = s <| k_callback_queue := q |>) s.
Proof.
  revert s. induction ops as [|op ops IH]; intros s Hok; cbn [run_cq_ops spec_cq_ops].
  - apply wp_ret. split_and!; [done..|by apply rts_timer_callback_queue_validate_ok|].
    exists (k_callback_queue s). by destruct s.
  - apply wp_bind. eapply wp_mono; [by apply run_cq_op_spec|]. intros r s1 (Hok1&<-&(q1&E1)).
    apply wp_bind. eapply wp_mono; [by apply IH|]. intros rs s2 (<-&Hok2&Hv&(q2&E2)).
    apply wp_ret. split_and!; [done..|]. exists q2. by rewrite E2, E1.
Qed.
End refinement.

(** ** Witness *)

Section witnesses.
#[local] Existing Instance fp_config.

Definition work_of (t : Z) : rts_timer_callback_work := mk_callback_work (Some t) 5 1 1.

Lemma zero_cq_ok : cq_ok zero_kernel.
Proof. split; cbn; try lia; [done|]. by intros w ?%elem_of_nil. Qed.

Lemma callback_queue_refines_fifo_witness :
  wp (run_cq_ops [CqEnqueue (work_of 0); CqEnqueue (work_of 1); CqEnqueue (work_of 2);
                  CqRemove 1; CqDequeue; CqDequeue; CqDequeue])
     (λ rs _, rs = [CqBool true; CqBool true; CqBool true; CqNumber 1;
                    CqWork (Some (work_of 0)); CqWork (Some (work_of 2)); CqWork None]) zero_kernel.
Proof.
  eapply wp_mono; [apply callback_queue_refines_fifo, zero_cq_ok|].
  intros rs s' [E _]. exact (f_equal fst E).
Defined.
End witnesses.
