(* ===== verification/TimerQueue.v ===== *)
(** * The active-timer queue (kernel/timer_queue.c)

    Timers that wait for their expiration tick, earliest first, in an
    intrusive list. *)

From S2P Require Import Prelude Machine Config Types Links IntrusiveList KernelLists Time ReadyQueue.
From S2P Require Import DelayQueue.

(** Reading the void pointer of a node as a timer. *)
Definition object_timer (o : object_ptr) : K Z :=
  match o with OTimer i => ret i | OTask _ => undefined end.

Section timer_queue_code.
Context `{Config}.
Implicit Types (timer_arg : option Z).

Definition rts_timer_queue_initialize : K unit := kheap (rts_list_initialize (Some LTimer)).

(** The search of rts_timer_queue_insert. *)
Fixpoint rts_timer_queue_search (i : Z) (position : option node_ptr) (fuel : nat) : K (option node_ptr) :=
  match fuel with
  | O => no_fuel
  | S fuel' =>
      match position with
      | None => ret None
      | Some pos =>
          let* object := gets (λ s, n_object (node s pos)) in
          match object with
          | None => fatal RTS_FATAL_TIMER_CORRUPTION
          | Some o =>
              let* queued := object_timer o in
              let* before := gets (λ s, rts_tick_before (tm_expiration_tick (timer s i))
                                                        (tm_expiration_tick (timer s queued))) in
              if before then ret (Some pos) else
              let* next := gets (λ s, n_next (node s pos)) in
              rts_timer_queue_search i next fuel'
          end
      end
  end.

Definition rts_timer_queue_insert timer_arg : K unit :=
  RTS_ASSERT (ret (bool_decide (timer_arg ≠ None))) ;;;
  RTS_ASSERT (match timer_arg with
              | Some i => gets (λ s, bool_decide (n_owner (node s (NTimer i)) = None))
              | None => ret false
              end) ;;;
  match timer_arg with
  | None => ret tt
  | Some i =>
      let* linked := gets (λ s, bool_decide (n_owner (node s (NTimer i)) ≠ None)) in
      if linked then ret tt else
      let* head := gets (λ s, l_head (klist s LTimer)) in
      let* count := gets (λ s, l_count (klist s LTimer)) in
      let* position := rts_timer_queue_search i head (Z.to_nat (Z.succ count)) in
      modify (upd_node (NTimer i) (λ n, n <| n_object := Some (OTimer i) |>)) ;;;
      match position with
      | None => kheap (rts_list_push_back (Some LTimer) (Some (NTimer i)))
      | Some pos => kheap (rts_list_insert_before (Some LTimer) (Some pos) (Some (NTimer i)))
      end
  end.

Definition rts_timer_queue_contains (s : kernel) timer_arg : bool :=
  match timer_arg with
  | None => false
  | Some i => bool_decide (n_owner (node s (NTimer i)) = Some LTimer)
  end.

Definition rts_timer_queue_remove timer_arg : K unit :=
  RTS_ASSERT (ret (bool_decide (timer_arg ≠ None))) ;;;
  RTS_ASSERT (gets (λ s, rts_timer_queue_contains s timer_arg)) ;;;
  let* linked := gets (λ s, rts_timer_queue_contains s timer_arg) in
  match timer_arg with
  | None => ret tt
  | Some i => if negb linked then ret tt else kheap (rts_list_remove (Some LTimer) (Some (NTimer i)))
  end.

Definition rts_timer_queue_peek_expired (now : Z) : K (option Z) :=
  let* head := gets (λ s, l_head (klist s LTimer)) in
  match head with
  | None => ret None
  | Some hd =>
      let* object := gets (λ s, n_object (node s hd)) in
      match object with
      | None => fatal RTS_FATAL_TIMER_CORRUPTION
      | Some o =>
          let* i := object_timer o in
          gets (λ s, if rts_tick_reached now (tm_expiration_tick (timer s i)) then Some i else None)
      end
  end.

(** [None] when the function returns false, else the deadline it stores. *)
Definition rts_timer_queue_next_deadline : K (option Z) :=
  let* head := gets (λ s, l_head (klist s LTimer)) in
  match head with
  | None => RTS_ASSERT (gets (λ s, l_count (klist s LTimer) =? 0)) ;;; ret None
  | Some hd =>
      let* nd := gets (λ s, node s hd) in
      match n_object nd with
      | None => fatal RTS_FATAL_TIMER_CORRUPTION
      | Some o =>
          if negb (bool_decide (n_owner nd = Some LTimer)) then fatal RTS_FATAL_TIMER_CORRUPTION else
          let* i := object_timer o in
          if negb (bool_decide (NTimer i = hd)) then fatal RTS_FATAL_TIMER_CORRUPTION else
          gets (λ s, Some (tm_expiration_tick (timer s i)))
      end
  end.

Fixpoint rts_timer_queue_validate_walk (nd previous_node : option node_ptr) (previous_timer : option Z)
    (count : Z) (fuel : nat) : K (option (option node_ptr * option node_ptr * Z)) :=
  match fuel with
  | O => no_fuel
  | S fuel' =>
      match nd with
      | Some n =>
          if count <=? RTS_MAX_TIMERS then
            let* r := gets (λ s, node s n) in
            if negb (bool_decide (n_owner r = Some LTimer) && bool_decide (n_previous r = previous_node))
            then ret None else
            match n_object r with
            | None => ret None
            | Some o =>
                let* i := object_timer o in
                let* good := gets (λ s,
                  bool_decide (NTimer i = n) && bool_decide (tm_state (timer s i) = RTS_TIMER_ACTIVE) &&
                  negb (match previous_timer with
                        | Some p => rts_tick_before (tm_expiration_tick (timer s i)) (tm_expiration_tick (timer s p))
                        | None => false
                        end)) in
                if good then rts_timer_queue_validate_walk (n_next r) (Some n) (Some i) (Z.succ count) fuel'
                else ret None
            end
          else ret (Some (nd, previous_node, count))
      | None => ret (Some (nd, previous_node, count))
      end
  end.

Definition rts_timer_queue_validate : K bool :=
  let* queue := gets (λ s, klist s LTimer) in
  let* walked := rts_timer_queue_validate_walk (l_head queue) None None 0 (Z.to_nat (RTS_MAX_TIMERS + 3)) in
  match walked with
  | None => ret false
  | Some (nd, previous_node, count) =>
      ret (bool_decide (nd = None) && bool_decide (previous_node = l_tail queue) &&
           (count =? l_count queue) && (count <=? RTS_MAX_TIMERS))
  end.
End timer_queue_code.

(** ** Abstract state: the armed timers in order *)

Definition timer_list (s : kernel) : list Z := timers_of (kcontents s LTimer).
Definition expiration (s : kernel) (i : Z) : Z := tm_expiration_tick (timer s i).

(** How far a timer's expiration tick is ahead of [base]. *)
Definition expires_in (base : Z) (s : kernel) (i : Z) : Z := ahead base (expiration s i).

Lemma timers_of_timer ids : timers_of (NTimer <$> ids) = ids.
Proof. unfold timers_of. induction ids; simpl; by f_equal. Qed.

Section timer_queue_ok.
Context `{ConfigOk}.

(** [base] is a tick from which every armed timer's expiration is less than
    half the range ahead, and the queue is sorted by that distance. *)
Record timers_ok (base : Z) (s : kernel) : Prop := {
  to_lists : lists_ok (k_heap s);
  to_range i : i ∈ timer_list s → is_u32 (expiration s i);
  to_window i : i ∈ timer_list s → expires_in base s i < RTS_TICK_HALF_RANGE;
  to_sorted : StronglySorted (λ a b, expires_in base s a ≤ expires_in base s b) (timer_list s)
}.

Lemma timer_contents s : lists_ok (k_heap s) → kcontents s LTimer = NTimer <$> timer_list s.
Proof.
  intros Hl. unfold timer_list.
  assert (∀ n, n ∈ kcontents s LTimer → ∃ i, n = NTimer i) as Hn.
  { intros n Hn. apply (lo_linked _ Hl) in Hn as [Hn _]. destruct n; [done..|eauto]. }
  induction (kcontents s LTimer) as [|n xs IH]; [done|].
  destruct (Hn n) as [i ->]; [set_solver|]. unfold timers_of in *. simpl. f_equal. apply IH. set_solver.
Qed.

Lemma timer_owner s i :
  lists_ok (k_heap s) → i ∈ timer_list s ↔ n_owner (node s (NTimer i)) = Some LTimer.
Proof.
  intros Hl. unfold node. rewrite <- (lo_owner _ Hl).
  change (contents (k_heap s)) with (kcontents s). rewrite timer_contents by done.
  symmetry. apply (list_elem_of_fmap_inj NTimer).
Qed.

Lemma timer_list_nodup s : lists_ok (k_heap s) → NoDup (timer_list s).
Proof.
  intros Hl. pose proof (wf_nodup _ (lo_wf _ Hl) LTimer) as Hnd.
  change (contents (k_heap s)) with (kcontents s) in Hnd. rewrite timer_contents in Hnd by done.
  by eapply NoDup_fmap_1.
Qed.

Lemma timer_list_fits s i : lists_ok (k_heap s) → i ∈ timer_list s → i ∈ all_timers.
Proof.
  intros Hl Hi. assert (NTimer i ∈ kcontents s LTimer) as Hn.
  { rewrite timer_contents by done. by apply (list_elem_of_fmap_inj NTimer). }
  apply (lo_linked _ Hl) in Hn as [Hn _]. done.
Qed.

(** A node of the queue as the code reads it. *)
Lemma timer_node s l1 i l2 :
  lists_ok (k_heap s) → timer_list s = l1 ++ i :: l2 →
  n_owner (node s (NTimer i)) = Some LTimer ∧
  n_object (node s (NTimer i)) = Some (OTimer i) ∧
  n_previous (node s (NTimer i)) = NTimer <$> last l1 ∧
  n_next (node s (NTimer i)) = NTimer <$> head l2.
Proof.
  intros Hl E.
  assert (contents (k_heap s) LTimer = (NTimer <$> l1) ++ NTimer i :: (NTimer <$> l2)) as Ec.
  { change (contents (k_heap s)) with (kcontents s). by rewrite timer_contents, E, fmap_app. }
  destruct (wf_node _ (lo_wf _ Hl) LTimer _ _ _ Ec) as (Hpv&Hnx&Ho).
  split_and!; [done| |unfold node; rewrite Hpv, last_or_last, fmap_last; by destruct (last l1)
    |unfold node; rewrite Hnx; by destruct l2].
  apply (lo_linked _ Hl (NTimer i) LTimer). rewrite Ec. set_solver.
Qed.

Lemma timer_klist s :
  lists_ok (k_heap s) →
  klist s LTimer = mk_list (NTimer <$> head (timer_list s)) (NTimer <$> last (timer_list s))
                     (Z.of_nat (length (timer_list s))).
Proof.
  intros Hl. unfold klist. rewrite (wf_list _ (lo_wf _ Hl)).
  change (contents (k_heap s)) with (kcontents s). rewrite (timer_contents s Hl).
  rewrite last_or_last, first_or_head, fmap_last, length_fmap. by destruct (timer_list s).
Qed.
End timer_queue_ok.

(** ** The operations *)

Section timer_queue_specs.
Context `{ConfigOk}.

(** [s'] is [s] with the timer queue replaced by [ids]. *)
Definition timers_step (s s' : kernel) (ids : list Z) : Prop :=
  ∃ h', s' = s <| k_heap := h' |> ∧ lists_step (k_heap s) h' LTimer (NTimer <$> ids).

Lemma timers_step_list s s' ids : timers_step s s' ids → timer_list s' = ids.
Proof.
  intros (h'&->&[_ Hc]). unfold timer_list, kcontents. cbn.
  by rewrite Hc, decide_True, timers_of_timer.
Qed.

(** The search stops in front of the first timer that expires later. *)
Lemma rts_timer_queue_search_run base s i l1 l2 fuel :
  timers_ok base s → expires_in base s i < RTS_TICK_HALF_RANGE →
  timer_list s = l1 ++ l2 → (length l2 < fuel)%nat →
  (∀ y, y ∈ l1 → expires_in base s y ≤ expires_in base s i) →
  ∃ k1 k2, rts_timer_queue_search i (NTimer <$> head l2) fuel s = Done (NTimer <$> head k2) s ∧
    timer_list s = k1 ++ k2 ∧ insert_by (expires_in base s) i (timer_list s) = k1 ++ i :: k2.
Proof.
  intros Hok Hw. pose proof (to_lists _ _ Hok) as Hl.
  revert l1 fuel. induction l2 as [|u l2 IH]; intros l1 fuel E Hf Hle;
    (destruct fuel as [|fuel]; [simpl in *; lia|]);
    cbn [rts_timer_queue_search head fmap option_fmap option_map].
  - exists l1, []. split_and!; [done..|]. rewrite E. by apply insert_by_app.
  - destruct (timer_node s l1 u l2 Hl E) as (_&Hobj&_&Hnx).
    assert (u ∈ timer_list s) as Hu by (rewrite E; set_solver).
    pose proof (to_window _ _ Hok u Hu) as Hwu.
    rewrite bind_gets, Hobj. cbn [object_timer]. rewrite bind_ret, bind_gets.
    fold (expiration s i) (expiration s u).
    destruct (rts_tick_before (expiration s i) (expiration s u)) eqn:Eb.
    + apply (rts_tick_before_window base) in Eb; [|done..].
      exists l1, (u :: l2). split_and!; [done..|]. rewrite E. apply insert_by_app; [done|].
      by intros y [= <-].
    + rewrite bind_gets, Hnx. apply (IH (l1 ++ [u])).
      * by rewrite <- app_assoc.
      * simpl in Hf. lia.
      * intros y [?| ->%list_elem_of_singleton]%elem_of_app; [auto|].
        destruct (Z.lt_ge_cases (expires_in base s i) (expires_in base s u)) as [Hlt|]; [|done].
        apply (rts_tick_before_window base) in Hlt; [congruence|done..].
Qed.

Lemma rts_timer_queue_insert_spec base s i :
  timers_ok base s → i ∈ all_timers → n_owner (node s (NTimer i)) = None →
  expires_in base s i < RTS_TICK_HALF_RANGE →
  wp (rts_timer_queue_insert (Some i))
     (λ _ s', timers_step s s' (insert_by (expires_in base s) i (timer_list s))) s.
Proof.
  intros Hok Hi Hn Hw. pose proof (to_lists _ _ Hok) as Hl. unfold rts_timer_queue_insert.
  apply wp_bind, wp_RTS_ASSERT; [done|].
  apply wp_bind, wp_RTS_ASSERT; [unfold gets; by rewrite bool_decide_true|].
  apply wp_bind, wp_gets. rewrite bool_decide_false by auto.
  do 2 apply wp_bind, wp_gets. rewrite timer_klist by done. cbn [l_head l_count].
  destruct (rts_timer_queue_search_run base s i [] (timer_list s)
              (Z.to_nat (Z.succ (Z.of_nat (length (timer_list s)))))) as (k1&k2&Hr&E&Hins);
    [done..|lia|set_solver|].
  apply wp_bind. eapply wp_run; [exact Hr|]. apply wp_bind, wp_modify. rewrite Hins.
  destruct k2 as [|pos k2]; cbn [head fmap option_fmap option_map].
  - eapply wp_link_back; [done..|]. intros h' Hst. exists h'. split; [done|].
    rewrite timer_contents, E, app_nil_r in Hst by done. by rewrite fmap_app.
  - eapply (wp_link_before s LTimer (NTimer pos) (NTimer i) (NTimer <$> k1) (NTimer <$> k2)); [done..| |].
    + by rewrite timer_contents, E, fmap_app by done.
    + intros h' Hst. exists h'. split; [done|]. by rewrite fmap_app.
Qed.

Lemma rts_timer_queue_contains_run s i :
  lists_ok (k_heap s) → rts_timer_queue_contains s (Some i) = bool_decide (i ∈ timer_list s).
Proof. intros Hl. cbn. apply bool_decide_ext. by rewrite timer_owner. Qed.

Lemma rts_timer_queue_remove_spec s i l1 l2 :
  lists_ok (k_heap s) → timer_list s = l1 ++ i :: l2 →
  wp (rts_timer_queue_remove (Some i)) (λ _ s', timers_step s s' (l1 ++ l2)) s.
Proof.
  intros Hl E. unfold rts_timer_queue_remove.
  assert (rts_timer_queue_contains s (Some i) = true) as Hc.
  { rewrite rts_timer_queue_contains_run by done. apply bool_decide_true. rewrite E. set_solver. }
  apply wp_bind, wp_RTS_ASSERT; [done|].
  apply wp_bind, wp_RTS_ASSERT; [unfold gets; by rewrite Hc|].
  apply wp_bind, wp_gets. rewrite Hc. cbn [negb].
  eapply (wp_unlink_timer _ _ (NTimer <$> l1) (NTimer <$> l2)); [done| |].
  - by rewrite timer_contents, E, fmap_app by done.
  - intros h' Hst. exists h'. split; [done|]. by rewrite fmap_app.
Qed.

Lemma timers_ok_step base s s' ids :
  timers_ok base s → timers_step s s' ids →
  (∀ i, i ∈ ids → is_u32 (expiration s i) ∧ expires_in base s i < RTS_TICK_HALF_RANGE) →
  StronglySorted (λ a b, expires_in base s a ≤ expires_in base s b) ids →
  timers_ok base s'.
Proof.
  intros Hok Hst Hw Hs. pose proof (timers_step_list _ _ _ Hst) as Ed.
  destruct Hst as (h'&->&[Hl _]). split; rewrite ?Ed; [done| | |done]; intros i Hi; by apply Hw.
Qed.

Lemma rts_timer_queue_peek_expired_run s now :
  lists_ok (k_heap s) →
  rts_timer_queue_peek_expired now s =
  Done (match timer_list s with
        | i :: _ => if rts_tick_reached now (expiration s i) then Some i else None
        | [] => None
        end) s.
Proof.
  intros Hl. unfold rts_timer_queue_peek_expired. rewrite bind_gets, timer_klist by done.
  destruct (timer_list s) as [|i ids] eqn:E; [done|].
  destruct (timer_node s [] i ids Hl E) as (Ho&Hobj&_).
  cbn [l_head head fmap option_fmap option_map]. by rewrite bind_gets, Hobj.
Qed.

Lemma rts_timer_queue_next_deadline_run s :
  lists_ok (k_heap s) →
  rts_timer_queue_next_deadline s = Done (expiration s <$> head (timer_list s)) s.
Proof.
  intros Hl. unfold rts_timer_queue_next_deadline. rewrite bind_gets, timer_klist by done.
  destruct (timer_list s) as [|i ids] eqn:E; cbn [l_head head fmap option_fmap option_map].
  - rewrite assert_run; [done|]. unfold gets. by rewrite timer_klist, E by done.
  - destruct (timer_node s [] i ids Hl E) as (Ho&Hobj&_).
    rewrite bind_gets, Hobj, Ho. rewrite bool_decide_true by done. cbn [negb object_timer].
    by rewrite bind_ret, bool_decide_true.
Qed.
End timer_queue_specs.

(** ** Correctness *)

Section timer_queue_claims.
Context `{ConfigOk}.

Lemma timer_insert_keeps base s i :
  timers_ok base s → i ∈ all_timers → n_owner (node s (NTimer i)) = None →
  is_u32 (expiration s i) → expires_in base s i < RTS_TICK_HALF_RANGE →
  wp (rts_timer_queue_insert (Some i)) (λ _ s',
    timers_ok base s' ∧ timers_step s s' (insert_by (expires_in base s) i (timer_list s))) s.
Proof.
  intros Hok Hi Hn Hu Hw. eapply wp_mono; [by apply (rts_timer_queue_insert_spec base)|].
  intros [] s' Hst. split; [|done]. eapply timers_ok_step; [done..| |].
  - intros y [->|Hy]%insert_by_elem; [done|].
    split; [by apply (to_range base s)|by apply (to_window base s)].
  - apply insert_by_sorted, (to_sorted base s Hok).
Qed.

Lemma timer_remove_keeps base s i l1 l2 :
  timers_ok base s → timer_list s = l1 ++ i :: l2 →
  wp (rts_timer_queue_remove (Some i)) (λ _ s', timers_ok base s' ∧ timers_step s s' (l1 ++ l2)) s.
Proof.
  intros Hok E. eapply wp_mono; [by apply rts_timer_queue_remove_spec, E; apply (to_lists base)|].
  intros [] s' Hst. split; [|done]. pose proof (to_sorted base s Hok) as Hs. rewrite E in Hs.
  eapply timers_ok_step; [done..| |].
  - intros y Hy. assert (y ∈ timer_list s) by (rewrite E; set_solver).
    split; [by apply (to_range base s)|by apply (to_window base s)].
  - by eapply sorted_remove_mid.
Qed.

Lemma timer_peek_facts base s now :
  timers_ok base s → is_u32 now → ahead base now < RTS_TICK_HALF_RANGE →
  match timer_list s with
  | i :: _ => if rts_tick_reached now (expiration s i)
              then ∀ j, j ∈ timer_list s → expires_in base s i ≤ expires_in base s j
              else ∀ j, j ∈ timer_list s → rts_tick_reached now (expiration s j) = false
  | [] => True
  end.
Proof.
  intros Hok Hnow Hw. pose proof (to_sorted base s Hok) as Hs.
  destruct (timer_list s) as [|i ids] eqn:E; [done|].
  apply StronglySorted_inv in Hs as [_ Hall]. rewrite Forall_forall in Hall.
  assert (∀ u, u ∈ i :: ids → expires_in base s i ≤ expires_in base s u) as Hle.
  { intros u [->|Hu]%elem_of_cons; [lia|auto]. }
  destruct (rts_tick_reached now (expiration s i)) eqn:Er; [done|].
  intros u Hu. destruct (rts_tick_reached now (expiration s u)) eqn:Eu; [|done].
  assert (∀ v, v ∈ i :: ids → is_u32 (expiration s v) ∧ expires_in base s v < RTS_TICK_HALF_RANGE) as Hv.
  { intros v. rewrite <- E. split; [by apply (to_range base s)|by apply (to_window base s)]. }
  destruct (Hv i ltac:(set_solver)), (Hv u Hu).
  apply (rts_tick_reached_window base) in Eu; [|done..].
  rewrite <- Er. symmetry. apply (rts_tick_reached_window base); [done..|].
  specialize (Hle u Hu). unfold expires_in in *. lia.
Qed.

(** C40: Inserting a timer keeps the active queue sorted by expiration in
    wrapping tick order, behind every timer that expires no later; the
    deadline the power manager and the tick read afterwards is the earliest
    one, and the new timer is found in the queue. *)
Theorem timer_queue_insert_earliest base s i :
  timers_ok base s → i ∈ all_timers → n_owner (node s (NTimer i)) = None →
  is_u32 (expiration s i) → expires_in base s i < RTS_TICK_HALF_RANGE →
  wp (rts_timer_queue_insert (Some i) ;;; rts_timer_queue_next_deadline) (λ r s',
    timers_ok base s' ∧
    timer_list s' = insert_by (expires_in base s) i (timer_list s) ∧
    rts_timer_queue_contains s' (Some i) = true ∧
    ∃ e, r = Some e ∧ ∀ j, j ∈ timer_list s' → ahead base e ≤ expires_in base s j) s.
Proof.
  intros Hok Hi Hn Hu Hw. apply wp_bind. eapply wp_mono; [by apply (timer_insert_keeps base)|].
  intros [] s' [Hok' Hst]. pose proof (to_lists _ _ Hok') as Hl'.
  pose proof (timers_step_list _ _ _ Hst) as El. destruct Hst as (h'&->&_).
  eapply wp_run; [by apply rts_timer_queue_next_deadline_run|].
  set (s' := s <| k_heap := h' |>) in *.
  assert (i ∈ timer_list s') as Hin by (rewrite El, insert_by_elem; auto).
  split_and!; [done..|rewrite rts_timer_queue_contains_run by done; by apply bool_decide_true|].
  pose proof (to_sorted _ _ Hok') as Hs.
  destruct (timer_list s') as [|e ids]; [by apply elem_of_nil in Hin|].
  exists (expiration s' e). split; [done|]. apply StronglySorted_inv in Hs as [_ Hs].
  rewrite Forall_forall in Hs. intros j [->|Hj]%elem_of_cons; [done|by apply Hs].
Qed.
End timer_queue_claims.

(** ** Witness: expirations on both sides of the wrap-around *)

Section witnesses.
#[local] Existing Instance fp_config.

Definition armed_timer (tick : Z) : rts_timer := (inhabitant : rts_timer) <| tm_expiration_tick := tick |>.

Definition two_timers : kernel :=
  zero_kernel <| k_timers := <[0 := armed_timer 3]> (<[1 := armed_timer 4294967290]> ∅) |>.

Lemma two_timers_ok : timers_ok 4294967200 two_timers.
Proof. split; [apply zero_lists_ok|by intros ? ?%elem_of_nil..|constructor]. Qed.

Definition one_armed : kernel := final_store (rts_timer_queue_insert (Some 0)) two_timers.

Lemma one_armed_ok : timers_ok 4294967200 one_armed.
Proof.
  destruct (wp_final (rts_timer_queue_insert (Some 0)) (λ _ s', timers_ok 4294967200 s' ∧
    timers_step two_timers s' (insert_by (expires_in 4294967200 two_timers) 0 (timer_list two_timers)))
    two_timers) as [_ [Hok _]]; [|exact Hok].
  apply timer_insert_keeps; [apply two_timers_ok|by apply elem_of_seqZ|done|by vm_compute..].
Qed.

Lemma timer_queue_insert_earliest_witness :
  wp (rts_timer_queue_insert (Some 1) ;;; rts_timer_queue_next_deadline) (λ r s',
    timer_list s' = [1; 0] ∧ r ≠ None) one_armed.
Proof.
  eapply wp_mono; [apply (timer_queue_insert_earliest 4294967200 one_armed 1)|].
  - apply one_armed_ok.
  - by apply elem_of_seqZ.
  - by vm_compute.
  - by vm_compute.
  - by vm_compute.
  - intros r s' (_&->&_&e&->&_). split; [by vm_compute|done].
Defined.
End witnesses.
