(* ===== verification/Timer.v ===== *)
(** * Software timers (kernel/timer.c, kernel/timer_service.c)

    The fixed pool of timers, arming and stopping, the expiry processing that
    the tick runs, and the service task that executes callbacks. *)

From S2P Require Import Prelude Machine Config Types Links IntrusiveList KernelLists Time ReadyQueue.
From S2P Require Import DelayQueue HostPort Ring Diagnostics TaskPool Policy PolicySpec Scheduler.
From S2P Require Import SwitchSpec TaskApi CallbackQueue TimerQueue.

Definition RTS_TIMER_VALIDATION_MAGIC : Z := 0x5254544d.

(** rts_timer_config_t of include/rts/rts_timer.h. *)
Record rts_timer_config := mk_timer_config {
  tc_period : Z;
  tc_callback : Z;
  tc_argument : Z;
  tc_mode : Z
}.

Section timer_code.
Context `{Config}.
Implicit Types (handle : option Z).

Definition rts_timer_object_reset (slot_index : Z) : K unit :=
  modify (upd_timer slot_index (λ _, inhabitant)) ;;;
  kheap (rts_list_node_initialize (Some (NTimer slot_index))) ;;;
  modify (upd_timer slot_index (λ x, x <| tm_slot_index := slot_index |> <| tm_mode := RTS_TIMER_ONE_SHOT |>
    <| tm_state := RTS_TIMER_UNINITIALIZED |> <| tm_callback_state := RTS_TIMER_CALLBACK_IDLE |>
    <| tm_slot_state := RTS_TIMER_SLOT_FREE |>)).

Definition rts_timer_manager_initialize : K unit :=
  for_each (seqZ 0 RTS_MAX_TIMERS) rts_timer_object_reset ;;;
  rts_timer_queue_initialize ;;;
  rts_timer_callback_queue_initialize ;;;
  modify (λ s, s <| k_timer_allocated_count := 0 |>) ;;;
  modify (λ s, s <| k_timer_next_free_hint := 0 |>).

Fixpoint rts_timer_reserve_search (examined : list Z) : K (option Z) :=
  match examined with
  | [] => ret None
  | e :: rest =>
      let* hint := gets k_timer_next_free_hint in
      let index := if RTS_MAX_TIMERS <=? hint + e then hint + e - RTS_MAX_TIMERS else hint + e in
      let* free := gets (λ s, bool_decide (tm_slot_state (timer s index) = RTS_TIMER_SLOT_FREE)) in
      if free then
        modify (λ s, s <| k_timer_next_free_hint :=
          if index + 1 =? RTS_MAX_TIMERS then 0 else index + 1 |>) ;;;
        modify (upd_timer index (λ x, x <| tm_slot_state := RTS_TIMER_SLOT_RESERVED |>)) ;;;
        ret (Some index)
      else rts_timer_reserve_search rest
  end.

Definition rts_timer_reserve : K (option Z) :=
  let* corrupt := gets (λ s, RTS_MAX_TIMERS <=? k_timer_next_free_hint s) in
  if corrupt then fatal RTS_FATAL_TIMER_CORRUPTION else
  rts_timer_reserve_search (seqZ 0 RTS_MAX_TIMERS).

Definition rts_timer_config_is_valid (config : rts_timer_config) : bool :=
  negb (tc_callback config =? 0) && (0 <? tc_period config) && (tc_period config <=? RTS_DELAY_MAX) &&
  ((tc_mode config =? RTS_TIMER_ONE_SHOT) || (tc_mode config =? RTS_TIMER_PERIODIC)).

Definition rts_timer_lifecycle_allows_control (s : kernel) : bool :=
  bool_decide (k_lifecycle s = RTS_KERNEL_INITIALIZED) || bool_decide (k_lifecycle s = RTS_KERNEL_RUNNING).

(** A handle is the address of a slot or any other pointer, which no slot has;
    [Some i] with [i] outside the pool stands for such a pointer. *)
Definition rts_timer_resolve (s : kernel) handle : option Z :=
  match handle with
  | None => None
  | Some h =>
      if existsb (λ i, i =? h) (seqZ 0 RTS_MAX_TIMERS)
      then if bool_decide (tm_slot_state (timer s h) = RTS_TIMER_SLOT_ALLOCATED) then Some h else None
      else None
  end.

Definition rts_timer_handle_is_valid (s : kernel) handle : bool :=
  bool_decide (rts_timer_resolve s handle ≠ None).

Definition rts_timer_allocated_count : K Z := gets k_timer_allocated_count.

(** The test of one item of the callback ring in rts_timer_manager_validate. *)
Definition callback_work_is_owned (s : kernel) (work : rts_timer_callback_work) : bool :=
  match work_timer work with
  | None => false
  | Some i =>
      existsb (λ j, j =? i) (seqZ 0 RTS_MAX_TIMERS) &&
      bool_decide (tm_slot_state (timer s i) = RTS_TIMER_SLOT_ALLOCATED) &&
      bool_decide (tm_callback_state (timer s i) = RTS_TIMER_CALLBACK_PENDING) &&
      (work_generation work =? tm_generation (timer s i)) &&
      (rts_timer_callback_queue_count_for s (Some i) =? 1)
  end.

(** The test of one slot; [None] when the manager is refused, else whether
    the slot counts as allocated. *)
Definition timer_slot_check (s : kernel) (index : Z) : option bool :=
  let x := timer s index in
  let linked := rts_timer_queue_contains s (Some index) in
  let pending := rts_timer_callback_queue_count_for s (Some index) in
  match tm_slot_state x with
  | RTS_TIMER_SLOT_FREE =>
      if negb (bool_decide (tm_state x = RTS_TIMER_UNINITIALIZED)) || linked || negb (pending =? 0)
      then None else Some false
  | RTS_TIMER_SLOT_RESERVED => if linked || negb (pending =? 0) then None else Some false
  | RTS_TIMER_SLOT_ALLOCATED =>
      if negb (tm_slot_index x =? index) || (tm_callback x =? 0) || (tm_period x =? 0) ||
         (RTS_DELAY_MAX <? tm_period x) ||
         (negb (tm_mode x =? RTS_TIMER_ONE_SHOT) && negb (tm_mode x =? RTS_TIMER_PERIODIC)) ||
         (negb (bool_decide (tm_state x = RTS_TIMER_STOPPED)) && negb (bool_decide (tm_state x = RTS_TIMER_ACTIVE))) ||
         negb (eqb linked (bool_decide (tm_state x = RTS_TIMER_ACTIVE))) ||
         negb (pending =? (if bool_decide (tm_callback_state x = RTS_TIMER_CALLBACK_PENDING) then 1 else 0))
      then None
      else if RTS_ENABLE_ASSERTIONS && negb (tm_validation_magic x =? RTS_TIMER_VALIDATION_MAGIC) then None
      else Some true
  end.

Definition rts_timer_manager_validate : K bool :=
  if negb RTS_ENABLE_INVARIANT_CHECKS then ret true else
  let* refused := gets (λ s, (RTS_MAX_TIMERS <=? k_timer_next_free_hint s) ||
                             (RTS_MAX_TIMERS <? k_timer_allocated_count s)) in
  if refused then ret false else
  let* queue_valid := rts_timer_queue_validate in
  if negb queue_valid then ret false else
  gets (λ s,
    rts_timer_callback_queue_validate s &&
    forallb (callback_work_is_owned s)
      (cq_read s (cq_head (k_callback_queue s)) (Z.to_nat (cq_count (k_callback_queue s)))) &&
    forallb (λ i, match timer_slot_check s i with None => false | Some _ => true end) (seqZ 0 RTS_MAX_TIMERS) &&
    (Z.of_nat (length (filter (λ i, timer_slot_check s i = Some true) (seqZ 0 RTS_MAX_TIMERS))) =?
     k_timer_allocated_count s)).

(** A counter of a timer, and of the kernel, by more than one. *)
Definition RTS_DIAG_TIMER_INC (i : Z) (field : rts_timer → Z) `{Setter _ _ field} : K unit :=
  when RTS_ENABLE_RUNTIME_STATS
    (modify (upd_timer i (λ x, x <| field := rts_diagnostic_counter_increment (field x) |>))).
Definition RTS_DIAG_TIMER_ADD (i : Z) (field : rts_timer → Z) `{Setter _ _ field} (n : Z) : K unit :=
  when RTS_ENABLE_RUNTIME_STATS
    (modify (upd_timer i (λ x, x <| field := rts_diagnostic_counter_add (field x) n |>))).
Definition RTS_DIAG_COUNTER_ADD (c : rts_counter) (n : Z) : K unit :=
  when RTS_ENABLE_RUNTIME_STATS (modify (upd_counter c (λ v, rts_diagnostic_counter_add v n))).

(** The status and the handle stored through out_handle, which is not null. *)
Definition rts_timer_init (config_arg : option rts_timer_config) : K (rts_status_t * option Z) :=
  match config_arg with
  | None => ret (RTS_STATUS_INVALID_ARGUMENT, None)
  | Some config =>
      if negb (rts_timer_config_is_valid config) then ret (RTS_STATUS_INVALID_ARGUMENT, None) else
      let* in_isr := rts_port_is_in_isr in
      if in_isr then ret (RTS_STATUS_INVALID_CONTEXT, None) else
      let* initialized := gets (λ s, bool_decide (k_lifecycle s = RTS_KERNEL_INITIALIZED)) in
      if negb initialized then ret (RTS_STATUS_INVALID_STATE, None) else
      let* token := rts_kernel_lock_enter in
      let* initialized := gets (λ s, bool_decide (k_lifecycle s = RTS_KERNEL_INITIALIZED)) in
      if negb initialized then rts_kernel_lock_exit token ;;; ret (RTS_STATUS_INVALID_STATE, None) else
      let* reserved := rts_timer_reserve in
      match reserved with
      | None => rts_kernel_lock_exit token ;;; ret (RTS_STATUS_CAPACITY_EXHAUSTED, None)
      | Some i =>
          modify (upd_timer i (λ x, x <| tm_period := tc_period config |> <| tm_callback := tc_callback config |>
            <| tm_argument := tc_argument config |> <| tm_mode := tc_mode config |>
            <| tm_state := RTS_TIMER_STOPPED |> <| tm_callback_state := RTS_TIMER_CALLBACK_IDLE |>
            <| tm_generation := 1 |>)) ;;;
          when RTS_ENABLE_ASSERTIONS
            (modify (upd_timer i (λ x, x <| tm_validation_magic := RTS_TIMER_VALIDATION_MAGIC |>))) ;;;
          let* full := gets (λ s, RTS_MAX_TIMERS <=? k_timer_allocated_count s) in
          when full (fatal RTS_FATAL_TIMER_CORRUPTION) ;;;
          modify (upd_timer i (λ x, x <| tm_slot_state := RTS_TIMER_SLOT_ALLOCATED |>)) ;;;
          modify (λ s, s <| k_timer_allocated_count ::= Z.succ |>) ;;;
          RTS_DIAG_COUNTER_INC timer_initializations ;;;
          let* x := gets (λ s, timer s i) in
          RTS_TRACE RTS_TRACE_TIMER_INITIALIZED (u32 (tm_slot_index x)) (tm_mode x) ;;;
          RTS_FATAL_UNLESS rts_timer_manager_validate ;;;
          rts_kernel_lock_exit token ;;;
          ret (RTS_STATUS_OK, Some i)
      end
  end.

Definition rts_timer_invalidate_pending (i : Z) : K Z :=
  let* removed := rts_timer_callback_queue_remove_timer (Some i) in
  let* pending := gets (λ s, bool_decide (tm_callback_state (timer s i) = RTS_TIMER_CALLBACK_PENDING)) in
  (if pending then
     RTS_FATAL_UNLESS (ret (removed =? 1)) ;;;
     modify (upd_timer i (λ x, x <| tm_callback_state := RTS_TIMER_CALLBACK_IDLE |>))
   else RTS_FATAL_UNLESS (ret (removed =? 0))) ;;;
  let* empty := gets (λ s, cq_count (k_callback_queue s) =? 0) in
  when empty rts_scheduler_timer_service_cancel_wake ;;;
  RTS_DIAG_TIMER_ADD i tm_stale_count removed ;;;
  RTS_DIAG_COUNTER_ADD timer_stale_callbacks removed ;;;
  ret removed.

Definition rts_timer_arm handle (restart : bool) : K rts_status_t :=
  let* in_isr := rts_port_is_in_isr in
  if in_isr then ret RTS_STATUS_INVALID_CONTEXT else
  let* allowed := gets rts_timer_lifecycle_allows_control in
  if negb allowed then ret RTS_STATUS_INVALID_STATE else
  let* token := rts_kernel_lock_enter in
  let leave (status : rts_status_t) := rts_kernel_lock_exit token ;;; ret status in
  let* resolved := gets (λ s, rts_timer_resolve s handle) in
  let* allowed := gets rts_timer_lifecycle_allows_control in
  match resolved with
  | None => leave RTS_STATUS_INVALID_ARGUMENT
  | Some i =>
      if negb allowed then leave RTS_STATUS_INVALID_STATE else
      let* busy := gets (λ s, negb (bool_decide (tm_state (timer s i) = RTS_TIMER_STOPPED)) ||
                              negb (bool_decide (tm_callback_state (timer s i) = RTS_TIMER_CALLBACK_IDLE))) in
      if negb restart && busy then leave RTS_STATUS_INVALID_STATE else
      when restart (
        let* active := gets (λ s, bool_decide (tm_state (timer s i) = RTS_TIMER_ACTIVE)) in
        when active (rts_timer_queue_remove (Some i)) ;;;
        modify (upd_timer i (λ x, x <| tm_generation := u32 (tm_generation x + 1) |>)) ;;;
        rts_timer_invalidate_pending i ;;;
        ret tt) ;;;
      let* now := gets k_current_tick in
      modify (upd_timer i (λ x, x <| tm_expiration_tick := u32 (now + tm_period x) |>)) ;;;
      modify (upd_timer i (λ x, x <| tm_state := RTS_TIMER_ACTIVE |>)) ;;;
      rts_timer_queue_insert (Some i) ;;;
      (if restart then RTS_DIAG_TIMER_INC i tm_restart_count ;;; RTS_DIAG_COUNTER_INC timer_restarts
       else RTS_DIAG_TIMER_INC i tm_start_count ;;; RTS_DIAG_COUNTER_INC timer_starts) ;;;
      let* x := gets (λ s, timer s i) in
      RTS_TRACE (if restart then RTS_TRACE_TIMER_RESTARTED else RTS_TRACE_TIMER_STARTED)
        (u32 (tm_slot_index x)) (tm_expiration_tick x) ;;;
      RTS_FATAL_UNLESS rts_timer_manager_validate ;;;
      leave RTS_STATUS_OK
  end.

Definition rts_timer_start handle : K rts_status_t := rts_timer_arm handle false.
Definition rts_timer_restart handle : K rts_status_t := rts_timer_arm handle true.

Definition rts_timer_stop handle : K rts_status_t :=
  let* in_isr := rts_port_is_in_isr in
  if in_isr then ret RTS_STATUS_INVALID_CONTEXT else
  let* allowed := gets rts_timer_lifecycle_allows_control in
  if negb allowed then ret RTS_STATUS_INVALID_STATE else
  let* token := rts_kernel_lock_enter in
  let leave (status : rts_status_t) := rts_kernel_lock_exit token ;;; ret status in
  let* resolved := gets (λ s, rts_timer_resolve s handle) in
  let* allowed := gets rts_timer_lifecycle_allows_control in
  match resolved with
  | None => leave RTS_STATUS_INVALID_ARGUMENT
  | Some i =>
      if negb allowed then leave RTS_STATUS_INVALID_STATE else
      let* active := gets (λ s, bool_decide (tm_state (timer s i) = RTS_TIMER_ACTIVE)) in
      let* engaged := gets (λ s, negb (bool_decide (tm_callback_state (timer s i) = RTS_TIMER_CALLBACK_IDLE))) in
      if negb (active || engaged) then leave RTS_STATUS_INVALID_STATE else
      when active (rts_timer_queue_remove (Some i)) ;;;
      modify (upd_timer i (λ x, x <| tm_state := RTS_TIMER_STOPPED |>)) ;;;
      modify (upd_timer i (λ x, x <| tm_generation := u32 (tm_generation x + 1) |>)) ;;;
      rts_timer_invalidate_pending i ;;;
      RTS_DIAG_TIMER_INC i tm_stop_count ;;;
      RTS_DIAG_COUNTER_INC timer_stops ;;;
      let* x := gets (λ s, timer s i) in
      RTS_TRACE RTS_TRACE_TIMER_STOPPED (u32 (tm_slot_index x)) (tm_generation x) ;;;
      RTS_FATAL_UNLESS rts_timer_manager_validate ;;;
      leave RTS_STATUS_OK
  end.

Definition rts_timer_is_running handle : K bool :=
  let* in_isr := rts_port_is_in_isr in
  if in_isr then ret false else
  let* token := rts_kernel_lock_enter in
  let* active := gets (λ s,
    match rts_timer_resolve s handle with
    | None => false
    | Some i => bool_decide (tm_state (timer s i) = RTS_TIMER_ACTIVE) && rts_timer_queue_contains s (Some i)
    end) in
  rts_kernel_lock_exit token ;;;
  ret active.

(** The next deadline and the number of periods skipped. *)
Definition rts_timer_periodic_next (expiration period now : Z) : Z * Z :=
  let lateness := u32 (now - expiration) in
  let skipped := lateness / period in
  let periods := u32 (skipped + 1) in
  (u32 (expiration + u32 (periods * period)), skipped).

(** One iteration of the loop of rts_timer_manager_process_expired, for the
    timer [i] that rts_timer_queue_peek_expired returned; whether the service
    task was woken. *)
Definition rts_timer_process_one (now i : Z) : K bool :=
  let* consumed_deadline := gets (λ s, tm_expiration_tick (timer s i)) in
  rts_timer_queue_remove (Some i) ;;;
  modify (upd_timer i (λ x, x <| tm_last_expiration_tick := consumed_deadline |>)) ;;;
  let* x := gets (λ s, timer s i) in
  let '(next, skipped) := rts_timer_periodic_next (tm_expiration_tick x) (tm_period x) now in
  let periodic := tm_mode x =? RTS_TIMER_PERIODIC in
  let missed := if periodic then skipped else 0 in
  (if periodic then
     modify (upd_timer i (λ x, x <| tm_expiration_tick := next |>)) ;;;
     modify (upd_timer i (λ x, x <| tm_state := RTS_TIMER_ACTIVE |>)) ;;;
     rts_timer_queue_insert (Some i)
   else modify (upd_timer i (λ x, x <| tm_state := RTS_TIMER_STOPPED |>))) ;;;
  RTS_DIAG_TIMER_INC i tm_expiration_count ;;;
  RTS_DIAG_COUNTER_INC timer_expirations ;;;
  RTS_DIAG_TIMER_ADD i tm_missed_period_count missed ;;;
  RTS_DIAG_COUNTER_ADD timer_missed_periods missed ;;;
  let* slot_index := gets (λ s, u32 (tm_slot_index (timer s i))) in
  RTS_TRACE RTS_TRACE_TIMER_EXPIRED slot_index consumed_deadline ;;;
  let* busy := gets (λ s, negb (bool_decide (tm_callback_state (timer s i) = RTS_TIMER_CALLBACK_IDLE))) in
  if busy then
    RTS_DIAG_TIMER_INC i tm_overrun_count ;;;
    RTS_DIAG_COUNTER_INC timer_overruns ;;;
    RTS_DIAG_TIMER_INC i tm_missed_period_count ;;;
    RTS_DIAG_COUNTER_INC timer_missed_periods ;;;
    RTS_TRACE RTS_TRACE_TIMER_OVERRUN slot_index consumed_deadline ;;;
    ret false
  else
    modify (upd_timer i (λ x, x <| tm_expiration_sequence := u32 (tm_expiration_sequence x + 1) |>)) ;;;
    let* work := gets (λ s, mk_callback_work (Some i) consumed_deadline (tm_generation (timer s i))
                              (tm_expiration_sequence (timer s i))) in
    let* queued := rts_timer_callback_queue_enqueue work in
    when (negb queued) (
      RTS_DIAG_COUNTER_INC timer_callback_queue_overflows ;;;
      fatal RTS_FATAL_TIMER_CALLBACK_QUEUE_OVERFLOW) ;;;
    modify (upd_timer i (λ x, x <| tm_callback_state := RTS_TIMER_CALLBACK_PENDING |>)) ;;;
    let* deeper := gets (λ s, counter s timer_callback_queue_maximum_depth <?
                              u32 (cq_maximum_depth (k_callback_queue s))) in
    when (RTS_ENABLE_RUNTIME_STATS && deeper)
      (modify (λ s, upd_counter timer_callback_queue_maximum_depth
                      (λ _, u32 (cq_maximum_depth (k_callback_queue s))) s)) ;;;
    rts_scheduler_timer_service_wake.

Fixpoint rts_timer_process_loop (now : Z) (service_woken : bool) (fuel : nat) : K bool :=
  match fuel with
  | O => no_fuel
  | S fuel' =>
      let* expired := rts_timer_queue_peek_expired now in
      match expired with
      | None => ret service_woken
      | Some i =>
          let* woken := rts_timer_process_one now i in
          rts_timer_process_loop now (service_woken || woken) fuel'
      end
  end.

(** Each timer that expires moves beyond [now] or leaves the queue, so as many
    iterations as there are timers, and the last look, are enough. *)
Definition rts_timer_manager_process_expired (now : Z) : K bool :=
  let* service_woken := rts_timer_process_loop now false (Z.to_nat (RTS_MAX_TIMERS + 1)) in
  RTS_FATAL_UNLESS rts_timer_manager_validate ;;;
  ret service_woken.
End timer_code.

(** ** The service task (kernel/timer_service.c)

    A callback is application code: [callback address argument] is what the
    function at that address does, including the tasks and interrupts that run
    before it returns. *)

Section service.
Context `{Config} (callback : Z → Z → K unit).

Definition rts_timer_service_process_one : K bool :=
  let* valid_context :=
    notM rts_port_is_in_isr &&&
    gets (λ s, bool_decide (k_lifecycle s = RTS_KERNEL_RUNNING)) &&&
    (let* current := rts_scheduler_current_get in
     gets (λ s, bool_decide (current = k_timer_service_task s))) &&&
    gets (λ s, match k_timer_service_task s with
               | None => false
               | Some t => bool_decide (state (task s t) = RTS_TASK_STATE_RUNNING)
               end) in
  RTS_ASSERT (ret valid_context) ;;;
  if negb valid_context then ret false else
  let* token := rts_kernel_lock_enter in
  let* dequeued := rts_timer_callback_queue_dequeue in
  match dequeued with
  | None => rts_kernel_lock_exit token ;;; ret false
  | Some work =>
      let* valid := gets (λ s, rts_timer_handle_is_valid s (work_timer work)) in
      if negb valid then
        RTS_DIAG_COUNTER_INC timer_stale_callbacks ;;;
        RTS_TRACE RTS_TRACE_TIMER_STALE_CALLBACK (work_generation work) (work_sequence work) ;;;
        rts_kernel_lock_exit token ;;;
        ret true
      else
      let* i := deref (work_timer work) in
      let* pending := gets (λ s, bool_decide (tm_callback_state (timer s i) = RTS_TIMER_CALLBACK_PENDING)) in
      let* current := gets (λ s, tm_generation (timer s i) =? work_generation work) in
      if negb (current && pending) then
        when pending (
          modify (upd_timer i (λ x, x <| tm_callback_state := RTS_TIMER_CALLBACK_IDLE |>)) ;;;
          RTS_DIAG_TIMER_INC i tm_stale_count) ;;;
        RTS_DIAG_COUNTER_INC timer_stale_callbacks ;;;
        RTS_TRACE RTS_TRACE_TIMER_STALE_CALLBACK (work_generation work) (work_sequence work) ;;;
        rts_kernel_lock_exit token ;;;
        ret true
      else
      modify (upd_timer i (λ x, x <| tm_callback_state := RTS_TIMER_CALLBACK_RUNNING |>)) ;;;
      let* address := gets (λ s, tm_callback (timer s i)) in
      let* argument := gets (λ s, tm_argument (timer s i)) in
      RTS_FATAL_UNLESS (ret (negb (address =? 0))) ;;;
      let* slot_index := gets (λ s, u32 (tm_slot_index (timer s i))) in
      RTS_TRACE RTS_TRACE_TIMER_CALLBACK_BEGIN slot_index (work_sequence work) ;;;
      rts_kernel_lock_exit token ;;;
      callback address argument ;;;
      let* token := rts_kernel_lock_enter in
      RTS_FATAL_UNLESS (gets (λ s, bool_decide (tm_callback_state (timer s i) = RTS_TIMER_CALLBACK_RUNNING))) ;;;
      modify (upd_timer i (λ x, x <| tm_callback_state := RTS_TIMER_CALLBACK_IDLE |>)) ;;;
      RTS_DIAG_TIMER_INC i tm_callback_count ;;;
      RTS_DIAG_COUNTER_INC timer_callbacks_executed ;;;
      let* slot_index := gets (λ s, u32 (tm_slot_index (timer s i))) in
      RTS_TRACE RTS_TRACE_TIMER_CALLBACK_END slot_index (work_sequence work) ;;;
      RTS_FATAL_UNLESS rts_timer_manager_validate ;;;
      rts_kernel_lock_exit token ;;;
      ret true
  end.

(** The loop ends when the ring is empty; a callback may refill it, so the
    number of iterations is a parameter. *)
Fixpoint rts_timer_service_drain (processed : Z) (fuel : nat) : K Z :=
  match fuel with
  | O => no_fuel
  | S fuel' =>
      let* again := rts_timer_service_process_one in
      if again then rts_timer_service_drain (Z.succ processed) fuel' else ret processed
  end.

(** One turn of the endless loop of rts_timer_service_entry. *)
Definition rts_timer_service_entry (fuel : nat) : K unit :=
  rts_timer_service_drain 0 fuel ;;;
  let* token := rts_kernel_lock_enter in
  let* more := gets (λ s, negb (cq_count (k_callback_queue s) =? 0)) in
  if more then rts_kernel_lock_exit token else
  let* notify_port := rts_scheduler_timer_service_block in
  RTS_FATAL_UNLESS (gets (λ s, match k_timer_service_task s with
                               | Some t => bool_decide (state (task s t) = RTS_TASK_STATE_BLOCKED)
                               | None => false
                               end)) ;;;
  rts_kernel_lock_exit token ;;;
  notify_port_if notify_port.
End service.

(** ** The periodic grid *)

Lemma periodic_next_facts expiration period now next skipped :
  is_u32 expiration → is_u32 now → 0 < period ≤ RTS_TICK_MAX_ADVANCE →
  rts_tick_reached now expiration = true →
  rts_timer_periodic_next expiration period now = (next, skipped) →
  is_u32 next ∧ ahead expiration next = (skipped + 1) * period ∧ 0 < ahead now next ≤ period ∧
  skipped = ahead expiration now / period.
Proof.
  unfold rts_timer_periodic_next. intros He Hn Hp Hr [= <- <-].
  apply rts_tick_reached_iff in Hr; [|done..]. fold (ahead expiration now) in *.
  pose proof (ahead_range expiration now) as Hrange. set (late := ahead expiration now) in *.
  unfold RTS_TICK_HALF_RANGE, RTS_TICK_MAX_ADVANCE, UINT32_MAX, is_u32 in *.
  pose proof (Z.div_mod late period ltac:(lia)) as Hdm.
  pose proof (Z.mod_pos_bound late period ltac:(lia)) as Hmb.
  assert (0 ≤ late / period) as Hq by (apply Z.div_pos; lia).
  set (q := late / period) in *. set (r := late mod period) in *.
  assert (u32 (q + 1) = q + 1) as -> by (apply u32_small; unfold is_u32, UINT32_MAX; nia).
  assert (0 ≤ (q + 1) * period ≤ 4294967295) as Hg by nia.
  assert (u32 ((q + 1) * period) = (q + 1) * period) as -> by (by apply u32_small).
  set (next := u32 (expiration + (q + 1) * period)).
  assert (ahead expiration next = (q + 1) * period) as Hnext by (by apply ahead_add).
  split; [apply u32_range|]. split; [done|]. split; [|done].
  rewrite (ahead_shift expiration); rewrite Hnext; fold late; nia.
Qed.

(** C28: When a periodic timer is found expired, its next deadline is the first
    instant of its grid (multiples of the period after the deadline that was
    consumed) that lies after [now]: the timer neither drifts nor fires twice
    for the same instant, the new deadline is at most one period away and not
    yet reached, the arithmetic does not wrap around the grid, and the number
    of skipped periods counts the later instants of the grid that have passed. *)
Theorem timer_periodic_next_on_grid expiration period now next skipped :
  is_u32 expiration → is_u32 now → 0 < period ≤ RTS_TICK_MAX_ADVANCE →
  rts_tick_reached now expiration = true →
  rts_timer_periodic_next expiration period now = (next, skipped) →
  is_u32 next ∧
  ahead expiration next = (skipped + 1) * period ∧
  0 < ahead now next ≤ period ∧
  rts_tick_reached now next = false ∧
  ∀ k, k * period ≤ ahead expiration now ↔ k ≤ skipped.
Proof.
  intros He Hn Hp Hr E. destruct (periodic_next_facts _ _ _ _ _ He Hn Hp Hr E) as (Hu&Hg&Ha&->).
  unfold RTS_TICK_MAX_ADVANCE in *. do 3 (split; [done|]). split.
  - destruct (rts_tick_reached now next) eqn:E'; [|done]. exfalso.
    apply rts_tick_reached_iff in E'; [|done..]. unfold RTS_TICK_HALF_RANGE, ahead in *.
    replace (now - next) with (- (next - now)) in E' by lia. rewrite u32_neg in E' by apply u32_range.
    destruct (Z.eqb_spec (u32 (next - now)) 0); lia.
  - intros k. pose proof (Z.div_mod (ahead expiration now) period ltac:(lia)).
    pose proof (Z.mod_pos_bound (ahead expiration now) period ltac:(lia)). split; nia.
Qed.

Lemma timer_periodic_next_on_grid_witness :
  ahead 4294967290 (fst (rts_timer_periodic_next 4294967290 5 10)) = (3 + 1) * 5.
Proof.
  destruct (timer_periodic_next_on_grid 4294967290 5 10 14 3) as (_&Hn&_);
    [by vm_compute..|]. exact Hn.
Defined.
