(* ===== verification/TimerManager.v ===== *)
(** * The invariant of the timer manager

    What holds of the timer pool, the active queue and the callback ring of
    kernel/timer.c between two kernel calls: every slot is in the places its
    members say, and work in the ring belongs to a timer whose callback is
    pending.  The manager's own check, rts_timer_manager_validate, accepts
    every store that satisfies it. *)

From S2P Require Import Prelude Machine Config Types Links IntrusiveList KernelLists Time ReadyQueue.
From S2P Require Import DelayQueue HostPort Ring Diagnostics TaskPool Policy PolicySpec Scheduler.
From S2P Require Import SwitchSpec TaskApi CallbackQueue TimerQueue Timer.

Section manager.
Context `{ConfigOk}.

(** The work of timer [i] in the ring. *)
Definition works (s : kernel) (i : Z) : list rts_timer_callback_work :=
  filter (λ w, work_timer w = Some i) (cq_list s).

(** An allocated timer [x] of slot [i] that is armed or not and has the work [ws]. *)
Record allocated_ok (i : Z) (x : rts_timer) (armed : bool) (ws : list rts_timer_callback_work) : Prop := {
  al_index : tm_slot_index x = i;
  al_callback : tm_callback x ≠ 0;
  al_period : 0 < tm_period x ≤ RTS_DELAY_MAX;
  al_mode : tm_mode x = RTS_TIMER_ONE_SHOT ∨ tm_mode x = RTS_TIMER_PERIODIC;
  al_state : tm_state x = if armed then RTS_TIMER_ACTIVE else RTS_TIMER_STOPPED;
  al_works : if bool_decide (tm_callback_state x = RTS_TIMER_CALLBACK_PENDING)
             then ∃ w, ws = [w] ∧ work_generation w = tm_generation x else ws = [];
  al_magic : RTS_ENABLE_ASSERTIONS = true → tm_validation_magic x = RTS_TIMER_VALIDATION_MAGIC
}.

Definition slot_ok (i : Z) (x : rts_timer) (armed : bool) (ws : list rts_timer_callback_work) : Prop :=
  match tm_slot_state x with
  | RTS_TIMER_SLOT_FREE => tm_state x = RTS_TIMER_UNINITIALIZED ∧ armed = false ∧ ws = []
  | RTS_TIMER_SLOT_RESERVED => armed = false ∧ ws = []
  | RTS_TIMER_SLOT_ALLOCATED => allocated_ok i x armed ws
  end.

Definition armed (s : kernel) (i : Z) : bool := bool_decide (i ∈ timer_list s).
Definition allocated (s : kernel) (i : Z) : Prop := tm_slot_state (timer s i) = RTS_TIMER_SLOT_ALLOCATED.

#[global] Instance allocated_dec s i : Decision (allocated s i).
Proof. unfold allocated. apply _. Defined.

(** [base] is an instant from which every armed timer's deadline is less than
    half the range ahead. *)
Record manager_ok (base : Z) (s : kernel) : Prop := {
  mo_queue : timers_ok base s;
  mo_ring : cq_ok s;
  mo_hint : k_timer_next_free_hint s < RTS_MAX_TIMERS;
  mo_slot i : i ∈ all_timers → slot_ok i (timer s i) (armed s i) (works s i);
  mo_work w : w ∈ cq_list s → ∃ i, i ∈ all_timers ∧ work_timer w = Some i;
  mo_count : k_timer_allocated_count s = Z.of_nat (length (filter (allocated s) all_timers))
}.

Lemma armed_allocated base s i :
  manager_ok base s → i ∈ timer_list s →
  i ∈ all_timers ∧ allocated s i ∧ allocated_ok i (timer s i) true (works s i).
Proof.
  intros Hm Hi. assert (i ∈ all_timers) as Ha by (eapply timer_list_fits; [apply (to_lists _ _ (mo_queue _ _ Hm))|done]).
  pose proof (mo_slot _ _ Hm i Ha) as Hs. unfold slot_ok, armed, allocated in *.
  rewrite bool_decide_true in Hs by done. destruct (tm_slot_state (timer s i)); naive_solver.
Qed.

(** Work in the ring is the only work of its timer, whose callback is pending. *)
Lemma work_owner_at (linked : Z → bool) s w :
  (∀ i, i ∈ all_timers → slot_ok i (timer s i) (linked i) (works s i)) →
  (∀ w, w ∈ cq_list s → ∃ i, i ∈ all_timers ∧ work_timer w = Some i) → w ∈ cq_list s →
  ∃ i, i ∈ all_timers ∧ work_timer w = Some i ∧ allocated s i ∧ works s i = [w] ∧
    tm_callback_state (timer s i) = RTS_TIMER_CALLBACK_PENDING ∧ work_generation w = tm_generation (timer s i).
Proof.
  intros Hslot Hwork Hw. destruct (Hwork w Hw) as (i&Ha&Ei). exists i.
  assert (w ∈ works s i) as Hin by (by apply list_elem_of_filter).
  pose proof (Hslot i Ha) as Hs. unfold slot_ok, allocated in *.
  assert (works s i ≠ []) as Hne by (intros E; rewrite E in Hin; by apply elem_of_nil in Hin).
  destruct (tm_slot_state (timer s i)); [naive_solver..|].
  pose proof (al_works _ _ _ _ Hs) as Hp. case_bool_decide; [|done]. destruct Hp as (w'&E&Hg).
  rewrite E in Hin |- *. apply list_elem_of_singleton in Hin as ->. done.
Qed.

Lemma work_owner base s w :
  manager_ok base s → w ∈ cq_list s →
  ∃ i, i ∈ all_timers ∧ work_timer w = Some i ∧ allocated s i ∧ works s i = [w] ∧
    tm_callback_state (timer s i) = RTS_TIMER_CALLBACK_PENDING ∧ work_generation w = tm_generation (timer s i).
Proof. intros Hm. apply (work_owner_at (armed s)); apply Hm. Qed.

(** The invariant reads nothing but the manager, the queue and the ring. *)
Lemma manager_ok_frame base s s' :
  manager_ok base s → lists_ok (k_heap s') → timer_list s' = timer_list s → k_timers s' = k_timers s →
  k_callback_queue s' = k_callback_queue s → k_timer_next_free_hint s' = k_timer_next_free_hint s →
  k_timer_allocated_count s' = k_timer_allocated_count s → manager_ok base s'.
Proof.
  intros [[T1 T2 T3 T4] M2 M3 M4 M5 M6] Hl El Et Eq Eh Ec.
  assert (∀ i, timer s' i = timer s i) as Ei by (intros i; unfold timer; by rewrite Et).
  assert (cq_list s' = cq_list s) as Ew by (unfold cq_list; by rewrite Eq).
  split; [split| | | | |]; unfold expires_in, expiration, works, armed, allocated in *; rewrite ?El, ?Ew, ?Eh, ?Ec; try done.
  - intros i. rewrite Ei. apply T2.
  - intros i. rewrite Ei. apply T3.
  - clear -T4 Ei. induction T4 as [|i l Hs IH Hf]; constructor; [done|].
    rewrite Forall_forall in *. intros j Hj. rewrite !Ei. by apply Hf.
  - destruct M2. split; unfold cq_list in *; by rewrite Eq.
  - intros i. rewrite Ei. apply M4.
  - rewrite M6. f_equal. f_equal. apply list_filter_iff. intros i. by rewrite Ei.
Qed.

(** A change of one timer, its place in the queue and its work. *)
Lemma manager_ok_one base s s' i :
  manager_ok base s → i ∈ all_timers → timers_ok base s' → cq_ok s' →
  k_timer_next_free_hint s' = k_timer_next_free_hint s → k_timer_allocated_count s' = k_timer_allocated_count s →
  (∀ j, j ≠ i → timer s' j = timer s j ∧ (j ∈ timer_list s' ↔ j ∈ timer_list s) ∧ works s' j = works s j) →
  tm_slot_state (timer s' i) = tm_slot_state (timer s i) → slot_ok i (timer s' i) (armed s' i) (works s' i) →
  (∀ w, w ∈ cq_list s' → w ∈ cq_list s ∨ work_timer w = Some i) → manager_ok base s'.
Proof.
  intros Hm Hi Hq Hc Eh Ec Ho Es Hs Hw. split.
  - done.
  - done.
  - rewrite Eh. apply Hm.
  - intros j Hj. destruct (decide (j = i)) as [->|Hne]; [done|]. destruct (Ho j Hne) as (Et&El&Ew).
    rewrite Et, Ew. unfold armed. rewrite (bool_decide_ext _ _ El). by apply (mo_slot _ _ Hm).
  - intros w [Hx|Hx]%Hw; [by apply (mo_work _ _ Hm)|]. by exists i.
  - rewrite Ec, (mo_count _ _ Hm). f_equal. f_equal. apply list_filter_iff. intros j. unfold allocated.
    destruct (decide (j = i)) as [->|Hne]; [by rewrite Es|]. by destruct (Ho j Hne) as (->&_).
Qed.

(** ** The manager's own check accepts *)

Lemma sorted_app_before {A} (R : A → A → Prop) l1 l2 x y :
  StronglySorted R (l1 ++ l2) → x ∈ l1 → y ∈ l2 → R x y.
Proof.
  intros Hs Hx Hy. induction l1 as [|z l1 IH]; [by apply elem_of_nil in Hx|].
  apply StronglySorted_inv in Hs as [Hs Hall]. rewrite Forall_forall in Hall.
  apply elem_of_cons in Hx as [->|Hx]; [|auto]. apply Hall. set_solver.
Qed.

Definition all_active (s : kernel) (l : list Z) : bool :=
  forallb (λ i, bool_decide (tm_state (timer s i) = RTS_TIMER_ACTIVE)) l.

Lemma timer_queue_walk_run base s : ∀ l2 l1 fuel,
  timers_ok base s → timer_list s = l1 ++ l2 → Z.of_nat (length (timer_list s)) ≤ RTS_MAX_TIMERS → (length l2 < fuel)%nat →
  rts_timer_queue_validate_walk (NTimer <$> head l2) (NTimer <$> last l1) (last l1) (Z.of_nat (length l1)) fuel s =
  Done (if all_active s l2 then Some (None, NTimer <$> last (timer_list s), Z.of_nat (length (timer_list s))) else None) s.
Proof.
  intros l2 l1 fuel Hq. revert l1 fuel.
  induction l2 as [|i l2 IH]; intros l1 fuel E Hlen Hf; (destruct fuel as [|fuel]; [simpl in *; lia|]);
    cbn [rts_timer_queue_validate_walk head fmap option_fmap option_map].
  - by rewrite E, app_nil_r.
  - destruct (timer_node s l1 i l2 (to_lists _ _ Hq) E) as (Ho&Hob&Hpv&Hnx).
    rewrite (proj2 (Z.leb_le _ _)) by (rewrite E, length_app in Hlen; lia).
    rewrite bind_gets, Ho, Hpv, !bool_decide_true, Hob by done. cbn [andb negb object_timer]. rewrite bind_ret, bind_gets.
    assert (∀ j, j ∈ timer_list s → expires_in base s j < RTS_TICK_HALF_RANGE) as Hw by apply (to_window base s Hq).
    assert (i ∈ timer_list s) as Hi by (rewrite E; set_solver). rewrite (bool_decide_true (NTimer i = NTimer i)) by done.
    assert (match last l1 with
            | Some p => rts_tick_before (tm_expiration_tick (timer s i)) (tm_expiration_tick (timer s p))
            | None => false end = false) as Hb.
    { destruct (last l1) as [p|] eqn:Ep; [|done]. apply last_Some_elem_of in Ep. apply not_true_iff_false.
      assert (p ∈ timer_list s) as Hp by (rewrite E; set_solver).
      pose proof (to_sorted _ _ Hq) as Hs. rewrite E in Hs. apply (sorted_app_before _ _ _ p i) in Hs; [|done|left].
      intros Hb. apply (rts_tick_before_window base) in Hb; [|by apply Hw..]. unfold expires_in, expiration in Hs. lia. }
    rewrite Hb. cbn [negb andb all_active forallb]. rewrite andb_true_r. case_bool_decide; cbn [andb]; [|done].
    rewrite Hnx. specialize (IH (l1 ++ [i]) fuel). rewrite last_snoc, length_app in IH.
    cbn [length fmap option_fmap option_map] in IH.
    replace (Z.succ (Z.of_nat (length l1))) with (Z.of_nat (length l1 + 1)) by lia. apply IH; [|done|simpl in Hf; lia].
    by rewrite <- app_assoc.
Qed.

Lemma timer_list_length s : lists_ok (k_heap s) → Z.of_nat (length (timer_list s)) ≤ RTS_MAX_TIMERS.
Proof.
  intros Hl. pose proof cfg_timers. assert (RTS_MAX_TIMERS = Z.of_nat (length all_timers)) as ->.
  { unfold all_timers. rewrite length_seqZ. lia. }
  apply inj_le, submseteq_length, NoDup_submseteq; [by apply timer_list_nodup|]. intros i. by apply timer_list_fits.
Qed.

Lemma rts_timer_queue_validate_run base s :
  timers_ok base s → rts_timer_queue_validate s = Done (all_active s (timer_list s)) s.
Proof.
  intros Hq. pose proof (to_lists _ _ Hq) as Hl. pose proof (timer_list_length s Hl) as Hlen.
  unfold rts_timer_queue_validate. rewrite bind_gets, timer_klist by done. cbn [l_head].
  erewrite bind_run; [|apply (timer_queue_walk_run base s (timer_list s) []); [done|done|done|lia]].
  destruct (all_active s (timer_list s)); [|done].
  cbn [l_tail l_count]. rewrite !bool_decide_true, Z.eqb_refl, (proj2 (Z.leb_le _ _)) by done. done.
Qed.

Lemma manager_active base s : manager_ok base s → all_active s (timer_list s) = true.
Proof.
  intros Hm. apply forallb_forall. intros i Hi%list_elem_of_In. apply bool_decide_true.
  destruct (armed_allocated base s i Hm Hi) as (_&_&Ho). apply Ho.
Qed.

Lemma count_for_works s i : cq_ok s → rts_timer_callback_queue_count_for s (Some i) = Z.of_nat (length (works s i)).
Proof. intros Hc. cbn. by rewrite cq_read_list. Qed.

Lemma allocated_match s i :
  bool_decide (allocated s i) = match tm_slot_state (timer s i) with RTS_TIMER_SLOT_ALLOCATED => true | _ => false end.
Proof. unfold allocated. case_bool_decide as E; [by rewrite E|by destruct (tm_slot_state _)]. Qed.

Lemma timer_slot_check_accepts s i :
  cq_ok s → slot_ok i (timer s i) (rts_timer_queue_contains s (Some i)) (works s i) →
  timer_slot_check s i = Some (bool_decide (allocated s i)).
Proof.
  intros Hc Hs. unfold timer_slot_check. rewrite count_for_works by done.
  set (linked := rts_timer_queue_contains s (Some i)) in *. rewrite allocated_match. unfold slot_ok in Hs. destruct (tm_slot_state (timer s i)).
  - destruct Hs as (->&->&->). done.
  - destruct Hs as (->&->). done.
  - destruct Hs as [S1 S2 S3 S4 S5 S6 S7]. rewrite S1, Z.eqb_refl, (proj2 (Z.eqb_neq _ _) S2).
    rewrite (proj2 (Z.eqb_neq (tm_period _) 0)), (proj2 (Z.ltb_ge _ _)) by lia.
    assert (negb (tm_mode (timer s i) =? RTS_TIMER_ONE_SHOT) && negb (tm_mode (timer s i) =? RTS_TIMER_PERIODIC) = false)
      as -> by (by destruct S4 as [->| ->]).
    assert ((Z.of_nat (length (works s i)) =?
      (if bool_decide (tm_callback_state (timer s i) = RTS_TIMER_CALLBACK_PENDING) then 1 else 0)) = true) as ->.
    { case_bool_decide; [by destruct S6 as (w&->&_)|by rewrite S6]. }
    assert (RTS_ENABLE_ASSERTIONS && negb (tm_validation_magic (timer s i) =? RTS_TIMER_VALIDATION_MAGIC) = false) as ->.
    { destruct RTS_ENABLE_ASSERTIONS; [|done]. by rewrite S7. }
    rewrite S5. by destruct linked.
Qed.

Lemma contains_armed base s i : timers_ok base s → rts_timer_queue_contains s (Some i) = armed s i.
Proof. intros Hq. apply rts_timer_queue_contains_run, Hq. Qed.

Lemma timer_slot_check_run base s i :
  manager_ok base s → i ∈ all_timers → timer_slot_check s i = Some (bool_decide (allocated s i)).
Proof.
  intros Hm Ha. apply timer_slot_check_accepts; [apply Hm|].
  rewrite (contains_armed base) by apply Hm. by apply (mo_slot _ _ Hm).
Qed.

Lemma slot_filter s (l : list Z) :
  (∀ i, i ∈ l → timer_slot_check s i = Some (bool_decide (allocated s i))) →
  filter (λ i, timer_slot_check s i = Some true) l = filter (allocated s) l.
Proof.
  induction l as [|i l IH]; intros Hl; [done|]. rewrite !filter_cons, IH by (intros; apply Hl; by right).
  rewrite (Hl i) by left.
  destruct (decide (allocated s i)); [rewrite bool_decide_true by done|rewrite bool_decide_false by done]; done.
Qed.

Lemma callback_work_owned (linked : Z → bool) s w :
  cq_ok s → (∀ i, i ∈ all_timers → slot_ok i (timer s i) (linked i) (works s i)) →
  (∀ w, w ∈ cq_list s → ∃ i, i ∈ all_timers ∧ work_timer w = Some i) → w ∈ cq_list s →
  callback_work_is_owned s w = true.
Proof.
  intros Hc Hslot Hwork Hw. destruct (work_owner_at linked s w Hslot Hwork Hw) as (i&Ha&Ei&Hal&Ews&Hp&Hg).
  unfold callback_work_is_owned.
  rewrite Ei, count_for_works, Ews, Hg, Z.eqb_refl, !bool_decide_true by done. rewrite andb_true_r.
  cbn [andb length]. rewrite !andb_true_r. apply existsb_exists. exists i. split; [by apply list_elem_of_In|apply Z.eqb_refl].
Qed.

(** The check of the manager accepts every store of the invariant. *)
Lemma rts_timer_manager_validate_run base s :
  manager_ok base s → rts_timer_manager_validate s = Done true s.
Proof.
  intros Hm. unfold rts_timer_manager_validate. destruct RTS_ENABLE_INVARIANT_CHECKS; [|done]. cbn [negb].
  pose proof (mo_hint _ _ Hm) as Hh. pose proof (mo_count _ _ Hm) as Hc. pose proof cfg_timers as Ht.
  assert (k_timer_allocated_count s ≤ RTS_MAX_TIMERS) as Hle.
  { rewrite Hc. pose proof (length_filter (allocated s) all_timers) as Hl. unfold all_timers in Hl at 2.
    rewrite length_seqZ in Hl. lia. }
  rewrite bind_gets, (proj2 (Z.leb_gt _ _)), (proj2 (Z.ltb_ge _ _)) by lia. cbn [orb].
  rewrite (bind_run _ _ _ _ _ (rts_timer_queue_validate_run base s (mo_queue _ _ Hm))), (manager_active base s Hm). cbn [negb]. unfold gets. f_equal.
  rewrite rts_timer_callback_queue_validate_ok, cq_read_list by apply Hm. cbn [andb].
  apply andb_true_iff. split; [apply andb_true_iff; split|].
  - apply forallb_forall. intros w Hw%list_elem_of_In. apply (callback_work_owned (armed s)); apply Hm || done.
  - apply forallb_forall. intros i Hi%list_elem_of_In. by rewrite (timer_slot_check_run base s i Hm Hi).
  - apply Z.eqb_eq. rewrite Hc. f_equal. f_equal. apply slot_filter. intros i. by apply (timer_slot_check_run base).
Qed.

(** ** and accepts nothing else *)

(** A slot the check passes. *)
Lemma timer_slot_check_inv s i a :
  cq_ok s → 0 ≤ tm_period (timer s i) → (∀ w, w ∈ works s i → work_generation w = tm_generation (timer s i)) →
  timer_slot_check s i = Some a →
  a = bool_decide (allocated s i) ∧ slot_ok i (timer s i) (rts_timer_queue_contains s (Some i)) (works s i).
Proof.
  intros Hc Hp Hg. unfold timer_slot_check. rewrite count_for_works by done.
  set (linked := rts_timer_queue_contains s (Some i)) in *.
  rewrite allocated_match. unfold slot_ok. destruct (tm_slot_state (timer s i)).
  - destruct (_ || _ || _) eqn:E; [done|]. intros [= <-]. rewrite !orb_false_iff, !negb_false_iff, bool_decide_eq_true, Z.eqb_eq in E.
    destruct E as [[E1 E2] E3]. split; [done|]. split_and!; [done|done|]. apply length_zero_iff_nil. lia.
  - destruct (_ || _) eqn:E; [done|]. intros [= <-]. rewrite orb_false_iff, negb_false_iff, Z.eqb_eq in E.
    destruct E as [E2 E3]. split; [done|]. split; [done|]. apply length_zero_iff_nil. lia.
  - destruct (_ || _) eqn:E; [done|]. destruct (RTS_ENABLE_ASSERTIONS && _) eqn:Em; [done|]. intros [= <-]. split; [done|].
    rewrite !orb_false_iff, !negb_false_iff, !andb_false_iff, !negb_false_iff, !bool_decide_eq_true, !Z.eqb_eq, !Z.eqb_neq,
      Z.ltb_ge, eqb_true_iff in E. destruct E as [[[[[[[E1 E2] E3] E4] E5] E6] E7] E8].
    split; [done..|lia|done| | |].
    + clear E8. rewrite E7. case_bool_decide; [done|]. by destruct E6.
    + case_bool_decide; [|apply length_zero_iff_nil; lia]. destruct (works s i) as [|w [|]]; cbn in E8; try lia.
      exists w. split; [done|]. apply Hg. left.
    + intros Ha. rewrite Ha in Em. cbn in Em. by apply negb_false_iff, Z.eqb_eq in Em.
Qed.

Lemma callback_work_owned_inv s w :
  callback_work_is_owned s w = true →
  ∃ i, i ∈ all_timers ∧ work_timer w = Some i ∧ work_generation w = tm_generation (timer s i).
Proof.
  unfold callback_work_is_owned. destruct (work_timer w) as [i|]; [|done]. rewrite !andb_true_iff, Z.eqb_eq, existsb_exists.
  intros [[[[(j&Hj&->%Z.eqb_eq) _] _] Hg] _]. exists i. split_and!; [by apply list_elem_of_In|done..].
Qed.

Lemma slots_checked s :
  cq_ok s → (∀ i, 0 ≤ tm_period (timer s i)) → (∀ w, In w (cq_list s) → callback_work_is_owned s w = true) →
  (∀ i, In i (seqZ 0 RTS_MAX_TIMERS) → match timer_slot_check s i with None => false | Some _ => true end = true) →
  ∀ i, i ∈ all_timers → timer_slot_check s i = Some (bool_decide (allocated s i)) ∧
    slot_ok i (timer s i) (rts_timer_queue_contains s (Some i)) (works s i).
Proof.
  intros Hc Hp Hw Hs i Hi. specialize (Hs i). rewrite <- list_elem_of_In in Hs. specialize (Hs Hi).
  destruct (timer_slot_check s i) as [a|] eqn:E; [|done].
  destruct (timer_slot_check_inv s i a Hc (Hp i)) as [-> Hok]; [|done|done].
  intros w [Hi' Hin]%list_elem_of_filter. apply list_elem_of_In, Hw in Hin.
  destruct (callback_work_owned_inv s w Hin) as (j&_&Ej&Hg). congruence.
Qed.

Lemma manager_ok_checked base s :
  timers_ok base s → cq_ok s → (∀ i, 0 ≤ tm_period (timer s i)) → k_timer_next_free_hint s < RTS_MAX_TIMERS →
  (∀ w, In w (cq_list s) → callback_work_is_owned s w = true) →
  (∀ i, In i (seqZ 0 RTS_MAX_TIMERS) → match timer_slot_check s i with None => false | Some _ => true end = true) →
  Z.of_nat (length (filter (λ i, timer_slot_check s i = Some true) (seqZ 0 RTS_MAX_TIMERS))) = k_timer_allocated_count s →
  manager_ok base s.
Proof.
  intros Hq Hc Hp Hh Hw Hs Hn. pose proof (slots_checked s Hc Hp Hw Hs) as Hslot. split; [done..| | |].
  - intros i Hi. rewrite <- (contains_armed base) by done. by apply Hslot.
  - intros w Hin%list_elem_of_In. destruct (callback_work_owned_inv s w (Hw w Hin)) as (i&Hi&Ei&_). eauto.
  - rewrite <- Hn. f_equal. f_equal. apply slot_filter. intros i Hi. by apply Hslot.
Qed.
End manager.
