(* ===== verification/TimerValidate.v ===== *)
(** * The manager's own check is exact

    rts_timer_manager_validate (kernel/timer.c), with the walk of the active
    queue (kernel/timer_queue.c) and the test of the callback ring
    (kernel/timer_callback_queue.c), on any store: it always answers, and says
    true exactly on the stores that are consistent in the declarative sense
    below. *)

From S2P Require Import Prelude Machine Config Types Links IntrusiveList KernelLists Time ReadyQueue.
From S2P Require Import DelayQueue HostPort Ring Diagnostics TaskPool Policy PolicySpec Scheduler.
From S2P Require Import SwitchSpec TaskApi CallbackQueue TimerQueue Timer TimerManager.

Section validate.
Context `{ConfigOk}.

(** What the types of C give: unsigned members are not negative, and the void
    pointer of a node of the timer queue is not that of a task. *)
Record manager_typed (s : kernel) : Prop := {
  mt_object n t : n_owner (node s n) = Some LTimer → n_object (node s n) ≠ Some (OTask t);
  mt_head : 0 ≤ cq_head (k_callback_queue s);
  mt_count : 0 ≤ cq_count (k_callback_queue s);
  mt_period i : 0 ≤ tm_period (timer s i)
}.

(** From [nd] on, the chain of nodes is that of the timers [l], the node before
    being that of [prev]: each is owned by the queue, linked back, belongs to an
    active timer and does not expire before its predecessor; then it ends. *)
Fixpoint chained (s : kernel) (nd : option node_ptr) (prev : option Z) (l : list Z) : Prop :=
  match l with
  | [] => nd = None
  | i :: l' =>
      nd = Some (NTimer i) ∧
      n_owner (node s (NTimer i)) = Some LTimer ∧
      n_previous (node s (NTimer i)) = NTimer <$> prev ∧
      n_object (node s (NTimer i)) = Some (OTimer i) ∧
      tm_state (timer s i) = RTS_TIMER_ACTIVE ∧
      (∀ p, prev = Some p → rts_tick_before (tm_expiration_tick (timer s i)) (tm_expiration_tick (timer s p)) = false) ∧
      chained s (n_next (node s (NTimer i))) (Some i) l'
  end.

(** The active queue is the chain of the timers [l]. *)
Record queue_is (s : kernel) (l : list Z) : Prop := {
  qi_chain : chained s (l_head (klist s LTimer)) None l;
  qi_tail : l_tail (klist s LTimer) = NTimer <$> last l;
  qi_count : l_count (klist s LTimer) = Z.of_nat (length l);
  qi_room : Z.of_nat (length l) ≤ RTS_MAX_TIMERS
}.

Record manager_consistent (s : kernel) : Prop := {
  mc_queue : ∃ l, queue_is s l;
  mc_ring : cq_ok s;
  mc_hint : k_timer_next_free_hint s < RTS_MAX_TIMERS;
  mc_slot i : i ∈ all_timers →
    slot_ok i (timer s i) (bool_decide (n_owner (node s (NTimer i)) = Some LTimer)) (works s i);
  mc_work w : w ∈ cq_list s → ∃ i, i ∈ all_timers ∧ work_timer w = Some i;
  mc_allocated : k_timer_allocated_count s = Z.of_nat (length (filter (allocated s) all_timers))
}.

(** ** The walk of the queue *)

(** What rts_timer_queue_validate makes of the end of the walk. *)
Definition walk_accepted (walked : option (option node_ptr * option node_ptr * Z)) (tail : option node_ptr) (n : Z) : bool :=
  match walked with
  | None => false
  | Some (nd, previous_node, count) =>
      bool_decide (nd = None) && bool_decide (previous_node = tail) && (count =? n) && (count <=? RTS_MAX_TIMERS)
  end.

Definition last_after (prev : option Z) (l : list Z) : option Z := match last l with Some i => Some i | None => prev end.

Definition walk_finds (s : kernel) (nd : option node_ptr) (prev : option Z) (count : Z) (tail : option node_ptr) (n : Z) : Prop :=
  ∃ l, chained s nd prev l ∧ tail = NTimer <$> last_after prev l ∧ n = count + Z.of_nat (length l) ∧ n ≤ RTS_MAX_TIMERS.

(** One good node. *)
Lemma walk_finds_step s i prev count tail n :
  n_previous (node s (NTimer i)) = NTimer <$> prev → n_object (node s (NTimer i)) = Some (OTimer i) →
  n_owner (node s (NTimer i)) = Some LTimer → tm_state (timer s i) = RTS_TIMER_ACTIVE →
  (∀ p, prev = Some p → rts_tick_before (tm_expiration_tick (timer s i)) (tm_expiration_tick (timer s p)) = false) →
  walk_finds s (n_next (node s (NTimer i))) (Some i) (Z.succ count) tail n ↔
  walk_finds s (Some (NTimer i)) prev count tail n.
Proof.
  intros Hp Ho Hw Ha Hb. unfold walk_finds, last_after. split.
  - intros (l&Hl&->&->&Hn). exists (i :: l). rewrite last_cons. cbn [chained length]. split_and!; [done..| |lia|lia].
    by destruct (last l).
  - intros ([|j l]&Hl&->&->&Hn); [done|]. destruct Hl as ([= <-]&_&_&_&_&_&Hl). exists l.
    rewrite last_cons. cbn [length] in *. split_and!; [done| |lia|lia]. by destruct (last l).
Qed.
Lemma timer_queue_walk_exact s fuel : manager_typed s → ∀ nd prev count,
  count ≤ RTS_MAX_TIMERS + 1 → RTS_MAX_TIMERS + 2 - count < Z.of_nat fuel → ∃ r,
  rts_timer_queue_validate_walk nd (NTimer <$> prev) prev count fuel s = Done r s ∧
  ∀ tail n, walk_accepted r tail n = true ↔ walk_finds s nd prev count tail n.
Proof.
  intros Hty. induction fuel as [|fuel IH]; intros nd prev count Hc Hf; [lia|]. cbn [rts_timer_queue_validate_walk].
  destruct nd as [nd|].
  2: { eexists. split; [done|]. intros tail n. unfold walk_accepted, walk_finds.
    rewrite !andb_true_iff, !bool_decide_eq_true, Z.eqb_eq, Z.leb_le. split.
    - intros [[[_ <-] <-] ?]. exists []. cbn. split_and!; [done..|lia|lia].
    - intros ([|]&Hl&->&->&?); [|by destruct Hl]. cbn in *. split_and!; [done..|lia|lia]. }
  assert (∀ r, (∀ tail n, walk_accepted r tail n = false) → (∀ tail n, ¬ walk_finds s (Some nd) prev count tail n) →
    ∀ tail n, walk_accepted r tail n = true ↔ walk_finds s (Some nd) prev count tail n) as Hno.
  { intros r H1' H2' tail n. rewrite H1'. split; [done|]. intros Hx. by destruct (H2' tail n). }
  destruct (Z.leb_spec count RTS_MAX_TIMERS) as [Hle|Hgt].
  2: { eexists. split; [done|]. apply Hno; [done|]. intros tail n ([|i l]&Hl&_&->&?); [done|]. cbn in *. lia. }
  rewrite bind_gets. destruct (_ && _) eqn:E1; cbn [negb].
  2: { exists None. split; [done|]. apply Hno; [done|]. intros tail n ([|i l]&Hl&_); [done|].
    destruct Hl as ([= ->]&Hw&Hp&_). by rewrite Hw, Hp, !bool_decide_true in E1. }
  rewrite andb_true_iff, !bool_decide_eq_true in E1. destruct E1 as [Hw Hp].
  destruct (n_object (node s nd)) as [o|] eqn:Ho.
  2: { exists None. split; [done|]. apply Hno; [done|]. intros tail n ([|i l]&Hl&_); [done|].
    destruct Hl as ([= ->]&_&_&Hob&_). congruence. }
  destruct o as [t|i]; [by destruct (mt_object s Hty nd t)|]. cbn [object_timer]. rewrite bind_ret, bind_gets.
  destruct (_ && negb _) eqn:E2.
  - rewrite !andb_true_iff, negb_true_iff, !bool_decide_eq_true in E2. destruct E2 as [[<- Ha] Hb].
    destruct (IH (n_next (node s (NTimer i))) (Some i) (Z.succ count)) as (r&Hr&Hiff); [lia..|].
    exists r. split; [exact Hr|]. intros tail n. rewrite Hiff. apply walk_finds_step; try done.
    intros p ->. exact Hb.
  - exists None. split; [done|]. apply Hno; [done|]. intros tail n ([|j l]&Hl&_); [done|].
    destruct Hl as ([= ->]&_&_&Hob&Ha&Hb&_). rewrite Ho in Hob. injection Hob as ->.
    rewrite Ha, !bool_decide_true in E2 by done. cbn [andb] in E2. apply negb_false_iff in E2.
    destruct prev as [p|]; [|done]. by rewrite (Hb p) in E2.
Qed.

Lemma rts_timer_queue_validate_exact s :
  manager_typed s → ∃ r, rts_timer_queue_validate s = Done r s ∧ (r = true ↔ ∃ l, queue_is s l).
Proof.
  intros Hty. pose proof cfg_timers. unfold rts_timer_queue_validate. rewrite bind_gets.
  destruct (timer_queue_walk_exact s (Z.to_nat (RTS_MAX_TIMERS + 3)) Hty (l_head (klist s LTimer)) None 0)
    as (r&Hr&Hiff); [lia..|]. cbn [fmap option_fmap option_map] in Hr. rewrite (bind_run _ _ _ _ _ Hr).
  exists (walk_accepted r (l_tail (klist s LTimer)) (l_count (klist s LTimer))). split.
  - by destruct r as [[[]]|].
  - rewrite Hiff. unfold walk_finds, last_after. split; intros (l&Hl).
    + destruct Hl as (?&?&?&?). exists l. split; [done|by destruct (last l)|lia|lia].
    + destruct Hl. exists l. split_and!; [done|by destruct (last l)|lia|lia].
Qed.

(** ** The ring *)

Lemma rts_timer_callback_queue_validate_exact s :
  manager_typed s → rts_timer_callback_queue_validate s = true ↔ cq_ok s.
Proof.
  intros Hty. split; [|apply rts_timer_callback_queue_validate_ok].
  pose proof (mt_head s Hty) as Hh. pose proof (mt_count s Hty) as Hc.
  unfold rts_timer_callback_queue_validate. destruct (_ || _) eqn:E; [done|].
  rewrite !orb_false_iff, !Z.leb_gt, !Z.ltb_ge in E. destruct E as [[[[E1 E2] E3] E4] E5].
  rewrite andb_true_iff, Z.eqb_eq, <- (Z.mod_small (cq_head (k_callback_queue s)) RTS_TIMER_CALLBACK_QUEUE_CAPACITY) by done.
  rewrite cq_read_ring, cq_index_after_mod, Z2Nat.id, forallb_forall by done. intros [Hw Ht].
  split; [lia|lia|by symmetry|lia|]. intros w Hin. specialize (Hw w). rewrite <- list_elem_of_In, bool_decide_eq_true in Hw.
  by apply Hw.
Qed.

(** ** The whole check *)

Lemma validate_decides s :
  RTS_ENABLE_INVARIANT_CHECKS = true → manager_typed s →
  ∃ r, rts_timer_manager_validate s = Done r s ∧ (r = true ↔ manager_consistent s).
Proof.
  intros Hon Hty. pose proof cfg_timers as Ht. destruct (rts_timer_queue_validate_exact s Hty) as (q&Hq&Hqi).
  unfold rts_timer_manager_validate. rewrite Hon. cbn [negb]. rewrite bind_gets.
  destruct (_ || _) eqn:Eh.
  { exists false. split; [done|]. split; [done|]. intros [_ _ Hh _ _ Hn]. rewrite orb_true_iff, Z.leb_le, Z.ltb_lt in Eh.
    pose proof (length_filter (allocated s) all_timers) as Hl. unfold all_timers in Hl at 2. rewrite length_seqZ in Hl. lia. }
  rewrite orb_false_iff, Z.leb_gt, Z.ltb_ge in Eh. destruct Eh as [Eh _]. rewrite (bind_run _ _ _ _ _ Hq).
  destruct q; cbn [negb]; [|exists false; split; [done|]; split; [done|intros Hm; apply Hqi, Hm]].
  eexists. split; [done|]. rewrite !andb_true_iff, (rts_timer_callback_queue_validate_exact s Hty), !forallb_forall, Z.eqb_eq.
  split.
  - intros [[[Hc Hw] Hs] Hn]. rewrite cq_read_list in Hw by done.
    pose proof (slots_checked s Hc (mt_period s Hty) Hw Hs) as Hslot. split; [by apply Hqi|done|done| | |].
    + intros i Hi. by apply Hslot.
    + intros w Hin%list_elem_of_In. destruct (callback_work_owned_inv s w (Hw w Hin)) as (i&Hi&Ei&_). eauto.
    + rewrite <- Hn. f_equal. f_equal. apply slot_filter. intros i Hi. by apply Hslot.
  - intros [_ Hc _ Hslot Hwork Hn]. rewrite cq_read_list by done.
    assert (∀ i, i ∈ all_timers → timer_slot_check s i = Some (bool_decide (allocated s i))) as Hs.
    { intros i Hi. by apply timer_slot_check_accepts, Hslot. }
    split_and!; [done| | |].
    + intros w Hin%list_elem_of_In.
      by apply (callback_work_owned (λ i, bool_decide (n_owner (node s (NTimer i)) = Some LTimer))).
    + intros i Hi%list_elem_of_In. by rewrite Hs.
    + rewrite Hn. f_equal. f_equal. by apply slot_filter.
Qed.

(** C21: rts_timer_manager_validate decides the consistency of the timer manager,
    on every store that is typed as in C and when the invariant checks are
    compiled in.  It returns, changes nothing, and says true exactly when the
    active queue is an intact chain of owned, mutually linked nodes of active
    timers in wrapping order of expiration whose length, head and tail are those
    recorded; the ring's indices, count and depth are right and each item names a
    timer; every slot is owned by the queue if and only if it is active, has one
    item of work with its current generation if its callback is pending and none
    otherwise, and has a legal configuration; and the hint and the count of
    allocated slots are right.  The check raises no false alarm and misses no
    corruption of these members. *)
Theorem timer_validate_exact s :
  RTS_ENABLE_INVARIANT_CHECKS = true → manager_typed s →
  ∃ r, rts_timer_manager_validate s = Done r s ∧ (r = true ↔ manager_consistent s).
Proof. apply validate_decides. Qed.

(** The invariant of the timers implies consistency. *)
Lemma manager_ok_consistent base s :
  RTS_ENABLE_INVARIANT_CHECKS = true → manager_typed s → manager_ok base s → manager_consistent s.
Proof.
  intros Hon Hty Hm. destruct (validate_decides s Hon Hty) as (r&Hr&Hiff). apply Hiff.
  rewrite (rts_timer_manager_validate_run base s Hm) in Hr. congruence.
Qed.
End validate.
