(* ===== verification/KernelTime.v ===== *)
(** * Kernel time (kernel/time.c)

    A tick advances the clock, wakes every task whose delay or timeout has
    expired, expires timers, accounts the time slice and plans one switch. *)

From S2P Require Import Prelude Machine Config Types Links IntrusiveList KernelLists Time ReadyQueue.
From S2P Require Import DelayQueue HostPort Diagnostics TaskPool Policy PolicySpec WaitObject Scheduler.
From S2P Require Import SwitchSpec TaskApi Semaphore Inheritance Mutex CallbackQueue TimerQueue Timer.

Section time_code.
Context `{Config}.

Definition rts_kernel_tick_now : K Z := gets k_current_tick.

Definition rts_tick_expired_task_is_valid (task_arg : option task_ptr) : K bool :=
  match task_arg with
  | None => ret false
  | Some t =>
      let* idle := gets (λ s, bool_decide (Some t = k_idle_task s)) in
      if idle then ret false else
      rts_scheduler_task_is_blocked_delay (Some t) |||
      (rts_scheduler_task_is_blocked_wait (Some t) &&&
       gets (λ s, wait_timeout_active (wait (task s t))))
  end.

(** The end of a delay, the last part of rts_tick_wake_task. *)
Definition tick_wake_delayed (t : task_ptr) (still_executing : bool) : K bool :=
  rts_delay_remove (Some t) ;;;
  RTS_FATAL_UNLESS (gets (λ s, bool_decide (n_owner (node s (NDelay t)) = None))) ;;;
  modify (upd_task t (λ x, x <| wait := zero_wait |>)) ;;;
  modify (upd_task t (λ x, x <| slice_remaining := RTS_TIME_SLICE_TICKS |>)) ;;;
  modify (upd_task t (λ x, x <| state :=
    if still_executing then RTS_TASK_STATE_RUNNING else RTS_TASK_STATE_READY |>)) ;;;
  RTS_FATAL_UNLESS (rts_policy_task_unblock (Some t)) ;;;
  RTS_DIAG_COUNTER_INC delay_wakeups ;;;
  RTS_DIAG_TASK_INC t diagnostic_wake_count ;;;
  let* prio := gets (λ s, priority (task s t)) in
  RTS_TRACE RTS_TRACE_TASK_WOKE (wait_reason_value RTS_WAIT_DELAY) prio ;;;
  RTS_FATAL_UNLESS (rts_scheduler_task_is_runnable (Some t)) ;;;
  rts_scheduler_task_is_runnable (Some t).

Definition rts_tick_wake_task (t : task_ptr) : K bool :=
  let* valid := rts_tick_expired_task_is_valid (Some t) in
  let* current := rts_scheduler_current_get in
  let still_executing := bool_decide (Some t = current) in
  RTS_FATAL_UNLESS (ret valid) ;;;
  if negb valid then ret false else
  let* reason := gets (λ s, wait_reason (wait (task s t))) in
  match reason with
  | RTS_WAIT_SEMAPHORE => rts_semaphore_timeout_task (Some t)
  | RTS_WAIT_MUTEX => rts_mutex_timeout_task (Some t)
  | _ => tick_wake_delayed t still_executing
  end.

(** The wake-up loop: [None] when the function returns false from it, else
    whether a task, and whether the current task, was woken. *)
Fixpoint rts_kernel_wake_loop (woke_task current_woke : bool) (fuel : nat) : K (option (bool * bool)) :=
  match fuel with
  | O => no_fuel
  | S fuel' =>
      let* now := gets k_current_tick in
      let* expired := rts_delay_peek_expired now in
      match expired with
      | None => ret (Some (woke_task, current_woke))
      | Some t =>
          let* current := rts_scheduler_current_get in
          let current_woke := current_woke || bool_decide (Some t = current) in
          let* woken := rts_tick_wake_task t in
          if negb woken then ret None else rts_kernel_wake_loop true current_woke fuel'
      end
  end.

(** The choice of the task to run next, the last part of
    rts_kernel_time_advance_common. *)
Definition tick_replan : K bool :=
  let* current := rts_scheduler_current_get in
  RTS_FATAL_UNLESS (ret (bool_decide (current ≠ None))) ;;;
  let* selected := rts_scheduler_select_highest_ready in
  RTS_FATAL_UNLESS (ret (bool_decide (selected ≠ None))) ;;;
  match current, selected with
  | Some c, Some n =>
      if bool_decide (n = c) then rts_scheduler_prepare_switch (Some c) ;;; ret false else
      let* blocked := gets (λ s, bool_decide (state (task s c) = RTS_TASK_STATE_BLOCKED)) in
      if blocked then
        RTS_FATAL_UNLESS (rts_scheduler_task_is_blocked_delay (Some c) |||
                          rts_scheduler_task_is_blocked_wait (Some c)) ;;;
        rts_scheduler_prepare_switch (Some n)
      else
      RTS_FATAL_UNLESS (gets (λ s, bool_decide (state (task s c) = RTS_TASK_STATE_RUNNING))) ;;;
      RTS_FATAL_UNLESS rts_scheduler_current_is_valid ;;;
      let* refused :=
        gets (λ s, negb (bool_decide (state (task s c) = RTS_TASK_STATE_RUNNING))) |||
        notM rts_scheduler_current_is_valid in
      if refused then ret false else
      rts_scheduler_prepare_switch (Some n)
  | _, _ => ret false
  end.

Definition rts_kernel_time_advance_common (elapsed_ticks : Z) : K bool :=
  modify (λ s, s <| k_current_tick := u32 (k_current_tick s + elapsed_ticks) |>) ;;;
  RTS_DIAG_COUNTER_ADD scheduler_ticks elapsed_ticks ;;;
  let* now := gets k_current_tick in
  RTS_TRACE RTS_TRACE_TICK elapsed_ticks now ;;;
  let* count := gets (λ s, l_count (klist s LDelay)) in
  let* loop := rts_kernel_wake_loop false false (Z.to_nat (count + 1)) in
  match loop with
  | None => ret false
  | Some (woke_task, current_woke) =>
      let* now := gets k_current_tick in
      let* service_woken := rts_timer_manager_process_expired now in
      let woke_task := woke_task || service_woken in
      let* slice_rotated := (if current_woke then ret false else rts_policy_tick elapsed_ticks) in
      if negb woke_task && negb slice_rotated then ret false else
      tick_replan
  end.

Definition rts_kernel_tick_advance (elapsed_ticks : Z) : K bool :=
  let* valid :=
    gets (λ s, bool_decide (k_lifecycle s = RTS_KERNEL_RUNNING)) &&& rts_port_is_in_isr &&&
    ret (negb (elapsed_ticks =? 0) && (elapsed_ticks <=? RTS_TICK_MAX_ADVANCE)) in
  RTS_ASSERT (ret valid) ;;;
  if valid then rts_kernel_time_advance_common elapsed_ticks else ret false.

Definition rts_kernel_time_skip (elapsed_ticks : Z) : K bool :=
  let* valid :=
    gets (λ s, bool_decide (k_lifecycle s = RTS_KERNEL_RUNNING)) &&& notM rts_port_is_in_isr &&&
    ret (negb (elapsed_ticks =? 0) && (elapsed_ticks <=? RTS_TICK_MAX_ADVANCE)) in
  RTS_ASSERT (ret valid) ;;;
  if valid then rts_kernel_time_advance_common elapsed_ticks else ret false.
End time_code.
