(* ===== verification/TickSpec.v ===== *)
(** * What a tick wakes

    The loop of kernel/time.c that wakes tasks whose delay or timeout has
    expired: it wakes exactly those that are due, each as its reason demands,
    and keeps the invariant of the kernel and of its mutexes, priorities
    inherited from a waiter that gave up included. *)

From S2P Require Import Prelude Machine Config Types Links IntrusiveList KernelLists Time ReadyQueue.
From S2P Require Import DelayQueue HostPort Diagnostics TaskPool Policy PolicySpec WaitObject Scheduler.
From S2P Require Import SwitchSpec KernelSpec StoreCheck TaskApi TaskApiSpec Blocking Semaphore SemaphoreSpec.
From S2P Require Import Inheritance Mutex MutexSpec SystemSpec MutexCalls MutexRelease KernelTime.

Section ticks.
Context `{ConfigOk} `{!BitmapPolicy} {since : Z}.

(** ** One task woken *)

(** [t], delayed before, is runnable with [result]; other tasks differ in
    their priorities at most. *)
Record woken (s s' : kernel) (t : task_ptr) (result : rts_wait_result_t) : Prop := {
  wk_system : system_ok_at since s';
  wk_runnable : runnable s' t = true;
  wk_wait : wait (task s' t) = mk_wait RTS_WAIT_NONE result 0 None false;
  wk_others u : u ≠ t → (task s' u) <| priority := 0 |> = (task s u) <| priority := 0 |>;
  wk_delay : delay_list s' = filter (λ u, u ≠ t) (delay_list s);
  wk_waiting o u : u ∈ waiting s' o ↔ u ≠ t ∧ u ∈ waiting s o;
  wk_unready u : unready s' u ↔ u ≠ t ∧ unready s u;
  wk_armed : kcontents s' LTimer = kcontents s LTimer;
  wk_nesting : same_nesting s s';
  wk_outside : outside false s' = outside false s
}.

(** A step that touches no waiter of a mutex keeps the mutexes' invariant. *)
Lemma system_ok_kstep s s' t R D W :
  system_ok_at since s → kernel_ok_at since s' → kstep s s' t R D W → identity (task s' t) = identity (task s t) →
  (∀ q, W (SMutex q) = waiting s (SMutex q)) → system_ok_at since s'.
Proof.
  intros [Hok Hh Hin Hch] Hok' Hk Hid HW. destruct (kstep_owns _ _ _ _ _ _ Hk (ho_owns s Hh)) as (Hown&Howned&Hm).
  assert (∀ u, identity (task s' u) = identity (task s u)) as Hids.
  { intros u. destruct (decide (u = t)) as [->|Hu]; [done|]. by rewrite (ks_tasks _ _ _ _ _ _ Hk). }
  assert (∀ u, created s' u ↔ created s u) as Hcr by (intros u; by apply identity_created).
  assert (∀ u, priority (task s' u) = priority (task s u)) as Hpr by (intros u; by injection (Hids u)).
  assert (∀ u, base_priority (task s' u) = base_priority (task s u)) as Hba by (intros u; by injection (Hids u)).
  assert (∀ q, waiting s' (SMutex q) = waiting s (SMutex q)) as Hw by (intros q; by rewrite (ks_wait _ _ _ _ _ _ Hk)).
  destruct Hh as [_ H2 H3 H4 H5]. split; [done|split| |].
  - done.
  - intros q u. rewrite Hm, Hcr. apply H2.
  - intros u. rewrite Hcr, Hba. apply H3.
  - intros q. rewrite Hw, Hm. apply H4.
  - intros q u. rewrite Hw, Howned. apply H5.
  - intros u. rewrite Hpr, Hin. symmetry. apply required_ext; [done..|by intros q v _; rewrite Hw|done].
  - intros u. destruct (Hch u) as [l Hl]. exists l. apply (wait_chain_ext s); [|done].
    intros v. apply option_eq. intros x. rewrite (blocker_waits s' v Hok'), (blocker_waits s v Hok).
    assert (∀ q, w_owner (wait_node s' v) = Some (SMutex q) ↔ w_owner (wait_node s v) = Some (SMutex q)) as Ho.
    { intros q. by rewrite (wait_owner_iff s' v _ Hok'), (wait_owner_iff s v _ Hok), Hw. }
    destruct (w_owner (wait_node s' v)) as [[q|q]|], (w_owner (wait_node s v)) as [[q'|q']|]; rewrite ?Hm; naive_solver.
Qed.

(** Of the tasks, [t] alone becomes ready. *)
Lemma requeued_unready_iff s s' t D W u :
  kernel_ok_at since s → unready s t → kstep s s' t (requeued_back s t) D W → unready s' u ↔ u ≠ t ∧ unready s u.
Proof.
  intros Hok Hu Hk. rewrite !unready_iff by (apply Hok || apply Hk). rewrite (ks_lists _ _ _ _ _ _ Hk) by auto.
  pose proof (ko_not_edf s u Hok) as He. apply unready_iff in Hu as [Hnr _]; [|apply Hok].
  assert ((∀ p, u ∉ ready_queue s' p) ↔ u ≠ t ∧ ∀ p, u ∉ ready_queue s p) as ->; [|naive_solver].
  setoid_rewrite (ks_ready _ _ _ _ _ _ Hk). unfold requeued_back, set_queue. split.
  - intros Hn. split.
    + intros ->. apply (Hn (priority (task s t))). rewrite decide_True by done. set_solver.
    + intros p Hp. apply (Hn p). case_decide as E; [rewrite <- E; set_solver|done].
  - intros [Hne Hn] p. case_decide; [|auto]. rewrite elem_of_app, list_elem_of_singleton. naive_solver.
Qed.

(** Which tasks the delay queue holds. *)
Lemma handle_application t : rts_task_handle_is_application_task (Some t) = true → application t.
Proof.
  unfold rts_task_handle_is_application_task. intros (i&Hi&E)%existsb_exists. apply bool_decide_eq_true in E.
  apply list_elem_of_In, elem_of_seqZ in Hi. exists i. split; [congruence|lia].
Qed.

Definition timed_wait (s : kernel) (t : task_ptr) (o : sync_ptr) : Prop :=
  waits_for s t o ∧ wait_timeout_active (wait (task s t)) = true ∧ blocked_wait s t = true.

Lemma delayed_facts s t :
  kernel_ok_at since s → t ∈ delay_list s →
  application t ∧ sound (task s t) = true ∧ state (task s t) = RTS_TASK_STATE_BLOCKED ∧ unready s t ∧
  (blocked_delay s t = true ∨ ∃ o, timed_wait s t o).
Proof.
  intros Hok Hin. pose proof (ko_task s Hok t) as Ht. unfold task_ok in Ht.
  assert (delayed s t = true) as Hd by (by apply bool_decide_true, (delay_owner s t), Hin; apply (ro_lists _ (ko_ready s Hok))).
  assert (runnable s t = true → False) as Hnr by (intros [Hx _]%(runnable_places s t Hok); done).
  apply bool_decide_eq_true in Hd as Hown.
  destruct (state (task s t)) eqn:E; [naive_solver congruence|naive_solver..|]. destruct Ht as [Hu Hb].
  assert (application t) as Ha.
  { apply handle_application. apply orb_true_iff in Hb as [Hb|Hb].
    - unfold blocked_delay in Hb. rewrite !andb_true_iff in Hb. tauto.
    - unfold blocked_wait, blocked_service in Hb. destruct (rts_scheduler_task_is_timer_service _ _);
        rewrite !andb_true_iff, ?bool_decide_eq_true in Hb; [naive_solver congruence|tauto]. }
  apply orb_true_iff in Hb as [Hb|Hb].
  - destruct (blocked_delay_facts s t (ko_roles s Hok) Ha Hb) as (Hs&_). split_and!; auto.
  - destruct (blocked_wait_facts s t (ko_roles s Hok) Ha Hb) as (Hs&o&Hw). split_and!; try done.
    right. exists o. split_and!; [done| |done]. by rewrite <- (wf_timed _ _ _ Hw).
Qed.

(** From the step to the woken task. *)
Lemma woken_kstep s s' t W result :
  system_ok_at since s → kernel_ok_at since s' → runnable s' t = true → unready s t →
  kstep s s' t (requeued_back s t) (filter (λ u, u ≠ t) (delay_list s)) W →
  (∀ o u, u ∈ W o ↔ u ≠ t ∧ u ∈ waiting s o) → (∀ q, W (SMutex q) = waiting s (SMutex q)) →
  identity (task s' t) = identity (task s t) → wait (task s' t) = mk_wait RTS_WAIT_NONE result 0 None false →
  woken s s' t result.
Proof.
  intros Hsy Hok' Hr Hu Hk HW Hmx Hid Hw. pose proof (sy_kernel s Hsy) as Hok. split; try done.
  - by eapply system_ok_kstep.
  - intros u Hne. by rewrite (ks_tasks _ _ _ _ _ _ Hk).
  - apply (ks_delay _ _ _ _ _ _ Hk).
  - intros o u. by rewrite (ks_wait _ _ _ _ _ _ Hk).
  - intros u. by eapply requeued_unready_iff.
  - apply (ks_lists _ _ _ _ _ _ Hk). by right.
  - apply Hk.
  - apply Hk.
Qed.

(** ** A waiter of a mutex gives up *)

Section gave_up.
Context (s s' : kernel) (t o : task_ptr) (p : Z) (D : list task_ptr).
Context (Hsy : system_ok_at since s) (Hin : t ∈ waiting s (SMutex p)) (Ho : mtx_owner (mutex s p) = Some o).
Context (Hk : kstep s s' t (requeued_back s t) D (unwaited s t (SMutex p))).
Context (Hok' : kernel_ok_at since s') (Hr : runnable s' t = true) (Hid : identity (task s' t) = identity (task s t)).

Lemma gave_up_identity u : identity (task s' u) = identity (task s u).
Proof. destruct (decide (u = t)) as [->|Hu]; [done|]. by rewrite (ks_tasks _ _ _ _ _ _ Hk). Qed.

Lemma gave_up_waiting u q : u ∈ waiting s' q ↔ u ≠ t ∧ u ∈ waiting s q.
Proof.
  rewrite (ks_wait _ _ _ _ _ _ Hk). destruct (unwaited_facts s t _ (sy_kernel s Hsy) Hin) as (Hn&Hiff&_).
  destruct (decide (u = t)) as [->|Hne]; [|rewrite Hiff by done; naive_solver].
  split; [intros Hx; by apply Hn in Hx|naive_solver].
Qed.

Lemma gave_up_held : held_ok s'.
Proof.
  destruct (sy_held s Hsy) as [A1 A2 A3 A4 A5]. destruct (kstep_owns _ _ _ _ _ _ Hk A1) as (Hown&Howned&Hm).
  assert (∀ u, created s' u ↔ created s u) as Hcr by (intros u; apply identity_created, gave_up_identity).
  split; [done|..].
  - intros q u. rewrite Hm, Hcr. apply A2.
  - intros u. rewrite Hcr. assert (base_priority (task s' u) = base_priority (task s u)) as -> by by injection (gave_up_identity u).
    apply A3.
  - intros q Hne. rewrite Hm. apply A4. intros E. apply Hne. destruct (waiting s' (SMutex q)) as [|u l] eqn:E'; [done|].
    assert (u ∈ waiting s' (SMutex q)) as [_ Hu]%gave_up_waiting by (rewrite E'; left). rewrite E in Hu. by apply elem_of_nil in Hu.
  - intros q u [_ Hu]%gave_up_waiting. rewrite Howned. by apply (A5 q).
Qed.

Lemma gave_up_inherits u : u ≠ o → priority (task s' u) = required s' u.
Proof.
  intros Hu. destruct (kstep_owns _ _ _ _ _ _ Hk (ho_owns s (sy_held s Hsy))) as (_&Howned&_).
  assert (∀ v, priority (task s' v) = priority (task s v)) as Hp by (intros v; by injection (gave_up_identity v)).
  rewrite Hp, (sy_inherits s Hsy). symmetry. apply required_ext; [by injection (gave_up_identity u)|done| |done].
  intros q v Hq. rewrite gave_up_waiting. split; [naive_solver|]. intros Hv. split; [|done]. intros ->.
  eapply wait_owner_iff in Hv, Hin; [|apply Hsy..]. assert (q = p) as -> by congruence.
  apply (owned_owner s u p (ho_owns s (sy_held s Hsy))) in Hq. congruence.
Qed.

Lemma gave_up_chains u : ∃ l, wait_chain s' u l.
Proof.
  destruct (kstep_owns _ _ _ _ _ _ Hk (ho_owns s (sy_held s Hsy))) as (_&_&Hm). pose proof (sy_kernel s Hsy) as Hok.
  apply (chains_cut s s' t); [apply Hsy|by rewrite (blocker_waits s' t Hok'), (runnable_not_waiting s' t Hok' Hr)|].
  intros v. rewrite !blocker_waits by done. destruct (w_owner (wait_node s' v)) as [q|] eqn:E; [|by auto].
  eapply wait_owner_iff in E; [|done]. apply gave_up_waiting in E as [_ E].
  eapply wait_owner_iff in E as ->; [|done]. destruct q; rewrite ?Hm; auto.
Qed.
End gave_up.

(** The wait result a task gets when its time is up. *)
Definition expiry_result (s : kernel) (t : task_ptr) : rts_wait_result_t :=
  match wait_reason (wait (task s t)) with
  | RTS_WAIT_SEMAPHORE | RTS_WAIT_MUTEX => RTS_WAIT_RESULT_TIMEOUT
  | _ => RTS_WAIT_RESULT_NONE
  end.

Lemma semaphore_timeout_spec s t p :
  system_ok_at since s → port_room s → timed_wait s t (SSemaphore p) →
  wp (rts_semaphore_timeout_task (Some t)) (λ b s', b = true ∧ woken s s' t RTS_WAIT_RESULT_TIMEOUT) s.
Proof.
  intros Hsy Hroom (Hw&Hto&Hb). pose proof (sy_kernel s Hsy) as Hok.
  assert (t ∈ waiting s (SSemaphore p)) as Hin by (apply (wait_owner_iff s t _ Hok), Hw).
  destruct (waiting_facts s t _ Hok Hin) as (Ha&Hs&_&Hu). cbn [rts_semaphore_timeout_task].
  apply wp_bind. eapply wp_run; [apply (andM_run _ _ true true)|].
  { rewrite rts_scheduler_task_is_blocked_wait_run by apply (ko_prio s Hok). by rewrite Hb. }
  { intros _. unfold gets. by rewrite Hto. }
  cbn [andb negb]. apply wp_bind. eapply wp_mono; [by eapply (rts_semaphore_make_ready_spec s t p)|].
  intros [] s' [Hok' Hk Hr Hwt Hid]. apply wp_ret. split; [done|].
  destruct (unwaited_facts s t (SSemaphore p) Hok Hin) as (Hn&Hiff&_).
  eapply woken_kstep; [done..|exact Hk| |done|done|done].
  intros o u. destruct (decide (u = t)) as [->|Hne]; [|rewrite Hiff by done; naive_solver].
  split; [intros Hx; by apply Hn in Hx|naive_solver].
Qed.

Lemma delay_wake_spec s t :
  system_ok_at since s → port_room s → t ∈ delay_list s → blocked_delay s t = true →
  wp (tick_wake_delayed t (bool_decide (Some t = k_current_task s)))
    (λ b s', b = true ∧ woken s s' t RTS_WAIT_RESULT_NONE) s.
Proof.
  intros Hsy Hroom Hin Hb. pose proof (sy_kernel s Hsy) as Hok.
  destruct (delayed_facts s t Hok Hin) as (Ha&Hs&Hst&Hu&_).
  destruct (blocked_delay_facts s t (ko_roles s Hok) Ha Hb) as (_&_&Hwo&_).
  assert (∀ o, t ∉ waiting s o) as Hnw by (intros o Hx%(wait_owner_iff s t o Hok); congruence).
  pose proof (kstep_refl (m:=false) s t (ko_ready s Hok) (wok_wf s (ko_waits s Hok))) as Hk0. unfold tick_wake_delayed.
  apply wp_bind. eapply wp_kstep_delay_remove; [exact Hk0|by eapply delay_list_nodup|done|]. intros s1 Hk1 E1.
  apply wp_bind, wp_RTS_FATAL_UNLESS.
  { unfold gets. rewrite (kstep_undelayed _ _ _ _ _ _ Hk1); [done|]. rewrite list_elem_of_filter. naive_solver. }
  apply wp_bind. eapply wp_kstep_task; [exact Hk1|done|]. intros s2 Hk2 E2.
  apply wp_bind. eapply wp_kstep_task; [exact Hk2|done|]. intros s3 Hk3 E3.
  apply wp_bind. eapply wp_kstep_task; [exact Hk3|done|]. intros s4 Hk4 E4. rewrite E3, E2, E1 in E4.
  apply wp_bind, wp_fatal_do. eapply (wp_kstep_unblock s s4); [exact Hk4|by eapply ko_not_edf| |by apply app_all_tasks|..].
  { by apply unready_iff in Hu as [Hx _]; [|apply Hok]. }
  { rewrite E4. apply (ko_prio s Hok). }
  { rewrite E4. cbn. by case_bool_decide. }
  intros s5 Hk5 E5. split; [done|]. rewrite E4 in Hk5, E5.
  apply wp_bind. eapply wp_kstep_counter; [exact Hk5|]. intros s6 Hk6 E6.
  apply wp_bind. eapply wp_kstep_diag; [exact Hk6|done|]. intros s7 Hk7 E7.
  apply wp_bind, wp_gets, wp_bind. eapply wp_kstep_trace; [exact Hk7|exact Hroom|]. intros s8 Hk8 E8.
  assert (face (task s8 t) = face (task s4 t)) as Hf by congruence.
  rewrite E4 in Hf. apply face_eq in Hf as (Hid&Hwt&Hs8).
  destruct (woken_ok_at s s8 t _ RTS_WAIT_RESULT_NONE Hok Ha Hst Hs Hk8) as [Hok8 Hr8];
    [done|done|apply (wok_sorted s (ko_waits s Hok))|done|done|done|].
  assert (rts_scheduler_task_is_runnable (Some t) s8 = Done true s8) as Hrun.
  { rewrite rts_scheduler_task_is_runnable_run by apply (ko_prio s8 Hok8). by rewrite Hr8. }
  apply wp_bind, wp_RTS_FATAL_UNLESS; [done|]. eapply wp_run; [exact Hrun|]. split; [done|].
  eapply woken_kstep; [done..|exact Hk8| |done|done|done]. intros o u. naive_solver.
Qed.
Lemma mutex_timeout_spec s t p :
  system_ok_at since s → port_room s → timed_wait s t (SMutex p) →
  wp (rts_mutex_timeout_task (Some t)) (λ b s', b = true ∧ woken s s' t RTS_WAIT_RESULT_TIMEOUT) s.
Proof.
  intros Hsy Hroom (Hw&Hto&Hb). pose proof (sy_kernel s Hsy) as Hok.
  assert (t ∈ waiting s (SMutex p)) as Hin by (apply (wait_owner_iff s t _ Hok), Hw).
  destruct (waiting_facts s t _ Hok Hin) as (Ha&Hs&[Wst Wre Wob _ _ Wt]&Hu).
  destruct (mtx_owner (mutex s p)) as [o|] eqn:Ho.
  2: { destruct (ho_waited s (sy_held s Hsy) p); [|done]. intros E. rewrite E in Hin. by apply elem_of_nil in Hin. }
  cbn [rts_mutex_timeout_task]. apply wp_bind. eapply wp_run; [apply (andM_run _ _ true true)|].
  { unfold gets. by rewrite Wre, Hto. }
  { intros _. rewrite rts_scheduler_task_is_blocked_wait_run by apply (ko_prio s Hok). by rewrite Hb. }
  cbn [andb negb]. apply wp_bind, wp_gets. rewrite Wob. cbn [object_mutex]. apply wp_bind, wp_ret, wp_bind, wp_gets. rewrite Ho.
  pose proof (kstep_refl (m:=false) s t (ko_ready s Hok) (wok_wf s (ko_waits s Hok))) as Hk0.
  apply wp_bind. eapply wp_kstep_wait_remove; [exact Hk0|apply (ko_waits s Hok)|done|]. intros s1 Hk1 E1.
  apply wp_bind. eapply wp_kstep_delay_remove; [exact Hk1|by eapply delay_list_nodup| |].
  { rewrite Hto in Wt. by apply bool_decide_eq_true, (delay_owner s t) in Wt; [|apply (ro_lists _ (ko_ready s Hok))]. }
  intros s2 Hk2 E2. rewrite E1 in E2.
  apply wp_end_wait; [apply Hk2|apply Hk2|rewrite (ks_lists _ _ _ _ _ _ Hk2) by auto; by eapply ko_not_edf| |by apply app_all_tasks| |].
  { intros q. rewrite (ks_ready _ _ _ _ _ _ Hk2). by apply unready_iff; [apply Hok|]. }
  { rewrite E2. apply (ko_prio s Hok). }
  intros s3 Hk3 Hid3 Hw3 Hs3. rewrite (kstep_field k_current_task _ _ _ _ _ _ Hk2) in Hs3 by done. rewrite E2 in Hid3.
  pose proof (end_wait_step s s2 s3 t _ _ Hk2 ltac:(by rewrite E2) Hk3) as Hk.
  destruct (woken_ok_at s s3 t _ RTS_WAIT_RESULT_TIMEOUT Hok Ha Wst Hs Hk) as [Hok3 Hr3];
    [apply (unwaited_facts s t _ Hok Hin)..|done|done|done|].
  eapply wp_recompute; [exact Hok3|by eapply gave_up_held|by eapply kstep_room| |by eapply gave_up_chains|by eapply gave_up_inherits|].
  { apply (identity_created s s3); [by eapply gave_up_identity|]. by apply (ho_owner s (sy_held s Hsy) p). }
  intros s' Hsy' Hr'. apply wp_ret. split; [done|]. pose proof (sy_kernel s' Hsy') as Hok'. split; try done.
  - pose proof (ko_task s' Hok' t) as Ht. unfold task_ok in Ht. rewrite (reprioritized_task state s3 s' t Hr') in Ht by done.
    by destruct (runnable_state s3 t Hr3) as [E|[_ E]]; rewrite E in Ht.
  - by rewrite (reprioritized_task wait s3 s' t Hr').
  - intros u Hne. by rewrite (rp_task _ _ Hr'), (ks_tasks _ _ _ _ _ _ Hk).
  - rewrite (rp_delay_list s3 s' Hok3 Hr') by apply Hok'. apply (ks_delay _ _ _ _ _ _ Hk).
  - intros q u. rewrite (rp_waiting _ _ Hr'). by eapply gave_up_waiting.
  - intros u. rewrite (rp_unready _ _ Hr'). by eapply requeued_unready_iff.
  - rewrite (rp_timer _ _ Hr'). apply (ks_lists _ _ _ _ _ _ Hk). by right.
  - eapply same_nesting_trans; [apply Hk|apply Hr'].
  - rewrite <- (ks_outside _ _ _ _ _ _ Hk). exact (f_equal (λ s, outside false s) (rp_rest _ _ Hr')).
Qed.
(** ** One round of the loop *)

Lemma expired_valid s t :
  kernel_ok_at since s → t ∈ delay_list s → rts_tick_expired_task_is_valid (Some t) s = Done true s.
Proof.
  intros Hok Hin. destruct (delayed_facts s t Hok Hin) as (Ha&_&_&_&Hcase). cbn [rts_tick_expired_task_is_valid]. rewrite bind_gets.
  rewrite bool_decide_false by (rewrite (ko_idle s Hok); by destruct Ha as (i&->&_)).
  eapply eq_trans; [apply (orM_run _ _ (blocked_delay s t) true)|by rewrite orb_true_r].
  - apply rts_scheduler_task_is_blocked_delay_run, (ko_prio s Hok).
  - intros Hn. destruct Hcase as [Hb|(o&Hw&Hto&Hb)]; [congruence|]. apply (andM_run _ _ true true).
    + rewrite rts_scheduler_task_is_blocked_wait_run by apply (ko_prio s Hok). by rewrite Hb.
    + intros _. unfold gets. by rewrite Hto.
Qed.

Lemma rts_tick_wake_task_spec s t :
  system_ok_at since s → port_room s → t ∈ delay_list s →
  wp (rts_tick_wake_task t) (λ b s', b = true ∧ woken s s' t (expiry_result s t)) s.
Proof.
  intros Hsy Hroom Hin. pose proof (sy_kernel s Hsy) as Hok. destruct (delayed_facts s t Hok Hin) as (Ha&_&_&_&Hcase).
  unfold rts_tick_wake_task. apply wp_bind. eapply wp_run; [by apply expired_valid|].
  apply wp_bind. eapply wp_run; [apply rts_scheduler_current_get_run|]. cbv zeta.
  apply wp_bind, wp_RTS_FATAL_UNLESS; [done|]. cbn [negb]. apply wp_bind, wp_gets. unfold expiry_result.
  destruct Hcase as [Hb|(o&Hw)].
  - destruct (blocked_delay_facts s t (ko_roles s Hok) Ha Hb) as (_&_&_&Hre&_). rewrite Hre. by apply delay_wake_spec.
  - pose proof Hw as ([_ Hre _ _ _ _]&_). rewrite Hre. destruct o as [q|q]; cbn [object_reason].
    + by eapply semaphore_timeout_spec.
    + by eapply mutex_timeout_spec.
Qed.
(** ** The loop *)

(** [t] is delayed and its time is up. *)
Definition due (s : kernel) (t : task_ptr) : bool :=
  bool_decide (t ∈ delay_list s) && rts_tick_reached (k_current_tick s) (wake_tick s t).

Lemma due_delayed s t : due s t = true → t ∈ delay_list s.
Proof. unfold due. rewrite andb_true_iff, bool_decide_eq_true. tauto. Qed.

(** All due tasks are awake, with what their wait demands, and nothing else
    changed but priorities. *)
Record wakes (s s' : kernel) : Prop := {
  wa_system : system_ok_at since s';
  wa_woken t : due s t = true → runnable s' t = true ∧ wait (task s' t) = mk_wait RTS_WAIT_NONE (expiry_result s t) 0 None false;
  wa_others t : due s t = false → (task s' t) <| priority := 0 |> = (task s t) <| priority := 0 |>;
  wa_delay : delay_list s' = filter (λ t, due s t = false) (delay_list s);
  wa_waiting o t : t ∈ waiting s' o ↔ due s t = false ∧ t ∈ waiting s o;
  wa_unready t : unready s' t ↔ due s t = false ∧ unready s t;
  wa_armed : kcontents s' LTimer = kcontents s LTimer;
  wa_none : (∀ t, due s t = false) → ∀ p, ready_queue s' p = ready_queue s p;
  wa_nesting : same_nesting s s';
  wa_outside : outside false s' = outside false s
}.

(** A task whose state is that of a runnable one is runnable. *)
Lemma runnable_by_state s s' t :
  kernel_ok_at since s' → runnable s t = true → state (task s' t) = state (task s t) → runnable s' t = true.
Proof.
  intros Hok Hr Es. pose proof (ko_task s' Hok t) as Ht. unfold task_ok in Ht. rewrite Es in Ht.
  by destruct (runnable_state s t Hr) as [E|[_ E]]; rewrite E in Ht.
Qed.

Lemma wakes_none s : system_ok_at since s → (∀ t, due s t = false) → wakes s s.
Proof.
  intros Hsy Hn. split; try done.
  - intros t. by rewrite Hn.
  - symmetry. apply filter_all. intros t _. apply Hn.
  - intros o t. naive_solver.
  - intros t. naive_solver.
Qed.

Section round.
Context (s s1 : kernel) (t : task_ptr) (Hw : woken s s1 t (expiry_result s t)).

Lemma woken_due u : due s1 u = bool_decide (u ≠ t) && due s u.
Proof.
  unfold due. rewrite (wk_delay _ _ _ _ Hw).
  assert (k_current_tick s1 = k_current_tick s) as Et by exact (f_equal k_current_tick (wk_outside _ _ _ _ Hw)).
  destruct (decide (u = t)) as [->|Hne].
  - rewrite bool_decide_false, (bool_decide_false (t ≠ t)); [done|naive_solver|]. rewrite list_elem_of_filter. naive_solver.
  - rewrite (bool_decide_true (u ≠ t)), Et by done. cbn [andb]. f_equal.
    + apply bool_decide_ext. rewrite list_elem_of_filter. naive_solver.
    + unfold wake_tick. by rewrite (f_equal wait (wk_others _ _ _ _ Hw u Hne) : wait (task s1 u) = wait (task s u)).
Qed.

Lemma wakes_step s' : due s t = true → wakes s1 s' → wakes s s'.
Proof.
  intros Hd [A1 A2 A3 A4 A5 A6 AL _ A7 A8]. destruct Hw as [W1 W2 W3 W4 W5 W6 W7 WL W8 W9].
  assert (∀ u, due s u = false ↔ u ≠ t ∧ due s1 u = false) as Hiff.
  { intros u. rewrite woken_due. destruct (decide (u = t)) as [->|Hne]; [naive_solver congruence|].
    rewrite bool_decide_true by done. naive_solver. }
  assert (due s1 t = false) as Ht by (rewrite woken_due, bool_decide_false by naive_solver; done).
  split; try done.
  - intros u Hu. destruct (decide (u = t)) as [->|Hne].
    + pose proof (A3 t Ht) as E. split; [|by rewrite <- W3; exact (f_equal wait E)].
      apply (runnable_by_state s1); [apply A1|done|exact (f_equal state E)].
    + destruct (A2 u) as [Hr Hwt]; [by rewrite woken_due, bool_decide_true|]. split; [done|]. rewrite Hwt.
      unfold expiry_result. by rewrite (f_equal wait (W4 u Hne) : wait (task s1 u) = wait (task s u)).
  - intros u [Hne Hu]%Hiff. by rewrite A3, W4.
  - rewrite A4, W5, list_filter_filter. apply list_filter_iff. intros u. rewrite Hiff. naive_solver.
  - intros o u. rewrite A5, W6, Hiff. naive_solver.
  - intros u. rewrite A6, W7, Hiff. naive_solver.
  - congruence.
  - intros Hn. by rewrite Hn in Hd.
  - by eapply same_nesting_trans.
  - congruence.
Qed.
End round.
(** The queue is sorted: nothing is due unless its head is. *)
Lemma due_head s :
  kernel_ok_at since s → is_u32 (k_current_tick s) → ahead since (k_current_tick s) < RTS_TICK_HALF_RANGE →
  match delay_list s with
  | t :: _ => if rts_tick_reached (k_current_tick s) (wake_tick s t) then due s t = true else ∀ u, due s u = false
  | [] => ∀ u, due s u = false
  end.
Proof.
  intros Hok Hnow Hwin. destruct (ko_delay s Hok) as [_ D2 D3 D4]. unfold due.
  destruct (delay_list s) as [|t ts]; [done|]. destruct (rts_tick_reached _ (wake_tick s t)) eqn:E.
  - by rewrite bool_decide_true by left.
  - intros u. case_bool_decide as Hu; [|done]. cbn [andb]. apply not_true_is_false. intros Er.
    apply (rts_tick_reached_window since) in Er; [|done|by apply D2|done|by apply D3]. apply not_true_iff_false in E. destruct E.
    apply (rts_tick_reached_window since); [done|apply D2; left|done|apply D3; left|]. fold (wake_in since s t).
    apply StronglySorted_inv in D4 as [_ D4]. rewrite Forall_forall in D4.
    apply elem_of_cons in Hu as [->|Hu]; [done|]. specialize (D4 u Hu). unfold wake_in in *. lia.
Qed.

Lemma rts_kernel_wake_loop_spec fuel woke current_woke s :
  system_ok_at since s → port_room s → is_u32 (k_current_tick s) → ahead since (k_current_tick s) < RTS_TICK_HALF_RANGE →
  (length (delay_list s) < fuel)%nat →
  wp (rts_kernel_wake_loop woke current_woke fuel) (λ r s',
    r = Some (woke || existsb (due s) (delay_list s),
              current_woke || existsb (λ t, due s t && bool_decide (Some t = k_current_task s)) (delay_list s)) ∧
    wakes s s') s.
Proof.
  revert woke current_woke s. induction fuel as [|fuel IH]; intros woke current_woke s Hsy Hroom Hnow Hwin Hfuel; [lia|].
  pose proof (sy_kernel s Hsy) as Hok. pose proof (due_head s Hok Hnow Hwin) as Hdue. cbn [rts_kernel_wake_loop].
  apply wp_bind, wp_gets, wp_bind. eapply wp_run; [apply rts_delay_peek_expired_run, (ro_lists _ (ko_ready s Hok))|].
  assert (∀ l, (∀ u, due s u = false) → existsb (due s) l = false ∧
    existsb (λ t, due s t && bool_decide (Some t = k_current_task s)) l = false) as Hnone.
  { intros l Hn. induction l as [|u l IHl]; [done|]. cbn. by rewrite Hn. }
  destruct (delay_list s) as [|t ts] eqn:E.
  { apply wp_ret. rewrite !orb_false_r. split; [done|by apply wakes_none]. }
  destruct (rts_tick_reached _ _) eqn:Er.
  2: { apply wp_ret. destruct (Hnone (t :: ts) Hdue) as [-> ->]. rewrite !orb_false_r. split; [done|by apply wakes_none]. }
  apply wp_bind. eapply wp_run; [apply rts_scheduler_current_get_run|]. cbv zeta.
  apply wp_bind. eapply wp_mono; [apply (rts_tick_wake_task_spec s t Hsy Hroom); rewrite E; left|].
  intros b s1 (->&Hw). cbn [negb]. pose proof (wk_delay _ _ _ _ Hw) as E1.
  pose proof (delay_list_nodup s Hok) as Hnd. rewrite E in E1, Hnd. rewrite (filter_ne_mid [] ts t Hnd) in E1. cbn in E1.
  assert (k_current_tick s1 = k_current_tick s) as Et by exact (f_equal k_current_tick (wk_outside _ _ _ _ Hw)).
  assert (k_current_task s1 = k_current_task s) as Ec by exact (f_equal k_current_task (wk_outside _ _ _ _ Hw)).
  eapply wp_mono; [apply IH; rewrite ?Et, ?E1; [apply Hw| |done|done|cbn in Hfuel; lia]|].
  { destruct (wk_nesting _ _ _ _ Hw) as (En&_). unfold port_room in *. by rewrite En. }
  intros r s' (->&Hws). split; [|by eapply wakes_step].
  assert (∀ u, u ∈ ts → due s1 u = due s u) as Hd.
  { intros u Hu. rewrite (woken_due s s1 t Hw), bool_decide_true; [done|]. intros ->. by apply NoDup_cons in Hnd as [? _]. }
  rewrite E1, Ec. cbn. rewrite Hdue. cbn. f_equal. f_equal; [by rewrite orb_true_r|].
  rewrite <- orb_assoc. f_equal. f_equal. clear -Hd. induction ts as [|u ts IH]; [done|]. cbn.
  rewrite Hd by left. f_equal. apply IH. intros v Hv. apply Hd. by right.
Qed.
(** The invariant at a later instant that no delayed task's time precedes. *)
Lemma system_ok_later s now :
  system_ok_at since s → is_u32 now → (∀ t, t ∈ delay_list s → ahead since now ≤ wake_in since s t) → system_ok_at now s.
Proof.
  intros [[] Hh Hi Hc] Hnow Hle. split; [split|..]; try done. destruct ko_delay as [D1 D2 D3 D4].
  assert (∀ t, t ∈ delay_list s → wake_in now s t = wake_in since s t - ahead since now) as Hw.
  { intros t Ht. by apply ahead_shift, Hle. }
  split; try done.
  - intros t Ht. specialize (D3 t Ht). rewrite (Hw t Ht). pose proof (ahead_range since now). lia.
  - clear -D4 Hw. induction D4 as [|t l Hs IH Hf]; constructor.
    + apply IH. intros u Hu. apply Hw. by right.
    + rewrite Forall_forall in *. intros u Hu. rewrite !Hw by (by left || by right). specialize (Hf u Hu). lia.
Qed.
End ticks.

(** ** A tick *)

Section time_passes.
Context `{ConfigOk} `{!BitmapPolicy}.

(** [elapsed] ticks later. *)
Definition later (elapsed : Z) (s : kernel) : kernel := s <| k_current_tick := u32 (k_current_tick s + elapsed) |>.

Lemma ahead_later s elapsed :
  0 ≤ elapsed < RTS_TICK_HALF_RANGE → ahead (k_current_tick s) (u32 (k_current_tick s + elapsed)) = elapsed.
Proof. intros He. apply ahead_add. unfold RTS_TICK_HALF_RANGE, UINT32_MAX in *. lia. Qed.

Lemma existsb_current (P : task_ptr → bool) (l : list task_ptr) (current : option task_ptr) :
  (∀ c, P c = true → c ∈ l) →
  existsb (λ t, P t && bool_decide (Some t = current)) l = match current with Some c => P c | None => false end.
Proof.
  intros Hl. apply eq_bool_prop_intro. rewrite !Is_true_true, existsb_exists.
  setoid_rewrite andb_true_iff. setoid_rewrite bool_decide_eq_true. setoid_rewrite <- list_elem_of_In.
  destruct current as [c|]; naive_solver.
Qed.

Lemma due_later s elapsed t :
  kernel_ok s → 0 ≤ elapsed < RTS_TICK_HALF_RANGE →
  due (later elapsed s) t = true ↔ t ∈ delay_list s ∧ wake_in (k_current_tick s) s t ≤ elapsed.
Proof.
  intros Hok He. unfold due. rewrite andb_true_iff, bool_decide_eq_true.
  change (delay_list (later elapsed s)) with (delay_list s). change (wake_tick (later elapsed s)) with (wake_tick s).
  change (k_current_tick (later elapsed s)) with (u32 (k_current_tick s + elapsed)).
  assert (t ∈ delay_list s → rts_tick_reached (u32 (k_current_tick s + elapsed)) (wake_tick s t) = true ↔
    wake_in (k_current_tick s) s t ≤ elapsed) as Hiff; [|naive_solver].
  intros Ht. pose proof (do_range _ _ (ko_delay s Hok) t Ht). pose proof (do_window _ _ (ko_delay s Hok) t Ht) as Hwin.
  pose proof (ahead_later s elapsed He) as Ea.
  rewrite (rts_tick_reached_window (k_current_tick s)); [by rewrite Ea|apply u32_range|done|lia|done].
Qed.

Lemma system_ok_waking s elapsed : system_ok s → system_ok_at (k_current_tick s) (later elapsed s).
Proof.
  intros Hsy. apply (system_ok_views s); try done. apply (kernel_ok_faces_at s); try done; [apply Hsy|].
  by apply (plan_ok_frame s), (ko_plan s (sy_kernel s Hsy)).
Qed.

(** The invariant at the new tick. *)
Lemma wakes_system_ok s elapsed s' :
  system_ok s → 0 ≤ elapsed < RTS_TICK_HALF_RANGE → wakes (since := k_current_tick s) (later elapsed s) s' → system_ok s'.
Proof.
  intros Hsy He Hw. pose proof (sy_kernel s Hsy) as Hok. pose proof (ahead_later s elapsed He) as Ea.
  assert (k_current_tick s' = u32 (k_current_tick s + elapsed)) as -> by exact (f_equal k_current_tick (wa_outside _ _ Hw)).
  apply (system_ok_later (since := k_current_tick s)); [apply Hw|apply u32_range|]. intros t. rewrite (wa_delay _ _ Hw).
  intros [Hn Ht]%list_elem_of_filter. rewrite Ea.
  assert (wake_in (k_current_tick s) s' t = wake_in (k_current_tick s) s t) as ->.
  { unfold wake_in, wake_tick. by rewrite (f_equal wait (wa_others _ _ Hw t Hn) : wait (task s' t) = wait (task s t)). }
  destruct (Z.le_gt_cases elapsed (wake_in (k_current_tick s) s t)); [done|].
  rewrite (proj2 (due_later s elapsed t Hok He)) in Hn; [done|split; [done|lia]].
Qed.

(** C9: When time advances by any number of ticks below half the range, the
    wake-up loop terminates within its bound and wakes exactly the tasks whose
    wake tick lies within those ticks: each of them becomes runnable, a delay
    ends with result NONE and a wait with timeout ends with result TIMEOUT and
    leaves its object's waiters; all other tasks keep everything but their
    effective priority, which is again what their waiters require; the result
    says whether a task, and whether the current task, woke; and the whole
    invariant holds at the new tick. *)
Theorem tick_wakes_due_tasks s elapsed :
  system_ok s → port_room s → 0 ≤ elapsed < RTS_TICK_HALF_RANGE →
  wp (rts_kernel_wake_loop false false (Z.to_nat (l_count (klist (later elapsed s) LDelay) + 1))) (λ r s',
    r = Some (existsb (due (later elapsed s)) (delay_list s),
              match k_current_task s with Some c => due (later elapsed s) c | None => false end) ∧
    system_ok s' ∧ wakes (since := k_current_tick s) (later elapsed s) s' ∧
    ∀ t, due (later elapsed s) t = true ↔ t ∈ delay_list s ∧ wake_in (k_current_tick s) s t ≤ elapsed)
  (later elapsed s).
Proof.
  intros Hsy Hroom He. pose proof (sy_kernel s Hsy) as Hok. pose proof (ahead_later s elapsed He) as Ea.
  pose proof (system_ok_waking s elapsed Hsy) as Hsy0. pose proof (ro_lists _ (ko_ready s Hok)) as Hl.
  eapply wp_mono; [apply (rts_kernel_wake_loop_spec _ false false (later elapsed s) Hsy0 Hroom)|].
  - apply u32_range.
  - change (k_current_tick (later elapsed s)) with (u32 (k_current_tick s + elapsed)). lia.
  - change (klist (later elapsed s) LDelay) with (klist s LDelay). change (delay_list (later elapsed s)) with (delay_list s).
    rewrite (delay_klist s Hl). cbn. lia.
  - intros r s' (->&Hw). change (delay_list (later elapsed s)) with (delay_list s).
    change (k_current_task (later elapsed s)) with (k_current_task s). split_and!; [|..|done|by intros t; apply due_later].
    + cbn [orb]. f_equal. f_equal. apply existsb_current. intros c. unfold due. rewrite andb_true_iff, bool_decide_eq_true. tauto.
    + by eapply wakes_system_ok.
Qed.
End time_passes.

