(* ===== verification/ServiceWake.v ===== *)
(** * Waking the timer service

    rts_scheduler_timer_service_wake and the invariant of the kernel.  The
    function makes the service READY even when it is still the current task,
    which the invariant excludes; [settled] says that it is not. *)

From S2P Require Import Prelude Machine Config Types Links IntrusiveList KernelLists Time ReadyQueue.
From S2P Require Import DelayQueue HostPort Diagnostics TaskPool Policy PolicySpec WaitObject Scheduler.
From S2P Require Import SwitchSpec KernelSpec StoreCheck TaskApi TaskApiSpec Blocking Semaphore SemaphoreSpec.
From S2P Require Import Inheritance Mutex MutexSpec SystemSpec MutexCalls MutexRelease KernelTime TickSpec.

Section service.
Context `{ConfigOk} `{!BitmapPolicy} {since : Z}.
#[local] Abbreviation service := TTimerService.

(** The service waits for work. *)
Definition parked (s : kernel) : bool := bool_decide (state (task s service) = RTS_TASK_STATE_BLOCKED).

(** A service that waits for work has left the processor. *)
Definition settled (s : kernel) : Prop := parked s = true → k_current_task s ≠ Some service.

(** What rts_init gave the service. *)
Definition service_built (s : kernel) : Prop :=
  task_has_context (task s service) = true ∧ 0 < base_priority (task s service).

Lemma service_role s :
  k_timer_service_task s = Some service → rts_scheduler_task_is_timer_service s (Some service) = true.
Proof. intros E. unfold rts_scheduler_task_is_timer_service. by rewrite E, !bool_decide_true. Qed.

Lemma parked_facts s :
  kernel_ok_at since s → parked s = true → unready s service ∧ blocked_service s service = true.
Proof.
  intros Hok Hp. apply bool_decide_eq_true in Hp. pose proof (ko_task s Hok service) as Ht. unfold task_ok in Ht.
  rewrite Hp in Ht. destruct Ht as [Hu Hb]. split; [done|]. apply orb_true_iff in Hb as [Hb|Hb].
  - unfold blocked_delay in Hb. rewrite !andb_true_iff in Hb.
    assert (rts_task_handle_is_application_task (Some service) = true) as Ha%handle_application by tauto.
    by destruct Ha as (i&?&_).
  - unfold blocked_wait in Hb. apply andb_true_iff in Hb as [_ Hb].
    by rewrite service_role in Hb by apply (ko_service s Hok).
Qed.

Lemma service_runnable s :
  roles_ok s → task_has_context (task s service) = true → task_waits_for_nothing s service = true →
  policy_linked s service = true → 0 < base_priority (task s service) ≤ priority (task s service) →
  priority (task s service) < RTS_PRIORITY_COUNT → state (task s service) = RTS_TASK_STATE_READY →
  slot_state (task s service) = RTS_TASK_SLOT_ALLOCATED → magic_is_valid (task s service) = true →
  runnable s service = true.
Proof.
  intros [Ei Es] Hc Hw Hl Hb Hp Hst Hsl Hm. unfold runnable, policy_valid, runnable_identity_state.
  rewrite Hc, Hw, Hl, Hm, Hst, Hsl, service_role, Es by done. unfold RTS_IDLE_PRIORITY.
  rewrite (proj2 (Z.ltb_ge (priority _) _)), (proj2 (Z.leb_gt _ _)), (proj2 (Z.eqb_neq (priority _) 0)),
    (proj2 (Z.ltb_lt (priority _) _)) by lia.
  rewrite (bool_decide_true (Some service = Some service)), !orb_true_r by done. by destruct RTS_POLICY.
Qed.

(** The service became ready. *)
Record service_woken (s s' : kernel) : Prop := {
  sv_system : system_ok_at since s';
  sv_step : kstep s s' service (requeued_back s service) (delay_list s) (waiting s);
  sv_identity : identity (task s' service) = identity (task s service);
  sv_state : state (task s' service) = RTS_TASK_STATE_READY;
  sv_runnable : runnable s' service = true
}.

Lemma service_woken_intro s s' :
  system_ok_at since s → service_built s → settled s → parked s = true →
  kstep s s' service (requeued_back s service) (delay_list s) (waiting s) →
  identity (task s' service) = identity (task s service) → state (task s' service) = RTS_TASK_STATE_READY →
  wait (task s' service) = (wait (task s service)) <| wait_reason := RTS_WAIT_NONE |> <| wait_result := RTS_WAIT_RESULT_NONE |> →
  service_woken s s'.
Proof.
  intros Hsy [Hc Hbase] Hset Hp Hk Hid Hst Hw. pose proof (sy_kernel s Hsy) as Hok.
  destruct (parked_facts s Hok Hp) as [Hu Hb]. unfold blocked_service in Hb. tests_in Hb.
  rewrite ?bool_decide_eq_true in *. apply negb_true_iff in T3.
  pose proof (kstep_roles _ _ _ _ _ _ Hk) as Hroles. pose proof Hroles as (_&_&Ec).
  assert (priority (task s' service) = priority (task s service)) as Ep by by injection Hid.
  assert (base_priority (task s' service) = base_priority (task s service)) as Eb by by injection Hid.
  assert (service ∉ delay_list s) as Hnd.
  { intros Hx%(delay_owner s service); [congruence|apply (ro_lists _ (ko_ready s Hok))]. }
  assert (∀ o, service ∉ waiting s o) as Hnw by (intros o Hx%(wait_owner_iff s service o Hok); congruence).
  assert (runnable s' service = true) as Hr.
  { apply service_runnable; [by eapply roles_ok_same, ko_roles| | | |rewrite Eb, Ep; split; [done|apply (ko_base s Hok)]
      |rewrite Ep; apply (ko_prio s Hok)|done| |].
    - rewrite <- Hc. unfold task_has_context. by injection Hid as -> -> -> ->.
    - unfold task_waits_for_nothing. rewrite Hw, (kstep_unlinked _ _ _ _ _ _ Hk Hnw), (kstep_undelayed _ _ _ _ _ _ Hk Hnd).
      cbn. by rewrite T4, T3, !bool_decide_true.
    - rewrite policy_linked_fp, Ep. apply bool_decide_true, (ready_queue_owner s' (ks_ready_ok _ _ _ _ _ _ Hk)).
      rewrite (ks_ready _ _ _ _ _ _ Hk). unfold requeued_back, set_queue. rewrite decide_True by done. set_solver.
    - assert (slot_state (task s' service) = slot_state (task s service)) as -> by by injection Hid. done.
    - rewrite <- T. unfold magic_is_valid. by injection Hid as _ _ _ _ _ _ _ _ ->. }
  split; try done. eapply system_ok_kstep; [done| |exact Hk|done|done].
  eapply (kernel_ok_kstep_at s s' service); [done|exact Hk| |done|done|apply (wok_sorted s (ko_waits s Hok))|done| | |].
  - intros u Hne. split_and!; [|done|done]. intros p. unfold requeued_back, set_queue.
    case_decide as E; [|done]. rewrite E, elem_of_app, list_elem_of_singleton. naive_solver.
  - apply (wake_sorted_ext _ s); [|apply (do_sorted _ _ (ko_delay s Hok))].
    intros u Hin. apply (ks_face _ _ _ _ _ _ _ Hk). by intros ->.
  - unfold task_ok. by rewrite Hst.
  - intros Hcur. by destruct (Hset Hp).
Qed.

Lemma rts_scheduler_timer_service_wake_spec s :
  system_ok_at since s → service_built s → settled s →
  wp rts_scheduler_timer_service_wake (λ b s', b = parked s ∧ if parked s then service_woken s s' else s' = s) s.
Proof.
  intros Hsy Hbu Hset. pose proof (sy_kernel s Hsy) as Hok. unfold rts_scheduler_timer_service_wake.
  apply wp_bind, wp_gets. rewrite (ko_service s Hok). destruct (parked s) eqn:Hp.
  2: { apply wp_bind. eapply wp_run.
       { apply orM_true. unfold gets, parked in *. by rewrite Hp. }
       by apply wp_ret. }
  destruct (parked_facts s Hok Hp) as [Hu Hb]. pose proof Hb as Hb'. unfold blocked_service in Hb'. tests_in Hb'.
  rewrite ?bool_decide_eq_true in *. apply negb_true_iff in T3.
  apply wp_bind. eapply wp_run.
  { rewrite orM_false; [apply rts_policy_validate_run, (ko_prio s Hok)|]. unfold gets.
    apply bool_decide_eq_true in Hp. by rewrite Hp, T6, T4, T3, !bool_decide_true. }
  assert (policy_valid s service true = false) as ->.
  { unfold policy_valid. by rewrite policy_linked_fp, Hu, bool_decide_false. }
  pose proof (kstep_refl (m:=false) s service (ko_ready s Hok) (wok_wf s (ko_waits s Hok))) as Hk0.
  apply wp_bind. eapply wp_kstep_task; [exact Hk0|done|]. intros s1 Hk1 E1.
  apply wp_bind. eapply wp_kstep_task; [exact Hk1|done|]. intros s2 Hk2 E2.
  apply wp_bind. eapply wp_kstep_task; [exact Hk2|done|]. intros s3 Hk3 E3. rewrite E2, E1 in E3.
  apply wp_bind, wp_fatal_do. eapply (wp_kstep_unblock s s3); [exact Hk3|by eapply ko_not_edf| |unfold all_tasks; set_solver|..].
  { by apply unready_iff in Hu as [Hx _]; [|apply Hok]. }
  { rewrite E3. apply (ko_prio s Hok). }
  { by rewrite E3. }
  intros s4 Hk4 E4. split; [done|]. rewrite E3 in Hk4, E4.
  apply wp_bind. eapply wp_kstep_diag; [exact Hk4|done|]. intros s5 Hk5 E5. rewrite E4 in E5.
  apply face_eq in E5 as (Hid&Hw&Hst).
  assert (service_woken s s5) as Hwk by (by apply service_woken_intro).
  apply wp_bind, wp_RTS_FATAL_UNLESS; [|by apply wp_ret].
  rewrite rts_scheduler_task_is_runnable_run by apply (ko_prio s5 (sy_kernel _ (sv_system _ _ Hwk))).
  by rewrite (sv_runnable _ _ Hwk).
Qed.
End service.
