(* ===== verification/TimerSteps.v ===== *)
(** * Steps of the timer manager

    A kernel call that works on one timer changes that timer, the active queue
    and the callback ring, apart from counters and the trace.  [timer_step]
    describes such a change; the lemmas here run the operations it is made of
    and show that the invariant of the kernel, which speaks of tasks, holds
    throughout. *)

From S2P Require Import Prelude Machine Config Types Links IntrusiveList KernelLists Time ReadyQueue.
From S2P Require Import DelayQueue HostPort Ring Diagnostics TaskPool Policy PolicySpec WaitObject Scheduler.
From S2P Require Import SwitchSpec KernelSpec StoreCheck TaskApi TaskApiSpec Blocking Semaphore Inheritance Mutex.
From S2P Require Import MutexSpec SystemSpec MutexCalls CallbackQueue TimerQueue Timer TimerManager.

(** A timer without its statistics. *)
Definition timer_core (x : rts_timer) : rts_timer :=
  mk_timer (tm_expiration_tick x) (tm_last_expiration_tick x) (tm_period x) (tm_callback x) (tm_argument x)
    (tm_slot_index x) (tm_generation x) (tm_expiration_sequence x) (tm_mode x) (tm_state x) (tm_callback_state x)
    (tm_slot_state x) 0 0 0 0 0 0 0 0 (tm_validation_magic x).

(** The store without what such a call may touch. *)
Definition untimed (s : kernel) : kernel :=
  s <| k_heap := zero_heap |> <| k_timers := ∅ |> <| k_callback_queue := k_callback_queue zero_kernel |>
    <| k_runtime_counters := ∅ |> <| k_trace := zero_trace |>
    <| k_port := (k_port s) <| host_critical_tokens := ∅ |> |>.

Section timer_steps.
Context `{ConfigOk}.

(** [s1] is [s] with timer [i] being [x], statistics apart, with the active
    queue [L] and the work [ws]. *)
Record timer_step (s s1 : kernel) (i : Z) (x : rts_timer) (L : list Z) (ws : list rts_timer_callback_work) : Prop := {
  ts_lists : same_task_lists s s1;
  ts_list : timer_list s1 = L;
  ts_ring_ok : cq_ok s1;
  ts_ring : cq_list s1 = ws;
  ts_timer : timer_core (timer s1 i) = timer_core x;
  ts_others j : j ≠ i → timer s1 j = timer s j;
  ts_nesting : same_nesting s s1;
  ts_rest : untimed s1 = untimed s
}.

Lemma cq_ok_frame s s' : k_callback_queue s' = k_callback_queue s → cq_ok s → cq_ok s'.
Proof. intros E [Q1 Q2 Q3 Q4 Q5]. split; unfold cq_list in *; by rewrite ?E. Qed.

Lemma timer_step_refl s i :
  lists_ok (k_heap s) → cq_ok s → timer_step s s i (timer s i) (timer_list s) (cq_list s).
Proof. intros Hl Hc. by split. Qed.

Lemma ts_field {A} (f : rts_timer → A) s s1 i x L ws :
  timer_step s s1 i x L ws → (∀ x, f (timer_core x) = f x) → f (timer s1 i) = f x.
Proof. intros Ht Hf. by rewrite <- Hf, (ts_timer _ _ _ _ _ _ Ht), Hf. Qed.

Lemma ts_ext s s1 i x y L ws : timer_step s s1 i x L ws → timer_core x = timer_core y → timer_step s s1 i y L ws.
Proof. intros [] E. split; try done. congruence. Qed.

Lemma ts_kernel_field {A} (f : kernel → A) s s1 i x L ws :
  timer_step s s1 i x L ws → (∀ s, f (untimed s) = f s) → f s1 = f s.
Proof. intros Ht Hf. by rewrite <- (Hf s1), (ts_rest _ _ _ _ _ _ Ht), Hf. Qed.

Lemma ts_room s s1 i x L ws : timer_step s s1 i x L ws → port_room s → port_room s1.
Proof. intros Ht. destruct (ts_nesting _ _ _ _ _ _ Ht) as (E&_). unfold port_room. by rewrite E. Qed.

Section running.
Context (s s1 : kernel) (i : Z) (x : rts_timer) (L : list Z) (ws : list rts_timer_callback_work).
Context (Ht : timer_step s s1 i x L ws).

Lemma wp_ts_timer f (Q : unit → kernel → Prop) :
  (∀ y, timer_core (f y) = f (timer_core y)) →
  (∀ s2, timer_step s s2 i (f x) L ws → Q tt s2) → wp (modify (upd_timer i f)) Q s1.
Proof.
  intros Hf HQ. apply wp_modify, HQ. destruct Ht. split; try done; [by apply (cq_ok_frame s1)|..].
  - rewrite timer_upd, decide_True, !Hf by done. by f_equal.
  - intros j Hj. rewrite timer_upd, decide_False by done. auto.
Qed.

(** Statistics of the timer. *)
Lemma wp_ts_stat f (Q : unit → kernel → Prop) :
  (∀ y, timer_core (f y) = timer_core y) →
  (∀ s2, timer_step s s2 i x L ws → Q tt s2) → wp (modify (upd_timer i f)) Q s1.
Proof.
  intros Hf HQ. apply wp_modify, HQ. destruct Ht. split; try done; [by apply (cq_ok_frame s1)|..].
  - rewrite timer_upd, decide_True, Hf by done. done.
  - intros j Hj. rewrite timer_upd, decide_False by done. auto.
Qed.

Lemma wp_ts_diag_add field `{Setter _ _ field} n (Q : unit → kernel → Prop) :
  (∀ y v, timer_core (y <| field := v |>) = timer_core y) →
  (∀ s2, timer_step s s2 i x L ws → Q tt s2) → wp (RTS_DIAG_TIMER_ADD i field n) Q s1.
Proof.
  intros Hf HQ. unfold RTS_DIAG_TIMER_ADD. destruct RTS_ENABLE_RUNTIME_STATS; cbn [when]; [|by apply HQ].
  apply wp_ts_stat; [|done]. intros y. apply Hf.
Qed.
Lemma wp_ts_diag_inc field `{Setter _ _ field} (Q : unit → kernel → Prop) :
  (∀ y v, timer_core (y <| field := v |>) = timer_core y) →
  (∀ s2, timer_step s s2 i x L ws → Q tt s2) → wp (RTS_DIAG_TIMER_INC i field) Q s1.
Proof.
  intros Hf HQ. unfold RTS_DIAG_TIMER_INC. destruct RTS_ENABLE_RUNTIME_STATS; cbn [when]; [|by apply HQ].
  apply wp_ts_stat; [|done]. intros y. apply Hf.
Qed.

(** Counters of the kernel and the trace. *)
Lemma ts_counter s2 : counter_frame s1 s2 → timer_step s s2 i x L ws.
Proof. intros (cs&->). destruct Ht. split; try done. by apply (cq_ok_frame s1). Qed.

Lemma wp_ts_counter n (Q : unit → kernel → Prop) :
  (∀ s2, timer_step s s2 i x L ws → Q tt s2) → wp (RTS_DIAG_COUNTER_INC n) Q s1.
Proof. intros HQ. eapply wp_mono; [apply RTS_DIAG_COUNTER_INC_spec|]. intros [] s2 Hf. by apply HQ, ts_counter. Qed.

Lemma wp_ts_counter_add n k (Q : unit → kernel → Prop) :
  (∀ s2, timer_step s s2 i x L ws → Q tt s2) → wp (RTS_DIAG_COUNTER_ADD n k) Q s1.
Proof.
  intros HQ. unfold RTS_DIAG_COUNTER_ADD. destruct RTS_ENABLE_RUNTIME_STATS; cbn [when]; [|by apply HQ].
  apply wp_modify, HQ, ts_counter. by eexists.
Qed.

Lemma wp_ts_trace e a a' (Q : unit → kernel → Prop) :
  port_room s → (∀ s2, timer_step s s2 i x L ws → Q tt s2) → wp (RTS_TRACE e a a') Q s1.
Proof.
  intros Hr HQ. eapply wp_mono; [apply RTS_TRACE_spec; by eapply ts_room|].
  intros [] s2 Hf. pose proof (trace_frame_nesting _ _ Hf) as Hn. apply HQ. destruct Hf as (tok&tr&->&_), Ht.
  split; try done; [by apply (cq_ok_frame s1)|by eapply same_nesting_trans].
Qed.

(** The active queue. *)
Lemma ts_queue s2 L' : timers_step s1 s2 L' → timer_step s s2 i x L' ws.
Proof.
  intros Hst. pose proof (timers_step_list _ _ _ Hst) as El. destruct Ht as [[? Hc]]. destruct Hst as (h'&->&[Hl Hc']).
  split; try done; [|by apply (cq_ok_frame s1)]. split; [done|]. intros l Hne. unfold kcontents. cbn. rewrite Hc', decide_False by done. by apply Hc.
Qed.

Lemma wp_ts_remove l1 l2 (Q : unit → kernel → Prop) :
  L = l1 ++ i :: l2 → (∀ s2, timer_step s s2 i x (l1 ++ l2) ws → Q tt s2) → wp (rts_timer_queue_remove (Some i)) Q s1.
Proof.
  intros E HQ. eapply wp_mono; [apply (rts_timer_queue_remove_spec s1 i l1 l2); [apply Ht|by rewrite (ts_list _ _ _ _ _ _ Ht)]|].
  intros [] s2 Hst. by apply HQ, ts_queue.
Qed.

Lemma timer_unlinked s' j : lists_ok (k_heap s') → j ∉ timer_list s' → n_owner (node s' (NTimer j)) = None.
Proof.
  intros Hl Hn. destruct (n_owner (node s' (NTimer j))) as [l|] eqn:E; [|done]. destruct Hn.
  apply (lo_owner _ Hl) in E as Hin. apply (lo_linked _ Hl) in Hin as [Hf _]. apply timer_owner; [done|].
  by destruct l.
Qed.

Lemma wp_ts_insert base (Q : unit → kernel → Prop) :
  timers_ok base s1 → i ∈ all_timers → i ∉ L → is_u32 (tm_expiration_tick x) →
  ahead base (tm_expiration_tick x) < RTS_TICK_HALF_RANGE →
  (∀ s2, timer_step s s2 i x (insert_by (expires_in base s2) i L) ws → timers_ok base s2 → Q tt s2) →
  wp (rts_timer_queue_insert (Some i)) Q s1.
Proof.
  intros Hok Ha Hn Hu Hw HQ. pose proof (ts_field tm_expiration_tick _ _ _ _ _ _ Ht ltac:(done)) as Ee.
  eapply wp_mono; [apply (timer_insert_keeps base); [done|done| |unfold expiration; by rewrite Ee|unfold expires_in, expiration; by rewrite Ee]|].
  { apply timer_unlinked; [apply Ht|]. by rewrite (ts_list _ _ _ _ _ _ Ht). }
  intros [] s2 [Hok2 Hst]. apply HQ; [|done]. rewrite (ts_list _ _ _ _ _ _ Ht) in Hst.
  assert (expires_in base s2 = expires_in base s1) as -> by by destruct Hst as (h'&->&_). by apply ts_queue.
Qed.

(** The ring. *)
Lemma ts_cq s2 ws' : cq_step s1 s2 ws' → timer_step s s2 i x L ws'.
Proof. intros (Hok&El&(q&->)). destruct Ht. by split. Qed.

Lemma wp_ts_enqueue w (Q : bool → kernel → Prop) :
  work_timer w ≠ None → Z.of_nat (length ws) < RTS_TIMER_CALLBACK_QUEUE_CAPACITY →
  (∀ s2, timer_step s s2 i x L (ws ++ [w]) → Q true s2) → wp (rts_timer_callback_queue_enqueue w) Q s1.
Proof.
  intros Hw Hlen HQ. eapply wp_mono; [apply rts_timer_callback_queue_enqueue_spec; [apply Ht|done]|]. cbv beta.
  intros b s2. rewrite (ts_ring _ _ _ _ _ _ Ht), decide_True by done. intros [-> Hst]. by apply HQ, ts_cq.
Qed.
End running.

(** The order of the queue depends on deadlines only. *)
Lemma timers_ok_same base s s1 s2 i x y L ws ws' :
  timer_step s s1 i x L ws → timer_step s s2 i y L ws' → tm_expiration_tick y = tm_expiration_tick x →
  timers_ok base s1 → timers_ok base s2.
Proof.
  intros A1 A2 E [T1 T2 T3 T4]. rewrite (ts_list _ _ _ _ _ _ A1) in T2, T3, T4.
  assert (∀ j, expiration s2 j = expiration s1 j) as He.
  { intros j. unfold expiration. destruct (decide (j = i)) as [->|Hj].
    - by rewrite (ts_field tm_expiration_tick _ _ _ _ _ _ A1), (ts_field tm_expiration_tick _ _ _ _ _ _ A2).
    - by rewrite (ts_others _ _ _ _ _ _ A1), (ts_others _ _ _ _ _ _ A2). }
  split; rewrite ?(ts_list _ _ _ _ _ _ A2); unfold expires_in in *; [apply A2|intros j; rewrite He; auto..|].
  clear -T4 He. induction T4 as [|j l Hs IH Hf]; constructor; [done|].
  rewrite Forall_forall in *. intros k Hk. rewrite !He. by apply Hf.
Qed.

(** The invariant of the kernel does not see such a step. *)
Lemma system_ok_timer_step `{!BitmapPolicy} {since} s s1 i x L ws :
  system_ok_at since s → timer_step s s1 i x L ws → system_ok_at since s1.
Proof.
  intros Hsy Ht. pose proof (λ A f, @ts_kernel_field A f s s1 i x L ws Ht) as Hf.
  assert (∀ u, task s1 u = task s u) as Et by (intros u; by apply (Hf _ (λ s, task s u))).
  assert (k_wait_nodes s1 = k_wait_nodes s) as En by by apply (Hf _ k_wait_nodes).
  assert (k_waiters s1 = k_waiters s) as Ew by by apply (Hf _ k_waiters).
  apply (system_ok_views s); [done| |done| |by apply (Hf _ k_mutexes)].
  - apply (kernel_ok_lists_at s); [apply Hsy|intros u; by rewrite Et|apply Ht|by apply (Hf _ k_ready_bitmap)|done|done| | |].
    + split_and!; [by apply (Hf _ k_idle_task)|by apply (Hf _ k_timer_service_task)|by apply (Hf _ k_current_task)].
    + by apply (Hf _ k_lifecycle).
    + apply (plan_ok_frame s); [by apply (Hf _ k_switch_plan)|by apply (Hf _ k_current_task)|apply (ko_plan s (sy_kernel s Hsy))].
  - intros o. unfold waiting, waiters, wlinks, wait_node. by rewrite Ew, En.
Qed.
End timer_steps.
