(* ===== verification/ServiceRest.v ===== *)
(** * The timer service goes to rest

    The two ways in which the service task starts to wait for work again: it
    blocks itself when the ring is empty (rts_scheduler_timer_service_block),
    and a call that removed the last work takes it off the ready queues
    (rts_scheduler_timer_service_cancel_wake). *)

From S2P Require Import Prelude Machine Config Types Links IntrusiveList KernelLists Time ReadyQueue.
From S2P Require Import DelayQueue HostPort Diagnostics TaskPool Policy PolicySpec WaitObject Scheduler.
From S2P Require Import SwitchSpec KernelSpec StoreCheck TaskApi TaskApiSpec Blocking Semaphore SemaphoreSpec.
From S2P Require Import Inheritance Mutex MutexSpec SystemSpec MutexCalls MutexRelease KernelTime TickSpec.
From S2P Require Import CallbackQueue TimerQueue Timer TimerManager ServiceWake TimerSteps.

Section rest.
Context `{ConfigOk} `{!BitmapPolicy} {since : Z}.
#[local] Abbreviation service := TTimerService.

(** The service waits for work and has left the ready queues. *)
Record service_rested (s s' : kernel) : Prop := {
  sr_system : system_ok_at since s';
  sr_step : kstep s s' service (without service (ready_queue s)) (delay_list s) (waiting s);
  sr_identity : identity (task s' service) = identity (task s service);
  sr_state : state (task s' service) = RTS_TASK_STATE_BLOCKED
}.

Lemma service_rested_intro s s' :
  system_ok_at since s → runnable s service = true →
  kstep s s' service (without service (ready_queue s)) (delay_list s) (waiting s) →
  identity (task s' service) = identity (task s service) → state (task s' service) = RTS_TASK_STATE_BLOCKED →
  wait (task s' service) = mk_wait RTS_WAIT_TIMER_SERVICE RTS_WAIT_RESULT_NONE 0 None false →
  service_rested s s'.
Proof.
  intros Hsy Hr Hk Hid Hst Hw. pose proof (sy_kernel s Hsy) as Hok.
  destruct (runnable_places s service Hok Hr) as [Hnd Hnw]. pose proof (kstep_roles _ _ _ _ _ _ Hk) as Hroles.
  pose proof (roles_ok_same _ _ Hroles (ko_roles s Hok)) as [Ei Es]. destruct Hroles as (_&_&Ec).
  assert (unready s' service) as Hu.
  { eapply kstep_unready; [done|by eapply ko_not_edf|]. intros p [Hx _]%list_elem_of_filter. done. }
  assert (slot_state (task s' service) = RTS_TASK_SLOT_ALLOCATED ∧ magic_is_valid (task s' service) = true) as [Hsl Hm].
  { unfold runnable, runnable_identity_state in Hr. rewrite service_role in Hr by apply (ko_service s Hok).
    unfold magic_is_valid in *. injection Hid as _ _ _ _ _ _ _ -> ->. rewrite !andb_true_iff in Hr.
    destruct (_ || _); [naive_solver|]. repeat case_match; rewrite ?andb_true_iff, ?bool_decide_eq_true in Hr; naive_solver. }
  assert (blocked_wait s' service = true) as Hb.
  { unfold blocked_wait, blocked_service, policy_valid. rewrite service_role, Ei, Es, Hw, Hst, Hsl, Hm by done.
    rewrite (kstep_unlinked _ _ _ _ _ _ Hk Hnw), (kstep_undelayed _ _ _ _ _ _ Hk Hnd), policy_linked_fp, Hu.
    by destruct RTS_POLICY. }
  split; try done. eapply system_ok_kstep; [done| |exact Hk|done|done].
  eapply (kernel_ok_kstep_at s s' service); [done|exact Hk| |done|done|apply (wok_sorted s (ko_waits s Hok))|done| | |].
  - intros u Hne. split_and!; [|done|done]. intros p. unfold without. rewrite list_elem_of_filter. naive_solver.
  - apply (wake_sorted_ext _ s); [|apply (do_sorted _ _ (ko_delay s Hok))].
    intros u Hin. apply (ks_face _ _ _ _ _ _ _ Hk). by intros ->.
  - unfold task_ok. rewrite Hst. split; [done|]. by rewrite Hb, orb_true_r.
  - intros Hcur. unfold outgoing. rewrite Ec, Hcur, Hst, Hb, orb_true_r, bool_decide_true by done. done.
Qed.

Lemma wp_rest {A} (k : K A) (Q : A → kernel → Prop) s :
  system_ok_at since s → runnable s service = true →
  (∀ s', kstep s s' service (without service (ready_queue s)) (delay_list s) (waiting s) →
     task s' service = (task s service) <| wait := mk_wait RTS_WAIT_TIMER_SERVICE RTS_WAIT_RESULT_NONE 0 None false |> →
     wp k Q s') →
  wp (RTS_FATAL_UNLESS (rts_policy_task_block (Some service)) ;;; set_wait_none service RTS_WAIT_TIMER_SERVICE ;;; k) Q s.
Proof.
  intros Hsy Hr HQ. pose proof (sy_kernel s Hsy) as Hok.
  pose proof (kstep_refl (m:=false) s service (ko_ready s Hok) (wok_wf s (ko_waits s Hok))) as Hk0.
  apply wp_bind, wp_fatal_do. eapply wp_kstep_block; [exact Hk0|by apply runnable_ready; [apply Hok|]|].
  intros s1 Hk1 E1. split; [done|].
  apply wp_bind. eapply wp_kstep_task; [exact Hk1|done|]. intros s2 Hk2 E2. rewrite E1 in E2. by apply HQ.
Qed.

(** ** Cancelling *)

(** Whether the service is called off when the ring has become empty, and the
    plan with which the running task [c] goes on. *)
Definition called_off (s : kernel) : bool := bool_decide (state (task s service) = RTS_TASK_STATE_READY).
Definition plan_kept (c : task_ptr) (p : rts_switch_plan) : rts_switch_plan :=
  if plan_pending p && bool_decide (plan_to p = Some service) then (plan_prepared c c p).1 else p.

(** The store without the plan of switches and the nesting of critical
    sections. *)
Definition unplanned (s : kernel) : kernel :=
  s <| k_switch_plan := k_switch_plan zero_kernel |>
    <| k_port := (k_port s) <| host_critical_tokens := ∅ |> <| host_critical_depth := 0 |>
                   <| host_interrupts_masked := false |> |>.

(** What the end of a service's turn does to the store: nothing, or the service
    went to rest while [c] runs on. *)
Record service_off (off : bool) (c : task_ptr) (s s' : kernel) : Prop := {
  so_tasks u : u ≠ service → task s' u = task s u;
  so_service : if off then state (task s' service) = RTS_TASK_STATE_BLOCKED ∧
                 identity (task s' service) = identity (task s service)
               else task s' service = task s service;
  so_ready p : ready_queue s' p = if off then without service (ready_queue s) p else ready_queue s p;
  so_delay : delay_list s' = delay_list s;
  so_waiting o : waiting s' o = waiting s o;
  so_plan : k_switch_plan s' = if off then plan_kept c (k_switch_plan s) else k_switch_plan s;
  so_nesting : same_nesting s s';
  so_rest : unplanned (untimed (outside false s')) = unplanned (untimed (outside false s))
}.

Lemma so_field {A} (f : kernel → A) off c s s' :
  service_off off c s s' → (∀ s, f (unplanned (untimed (outside false s))) = f s) → f s' = f s.
Proof. intros Hs Hf. by rewrite <- (Hf s'), (so_rest _ _ _ _ Hs), Hf. Qed.

Lemma so_step c s s1 i x L ws : timer_step s s1 i x L ws → service_off false c s s1.
Proof.
  intros Ht. pose proof (λ A f, @ts_kernel_field _ A f _ _ _ _ _ _ Ht) as Hf. split.
  - intros u _. by apply (Hf _ (λ s, task s u)).
  - by apply (Hf _ (λ s, task s service)).
  - intros p. unfold ready_queue. by rewrite (proj2 (ts_lists _ _ _ _ _ _ Ht)).
  - unfold delay_list. by rewrite (proj2 (ts_lists _ _ _ _ _ _ Ht)).
  - intros o. by apply (Hf _ (λ s, waiting s o)).
  - by apply (Hf _ k_switch_plan).
  - apply Ht.
  - exact (f_equal (λ s, unplanned (outside false s)) (ts_rest _ _ _ _ _ _ Ht)).
Qed.

(** Only one of two such steps can put the service to rest. *)
Lemma so_trans o1 o2 c s s1 s2 :
  service_off o1 c s s1 → service_off o2 c s1 s2 → (o1 = true → o2 = false) → service_off (o1 || o2) c s s2.
Proof.
  intros [A1 A2 AR A3 A4 AP A5 A6] [B1 B2 BR B3 B4 BP B5 B6] Hb. split.
  - intros u Hu. rewrite B1; auto.
  - destruct o1; [rewrite Hb in B2 by done; cbn; congruence|]. cbn. destruct o2; [|congruence]. by rewrite A2 in B2.
  - intros p. rewrite BR. destruct o1; [rewrite Hb by done; cbn; apply AR|]. cbn.
    destruct o2; [|apply AR]. unfold without. by rewrite AR.
  - congruence.
  - intros o. by rewrite B4.
  - rewrite BP. destruct o1; [rewrite Hb by done; apply AP|]. cbn. by rewrite AP.
  - by eapply same_nesting_trans.
  - congruence.
Qed.

Lemma so_parked off c s s' : service_off off c s s' → parked s' = parked s || off.
Proof.
  intros [_ Hs _ _ _ _ _ _]. unfold parked. destruct off; cbn.
  - destruct Hs as [-> _]. by rewrite orb_true_r.
  - by rewrite Hs, orb_false_r.
Qed.

Lemma so_built off c s s' : service_off off c s s' → service_built s → service_built s'.
Proof.
  intros [_ Hs _ _ _ _ _ _] [Hc Hb]. assert (identity (task s' service) = identity (task s service)) as Hid.
  { destruct off; [apply Hs|by rewrite Hs]. }
  split.
  - rewrite <- Hc. unfold task_has_context. by injection Hid as -> -> -> ->.
  - by injection Hid as _ _ _ _ _ -> _ _ _.
Qed.

(** The step leaves the timers and the ring alone. *)
Definition same_timers (s s' : kernel) : Prop :=
  lists_ok (k_heap s') ∧ timer_list s' = timer_list s ∧ k_timers s' = k_timers s ∧ k_callback_queue s' = k_callback_queue s.

Lemma rts_scheduler_timer_service_cancel_wake_spec s c :
  system_ok_at since s → k_current_task s = Some c → state (task s c) = RTS_TASK_STATE_RUNNING →
  wp rts_scheduler_timer_service_cancel_wake
    (λ _ s', system_ok_at since s' ∧ service_off (called_off s) c s s' ∧ same_timers s s') s.
Proof.
  intros Hsy Hc Hrun. pose proof (sy_kernel s Hsy) as Hok. unfold rts_scheduler_timer_service_cancel_wake.
  apply wp_bind, wp_gets. rewrite (ko_service s Hok). apply wp_bind, wp_gets. fold (called_off s).
  destruct (called_off s) eqn:Hoff; cbn [negb].
  2: { apply wp_ret. split_and!; [done|by split|]. split_and!; try done. apply (ro_lists _ (ko_ready s Hok)). }
  apply bool_decide_eq_true in Hoff. apply wp_bind, wp_gets.
  assert (runnable s service = true) as Hr.
  { pose proof (ko_task s Hok service) as Ht. unfold task_ok in Ht. by rewrite Hoff in Ht. }
  apply wp_bind. apply (wp_mono _ (λ _ s1, s1 = if plan_pending (k_switch_plan s) && bool_decide (plan_to (k_switch_plan s) = Some service)
    then prepared c c s else s)).
  { destruct (_ && _); cbn [when]; [|by apply wp_ret]. apply wp_bind. eapply wp_run; [apply rts_scheduler_current_get_run|].
    rewrite Hc. apply wp_bind. eapply wp_run; [apply rts_scheduler_prepare_switch_run; try done|by apply wp_ret].
    - intros t. apply (ko_prio s Hok).
    - apply (ko_plan s Hok).
    - apply (ko_live s Hok).
    - destruct (ko_current s Hok) as (c'&Hc'&Ho). congruence.
    - pose proof (ko_task s Hok c) as Ht. unfold task_ok in Ht. by rewrite Hrun in Ht. }
  intros _ s1 Es1.
  assert (system_ok_at since s1 ∧ same_scheduling s s1 ∧ k_switch_plan s1 = plan_kept c (k_switch_plan s) ∧
    unplanned (untimed (outside false s1)) = unplanned (untimed (outside false s)) ∧ k_port s1 = k_port s ∧
    k_timers s1 = k_timers s ∧ k_callback_queue s1 = k_callback_queue s ∧ k_heap s1 = k_heap s)
    as (Hsy1&Hs1&Ep1&Eo1&Eport&Et1&Eq1&Eh1).
  { unfold plan_kept. destruct (_ && _); subst s1; [|by split_and!].
    pose proof (kernel_ok_prepared_at (since := since) c c s Hok Hc) as Hokp. pose proof (prepared_same c c s) as Hs.
    rewrite prepared_plan. split_and!; [|done|done|..].
    - apply (system_ok_frame s); [done|done| |apply (ko_plan _ Hokp)]. by destruct (prepared_frame c c s) as (p&cs&->).
    - by destruct (prepared_frame c c s) as (p&cs&->).
    - by destruct (prepared_frame c c s) as (p&cs&->).
    - by destruct (prepared_frame c c s) as (p&cs&->).
    - by destruct (prepared_frame c c s) as (p&cs&->).
    - by destruct (prepared_frame c c s) as (p&cs&->). }
  clear Es1. destruct (same_scheduling_views _ _ Hs1) as (Etask&Eready&Edelay&Ewait&_).
  assert (runnable s1 service = true) as Hr1.
  { pose proof (ko_task s1 (sy_kernel _ Hsy1) service) as Ht. unfold task_ok in Ht. by rewrite Etask, Hoff in Ht. }
  eapply (wp_mono _ (λ _ s', service_rested s1 s')).
  { apply wp_rest; [done|done|]. intros s2 Hk2 E2. eapply wp_kstep_task; [exact Hk2|done|]. intros s3 Hk3 E3.
    rewrite E2 in E3. by apply service_rested_intro; rewrite ?E3. }
  intros _ s' [Hsy' Hk Hid Hst]. split; [done|]. split.
  - split.
    + intros u Hu. rewrite <- Etask. by apply (ks_tasks _ _ _ _ _ _ Hk).
    + by rewrite <- (Etask service).
    + intros p. rewrite (ks_ready _ _ _ _ _ _ Hk). unfold without. by rewrite Eready.
    + by rewrite (ks_delay _ _ _ _ _ _ Hk).
    + intros o. by rewrite (ks_wait _ _ _ _ _ _ Hk).
    + rewrite <- Ep1. by apply (kstep_field k_switch_plan _ _ _ _ _ _ Hk).
    + pose proof (ks_nesting _ _ _ _ _ _ Hk) as Hn. unfold same_nesting in *. by rewrite Eport in Hn.
    + rewrite <- Eo1. by rewrite (ks_outside _ _ _ _ _ _ Hk).
  - split_and!.
    + apply (ro_lists _ (ks_ready_ok _ _ _ _ _ _ Hk)).
    + unfold timer_list. rewrite (ks_lists _ _ _ _ _ _ Hk) by auto. unfold kcontents. by rewrite Eh1.
    + rewrite <- Et1. by apply (kstep_field k_timers _ _ _ _ _ _ Hk).
    + rewrite <- Eq1. by apply (kstep_field k_callback_queue _ _ _ _ _ _ Hk).
Qed.
End rest.
