(* ===== verification/TimerExpiry.v ===== *)
(** * The expiry of timers

    The loop of rts_timer_manager_process_expired (kernel/timer.c), which the
    tick runs: it terminates, processes exactly the timers whose deadline has
    been reached, in the order of their deadlines, makes the callback of each
    idle one pending and wakes the service. *)

From S2P Require Import Prelude Machine Config Types Links IntrusiveList KernelLists Time ReadyQueue.
From S2P Require Import DelayQueue HostPort Ring Diagnostics TaskPool Policy PolicySpec WaitObject Scheduler.
From S2P Require Import SwitchSpec KernelSpec StoreCheck TaskApi TaskApiSpec Blocking Semaphore SemaphoreSpec.
From S2P Require Import Inheritance Mutex MutexSpec SystemSpec MutexCalls MutexRelease CallbackQueue TimerQueue.
From S2P Require Import Timer KernelTime TickSpec TimerManager ServiceWake TimerSteps.

(** ** What an expiry does to a timer *)

Definition periodic (x : rts_timer) : bool := tm_mode x =? RTS_TIMER_PERIODIC.
Definition idle (x : rts_timer) : bool := bool_decide (tm_callback_state x = RTS_TIMER_CALLBACK_IDLE).

(** A periodic timer moves on its grid and a one-shot timer stops; the
    callback of an idle one becomes pending. *)
Definition fired (now : Z) (x : rts_timer) : rts_timer :=
  mk_timer
    (if periodic x then (rts_timer_periodic_next (tm_expiration_tick x) (tm_period x) now).1 else tm_expiration_tick x)
    (tm_expiration_tick x) (tm_period x) (tm_callback x) (tm_argument x) (tm_slot_index x) (tm_generation x)
    (if idle x then u32 (tm_expiration_sequence x + 1) else tm_expiration_sequence x) (tm_mode x)
    (if periodic x then RTS_TIMER_ACTIVE else RTS_TIMER_STOPPED)
    (if idle x then RTS_TIMER_CALLBACK_PENDING else tm_callback_state x) (tm_slot_state x)
    (tm_start_count x) (tm_stop_count x) (tm_restart_count x) (tm_expiration_count x) (tm_callback_count x)
    (tm_stale_count x) (tm_missed_period_count x) (tm_overrun_count x) (tm_validation_magic x).

(** The work an expiry of timer [i] makes. *)
Definition expiry_work (s : kernel) (i : Z) : rts_timer_callback_work :=
  mk_callback_work (Some i) (expiration s i) (tm_generation (timer s i)) (u32 (tm_expiration_sequence (timer s i) + 1)).

Definition expired (now : Z) (s : kernel) (i : Z) : bool := armed s i && rts_tick_reached now (expiration s i).

Section expiry.
Context `{ConfigOk} `{!BitmapPolicy} {since : Z} (base now : Z).
Context (Hnow : is_u32 now) (Hwin : ahead base now < RTS_TICK_HALF_RANGE).

(** The re-armed deadline stays in the window of the queue. *)
Definition period_fits (x : rts_timer) : Prop := ahead base now + tm_period x < RTS_TICK_HALF_RANGE.

Lemma fired_deadline x :
  is_u32 (tm_expiration_tick x) → ahead base (tm_expiration_tick x) < RTS_TICK_HALF_RANGE →
  0 < tm_period x ≤ RTS_DELAY_MAX → period_fits x → rts_tick_reached now (tm_expiration_tick x) = true →
  periodic x = true →
  is_u32 (tm_expiration_tick (fired now x)) ∧ ahead base (tm_expiration_tick (fired now x)) < RTS_TICK_HALF_RANGE ∧
  rts_tick_reached now (tm_expiration_tick (fired now x)) = false.
Proof.
  intros Hu Hw Hp Hfit Hr Hper. unfold period_fits, RTS_DELAY_MAX in *.
  change (tm_expiration_tick (fired now x)) with
    (if periodic x then (rts_timer_periodic_next (tm_expiration_tick x) (tm_period x) now).1 else tm_expiration_tick x).
  rewrite Hper. destruct (rts_timer_periodic_next _ _ now) as [next skipped] eqn:E. cbn [fst].
  assert (is_u32 next ∧ 0 < ahead now next ≤ tm_period x) as (Hun&Ha).
  { apply periodic_next_facts in E; [naive_solver|done..|unfold RTS_TICK_MAX_ADVANCE; lia|done]. }
  assert (ahead base next = ahead base now + ahead now next) as Eb.
  { unfold ahead at 1. replace (next - base) with ((now - base) + (next - now)) by lia.
    rewrite <- u32_u32_add, (Z.add_comm (u32 _)), <- u32_u32_add, Z.add_comm. fold (ahead base now) (ahead now next).
    apply u32_small. pose proof (ahead_range base now). unfold is_u32, UINT32_MAX, RTS_TICK_HALF_RANGE in *. lia. }
  split_and!; [done|rewrite Eb; lia|]. apply not_true_iff_false. intros Hx.
  apply (rts_tick_reached_window base) in Hx; [|done..|rewrite Eb; lia]. lia.
Qed.

(** ** Room in the ring *)

(** No timer has two items of work, so an idle one finds room. *)
Lemma works_nodup l :
  (∀ i, length (filter (λ w, work_timer w = Some i) l) ≤ 1)%nat → (∀ w, w ∈ l → work_timer w ≠ None) →
  NoDup (work_timer <$> l).
Proof.
  induction l as [|w l IH]; intros Hl Hn; [constructor|]. rewrite fmap_cons. apply NoDup_cons. split.
  - destruct (work_timer w) as [i|] eqn:E; [|by destruct (Hn w); [left|]].
    intros (v&Ev&Hv)%list_elem_of_fmap. specialize (Hl i). rewrite filter_cons_True in Hl by done. cbn in Hl.
    assert (v ∈ filter (λ w, work_timer w = Some i) l) as Hin by (by apply list_elem_of_filter).
    destruct (filter _ l); [by apply elem_of_nil in Hin|cbn in Hl; lia].
  - apply IH; [|intros v Hv; apply Hn; by right]. intros i. specialize (Hl i). rewrite filter_cons in Hl.
    case_decide; cbn in Hl; lia.
Qed.

Lemma ring_has_room s i :
  manager_ok base s → i ∈ all_timers → works s i = [] →
  Z.of_nat (length (cq_list s)) < RTS_TIMER_CALLBACK_QUEUE_CAPACITY.
Proof.
  intros Hm Hi Hw. pose proof cfg_callback_queue. pose proof cfg_timers.
  assert (NoDup (Some i :: (work_timer <$> cq_list s))) as Hnd.
  { apply NoDup_cons. split.
    - intros (w&E&Hin)%list_elem_of_fmap. assert (w ∈ works s i) as Hx by (by apply list_elem_of_filter).
      rewrite Hw in Hx. by apply elem_of_nil in Hx.
    - apply works_nodup; [|apply (cq_timers s (mo_ring _ _ Hm))]. intros j. fold (works s j).
      destruct (works s j) as [|w l] eqn:E; [cbn; lia|].
      assert (w ∈ works s j) as [Ej Hin]%list_elem_of_filter by (rewrite E; left).
      destruct (work_owner base s w Hm Hin) as (k&_&Ek&_&Ews&_). assert (k = j) as -> by congruence.
      rewrite Ews in E. injection E as <-. done. }
  assert (Z.of_nat (length (Some i :: (work_timer <$> cq_list s))) ≤ RTS_MAX_TIMERS) as Hle.
  { replace RTS_MAX_TIMERS with (Z.of_nat (length (Some <$> all_timers)))
      by (rewrite length_fmap; unfold all_timers; rewrite length_seqZ; lia).
    apply inj_le, submseteq_length, NoDup_submseteq; [done|].
    intros o [->|(w&->&Hin)%list_elem_of_fmap]%elem_of_cons; [by apply list_elem_of_fmap; exists i|].
    destruct (mo_work _ _ Hm w Hin) as (k&Hk&->). apply list_elem_of_fmap. by exists k. }
  cbn in Hle. rewrite length_fmap in Hle. lia.
Qed.

(** ** The invariant after an expiry *)

Lemma slot_fired i x ws :
  slot_ok i x true ws →
  slot_ok i (fired now x) (periodic x)
    (if idle x then ws ++ [mk_callback_work (Some i) (tm_expiration_tick x) (tm_generation x) (u32 (tm_expiration_sequence x + 1))]
     else ws).
Proof.
  unfold slot_ok. change (tm_slot_state (fired now x)) with (tm_slot_state x).
  destruct (tm_slot_state x); [naive_solver..|]. intros [A1 A2 A3 A4 A5 A6 A7]. split; try done.
  change (tm_callback_state (fired now x)) with
    (if idle x then RTS_TIMER_CALLBACK_PENDING else tm_callback_state x).
  change (tm_generation (fired now x)) with (tm_generation x). destruct (idle x) eqn:E; [|done]. apply bool_decide_eq_true in E.
  rewrite E, bool_decide_false in A6 by done. subst ws. rewrite bool_decide_true by done. by eexists.
Qed.

Lemma slot_core i x y a ws : timer_core x = timer_core y → slot_ok i x a ws → slot_ok i y a ws.
Proof.
  intros E Hs. assert (slot_ok i (timer_core x) a ws) as Hc.
  { unfold slot_ok in *. change (tm_slot_state (timer_core x)) with (tm_slot_state x).
    destruct (tm_slot_state x); [done..|]. by destruct Hs. }
  rewrite E in Hc. unfold slot_ok in *. change (tm_slot_state (timer_core y)) with (tm_slot_state y) in Hc.
  destruct (tm_slot_state y); [done..|]. by destruct Hc.
Qed.

(** The work that the expiry of timer [i] adds. *)
Definition new_work (s : kernel) (i : Z) : list rts_timer_callback_work :=
  if idle (timer s i) then [expiry_work s i] else [].

Lemma manager_fired s s' i rest L :
  manager_ok base s → timer_list s = i :: rest → timers_ok base s' →
  timer_step s s' i (fired now (timer s i)) L (cq_list s ++ new_work s i) →
  (∀ j, j ∈ L ↔ j = i ∧ periodic (timer s i) = true ∨ j ∈ rest) → manager_ok base s'.
Proof.
  intros Hm El Hq Ht HL. pose proof (λ A f, @ts_kernel_field _ A f _ _ _ _ _ _ Ht) as Hf.
  pose proof (timer_list_nodup s (to_lists _ _ (mo_queue _ _ Hm))) as Hnd. rewrite El in Hnd.
  apply NoDup_cons in Hnd as [Hni _].
  assert (∀ j, works s' j = works s j ++ if decide (j = i) then new_work s i else []) as Hws.
  { intros j. unfold works. rewrite (ts_ring _ _ _ _ _ _ Ht), filter_app. f_equal. unfold new_work.
    destruct (idle (timer s i)); [|by destruct (decide (j = i))].
    case_decide as E; [by rewrite filter_cons_True, E by (cbn; congruence)|]. rewrite filter_cons_False by (cbn; congruence). done. }
  apply (manager_ok_one base s s' i Hm); [|done|apply Ht|by apply (Hf _ k_timer_next_free_hint)|by apply (Hf _ k_timer_allocated_count)|..].
  - eapply timer_list_fits; [apply (to_lists _ _ (mo_queue _ _ Hm))|rewrite El; left].
  - intros j Hj. rewrite Hws, decide_False, app_nil_r, (ts_others _ _ _ _ _ _ Ht), (ts_list _ _ _ _ _ _ Ht), HL, El by done.
    split_and!; [done|set_solver|done].
  - by rewrite (ts_field tm_slot_state _ _ _ _ _ _ Ht).
  - assert (slot_ok i (timer s i) true (works s i)) as Hs%slot_fired.
    { destruct (armed_allocated base s i Hm) as (_&Ha&Ho); [rewrite El; left|]. unfold slot_ok. by rewrite Ha. }
    eapply slot_core; [symmetry; apply (ts_timer _ _ _ _ _ _ Ht)|]. rewrite Hws, decide_True by done.
    replace (armed s' i) with (periodic (timer s i)).
    + unfold new_work, expiry_work, expiration. destruct (idle (timer s i)); [done|by rewrite app_nil_r].
    + unfold armed. rewrite (ts_list _ _ _ _ _ _ Ht). symmetry. destruct (periodic (timer s i)) eqn:Ep.
      * apply bool_decide_true, HL. by left.
      * apply bool_decide_false. rewrite HL. naive_solver.
  - intros w. rewrite (ts_ring _ _ _ _ _ _ Ht). intros [Hw|Hw]%elem_of_app; [by left|]. right.
    unfold new_work in Hw. destruct (idle _); [|by apply elem_of_nil in Hw]. by apply list_elem_of_singleton in Hw as ->.
Qed.

(** ** One timer *)

Lemma timers_ok_rest s s1 i x rest ws :
  timers_ok base s → timer_list s = i :: rest → timer_step s s1 i x rest ws → timers_ok base s1.
Proof.
  intros [T1 T2 T3 T4] El Ht. rewrite El in T2, T3, T4. apply StronglySorted_inv in T4 as [T4 _].
  pose proof (timer_list_nodup s T1) as Hnd. rewrite El in Hnd. apply NoDup_cons in Hnd as [Hni _].
  assert (∀ j, j ∈ rest → expiration s1 j = expiration s j) as He.
  { intros j Hj. unfold expiration. rewrite (ts_others _ _ _ _ _ _ Ht); [done|]. by intros ->. }
  split; rewrite ?(ts_list _ _ _ _ _ _ Ht).
  - apply Ht.
  - intros j Hj. rewrite He by done. apply T2. by right.
  - intros j Hj. unfold expires_in. rewrite He by done. apply T3. by right.
  - unfold expires_in in *. clear -T4 He. induction T4 as [|j l Hs IH Hf]; constructor.
    + apply IH. intros k Hk. apply He. by right.
    + rewrite Forall_forall in *. intros k Hk. rewrite !He by (by left || by right). by apply Hf.
Qed.

(** What the expiry of timers does to the tasks: at most the service changes. *)
Record service_frame (woken : bool) (s s' : kernel) : Prop := {
  sf_tasks u : u ≠ TTimerService → task s' u = task s u;
  sf_service : if woken then state (task s' TTimerService) = RTS_TASK_STATE_READY ∧
                 identity (task s' TTimerService) = identity (task s TTimerService)
               else task s' TTimerService = task s TTimerService;
  sf_ready p : ready_queue s' p = if woken then requeued_back s TTimerService p else ready_queue s p;
  sf_delay : delay_list s' = delay_list s;
  sf_waiting o : waiting s' o = waiting s o;
  sf_nesting : same_nesting s s';
  sf_rest : untimed (outside false s') = untimed (outside false s)
}.

Lemma sf_step s s1 i x L ws : timer_step s s1 i x L ws → service_frame false s s1.
Proof.
  intros Ht. pose proof (λ A f, @ts_kernel_field _ A f _ _ _ _ _ _ Ht) as Hf. split.
  - intros u _. by apply (Hf _ (λ s, task s u)).
  - by apply (Hf _ (λ s, task s TTimerService)).
  - intros p. unfold ready_queue. by rewrite (proj2 (ts_lists _ _ _ _ _ _ Ht)).
  - unfold delay_list. by rewrite (proj2 (ts_lists _ _ _ _ _ _ Ht)).
  - intros o. by apply (Hf _ (λ s, waiting s o)).
  - apply Ht.
  - exact (f_equal (outside false) (ts_rest _ _ _ _ _ _ Ht)).
Qed.

Lemma sf_woken s s1 : service_woken (since := since) s s1 → service_frame true s s1.
Proof.
  intros [_ Hk Hid Hst _]. split.
  - intros u Hu. by apply (ks_tasks _ _ _ _ _ _ Hk).
  - done.
  - apply (ks_ready _ _ _ _ _ _ Hk).
  - apply (ks_delay _ _ _ _ _ _ Hk).
  - apply (ks_wait _ _ _ _ _ _ Hk).
  - apply Hk.
  - by rewrite (ks_outside _ _ _ _ _ _ Hk).
Qed.

Lemma sf_trans b1 b2 s s1 s2 :
  service_frame b1 s s1 → service_frame b2 s1 s2 → (b1 = true → b2 = false) → service_frame (b1 || b2) s s2.
Proof.
  intros [A1 A2 AR A3 A4 A5 A6] [B1 B2 BR B3 B4 B5 B6] Hb. split.
  - intros u Hu. rewrite B1; auto.
  - destruct b1; [rewrite Hb in B2 by done; cbn; congruence|]. cbn. destruct b2; [|congruence]. by rewrite A2 in B2.
  - intros p. rewrite BR. destruct b1; [rewrite Hb by done; cbn; apply AR|]. cbn.
    destruct b2; [|apply AR]. unfold requeued_back, set_queue. by rewrite !AR, A2.
  - congruence.
  - intros o. by rewrite B4.
  - by eapply same_nesting_trans.
  - congruence.
Qed.

Lemma sf_parked b s s' : service_frame b s s' → parked s' = parked s && negb b.
Proof.
  intros [_ Hs _ _ _ _ _]. unfold parked. destruct b; cbn.
  - destruct Hs as [-> _]. by rewrite andb_false_r.
  - by rewrite Hs, andb_true_r.
Qed.

Lemma sf_field {A} (f : kernel → A) b s s' :
  service_frame b s s' → (∀ s, f (untimed (outside false s)) = f s) → f s' = f s.
Proof. intros Hs Hf. by rewrite <- (Hf s'), (sf_rest _ _ _ Hs), Hf. Qed.

Lemma sf_settled b s s' : service_frame b s s' → settled s → settled s'.
Proof.
  intros Hs Hset. unfold settled. rewrite (sf_parked _ _ _ Hs), (sf_field k_current_task _ _ _ Hs) by done.
  intros [Hp _]%andb_true_iff. by apply Hset.
Qed.

Lemma sf_built b s s' : service_frame b s s' → service_built s → service_built s'.
Proof.
  intros [_ Hs _ _ _ _ _] [Hc Hb]. assert (identity (task s' TTimerService) = identity (task s TTimerService)) as Hid.
  { destruct b; [apply Hs|by rewrite Hs]. }
  split.
  - rewrite <- Hc. unfold task_has_context. by injection Hid as -> -> -> ->.
  - by injection Hid as _ _ _ _ _ -> _ _ _.
Qed.

(** The queue after timer [i], its head, was processed. *)
Definition requeued (s : kernel) (i : Z) (rest L : list Z) : Prop :=
  (∀ j, j ∈ L ↔ j = i ∧ periodic (timer s i) = true ∨ j ∈ rest) ∧
  (∀ P : Z → bool, P i = false → filter (λ j, P j = true) L = filter (λ j, P j = true) rest).

Lemma filter_insert_by (P : Z → bool) key i l :
  P i = false → filter (λ j, P j = true) (insert_by key i l) = filter (λ j, P j = true) l.
Proof.
  intros Hi. unfold insert_by. pose proof (span_app (λ y, key y <=? key i) l) as E. destruct (span _ l) as [a b].
  cbn in E. subst l. rewrite !filter_app, filter_cons_False; [done|congruence].
Qed.

(** A timer that was taken from the queue, with its next deadline. *)
Definition rearmed (x : rts_timer) : rts_timer :=
  (fired now x) <| tm_expiration_sequence := tm_expiration_sequence x |> <| tm_callback_state := tm_callback_state x |>.

Section one_timer.
Context (s : kernel) (i : Z) (rest : list Z).
Context (Hsy : system_ok_at since s) (Hm : manager_ok base s) (Hroom : port_room s).
Context (Hbuilt : service_built s) (Hsettled : settled s).
Context (El : timer_list s = i :: rest) (Hexp : rts_tick_reached now (expiration s i) = true).
Context (Hfit : period_fits (timer s i)).

Lemma head_timer : i ∈ all_timers ∧ i ∉ rest ∧ allocated_ok i (timer s i) true (works s i).
Proof.
  destruct (armed_allocated base s i Hm) as (Ha&_&Ho); [rewrite El; left|].
  pose proof (timer_list_nodup s (to_lists _ _ (mo_queue _ _ Hm))) as Hnd. rewrite El in Hnd.
  by apply NoDup_cons in Hnd as [Hni _].
Qed.

Lemma wp_rearm s2 ws next (Q : unit → kernel → Prop) :
  timer_step s s2 i ((timer s i) <| tm_last_expiration_tick := expiration s i |>) rest ws →
  next = (rts_timer_periodic_next (expiration s i) (tm_period (timer s i)) now).1 →
  (∀ s3 L, timer_step s s3 i (rearmed (timer s i)) L ws → timers_ok base s3 → requeued s i rest L → Q tt s3) →
  wp (if periodic (timer s i) then
        modify (upd_timer i (λ x, x <| tm_expiration_tick := next |>)) ;;;
        modify (upd_timer i (λ x, x <| tm_state := RTS_TIMER_ACTIVE |>)) ;;;
        rts_timer_queue_insert (Some i)
      else modify (upd_timer i (λ x, x <| tm_state := RTS_TIMER_STOPPED |>))) Q s2.
Proof.
  intros Ht -> HQ. destruct head_timer as (Ha&Hni&[_ _ Hper _ _ _ _]). pose proof (mo_queue _ _ Hm) as [T1 T2 T3 _].
  assert (i ∈ timer_list s) as Hi by (rewrite El; left).
  destruct (periodic (timer s i)) eqn:Ep.
  - destruct (fired_deadline (timer s i)) as (Hu&Hw&Hr); [by apply T2|by apply T3|done..|].
    assert (tm_expiration_tick (fired now (timer s i)) =
      (rts_timer_periodic_next (expiration s i) (tm_period (timer s i)) now).1) as En by (cbn [fired tm_expiration_tick]; by rewrite Ep).
    rewrite <- En. apply wp_bind. eapply wp_ts_timer; [exact Ht|done|]. intros s3 H3.
    apply wp_bind. eapply wp_ts_timer; [exact H3|done|]. intros s4 H4.
    eapply (wp_ts_insert _ _ _ _ _ _ H4 base); [eapply timers_ok_rest; [apply Hm|done|exact H4]|done..|]. intros s5 H5 Hq. eapply HQ; [|done|].
    + eapply ts_ext; [exact H5|]. unfold rearmed, fired. rewrite Ep. done.
    + split; [|intros P; apply filter_insert_by]. intros j. rewrite insert_by_elem, Ep. naive_solver.
  - eapply wp_ts_timer; [exact Ht|done|]. intros s3 H3. eapply HQ; [|eapply timers_ok_rest; [apply Hm|done|exact H3]|].
    + eapply ts_ext; [exact H3|]. unfold rearmed, fired. rewrite Ep. done.
    + split; [|done]. intros j. rewrite Ep. naive_solver.
Qed.

(** The store after timer [i] was processed; [woken] if the service was. *)
Record fired_one (s' : kernel) (woken : bool) : Prop := {
  fo_system : system_ok_at since s';
  fo_manager : manager_ok base s';
  fo_timer : timer_core (timer s' i) = timer_core (fired now (timer s i));
  fo_others j : j ≠ i → timer s' j = timer s j;
  fo_queue : requeued s i rest (timer_list s');
  fo_ring : cq_list s' = cq_list s ++ new_work s i;
  fo_frame : service_frame woken s s';
  fo_woken : woken = idle (timer s i) && parked s
}.

(** The work of the whole body is done but for the service. *)
Lemma fired_one_quiet s' L :
  timer_step s s' i (fired now (timer s i)) L (cq_list s ++ new_work s i) → timers_ok base s' → requeued s i rest L →
  idle (timer s i) && parked s = false → fired_one s' false.
Proof.
  intros Ht Hq [HL HP] Hn. split; try done.
  - by eapply system_ok_timer_step.
  - by eapply manager_fired.
  - apply Ht.
  - apply Ht.
  - split; by rewrite (ts_list _ _ _ _ _ _ Ht).
  - apply Ht.
  - by eapply sf_step.
Qed.

Lemma fired_one_woken s' s'' L :
  timer_step s s' i (fired now (timer s i)) L (cq_list s ++ new_work s i) → timers_ok base s' → requeued s i rest L →
  idle (timer s i) = true → parked s = true → service_woken (since := since) s' s'' → fired_one s'' true.
Proof.
  intros Ht Hq [HL HP] Hi Hp Hw. pose proof (sv_step _ _ Hw) as Hk.
  assert (∀ A (f : kernel → A), (∀ s, f (outside false s) = f s) → f s'' = f s') as Hf by (intros A f; by eapply kstep_field).
  assert (timer_list s'' = timer_list s') as El' by (unfold timer_list; by rewrite (ks_lists _ _ _ _ _ _ Hk) by auto).
  assert (∀ j, timer s'' j = timer s' j) as Et by (intros j; by apply (Hf _ (λ s, timer s j))).
  assert (k_callback_queue s'' = k_callback_queue s') as Ec by by apply (Hf _ k_callback_queue).
  split.
  - apply Hw.
  - apply (manager_ok_frame base s'); [by eapply manager_fired|apply (ro_lists _ (ks_ready_ok _ _ _ _ _ _ Hk))|done| |done|..];
      [by apply (Hf _ k_timers)|by apply (Hf _ k_timer_next_free_hint)|by apply (Hf _ k_timer_allocated_count)].
  - rewrite Et. apply Ht.
  - intros j Hj. rewrite Et. by apply Ht.
  - split; by rewrite El', (ts_list _ _ _ _ _ _ Ht).
  - unfold cq_list at 1. rewrite Ec. apply Ht.
  - apply (sf_trans false true s s'); [by eapply sf_step|by apply sf_woken|done].
  - by rewrite Hi, Hp.
Qed.

Lemma rts_timer_process_one_spec : wp (rts_timer_process_one now i) (λ b s', fired_one s' b) s.
Proof.
  destruct head_timer as (Ha&Hni&Hal). pose proof (mo_queue _ _ Hm) as Hq. unfold rts_timer_process_one.
  pose proof (timer_step_refl s i (to_lists _ _ Hq) (mo_ring _ _ Hm)) as H0'.
  apply wp_bind, wp_gets. fold (expiration s i).
  apply wp_bind. eapply (wp_ts_remove _ _ _ _ _ _ H0' [] rest); [done|]. intros s1 H1'. cbn [app] in H1'.
  apply wp_bind. eapply wp_ts_timer; [exact H1'|done|]. intros s2 H2'. apply wp_bind, wp_gets.
  rewrite (ts_field tm_expiration_tick _ _ _ _ _ _ H2'), (ts_field tm_period _ _ _ _ _ _ H2'),
    (ts_field tm_mode _ _ _ _ _ _ H2') by done.
  change (tm_expiration_tick (_ <| tm_last_expiration_tick := _ |>)) with (expiration s i).
  change (tm_period (_ <| tm_last_expiration_tick := _ |>)) with (tm_period (timer s i)).
  change (tm_mode (_ <| tm_last_expiration_tick := _ |>) =? RTS_TIMER_PERIODIC) with (periodic (timer s i)).
  destruct (rts_timer_periodic_next (expiration s i) (tm_period (timer s i)) now) as [next skipped] eqn:En.
  apply wp_bind. eapply (wp_rearm s2); [exact H2'|by rewrite En|]. clear s1 H1' s2 H2'. intros s3 L H3 Hq3 HL.
  apply wp_bind. eapply wp_ts_diag_inc; [exact H3|done|]. intros s4 H4.
  apply wp_bind. eapply wp_ts_counter; [exact H4|]. clear s4 H4. intros s4 H4.
  apply wp_bind. eapply wp_ts_diag_add; [exact H4|done|]. clear s4 H4. intros s4 H4.
  apply wp_bind. eapply wp_ts_counter_add; [exact H4|]. clear s4 H4. intros s4 H4.
  apply wp_bind, wp_gets, wp_bind. rewrite (ts_field tm_slot_index _ _ _ _ _ _ H4) by done.
  eapply wp_ts_trace; [exact H4|exact Hroom|]. clear s4 H4. intros s4 H4.
  apply wp_bind, wp_gets. rewrite (ts_field tm_callback_state _ _ _ _ _ _ H4) by done.
  change (bool_decide (tm_callback_state (rearmed (timer s i)) = _)) with (idle (timer s i)).
  destruct (idle (timer s i)) eqn:Hi; cbn [negb].
  - assert (works s i = []) as Hw.
    { pose proof (al_works _ _ _ _ Hal) as Hx. apply bool_decide_eq_true in Hi. by rewrite Hi in Hx. }
    apply wp_bind. eapply wp_ts_timer; [exact H4|done|]. clear s4 H4. intros s4 H4.
    apply wp_bind, wp_gets. rewrite (ts_field tm_generation _ _ _ _ _ _ H4), (ts_field tm_expiration_sequence _ _ _ _ _ _ H4) by done.
    apply wp_bind. eapply wp_ts_enqueue; [exact H4|done|by eapply ring_has_room|]. clear s4 H4. intros s4 H4.
    cbn [negb when]. apply wp_bind, wp_ret, wp_bind. eapply wp_ts_timer; [exact H4|done|]. clear s4 H4. intros s4 H4.
    assert (timer_step s s4 i (fired now (timer s i)) L (cq_list s ++ new_work s i)) as H5.
    { unfold new_work. rewrite Hi. eapply ts_ext; [exact H4|]. unfold rearmed, fired. by rewrite Hi. }
    clear H4. apply wp_bind, wp_gets, wp_bind.
    apply (wp_mono _ (λ _ s5, timer_step s s5 i (fired now (timer s i)) L (cq_list s ++ new_work s i))).
    { destruct (_ && _); cbn [when]; [apply wp_modify|by apply wp_ret]. eapply ts_counter; [exact H5|by eexists]. }
    clear s4 H5. intros _ s4 H4. pose proof (timers_ok_same base _ _ _ _ _ _ _ _ _ H3 H4 eq_refl Hq3) as Hq4.
    pose proof (sf_step _ _ _ _ _ _ H4) as Hf. pose proof (sf_parked _ _ _ Hf) as Ep. rewrite andb_true_r in Ep.
    eapply wp_mono; [apply (rts_scheduler_timer_service_wake_spec (since := since) s4);
      [by eapply system_ok_timer_step|by eapply sf_built|by eapply sf_settled]|].
    intros b s5 [-> Hs]. rewrite Ep in *. destruct (parked s) eqn:Hp; [by eapply fired_one_woken|]. subst s5.
    eapply fired_one_quiet; [done..|by rewrite Hp, andb_false_r].
  - apply wp_bind. eapply wp_ts_diag_inc; [exact H4|done|]. clear s4 H4. intros s4 H4.
    apply wp_bind. eapply wp_ts_counter; [exact H4|]. clear s4 H4. intros s4 H4.
    apply wp_bind. eapply wp_ts_diag_inc; [exact H4|done|]. clear s4 H4. intros s4 H4.
    apply wp_bind. eapply wp_ts_counter; [exact H4|]. clear s4 H4. intros s4 H4.
    apply wp_bind. eapply wp_ts_trace; [exact H4|exact Hroom|]. clear s4 H4. intros s4 H4. apply wp_ret.
    eapply fired_one_quiet; [|exact (timers_ok_same base _ _ _ _ _ _ _ _ _ H3 H4 eq_refl Hq3)|done|by rewrite Hi].
    unfold new_work. rewrite Hi, app_nil_r. eapply ts_ext; [exact H4|]. unfold rearmed, fired. by rewrite Hi.
Qed.
End one_timer.

(** ** All timers *)

(** Timer [i] expired and its callback can be made pending. *)
Definition notifies (s : kernel) (i : Z) : bool := expired now s i && idle (timer s i).

(** Every expired timer was processed once, in the order of the deadlines, and
    nothing else changed. *)
Record expiries (s s' : kernel) (woken : bool) : Prop := {
  ex_system : system_ok_at since s';
  ex_manager : manager_ok base s';
  ex_timer i : timer_core (timer s' i) = timer_core (if expired now s i then fired now (timer s i) else timer s i);
  ex_armed i : i ∈ timer_list s' ↔ i ∈ timer_list s ∧ (expired now s i = true → periodic (timer s i) = true);
  ex_done i : expired now s' i = false;
  ex_ring : cq_list s' = cq_list s ++ (expiry_work s <$> filter (λ i, notifies s i = true) (timer_list s));
  ex_frame : service_frame woken s s';
  ex_woken : woken = existsb (notifies s) (timer_list s) && parked s
}.

Lemma existsb_filter {A} (P : A → bool) l : existsb P l = negb (bool_decide (filter (λ x, P x = true) l = [])).
Proof.
  induction l as [|x l IH]; [done|]. cbn [existsb]. rewrite filter_cons, IH.
  destruct (P x) eqn:E; [rewrite decide_True by done|rewrite decide_False by done]; done.
Qed.

Lemma expiries_none s :
  system_ok_at since s → manager_ok base s → (∀ i, expired now s i = false) → expiries s s false.
Proof.
  intros Hsy Hm Hn. assert (∀ l, filter (λ i, notifies s i = true) l = []) as Hl.
  { intros l. apply filter_none. intros i _. unfold notifies. by rewrite Hn. }
  split; try done.
  - intros i. by rewrite Hn.
  - intros i. rewrite Hn. naive_solver.
  - by rewrite Hl, app_nil_r.
  - by rewrite existsb_filter, Hl.
Qed.

Section round.
Context (s s1 : kernel) (i : Z) (rest : list Z) (b1 : bool).
Context (Hm : manager_ok base s) (El : timer_list s = i :: rest) (Hexp : rts_tick_reached now (expiration s i) = true).
Context (Hfit : period_fits (timer s i)) (Hf : fired_one s i rest s1 b1).

Lemma round_expired j : expired now s1 j = bool_decide (j ≠ i) && expired now s j.
Proof.
  destruct (fo_queue _ _ _ _ _ Hf) as [HL _]. unfold expired, armed. destruct (decide (j = i)) as [->|Hj].
  - rewrite (bool_decide_false (i ≠ i)) by naive_solver. cbn [andb].
    assert (expiration s1 i = tm_expiration_tick (fired now (timer s i))) as ->
      by exact (f_equal tm_expiration_tick (fo_timer _ _ _ _ _ Hf)).
    destruct (periodic (timer s i)) eqn:Ep.
    + destruct (head_timer s i rest Hm El) as (_&_&[_ _ Hper _ _ _ _]). pose proof (mo_queue _ _ Hm) as [_ T2 T3 _].
      assert (i ∈ timer_list s) as Hin by (rewrite El; left).
      destruct (fired_deadline (timer s i)) as (_&_&->); [by apply T2|by apply T3|done..|]. apply andb_false_r.
    + rewrite bool_decide_false; [done|]. rewrite HL. destruct (head_timer s i rest Hm El) as (_&Hni&_). naive_solver.
  - rewrite (bool_decide_true (j ≠ i)) by done. cbn [andb]. unfold expiration. rewrite (fo_others _ _ _ _ _ Hf) by done.
    f_equal. apply bool_decide_ext. rewrite HL, El. set_solver.
Qed.

Lemma round_notifies j : notifies s1 j = bool_decide (j ≠ i) && notifies s j.
Proof.
  unfold notifies. rewrite round_expired. destruct (decide (j = i)) as [->|Hj].
  - by rewrite (bool_decide_false (i ≠ i)) by naive_solver.
  - by rewrite (fo_others _ _ _ _ _ Hf), <- andb_assoc by done.
Qed.

Lemma round_head : expired now s i = true.
Proof. unfold expired, armed. rewrite Hexp, bool_decide_true; [done|]. rewrite El. left. Qed.

(** What is left for the following rounds. *)
Lemma round_filter (P P1 : Z → bool) :
  (∀ j, P1 j = bool_decide (j ≠ i) && P j) →
  filter (λ j, P1 j = true) (timer_list s1) = filter (λ j, P j = true) rest.
Proof.
  intros HP. destruct (fo_queue _ _ _ _ _ Hf) as [_ HF].
  rewrite HF by (rewrite HP, bool_decide_false by naive_solver; done).
  destruct (head_timer s i rest Hm El) as (_&Hni&_). clear -HP Hni. induction rest as [|j l IH]; [done|].
  rewrite !filter_cons, IH by set_solver. rewrite HP, bool_decide_true by set_solver. done.
Qed.

Lemma expiries_step s2 b2 : expiries s1 s2 b2 → expiries s s2 (b1 || b2).
Proof.
  intros [E1 E2 E3 E4 E5 E6 E7 E8]. destruct Hf as [F1 F2 F3 F4 [HL HF] F6 F7 F8].
  pose proof (round_filter _ _ round_notifies) as Hfil. destruct (head_timer s i rest Hm El) as (_&Hni&_).
  assert (filter (λ j, notifies s j = true) (timer_list s) =
    (if idle (timer s i) then [i] else []) ++ filter (λ j, notifies s j = true) rest) as Hall.
  { rewrite El, filter_cons. assert (notifies s i = idle (timer s i)) as -> by (unfold notifies; by rewrite round_head).
    by destruct (idle (timer s i)). }
  split; try done.
  - intros j. rewrite E3, round_expired. destruct (decide (j = i)) as [->|Hj].
    + rewrite bool_decide_false, round_head by naive_solver. done.
    + by rewrite bool_decide_true, F4 by done.
  - intros j. rewrite E4, HL, round_expired, El. destruct (decide (j = i)) as [->|Hj].
    + rewrite bool_decide_false, round_head by naive_solver. cbn. set_solver.
    + rewrite bool_decide_true, F4 by done. cbn. set_solver.
  - rewrite E6, F6, Hfil, Hall, fmap_app, <- app_assoc. f_equal. f_equal.
    + unfold new_work. by destruct (idle (timer s i)).
    + apply list_fmap_ext. intros k j [_ Hj]%list_elem_of_lookup_2%list_elem_of_filter.
      assert (j ≠ i) as Hne by (by intros ->). unfold expiry_work, expiration. by rewrite F4.
  - apply (sf_trans b1 b2 s s1); [done..|]. intros ->. rewrite E8, (sf_parked _ _ _ F7), andb_false_r. by rewrite andb_false_r.
  - rewrite E8, F8, !existsb_filter, Hfil, Hall, (sf_parked _ _ _ F7), F8.
    destruct (idle (timer s i)), (parked s); cbn; rewrite ?andb_false_r, ?andb_true_r; done.
Qed.
End round.

(** The queue is sorted: nothing has expired unless its head has. *)
Lemma expired_head s :
  manager_ok base s →
  match timer_list s with
  | i :: _ => rts_tick_reached now (expiration s i) = false → ∀ j, expired now s j = false
  | [] => ∀ j, expired now s j = false
  end.
Proof.
  intros Hm. pose proof (timer_peek_facts base s now (mo_queue _ _ Hm) Hnow Hwin) as Hp. unfold expired, armed.
  destruct (timer_list s) as [|i rest]; [done|]. intros E j. rewrite E in Hp. case_bool_decide; [|done]. by apply Hp.
Qed.

Lemma rts_timer_process_loop_spec fuel woken s :
  system_ok_at since s → manager_ok base s → port_room s → service_built s → settled s →
  (∀ i, i ∈ timer_list s → period_fits (timer s i)) →
  (length (filter (λ i, expired now s i = true) (timer_list s)) < fuel)%nat →
  wp (rts_timer_process_loop now woken fuel) (λ r s', ∃ b, r = woken || b ∧ expiries s s' b) s.
Proof.
  revert woken s. induction fuel as [|fuel IH]; intros woken s Hsy Hm Hroom Hbu Hset Hfit Hfuel; [lia|].
  cbn [rts_timer_process_loop]. apply wp_bind.
  eapply wp_run; [apply rts_timer_queue_peek_expired_run, (to_lists _ _ (mo_queue _ _ Hm))|].
  pose proof (expired_head s Hm) as Hhd. destruct (timer_list s) as [|i rest] eqn:El.
  { apply wp_ret. exists false. rewrite orb_false_r. split; [done|by apply expiries_none]. }
  destruct (rts_tick_reached now (expiration s i)) eqn:Er.
  2: { apply wp_ret. exists false. rewrite orb_false_r. split; [done|]. by apply expiries_none; [..|apply Hhd]. }
  assert (period_fits (timer s i)) as Hfi by (apply Hfit; left).
  apply wp_bind. eapply wp_mono; [by apply (rts_timer_process_one_spec s i rest)|]. intros b1 s1 Hf.
  eapply wp_mono; [apply IH|].
  - apply Hf.
  - apply Hf.
  - destruct (sf_nesting _ _ _ (fo_frame _ _ _ _ _ Hf)) as (En&_). unfold port_room in *. by rewrite En.
  - by eapply sf_built, Hbu; apply Hf.
  - by eapply sf_settled, Hset; apply Hf.
  - intros j Hj. unfold period_fits. destruct (decide (j = i)) as [->|Hne].
    + assert (tm_period (timer s1 i) = tm_period (timer s i)) as -> by exact (f_equal tm_period (fo_timer _ _ _ _ _ Hf)). done.
    + rewrite (fo_others _ _ _ _ _ Hf) by done. apply Hfit. apply (fo_queue _ _ _ _ _ Hf) in Hj. set_solver.
  - rewrite (round_filter s s1 i rest b1 Hm El Hf _ _ (round_expired s s1 i rest b1 Hm El Er Hfi Hf)).
    rewrite filter_cons_True in Hfuel by by apply (round_head s i rest). cbn in Hfuel. lia.
  - intros r s' (b2&->&He). exists (b1 || b2). rewrite orb_assoc. split; [done|by apply (expiries_step s s1 i rest b1)].
Qed.

Lemma rts_timer_manager_process_expired_spec s :
  system_ok_at since s → manager_ok base s → port_room s → service_built s → settled s →
  (∀ i, i ∈ timer_list s → period_fits (timer s i)) →
  wp (rts_timer_manager_process_expired now) (λ woken s', expiries s s' woken) s.
Proof.
  intros Hsy Hm Hroom Hbu Hset Hfit. unfold rts_timer_manager_process_expired.
  pose proof (timer_list_length s (to_lists _ _ (mo_queue _ _ Hm))) as Hlen.
  apply wp_bind. eapply wp_mono; [apply rts_timer_process_loop_spec; try done|].
  { pose proof (length_filter (λ i, expired now s i = true) (timer_list s)). lia. }
  intros r s' (b&->&He). apply wp_bind, wp_RTS_FATAL_UNLESS; [|by apply wp_ret].
  apply (rts_timer_manager_validate_run base), He.
Qed.

(** The invariant at the instant after [now], once no deadline is overdue. *)
Lemma manager_later s :
  manager_ok base s → (∀ i, expired now s i = false) → manager_ok (u32 (now + 1)) s.
Proof.
  intros [[T1 T2 T3 T4] M2 M3 M4 M5 M6] Hn. split; try done.
  assert (ahead base (u32 (now + 1)) = ahead base now + 1) as En.
  { pose proof (ahead_range base now). unfold ahead at 1. rewrite u32_u32_sub_l.
    replace (now + 1 - base) with ((now - base) + 1) by lia. rewrite <- u32_u32_add. fold (ahead base now).
    apply u32_small. unfold is_u32, UINT32_MAX, RTS_TICK_HALF_RANGE in *. lia. }
  assert (∀ i, i ∈ timer_list s → expires_in (u32 (now + 1)) s i = expires_in base s i - (ahead base now + 1)) as He.
  { intros i Hi. unfold expires_in. rewrite <- En. apply ahead_shift. rewrite En.
    specialize (Hn i). unfold expired, armed in Hn. rewrite bool_decide_true in Hn by done. cbn [andb] in Hn.
    destruct (Z.le_gt_cases (ahead base (expiration s i)) (ahead base now)) as [Hle|]; [|lia].
    apply (rts_tick_reached_window base) in Hle; [congruence|done|by apply T2|done|by apply T3]. }
  split; [done|done| |].
  - intros i Hi. rewrite He by done. specialize (T3 i Hi). pose proof (ahead_range base now). lia.
  - clear -T4 He. induction T4 as [|i l Hs IH Hf]; constructor.
    + apply IH. intros j Hj. apply He. by right.
    + rewrite Forall_forall in *. intros j Hj. rewrite !He by (by left || by right). specialize (Hf j Hj). lia.
Qed.
End expiry.

(** C7: Provided that a timer service that sleeps has left the processor, and that
    the time from the window's origin to now plus the period of each armed timer is
    less than half the tick range, the loop of rts_timer_manager_process_expired
    terminates within the RTS_MAX_TIMERS + 1 rounds of its bound (any larger bound
    gives the same) and processes every armed timer whose deadline has been reached exactly once,
    earliest deadline first, and no other: a one-shot timer stops, a periodic
    one is re-armed at the next instant of its grid, the callback of a timer
    whose last callback is over is queued behind the work already there, and
    the service is woken exactly when it waited and work was added.  Afterwards
    no deadline is overdue, other tasks are as before, and the invariants of
    the kernel and of the timer manager hold. *)
Theorem timer_expiry_terminates `{ConfigOk} `{!BitmapPolicy} since base now s fuel :
  is_u32 now → ahead base now < RTS_TICK_HALF_RANGE →
  system_ok_at since s → manager_ok base s → port_room s → service_built s → settled s →
  (∀ i, i ∈ timer_list s → period_fits base now (timer s i)) →
  (Z.to_nat (RTS_MAX_TIMERS + 1) ≤ fuel)%nat →
  wp (rts_timer_process_loop now false fuel) (λ woken s', expiries (since := since) base now s s' woken) s.
Proof.
  intros Hnow Hwin Hsy Hm Hroom Hbu Hset Hfit Hfuel.
  pose proof (timer_list_length s (to_lists _ _ (mo_queue _ _ Hm))) as Hlen.
  eapply wp_mono; [apply (rts_timer_process_loop_spec (since := since) base now); try done|by intros r s' (b&->&He)].
  pose proof (length_filter (λ i, expired now s i = true) (timer_list s)). lia.
Qed.
