(* ===== verification/TimeSlice.v ===== *)
(** * Time slices

    What the policy's tick handler (kernel/policy_fp.c, and policy_rms.c
    through it) does to a kernel that satisfies the invariant: it charges the
    elapsed ticks to the current task and rotates its queue when the slice is
    used up. *)

From S2P Require Import Prelude Machine Config Types Links IntrusiveList KernelLists Time ReadyQueue.
From S2P Require Import DelayQueue HostPort Diagnostics TaskPool Policy PolicySpec WaitObject Scheduler.
From S2P Require Import SwitchSpec KernelSpec StoreCheck TaskApi TaskApiSpec Blocking Semaphore SemaphoreSpec.
From S2P Require Import Inheritance Mutex MutexSpec SystemSpec MutexCalls MutexRelease KernelTime TickSpec.

Section slices.
Context `{ConfigOk} `{!BitmapPolicy} {since : Z}.

(** The queue of a task's effective priority. *)
Definition queue_of (s : kernel) (c : task_ptr) : list task_ptr := ready_queue s (priority (task s c)).

(** The current task [c] uses its slice: it runs, is not the idle task, is at
    the front of its queue, and no switch is in progress. *)
Definition charged (s : kernel) (c : task_ptr) : bool :=
  RTS_ENABLE_TIME_SLICING && bool_decide (state (task s c) = RTS_TASK_STATE_RUNNING) &&
  negb (bool_decide (c = TIdle)) && negb (plan_active (k_switch_plan s)) &&
  bool_decide (head (queue_of s c) = Some c) && negb (slice_remaining (task s c) =? 0).

Definition slice_after (s : kernel) (c : task_ptr) (elapsed : Z) : Z :=
  if charged s c then
    if elapsed <? slice_remaining (task s c) then u32 (slice_remaining (task s c) - elapsed) else RTS_TIME_SLICE_TICKS
  else slice_remaining (task s c).

(** The slice is used up and another task of the same priority is ready. *)
Definition rotates (s : kernel) (c : task_ptr) (elapsed : Z) : bool :=
  charged s c && (slice_remaining (task s c) <=? elapsed) && (1 <? Z.of_nat (length (queue_of s c))).

Definition queues_after (s : kernel) (c : task_ptr) (elapsed : Z) : Z → list task_ptr :=
  if rotates s c elapsed then set_queue (ready_queue s) (priority (task s c)) (tail (queue_of s c) ++ [c])
  else ready_queue s.

Record sliced (s s' : kernel) (c : task_ptr) (elapsed : Z) : Prop := {
  sl_system : system_ok_at since s';
  sl_step : kstep s s' c (queues_after s c elapsed) (delay_list s) (waiting s);
  sl_task : task s' c = (task s c) <| slice_remaining := slice_after s c elapsed |>
}.

Lemma queues_after_elem s c elapsed p u :
  c ∈ queue_of s c → u ∈ queues_after s c elapsed p ↔ u ∈ ready_queue s p.
Proof.
  intros Hc. unfold queues_after, rotates. destruct (charged s c) eqn:E; [|done]. cbn [andb].
  destruct (_ && _); [|done]. unfold set_queue. case_decide as Ep; [subst p|done].
  unfold charged in E. rewrite !andb_true_iff, !bool_decide_eq_true in E. destruct E as [[_ E] _]. unfold queue_of in *.
  destruct (ready_queue s (priority (task s c))) as [|d q]; [done|]. injection E as ->. set_solver.
Qed.

Lemma sliced_intro s s' c elapsed :
  system_ok_at since s → k_current_task s = Some c → charged s c = true →
  kstep s s' c (queues_after s c elapsed) (delay_list s) (waiting s) →
  task s' c = (task s c) <| slice_remaining := slice_after s c elapsed |> → sliced s s' c elapsed.
Proof.
  intros Hsy Hc Hch Hk Ht. pose proof (sy_kernel s Hsy) as Hok. split; try done. unfold charged in Hch. tests_in Hch.
  rewrite ?bool_decide_eq_true, ?negb_true_iff, ?bool_decide_eq_false in *.
  assert (face (task s' c) = face (task s c)) as Hface by by rewrite Ht.
  assert (runnable s c = true) as Hr by (pose proof (ko_task s Hok c) as Hx; unfold task_ok in Hx; by rewrite T3 in Hx).
  assert (c ∈ queue_of s c) as Hq by by apply runnable_ready; [apply Hok|].
  destruct (runnable_places s c Hok Hr) as [Hnd Hnw].
  assert (same_places s s' c) as Hpl.
  { split.
    - unfold queue_of in Hq. apply (ready_queue_owner s (ko_ready s Hok)) in Hq as ->.
      apply (ready_queue_owner s' (ks_ready_ok _ _ _ _ _ _ Hk)). rewrite (ks_ready _ _ _ _ _ _ Hk).
      apply queues_after_elem; by apply runnable_ready; [apply Hok|].
    - rewrite (kstep_undelayed _ _ _ _ _ _ Hk Hnd).
      rewrite (kstep_undelayed _ _ _ _ _ _ (kstep_refl (m:=false) s c (ko_ready s Hok) (wok_wf s (ko_waits s Hok))) Hnd). done.
    - rewrite (kstep_unlinked _ _ _ _ _ _ Hk Hnw). by rewrite (runnable_not_waiting s c Hok Hr). }
  assert (runnable s' c = true) as Hr'.
  { rewrite (runnable_ext s s' c); [done..|by eapply kstep_roles]. }
  apply face_eq in Hface as (Hid&_&Hst). eapply system_ok_kstep; [done| |exact Hk|done|done].
  eapply (kernel_ok_kstep_at s s' c); [done|exact Hk| |done|done|apply (wok_sorted s (ko_waits s Hok))|done| | |].
  - intros u Hne. split_and!; [|done|done]. intros p. by apply queues_after_elem.
  - apply (wake_sorted_ext _ s); [|apply (do_sorted _ _ (ko_delay s Hok))].
    intros u Hin. apply (ks_face _ _ _ _ _ _ _ Hk). by intros ->.
  - unfold task_ok. by rewrite Hst, T3.
  - intros _. unfold outgoing. rewrite (kstep_field k_current_task _ _ _ _ _ _ Hk), Hc, Hst, T3, Hr' by done.
    by rewrite (bool_decide_true (Some c = Some c)).
Qed.

(** The slice is used up. *)
Lemma spent_spec s s1 c elapsed :
  system_ok_at since s → k_current_task s = Some c → charged s c = true → slice_remaining (task s c) ≤ elapsed →
  kstep s s1 c (ready_queue s) (delay_list s) (waiting s) →
  task s1 c = (task s c) <| slice_remaining := RTS_TIME_SLICE_TICKS |> →
  wp (rts_policy_fp_yield (Some c)) (λ r s', r = rotates s c elapsed ∧ sliced s s' c elapsed) s1.
Proof.
  intros Hsy Hc Hch Hge Hk1 E1. pose proof (sy_kernel s Hsy) as Hok.
  assert (task s1 c = (task s c) <| slice_remaining := slice_after s c elapsed |>) as Et.
  { rewrite E1. unfold slice_after. by rewrite Hch, (proj2 (Z.ltb_ge _ _)). }
  assert (queue_of s1 c = queue_of s c) as Eq.
  { unfold queue_of. rewrite (ks_ready _ _ _ _ _ _ Hk1). by rewrite Et. }
  assert (head (queue_of s c) = Some c) as Hhead.
  { unfold charged in Hch. rewrite !andb_true_iff, !bool_decide_eq_true in Hch. tauto. }
  assert (c ∈ queue_of s1 c) as Hin by (rewrite Eq; by apply head_Some_elem_of).
  pose proof (ks_ready_ok _ _ _ _ _ _ Hk1) as Hok1. cbn [rts_policy_fp_yield].
  apply wp_bind. eapply wp_run; [apply (orM_run _ _ false (negb (1 <? Z.of_nat (length (queue_of s1 c)))))|].
  { rewrite (notM_run _ true); [done|]. rewrite rts_ready_contains_run by (rewrite ?Et; apply Hok1 || apply (ko_prio s Hok)).
    by rewrite bool_decide_true. }
  { intros _. apply notM_run. by apply rts_ready_has_peer_run. }
  cbn [orb]. rewrite Eq. assert (rotates s c elapsed = (1 <? Z.of_nat (length (queue_of s c)))) as Er.
  { unfold rotates. by rewrite Hch, (proj2 (Z.leb_le _ _)). }
  destruct (Z.ltb_spec 1 (Z.of_nat (length (queue_of s c)))) as [Hlen|]; cbn [negb].
  2: { apply wp_ret. split; [done|]. apply sliced_intro; [done..|unfold queues_after; by rewrite Er|done]. }
  destruct (queue_of s c) as [|x [|y q]] eqn:Eqq; [done|simpl in Hlen; lia|]. injection Hhead as ->.
  apply wp_bind, wp_gets, wp_bind. fold (queue_of s1 c) in *.
  eapply wp_mono; [apply (rts_ready_rotate_spec s1 (priority (task s1 c)) c y q Hok1)|]; [done|].
  intros [] s2 Hst. apply wp_ret. split; [done|].
  assert (task s2 c = task s1 c) as E2 by by destruct Hst as (_&h'&bm'&->&_).
  apply sliced_intro; [done..| |by rewrite E2]. unfold queues_after. rewrite Er, Eqq.
  replace (priority (task s c)) with (priority (task s1 c)) by by rewrite Et. by eapply kstep_ready.
Qed.

Lemma rts_policy_tick_spec s c elapsed :
  system_ok_at since s → k_current_task s = Some c →
  wp (rts_policy_tick elapsed) (λ r s', r = rotates s c elapsed ∧ sliced s s' c elapsed) s.
Proof.
  intros Hsy Hc. pose proof (sy_kernel s Hsy) as Hok.
  pose proof (kstep_refl (m:=false) s c (ko_ready s Hok) (wok_wf s (ko_waits s Hok))) as Hk0.
  assert (charged s c = false → false = rotates s c elapsed ∧ sliced s s c elapsed) as Hidle.
  { intros E. assert (rotates s c elapsed = false) as Er by (unfold rotates; by rewrite E). split; [done|].
    split; [done|unfold queues_after; by rewrite Er|]. unfold slice_after. rewrite E. by destruct (task s c). }
  assert (rts_policy_tick elapsed = rts_policy_fp_tick elapsed) as ->.
  { pose proof bitmap_policy. unfold rts_policy_tick, rts_policy_rms_tick. by destruct RTS_POLICY. }
  unfold rts_policy_fp_tick, rts_policy_slice_tick. destruct RTS_ENABLE_TIME_SLICING eqn:Hon; cbn [negb].
  2: { apply wp_ret, Hidle. unfold charged. by rewrite Hon. }
  apply wp_bind. eapply wp_run; [apply rts_scheduler_current_get_run|]. rewrite Hc.
  apply wp_bind. eapply wp_run; [apply (orM_run _ _ (negb (bool_decide (state (task s c) = RTS_TASK_STATE_RUNNING)) ||
    bool_decide (c = TIdle) || plan_active (k_switch_plan s) || negb (bool_decide (head (queue_of s c) = Some c)))
    (slice_remaining (task s c) =? 0))|]; [|done|].
  { apply (orM_run _ _ (negb (bool_decide (state (task s c) = RTS_TASK_STATE_RUNNING)) ||
      bool_decide (c = TIdle) || plan_active (k_switch_plan s))).
    - unfold gets. rewrite (ko_idle s Hok). f_equal. f_equal. f_equal. apply bool_decide_ext. naive_solver.
    - rewrite !orb_false_iff, negb_false_iff, bool_decide_eq_true. intros [[Hst _] _]. apply notM_run.
      apply rts_ready_is_front_run; [apply Hok|]. apply runnable_ready; [apply Hok|].
      pose proof (ko_task s Hok c) as Hx. unfold task_ok in Hx. by rewrite Hst in Hx. }
  match goal with |- wp (if ?b then _ else _) _ _ => assert (b = negb (charged s c)) as -> end.
  { unfold charged. rewrite Hon. by destruct (bool_decide (state _ = _)), (bool_decide (c = _)), (plan_active _),
      (bool_decide (head _ = _)), (_ =? 0). }
  destruct (charged s c) eqn:Hch; cbn [negb]; [|by apply wp_ret, Hidle].
  clear Hidle. apply wp_bind, wp_gets. destruct (Z.ltb_spec elapsed (slice_remaining (task s c))) as [Hlt|Hge].
  - apply wp_bind. eapply wp_kstep_task; [exact Hk0|done|]. intros s1 Hk1 E1. apply wp_ret.
    assert (rotates s c elapsed = false) as Er by (unfold rotates; rewrite Hch, (proj2 (Z.leb_gt _ _)) by lia; done).
    split; [done|]. apply sliced_intro; [done..|unfold queues_after; by rewrite Er|].
    rewrite E1. unfold slice_after. by rewrite Hch, (proj2 (Z.ltb_lt _ _)).
  - apply wp_bind. eapply wp_kstep_task; [exact Hk0|done|]. intros s1 Hk1 E1.
    by apply (spent_spec s s1 c elapsed).
Qed.
End slices.
