(* ===== verification/TickAdvance.v ===== *)
(** * A whole tick

    rts_kernel_tick_advance (kernel/time.c) on a running kernel: delays and
    timeouts, timers, time slices and the switch plan composed.  [timed_ok] is
    the invariant of the kernel, its mutexes and its timers between two kernel
    calls. *)

From S2P Require Import Prelude Machine Config Types Links IntrusiveList KernelLists Time ReadyQueue.
From S2P Require Import DelayQueue HostPort Ring Diagnostics TaskPool Policy PolicySpec WaitObject Scheduler.
From S2P Require Import SwitchSpec KernelSpec StoreCheck TaskApi TaskApiSpec Blocking Semaphore SemaphoreSpec.
From S2P Require Import Inheritance Mutex MutexSpec SystemSpec MutexCalls MutexRelease CallbackQueue TimerQueue.
From S2P Require Import Timer KernelTime TickSpec TimerManager ServiceWake TimerSteps TimerExpiry TimeSlice.

Section tick.
Context `{ConfigOk} `{!BitmapPolicy}.

(** Armed timers expire after the current tick, and the service does not
    sleep while there is work. *)
Record timed_ok (s : kernel) : Prop := {
  td_system : system_ok s;
  td_manager : manager_ok (u32 (k_current_tick s + 1)) s;
  td_service : service_built s;
  td_awake : cq_list s ≠ [] → parked s = false
}.

(** The plan leads to the first task of the highest ready priority: it is the
    current one and nothing is planned, or a switch to it is planned, or a
    switch is in progress, to it or with a reselection to follow. *)
Definition plan_right (s : kernel) : Prop :=
  ∃ c n, k_current_task s = Some c ∧ head (fp_ready s) = Some n ∧
    let p := k_switch_plan s in
    if plan_active p then plan_to p = Some n ∨ plan_reselection_required p = true
    else if decide (n = c) then plan_pending p = false
    else plan_pending p = true ∧ plan_to p = Some n.

(** ** Counters and the trace *)

Definition noted (s s' : kernel) : Prop :=
  ∃ cs tr tok, s' = s <| k_runtime_counters := cs |> <| k_trace := tr |>
    <| k_port := (k_port s) <| host_critical_tokens := tok |> |> ∧ same_nesting s s'.

Lemma wp_noted {A} s c n e a (k : K A) (Q : A → kernel → Prop) :
  port_room s → (∀ s', noted s s' → wp k Q s') →
  wp (RTS_DIAG_COUNTER_ADD c n ;;; let* now := gets k_current_tick in RTS_TRACE e a now ;;; k) Q s.
Proof.
  intros Hroom HQ. apply wp_bind. apply (wp_mono _ (λ _ s1, counter_frame s s1)).
  { unfold RTS_DIAG_COUNTER_ADD. destruct RTS_ENABLE_RUNTIME_STATS; cbn [when].
    - apply wp_modify. by eexists.
    - apply wp_ret. exists (k_runtime_counters s). by destruct s. }
  intros _ s1 (cs&->). apply wp_bind, wp_gets, wp_bind. eapply wp_mono; [by apply RTS_TRACE_spec|].
  intros [] s2 Hf. apply HQ. pose proof (trace_frame_nesting _ _ Hf) as Hn. destruct Hf as (tok&tr&->&_).
  exists cs, tr, tok. by split.
Qed.

Lemma noted_wakes {since} s s1 s2 : noted s s1 → wakes (since := since) s1 s2 → wakes (since := since) s s2.
Proof. intros (cs&tr&tok&->&Hn) []. split; try done. by eapply same_nesting_trans. Qed.

Lemma noted_system {since} s s1 : noted s s1 → system_ok_at since s → system_ok_at since s1.
Proof.
  intros (cs&tr&tok&->&_) Hsy. apply (system_ok_views s); try done. apply (kernel_ok_faces_at s); try done; [apply Hsy|].
  by apply (plan_ok_frame s), (ko_plan s (sy_kernel s Hsy)).
Qed.

(** ** Woken tasks and the timers *)

Section after_wakes.
Context {since : Z} (s s' : kernel) (Hok : kernel_ok_at since s) (Hw : wakes (since := since) s s').

Lemma service_not_due : due s TTimerService = false.
Proof.
  destruct (due s TTimerService) eqn:E; [|done]. apply due_delayed in E.
  by destruct (delayed_facts s TTimerService Hok E) as ((i&?&_)&_).
Qed.

Lemma wakes_service {A} (f : rts_tcb → A) :
  (∀ x, f (x <| priority := 0 |>) = f x) → f (task s' TTimerService) = f (task s TTimerService).
Proof. intros Hf. by rewrite <- Hf, (wa_others _ _ Hw _ service_not_due), Hf. Qed.

Lemma wakes_parked : parked s' = parked s.
Proof. unfold parked. by rewrite (wakes_service state). Qed.

Lemma wakes_field {A} (f : kernel → A) : (∀ s, f (outside false s) = f s) → f s' = f s.
Proof. intros Hf. by rewrite <- (Hf s'), (wa_outside _ _ Hw), Hf. Qed.

Lemma wakes_timer_list : timer_list s' = timer_list s.
Proof. unfold timer_list. by rewrite (wa_armed _ _ Hw). Qed.

Lemma wakes_manager base : manager_ok base s → manager_ok base s'.
Proof.
  intros Hm. apply (manager_ok_frame base s); [done|apply (ro_lists _ (ko_ready _ (sy_kernel _ (wa_system _ _ Hw))))
    |apply wakes_timer_list|..].
  - by apply (wakes_field k_timers).
  - by apply (wakes_field k_callback_queue).
  - by apply (wakes_field k_timer_next_free_hint).
  - by apply (wakes_field k_timer_allocated_count).
Qed.

Lemma wakes_settled : settled s → settled s'.
Proof. unfold settled. by rewrite wakes_parked, (wakes_field k_current_task). Qed.

Lemma wakes_built : service_built s → service_built s'.
Proof. unfold service_built. by rewrite (wakes_service task_has_context), (wakes_service base_priority). Qed.
End after_wakes.

(** ** Replanning *)

Lemma tick_replan_spec s c :
  system_ok s → k_current_task s = Some c →
  ∃ n, head (fp_ready s) = Some n ∧ tick_replan s = Done (plan_prepared c n (k_switch_plan s)).2 (prepared c n s).
Proof.
  intros Hsy Hc. pose proof (sy_kernel s Hsy) as Hok. destruct (select_run s Hok) as (n&Hh&Hn&Hsel). exists n. split; [done|].
  unfold tick_replan. rewrite (bind_run _ _ _ _ _ (rts_scheduler_current_get_run s)), Hc.
  rewrite fatal_unless_run by done. rewrite (bind_run _ _ _ _ _ Hsel), fatal_unless_run by done.
  pose proof (prepare_run s c n Hok Hc Hn) as Hprep. case_bool_decide as E.
  - subst n. rewrite (bind_run _ _ _ _ _ Hprep). unfold ret. f_equal. unfold plan_prepared. rewrite decide_True by done.
    by destruct (plan_active (k_switch_plan s)), (plan_pending (k_switch_plan s)).
  - destruct (ko_current s Hok) as (d&Hd&Ho). assert (d = c) as -> by congruence. rewrite bind_gets.
    pose proof (ko_task s Hok c) as Ht. unfold task_ok in Ht.
    destruct (outgoing_state s c Ho) as [Hst|Hst]; rewrite Hst in Ht |- *.
    + rewrite bool_decide_false by done. rewrite fatal_unless_run by (unfold gets; by rewrite Hst).
      assert (rts_scheduler_current_is_valid s = Done true s) as Hv.
      { rewrite (rts_scheduler_current_is_valid_run s c (proj2 (ko_prio s Hok c)) Hc). unfold lifecycle_schedules.
        by rewrite (ko_live s Hok), Hst, Ht. }
      rewrite fatal_unless_run by done. rewrite (bind_run _ _ s false s); [exact Hprep|]. apply (orM_run _ _ false false).
      * unfold gets. by rewrite Hst.
      * intros _. by rewrite (notM_run _ true).
    + rewrite bool_decide_true by done. rewrite fatal_unless_run; [done|]. destruct Ht as [_ Hb]. rewrite <- Hb.
      apply (orM_run _ _ (blocked_delay s c) (blocked_wait s c)).
      * apply rts_scheduler_task_is_blocked_delay_run, (ko_prio s Hok).
      * intros _. apply rts_scheduler_task_is_blocked_wait_run, (ko_prio s Hok).
Qed.

Lemma plan_right_prepared s c n :
  k_current_task s = Some c → head (fp_ready s) = Some n → plan_right (prepared c n s).
Proof.
  intros Hc Hn. exists c, n. pose proof (prepared_same c n s) as Hs. destruct (same_scheduling_views _ _ Hs) as (_&Hq&_).
  split_and!; [by rewrite <- Hc; apply Hs|rewrite <- Hn; f_equal; by apply fp_order_ext|]. cbv zeta. rewrite prepared_plan.
  unfold plan_prepared. destruct (plan_active (k_switch_plan s)) eqn:Ea; cbn; [rewrite Ea; by right|].
  destruct (decide (n = c)) as [->|Hne], (plan_pending (k_switch_plan s)) eqn:Ep; cbn; rewrite ?Ea; try done.
  by destruct (decide (plan_to (k_switch_plan s) = Some n)); cbn; rewrite ?Ea.
Qed.

(** The port is notified exactly when a switch became pending. *)
Lemma plan_prepared_notify c n p :
  (plan_active p = true → plan_pending p = false) →
  (plan_prepared c n p).2 = plan_pending (plan_prepared c n p).1 && negb (plan_pending p).
Proof.
  intros Ho. unfold plan_prepared. destruct (plan_active p) eqn:Ea; cbn; [by rewrite Ho|].
  destruct (decide (n = c)), (plan_pending p) eqn:Ep; cbn; rewrite ?Ep; try done. by case_decide; cbn; rewrite ?Ep.
Qed.

(** ** The store after the tick *)

(** What a tick leaves alone in a task that it does not wake. *)
Definition quiet_part (x : rts_tcb) : rts_tcb := x <| priority := 0 |> <| slice_remaining := 0 |>.

Record ticked (s s' : kernel) (elapsed : Z) : Prop := {
  tk_ok : timed_ok s';
  tk_now : k_current_tick s' = u32 (k_current_tick s + elapsed);
  tk_woken t : due (later elapsed s) t = true →
    runnable s' t = true ∧ wait (task s' t) = mk_wait RTS_WAIT_NONE (expiry_result s t) 0 None false;
  tk_others t : due (later elapsed s) t = false → t ≠ TTimerService → quiet_part (task s' t) = quiet_part (task s t);
  tk_delay : delay_list s' = filter (λ t, due (later elapsed s) t = false) (delay_list s);
  tk_waiting o t : t ∈ waiting s' o ↔ due (later elapsed s) t = false ∧ t ∈ waiting s o;
  tk_timer i : timer_core (timer s' i) =
    timer_core (if expired (u32 (k_current_tick s + elapsed)) s i
                then fired (u32 (k_current_tick s + elapsed)) (timer s i) else timer s i);
  tk_ring : cq_list s' = cq_list s ++
    (expiry_work s <$> filter (λ i, notifies (u32 (k_current_tick s + elapsed)) s i = true) (timer_list s))
}.

Section stages.
Context (s : kernel) (elapsed : Z) (Hok : timed_ok s) (He : 1 ≤ elapsed ≤ RTS_TICK_MAX_ADVANCE).
#[local] Abbreviation now := (u32 (k_current_tick s + elapsed)).
#[local] Abbreviation base := (u32 (k_current_tick s + 1)).

Lemma ahead_base_now : ahead base now = elapsed - 1.
Proof.
  assert (now = u32 (base + (elapsed - 1))) as -> by (rewrite u32_u32_add; f_equal; lia). apply ahead_add. unfold RTS_TICK_MAX_ADVANCE, UINT32_MAX in *. lia.
Qed.

Lemma half_range : 0 ≤ elapsed < RTS_TICK_HALF_RANGE.
Proof. unfold RTS_TICK_MAX_ADVANCE, RTS_TICK_HALF_RANGE in *. lia. Qed.

(** Tasks and timers whose time has come. *)
Lemma ticked_expiries s2 s3 woken :
  wakes (since := k_current_tick s) (later elapsed s) s2 →
  expiries (since := now) base now s2 s3 woken → ticked s s3 elapsed.
Proof.
  intros Hw Hx. pose proof (sy_kernel s (td_system s Hok)) as Hk.
  pose proof (sy_kernel _ (system_ok_waking s elapsed (td_system s Hok))) as Hk1.
  assert (∀ i, timer s2 i = timer s i) as Et by (intros i; by apply (wakes_field _ _ Hw (λ s, timer s i))).
  pose proof (wakes_timer_list _ _ Hw) as El. change (timer_list (later elapsed s)) with (timer_list s) in El.
  assert (cq_list s2 = cq_list s) as Eq by by apply (wakes_field _ _ Hw cq_list).
  assert (∀ i, expired now s2 i = expired now s i) as Ee.
  { intros i. unfold expired, armed, expiration. by rewrite Et, El. }
  destruct Hx as [X1 X2 X3 X4 X5 X6 X7 X8]. pose proof (sf_field k_current_tick _ _ _ X7 ltac:(done)) as En.
  rewrite (wakes_field _ _ Hw k_current_tick) in En by done. change (k_current_tick (later elapsed s)) with now in En.
  assert (∀ t, t ≠ TTimerService → task s3 t = task s2 t) as Eu by apply (sf_tasks _ _ _ X7).
  pose proof (service_not_due _ Hk1) as Hns. split.
  - split.
    + by rewrite En.
    + rewrite En. apply (manager_later base now); [apply u32_range| |done|done].
      rewrite ahead_base_now. pose proof half_range. lia.
    + eapply sf_built; [exact X7|]. eapply wakes_built; [exact Hk1|exact Hw|]. apply (td_service s Hok).
    + intros Hne. rewrite (sf_parked _ _ _ X7), X8. rewrite X6, Eq in Hne.
      destruct (parked s2) eqn:Hp; [|done]. cbn. rewrite andb_true_r, existsb_filter. case_bool_decide as Hnil; [|done].
      rewrite Hnil, app_nil_r in Hne. apply (td_awake s Hok) in Hne.
      rewrite (wakes_parked _ _ Hk1 Hw) in Hp. change (parked (later elapsed s)) with (parked s) in Hp. congruence.
  - done.
  - intros t Hd. destruct (wa_woken _ _ Hw t Hd) as [Hr Hwt]. assert (t ≠ TTimerService) as Hne by congruence.
    rewrite (Eu t Hne). split; [|done]. apply (runnable_by_state (since := now) s2); [apply X1|done|by rewrite Eu].
  - intros t Hd Hne. unfold quiet_part. by rewrite (Eu t Hne), (wa_others _ _ Hw t Hd).
  - rewrite (sf_delay _ _ _ X7). apply (wa_delay _ _ Hw).
  - intros o t. rewrite (sf_waiting _ _ _ X7). apply (wa_waiting _ _ Hw).
  - intros i. by rewrite X3, Ee, Et.
  - rewrite X6, Eq, El. f_equal.
    assert (∀ i, notifies now s2 i = notifies now s i) as Hn by (intros i; unfold notifies; by rewrite Ee, Et).
    rewrite (list_filter_iff _ (λ i, notifies now s i = true)) by (intros i; by rewrite Hn).
    apply list_fmap_ext. intros k i _. unfold expiry_work, expiration. by rewrite Et.
Qed.

(** The slice of the current task. *)
Lemma ticked_slice s3 s4 c :
  ticked s s3 elapsed → sliced (since := now) s3 s4 c elapsed → ticked s s4 elapsed.
Proof.
  intros [K1 K2 K3 K4 K5 K6 K7 K8] [L1 L2 L3]. pose proof (kstep_field k_current_tick _ _ _ _ _ _ L2 ltac:(done)) as En.
  assert (∀ (A : Type) (f : rts_tcb → A), (∀ x v, f (x <| slice_remaining := v |>) = f x) → ∀ t, f (task s4 t) = f (task s3 t)) as Ht.
  { intros A f Hf t. destruct (decide (t = c)) as [->|Hne]; [by rewrite L3, Hf|by rewrite (ks_tasks _ _ _ _ _ _ L2)]. }
  assert (timer_list s4 = timer_list s3) as El by (unfold timer_list; by rewrite (ks_lists _ _ _ _ _ _ L2) by auto).
  assert (cq_list s4 = cq_list s3) as Eq by by apply (kstep_field cq_list _ _ _ _ _ _ L2).
  assert (parked s4 = parked s3) as Ep by (unfold parked; by rewrite (Ht _ state)).
  split.
  - destruct K1 as [J1 J2 [J3 J3'] J4]. split.
    + by rewrite En, K2.
    + rewrite En. apply (manager_ok_frame _ s3); [done|apply (ro_lists _ (ks_ready_ok _ _ _ _ _ _ L2))|done|..].
      * by apply (kstep_field k_timers _ _ _ _ _ _ L2).
      * by apply (kstep_field k_callback_queue _ _ _ _ _ _ L2).
      * by apply (kstep_field k_timer_next_free_hint _ _ _ _ _ _ L2).
      * by apply (kstep_field k_timer_allocated_count _ _ _ _ _ _ L2).
    + split; [by rewrite (Ht _ task_has_context)|by rewrite (Ht _ base_priority)].
    + by rewrite Eq, Ep.
  - congruence.
  - intros t Hd. destruct (K3 t Hd) as [Hr Hw]. split; [|by rewrite (Ht _ wait)].
    apply (runnable_by_state (since := now) s3); [apply L1|done|by rewrite (Ht _ state)].
  - intros t Hd Hne. rewrite <- K4 by done. by rewrite (Ht _ quiet_part).
  - rewrite (ks_delay _ _ _ _ _ _ L2). done.
  - intros o t. rewrite (ks_wait _ _ _ _ _ _ L2). apply K6.
  - intros i. rewrite <- K7. f_equal. by apply (kstep_field (λ s, timer s i) _ _ _ _ _ _ L2).
  - by rewrite Eq.
Qed.

Lemma ticked_prepared s4 c n :
  ticked s s4 elapsed → k_current_task s4 = Some c → ticked s (prepared c n s4) elapsed.
Proof.
  intros [[J1 J2 J3 J4] K2 K3 K4 K5 K6 K7 K8] Hc.
  assert (system_ok (prepared c n s4)) as Hsy.
  { apply (system_ok_same s4); [done|apply prepared_same|by destruct (prepared_frame c n s4) as (p&cs&->)|].
    apply (ko_plan _ (kernel_ok_prepared c n s4 (sy_kernel _ J1) Hc)). }
  destruct (prepared_frame c n s4) as (p&cs&E). rewrite E in *. split; try done.
  split; [done| |done|done]. apply (manager_ok_frame _ s4); try done. apply (ro_lists _ (ko_ready _ (sy_kernel _ J1))).
Qed.

(** The first part of a tick, with what it tells the planning. *)
Record tick_stage (s' : kernel) (changed : bool) : Prop := {
  tg_ticked : ticked s s' elapsed;
  tg_current : k_current_task s' = k_current_task s;
  tg_plan : k_switch_plan s' = k_switch_plan s;
  tg_nesting : same_nesting s s';
  tg_ready : changed = false → ∀ p, ready_queue s' p = ready_queue s p
}.

Lemma stage_expiries s2 s3 woken :
  wakes (since := k_current_tick s) (later elapsed s) s2 → expiries (since := now) base now s2 s3 woken →
  tick_stage s3 (existsb (due (later elapsed s)) (delay_list s) || woken).
Proof.
  intros Hw Hx. pose proof (ex_frame _ _ _ _ _ Hx) as Hf. split.
  - by eapply ticked_expiries.
  - rewrite (sf_field k_current_task _ _ _ Hf) by done. by apply (wakes_field _ _ Hw k_current_task).
  - rewrite (sf_field k_switch_plan _ _ _ Hf) by done. by apply (wakes_field _ _ Hw k_switch_plan).
  - eapply same_nesting_trans; [apply (wa_nesting _ _ Hw)|apply Hf].
  - intros [Hd ->]%orb_false_iff p. rewrite (sf_ready _ _ _ Hf). apply (wa_none _ _ Hw). intros t.
    destruct (due (later elapsed s) t) eqn:E; [|done]. apply not_true_iff_false in Hd. destruct Hd.
    apply existsb_exists. exists t. split; [|done]. apply list_elem_of_In. by apply due_delayed in E.
Qed.

Lemma stage_slice s3 changed c :
  tick_stage s3 changed → k_current_task s = Some c →
  wp (rts_policy_tick elapsed) (λ r s4, tick_stage s4 (changed || r)) s3.
Proof.
  intros [K1 K2 K3 K4 K5] Hc. pose proof (td_system _ (tk_ok _ _ _ K1)) as Hsy. rewrite (tk_now _ _ _ K1) in Hsy.
  eapply wp_mono; [apply (rts_policy_tick_spec s3 c elapsed Hsy); congruence|]. intros r s4 [-> Hsl].
  pose proof (sl_step _ _ _ _ Hsl) as Hk. split.
  - by eapply ticked_slice.
  - rewrite <- K2. by apply (kstep_field k_current_task _ _ _ _ _ _ Hk).
  - rewrite <- K3. by apply (kstep_field k_switch_plan _ _ _ _ _ _ Hk).
  - eapply same_nesting_trans; [done|apply Hk].
  - intros [-> Hr]%orb_false_iff p. rewrite (ks_ready _ _ _ _ _ _ Hk). unfold queues_after. rewrite Hr. by apply K5.
Qed.

(** What a tick promises. *)
Definition tick_done (notify : bool) (s' : kernel) : Prop :=
  ticked s s' elapsed ∧ (plan_right s → plan_right s') ∧ same_nesting s s' ∧
  notify = plan_pending (k_switch_plan s') && negb (plan_pending (k_switch_plan s)).

Lemma stage_plan s4 changed :
  tick_stage s4 changed → wp (if changed then tick_replan else ret false) tick_done s4.
Proof.
  intros [K1 K2 K3 K4 K5]. destruct changed.
  - destruct (ko_current s (sy_kernel s (td_system s Hok))) as (c&Hc&_). rewrite Hc in K2.
    destruct (tick_replan_spec s4 c (td_system _ (tk_ok _ _ _ K1)) K2) as (n&Hn&Hrun). eapply wp_run; [exact Hrun|].
    split_and!; [by apply ticked_prepared|intros _; by apply plan_right_prepared|..].
    + destruct (prepared_frame c n s4) as (p&cs&E). rewrite E. done.
    + rewrite prepared_plan, K3. apply plan_prepared_notify. intros Ha.
      destruct (plan_pending (k_switch_plan s)) eqn:Ep; [|done].
      pose proof (plan_not_both s (ko_plan s (sy_kernel s (td_system s Hok))) Ep). congruence.
  - apply wp_ret. split_and!; [done| |done|rewrite K3; by destruct (plan_pending _)].
    intros (c&n&Hc&Hn&Hp). exists c, n. rewrite K2, K3. split_and!; [done| |done].
    rewrite <- Hn. f_equal. apply fp_order_ext. intros p _. by apply K5.
Qed.

Lemma rts_kernel_time_advance_common_spec :
  port_room s → settled s →
  (∀ i, i ∈ timer_list s → elapsed + tm_period (timer s i) ≤ RTS_TICK_HALF_RANGE) →
  wp (rts_kernel_time_advance_common elapsed) tick_done s.
Proof.
  intros Hroom Hset Hfit. pose proof (td_system s Hok) as Hsy. pose proof half_range as Hhr.
  pose proof (ahead_later s elapsed Hhr) as Ea. pose proof (system_ok_waking s elapsed Hsy) as Hsy0.
  pose proof (sy_kernel _ Hsy0) as Hk0. unfold rts_kernel_time_advance_common.
  apply wp_bind, wp_modify. change (s <| k_current_tick := now |>) with (later elapsed s).
  apply wp_noted; [done|]. intros s1 Hn1. pose proof (noted_system _ _ Hn1 Hsy0) as Hsy1.
  assert (klist s1 LDelay = klist s LDelay ∧ delay_list s1 = delay_list s ∧ k_current_tick s1 = now ∧ port_room s1 ∧
    (∀ t, due s1 t = due (later elapsed s) t) ∧ k_current_task s1 = k_current_task s) as (Ekl&Edl&Ent&Hr1&Edu&Ec1).
  { destruct Hn1 as (cs&tr&tok&->&_). done. }
  apply wp_bind, wp_gets, wp_bind. eapply wp_mono; [apply (rts_kernel_wake_loop_spec _ false false s1 Hsy1 Hr1)|].
  { rewrite Ent. apply u32_range. }
  { rewrite Ent. lia. }
  { rewrite Ekl, Edl, delay_klist by apply (ro_lists _ (ko_ready s (sy_kernel s Hsy))). cbn. lia. }
  intros r s2 (->&Hw1). pose proof (noted_wakes _ _ _ Hn1 Hw1) as Hw. cbn [orb]. rewrite Edl.
  pose proof (wakes_system_ok s elapsed s2 Hsy Hhr Hw) as Hsy2.
  pose proof (wakes_field _ _ Hw k_current_tick ltac:(done)) as En2. change (k_current_tick (later elapsed s)) with now in En2.
  apply wp_bind, wp_gets. rewrite En2 in *. apply wp_bind.
  eapply wp_mono; [apply (rts_timer_manager_process_expired_spec (since := now) base now)|].
  - apply u32_range.
  - rewrite ahead_base_now. lia.
  - done.
  - eapply wakes_manager; [exact Hw|]. apply (manager_ok_frame base s); try done; [apply (td_manager s Hok)|].
    apply (ro_lists _ (ko_ready s (sy_kernel s Hsy))).
  - destruct (wa_nesting _ _ Hw) as (Ex&_). unfold port_room. by rewrite Ex.
  - eapply wakes_built; [exact Hk0|exact Hw|apply (td_service s Hok)].
  - by eapply wakes_settled; [exact Hk0|exact Hw|].
  - intros i. rewrite (wakes_timer_list _ _ Hw). intros Hi. unfold period_fits.
    rewrite (wakes_field _ _ Hw (λ s, timer s i)), ahead_base_now by done. specialize (Hfit i Hi).
    change (timer (later elapsed s) i) with (timer s i). lia.
  - intros w s3 Hx. pose proof (stage_expiries s2 s3 w Hw Hx) as Hst. cbv zeta.
    assert (∀ l, existsb (due s1) l = existsb (due (later elapsed s)) l) as ->.
    { clear -Edu. induction l as [|t l IH]; [done|]. cbn. by rewrite Edu, IH. }
    destruct (ko_current s (sy_kernel s Hsy)) as (c&Hc&_). set (changed := _ || w) in *. clearbody changed.
    apply wp_bind. eapply (wp_mono _ (λ r s4, tick_stage s4 (changed || r))).
    { destruct (existsb _ _); [apply wp_ret; by rewrite orb_false_r|by apply (stage_slice s3 changed c)]. }
    intros r s4 Hst4. rewrite <- negb_orb. apply stage_plan in Hst4. by destruct (changed || r).
Qed.

(** C6: A tick interrupt that reports between 1 and 2^31 - 1 elapsed ticks, on a
    kernel in a consistent state whose timer service has left the processor if it sleeps, and
    with no timer period above 2^31 minus the elapsed ticks, passes every check
    of the kernel.  It advances the clock, wakes exactly the tasks whose time
    is up (a wait with timeout ends with TIMEOUT), processes exactly the expired timers
    and queues their callbacks in the order of their deadlines, and leaves
    everything else in the other tasks but effective priorities and time slices.
    The switch plan leads to the first ready task of the highest priority if it
    did so before, the result says whether the port must be told of a new plan,
    and the invariant of kernel, mutexes and timers holds again. *)
Theorem tick_advance_correct :
  port_room s → host_in_isr (k_port s) = true → settled s →
  (∀ i, i ∈ timer_list s → elapsed + tm_period (timer s i) ≤ RTS_TICK_HALF_RANGE) →
  wp (rts_kernel_tick_advance elapsed) (λ notify s',
    ticked s s' elapsed ∧ (plan_right s → plan_right s') ∧ same_nesting s s' ∧
    notify = plan_pending (k_switch_plan s') && negb (plan_pending (k_switch_plan s))) s.
Proof.
  intros Hroom Hisr Hset Hfit. unfold rts_kernel_tick_advance. apply wp_bind.
  eapply wp_run; [apply (andM_run _ _ true true)|].
  - apply (andM_run _ _ true true); [|intros _; unfold rts_port_is_in_isr, gets; by rewrite Hisr].
    unfold gets. by rewrite (ko_live s (sy_kernel s (td_system s Hok))).
  - intros _. unfold ret. rewrite (proj2 (Z.eqb_neq _ _)), (proj2 (Z.leb_le _ _)) by lia. done.
  - apply wp_bind, wp_RTS_ASSERT; [done|]. by apply rts_kernel_time_advance_common_spec.
Qed.
End stages.
End tick.
