(* ===== verification/TimerCalls.v ===== *)
(** * Starting, restarting and stopping a timer

    The three calls of kernel/timer.c that control a timer of the running
    kernel: when they refuse, what they do to the timer, the active queue, the
    callback ring and the service task, and that the invariant of kernel,
    mutexes and timers holds again. *)

From S2P Require Import Prelude Machine Config Types Links IntrusiveList KernelLists Time ReadyQueue.
From S2P Require Import DelayQueue HostPort Ring Diagnostics TaskPool Policy PolicySpec WaitObject Scheduler.
From S2P Require Import SwitchSpec KernelSpec StoreCheck TaskApi TaskApiSpec Blocking Semaphore SemaphoreSpec.
From S2P Require Import Inheritance Mutex MutexSpec SystemSpec MutexCalls MutexRelease CallbackQueue TimerQueue.
From S2P Require Import Timer KernelTime TickSpec TimerManager ServiceWake TimerSteps ServiceRest TimerExpiry TimeSlice.
From S2P Require Import TickAdvance.

Inductive timer_command := Start | Restart | Stop.
#[export] Instance timer_command_eq : EqDecision timer_command.
Proof. solve_decision. Defined.

Section calls.
Context `{ConfigOk} `{!BitmapPolicy}.

Definition timer_control (cmd : timer_command) handle : K rts_status_t :=
  match cmd with
  | Start => rts_timer_start handle
  | Restart => rts_timer_restart handle
  | Stop => rts_timer_stop handle
  end.

(** ** What a command does, as a specification *)

Definition engaged (x : rts_timer) : bool := negb (idle x).
Definition active (x : rts_timer) : bool := bool_decide (tm_state x = RTS_TIMER_ACTIVE).

(** The status with which the timer refuses a command. *)
Definition refuses (cmd : timer_command) (s : kernel) (handle : option Z) : option rts_status_t :=
  match rts_timer_resolve s handle with
  | None => Some RTS_STATUS_INVALID_ARGUMENT
  | Some i =>
      let x := timer s i in
      match cmd with
      | Start => if active x || engaged x then Some RTS_STATUS_INVALID_STATE else None
      | Restart => None
      | Stop => if active x || engaged x then None else Some RTS_STATUS_INVALID_STATE
      end
  end.

(** A pending callback is called off; a running one goes on. *)
Definition commanded (cmd : timer_command) (now : Z) (x : rts_timer) : rts_timer :=
  let starting := bool_decide (cmd = Start) in
  let stopping := bool_decide (cmd = Stop) in
  mk_timer (if stopping then tm_expiration_tick x else u32 (now + tm_period x)) (tm_last_expiration_tick x) (tm_period x)
    (tm_callback x) (tm_argument x) (tm_slot_index x) (if starting then tm_generation x else u32 (tm_generation x + 1))
    (tm_expiration_sequence x) (tm_mode x) (if stopping then RTS_TIMER_STOPPED else RTS_TIMER_ACTIVE)
    (if bool_decide (tm_callback_state x = RTS_TIMER_CALLBACK_PENDING) then RTS_TIMER_CALLBACK_IDLE else tm_callback_state x)
    (tm_slot_state x) (tm_start_count x) (tm_stop_count x) (tm_restart_count x) (tm_expiration_count x) (tm_callback_count x)
    (tm_stale_count x) (tm_missed_period_count x) (tm_overrun_count x) (tm_validation_magic x).

Definition others (i : Z) (l : list Z) : list Z := filter (λ j, j ≠ i) l.

(** The work that is left in the ring: none of timer [i]. *)
Definition work_left (i : Z) (s : kernel) : list rts_timer_callback_work := filter (keeps i) (cq_list s).

(** Whether the service is sent to rest. *)
Definition sends_to_rest (cmd : timer_command) (s : kernel) (i : Z) : bool :=
  negb (bool_decide (cmd = Start)) && bool_decide (work_left i s = []) && called_off s.

Record controlled (cmd : timer_command) (c : task_ptr) (i : Z) (s s' : kernel) : Prop := {
  ct_ok : timed_ok s';
  ct_timer : timer_core (timer s' i) = timer_core (commanded cmd (k_current_tick s) (timer s i));
  ct_others j : j ≠ i → timer s' j = timer s j;
  ct_queue : timer_list s' = if bool_decide (cmd = Stop) then others i (timer_list s)
             else insert_by (expires_in (u32 (k_current_tick s + 1)) s') i (others i (timer_list s));
  ct_ring : cq_list s' = work_left i s;
  ct_frame : service_off (sends_to_rest cmd s i) c s s'
}.

(** ** Steps that may send the service to rest *)

(** [s1] is [s] with timer [i] being [x], statistics apart, with the active
    queue [L], the work [ws], and perhaps the service at rest. *)
Record manager_step (off : bool) (c : task_ptr) (s s1 : kernel) (i : Z) (x : rts_timer) (L : list Z)
    (ws : list rts_timer_callback_work) : Prop := {
  ms_lists : lists_ok (k_heap s1);
  ms_list : timer_list s1 = L;
  ms_ring_ok : cq_ok s1;
  ms_ring : cq_list s1 = ws;
  ms_timer : timer_core (timer s1 i) = timer_core x;
  ms_others j : j ≠ i → timer s1 j = timer s j;
  ms_frame : service_off off c s s1
}.

Lemma ms_of_step c s s1 i x L ws : timer_step s s1 i x L ws → manager_step false c s s1 i x L ws.
Proof. intros Ht. pose proof (so_step c _ _ _ _ _ _ Ht). destruct Ht as [[] ? ? ? ? ? ? ?]. by split. Qed.

Lemma ms_step off c s s1 s2 i x y L L' ws ws' :
  manager_step off c s s1 i x L ws → timer_step s1 s2 i y L' ws' → manager_step off c s s2 i y L' ws'.
Proof.
  intros [A1 A2 A3 A4 A5 A6 A7] Ht. pose proof (so_step c _ _ _ _ _ _ Ht) as Hf. destruct Ht as [[] ? ? ? ? Ho ? ?]. split; try done.
  - intros j Hj. rewrite Ho by done. auto.
  - rewrite <- (orb_false_r off). by apply (so_trans _ _ _ _ s1).
Qed.

Lemma ms_rest off c s s1 s2 i x L ws :
  timer_step s s1 i x L ws → service_off off c s1 s2 → same_timers s1 s2 → manager_step off c s s2 i x L ws.
Proof.
  intros Ht Ho (Hl&El&Et&Eq). pose proof (so_step c _ _ _ _ _ _ Ht) as Hf. destruct Ht. split; try done.
  - congruence.
  - by apply (cq_ok_frame s1).
  - unfold cq_list in *. by rewrite Eq.
  - unfold timer in *. by rewrite Et.
  - intros j Hj. unfold timer in *. rewrite Et. auto.
  - change off with (false || off). by apply (so_trans _ _ _ _ s1).
Qed.

(** The queue without timer [i] is in order. *)
Lemma timers_ok_others base off c s s1 i x ws :
  timers_ok base s → manager_step off c s s1 i x (others i (timer_list s)) ws → timers_ok base s1.
Proof.
  intros [T1 T2 T3 T4] Hm.
  assert (∀ j, j ≠ i → expiration s1 j = expiration s j) as He.
  { intros j Hj. unfold expiration. by rewrite (ms_others _ _ _ _ _ _ _ _ Hm). }
  split; rewrite ?(ms_list _ _ _ _ _ _ _ _ Hm).
  - apply Hm.
  - intros j [Hj Hin]%list_elem_of_filter. rewrite He by done. auto.
  - intros j [Hj Hin]%list_elem_of_filter. unfold expires_in. rewrite He by done. by apply T3.
  - unfold expires_in in *. clear -T4 He. unfold others. induction T4 as [|j l Hs IH Hf]; [constructor|].
    rewrite filter_cons. case_decide as Hj; [|done]. constructor; [done|]. rewrite Forall_forall in *.
    intros k [Hk Hin]%list_elem_of_filter. rewrite !He by done. by apply Hf.
Qed.

(** ** The invariant after a command *)

Lemma slot_commanded cmd now i x a ws :
  allocated_ok i x a ws → allocated_ok i (commanded cmd now x) (negb (bool_decide (cmd = Stop))) [].
Proof.
  intros [A1 A2 A3 A4 A5 A6 A7]. split; try done; [by destruct cmd|]. cbn [commanded tm_callback_state].
  rewrite bool_decide_false; [done|]. case_bool_decide; done.
Qed.

Lemma works_left s i j : filter (λ w, work_timer w = Some j) (work_left i s) = if decide (j = i) then [] else works s j.
Proof.
  unfold work_left, works, keeps. induction (cq_list s) as [|w l IH]; [by destruct (decide _)|].
  rewrite (filter_cons _ w l), (filter_cons (λ w, work_timer w = Some j) w l).
  destruct (decide (work_timer w ≠ Some i)) as [Hk|Hk]; [rewrite filter_cons|]; repeat case_decide; naive_solver congruence.
Qed.

Lemma work_left_all s i : works s i = [] → work_left i s = cq_list s.
Proof.
  intros E. apply filter_all. intros w Hw Ei. assert (w ∈ works s i) as Hx by (by apply list_elem_of_filter).
  rewrite E in Hx. by apply elem_of_nil in Hx.
Qed.

Lemma manager_commanded base off c cmd now s s' i L :
  manager_ok base s → i ∈ all_timers → allocated s i → timers_ok base s' →
  manager_step off c s s' i (commanded cmd now (timer s i)) L (work_left i s) →
  (∀ j, j ∈ L ↔ j = i ∧ cmd ≠ Stop ∨ j ∈ others i (timer_list s)) → manager_ok base s'.
Proof.
  intros Hm Hi Ha Hq Hst HL. pose proof (ms_frame _ _ _ _ _ _ _ _ Hst) as Hf.
  assert (∀ j, works s' j = if decide (j = i) then [] else works s j) as Hws.
  { intros j. unfold works at 1. rewrite (ms_ring _ _ _ _ _ _ _ _ Hst). apply works_left. }
  apply (manager_ok_one base s s' i Hm); [done|done|apply Hst|by apply (so_field k_timer_next_free_hint _ _ _ _ Hf)
    |by apply (so_field k_timer_allocated_count _ _ _ _ Hf)|..].
  - intros j Hj. rewrite Hws, decide_False, (ms_others _ _ _ _ _ _ _ _ Hst), (ms_list _ _ _ _ _ _ _ _ Hst), HL by done.
    split_and!; [done| |done]. unfold others. rewrite list_elem_of_filter. naive_solver.
  - pose proof (f_equal tm_slot_state (ms_timer _ _ _ _ _ _ _ _ Hst)) as E. exact E.
  - rewrite Hws, decide_True by done. eapply slot_core; [symmetry; apply (ms_timer _ _ _ _ _ _ _ _ Hst)|].
    pose proof (mo_slot _ _ Hm i Hi) as Hs. unfold slot_ok in *.
    change (tm_slot_state (commanded _ _ _)) with (tm_slot_state (timer s i)). rewrite Ha in *.
    replace (armed s' i) with (negb (bool_decide (cmd = Stop))); [by eapply slot_commanded|].
    unfold armed. rewrite (ms_list _ _ _ _ _ _ _ _ Hst). symmetry. destruct (decide (cmd = Stop)) as [E|E].
    + rewrite (bool_decide_true (cmd = Stop)), bool_decide_false; [done| |done].
      rewrite HL. unfold others. rewrite list_elem_of_filter. naive_solver.
    + rewrite (bool_decide_false (cmd = Stop)), bool_decide_true; [done| |done]. apply HL. by left.
  - intros w. rewrite (ms_ring _ _ _ _ _ _ _ _ Hst). intros [_ Hw]%list_elem_of_filter. by left.
Qed.

Lemma timed_commanded c cmd s s' i L :
  timed_ok s → i ∈ all_timers → allocated s i → (cmd = Start → works s i = []) → system_ok s' →
  timers_ok (u32 (k_current_tick s + 1)) s' →
  manager_step (sends_to_rest cmd s i) c s s' i (commanded cmd (k_current_tick s) (timer s i)) L (work_left i s) →
  L = (if bool_decide (cmd = Stop) then others i (timer_list s)
       else insert_by (expires_in (u32 (k_current_tick s + 1)) s') i (others i (timer_list s))) →
  controlled cmd c i s s'.
Proof.
  intros [D1 D2 D3 D4] Hi Ha Hw Hsy Hq Hst HL. pose proof (ms_frame _ _ _ _ _ _ _ _ Hst) as Hf.
  split; [|apply Hst|apply Hst|by rewrite (ms_list _ _ _ _ _ _ _ _ Hst)|apply Hst|done].
  assert (k_current_tick s' = k_current_tick s) as Et by by apply (so_field k_current_tick _ _ _ _ Hf).
  split; [done| |by eapply so_built|].
  - rewrite Et. eapply (manager_commanded _ _ _ _ _ _ _ _ _ D2); [done..|exact Hst|]. intros j. rewrite HL.
    case_bool_decide; [naive_solver|]. rewrite insert_by_elem. naive_solver.
  - rewrite (ms_ring _ _ _ _ _ _ _ _ Hst), (so_parked _ _ _ _ Hf). intros Hne. apply orb_false_iff. split.
    + apply D4. intros E. destruct Hne. unfold work_left. by rewrite E.
    + unfold sends_to_rest. by rewrite (bool_decide_false (work_left i s = [])), andb_false_r.
Qed.

(** ** The parts of the calls *)

Lemma ms_ext off c s s1 i x y L ws :
  manager_step off c s s1 i x L ws → timer_core x = timer_core y → manager_step off c s s1 i y L ws.
Proof. intros [] E. split; try done. congruence. Qed.

(** A further step that starts from the store a call has reached. *)
Lemma ms_more off c s s1 i x L ws :
  manager_step off c s s1 i x L ws → timer_step s1 s1 i x L ws.
Proof. intros []. by split. Qed.

(** Taking an armed timer from the queue. *)
Lemma wp_disarm s i (Q : unit → kernel → Prop) :
  timers_ok (u32 (k_current_tick s + 1)) s → cq_ok s → (active (timer s i) = true ↔ i ∈ timer_list s) →
  (∀ s1, timer_step s s1 i (timer s i) (others i (timer_list s)) (cq_list s) → Q tt s1) →
  wp (when (active (timer s i)) (rts_timer_queue_remove (Some i))) Q s.
Proof.
  intros Hq Hc Ha HQ. pose proof (to_lists _ _ Hq) as Hl. pose proof (timer_step_refl s i Hl Hc) as H0'. unfold others in HQ.
  destruct (active (timer s i)); cbn [when].
  - pose proof (timer_list_nodup s Hl) as Hnd. destruct (list_elem_of_split _ _ (proj1 Ha eq_refl)) as (l1&l2&E).
    eapply (wp_ts_remove _ _ _ _ _ _ H0' l1 l2); [done|]. intros s1 H1'. apply HQ. rewrite E, filter_ne_mid by by rewrite <- E. done.
  - apply wp_ret, HQ. rewrite filter_all; [done|]. intros j Hj ->. apply Ha in Hj. done.
Qed.

(** Calling off a pending callback. *)
Definition uncalled (x : rts_timer) : rts_timer :=
  x <| tm_callback_state := if bool_decide (tm_callback_state x = RTS_TIMER_CALLBACK_PENDING)
                            then RTS_TIMER_CALLBACK_IDLE else tm_callback_state x |>.

Lemma wp_invalidate {since} c s s1 i x L (Q : Z → kernel → Prop) :
  system_ok_at since s → k_current_task s = Some c → state (task s c) = RTS_TASK_STATE_RUNNING →
  timer_step s s1 i x L (cq_list s) →
  (if bool_decide (tm_callback_state x = RTS_TIMER_CALLBACK_PENDING) then ∃ w, works s i = [w] else works s i = []) →
  (∀ r s2, system_ok_at since s2 →
     manager_step (bool_decide (work_left i s = []) && called_off s) c s s2 i (uncalled x) L (work_left i s) → Q r s2) →
  wp (rts_timer_invalidate_pending i) Q s1.
Proof.
  intros Hsy Hc Hrun Ht Hw HQ. unfold rts_timer_invalidate_pending.
  apply wp_bind. eapply wp_mono; [apply rts_timer_callback_queue_remove_timer_spec, Ht|]. cbv beta.
  rewrite (ts_ring _ _ _ _ _ _ Ht). fold (work_left i s). intros n s2 [Hst Hn]. unfold work_left in Hn. rewrite filter_complement in Hn.
  fold (works s i) in Hn. apply (ts_cq _ _ _ _ _ _ Ht) in Hst as H2'. clear Hst.
  apply wp_bind, wp_gets. rewrite (ts_field tm_callback_state _ _ _ _ _ _ H2') by done.
  apply wp_bind. apply (wp_mono _ (λ _ s3, timer_step s s3 i (uncalled x) L (work_left i s))).
  { unfold uncalled. destruct (bool_decide _) eqn:Ep.
    - destruct Hw as [w Ew]. rewrite Ew in Hn. cbn in Hn. apply wp_bind, wp_RTS_FATAL_UNLESS; [by subst n|].
      eapply wp_ts_timer; [exact H2'|done|]. done.
    - rewrite Hw in Hn. cbn in Hn. apply wp_RTS_FATAL_UNLESS; [by subst n|]. eapply ts_ext; [exact H2'|by destruct x]. }
  intros _ s3 H3. clear s2 H2'. apply wp_bind, wp_gets.
  assert ((cq_count (k_callback_queue s3) =? 0) = bool_decide (work_left i s = [])) as ->.
  { pose proof (cq_length s3 (ts_ring_ok _ _ _ _ _ _ H3)) as Hlen. rewrite (ts_ring _ _ _ _ _ _ H3) in Hlen.
    destruct (work_left i s); cbn in Hlen.
    - rewrite bool_decide_true by done. apply Z.eqb_eq. lia.
    - rewrite bool_decide_false by done. apply Z.eqb_neq. lia. }
  apply wp_bind. apply (wp_mono _ (λ _ s4, system_ok_at since s4 ∧
    manager_step (bool_decide (work_left i s = []) && called_off s) c s s4 i (uncalled x) L (work_left i s))).
  { pose proof (λ A f, @ts_kernel_field _ A f _ _ _ _ _ _ H3) as Hf.
    assert (∀ u, task s3 u = task s u) as Et by (intros u; by apply (Hf _ (λ s, task s u))).
    pose proof (system_ok_timer_step _ _ _ _ _ _ Hsy H3) as Hsy3.
    case_bool_decide; cbn [when andb]; [|apply wp_ret; split; [done|by apply ms_of_step]].
    eapply wp_mono; [apply (rts_scheduler_timer_service_cancel_wake_spec (since := since) s3 c);
      [done|by rewrite (Hf _ k_current_task)|by rewrite Et]|].
    intros _ s4 (Hsy4&Ho&Hst). split; [done|]. unfold called_off in *. rewrite Et in Ho. by eapply ms_rest. }
  intros _ s4 [Hsy4 H4]. pose proof (ms_more _ _ _ _ _ _ _ _ H4) as H5.
  apply wp_bind. eapply wp_ts_diag_add; [exact H5|done|]. clear H5. intros s5 H5.
  apply wp_bind. eapply wp_ts_counter_add; [exact H5|]. clear s5 H5. intros s5 H5.
  apply wp_ret, HQ; [by eapply system_ok_timer_step|by eapply ms_step].
Qed.

(** A deadline one period ahead lies in the window of the queue. *)
Lemma next_deadline_fits now period :
  0 < period ≤ RTS_DELAY_MAX → ahead (u32 (now + 1)) (u32 (now + period)) < RTS_TICK_HALF_RANGE.
Proof.
  intros Hp. replace (u32 (now + period)) with (u32 (u32 (now + 1) + (period - 1))).
  - unfold RTS_DELAY_MAX, RTS_TICK_HALF_RANGE in *. rewrite ahead_add; [lia|]. unfold UINT32_MAX. lia.
  - rewrite u32_u32_add. f_equal. lia.
Qed.

(** The second half of rts_timer_arm, once the timer is out of the queue. *)
Lemma wp_arm {A} (restart : bool) s c i s2 x (k : K A) (Q : A → kernel → Prop) :
  let cmd := if restart then Restart else Start in
  timed_ok s → port_room s → i ∈ all_timers → allocated s i → (cmd = Start → works s i = []) → system_ok s2 →
  manager_step (sends_to_rest cmd s i) c s s2 i x (others i (timer_list s)) (work_left i s) →
  timer_core (x <| tm_expiration_tick := u32 (k_current_tick s + tm_period x) |> <| tm_state := RTS_TIMER_ACTIVE |>) =
    timer_core (commanded cmd (k_current_tick s) (timer s i)) →
  (∀ s3, controlled cmd c i s s3 → wp k Q s3) →
  wp (let* now := gets k_current_tick in
      modify (upd_timer i (λ x, x <| tm_expiration_tick := u32 (now + tm_period x) |>)) ;;;
      modify (upd_timer i (λ x, x <| tm_state := RTS_TIMER_ACTIVE |>)) ;;;
      rts_timer_queue_insert (Some i) ;;;
      (if restart then RTS_DIAG_TIMER_INC i tm_restart_count ;;; RTS_DIAG_COUNTER_INC timer_restarts
       else RTS_DIAG_TIMER_INC i tm_start_count ;;; RTS_DIAG_COUNTER_INC timer_starts) ;;;
      let* x := gets (λ s, timer s i) in
      RTS_TRACE (if restart then RTS_TRACE_TIMER_RESTARTED else RTS_TRACE_TIMER_STARTED)
        (u32 (tm_slot_index x)) (tm_expiration_tick x) ;;; k) Q s2.
Proof.
  intros cmd Hok Hroom Hi Ha Hw Hsy2 H2' Ex HQ. pose proof (ms_frame _ _ _ _ _ _ _ _ H2') as Hf.
  assert (k_current_tick s2 = k_current_tick s) as Et by by apply (so_field k_current_tick _ _ _ _ Hf).
  assert (port_room s2) as Hroom2 by (destruct (so_nesting _ _ _ _ Hf) as (E&_); unfold port_room; by rewrite E).
  pose proof (td_manager s Hok) as Hm. pose proof (ms_more _ _ _ _ _ _ _ _ H2') as H3.
  apply wp_bind, wp_gets. rewrite Et.
  apply wp_bind. eapply wp_ts_timer; [exact H3|done|]. clear H3. intros s3 H3.
  apply wp_bind. eapply wp_ts_timer; [exact H3|done|]. clear s3 H3. intros s3 H3.
  apply (ts_ext _ _ _ _ _ _ _ H3) in Ex as H4. clear H3. set (base := u32 (k_current_tick s + 1)).
  apply wp_bind. eapply (wp_ts_insert _ _ _ _ _ _ H4 base).
  { eapply (timers_ok_others base); [apply Hm|]. by eapply ms_step. }
  { done. }
  { unfold others. rewrite list_elem_of_filter. naive_solver. }
  { unfold commanded, cmd. cbn [tm_expiration_tick]. destruct restart; apply u32_range. }
  { pose proof (mo_slot _ _ Hm i Hi) as Hs. unfold slot_ok in Hs. rewrite Ha in Hs.
    pose proof (next_deadline_fits (k_current_tick s) _ (al_period _ _ _ _ Hs)).
    unfold commanded, cmd. cbn [tm_expiration_tick]. by destruct restart. }
  clear s3 H4. intros s3 H3 Hq3. set (L := insert_by _ i _) in H3.
  apply wp_bind. apply (wp_mono _ (λ _ s4, timer_step s2 s4 i (commanded cmd (k_current_tick s) (timer s i)) L (work_left i s))).
  { destruct restart; (apply wp_bind; eapply wp_ts_diag_inc; [exact H3|done|]; intros s4 H4; eapply wp_ts_counter; [exact H4|]; done). }
  intros _ s4 H4. apply wp_bind, wp_gets, wp_bind. eapply wp_ts_trace; [exact H4|done|]. clear s4 H4. intros s4 H4. apply HQ.
  pose proof (timers_ok_same base _ _ _ _ _ _ _ _ _ H3 H4 eq_refl Hq3) as Hq4.
  assert (system_ok s4) as Hsy4.
  { rewrite (ts_kernel_field k_current_tick _ _ _ _ _ _ H4) by done. by eapply system_ok_timer_step. }
  eapply timed_commanded; [done..|by eapply ms_step|].
  assert (bool_decide (cmd = Stop) = false) as -> by (unfold cmd; by destruct restart). apply insert_by_ext. intros j. unfold expires_in, expiration. f_equal.
  destruct (decide (j = i)) as [->|Hj].
  - by rewrite (ts_field tm_expiration_tick _ _ _ _ _ _ H3), (ts_field tm_expiration_tick _ _ _ _ _ _ H4).
  - by rewrite (ts_others _ _ _ _ _ _ H3), (ts_others _ _ _ _ _ _ H4).
Qed.

(** ** The calls *)

Lemma resolve_inv s handle i :
  rts_timer_resolve s handle = Some i → handle = Some i ∧ i ∈ all_timers ∧ allocated s i.
Proof.
  unfold rts_timer_resolve. destruct handle as [h|]; [|done]. destruct (existsb _ _) eqn:E; [|done].
  case_bool_decide as Ha; [|done]. intros [= ->]. split_and!; [done| |done].
  apply existsb_exists in E as (j&Hj&->%Z.eqb_eq). by apply list_elem_of_In.
Qed.

(** What the members of an allocated timer say of its places. *)
Lemma allocated_facts base s i :
  manager_ok base s → i ∈ all_timers → allocated s i →
  (active (timer s i) = true ↔ i ∈ timer_list s) ∧
  bool_decide (tm_state (timer s i) = RTS_TIMER_STOPPED) = negb (active (timer s i)) ∧
  (if bool_decide (tm_callback_state (timer s i) = RTS_TIMER_CALLBACK_PENDING)
   then ∃ w, works s i = [w] else works s i = []).
Proof.
  intros Hm Hi Ha. pose proof (mo_slot _ _ Hm i Hi) as Hs. unfold slot_ok in Hs. rewrite Ha in Hs.
  destruct Hs as [_ _ _ _ A5 A6 _]. unfold active. rewrite A5. unfold armed. split_and!.
  - destruct (bool_decide (i ∈ _)) eqn:E; [apply bool_decide_eq_true in E|apply bool_decide_eq_false in E]; by rewrite bool_decide_eq_true.
  - by destruct (bool_decide (i ∈ _)).
  - destruct (bool_decide _); [naive_solver|done].
Qed.

Lemma timed_ok_port f s : timed_ok s → timed_ok (upd_port f s).
Proof.
  intros [D1 D2 D3 D4]. split; [by apply system_ok_port| |done|done].
  apply (manager_ok_frame _ s); try done. apply (to_lists _ _ (mo_queue _ _ D2)).
Qed.

(** What a call promises. *)
Definition control_post (cmd : timer_command) (c : task_ptr) (handle : option Z) (s : kernel) (st : rts_status_t) (s' : kernel) : Prop :=
  same_nesting s s' ∧
  match refuses cmd s handle with
  | Some refusal => st = refusal ∧ timed_ok s' ∧ service_off false c s s' ∧ ∃ f, s' = upd_port f s
  | None => st = RTS_STATUS_OK ∧ ∃ i, handle = Some i ∧ controlled cmd c i s s'
  end.

Lemma controlled_port cmd c i s s1 b :
  controlled cmd c i (upd_port port_entered s) s1 → same_nesting s (upd_port (port_exited b) s1) →
  controlled cmd c i s (upd_port (port_exited b) s1).
Proof.
  intros [A1 A2 A3 A4 A5 [B1 B2 B3 B4 B5 B6 B7 B8]] Hn. split; [by apply timed_ok_port|done..|]. by split.
Qed.

Section one_call.
Context (s : kernel) (c : task_ptr) (handle : option Z).
Context (Hok : timed_ok s) (Hcaller : caller_ok s).
Context (Hc : k_current_task s = Some c) (Hrun : state (task s c) = RTS_TASK_STATE_RUNNING).
#[local] Abbreviation s0 := (upd_port port_entered s).
#[local] Abbreviation token := (critical_token (k_port s)).

Lemma wp_refused cmd st :
  refuses cmd s handle = Some st → wp (rts_kernel_lock_exit token ;;; ret st) (control_post cmd c handle s) s0.
Proof.
  intros E. destruct (critical_exit_balanced s s0) as [Hx Hn]; [destruct (co_room s Hcaller); lia|apply same_nesting_refl|].
  apply wp_bind. eapply wp_run; [exact Hx|]. apply wp_ret. split; [done|]. rewrite E.
  split_and!; [done|by apply timed_ok_port, timed_ok_port|by split|by eexists (λ p, _)].
Qed.

Lemma wp_controlled cmd i s1 :
  refuses cmd s handle = None → handle = Some i → controlled cmd c i s0 s1 →
  wp (RTS_FATAL_UNLESS rts_timer_manager_validate ;;; rts_kernel_lock_exit token ;;; ret RTS_STATUS_OK)
    (control_post cmd c handle s) s1.
Proof.
  intros E Eh Hct. apply wp_bind, wp_RTS_FATAL_UNLESS.
  { eapply rts_timer_manager_validate_run, td_manager, Hct. }
  destruct (critical_exit_balanced s s1) as [Hx Hn]; [destruct (co_room s Hcaller); lia|apply Hct|].
  apply wp_bind. eapply wp_run; [exact Hx|]. apply wp_ret. split; [done|]. rewrite E. split; [done|].
  exists i. split; [done|by apply controlled_port].
Qed.

(** The common beginning of the calls, up to the resolved timer. *)
Lemma wp_control cmd (body : Z → Z → K rts_status_t) :
  (∀ i, handle = Some i → i ∈ all_timers → allocated s i → rts_timer_resolve s handle = Some i →
     wp (body token i) (control_post cmd c handle s) s0) →
  wp (let* in_isr := rts_port_is_in_isr in
      if in_isr then ret RTS_STATUS_INVALID_CONTEXT else
      let* allowed := gets rts_timer_lifecycle_allows_control in
      if negb allowed then ret RTS_STATUS_INVALID_STATE else
      let* token := rts_kernel_lock_enter in
      let* resolved := gets (λ s, rts_timer_resolve s handle) in
      let* allowed := gets rts_timer_lifecycle_allows_control in
      match resolved with
      | None => rts_kernel_lock_exit token ;;; ret RTS_STATUS_INVALID_ARGUMENT
      | Some i => if negb allowed then rts_kernel_lock_exit token ;;; ret RTS_STATUS_INVALID_STATE else body token i
      end) (control_post cmd c handle s) s.
Proof.
  intros Hbody. pose proof (td_system s Hok) as Hsy. destruct Hcaller as [Hisr Hroom _].
  unfold rts_port_is_in_isr. apply wp_bind, wp_gets. rewrite Hisr. apply wp_bind, wp_gets.
  assert (rts_timer_lifecycle_allows_control s = true) as Hl.
  { unfold rts_timer_lifecycle_allows_control. by rewrite (ko_live s (sy_kernel s Hsy)). }
  rewrite Hl. cbn [negb]. apply wp_bind. eapply wp_run; [apply rts_port_critical_enter_run; lia|].
  apply wp_bind, wp_gets, wp_bind, wp_gets. change (rts_timer_lifecycle_allows_control s0) with (rts_timer_lifecycle_allows_control s).
  rewrite Hl. cbn [negb]. change (rts_timer_resolve s0 handle) with (rts_timer_resolve s handle).
  destruct (rts_timer_resolve s handle) as [i|] eqn:E.
  - destruct (resolve_inv _ _ _ E) as (?&?&?). by apply Hbody.
  - apply wp_refused. unfold refuses. by rewrite E.
Qed.

Lemma s0_facts : timed_ok s0 ∧ port_room s0.
Proof. split; [by apply timed_ok_port|]. destruct Hcaller as [_ Hr _]. unfold port_room. cbn. lia. Qed.

Lemma rts_timer_arm_spec restart :
  wp (rts_timer_arm handle restart) (control_post (if restart then Restart else Start) c handle s) s.
Proof.
  destruct s0_facts as [Hok0 Hroom0]. pose proof (td_manager s0 Hok0) as Hm.
  unfold rts_timer_arm. cbv zeta. apply (wp_control _ (λ token i,
    let* busy := gets (λ s, negb (bool_decide (tm_state (timer s i) = RTS_TIMER_STOPPED)) ||
                            negb (bool_decide (tm_callback_state (timer s i) = RTS_TIMER_CALLBACK_IDLE))) in
    if negb restart && busy then rts_kernel_lock_exit token ;;; ret RTS_STATUS_INVALID_STATE else _)).
  intros i Eh Hi Ha E. cbv beta. destruct (allocated_facts _ s0 i Hm Hi Ha) as (Hact&Hst&Hw).
  apply wp_bind, wp_gets. rewrite Hst, negb_involutive. fold (idle (timer s0 i)). fold (engaged (timer s0 i)).
  assert (∀ st, refuses (if restart then Restart else Start) s handle = st → st = None → ∀ s3,
    controlled (if restart then Restart else Start) c i s0 s3 →
    wp (RTS_FATAL_UNLESS rts_timer_manager_validate ;;; rts_kernel_lock_exit token ;;; ret RTS_STATUS_OK)
      (control_post (if restart then Restart else Start) c handle s) s3) as Hend.
  { intros st E1 -> s3. by apply wp_controlled. }
  pose proof (eq_refl (refuses (if restart then Restart else Start) s handle)) as Er. unfold refuses in Er at 2. rewrite E in Er.
  destruct restart; cbn [negb andb].
  - specialize (Hend _ Er eq_refl). cbn [when]. apply wp_bind, wp_bind, wp_gets. fold (active (timer s0 i)).
    apply wp_bind, wp_disarm; [apply Hm|apply Hm|done|]. intros s1 H1'.
    apply wp_bind. eapply wp_ts_timer; [exact H1'|done|]. clear s1 H1'. intros s1 H1'.
    apply wp_bind. eapply (wp_invalidate c s0); [apply (td_system _ Hok0)|done|done|exact H1'|done|]. intros r s2 Hsy2 H2'.
    apply wp_ret. pose proof (ms_frame _ _ _ _ _ _ _ _ H2') as Hf.
    eapply (wp_arm true s0 c i s2); [done..| |exact H2'| |exact Hend].
    + by rewrite (so_field k_current_tick _ _ _ _ Hf).
    + done.
  - change (timer s0 i) with (timer s i). destruct (active (timer s i) || engaged (timer s i)) eqn:Eb; [by apply wp_refused|].
    specialize (Hend _ Er eq_refl). apply orb_false_iff in Eb as [Eact Eeng]. cbn [when]. apply wp_bind, wp_ret.
    assert (works s0 i = []) as Ew.
    { rewrite bool_decide_false in Hw; [done|]. apply negb_false_iff, bool_decide_eq_true in Eeng.
      change (timer s0 i) with (timer s i). congruence. }
    eapply (wp_arm false s0 c i s0 (timer s0 i)); [done..|apply (td_system _ Hok0)| | |exact Hend].
    + unfold sends_to_rest, others. cbn [bool_decide andb]. rewrite work_left_all by done. rewrite filter_all.
      * apply ms_of_step, timer_step_refl; apply Hm.
      * intros j Hj ->. apply Hact in Hj. change (timer s0 i) with (timer s i) in Hj. congruence.
    + apply negb_false_iff, bool_decide_eq_true in Eeng. change (timer s0 i) with (timer s i). unfold commanded.
      destruct (timer s i). cbn in Eeng. by subst.
Qed.
Lemma rts_timer_stop_spec : wp (rts_timer_stop handle) (control_post Stop c handle s) s.
Proof.
  destruct s0_facts as [Hok0 Hroom0]. pose proof (td_manager s0 Hok0) as Hm. pose proof (mo_queue _ _ Hm) as Hq.
  unfold rts_timer_stop. cbv zeta. apply (wp_control Stop (λ token i,
    let* active := gets (λ s, bool_decide (tm_state (timer s i) = RTS_TIMER_ACTIVE)) in
    let* engaged := gets (λ s, negb (bool_decide (tm_callback_state (timer s i) = RTS_TIMER_CALLBACK_IDLE))) in
    if negb (active || engaged) then rts_kernel_lock_exit token ;;; ret RTS_STATUS_INVALID_STATE else _)).
  intros i Eh Hi Ha E. cbv beta. destruct (allocated_facts _ s0 i Hm Hi Ha) as (Hact&_&Hw).
  apply wp_bind, wp_gets, wp_bind, wp_gets. fold (active (timer s0 i)) (idle (timer s0 i)). fold (engaged (timer s0 i)).
  assert (refuses Stop s handle = if active (timer s0 i) || engaged (timer s0 i) then None else Some RTS_STATUS_INVALID_STATE) as Er
    by (unfold refuses; by rewrite E).
  destruct (active (timer s0 i) || engaged (timer s0 i)); cbn [negb]; [|by apply wp_refused].
  apply wp_bind, wp_disarm; [done|apply Hm|done|]. intros s1 H1'.
  apply wp_bind. eapply wp_ts_timer; [exact H1'|done|]. clear s1 H1'. intros s1 H1'.
  apply wp_bind. eapply wp_ts_timer; [exact H1'|done|]. clear s1 H1'. intros s1 H1'.
  apply wp_bind. eapply (wp_invalidate c s0); [apply (td_system _ Hok0)|done|done|exact H1'|done|]. intros r s2 Hsy2 H2'.
  pose proof (ms_frame _ _ _ _ _ _ _ _ H2') as Hf. pose proof (ms_more _ _ _ _ _ _ _ _ H2') as H3.
  assert (port_room s2) as Hroom2 by (destruct (so_nesting _ _ _ _ Hf) as (En&_); unfold port_room; by rewrite En).
  apply wp_bind. eapply wp_ts_diag_inc; [exact H3|done|]. clear H3. intros s3 H3.
  apply wp_bind. eapply wp_ts_counter; [exact H3|]. clear s3 H3. intros s3 H3.
  apply wp_bind, wp_gets, wp_bind. eapply wp_ts_trace; [exact H3|done|]. clear s3 H3. intros s3 H3.
  pose proof (ms_step _ _ _ _ _ _ _ _ _ _ _ _ H2' H3) as H4. apply (wp_controlled Stop i); [done|done|].
  eapply timed_commanded; [done..| | |eapply ms_ext; [exact H4|done]|done].
  - rewrite (so_field k_current_tick _ _ _ _ (ms_frame _ _ _ _ _ _ _ _ H4)) by done. by eapply system_ok_timer_step.
  - by eapply timers_ok_others.
Qed.
End one_call.

(** A command by the running task, on every branch. *)
Lemma timer_control_spec cmd s c handle :
  timed_ok s → caller_ok s → k_current_task s = Some c → state (task s c) = RTS_TASK_STATE_RUNNING →
  wp (timer_control cmd handle) (control_post cmd c handle s) s.
Proof.
  intros Hok Hcaller Hc Hrun. destruct cmd; cbn [timer_control]; [apply (rts_timer_arm_spec s c handle Hok Hcaller Hc Hrun false)
    |apply (rts_timer_arm_spec s c handle Hok Hcaller Hc Hrun true)|by apply rts_timer_stop_spec].
Qed.

(** A command never ends a callback that runs. *)
Lemma controlled_running cmd c i s s' j :
  controlled cmd c i s s' → tm_callback_state (timer s j) = RTS_TIMER_CALLBACK_RUNNING →
  tm_callback_state (timer s' j) = RTS_TIMER_CALLBACK_RUNNING.
Proof.
  intros Hct Hr. destruct (decide (j = i)) as [->|Hj]; [|by rewrite (ct_others _ _ _ _ _ Hct)].
  pose proof (f_equal tm_callback_state (ct_timer _ _ _ _ _ Hct)) as E. cbn in E. rewrite E, Hr. done.
Qed.

(** The service was preempted in the middle of a callback. *)
Definition callback_preempted (s : kernel) : Prop :=
  state (task s TTimerService) = RTS_TASK_STATE_READY ∧
  ∃ i, i ∈ all_timers ∧ tm_callback_state (timer s i) = RTS_TIMER_CALLBACK_RUNNING.

(** A start of a timer that is not armed and whose callback is not over. *)
Definition starts_unfinished (cmd : timer_command) (s : kernel) (handle : option Z) : Prop :=
  cmd = Start ∧ ∃ i, handle = Some i ∧ active (timer s i) = false ∧ engaged (timer s i) = true.

(** The status with which a command is refused then. *)
Definition refusal (cmd : timer_command) (s : kernel) (handle : option Z) : option rts_status_t :=
  match rts_timer_resolve s handle with
  | None => Some RTS_STATUS_INVALID_ARGUMENT
  | Some i =>
      match cmd with
      | Start => if active (timer s i) then Some RTS_STATUS_INVALID_STATE else None
      | Restart => None
      | Stop => if active (timer s i) || engaged (timer s i) then None else Some RTS_STATUS_INVALID_STATE
      end
  end.

Lemma refuses_refusal cmd s handle : ¬ starts_unfinished cmd s handle → refuses cmd s handle = refusal cmd s handle.
Proof.
  intros Hno. unfold refuses, refusal. destruct (rts_timer_resolve s handle) as [i|] eqn:E; [|done].
  apply resolve_inv in E as (->&_). destruct cmd; [|done..]. destruct (active (timer s i)) eqn:Ea; [done|].
  destruct (engaged (timer s i)) eqn:Ee; [|done]. destruct Hno. split; [done|by exists i].
Qed.

(** C10: Starting, restarting and stopping a timer meet their specification, in
    the cases on which the documents agree: a restart or stop is not issued while
    the service is preempted in the middle of a callback, and a start not for an
    expired timer whose callback is still pending or running.  Called by the
    running task on a consistent kernel, each call returns and passes every check.
    It refuses a handle that is not an allocated timer, the start of an armed
    timer and the stop of one that is neither armed nor has a callback pending or
    running; a refusal changes nothing but the port.  Otherwise the timer has
    the deadline now + period and its place in the queue, or is stopped and out of
    it; a restart or stop advances its generation and takes its work from the
    ring, and if the ring is then empty a service that had been woken for it and
    has not begun goes back to waiting; other timers, the order of the remaining
    work and all other tasks are unchanged.  A callback that runs goes on: its
    state stays RUNNING and the service task is not touched.  The invariant of
    kernel, mutexes and timers holds again. *)
Theorem timer_control_correct cmd s c handle :
  timed_ok s → caller_ok s → k_current_task s = Some c → state (task s c) = RTS_TASK_STATE_RUNNING →
  (cmd ≠ Start → ¬ callback_preempted s) → ¬ starts_unfinished cmd s handle →
  wp (timer_control cmd handle) (λ st s', same_nesting s s' ∧
    match refusal cmd s handle with
    | Some status => st = status ∧ timed_ok s' ∧ ∃ f, s' = upd_port f s
    | None => st = RTS_STATUS_OK ∧ ∃ i, handle = Some i ∧ controlled cmd c i s s'
    end ∧
    ∀ j, j ∈ all_timers → tm_callback_state (timer s j) = RTS_TIMER_CALLBACK_RUNNING →
      tm_callback_state (timer s' j) = RTS_TIMER_CALLBACK_RUNNING ∧ task s' TTimerService = task s TTimerService) s.
Proof.
  intros Hok Hcaller Hc Hrun Hpre Hfin. eapply wp_mono; [by apply timer_control_spec|].
  intros st s' [Hn Hpost]. split; [done|]. rewrite (refuses_refusal _ _ _ Hfin) in Hpost. destruct (refusal cmd s handle) as [status|].
  - destruct Hpost as (->&Hok'&_&(f&->)). split; [|done]. split_and!; [done..|by exists f].
  - destruct Hpost as (->&i&Eh&Hct). split; [split; [done|by exists i]|]. intros j Hj Hr. split; [by eapply controlled_running|].
    assert (sends_to_rest cmd s i = false) as Ers.
    { unfold sends_to_rest. case_bool_decide as Ecmd; [done|]. cbn [negb andb]. apply andb_false_iff. right.
      apply bool_decide_eq_false. intros Hready. apply (Hpre Ecmd). split; [done|by exists j]. }
    pose proof (so_service _ _ _ _ (ct_frame _ _ _ _ _ Hct)) as Hs. by rewrite Ers in Hs.
Qed.
End calls.
