(* ===== verification/TimerService.v ===== *)
(** * The timer service

    One turn of the endless loop of the service task (kernel/timer_service.c):
    it takes the work from the ring in order, runs each callback once, outside
    the lock, and waits for more work when the ring is empty.  A callback is
    application code: the theorems hold for every callback that keeps the
    contract [callback_contract], stated with the relation [called] between the
    stores before and after it; what a callback does to the ring is free.
    Callbacks that control timers are shown to keep the contract. *)

From S2P Require Import Prelude Machine Config Types Links IntrusiveList KernelLists Time ReadyQueue.
From S2P Require Import DelayQueue HostPort Ring Diagnostics TaskPool Policy PolicySpec WaitObject Scheduler.
From S2P Require Import SwitchSpec KernelSpec StoreCheck TaskApi TaskApiSpec Blocking Semaphore SemaphoreSpec.
From S2P Require Import Inheritance Mutex MutexSpec SystemSpec MutexCalls MutexRelease CallbackQueue TimerQueue.
From S2P Require Import Timer KernelTime TickSpec TimerManager ServiceWake TimerSteps ServiceRest TimerExpiry TimeSlice.
From S2P Require Import TickAdvance TimerCalls.

Section service.
Context `{ConfigOk} `{!BitmapPolicy}.
#[local] Abbreviation service := TTimerService.

(** The service runs, outside the lock, on a consistent kernel. *)
Record service_runs (s : kernel) : Prop := {
  sn_ok : timed_ok s;
  sn_caller : caller_ok s;
  sn_current : k_current_task s = Some service;
  sn_state : state (task s service) = RTS_TASK_STATE_RUNNING;
  sn_plan : plan_active (k_switch_plan s) = false
}.

Lemma service_runs_step s s' :
  service_runs s → timed_ok s' → service_off false service s s' → service_runs s'.
Proof.
  intros [A1 [B1 B2 B3] A3 A4 A5] Hok Hf. split; [done| | |..].
  - destruct (so_nesting _ _ _ _ Hf) as (E&_). split; [|by rewrite E|].
    + by rewrite (so_field (λ s, host_in_isr (k_port s)) _ _ _ _ Hf).
    + by rewrite (so_field (λ s, host_switch_request_count (k_port s)) _ _ _ _ Hf).
  - by rewrite (so_field k_current_task _ _ _ _ Hf).
  - by rewrite (so_service _ _ _ _ Hf).
  - by rewrite (so_plan _ _ _ _ Hf).
Qed.

(** Leaving the lock. *)
Lemma ms_port off c s s1 i x L ws b :
  manager_step off c (upd_port port_entered s) s1 i x L ws → same_nesting s (upd_port (port_exited b) s1) →
  manager_step off c s (upd_port (port_exited b) s1) i x L ws.
Proof.
  intros [A1 A2 A3 A4 A5 A6 [B1 B2 B3 B4 B5 B6 B7 B8]] Hn. split; try done. by apply (cq_ok_frame s1).
Qed.

(** The callback of timer [i] begins or ends, and [ws] is left in the ring. *)
Definition called_as (v : rts_timer_callback_state_t) (x : rts_timer) : rts_timer := x <| tm_callback_state := v |>.

Lemma timed_called s s' i v ws :
  timed_ok s → i ∈ all_timers → v ≠ RTS_TIMER_CALLBACK_PENDING →
  timer_step s s' i (called_as v (timer s i)) (timer_list s) ws → parked s = false →
  (∀ j, filter (λ w, work_timer w = Some j) ws = if decide (j = i) then [] else works s j) →
  (∀ w, w ∈ ws → w ∈ cq_list s) → timed_ok s'.
Proof.
  intros [D1 D2 D3 D4] Hi Hv Ht Hp Hws Hin. pose proof (so_step service _ _ _ _ _ _ Ht) as Hf.
  assert (k_current_tick s' = k_current_tick s) as Et by by apply (so_field k_current_tick _ _ _ _ Hf).
  split.
  - rewrite Et. by eapply system_ok_timer_step.
  - rewrite Et. apply (manager_ok_one _ s s' i D2); [done| |apply Ht|by apply (so_field k_timer_next_free_hint _ _ _ _ Hf)
      |by apply (so_field k_timer_allocated_count _ _ _ _ Hf)|..].
    + eapply (timers_ok_same _ s s s'); [apply timer_step_refl; apply D2|exact Ht|done|apply D2].
    + intros j Hj. rewrite (ts_others _ _ _ _ _ _ Ht), (ts_list _ _ _ _ _ _ Ht) by done. split_and!; [done..|].
      unfold works at 1. by rewrite (ts_ring _ _ _ _ _ _ Ht), Hws, decide_False.
    + by rewrite (ts_field tm_slot_state _ _ _ _ _ _ Ht).
    + assert (works s' i = []) as -> by (unfold works; by rewrite (ts_ring _ _ _ _ _ _ Ht), Hws, decide_True).
      unfold armed. rewrite (ts_list _ _ _ _ _ _ Ht). fold (armed s i).
      eapply slot_core; [symmetry; apply (ts_timer _ _ _ _ _ _ Ht)|].
      pose proof (mo_slot _ _ D2 i Hi) as Hs. unfold slot_ok, called_as in *. cbn [tm_slot_state].
      change (tm_slot_state (_ <| tm_callback_state := _ |>)) with (tm_slot_state (timer s i)).
      destruct (tm_slot_state (timer s i)); [naive_solver..|]. destruct Hs. split; try done.
      change (tm_callback_state (_ <| tm_callback_state := ?v |>)) with v. by rewrite bool_decide_false.
    + intros w. rewrite (ts_ring _ _ _ _ _ _ Ht). auto.
  - by eapply so_built.
  - by rewrite (so_parked _ _ _ _ Hf), Hp.
Qed.

(** The first work of the ring belongs to a timer whose callback is pending:
    it is never stale. *)
Lemma next_work s w ws :
  timed_ok s → cq_list s = w :: ws →
  ∃ i, work_timer w = Some i ∧ i ∈ all_timers ∧ allocated s i ∧ tm_callback (timer s i) ≠ 0 ∧
    tm_callback_state (timer s i) = RTS_TIMER_CALLBACK_PENDING ∧ work_generation w = tm_generation (timer s i) ∧
    ∀ j, filter (λ w, work_timer w = Some j) ws = if decide (j = i) then [] else works s j.
Proof.
  intros Hok E. pose proof (td_manager s Hok) as Hm. destruct (work_owner _ s w Hm) as (i&Hi&Ei&Ha&Ew&Hp&Hg); [rewrite E; left|].
  exists i. pose proof (mo_slot _ _ Hm i Hi) as Hs. unfold slot_ok in Hs. rewrite Ha in Hs.
  split_and!; try done; [apply Hs|]. intros j. unfold works in *. rewrite E in *. rewrite filter_cons_True in Ew by done.
  case_decide as Hj; [subst j; congruence|]. by rewrite filter_cons_False by congruence.
Qed.

(** ** One callback *)

Section callback.
Context (callback : Z → Z → K unit) (called : Z → Z → kernel → kernel → Prop).

(** What the service relies on: the callback returns to the running service,
    on a consistent kernel, and does not touch the state of its own call. *)
Definition callback_contract : Prop :=
  ∀ address argument i s, service_runs s → tm_callback_state (timer s i) = RTS_TIMER_CALLBACK_RUNNING →
  wp (callback address argument) (λ _ s', called address argument s s' ∧ service_runs s' ∧ same_nesting s s' ∧
    tm_callback_state (timer s' i) = RTS_TIMER_CALLBACK_RUNNING) s.

(** The callback of the work [w] was run, and nothing else happened. *)
Definition callback_run (w : rts_timer_callback_work) (s s' : kernel) : Prop :=
  ∃ i s1 s2, head (cq_list s) = Some w ∧ work_timer w = Some i ∧
    manager_step false service s s1 i (called_as RTS_TIMER_CALLBACK_RUNNING (timer s i)) (timer_list s) (tail (cq_list s)) ∧
    called (tm_callback (timer s i)) (tm_argument (timer s i)) s1 s2 ∧
    manager_step false service s2 s' i (called_as RTS_TIMER_CALLBACK_IDLE (timer s2 i)) (timer_list s2) (cq_list s2).

Context (Hcontract : callback_contract).

Lemma valid_context_run s :
  service_runs s →
  (notM rts_port_is_in_isr &&&
   gets (λ s, bool_decide (k_lifecycle s = RTS_KERNEL_RUNNING)) &&&
   (let* current := rts_scheduler_current_get in gets (λ s, bool_decide (current = k_timer_service_task s))) &&&
   gets (λ s, match k_timer_service_task s with
              | None => false
              | Some t => bool_decide (state (task s t) = RTS_TASK_STATE_RUNNING)
              end)) s = Done true s.
Proof.
  intros [A1 [B1 _ _] A3 A4 _]. pose proof (sy_kernel s (td_system s A1)) as Hok.
  apply (andM_run _ _ true true); [apply (andM_run _ _ true true); [apply (andM_run _ _ true true)|]|]; try intros _.
  - unfold notM, rts_port_is_in_isr. rewrite bind_gets, B1. done.
  - unfold gets. by rewrite bool_decide_true by apply (ko_live s Hok).
  - rewrite (bind_run _ _ _ _ _ (rts_scheduler_current_get_run s)). unfold gets.
    by rewrite A3, (ko_service s Hok), bool_decide_true.
  - unfold gets. by rewrite (ko_service s Hok), A4.
Qed.

(** The end of a callback. *)
Lemma wp_callback_end i w s :
  service_runs s → i ∈ all_timers → tm_callback_state (timer s i) = RTS_TIMER_CALLBACK_RUNNING →
  wp (let* token := rts_kernel_lock_enter in
      RTS_FATAL_UNLESS (gets (λ s, bool_decide (tm_callback_state (timer s i) = RTS_TIMER_CALLBACK_RUNNING))) ;;;
      modify (upd_timer i (λ x, x <| tm_callback_state := RTS_TIMER_CALLBACK_IDLE |>)) ;;;
      RTS_DIAG_TIMER_INC i tm_callback_count ;;;
      RTS_DIAG_COUNTER_INC timer_callbacks_executed ;;;
      let* slot_index := gets (λ s, u32 (tm_slot_index (timer s i))) in
      RTS_TRACE RTS_TRACE_TIMER_CALLBACK_END slot_index (work_sequence w) ;;;
      RTS_FATAL_UNLESS rts_timer_manager_validate ;;;
      rts_kernel_lock_exit token ;;;
      ret true)
    (λ again s', again = true ∧ service_runs s' ∧
      manager_step false service s s' i (called_as RTS_TIMER_CALLBACK_IDLE (timer s i)) (timer_list s) (cq_list s)) s.
Proof.
  intros Hs Hi Hr. pose proof (sn_ok s Hs) as Hok. pose proof (sn_caller s Hs) as [_ Hroom _].
  apply wp_bind. eapply wp_run; [apply rts_port_critical_enter_run; lia|]. set (s0 := upd_port port_entered s).
  assert (timed_ok s0) as Hok0 by by apply timed_ok_port. pose proof (td_manager s0 Hok0) as Hm.
  assert (port_room s0) as Hroom0 by (unfold port_room; cbn; lia).
  apply wp_bind, wp_RTS_FATAL_UNLESS; [unfold gets; by rewrite bool_decide_true|].
  pose proof (timer_step_refl s0 i (to_lists _ _ (mo_queue _ _ Hm)) (mo_ring _ _ Hm)) as H1'.
  apply wp_bind. eapply wp_ts_timer; [exact H1'|done|]. clear H1'. intros s1 H1'.
  apply wp_bind. eapply wp_ts_diag_inc; [exact H1'|done|]. clear s1 H1'. intros s1 H1'.
  apply wp_bind. eapply wp_ts_counter; [exact H1'|]. clear s1 H1'. intros s1 H1'.
  apply wp_bind, wp_gets, wp_bind. eapply wp_ts_trace; [exact H1'|done|]. clear s1 H1'. intros s1 H1'.
  assert (timed_ok s1) as Hok1.
  { eapply (timed_called s0 s1 i RTS_TIMER_CALLBACK_IDLE (cq_list s0)); [done|done|done|exact H1'| | |done].
    - unfold parked. change (task s0 service) with (task s service). by rewrite (sn_state s Hs).
    - intros j. fold (works s0 j). case_decide as Hj; [subst j|done]. pose proof (mo_slot _ _ Hm i Hi) as Hsl.
      unfold slot_ok in Hsl. change (timer s0 i) with (timer s i) in Hsl. destruct (tm_slot_state (timer s i)); [naive_solver..|].
      pose proof (al_works _ _ _ _ Hsl) as Hw. by rewrite Hr in Hw. }
  apply wp_bind, wp_RTS_FATAL_UNLESS; [eapply rts_timer_manager_validate_run, td_manager, Hok1|].
  destruct (critical_exit_balanced s s1) as [Hx Hn]; [lia|apply H1'|].
  apply wp_bind. eapply wp_run; [exact Hx|]. apply wp_ret.
  assert (manager_step false service s (upd_port (port_exited (host_interrupts_masked (k_port s))) s1) i
    (called_as RTS_TIMER_CALLBACK_IDLE (timer s i)) (timer_list s) (cq_list s)) as Hms by (apply ms_port; [by apply ms_of_step|done]).
  split_and!; [done| |done]. eapply service_runs_step; [done|by apply timed_ok_port|apply Hms].
Qed.

Lemma rts_timer_service_process_one_spec s :
  service_runs s →
  wp (rts_timer_service_process_one callback) (λ again s', service_runs s' ∧ same_nesting s s' ∧
    match cq_list s with
    | [] => again = false ∧ cq_list s' = [] ∧ ∃ f, s' = upd_port f s
    | w :: _ => again = true ∧ callback_run w s s'
    end) s.
Proof.
  intros Hs. pose proof (sn_ok s Hs) as Hok. pose proof (sn_caller s Hs) as [Hisr Hroom Hreq].
  unfold rts_timer_service_process_one. apply wp_bind. eapply wp_run; [by apply valid_context_run|].
  apply wp_bind, wp_RTS_ASSERT; [done|]. cbn [negb].
  apply wp_bind. eapply wp_run; [apply rts_port_critical_enter_run; lia|]. set (s0 := upd_port port_entered s).
  assert (timed_ok s0) as Hok0 by by apply timed_ok_port. pose proof (td_manager s0 Hok0) as Hm.
  assert (port_room s0) as Hroom0 by (unfold port_room; cbn; lia).
  apply wp_bind. eapply wp_mono; [apply rts_timer_callback_queue_dequeue_spec, Hm|]. intros r s1 [-> Hst].
  change (cq_list s0) with (cq_list s) in *. destruct (cq_list s) as [|w ws] eqn:E; cbn [head].
  - subst s1. destruct (critical_exit_balanced s s0) as [Hx Hn]; [lia|apply same_nesting_refl|].
    apply wp_bind. eapply wp_run; [exact Hx|]. apply wp_ret. split_and!; [|done|done|done|by eexists (λ p, _)].
    eapply service_runs_step; [done|by apply timed_ok_port|]. by split.
  - destruct (next_work s0 w ws Hok0 E) as (i&Ei&Hi&Ha&Hcb&Hp&Hg&Hws).
    pose proof (timer_step_refl s0 i (to_lists _ _ (mo_queue _ _ Hm)) (mo_ring _ _ Hm)) as H1'.
    apply (ts_cq _ _ _ _ _ _ H1') in Hst as H2'. clear H1' Hst.
    apply wp_bind, wp_gets. assert (rts_timer_handle_is_valid s1 (work_timer w) = true) as ->.
    { unfold rts_timer_handle_is_valid, rts_timer_resolve. rewrite Ei, (ts_field tm_slot_state _ _ _ _ _ _ H2'), Ha by done.
      rewrite (proj2 (existsb_exists _ _)); [done|]. exists i. split; [by apply list_elem_of_In|apply Z.eqb_refl]. }
    cbn [negb]. rewrite Ei. cbn [deref]. apply wp_bind, wp_ret, wp_bind, wp_gets, wp_bind, wp_gets.
    rewrite (ts_field tm_callback_state _ _ _ _ _ _ H2'), (ts_field tm_generation _ _ _ _ _ _ H2'), Hp, Hg, Z.eqb_refl by done.
    cbn [negb andb bool_decide decide_rel].
    apply wp_bind. eapply wp_ts_timer; [exact H2'|done|]. clear s1 H2'. intros s1 H1'.
    apply wp_bind, wp_gets, wp_bind, wp_gets.
    rewrite (ts_field tm_callback _ _ _ _ _ _ H1'), (ts_field tm_argument _ _ _ _ _ _ H1') by done.
    change (tm_callback (_ <| tm_callback_state := _ |>)) with (tm_callback (timer s i)).
    change (tm_argument (_ <| tm_callback_state := _ |>)) with (tm_argument (timer s i)).
    apply wp_bind, wp_RTS_FATAL_UNLESS; [unfold ret; by rewrite (proj2 (Z.eqb_neq _ _))|].
    apply wp_bind, wp_gets, wp_bind. eapply wp_ts_trace; [exact H1'|done|]. clear s1 H1'. intros s1 H1'.
    destruct (critical_exit_balanced s s1) as [Hx Hn]; [lia|apply H1'|].
    apply wp_bind. eapply wp_run; [exact Hx|]. set (s2 := upd_port _ s1) in *.
    assert (timed_ok s2) as Hok2.
    { apply timed_ok_port. eapply (timed_called s0 s1 i RTS_TIMER_CALLBACK_RUNNING ws); [done|done|done|exact H1'| |done|].
      - unfold parked. change (task s0 service) with (task s service). by rewrite (sn_state s Hs).
      - intros v Hv. change (cq_list s0) with (cq_list s). rewrite E. by right. }
    assert (manager_step false service s s2 i (called_as RTS_TIMER_CALLBACK_RUNNING (timer s i)) (timer_list s) (tail (cq_list s))) as Hms.
    { rewrite E. apply ms_port; [by apply ms_of_step|done]. }
    pose proof (service_runs_step s s2 Hs Hok2 (ms_frame _ _ _ _ _ _ _ _ Hms)) as Hs2.
    apply wp_bind. eapply wp_mono; [apply (Hcontract _ _ i s2 Hs2)|].
    { pose proof (f_equal tm_callback_state (ms_timer _ _ _ _ _ _ _ _ Hms)) as Er. exact Er. }
    intros [] s3 (Hcalled&Hs3&Hn3&Hr3). eapply wp_mono; [by apply wp_callback_end|]. intros again s4 (->&Hs4&Hend).
    split_and!; [done| |done|exists i, s2, s3; rewrite E; rewrite E in Hms; by split_and!].
    eapply same_nesting_trans; [exact Hn|]. eapply same_nesting_trans; [exact Hn3|apply (ms_frame _ _ _ _ _ _ _ _ Hend)].
Qed.

(** ** All callbacks *)

(** The callbacks of the work [ws] were run, in order. *)
Inductive callbacks_run : list rts_timer_callback_work → kernel → kernel → Prop :=
  | run_none s f : callbacks_run [] s (upd_port f s)
  | run_next w ws s s1 s' : callback_run w s s1 → callbacks_run ws s1 s' → callbacks_run (w :: ws) s s'.

(** What the loop of the service did before it stopped, in any way. *)
Definition drained (n : Z) (fuel : nat) (s : kernel) (r : outcome kernel Z) : Prop :=
  match r with
  | Done m s' => ∃ ws, callbacks_run ws s s' ∧ m = n + Z.of_nat (length ws) ∧ (length ws < fuel)%nat ∧
      service_runs s' ∧ same_nesting s s' ∧ cq_list s' = []
  | NoFuel => ∃ ws s', callbacks_run ws s s' ∧ length ws = fuel ∧ service_runs s'
  | Fatal _ _ | Undefined => False
  end.

Lemma rts_timer_service_drain_outcome fuel : ∀ s n,
  service_runs s → drained n fuel s (rts_timer_service_drain callback n fuel s).
Proof.
  induction fuel as [|fuel IH]; intros s n Hs; cbn [rts_timer_service_drain].
  { exists [], (upd_port (λ p, p) s). split_and!; [apply run_none|done|]. by destruct s. }
  destruct (proj1 (wp_done _ _ _) (rts_timer_service_process_one_spec s Hs)) as (again&s1&Hone&Hs1&Hn1&Hrun).
  rewrite (bind_run _ _ _ _ _ Hone). destruct (cq_list s) as [|w ws] eqn:E.
  - destruct Hrun as (->&E1&(f&->)). exists []. cbn [length]. split_and!; [apply run_none|lia|lia|done..].
  - destruct Hrun as [-> Hrun]. specialize (IH s1 (Z.succ n) Hs1).
    destruct (rts_timer_service_drain callback (Z.succ n) fuel s1) as [m s'| | |]; [|done..|].
    + destruct IH as (ws'&Hall&->&Hlen&Hs'&Hn'&Er). exists (w :: ws'). cbn [length].
      split_and!; [by eapply run_next|lia|lia|done|by eapply same_nesting_trans|done].
    + destruct IH as (ws'&s'&Hall&Hlen&Hs'). exists (w :: ws'), s'. cbn [length].
      split_and!; [by eapply run_next|lia|done].
Qed.

(** No callback leaves more work in the ring than it found. *)
Definition adds_no_work : Prop :=
  ∀ address argument s s', called address argument s s' → (length (cq_list s') ≤ length (cq_list s))%nat.

Lemma callbacks_run_length ws s s' :
  adds_no_work → callbacks_run ws s s' → (length ws + length (cq_list s') ≤ length (cq_list s))%nat.
Proof.
  intros Hadd. induction 1 as [s f|w ws s s1 s' (i&s2&s3&Hhd&_&H2'&Hc&H4) _ IH]; cbn [length]; [done|].
  apply Hadd in Hc. rewrite (ms_ring _ _ _ _ _ _ _ _ H2') in Hc. rewrite (ms_ring _ _ _ _ _ _ _ _ H4) in IH.
  destruct (cq_list s); [done|]. cbn [length tail] in *. lia.
Qed.
End callback.

(** The service waits for work again: it alone left the ready queues, and the
    switch to the first task of the highest priority is planned. *)
Record service_sleeps (s s' : kernel) : Prop := {
  ss_ok : timed_ok s';
  ss_parked : parked s' = true;
  ss_task u : u ≠ service → task s' u = task s u;
  ss_ready p : ready_queue s' p = without service (ready_queue s) p;
  ss_delay : delay_list s' = delay_list s;
  ss_waiting o : waiting s' o = waiting s o;
  ss_timer_list : timer_list s' = timer_list s;
  ss_timers : k_timers s' = k_timers s;
  ss_ring : cq_list s' = cq_list s;
  ss_plan : ∃ n, head (fp_ready s') = Some n ∧ plan_pending (k_switch_plan s') = true ∧
    plan_from (k_switch_plan s') = Some service ∧ plan_to (k_switch_plan s') = Some n
}.

(** From the service at rest to the planned switch. *)
Lemma sleeps_intro s s1 s' f n :
  timed_ok s → cq_list s = [] → service_rested (since := k_current_tick s) s s1 → same_scheduling s1 s' → kernel_ok s' →
  k_mutexes s' = k_mutexes s1 → k_timers s' = k_timers s1 → k_callback_queue s' = k_callback_queue s1 →
  k_timer_next_free_hint s' = k_timer_next_free_hint s1 → k_timer_allocated_count s' = k_timer_allocated_count s1 →
  head (fp_ready s') = Some n → plan_pending (k_switch_plan s') = true →
  plan_from (k_switch_plan s') = Some service → plan_to (k_switch_plan s') = Some n →
  service_sleeps s (upd_port f s').
Proof.
  intros [D1 D2 D3 D4] Ering [Hsy Hk Hid Hst] Hsame Hok' Em Et Eq Eh Ec Hhead Hpend Hfrom Hto.
  destruct (same_scheduling_views _ _ Hsame) as (Etask&Eready&Edelay&Ewait&_).
  assert (∀ A (f : kernel → A), (∀ s, f (outside false s) = f s) → f s1 = f s) as Hf by (intros A g; by eapply kstep_field).
  assert (cq_list s' = cq_list s) as Ecq by (unfold cq_list; by rewrite Eq, (Hf _ k_callback_queue)).
  assert (timer_list s' = timer_list s) as Etl.
  { unfold timer_list, kcontents. rewrite (ss_heap _ _ Hsame). fold (kcontents s1 LTimer). by rewrite (ks_lists _ _ _ _ _ _ Hk) by auto. }
  split; try done.
  - apply timed_ok_port. split.
    + apply (system_ok_same s1); [|done|done|apply (ko_plan _ Hok')]. rewrite (Hf _ k_current_tick) by done. done.
    + rewrite (ss_tick _ _ Hsame), (Hf _ k_current_tick) by done.
      apply (manager_ok_frame _ s); [done|apply (ro_lists _ (ko_ready _ Hok'))|done|by rewrite Et, (Hf _ k_timers)
        |by rewrite Eq, (Hf _ k_callback_queue)|by rewrite Eh, (Hf _ k_timer_next_free_hint)|by rewrite Ec, (Hf _ k_timer_allocated_count)].
    + destruct D3 as [Hc Hb]. split; rewrite Etask; [|by injection Hid as _ _ _ _ _ -> _ _ _].
      rewrite <- Hc. unfold task_has_context. by injection Hid as -> -> -> ->.
    + by rewrite Ecq.
  - unfold parked. change (task (upd_port f s') service) with (task s' service). by rewrite Etask, Hst.
  - intros u Hu. change (task (upd_port f s') u) with (task s' u). rewrite Etask. by apply (ks_tasks _ _ _ _ _ _ Hk).
  - intros p. change (ready_queue (upd_port f s') p) with (ready_queue s' p). rewrite Eready. apply (ks_ready _ _ _ _ _ _ Hk).
  - change (delay_list (upd_port f s')) with (delay_list s'). rewrite Edelay. apply (ks_delay _ _ _ _ _ _ Hk).
  - intros o. change (waiting (upd_port f s') o) with (waiting s' o). rewrite Ewait. apply (ks_wait _ _ _ _ _ _ Hk).
  - change (k_timers (upd_port f s')) with (k_timers s'). by rewrite Et, (Hf _ k_timers).
  - by exists n.
Qed.

Lemma rts_scheduler_timer_service_block_spec s :
  system_ok s → k_current_task s = Some service → state (task s service) = RTS_TASK_STATE_RUNNING →
  plan_active (k_switch_plan s) = false →
  wp rts_scheduler_timer_service_block (λ _ s', ∃ s1 n,
    service_rested (since := k_current_tick s) s s1 ∧ s' = prepared service n s1 ∧ kernel_ok s' ∧ head (fp_ready s') = Some n ∧
    plan_pending (k_switch_plan s') = true ∧ plan_from (k_switch_plan s') = Some service ∧ plan_to (k_switch_plan s') = Some n) s.
Proof.
  intros Hsy Hc Hst Hact. pose proof (sy_kernel s Hsy) as Hok. unfold rts_scheduler_timer_service_block.
  apply wp_bind, wp_gets. rewrite (ko_service s Hok). pose proof (current_running_facts s service Hok Hc Hst) as Hr.
  apply wp_bind. eapply wp_run.
  { rewrite orM_false; [unfold gets; reflexivity|]. rewrite orM_false; [|rewrite orM_false]; cycle 1.
    - unfold gets. by rewrite Hst.
    - rewrite (bind_run _ _ _ _ _ (rts_scheduler_current_get_run s)). unfold ret. by rewrite Hc, bool_decide_true.
    - unfold notM. rewrite (bind_run _ _ _ _ _ (rts_policy_validate_run s service true (proj2 (ko_prio s Hok service)))).
      unfold runnable in Hr. rewrite !andb_true_iff in Hr. destruct Hr as [[_ ->] _]. done. }
  assert (wait_reason (wait (task s service)) = RTS_WAIT_NONE) as ->.
  { unfold runnable, task_waits_for_nothing in Hr. rewrite !andb_true_iff, !bool_decide_eq_true in Hr. naive_solver. }
  cbn [negb bool_decide decide_rel]. apply (wp_rest (since := k_current_tick s)); [done|done|]. intros s1 Hk1 E1.
  apply wp_bind. eapply wp_kstep_task; [exact Hk1|done|]. intros s2 Hk2 E2. rewrite E1 in E2.
  apply wp_bind. eapply wp_kstep_diag; [exact Hk2|done|]. intros s3 Hk3 E3. rewrite E2 in E3. apply face_eq in E3 as (Hid&Hw&Hs3).
  assert (service_rested (since := k_current_tick s) s s3) as Hrest by by apply service_rested_intro.
  assert (kernel_ok s3) as Hok3 by (rewrite (kstep_field k_current_tick _ _ _ _ _ _ Hk3) by done; apply Hrest).
  destruct (block_replan s3 service Hok3) as (n&Hsel&Hne&Hprep&Hok4&Hhead&Hpend&Hfrom&Hto);
    [by rewrite (kstep_field k_current_task _ _ _ _ _ _ Hk3)|done|by rewrite (kstep_field k_switch_plan _ _ _ _ _ _ Hk3)|].
  apply wp_bind. eapply wp_run; [exact Hsel|].
  apply wp_bind, wp_RTS_FATAL_UNLESS; [unfold ret; by rewrite (bool_decide_false (Some n = Some service)) by congruence|].
  rewrite (bool_decide_false (Some n = Some service)) by congruence. cbn [orb bool_decide decide_rel negb andb].
  eapply wp_run; [exact Hprep|]. by exists s3, n.
Qed.

(** After the loop: the service goes to sleep. *)
Lemma service_goes_to_sleep s1 :
  service_runs s1 → cq_list s1 = [] →
  wp (let* token := rts_kernel_lock_enter in
      let* more := gets (λ s, negb (cq_count (k_callback_queue s) =? 0)) in
      if more then rts_kernel_lock_exit token else
      let* notify_port := rts_scheduler_timer_service_block in
      RTS_FATAL_UNLESS (gets (λ s, match k_timer_service_task s with
                                   | Some t => bool_decide (state (task s t) = RTS_TASK_STATE_BLOCKED)
                                   | None => false
                                   end)) ;;;
      rts_kernel_lock_exit token ;;;
      notify_port_if notify_port) (λ _ s', same_nesting s1 s' ∧ service_sleeps s1 s') s1.
Proof.
  intros Hs1 Ering.
  pose proof Hs1 as [Hok1 [_ Hroom Hreq] Hc Hst Hact].
  apply wp_bind. eapply wp_run; [apply rts_port_critical_enter_run; lia|]. set (s0 := upd_port port_entered s1).
  assert (timed_ok s0) as Hok0 by by apply timed_ok_port. apply wp_bind, wp_gets.
  assert (cq_count (k_callback_queue s0) = 0) as ->.
  { rewrite <- (cq_length s0 (mo_ring _ _ (td_manager _ Hok0))). change (cq_list s0) with (cq_list s1). by rewrite Ering. }
  cbn [negb Z.eqb]. apply wp_bind.
  eapply wp_mono; [apply (rts_scheduler_timer_service_block_spec s0 (td_system _ Hok0) Hc Hst Hact)|].
  intros notify s4 (s3&n&Hrest&->&Hok4&Hhead&Hpend&Hfrom&Hto). destruct (prepared_frame service n s3) as (pl&cs&Epr).
  pose proof (sr_step _ _ Hrest) as Hk.
  apply wp_bind, wp_RTS_FATAL_UNLESS.
  { unfold gets. rewrite Epr. cbn. rewrite (kstep_field k_timer_service_task _ _ _ _ _ _ Hk) by done. cbn.
    rewrite (ko_service s1 (sy_kernel _ (td_system _ Hok1))). f_equal. apply bool_decide_true, (sr_state _ _ Hrest). }
  destruct (critical_exit_balanced s1 (prepared service n s3)) as [Hrun Hsame]; [lia|rewrite Epr; apply (ks_nesting _ _ _ _ _ _ Hk)|].
  apply wp_bind. eapply wp_run; [exact Hrun|]. eapply wp_mono; [apply notify_port_if_spec|].
  { rewrite Epr. cbn. by rewrite (kstep_requests _ _ _ _ _ _ Hk). }
  intros [] s' (f&->&Hs'&_). split.
  - by eapply same_nesting_trans.
  - assert (service_sleeps s0 (upd_port (λ p, f (port_exited (host_interrupts_masked (k_port s1)) p)) (prepared service n s3))) as Hsl.
    { eapply (sleeps_intro s0 s3); try done; [apply prepared_same|by rewrite Epr..]. }
    by destruct Hsl; split.
Qed.

(** ** Callbacks that control timers *)

(** What such a callback does. *)
Definition control_called (cmd : timer_command) (handle : option Z) (address argument : Z) (s s' : kernel) : Prop :=
  ∃ st, control_post cmd service handle s st s'.

Lemma control_contract cmd handle :
  callback_contract (λ _ _, timer_control cmd handle ;;; ret tt) (control_called cmd handle).
Proof.
  intros address argument i s Hs Hr. pose proof Hs as [Hok Hcaller Hc Hst _].
  apply wp_bind. eapply wp_mono; [by apply timer_control_spec|]. intros st s' Hpost. apply wp_ret.
  pose proof Hpost as [Hn Hcase]. split_and!; [by exists st| |done|].
  - destruct (refuses cmd s handle).
    + destruct Hcase as (_&Hok'&Hoff&_). by eapply service_runs_step.
    + destruct Hcase as (_&j&_&Hct). eapply service_runs_step; [done|apply Hct|].
      assert (sends_to_rest cmd s j = false) as <-; [|apply (ct_frame _ _ _ _ _ Hct)].
      unfold sends_to_rest, called_off. by rewrite Hst, andb_false_r.
  - destruct (refuses cmd s handle).
    + by destruct Hcase as (_&_&_&(f&->)).
    + destruct Hcase as (_&j&_&Hct). by eapply controlled_running.
Qed.

Lemma control_adds_no_work cmd handle : adds_no_work (control_called cmd handle).
Proof.
  intros address argument s s' (st&_&Hcase). destruct (refuses cmd s handle).
  - by destruct Hcase as (_&_&_&(f&->)).
  - destruct Hcase as (_&j&_&Hct). rewrite (ct_ring _ _ _ _ _ Hct). apply length_filter.
Qed.

(** C11: One turn of the timer service, whatever the callbacks do to the ring.
    The contract on application code is that a callback called by the running
    service, with the invariant of kernel, mutexes and timers and outside the
    lock, returns to the running service with that invariant, with critical
    sections balanced and its own call still RUNNING; a callback that starts,
    restarts or stops a timer, itself included, meets it.  Then no check fails
    and no work is found stale: the turn takes the first work of the ring, marks
    the timer RUNNING, calls its callback once with its argument outside the
    lock, marks it IDLE, and repeats; it returns only when the ring is empty,
    with the service alone gone from the ready queues and the switch to the
    highest ready task planned; the only other possibility is that [fuel]
    callbacks have run and there is more work.  When no callback adds work the
    turn returns. *)
Theorem timer_service_runs_callbacks callback called s fuel :
  callback_contract callback called → service_runs s →
  match rts_timer_service_entry callback fuel s with
  | Done _ s' => same_nesting s s' ∧ ∃ ws s1, callbacks_run called ws s s1 ∧ (length ws < fuel)%nat ∧
      service_runs s1 ∧ cq_list s1 = [] ∧ service_sleeps s1 s'
  | NoFuel => ∃ ws s1, callbacks_run called ws s s1 ∧ length ws = fuel ∧ service_runs s1
  | Fatal _ _ | Undefined => False
  end ∧
  (adds_no_work called → (length (cq_list s) < fuel)%nat → ∃ s', rts_timer_service_entry callback fuel s = Done tt s').
Proof.
  intros Hcon Hs. pose proof (rts_timer_service_drain_outcome callback called Hcon fuel s 0 Hs) as Hd.
  destruct (rts_timer_service_drain callback 0 fuel s) as [m s1| | |] eqn:Ed; [|done..|].
  - destruct Hd as (ws&Hall&_&Hlen&Hs1&Hn1&Er).
    destruct (proj1 (wp_done _ _ _) (service_goes_to_sleep s1 Hs1 Er)) as ([]&s'&Hrun&Hn&Hsl).
    assert (rts_timer_service_entry callback fuel s = Done tt s') as ->
      by (unfold rts_timer_service_entry; by rewrite (bind_run _ _ _ _ _ Ed)).
    split; [split; [by eapply same_nesting_trans|by exists ws, s1]|by exists s'].
  - assert (rts_timer_service_entry callback fuel s = NoFuel) as -> by (unfold rts_timer_service_entry, bind at 1; by rewrite Ed).
    split; [done|]. intros Hadd Hlt. destruct Hd as (ws&s1&Hall&Hlen&_).
    pose proof (callbacks_run_length called ws s s1 Hadd Hall). lia.
Qed.
End service.
