(* ===== verification/Power.v ===== *)
(** * Tickless idle (kernel/power.c) *)

From S2P Require Import Prelude Machine Config Types Links IntrusiveList KernelLists Time ReadyQueue.
From S2P Require Import DelayQueue HostPort Diagnostics TaskPool Policy PolicySpec WaitObject Scheduler.
From S2P Require Import SwitchSpec TaskApi Semaphore Inheritance Mutex CallbackQueue TimerQueue Timer.
From S2P Require Import KernelTime.

Inductive rts_power_deadline_source :=
  | RTS_POWER_DEADLINE_MAINTENANCE | RTS_POWER_DEADLINE_DELAY | RTS_POWER_DEADLINE_TIMER.
Definition power_source_value (p : rts_power_deadline_source) : Z :=
  match p with
  | RTS_POWER_DEADLINE_MAINTENANCE => 0 | RTS_POWER_DEADLINE_DELAY => 1 | RTS_POWER_DEADLINE_TIMER => 2
  end.

(** rts_power_plan_t of kernel/power_internal.h. *)
Record rts_power_plan := mk_power_plan {
  pp_current_tick : Z;
  pp_wake_tick : Z;
  pp_sleep_ticks : Z;
  pp_source : rts_power_deadline_source
}.

(** The optional hooks of include/rts/rts_power.h, which the application may
    define; the kernel's own definitions do nothing. *)
Class PowerHooks := {
  rts_power_prepare_sleep : Z → K unit;
  rts_power_before_sleep : Z → K unit;
  rts_power_resume_from_sleep : Z → Z → K unit;
  rts_power_after_sleep : Z → Z → K unit
}.
Definition default_hooks : PowerHooks :=
  {| rts_power_prepare_sleep := λ _, ret tt; rts_power_before_sleep := λ _, ret tt;
     rts_power_resume_from_sleep := λ _ _, ret tt; rts_power_after_sleep := λ _ _, ret tt |}.

Section power_code.
Context `{Config}.

Definition rts_power_sleep_is_allowed : K bool :=
  if negb RTS_ENABLE_TICKLESS_IDLE then ret false else
  gets (λ s, bool_decide (k_lifecycle s = RTS_KERNEL_RUNNING)) &&&
  notM rts_port_is_in_isr &&&
  (let* current := rts_scheduler_current_get in
   match current with
   | None => ret false
   | Some t =>
       gets (λ s, bool_decide (current = k_idle_task s) &&
                  bool_decide (state (task s t) = RTS_TASK_STATE_RUNNING))
   end) &&&
  gets (λ s, negb (plan_pending (k_switch_plan s)) && negb (plan_active (k_switch_plan s))) &&&
  (let* picked := rts_policy_pick_next in gets (λ s, bool_decide (picked = k_idle_task s))).

(** The plan after one deadline was considered. *)
Definition rts_power_consider_deadline (now candidate : Z) (source : rts_power_deadline_source)
    (plan : rts_power_plan) : K rts_power_plan :=
  if rts_tick_reached now candidate then ret (mk_power_plan (pp_current_tick plan) now 0 source) else
  let distance := u32 (candidate - now) in
  RTS_ASSERT (ret (distance <=? RTS_TICK_MAX_ADVANCE)) ;;;
  if (distance <=? RTS_TICK_MAX_ADVANCE) && (distance <? pp_sleep_ticks plan)
  then ret (mk_power_plan (pp_current_tick plan) candidate distance source)
  else ret plan.

(** [None] when sleep is not allowed, else the plan stored through out_plan
    and the answer. *)
Definition rts_power_plan_compute : K (option (rts_power_plan * bool)) :=
  let* allowed := rts_power_sleep_is_allowed in
  if negb allowed then ret None else
  let* now := gets k_current_tick in
  let plan := mk_power_plan now (u32 (now + RTS_TICKLESS_MAX_SLEEP_TICKS)) RTS_TICKLESS_MAX_SLEEP_TICKS
                RTS_POWER_DEADLINE_MAINTENANCE in
  let* deadline := rts_delay_next_deadline in
  let* plan := match deadline with
               | Some d => rts_power_consider_deadline now d RTS_POWER_DEADLINE_DELAY plan
               | None => ret plan
               end in
  let* deadline := rts_timer_queue_next_deadline in
  let* plan := match deadline with
               | Some d => rts_power_consider_deadline now d RTS_POWER_DEADLINE_TIMER plan
               | None => ret plan
               end in
  ret (Some (plan, negb (pp_sleep_ticks plan =? 0))).

Definition rts_power_record_wake (elapsed_ticks wake_source : Z) : K unit :=
  RTS_DIAG_COUNTER_ADD tickless_suppressed_ticks elapsed_ticks ;;;
  when RTS_ENABLE_RUNTIME_STATS
    (modify (upd_counter tickless_longest_sleep (λ v, if v <? elapsed_ticks then elapsed_ticks else v))) ;;;
  RTS_DIAG_COUNTER_INC (if wake_source =? RTS_PORT_WAKE_TIMER then tickless_timer_wakes
                        else tickless_external_wakes).

(** The numbers of rts_status_t, for the trace. *)
Definition status_value (st : rts_status_t) : Z :=
  match st with
  | RTS_STATUS_OK => 0 | RTS_STATUS_INVALID_ARGUMENT => 1 | RTS_STATUS_INVALID_CONTEXT => 2
  | RTS_STATUS_INVALID_STATE => 3 | RTS_STATUS_INVALID_TASK_CONFIG => 4 | RTS_STATUS_INVALID_PRIORITY => 5
  | RTS_STATUS_INVALID_STACK => 6 | RTS_STATUS_CAPACITY_EXHAUSTED => 7
  | RTS_STATUS_ALREADY_INITIALIZED => 8 | RTS_STATUS_ALREADY_STARTED => 9 | RTS_STATUS_TIMEOUT => 10
  | RTS_STATUS_FULL => 11 | RTS_STATUS_PORT_ERROR => 12
  end.

Definition rts_power_idle `{PowerHooks} : K unit :=
  if negb RTS_ENABLE_TICKLESS_IDLE then ret tt else
  let* allowed := rts_power_sleep_is_allowed in
  if negb allowed then ret tt else
  let* token := rts_kernel_lock_enter in
  RTS_DIAG_COUNTER_INC tickless_sleep_attempts ;;;
  let* computed := rts_power_plan_compute in
  match computed with
  | Some (plan, true) =>
      rts_power_prepare_sleep (pp_sleep_ticks plan) ;;;
      rts_power_before_sleep (pp_sleep_ticks plan) ;;;
      RTS_TRACE RTS_TRACE_SLEEP_ENTER (pp_sleep_ticks plan) (power_source_value (pp_source plan)) ;;;
      let* '(status, elapsed_ticks, wake_source) := rts_port_power_sleep (pp_sleep_ticks plan) in
      let valid_result := bool_decide (status = RTS_STATUS_OK) && (elapsed_ticks <=? pp_sleep_ticks plan) &&
                          (wake_source <=? RTS_PORT_WAKE_OTHER) in
      when (bool_decide (status = RTS_STATUS_OK)) (RTS_ASSERT (ret valid_result)) ;;;
      if negb valid_result then
        RTS_DIAG_COUNTER_INC tickless_sleep_aborts ;;;
        RTS_TRACE RTS_TRACE_SLEEP_ABORT (status_value status) elapsed_ticks ;;;
        rts_kernel_lock_exit token
      else
      RTS_DIAG_COUNTER_INC tickless_sleep_entries ;;;
      rts_power_resume_from_sleep elapsed_ticks wake_source ;;;
      let* request_switch := (if negb (elapsed_ticks =? 0) then rts_kernel_time_skip elapsed_ticks
                              else ret false) in
      rts_power_record_wake elapsed_ticks wake_source ;;;
      rts_power_after_sleep elapsed_ticks wake_source ;;;
      RTS_TRACE RTS_TRACE_SLEEP_EXIT elapsed_ticks wake_source ;;;
      rts_kernel_lock_exit token ;;;
      notify_port_if request_switch
  | _ => rts_kernel_lock_exit token
  end.
End power_code.

(** ** The sleep never passes a deadline *)

(** Ticks until a deadline, none when it was reached. *)
Definition until (now deadline : Z) : Z :=
  if rts_tick_reached now deadline then 0 else ahead now deadline.

Lemma until_window base now d :
  is_u32 now → is_u32 d → ahead base now < RTS_TICK_HALF_RANGE → ahead base d < RTS_TICK_HALF_RANGE →
  until now d = Z.max 0 (ahead base d - ahead base now).
Proof.
  intros. unfold until. destruct (rts_tick_reached now d) eqn:E.
  - apply (rts_tick_reached_window base) in E; [lia|done..].
  - assert (¬ ahead base d ≤ ahead base now) as Hlt.
    { intros Hle. apply (rts_tick_reached_window base) in Hle; [congruence|done..]. }
    rewrite (ahead_shift base); lia.
Qed.

(** Before that many ticks have passed the deadline is not reached. *)
Lemma until_not_reached base now d k :
  is_u32 now → is_u32 d → ahead base now < RTS_TICK_HALF_RANGE → ahead base d < RTS_TICK_HALF_RANGE →
  0 ≤ k < until now d → rts_tick_reached (u32 (now + k)) d = false.
Proof.
  intros Hn Hd Hwn Hwd Hk. rewrite (until_window base) in Hk by done.
  pose proof (ahead_range base now). pose proof (ahead_range base d).
  assert (ahead base (u32 (now + k)) = ahead base now + k) as E.
  { unfold ahead in *. rewrite u32_u32_sub_l. replace (now + k - base) with ((now - base) + k) by lia.
    rewrite <- u32_u32_add. apply u32_small. unfold is_u32, RTS_TICK_HALF_RANGE, UINT32_MAX in *. lia. }
  destruct (rts_tick_reached (u32 (now + k)) d) eqn:Er; [|done].
  apply (rts_tick_reached_window base) in Er; [lia|apply u32_range|done| |done]. lia.
Qed.

Section power_specs.
Context `{ConfigOk}.

Definition plan_fits (now : Z) (plan : rts_power_plan) : Prop :=
  pp_current_tick plan = now ∧ pp_wake_tick plan = u32 (now + pp_sleep_ticks plan) ∧
  0 ≤ pp_sleep_ticks plan ≤ RTS_TICK_MAX_ADVANCE.

Lemma rts_power_consider_deadline_run base now d source plan s :
  is_u32 now → is_u32 d → ahead base now < RTS_TICK_HALF_RANGE → ahead base d < RTS_TICK_HALF_RANGE →
  plan_fits now plan →
  ∃ plan', rts_power_consider_deadline now d source plan s = Done plan' s ∧ plan_fits now plan' ∧
    pp_sleep_ticks plan' = Z.min (pp_sleep_ticks plan) (until now d) ∧
    (plan' = plan ∨ pp_source plan' = source ∧ pp_sleep_ticks plan' = until now d).
Proof.
  intros Hn Hd Hwn Hwd (Hc&Hw&Hr). unfold rts_power_consider_deadline.
  pose proof (until_window base now d Hn Hd Hwn Hwd) as Hu. unfold until in *.
  destruct (rts_tick_reached now d).
  - eexists. split; [done|]. unfold plan_fits. cbn. rewrite Z.add_0_r, u32_small by done.
    split_and!; [done..|unfold RTS_TICK_MAX_ADVANCE; lia|lia|by right].
  - fold (ahead now d). pose proof (ahead_range base now). pose proof (ahead_range now d).
    set (k := ahead now d) in *.
    unfold RTS_TICK_HALF_RANGE, RTS_TICK_MAX_ADVANCE, UINT32_MAX in *.
    rewrite assert_run by (cbn; unfold ret; rewrite (proj2 (Z.leb_le _ _)) by lia; done).
    rewrite (proj2 (Z.leb_le k _)) by lia. cbn [andb].
    destruct (Z.ltb_spec k (pp_sleep_ticks plan)); (eexists; split; [done|]);
      [|split_and!; [done..|lia|by left]].
    unfold plan_fits. cbn. split_and!; [done| |lia|unfold RTS_TICK_MAX_ADVANCE; lia|lia|by right].
    unfold k, ahead. rewrite Z.add_comm, u32_u32_add. replace (d - now + now) with d by lia.
    symmetry. by apply u32_small.
Qed.

(** The head of a sorted queue stands for all of it. *)
Lemma consider_first {A} base now source plan s (due : A → Z) (xs : list A) :
  is_u32 now → ahead base now < RTS_TICK_HALF_RANGE →
  (∀ x, x ∈ xs → is_u32 (due x) ∧ ahead base (due x) < RTS_TICK_HALF_RANGE) →
  StronglySorted (λ a b, ahead base (due a) ≤ ahead base (due b)) xs → plan_fits now plan →
  ∃ plan', (match due <$> head xs with
            | Some d => rts_power_consider_deadline now d source plan
            | None => ret plan
            end) s = Done plan' s ∧ plan_fits now plan' ∧
    pp_sleep_ticks plan' ≤ pp_sleep_ticks plan ∧
    (∀ x, x ∈ xs → pp_sleep_ticks plan' ≤ until now (due x)) ∧
    (plan' = plan ∨ pp_source plan' = source ∧ ∃ x, x ∈ xs ∧ pp_sleep_ticks plan' = until now (due x)).
Proof.
  intros Hn Hwn Hx Hs Hp. destruct xs as [|x xs]; cbn.
  { exists plan. split_and!; [done..|lia|by intros x ?%elem_of_nil|by left]. }
  destruct (Hx x ltac:(left)) as [Hd Hwd].
  destruct (rts_power_consider_deadline_run base now (due x) source plan s) as (plan'&Hr&Hp'&Hm&Hc); [done..|].
  exists plan'. split_and!; [done..|lia| |].
  - apply StronglySorted_inv in Hs as [_ Hs]. rewrite Forall_forall in Hs.
    intros y Hy. destruct (Hx y Hy). rewrite Hm, !(until_window base) by done.
    apply elem_of_cons in Hy as [->|Hy]; [lia|]. specialize (Hs y Hy). lia.
  - destruct Hc as [|[? ?]]; [by left|]. right. split; [done|]. exists x. split; [left|done].
Qed.

(** C24: While only the idle task is ready the planned sleep is the longest that
    misses nothing: it is bounded by the configured maximum and by the time to
    every delayed task and every armed timer, one of these bounds is met, the
    wake tick is that many ticks ahead, no delay or timer would expire at a
    tick that is slept through, and no sleep is planned exactly when something
    is already due. *)
Theorem power_plan_sleeps_until_first_deadline base s :
  delay_ok base s → timers_ok base s → is_u32 (k_current_tick s) →
  ahead base (k_current_tick s) < RTS_TICK_HALF_RANGE →
  rts_power_sleep_is_allowed s = Done true s →
  let now := k_current_tick s in
  ∃ plan, rts_power_plan_compute s = Done (Some (plan, negb (pp_sleep_ticks plan =? 0))) s ∧
    pp_wake_tick plan = u32 (now + pp_sleep_ticks plan) ∧
    0 ≤ pp_sleep_ticks plan ≤ RTS_TICKLESS_MAX_SLEEP_TICKS ∧
    (∀ t, t ∈ delay_list s → pp_sleep_ticks plan ≤ until now (wake_tick s t)) ∧
    (∀ i, i ∈ timer_list s → pp_sleep_ticks plan ≤ until now (expiration s i)) ∧
    match pp_source plan with
    | RTS_POWER_DEADLINE_MAINTENANCE => pp_sleep_ticks plan = RTS_TICKLESS_MAX_SLEEP_TICKS
    | RTS_POWER_DEADLINE_DELAY => ∃ t, t ∈ delay_list s ∧ pp_sleep_ticks plan = until now (wake_tick s t)
    | RTS_POWER_DEADLINE_TIMER => ∃ i, i ∈ timer_list s ∧ pp_sleep_ticks plan = until now (expiration s i)
    end ∧
    ∀ k, 0 ≤ k < pp_sleep_ticks plan →
      (∀ t, t ∈ delay_list s → rts_tick_reached (u32 (now + k)) (wake_tick s t) = false) ∧
      (∀ i, i ∈ timer_list s → rts_tick_reached (u32 (now + k)) (expiration s i) = false).
Proof.
  intros Hd Ht Hn Hw Hallow now.
  assert (∀ t, t ∈ delay_list s → is_u32 (wake_tick s t) ∧ ahead base (wake_tick s t) < RTS_TICK_HALF_RANGE) as Hdw
    by (split; [by apply (do_range base)|by apply (do_window base)]).
  assert (∀ i, i ∈ timer_list s → is_u32 (expiration s i) ∧ ahead base (expiration s i) < RTS_TICK_HALF_RANGE) as Htw
    by (split; [by apply (to_range base)|by apply (to_window base)]).
  pose proof cfg_max_sleep as Hmax.
  set (plan0 := mk_power_plan now (u32 (now + RTS_TICKLESS_MAX_SLEEP_TICKS)) RTS_TICKLESS_MAX_SLEEP_TICKS
                  RTS_POWER_DEADLINE_MAINTENANCE).
  assert (plan_fits now plan0) as Hp0.
  { split_and!; [done..| |]; cbn; unfold RTS_TICK_MAX_ADVANCE; lia. }
  destruct (consider_first base now RTS_POWER_DEADLINE_DELAY plan0 s (wake_tick s) (delay_list s))
    as (plan1&Hr1&H1&Hle1&Hall1&Hsrc1); [done..|apply Hd|done|].
  destruct (consider_first base now RTS_POWER_DEADLINE_TIMER plan1 s (expiration s) (timer_list s))
    as (plan2&Hr2&H2&Hle2&Hall2&Hsrc2); [done..|apply Ht|done|].
  pose proof H2 as (_&Hwake&Hpos). cbn [plan0 pp_sleep_ticks] in Hle1.
  assert (∀ t, t ∈ delay_list s → pp_sleep_ticks plan2 ≤ until now (wake_tick s t)) as Hall1'.
  { intros t Hin. specialize (Hall1 t Hin). lia. }
  exists plan2. split_and!; [|done|lia|lia|done..| |].
  - unfold rts_power_plan_compute. rewrite (bind_run _ _ _ _ _ Hallow). cbn [negb]. rewrite bind_gets.
    rewrite (bind_run _ _ _ _ _ (rts_delay_next_deadline_run s (do_lists _ _ Hd))).
    rewrite (bind_run _ _ _ _ _ Hr1).
    rewrite (bind_run _ _ _ _ _ (rts_timer_queue_next_deadline_run s (to_lists _ _ Ht))).
    by rewrite (bind_run _ _ _ _ _ Hr2).
  - destruct Hsrc2 as [->|(->&Hex)]; [|done].
    destruct Hsrc1 as [->|(->&Hex)]; done.
  - intros k Hk. split; intros x Hx.
    + destruct (Hdw x Hx). apply (until_not_reached base); [done..|]. specialize (Hall1' x Hx). lia.
    + destruct (Htw x Hx). apply (until_not_reached base); [done..|]. specialize (Hall2 x Hx). lia.
Qed.
End power_specs.

(** ** Witness: the idle task alone, one sleeper on the other side of the wrap-around *)

Section witnesses.
#[local] Existing Instance fp_config.

Definition idle_waits : kernel :=
  zero_kernel <| k_lifecycle := RTS_KERNEL_RUNNING |> <| k_current_tick := 4294967290 |>
    <| k_current_task := Some TIdle |> <| k_idle_task := Some TIdle |>
    <| k_tasks := <[TIdle := (inhabitant : rts_tcb) <| state := RTS_TASK_STATE_RUNNING |>]>
                  (<[TApp 0 := delayed_tcb 3]> ∅) |>.

Definition idle_alone : kernel := final_store (rts_ready_insert (Some TIdle)) idle_waits.
Definition idle_with_sleeper : kernel := final_store (rts_delay_insert (Some (TApp 0))) idle_alone.

Lemma idle_alone_lists : lists_ok (k_heap idle_alone).
Proof.
  destruct (wp_final (rts_ready_insert (Some TIdle)) (λ _ s', lists_ok (k_heap s')) idle_waits)
    as [_ Hok]; [|exact Hok].
  eapply wp_mono; [apply rts_ready_insert_spec|].
  - apply zero_ready_ok; [done|apply zero_lists_ok|done].
  - by left.
  - by vm_compute.
  - done.
  - intros [] s' [Hok _]. exact (ro_lists _ Hok).
Qed.

Lemma idle_with_sleeper_ok : delay_ok 4294967200 idle_with_sleeper.
Proof.
  destruct (wp_final (rts_delay_insert (Some (TApp 0))) (λ _ s', delay_ok 4294967200 s' ∧
    delay_list s' = insert_by (wake_in 4294967200 idle_alone) (TApp 0) (delay_list idle_alone))
    idle_alone) as [_ [Hok _]]; [|exact Hok].
  apply delay_insert_keeps; [|by apply all_tasks_app|by vm_compute..].
  split; [apply idle_alone_lists|by intros ? ?%elem_of_nil..|constructor].
Qed.

Lemma power_plan_sleeps_until_first_deadline_witness :
  ∃ plan, rts_power_plan_compute idle_with_sleeper = Done (Some (plan, true)) idle_with_sleeper ∧
    pp_sleep_ticks plan = 9 ∧ pp_wake_tick plan = 3.
Proof.
  destruct (power_plan_sleeps_until_first_deadline 4294967200 idle_with_sleeper) as (plan&Hr&_).
  - exact idle_with_sleeper_ok.
  - split; [apply idle_with_sleeper_ok|by intros ? ?%elem_of_nil..|constructor].
  - by vm_compute.
  - by vm_compute.
  - by vm_compute.
  - exists plan. assert (pp_sleep_ticks plan = 9 ∧ pp_wake_tick plan = 3) as [E1 E2].
    { vm_compute in Hr. injection Hr as <-. split; reflexivity. }
    rewrite E1 in Hr. split; [exact Hr|split; [exact E1|exact E2]].
Defined.
End witnesses.
