(* ===== verification/Init.v ===== *)
(** * Initialisation and start

    kernel/scheduler_init.c, kernel/scheduler_start.c and the start of the
    first task in ports/host/port_start.c. *)

From S2P Require Import Prelude Machine Config Types Links IntrusiveList KernelLists Time ReadyQueue.
From S2P Require Import DelayQueue HostPort Diagnostics TaskPool Policy PolicySpec WaitObject Scheduler.
From S2P Require Import SwitchSpec TaskApi CallbackQueue TimerQueue Timer.

Section init_code.
Context `{Config} `{Layout}.

Definition is_timer_node (n : node_ptr) : bool := match n with NTimer _ => true | _ => false end.
Definition is_timer_list (l : list_ptr) : bool := match l with LTimer => true | _ => false end.

(** [*kernel = (rts_kernel_state_t){0}]: the members of the kernel state, its
    two stacks among them; the nodes and list of the timers, the
    synchronisation objects, the trace and the port are other objects. *)
Definition zero_kernel_state (s : kernel) : kernel :=
  s <| k_tasks := ∅ |> <| k_wait_nodes := ∅ |> <| k_pool_allocated_count := 0 |>
    <| k_pool_next_free_hint := 0 |> <| k_lifecycle := RTS_KERNEL_RESET |> <| k_current_task := None |>
    <| k_idle_task := None |> <| k_switch_plan := zero_switch_plan |> <| k_timer_service_task := None |>
    <| k_ready_bitmap := ∅ |>
    <| k_heap := mk_list_heap
         (filter (λ p, is_timer_node p.1 = true) (h_nodes (k_heap s)))
         (filter (λ p, is_timer_list p.1 = true) (h_lists (k_heap s))) |>
    <| k_policy_release_sequence := 0 |> <| k_current_tick := 0 |> <| k_runtime_counters := ∅ |>.

Definition rts_kernel_restore_reset : K unit :=
  modify zero_kernel_state ;;;
  fill_memory addr_idle_stack (addr_idle_stack + RTS_IDLE_STACK_SIZE_BYTES) 0 ;;;
  fill_memory addr_timer_service_stack (addr_timer_service_stack + RTS_TIMER_SERVICE_STACK_SIZE_BYTES) 0 ;;;
  rts_timer_manager_initialize.

(** The members that rts_idle_object_initialize and
    rts_timer_service_object_initialize set alike. *)
Definition private_task_initialize (t : task_ptr) (low size entry_address : Z) (reason : rts_wait_reason_t)
    (prio rel : Z) (st : rts_task_state_t) (magic : Z) : K unit :=
  modify (upd_task t (λ x, x <| saved_stack_pointer := 0 |> <| stack_low := low |>
    <| stack_high := low + size |> <| entry := entry_address |> <| argument := 0 |>)) ;;;
  kheap (rts_list_node_initialize (Some (NReady t))) ;;;
  kheap (rts_list_node_initialize (Some (NDelay t))) ;;;
  clear_wait_node t ;;;
  modify (upd_task t (λ x, set_validation_magic_member magic (clear_diagnostics
    (x <| wait := mk_wait reason RTS_WAIT_RESULT_NONE 0 None false |>
       <| slice_remaining := RTS_TIME_SLICE_TICKS |>
       <| owned_mutex_head := None |> <| owned_mutex_tail := None |> <| owned_mutex_count := 0 |>
       <| base_priority := prio |> <| priority := prio |> <| period := rel |> <| relative_deadline := rel |>
       <| absolute_deadline := 0 |> <| release_tick := 0 |> <| execution_budget := 0 |>
       <| release_sequence := 0 |> <| state := st |> <| slot_state := RTS_TASK_SLOT_ALLOCATED |>)))).

Definition rts_idle_object_initialize : K unit :=
  private_task_initialize TIdle addr_idle_stack RTS_IDLE_STACK_SIZE_BYTES addr_idle_entry
    RTS_WAIT_NONE RTS_IDLE_PRIORITY 0 RTS_TASK_STATE_DORMANT 0.

Definition rts_timer_service_object_initialize : K unit :=
  private_task_initialize TTimerService addr_timer_service_stack RTS_TIMER_SERVICE_STACK_SIZE_BYTES
    addr_timer_service_entry RTS_WAIT_TIMER_SERVICE RTS_TIMER_SERVICE_PRIORITY 1
    RTS_TASK_STATE_BLOCKED RTS_TASK_VALIDATION_MAGIC ;;;
  modify (λ s, s <| k_timer_service_task := Some TTimerService |>).

Definition rts_init : K rts_status_t :=
  let* in_isr := rts_port_is_in_isr in
  if in_isr then RTS_ASSERT (ret (negb in_isr)) ;;; ret RTS_STATUS_INVALID_CONTEXT else
  let* lifecycle := gets k_lifecycle in
  if bool_decide (lifecycle = RTS_KERNEL_INITIALIZED) then ret RTS_STATUS_ALREADY_INITIALIZED else
  if bool_decide (lifecycle = RTS_KERNEL_RUNNING) then ret RTS_STATUS_ALREADY_STARTED else
  RTS_ASSERT (gets (λ s, bool_decide (k_lifecycle s = RTS_KERNEL_RESET))) ;;;
  if negb (bool_decide (lifecycle = RTS_KERNEL_RESET)) then ret RTS_STATUS_INVALID_STATE else
  let* critical_token := rts_kernel_lock_enter in
  let leave (status : rts_status_t) := rts_kernel_lock_exit critical_token ;;; ret status in
  let* lifecycle := gets k_lifecycle in
  if negb (bool_decide (lifecycle = RTS_KERNEL_RESET)) then
    leave (if bool_decide (lifecycle = RTS_KERNEL_RUNNING) then RTS_STATUS_ALREADY_STARTED
           else RTS_STATUS_ALREADY_INITIALIZED)
  else
  rts_kernel_restore_reset ;;;
  rts_task_pool_initialize ;;;
  rts_policy_initialize ;;;
  rts_delay_initialize ;;;
  let* port_status := rts_port_initialize in
  if negb (bool_decide (port_status = RTS_STATUS_OK)) then
    rts_kernel_restore_reset ;;; leave RTS_STATUS_PORT_ERROR
  else
  rts_timer_service_object_initialize ;;;
  let* service := gets (λ s, task s TTimerService) in
  rts_stack_diagnostics_prepare (stack_low service) (stack_high service) ;;;
  let* stack_result := rts_port_stack_initialize addr_timer_service_stack
    RTS_TIMER_SERVICE_STACK_SIZE_BYTES addr_timer_service_entry 0 in
  if negb (bool_decide (stack_result.1 = RTS_STATUS_OK)) || (stack_result.2 =? 0) then
    rts_kernel_restore_reset ;;; leave RTS_STATUS_PORT_ERROR
  else
  modify (upd_task TTimerService (λ x, x <| saved_stack_pointer := stack_result.2 |>)) ;;;
  rts_idle_object_initialize ;;;
  let* idle := gets (λ s, task s TIdle) in
  rts_stack_diagnostics_prepare (stack_low idle) (stack_high idle) ;;;
  let* stack_result := rts_port_stack_initialize addr_idle_stack RTS_IDLE_STACK_SIZE_BYTES
    addr_idle_entry 0 in
  if negb (bool_decide (stack_result.1 = RTS_STATUS_OK)) || (stack_result.2 =? 0) then
    rts_kernel_restore_reset ;;; leave RTS_STATUS_PORT_ERROR
  else
  modify (upd_task TIdle (λ x, x <| saved_stack_pointer := stack_result.2 |>)) ;;;
  let* inserted := rts_policy_insert (Some TIdle) in
  if negb inserted then
    rts_kernel_restore_reset ;;;
    rts_kernel_lock_exit critical_token ;;;
    RTS_FATAL_UNLESS (ret false) ;;;
    ret RTS_STATUS_PORT_ERROR
  else
  modify (upd_task TIdle (λ x, x <| state := RTS_TASK_STATE_READY |>)) ;;;
  modify (upd_task TIdle (set_validation_magic_member RTS_TASK_VALIDATION_MAGIC)) ;;;
  modify (λ s, s <| k_idle_task := Some TIdle |>) ;;;
  modify (λ s, s <| k_lifecycle := RTS_KERNEL_INITIALIZED |>) ;;;
  leave RTS_STATUS_OK.

(** kernel/scheduler_start.c *)
Definition rts_start_preflight_is_coherent : K bool :=
  gets (λ s, bool_decide (k_lifecycle s = RTS_KERNEL_INITIALIZED)) &&&
  (let* current := rts_scheduler_current_get in ret (bool_decide (current = None))) &&&
  gets (λ s, bool_decide (k_idle_task s = Some TIdle) &&
             bool_decide (state (task s TIdle) = RTS_TASK_STATE_READY)) &&&
  rts_policy_validate (Some TIdle) true &&&
  gets (λ s, bool_decide (k_timer_service_task s = Some TTimerService)) &&&
  rts_scheduler_task_is_blocked_wait (Some TTimerService) &&&
  gets (λ s, cq_count (k_callback_queue s) =? 0) &&&
  (let* picked := rts_policy_pick_next in ret (bool_decide (picked ≠ None))) &&&
  gets (λ s, (l_count (klist s LDelay) =? 0) &&
    negb (plan_pending (k_switch_plan s)) && negb (plan_active (k_switch_plan s)) &&
    bool_decide (plan_from (k_switch_plan s) = None) && bool_decide (plan_to (k_switch_plan s) = None)).

Definition rts_start_rollback : K unit :=
  modify (λ s, s <| k_lifecycle := RTS_KERNEL_INITIALIZED |>) ;;;
  RTS_FATAL_UNLESS rts_scheduler_current_release_initial ;;;
  RTS_FATAL_UNLESS (let* current := rts_scheduler_current_get in ret (bool_decide (current = None))) ;;;
  RTS_FATAL_UNLESS rts_scheduler_current_is_valid.

(** ports/host/port_start.c *)
Definition rts_port_start_first_task : K rts_status_t :=
  let* current := rts_scheduler_current_get in
  match current with
  | None => ret RTS_STATUS_INVALID_STATE
  | Some t =>
      let* refused :=
        gets (λ s, negb (host_start_request_count (k_port s) =? 0) ||
          negb (bool_decide (k_lifecycle s = RTS_KERNEL_RUNNING)) ||
          negb (bool_decide (state (task s t) = RTS_TASK_STATE_RUNNING)) ||
          (saved_stack_pointer (task s t) =? 0) ||
          negb (saved_stack_pointer (task s t) mod RTS_TASK_STACK_ALIGNMENT =? 0)) |||
        notM rts_scheduler_current_is_valid |||
        gets (λ s, plan_pending (k_switch_plan s) || plan_active (k_switch_plan s)) in
      if refused then ret RTS_STATUS_INVALID_STATE else
      let* fail := gets (λ s, host_fail_next_start (k_port s)) in
      if fail then
        modify (upd_port (λ p, p <| host_fail_next_start := false |>)) ;;; ret RTS_STATUS_PORT_ERROR
      else
      modify (upd_port (λ p, p <| host_start_request_count := 1 |>)) ;;;
      modify (upd_port (λ p, p <| host_start_task := Some t |>)) ;;;
      let* sp := gets (λ s, saved_stack_pointer (task s t)) in
      modify (upd_port (λ p, p <| host_start_saved_stack_pointer := sp |>)) ;;;
      modify (upd_port (λ p, p <| host_start_consumed := true |>)) ;;;
      ret RTS_STATUS_OK
  end.

Definition rts_start : K rts_status_t :=
  let* in_isr := rts_port_is_in_isr in
  if in_isr then RTS_ASSERT (notM rts_port_is_in_isr) ;;; ret RTS_STATUS_INVALID_CONTEXT else
  let* lifecycle := gets k_lifecycle in
  match lifecycle with
  | RTS_KERNEL_RESET => ret RTS_STATUS_INVALID_STATE
  | RTS_KERNEL_RUNNING => ret RTS_STATUS_ALREADY_STARTED
  | RTS_KERNEL_INITIALIZED =>
      let* critical_token := rts_kernel_lock_enter in
      let leave (status : rts_status_t) := rts_kernel_lock_exit critical_token ;;; ret status in
      let* lifecycle := gets k_lifecycle in
      if negb (bool_decide (lifecycle = RTS_KERNEL_INITIALIZED)) then
        leave (if bool_decide (lifecycle = RTS_KERNEL_RUNNING) then RTS_STATUS_ALREADY_STARTED
               else RTS_STATUS_INVALID_STATE)
      else
      let* coherent := rts_start_preflight_is_coherent in
      RTS_ASSERT (ret coherent) ;;;
      if negb coherent then leave RTS_STATUS_INVALID_STATE else
      let* selected := rts_scheduler_select_highest_ready in
      RTS_FATAL_UNLESS (ret (bool_decide (selected ≠ None))) ;;;
      match selected with
      | None => leave RTS_STATUS_INVALID_STATE
      | Some t =>
          RTS_FATAL_UNLESS (gets (λ s, bool_decide (state (task s t) = RTS_TASK_STATE_READY))) ;;;
          RTS_FATAL_UNLESS (rts_scheduler_task_is_runnable (Some t)) ;;;
          let* established :=
            gets (λ s, bool_decide (state (task s t) = RTS_TASK_STATE_READY)) &&&
            rts_scheduler_task_is_runnable (Some t) &&&
            rts_scheduler_current_establish (Some t) in
          if negb established then leave RTS_STATUS_INVALID_STATE else
          modify (λ s, s <| k_lifecycle := RTS_KERNEL_RUNNING |>) ;;;
          let* current := rts_scheduler_current_get in
          let* now := gets k_current_tick in
          rts_runtime_task_started current now ;;;
          RTS_DIAG_COUNTER_INC scheduler_starts ;;;
          let* c := deref current in
          let* prio := gets (λ s, priority (task s c)) in
          RTS_TRACE RTS_TRACE_SCHEDULER_STARTED prio 0 ;;;
          RTS_FATAL_UNLESS rts_scheduler_current_is_valid ;;;
          let* port_status := rts_port_tick_start in
          if negb (bool_decide (port_status = RTS_STATUS_OK)) then
            rts_port_tick_stop ;;; rts_start_rollback ;;; leave RTS_STATUS_PORT_ERROR
          else
          let* port_status := rts_port_start_first_task in
          if negb (bool_decide (port_status = RTS_STATUS_OK)) then
            rts_port_tick_stop ;;; rts_start_rollback ;;; leave RTS_STATUS_PORT_ERROR
          else
          leave RTS_STATUS_OK
      end
  end.
End init_code.
