(* ===== verification/InvariantCheck.v ===== *)
(** * The kernel's own consistency check (kernel/invariant_check.c)

    The code walks every structure of the kernel and answers whether they
    agree.  The model follows it test by test; the theorems relate the verdict
    of its synchronization part to the invariant of MutexSpec, and evaluate the
    whole check on runs of the kernel. *)

From S2P Require Import Prelude Machine Config Types Links IntrusiveList KernelLists Time ReadyQueue.
From S2P Require Import DelayQueue HostPort Diagnostics TaskPool Policy PolicySpec WaitObject Scheduler.
From S2P Require Import SwitchSpec TaskApi Semaphore Inheritance Mutex MutexSpec CallbackQueue TimerQueue.
From S2P Require Import Timer.

Section check_code.
Context `{Config}.
Implicit Types (task_arg : option task_ptr).

Definition rts_task_membership_is_valid (t : task_ptr) : K bool :=
  let* ready := rts_policy_validate (Some t) true in
  let* delayed := rts_delay_contains (Some t) in
  let* waiting := gets (λ s, bool_decide (w_owner (wait_node s t) ≠ None)) in
  let* current := rts_scheduler_current_get in
  gets (λ s,
    let x := task s t in
    match state x with
    | RTS_TASK_STATE_READY =>
        ready && negb delayed && negb waiting && bool_decide (wait_reason (wait x) = RTS_WAIT_NONE)
    | RTS_TASK_STATE_RUNNING =>
        bool_decide (Some t = current) && ready && negb delayed && negb waiting &&
        bool_decide (wait_reason (wait x) = RTS_WAIT_NONE)
    | RTS_TASK_STATE_DORMANT => false
    | RTS_TASK_STATE_BLOCKED =>
        if ready then false else
        match wait_reason (wait x) with
        | RTS_WAIT_TIMER_SERVICE =>
            rts_scheduler_task_is_timer_service s (Some t) && negb delayed && negb waiting &&
            bool_decide (wait_object (wait x) = None) && negb (wait_timeout_active (wait x))
        | RTS_WAIT_DELAY => delayed && negb waiting && negb (wait_timeout_active (wait x))
        | RTS_WAIT_SEMAPHORE | RTS_WAIT_MUTEX =>
            waiting && eqb delayed (wait_timeout_active (wait x)) && bool_decide (wait_object (wait x) ≠ None)
        | RTS_WAIT_NONE => false
        end
    end).

(** The conversions of [wait.object] to a semaphore and to a mutex. *)
Definition as_semaphore (o : option sync_ptr) : K (option Z) :=
  match o with
  | None => ret None | Some (SSemaphore p) => ret (Some p) | Some (SMutex _) => undefined
  end.
Definition as_mutex (o : option sync_ptr) : K (option Z) :=
  match o with
  | None => ret None | Some (SMutex p) => ret (Some p) | Some (SSemaphore _) => undefined
  end.

Definition rts_task_validate_internal task_arg : K bool :=
  if negb RTS_ENABLE_INVARIANT_CHECKS then ret true else
  match task_arg with
  | None => ret false
  | Some t =>
      let* refused :=
        gets (λ s, negb (bool_decide (slot_state (task s t) = RTS_TASK_SLOT_ALLOCATED)) ||
                   (priority (task s t) <? base_priority (task s t)) ||
                   (RTS_PRIORITY_COUNT <=? priority (task s t))) |||
        notM (rts_stack_guard_is_valid (Some t)) |||
        notM (rts_stack_saved_sp_is_valid (Some t)) |||
        notM (rts_task_membership_is_valid t) in
      if refused then ret false else
      let* w := gets (λ s, wait (task s t)) in
      let* refused :=
        match wait_reason w with
        | RTS_WAIT_SEMAPHORE =>
            let* object := as_semaphore (wait_object w) in
            notM (rts_semaphore_is_valid object) |||
            (let* p := deref object in notM (rts_wait_object_contains (SSemaphore p) (Some t)))
        | _ => ret false
        end in
      if refused then ret false else
      let* refused :=
        match wait_reason w with
        | RTS_WAIT_MUTEX =>
            let* object := as_mutex (wait_object w) in
            notM (rts_mutex_is_valid object) |||
            (let* p := deref object in notM (rts_wait_object_contains (SMutex p) (Some t)))
        | _ => ret false
        end in
      ret (negb refused)
  end.

(** The walk of rts_scheduler_validate_internal along the delay queue: [None]
    when a node is refused, else the final values of [node] and [count]. *)
Fixpoint delay_check_walk (nd : option node_ptr) (previous : option task_ptr) (count : Z) (fuel : nat) :
    K (option (option node_ptr * Z)) :=
  match fuel with
  | O => no_fuel
  | S fuel' =>
      match nd with
      | Some n =>
          if count <=? RTS_SCHEDULABLE_TASK_CAPACITY then
            let* r := gets (λ s, node s n) in
            match n_object r with
            | None => ret None
            | Some o =>
                let* t := object_task o in
                let* good := gets (λ s,
                  bool_decide (NDelay t = n) && bool_decide (n_owner r = Some LDelay) &&
                  negb (match previous with
                        | Some p => rts_tick_before (wait_wake_tick (wait (task s t))) (wait_wake_tick (wait (task s p)))
                        | None => false
                        end)) in
                if good then delay_check_walk (n_next r) (Some t) (Z.succ count) fuel' else ret None
            end
          else ret (Some (nd, count))
      | None => ret (Some (nd, count))
      end
  end.

Definition rts_scheduler_validate_internal : K bool :=
  if negb RTS_ENABLE_INVARIANT_CHECKS then ret true else
  let* lifecycle := gets k_lifecycle in
  let* current := rts_scheduler_current_get in
  if bool_decide (lifecycle = RTS_KERNEL_RESET) then
    gets (λ s, bool_decide (current = None) && bool_decide (k_idle_task s = None) &&
               bool_decide (k_timer_service_task s = None) && (k_pool_allocated_count s =? 0))
  else
  let* refused :=
    notM (rts_policy_validate None false) |||
    gets (λ s, bool_decide (k_idle_task s = None) || negb (bool_decide (k_idle_task s = Some TIdle))) |||
    (let* idle := gets k_idle_task in notM (rts_task_validate_internal idle)) |||
    gets (λ s, negb (bool_decide (k_timer_service_task s = Some TTimerService))) |||
    (let* service := gets k_timer_service_task in notM (rts_task_validate_internal service)) in
  if refused then ret false else
  let* refused := gets (λ s,
    (bool_decide (state (task s TTimerService) = RTS_TASK_STATE_BLOCKED) &&
     negb (cq_count (k_callback_queue s) =? 0)) ||
    (bool_decide (state (task s TTimerService) = RTS_TASK_STATE_READY) &&
     (cq_count (k_callback_queue s) =? 0))) in
  if refused then ret false else
  let* queue := gets (λ s, klist s LDelay) in
  let* walked := delay_check_walk (l_head queue) None 0 (Z.to_nat (RTS_SCHEDULABLE_TASK_CAPACITY + 3)) in
  match walked with
  | None => ret false
  | Some (nd, count) =>
      if negb (bool_decide (nd = None)) || negb (count =? l_count queue) then ret false else
      let running := bool_decide (lifecycle = RTS_KERNEL_RUNNING) in
      if running && bool_decide (current = None) then ret false else
      let* stranded :=
        match current with
        | Some c =>
            if running then
              gets (λ s, negb (bool_decide (state (task s c) = RTS_TASK_STATE_RUNNING))) &&&
              notM (gets (λ s, bool_decide (state (task s c) = RTS_TASK_STATE_BLOCKED) &&
                               (plan_pending (k_switch_plan s) || plan_active (k_switch_plan s))) &&&
                    (rts_scheduler_task_is_blocked_delay (Some c) |||
                     rts_scheduler_task_is_blocked_wait (Some c)))
            else ret false
        | None => ret false
        end in
      if stranded then ret false else
      gets (λ s, negb (plan_active (k_switch_plan s) && plan_pending (k_switch_plan s)))
  end.

(** The walk along the mutexes a blocked task waits for: does it end?  One
    iteration more than [chain_depth] allows is enough fuel. *)
Fixpoint wait_chain_check (t cursor : task_ptr) (chain_depth : Z) (fuel : nat) : K bool :=
  match fuel with
  | O => no_fuel
  | S fuel' =>
      let* blocked := gets (λ s, bool_decide (state (task s cursor) = RTS_TASK_STATE_BLOCKED) &&
                                 bool_decide (wait_reason (wait (task s cursor)) = RTS_WAIT_MUTEX)) in
      if negb blocked then ret true else
      let* waited_mutex := (let* o := gets (λ s, wait_object (wait (task s cursor))) in as_mutex o) in
      let* valid := rts_mutex_is_valid waited_mutex in
      if negb valid then ret false else
      let* p := deref waited_mutex in
      let* owner_arg := gets (λ s, mtx_owner (mutex s p)) in
      match owner_arg with
      | None => ret false
      | Some owner =>
          let* refused := gets (λ s,
            bool_decide (owner = t) ||
            (negb (rts_task_handle_is_application_task (Some owner)) &&
             negb (bool_decide (Some owner = k_idle_task s)) &&
             negb (bool_decide (Some owner = k_timer_service_task s)))) in
          if refused then ret false else
          if RTS_SCHEDULABLE_TASK_CAPACITY <? Z.succ chain_depth then ret false else
          wait_chain_check t owner (Z.succ chain_depth) fuel'
      end
  end.

(** The walk along the mutexes of [t]: [None] when one is refused, else the
    final values of [mutex], [owned] and [required]; [fuel] is what is left of
    the bound on [owned]. *)
Fixpoint owned_check_walk (t : task_ptr) (mutex_arg : option Z) (owned required : Z) (fuel : nat) :
    K (option (option Z * Z * Z)) :=
  match mutex_arg, fuel with
  | Some p, S fuel' =>
      let* refused := notM (rts_mutex_is_valid (Some p)) |||
                      gets (λ s, negb (bool_decide (mtx_owner (mutex s p) = Some t))) in
      if refused then ret None else
      let* required' := gets (λ s,
        match wo_head (waiters s (SMutex p)) with
        | Some w => if required <? priority (task s w) then priority (task s w) else required
        | None => required
        end) in
      let* next := gets (λ s, mtx_owned_next (mutex s p)) in
      owned_check_walk t next (Z.succ owned) required' fuel'
  | _, _ => ret (Some (mutex_arg, owned, required))
  end.

(** The part of the loop body that rts_sync_validate_internal repeats for the
    timer service. *)
Definition owned_check (t : task_ptr) : K bool :=
  let* base := gets (λ s, base_priority (task s t)) in
  let* head := gets (λ s, owned_mutex_head (task s t)) in
  let* walked := owned_check_walk t head 0 base (Z.to_nat RTS_MAX_MUTEXES_PER_TASK) in
  match walked with
  | None => ret false
  | Some (mutex_arg, owned, required) =>
      gets (λ s, bool_decide (mutex_arg = None) && (owned =? owned_mutex_count (task s t)) &&
                 (required =? priority (task s t)))
  end.

Definition sync_slot_check (index : Z) : K bool :=
  let t := TApp index in
  let* allocated := gets (λ s, bool_decide (slot_state (task s t) = RTS_TASK_SLOT_ALLOCATED)) in
  if negb allocated then ret true else
  wait_chain_check t t 0 (Z.to_nat (RTS_SCHEDULABLE_TASK_CAPACITY + 2)) &&& owned_check t.

Definition rts_sync_validate_internal : K bool :=
  if negb RTS_ENABLE_INVARIANT_CHECKS then ret true else
  let* reset := gets (λ s, bool_decide (k_lifecycle s = RTS_KERNEL_RESET)) in
  if reset then ret true else
  let* applications := all_of (seqZ 0 RTS_MAX_TASKS) sync_slot_check in
  if negb applications then ret false else
  let* service := gets k_timer_service_task in
  match service with
  | None => ret false
  | Some t => owned_check t
  end.

(** The loop over the slots: [None] when a slot is refused, else [allocated]. *)
Fixpoint slots_check (slots : list Z) (allocated : Z) : K (option Z) :=
  match slots with
  | [] => ret (Some allocated)
  | index :: slots' =>
      let* st := gets (λ s, slot_state (task s (TApp index))) in
      match st with
      | RTS_TASK_SLOT_ALLOCATED =>
          let* valid := rts_task_validate_internal (Some (TApp index)) in
          if negb valid then ret None else slots_check slots' (Z.succ allocated)
      | RTS_TASK_SLOT_FREE | RTS_TASK_SLOT_RESERVED => slots_check slots' allocated
      end
  end.

Definition rts_kernel_validate_all : K bool :=
  if negb RTS_ENABLE_INVARIANT_CHECKS then ret true else
  let* refused :=
    notM rts_scheduler_validate_internal ||| notM rts_sync_validate_internal |||
    notM rts_timer_manager_validate in
  if refused then ret false else
  let* walked := slots_check (seqZ 0 RTS_MAX_TASKS) 0 in
  match walked with
  | None => ret false
  | Some allocated => gets (λ s, allocated =? k_pool_allocated_count s)
  end.
End check_code.

(** ** The synchronization check decides the invariant of MutexSpec *)

(** A loop of tests that are read-only and decided by [P]. *)
Lemma all_of_decides {S A} (l : list A) (body : A → M S bool) (P : A → Prop) s :
  (∀ x, x ∈ l → ∃ b, body x s = Done b s ∧ (b = true ↔ P x)) →
  ∃ b, all_of l body s = Done b s ∧ (b = true ↔ ∀ x, x ∈ l → P x).
Proof.
  induction l as [|x l IH]; intros Hl; cbn [all_of].
  { exists true. split; [done|]. split; [intros _ x Hx; set_solver|done]. }
  destruct (Hl x) as (b&Hb&Hx); [left|]. rewrite (bind_run _ _ _ _ _ Hb).
  destruct IH as (b'&Hb'&Hi); [intros y Hy; apply Hl; by right|].
  destruct b.
  - exists b'. split; [done|]. rewrite Hi. split; [|set_solver].
    intros H y [->|Hy]%elem_of_cons; [by apply Hx|auto].
  - exists false. split; [done|]. split; [done|]. intros H. exfalso.
    destruct Hx as [_ Hx]. specialize (Hx (H x ltac:(left))). done.
Qed.

Section sync_check.
Context `{ConfigOk}.

(** Initialised mutexes, and no task waits for a mutex that nobody holds. *)
Record mutexes_ok (s : kernel) : Prop := {
  mo_init p : mtx_owner (mutex s p) ≠ None →
    mtx_identity (mutex s p) = Some p ∧ mtx_signature (mutex s p) = RTS_MUTEX_SIGNATURE;
  mo_held p : waiting s (SMutex p) ≠ [] → mtx_owner (mutex s p) ≠ None
}.

Lemma waited_held s :
  waits_ok s → (∀ t p, w_owner (wait_node s t) = Some (SMutex p) → mtx_owner (mutex s p) ≠ None) →
  ∀ p, waiting s (SMutex p) ≠ [] → mtx_owner (mutex s p) ≠ None.
Proof.
  intros Hw Hh p Hne. destruct (waiting s (SMutex p)) as [|t ts] eqn:E; [done|]. apply (Hh t).
  apply (ww_owner s (wok_wf s Hw)). rewrite E. left.
Qed.

Lemma held_mutex_is_valid s t p :
  owns_ok s → waits_ok s → mutexes_ok s → mtx_owner (mutex s p) = Some t →
  rts_mutex_is_valid (Some p) s = Done true s.
Proof.
  intros Hok Hw Hm Ho. destruct (mo_init s Hm p) as [Hi Hsig]; [congruence|].
  destruct (owned_split s t p) as (l1&l2&E); [done..|].
  destruct (owned_node s t l1 p l2 Hok E) as (Hp&_&_).
  unfold rts_mutex_is_valid, andM. rewrite bind_bind, bind_gets, bool_decide_true, Hsig by done.
  cbn [Z.eqb andb]. rewrite Z.eqb_refl.
  rewrite (bind_run _ _ _ _ _ (rts_wait_object_validate_run s (wok_wf s Hw) _ (wok_sorted s Hw _))).
  unfold gets. rewrite Ho. f_equal. apply orb_true_iff. rewrite !bool_decide_eq_true.
  destruct l1 as [|q l1]; [left|right].
  - destruct (oo_rep s Hok t) as [_ -> _ _ _]. by rewrite E.
  - rewrite Hp, last_or_cons. by intros ?%last_or_None.
Qed.

(** The mutexes of one task. *)
Lemma owned_check_walk_run s t l1 l2 r fuel :
  owns_ok s → waits_ok s → mutexes_ok s → owned s t = l1 ++ l2 → (length l2 ≤ fuel)%nat →
  owned_check_walk t (head l2) (Z.of_nat (length l1)) r fuel s =
  Done (Some (None, Z.of_nat (length (l1 ++ l2)),
    foldr Z.max r (l2 ≫= λ p, (λ u, priority (task s u)) <$> waiting s (SMutex p)))) s.
Proof.
  intros Hok Hw Hm. revert l1 r fuel.
  induction l2 as [|p l2 IH]; intros l1 r fuel E Hf; cbn [head]; [by destruct fuel; rewrite app_nil_r|].
  destruct fuel as [|fuel]; [cbn in Hf; lia|]. cbn [owned_check_walk].
  destruct (owned_node s t l1 p l2 Hok E) as (_&Hx&Ho).
  unfold orM, notM. rewrite !bind_bind, (bind_run _ _ _ _ _ (held_mutex_is_valid s t p Hok Hw Hm Ho)), bind_ret.
  cbn [negb]. rewrite bind_gets, bool_decide_true by done. cbn [negb]. rewrite !bind_gets, Hx, first_or_head.
  specialize (IH (l1 ++ [p])). rewrite length_app, <- app_assoc in IH. cbn [length app] in IH.
  replace (Z.of_nat (length l1 + 1)) with (Z.succ (Z.of_nat (length l1))) in IH by lia.
  rewrite IH by (done || cbn in Hf; lia). do 3 f_equal.
  rewrite (ww_storage s (wok_wf s Hw)). cbn [wo_head]. rewrite first_or_head.
  apply (demand_step s r p l2), (wok_sorted s Hw).
Qed.

Lemma owned_check_run s t :
  owns_ok s → waits_ok s → mutexes_ok s →
  owned_check t s = Done (priority (task s t) =? required s t) s.
Proof.
  intros Hok Hw Hm. unfold owned_check. rewrite !bind_gets. destruct (oo_rep s Hok t) as [_ -> _ Hc Hb].
  rewrite first_or_head. assert (length (owned s t) ≤ Z.to_nat RTS_MAX_MUTEXES_PER_TASK)%nat as Hn by lia.
  rewrite (bind_run _ _ _ _ _ (owned_check_walk_run s t [] (owned s t) _ _ Hok Hw Hm eq_refl Hn)).
  cbn [app]. unfold gets. rewrite Hc, Z.eqb_refl, bool_decide_true by done. f_equal. apply Z.eqb_sym.
Qed.

(** Chains end, and from each task there is one chain. *)
Lemma wait_chain_unique s t l l' : wait_chain s t l → wait_chain s t l' → l = l'.
Proof.
  intros Hc. revert l'. induction Hc as [t Hb|t u l Hb Hc IH Hn]; intros l' Hc'; inversion Hc'; subst; try congruence.
  f_equal. apply IH. congruence.
Qed.

Lemma wait_chain_suffix s t l u : wait_chain s t l → u ∈ l → ∃ l', wait_chain s u l' ∧ (length l' ≤ length l)%nat.
Proof.
  intros Hc. induction Hc as [t Hb|t v l Hb Hc IH Hn]; intros Hu.
  - apply list_elem_of_singleton in Hu as ->. exists [t]. split; [by constructor|done].
  - apply elem_of_cons in Hu as [->|Hu].
    + exists (t :: l). split; [by econstructor|done].
    + destruct (IH Hu) as (l'&?&?). exists l'. split; [done|cbn; lia].
Qed.

(** A task whose blocker has a chain is not on it. *)
Lemma wait_chain_cons s t u l : blocker s t = Some u → wait_chain s u l → wait_chain s t (t :: l).
Proof.
  intros Hb Hc. econstructor; [done..|]. intros Hin.
  destruct (wait_chain_suffix s u l t Hc Hin) as (l'&Hc'&Hlen). inversion Hc'; subst; [congruence|].
  assert (l0 = l) as -> by (eapply wait_chain_unique; [eassumption|congruence]). cbn in Hlen. lia.
Qed.

(** The mutex that a task waits for is valid and has an owner. *)
Lemma blocked_owner s t p :
  inherit_ok s → mutexes_ok s → state (task s t) = RTS_TASK_STATE_BLOCKED →
  wait_reason (wait (task s t)) = RTS_WAIT_MUTEX → wait_object (wait (task s t)) = Some (SMutex p) →
  ∃ u, mtx_owner (mutex s p) = Some u ∧ blocker s t = Some u ∧ created s u ∧
    rts_mutex_is_valid (Some p) s = Done true s.
Proof.
  intros Hio Hm Hs Hr Ho. assert (t ∈ waiting s (SMutex p)) as Hin.
  { rewrite (ww_owner s (wok_wf s (io_waits s Hio))), (io_waiter s Hio). unfold rts_priority_waiters_for.
    by rewrite Hr, Ho. }
  destruct (mtx_owner (mutex s p)) as [u|] eqn:Eu.
  2: { destruct (mo_held s Hm p); [intros E; rewrite E in Hin; set_solver|done]. }
  exists u. split_and!; [done| |by apply (io_owner s Hio p)|].
  - unfold blocker. rewrite Ho, !bool_decide_true by done. done.
  - eapply held_mutex_is_valid; [apply Hio..|done|exact Eu].
Qed.

Lemma application_handle t : application t → rts_task_handle_is_application_task (Some t) = true.
Proof.
  intros (i&->&Hi). apply existsb_exists. exists i. rewrite bool_decide_true by done.
  split; [apply list_elem_of_In, elem_of_seqZ; lia|done].
Qed.

Lemma wait_chain_check_run s t cursor d fuel :
  inherit_ok s → mutexes_ok s → 0 ≤ d ≤ RTS_SCHEDULABLE_TASK_CAPACITY →
  RTS_SCHEDULABLE_TASK_CAPACITY + 1 - d < Z.of_nat fuel →
  ∃ b, wait_chain_check t cursor d fuel s = Done b s ∧
    (b = true → ∃ l, wait_chain s cursor l) ∧
    (∀ l, wait_chain s cursor (cursor :: l) → t ∉ l → d + Z.of_nat (length l) ≤ RTS_SCHEDULABLE_TASK_CAPACITY → b = true).
Proof.
  intros Hio Hm. revert cursor d. induction fuel as [|fuel IH]; intros cursor d Hd Hf; [lia|].
  cbn [wait_chain_check]. rewrite bind_gets.
  case_bool_decide as E1; cbn [andb negb]; [case_bool_decide as E2; cbn [negb]|].
  2,3: exists true; split_and!; [done| |done]; intros _; exists [cursor]; constructor; unfold blocker;
    rewrite ?(bool_decide_false _ E1), ?(bool_decide_false _ E2), ?andb_false_r; done.
  destruct (io_object s Hio cursor E2) as [p Hp].
  destruct (blocked_owner s cursor p Hio Hm E1 E2 Hp) as (u&Ho&Hb&[(i&->&Hi) _]&Hv).
  rewrite bind_bind, bind_gets, Hp. cbn [as_mutex]. rewrite bind_ret, (bind_run _ _ _ _ _ Hv). cbn [negb deref].
  rewrite bind_ret, bind_gets, Ho, bind_gets.
  rewrite (application_handle (TApp i)) by (by exists i).
  cbn [negb andb]. rewrite orb_false_r.
  case_bool_decide as Et.
  { exists false. split_and!; [done..|]. intros l Hc Hn _. exfalso. apply Hn.
    inversion Hc; subst; [congruence|]. assert (u = TApp i) as -> by congruence. by eapply wait_chain_head. }
  destruct (Z.ltb_spec RTS_SCHEDULABLE_TASK_CAPACITY (Z.succ d)).
  { exists false. split_and!; [done..|]. intros l Hc _ Hl. exfalso.
    inversion Hc as [|? ? l' ? Hc']; subst; [congruence|]. destruct l; [inversion Hc'|cbn in Hl; lia]. }
  destruct (IH (TApp i) (Z.succ d)) as (b&Hrun&Hs&Hc); [lia..|]. exists b. split_and!; [done| |].
  - intros Hbt. destruct (Hs Hbt) as [l Hl]. exists (cursor :: l). by eapply wait_chain_cons.
  - intros l Hcl Hn Hl. inversion Hcl as [|? v l' Hv' Hc']; subst; [congruence|].
    assert (v = TApp i) as -> by congruence. inversion Hc'; subst; cbn in Hl; (apply (Hc _ Hc'); [set_solver|cbn; lia]).
Qed.

Lemma sync_slot_check_run s i :
  inherit_ok s → mutexes_ok s →
  0 ≤ i < RTS_MAX_TASKS →
  ∃ b, sync_slot_check i s = Done b s ∧ (b = true ↔
    (created s (TApp i) → (∃ l, wait_chain s (TApp i) l) ∧ priority (task s (TApp i)) = required s (TApp i))).
Proof.
  intros Hio Hm Hi. assert (application (TApp i)) as Ha by by exists i.
  unfold sync_slot_check. rewrite bind_gets. case_bool_decide as Hs; cbn [negb].
  2: { exists true. split; [done|]. split; [|done]. intros _ [_ ?]. done. }
  destruct (wait_chain_check_run s (TApp i) (TApp i) 0 (Z.to_nat (RTS_SCHEDULABLE_TASK_CAPACITY + 2)))
    as (b&Hb&Hsound&Hcomplete); [done..|unfold RTS_SCHEDULABLE_TASK_CAPACITY; lia|unfold RTS_SCHEDULABLE_TASK_CAPACITY; lia|].
  assert (∀ l, wait_chain s (TApp i) l → b = true) as Hc.
  { intros l Hc. pose proof (wait_chain_length s _ l Hio (conj Ha Hs) Hc) as Hlen.
    pose proof (wait_chain_nodup _ _ _ Hc) as Hnd.
    inversion Hc; subst; (eapply Hcomplete; [exact Hc|by apply NoDup_cons in Hnd as [? _]|cbn in *; lia]). }
  exists (b && (priority (task s (TApp i)) =? required s (TApp i))). split.
  { apply andM_run; [done|]. intros _. apply owned_check_run; [apply Hio..|done]. }
  rewrite andb_true_iff, Z.eqb_eq. split; [naive_solver|].
  intros Hx. destruct (Hx (conj Ha Hs)) as [[l Hl] ?]. eauto.
Qed.

(** C23: The kernel's own check of its mutexes is exact.  On a store whose lists
    are well formed, rts_sync_validate_internal returns, changes nothing, and
    answers true exactly when from every created task the chain of tasks that
    wait for one another ends (there is no deadlock), every created task runs
    at the maximum of its base priority and of the priorities of all tasks
    waiting for its mutexes, and so does the timer service. *)
Theorem sync_validation_exact s :
  inherit_ok s → mutexes_ok s → RTS_ENABLE_INVARIANT_CHECKS = true → k_lifecycle s ≠ RTS_KERNEL_RESET →
  k_timer_service_task s = Some TTimerService →
  ∃ b, rts_sync_validate_internal s = Done b s ∧
    (b = true ↔
      (∀ t, created s t → (∃ l, wait_chain s t l) ∧ priority (task s t) = required s t) ∧
      priority (task s TTimerService) = required s TTimerService).
Proof.
  intros Hio Hm Hen Hl Hsv. unfold rts_sync_validate_internal. rewrite Hen. cbn [negb].
  rewrite bind_gets, bool_decide_false by done.
  destruct (all_of_decides (seqZ 0 RTS_MAX_TASKS) sync_slot_check
    (λ i, created s (TApp i) → (∃ l, wait_chain s (TApp i) l) ∧ priority (task s (TApp i)) = required s (TApp i)) s)
    as (b&Hb&Hiff).
  { intros i Hi%elem_of_seqZ. apply sync_slot_check_run; [done..|lia]. }
  rewrite (bind_run _ _ _ _ _ Hb). destruct b; cbn [negb].
  - rewrite bind_gets, Hsv, (owned_check_run s) by (apply Hio || done).
    eexists. split; [done|]. rewrite Z.eqb_eq. split; [|naive_solver]. intros Hp. split; [|done].
    intros t Hc. pose proof Hc as [(i&->&Hi) _]. apply (proj1 Hiff eq_refl); [apply elem_of_seqZ; lia|done].
  - exists false. split; [done|]. split; [done|]. intros [Hall _]. apply Hiff. auto.
Qed.
End sync_check.

(** ** Witness: the check notices that a task has not inherited yet *)

Section witnesses.
#[local] Existing Instance fp_config.

Lemma chain_waits_mutexes : mutexes_ok chain_waits.
Proof.
  split.
  - intros p Ho. pose proof (mutexes_forall chain_waits (λ p m, bool_decide (mtx_owner m = None) ||
      bool_decide (mtx_identity m = Some p) && (mtx_signature m =? RTS_MUTEX_SIGNATURE))
      ltac:(done) ltac:(by vm_compute) p) as Hb.
    apply orb_true_iff in Hb as [Hb%bool_decide_eq_true|Hb]; [contradiction|].
    apply andb_true_iff in Hb as [Hi%bool_decide_eq_true Hs%Z.eqb_eq]. split; assumption.
  - apply (waited_held _ chain_waits_ok). intros t p Hin.
    pose proof (tasks_forall chain_waits (λ _ _ n, match w_owner n with
      | Some (SMutex p) => bool_decide (mtx_owner (mutex chain_waits p) ≠ None) | _ => true end)
      ltac:(done) ltac:(by vm_compute) t) as Hb.
    cbn beta in Hb. rewrite Hin in Hb. exact (bool_decide_eq_true_1 _ Hb).
Qed.

Lemma sync_validation_exact_witness : rts_sync_validate_internal chain_waits = Done false chain_waits.
Proof.
  destruct (sync_validation_exact chain_waits chain_waits_inherit chain_waits_mutexes eq_refl
    ltac:(by vm_compute) ltac:(by vm_compute)) as (b&Hb&Hiff).
  destruct b; [exfalso|exact Hb].
  destruct (proj1 Hiff eq_refl) as [Hall _]. destruct (Hall (TApp 1)) as [_ Hp].
  - split; [apply app_in_range; lia|vm_compute; reflexivity].
  - vm_compute in Hp. discriminate Hp.
Defined.
End witnesses.
