(* ===== verification/Cortex.v ===== *)
(** * The Cortex-M4F processor and the S32K148 board

    What the assembly and the register accesses of ports/arm/cortex_m4f and
    targets/nxp/s32k148 act on: the core registers with the two stack pointers,
    the interrupt mask, the memory-mapped registers, and the static objects of
    the port and the target.  Exception entry and return are those of the ARMv7-M
    architecture for a task without floating-point context. *)

From S2P Require Import Prelude Machine Config Types HostPort.

(** ** Memory-mapped registers *)

Inductive soc_register :=
  | SysTick_CTRL | SysTick_LOAD | SysTick_VAL
  | SCB_SHP (index : Z) | SCB_CCR | SCB_CPACR | SCB_ICSR | SCB_VTOR | SCB_CFSR | SCB_HFSR | SCB_DFSR | SCB_SHCSR
  | SCB_MMFAR | SCB_BFAR
  | FPU_FPCCR
  | LPTMR0_CSR | LPTMR0_PSR | LPTMR0_CMR | LPTMR0_CNR | PCC_LPTMR0
  | DWT_CYCCNT | DWT_CTRL | CoreDebug_DEMCR
  | PCC_PORTE | PORTE_PCR21 | GPIOE_PSOR | GPIOE_PCOR | GPIOE_PTOR | GPIOE_PDDR
  | NVIC_PRIORITY (irq : Z) | NVIC_ENABLED (irq : Z) | NVIC_PENDING (irq : Z).

#[export] Instance soc_register_eq_dec : EqDecision soc_register.
Proof. solve_decision. Defined.
#[export] Instance soc_register_countable : Countable soc_register.
Proof.
  set (enc r := match r with
    | SysTick_CTRL => (0, 0) | SysTick_LOAD => (1, 0) | SysTick_VAL => (2, 0) | SCB_SHP i => (3, i) | SCB_CCR => (4, 0)
    | SCB_CPACR => (5, 0) | SCB_ICSR => (6, 0) | SCB_VTOR => (7, 0) | SCB_CFSR => (8, 0) | SCB_HFSR => (9, 0)
    | SCB_DFSR => (10, 0) | SCB_SHCSR => (11, 0) | SCB_MMFAR => (12, 0) | SCB_BFAR => (13, 0) | FPU_FPCCR => (14, 0)
    | LPTMR0_CSR => (15, 0) | LPTMR0_PSR => (16, 0) | LPTMR0_CMR => (17, 0) | LPTMR0_CNR => (18, 0)
    | PCC_LPTMR0 => (19, 0) | DWT_CYCCNT => (20, 0) | DWT_CTRL => (21, 0) | CoreDebug_DEMCR => (22, 0)
    | PCC_PORTE => (23, 0) | PORTE_PCR21 => (24, 0) | GPIOE_PSOR => (25, 0) | GPIOE_PCOR => (26, 0)
    | GPIOE_PTOR => (27, 0) | GPIOE_PDDR => (28, 0) | NVIC_PRIORITY i => (29, i) | NVIC_ENABLED i => (30, i)
    | NVIC_PENDING i => (31, i)
    end).
  set (dec (p : Z * Z) := match p.1 with
    | 0 => SysTick_CTRL | 1 => SysTick_LOAD | 2 => SysTick_VAL | 3 => SCB_SHP p.2 | 4 => SCB_CCR | 5 => SCB_CPACR
    | 6 => SCB_ICSR | 7 => SCB_VTOR | 8 => SCB_CFSR | 9 => SCB_HFSR | 10 => SCB_DFSR | 11 => SCB_SHCSR
    | 12 => SCB_MMFAR | 13 => SCB_BFAR | 14 => FPU_FPCCR | 15 => LPTMR0_CSR | 16 => LPTMR0_PSR | 17 => LPTMR0_CMR
    | 18 => LPTMR0_CNR | 19 => PCC_LPTMR0 | 20 => DWT_CYCCNT | 21 => DWT_CTRL | 22 => CoreDebug_DEMCR
    | 23 => PCC_PORTE | 24 => PORTE_PCR21 | 25 => GPIOE_PSOR | 26 => GPIOE_PCOR | 27 => GPIOE_PTOR
    | 28 => GPIOE_PDDR | 29 => NVIC_PRIORITY p.2 | 30 => NVIC_ENABLED p.2 | _ => NVIC_PENDING p.2
    end).
  apply (inj_countable' enc dec). by intros [].
Defined.

(** The device is not in the repository: what a register holds after a write,
    what a read finds in it, the masks of the vendor's headers and the addresses
    the linker gives the vectors are parameters. *)
Class Device := {
  latch : soc_register → Z → Z → Z;    (* register, value written, value held before *)
  sample : soc_register → nat → Z → Z;  (* register, number of the read, value held *)
  SysTick_CTRL_CLKSOURCE_Msk : Z;
  SysTick_CTRL_TICKINT_Msk : Z;
  SysTick_CTRL_ENABLE_Msk : Z;
  CONTROL_SPSEL_Msk : Z;
  CONTROL_FPCA_Msk : Z;
  SCB_CCR_STKALIGN_Msk : Z;
  SCB_CPACR_CP10_Msk : Z;
  SCB_CPACR_CP11_Msk : Z;
  FPU_FPCCR_ASPEN_Msk : Z;
  FPU_FPCCR_LSPEN_Msk : Z;
  SCB_ICSR_PENDSVCLR_Msk : Z;
  SCB_ICSR_NMIPENDSET_Msk : Z;
  DWT_CTRL_CYCCNTENA_Msk : Z;
  CoreDebug_DEMCR_TRCENA_Msk : Z;
  PCC_PCCn_CGC_MASK : Z;
  LPTMR_PSR_PCS : Z → Z;
  LPTMR_PSR_PBYP_MASK : Z;
  LPTMR_CSR_TCF_MASK : Z;
  LPTMR_CSR_TIE_MASK : Z;
  LPTMR_CSR_TEN_MASK : Z;
  LPTMR0_IRQn : Z;
  addr_vectors : Z;
  g_pfnVectors : Z → Z;
  addr_SVC_Handler : Z;
  addr_PendSV_Handler : Z;
  addr_SysTick_Handler : Z;
  addr_LPTMR0_IRQHandler : Z
}.

(** ** Static objects of the port and the target *)

(** rts_cm4f_switch_handoff_t of port_switch.h. *)
Record rts_cm4f_switch_handoff := mk_switch_handoff {
  handoff_from : option task_ptr;
  handoff_to : option task_ptr;
  handoff_snapshot : rts_switch_snapshot;
  handoff_outgoing_saved_stack_pointer : Z;
  handoff_incoming_saved_stack_pointer : Z
}.
#[export] Instance rts_cm4f_switch_handoff_eta : Eta rts_cm4f_switch_handoff := λ x,
  mk_switch_handoff (x.(handoff_from)) (x.(handoff_to)) (x.(handoff_snapshot)) (x.(handoff_outgoing_saved_stack_pointer)) (x.(handoff_incoming_saved_stack_pointer)).
#[export] Instance set_handoff_from : Setter handoff_from. Proof. solve_setter. Defined.
#[export] Instance set_handoff_to : Setter handoff_to. Proof. solve_setter. Defined.
#[export] Instance set_handoff_snapshot : Setter handoff_snapshot. Proof. solve_setter. Defined.
#[export] Instance set_handoff_outgoing_saved_stack_pointer : Setter handoff_outgoing_saved_stack_pointer. Proof. solve_setter. Defined.
#[export] Instance set_handoff_incoming_saved_stack_pointer : Setter handoff_incoming_saved_stack_pointer. Proof. solve_setter. Defined.

(** rts_cm4f_start_handoff_t of port_internal.h. *)
Record rts_cm4f_start_handoff := mk_start_handoff {
  start_first_task : option task_ptr;
  start_saved_stack_pointer : Z;
  start_cookie : Z;
  start_valid : Z
}.
#[export] Instance rts_cm4f_start_handoff_eta : Eta rts_cm4f_start_handoff := λ x,
  mk_start_handoff (x.(start_first_task)) (x.(start_saved_stack_pointer)) (x.(start_cookie)) (x.(start_valid)).
#[export] Instance set_start_first_task : Setter start_first_task. Proof. solve_setter. Defined.
#[export] Instance set_start_saved_stack_pointer : Setter start_saved_stack_pointer. Proof. solve_setter. Defined.
#[export] Instance set_start_cookie : Setter start_cookie. Proof. solve_setter. Defined.
#[export] Instance set_start_valid : Setter start_valid. Proof. solve_setter. Defined.

(** rts_s32k148_timing_record_t of target_diagnostics.h. *)
Record rts_s32k148_timing_record := mk_timing_record {
  cycle_counter_available : Z;
  critical_start_cycle : Z;
  maximum_critical_cycles : Z
}.
#[export] Instance rts_s32k148_timing_record_eta : Eta rts_s32k148_timing_record := λ x,
  mk_timing_record (x.(cycle_counter_available)) (x.(critical_start_cycle)) (x.(maximum_critical_cycles)).
#[export] Instance set_cycle_counter_available : Setter cycle_counter_available. Proof. solve_setter. Defined.
#[export] Instance set_critical_start_cycle : Setter critical_start_cycle. Proof. solve_setter. Defined.
#[export] Instance set_maximum_critical_cycles : Setter maximum_critical_cycles. Proof. solve_setter. Defined.

(** rts_s32k148_tick_state_t of target_tick.c. *)
Inductive rts_s32k148_tick_state_t :=
  | RTS_S32K148_TICK_UNINITIALIZED
  | RTS_S32K148_TICK_READY
  | RTS_S32K148_TICK_ARMED
  | RTS_S32K148_TICK_RUNNING.
#[export] Instance rts_s32k148_tick_state_eq_dec : EqDecision rts_s32k148_tick_state_t.
Proof. solve_decision. Defined.

(** rts_s32k148_fault_record_t of target.h. *)
Record rts_s32k148_fault_record := mk_fault_record {
  fr_assertion_failed : Z;
  fr_hardfault_seen : Z;
  fr_stacked_r0 : Z;
  fr_stacked_r1 : Z;
  fr_stacked_r2 : Z;
  fr_stacked_r3 : Z;
  fr_stacked_r12 : Z;
  fr_stacked_lr : Z;
  fr_stacked_pc : Z;
  fr_stacked_xpsr : Z;
  fr_cfsr : Z;
  fr_hfsr : Z;
  fr_dfsr : Z;
  fr_shcsr : Z;
  fr_mmfar : Z;
  fr_bfar : Z;
  fr_active_msp : Z;
  fr_active_psp : Z;
  fr_exc_return : Z;
  fr_handler_probe_msp : Z;
  fr_handler_probe_ipsr : Z;
  fr_fatal_reason : rts_fatal_reason;
  fr_fatal_tick : Z;
  fr_fatal_current_task : option task_ptr
}.
#[export] Instance rts_s32k148_fault_record_eta : Eta rts_s32k148_fault_record := λ x,
  mk_fault_record (x.(fr_assertion_failed)) (x.(fr_hardfault_seen)) (x.(fr_stacked_r0)) (x.(fr_stacked_r1)) (x.(fr_stacked_r2)) (x.(fr_stacked_r3)) (x.(fr_stacked_r12)) (x.(fr_stacked_lr)) (x.(fr_stacked_pc)) (x.(fr_stacked_xpsr)) (x.(fr_cfsr)) (x.(fr_hfsr)) (x.(fr_dfsr)) (x.(fr_shcsr)) (x.(fr_mmfar)) (x.(fr_bfar)) (x.(fr_active_msp)) (x.(fr_active_psp)) (x.(fr_exc_return)) (x.(fr_handler_probe_msp)) (x.(fr_handler_probe_ipsr)) (x.(fr_fatal_reason)) (x.(fr_fatal_tick)) (x.(fr_fatal_current_task)).
#[export] Instance set_fr_assertion_failed : Setter fr_assertion_failed. Proof. solve_setter. Defined.
#[export] Instance set_fr_hardfault_seen : Setter fr_hardfault_seen. Proof. solve_setter. Defined.
#[export] Instance set_fr_stacked_r0 : Setter fr_stacked_r0. Proof. solve_setter. Defined.
#[export] Instance set_fr_stacked_r1 : Setter fr_stacked_r1. Proof. solve_setter. Defined.
#[export] Instance set_fr_stacked_r2 : Setter fr_stacked_r2. Proof. solve_setter. Defined.
#[export] Instance set_fr_stacked_r3 : Setter fr_stacked_r3. Proof. solve_setter. Defined.
#[export] Instance set_fr_stacked_r12 : Setter fr_stacked_r12. Proof. solve_setter. Defined.
#[export] Instance set_fr_stacked_lr : Setter fr_stacked_lr. Proof. solve_setter. Defined.
#[export] Instance set_fr_stacked_pc : Setter fr_stacked_pc. Proof. solve_setter. Defined.
#[export] Instance set_fr_stacked_xpsr : Setter fr_stacked_xpsr. Proof. solve_setter. Defined.
#[export] Instance set_fr_cfsr : Setter fr_cfsr. Proof. solve_setter. Defined.
#[export] Instance set_fr_hfsr : Setter fr_hfsr. Proof. solve_setter. Defined.
#[export] Instance set_fr_dfsr : Setter fr_dfsr. Proof. solve_setter. Defined.
#[export] Instance set_fr_shcsr : Setter fr_shcsr. Proof. solve_setter. Defined.
#[export] Instance set_fr_mmfar : Setter fr_mmfar. Proof. solve_setter. Defined.
#[export] Instance set_fr_bfar : Setter fr_bfar. Proof. solve_setter. Defined.
#[export] Instance set_fr_active_msp : Setter fr_active_msp. Proof. solve_setter. Defined.
#[export] Instance set_fr_active_psp : Setter fr_active_psp. Proof. solve_setter. Defined.
#[export] Instance set_fr_exc_return : Setter fr_exc_return. Proof. solve_setter. Defined.
#[export] Instance set_fr_handler_probe_msp : Setter fr_handler_probe_msp. Proof. solve_setter. Defined.
#[export] Instance set_fr_handler_probe_ipsr : Setter fr_handler_probe_ipsr. Proof. solve_setter. Defined.
#[export] Instance set_fr_fatal_reason : Setter fr_fatal_reason. Proof. solve_setter. Defined.
#[export] Instance set_fr_fatal_tick : Setter fr_fatal_tick. Proof. solve_setter. Defined.
#[export] Instance set_fr_fatal_current_task : Setter fr_fatal_current_task. Proof. solve_setter. Defined.

(** ** The machine

    [cx_regs] holds R0 to R12, LR (14), PC (15) and xPSR (16); the stack pointer
    is banked.  IPSR is the number of the exception being handled, 0 in a task. *)

(** The processor, the device, the kernel and the static objects of the target. *)
Record cortex := mk_cortex {
  cx_kernel : kernel;
  cx_regs : gmap Z Z;
  cx_psp : Z;
  cx_msp : Z;
  cx_control : Z;
  cx_primask : bool;
  cx_ipsr : Z;
  cx_pendsv : bool;
  cx_soc : gmap soc_register Z;
  cx_soc_reads : nat;
  cx_switch_handoff : rts_cm4f_switch_handoff;
  cx_start_handoff : rts_cm4f_start_handoff;
  cx_start_attempted : bool;
  cx_critical_depth : Z;
  cx_tick_state : rts_s32k148_tick_state_t;
  cx_tick_reload : Z;
  cx_lptmr_woke : bool;
  cx_power_ready : bool;
  cx_timing : rts_s32k148_timing_record;
  cx_fault : rts_s32k148_fault_record
}.
#[export] Instance cortex_eta : Eta cortex := λ x,
  mk_cortex (x.(cx_kernel)) (x.(cx_regs)) (x.(cx_psp)) (x.(cx_msp)) (x.(cx_control)) (x.(cx_primask)) (x.(cx_ipsr)) (x.(cx_pendsv)) (x.(cx_soc)) (x.(cx_soc_reads)) (x.(cx_switch_handoff)) (x.(cx_start_handoff)) (x.(cx_start_attempted)) (x.(cx_critical_depth)) (x.(cx_tick_state)) (x.(cx_tick_reload)) (x.(cx_lptmr_woke)) (x.(cx_power_ready)) (x.(cx_timing)) (x.(cx_fault)).
#[export] Instance set_cx_kernel : Setter cx_kernel. Proof. solve_setter. Defined.
#[export] Instance set_cx_regs : Setter cx_regs. Proof. solve_setter. Defined.
#[export] Instance set_cx_psp : Setter cx_psp. Proof. solve_setter. Defined.
#[export] Instance set_cx_msp : Setter cx_msp. Proof. solve_setter. Defined.
#[export] Instance set_cx_control : Setter cx_control. Proof. solve_setter. Defined.
#[export] Instance set_cx_primask : Setter cx_primask. Proof. solve_setter. Defined.
#[export] Instance set_cx_ipsr : Setter cx_ipsr. Proof. solve_setter. Defined.
#[export] Instance set_cx_pendsv : Setter cx_pendsv. Proof. solve_setter. Defined.
#[export] Instance set_cx_soc : Setter cx_soc. Proof. solve_setter. Defined.
#[export] Instance set_cx_soc_reads : Setter cx_soc_reads. Proof. solve_setter. Defined.
#[export] Instance set_cx_switch_handoff : Setter cx_switch_handoff. Proof. solve_setter. Defined.
#[export] Instance set_cx_start_handoff : Setter cx_start_handoff. Proof. solve_setter. Defined.
#[export] Instance set_cx_start_attempted : Setter cx_start_attempted. Proof. solve_setter. Defined.
#[export] Instance set_cx_critical_depth : Setter cx_critical_depth. Proof. solve_setter. Defined.
#[export] Instance set_cx_tick_state : Setter cx_tick_state. Proof. solve_setter. Defined.
#[export] Instance set_cx_tick_reload : Setter cx_tick_reload. Proof. solve_setter. Defined.
#[export] Instance set_cx_lptmr_woke : Setter cx_lptmr_woke. Proof. solve_setter. Defined.
#[export] Instance set_cx_power_ready : Setter cx_power_ready. Proof. solve_setter. Defined.
#[export] Instance set_cx_timing : Setter cx_timing. Proof. solve_setter. Defined.
#[export] Instance set_cx_fault : Setter cx_fault. Proof. solve_setter. Defined.


(** Code of the board; code of the kernel is run on the kernel's part. *)
Abbreviation B := (M cortex).
Definition kernel_call {A} (m : K A) : B A := zoom cx_kernel (λ k m, m <| cx_kernel := k |>) m.

Definition reg (m : cortex) (r : Z) : Z := cx_regs m !!! r.
Definition LR : Z := 14.
Definition PC : Z := 15.
Definition XPSR : Z := 16.
Definition set_reg (r v : Z) (m : cortex) : cortex := m <| cx_regs := <[r := v]> (cx_regs m) |>.

(** Words of memory, little-endian. *)
Definition load_word (k : kernel) (a : Z) : Z := bytes_value (load_bytes k a 4).
Definition store_word (a v : Z) (k : kernel) : kernel := store_bytes a (value_bytes 4 v) k.
Fixpoint store_words (a : Z) (vs : list Z) (k : kernel) : kernel :=
  match vs with [] => k | v :: vs' => store_words (a + 4) vs' (store_word a v k) end.
Definition load_words (k : kernel) (a : Z) (n : nat) : list Z := (λ i, load_word k (a + 4 * i)) <$> seqZ 0 (Z.of_nat n).

(** Registers of the device. *)
Definition soc (m : cortex) (r : soc_register) : Z := cx_soc m !!! r.
Definition read_soc `{Device} (r : soc_register) : B Z :=
  let* v := gets (λ m, sample r (cx_soc_reads m) (soc m r)) in
  modify (λ m, m <| cx_soc_reads ::= S |>) ;;;
  ret v.
Definition write_soc `{Device} (r : soc_register) (v : Z) : B unit :=
  modify (λ m, m <| cx_soc := <[r := latch r v (soc m r)]> (cx_soc m) |>).

(** Intrinsics of the compiler: the interrupt mask, and barriers, which order
    accesses that are already in order here. *)
Definition __get_PRIMASK : B Z := gets (λ m, if cx_primask m then 1 else 0).
Definition __set_PRIMASK (v : Z) : B unit := modify (λ m, m <| cx_primask := Z.testbit v 0 |>).
Definition __disable_irq : B unit := modify (λ m, m <| cx_primask := true |>).
Definition __enable_irq : B unit := modify (λ m, m <| cx_primask := false |>).
Definition __get_IPSR : B Z := gets cx_ipsr.
Definition __get_CONTROL : B Z := gets cx_control.
Definition __get_MSP : B Z := gets cx_msp.
Definition __DSB : B unit := ret tt.
Definition __ISB : B unit := ret tt.

(** ** Exceptions

    The processor stacks eight words on the task's stack, aligned to eight bytes;
    bit 9 of the stacked xPSR records a padding word.  Taking PendSV (14)
    clears its pending bit. *)
Definition RTS_CM4F_EXC_RETURN_THREAD_PSP_BASIC : Z := 0xFFFFFFFD.

Definition entry_frame (sp : Z) : Z := sp - 32 - (if Z.testbit sp 2 then 4 else 0).
Definition stacked_xpsr (xpsr sp : Z) : Z := Z.lor xpsr (if Z.testbit sp 2 then 512 else 0).

Definition exception_entry (number : Z) : B unit := modify (λ m,
  m <| cx_kernel := store_words (entry_frame (cx_psp m))
         [reg m 0; reg m 1; reg m 2; reg m 3; reg m 12; reg m LR; reg m PC; stacked_xpsr (reg m XPSR) (cx_psp m)] (cx_kernel m) |>
    <| cx_psp := entry_frame (cx_psp m) |>
    <| cx_regs := <[LR := RTS_CM4F_EXC_RETURN_THREAD_PSP_BASIC]> (cx_regs m) |>
    <| cx_ipsr := number |>
    <| cx_pendsv := negb (number =? 14) && cx_pendsv m |>).

(** bx lr with the value above; any other value of LR is not modelled. *)
Definition returned (m : cortex) : cortex :=
  let w i := load_word (cx_kernel m) (cx_psp m + 4 * i) in
  m <| cx_regs := <[0 := w 0]> (<[1 := w 1]> (<[2 := w 2]> (<[3 := w 3]> (<[12 := w 4]> (<[LR := w 5]> (<[PC := w 6]>
         (<[XPSR := Z.ldiff (w 7) 512]> (cx_regs m)))))))) |>
    <| cx_psp := cx_psp m + 32 + (if Z.testbit (w 7) 9 then 4 else 0) |>
    <| cx_ipsr := 0 |>.
Definition exception_return : B unit :=
  let* lr := gets (λ m, reg m LR) in
  if negb (lr =? RTS_CM4F_EXC_RETURN_THREAD_PSP_BASIC) then undefined else
  modify returned.

(** What a task sees of the processor. *)
Record context := mk_context {
  ctx_regs : list Z;   (* R0 to R12 *)
  ctx_lr : Z;
  ctx_pc : Z;
  ctx_xpsr : Z;
  ctx_sp : Z
}.

Definition thread_context (m : cortex) : context :=
  mk_context (reg m <$> seqZ 0 13) (reg m LR) (reg m PC) (reg m XPSR) (cx_psp m).

(** The context saved at [sp]: R4 to R11, then the words the processor stacks. *)
Definition saved_context (k : kernel) (sp : Z) : context :=
  let w i := load_word k (sp + 4 * i) in
  mk_context [w 8; w 9; w 10; w 11; w 0; w 1; w 2; w 3; w 4; w 5; w 6; w 7; w 12] (w 13) (w 14) (Z.ldiff (w 15) 512)
    (sp + 64 + (if Z.testbit (w 15) 9 then 4 else 0)).
