(* ===== verification/CortexPort.v ===== *)
(** * The Cortex-M4F port (ports/arm/cortex_m4f)

    The initial stack frame (port_stack.c), the C side of the context switch
    (port_switch.c) and the PendSV handler (port_asm.S), one instruction or
    instruction group at a time.  A call of a C function leaves arbitrary values
    ([scratch]) in the registers that the procedure-call standard does not
    preserve, and keeps R4 to R11.  Kernel functions are those of the model on
    the host port. *)

From S2P Require Import Prelude Machine Config Types Links IntrusiveList KernelLists Time ReadyQueue.
From S2P Require Import DelayQueue HostPort Diagnostics TaskPool Policy Scheduler Cortex.

Definition RTS_CM4F_INITIAL_FRAME_SIZE_BYTES : Z := 64.
Definition RTS_CM4F_INITIAL_FRAME_WORD_COUNT : Z := 16.
Definition RTS_CM4F_TASK_STACK_MINIMUM_SIZE_BYTES : Z := RTS_CM4F_INITIAL_FRAME_SIZE_BYTES.
Definition RTS_CM4F_TASK_STACK_GRANULARITY_BYTES : Z := RTS_TASK_STACK_ALIGNMENT.
Definition RTS_CM4F_ARCH_STACK_ALIGNMENT : Z := 8.
Definition RTS_CM4F_INITIAL_XPSR : Z := 0x01000000.

(** Addresses of the static objects the assembly reaches by pointers. *)
Class CortexLayout := {
  addr_switch_handoff : Z;
  addr_tcb : task_ptr → Z;
  tcb_at : Z → option task_ptr
}.

Class CortexLayoutOk `(CortexLayout) : Prop := {
  layout_handoff : is_u32 addr_switch_handoff ∧ addr_switch_handoff ≠ 0;
  layout_tcb t : tcb_at (addr_tcb t) = Some t
}.

(** The compiler's pointers have 32 bits (_Static_assert of port_internal.h). *)
Class CortexConfig `{Config} : Prop := cortex_pointers : UINTPTR_MAX = UINT32_MAX.

(** ** The initial frame (port_stack.c) *)

Section stack.
Context `{Config} `{Layout}.

(** [None] when the function returns false, else the end it stores. *)
Definition rts_cm4f_add_is_valid (base size : Z) : option Z :=
  if UINTPTR_MAX - base <? size then None else Some (uintptr_t (base + size)).

Definition rts_cm4f_word_write (destination value : Z) : K unit :=
  modify (store_byte destination (Z.land value 0xFF)) ;;;
  modify (store_byte (destination + 1) (Z.land (Z.shiftr value 8) 0xFF)) ;;;
  modify (store_byte (destination + 2) (Z.land (Z.shiftr value 16) 0xFF)) ;;;
  modify (store_byte (destination + 3) (Z.land (Z.shiftr value 24) 0xFF)).

(** Copying the bytes of a function pointer into a word, both little-endian. *)
Definition rts_cm4f_entry_encode (entry : Z) : Z := bytes_value (value_bytes 4 entry).
Definition rts_cm4f_trap_encode : Z := bytes_value (value_bytes 4 addr_return_trap).

Definition rts_cm4f_frame_word_write (frame word_index value : Z) : K unit :=
  rts_cm4f_word_write (frame + word_index * 4) value.

Definition rts_port_task_stack_minimum_size_bytes : Z := RTS_CM4F_TASK_STACK_MINIMUM_SIZE_BYTES.
Definition rts_port_task_stack_size_granularity_bytes : Z := RTS_CM4F_TASK_STACK_GRANULARITY_BYTES.

Definition rts_port_stack_initialize (stack_buffer stack_size_bytes entry argument : Z) : K (rts_status_t * Z) :=
  if entry =? 0 then ret (RTS_STATUS_INVALID_TASK_CONFIG, 0) else
  if stack_buffer =? 0 then ret (RTS_STATUS_INVALID_STACK, 0) else
  let base := stack_buffer in
  if negb (base mod RTS_TASK_STACK_ALIGNMENT =? 0) ||
     (stack_size_bytes <? RTS_CM4F_TASK_STACK_MINIMUM_SIZE_BYTES) ||
     negb (stack_size_bytes mod RTS_CM4F_TASK_STACK_GRANULARITY_BYTES =? 0)
  then ret (RTS_STATUS_INVALID_STACK, 0) else
  match rts_cm4f_add_is_valid base stack_size_bytes with
  | None => ret (RTS_STATUS_INVALID_STACK, 0)
  | Some end_ =>
      let aligned_top := Z.ldiff end_ (RTS_TASK_STACK_ALIGNMENT - 1) in
      if (aligned_top <? base) || (uintptr_t (aligned_top - base) <? RTS_CM4F_INITIAL_FRAME_SIZE_BYTES)
      then ret (RTS_STATUS_INVALID_STACK, 0) else
      let frame_address := uintptr_t (aligned_top - RTS_CM4F_INITIAL_FRAME_SIZE_BYTES) in
      if (frame_address <? base) || (end_ <? frame_address) ||
         (uintptr_t (end_ - frame_address) <? RTS_CM4F_INITIAL_FRAME_SIZE_BYTES) ||
         negb (frame_address mod RTS_TASK_STACK_ALIGNMENT =? 0)
      then ret (RTS_STATUS_INVALID_STACK, 0) else
      let argument_value := argument in
      if UINT32_MAX <? argument_value then ret (RTS_STATUS_PORT_ERROR, 0) else
      let entry_word := rts_cm4f_entry_encode entry in
      let trap_word := rts_cm4f_trap_encode in
      if (Z.land entry_word 1 =? 0) || (Z.land trap_word 1 =? 0) then ret (RTS_STATUS_PORT_ERROR, 0) else
      let frame := frame_address in
      for_each (seqZ 0 RTS_CM4F_INITIAL_FRAME_WORD_COUNT) (λ index, rts_cm4f_frame_word_write frame index 0) ;;;
      rts_cm4f_frame_word_write frame 8 (u32 argument_value) ;;;
      rts_cm4f_frame_word_write frame 13 trap_word ;;;
      rts_cm4f_frame_word_write frame 14 entry_word ;;;
      rts_cm4f_frame_word_write frame 15 RTS_CM4F_INITIAL_XPSR ;;;
      ret (RTS_STATUS_OK, frame)
  end.

Definition rts_cm4f_task_return_trap : K unit := fatal RTS_FATAL_TASK_RETURNED.
End stack.

(** ** The switch bridge (port_switch.c) *)

Section bridge.
Context `{Config} `{CortexLayout}.

(** port_asm.S: sets the pending bit of PendSV. *)
Definition rts_cm4f_pend_context_switch : B unit := modify (λ m, m <| cx_pendsv := true |>).

Definition rts_port_request_reschedule (cpu : Z) : B unit :=
  RTS_ASSERT (ret (rts_cpu_id_is_valid cpu)) ;;;
  if rts_cpu_id_is_valid cpu then rts_cm4f_pend_context_switch else ret tt.

Definition rts_cm4f_saved_sp_is_valid (s : kernel) (task_arg : option task_ptr) (saved_stack_pointer : Z) : bool :=
  match task_arg with
  | None => false
  | Some t =>
      if (saved_stack_pointer =? 0) || (stack_low (task s t) =? 0) || (stack_high (task s t) =? 0) then false else
      let low := stack_low (task s t) in
      let high := stack_high (task s t) in
      let saved := saved_stack_pointer in
      (low <? high) && (low <=? saved) && (saved <=? high) &&
      (saved mod RTS_CM4F_ARCH_STACK_ALIGNMENT =? 0) &&
      (RTS_CM4F_INITIAL_FRAME_SIZE_BYTES <=? uintptr_t (high - saved))
  end.

(** The address of rts_cm4f_switch_handoff, or 0 for NULL. *)
Definition rts_cm4f_switch_bridge_acquire (outgoing_saved_stack_pointer : Z) : B Z :=
  let* pending := gets (λ m, plan_pending (k_switch_plan (cx_kernel m))) in
  if negb pending then ret 0 else
  let* acquired := kernel_call rts_scheduler_switch_acquire in
  match acquired with
  | None => RTS_FATAL_UNLESS (ret false) ;;; ret 0
  | Some snapshot =>
      let* current := kernel_call rts_scheduler_current_get in
      let* valid := gets (λ m, let s := cx_kernel m in
        bool_decide (snap_from snapshot = current) &&
        match snap_from snapshot, snap_to snapshot with
        | Some from, Some to =>
            negb (bool_decide (from = to)) &&
            (bool_decide (state (task s from) = RTS_TASK_STATE_RUNNING) ||
             bool_decide (state (task s from) = RTS_TASK_STATE_BLOCKED)) &&
            bool_decide (state (task s to) = RTS_TASK_STATE_READY) &&
            rts_cm4f_saved_sp_is_valid s (Some from) outgoing_saved_stack_pointer &&
            rts_cm4f_saved_sp_is_valid s (Some to) (saved_stack_pointer (task s to))
        | _, _ => false
        end) in
      RTS_FATAL_UNLESS (ret valid) ;;;
      if negb valid then ret 0 else
      let* to := deref (snap_to snapshot) in
      modify (λ m, m <| cx_switch_handoff :=
        mk_switch_handoff (snap_from snapshot) (snap_to snapshot) snapshot outgoing_saved_stack_pointer
          (saved_stack_pointer (task (cx_kernel m) to)) |>) ;;;
      ret addr_switch_handoff
  end.

Definition rts_cm4f_switch_bridge_no_plan : B bool :=
  gets (λ m, let plan := k_switch_plan (cx_kernel m) in negb (plan_pending plan) && negb (plan_active plan)).

(** A member of the handoff that is a task pointer, dereferenced. *)
Definition handoff_task (field : rts_cm4f_switch_handoff → option task_ptr) : B task_ptr :=
  let* t := gets (λ m, field (cx_switch_handoff m)) in deref t.

(** The test of the handoff on entry; the members are read when the pointer is
    that of the static object. *)
Definition handoff_is_current (handoff : Z) : B bool :=
  gets (λ m, (handoff =? addr_switch_handoff) && plan_active (k_switch_plan (cx_kernel m)) &&
    negb (plan_pending (k_switch_plan (cx_kernel m))) &&
    bool_decide (handoff_from (cx_switch_handoff m) = snap_from (handoff_snapshot (cx_switch_handoff m))) &&
    bool_decide (handoff_to (cx_switch_handoff m) = snap_to (handoff_snapshot (cx_switch_handoff m)))) &&&
  (let* current := kernel_call rts_scheduler_current_get in
   gets (λ m, bool_decide (handoff_from (cx_switch_handoff m) = current))) &&&
  (let* from := handoff_task handoff_from in
   gets (λ m, saved_stack_pointer (task (cx_kernel m) from) =? handoff_outgoing_saved_stack_pointer (cx_switch_handoff m))) &&&
  (let* to := handoff_task handoff_to in
   gets (λ m, saved_stack_pointer (task (cx_kernel m) to) =? handoff_incoming_saved_stack_pointer (cx_switch_handoff m))).

(** The test after the switch. *)
Definition handoff_is_committed : B bool :=
  gets (λ m, negb (plan_active (k_switch_plan (cx_kernel m)))) &&&
  (let* current := kernel_call rts_scheduler_current_get in
   gets (λ m, bool_decide (current = handoff_to (cx_switch_handoff m)))) &&&
  (let* from := handoff_task handoff_from in
   gets (λ m, bool_decide (state (task (cx_kernel m) from) = RTS_TASK_STATE_READY) ||
              bool_decide (state (task (cx_kernel m) from) = RTS_TASK_STATE_BLOCKED))) &&&
  (let* to := handoff_task handoff_to in
   gets (λ m, bool_decide (state (task (cx_kernel m) to) = RTS_TASK_STATE_RUNNING))).

Definition rts_cm4f_switch_bridge_complete (handoff : Z) : B bool :=
  let* valid := handoff_is_current handoff in
  RTS_FATAL_UNLESS (ret valid) ;;;
  if negb valid then ret false else
  let* snapshot := gets (λ m, handoff_snapshot (cx_switch_handoff m)) in
  kernel_call (rts_scheduler_switch_complete snapshot) ;;;
  let* notify_port := kernel_call rts_scheduler_reselect_after_switch in
  when notify_port (rts_port_request_reschedule rts_cpu_current_id) ;;;
  let* valid := handoff_is_committed in
  RTS_FATAL_UNLESS (ret valid) ;;;
  ret valid.
End bridge.

(** ** The PendSV handler (port_asm.S) *)

Section handler.
Context `{Config} `{CortexLayout} (scratch : Z → Z).

Definition rts_cm4f_start_fatal {A} : B A := fatal RTS_FATAL_CONTEXT_CORRUPTION.

(** After bl: the result in R0, R1 to R3, R12 and LR arbitrary. *)
Definition call_returned (result : Z) : B unit := modify (λ m, m <| cx_regs :=
  <[0 := result]> (<[1 := scratch 1]> (<[2 := scratch 2]> (<[3 := scratch 3]> (<[12 := scratch 12]>
    (<[LR := scratch LR]> (cx_regs m)))))) |>).

(** ldr rd, [ra, #offset] of a task pointer of the handoff. *)
Definition load_handoff (rd ra : Z) (field : rts_cm4f_switch_handoff → option task_ptr) : B unit :=
  let* a := gets (λ m, reg m ra) in
  if negb (a =? addr_switch_handoff) then undefined else
  modify (λ m, set_reg rd (match field (cx_switch_handoff m) with Some t => addr_tcb t | None => 0 end) m).

(** str rs, [ra, #RTS_CM4F_TCB_SAVED_SP_OFFSET] and ldr rd, [ra, ...]. *)
Definition store_saved_sp (rs ra : Z) : B unit :=
  let* t := gets (λ m, tcb_at (reg m ra)) in
  let* t := deref t in
  modify (λ m, m <| cx_kernel := upd_task t (λ x, x <| saved_stack_pointer := reg m rs |>) (cx_kernel m) |>).
Definition load_saved_sp (rd ra : Z) : B unit :=
  let* t := gets (λ m, tcb_at (reg m ra)) in
  let* t := deref t in
  modify (λ m, set_reg rd (saved_stack_pointer (task (cx_kernel m) t)) m).

(** stmdb r!, {r4-r11} and ldmia r!, {r4-r11}. *)
Definition save_callee (r : Z) : B unit := modify (λ m,
  set_reg r (reg m r - 32) (m <| cx_kernel := store_words (reg m r - 32) (reg m <$> seqZ 4 8) (cx_kernel m) |>)).
Definition restore_callee (r : Z) : B unit := modify (λ m,
  let w i := load_word (cx_kernel m) (reg m r + 4 * i) in
  m <| cx_regs := <[r := reg m r + 32]> (<[4 := w 0]> (<[5 := w 1]> (<[6 := w 2]> (<[7 := w 3]> (<[8 := w 4]> (<[9 := w 5]>
    (<[10 := w 6]> (<[11 := w 7]> (cx_regs m))))))))) |>).

(** push {r0, lr}, pop {r0, lr} and the word at the top of the main stack. *)
Definition push_r0_lr : B unit := modify (λ m,
  m <| cx_kernel := store_words (cx_msp m - 8) [reg m 0; reg m LR] (cx_kernel m) |> <| cx_msp := cx_msp m - 8 |>).
Definition pop_r0_lr : B unit := modify (λ m,
  m <| cx_regs := <[0 := load_word (cx_kernel m) (cx_msp m)]> (<[LR := load_word (cx_kernel m) (cx_msp m + 4)]> (cx_regs m)) |>
    <| cx_msp := cx_msp m + 8 |>).
Definition load_top (r : Z) : B unit := modify (λ m, set_reg r (load_word (cx_kernel m) (cx_msp m)) m).
Definition store_top (r : Z) : B unit := modify (λ m, m <| cx_kernel := store_word (cx_msp m) (reg m r) (cx_kernel m) |>).

(** From the handoff to the return into the next task. *)
Definition pendsv_switch : B unit :=
  load_top 1 ;;;
  load_handoff 2 0 handoff_from ;;;
  store_saved_sp 1 2 ;;;
  load_handoff 2 0 handoff_to ;;;
  load_saved_sp 2 2 ;;;
  store_top 0 ;;;
  restore_callee 2 ;;;
  modify (λ m, m <| cx_psp := reg m 2 |>) ;;;
  load_top 0 ;;;
  let* handoff := gets (λ m, reg m 0) in
  let* completed := rts_cm4f_switch_bridge_complete handoff in
  call_returned (if completed then 1 else 0) ;;;
  let* r0 := gets (λ m, reg m 0) in
  if r0 =? 0 then rts_cm4f_start_fatal else
  modify (λ m, m <| cx_msp := cx_msp m + 8 |>) ;;;
  __DSB ;;; __ISB ;;;
  __enable_irq ;;;
  modify (set_reg LR RTS_CM4F_EXC_RETURN_THREAD_PSP_BASIC) ;;;
  exception_return.

(** From the call of the bridge, the context of the task being saved. *)
Definition pendsv_bridge : B unit :=
  let* outgoing := gets (λ m, reg m 0) in
  let* handoff := rts_cm4f_switch_bridge_acquire outgoing in
  call_returned handoff ;;;
  let* r0 := gets (λ m, reg m 0) in
  if r0 =? 0 then
    let* no_plan := rts_cm4f_switch_bridge_no_plan in
    call_returned (if no_plan then 1 else 0) ;;;
    let* r0 := gets (λ m, reg m 0) in
    if r0 =? 0 then rts_cm4f_start_fatal else
    pop_r0_lr ;;;
    __enable_irq ;;;
    exception_return
  else
    pendsv_switch.

Definition PendSV_Handler : B unit :=
  __disable_irq ;;;
  modify (set_reg 0 RTS_CM4F_EXC_RETURN_THREAD_PSP_BASIC) ;;;
  let* same := gets (λ m, reg m LR =? reg m 0) in
  if negb same then rts_cm4f_start_fatal else
  modify (λ m, set_reg 0 (cx_psp m) m) ;;;
  save_callee 0 ;;;
  push_r0_lr ;;;
  pendsv_bridge.

(** A PendSV exception taken by the running task. *)
Definition pendsv : B unit := exception_entry 14 ;;; PendSV_Handler.
End handler.
