(* ===== verification/CortexSpec.v ===== *)
(** * What the Cortex-M4F port guarantees

    A task that PendSV switches away from finds, when it is switched to again,
    every register and its stack pointer as it left them; a new task starts at
    its entry point with its argument; and the kernel's invariant survives. *)

From S2P Require Import Prelude Machine Config Types Links IntrusiveList KernelLists Time ReadyQueue.
From S2P Require Import DelayQueue HostPort Diagnostics TaskPool Policy PolicySpec WaitObject Scheduler.
From S2P Require Import SwitchSpec KernelSpec StoreCheck TaskApi TaskApiSpec Blocking Semaphore SemaphoreSpec.
From S2P Require Import Inheritance Mutex MutexSpec SystemSpec MutexCalls Dispatch Cortex CortexPort.

(** ** Words in memory *)

Section words.
Context `{Config}.

Lemma store_bytes_frame a bs k : ∃ mem, store_bytes a bs k = k <| k_memory := mem |>.
Proof.
  revert a k. induction bs as [|b bs IH]; intros a k; [exists (k_memory k); by destruct k|].
  destruct (IH (a + 1) (store_byte a b k)) as [mem E]. exists mem. cbn [store_bytes]. by rewrite E.
Qed.

Lemma store_words_frame a vs k : ∃ mem, store_words a vs k = k <| k_memory := mem |>.
Proof.
  revert a k. induction vs as [|v vs IH]; intros a k; [exists (k_memory k); by destruct k|].
  cbn [store_words]. destruct (IH (a + 4) (store_word a v k)) as [mem ->]. unfold store_word.
  destruct (store_bytes_frame a (value_bytes 4 v) k) as [mem' ->]. by exists mem.
Qed.

Lemma load_byte_store_words a vs k x :
  x < a ∨ a + 4 * Z.of_nat (length vs) ≤ x → load_byte (store_words a vs k) x = load_byte k x.
Proof.
  revert a k. induction vs as [|v vs IH]; intros a k Hx; [done|]. cbn [store_words length] in *.
  rewrite IH by lia. unfold store_word. rewrite load_store_bytes, decide_False; [done|]. cbn. lia.
Qed.

Lemma load_word_store_words_other a vs k x :
  x + 4 ≤ a ∨ a + 4 * Z.of_nat (length vs) ≤ x → load_word (store_words a vs k) x = load_word k x.
Proof.
  intros Hx. unfold load_word, load_bytes. f_equal. apply list_fmap_ext. intros i y Hy%lookup_seqZ.
  apply load_byte_store_words. lia.
Qed.

Lemma load_word_store_words a vs k i v :
  vs !! i = Some v → is_u32 v → load_word (store_words a vs k) (a + 4 * Z.of_nat i) = v.
Proof.
  revert a k i. induction vs as [|w vs IH]; intros a k i Hi Hv; [done|]. destruct i as [|i]; cbn in Hi; cbn [store_words].
  - injection Hi as ->. rewrite load_word_store_words_other by lia. rewrite Z.add_0_r.
    apply load_field. unfold is_u32, UINT32_MAX in Hv. cbn. lia.
  - replace (a + 4 * Z.of_nat (S i)) with (a + 4 + 4 * Z.of_nat i) by lia. by apply IH.
Qed.

(** Code of the kernel that does not write memory. *)
Lemma load_word_memory k k' x : k_memory k' = k_memory k → load_word k' x = load_word k x.
Proof. intros E. unfold load_word, load_bytes, load_byte. by rewrite E. Qed.
End words.

(** ** Saved contexts *)

Section contexts.
Context `{Config}.

(** The context at [sp] lies in the 64 bytes from [sp]. *)
Lemma saved_context_frame k k' sp :
  (∀ i, 0 ≤ i < 16 → load_word k' (sp + 4 * i) = load_word k (sp + 4 * i)) → saved_context k' sp = saved_context k sp.
Proof. intros Hw. unfold saved_context. by rewrite !Hw by lia. Qed.

Lemma frame_round_trip sp :
  sp mod 4 = 0 → (entry_frame sp) mod 8 = 0 ∧ entry_frame sp + 32 + (if Z.testbit sp 2 then 4 else 0) = sp ∧
  sp - 36 ≤ entry_frame sp ≤ sp - 32.
Proof.
  intros Hsp. unfold entry_frame. split; [|destruct (Z.testbit sp 2); lia].
  assert (Z.testbit sp 2 = Z.odd (sp / 4)) as -> by (rewrite Z.testbit_odd, Z.shiftr_div_pow2; done || lia).
  pose proof (Z.div_mod sp 4 ltac:(lia)) as E. rewrite Hsp in E. destruct (Z.odd (sp / 4)) eqn:Eo.
  - apply Z.odd_spec in Eo as [k Ek]. replace (sp - 32 - 4) with ((k - 4) * 8) by lia. by apply Z.mod_mul.
  - rewrite <- Z.negb_even in Eo. apply negb_false_iff, Z.even_spec in Eo as [k Ek].
    replace (sp - 32 - 0) with ((k - 4) * 8) by lia. by apply Z.mod_mul.
Qed.

Lemma xpsr_round_trip xpsr sp :
  Z.testbit xpsr 9 = false →
  Z.testbit (stacked_xpsr xpsr sp) 9 = Z.testbit sp 2 ∧ Z.ldiff (stacked_xpsr xpsr sp) 512 = xpsr.
Proof.
  intros Hx. unfold stacked_xpsr. change 512 with (2 ^ 9). split.
  - rewrite Z.lor_spec, Hx. destruct (Z.testbit sp 2); [by rewrite Z.pow2_bits_eqb|by rewrite Z.testbit_0_l].
  - apply Z.bits_inj'. intros i Hi. rewrite Z.ldiff_spec, Z.lor_spec.
    destruct (Z.testbit sp 2); rewrite ?Z.pow2_bits_eqb, ?Z.testbit_0_l by lia; destruct (Z.eqb_spec 9 i) as [<-|Hne];
      rewrite ?Hx; cbn; by rewrite ?orb_false_r, ?andb_true_r.
Qed.

Lemma stacked_xpsr_u32 xpsr sp : is_u32 xpsr → is_u32 (stacked_xpsr xpsr sp).
Proof. intros Hx. unfold stacked_xpsr. apply is_u32_lor; [done|]. destruct (Z.testbit sp 2); split; by vm_compute. Qed.
End contexts.

(** ** The bridge *)

Lemma wp_kernel_call {A} (f : K A) (Q : A → cortex → Prop) m :
  wp f (λ a k, Q a (m <| cx_kernel := k |>)) (cx_kernel m) → wp (kernel_call f) Q m.
Proof. unfold wp, kernel_call, zoom. by destruct (f (cx_kernel m)). Qed.

Section bridge.
Context `{ConfigOk} `{!BitmapPolicy} `{CortexLayoutOk}.

(** The switch from [c] to [n] is planned. *)
Record switch_due (k : kernel) (c n : task_ptr) : Prop := {
  sd_system : system_ok k;
  sd_current : k_current_task k = Some c;
  sd_pending : plan_pending (k_switch_plan k) = true;
  sd_to : plan_to (k_switch_plan k) = Some n;
  sd_ready : state (task k n) = RTS_TASK_STATE_READY
}.

Lemma switch_due_facts k c n :
  switch_due k c n → c ≠ n ∧ runnable k n = true ∧ outgoing k c = true ∧ plan_from (k_switch_plan k) = Some c.
Proof.
  intros [Hsy Hc Hp Hto Hr]. pose proof (sy_kernel k Hsy) as Hok. destruct (ko_plan k Hok) as [_ Hfrom Hother].
  destruct (Hother (or_introl Hp)) as (n'&En&Hne). destruct (ko_current k Hok) as (c'&Ec&Ho).
  rewrite Hto in En. injection En as <-. rewrite Hc in Ec. injection Ec as <-. split_and!.
  - congruence.
  - pose proof (ko_task k Hok n) as Ht. unfold task_ok in Ht. by rewrite Hr in Ht.
  - done.
  - rewrite <- Hc. apply Hfrom. by left.
Qed.

Definition acquired (k : kernel) : kernel := upd_plan plan_acquired k.

Lemma acquired_same k : same_scheduling k (acquired k).
Proof. by split. Qed.

Lemma system_ok_acquired k : plan_pending (k_switch_plan k) = true → system_ok k → system_ok (acquired k).
Proof.
  intros Hp Hsy. apply (system_ok_same k); [done|apply acquired_same|done|].
  destruct (ko_plan k (sy_kernel k Hsy)) as [_ Hfrom Hother]. split; [done|intros _; apply Hfrom; by left|].
  intros _. apply Hother. by left.
Qed.

Lemma system_ok_memory k mem : system_ok k → system_ok (k <| k_memory := mem |>).
Proof. intros Hsy. apply (system_ok_same k); [done|by split|done|]. apply (plan_ok_frame k), Hsy; done. Qed.

Lemma bridge_acquire_run m c n out :
  switch_due (cx_kernel m) c n → rts_cm4f_saved_sp_is_valid (cx_kernel m) (Some c) out = true →
  rts_cm4f_saved_sp_is_valid (cx_kernel m) (Some n) (saved_stack_pointer (task (cx_kernel m) n)) = true →
  rts_cm4f_switch_bridge_acquire out m =
  Done addr_switch_handoff (m <| cx_kernel := acquired (cx_kernel m) |>
    <| cx_switch_handoff := mk_switch_handoff (Some c) (Some n) (plan_snapshot (k_switch_plan (cx_kernel m))) out
         (saved_stack_pointer (task (cx_kernel m) n)) |>).
Proof.
  intros Hd Hvc Hvn. destruct (switch_due_facts _ _ _ Hd) as (Hne&Hn&Ho&Hfrom). destruct Hd as [Hsy Hc Hp Hto Hr].
  pose proof (sy_kernel _ Hsy) as Hok. set (k := cx_kernel m) in *.
  assert (rts_scheduler_switch_acquire k = Done (Some (plan_snapshot (k_switch_plan k))) (acquired k)) as Hacq.
  { apply (rts_scheduler_switch_acquire_run k c n); try done; [intros t; apply (ko_prio k Hok)|apply (ko_live k Hok)|apply (ko_plan k Hok)]. }
  assert (kernel_call rts_scheduler_switch_acquire m =
    Done (Some (plan_snapshot (k_switch_plan k))) (m <| cx_kernel := acquired k |>)) as Hcall.
  { unfold kernel_call, zoom. fold k. by rewrite Hacq. }
  assert (plan_snapshot (k_switch_plan k) = mk_switch_snapshot (Some c) (Some n) (plan_generation (k_switch_plan k))) as Esn.
  { unfold plan_snapshot. by rewrite Hfrom, Hto. }
  rewrite Esn in *.
  unfold rts_cm4f_switch_bridge_acquire. rewrite bind_gets. fold k. rewrite Hp. cbn [negb].
  rewrite (bind_run _ _ _ _ _ Hcall). set (m1 := m <| cx_kernel := acquired k |>).
  assert (kernel_call rts_scheduler_current_get m1 = Done (Some c) m1) as Hcur.
  { unfold kernel_call, zoom. rewrite rts_scheduler_current_get_run. cbn. rewrite Hc. by destruct m. }
  rewrite (bind_run _ _ _ _ _ Hcur), bind_gets. cbn [snap_from snap_to].
  assert (state (task k c) = RTS_TASK_STATE_RUNNING ∨ state (task k c) = RTS_TASK_STATE_BLOCKED) as Hst by by apply outgoing_state.
  change (task (cx_kernel m1)) with (task k). change (rts_cm4f_saved_sp_is_valid (cx_kernel m1)) with (rts_cm4f_saved_sp_is_valid k).
  rewrite Hvc, Hvn, (bool_decide_true (Some c = Some c)), (bool_decide_false (c = n)), (bool_decide_true (state (task k n) = _)) by done.
  assert (bool_decide (state (task k c) = RTS_TASK_STATE_RUNNING) || bool_decide (state (task k c) = RTS_TASK_STATE_BLOCKED) = true) as ->.
  { rewrite orb_true_iff, !bool_decide_eq_true. done. }
  cbn [andb negb]. rewrite fatal_unless_run by done. cbn [deref]. by rewrite bind_ret, bind_modify.
Qed.

(** The processor runs [n] and the plan is idle, or planned anew. *)
Record dispatched (k k' : kernel) (c n : task_ptr) : Prop := {
  di_system : system_ok k';
  di_current : k_current_task k' = Some n;
  di_running : state (task k' n) = RTS_TASK_STATE_RUNNING;
  di_left : state (task k' c) = if decide (state (task k c) = RTS_TASK_STATE_RUNNING) then RTS_TASK_STATE_READY else state (task k c);
  di_core t : task_core (task k' t) = task_core (task k t);
  di_others t : t ≠ c → t ≠ n → task k' t = task k t;
  di_memory : k_memory k' = k_memory k;
  di_active : plan_active (k_switch_plan k') = false;
  di_nesting : same_nesting k k'
}.

Lemma reselect_spec k k1 c n :
  switched k k1 c n → system_ok k1 →
  wp rts_scheduler_reselect_after_switch (λ _ k', dispatched k k' c n) k1.
Proof.
  intros Hsw Hsy. pose proof (sy_kernel k1 Hsy) as Hok.
  assert (plan_active (k_switch_plan k1) = false) as Hact by by rewrite (sw_plan _ _ _ _ Hsw).
  assert (∀ k', same_scheduling k1 k' → k_mutexes k' = k_mutexes k1 → plan_ok k' → k_memory k' = k_memory k1 →
    plan_active (k_switch_plan k') = false → same_nesting k1 k' → dispatched k k' c n) as Hsame.
  { intros k' Hs Hm Hp Hmem Ha Hn. destruct (same_scheduling_views _ _ Hs) as (Et&_). split; try done.
    - by apply (system_ok_same k1).
    - destruct (ss_roles _ _ Hs) as (_&_&->). apply Hsw.
    - rewrite Et. apply Hsw.
    - rewrite Et. apply Hsw.
    - intros t. rewrite Et. apply Hsw.
    - intros t Hc Hn'. rewrite Et. by apply (sw_others _ _ _ _ Hsw).
    - rewrite Hmem. apply Hsw.
    - eapply same_nesting_trans; [apply Hsw|done]. }
  assert (∀ x, runnable k1 x = true → wp (rts_scheduler_prepare_switch (Some x)) (λ _ k', dispatched k k' c n) k1) as Hprep.
  { intros x Hx. eapply wp_run; [apply (prepare_run k1 n x Hok (sw_current _ _ _ _ Hsw) Hx)|].
    destruct (prepared_frame n x k1) as (p&cs&E). pose proof (prepared_plan n x k1) as Ep.
    apply Hsame; [apply prepared_same|by rewrite E| |by rewrite E| |by rewrite E].
    - apply (ko_plan _ (kernel_ok_prepared n x k1 Hok (sw_current _ _ _ _ Hsw))).
    - rewrite Ep. unfold plan_prepared. rewrite Hact. repeat case_match; done. }
  unfold rts_scheduler_reselect_after_switch. apply wp_bind, wp_gets.
  destruct (plan_reselection_required _); cbn [negb].
  2: { apply wp_ret, Hsame; try done. apply (ko_plan k1 Hok). }
  apply wp_bind. eapply wp_run; [apply rts_scheduler_current_get_run|]. rewrite (sw_current _ _ _ _ Hsw).
  apply wp_bind, wp_RTS_FATAL_UNLESS; [done|].
  apply wp_bind, wp_RTS_FATAL_UNLESS; [unfold gets; by rewrite bool_decide_true by apply Hsw|].
  destruct (select_run k1 Hok) as (x&_&Hx&Hsel). apply wp_bind. eapply wp_run; [exact Hsel|].
  apply wp_bind, wp_RTS_FATAL_UNLESS; [done|]. rewrite (bool_decide_false (Some n = None)), (bool_decide_false (Some x = None)) by done.
  cbn [orb]. case_bool_decide as E; [injection E as ->|by apply Hprep].
  apply wp_bind. eapply wp_mono; [by apply Hprep|]. intros b k' Hk'. by apply wp_ret.
Qed.

(** What rts_cm4f_switch_bridge_complete finds. *)
Record switch_open (m : cortex) (c n : task_ptr) : Prop := {
  so_system : system_ok (cx_kernel m);
  so_room : port_room (cx_kernel m);
  so_current : k_current_task (cx_kernel m) = Some c;
  so_active : plan_active (k_switch_plan (cx_kernel m)) = true;
  so_pending : plan_pending (k_switch_plan (cx_kernel m)) = false;
  so_from : plan_from (k_switch_plan (cx_kernel m)) = Some c;
  so_to : plan_to (k_switch_plan (cx_kernel m)) = Some n;
  so_ready : state (task (cx_kernel m) n) = RTS_TASK_STATE_READY;
  so_other : c ≠ n;
  so_stacks : stack_sound (cx_kernel m) c ∧ stack_sound (cx_kernel m) n;
  so_handoff : cx_switch_handoff m =
    mk_switch_handoff (Some c) (Some n) (plan_snapshot (k_switch_plan (cx_kernel m)))
      (saved_stack_pointer (task (cx_kernel m) c)) (saved_stack_pointer (task (cx_kernel m) n))
}.

Lemma kernel_current m : kernel_call rts_scheduler_current_get m = Done (k_current_task (cx_kernel m)) m.
Proof. unfold kernel_call, zoom. rewrite rts_scheduler_current_get_run. by destruct m. Qed.

Lemma handoff_task_run m field t : field (cx_switch_handoff m) = Some t → handoff_task field m = Done t m.
Proof. intros E. unfold handoff_task. by rewrite bind_gets, E. Qed.

Lemma handoff_is_current_run m c n : switch_open m c n → handoff_is_current addr_switch_handoff m = Done true m.
Proof.
  intros [Hsy Hroom Hc Ha Hp Hf Ht Hr Hne Hst Hh].
  unfold handoff_is_current. repeat apply (andM_run _ _ true true); try intros _.
  - unfold gets. rewrite Hh. unfold plan_snapshot. cbn. rewrite Z.eqb_refl, Ha, Hp, Hf, Ht, !bool_decide_true by done. done.
  - rewrite (bind_run _ _ _ _ _ (kernel_current m)). unfold gets. by rewrite Hh, Hc, bool_decide_true.
  - rewrite (bind_run _ _ _ _ _ (handoff_task_run m handoff_from c ltac:(by rewrite Hh))). unfold gets. rewrite Hh. cbn. by rewrite Z.eqb_refl.
  - rewrite (bind_run _ _ _ _ _ (handoff_task_run m handoff_to n ltac:(by rewrite Hh))). unfold gets. rewrite Hh. cbn. by rewrite Z.eqb_refl.
Qed.
Lemma handoff_is_committed_run m k c n :
  dispatched k (cx_kernel m) c n → outgoing k c = true → c ≠ n → handoff_from (cx_switch_handoff m) = Some c →
  handoff_to (cx_switch_handoff m) = Some n → handoff_is_committed m = Done true m.
Proof.
  intros Hd Ho Hne Hf Ht. unfold handoff_is_committed. repeat apply (andM_run _ _ true true); try intros _.
  - unfold gets. by rewrite (di_active _ _ _ _ Hd).
  - rewrite (bind_run _ _ _ _ _ (kernel_current m)). unfold gets. by rewrite Ht, (di_current _ _ _ _ Hd), bool_decide_true.
  - rewrite (bind_run _ _ _ _ _ (handoff_task_run m handoff_from c Hf)). unfold gets. rewrite (di_left _ _ _ _ Hd).
    apply outgoing_state in Ho as [E|E]; by rewrite E.
  - rewrite (bind_run _ _ _ _ _ (handoff_task_run m handoff_to n Ht)). unfold gets. by rewrite (di_running _ _ _ _ Hd).
Qed.

Lemma bridge_complete_spec m c n :
  switch_open m c n →
  wp (rts_cm4f_switch_bridge_complete addr_switch_handoff) (λ r m', r = true ∧
    ∃ k' pend, m' = m <| cx_kernel := k' |> <| cx_pendsv := pend |> ∧ dispatched (cx_kernel m) k' c n) m.
Proof.
  intros Hso. pose proof Hso as [Hsy Hroom Hc Ha Hp Hf Ht Hr Hne [Hsc Hsn] Hh]. pose proof (sy_kernel _ Hsy) as Hok.
  set (k := cx_kernel m) in *. destruct (ko_current k Hok) as (c'&Ec&Ho). rewrite Hc in Ec. injection Ec as <-.
  assert (runnable k n = true) as Hn by (pose proof (ko_task k Hok n) as Htk; unfold task_ok in Htk; by rewrite Hr in Htk).
  unfold rts_cm4f_switch_bridge_complete. apply wp_bind. eapply wp_run; [by eapply handoff_is_current_run|].
  apply wp_bind, wp_RTS_FATAL_UNLESS; [done|]. cbn [negb]. apply wp_bind, wp_gets. rewrite Hh. cbn [handoff_snapshot].
  apply wp_bind, wp_kernel_call. fold k. eapply wp_mono; [apply (rts_scheduler_switch_complete_spec k c n); try done;
    [intros t; apply (ko_prio k Hok)|apply (ko_live k Hok)]|].
  intros [] k1 [Hsw Hn1].
  assert (system_ok k1) as Hsy1 by (rewrite (sw_tick _ _ _ _ Hsw); by eapply system_ok_switched).
  apply wp_bind, wp_kernel_call. eapply wp_mono; [by eapply reselect_spec|]. intros notify k2 Hd.
  apply wp_bind. eapply (wp_mono _ (λ _ m', ∃ pend, m' = m <| cx_kernel := k2 |> <| cx_pendsv := pend |>)).
  { destruct notify; cbn [when].
    - apply wp_bind, wp_RTS_ASSERT; [done|]. apply wp_modify. by exists true.
    - apply wp_ret. exists (cx_pendsv m). by destruct m. }
  intros [] m' (pend&->). apply wp_bind. eapply wp_run.
  { eapply (handoff_is_committed_run _ k c n); [exact Hd|done|done|cbn; by rewrite Hh|cbn; by rewrite Hh]. }
  apply wp_bind, wp_RTS_FATAL_UNLESS; [done|]. apply wp_ret. split; [done|]. by exists k2, pend.
Qed.
End bridge.

(** ** The stacks *)

Section stacks.
Context `{ConfigOk} `{!CortexConfig}.

Definition guard_bytes : Z := if RTS_ENABLE_STACK_GUARDS then RTS_STACK_GUARD_SIZE_BYTES else 0.

Lemma guard_bytes_nonneg : 0 ≤ guard_bytes.
Proof. unfold guard_bytes. pose proof cfg_guard. destruct RTS_ENABLE_STACK_GUARDS; [|done]. naive_solver lia. Qed.

(** The guard of [t] is read from the task and [guard_bytes] bytes. *)
Lemma stack_guard_frame s s' t :
  rts_stack_guard_is_valid (Some t) s = Done true s → stack_low (task s' t) = stack_low (task s t) →
  stack_high (task s' t) = stack_high (task s t) →
  (∀ i, 0 ≤ i < guard_bytes → load_byte s' (stack_low (task s t) + i) = load_byte s (stack_low (task s t) + i)) →
  rts_stack_guard_is_valid (Some t) s' = Done true s'.
Proof.
  intros Hg El Eh Hb. revert Hg. unfold rts_stack_guard_is_valid, guard_bytes in *. destruct RTS_ENABLE_STACK_GUARDS; [|done].
  cbn [negb]. rewrite !bind_gets, El, Eh. destruct (_ || _); [done|].
  rewrite (all_of_run _ _ (λ i, load_byte s (stack_low (task s t) + i) =? RTS_STACK_GUARD_PATTERN) s) by done.
  rewrite (all_of_run _ _ (λ i, load_byte s (stack_low (task s t) + i) =? RTS_STACK_GUARD_PATTERN) s'); [by intros [= ->]|].
  intros x Hx. apply elem_of_seqZ in Hx. unfold gets. rewrite Hb by lia. done.
Qed.

(** The machine may be interrupted in [c]: its stack has room for its context
    and does not meet the main stack. *)
Record stack_room (m : cortex) (c : task_ptr) : Prop := {
  sr_aligned : cx_psp m mod 4 = 0;
  sr_low : 0 < stack_low (task (cx_kernel m) c);
  sr_space : stack_low (task (cx_kernel m) c) + guard_bytes ≤ cx_psp m - 68;
  sr_high : cx_psp m ≤ stack_high (task (cx_kernel m) c) ≤ UINT32_MAX;
  sr_main : cx_msp m ≤ stack_low (task (cx_kernel m) c) ∨ stack_high (task (cx_kernel m) c) ≤ cx_msp m - 8
}.

(** And [n] has a frame on another stack. *)
Record stacks_ok (m : cortex) (c n : task_ptr) : Prop := {
  st_room : stack_room m c;
  st_saved : saved_stack_pointer (task (cx_kernel m) c) ≠ 0;
  st_guard : rts_stack_guard_is_valid (Some c) (cx_kernel m) = Done true (cx_kernel m);
  st_next : stack_sound (cx_kernel m) n;
  st_next_frame : rts_cm4f_saved_sp_is_valid (cx_kernel m) (Some n) (saved_stack_pointer (task (cx_kernel m) n)) = true;
  st_next_low : 0 < stack_low (task (cx_kernel m) n);
  st_next_high : stack_high (task (cx_kernel m) n) ≤ UINT32_MAX;
  st_apart : stack_high (task (cx_kernel m) c) ≤ stack_low (task (cx_kernel m) n) ∨
             stack_high (task (cx_kernel m) n) ≤ stack_low (task (cx_kernel m) c);
  st_next_main : cx_msp m ≤ stack_low (task (cx_kernel m) n) ∨ stack_high (task (cx_kernel m) n) ≤ cx_msp m - 8
}.

Lemma st_main m c n t :
  stacks_ok m c n → t = c ∨ t = n → cx_msp m ≤ stack_low (task (cx_kernel m) t) ∨ stack_high (task (cx_kernel m) t) ≤ cx_msp m - 8.
Proof. intros Hst [->| ->]; apply Hst. Qed.

(** A valid guard lies in its stack. *)
Lemma guard_inside s t :
  rts_stack_guard_is_valid (Some t) s = Done true s → stack_low (task s t) < stack_high (task s t) →
  stack_low (task s t) + guard_bytes ≤ stack_high (task s t).
Proof.
  intros Hg Hlt. revert Hg. unfold rts_stack_guard_is_valid, guard_bytes. destruct RTS_ENABLE_STACK_GUARDS; [|lia].
  cbn [negb]. rewrite !bind_gets. destruct (_ || _) eqn:E; [done|]. intros _. apply orb_false_iff in E as [_ E%Z.ltb_ge].
  unfold size_t in E. pose proof cfg_size_max. pose proof (Z.mod_le (stack_high (task s t) - stack_low (task s t)) (SIZE_MAX + 1)). pose proof cfg_tasks. lia.
Qed.

(** The frame of [n] lies in its stack. *)
Lemma next_frame m c n :
  stacks_ok m c n →
  stack_low (task (cx_kernel m) n) ≤ saved_stack_pointer (task (cx_kernel m) n) ∧
  saved_stack_pointer (task (cx_kernel m) n) + 64 ≤ stack_high (task (cx_kernel m) n) ∧
  saved_stack_pointer (task (cx_kernel m) n) mod 8 = 0.
Proof.
  intros Hst. pose proof (st_next_frame _ _ _ Hst) as Hv. pose proof (st_next_high _ _ _ Hst). pose proof (st_next_low _ _ _ Hst).
  unfold rts_cm4f_saved_sp_is_valid in Hv. destruct ((_ =? 0) || _ || _); [done|].
  rewrite !andb_true_iff, !Z.leb_le, Z.ltb_lt, Z.eqb_eq in Hv. destruct Hv as [[[[A1 A2] A3] A4] A5].
  unfold RTS_CM4F_INITIAL_FRAME_SIZE_BYTES, RTS_CM4F_ARCH_STACK_ALIGNMENT, uintptr_t in *. rewrite cortex_pointers in A5.
  rewrite Z.mod_small in A5 by lia. split_and!; [lia..|done].
Qed.

Lemma saved_sp_valid_intro s t v :
  0 < stack_low (task s t) → stack_low (task s t) ≤ v → v + 64 ≤ stack_high (task s t) ≤ UINT32_MAX → v mod 8 = 0 →
  rts_cm4f_saved_sp_is_valid s (Some t) v = true.
Proof.
  intros H1' H2' H3' H4'. unfold rts_cm4f_saved_sp_is_valid, RTS_CM4F_INITIAL_FRAME_SIZE_BYTES, RTS_CM4F_ARCH_STACK_ALIGNMENT, uintptr_t.
  rewrite (proj2 (Z.eqb_neq v 0)), (proj2 (Z.eqb_neq (stack_low _) 0)), (proj2 (Z.eqb_neq (stack_high _) 0)) by lia. cbn [orb]. rewrite cortex_pointers, (Z.mod_small (_ - v)) by lia.
  rewrite !andb_true_iff, !Z.leb_le, Z.ltb_lt, Z.eqb_eq. lia.
Qed.

Lemma stack_sp_valid_intro s t v :
  0 < stack_low (task s t) → stack_low (task s t) + guard_bytes ≤ v → v < stack_high (task s t) ≤ UINT32_MAX → v mod 8 = 0 →
  saved_stack_pointer (task s t) = v → rts_stack_saved_sp_is_valid (Some t) s = Done true s.
Proof.
  intros H1' H2' H3' H4' <-. unfold rts_stack_saved_sp_is_valid, gets. f_equal. pose proof guard_bytes_nonneg.
  rewrite (proj2 (Z.eqb_neq (saved_stack_pointer _) 0)), (proj2 (Z.eqb_neq (stack_low _) 0)), (proj2 (Z.eqb_neq (stack_high _) 0)) by lia.
  cbn [orb]. unfold guard_bytes, uintptr_t in *.
  rewrite !andb_true_iff, Z.leb_le, Z.ltb_lt, Z.eqb_eq. split_and!; [|lia|done].
  destruct RTS_ENABLE_STACK_GUARDS; [|lia]. rewrite cortex_pointers, Z.mod_small by lia. lia.
Qed.
End stacks.

(** Reading a register after writes of others. *)
Ltac regs := unfold reg, set_reg; cbn [cx_regs]; cbn;
  repeat first [rewrite lookup_total_insert_eq | rewrite lookup_total_insert_ne by done].

(** The eight registers R4 to R11. *)
Ltac each_callee i :=
  let Hc := fresh in
  assert (i = 0 ∨ i = 1 ∨ i = 2 ∨ i = 3 ∨ i = 4 ∨ i = 5 ∨ i = 6 ∨ i = 7) as Hc by lia; destruct_or! Hc; subst i.

(** ** PendSV *)

Section switching.
Context `{ConfigOk} `{!BitmapPolicy} `{!CortexConfig} `{CortexLayoutOk} (scratch : Z → Z).

(** Where the context of the interrupted task is saved, and the kernel once it is. *)
Definition outgoing_sp (m : cortex) : Z := entry_frame (cx_psp m) - 32.
Definition hardware_frame (m : cortex) : list Z :=
  [reg m 0; reg m 1; reg m 2; reg m 3; reg m 12; reg m LR; reg m PC; stacked_xpsr (reg m XPSR) (cx_psp m)].
Definition context_stored (m : cortex) : kernel :=
  store_words (cx_msp m - 8) [outgoing_sp m; RTS_CM4F_EXC_RETURN_THREAD_PSP_BASIC]
    (store_words (outgoing_sp m) (reg m <$> seqZ 4 8) (store_words (entry_frame (cx_psp m)) (hardware_frame m) (cx_kernel m))).

Lemma context_stored_frame m : ∃ mem, context_stored m = (cx_kernel m) <| k_memory := mem |>.
Proof.
  unfold context_stored. destruct (store_words_frame (entry_frame (cx_psp m)) (hardware_frame m) (cx_kernel m)) as [m1 ->].
  edestruct store_words_frame as [m2 ->]. edestruct store_words_frame as [m3 ->]. by eexists.
Qed.

Lemma callee_length m : length (reg m <$> seqZ 4 8) = 8%nat.
Proof. done. Qed.

Section stored.
Context (m : cortex) (c : task_ptr) (Hst : stack_room m c).

Lemma outgoing_sp_facts :
  outgoing_sp m mod 8 = 0 ∧ stack_low (task (cx_kernel m) c) + guard_bytes ≤ outgoing_sp m ∧
  outgoing_sp m + 64 ≤ stack_high (task (cx_kernel m) c) ∧ entry_frame (cx_psp m) = outgoing_sp m + 32 ∧
  outgoing_sp m + 64 + (if Z.testbit (cx_psp m) 2 then 4 else 0) = cx_psp m.
Proof.
  destruct (frame_round_trip (cx_psp m) (sr_aligned _ _ Hst)) as (Hal&Hrt&Hr).
  pose proof (sr_space _ _ Hst). pose proof (sr_high _ _ Hst). unfold outgoing_sp. split_and!; [|lia..].
  rewrite Zminus_mod, Hal. done.
Qed.

(** Memory outside the saved context and the main stack. *)
Lemma stored_byte x :
  x < outgoing_sp m ∨ outgoing_sp m + 64 ≤ x → x < cx_msp m - 8 ∨ cx_msp m ≤ x →
  load_byte (context_stored m) x = load_byte (cx_kernel m) x.
Proof.
  intros H1' H2'. destruct outgoing_sp_facts as (_&_&_&E&_). unfold context_stored.
  rewrite !load_byte_store_words; rewrite ?callee_length; [done|cbn; lia..].
Qed.

Lemma stored_word x :
  x + 4 ≤ outgoing_sp m ∨ outgoing_sp m + 64 ≤ x → x + 4 ≤ cx_msp m - 8 ∨ cx_msp m ≤ x →
  load_word (context_stored m) x = load_word (cx_kernel m) x.
Proof.
  intros H1' H2'. unfold load_word, load_bytes. f_equal. apply list_fmap_ext. intros i y Hy%lookup_seqZ. apply stored_byte; lia.
Qed.

Lemma main_apart : cx_msp m ≤ outgoing_sp m ∨ outgoing_sp m + 64 ≤ cx_msp m - 8.
Proof.
  destruct outgoing_sp_facts as (_&Hlo&Hhi&_). pose proof guard_bytes_nonneg.
  destruct (sr_main _ _ Hst); lia.
Qed.

(** What was stored reads back. *)
Lemma stored_callee z v :
  0 ≤ z → (reg m <$> seqZ 4 8) !! Z.to_nat z = Some v → is_u32 v → load_word (context_stored m) (outgoing_sp m + 4 * z) = v.
Proof.
  intros Hz Hi Hv. pose proof (lookup_lt_Some _ _ _ Hi) as Hlt. rewrite callee_length in Hlt. pose proof main_apart as Hma.
  unfold context_stored. rewrite load_word_store_words_other by (cbn; lia). replace z with (Z.of_nat (Z.to_nat z)) by lia.
  by apply load_word_store_words.
Qed.

Lemma stored_context :
  (∀ r, is_u32 (reg m r)) → Z.testbit (reg m XPSR) 9 = false → saved_context (context_stored m) (outgoing_sp m) = thread_context m.
Proof.
  intros Hu Hx. destruct outgoing_sp_facts as (_&_&_&E&Esp). pose proof main_apart as Hma.
  destruct (xpsr_round_trip (reg m XPSR) (cx_psp m) Hx) as [X1 X2].
  assert (∀ z v, 8 ≤ z → hardware_frame m !! Z.to_nat (z - 8) = Some v → is_u32 v →
    load_word (context_stored m) (outgoing_sp m + 4 * z) = v) as Hhw.
  { intros z v Hz Hi Hv. pose proof (lookup_lt_Some _ _ _ Hi) as Hlt. cbn in Hlt. unfold context_stored.
    rewrite !load_word_store_words_other by (rewrite ?callee_length; cbn; lia). rewrite E.
    replace (outgoing_sp m + 4 * z) with (outgoing_sp m + 32 + 4 * Z.of_nat (Z.to_nat (z - 8))) by lia. by apply load_word_store_words. }
  unfold saved_context. cbv zeta.
  rewrite (stored_callee 0 (reg m 4)), (stored_callee 1 (reg m 5)), (stored_callee 2 (reg m 6)), (stored_callee 3 (reg m 7)),
    (stored_callee 4 (reg m 8)), (stored_callee 5 (reg m 9)), (stored_callee 6 (reg m 10)), (stored_callee 7 (reg m 11)) by done.
  rewrite (Hhw 8 (reg m 0)), (Hhw 9 (reg m 1)), (Hhw 10 (reg m 2)), (Hhw 11 (reg m 3)), (Hhw 12 (reg m 12)),
    (Hhw 13 (reg m LR)), (Hhw 14 (reg m PC)) by done.
  rewrite (Hhw 15 (stacked_xpsr (reg m XPSR) (cx_psp m))) by (done || by apply stacked_xpsr_u32).
  unfold thread_context. by rewrite X1, X2, Esp.
Qed.
End stored.

Lemma next_apart m c n :
  stacks_ok m c n →
  (saved_stack_pointer (task (cx_kernel m) n) + 64 ≤ outgoing_sp m ∨
   outgoing_sp m + 64 ≤ saved_stack_pointer (task (cx_kernel m) n)) ∧
  (cx_msp m ≤ saved_stack_pointer (task (cx_kernel m) n) ∨ saved_stack_pointer (task (cx_kernel m) n) + 64 ≤ cx_msp m - 8).
Proof.
  intros Hst. destruct (outgoing_sp_facts m c (st_room _ _ _ Hst)) as (_&Hlo&Hhi&_), (next_frame m c n Hst) as (Hnl&Hnh&_). pose proof guard_bytes_nonneg.
  split; [destruct (st_apart _ _ _ Hst); lia|]. destruct (st_next_main _ _ _ Hst); lia.
Qed.

(** ** The exchange *)

Lemma wp_load_handoff {A} rd ra field t m (f : B A) Q :
  reg m ra = addr_switch_handoff → field (cx_switch_handoff m) = Some t →
  wp f Q (set_reg rd (addr_tcb t) m) → wp (load_handoff rd ra field ;;; f) Q m.
Proof.
  intros Ha Hf HQ. apply wp_bind. unfold load_handoff. apply wp_bind, wp_gets. rewrite Ha, Z.eqb_refl. cbn [negb].
  apply wp_modify. by rewrite Hf.
Qed.

Lemma wp_store_saved_sp {A} rs ra t m (f : B A) Q :
  reg m ra = addr_tcb t → wp f Q (m <| cx_kernel := resaved t (reg m rs) (cx_kernel m) |>) → wp (store_saved_sp rs ra ;;; f) Q m.
Proof.
  intros Ha HQ. apply wp_bind. unfold store_saved_sp. apply wp_bind, wp_gets. rewrite Ha, layout_tcb. cbn [deref].
  by apply wp_bind, wp_ret, wp_modify.
Qed.

Lemma wp_load_saved_sp {A} rd ra t m (f : B A) Q :
  reg m ra = addr_tcb t → wp f Q (set_reg rd (saved_stack_pointer (task (cx_kernel m) t)) m) → wp (load_saved_sp rd ra ;;; f) Q m.
Proof.
  intros Ha HQ. apply wp_bind. unfold load_saved_sp. apply wp_bind, wp_gets. rewrite Ha, layout_tcb. cbn [deref].
  by apply wp_bind, wp_ret, wp_modify.
Qed.

(** What the processor unstacks, R4 to R11 being loaded already. *)
Lemma returned_context m w sp :
  cx_psp m = sp + 32 → (∀ i, 0 ≤ i < 8 → reg m (4 + i) = w i) →
  (∀ i, 0 ≤ i < 8 → load_word (cx_kernel m) (cx_psp m + 4 * i) = w (8 + i)) →
  thread_context (returned m) =
  mk_context [w 8; w 9; w 10; w 11; w 0; w 1; w 2; w 3; w 4; w 5; w 6; w 7; w 12] (w 13) (w 14) (Z.ldiff (w 15) 512)
    (sp + 64 + (if Z.testbit (w 15) 9 then 4 else 0)).
Proof.
  intros Hp Hc Hw. unfold returned, thread_context. cbv zeta. rewrite !Hw, Hp by lia.
  pose proof (Hc 0 ltac:(lia)). pose proof (Hc 1 ltac:(lia)). pose proof (Hc 2 ltac:(lia)). pose proof (Hc 3 ltac:(lia)).
  pose proof (Hc 4 ltac:(lia)). pose proof (Hc 5 ltac:(lia)). pose proof (Hc 6 ltac:(lia)). pose proof (Hc 7 ltac:(lia)).
  unfold reg in *. cbn in *. change (seqZ 0 13) with [0; 1; 2; 3; 4; 5; 6; 7; 8; 9; 10; 11; 12]. cbn [fmap list_fmap].
  repeat first [rewrite lookup_total_insert_eq | rewrite lookup_total_insert_ne by done]. f_equal.
  - repeat (apply (f_equal2 cons); [first [reflexivity|assumption]|]). done.
  - change (8 + 7) with 15. match goal with |- context [if ?b then _ else _] => destruct b end; lia.
Qed.

(** Loading the next context and committing, [sp] being where it is saved. *)
Lemma resume_spec m c n sp :
  reg m 2 = sp → load_word (cx_kernel m) (cx_msp m) = addr_switch_handoff → switch_open m c n →
  wp (restore_callee 2 ;;;
      modify (λ m, m <| cx_psp := reg m 2 |>) ;;;
      load_top 0 ;;;
      let* handoff := gets (λ m, reg m 0) in
      let* completed := rts_cm4f_switch_bridge_complete handoff in
      call_returned scratch (if completed then 1 else 0) ;;;
      let* r0 := gets (λ m, reg m 0) in
      if r0 =? 0 then rts_cm4f_start_fatal else
      modify (λ m, m <| cx_msp := cx_msp m + 8 |>) ;;;
      __DSB ;;; __ISB ;;;
      __enable_irq ;;;
      modify (set_reg LR RTS_CM4F_EXC_RETURN_THREAD_PSP_BASIC) ;;;
      exception_return) (λ _ m',
    dispatched (cx_kernel m) (cx_kernel m') c n ∧ thread_context m' = saved_context (cx_kernel m) sp ∧
    cx_msp m' = cx_msp m + 8 ∧ cx_primask m' = false ∧ cx_ipsr m' = 0) m.
Proof.
  intros Hr2 Htop Hopen. apply wp_bind, wp_modify. rewrite Hr2. set (w i := load_word (cx_kernel m) (sp + 4 * i)).
  apply wp_bind, wp_modify, wp_bind, wp_modify.
  match goal with |- wp _ _ ?x => set (m1 := x) end.
  assert (reg m1 0 = addr_switch_handoff) as H0' by (unfold m1; regs; exact Htop).
  assert (cx_psp m1 = sp + 32) as Hpsp by (unfold m1; cbn; by regs).
  assert (∀ i, 0 ≤ i < 8 → reg m1 (4 + i) = w i) as Hcallee.
  { intros i Hi. each_callee i; unfold m1; by regs. }
  assert (switch_open m1 c n) as Hopen1 by (destruct Hopen; by split).
  assert (cx_kernel m1 = cx_kernel m) as Hk1 by done. assert (cx_msp m1 = cx_msp m) as Hm1 by done. clearbody m1.
  apply wp_bind, wp_gets. rewrite H0'. apply wp_bind. eapply wp_mono; [by apply (bridge_complete_spec m1 c n)|].
  intros r m2 (->&k'&pend&->&Hd). rewrite Hk1 in Hd. apply wp_bind, wp_modify, wp_bind, wp_gets.
  match goal with |- wp (if reg ?x 0 =? 0 then _ else _) _ _ => assert (reg x 0 = 1) as -> by by regs end. cbn [Z.eqb].
  apply wp_bind, wp_modify. apply wp_bind, wp_ret, wp_bind, wp_ret, wp_bind, wp_modify, wp_bind, wp_modify.
  apply wp_bind, wp_gets. match goal with |- wp (if negb (reg ?x LR =? _) then _ else _) _ _ => set (m3 := x) end.
  assert (reg m3 LR = RTS_CM4F_EXC_RETURN_THREAD_PSP_BASIC) as -> by (unfold m3; by regs). rewrite Z.eqb_refl. cbn [negb].
  assert (cx_kernel m3 = k') as Hk3 by done. assert (cx_psp m3 = sp + 32) as Hp3 by done.
  assert (cx_msp m3 = cx_msp m + 8) as Hm3 by (rewrite <- Hm1; done). assert (cx_primask m3 = false) as Hpm by done.
  assert (∀ i, 0 ≤ i < 8 → reg m3 (4 + i) = w i) as Hcallee3.
  { intros i Hi. rewrite <- (Hcallee i Hi). unfold m3. each_callee i; by regs. }
  clearbody m3. apply wp_modify. split_and!; try done; [by cbn; rewrite Hk3|].
  assert (∀ i, load_word k' (sp + 32 + 4 * i) = w (8 + i)) as Hw.
  { intros i. rewrite (load_word_memory (cx_kernel m) k') by apply Hd. unfold w. f_equal. lia. }
  rewrite <- Hk3, <- Hp3 in Hw. by apply (returned_context m3 w).
Qed.
(** The machine's memory when the next context is loaded: the context of [c]
    stored, its stack pointer published, the plan acquired. *)
Definition published (m : cortex) (c : task_ptr) : kernel :=
  store_word (cx_msp m - 8) addr_switch_handoff (resaved c (outgoing_sp m) (acquired (context_stored m))).

Section published.
Context (m : cortex) (c n : task_ptr) (Hst : stacks_ok m c n) (Hd : switch_due (cx_kernel m) c n).

Lemma published_frame :
  ∃ mem, published m c = (resaved c (outgoing_sp m) (acquired (cx_kernel m))) <| k_memory := mem |>.
Proof.
  unfold published, store_word. destruct (context_stored_frame m) as [mem ->]. generalize (cx_kernel m) as k. intros k.
  edestruct store_bytes_frame as [mem' ->]. exists mem'. by destruct k.
Qed.

Lemma published_task u : task (published m c) u = task (resaved c (outgoing_sp m) (cx_kernel m)) u.
Proof. destruct published_frame as [mem ->]. generalize (cx_kernel m). by intros []. Qed.

Lemma published_byte x :
  x < cx_msp m - 8 ∨ cx_msp m - 4 ≤ x → load_byte (published m c) x = load_byte (context_stored m) x.
Proof.
  intros Hx. unfold published, store_word. rewrite load_store_bytes, decide_False by (cbn; lia).
  generalize (context_stored m). by intros [].
Qed.

Lemma published_word x :
  x + 4 ≤ cx_msp m - 8 ∨ cx_msp m ≤ x → load_word (published m c) x = load_word (context_stored m) x.
Proof.
  intros Hx. unfold load_word, load_bytes. f_equal. apply list_fmap_ext. intros i y Hy%lookup_seqZ. apply published_byte. lia.
Qed.

Lemma published_outgoing : saved_context (published m c) (outgoing_sp m) = saved_context (context_stored m) (outgoing_sp m).
Proof. apply saved_context_frame. intros i Hi. apply published_word. pose proof (main_apart m c (st_room _ _ _ Hst)). lia. Qed.

Lemma published_next :
  saved_context (published m c) (saved_stack_pointer (task (cx_kernel m) n)) =
  saved_context (cx_kernel m) (saved_stack_pointer (task (cx_kernel m) n)).
Proof.
  destruct (next_apart m c n Hst) as [A1 A2].
  apply saved_context_frame. intros i Hi. rewrite published_word by lia. apply (stored_word m c (st_room _ _ _ Hst)); lia.
Qed.

Lemma published_other u : u ≠ c → task (published m c) u = task (cx_kernel m) u.
Proof. intros Hu. rewrite published_task. unfold resaved. by rewrite task_upd_task, decide_False. Qed.

Lemma published_self : task (published m c) c = (task (cx_kernel m) c) <| saved_stack_pointer := outgoing_sp m |>.
Proof. rewrite published_task. unfold resaved. by rewrite task_upd_task, decide_True. Qed.

Lemma published_system : system_ok (published m c).
Proof.
  destruct published_frame as [mem ->]. pose proof guard_bytes_nonneg. pose proof (sr_low _ _ (st_room _ _ _ Hst)).
  destruct (outgoing_sp_facts m c (st_room _ _ _ Hst)) as (_&Hlo&_). apply system_ok_memory, system_ok_resaved; [lia|apply (st_saved _ _ _ Hst)|].
  apply system_ok_acquired; apply Hd.
Qed.

(** The guards are where nothing is stored. *)
Lemma published_guard u :
  u = c ∨ u = n → rts_stack_guard_is_valid (Some u) (published m c) = Done true (published m c).
Proof.
  intros Hu. destruct (switch_due_facts _ _ _ Hd) as (Hne&_). destruct (outgoing_sp_facts m c (st_room _ _ _ Hst)) as (_&Hlo&Hhi&_).
  destruct (next_frame m c n Hst) as (Hnl&Hnh&_). pose proof (st_main _ _ _ u Hst Hu) as Hmain. pose proof guard_bytes_nonneg.
  assert (rts_stack_guard_is_valid (Some u) (cx_kernel m) = Done true (cx_kernel m)) as Hg.
  { destruct Hu as [->| ->]; [apply (st_guard _ _ _ Hst)|apply (st_next _ _ _ Hst)]. }
  assert (stack_low (task (cx_kernel m) u) < stack_high (task (cx_kernel m) u)) as Hlt by (destruct Hu; subst; lia).
  pose proof (guard_inside _ _ Hg Hlt). apply (stack_guard_frame (cx_kernel m)); [done|..].
  - rewrite published_task. by apply (resaved_task _ _ _ stack_low u).
  - rewrite published_task. by apply (resaved_task _ _ _ stack_high u).
  - intros i Hi. rewrite published_byte by lia. apply (stored_byte m c (st_room _ _ _ Hst)); [|lia].
    destruct Hu; subst; [lia|]. destruct (st_apart _ _ _ Hst); lia.
Qed.

Lemma published_stacks : stack_sound (published m c) c ∧ stack_sound (published m c) n.
Proof.
  destruct (switch_due_facts _ _ _ Hd) as (Hne&_). destruct (outgoing_sp_facts m c (st_room _ _ _ Hst)) as (Hal&Hlo&Hhi&_).
  pose proof (sr_high _ _ (st_room _ _ _ Hst)). pose proof (sr_low _ _ (st_room _ _ _ Hst)). split; split; try (apply published_guard; by auto).
  - apply (stack_sp_valid_intro _ _ (outgoing_sp m)); rewrite ?published_self; cbn; try done; lia.
  - pose proof (proj2 (st_next _ _ _ Hst)) as Hv. revert Hv. unfold rts_stack_saved_sp_is_valid, gets.
    rewrite published_other by done. by intros [= ->].
Qed.

Lemma published_open m' :
  port_room (cx_kernel m) → cx_kernel m' = published m c →
  cx_switch_handoff m' = mk_switch_handoff (Some c) (Some n) (plan_snapshot (k_switch_plan (cx_kernel m))) (outgoing_sp m)
    (saved_stack_pointer (task (cx_kernel m) n)) → switch_open m' c n.
Proof.
  intros Hroom Ek Eh. destruct (switch_due_facts _ _ _ Hd) as (Hne&Hn&Ho&Hfrom). pose proof Hd as [Hsy Hc Hp Hto Hr].
  pose proof published_frame as [mem Ef]. split; rewrite ?Ek, ?Eh, ?published_self, ?published_other by done; try done.
  all: try (rewrite Ef; by destruct (cx_kernel m)).
  - apply published_system.
  - apply published_stacks.
Qed.
Lemma acquired_handoff m' :
  cx_kernel m' = context_stored m →
  rts_cm4f_switch_bridge_acquire (outgoing_sp m) m' =
  Done addr_switch_handoff (m' <| cx_kernel := acquired (context_stored m) |>
    <| cx_switch_handoff := mk_switch_handoff (Some c) (Some n) (plan_snapshot (k_switch_plan (cx_kernel m))) (outgoing_sp m)
         (saved_stack_pointer (task (cx_kernel m) n)) |>).
Proof.
  intros Ek. destruct (context_stored_frame m) as [mem Ef]. pose proof Hd as [Hsy Hc Hp Hto Hr].
  destruct (outgoing_sp_facts m c (st_room _ _ _ Hst)) as (Hal&Hlo&Hhi&_). pose proof guard_bytes_nonneg.
  rewrite (bridge_acquire_run m' c n).
  - by rewrite Ek, Ef.
  - split; rewrite Ek, Ef; try done. by apply system_ok_memory.
  - pose proof (sr_high _ _ (st_room _ _ _ Hst)). pose proof (sr_low _ _ (st_room _ _ _ Hst)).
    assert (task (cx_kernel m') c = task (cx_kernel m) c) as Et by by rewrite Ek, Ef.
    apply saved_sp_valid_intro; rewrite ?Et; done || lia.
  - rewrite Ek, Ef. apply (st_next_frame _ _ _ Hst).
Qed.

(** The stack pointers are exchanged and the next task resumes. *)
Lemma pendsv_switch_spec m1 :
  port_room (cx_kernel m) → reg m1 0 = addr_switch_handoff → cx_msp m1 = cx_msp m - 8 →
  cx_kernel m1 = acquired (context_stored m) →
  cx_switch_handoff m1 = mk_switch_handoff (Some c) (Some n) (plan_snapshot (k_switch_plan (cx_kernel m))) (outgoing_sp m)
    (saved_stack_pointer (task (cx_kernel m) n)) → is_u32 (outgoing_sp m) →
  wp (pendsv_switch scratch) (λ _ m', dispatched (published m c) (cx_kernel m') c n ∧
    thread_context m' = saved_context (published m c) (saved_stack_pointer (task (cx_kernel m) n)) ∧
    cx_msp m' = cx_msp m ∧ cx_primask m' = false ∧ cx_ipsr m' = 0) m1.
Proof.
  intros Hroom Hr0 Hmsp Hk Hh Hu. destruct (switch_due_facts _ _ _ Hd) as (Hne&_). destruct (context_stored_frame m) as [mem Ef].
  unfold pendsv_switch. apply wp_bind, wp_modify. set (m2 := set_reg 1 _ m1).
  assert (reg m2 1 = outgoing_sp m) as H1'.
  { unfold m2. regs. rewrite Hk, Hmsp. transitivity (load_word (context_stored m) (cx_msp m - 8 + 4 * Z.of_nat 0)).
    - rewrite Z.add_0_r. by rewrite Ef.
    - unfold context_stored. by apply load_word_store_words. }
  apply (wp_load_handoff _ _ _ c); [unfold m2; by regs|cbn; by rewrite Hh|]. set (m3 := set_reg 2 _ m2).
  apply (wp_store_saved_sp _ _ c); [unfold m3; by regs|].
  assert (reg m3 1 = outgoing_sp m) as -> by (rewrite <- H1'; unfold m3; by regs).
  set (m4 := m3 <| cx_kernel := _ |>). apply (wp_load_handoff _ _ _ n); [unfold m4, m3, m2; by regs|cbn; by rewrite Hh|].
  set (m5 := set_reg 2 _ m4). apply (wp_load_saved_sp _ _ n); [unfold m5; by regs|]. set (m6 := set_reg 2 _ m5).
  apply wp_bind, wp_modify. set (m7 := m6 <| cx_kernel := _ |>).
  assert (reg m6 0 = addr_switch_handoff) as H6' by (rewrite <- Hr0; unfold m6, m5, m4, m3, m2; by regs).
  assert (cx_kernel m7 = published m c) as Hk7.
  { unfold published. rewrite <- Hmsp, <- Hk, <- H6'. done. }
  eapply wp_mono; [apply (resume_spec m7 c n (saved_stack_pointer (task (cx_kernel m) n)))|].
  - transitivity (saved_stack_pointer (task (cx_kernel m5) n)); [unfold m7, m6; by regs|]. unfold m5, m4, m3, m2. cbn.
    unfold resaved. rewrite task_upd_task, decide_False by done. by rewrite Hk, Ef.
  - rewrite Hk7. change (cx_msp m7) with (cx_msp m1). rewrite Hmsp. unfold published.
    apply (load_field _ 4 addr_switch_handoff). destruct layout_handoff as [Hl _]. unfold is_u32, UINT32_MAX in Hl. cbn. lia.
  - by apply published_open.
  - rewrite Hk7. intros [] m' (A1&A2&A3&A4&A5). split_and!; try done. rewrite A3. change (cx_msp m7) with (cx_msp m1). lia.
Qed.
End published.

(** What a context switch from [c] to [n] leaves. *)
Record context_switched (m m' : cortex) (c n : task_ptr) : Prop := {
  cs_system : system_ok (cx_kernel m');
  cs_current : k_current_task (cx_kernel m') = Some n;
  cs_running : state (task (cx_kernel m') n) = RTS_TASK_STATE_RUNNING;
  cs_left : state (task (cx_kernel m') c) =
    if decide (state (task (cx_kernel m) c) = RTS_TASK_STATE_RUNNING) then RTS_TASK_STATE_READY else state (task (cx_kernel m) c);
  cs_resumed : thread_context m' = saved_context (cx_kernel m) (saved_stack_pointer (task (cx_kernel m) n));
  cs_saved : saved_context (cx_kernel m') (saved_stack_pointer (task (cx_kernel m') c)) = thread_context m;
  cs_others t : t ≠ c → t ≠ n → task (cx_kernel m') t = task (cx_kernel m) t;
  cs_memory x : x < cx_psp m - 68 ∨ cx_psp m ≤ x → x < cx_msp m - 8 ∨ cx_msp m ≤ x →
    load_byte (cx_kernel m') x = load_byte (cx_kernel m) x;
  cs_machine : cx_msp m' = cx_msp m ∧ cx_primask m' = false ∧ cx_ipsr m' = 0
}.

Lemma context_switched_intro m m' c n :
  stacks_ok m c n → switch_due (cx_kernel m) c n → (∀ r, is_u32 (reg m r)) → Z.testbit (reg m XPSR) 9 = false →
  dispatched (published m c) (cx_kernel m') c n →
  thread_context m' = saved_context (published m c) (saved_stack_pointer (task (cx_kernel m) n)) →
  cx_msp m' = cx_msp m → cx_primask m' = false → cx_ipsr m' = 0 → context_switched m m' c n.
Proof.
  intros Hst Hd Hu Hx Hdi Hctx A1 A2 A3. destruct (switch_due_facts _ _ _ Hd) as (Hne&_).
  destruct (outgoing_sp_facts m c (st_room _ _ _ Hst)) as (_&_&_&_&Hsp).
  split; try done; try apply Hdi.
  - rewrite (di_left _ _ _ _ Hdi), published_self. done.
  - rewrite Hctx. by apply published_next.
  - pose proof (di_core _ _ _ _ Hdi c) as Hcore. rewrite published_self in Hcore.
    assert (saved_stack_pointer (task (cx_kernel m') c) = outgoing_sp m) as ->.
    { by injection Hcore. }
    rewrite <- (stored_context m c) by (done || apply Hst). rewrite <- (published_outgoing m c n Hst).
    apply saved_context_frame. intros i Hi. apply load_word_memory, Hdi.
  - intros t Hc Hn. rewrite (di_others _ _ _ _ Hdi) by done. by apply published_other.
  - intros x Hx1 Hx2. transitivity (load_byte (published m c) x); [unfold load_byte; by rewrite (di_memory _ _ _ _ Hdi)|].
    rewrite published_byte by lia. apply (stored_byte m c (st_room _ _ _ Hst)); [|lia]. destruct (Z.testbit (cx_psp m) 2); lia.
Qed.

(** The handler up to the bridge stores the context of the interrupted task. *)
Lemma pendsv_saves m Q :
  (∀ m1, cx_kernel m1 = context_stored m → reg m1 0 = outgoing_sp m → cx_msp m1 = cx_msp m - 8 →
     cx_psp m1 = entry_frame (cx_psp m) → (∀ i, 0 ≤ i < 8 → reg m1 (4 + i) = reg m (4 + i)) →
     wp (pendsv_bridge scratch) Q m1) →
  wp (pendsv scratch) Q m.
Proof.
  intros HQ. unfold pendsv. apply wp_bind, wp_modify. unfold PendSV_Handler.
  apply wp_bind, wp_modify, wp_bind, wp_modify, wp_bind, wp_gets.
  match goal with |- wp (if negb (reg ?x LR =? reg ?x 0) then _ else _) _ _ => set (m1 := x) end.
  assert (reg m1 LR = reg m1 0) as -> by (unfold m1; by regs). rewrite Z.eqb_refl. cbn [negb].
  apply wp_bind, wp_modify. set (m2 := set_reg 0 _ m1). apply wp_bind, wp_modify.
  assert (reg m2 0 = entry_frame (cx_psp m)) as -> by (unfold m2, m1; by regs).
  set (m3 := set_reg 0 _ _). apply wp_bind, wp_modify.
  assert (reg m3 0 = outgoing_sp m) as E0 by (unfold m3; by regs).
  assert (reg m3 LR = RTS_CM4F_EXC_RETURN_THREAD_PSP_BASIC) as E1 by (unfold m3, m2, m1; by regs).
  assert (∀ i, 0 ≤ i < 8 → reg m2 (4 + i) = reg m (4 + i)) as E2.
  { intros i Hi. each_callee i; unfold m2, m1; by regs. }
  assert (cx_kernel m3 = store_words (outgoing_sp m) (reg m2 <$> seqZ 4 8) (cx_kernel m1)) as E3 by done.
  assert (reg m2 <$> seqZ 4 8 = reg m <$> seqZ 4 8) as E4.
  { apply list_fmap_ext. intros i x Hx%lookup_seqZ. replace x with (4 + (x - 4)) by lia. apply E2. lia. }
  rewrite E0, E1. apply HQ.
  - unfold context_stored. rewrite <- E4. cbn [cx_kernel set_cx_kernel]. reflexivity.
  - exact E0.
  - reflexivity.
  - reflexivity.
  - intros i Hi. rewrite <- E2 by done. each_callee i; unfold m3; by regs.
Qed.

(** The machine runs [c] and the switch to [n] is planned. *)
Record interruptible (m : cortex) (c n : task_ptr) : Prop := {
  in_due : switch_due (cx_kernel m) c n;
  in_room : port_room (cx_kernel m);
  in_stacks : stacks_ok m c n;
  in_words r : is_u32 (reg m r);
  in_status : Z.testbit (reg m XPSR) 9 = false
}.

(** PendSV switches contexts: the registers, program counter, status and stack
    pointer of the interrupted task are stored on its own stack, where its TCB
    then finds them; the processor goes on in the context the next task had
    saved; the kernel's invariant holds, and nothing else of memory changes. *)
Lemma pendsv_spec m c n :
  interruptible m c n → wp (pendsv scratch) (λ _ m', context_switched m m' c n) m.
Proof.
  intros [Hd Hroom Hst Hu Hx]. destruct (outgoing_sp_facts m c (st_room _ _ _ Hst)) as (_&Hlo&Hhi&_).
  pose proof (sr_high _ _ (st_room _ _ _ Hst)). pose proof (sr_low _ _ (st_room _ _ _ Hst)). pose proof guard_bytes_nonneg.
  apply pendsv_saves. intros m1 Hk Hr0 Hmsp _ _. unfold pendsv_bridge. apply wp_bind, wp_gets. rewrite Hr0.
  apply wp_bind. eapply wp_run; [by apply (acquired_handoff m c n)|]. apply wp_bind, wp_modify, wp_bind, wp_gets.
  match goal with |- wp (if reg ?x 0 =? 0 then _ else _) _ _ => set (m2 := x) end.
  assert (reg m2 0 = addr_switch_handoff) as E0 by (unfold m2; by regs). rewrite E0, (proj2 (Z.eqb_neq _ 0)) by apply layout_handoff.
  assert (is_u32 (outgoing_sp m)) as Hu' by (unfold is_u32; lia).
  eapply wp_mono; [apply (pendsv_switch_spec m c n Hst Hd m2 Hroom E0 Hmsp eq_refl eq_refl Hu')|].
  intros [] m' (A1&A2&A3&A4&A5). by apply context_switched_intro.
Qed.

(** C8: Context switches are invisible to the tasks.  PendSV stores the
    registers, program counter, status and stack pointer of the interrupted task
    on its own stack and goes on in the context the next task had saved, with the
    kernel's invariant kept and the rest of memory untouched; and when, later, the
    first task is switched to again, its stack not having been written meanwhile,
    it goes on with exactly the registers, program counter, status and stack
    pointer it was interrupted with. *)
Theorem pendsv_switches_context m c n :
  interruptible m c n →
  wp (pendsv scratch) (λ _ m1, context_switched m m1 c n ∧
    ∀ m2 p, interruptible m2 p c → saved_stack_pointer (task (cx_kernel m2) c) = saved_stack_pointer (task (cx_kernel m1) c) →
      (∀ i, 0 ≤ i < 16 → load_word (cx_kernel m2) (saved_stack_pointer (task (cx_kernel m1) c) + 4 * i) =
                         load_word (cx_kernel m1) (saved_stack_pointer (task (cx_kernel m1) c) + 4 * i)) →
      wp (pendsv scratch) (λ _ m3, k_current_task (cx_kernel m3) = Some c ∧ thread_context m3 = thread_context m) m2) m.
Proof.
  intros Hin. eapply wp_mono; [by apply pendsv_spec|]. intros [] m1 Hs. split; [done|]. intros m2 p Hin2 Esp Hmem.
  eapply wp_mono; [by apply pendsv_spec|]. intros [] m3 Hs2. split; [apply Hs2|].
  rewrite (cs_resumed _ _ _ _ Hs2), Esp, <- (cs_saved _ _ _ _ Hs). by apply saved_context_frame.
Qed.

(** A PendSV that finds no plan returns to the task as it was. *)
Theorem pendsv_stale m c :
  plan_pending (k_switch_plan (cx_kernel m)) = false → plan_active (k_switch_plan (cx_kernel m)) = false →
  stack_room m c → (∀ r, is_u32 (reg m r)) → Z.testbit (reg m XPSR) 9 = false →
  wp (pendsv scratch) (λ _ m', thread_context m' = thread_context m ∧ cx_kernel m' = context_stored m ∧
    cx_msp m' = cx_msp m ∧ cx_primask m' = false ∧ cx_ipsr m' = 0) m.
Proof.
  intros Hp Ha Hst Hu Hx. destruct (context_stored_frame m) as [mem Ef].
  apply pendsv_saves. intros m1 Hk Hr0 Hmsp Hpsp Hcallee. unfold pendsv_bridge. apply wp_bind, wp_gets.
  assert (k_switch_plan (cx_kernel m1) = k_switch_plan (cx_kernel m)) as Eplan by by rewrite Hk, Ef.
  assert (load_word (cx_kernel m1) (cx_msp m1 + 4) = RTS_CM4F_EXC_RETURN_THREAD_PSP_BASIC) as Elr.
  { rewrite Hk, Hmsp. unfold context_stored. change 4 with (4 * Z.of_nat 1). by apply load_word_store_words. }
  assert (∀ i, 0 ≤ i < 8 → reg m (4 + i) = load_word (cx_kernel m1) (outgoing_sp m + 4 * i)) as Hsaved.
  { intros i Hi. rewrite Hk. symmetry. apply (stored_callee m c Hst); [lia| |apply Hu]. each_callee i; done. }
  destruct (outgoing_sp_facts m c Hst) as (_&_&_&Efr&_).
  apply wp_bind. unfold rts_cm4f_switch_bridge_acquire. apply wp_bind, wp_gets. rewrite Eplan, Hp. cbn [negb].
  apply wp_ret, wp_bind, wp_modify, wp_bind, wp_gets.
  match goal with |- wp (if reg ?x 0 =? 0 then _ else _) _ _ => set (m2 := x) end.
  assert (reg m2 0 = 0) as -> by (unfold m2; by regs). cbn [Z.eqb]. apply wp_bind, wp_gets.
  assert (k_switch_plan (cx_kernel m2) = k_switch_plan (cx_kernel m)) as -> by exact Eplan. cbv zeta. rewrite Hp, Ha. cbn [negb andb].
  apply wp_bind, wp_modify, wp_bind, wp_gets.
  match goal with |- wp (if reg ?x 0 =? 0 then _ else _) _ _ => set (m3 := x) end.
  assert (reg m3 0 = 1) as -> by (unfold m3; by regs). cbn [Z.eqb]. apply wp_bind, wp_modify, wp_bind, wp_modify.
  unfold exception_return. apply wp_bind, wp_gets.
  match goal with |- wp (if negb (reg ?x LR =? _) then _ else _) _ _ => set (m4 := x) end.
  assert (reg m4 LR = RTS_CM4F_EXC_RETURN_THREAD_PSP_BASIC) as -> by (rewrite <- Elr; unfold m4; by regs). rewrite Z.eqb_refl. cbn [negb].
  assert (∀ i, 0 ≤ i < 8 → reg m4 (4 + i) = reg m (4 + i)) as Hcallee4.
  { intros i Hi. rewrite <- Hcallee by done. each_callee i; unfold m4, m3, m2; by regs. }
  assert (cx_psp m4 = outgoing_sp m + 32) as Hpsp4 by (rewrite <- Efr; exact Hpsp).
  assert (cx_kernel m4 = context_stored m) as Hk4 by exact Hk.
  assert (cx_msp m4 = cx_msp m) as Hm4 by (transitivity (cx_msp m1 + 8); [reflexivity|lia]).
  assert (cx_primask m4 = false) as Hpm by reflexivity.
  clearbody m4. clear m2 m3. apply wp_modify. split_and!; [|exact Hk4|exact Hm4|exact Hpm|reflexivity].
  rewrite <- (stored_context m c Hst Hu Hx). apply (returned_context m4 (λ i, load_word (context_stored m) (outgoing_sp m + 4 * i))).
  - done.
  - intros i Hi. rewrite Hcallee4, <- Hk by done. by apply Hsaved.
  - intros i _. rewrite Hk4, Hpsp4. f_equal. lia.
Qed.
End switching.
