(* ===== verification/CortexFrame.v ===== *)
(** * The first frame of a task on the Cortex-M4F

    The frame that rts_port_stack_initialize builds is a saved context: a switch
    to the new task starts its entry function with its argument, on an empty
    stack, with a return address that reports a task that returns. *)

From S2P Require Import Prelude Machine Config Types HostPort Cortex CortexPort CortexSpec.

Section frame.
Context `{Config} `{!CortexConfig} `{Layout}.

(** ** Words *)

Lemma load_word_store_word a v k x :
  is_u32 v → x = a ∨ x + 4 ≤ a ∨ a + 4 ≤ x → load_word (store_word a v k) x = if decide (x = a) then v else load_word k x.
Proof.
  intros Hv Hx. change (store_word a v k) with (store_words a [v] k). case_decide as E.
  - subst x. replace a with (a + 4 * Z.of_nat 0) at 2 by lia. by apply load_word_store_words.
  - apply load_word_store_words_other. cbn. lia.
Qed.

Lemma word_write_run a v k : rts_cm4f_word_write a v k = Done tt (store_word a v k).
Proof.
  unfold rts_cm4f_word_write, store_word. rewrite !bind_modify. unfold modify. f_equal. cbn [value_bytes store_bytes].
  change 255 with (Z.ones 8). rewrite !Z.land_ones, !Z.shiftr_div_pow2 by lia. change (2 ^ 8) with 256.
  rewrite !Z.div_div by lia. by rewrite <- !Z.add_assoc.
Qed.

(** ** The frame *)

(** What the new task finds in the processor. *)
Definition initial_context (entry argument top : Z) : context :=
  mk_context [argument; 0; 0; 0; 0; 0; 0; 0; 0; 0; 0; 0; 0] addr_return_trap entry RTS_CM4F_INITIAL_XPSR top.

Definition frame_stored (frame entry argument : Z) (k : kernel) : kernel :=
  store_word (frame + 60) RTS_CM4F_INITIAL_XPSR (store_word (frame + 56) entry (store_word (frame + 52) addr_return_trap
    (store_word (frame + 32) argument (store_words frame (replicate 16 0) k)))).

Lemma frame_cleared frame k :
  for_each (seqZ 0 RTS_CM4F_INITIAL_FRAME_WORD_COUNT) (λ i, rts_cm4f_frame_word_write frame i 0) k =
  Done tt (store_words frame (replicate 16 0) k).
Proof.
  change (seqZ 0 RTS_CM4F_INITIAL_FRAME_WORD_COUNT) with [0; 1; 2; 3; 4; 5; 6; 7; 8; 9; 10; 11; 12; 13; 14; 15].
  unfold rts_cm4f_frame_word_write. cbn [for_each]. do 16 rewrite (bind_run _ _ _ _ _ (word_write_run _ _ _)).
  cbn [replicate store_words]. unfold ret. repeat (f_equal; try lia).
Qed.

Lemma frame_context frame entry argument k :
  is_u32 entry → is_u32 argument → is_u32 addr_return_trap →
  saved_context (frame_stored frame entry argument k) frame = initial_context entry argument (frame + 64).
Proof.
  intros He Ha Ht. assert (is_u32 RTS_CM4F_INITIAL_XPSR) as Hx by (by split).
  assert (∀ i, 0 ≤ i < 16 → load_word (store_words frame (replicate 16 0) k) (frame + 4 * i) = 0) as Hz.
  { intros i Hi. replace i with (Z.of_nat (Z.to_nat i)) by lia. apply load_word_store_words; [|by split].
    apply lookup_replicate. split; [done|lia]. }
  assert (∀ i, 0 ≤ i < 16 → load_word (frame_stored frame entry argument k) (frame + 4 * i) =
    if decide (i = 15) then RTS_CM4F_INITIAL_XPSR else if decide (i = 14) then entry else
    if decide (i = 13) then addr_return_trap else if decide (i = 8) then argument else 0) as Hw.
  { intros i Hi. unfold frame_stored. do 4 (rewrite load_word_store_word; [|done|lia]). rewrite Hz by lia.
    repeat case_decide; done || lia. }
  unfold saved_context. cbv zeta. rewrite !Hw by lia. unfold initial_context. f_equal.
  transitivity (frame + 64 + 0); [reflexivity|lia].
Qed.

Lemma frame_frame frame entry argument k :
  (∃ mem, frame_stored frame entry argument k = k <| k_memory := mem |>) ∧
  ∀ x, x < frame ∨ frame + 64 ≤ x → load_byte (frame_stored frame entry argument k) x = load_byte k x.
Proof.
  unfold frame_stored, store_word. split.
  - destruct (store_words_frame frame (replicate 16 0) k) as [m0 ->]. do 4 edestruct store_bytes_frame as [? ->]. by eexists.
  - intros x Hx. rewrite !load_store_bytes, !decide_False by (cbn; lia). apply load_byte_store_words. cbn. lia.
Qed.

(** ** rts_port_stack_initialize *)

Definition stack_acceptable (base size : Z) : Prop :=
  base ≠ 0 ∧ base mod RTS_TASK_STACK_ALIGNMENT = 0 ∧ RTS_CM4F_INITIAL_FRAME_SIZE_BYTES ≤ size ∧
  size mod RTS_TASK_STACK_ALIGNMENT = 0 ∧ base + size ≤ UINT32_MAX.
#[export] Instance stack_acceptable_dec base size : Decision (stack_acceptable base size).
Proof. unfold stack_acceptable. apply _. Defined.

Lemma ldiff_aligned x : x mod 16 = 0 → Z.ldiff x 15 = x.
Proof.
  intros Hx. change 15 with (Z.ones 4). rewrite Z.ldiff_ones_r, Z.shiftr_div_pow2, Z.shiftl_mul_pow2 by lia. change (2 ^ 4) with 16.
  pose proof (Z.div_mod x 16 ltac:(lia)). lia.
Qed.

Lemma stack_initialize_bad base size entry argument k :
  is_u32 base → is_u32 size → ¬ stack_acceptable base size → entry ≠ 0 →
  CortexPort.rts_port_stack_initialize base size entry argument k = Done (RTS_STATUS_INVALID_STACK, 0) k.
Proof.
  intros Hb Hs Hbad He. unfold CortexPort.rts_port_stack_initialize. rewrite (proj2 (Z.eqb_neq entry 0)) by done.
  destruct (base =? 0) eqn:E0; [done|]. destruct (negb (base mod _ =? 0) || _ || _) eqn:E1; [done|].
  unfold rts_cm4f_add_is_valid. rewrite cortex_pointers. destruct (UINT32_MAX - base <? size) eqn:E2; [done|].
  exfalso. apply Hbad. apply orb_false_iff in E1 as [[E1%negb_false_iff%Z.eqb_eq E3%Z.ltb_ge]%orb_false_iff E4%negb_false_iff%Z.eqb_eq].
  apply Z.eqb_neq in E0. apply Z.ltb_ge in E2. unfold stack_acceptable. split_and!; try done. lia.
Qed.

Lemma land_1 x : (Z.land x 1 =? 0) = negb (Z.odd x).
Proof.
  change 1 with (Z.ones 1). rewrite Z.land_ones by lia. change (2 ^ 1) with 2. rewrite Zmod_odd. by destruct (Z.odd x).
Qed.

Lemma encode_u32 v : is_u32 v → bytes_value (value_bytes 4 v) = v.
Proof. intros Hv. apply bytes_value_bytes. unfold is_u32, UINT32_MAX in Hv. cbn. lia. Qed.

Lemma stack_initialize_good base size entry argument k :
  is_u32 base → stack_acceptable base size → is_u32 entry → is_u32 argument → is_u32 addr_return_trap → entry ≠ 0 →
  Z.odd addr_return_trap = true →
  CortexPort.rts_port_stack_initialize base size entry argument k =
  if Z.odd entry then Done (RTS_STATUS_OK, base + size - 64) (frame_stored (base + size - 64) entry argument k)
  else Done (RTS_STATUS_PORT_ERROR, 0) k.
Proof.
  intros Hb (Hb0&Hb1&Hs0&Hs1&Hbs) He Ha Ht Hne Hto. unfold CortexPort.rts_port_stack_initialize, rts_cm4f_add_is_valid.
  unfold RTS_CM4F_INITIAL_FRAME_SIZE_BYTES, RTS_CM4F_TASK_STACK_MINIMUM_SIZE_BYTES, RTS_CM4F_TASK_STACK_GRANULARITY_BYTES,
    RTS_TASK_STACK_ALIGNMENT in *.
  assert ((base + size) mod 16 = 0) as Hmod by (rewrite Zplus_mod, Hb1, Hs1; done).
  assert ((base + size - 64) mod 16 = 0) as Hmod' by (rewrite Zminus_mod, Hmod; done).
  rewrite Hb1, Hs1, !(proj2 (Z.eqb_neq _ 0)) by done. cbn [negb orb Z.eqb].
  rewrite (proj2 (Z.ltb_ge size _)) by done. cbn [orb]. rewrite cortex_pointers.
  unfold is_u32 in *. rewrite (proj2 (Z.ltb_ge _ size)) by lia. unfold uintptr_t. rewrite cortex_pointers, (Z.mod_small (base + size)) by lia.
  change (16 - 1) with 15. rewrite (ldiff_aligned (base + size)) by done. cbv zeta.
  rewrite !(Z.mod_small (_ - _) (UINT32_MAX + 1)) by lia.
  rewrite !(proj2 (Z.ltb_ge _ _)) by lia. cbn [orb]. rewrite Hmod'. cbn [negb Z.eqb].
  unfold rts_cm4f_entry_encode, rts_cm4f_trap_encode. rewrite !encode_u32, !land_1, Hto by done. rewrite orb_false_r.
  destruct (Z.odd entry); cbn [negb]; [|done].
  rewrite (bind_run _ _ _ _ _ (frame_cleared _ _)). unfold rts_cm4f_frame_word_write.
  do 4 rewrite (bind_run _ _ _ _ _ (word_write_run _ _ _)). unfold u32. by rewrite Z.mod_small by (unfold UINT32_MAX in *; lia).
Qed.

(** C19: rts_port_stack_initialize accepts exactly the aligned stacks that hold a
    frame, with an entry point in Thumb state; it then builds, at the top of the
    stack, the context in which the task starts, and writes nothing else.  In
    every other case it reports an error and writes nothing. *)
Theorem stack_initialize_correct base size entry argument k :
  is_u32 base → is_u32 size → is_u32 entry → is_u32 argument → is_u32 addr_return_trap → Z.odd addr_return_trap = true →
  if decide (stack_acceptable base size ∧ entry ≠ 0 ∧ Z.odd entry = true)
  then ∃ k', CortexPort.rts_port_stack_initialize base size entry argument k = Done (RTS_STATUS_OK, base + size - 64) k' ∧
    saved_context k' (base + size - 64) = initial_context entry argument (base + size) ∧
    (base + size - 64) mod RTS_CM4F_ARCH_STACK_ALIGNMENT = 0 ∧
    (∃ mem, k' = k <| k_memory := mem |>) ∧
    (∀ x, x < base + size - 64 ∨ base + size ≤ x → load_byte k' x = load_byte k x)
  else ∃ status, status ≠ RTS_STATUS_OK ∧ CortexPort.rts_port_stack_initialize base size entry argument k = Done (status, 0) k.
Proof.
  intros Hb Hs He Ha Ht Hto. destruct (decide (entry = 0)) as [->|Hne].
  { rewrite decide_False by naive_solver. by exists RTS_STATUS_INVALID_TASK_CONFIG. }
  destruct (decide (stack_acceptable base size)) as [Hok|Hbad].
  2: { rewrite decide_False by naive_solver. exists RTS_STATUS_INVALID_STACK. split; [done|]. by apply stack_initialize_bad. }
  rewrite stack_initialize_good by done. pose proof Hok as (_&Hb1&_&Hs1&_). destruct (Z.odd entry) eqn:Eo.
  - rewrite decide_True by done. eexists. split; [done|]. rewrite frame_context by done.
    destruct (frame_frame (base + size - 64) entry argument k) as [Hf Hm]. split_and!; try done; [f_equal; lia| |intros x Hx; apply Hm; lia].
    unfold RTS_TASK_STACK_ALIGNMENT, RTS_CM4F_ARCH_STACK_ALIGNMENT in *.
    apply Z.mod_divide in Hb1 as [p ->], Hs1 as [q ->]; [|done..].
    replace (p * 16 + q * 16 - 64) with ((2 * p + 2 * q - 8) * 8) by lia. by apply Z.mod_mul.
  - rewrite decide_False by naive_solver. by exists RTS_STATUS_PORT_ERROR.
Qed.
End frame.
