(* ===== verification/S32K148.v ===== *)
(** * The S32K148 target (targets/nxp/s32k148)

    Critical sections on PRIMASK, SysTick as the kernel's tick, the low-power
    timer for tickless sleep, the cycle counter, the LED, the fault record and
    the C runtime's copies.  A read of a register is [read_soc], whose value the
    device gives; the kernel's own functions are called as in CortexPort.v. *)

From S2P Require Import Prelude Machine Config Types HostPort Diagnostics TaskPool Scheduler KernelTime Cortex CortexPort.

Definition RTS_S32K148_NVIC_PRIORITY_BITS : Z := 4.
Definition RTS_S32K148_CORE_CLOCK_HZ : Z := 48000000.
Definition RTS_S32K148_SVC_LOGICAL_PRIORITY : Z := 13.
Definition RTS_S32K148_SYSTICK_LOGICAL_PRIORITY : Z := 14.
Definition RTS_S32K148_PENDSV_LOGICAL_PRIORITY : Z := 15.
Definition UINT16_MAX : Z := 65535.

Definition uint8_t (v : Z) : Z := v mod 256.

Section target.
Context `{Config} `{Device}.

(** ** Execution time (target_diagnostics.c) *)

Definition upd_timing (f : rts_s32k148_timing_record → rts_s32k148_timing_record) : B unit :=
  modify (λ m, m <| cx_timing := f (cx_timing m) |>).

Definition rts_s32k148_timing_initialize : B unit :=
  when RTS_ENABLE_DIAGNOSTICS (
    let* demcr := read_soc CoreDebug_DEMCR in
    write_soc CoreDebug_DEMCR (Z.lor demcr CoreDebug_DEMCR_TRCENA_Msk) ;;;
    write_soc DWT_CYCCNT 0 ;;;
    let* ctrl := read_soc DWT_CTRL in
    write_soc DWT_CTRL (Z.lor ctrl DWT_CTRL_CYCCNTENA_Msk) ;;;
    __DSB ;;; __ISB ;;;
    let* ctrl := read_soc DWT_CTRL in
    upd_timing (λ r, r <| cycle_counter_available := if negb (Z.land ctrl DWT_CTRL_CYCCNTENA_Msk =? 0) then 1 else 0 |>)).

Definition rts_s32k148_cycle_now : B Z :=
  if RTS_ENABLE_DIAGNOSTICS then read_soc DWT_CYCCNT else ret 0.

Definition rts_s32k148_timing_critical_begin : B unit :=
  when RTS_ENABLE_DIAGNOSTICS (
    let* available := gets (λ m, cycle_counter_available (cx_timing m)) in
    when (negb (available =? 0)) (
      let* now := read_soc DWT_CYCCNT in
      upd_timing (λ r, r <| critical_start_cycle := now |>))).

Definition rts_s32k148_timing_critical_end : B unit :=
  when RTS_ENABLE_DIAGNOSTICS (
    let* available := gets (λ m, cycle_counter_available (cx_timing m)) in
    when (negb (available =? 0)) (
      let* now := read_soc DWT_CYCCNT in
      let* elapsed := gets (λ m, u32 (now - critical_start_cycle (cx_timing m))) in
      let* longer := gets (λ m, maximum_critical_cycles (cx_timing m) <? elapsed) in
      when longer (upd_timing (λ r, r <| maximum_critical_cycles := elapsed |>)))).

(** ** Critical sections (target_port.c) *)

Definition rts_s32k148_priority_encode (logical_priority : Z) : Z :=
  u32 (Z.shiftl logical_priority (8 - RTS_S32K148_NVIC_PRIORITY_BITS)).

Definition rts_port_critical_enter : B Z :=
  let* primask := __get_PRIMASK in
  let previous := Z.land primask 1 in
  __disable_irq ;;;
  let* outermost := gets (λ m, cx_critical_depth m =? 0) in
  when outermost rts_s32k148_timing_critical_begin ;;;
  let* next_depth := gets (λ m, u32 (cx_critical_depth m + 1)) in
  RTS_FATAL_UNLESS (ret (negb (next_depth =? 0))) ;;;
  modify (λ m, m <| cx_critical_depth := next_depth |>) ;;;
  ret (Z.lor (uintptr_t (Z.shiftl next_depth 1)) previous).

Definition rts_port_critical_exit (token : Z) : B unit :=
  let token_depth := u32 (Z.shiftr token 1) in
  let previous := u32 (Z.land token 1) in
  let* primask := __get_PRIMASK in
  let* valid := gets (λ m, negb (token_depth =? 0) && (token_depth =? cx_critical_depth m) && negb (Z.land primask 1 =? 0)) in
  RTS_FATAL_UNLESS (ret valid) ;;;
  if negb valid then ret tt else
  modify (λ m, m <| cx_critical_depth := u32 (token_depth - 1) |>) ;;;
  let* outermost := gets (λ m, cx_critical_depth m =? 0) in
  when outermost rts_s32k148_timing_critical_end ;;;
  __DSB ;;;
  __set_PRIMASK previous ;;;
  __ISB.

Definition rts_port_is_in_isr : B bool := let* ipsr := __get_IPSR in ret (negb (ipsr =? 0)).
Definition rts_port_exception_number : B Z := __get_IPSR.
Definition rts_port_fatal_disable : B unit := __disable_irq ;;; __DSB ;;; __ISB.

(** ** The tick (target_tick_math.c, target_tick.c) *)

Definition RTS_SYSTICK_COUNTER_CAPACITY : Z := 0x01000000.

(** [None] when the function returns false. *)
Definition rts_s32k148_tick_reload_calculate (core_clock_hz tick_rate_hz : Z) : option Z :=
  if (core_clock_hz =? 0) || (tick_rate_hz =? 0) || (core_clock_hz <? tick_rate_hz) ||
     negb (core_clock_hz mod tick_rate_hz =? 0)
  then None else
  let cycles := core_clock_hz / tick_rate_hz in
  if (cycles =? 0) || (RTS_SYSTICK_COUNTER_CAPACITY <? cycles) then None else Some (u32 (cycles - 1)).

Definition rts_s32k148_tick_priority_encode : Z :=
  uint8_t (Z.shiftl RTS_S32K148_SYSTICK_LOGICAL_PRIORITY (8 - RTS_S32K148_NVIC_PRIORITY_BITS)).

Definition set_tick_state (st : rts_s32k148_tick_state_t) : B unit := modify (λ m, m <| cx_tick_state := st |>).

Definition rts_s32k148_tick_initialize (core_clock_hz tick_rate_hz : Z) : B rts_status_t :=
  write_soc SysTick_CTRL 0 ;;;
  set_tick_state RTS_S32K148_TICK_UNINITIALIZED ;;;
  modify (λ m, m <| cx_tick_reload := 0 |>) ;;;
  match rts_s32k148_tick_reload_calculate core_clock_hz tick_rate_hz with
  | None => ret RTS_STATUS_PORT_ERROR
  | Some reload =>
      write_soc SysTick_LOAD reload ;;;
      write_soc SysTick_VAL 0 ;;;
      write_soc (SCB_SHP 11) rts_s32k148_tick_priority_encode ;;;
      __DSB ;;; __ISB ;;;
      let* failed :=
        (let* load := read_soc SysTick_LOAD in ret (negb (load =? reload))) |||
        (let* shp := read_soc (SCB_SHP 11) in ret (negb (shp =? rts_s32k148_tick_priority_encode))) in
      if failed then write_soc SysTick_CTRL 0 ;;; ret RTS_STATUS_PORT_ERROR else
      modify (λ m, m <| cx_tick_reload := reload |>) ;;;
      set_tick_state RTS_S32K148_TICK_READY ;;;
      ret RTS_STATUS_OK
  end.

Definition rts_port_tick_start : B rts_status_t :=
  let* valid :=
    gets (λ m, bool_decide (cx_tick_state m = RTS_S32K148_TICK_READY) &&
               bool_decide (k_lifecycle (cx_kernel m) = RTS_KERNEL_RUNNING)) &&&
    kernel_call rts_scheduler_current_is_valid &&&
    gets (λ m, cx_primask m && (cx_ipsr m =? 0)) in
  RTS_ASSERT (ret valid) ;;;
  if negb valid then ret RTS_STATUS_PORT_ERROR else
  write_soc SysTick_VAL 0 ;;;
  set_tick_state RTS_S32K148_TICK_ARMED ;;;
  ret RTS_STATUS_OK.

Definition systick_enabled : Z :=
  Z.lor (Z.lor SysTick_CTRL_CLKSOURCE_Msk SysTick_CTRL_TICKINT_Msk) SysTick_CTRL_ENABLE_Msk.

Definition rts_port_tick_commit_start : B bool :=
  let* valid := gets (λ m, bool_decide (cx_tick_state m = RTS_S32K148_TICK_ARMED) && cx_primask m && (cx_ipsr m =? 11)) in
  RTS_FATAL_UNLESS (ret valid) ;;;
  if negb valid then ret false else
  write_soc SysTick_CTRL systick_enabled ;;;
  __DSB ;;; __ISB ;;;
  let* ctrl := read_soc SysTick_CTRL in
  let valid := Z.land ctrl systick_enabled =? systick_enabled in
  RTS_FATAL_UNLESS (ret valid) ;;;
  when valid (set_tick_state RTS_S32K148_TICK_RUNNING) ;;;
  ret valid.

Definition rts_port_tick_stop : B unit :=
  write_soc SysTick_CTRL 0 ;;;
  write_soc SysTick_VAL 0 ;;;
  let* initialized := gets (λ m, negb (bool_decide (cx_tick_state m = RTS_S32K148_TICK_UNINITIALIZED))) in
  when initialized (set_tick_state RTS_S32K148_TICK_READY) ;;;
  __DSB ;;; __ISB.

Definition rts_s32k148_tick_is_ready : B bool := gets (λ m, bool_decide (cx_tick_state m = RTS_S32K148_TICK_READY)).
Definition rts_s32k148_tick_is_running : B bool := gets (λ m, bool_decide (cx_tick_state m = RTS_S32K148_TICK_RUNNING)).
Definition rts_s32k148_tick_reload_get : B Z := gets cx_tick_reload.

(** The weak definition, which an application may replace. *)
Definition rts_s32k148_tick_isr_hook : B bool := ret false.

(** The flag from which the kernel's model answers rts_port_is_in_isr. *)
Definition publish_ipsr : B unit := modify (λ m,
  m <| cx_kernel := upd_port (λ p, p <| host_in_isr := negb (cx_ipsr m =? 0) |>) (cx_kernel m) |>).

Definition SysTick_Handler `{CortexLayout} (isr_hook : B bool) : B unit :=
  let* valid := gets (λ m, bool_decide (cx_tick_state m = RTS_S32K148_TICK_RUNNING)) in
  RTS_FATAL_UNLESS (ret valid) ;;;
  read_soc SysTick_CTRL ;;;
  publish_ipsr ;;;
  let* notify_port := kernel_call (rts_kernel_tick_advance 1) in
  let* notify_port := isr_hook ||| ret notify_port in
  when notify_port (CortexPort.rts_port_request_reschedule rts_cpu_current_id).

(** ** Sleep (target_power.c) *)

Definition NVIC_ClearPendingIRQ (irq : Z) : B unit := write_soc (NVIC_PENDING irq) 0.
Definition NVIC_SetPriority (irq priority : Z) : B unit := write_soc (NVIC_PRIORITY irq) priority.
Definition NVIC_EnableIRQ (irq : Z) : B unit := write_soc (NVIC_ENABLED irq) 1.

(** The weak definition: writing the counter latches it for the read. *)
Definition rts_s32k148_lptmr_count_read : B Z :=
  write_soc LPTMR0_CNR 0 ;;;
  read_soc LPTMR0_CNR.

Definition rts_s32k148_power_initialize : B rts_status_t :=
  write_soc PCC_LPTMR0 PCC_PCCn_CGC_MASK ;;;
  write_soc LPTMR0_CSR 0 ;;;
  write_soc LPTMR0_PSR (Z.lor (LPTMR_PSR_PCS 1) LPTMR_PSR_PBYP_MASK) ;;;
  write_soc LPTMR0_CMR 0 ;;;
  write_soc LPTMR0_CSR LPTMR_CSR_TCF_MASK ;;;
  NVIC_ClearPendingIRQ LPTMR0_IRQn ;;;
  NVIC_SetPriority LPTMR0_IRQn RTS_S32K148_SYSTICK_LOGICAL_PRIORITY ;;;
  NVIC_EnableIRQ LPTMR0_IRQn ;;;
  __DSB ;;; __ISB ;;;
  modify (λ m, m <| cx_lptmr_woke := false |>) ;;;
  let* ready :=
    (let* pcc := read_soc PCC_LPTMR0 in ret (negb (Z.land pcc PCC_PCCn_CGC_MASK =? 0))) &&&
    (let* psr := read_soc LPTMR0_PSR in ret (negb (Z.land psr LPTMR_PSR_PBYP_MASK =? 0))) in
  modify (λ m, m <| cx_power_ready := ready |>) ;;;
  ret (if ready then RTS_STATUS_OK else RTS_STATUS_PORT_ERROR).

Definition LPTMR0_IRQHandler : B unit :=
  let* csr := read_soc LPTMR0_CSR in
  when (negb (Z.land csr LPTMR_CSR_TCF_MASK =? 0)) (
    let* csr := read_soc LPTMR0_CSR in
    write_soc LPTMR0_CSR (Z.lor csr LPTMR_CSR_TCF_MASK) ;;;
    modify (λ m, m <| cx_lptmr_woke := true |>)).

(** rts_port_sleep_result_t: status, elapsed ticks, wake source.  [__WFI] is the
    time the processor sleeps with interrupts enabled, and the handlers that end
    the sleep; [count_read] is rts_s32k148_lptmr_count_read, which is weak. *)
Definition rts_port_power_sleep (__WFI : B unit) (count_read : B Z) (maximum_ticks : Z) : B (rts_status_t * Z * Z) :=
  let* valid := gets (λ m, cx_power_ready m && negb (maximum_ticks =? 0) && (maximum_ticks <=? UINT16_MAX) &&
                           (cx_ipsr m =? 0) && cx_primask m) in
  RTS_ASSERT (ret valid) ;;;
  if negb valid then ret (RTS_STATUS_PORT_ERROR, 0, RTS_PORT_WAKE_OTHER) else
  let* systick_control := read_soc SysTick_CTRL in
  write_soc SysTick_CTRL 0 ;;;
  modify (λ m, m <| cx_lptmr_woke := false |>) ;;;
  write_soc LPTMR0_CSR 0 ;;;
  write_soc LPTMR0_CMR (u32 (maximum_ticks - 1)) ;;;
  write_soc LPTMR0_CSR LPTMR_CSR_TCF_MASK ;;;
  NVIC_ClearPendingIRQ LPTMR0_IRQn ;;;
  write_soc LPTMR0_CSR (Z.lor LPTMR_CSR_TIE_MASK LPTMR_CSR_TEN_MASK) ;;;
  __DSB ;;;
  rts_s32k148_timing_critical_end ;;;
  __set_PRIMASK 0 ;;;
  __WFI ;;;
  __disable_irq ;;;
  rts_s32k148_timing_critical_begin ;;;
  let* woke := gets cx_lptmr_woke in
  let* elapsed := if woke then ret maximum_ticks else count_read in
  let elapsed := if maximum_ticks <? elapsed then maximum_ticks else elapsed in
  write_soc LPTMR0_CSR 0 ;;;
  write_soc LPTMR0_CSR LPTMR_CSR_TCF_MASK ;;;
  NVIC_ClearPendingIRQ LPTMR0_IRQn ;;;
  write_soc SysTick_VAL 0 ;;;
  write_soc SysTick_CTRL systick_control ;;;
  __DSB ;;; __ISB ;;;
  let* woke := gets cx_lptmr_woke in
  ret (RTS_STATUS_OK, elapsed, if woke then RTS_PORT_WAKE_TIMER else RTS_PORT_WAKE_EXTERNAL).

(** ** Initialisation (target_port.c) *)

Definition uncoprocessed : Z := Z.lor SCB_CPACR_CP10_Msk SCB_CPACR_CP11_Msk.
Definition unstacked_fp : Z := Z.lor FPU_FPCCR_ASPEN_Msk FPU_FPCCR_LSPEN_Msk.

(** reg |= mask and reg &= ~mask. *)
Definition set_bits (r : soc_register) (mask : Z) : B unit :=
  let* v := read_soc r in write_soc r (Z.lor v mask).
Definition clear_bits (r : soc_register) (mask : Z) : B unit :=
  let* v := read_soc r in write_soc r (Z.ldiff v mask).

Definition rts_port_initialize : B rts_status_t :=
  let svc_encoded := rts_s32k148_priority_encode RTS_S32K148_SVC_LOGICAL_PRIORITY in
  let pendsv_encoded := rts_s32k148_priority_encode RTS_S32K148_PENDSV_LOGICAL_PRIORITY in
  let* refused :=
    gets (λ m, negb (cx_ipsr m =? 0) || negb (cx_primask m) ||
               negb (Z.land (cx_control m) (Z.lor CONTROL_SPSEL_Msk CONTROL_FPCA_Msk) =? 0) ||
               negb (Z.land (cx_msp m) 7 =? 0)) |||
    (let* vtor := read_soc SCB_VTOR in ret (negb (vtor =? addr_vectors))) |||
    gets (λ m, negb (g_pfnVectors 11 =? addr_SVC_Handler) || negb (g_pfnVectors 14 =? addr_PendSV_Handler) ||
               negb (g_pfnVectors 15 =? addr_SysTick_Handler) ||
               negb (g_pfnVectors (16 + LPTMR0_IRQn) =? addr_LPTMR0_IRQHandler) ||
               negb (start_valid (cx_start_handoff m) =? 0) || plan_pending (k_switch_plan (cx_kernel m)) ||
               plan_active (k_switch_plan (cx_kernel m))) in
  if refused then ret RTS_STATUS_PORT_ERROR else
  set_bits SCB_CCR SCB_CCR_STKALIGN_Msk ;;;
  clear_bits SCB_CPACR uncoprocessed ;;;
  clear_bits FPU_FPCCR unstacked_fp ;;;
  write_soc SCB_ICSR SCB_ICSR_PENDSVCLR_Msk ;;;
  write_soc (SCB_SHP 7) (uint8_t svc_encoded) ;;;
  write_soc (SCB_SHP 10) (uint8_t pendsv_encoded) ;;;
  __DSB ;;; __ISB ;;;
  let* failed :=
    (let* v := read_soc SCB_CCR in ret (Z.land v SCB_CCR_STKALIGN_Msk =? 0)) |||
    (let* v := read_soc SCB_CPACR in ret (negb (Z.land v uncoprocessed =? 0))) |||
    (let* v := read_soc FPU_FPCCR in ret (negb (Z.land v unstacked_fp =? 0))) |||
    (let* v := read_soc (SCB_SHP 7) in ret (negb (v =? uint8_t svc_encoded))) |||
    (let* v := read_soc (SCB_SHP 10) in ret (negb (v =? uint8_t pendsv_encoded))) in
  if failed then ret RTS_STATUS_PORT_ERROR else
  let* status := rts_s32k148_tick_initialize RTS_S32K148_CORE_CLOCK_HZ RTS_TICK_RATE_HZ in
  if negb (bool_decide (status = RTS_STATUS_OK)) then ret RTS_STATUS_PORT_ERROR else
  let* status := rts_s32k148_power_initialize in
  if negb (bool_decide (status = RTS_STATUS_OK)) then ret RTS_STATUS_PORT_ERROR else
  ret RTS_STATUS_OK.

(** ** The LED (target_led.c) *)

Definition RTS_PCC_CGC : Z := Z.shiftl 1 30.
Definition RTS_PORT_MUX_GPIO : Z := Z.shiftl 1 8.
Definition RTS_RED_LED_MASK : Z := Z.shiftl 1 21.

Definition rts_s32k148_led_initialize : B unit :=
  set_bits PCC_PORTE RTS_PCC_CGC ;;;
  write_soc PORTE_PCR21 RTS_PORT_MUX_GPIO ;;;
  set_bits GPIOE_PDDR RTS_RED_LED_MASK ;;;
  write_soc GPIOE_PSOR RTS_RED_LED_MASK.

Definition rts_s32k148_red_led_set (on : bool) : B unit :=
  if on then write_soc GPIOE_PCOR RTS_RED_LED_MASK else write_soc GPIOE_PSOR RTS_RED_LED_MASK.

Definition rts_s32k148_red_led_toggle : B unit := write_soc GPIOE_PTOR RTS_RED_LED_MASK.

(** ** Faults and reset (target.c) *)

Definition upd_fault (f : rts_s32k148_fault_record → rts_s32k148_fault_record) : B unit :=
  modify (λ m, m <| cx_fault := f (cx_fault m) |>).

Definition rts_s32k148_record_handler_probe (msp ipsr : Z) : B unit :=
  upd_fault (λ r, r <| fr_handler_probe_msp := msp |>) ;;;
  upd_fault (λ r, r <| fr_handler_probe_ipsr := ipsr |>).

Definition rts_s32k148_request_handler_probe : B unit :=
  upd_fault (λ r, r <| fr_handler_probe_msp := 0 |>) ;;;
  upd_fault (λ r, r <| fr_handler_probe_ipsr := 0 |>) ;;;
  write_soc SCB_ICSR SCB_ICSR_NMIPENDSET_Msk ;;;
  __DSB ;;; __ISB.

Definition rts_s32k148_handler_probe_passed : B bool :=
  gets (λ m, negb (fr_handler_probe_msp (cx_fault m) =? 0) && (Z.land (fr_handler_probe_msp (cx_fault m)) 7 =? 0) &&
             (fr_handler_probe_ipsr (cx_fault m) =? 2)).

Definition rts_target_fatal_hook (record : rts_fatal_record) : B unit :=
  __disable_irq ;;;
  upd_fault (λ r, r <| fr_assertion_failed := if bool_decide (fr_reason record = RTS_FATAL_ASSERTION) then 1 else 0 |>) ;;;
  upd_fault (λ r, r <| fr_fatal_reason := fr_reason record |>) ;;;
  upd_fault (λ r, r <| fr_fatal_tick := fr_tick record |>) ;;;
  upd_fault (λ r, r <| fr_fatal_current_task := fr_current_task record |>).

(** stacked_frame is the address of the eight words, or 0. *)
Definition rts_s32k148_hardfault_capture {A} (stacked_frame exc_return active_msp active_psp : Z) : B A :=
  __disable_irq ;;;
  upd_fault (λ r, r <| fr_hardfault_seen := 1 |>) ;;;
  upd_fault (λ r, r <| fr_exc_return := exc_return |>) ;;;
  upd_fault (λ r, r <| fr_active_msp := active_msp |>) ;;;
  upd_fault (λ r, r <| fr_active_psp := active_psp |>) ;;;
  when (negb (stacked_frame =? 0)) (
    modify (λ m, let w i := load_word (cx_kernel m) (stacked_frame + 4 * i) in m <| cx_fault :=
      (cx_fault m) <| fr_stacked_r0 := w 0 |> <| fr_stacked_r1 := w 1 |> <| fr_stacked_r2 := w 2 |>
        <| fr_stacked_r3 := w 3 |> <| fr_stacked_r12 := w 4 |> <| fr_stacked_lr := w 5 |>
        <| fr_stacked_pc := w 6 |> <| fr_stacked_xpsr := w 7 |> |>)) ;;;
  let* v := read_soc SCB_CFSR in upd_fault (λ r, r <| fr_cfsr := v |>) ;;;
  let* v := read_soc SCB_HFSR in upd_fault (λ r, r <| fr_hfsr := v |>) ;;;
  let* v := read_soc SCB_DFSR in upd_fault (λ r, r <| fr_dfsr := v |>) ;;;
  let* v := read_soc SCB_SHCSR in upd_fault (λ r, r <| fr_shcsr := v |>) ;;;
  let* v := read_soc SCB_MMFAR in upd_fault (λ r, r <| fr_mmfar := v |>) ;;;
  let* v := read_soc SCB_BFAR in upd_fault (λ r, r <| fr_bfar := v |>) ;;;
  fatal RTS_FATAL_HARDFAULT.

(** main is the application's. *)
Definition rts_s32k148_reset_entry {A} (main : B unit) : B A :=
  rts_s32k148_led_initialize ;;;
  __enable_irq ;;;
  __DSB ;;; __ISB ;;;
  main ;;;
  fatal RTS_FATAL_TASK_RETURNED.

(** ** The C runtime (target_runtime.c) *)

Definition memset (destination value count : Z) : K Z :=
  for_each (seqZ 0 count) (λ index, modify (store_byte (destination + index) (uint8_t value))) ;;;
  ret destination.

Definition memcpy (destination source count : Z) : K Z :=
  for_each (seqZ 0 count) (λ index,
    let* b := gets (λ s, load_byte s (source + index)) in
    modify (store_byte (destination + index) b)) ;;;
  ret destination.

Definition __aeabi_memclr (destination count : Z) : K unit := memset destination 0 count ;;; ret tt.
Definition __aeabi_memclr4 (destination count : Z) : K unit := memset destination 0 count ;;; ret tt.
Definition __aeabi_memclr8 (destination count : Z) : K unit := memset destination 0 count ;;; ret tt.
Definition __aeabi_memcpy (destination source count : Z) : K unit := memcpy destination source count ;;; ret tt.
Definition __aeabi_memcpy4 (destination source count : Z) : K unit := memcpy destination source count ;;; ret tt.
Definition __aeabi_memcpy8 (destination source count : Z) : K unit := memcpy destination source count ;;; ret tt.
End target.
