(* ===== verification/CriticalPort.v ===== *)
(** * Critical sections, on both ports

    The kernel relies on the port for critical sections that nest.  The class
    states the contract of one section; the host port and the S32K148 port
    implement it, nesting is proved once, from the contract, and stated for the
    functions of the two ports. *)

From S2P Require Import Prelude Machine Config Types HostPort Cortex CortexPort S32K148.
From Stdlib Require Import RelationClasses Morphisms.

(** ** Nested sections *)

(** A critical section around [m], with the operations of a port. *)
Definition critical_in {S A} (enter : M S Z) (exit : Z → M S unit) (m : M S A) : M S A :=
  let* token := enter in
  let* a := m in
  exit token ;;;
  ret a.

(** [n] nested sections around [m]. *)
Fixpoint nested_in {S A} (enter : M S Z) (exit : Z → M S unit) (n : nat) (m : M S A) : M S A :=
  match n with O => m | Datatypes.S n' => critical_in enter exit (nested_in enter exit n' m) end.

(** ** The contract *)

(** [port_same] relates states with the same nesting and interrupt mask;
    [port_limit] bounds the depth of nesting. *)
Class CriticalPort {S} (enter : M S Z) (exit : Z → M S unit) := {
  port_same : S → S → Prop;
  port_masked : S → bool;
  port_depth : S → Z;
  port_limit : Z;
  port_same_equivalence :: Equivalence port_same;
  port_masked_same :: Proper (port_same ==> eq) port_masked;
  port_depth_same :: Proper (port_same ==> eq) port_depth;
  port_section s :
    0 ≤ port_depth s < port_limit →
    ∃ token s1, enter s = Done token s1 ∧ port_masked s1 = true ∧ port_depth s1 = port_depth s + 1 ∧
      ∀ s2, port_same s1 s2 → ∃ s3, exit token s2 = Done tt s3 ∧ port_same s s3
}.

Section nesting.
Context {S : Type} {enter : M S Z} {exit : Z → M S unit} `{!CriticalPort enter exit}.

(** Code that leaves the port's state as it finds it. *)
Definition balanced {A} (m : M S A) (Q : A → Prop) (s : S) : Prop := wp m (λ a s', Q a ∧ port_same s s') s.

Lemma critical_balanced {A} (m : M S A) Q s :
  0 ≤ port_depth s < port_limit →
  (∀ s1, port_masked s1 = true → port_depth s1 = port_depth s + 1 → balanced m Q s1) → balanced (critical_in enter exit m) Q s.
Proof.
  intros Hroom Hm. destruct (port_section s Hroom) as (token&s1&Hrun&Hmask&Hdepth&Hexit).
  unfold balanced, critical_in. apply wp_bind. eapply wp_run; [exact Hrun|]. apply wp_bind.
  eapply wp_mono; [by apply (Hm s1)|]. intros a s2 [HQ Hs]. destruct (Hexit s2 Hs) as (s3&Hrun3&Hs3).
  apply wp_bind. eapply wp_run; [exact Hrun3|]. by apply wp_ret.
Qed.

Lemma nested_balanced {A} n (m : M S A) Q s :
  0 ≤ port_depth s → port_depth s + Z.of_nat (Datatypes.S n) ≤ port_limit →
  (∀ s1, port_masked s1 = true → port_depth s1 = port_depth s + Z.of_nat (Datatypes.S n) → balanced m Q s1) →
  balanced (nested_in enter exit (Datatypes.S n) m) Q s.
Proof.
  revert s. induction n as [|n IH]; intros s Hd Hroom Hm; (apply critical_balanced; [lia|]).
  - intros s1 Hmask Hs1. apply Hm; [done|lia].
  - intros s1 _ Hs1. apply IH; [lia..|]. intros s2 Hmask Hs2. apply Hm; [done|lia].
Qed.
End nesting.

(** ** The host port *)

Section host.
Context `{Config}.

#[export] Program Instance host_critical :
    CriticalPort HostPort.rts_port_critical_enter HostPort.rts_port_critical_exit := {|
  port_same := same_nesting;
  port_masked s := host_interrupts_masked (k_port s);
  port_depth s := host_critical_depth (k_port s);
  port_limit := RTS_HOST_CRITICAL_NESTING_MAX
|}.
Next Obligation.
  split; [done| |].
  - intros s s' (A1&A2&A3). split_and!; try done. intros i Hi. symmetry. apply A3. by rewrite <- A1.
  - intros s1 s2 s3. apply same_nesting_trans.
Qed.
Next Obligation. by intros s s' (_&E&_). Qed.
Next Obligation. by intros s s' (E&_). Qed.
Next Obligation.
  intros s Hd. cbn beta in Hd. exists (critical_token (k_port s)), (upd_port port_entered s).
  split_and!; [apply rts_port_critical_enter_run; lia|done|done|]. intros s2 Hs.
  destruct (critical_exit_balanced s s2 ltac:(lia) Hs) as [Hrun Hsame]. eexists. by split.
Qed.
End host.

(** ** The S32K148 port *)

Section board.
Context `{Config} `{!CortexConfig} `{Device}.

Definition same_mask (m m' : cortex) : Prop := cx_critical_depth m' = cx_critical_depth m ∧ cx_primask m' = cx_primask m.

(** Measuring the section leaves everything but the measurements. *)
Definition measured (m m' : cortex) : Prop := ∃ reads timing, m' = m <| cx_soc_reads := reads |> <| cx_timing := timing |>.

Lemma measured_refl m : measured m m.
Proof. exists (cx_soc_reads m), (cx_timing m). by destruct m. Qed.

Lemma timing_begin_spec m : wp rts_s32k148_timing_critical_begin (λ _ m', measured m m') m.
Proof.
  unfold rts_s32k148_timing_critical_begin. destruct RTS_ENABLE_DIAGNOSTICS; cbn [when]; [|apply wp_ret, measured_refl].
  apply wp_bind, wp_gets. destruct (negb _); cbn [when]; [|apply wp_ret, measured_refl].
  apply wp_bind. unfold read_soc. apply wp_bind, wp_gets, wp_bind, wp_modify, wp_ret, wp_modify. by eexists _, _.
Qed.

Lemma timing_end_spec m : wp rts_s32k148_timing_critical_end (λ _ m', measured m m') m.
Proof.
  unfold rts_s32k148_timing_critical_end. destruct RTS_ENABLE_DIAGNOSTICS; cbn [when]; [|apply wp_ret, measured_refl].
  apply wp_bind, wp_gets. destruct (negb _); cbn [when]; [|apply wp_ret, measured_refl].
  apply wp_bind. unfold read_soc. apply wp_bind, wp_gets, wp_bind, wp_modify, wp_ret, wp_bind, wp_gets, wp_bind, wp_gets.
  destruct (_ <? _); cbn [when]; [apply wp_modify|apply wp_ret]; [by eexists _, _|].
  eexists (S (cx_soc_reads m)), (cx_timing m). by destruct m.
Qed.

(** The token holds the depth and the mask. *)
Lemma token_fields d p : 0 < d ≤ 2147483647 → 0 ≤ p ≤ 1 →
  let token := Z.lor (uintptr_t (Z.shiftl d 1)) p in u32 (Z.shiftr token 1) = d ∧ u32 (Z.land token 1) = p.
Proof.
  intros Hd Hp. cbv zeta. unfold uintptr_t, u32. rewrite cortex_pointers, Z.shiftl_mul_pow2 by lia.
  rewrite (Z.mod_small (d * 2 ^ 1)) by (unfold UINT32_MAX; lia).
  change (2 ^ 1) with 2. assert (Z.lor (d * 2) p = 2 * d + p) as ->.
  { assert (Z.land (d * 2) p = 0) as Hl; [|pose proof (Z.add_lor_land (d * 2) p); lia].
    assert (p = 0 ∨ p = 1) as [-> | ->] by lia; [apply Z.land_0_r|].
    change 1 with (Z.ones 1). rewrite Z.land_ones by lia. by apply Z.mod_mul. }
  rewrite Z.shiftr_div_pow2 by lia. change (2 ^ 1) with 2. rewrite (Z.land_ones _ 1 ltac:(lia) : Z.land (2 * d + p) 1 = _). change (2 ^ 1) with 2.
  rewrite <- (Z.div_unique (2 * d + p) 2 d p), <- (Z.mod_unique (2 * d + p) 2 d p) by lia. rewrite !Z.mod_small by lia. done.
Qed.

Definition board_token (m : cortex) : Z :=
  Z.lor (uintptr_t (Z.shiftl (cx_critical_depth m + 1) 1)) (if cx_primask m then 1 else 0).

Lemma board_enter_spec m :
  0 ≤ cx_critical_depth m < 2147483647 →
  wp S32K148.rts_port_critical_enter (λ token m', token = board_token m ∧
    ∃ m1, measured m m1 ∧ m' = m1 <| cx_primask := true |> <| cx_critical_depth := cx_critical_depth m + 1 |>) m.
Proof.
  intros Hd. unfold S32K148.rts_port_critical_enter. apply wp_bind, wp_gets, wp_bind, wp_modify, wp_bind, wp_gets, wp_bind.
  eapply (wp_mono _ (λ _ m', measured (m <| cx_primask := true |>) m')).
  { destruct (_ =? 0); cbn [when]; [apply timing_begin_spec|apply wp_ret, measured_refl]. }
  intros [] m' (reads&timing&->). apply wp_bind, wp_gets. unfold u32. rewrite Z.mod_small by (cbn; lia).
  apply wp_bind, wp_RTS_FATAL_UNLESS; [rewrite (proj2 (Z.eqb_neq _ 0)) by (cbn; lia); done|]. apply wp_bind, wp_modify, wp_ret.
  split; [unfold board_token; by destruct (cx_primask m)|]. eexists. split; [by exists reads, timing|]. by destruct m.
Qed.

Lemma board_exit_spec m m2 :
  0 ≤ cx_critical_depth m < 2147483647 → cx_critical_depth m2 = cx_critical_depth m + 1 → cx_primask m2 = true →
  wp (S32K148.rts_port_critical_exit (board_token m)) (λ _ m3, ∃ m1, measured m2 m1 ∧
    m3 = m1 <| cx_critical_depth := cx_critical_depth m |> <| cx_primask := cx_primask m |>) m2.
Proof.
  intros Hd Ed Em. destruct (token_fields (cx_critical_depth m + 1) (if cx_primask m then 1 else 0)) as [T1 T2];
    [lia|destruct (cx_primask m); lia|]. fold (board_token m) in T1, T2.
  unfold S32K148.rts_port_critical_exit. rewrite T1, T2. apply wp_bind, wp_gets, wp_bind, wp_gets. rewrite Em, Ed.
  rewrite (proj2 (Z.eqb_neq _ 0)), Z.eqb_refl by lia. cbn [negb andb Z.land Z.eqb Pos.land].
  apply wp_bind, wp_RTS_FATAL_UNLESS; [done|]. cbn [negb]. apply wp_bind, wp_modify, wp_bind, wp_gets, wp_bind.
  unfold u32. rewrite Z.mod_small by lia. replace (cx_critical_depth m + 1 - 1) with (cx_critical_depth m) by lia.
  eapply (wp_mono _ (λ _ m', measured (m2 <| cx_critical_depth := cx_critical_depth m |>) m')).
  { destruct (_ =? 0); cbn [when]; [apply timing_end_spec|apply wp_ret, measured_refl]. }
  intros [] m' (reads&timing&->). apply wp_bind, wp_ret, wp_bind, wp_modify, wp_ret.
  eexists. split; [by exists reads, timing|]. by destruct (cx_primask m), m2.
Qed.

#[export] Program Instance board_critical :
    CriticalPort S32K148.rts_port_critical_enter S32K148.rts_port_critical_exit := {|
  port_same := same_mask;
  port_masked := cx_primask;
  port_depth := cx_critical_depth;
  port_limit := 2147483647
|}.
Next Obligation.
  split; [done|intros m m' [A1 A2]; by split|]. intros m1 m2 m3 [A1 A2] [B1 B2]. split; congruence.
Qed.
Next Obligation. by intros m m' [_ E]. Qed.
Next Obligation. by intros m m' [E _]. Qed.
Next Obligation.
  intros m Hd. pose proof (board_enter_spec m Hd) as He. unfold wp in He.
  destruct (S32K148.rts_port_critical_enter m) as [token m'| | |] eqn:Erun; [|done..].
  destruct He as (->&m1&(reads&timing&->)&->). eexists _, _. split_and!; [reflexivity|done|done|].
  intros m2 [A1 A2]. cbn in A1, A2. pose proof (board_exit_spec m m2 Hd A1 A2) as Hx. unfold wp in Hx.
  destruct (S32K148.rts_port_critical_exit _ m2) as [[] m3| | |]; [|done..].
  destruct Hx as (m1&(reads'&timing'&->)&->). eexists. by split.
Qed.

(** Leaving at another depth than the token's is fatal. *)
Lemma board_exit_mismatch token m :
  u32 (Z.shiftr token 1) ≠ cx_critical_depth m → S32K148.rts_port_critical_exit token m = Fatal RTS_FATAL_ASSERTION m.
Proof.
  intros Hne. unfold S32K148.rts_port_critical_exit, __get_PRIMASK. rewrite bind_gets, bind_gets.
  by rewrite (proj2 (Z.eqb_neq _ (cx_critical_depth m))), andb_false_r by done.
Qed.
End board.

(** ** The two ports *)

(** C16: Critical sections nest, with the functions of the host port and with
    those of the S32K148 port.  Code inside [n + 1] nested sections runs with
    interrupts masked and the nesting depth [n + 1] above the start's; leaving the
    sections, each with the token of its entry, passes every check and restores
    the interrupt mask (PRIMASK on the board) and the depth of the start, whatever
    they were.  The depth must stay within the port's limit, and the code inside
    must leave mask and depth as it finds them. *)
Theorem critical_sections_nest `{Config} `{!CortexConfig} `{Device} {A} n (f : K A) (g : B A) (Q : A → Prop) s m :
  0 ≤ host_critical_depth (k_port s) →
  host_critical_depth (k_port s) + Z.of_nat (S n) ≤ RTS_HOST_CRITICAL_NESTING_MAX →
  (∀ s1, host_interrupts_masked (k_port s1) = true →
    host_critical_depth (k_port s1) = host_critical_depth (k_port s) + Z.of_nat (S n) →
    wp f (λ a s2, Q a ∧ same_nesting s1 s2) s1) →
  0 ≤ cx_critical_depth m → cx_critical_depth m + Z.of_nat (S n) ≤ 2147483647 →
  (∀ m1, cx_primask m1 = true → cx_critical_depth m1 = cx_critical_depth m + Z.of_nat (S n) →
    wp g (λ a m2, Q a ∧ cx_critical_depth m2 = cx_critical_depth m1 ∧ cx_primask m2 = cx_primask m1) m1) →
  wp (nested_in HostPort.rts_port_critical_enter HostPort.rts_port_critical_exit (S n) f) (λ a s', Q a ∧
    same_nesting s s' ∧ host_critical_depth (k_port s') = host_critical_depth (k_port s) ∧
    host_interrupts_masked (k_port s') = host_interrupts_masked (k_port s)) s ∧
  wp (nested_in S32K148.rts_port_critical_enter S32K148.rts_port_critical_exit (S n) g) (λ a m', Q a ∧
    cx_critical_depth m' = cx_critical_depth m ∧ cx_primask m' = cx_primask m) m.
Proof.
  intros Hd Hl Hf Hd' Hl' Hg. split.
  - eapply wp_mono; [by apply (nested_balanced (CriticalPort0 := host_critical) n f Q s)|].
    intros a s' [HQ Hs]. split_and!; [done..|apply Hs|apply Hs].
  - by apply (nested_balanced (CriticalPort0 := board_critical) n g Q m).
Qed.
