(* ===== verification/TargetSpec.v ===== *)
(** * What the S32K148 target guarantees

    The reload value is the tick period; the tick's life cycle is followed; a
    sleep is bounded, and its time is credited once. *)

From S2P Require Import Prelude Machine Config Types HostPort Diagnostics TaskPool Scheduler SwitchSpec KernelSpec KernelTime.
From S2P Require Import Cortex CortexPort S32K148 CriticalPort.

(** ** The period *)

Section period.

(** [reload] makes SysTick expire [rate] times a second exactly. *)
Definition exact_reload (clock rate reload : Z) : Prop :=
  0 < rate ∧ 0 ≤ reload < RTS_SYSTICK_COUNTER_CAPACITY ∧ (reload + 1) * rate = clock.

(** rts_s32k148_tick_reload_calculate returns a reload value exactly when
    there is one that fits the 24-bit counter and divides the core clock into
    the tick rate without remainder, and it returns that value. *)
Lemma tick_reload_exact clock rate reload :
  0 ≤ clock ≤ UINT32_MAX → 0 ≤ rate ≤ UINT32_MAX →
  rts_s32k148_tick_reload_calculate clock rate = Some reload ↔ exact_reload clock rate reload.
Proof.
  intros Hc Hr. unfold rts_s32k148_tick_reload_calculate, exact_reload, RTS_SYSTICK_COUNTER_CAPACITY, UINT32_MAX, u32 in *.
  cbv zeta. split.
  - case_match eqn:E1; [done|]. case_match eqn:E2; [done|]. intros [= <-].
    rewrite !orb_false_iff, !Z.eqb_neq, Z.ltb_ge, negb_false_iff, Z.eqb_eq in E1. destruct E1 as [[[A1 A2] A3] A4].
    rewrite orb_false_iff, Z.eqb_neq, Z.ltb_ge in E2. destruct E2 as [B1 B2].
    pose proof (Z.div_mod clock rate ltac:(lia)). pose proof (Z.div_pos clock rate ltac:(lia) ltac:(lia)).
    rewrite Z.mod_small by lia. split_and!; lia.
  - intros (H1&H2&<-). rewrite Z.mod_mul, Z.div_mul by lia. replace (reload + 1 - 1) with reload by lia.
    rewrite (proj2 (Z.eqb_neq ((reload + 1) * rate) 0)), (proj2 (Z.eqb_neq rate 0)), (proj2 (Z.eqb_neq (reload + 1) 0)) by nia.
    rewrite (proj2 (Z.ltb_ge _ rate)), (proj2 (Z.ltb_ge _ (reload + 1))) by nia. cbn. f_equal. apply Z.mod_small. lia.
Qed.
End period.

(** ** Partial correctness

    The operations below stop the system when they are misused; what holds when
    they return is stated without saying when they do. *)

Definition wlp {S A} (m : M S A) (Q : A → S → Prop) (s : S) : Prop :=
  match m s with Done a s' => Q a s' | _ => True end.

Section wlp.
Context {S : Type}.

Lemma wlp_ret {A} (a : A) (Q : A → S → Prop) s : Q a s → wlp (ret a) Q s.
Proof. done. Qed.

Lemma wlp_bind {A B} (m : M S A) (k : A → M S B) Q s : wlp m (λ a s', wlp (k a) Q s') s → wlp (bind m k) Q s.
Proof. unfold wlp, bind. by destruct (m s). Qed.

Lemma wlp_gets {A} (f : S → A) Q s : Q (f s) s → wlp (gets f) Q s.
Proof. done. Qed.

Lemma wlp_modify f (Q : unit → S → Prop) s : Q tt (f s) → wlp (modify f) Q s.
Proof. done. Qed.

Lemma wlp_mono {A} (m : M S A) (P Q : A → S → Prop) s : wlp m P s → (∀ a s', P a s' → Q a s') → wlp m Q s.
Proof. unfold wlp. destruct (m s); auto. Qed.

Lemma wlp_run {A} (m : M S A) Q s a s' : wlp m Q s → m s = Done a s' → Q a s'.
Proof. unfold wlp. intros Hm E. by rewrite E in Hm. Qed.

Lemma wlp_andM (m1 m2 : M S bool) Q s :
  wlp m1 (λ b s', if b then wlp m2 Q s' else Q false s') s → wlp (andM m1 m2) Q s.
Proof. intros Hm. apply wlp_bind. eapply wlp_mono; [exact Hm|]. by intros [] ?. Qed.

Lemma wlp_orM (m1 m2 : M S bool) Q s :
  wlp m1 (λ b s', if b then Q true s' else wlp m2 Q s') s → wlp (orM m1 m2) Q s.
Proof. intros Hm. apply wlp_bind. eapply wlp_mono; [exact Hm|]. by intros [] ?. Qed.

Lemma wlp_when (b : bool) (m : M S unit) (Q : unit → S → Prop) s : (if b then wlp m Q s else Q tt s) → wlp (when b m) Q s.
Proof. by destruct b. Qed.

Lemma wlp_fatal_unless b (Q : unit → S → Prop) s : (b = true → Q tt s) → wlp (RTS_FATAL_UNLESS (ret b)) Q s.
Proof. destruct b; [by intros HQ; apply HQ|done]. Qed.

Lemma wlp_assert `{Config} b (Q : unit → S → Prop) s : Q tt s → wlp (RTS_ASSERT (ret b)) Q s.
Proof. intros HQ. unfold RTS_ASSERT, rts_assert. by destruct RTS_ENABLE_ASSERTIONS, b. Qed.
End wlp.

Lemma wlp_kernel_call {A} (f : K A) (Q : A → cortex → Prop) m : (∀ a k, Q a (m <| cx_kernel := k |>)) → wlp (kernel_call f) Q m.
Proof. intros HQ. unfold wlp, kernel_call, zoom. destruct (f (cx_kernel m)); auto. Qed.

Section device.
Context `{Device}.

Lemma wlp_read_soc r (Q : Z → cortex → Prop) m :
  Q (sample r (cx_soc_reads m) (soc m r)) (m <| cx_soc_reads ::= S |>) → wlp (read_soc r) Q m.
Proof. intros HQ. unfold read_soc. by apply wlp_bind, wlp_gets, wlp_bind, wlp_modify, wlp_ret. Qed.

Lemma wp_read_soc r (Q : Z → cortex → Prop) m :
  Q (sample r (cx_soc_reads m) (soc m r)) (m <| cx_soc_reads ::= S |>) → wp (read_soc r) Q m.
Proof. intros HQ. unfold read_soc. by apply wp_bind, wp_gets, wp_bind, wp_modify, wp_ret. Qed.
End device.

(** ** The life cycle of the tick *)

Section tick.
Context `{Config} `{Device}.

(** The operations but the initialisation, and code that leaves the tick's two
    variables alone. *)
Inductive tick_use (m m' : cortex) : Prop :=
  | use_start status : S32K148.rts_port_tick_start m = Done status m' → tick_use m m'
  | use_commit ok : rts_port_tick_commit_start m = Done ok m' → tick_use m m'
  | use_stop : S32K148.rts_port_tick_stop m = Done tt m' → tick_use m m'
  | use_other : cx_tick_state m' = cx_tick_state m → cx_tick_reload m' = cx_tick_reload m → tick_use m m'.

Inductive tick_step (m m' : cortex) : Prop :=
  | step_initialize clock rate status :
      is_u32 clock → is_u32 rate → rts_s32k148_tick_initialize clock rate m = Done status m' → tick_step m m'
  | step_use : tick_use m m' → tick_step m m'.

Lemma tick_initialize_spec clock rate m :
  is_u32 clock → is_u32 rate →
  wlp (rts_s32k148_tick_initialize clock rate) (λ status m',
    if decide (status = RTS_STATUS_OK)
    then cx_tick_state m' = RTS_S32K148_TICK_READY ∧ exact_reload clock rate (cx_tick_reload m')
    else cx_tick_state m' = RTS_S32K148_TICK_UNINITIALIZED ∧ cx_tick_reload m' = 0) m.
Proof.
  intros Hc Hr. unfold rts_s32k148_tick_initialize. apply wlp_bind, wlp_modify, wlp_bind, wlp_modify, wlp_bind, wlp_modify.
  destruct (rts_s32k148_tick_reload_calculate clock rate) as [reload|] eqn:E; [|by apply wlp_ret].
  apply wlp_bind, wlp_modify, wlp_bind, wlp_modify, wlp_bind, wlp_modify, wlp_bind, wlp_ret, wlp_bind, wlp_ret.
  assert (exact_reload clock rate reload) as Hx by by apply tick_reload_exact.
  apply wlp_bind, wlp_orM, wlp_bind, wlp_read_soc, wlp_ret.
  destruct (negb _).
  - by apply wlp_bind, wlp_modify, wlp_ret.
  - apply wlp_bind, wlp_read_soc, wlp_ret. destruct (negb _).
    + by apply wlp_bind, wlp_modify, wlp_ret.
    + by apply wlp_bind, wlp_modify, wlp_bind, wlp_modify, wlp_ret.
Qed.

Lemma tick_start_spec m :
  wlp S32K148.rts_port_tick_start (λ status m', cx_tick_reload m' = cx_tick_reload m ∧
    (cx_tick_state m' = cx_tick_state m ∨ cx_tick_state m = RTS_S32K148_TICK_READY ∧ cx_tick_state m' = RTS_S32K148_TICK_ARMED)) m.
Proof.
  unfold S32K148.rts_port_tick_start. apply wlp_bind.
  apply (wlp_mono _ (λ valid m1, cx_tick_reload m1 = cx_tick_reload m ∧ cx_tick_state m1 = cx_tick_state m ∧
    (valid = true → cx_tick_state m = RTS_S32K148_TICK_READY))).
  - apply wlp_andM, wlp_andM, wlp_gets. destruct (_ && _) eqn:E; [|done]. apply wlp_kernel_call. intros [] k; [|done].
    apply wlp_gets. split_and!; try done. intros _. apply andb_true_iff in E as [E%bool_decide_eq_true _]. done.
  - intros valid m1 (Er&Es&Hv). apply wlp_bind, wlp_assert. destruct valid; cbn [negb].
    + apply wlp_bind, wlp_modify, wlp_bind, wlp_modify, wlp_ret. split; [done|]. right. split; [by apply Hv|done].
    + apply wlp_ret. split; [done|by left].
Qed.

Lemma tick_commit_spec m :
  wlp rts_port_tick_commit_start (λ ok m', cx_tick_reload m' = cx_tick_reload m ∧ ok = true ∧
    cx_tick_state m = RTS_S32K148_TICK_ARMED ∧ cx_primask m = true ∧ cx_ipsr m = 11 ∧ cx_tick_state m' = RTS_S32K148_TICK_RUNNING) m.
Proof.
  unfold rts_port_tick_commit_start. apply wlp_bind, wlp_gets, wlp_bind, wlp_fatal_unless. intros E. rewrite E. cbn [negb].
  rewrite !andb_true_iff, bool_decide_eq_true, Z.eqb_eq in E. destruct E as [[E1 E2] E3].
  apply wlp_bind, wlp_modify, wlp_bind, wlp_ret, wlp_bind, wlp_ret, wlp_bind, wlp_read_soc, wlp_bind, wlp_fatal_unless. intros E.
  rewrite E. by apply wlp_bind, wlp_modify, wlp_ret.
Qed.

Lemma tick_stop_spec m :
  wlp S32K148.rts_port_tick_stop (λ _ m', cx_tick_reload m' = cx_tick_reload m ∧
    cx_tick_state m' = if decide (cx_tick_state m = RTS_S32K148_TICK_UNINITIALIZED)
      then RTS_S32K148_TICK_UNINITIALIZED else RTS_S32K148_TICK_READY) m.
Proof.
  unfold S32K148.rts_port_tick_stop. apply wlp_bind, wlp_modify, wlp_bind, wlp_modify, wlp_bind, wlp_gets, wlp_bind, wlp_when.
  cbn [cx_tick_state]. case_decide as E.
  - rewrite bool_decide_true by done. apply wlp_bind, wlp_ret, wlp_ret. by split.
  - rewrite bool_decide_false by done. by apply wlp_modify, wlp_bind, wlp_ret, wlp_ret.
Qed.

(** Without an initialisation the reload value stays, the uninitialised state is
    neither left nor entered, and RUNNING is reached only by the commit, from the
    SVC handler with interrupts masked. *)
Lemma tick_use_spec m m' :
  tick_use m m' → cx_tick_reload m' = cx_tick_reload m ∧
  (cx_tick_state m' = RTS_S32K148_TICK_UNINITIALIZED ↔ cx_tick_state m = RTS_S32K148_TICK_UNINITIALIZED) ∧
  (cx_tick_state m' = RTS_S32K148_TICK_RUNNING → cx_tick_state m = RTS_S32K148_TICK_RUNNING ∨
     cx_tick_state m = RTS_S32K148_TICK_ARMED ∧ cx_primask m = true ∧ cx_ipsr m = 11 ∧ rts_port_tick_commit_start m = Done true m').
Proof.
  intros [status Hrun|ok Hrun|Hrun|Es Er].
  - destruct (wlp_run _ _ _ _ _ (tick_start_spec m) Hrun) as (Er&[->|[-> ->]]); split_and!; naive_solver.
  - destruct (wlp_run _ _ _ _ _ (tick_commit_spec m) Hrun) as (Er&->&E1&E2&E3&E4). rewrite E4, E1. split_and!; [done|done|].
    intros _. by right.
  - destruct (wlp_run _ _ _ _ _ (tick_stop_spec m) Hrun) as (Er&Es). rewrite Es. split; [done|]. case_decide; naive_solver.
  - rewrite Es. naive_solver.
Qed.

(** The tick was set up for [clock] and [rate], and since then only used. *)
Definition set_up (m0 m : cortex) (clock rate : Z) : Prop :=
  ∃ ma mb, rtc tick_step m0 ma ∧ is_u32 clock ∧ is_u32 rate ∧
    rts_s32k148_tick_initialize clock rate ma = Done RTS_STATUS_OK mb ∧ rtc tick_use mb m.

Lemma tick_set_up m0 m :
  rtc tick_step m0 m → cx_tick_state m0 = RTS_S32K148_TICK_UNINITIALIZED → cx_tick_reload m0 = 0 →
  if decide (cx_tick_state m = RTS_S32K148_TICK_UNINITIALIZED) then cx_tick_reload m = 0
  else ∃ clock rate, set_up m0 m clock rate ∧ exact_reload clock rate (cx_tick_reload m).
Proof.
  intros Hsteps Hs0 Hr0. revert m Hsteps. apply rtc_ind_r; [by rewrite decide_True|].
  intros m m' Hsteps [clock rate status Hc Hr Hrun|Huse] IH.
  - pose proof (wlp_run _ _ _ _ _ (tick_initialize_spec clock rate m Hc Hr) Hrun) as Hi. cbn beta in Hi.
    case_decide as Est; destruct Hi as [Es Hre].
    + subst status. rewrite Es, decide_False by done. exists clock, rate. split; [|done]. by exists m, m'.
    + by rewrite Es, decide_True.
  - destruct (tick_use_spec m m' Huse) as (Er&Hs&_). rewrite Er.
    destruct (decide (cx_tick_state m = RTS_S32K148_TICK_UNINITIALIZED)) as [Hu|Hu].
    + by rewrite decide_True by by apply Hs.
    + rewrite decide_False by (by rewrite Hs). destruct IH as (clock&rate&(ma&mb&A1&A2&A3&A4&A5)&Hx).
      exists clock, rate. split; [|done]. exists ma, mb. split_and!; [done..|]. by eapply rtc_r.
Qed.

Lemma tick_commits m0 m :
  rtc tick_step m0 m → cx_tick_state m0 = RTS_S32K148_TICK_UNINITIALIZED → cx_tick_state m = RTS_S32K148_TICK_RUNNING →
  ∃ m1 m2, rtc tick_step m0 m1 ∧
    cx_tick_state m1 = RTS_S32K148_TICK_ARMED ∧ cx_primask m1 = true ∧ cx_ipsr m1 = 11 ∧
    rts_port_tick_commit_start m1 = Done true m2 ∧
    rtc (λ a b, tick_step a b ∧ cx_tick_state b = RTS_S32K148_TICK_RUNNING) m2 m.
Proof.
  intros Hsteps Hs0. revert m Hsteps. apply (rtc_ind_r (λ m, cx_tick_state m = RTS_S32K148_TICK_RUNNING → _)); [congruence|].
  intros m m' Hsteps Hstep IH E. destruct Hstep as [clock rate status Hc Hr Hrun|Huse].
  - pose proof (wlp_run _ _ _ _ _ (tick_initialize_spec clock rate m Hc Hr) Hrun) as Hi. cbn beta in Hi.
    case_decide; destruct Hi as [Es _]; congruence.
  - destruct (tick_use_spec m m' Huse) as (_&_&Hrun). destruct (Hrun E) as [E1|(A1&A2&A3&A4)].
    + destruct (IH E1) as (m1&m2&B1&B2&B3&B4&B5&B6). exists m1, m2. split_and!; try done. eapply rtc_r; [exact B6|].
      split; [by apply step_use|done].
    + exists m, m'. by split_and!.
Qed.

(** C22: The life cycle of the tick.  However the operations of target_tick.c
    and code that leaves the tick's two variables alone follow each other, from an
    uninitialised tick: as long as the state is not UNINITIALIZED, the reload value
    is the exact period, (reload + 1) * rate = clock in the 24-bit counter, for the
    clock and rate given to the last initialisation, which succeeded and was
    followed by no other; when it is, the value is 0.  And if the tick runs, it was
    started by rts_port_tick_commit_start, armed, with interrupts masked and in
    the SVC handler, and was in no other state since. *)
Theorem tick_life_cycle m0 m :
  rtc tick_step m0 m → cx_tick_state m0 = RTS_S32K148_TICK_UNINITIALIZED → cx_tick_reload m0 = 0 →
  (if decide (cx_tick_state m = RTS_S32K148_TICK_UNINITIALIZED) then cx_tick_reload m = 0
   else ∃ clock rate, set_up m0 m clock rate ∧ exact_reload clock rate (cx_tick_reload m)) ∧
  (cx_tick_state m = RTS_S32K148_TICK_RUNNING → ∃ m1 m2, rtc tick_step m0 m1 ∧
     cx_tick_state m1 = RTS_S32K148_TICK_ARMED ∧ cx_primask m1 = true ∧ cx_ipsr m1 = 11 ∧
     rts_port_tick_commit_start m1 = Done true m2 ∧
     rtc (λ a b, tick_step a b ∧ cx_tick_state b = RTS_S32K148_TICK_RUNNING) m2 m).
Proof. intros Hsteps Hs0 Hr0. split; [by apply tick_set_up|by apply tick_commits]. Qed.
End tick.

(** ** Sleep *)

Section sleep.
Context `{Config} `{Device} (__WFI : B unit).

Lemma soc_write r v m : soc (m <| cx_soc := <[r := v]> (cx_soc m) |>) r = v.
Proof. unfold soc. cbn. by rewrite lookup_total_insert_eq. Qed.

Definition sleep_allowed (maximum : Z) (m : cortex) : bool :=
  cx_power_ready m && negb (maximum =? 0) && (maximum <=? UINT16_MAX) && (cx_ipsr m =? 0) && cx_primask m.

(** What the call reports of the time from [m1], before the processor sleeps, to
    [m2], when it is awake: the whole time if the timer's handler ran, else the
    counter, read from the device as it was at the awakening, but no more than
    the whole time. *)
Definition sleep_reported (maximum : Z) (m2 : cortex) (elapsed source : Z) : Prop :=
  if cx_lptmr_woke m2 then source = RTS_PORT_WAKE_TIMER ∧ elapsed = maximum
  else source = RTS_PORT_WAKE_EXTERNAL ∧ ∃ m3 m4 counted,
    cx_soc m3 = cx_soc m2 ∧ rts_s32k148_lptmr_count_read m3 = Done counted m4 ∧ elapsed = Z.min maximum counted.

(** C36: rts_port_power_sleep, when it may sleep and whatever [W] happens while
    the processor sleeps, enters the sleep with interrupts enabled, the wake flag
    clear and the low-power timer set to the time asked for, and returns OK with
    interrupts masked and SysTick control written back as it was read.  If the
    timer's handler has set the wake flag it reports a timer wake-up and the whole
    time; if not, an external one and the timer's counter at the awakening, but no
    more than the whole time. *)
Theorem power_sleep_bounded (W : cortex → cortex → Prop) maximum m :
  sleep_allowed maximum m = true →
  (∀ m1, cx_primask m1 = false → cx_lptmr_woke m1 = false → wp __WFI (λ _ m2, W m1 m2) m1) →
  wp (S32K148.rts_port_power_sleep __WFI rts_s32k148_lptmr_count_read maximum) (λ result m',
    let '(status, elapsed, source) := result in
    status = RTS_STATUS_OK ∧ cx_primask m' = true ∧
    (∃ held, soc m' SysTick_CTRL = latch SysTick_CTRL (sample SysTick_CTRL (cx_soc_reads m) (soc m SysTick_CTRL)) held) ∧
    ∃ m1 m2, cx_primask m1 = false ∧ cx_lptmr_woke m1 = false ∧
      (∃ held, soc m1 LPTMR0_CMR = latch LPTMR0_CMR (u32 (maximum - 1)) held) ∧
      W m1 m2 ∧ sleep_reported maximum m2 elapsed source ∧ elapsed ≤ maximum) m.
Proof.
  intros Hv HW. unfold S32K148.rts_port_power_sleep. apply wp_bind, wp_gets. fold (sleep_allowed maximum m). rewrite Hv.
  apply wp_bind, wp_RTS_ASSERT; [done|]. cbn [negb]. apply wp_bind, wp_read_soc.
  set (control := sample SysTick_CTRL (cx_soc_reads m) (soc m SysTick_CTRL)).
  do 7 apply wp_bind, wp_modify. apply wp_bind, wp_ret.
  apply wp_bind. eapply wp_mono; [apply timing_end_spec|]. intros [] m1 (reads&timing&->).
  apply wp_bind, wp_modify, wp_bind. match goal with |- wp __WFI _ ?x => set (m1 := x) end.
  assert (∃ held, soc m1 LPTMR0_CMR = latch LPTMR0_CMR (u32 (maximum - 1)) held) as Hcmr.
  { eexists. unfold soc. cbn. rewrite !lookup_total_insert_dec. cbn. reflexivity. }
  eapply wp_mono; [by apply (HW m1)|]. intros [] m2 HW2. clear HW Hv.
  apply wp_bind, wp_modify, wp_bind. eapply wp_mono; [apply timing_begin_spec|]. intros [] m3 (reads'&timing'&->).
  apply wp_bind, wp_gets, wp_bind.
  apply (wp_mono _ (λ elapsed m4, cx_primask m4 = true ∧ cx_lptmr_woke m4 = cx_lptmr_woke m2 ∧
    if cx_lptmr_woke m2 then elapsed = maximum
    else ∃ m3 m4, cx_soc m3 = cx_soc m2 ∧ rts_s32k148_lptmr_count_read m3 = Done elapsed m4)).
  { match goal with |- wp (if ?b then _ else _) _ ?x => change b with (cx_lptmr_woke m2); set (m3 := x) end.
    destruct (cx_lptmr_woke m2) eqn:E; [by apply wp_ret|]. apply wp_bind, wp_modify, wp_read_soc. split_and!; [done..|].
    by exists m3; eexists. }
  intros elapsed m4 (Ep&Ew&Hel). do 5 apply wp_bind, wp_modify. apply wp_bind, wp_ret, wp_bind, wp_ret, wp_bind, wp_gets, wp_ret.
  assert ((if maximum <? elapsed then maximum else elapsed) = Z.min maximum elapsed) as ->
    by (destruct (Z.ltb_spec maximum elapsed); lia).
  split_and!; [done|done|eexists; apply soc_write|]. exists m1, m2. split_and!; [done..| |lia].
  unfold sleep_reported. cbn. rewrite Ew. destruct (cx_lptmr_woke m2).
  - subst elapsed. split; [done|lia].
  - destruct Hel as (m5&m6&Hsoc&Hread). split; [done|]. by exists m5, m6, elapsed.
Qed.

(** Refused: a fatal assertion, or with assertions compiled out an error that
    changes nothing. *)
Theorem power_sleep_refused maximum m :
  sleep_allowed maximum m = false →
  S32K148.rts_port_power_sleep __WFI rts_s32k148_lptmr_count_read maximum m =
  if RTS_ENABLE_ASSERTIONS then Fatal RTS_FATAL_ASSERTION m else Done (RTS_STATUS_PORT_ERROR, 0, RTS_PORT_WAKE_OTHER) m.
Proof.
  intros Hv. unfold S32K148.rts_port_power_sleep. rewrite bind_gets. fold (sleep_allowed maximum m). rewrite Hv.
  unfold RTS_ASSERT, rts_assert. by destruct RTS_ENABLE_ASSERTIONS.
Qed.
End sleep.
