(* ===== verification/CortexStart.v ===== *)
(** * The start of the first task (port_start.c and SVC_Handler of port_asm.S)

    The kernel, running on the main stack, records the first task in a handoff
    and raises SVC; the handler consumes the handoff, starts the tick and enters
    the task. *)

From S2P Require Import Prelude Machine Config Types HostPort Diagnostics TaskPool Scheduler Cortex CortexPort S32K148.

Definition RTS_CM4F_START_HANDOFF_COOKIE : Z := 0x52545353.
Definition RTS_CM4F_CONTROL_NPRIV_BIT : Z := 1.
Definition RTS_CM4F_CONTROL_SPSEL_BIT : Z := 2.
Definition RTS_CM4F_CONTROL_FPCA_BIT : Z := 4.

Section start.
Context `{Config} `{Device} (scratch : Z → Z).

Definition rts_cm4f_start_task_is_valid (task_arg : option task_ptr) : B bool :=
  gets (λ m, let k := cx_kernel m in
    bool_decide (k_lifecycle k = RTS_KERNEL_RUNNING) && bool_decide (task_arg ≠ None)) &&&
  (let* current := kernel_call rts_scheduler_current_get in ret (bool_decide (task_arg = current))) &&&
  (let* t := deref task_arg in
   gets (λ m, let x := task (cx_kernel m) t in
     bool_decide (state x = RTS_TASK_STATE_RUNNING) && negb (saved_stack_pointer x =? 0) &&
     (saved_stack_pointer x mod RTS_TASK_STACK_ALIGNMENT =? 0))) &&&
  kernel_call rts_scheduler_current_is_valid &&&
  gets (λ m, negb (plan_pending (k_switch_plan (cx_kernel m))) && negb (plan_active (k_switch_plan (cx_kernel m)))).

Definition rts_cm4f_start_handoff_get : B rts_cm4f_start_handoff := gets cx_start_handoff.

Definition upd_start (f : rts_cm4f_start_handoff → rts_cm4f_start_handoff) : B unit :=
  modify (λ m, m <| cx_start_handoff := f (cx_start_handoff m) |>).

(** The stack pointer, or 0 for NULL. *)
Definition rts_cm4f_start_handoff_consume : B Z :=
  let* task_arg := gets (λ m, start_first_task (cx_start_handoff m)) in
  let* sp := gets (λ m, start_saved_stack_pointer (cx_start_handoff m)) in
  let* valid :=
    gets (λ m, (start_valid (cx_start_handoff m) =? 1) &&
               (start_cookie (cx_start_handoff m) =? RTS_CM4F_START_HANDOFF_COOKIE)) &&&
    rts_cm4f_start_task_is_valid task_arg &&&
    (let* t := deref task_arg in gets (λ m, sp =? saved_stack_pointer (task (cx_kernel m) t))) in
  RTS_ASSERT (ret valid) ;;;
  if negb valid then ret 0 else
  upd_start (λ h, h <| start_valid := 0 |>) ;;;
  let* started := rts_port_tick_commit_start in
  if negb started then ret 0 else ret sp.

Definition rts_cm4f_start_handoff_prepare : B rts_status_t :=
  let* task_arg := kernel_call rts_scheduler_current_get in
  let* refused := gets cx_start_attempted ||| notM (rts_cm4f_start_task_is_valid task_arg) in
  if refused then ret RTS_STATUS_INVALID_STATE else
  let* t := deref task_arg in
  upd_start (λ h, h <| start_first_task := task_arg |>) ;;;
  let* sp := gets (λ m, saved_stack_pointer (task (cx_kernel m) t)) in
  upd_start (λ h, h <| start_saved_stack_pointer := sp |>) ;;;
  upd_start (λ h, h <| start_cookie := RTS_CM4F_START_HANDOFF_COOKIE |>) ;;;
  upd_start (λ h, h <| start_valid := 1 |>) ;;;
  modify (λ m, m <| cx_start_attempted := true |>) ;;;
  ret RTS_STATUS_OK.

(** SVC_Handler, the frame of the interrupted start-up code being on the main
    stack: ldmia of R4 to R11 leaves the address of the hardware frame in R0. *)
Definition SVC_Handler : B unit :=
  __disable_irq ;;;
  push_r0_lr ;;;
  let* sp := rts_cm4f_start_handoff_consume in
  call_returned scratch sp ;;;
  modify (λ m, m <| cx_regs := <[1 := load_word (cx_kernel m) (cx_msp m)]>
                     (<[LR := load_word (cx_kernel m) (cx_msp m + 4)]> (cx_regs m)) |> <| cx_msp := cx_msp m + 8 |>) ;;;
  let* r0 := gets (λ m, reg m 0) in
  if r0 =? 0 then rts_cm4f_start_fatal else
  restore_callee 0 ;;;
  modify (λ m, m <| cx_psp := reg m 0 |>) ;;;
  modify (λ m, set_reg 1 (cx_control m) m) ;;;
  modify (λ m, set_reg 1 (Z.ldiff (reg m 1) (Z.lor RTS_CM4F_CONTROL_NPRIV_BIT RTS_CM4F_CONTROL_FPCA_BIT)) m) ;;;
  modify (λ m, set_reg 1 (Z.lor (reg m 1) RTS_CM4F_CONTROL_SPSEL_BIT) m) ;;;
  modify (λ m, m <| cx_control := reg m 1 |>) ;;;
  __ISB ;;;
  __enable_irq ;;;
  modify (set_reg LR RTS_CM4F_EXC_RETURN_THREAD_PSP_BASIC) ;;;
  exception_return.

(** svc: the processor stacks eight words on the main stack. *)
Definition svc_entry : B unit := modify (λ m,
  m <| cx_kernel := store_words (entry_frame (cx_msp m))
         [reg m 0; reg m 1; reg m 2; reg m 3; reg m 12; reg m LR; reg m PC; stacked_xpsr (reg m XPSR) (cx_msp m)] (cx_kernel m) |>
    <| cx_msp := entry_frame (cx_msp m) |>
    <| cx_regs := <[LR := 0xFFFFFFF9]> (cx_regs m) |>
    <| cx_ipsr := 11 |>).

(** The code after svc is not reached: the handler returns into the task. *)
Definition rts_cm4f_start_trigger : B unit :=
  __enable_irq ;;;
  svc_entry ;;;
  SVC_Handler.

(** What is left on return is the processor in the first task. *)
Definition rts_port_start_first_task : B rts_status_t :=
  let* status := rts_cm4f_start_handoff_prepare in
  if negb (bool_decide (status = RTS_STATUS_OK)) then ret status else
  rts_cm4f_start_trigger ;;;
  ret RTS_STATUS_OK.
End start.
