(* ===== verification/CortexStartSpec.v ===== *)
(** * The first task starts

    rts_port_start_first_task leaves the main stack for the context the first
    task's stack holds, with the tick running. *)

From S2P Require Import Prelude Machine Config Types Links IntrusiveList KernelLists Time ReadyQueue.
From S2P Require Import DelayQueue HostPort Diagnostics TaskPool Policy PolicySpec WaitObject Scheduler SwitchSpec KernelSpec.
From S2P Require Import Cortex CortexPort CortexSpec S32K148 CriticalPort TargetSpec CortexStart.

Section start.
Context `{Config} `{Device} (scratch : Z → Z).

(** The kernel has chosen [t], whose stack holds a context. *)
Record start_ready (k : kernel) (t : task_ptr) : Prop := {
  sta_lifecycle : k_lifecycle k = RTS_KERNEL_RUNNING;
  sta_current : k_current_task k = Some t;
  sta_state : state (task k t) = RTS_TASK_STATE_RUNNING;
  sta_priority : priority (task k t) < RTS_PRIORITY_COUNT;
  sta_runnable : runnable k t = true;
  sta_stack : saved_stack_pointer (task k t) ≠ 0 ∧ saved_stack_pointer (task k t) mod RTS_TASK_STACK_ALIGNMENT = 0;
  sta_idle_plan : plan_pending (k_switch_plan k) = false ∧ plan_active (k_switch_plan k) = false
}.

Lemma start_ready_memory k t mem : start_ready k t → start_ready (k <| k_memory := mem |>) t.
Proof. intros []. by split. Qed.

Lemma start_task_is_valid_run m t :
  start_ready (cx_kernel m) t → rts_cm4f_start_task_is_valid (Some t) m = Done true m.
Proof.
  intros [A1 A2 A3 A4 A5 [A6 A7] [A8 A9]]. unfold rts_cm4f_start_task_is_valid.
  repeat apply (andM_run _ _ true true); try intros _.
  - unfold gets. by rewrite A1.
  - rewrite (bind_run _ _ _ _ _ (kernel_current m)), A2. unfold ret. by rewrite bool_decide_true.
  - unfold gets, deref. rewrite bind_ret. by rewrite A3, A7, (proj2 (Z.eqb_neq _ 0)).
  - unfold kernel_call, zoom. rewrite (rts_scheduler_current_is_valid_run _ t) by done.
    rewrite A3, A5. unfold lifecycle_schedules. rewrite A1. by destruct m.
  - unfold gets. by rewrite A8, A9.
Qed.

(** The handoff that names [t]. *)
Definition handoff_for (k : kernel) (t : task_ptr) (valid : Z) : rts_cm4f_start_handoff :=
  mk_start_handoff (Some t) (saved_stack_pointer (task k t)) RTS_CM4F_START_HANDOFF_COOKIE valid.

Lemma start_prepare_run m t :
  start_ready (cx_kernel m) t → cx_start_attempted m = false →
  rts_cm4f_start_handoff_prepare m =
  Done RTS_STATUS_OK (m <| cx_start_handoff := handoff_for (cx_kernel m) t 1 |> <| cx_start_attempted := true |>).
Proof.
  intros Hr Ha. unfold rts_cm4f_start_handoff_prepare. rewrite (bind_run _ _ _ _ _ (kernel_current m)), (sta_current _ _ Hr).
  assert ((gets cx_start_attempted ||| notM (rts_cm4f_start_task_is_valid (Some t))) m = Done false m) as Hn.
  { unfold orM, notM. rewrite bind_gets, Ha, (bind_run _ _ _ _ _ (start_task_is_valid_run m t Hr)). done. }
  rewrite (bind_run _ _ _ _ _ Hn). unfold deref. rewrite bind_ret. unfold upd_start. by rewrite !bind_modify, bind_gets, !bind_modify.
Qed.

(** SysTick's control bits read back as written. *)
Definition systick_readable : Prop := ∀ n held,
  Z.land (sample SysTick_CTRL n (latch SysTick_CTRL systick_enabled held)) systick_enabled = systick_enabled.

Context (Hsystick : systick_readable).

Lemma start_consume_spec m k t :
  start_ready (cx_kernel m) t → task (cx_kernel m) t = task k t → cx_start_handoff m = handoff_for k t 1 →
  cx_tick_state m = RTS_S32K148_TICK_ARMED → cx_primask m = true → cx_ipsr m = 11 →
  wp rts_cm4f_start_handoff_consume (λ sp m', sp = saved_stack_pointer (task k t) ∧
    ∃ soc reads, m' = m <| cx_start_handoff := handoff_for k t 0 |> <| cx_soc := soc |> <| cx_soc_reads := reads |>
      <| cx_tick_state := RTS_S32K148_TICK_RUNNING |>) m.
Proof.
  intros Hr Et Hh Ht Hp Hi. unfold rts_cm4f_start_handoff_consume. apply wp_bind, wp_gets, wp_bind, wp_gets. rewrite Hh.
  cbn [handoff_for start_first_task start_saved_stack_pointer]. apply wp_bind. eapply wp_run.
  { repeat apply (andM_run _ _ true true); try intros _.
    - unfold gets. by rewrite Hh.
    - by apply start_task_is_valid_run.
    - unfold deref. rewrite bind_ret. unfold gets. by rewrite Et, Z.eqb_refl. }
  apply wp_bind, wp_RTS_ASSERT; [done|]. cbn [negb]. apply wp_bind, wp_modify, wp_bind.
  unfold rts_port_tick_commit_start. apply wp_bind, wp_gets. cbn [cx_tick_state cx_primask cx_ipsr].
  match goal with |- wp (RTS_FATAL_UNLESS (ret ?b) ;;; _) _ _ => assert (b = true) as -> end.
  { rewrite !andb_true_iff, bool_decide_eq_true, Z.eqb_eq. done. }
  apply wp_bind, wp_RTS_FATAL_UNLESS; [done|]. cbn [negb]. apply wp_bind, wp_modify, wp_bind, wp_ret, wp_bind, wp_ret, wp_bind, wp_read_soc.
  rewrite soc_write, Hsystick, Z.eqb_refl. apply wp_bind, wp_RTS_FATAL_UNLESS; [done|]. cbn [when]. apply wp_bind, wp_modify, wp_ret.
  cbn [negb]. apply wp_ret. split; [done|]. eexists _, _. rewrite Hh. by destruct m.
Qed.

(** Where the frame of [t] meets neither the words svc stacks nor the handler's. *)
Definition main_stack_apart (m : cortex) (sp : Z) : Prop := sp + 64 ≤ cx_msp m - 44 ∨ cx_msp m ≤ sp.

Lemma svc_words m sp :
  cx_msp m mod 4 = 0 → main_stack_apart m sp → ∀ words pushed i, length words = 8%nat → length pushed = 2%nat → 0 ≤ i < 16 →
  load_word (store_words (entry_frame (cx_msp m) - 8) pushed (store_words (entry_frame (cx_msp m)) words (cx_kernel m))) (sp + 4 * i) =
  load_word (cx_kernel m) (sp + 4 * i).
Proof.
  intros Hal Hap words pushed i Hw Hp Hi. destruct (frame_round_trip (cx_msp m) Hal) as (_&_&Hr). unfold main_stack_apart in Hap.
  rewrite !load_word_store_words_other by (rewrite ?Hw, ?Hp; cbn; lia). done.
Qed.

(** What the first task finds. *)
Record first_task_started (m m' : cortex) (t : task_ptr) : Prop := {
  fts_context : thread_context m' = saved_context (cx_kernel m) (saved_stack_pointer (task (cx_kernel m) t));
  fts_kernel : ∃ mem, cx_kernel m' = (cx_kernel m) <| k_memory := mem |>;
  fts_tick : cx_tick_state m' = RTS_S32K148_TICK_RUNNING;
  fts_handoff : start_valid (cx_start_handoff m') = 0 ∧ cx_start_attempted m' = true;
  fts_control : cx_control m' = Z.lor (Z.ldiff (cx_control m) 5) 2;
  fts_interrupts : cx_primask m' = false ∧ cx_ipsr m' = 0
}.

(** The handler, in the machine [m1] that svc left. *)
Lemma svc_handler_spec m m1 k t :
  let sp := saved_stack_pointer (task k t) in
  start_ready (cx_kernel m1) t → task (cx_kernel m1) t = task k t → cx_start_handoff m1 = handoff_for k t 1 →
  cx_start_attempted m1 = true → cx_tick_state m1 = RTS_S32K148_TICK_ARMED → cx_ipsr m1 = 11 → cx_control m1 = cx_control m →
  (∃ mem, cx_kernel m1 = k <| k_memory := mem |>) → cx_kernel m = k → sp ≠ 0 →
  (∀ pushed i, length pushed = 2%nat → 0 ≤ i < 16 →
     load_word (store_words (cx_msp m1 - 8) pushed (cx_kernel m1)) (sp + 4 * i) = load_word k (sp + 4 * i)) →
  wp (SVC_Handler scratch) (λ _ m', first_task_started m m' t) m1.
Proof.
  intros sp Hr Et Hh Ha Htick Hi Hctl [mem Ek] Em Hsp Hw. unfold SVC_Handler. apply wp_bind, wp_modify, wp_bind, wp_modify, wp_bind.
  match goal with |- wp _ _ ?x => set (m2 := x) end.
  assert (cx_kernel m2 = store_words (cx_msp m1 - 8) [reg m1 0; reg m1 LR] (cx_kernel m1)) as Ek2 by done.
  destruct (store_words_frame (cx_msp m1 - 8) [reg m1 0; reg m1 LR] (cx_kernel m1)) as [mem2 Ef].
  assert (∀ i, 0 ≤ i < 16 → load_word (cx_kernel m2) (sp + 4 * i) = load_word k (sp + 4 * i)) as Hw2 by (intros i ?; rewrite Ek2; by apply Hw).
  eapply wp_mono; [apply (start_consume_spec m2 k t); try done; rewrite Ek2, Ef|].
  { by apply start_ready_memory. }
  intros r m' (->&soc&reads&->). apply wp_bind, wp_modify, wp_bind, wp_modify, wp_bind, wp_gets. fold sp.
  match goal with |- wp (if reg ?x 0 =? 0 then _ else _) _ _ => set (m3 := x) end.
  assert (reg m3 0 = sp) as E0 by (unfold m3; by regs). rewrite E0, (proj2 (Z.eqb_neq sp 0)) by apply Hsp.
  apply wp_bind, wp_modify. rewrite E0. set (m4 := m3 <| cx_regs := _ |>).
  do 5 apply wp_bind, wp_modify. match goal with |- wp _ _ ?x => set (m5 := x) end.
  assert (cx_kernel m5 = cx_kernel m2) as Ek5 by reflexivity.
  assert (∀ i, 0 ≤ i < 8 → reg m4 (4 + i) = load_word k (sp + 4 * i)) as Hcallee.
  { intros i Hi8. rewrite <- Hw2 by lia. change (cx_kernel m2) with (cx_kernel m3). each_callee i; unfold m4; by regs. }
  assert (∀ i, 0 ≤ i < 8 → reg m5 (4 + i) = load_word k (sp + 4 * i)) as Hcallee5.
  { intros i Hi8. rewrite <- Hcallee by done. each_callee i; unfold m5; by regs. }
  assert (cx_psp m5 = sp + 32) as Hp5 by (transitivity (reg m4 0); [reflexivity|unfold m4; by regs]).
  assert (cx_control m5 = Z.lor (Z.ldiff (cx_control m) 5) 2) as Hc5 by (rewrite <- Hctl; unfold m5; by regs).
  assert (cx_tick_state m5 = RTS_S32K148_TICK_RUNNING ∧ start_valid (cx_start_handoff m5) = 0 ∧ cx_start_attempted m5 = true) as Hrest by done.
  clearbody m5. clear m3 m4 E0 Hcallee. apply wp_bind, wp_ret, wp_bind, wp_modify, wp_bind, wp_modify. unfold exception_return. apply wp_bind, wp_gets.
  match goal with |- wp (if negb (reg ?x LR =? _) then _ else _) _ _ => set (m6 := x) end.
  assert (reg m6 LR = RTS_CM4F_EXC_RETURN_THREAD_PSP_BASIC) as -> by (unfold m6; by regs). rewrite Z.eqb_refl. cbn [negb].
  apply wp_modify. split.
  - rewrite Em. apply (returned_context m6 (λ i, load_word k (sp + 4 * i)) sp); [exact Hp5| |].
    + intros i Hi8. rewrite <- Hcallee5 by done. each_callee i; unfold m6; by regs.
    + intros i Hi8. change (cx_kernel m6) with (cx_kernel m5). change (cx_psp m6) with (cx_psp m5). rewrite Ek5, Hp5.
      replace (sp + 32 + 4 * i) with (sp + 4 * (8 + i)) by lia. apply Hw2. lia.
  - exists mem2. change (cx_kernel (returned m6)) with (cx_kernel m5). rewrite Ek5, Ek2, Ef, Ek, Em. by destruct k.
  - apply Hrest.
  - apply Hrest.
  - exact Hc5.
  - done.
Qed.

(** C12: Starting the first task leaves the kernel's start-up code for good: the
    task runs in the context its stack holds, in privileged thread mode on its
    own stack, with the tick running and interrupts enabled; the handoff cannot
    be used again. *)
Theorem first_task_starts m t :
  start_ready (cx_kernel m) t → cx_start_attempted m = false → cx_tick_state m = RTS_S32K148_TICK_ARMED →
  cx_msp m mod 4 = 0 → main_stack_apart m (saved_stack_pointer (task (cx_kernel m) t)) →
  wp (CortexStart.rts_port_start_first_task scratch) (λ status m', status = RTS_STATUS_OK ∧ first_task_started m m' t) m.
Proof.
  intros Hr Ha Htick Hal Hap. unfold CortexStart.rts_port_start_first_task. apply wp_bind.
  eapply wp_run; [by apply (start_prepare_run m t)|]. rewrite bool_decide_true by done. cbn [negb]. apply wp_bind.
  eapply (wp_mono _ (λ _ m', first_task_started m m' t)); [|by intros [] m' Hm'; apply wp_ret].
  unfold rts_cm4f_start_trigger. apply wp_bind, wp_modify, wp_bind, wp_modify.
  match goal with |- wp _ _ ?x => set (m1 := x) end.
  set (words := [reg m 0; reg m 1; reg m 2; reg m 3; reg m 12; reg m LR; reg m PC; stacked_xpsr (reg m XPSR) (cx_msp m)]).
  assert (cx_kernel m1 = store_words (entry_frame (cx_msp m)) words (cx_kernel m)) as Ek1 by reflexivity.
  destruct (store_words_frame (entry_frame (cx_msp m)) words (cx_kernel m)) as [mem Ef].
  apply (svc_handler_spec m m1 (cx_kernel m) t); try reflexivity.
  - rewrite Ek1, Ef. by apply start_ready_memory.
  - exact Htick.
  - exists mem. by rewrite Ek1, Ef.
  - apply Hr.
  - intros pushed i Hlen Hi. rewrite Ek1. change (cx_msp m1) with (entry_frame (cx_msp m)). by apply svc_words.
Qed.
End start.
