(* ===== verification/Scenario.v ===== *)
(** * Whole-kernel runs

    Concrete runs of the modelled kernel on the tests' fixed-priority
    configuration, from reset through rts_init, task creation and rts_start to
    ticks and context switches, as the host tests drive it.  The first runs
    check the composition of the components; the last ones exhibit behaviour
    that contradicts what the code or its documentation promises. *)

From S2P Require Import Prelude Machine Config Types Links IntrusiveList KernelLists Time ReadyQueue.
From S2P Require Import DelayQueue HostPort Ring Diagnostics TaskPool Policy PolicySpec WaitObject.
From S2P Require Import Scheduler SwitchSpec TaskApi Semaphore Inheritance Mutex CallbackQueue TimerQueue.
From S2P Require Import Timer KernelTime Power Init InvariantCheck.

Section runs.
#[local] Existing Instance fp_config.

Definition example_layout : Layout :=
  {| addr_idle_stack := 4096; addr_timer_service_stack := 8192; addr_idle_entry := 100;
     addr_timer_service_entry := 200; addr_return_trap := 300 |}.
#[local] Existing Instance example_layout.

(** A task of priority [p] with its stack at [low]. *)
Definition example_task (p low : Z) : option rts_task_config :=
  Some (mk_task_config 400 0 low 512 p 0 0 0).
Definition example_timer (period mode : Z) : option rts_timer_config :=
  Some (mk_timer_config period 500 0 mode).

(** One context switch by the port: acquire the plan, complete it. *)
Definition port_switch : K bool :=
  let* snapshot := rts_scheduler_switch_acquire in
  match snapshot with
  | None => ret false
  | Some snapshot => rts_scheduler_switch_complete snapshot ;;; ret true
  end.

(** The tick interrupt. *)
Definition tick (elapsed : Z) : K bool :=
  modify (upd_port (λ p, p <| host_in_isr := true |>)) ;;;
  let* switch := rts_kernel_tick_advance elapsed in
  modify (upd_port (λ p, p <| host_in_isr := false |>)) ;;;
  ret switch.

Definition states (s : kernel) : list rts_task_state_t :=
  map (λ t, state (task s t)) [TApp 0; TApp 1; TIdle; TTimerService].

(** What a run from reset ends with. *)
Definition outcome_of {A B} (m : K A) (view : A → kernel → B) : option B :=
  match m zero_kernel with Done a s => Some (view a s) | _ => None end.

Definition boot (p0 p1 : Z) : K (list rts_status_t) :=
  let* a := rts_init in
  let* b := rts_task_create (example_task p0 16384) in
  let* c := rts_task_create (example_task p1 20480) in
  ret [a; b.1; c.1].

(** Boot, sleep five ticks, run the other task meanwhile, wake up on time. *)
Definition run_delay : K (rts_status_t * list bool) :=
  boot 3 5 ;;; rts_start ;;;
  let* status := rts_task_delay 5 in
  let* s1 := port_switch in
  let* t1 := tick 4 in
  let* t2 := tick 1 in
  let* s2 := port_switch in
  ret (status, [s1; t1; t2; s2]).

Example delay_wakes_on_time :
  outcome_of run_delay (λ r s, (r, k_current_task s, k_current_tick s, states s)) =
  Some ((RTS_STATUS_OK, [true; false; true; true]), Some (TApp 1), 5,
        [RTS_TASK_STATE_READY; RTS_TASK_STATE_RUNNING; RTS_TASK_STATE_READY; RTS_TASK_STATE_BLOCKED]).
Proof. vm_compute. reflexivity. Qed.

(** The kernel's own check accepts the store at reset, after boot, while the
    delayed task sleeps, and before and after each of its context switches. *)
Definition run_checked : K (list bool) :=
  let* c0 := rts_kernel_validate_all in
  boot 3 5 ;;;
  let* c1 := rts_kernel_validate_all in
  rts_start ;;;
  let* c2 := rts_kernel_validate_all in
  rts_task_delay 5 ;;;
  let* c3 := rts_kernel_validate_all in
  port_switch ;;;
  let* c4 := rts_kernel_validate_all in
  tick 5 ;;;
  let* c5 := rts_kernel_validate_all in
  port_switch ;;;
  let* c6 := rts_kernel_validate_all in
  ret [c0; c1; c2; c3; c4; c5; c6].

Example kernel_validates_itself : outcome_of run_checked (λ r _, r) = Some (repeat true 7).
Proof. vm_compute. reflexivity. Qed.

(** A task of priority 5 blocks on the mutex of a task of priority 3: the
    owner runs at 5 until it unlocks, then the mutex changes hands. *)
Definition run_inheritance : K (list rts_status_t * list Z * option task_ptr) :=
  boot 3 5 ;;; rts_start ;;;
  let* i := rts_mutex_init (Some 0) in
  rts_task_delay 5 ;;; port_switch ;;;
  let* a := rts_mutex_lock (Some 0) 0 in
  tick 5 ;;; port_switch ;;;
  let* b := rts_mutex_lock (Some 0) RTS_WAIT_FOREVER in
  port_switch ;;;
  let* p1 := gets (λ s, priority (task s (TApp 0))) in
  let* c := rts_mutex_unlock (Some 0) in
  port_switch ;;;
  let* d := rts_mutex_wait_result_consume (Some (TApp 1)) in
  let* p2 := gets (λ s, priority (task s (TApp 0))) in
  let* owner := gets (λ s, mtx_owner (mutex s 0)) in
  ret ([i; a; b; c; d], [p1; p2], owner).

Example owner_inherits_and_hands_over :
  outcome_of run_inheritance (λ r s, (r, k_current_task s)) =
  Some (([RTS_STATUS_OK; RTS_STATUS_OK; RTS_STATUS_OK; RTS_STATUS_OK; RTS_STATUS_OK], [5; 3], Some (TApp 1)),
        Some (TApp 1)).
Proof. vm_compute. reflexivity. Qed.

(** ** A running callback is suspended by an unrelated rts_timer_stop

    The service task (priority 63) starts the callback of timer 0; the ring
    is then empty.  A tick wakes task 0 (priority 64), which preempts the
    callback and stops timer 1.  rts_timer_invalidate_pending finds the ring
    empty and calls rts_scheduler_timer_service_cancel_wake, which takes every READY service
    task for one that was woken and has not started: it blocks the service in
    the middle of the callback.  When task 0 sleeps again, task 1 (priority
    5) runs although the callback is unfinished. *)

(** The store when the service calls the callback. *)
Definition at_callback (s : kernel) : kernel :=
  match rts_timer_service_process_one (λ _ _ s, Fatal RTS_FATAL_ASSERTION s) s with
  | Fatal _ s' => s'
  | _ => s
  end.

Definition run_cancel : K (list (rts_task_state_t * rts_wait_reason_t) * rts_status_t) :=
  let service := gets (λ s, (state (task s TTimerService), wait_reason (wait (task s TTimerService)))) in
  boot 64 5 ;;;
  rts_timer_init (example_timer 2 RTS_TIMER_ONE_SHOT) ;;;
  rts_timer_init (example_timer 100 RTS_TIMER_ONE_SHOT) ;;;
  rts_start ;;;
  rts_timer_start (Some 0) ;;; rts_timer_start (Some 1) ;;;
  rts_task_delay 3 ;;; port_switch ;;;
  tick 2 ;;; port_switch ;;;
  let* running := service in
  modify at_callback ;;;
  tick 1 ;;; port_switch ;;;
  let* preempted := service in
  let* status := rts_timer_stop (Some 1) in
  let* suspended := service in
  rts_task_delay 50 ;;; port_switch ;;;
  ret ([running; preempted; suspended], status).

(** A running timer callback can be suspended by a stop of another timer:
    in the run above the service task is RUNNING when it calls the callback,
    READY after the preemption, and BLOCKED, waiting for work, after task 0
    stopped timer 1; the callback is still RUNNING when the task of priority 5
    gets the processor. *)
Theorem timer_stop_suspends_running_callback :
  outcome_of run_cancel (λ r s, (r, tm_callback_state (timer s 0), k_current_task s)) =
  Some (([(RTS_TASK_STATE_RUNNING, RTS_WAIT_NONE); (RTS_TASK_STATE_READY, RTS_WAIT_NONE);
          (RTS_TASK_STATE_BLOCKED, RTS_WAIT_TIMER_SERVICE)], RTS_STATUS_OK),
        RTS_TIMER_CALLBACK_RUNNING, Some (TApp 1)).
Proof. vm_compute. reflexivity. Qed.

(** ** The check refuses a preempted callback

    rts_scheduler_validate_internal takes a READY service task for one that has
    work in the ring.  A service task that was preempted in its last callback
    is READY with an empty ring. *)
Definition run_preempted : K (list bool) :=
  boot 64 5 ;;;
  rts_timer_init (example_timer 2 RTS_TIMER_ONE_SHOT) ;;;
  rts_start ;;;
  rts_timer_start (Some 0) ;;;
  rts_task_delay 3 ;;; port_switch ;;;
  tick 2 ;;;
  let* woken := rts_kernel_validate_all in
  port_switch ;;;
  modify at_callback ;;;
  let* running := rts_kernel_validate_all in
  tick 1 ;;; port_switch ;;;
  let* preempted := rts_kernel_validate_all in
  ret [woken; running; preempted].

(** The consistency check has a false alarm: rts_kernel_validate_all accepts
    the store when the service task is woken and while it runs the callback,
    and refuses it after a task of higher priority preempted the callback,
    although the run is one the kernel allows: the service is READY, waits for
    nothing and is in the ready queue. *)
Theorem preempted_callback_fails_validation :
  outcome_of run_preempted (λ r s, (r, state (task s TTimerService), wait_reason (wait (task s TTimerService)),
    ready_queue s 63, k_current_task s)) =
  Some ([true; true; false], RTS_TASK_STATE_READY, RTS_WAIT_NONE, [TTimerService], Some (TApp 0)).
Proof. vm_compute. reflexivity. Qed.

(** ** An expired timer stays behind a re-armed one after a long advance

    A periodic timer of 1.5 * 2^30 ticks and a one-shot timer that expires ten
    ticks after it are both due when the clock advances by 2^31 - 1 ticks, the
    most rts_kernel_tick_advance accepts.  The periodic timer is processed
    first; two periods are skipped, so it is re-armed more than half the range
    after the deadline of the other timer, the insertion takes it for the
    earlier one, and the loop stops at it: the one-shot timer is still armed,
    without a callback, although its deadline has passed. *)
Definition run_long : K bool :=
  boot 3 5 ;;;
  rts_timer_init (example_timer 1610612736 RTS_TIMER_PERIODIC) ;;;
  rts_timer_init (example_timer 20 RTS_TIMER_ONE_SHOT) ;;;
  rts_start ;;;
  rts_timer_start (Some 0) ;;;
  tick (1610612736 - 10) ;;;
  rts_timer_start (Some 1) ;;;
  tick 2147483647.

(** After the advance above the periodic timer 0 is queued in front of the
    one-shot timer 1, whose deadline has been reached and whose callback was
    not made pending. *)
Theorem long_advance_leaves_expired_timer :
  outcome_of run_long (λ _ s, (timer_list s, rts_tick_reached (k_current_tick s) (expiration s 1),
    tm_callback_state (timer s 1))) =
  Some ([0; 1], true, RTS_TIMER_CALLBACK_IDLE).
Proof. vm_compute. reflexivity. Qed.

(** ** The timer service is woken before it has left the processor

    rts_timer_service_entry blocks the service task and requests a switch, which
    the port performs later.  rts_tick_wake_task keeps a task it wakes in that
    window RUNNING; rts_scheduler_timer_service_wake makes the service READY in
    every case.  Timer 0 is due after two ticks and timer 1 after three; the
    third tick arrives before or after the switch away from the service. *)
Definition run_service (switched : bool) : K unit :=
  boot 3 5 ;;;
  rts_timer_init (example_timer 2 RTS_TIMER_ONE_SHOT) ;;;
  rts_timer_init (example_timer 3 RTS_TIMER_ONE_SHOT) ;;;
  rts_start ;;;
  rts_timer_start (Some 0) ;;;
  rts_timer_start (Some 1) ;;;
  tick 2 ;;; port_switch ;;;
  rts_timer_service_entry (λ _ _, ret tt) 10 ;;;
  (if switched then port_switch ;;; ret tt else ret tt) ;;;
  tick 1 ;;; ret tt.

(** A tick that expires a timer after the service task has blocked itself and
    before the port has switched away from it stops the kernel: the service is
    made READY while it is the current task, and the switch preparation of the
    same tick fails its assertion.  The same run, with the switch performed
    before the tick, goes on, and the service is READY with one callback to
    run. *)
Theorem service_woken_before_switch_is_fatal :
  match run_service false zero_kernel with
  | Fatal r s => Some (r, k_current_task s, state (task s TTimerService))
  | _ => None
  end = Some (RTS_FATAL_ASSERTION, Some TTimerService, RTS_TASK_STATE_READY) ∧
  outcome_of (run_service true) (λ _ s, (k_current_task s, state (task s TTimerService), cq_count (k_callback_queue s))) =
  Some (Some (TApp 1), RTS_TASK_STATE_READY, 1).
Proof. split; vm_compute; reflexivity. Qed.
End runs.
