(* ===== verification/RunCheck.v ===== *)
(** * The invariant along runs

    The stores that boot, blocking calls and context switches produce satisfy
    the invariants [kernel_ok] and [system_ok] the specifications of the calls
    start from: they are evaluated on the stores themselves. *)

From S2P Require Import Prelude Machine Config Types Links IntrusiveList KernelLists Time ReadyQueue.
From S2P Require Import DelayQueue HostPort Ring Diagnostics TaskPool Policy PolicySpec WaitObject.
From S2P Require Import Scheduler SwitchSpec KernelSpec StoreCheck TaskApi TaskApiSpec Blocking Semaphore SemaphoreSpec.
From S2P Require Import Inheritance Mutex MutexSpec SystemSpec SystemCheck MutexCalls MutexRelease Timer KernelTime.
From S2P Require Import TickSpec Init Scenario.

Section checked.
#[local] Existing Instance fp_config.
#[local] Existing Instance example_layout.

(** The started kernel, with an empty semaphore: [TApp 1] runs, [TApp 0] is
    ready. *)
Definition started : kernel := final_store (boot 3 5 ;;; rts_start ;;; rts_semaphore_init (Some 0) 0 2) zero_kernel.
(** [TApp 1] waits for the semaphore, at most ten ticks, and [TApp 0] runs. *)
Definition waiting_store : kernel := final_store (rts_semaphore_take (Some 0) 10 ;;; port_switch) started.

Lemma started_ok : kernel_ok started.
Proof. check_kernel. Qed.

Lemma waiting_store_ok : kernel_ok waiting_store.
Proof. check_kernel. Qed.

Lemma caller_ok_intro s :
  host_in_isr (k_port s) = false → host_critical_depth (k_port s) = 0 → host_switch_request_count (k_port s) < SIZE_MAX →
  caller_ok s.
Proof. intros Hi Hd Hc. split; [done|rewrite Hd; unfold RTS_HOST_CRITICAL_NESTING_MAX; lia|done]. Qed.

Lemma started_caller : caller_ok started.
Proof. apply caller_ok_intro; vm_compute; reflexivity. Qed.

Lemma waiting_store_caller : caller_ok waiting_store.
Proof. apply caller_ok_intro; vm_compute; reflexivity. Qed.

Lemma started_semaphore : semaphore_ok started 0.
Proof.
  split; [vm_compute; reflexivity|vm_compute; reflexivity|vm_compute; repeat split; discriminate
    |vm_compute; repeat split; discriminate|].
  intros _. vm_compute. reflexivity.
Qed.

Lemma waiting_semaphore : semaphore_ok waiting_store 0.
Proof.
  split; [vm_compute; reflexivity|vm_compute; reflexivity|vm_compute; repeat split; discriminate
    |vm_compute; repeat split; discriminate|].
  intros _. vm_compute. reflexivity.
Qed.

Lemma task_delay_blocks_caller_witness :
  ∃ st, st = RTS_STATUS_OK ∧
    same_nesting started (final_store (rts_task_delay 5) started) ∧
    delayed_call started (final_store (rts_task_delay 5) started) (TApp 1) 5.
Proof.
  apply (wp_final (rts_task_delay 5) (λ st s', st = RTS_STATUS_OK ∧ same_nesting started s' ∧
    delayed_call started s' (TApp 1) 5)), task_delay_blocks_caller;
    [exact started_ok|exact started_caller|vm_compute; reflexivity|vm_compute; reflexivity|apply app_in_range; lia
    |vm_compute; reflexivity|vm_compute; reflexivity|].
  unfold RTS_DELAY_MAX. vm_compute. split; [reflexivity|discriminate].
Defined.

(** [TApp 0] gives the unit [TApp 1] waits for. *)
Lemma semaphore_give_correct_witness :
  waiting waiting_store (SSemaphore 0) = [TApp 1] ∧
  ∃ st, same_nesting waiting_store (final_store (rts_semaphore_give (Some 0)) waiting_store) ∧
    given waiting_store (final_store (rts_semaphore_give (Some 0)) waiting_store) 0 st.
Proof.
  split; [vm_compute; reflexivity|].
  apply (wp_final _ (λ st s', same_nesting waiting_store s' ∧ given waiting_store s' 0 st)), semaphore_give_correct;
    [exact waiting_store_ok|exact waiting_store_caller|exact waiting_semaphore].
Defined.

Lemma semaphore_take_correct_witness :
  ∃ st, same_nesting started (final_store (rts_semaphore_take (Some 0) 10) started) ∧
    taken started (final_store (rts_semaphore_take (Some 0) 10) started) (TApp 1) 0 10 st.
Proof.
  apply (wp_final _ (λ st s', same_nesting started s' ∧ taken started s' (TApp 1) 0 10 st)), semaphore_take_correct;
    [exact started_ok|exact started_caller|exact started_semaphore|vm_compute; reflexivity|vm_compute; reflexivity
    |apply app_in_range; lia|vm_compute; reflexivity|vm_compute; reflexivity|].
  left. vm_compute. split; discriminate.
Defined.

(** [TApp 0], of priority 3, owns the mutex and [TApp 1], of priority 5, runs. *)
Definition owned_store : kernel :=
  final_store (boot 3 5 ;;; rts_start ;;; rts_mutex_init (Some 0) ;;; rts_task_delay 5 ;;; port_switch ;;;
    rts_mutex_lock (Some 0) 0 ;;; tick 5 ;;; port_switch) zero_kernel.
(** [TApp 1] waits for the mutex, at most ten ticks; [TApp 0] runs at priority 5. *)
Definition contended_store : kernel := final_store (rts_mutex_lock (Some 0) 10 ;;; port_switch) owned_store.

Lemma owned_store_ok : system_ok owned_store.
Proof. check_system. Qed.

Lemma contended_store_ok : system_ok contended_store.
Proof. check_system. Qed.

Lemma chain_unblocked s t l : blocker s t = None → wait_chain s t l → l = [t].
Proof. intros Hb Hc. inversion Hc as [? _|? ? ? Hx]; [done|congruence]. Qed.

(** The owner runs: it waits for nobody. *)
Lemma owned_store_no_deadlock : ¬ deadlocks owned_store (TApp 1) 0 10.
Proof.
  intros (_&o&l&Ho&Hl&Hin). assert (mtx_owner (mutex owned_store 0) = Some (TApp 0)) as E by (vm_compute; reflexivity).
  assert (o = TApp 0) as -> by congruence. apply chain_unblocked in Hl as ->; [|vm_compute; reflexivity].
  apply list_elem_of_singleton in Hin. discriminate Hin.
Qed.

Lemma owned_store_caller : caller_ok owned_store.
Proof. apply caller_ok_intro; vm_compute; reflexivity. Qed.

Lemma owned_store_mutex : mutex_ok owned_store 0.
Proof. split; vm_compute; reflexivity. Qed.

(** [TApp 1] owns the mutex 1 and waits for the mutex 0, which [TApp 0] owns;
    [TApp 0] runs and is about to lock the mutex 1. *)
Definition crossed_store : kernel :=
  final_store (boot 3 5 ;;; rts_start ;;; rts_mutex_init (Some 0) ;;; rts_mutex_init (Some 1) ;;;
    rts_task_delay 5 ;;; port_switch ;;; rts_mutex_lock (Some 0) 0 ;;; tick 5 ;;; port_switch ;;;
    rts_mutex_lock (Some 1) 0 ;;; rts_mutex_lock (Some 0) 10 ;;; port_switch) zero_kernel.

Lemma crossed_store_ok : system_ok crossed_store.
Proof. check_system. Qed.

Lemma crossed_store_caller : caller_ok crossed_store.
Proof. apply caller_ok_intro; vm_compute; reflexivity. Qed.

Lemma crossed_store_mutex : mutex_ok crossed_store 1.
Proof. split; vm_compute; reflexivity. Qed.

Lemma crossed_store_deadlock : deadlocks crossed_store (TApp 0) 1 10.
Proof.
  split; [vm_compute; reflexivity|]. exists (TApp 1), [TApp 1; TApp 0].
  split; [vm_compute; reflexivity|]. split; [|by right; left].
  apply (chain_step _ _ (TApp 0)); [vm_compute; reflexivity| |by rewrite list_elem_of_singleton].
  apply chain_end. vm_compute. reflexivity.
Qed.


(** [TApp 0] hands the mutex to [TApp 1]. *)
Lemma mutex_unlock_correct_witness :
  waiting contended_store (SMutex 0) = [TApp 1] ∧
  ∃ st, same_nesting contended_store (final_store (rts_mutex_unlock (Some 0)) contended_store) ∧
    unlocked contended_store (final_store (rts_mutex_unlock (Some 0)) contended_store) (TApp 0) 0 st.
Proof.
  split; [vm_compute; reflexivity|].
  apply (wp_final _ (λ st s', same_nesting contended_store s' ∧ unlocked contended_store s' (TApp 0) 0 st)), mutex_unlock_correct;
    [exact contended_store_ok|apply caller_ok_intro; vm_compute; reflexivity|split; vm_compute; reflexivity
    |vm_compute; reflexivity|vm_compute; reflexivity].
Defined.

(** Ten ticks later [TApp 1] gave up. *)
Lemma tick_wakes_due_tasks_witness :
  due (later 10 contended_store) (TApp 1) = true ∧
  let loop := rts_kernel_wake_loop false false (Z.to_nat (l_count (klist (later 10 contended_store) LDelay) + 1)) in
  ∃ r, r = Some (existsb (due (later 10 contended_store)) (delay_list contended_store),
                 match k_current_task contended_store with Some c => due (later 10 contended_store) c | None => false end) ∧
    system_ok (final_store loop (later 10 contended_store)) ∧
    wakes (since := k_current_tick contended_store) (later 10 contended_store) (final_store loop (later 10 contended_store)) ∧
    ∀ t, due (later 10 contended_store) t = true ↔
      t ∈ delay_list contended_store ∧ wake_in (k_current_tick contended_store) contended_store t ≤ 10.
Proof.
  split; [vm_compute; reflexivity|].
  apply (wp_final _ (λ r s', r = Some (existsb (due (later 10 contended_store)) (delay_list contended_store),
      match k_current_task contended_store with Some c => due (later 10 contended_store) c | None => false end) ∧
    system_ok s' ∧ wakes (since := k_current_tick contended_store) (later 10 contended_store) s' ∧
    ∀ t, due (later 10 contended_store) t = true ↔
      t ∈ delay_list contended_store ∧ wake_in (k_current_tick contended_store) contended_store t ≤ 10)), tick_wakes_due_tasks;
    [exact contended_store_ok|vm_compute; split; [discriminate|reflexivity]|vm_compute; split; [discriminate|reflexivity]].
Defined.
End checked.
