(* ===== verification/TimerCheck.v ===== *)
(** * Deciding the invariant of the timers on a concrete store

    [timed_ok] of a closed store, by evaluation, and the stores on which the
    specifications of timers and of the tick are applied. *)

From S2P Require Import Prelude Machine Config Types Links IntrusiveList KernelLists Time ReadyQueue.
From S2P Require Import DelayQueue HostPort Ring Diagnostics TaskPool Policy PolicySpec WaitObject Scheduler.
From S2P Require Import SwitchSpec KernelSpec StoreCheck TaskApi TaskApiSpec Blocking Semaphore Inheritance Mutex.
From S2P Require Import MutexSpec SystemSpec SystemCheck MutexCalls CallbackQueue TimerQueue Timer KernelTime TickSpec.
From S2P Require Import TimerManager TimerValidate ServiceWake TimerSteps ServiceRest TimerExpiry TimeSlice TickAdvance TimerCalls.
From S2P Require Import TimerService Init Scenario RunCheck.

Section timer_check.
Context `{ConfigOk} `{!BitmapPolicy}.

Definition manager_check (base : Z) (s : kernel) : Prop :=
  let q := k_callback_queue s in
  (Forall (λ i, is_u32 (expiration s i) ∧ expires_in base s i < RTS_TICK_HALF_RANGE) (timer_list s) ∧
   StronglySorted (λ a b, expires_in base s a ≤ expires_in base s b) (timer_list s)) ∧
  (0 ≤ cq_head q < RTS_TIMER_CALLBACK_QUEUE_CAPACITY ∧ 0 ≤ cq_count q ≤ RTS_TIMER_CALLBACK_QUEUE_CAPACITY ∧
   cq_tail q = (cq_head q + cq_count q) mod RTS_TIMER_CALLBACK_QUEUE_CAPACITY ∧
   cq_count q ≤ cq_maximum_depth q ≤ RTS_TIMER_CALLBACK_QUEUE_CAPACITY ∧
   Forall (λ w, work_timer w ≠ None) (cq_list s)) ∧
  Forall (λ i, 0 ≤ tm_period (timer s i)) (elements (dom (k_timers s) : gset Z)) ∧
  k_timer_next_free_hint s < RTS_MAX_TIMERS ∧
  Forall (λ w, callback_work_is_owned s w = true) (cq_list s) ∧
  Forall (λ i, match timer_slot_check s i with None => false | Some _ => true end = true) (seqZ 0 RTS_MAX_TIMERS) ∧
  Z.of_nat (length (filter (λ i, timer_slot_check s i = Some true) (seqZ 0 RTS_MAX_TIMERS))) = k_timer_allocated_count s.

Lemma manager_check_ok base s : lists_ok (k_heap s) → manager_check base s → manager_ok base s.
Proof.
  intros Hl ([Ht Hs]&(H1'&H2'&H3'&H4'&H5')&Hp&Hh&Hw&Hc&Hn).
  rewrite Forall_forall in Ht, Hp, Hc. rewrite Forall_forall in H5', Hw.
  apply manager_ok_checked; try done.
  - split; [done|intros i Hi; by apply Ht..|done].
  - intros i. destruct (decide (i ∈ elements (dom (k_timers s) : gset Z))) as [Hi|Hi]; [by apply Hp|].
    unfold timer. by rewrite not_in_map.
  - intros w Hin%list_elem_of_In. by apply Hw.
  - intros i Hin%list_elem_of_In. by apply Hc.
Qed.

#[export] Instance manager_check_dec base s : Decision (manager_check base s).
Proof. unfold manager_check, is_u32. cbv zeta. decide_nest. Defined.

(** The typing of the timers, by evaluation. *)
Definition object_is_task (x : rts_list_node) : bool := match n_object x with Some (OTask _) => true | _ => false end.

Definition typed_check (s : kernel) : Prop :=
  Forall (λ n, n_owner (node s n) = Some LTimer → object_is_task (node s n) = false) (heap_nodes (k_heap s)) ∧
  0 ≤ cq_head (k_callback_queue s) ∧ 0 ≤ cq_count (k_callback_queue s) ∧
  Forall (λ i, 0 ≤ tm_period (timer s i)) (elements (dom (k_timers s) : gset Z)).

Lemma typed_check_ok s : typed_check s → manager_typed s.
Proof.
  intros (Hn&Hh&Hc&Hp). rewrite Forall_forall in Hn. rewrite Forall_forall in Hp. split; [|done..|].
  - intros n t Ho E. destruct (decide (n ∈ heap_nodes (k_heap s))) as [Hin|Hni].
    + specialize (Hn n Hin Ho). unfold object_is_task in Hn. by rewrite E in Hn.
    + unfold node, hnode in Ho. by rewrite not_in_map in Ho.
  - intros i. destruct (decide (i ∈ elements (dom (k_timers s) : gset Z))) as [Hi|Hi]; [by apply Hp|].
    unfold timer. by rewrite not_in_map.
Qed.

#[export] Instance typed_check_dec s : Decision (typed_check s).
Proof. unfold typed_check. apply _. Defined.

Definition timed_check (s : kernel) : Prop :=
  system_check s ∧ manager_check (u32 (k_current_tick s + 1)) s ∧
  (task_has_context (task s TTimerService) = true ∧ 0 < base_priority (task s TTimerService)) ∧
  (cq_list s = [] ∨ parked s = false).

Lemma timed_check_ok s : timed_check s → timed_ok s.
Proof.
  intros (Hsy&Hm&Hb&Ha). pose proof (system_check_ok s Hsy) as Hok. split; [done| |done|by intros; destruct Ha].
  apply manager_check_ok; [|done]. apply (ro_lists _ (ko_ready s (sy_kernel s Hok))).
Qed.

#[export] Instance timed_check_dec s : Decision (timed_check s).
Proof. unfold timed_check. apply _. Defined.
End timer_check.

(** Establish the invariant of a closed store by evaluation. *)
Ltac check_timed := apply timed_check_ok; refine (bool_decide_eq_true_1 _ _); vm_compute; reflexivity.

Ltac check_typed := apply typed_check_ok; refine (bool_decide_eq_true_1 _ _); vm_compute; reflexivity.

Section checked.
#[local] Existing Instance fp_config.
#[local] Existing Instance example_layout.

(** [TApp 1] sleeps for two ticks and [TApp 0] runs; timer 0 expires every two
    ticks, timer 1 once, after three. *)
Definition armed_store : kernel :=
  final_store (boot 3 5 ;;; rts_timer_init (example_timer 2 RTS_TIMER_PERIODIC) ;;;
    rts_timer_init (example_timer 3 RTS_TIMER_ONE_SHOT) ;;; rts_start ;;; rts_timer_start (Some 1) ;;;
    rts_timer_start (Some 0) ;;; rts_task_delay 2 ;;; port_switch) zero_kernel.

Lemma armed_store_ok : timed_ok armed_store.
Proof. check_timed. Qed.

(** The same store when the tick interrupt is entered. *)
Definition tick_entry : kernel := upd_port (λ p, p <| host_in_isr := true |>) armed_store.

Lemma tick_entry_ok : timed_ok tick_entry.
Proof. check_timed. Qed.

Lemma tick_entry_timers : timer_list tick_entry = [0; 1].
Proof. vm_compute. reflexivity. Qed.

Lemma checks_on : RTS_ENABLE_INVARIANT_CHECKS = true.
Proof. reflexivity. Qed.

Lemma armed_store_typed : manager_typed armed_store.
Proof. check_typed. Qed.

(** The same store after a stray write cut the active queue behind its head. *)
Definition cut_store : kernel := upd_node (NTimer 0) (λ n, n <| n_next := None |>) armed_store.

Lemma cut_store_typed : manager_typed cut_store.
Proof. check_typed. Qed.

Definition check_answer (o : outcome kernel bool) : bool := match o with Done r _ => r | _ => true end.

Lemma cut_store_refused : check_answer (rts_timer_manager_validate cut_store) = false.
Proof. vm_compute. reflexivity. Qed.

Lemma answer_run (m : K bool) s s' r : m s = Done r s' → check_answer (m s) = false → r = false.
Proof. by intros ->. Qed.

Lemma same_answer (m : K bool) s s1 s2 r1 r2 : m s = Done r1 s1 → m s = Done r2 s2 → r1 = r2.
Proof. congruence. Qed.

(** The check accepts the one and refuses the other. *)
Lemma timer_validate_exact_witness :
  (rts_timer_manager_validate armed_store = Done true armed_store ∧ manager_consistent armed_store) ∧
  rts_timer_manager_validate cut_store = Done false cut_store ∧ ¬ manager_consistent cut_store.
Proof.
  split.
  - destruct (timer_validate_exact armed_store checks_on armed_store_typed) as (r&Hr&Hiff).
    pose proof (rts_timer_manager_validate_run _ _ (td_manager _ armed_store_ok)) as Hrun.
    pose proof (same_answer _ _ _ _ _ _ Hrun Hr) as <-. split; [exact Hrun|exact (proj1 Hiff eq_refl)].
  - destruct (timer_validate_exact cut_store checks_on cut_store_typed) as (r&Hr&Hiff).
    pose proof (answer_run _ _ _ _ Hr cut_store_refused) as ->.
    split; [exact Hr|]. intros Hm. discriminate (proj2 Hiff Hm).
Defined.

(** Two ticks later the periodic timer is due and the other is not. *)
Lemma timer_expiry_terminates_witness :
  expired (u32 (k_current_tick tick_entry + 2)) tick_entry 0 = true ∧
  let loop := rts_timer_process_loop (u32 (k_current_tick tick_entry + 2)) false (Z.to_nat (RTS_MAX_TIMERS + 1)) in
  ∃ woken, expiries (since := k_current_tick tick_entry) (u32 (k_current_tick tick_entry + 1))
    (u32 (k_current_tick tick_entry + 2)) tick_entry (final_store loop tick_entry) woken.
Proof.
  split; [vm_compute; reflexivity|]. cbv zeta.
  apply (wp_final _ (λ woken s', expiries (since := k_current_tick tick_entry) (u32 (k_current_tick tick_entry + 1))
    (u32 (k_current_tick tick_entry + 2)) tick_entry s' woken)), timer_expiry_terminates;
    [vm_compute; split; discriminate|vm_compute; reflexivity|exact (td_system _ tick_entry_ok)|exact (td_manager _ tick_entry_ok)|vm_compute; split; [discriminate|reflexivity]
    |exact (td_service _ tick_entry_ok)|intros _; vm_compute; discriminate| |].
  - rewrite tick_entry_timers. apply Forall_forall. repeat constructor; vm_compute; reflexivity.
  - reflexivity.
Defined.

(** [TApp 1] wakes up and the callback of timer 0 is queued. *)
Lemma tick_advance_correct_witness :
  due (later 2 tick_entry) (TApp 1) = true ∧ plan_right tick_entry ∧
  ∃ notify, let s' := final_store (rts_kernel_tick_advance 2) tick_entry in
    ticked tick_entry s' 2 ∧ (plan_right tick_entry → plan_right s') ∧ same_nesting tick_entry s' ∧
    notify = plan_pending (k_switch_plan s') && negb (plan_pending (k_switch_plan tick_entry)).
Proof.
  split; [vm_compute; reflexivity|]. split; [exists (TApp 0), (TApp 0); split_and!; vm_compute; reflexivity|].
  apply (wp_final _ (λ notify s', ticked tick_entry s' 2 ∧ (plan_right tick_entry → plan_right s') ∧ same_nesting tick_entry s' ∧
    notify = plan_pending (k_switch_plan s') && negb (plan_pending (k_switch_plan tick_entry)))), tick_advance_correct;
    [exact tick_entry_ok|vm_compute; split; discriminate|vm_compute; split; [discriminate|reflexivity]|vm_compute; reflexivity
    |intros _; vm_compute; discriminate|].
  rewrite tick_entry_timers. apply Forall_forall. repeat constructor; vm_compute; discriminate.
Defined.

(** Two ticks later: the callback of timer 0 is pending and the service is
    ready, but the port has not switched yet. *)
Definition expired_store : kernel := final_store (tick 2) armed_store.

Lemma expired_store_ok : timed_ok expired_store.
Proof. check_timed. Qed.

Lemma expired_store_no_callback : ¬ callback_preempted expired_store.
Proof.
  intros (_&i&Hi&Hr). assert (Forall (λ i, tm_callback_state (timer expired_store i) ≠ RTS_TIMER_CALLBACK_RUNNING) all_timers) as Hall
    by (refine (bool_decide_eq_true_1 _ _); vm_compute; reflexivity).
  rewrite Forall_forall in Hall. by apply (Hall i Hi).
Qed.

(** Stopping timer 0 takes its work away and sends the service to rest. *)
Lemma timer_control_correct_witness :
  sends_to_rest Stop expired_store 0 = true ∧ refusal Stop expired_store (Some 0) = None ∧
  wp (timer_control Stop (Some 0)) (λ st s',
    st = RTS_STATUS_OK ∧ controlled Stop (TApp 0) 0 expired_store s') expired_store.
Proof.
  assert (refusal Stop expired_store (Some 0) = None) as Eref by (vm_compute; reflexivity).
  split; [vm_compute; reflexivity|]. split; [exact Eref|].
  eapply wp_mono; [apply (timer_control_correct Stop expired_store (TApp 0) (Some 0) expired_store_ok);
    [apply caller_ok_intro; vm_compute; reflexivity|vm_compute; reflexivity|vm_compute; reflexivity
    |intros _; exact expired_store_no_callback|intros [? _]; discriminate]|].
  intros st s' (_&Hcase&_). rewrite Eref in Hcase. destruct Hcase as (->&i&Ei&Hct). injection Ei as <-. split; [reflexivity|exact Hct].
Defined.

(** The service has the processor. *)
Definition serving_store : kernel := final_store port_switch expired_store.

Lemma serving_store_runs : service_runs serving_store.
Proof. split; [check_timed|apply caller_ok_intro; vm_compute; reflexivity|vm_compute; reflexivity..]. Qed.

(** The callback of the periodic timer 0 restarts its own timer. *)
Lemma timer_service_runs_callbacks_witness :
  length (cq_list serving_store) = 1%nat ∧
  ∃ s' ws s1, rts_timer_service_entry (λ _ _, timer_control Restart (Some 0) ;;; ret tt) 2 serving_store = Done tt s' ∧
    callbacks_run (control_called Restart (Some 0)) ws serving_store s1 ∧
    service_runs s1 ∧ cq_list s1 = [] ∧ service_sleeps s1 s'.
Proof.
  assert (length (cq_list serving_store) = 1%nat) as Hlen by (vm_compute; reflexivity). split; [exact Hlen|].
  destruct (timer_service_runs_callbacks _ _ serving_store 2 (control_contract Restart (Some 0)) serving_store_runs) as [Hcase Hends].
  destruct (Hends (control_adds_no_work Restart (Some 0))) as (s'&Hrun); [rewrite Hlen; lia|].
  rewrite Hrun in Hcase. destruct Hcase as (_&ws&s1&Hall&_&Hs1&Hring&Hsl).
  exists s', ws, s1. split; [exact Hrun|]. split; [exact Hall|]. split; [exact Hs1|]. split; [exact Hring|exact Hsl].
Defined.
End checked.
