(* ===== verification/BoardCheck.v ===== *)
(** * The board's configuration, and runs on it

    The guarantees of the Cortex-M4F port and of the S32K148 target, evaluated on
    the target's own configuration (targets/nxp/s32k148/config/rts_config.h):
    boot, a preemption by PendSV, the first task, a sleep. *)

From S2P Require Import Prelude Machine Config Types Links IntrusiveList KernelLists Time ReadyQueue.
From S2P Require Import DelayQueue HostPort Ring Diagnostics TaskPool Policy PolicySpec WaitObject.
From S2P Require Import Scheduler SwitchSpec KernelSpec StoreCheck TaskApi TaskApiSpec Blocking Semaphore SemaphoreSpec.
From S2P Require Import Inheritance Mutex MutexSpec SystemSpec SystemCheck MutexCalls Dispatch Timer KernelTime Init Scenario.
From S2P Require Import Cortex CortexPort CortexSpec CortexFrame S32K148 CriticalPort TargetSpec CortexStart CortexStartSpec.

(** ** The configuration *)

Definition target_config : Config := {|
  RTS_MAX_TASKS := 10;
  RTS_MAX_TIMERS := 8;
  RTS_TIMER_SERVICE_PRIORITY := 11;
  RTS_TIMER_SERVICE_STACK_SIZE_BYTES := 768;
  RTS_TIMER_CALLBACK_QUEUE_CAPACITY := 8;
  RTS_PRIORITY_COUNT := 12;
  RTS_TICK_RATE_HZ := 1000;
  RTS_ENABLE_TICKLESS_IDLE := true;
  RTS_TICKLESS_MAX_SLEEP_TICKS := 60000;
  RTS_POLICY := RTS_POLICY_KIND_FIXED_PRIORITY;
  RTS_ENABLE_TIME_SLICING := true;
  RTS_TIME_SLICE_TICKS := 5;
  RTS_ENABLE_ASSERTIONS := true;
  RTS_ENABLE_DIAGNOSTICS := true;
  RTS_ENABLE_TRACE := true;
  RTS_ENABLE_STACK_GUARDS := true;
  RTS_ENABLE_STACK_WATERMARK := true;
  RTS_ENABLE_RUNTIME_STATS := true;
  RTS_ENABLE_INVARIANT_CHECKS := true;
  RTS_TRACE_CAPACITY := 64;
  RTS_STACK_GUARD_SIZE_BYTES := 16;
  RTS_IDLE_STACK_SIZE_BYTES := 512;
  RTS_MAX_MUTEXES_PER_TASK := 10;
  SIZE_MAX := 4294967295;
  UINTPTR_MAX := 4294967295
|}.

#[export] Instance target_config_ok : ConfigOk target_config.
Proof. split; cbn; unfold is_u32, UINT32_MAX; try lia; done. Qed.
#[export] Instance target_config_cortex : @CortexConfig target_config.
Proof. done. Qed.

Section board.
#[local] Existing Instance target_config.

#[local] Instance target_policy : @BitmapPolicy target_config.
Proof. done. Qed.

#[local] Instance board_layout : Layout :=
  {| addr_idle_stack := 4096; addr_timer_service_stack := 8192; addr_idle_entry := 101;
     addr_timer_service_entry := 201; addr_return_trap := 301 |}.

(** Task objects 256 bytes apart, with those of the private tasks between. *)
#[local] Instance board_cortex_layout : CortexLayout := {|
  addr_switch_handoff := 536870912;
  addr_tcb t := match t with TApp i => 536875008 + 256 * i | TIdle => 536871176 | TTimerService => 536871300 end;
  tcb_at a := if a =? 536871176 then Some TIdle else if a =? 536871300 then Some TTimerService else Some (TApp ((a - 536875008) / 256))
|}.
#[local] Instance board_cortex_layout_ok : CortexLayoutOk board_cortex_layout.
Proof.
  split; [split; [split; by vm_compute|done]|]. intros [i| |]; [|done..]. cbn [addr_tcb tcb_at board_cortex_layout].
  rewrite !(proj2 (Z.eqb_neq _ _)) by lia. do 2 f_equal. replace (536875008 + 256 * i - 536875008) with (i * 256) by lia.
  by apply Z.div_mul.
Qed.

(** The tasks' first frames, as the Cortex-M4F port builds them. *)
Definition cortex_frame (t : task_ptr) : K unit :=
  let* low := gets (λ s, stack_low (task s t)) in
  let* high := gets (λ s, stack_high (task s t)) in
  let* entry := gets (λ s, entry (task s t)) in
  let* frame := CortexPort.rts_port_stack_initialize low (high - low) entry 7 in
  modify (upd_task t (λ x, x <| saved_stack_pointer := frame.2 |>)).
Definition cortex_frames : K unit := for_each [TApp 0; TApp 1; TIdle; TTimerService] cortex_frame.

Definition board_task (p low : Z) : option rts_task_config := Some (mk_task_config 401 0 low 512 p 0 0 0).

(** [TApp 1], of priority 5, sleeps; [TApp 0] runs, and the tick that wakes
    [TApp 1] plans the switch. *)
Definition board_boot : K unit :=
  rts_init ;;; rts_task_create (board_task 3 16384) ;;; rts_task_create (board_task 5 20480) ;;; cortex_frames.
Definition preempted : kernel :=
  final_store (board_boot ;;; rts_start ;;; rts_task_delay 5 ;;; port_switch ;;; tick 5) zero_kernel.

Lemma preempted_ok : system_ok preempted.
Proof. check_system. Qed.

(** ** Machines *)

Definition zero_handoff : rts_cm4f_switch_handoff := mk_switch_handoff None None (mk_switch_snapshot None None 0) 0 0.
Definition zero_fault : rts_s32k148_fault_record :=
  mk_fault_record 0 0 0 0 0 0 0 0 0 0 0 0 0 0 0 0 0 0 0 0 0 RTS_FATAL_NONE 0 None.
(** The processor with the registers [regs] in a task at [psp]. *)
Definition board_machine (k : kernel) (regs : gmap Z Z) (psp : Z) (st : rts_s32k148_tick_state_t) : cortex :=
  mk_cortex k regs psp 536879104 0 false 0 true ∅ 0 zero_handoff (mk_start_handoff None 0 0 0) false 0 st 47999 false true
    (mk_timing_record 1 0 0) zero_fault.

(** What the task computed so far. *)
Definition some_registers : gmap Z Z := <[0 := 42]> (<[4 := 1234]> (<[PC := 1025]> (<[XPSR := 0x01000000]> ∅))).

Lemma some_registers_words k psp st r : is_u32 (reg (board_machine k some_registers psp st) r).
Proof.
  unfold reg, some_registers. cbn [cx_regs board_machine]. rewrite !lookup_total_insert_dec, lookup_total_empty.
  repeat case_decide; split; by vm_compute.
Qed.

Definition machine0 : cortex := board_machine preempted some_registers 16800 RTS_S32K148_TICK_RUNNING.

Ltac decided := vm_compute; first [reflexivity | discriminate | done | left; done | right; done].

(** Tests that only read are decided by their answers. *)
Definition answer (f : K bool) (s : kernel) : bool := match f s with Done b _ => b | _ => false end.

Lemma guard_answer t s :
  answer (rts_stack_guard_is_valid (Some t)) s = true → rts_stack_guard_is_valid (Some t) s = Done true s.
Proof.
  assert (∃ b, rts_stack_guard_is_valid (Some t) s = Done b s) as [b E].
  { unfold rts_stack_guard_is_valid. destruct (negb _); [by eexists|]. rewrite !bind_gets. destruct (_ || _); [by eexists|].
    eexists. by apply all_of_run. }
  unfold answer. rewrite E. by intros ->.
Qed.

Lemma sound_answer t s :
  answer (rts_stack_guard_is_valid (Some t)) s = true → answer (rts_stack_saved_sp_is_valid (Some t)) s = true → stack_sound s t.
Proof.
  intros Hg Hs. split; [by apply guard_answer|]. unfold answer, rts_stack_saved_sp_is_valid, gets in *. by rewrite Hs.
Qed.

Lemma machine0_interruptible : interruptible machine0 (TApp 0) (TApp 1).
Proof.
  split; [split; [exact preempted_ok|decided..]|split; decided| |apply some_registers_words|decided].
  split; [split; [decided|decided|decided|split; decided|decided]|decided|apply guard_answer; decided|apply sound_answer; decided
    |decided|decided|decided|decided|decided].
Qed.

(** [TApp 1] runs from its entry point, and sleeps again. *)
Definition machine1 : cortex := final_store (pendsv (λ r, r)) machine0.
Definition machine2 : cortex :=
  machine1 <| cx_kernel := final_store (rts_task_delay 5) (cx_kernel machine1) |> <| cx_regs := some_registers |>.

Example starts_at_entry : thread_context machine1 = initial_context 401 7 20992.
Proof. vm_compute. reflexivity. Qed.

Lemma machine2_ok : system_ok (cx_kernel machine2).
Proof. check_system. Qed.

Lemma machine2_interruptible : interruptible machine2 (TApp 1) (TApp 0).
Proof.
  split; [split; [exact machine2_ok|decided..]|split; decided| |apply (some_registers_words (cx_kernel machine2) 0 RTS_S32K148_TICK_RUNNING)|decided].
  split; [split; [decided|decided|decided|split; decided|decided]|decided|apply guard_answer; decided|apply sound_answer; decided
    |decided|decided|decided|decided|decided].
Qed.

Lemma machine2_stack :
  saved_stack_pointer (task (cx_kernel machine2) (TApp 0)) = saved_stack_pointer (task (cx_kernel machine1) (TApp 0)).
Proof. vm_compute. reflexivity. Qed.

Lemma machine2_words i :
  0 ≤ i < 16 → load_word (cx_kernel machine2) (saved_stack_pointer (task (cx_kernel machine1) (TApp 0)) + 4 * i) =
  load_word (cx_kernel machine1) (saved_stack_pointer (task (cx_kernel machine1) (TApp 0)) + 4 * i).
Proof. intros _. apply load_word_memory, (bool_decide_eq_true_1 _). vm_compute. reflexivity. Qed.

(** Back in [TApp 0]. *)
Definition machine3 : cortex := final_store (pendsv (λ r, r)) machine2.

Lemma final_at {S A} (m : M S A) Q s s' : s' = final_store m s → wp m Q s → ∃ a, Q a s'.
Proof. intros ->. apply wp_final. Qed.
Lemma machine1_run : machine1 = final_store (pendsv (λ r, r)) machine0.
Proof. reflexivity. Qed.
Lemma machine3_run : machine3 = final_store (pendsv (λ r, r)) machine2.
Proof. reflexivity. Qed.

Lemma pendsv_switches_context_witness :
  context_switched machine0 machine1 (TApp 0) (TApp 1) ∧
  thread_context machine3 = thread_context machine0.
Proof.
  destruct (final_at _ _ _ _ machine1_run (pendsv_switches_context (λ r, r) machine0 (TApp 0) (TApp 1) machine0_interruptible))
    as ([]&Hs&Hr).
  split; [exact Hs|]. destruct (final_at _ _ _ _ machine3_run (Hr machine2 (TApp 1) machine2_interruptible machine2_stack machine2_words)) as ([]&_&E).
  exact E.
Defined.

(** ** The target *)

(** A device whose registers hold what is written, with the masks of CMSIS. *)
#[local] Instance plain_device : Device := {|
  latch _ v _ := v;
  sample _ _ v := v;
  SysTick_CTRL_CLKSOURCE_Msk := 4;
  SysTick_CTRL_TICKINT_Msk := 2;
  SysTick_CTRL_ENABLE_Msk := 1;
  CONTROL_SPSEL_Msk := 2;
  CONTROL_FPCA_Msk := 4;
  SCB_CCR_STKALIGN_Msk := 512;
  SCB_CPACR_CP10_Msk := 3145728;
  SCB_CPACR_CP11_Msk := 12582912;
  FPU_FPCCR_ASPEN_Msk := 2147483648;
  FPU_FPCCR_LSPEN_Msk := 1073741824;
  SCB_ICSR_PENDSVCLR_Msk := 134217728;
  SCB_ICSR_NMIPENDSET_Msk := 2147483648;
  DWT_CTRL_CYCCNTENA_Msk := 1;
  CoreDebug_DEMCR_TRCENA_Msk := 16777216;
  PCC_PCCn_CGC_MASK := 1073741824;
  LPTMR_PSR_PCS v := v;
  LPTMR_PSR_PBYP_MASK := 4;
  LPTMR_CSR_TCF_MASK := 128;
  LPTMR_CSR_TIE_MASK := 64;
  LPTMR_CSR_TEN_MASK := 1;
  LPTMR0_IRQn := 58;
  addr_vectors := 0;
  g_pfnVectors i := 2 * i + 1;
  addr_SVC_Handler := 23;
  addr_PendSV_Handler := 29;
  addr_SysTick_Handler := 31;
  addr_LPTMR0_IRQHandler := 149
|}.

(** The started kernel, [TApp 1] being chosen. *)
Definition chosen : kernel := final_store (board_boot ;;; rts_start) zero_kernel.

Definition start_machine : cortex := board_machine chosen some_registers 0 RTS_S32K148_TICK_ARMED.

Lemma first_task_starts_witness :
  ∃ status, status = RTS_STATUS_OK ∧
    first_task_started start_machine (final_store (CortexStart.rts_port_start_first_task (λ r, r)) start_machine) (TApp 1).
Proof.
  apply (wp_final _ (λ status m', status = RTS_STATUS_OK ∧ first_task_started start_machine m' (TApp 1))), first_task_starts;
    [by intros n held|split; [decided|decided|decided|decided|decided|split; decided|split; decided]|decided|decided|decided|left; decided].
Defined.

(** Two nested sections on each port, from unmasked interrupts. *)
Lemma critical_sections_nest_witness :
  wp (nested_in HostPort.rts_port_critical_enter HostPort.rts_port_critical_exit 2 (ret tt))
     (λ _ s', host_critical_depth (k_port s') = 0 ∧ host_interrupts_masked (k_port s') = false) zero_kernel ∧
  wp (nested_in S32K148.rts_port_critical_enter S32K148.rts_port_critical_exit 2 (ret tt))
     (λ _ m', cx_critical_depth m' = 0 ∧ cx_primask m' = false) start_machine.
Proof.
  destruct (critical_sections_nest 1 (ret tt) (ret tt) (λ _, True) zero_kernel start_machine) as [Hhost Hboard];
    [vm_compute; discriminate|vm_compute; discriminate|intros s1 _ _; by apply wp_ret
    |vm_compute; discriminate|vm_compute; discriminate|intros m1 _ _; by apply wp_ret|].
  split.
  - eapply wp_mono; [exact Hhost|]. intros [] s' (_&_&Hd&Hm). split; [exact Hd|exact Hm].
  - eapply wp_mono; [exact Hboard|]. intros [] m' (_&Hd&Hm). split; [exact Hd|exact Hm].
Defined.

(** The tick of the board: 48 MHz, 1 kHz. *)
Example board_reload : rts_s32k148_tick_reload_calculate RTS_S32K148_CORE_CLOCK_HZ RTS_TICK_RATE_HZ = Some 47999.
Proof. reflexivity. Qed.

Lemma stack_initialize_correct_witness :
  ∃ k', CortexPort.rts_port_stack_initialize 16384 512 401 7 zero_kernel = Done (RTS_STATUS_OK, 16832) k' ∧
    saved_context k' 16832 = initial_context 401 7 16896.
Proof.
  assert (∀ v, 0 ≤ v ≤ 100000 → is_u32 v) as Hu by (intros v ?; unfold is_u32, UINT32_MAX; lia).
  pose proof (stack_initialize_correct 16384 512 401 7 zero_kernel (Hu 16384 ltac:(lia)) (Hu 512 ltac:(lia)) (Hu 401 ltac:(lia))
    (Hu 7 ltac:(lia)) (Hu 301 ltac:(lia)) eq_refl) as Hs.
  rewrite decide_True in Hs by (split_and!; [split_and!; vm_compute; congruence|done|done]).
  destruct Hs as (k'&E1&E2&_). by exists k'.
Defined.

(** Initialised, armed with interrupts masked, committed in SVC. *)
Definition tick0 : cortex := (board_machine chosen ∅ 0 RTS_S32K148_TICK_UNINITIALIZED) <| cx_tick_reload := 0 |> <| cx_primask := true |>.
Definition tick1 : cortex := final_store (rts_s32k148_tick_initialize RTS_S32K148_CORE_CLOCK_HZ 1000) tick0.
Definition tick2 : cortex := final_store S32K148.rts_port_tick_start tick1.
Definition tick3 : cortex := tick2 <| cx_ipsr := 11 |>.
Definition tick4 : cortex := final_store rts_port_tick_commit_start tick3.

Definition returns {A} (f : B A) (m : cortex) : bool := match f m with Done _ _ => true | _ => false end.
Lemma returns_final {A} (f : B A) m m' : m' = final_store f m → returns f m = true → ∃ a, f m = Done a m'.
Proof. intros ->. unfold returns, final_store. destruct (f m); [by eexists|done..]. Qed.

Lemma tick1_step : tick_step tick0 tick1.
Proof.
  assert (tick1 = final_store (rts_s32k148_tick_initialize RTS_S32K148_CORE_CLOCK_HZ 1000) tick0) as E by reflexivity.
  apply returns_final in E as [a E]; [|vm_compute; reflexivity]. refine (step_initialize _ _ _ _ _ _ _ E); by split.
Qed.
Lemma tick2_step : tick_step tick1 tick2.
Proof.
  assert (tick2 = final_store S32K148.rts_port_tick_start tick1) as E by reflexivity.
  apply returns_final in E as [a E]; [|vm_compute; reflexivity]. exact (step_use _ _ (use_start _ _ _ E)).
Qed.
Lemma tick3_step m : tick_step m (m <| cx_ipsr := 11 |>).
Proof. by apply step_use, use_other. Qed.
Lemma tick4_step : tick_step tick3 tick4.
Proof.
  assert (tick4 = final_store rts_port_tick_commit_start tick3) as E by reflexivity.
  apply returns_final in E as [a E]; [|vm_compute; reflexivity]. exact (step_use _ _ (use_commit _ _ _ E)).
Qed.

Lemma tick_steps : rtc tick_step tick0 tick4.
Proof.
  eapply rtc_l; [exact tick1_step|]. eapply rtc_l; [exact tick2_step|]. eapply rtc_l; [|exact (rtc_once _ _ tick4_step)].
  exact (tick3_step tick2).
Qed.

Lemma tick4_initialized : cx_tick_state tick4 ≠ RTS_S32K148_TICK_UNINITIALIZED.
Proof. vm_compute. discriminate. Qed.

Lemma tick_life_cycle_witness :
  (∃ clock rate, set_up tick0 tick4 clock rate ∧ exact_reload clock rate (cx_tick_reload tick4)) ∧
  ∃ m1 m2, rtc tick_step tick0 m1 ∧ cx_tick_state m1 = RTS_S32K148_TICK_ARMED ∧ rts_port_tick_commit_start m1 = Done true m2.
Proof.
  destruct (tick_life_cycle tick0 tick4 tick_steps eq_refl eq_refl) as [Hset Hrun].
  rewrite (decide_False _ _ tick4_initialized) in Hset. split; [exact Hset|].
  destruct (Hrun ltac:(vm_compute; reflexivity)) as (m1&m2&A1&A2&_&_&A3&_). exists m1, m2. by split_and!.
Defined.

(** The timer ends the sleep: its flag is set and its handler runs. *)
Definition timer_wakes : B unit := write_soc LPTMR0_CSR LPTMR_CSR_TCF_MASK ;;; LPTMR0_IRQHandler.
Definition idle_machine : cortex := (board_machine chosen some_registers 0 RTS_S32K148_TICK_RUNNING) <| cx_primask := true |>.

(** The timer ends one sleep of at most 250 ticks, another interrupt ends the
    second after 90. *)
Definition button_wakes : B unit := modify (λ m, m <| cx_soc := <[LPTMR0_CNR := 90]> (cx_soc m) |>).

Lemma timer_wakes_spec m1 : wp timer_wakes (λ _ m2, cx_lptmr_woke m2 = true) m1.
Proof.
  unfold timer_wakes, LPTMR0_IRQHandler. apply wp_bind, wp_modify, wp_bind, wp_read_soc. unfold soc. cbn.
  rewrite lookup_total_insert_eq. cbn. by apply wp_bind, wp_read_soc, wp_bind, wp_modify, wp_modify.
Qed.

Lemma power_sleep_bounded_witness :
  wp (S32K148.rts_port_power_sleep timer_wakes rts_s32k148_lptmr_count_read 250) (λ result m',
    result = (RTS_STATUS_OK, 250, RTS_PORT_WAKE_TIMER) ∧ cx_primask m' = true) idle_machine ∧
  wp (S32K148.rts_port_power_sleep button_wakes rts_s32k148_lptmr_count_read 250) (λ result m',
    ∃ elapsed, result = (RTS_STATUS_OK, elapsed, RTS_PORT_WAKE_EXTERNAL) ∧ elapsed ≤ 250 ∧ cx_primask m' = true) idle_machine.
Proof.
  split.
  - eapply wp_mono; [apply (power_sleep_bounded timer_wakes (λ _ m2, cx_lptmr_woke m2 = true) 250 idle_machine)|].
    + vm_compute. reflexivity.
    + intros m1 _ _. exact (timer_wakes_spec m1).
    + intros [[status elapsed] source] m' (->&Hp&_&m1&m2&_&_&_&Hw&Hrep&_). unfold sleep_reported in Hrep. rewrite Hw in Hrep.
      destruct Hrep as [-> ->]. split; [reflexivity|exact Hp].
  - eapply wp_mono; [apply (power_sleep_bounded button_wakes (λ _ m2, cx_lptmr_woke m2 = false) 250 idle_machine)|].
    + vm_compute. reflexivity.
    + intros m1 _ Hw. apply wp_modify. exact Hw.
    + intros [[status elapsed] source] m' (->&Hp&_&m1&m2&_&_&_&Hw&Hrep&Hle). unfold sleep_reported in Hrep. rewrite Hw in Hrep.
      destruct Hrep as [-> _]. exists elapsed. split; [reflexivity|]. split; [exact Hle|exact Hp].
Defined.
End board.
